(* ===== verification/_CoqProject ===== *)
-Q . S2P
Prelude.v
CbUtil.v
Timing.v
TimingTables.v
EdidTypes.v
EdidTiming.v
EdidList.v
EdidFormats.v
EdidCea.v
Edid.v
EdidExt.v
EdidFake.v
CoreUtil.v
ListHead.v
RingBuffer.v
Fence.v
VmId.v
ListRings.v
ListSafe.v
TaskQueue.v
TaskLists.v
Worker.v
WorkerSpec.v
PageTable.v
PageTree.v
PageAlloc.v
PageUpdate.v
PageLeaf.v
PageRelease.v
PageSpec.v
Task.v
TaskSubmit.v
TaskLife.v
TaskCore.v
TaskSteps.v
TaskSafe.v
TaskRefine.v
TaskSpec.v
I2cBus.v
I2C.v
I2cPins.v
I2cLines.v
I2cBytes.v
I2cSpec.v
EdidRead.v
EdidReadSpec.v
HwContext.v
HwContextSpec.v
PerfEvent.v
PerfRing.v
PerfSpec.v
EngineUsage.v
UsageSpec.v
Mode.v
ModeOrder.v
ModeSelect.v
ModeList.v
ModeSpec.v
ModeTiming.v
Path.v
PathSpec.v
DispMgr.v
DispSpec.v
