(* ===== verification/Prelude.v ===== *)
(** * cx4-kernel-dkms: a verification development

    The repository is a Linux driver for Zhaoxin graphics processors (the E3K
    generation). It has three layers: [src/cbios] is the display BIOS in C (it
    reads monitor descriptions, chooses modes and programs the display
    controller), [src/core] is the portable GPU driver (memory, scheduling of
    tasks onto the engines, synchronisation with the GPU), and [src/linux] is the
    glue to the kernel. This library models the parts of the first two whose
    correctness is a matter of their own logic and not of the hardware manual:
    of the display BIOS the EDID parser, the I2C master with the functions that
    read an EDID through it, the display modes made of an EDID, the paths of the devices and
    the check of a mode to set; of the driver the scheduling core, the life of its tasks, the
    page tables, the hardware contexts of its devices and its statistics for profiling tools.

    ** Conventions

    C code that can go wrong returns [res] (this file): an access outside an
    object, a null dereference, a division by zero, a failed assertion are values ([Err _]), so that
    a theorem rules them out or exhibits them. Integers are [Z], with the
    truncation to their width written where the code stores them ([u8], [u16],
    [u32], [u64], [sgn]). Arrays and buffers are lists, read and written with
    [rd] and [wr], which check the bounds; linked lists live in an explicit heap
    ([ListHead]). Loops whose bound the code computes are [for_up]; other loops
    are [iterate] with fuel, and every theorem about them says how much fuel is
    enough, so that running out of it ([Err OutOfFuel]) is excluded and not
    assumed away. [wp m Q] says that [m] does not fault and its result satisfies
    [Q]; [wp_go] and the lemmas behind it do the bookkeeping. Functions keep their
    names; a definition that is a part of a function (a loop body, a locked
    section) says so in its comment.

    ** The display BIOS: EDID

    - [CbUtil]: strings, checksums, bit scans, rounding, refresh rates of
      [Util/CBiosUtil.c], [Device/CBiosShare.c], [Device/CBiosDeviceShare.c].
    - [Timing], [TimingTables]: the timing generator (CVT, GTF) and the tables of
      CEA, HDMI and established timings.
    - [EdidTypes]: the structures of [Util/CBiosEDID.h], with the register-like
      description of bit fields the parser uses.
    - [EdidTiming]: the growing array of timings, detailed, standard and
      established timings. [EdidList]: the abstract list that array implements.
    - [EdidFormats]: the lookups of formats and refresh rates. The tolerance of a rate is
      a little more than the half percent the source states ([IsRefreshInCEARange_spec],
      [IsRefreshInCEARange_exact]).
    - [EdidCea]: the data blocks of a CEA-861 extension, HDMI, DisplayID.
    - [Edid]: [cbEDIDModule_ParseEDID], the validity checks, patches, monitor
      identifier. [EdidExt]: the theorems about the extension blocks.
    - [EdidFake]: the EDID made for a panel that has none.

    What is shown: the parser refuses every buffer without the header or with a wrong
    checksum, and no other ([ParseEDID_accepts]). It reads and writes only inside its
    buffers, whatever the allocator answers ([ParseEDID_safe]), on a valid EDID of at
    most eight blocks that satisfies [edid_wf]. This asks more than that the data blocks
    of an extension lie inside the buffer, because the code does not hold all that it
    reads against the length of the block: also the 3D formats that an HDMI vendor block
    announces, the registration identifier of a vendor block, the descriptors of an
    HDMI audio block, the fixed fields of the other blocks, and three bytes behind an
    InfoFrame block have to lie inside the buffer ([block_reach], and [attrib_fits] for
    the first walk, [did_fits] for DisplayID). Without it the parser leaves the buffer; the
    theorems named [..._fault] give valid EDIDs on which it does. Detailed
    timings are decoded as the standard lays them out ([ParseDtlTiming_spec],
    [did_timing_spec]) and a fake EDID is read back as the timing it was made of
    ([FakePanelEDID_roundtrip]). The array of timings, which is reallocated as it
    grows, implements a list ([AddDeviceTiming_appends], [AddSvdFormat_refines])
    with no code twice ([AddSvdFormat_vic_unique]). The allocator is a list of
    answers, so that every theorem holds for every pattern of failures.

    ** The display BIOS: I2C and reading EDIDs

    - [I2cBus]: the display registers of the ten buses and the environment: the pins, and
      a target that may hold the clock.
    - [I2C]: [Hw/HwUtil/CBiosI2C.c], each function from the lines up to a
      transfer. [I2cPins], [I2cLines]: what a pin and a line access does to the bus.
      [I2cBytes]: START, STOP, bits and bytes. [I2cSpec]: whole transfers, against an
      abstract target that answers bytes ([ReadData_spec], [WriteData_spec]), also
      when the target never releases the clock ([ReadData_gives_up]).
    - [EdidRead]: [cbGetFullEdid], [cbGetEdidBytes] and what they call, in
      [Device/CBiosDeviceShare.c] and [Hw/HwInterface/CBiosHwInterface.c].
      [EdidReadSpec]: the bytes a display holds are the bytes these return, through
      segments, extension counts and retries ([GetFullEdid_spec],
      [GetEdidBytes_spec], [edid_end_to_end]).

    The environment gives the target's bytes, its acknowledges and how many polls it
    stretches the clock; the driver waits for 4000 polls. The HDCP engine's registers and
    the reader over DisplayPort are parameters. The locks of the buses are not
    modelled: one transfer at a time.

    ** The display BIOS: modes and paths

    - [Mode]: [Display/CBiosMode.c], with the functions of [Device/CBiosDevice.c] that read the
      list of a device: the order on timings, the filter, the list, and the way back from a
      mode to its timing. The allocator is a function from the number of an allocation to its
      answer.
    - [ModeOrder]: the order on timings and the fields it looks at. [ModeSelect]: the loop
      that picks the best timing that is not reported yet and marks its equals. [ModeList]: the array of
      modes that grows. [ModeSpec]: [cbMode_MakeDeviceModeList] as a function on lists
      ([mode_list_refines], for two timings or more and an allocator that does not fail;
      the timings are selected by [select], which merges those that show the same
      unless another ranks between them, [merging_depends_on_order]), and what the list satisfies ([mode_list_invariant]: no mode
      twice, none over the limits of the device, nothing written outside).
    - [ModeTiming]: a listed mode, given back, finds a timing with its geometry and clock
      ([mode_timing_roundtrip], for timings with a clock and the geometry of their format
      code); on a monitor with both format 34 and format 74 the clock may be that of
      the other, a thousandth apart ([format_74_clock_reduced]).
    - [Path]: [Display/CBiosPathManager.c]: the controllers (IGA) of a combination of devices
      and the modules from a port to its controller. [PathSpec]: each device gets the
      controller its mask names, and none two ([dev_comb_spec]); the path of a DP port and
      the order its modules are switched in ([port_path_spec]); the search of a device by its
      module finds the lowest one ([GetDeviceType_spec]).
    - [DispMgr]: [Display/CBiosDisplayManager.c]: the check of a mode to set, its parameters,
      the controllers and their streams. [DispSpec]: which modes are accepted
      ([ValidateSettingModeParam_spec]), the timing of 3D video, in order for every structure but
      one ([VideoTimingAdjust_edges]), and the controllers of each chip, with every
      failure of the allocator ([DispMgrInit_spec]).

    ** The GPU core: scheduling

    - [CoreUtil]: logarithms, bit positions and the CRC of [util/util.c]; the
      loops are related to closed forms, the table-driven CRC to the bitwise one.
    - [ListHead]: [util/list.h] on a heap of nodes; every operation is the
      sequence of loads and stores of the source. [list_ops_refine] is the
      refinement theorem for programs of operations on one list, and
      [list_for_each_spec] says that the iterator ends and visits each node once.
      [ListRings]: the same for several disjoint lists in one heap. [ListSafe]: the
      iterator whose body may free its element.
    - [RingBuffer]: the command ring of an engine ([util/ring_buffer.c],
      [e3k/vidsch/vidsch_submit_e3k.c]). The engine is the environment: between
      two register reads it may fetch any number of bytes up to the published
      tail. While commands fit, the ring is a queue ([ring_is_queue]).
    - [Fence]: fence numbers of [vidsch/vidsch.c]. The GPU is the environment:
      the contents of the fence cells at each later poll, and the number of polls
      before each timeout, are lists in the state.
    - [VmId]: the identifiers of address spaces ([vidsch/vidsch_vm_id.c]), on top
      of [ListHead] and [Fence]: an identifier moves to another device only when
      the GPU has finished all its tasks ([choose_vm_id_isolates]).
    - [TaskQueue], [TaskLists], [Worker], [WorkerSpec]: the task queues
      ([vidsch/vidsch_task_queue.c]) and the scheduling loop of the worker thread
      ([vidsch/vidsch_workerthread.c]). [TaskQueue] has one definition per
      function and per locked section; [TaskLists] gives the effect of each on
      the sequences the heap holds; [Worker] is the transition system in which
      the worker and any number of submitting threads interleave at those
      sections, with its invariant ([world_ok]) and the proof that every step
      runs and preserves it; [WorkerSpec] draws the consequences for reachable
      states (no fault, first in first out without loss, no lost wake-up).

    - [Task]: tasks, their references, the lists of submitted tasks, completion and the
      check for hangs ([vidsch/vidsch_task.c]). [TaskSubmit]: submission
      ([vidsch/vidsch_submit.c], [vidsch_choose_vm_id] as a whole). Both have a
      definition per function and per locked section. A task is named by the
      address of its list node, freed memory is no longer in the map.
    - [TaskLife]: the transition system in which any number of threads create,
      share, submit, take and drop tasks, interleaved at the locked sections. A thread is
      what it holds ([act]: a reference, a task that is still to be submitted, the place
      in a submission it has reached); the engine lock is such a place. The GPU
      may rewrite what it will write into the fence cells at any time ([Gpu]). The
      invariant is [life_ok]. [TaskCore]: each part of a step preserves it.
      [TaskSteps]: the sections of a submission. [TaskSafe]: every step.
      [TaskRefine]: the functions as one thread calls them are runs of these
      steps. [TaskSpec]: the consequences for reachable states.

    What is shown of tasks: no step faults, so nothing is used after it was freed
    ([tasks_safe]); a submitted task is freed only when its fence is back
    ([released_tasks_are_done]); the ring gets consecutive numbers although a page
    table task takes its number after the task it goes before
    ([ring_numbers_consecutive]); completion takes exactly the finished front of the
    list ([release_completed_spec]); the idle test of the worker thread is exact
    ([engine_idle_exact]); each submission function returns on every branch in a state
    its thread reaches by the steps ([submission_refines]).

    ** The GPU core: page tables

    - [PageTable]: the tables of an address space ([vidmm/vidmm_vm.c]) and the
      writer of entries ([e3k/vidmm/vidmm_e3k.c]). The state has both the driver's
      tree of structures ([vm_pt]) and the tables in memory the GPU reads
      ([bufs]); the allocator of buffers is a list of answers, with each place
      where a step can fail. [translate] is the GPU's walk. Links to the parent
      are paths from the root; assignments through a pointer into the tree are
      [set_entry].
    - [PageTree]: the invariant ([node_ok]: each buffer has one owner, given by
      its path; bitmaps and tables agree with the entries; [synced]: the
      directories in memory are those of the tree) and its frame lemmas.
      [PageAlloc]: [vidmm_vm_alloc_pd] by recursion on the levels. [PageUpdate]:
      the dirty ranges and [vidmmi_vm_update_level]. [PageLeaf], [PageRelease]:
      one table, and unmapping. [PageSpec]: the loops over a range and the
      theorems. Mapping and unmapping implement a map from page numbers to pages
      as the GPU sees it ([space_refines_map]), mapping succeeds when the
      allocator does ([space_succeeds]), marks every page it changes for the
      translation buffers ([update_mapping_flushes]), and when it fails disturbs no
      mapped page ([update_mapping_failure]); after a failure half way the tree is
      not usable any more ([failed_mapping_dangles]).

    ** The GPU core: contexts and statistics

    - [HwContext]: the hardware context buffers of the devices and the bitmap of physical
      indices of the adapter ([context/context.c]). [HwContextSpec]: they implement a
      table of lists, one for each device ([hw_contexts_refine]), and the bitmap marks exactly
      the indices in use ([hw_indices_exact]; index 0 is lost by the first acquisition).
    - [PerfEvent]: the sessions of a profiling tool, the bounded list of the events of
      processes and the ring of bytes of the events of interrupts
      ([perfevent/perfevent.c], with the entry point in [linux/zx_ioctl.c]).
      [PerfRing]: the ring is a queue, also when interrupts add to it during a
      collection. [PerfSpec]: the abstract session and its refinement
      ([perf_events_refine]), in which a session that begins too early counts the
      interrupts of the last one and events of interrupts that find the ring full are
      dropped uncounted, as in the code; and what goes wrong beyond it: an interrupt before the
      copy of a collection that takes it beyond the ring ([get_isr_overreads]), a session
      that loses events for ever, a freed event that stays linked when two processes add
      events at once ([lost_race_faults]; the operations of the refinement come one at a
      time).
    - [EngineUsage]: how busy each engine is, from its submissions and completions, computed at
      the vertical syncs ([perfevent/perfevent.c], [e3k/perfevent/perfevent_e3k.c]).
      [UsageSpec]: the percentages are those of stopwatches that run while the engine is
      idle ([engine_usage_exact]), between 0 and 100 when a window is shorter than 2^32 ns
      (4.29 s); beyond that the division is wrong or by zero ([long_window]). The division of the kernel ([do_div]) is a
      parameter with its documented contract, a divisor of 32 bits.

    How the parts interact: a thread puts a task into a queue and marks the queue
    active ([TaskQueue.vidsch_task_queue_add]); the worker takes the tasks of the
    active queues by priority; a task that is submitted gets an address space
    ([VmId.vidsch_choose_vm_id]), a fence number
    ([Fence.vidschi_inc_send_fence_id]) and space in the ring of its engine
    ([RingBuffer.enginei_get_ring_buffer_space_e3k]); the GPU writes the number
    into the fence cell when it is done, and [Fence.vidsch_is_fence_back] tells
    the driver. [TaskSubmit.vidschi_submit_dma] is the function that does this: number,
    identifier, page table task, ring, list of submitted tasks; it runs on [Fence] and
    [VmId] as they are, with the ring as a list of commands. [RingBuffer] is verified
    against the bytes of such commands. In the other direction, the display BIOS reads
    the bytes of an EDID over [I2C] and gives them to [Edid.cbEDIDModule_ParseEDID]. The
    timings it finds, in the structure the parser fills, become the list of
    [Mode.cbMode_MakeDeviceModeList]; a mode of the list comes back in
    the parameters of a mode to set ([DispMgr.cbValidateSettingModeParam],
    [DispMgr.cbUpdateIGAModeInfo]); the display manager checks it, lays the path of its device
    ([Path.cbPathMgrSelectDIUPath]) and looks up its timing ([Mode.cbMode_GetHVTiming]). The
    statistics hear of each submission and each returned fence.

    ** Fuel and bounds

    The decoders walk a block of 128 bytes by entries, and their fuel is a constant
    above the number of entries a block can hold; loops over tables have the
    length of the table. [iterate 33] in [VmId] suffices because each round clears one bit
    of a word. List iterations need one round per node and one for the head. A
    forced wait ([Fence.vidsch_wait_fence_back]) needs a round per timeout before
    the GPU gets there, the measure is the length of [future]; [util_log2] needs
    32 rounds up to 2^31 and diverges above, which is a theorem. The loops over the
    tables of a range take a round per table; the theorems ask for a round per
    page. The recursion over the levels has depth three. Semaphore counts
    and queue bounds are below 2^31 ([int]). [cbGetFullEdid] has fuel for the 256
    blocks a segment pointer can reach, [cbGetEdidBytes] a round per byte. The loops over
    the submitted tasks need a round per task and one more. A submission waits for the GPU
    with fuel for the polls it still needs, twice over the identifiers, and is enabled only
    while the GPU works ([gpu_alive]) and the 64-bit numbers are not used up
    ([no_wrap]). The bitmap of context indices has 8191 bytes that are looked at, the loop
    has a round for each. The theorems about sequences of operations on contexts and on
    events ask for one round of the list loops more than there are operations, and, of events,
    for fewer than 2^31 operations, because the counts are of type [int]; those about the
    statistics for times below 2^57 nanoseconds. The selection of modes has a round per
    timing and one more, for fewer than 2^23 timings, because the array has [CBIOS_U32] sizes in bytes; the loops over the
    devices of a word 33 rounds, over a path one more than its entries, over the controllers five.

    ** Not modelled

    - of submission: the video engines, which hand their page table and mapping tasks to
      the thread of the graphics engine and wait; the allocation of DMA nodes from
      the kernel's range allocator; the contents of the commands; the batch parser and the dumps. Whether the
      mapping of a task's allocations succeeds is a parameter. The time of a returned fence is
      kept only where the completion of tasks polls.
    - the worker asks the environment whether the hardware takes a task. The second pool, for page table tasks, works like the first.
      Contexts that come and go while the worker runs are modelled as operations
      ([vidsch_init_task_queue]) but are not steps of the transition system.
    - of the memory manager: segments, allocations and paging, the zones with the
      kernel's range allocator, sparse nodes, the writer of entries by the CPU
      and the variant of the page tables for the chip CNE001. Page tables of one
      engine are modelled; each engine has dirty ranges of its own. The physical
      address in a page entry is the number of the page in its entity.
    - of [src/core/context] and [src/core/perfevent]: the creation and destruction of
      devices and contexts, which wait for the engines and release what other parts hold; the save and
      restore of the adapter; the counters of the memory unit, whose entry points are
      commented out. The bitmap of context indices is used by one thread at a time (the code has no lock
      that ensures it), and one tool collects events.
    - of the display manager: [cbDispMgrSetMode] after its check, which calls into the
      hardware and the device layers, the mode read back from the registers, colour conversion and cursors. The
      forced timing is kept as a flag.
    - display devices, ports and hardware blocks ([src/cbios/Device], [Hw]): mostly
      sequences of register accesses, whose meaning is the hardware manual. The calls of the
      path manager into the blocks are recorded as a list.
    - register and opcode headers, which are generated, and [src/linux].
    - memory ordering: each locked section is one step, and the GPU's writes are
      seen at the next poll.

    What is worth modelling next: the isolation of address spaces at the ring (each
    command behind the page table of its device); the detection of monitors, which decides
    when an EDID is read again. *)
From Stdlib Require Export ZArith Lia Bool.
From stdpp Require Export base gmap list option.
#[global] Open Scope Z_scope.
#[global] Set Default Goal Selector "!".
(** ** Results of C code that can go wrong

    The driver is C: an access outside an object, a division by zero or a
    null dereference is undefined behaviour there.  The model makes each of
    them a value, so that a theorem can rule it out (or exhibit it). *)
Inductive fault : Set :=
| OutOfBounds   (* access outside the array or buffer *)
| NullDeref     (* access through a null pointer *)
| DivByZero     (* integer division by zero *)
| Panic         (* a failed zx_assert *)
| OutOfFuel.    (* the bound given to a loop was too small: a model artefact *)

Inductive res (A : Type) : Type :=
| Ok (a : A)
| Err (f : fault).
Arguments Ok {A} a.
Arguments Err {A} f.

#[export] Instance fault_eq_dec : EqDecision fault.
Proof. solve_decision. Defined.

#[export] Instance res_eq_dec {A} `{EqDecision A} : EqDecision (res A).
Proof. solve_decision. Defined.

Definition rbind {A B} (m : res A) (k : A -> res B) : res B :=
  match m with Ok a => k a | Err f => Err f end.

Definition rmap {A B} (f : A -> B) (m : res A) : res B := rbind m (fun a => Ok (f a)).

Declare Scope cx_scope.
Delimit Scope cx_scope with cx.
Notation "'let!' x ':=' m 'in' k" := (rbind m (fun x => k))
  (at level 10, x binder, m at level 100, k at level 200) : cx_scope.
Notation "'let!' ' p ':=' m 'in' k" := (rbind m (fun p => k))
  (at level 10, p strict pattern, m at level 100, k at level 200) : cx_scope.
#[global] Open Scope cx_scope.

Definition is_ok {A} (m : res A) : Prop := exists a, m = Ok a.

Lemma is_ok_Ok {A} (a : A) : is_ok (Ok a).
Proof. by exists a. Qed.

Lemma rbind_ok_inv {A B} (m : res A) (k : A -> res B) b :
  rbind m k = Ok b -> exists a, m = Ok a /\ k a = Ok b.
Proof. destruct m; simpl; [by eauto | done]. Qed.

Lemma is_ok_rbind {A B} (m : res A) (k : A -> res B) :
  is_ok m -> (forall a, m = Ok a -> is_ok (k a)) -> is_ok (rbind m k).
Proof. intros [a ->] Hk; simpl; by apply Hk. Qed.

(** ** Machine integers

    Integers are [Z]; a store into a [w]-bit unsigned object wraps. *)
Definition wrap (w x : Z) : Z := x mod 2 ^ w.
Abbreviation u8 := (wrap 8).
Abbreviation u16 := (wrap 16).
Abbreviation u32 := (wrap 32).
Abbreviation u64 := (wrap 64).

Definition fits (w x : Z) : Prop := 0 <= x < 2 ^ w.

(** A [w]-bit pattern read back as a two's complement signed integer. *)
Definition sgn (w x : Z) : Z :=
  let y := wrap w x in if y <? 2 ^ (w - 1) then y else y - 2 ^ w.

Lemma wrap_fits w x : 0 <= w -> fits w (wrap w x).
Proof. intros; unfold fits, wrap; apply Z.mod_pos_bound; lia. Qed.

Lemma wrap_small w x : fits w x -> wrap w x = x.
Proof. intros; by apply Z.mod_small. Qed.

Lemma sgn_small x : 0 <= x < 2 ^ 31 -> sgn 32 x = x.
Proof.
  intros. unfold sgn. rewrite wrap_small by (unfold fits; lia). change (32 - 1) with 31.
  destruct (Z.ltb_spec x (2 ^ 31)); lia.
Qed.

Lemma wrap_wrap w x : 0 <= w -> wrap w (wrap w x) = wrap w x.
Proof. intros; apply wrap_small; by apply wrap_fits. Qed.

Lemma wrap_add_l w x y : 0 <= w -> wrap w (wrap w x + y) = wrap w (x + y).
Proof. intros; unfold wrap. rewrite Zplus_mod_idemp_l; done. Qed.

Lemma wrap_add_r w x y : 0 <= w -> wrap w (x + wrap w y) = wrap w (x + y).
Proof. intros; unfold wrap. rewrite Zplus_mod_idemp_r; done. Qed.

(** Bits of a word split at [w]. *)
Lemma testbit_split q l w m :
  0 <= w -> 0 <= m -> fits w l ->
  Z.testbit (q * 2 ^ w + l) m = if m <? w then Z.testbit l m else Z.testbit q (m - w).
Proof.
  unfold fits; intros Hw Hm Hl. destruct (Z.ltb_spec m w).
  - rewrite <- (Z.mod_pow2_bits_low _ w m), <- (Z.mod_pow2_bits_low l w m) by lia.
    f_equal. rewrite Z.add_comm. by apply Z_mod_plus_full.
  - replace m with (m - w + w) at 1 by lia. rewrite <- Z.div_pow2_bits by lia.
    f_equal. rewrite Z.div_add_l by lia. rewrite Z.div_small by done. lia.
Qed.

Lemma testbit_wrap w x m : 0 <= m < w -> Z.testbit (wrap w x) m = Z.testbit x m.
Proof. intros. unfold wrap. apply Z.mod_pow2_bits_low; lia. Qed.

Lemma testbit_wrap_high w x m : 0 <= w <= m -> Z.testbit (wrap w x) m = false.
Proof. intros. unfold wrap. apply Z.mod_pow2_bits_high; lia. Qed.

Lemma testbit_fits_high w x m : fits w x -> 0 <= w <= m -> Z.testbit x m = false.
Proof. intros H ?. rewrite <- (wrap_small w x H). by apply testbit_wrap_high. Qed.

(** The position of the lowest set bit. *)
Definition lowest_bit (i n : Z) : Prop :=
  0 <= n /\ Z.testbit i n = true /\ forall m, 0 <= m < n -> Z.testbit i m = false.

Lemma lowest_bit_split i n : lowest_bit i n -> i = i / 2 ^ (n + 1) * 2 ^ (n + 1) + 2 ^ n.
Proof.
  intros (Hn & Hb & Hl). apply Z.bits_inj'. intros m Hm.
  rewrite testbit_split; [| lia | done | split; [lia | apply Z.pow_lt_mono_r; lia]].
  rewrite Z.pow2_bits_eqb by done.
  destruct (Z.ltb_spec m (n + 1)), (Z.eqb_spec n m); subst; try done.
  - apply Hl; lia.
  - lia.
  - rewrite Z.div_pow2_bits by lia. f_equal; lia.
Qed.

Lemma lowest_bit_pred i n : lowest_bit i n -> i - 1 = i / 2 ^ (n + 1) * 2 ^ (n + 1) + Z.ones n.
Proof. intros H. rewrite (lowest_bit_split _ _ H) at 1. rewrite Z.ones_equiv. lia. Qed.

Lemma testbit_pred i n m :
  lowest_bit i n -> 0 <= m -> Z.testbit (i - 1) m = if m <? n then true else
    if m =? n then false else Z.testbit i m.
Proof.
  intros H Hm. pose proof H as (Hn & Hb & Hl). rewrite (lowest_bit_pred _ _ H).
  rewrite testbit_split; [| lia | done | ].
  2: { unfold fits. rewrite Z.ones_equiv. pose proof (Z.pow_lt_mono_r 2 n (n + 1)).
       pose proof (Z.pow_pos_nonneg 2 n). lia. }
  destruct (Z.ltb_spec m n).
  - destruct (Z.ltb_spec m (n + 1)); [|lia]. by rewrite Z.ones_spec_low by lia.
  - destruct (Z.eqb_spec m n) as [->|].
    + destruct (Z.ltb_spec n (n + 1)); [|lia]. by rewrite Z.ones_spec_high by lia.
    + destruct (Z.ltb_spec m (n + 1)); [lia|]. rewrite Z.div_pow2_bits by lia. f_equal; lia.
Qed.

(** C's unsigned division, a fault when the divisor is zero. *)
Definition udiv (a b : Z) : res Z := if b =? 0 then Err DivByZero else Ok (a / b).

(** [b] as the C value of a comparison. *)
Definition b2z (b : bool) : Z := if b then 1 else 0.

(** One bit of a word, and a bit field [hi:lo] of a word. *)
Definition bit (x n : Z) : Z := Z.land (Z.shiftr x n) 1.

(** The [n]-bit field at bit [lo] of [w], assigned [v]. *)
Definition setfield (w lo n v : Z) : Z :=
  Z.lor (Z.ldiff w (Z.shiftl (Z.ones n) lo)) (Z.shiftl (Z.land v (Z.ones n)) lo).

Lemma testbit_setfield w lo n v m :
  0 <= lo -> 0 <= n -> 0 <= m ->
  Z.testbit (setfield w lo n v) m =
  if (lo <=? m) && (m <? lo + n) then Z.testbit v (m - lo) else Z.testbit w m.
Proof.
  intros. unfold setfield.
  rewrite Z.lor_spec, Z.ldiff_spec, !Z.shiftl_spec, Z.land_spec, Z.testbit_ones by lia.
  destruct (Z.leb_spec lo m), (Z.leb_spec 0 (m - lo)), (Z.ltb_spec m (lo + n)),
    (Z.ltb_spec (m - lo) n); try lia; simpl;
    rewrite ?andb_false_r, ?andb_true_r, ?orb_false_l, ?orb_false_r; try done.
Qed.

Lemma land_ones_fits x n : 0 <= n -> fits n (Z.land x (Z.ones n)).
Proof. intros; unfold fits; rewrite Z.land_ones by done; apply Z.mod_pos_bound; lia. Qed.

Lemma land_fits n x y : 0 <= n -> fits n y -> fits n (Z.land x y).
Proof.
  intros Hn Hy. rewrite <- (wrap_small _ _ Hy). unfold wrap.
  rewrite <- Z.land_ones, Z.land_assoc by done. by apply land_ones_fits.
Qed.

Lemma shiftr_fits w x n : 0 <= n -> fits w x -> fits w (Z.shiftr x n).
Proof.
  unfold fits; intros Hn Hx. rewrite Z.shiftr_div_pow2 by done.
  pose proof (Z.pow_pos_nonneg 2 n ltac:(lia) Hn). split; [apply Z.div_pos; lia|].
  apply Z.le_lt_trans with x; [|lia]. apply Z.div_le_upper_bound; nia.
Qed.

Lemma fits_mono w w' x : 0 <= w <= w' -> fits w x -> fits w' x.
Proof. unfold fits; intros. pose proof (Z.pow_le_mono_r 2 w w'). lia. Qed.

(** A boolean property of all bytes, by computation. *)
Lemma byte_forall (P : Z -> bool) b :
  forallb P (seqZ 0 256) = true -> fits 8 b -> P b = true.
Proof.
  rewrite forallb_forall. unfold fits. intros H Hb. apply H.
  apply list_elem_of_In, elem_of_seqZ. lia.
Qed.

(** Proves [e b = e' b] for a byte [b] by running over all bytes. *)
Ltac by_bytes b :=
  apply Z.eqb_eq;
  lazymatch goal with
  | |- ?e = true =>
      let p := eval pattern b in e in
      lazymatch p with
      | ?P _ => refine (byte_forall P b _ _); [vm_compute; reflexivity | try done]
      end
  end.

Lemma land_le_r x y : 0 <= y -> 0 <= Z.land x y <= y.
Proof.
  intros Hy. split; [apply Z.land_nonneg; lia|].
  pose proof (Z.add_lor_land (Z.land x y) (Z.land (Z.lnot x) y)) as H.
  rewrite <- Z.land_lor_distr_l, Z.lor_lnot_diag, Z.land_m1_l in H.
  assert (0 <= Z.land (Z.lnot x) y) by (apply Z.land_nonneg; lia).
  replace (Z.land (Z.land x y) (Z.land (Z.lnot x) y)) with 0 in H; [lia|].
  symmetry; apply Z.bits_inj'; intros n Hn.
  rewrite !Z.land_spec, Z.lnot_spec, Z.bits_0 by done.
  by destruct (Z.testbit x n), (Z.testbit y n).
Qed.

(** ** Arrays: bounds-checked reads and writes *)
Definition rd {A} (l : list A) (i : Z) : res A :=
  if i <? 0 then Err OutOfBounds
  else match l !! Z.to_nat i with Some a => Ok a | None => Err OutOfBounds end.

Definition wr {A} (l : list A) (i : Z) (v : A) : res (list A) :=
  if (i <? 0) || (Z.of_nat (length l) <=? i) then Err OutOfBounds
  else Ok (<[Z.to_nat i := v]> l).

Definition zlen {A} (l : list A) : Z := Z.of_nat (length l).

Arguments rd : simpl never.
Arguments wr : simpl never.
Arguments zlen : simpl never.

Lemma zlen_nonneg {A} (l : list A) : 0 <= zlen l.
Proof. unfold zlen; lia. Qed.

Lemma zlen_app {A} (l k : list A) : zlen (l ++ k) = zlen l + zlen k.
Proof. unfold zlen; rewrite length_app; lia. Qed.

Lemma zlen_cons {A} (x : A) l : zlen (x :: l) = 1 + zlen l.
Proof. unfold zlen. simpl length. lia. Qed.

Lemma zlen_insert {A} (l : list A) i v : zlen (<[i := v]> l) = zlen l.
Proof. unfold zlen; by rewrite length_insert. Qed.

Lemma rd_in {A} (l : list A) i : 0 <= i < zlen l -> is_ok (rd l i).
Proof.
  unfold rd, zlen; intros Hi. destruct (i <? 0) eqn:?; [lia|].
  destruct (lookup_lt_is_Some_2 l (Z.to_nat i)) as [x ->]; [lia|]. apply is_ok_Ok.
Qed.

Lemma rd_out {A} (l : list A) i : ~ 0 <= i < zlen l -> rd l i = Err OutOfBounds.
Proof.
  unfold rd, zlen; intros Hi. destruct (i <? 0) eqn:?; [done|].
  by rewrite lookup_ge_None_2 by lia.
Qed.

Lemma rd_inv {A} (l : list A) i a :
  rd l i = Ok a <-> 0 <= i /\ l !! Z.to_nat i = Some a.
Proof.
  unfold rd. destruct (i <? 0) eqn:?; [split; [done|lia]|].
  destruct (l !! Z.to_nat i); split.
  - intros [= <-]. split; [lia|done].
  - by intros [_ [= <-]].
  - done.
  - by intros [_ ?].
Qed.

Lemma rd_bound {A} (l : list A) i a : rd l i = Ok a -> 0 <= i < zlen l.
Proof.
  intros [? H]%rd_inv. apply lookup_lt_Some in H. unfold zlen; lia.
Qed.

Lemma rd_Forall {A} (P : A -> Prop) l i a : Forall P l -> rd l i = Ok a -> P a.
Proof. intros HP [_ H]%rd_inv. by eapply Forall_lookup_1. Qed.

Lemma wr_in {A} (l : list A) i v :
  0 <= i < zlen l -> wr l i v = Ok (<[Z.to_nat i := v]> l).
Proof.
  unfold wr, zlen; intros Hi.
  destruct (i <? 0) eqn:?, (Z.of_nat (length l) <=? i) eqn:?; simpl; done || lia.
Qed.

Lemma wr_out {A} (l : list A) i v : ~ 0 <= i < zlen l -> wr l i v = Err OutOfBounds.
Proof.
  unfold wr, zlen; intros Hi.
  destruct (i <? 0) eqn:?, (Z.of_nat (length l) <=? i) eqn:?; simpl; done || lia.
Qed.

Lemma wr_inv {A} (l k : list A) i v :
  wr l i v = Ok k -> 0 <= i < zlen l /\ k = <[Z.to_nat i := v]> l.
Proof.
  intros H. destruct (decide (0 <= i < zlen l)) as [Hi|Hi].
  - rewrite wr_in in H by done. by injection H as <-.
  - by rewrite wr_out in H.
Qed.

Lemma rd_insert_eq {A} (l : list A) i v :
  0 <= i < zlen l -> rd (<[Z.to_nat i := v]> l) i = Ok v.
Proof.
  intros. apply rd_inv. split; [lia|]. apply list_lookup_insert_eq. unfold zlen in *; lia.
Qed.

Lemma rd_insert_ne {A} (l : list A) i j v :
  0 <= i -> 0 <= j -> i <> j -> rd (<[Z.to_nat i := v]> l) j = rd l j.
Proof.
  intros. unfold rd. destruct (j <? 0); [done|]. rewrite list_lookup_insert_ne by lia. done.
Qed.

Lemma rd_app_l {A} (l k : list A) i : i < zlen l -> rd (l ++ k) i = rd l i.
Proof.
  unfold rd, zlen; intros. destruct (i <? 0) eqn:?; [done|]. by rewrite lookup_app_l by lia.
Qed.

Lemma rd_app_r {A} (l k : list A) i : zlen l <= i -> rd (l ++ k) i = rd k (i - zlen l).
Proof.
  unfold rd, zlen; intros. destruct (i <? 0) eqn:?, (i - Z.of_nat (length l) <? 0) eqn:?; try lia.
  rewrite lookup_app_r by lia. by replace (Z.to_nat i - length l)%nat
    with (Z.to_nat (i - Z.of_nat (length l))) by lia.
Qed.

(** ** Loops *)

(** [for (j = i; j < i + n; j++) body] *)
Fixpoint for_up {S} (n : nat) (i : Z) (body : Z -> S -> res S) (s : S) : res S :=
  match n with
  | O => Ok s
  | Datatypes.S n' => let! s' := body i s in for_up n' (i + 1) body s'
  end.

(** A loop whose body either goes round again ([inl]) or leaves ([inr]). *)
Fixpoint iterate {S B} (fuel : nat) (body : S -> res (S + B)) (s : S) : res B :=
  match fuel with
  | O => Err OutOfFuel
  | Datatypes.S fuel' =>
      let! r := body s in
      match r with inl s' => iterate fuel' body s' | inr b => Ok b end
  end.

Lemma iterate_S {A B} n (f : A -> res (A + B)) x :
  iterate (S n) f x = let! r := f x in match r with inl y => iterate n f y | inr b => Ok b end.
Proof. done. Qed.

Lemma for_up_rule {S} (I : Z -> S -> Prop) n i body (s : S) :
  (forall j s, i <= j < i + Z.of_nat n -> I j s ->
    exists s', body j s = Ok s' /\ I (j + 1) s') ->
  I i s -> exists s', for_up n i body s = Ok s' /\ I (i + Z.of_nat n) s'.
Proof.
  revert i s. induction n as [|n IH]; intros i s Hb Hi; simpl.
  - exists s. by rewrite Z.add_0_r.
  - destruct (Hb i s) as (s1 & -> & H1); [lia|done|]. simpl.
    destruct (IH (i + 1) s1) as (s2 & -> & H2); [|done|].
    + intros j s' Hj. apply Hb; lia.
    + exists s2. split; [done|].
      replace (i + Z.of_nat (Datatypes.S n)) with (i + 1 + Z.of_nat n) by lia. done.
Qed.

(** Partial correctness of [for_up]: an invariant of every successful step
    holds of every result. *)
Lemma for_up_inv {S} (I : S -> Prop) n i body (s s' : S) :
  (forall j s s', I s -> body j s = Ok s' -> I s') ->
  I s -> for_up n i body s = Ok s' -> I s'.
Proof.
  intros Hb. revert i s. induction n as [|n IH]; simpl; intros i s Hs H.
  - by injection H as <-.
  - apply rbind_ok_inv in H as (s1 & H1 & H2). by eauto.
Qed.

(** Total correctness of [iterate]: an invariant and a decreasing measure. *)
Lemma iterate_rule {S B} (I : S -> Prop) (Q : B -> Prop) (m : S -> nat) fuel body (s : S) :
  (forall s, I s -> exists r, body s = Ok r /\
     match r with inl s' => I s' /\ (m s' < m s)%nat | inr b => Q b end) ->
  I s -> (m s < fuel)%nat -> exists b, iterate fuel body s = Ok b /\ Q b.
Proof.
  intros Hb. revert s. induction fuel as [|fuel IH]; intros s Hs Hm; [lia|]. simpl.
  destruct (Hb s Hs) as ([s1|b] & -> & H1); simpl.
  - apply IH; [apply H1 | lia].
  - by exists b.
Qed.

(** More fuel than needed does not change a result. *)
Lemma iterate_more {S B} fuel fuel' body (s : S) (b : B) :
  iterate fuel body s = Ok b -> (fuel <= fuel')%nat -> iterate fuel' body s = Ok b.
Proof.
  revert fuel' s. induction fuel as [|fuel IH]; [done|]. intros [|fuel'] s H Hle; [lia|].
  simpl in *. apply rbind_ok_inv in H as ([s1|b1] & -> & H); simpl; [|done].
  apply IH; [done|lia].
Qed.

(** ** Buffers and pointers *)

(** Dereference of a possibly null pointer. *)
Definition deref {A} (p : option A) : res A :=
  match p with Some a => Ok a | None => Err NullDeref end.

(** [memcpy (&dst[d]) (&src[s]) n] *)
Definition memcpy {A} (dst : list A) (d : Z) (src : list A) (s n : Z) : res (list A) :=
  for_up (Z.to_nat n) 0 (fun j dst => let! x := rd src (s + j) in wr dst (d + j) x) dst.

(** [memset (&p[d]) v n] *)
Definition memset {A} (p : list A) (d : Z) (v : A) (n : Z) : res (list A) :=
  for_up (Z.to_nat n) 0 (fun j p => wr p (d + j) v) p.

(** [p[i] = v] for each pair, in order. *)
Fixpoint wrs {A} (p : list A) (l : list (Z * A)) : res (list A) :=
  match l with
  | [] => Ok p
  | (i, v) :: l' => let! p := wr p i v in wrs p l'
  end.

(** [p[off] == l0 && p[off + 1] == l1 && ...], left to right. *)
Fixpoint bytes_are (p : list Z) (off : Z) (l : list Z) : res bool :=
  match l with
  | [] => Ok true
  | x :: l' =>
      let! b := rd p off in
      if b =? x then bytes_are p (off + 1) l' else Ok false
  end.

(** [for (i = 0; i < n; i++) if (P(l[i])) break;]: the index found. *)
Definition scan {A} (l : list A) (n : Z) (P : A -> bool) : res (option Z) :=
  iterate (S (Z.to_nat n))
    (fun i =>
       if i <? n then
         let! x := rd l i in
         if P x then Ok (inr (Some i)) else Ok (inl (i + 1))
       else Ok (inr None)) 0.

Definition scan_post {A} (l : list A) (n : Z) (P : A -> bool) (r : option Z) : Prop :=
  match r with
  | Some i => 0 <= i < n /\ (exists x, rd l i = Ok x /\ P x = true) /\
              (forall j x, j < i -> rd l j = Ok x -> P x = false)
  | None => forall j x, j < n -> rd l j = Ok x -> P x = false
  end.

Lemma scan_spec {A} (l : list A) n P :
  n <= zlen l -> exists r, scan l n P = Ok r /\ scan_post l n P r.
Proof.
  intros Hn. unfold scan.
  apply iterate_rule with
    (I := fun i => 0 <= i /\ forall j x, j < i -> rd l j = Ok x -> P x = false)
    (m := fun i => Z.to_nat (n - i)).
  - intros i [Hi Hb]. destruct (Z.ltb_spec i n) as [Hlt|Hge].
    + destruct (rd_in l i) as [x Hx]; [lia|]. rewrite Hx. cbn [rbind].
      destruct (P x) eqn:HP; eexists; (split; [reflexivity|]); cbn beta iota.
      * split; [lia|]. split; [by exists x|done].
      * split; [|lia]. split; [lia|]. intros j y Hj Hy.
        destruct (Z.eq_dec j i) as [->|]; [congruence|]. apply (Hb j); [lia|done].
    + eexists; split; [reflexivity|]. cbn beta iota. intros j x Hj. apply Hb; lia.
  - split; [lia|]. intros j x Hj H. apply rd_bound in H. lia.
  - lia.
Qed.

Lemma memcpy_ok {A} (dst src : list A) d s n :
  0 <= d -> 0 <= s -> 0 <= n -> d + n <= zlen dst -> s + n <= zlen src ->
  exists dst', memcpy dst d src s n = Ok dst' /\ zlen dst' = zlen dst /\
    (forall j, 0 <= j < n -> rd dst' (d + j) = rd src (s + j)) /\
    (forall j, ~ d <= j < d + n -> rd dst' j = rd dst j).
Proof.
  intros. unfold memcpy.
  destruct (for_up_rule
    (fun k q => zlen q = zlen dst /\
       (forall j, 0 <= j < k -> rd q (d + j) = rd src (s + j)) /\
       (forall j, ~ d <= j < d + k -> rd q j = rd dst j))
    (Z.to_nat n) 0 (fun j q => let! x := rd src (s + j) in wr q (d + j) x) dst)
    as (q & Hq & Hl & Hin & Hout).
  - intros k q Hk (Hl & Hin & Hout). destruct (rd_in src (s + k)) as [x Hx]; [lia|].
    rewrite Hx. cbn [rbind]. rewrite wr_in by lia. eexists; split; [reflexivity|].
    split; [by rewrite zlen_insert|]. split.
    + intros j Hj. destruct (Z.eq_dec j k) as [->|].
      * rewrite rd_insert_eq by lia. done.
      * rewrite rd_insert_ne by lia. apply Hin; lia.
    + intros j Hj. destruct (Z.lt_ge_cases j 0).
      * rewrite !rd_out by lia. done.
      * rewrite rd_insert_ne by lia. apply Hout; lia.
  - split; [done|]. split; [lia|]. done.
  - exists q. rewrite Z.add_0_l, Z2Nat.id in Hin, Hout by done. done.
Qed.

Lemma memset_ok {A} (p : list A) d (v : A) n :
  0 <= d -> 0 <= n -> d + n <= zlen p ->
  exists p', memset p d v n = Ok p' /\ zlen p' = zlen p /\
    (forall j, 0 <= j < n -> rd p' (d + j) = Ok v) /\
    (forall j, ~ d <= j < d + n -> rd p' j = rd p j).
Proof.
  intros. unfold memset.
  destruct (for_up_rule
    (fun k q => zlen q = zlen p /\
       (forall j, 0 <= j < k -> rd q (d + j) = Ok v) /\
       (forall j, ~ d <= j < d + k -> rd q j = rd p j))
    (Z.to_nat n) 0 (fun j q => wr q (d + j) v) p) as (q & Hq & Hl & Hin & Hout).
  - intros k q Hk (Hl & Hin & Hout). rewrite wr_in by lia. eexists; split; [reflexivity|].
    split; [by rewrite zlen_insert|]. split.
    + intros j Hj. destruct (Z.eq_dec j k) as [->|].
      * by rewrite rd_insert_eq by lia.
      * rewrite rd_insert_ne by lia. apply Hin; lia.
    + intros j Hj. destruct (Z.lt_ge_cases j 0).
      * by rewrite !rd_out by lia.
      * rewrite rd_insert_ne by lia. apply Hout; lia.
  - split; [done|]. split; [lia|]. done.
  - exists q. rewrite Z.add_0_l, Z2Nat.id in Hin, Hout by done. done.
Qed.

Lemma rd_take {A} (l : list A) n i : i < n -> rd (take (Z.to_nat n) l) i = rd l i.
Proof. unfold rd. intros. destruct (i <? 0) eqn:?; [done|]. by rewrite lookup_take_lt by lia. Qed.

Lemma rd_drop {A} (l : list A) n i : 0 <= n -> 0 <= i -> rd (drop (Z.to_nat n) l) i = rd l (n + i).
Proof.
  unfold rd. intros. destruct (i <? 0) eqn:?, (n + i <? 0) eqn:?; try lia.
  rewrite lookup_drop. replace (Z.to_nat n + Z.to_nat i)%nat with (Z.to_nat (n + i)) by lia. done.
Qed.

Lemma zlen_take {A} (l : list A) n : 0 <= n -> zlen (take (Z.to_nat n) l) = Z.min n (zlen l).
Proof. unfold zlen. intros. rewrite length_take. lia. Qed.

Lemma zlen_drop {A} (l : list A) n : 0 <= n <= zlen l -> zlen (drop (Z.to_nat n) l) = zlen l - n.
Proof. unfold zlen. intros. rewrite length_drop. lia. Qed.

Lemma rd_ext {A} (l k : list A) :
  zlen l = zlen k -> (forall j, 0 <= j < zlen l -> rd l j = rd k j) -> l = k.
Proof.
  unfold zlen. intros Hl H. apply list_eq. intros i.
  destruct (decide (i < length l)%nat) as [Hi|Hi].
  - specialize (H (Z.of_nat i) ltac:(lia)). unfold rd in H.
    destruct (Z.of_nat i <? 0) eqn:E; [lia|]. rewrite Nat2Z.id in H.
    destruct (l !! i) eqn:E1, (k !! i) eqn:E2; congruence.
  - rewrite !lookup_ge_None_2 by lia. done.
Qed.

(** Copying a whole list to the start of a larger array. *)
Lemma memcpy_grow {A} (l : list A) (z : A) m :
  zlen l <= m ->
  memcpy (replicate (Z.to_nat m) z) 0 l 0 (zlen l) =
  Ok (l ++ replicate (Z.to_nat (m - zlen l)) z).
Proof.
  intros Hm. pose proof (zlen_nonneg l).
  assert (Hr : forall n, 0 <= n -> zlen (replicate (Z.to_nat n) z) = n).
  { intros n Hn. unfold zlen. rewrite length_replicate. lia. }
  destruct (memcpy_ok (replicate (Z.to_nat m) z) l 0 0 (zlen l)) as (q & Hq & Hl & Hin & Hout);
    try lia.
  { rewrite Hr; lia. }
  rewrite Hq. f_equal. apply rd_ext.
  - rewrite Hl, zlen_app, !Hr by lia. lia.
  - intros j Hj. rewrite Hl, Hr in Hj by lia. destruct (Z.lt_ge_cases j (zlen l)).
    + rewrite rd_app_l by done. specialize (Hin j). rewrite Z.add_0_l in Hin. apply Hin. lia.
    + rewrite rd_app_r, Hout by lia. unfold rd.
      destruct (j <? 0) eqn:?, (j - zlen l <? 0) eqn:?; try lia.
      rewrite !lookup_replicate_2 by lia. done.
Qed.

Lemma zlen_replicate {A} (x : A) n : zlen (replicate n x) = Z.of_nat n.
Proof. unfold zlen. by rewrite length_replicate. Qed.

(** ** Total correctness

    [wp m Q]: [m] does not fault and its result satisfies [Q]. *)
Definition wp {A} (m : res A) (Q : A -> Prop) : Prop :=
  match m with Ok a => Q a | Err _ => False end.

Lemma wp_ok {A} (m : res A) Q : wp m Q <-> exists a, m = Ok a /\ Q a.
Proof.
  destruct m as [a|f]; simpl; split; try done.
  - intros; by exists a.
  - by intros (a' & [= <-] & ?).
  - by intros (? & ? & ?).
Qed.

Lemma wp_mono {A} (m : res A) (P Q : A -> Prop) : wp m P -> (forall a, P a -> Q a) -> wp m Q.
Proof. destruct m; simpl; [by eauto | done]. Qed.

Lemma wp_mono_eq {A} (m : res A) (P Q : A -> Prop) :
  wp m P -> (forall a, m = Ok a -> P a -> Q a) -> wp m Q.
Proof. destruct m; simpl; [by eauto | done]. Qed.

Lemma wp_bind {A B} (m : res A) (k : A -> res B) Q :
  wp m (fun a => wp (k a) Q) -> wp (rbind m k) Q.
Proof. by destruct m. Qed.

Lemma wp_rd {A} (l : list A) i (Q : A -> Prop) :
  0 <= i < zlen l -> (forall x, rd l i = Ok x -> Q x) -> wp (rd l i) Q.
Proof. intros Hi HQ. destruct (rd_in l i Hi) as [x Hx]. rewrite Hx. by apply HQ. Qed.

Lemma wp_rd_Forall {A} (P : A -> Prop) (l : list A) i (Q : A -> Prop) :
  Forall P l -> 0 <= i < zlen l -> (forall x, P x -> Q x) -> wp (rd l i) Q.
Proof. intros HP Hi HQ. apply wp_rd; [done|]. intros x Hx. apply HQ. by eapply rd_Forall. Qed.

Lemma wp_wr {A} (l : list A) i v (Q : list A -> Prop) :
  0 <= i < zlen l -> Q (<[Z.to_nat i := v]> l) -> wp (wr l i v) Q.
Proof. intros Hi HQ. by rewrite wr_in. Qed.

Lemma wp_deref {A} (p : option A) (Q : A -> Prop) :
  p <> None -> (forall x, p = Some x -> Q x) -> wp (deref p) Q.
Proof. destruct p; simpl; [by eauto | done]. Qed.

Lemma wp_memcpy {A} (dst src : list A) d s n (Q : list A -> Prop) :
  0 <= d -> 0 <= s -> d + n <= zlen dst -> s + n <= zlen src ->
  (forall dst', zlen dst' = zlen dst -> Q dst') ->
  wp (memcpy dst d src s n) Q.
Proof.
  intros ? ? ? ? HQ. destruct (Z.le_gt_cases 0 n).
  - destruct (memcpy_ok dst src d s n) as (q & -> & Hl & _); try done. by apply HQ.
  - unfold memcpy. replace (Z.to_nat n) with O by lia. by apply HQ.
Qed.

Lemma wp_scan {A} (l : list A) n P (Q : option Z -> Prop) :
  n <= zlen l -> (forall r, scan_post l n P r -> Q r) -> wp (scan l n P) Q.
Proof. intros Hn HQ. destruct (scan_spec l n P Hn) as (r & -> & Hr). by apply HQ. Qed.

Lemma wp_for_up {S} (I : Z -> S -> Prop) n i body (s : S) (Q : S -> Prop) :
  I i s ->
  (forall j s, i <= j < i + Z.of_nat n -> I j s -> wp (body j s) (I (j + 1))) ->
  (forall s, I (i + Z.of_nat n) s -> Q s) ->
  wp (for_up n i body s) Q.
Proof.
  intros Hi Hb HQ. destruct (for_up_rule I n i body s) as (s' & -> & Hs'); [|done|by apply HQ].
  intros j s1 Hj H1. by apply wp_ok, Hb.
Qed.

Lemma wp_iterate {S B} (I : S -> Prop) (m : S -> nat) fuel body (s : S) (Q : B -> Prop) :
  I s -> (m s < fuel)%nat ->
  (forall s, I s -> wp (body s) (fun r =>
     match r with inl s' => I s' /\ (m s' < m s)%nat | inr b => Q b end)) ->
  wp (iterate fuel body s) Q.
Proof.
  intros Hi Hm Hb. apply wp_ok. apply iterate_rule with (I := I) (m := m); [|done|done].
  intros s1 H1. by apply wp_ok, Hb.
Qed.

Lemma wp_bytes_are p off l (Q : bool -> Prop) :
  0 <= off -> off + zlen l <= zlen p -> (forall b, Q b) -> wp (bytes_are p off l) Q.
Proof.
  revert off. induction l as [|x l IH]; intros off H0 Hl HQ; simpl; [apply HQ|].
  assert (zlen (x :: l) = 1 + zlen l) by (unfold zlen; simpl length; lia).
  pose proof (zlen_nonneg l). apply wp_bind, wp_rd; [lia|]. intros b _.
  destruct (b =? x); [apply IH; [lia|lia|done] | apply HQ].
Qed.

(** A sequence of stores at distinct indices. *)
Lemma wrs_ok {A} (l : list (Z * A)) p :
  NoDup l.*1 -> Forall (fun k => 0 <= k < zlen p) l.*1 ->
  exists p', wrs p l = Ok p' /\ zlen p' = zlen p /\
    (forall k v, In (k, v) l -> rd p' k = Ok v) /\
    (forall j, ~ In j l.*1 -> rd p' j = rd p j).
Proof.
  revert p. induction l as [|[k v] l IH]; intros p Hd Hr; simpl in *; [by exists p|].
  inversion_clear Hd as [|? ? Hk Hd1]. inversion_clear Hr as [|? ? Hkr Hr1].
  rewrite wr_in by done. cbn [rbind].
  destruct (IH (<[Z.to_nat k := v]> p) Hd1) as (p' & -> & Hl & Hin & Hout).
  { rewrite zlen_insert. done. }
  exists p'. split; [done|]. split; [by rewrite Hl, zlen_insert|]. split.
  - intros k' v' [[= <- <-]|H]; [|by apply Hin].
    rewrite Hout; [by apply rd_insert_eq|]. by rewrite <- list_elem_of_In.
  - intros j Hj. rewrite Hout by tauto. destruct (decide (0 <= j)).
    + apply rd_insert_ne; [lia|done|tauto].
    + rewrite !rd_out by lia. done.
Qed.

(** One step of a [wp] proof: reads and writes at provable indices, sequencing,
    conditionals and pairs. *)
Ltac wp_step :=
  lazymatch goal with
  | |- wp (Ok _) _ => cbn [wp]
  | |- wp (rbind _ _) _ => apply wp_bind
  | |- wp (rd _ _) _ =>
      let x := fresh "x" in let Hx := fresh "Hx" in apply wp_rd; [try lia | intros x Hx]
  | |- wp (wr _ _ _) _ => apply wp_wr; [try lia|]
  | |- wp (memcpy _ _ _ _ _) _ =>
      let q := fresh "q" in let Hq := fresh "Hq" in
      apply wp_memcpy; [try lia | try lia | try lia | try lia | intros q Hq]
  | |- wp (bytes_are _ _ _) _ =>
      let b := fresh "b" in apply wp_bytes_are; [try lia | try (unfold zlen in *; simpl; lia) | intros b]
  | |- wp (if ?b then _ else _) _ => let Hc := fresh "Hc" in destruct b eqn:Hc
  | |- wp (let '(_, _) := ?p in _) _ => destruct p
  | |- wp (match ?x with Some _ => _ | None => _ end) _ => destruct x eqn:?
  | |- forall _, _ => intros
  end.
Ltac wp_go := repeat (cbn beta zeta; wp_step).

(** ** Record update

    [r <| f := v |>] is [r] with field [f] set to [v], for every record type
    with an [Eta] instance; [r <| f ::= g |>] applies [g] to the field. *)
Class Eta (R : Type) := eta : R -> R.
Class Upd {R T : Type} (f : R -> T) := upd : (T -> T) -> R -> R.
Arguments upd {R T} f {Upd} g r /.

Ltac derive_upd :=
  lazymatch goal with
  | |- @Upd ?R ?T ?f =>
      let inst := constr:(_ : Eta R) in
      let e := eval hnf in inst in
      let e := eval pattern f in e in
      lazymatch e with
      | ?h f => let u := constr:(fun (g : T -> T) => h (fun r : R => g (f r))) in
                let u := eval cbv beta in u in exact u
      end
  end.
#[export] Hint Extern 1 (Upd _) => derive_upd : typeclass_instances.

Notation "r <| f ::= g |>" := (upd f g r)
  (at level 1, left associativity, f at level 0, g at level 200) : cx_scope.
Notation "r <| f := v |>" := (upd f (fun _ => v) r)
  (at level 1, left associativity, f at level 0, v at level 200) : cx_scope.

(** ** Automation *)

(** Peel a chain of [let!] equal to [Ok _] in the hypotheses. *)
Ltac inv_ok :=
  repeat match goal with
  | H : rbind _ _ = Ok _ |- _ =>
      let x := fresh "x" in let Hx := fresh "Hx" in
      apply rbind_ok_inv in H as (x & Hx & H)
  | H : Ok _ = Ok _ |- _ => injection H as H; try subst
  | H : Err _ = Ok _ |- _ => discriminate H
  | H : Ok _ = Err _ |- _ => discriminate H
  end.

(** Splits a conjunction, and nothing inside its parts. *)
Ltac conjs := repeat match goal with |- _ /\ _ => split end.

(** Replace an in-range read in the goal by [Ok] of a fresh value. *)
Ltac step_rd :=
  match goal with
  | |- context [rbind (rd ?l ?i) _] =>
      let x := fresh "b" in let Hx := fresh "Hb" in
      let H := fresh in
      assert (H : is_ok (rd l i)) by (apply rd_in; lia);
      destruct H as [x Hx]; rewrite Hx; cbn [rbind]
  end.

(** [lia] with [/] and [mod] by literals. *)
Ltac dlia := Z.div_mod_to_equations; lia.

Create HintDb cx discriminated.
Create Rewrite HintDb cx.
#[export] Hint Resolve is_ok_Ok zlen_nonneg wrap_fits : cx.
#[export] Hint Rewrite @zlen_app @zlen_insert @zlen_replicate : cx.
