(* ===== verification/CbUtil.v ===== *)
(** * Software utilities of the display BIOS layer

    [cbios/Device/CBiosShare.c], [cbios/Util/CBiosUtil.c] and the checksum
    routines of [cbios/Device/CBiosDeviceShare.c]: rounding division, refresh
    rates, the CVT timing calculation, block checksums, the string helpers.
    Byte buffers are lists of [Z]; strings are such buffers, read up to their
    terminating zero through the bounds-checked [rd] and [wr]. *)
From S2P Require Import Prelude.
From Stdlib Require Ascii String.

(** [CBIOS_ROUND_METHOD] *)
Inductive CBIOS_ROUND_METHOD : Set := ROUND_DOWN | ROUND_UP | ROUND_NEAREST.

(** [cbRound]: all operands are [CBIOS_U32]. *)
Definition cbRound (Dividend Divisor : Z) (RoundMethod : CBIOS_ROUND_METHOD) : Z :=
  if Divisor =? 0 then 0
  else
    let ulRemainder := Dividend mod Divisor in
    let ulRet := Dividend / Divisor in
    match RoundMethod with
    | ROUND_UP => if negb (ulRemainder =? 0) then u32 (ulRet + 1) else ulRet
    | ROUND_NEAREST => if Divisor <=? u32 (ulRemainder * 2) then u32 (ulRet + 1) else ulRet
    | ROUND_DOWN => ulRet
    end.

(** [cbCalcRefreshRate]: the refresh rate in units of 0.01 Hz. *)
Definition cbCalcRefreshRate (PixelClock HTotal VTotal : Z) : Z :=
  if (HTotal =? 0) || (VTotal =? 0) then 0
  else
    let Temp := u32 (PixelClock * 100) / HTotal in
    let Temp := u32 (Temp * 100) / VTotal in
    u16 Temp.

(** [cbGetVsyncWidth] *)
Definition cbGetVsyncWidth (XRes YRes : Z) : Z :=
  if YRes =? 0 then 10
  else
    let ulTemp := u32 (XRes * 100) / YRes in
    if ulTemp =? 133 then 4
    else if ulTemp =? 177 then 5
    else if ulTemp =? 160 then 6
    else if ulTemp =? 166 then 7
    else 10.

(** [cbGetCheckSum]: the sum of the first [uLength] bytes, modulo 256. *)
Definition cbGetCheckSum (pByte : list Z) (uLength : Z) : res Z :=
  for_up (Z.to_nat uLength) 0
    (fun i ByteVal => let! b := rd pByte i in Ok (u8 (ByteVal + b))) 0.

(** [EDID_BLK_SIZE] *)
Definition EDID_BLK_SIZE : Z := 128.

(** [cbIsEdidChecksumValid]; the loop state is ([i], [checksum]), and the loop
    leaves with [bRet]. *)
Definition cbIsEdidChecksumValid (pEdid : list Z) (ulLength : Z) : res bool :=
  if (ulLength =? 0) || negb (ulLength mod EDID_BLK_SIZE =? 0) then Ok false
  else
    iterate (S (Z.to_nat ulLength))
      (fun '(i, checksum) =>
         if i <? ulLength then
           let! b := rd pEdid i in
           let checksum := u8 (checksum + b) in
           if ((i + 1) mod EDID_BLK_SIZE =? 0) && negb (checksum =? 0) then Ok (inr false)
           else Ok (inl (i + 1, checksum))
         else Ok (inr true))
      (0, 0).

(** [cbFixEdidChecksum]: rewrite the last byte of each 128-byte block. *)
Definition cbFixEdidChecksum (pEdidData : list Z) (ulLength : Z) : res (list Z) :=
  let ulOnceBlockSize := 128 in
  if (ulLength =? 0) || negb (ulLength mod ulOnceBlockSize =? 0) then Ok pEdidData
  else
    iterate (S (Z.to_nat ulLength))
      (fun '(i, checksum, p) =>
         if i <? ulLength then
           let! b := rd p i in
           let checksum := u8 (checksum + b) in
           if (i + 2) mod ulOnceBlockSize =? 0 then
             let! p := wr p (i + 1) (u8 (u8 (Z.lnot checksum) + 1)) in
             Ok (inl (i + 2, 0, p))
           else Ok (inl (i + 1, checksum, p))
         else Ok (inr p))
      (0, 0, pEdidData).

(** [GET_LAST_BIT], [cbGetBitsNum] *)
Definition GET_LAST_BIT (N : Z) : Z := Z.land (u32 (Z.lnot (u32 (N - 1)))) N.

Definition cbGetBitsNum (N : Z) : res Z :=
  iterate 33
    (fun '(N, Num) =>
       if negb (N =? 0) then Ok (inl (Z.land N (u32 (Z.lnot (GET_LAST_BIT N))), u8 (Num + 1)))
       else Ok (inr Num))
    (N, 0).

(** [cbGetLastBitIndex]: a population count of [(i - 1) & ~i]. *)
Definition cbGetLastBitIndex (i : Z) : Z :=
  let index := i in
  let index := Z.land (u32 (index - 1)) (u32 (Z.lnot index)) in
  let index := u32 (Z.land index 0x55555555 + Z.land (Z.shiftr index 1) 0x55555555) in
  let index := u32 (Z.land index 0x33333333 + Z.land (Z.shiftr index 2) 0x33333333) in
  let index := u32 (Z.land index 0x0F0F0F0F + Z.land (Z.shiftr index 4) 0x0F0F0F0F) in
  u32 (Z.land index 0xFF + Z.shiftr (Z.land index 0xFF00) 8 +
       Z.shiftr (Z.land index 0xFF0000) 16 + Z.shiftr (Z.land index 0xFF000000) 24).

(** [cbConvertDeviceBit2Index]; the assertion on a single-bit argument does
    not change the result. *)
Definition CBIOS_MAX_DISPLAY_DEVICES_NUM : Z := 32.
Definition cbConvertDeviceBit2Index (DeviceBit : Z) : res Z :=
  iterate 33
    (fun '(i, DevMask) =>
       if i <? CBIOS_MAX_DISPLAY_DEVICES_NUM then
         if negb (Z.land DeviceBit DevMask =? 0) then Ok (inr i)
         else Ok (inl (i + 1, u32 (Z.shiftl DevMask 1)))
       else Ok (inr i))
    (0, 1).

(** ** Strings *)

(** The digit alphabet of [cbItoA]: "0123456789ABC...XYZ". *)
Definition digit_char (d : Z) : Z := if d <? 10 then 48 + d else 55 + d.

(** [cbItoA]: the value in base [byRadix], [ulLength] digits (all of them when
    [ulLength] is zero), zero padded and zero terminated, in [pStr]. *)
Definition cbItoA (ulValue : Z) (pStr : list Z) (byRadix ulLength : Z) : res (bool * list Z) :=
  if (byRadix <? 2) || (36 <? byRadix) then Ok (false, pStr)
  else
    (* do { pStr[i++] = index[v % radix]; v /= radix } while (...) *)
    let! '(i, pStr) :=
      iterate 33
        (fun '(i, v, p) =>
           let! p := wr p i (digit_char (v mod byRadix)) in
           let i := i + 1 in
           let v := v / byRadix in
           if negb (v =? 0) && ((i <? ulLength) || (ulLength =? 0)) then Ok (inl (i, v, p))
           else Ok (inr (i, p)))
        (0, ulValue, pStr) in
    (* fill '0' to upper digits *)
    let! '(i, pStr) :=
      iterate (S (Z.to_nat ulLength))
        (fun '(i, p) =>
           if i <? ulLength then let! p := wr p i 48 in Ok (inl (i + 1, p))
           else Ok (inr (i, p)))
        (i, pStr) in
    let! pStr := wr pStr i 0 in
    (* reverse in place *)
    let! pStr :=
      for_up (Z.to_nat (i / 2)) 0
        (fun j p =>
           let! ulTmp := rd p j in
           let! c := rd p (i - j - 1) in
           let! p := wr p j c in
           wr p (i - j - 1) ulTmp)
        pStr in
    Ok (true, pStr).

(** [cbStrLen] *)
Definition cbStrLen (pStrSrc : list Z) : res Z :=
  iterate (S (length pStrSrc))
    (fun i => let! c := rd pStrSrc i in if negb (c =? 0) then Ok (inl (i + 1)) else Ok (inr i)) 0.

(** [cbStrCat]: find the end of [pStrDst], then copy [pStrSrc] up to its zero. *)
Definition cbStrCat (pStrDst pStrSrc : list Z) : res (list Z) :=
  let! pTmp := cbStrLen pStrDst in
  let! '(k, dst) :=
    iterate (S (length pStrSrc))
      (fun '(k, dst) =>
         let! c := rd pStrSrc k in
         if negb (c =? 0) then let! dst := wr dst (pTmp + k) c in Ok (inl (k + 1, dst))
         else Ok (inr (k, dst)))
      (0, pStrDst) in
  wr dst (pTmp + k) 0.

(** [cbStrnCmp]: zero when the first [Lenth] characters agree (or both strings
    end first). *)
Definition cbStrnCmp (pStr1 pStr2 : list Z) (Lenth : Z) : res Z :=
  iterate (S (Z.to_nat Lenth))
    (fun i =>
       if i <? Lenth then
         let! a := rd pStr1 i in
         let! b := rd pStr2 i in
         if (a =? 0) || (b =? 0) || negb (a =? b) then Ok (inr (a - b)) else Ok (inl (i + 1))
       else Ok (inr 0))
    0.

(** A string literal with its terminating zero. *)
Fixpoint cstr (s : String.string) : list Z :=
  match s with
  | String.EmptyString => [0]
  | String.String c s' => Z.of_N (Ascii.N_of_ascii c) :: cstr s'
  end.

(** ** Block checksums: properties *)

Definition zsum (l : list Z) : Z := foldr Z.add 0 l.

(** The sum of the first [n] bytes, and of the [k]-th block of an EDID. *)
Definition psum (p : list Z) (n : Z) : Z := zsum (take (Z.to_nat n) p).
Definition edid_block (p : list Z) (k : Z) : list Z := take 128 (drop (Z.to_nat (128 * k)) p).

Lemma zsum_app l k : zsum (l ++ k) = zsum l + zsum k.
Proof. induction l as [|a l IH]; simpl; [done|]. rewrite IH. lia. Qed.

Lemma psum_0 p : psum p 0 = 0.
Proof. done. Qed.

Lemma psum_step p i b : rd p i = Ok b -> psum p (i + 1) = psum p i + b.
Proof.
  intros [Hi Hb]%rd_inv. unfold psum.
  replace (Z.to_nat (i + 1)) with (S (Z.to_nat i)) by lia.
  rewrite (take_S_r _ _ _ Hb), zsum_app. simpl. lia.
Qed.

Lemma psum_insert p i j v : i <= j -> psum (<[Z.to_nat j := v]> p) i = psum p i.
Proof. intros. unfold psum. rewrite take_insert_ge by lia. done. Qed.

Lemma psum_block p k :
  0 <= k -> psum p (128 * (k + 1)) = psum p (128 * k) + zsum (edid_block p k).
Proof.
  intros Hk. unfold psum, edid_block.
  replace (Z.to_nat (128 * (k + 1))) with (Z.to_nat (128 * k) + 128)%nat by lia.
  rewrite <- zsum_app, take_take_drop. done.
Qed.

(** All prefix sums vanish at block boundaries iff all block sums do. *)
Lemma psum_blocks p n :
  0 <= n ->
  (forall k, 0 <= k <= n -> psum p (128 * k) mod 256 = 0) <->
  (forall k, 0 <= k < n -> zsum (edid_block p k) mod 256 = 0).
Proof.
  intros Hn. split.
  - intros H k Hk. pose proof (H k ltac:(lia)) as H1. pose proof (H (k + 1) ltac:(lia)) as H2.
    rewrite psum_block in H2 by lia. rewrite Z.add_mod, H1 in H2 by lia.
    rewrite Z.add_0_l, Z.mod_mod in H2 by done. done.
  - intros H k [Hk0 Hk]. revert Hk. pattern k. apply natlike_ind; [done| |done].
    intros j Hj IH Hle. replace (Z.succ j) with (j + 1) by lia.
    rewrite psum_block, Z.add_mod, IH, H by lia. done.
Qed.

Lemma two_complement c : u8 (u8 (Z.lnot c) + 1) = (- c) mod 256.
Proof.
  rewrite wrap_add_l by lia. unfold wrap, Z.lnot. by replace (Z.pred (- c) + 1) with (- c) by lia.
Qed.

Lemma neg_mod_cancel s : (s + (- (s mod 256)) mod 256) mod 256 = 0.
Proof.
  rewrite Zplus_mod_idemp_r. replace (s + - (s mod 256)) with (s / 256 * 256) by dlia.
  by apply Z.mod_mul.
Qed.

(** [cbIsEdidChecksumValid] in terms of prefix sums. *)
Lemma cbIsEdidChecksumValid_psum p n :
  0 < n -> 128 * n <= zlen p ->
  exists b, cbIsEdidChecksumValid p (128 * n) = Ok b /\
    (b = true <-> forall k, 0 <= k <= n -> psum p (128 * k) mod 256 = 0).
Proof.
  intros Hn Hlen. unfold cbIsEdidChecksumValid, EDID_BLK_SIZE.
  rewrite (Z.mul_comm 128 n), Z.mod_mul, (Z.mul_comm n 128) by done.
  destruct (128 * n =? 0) eqn:?; [lia|]. cbn [orb negb Z.eqb].
  apply iterate_rule with
    (I := fun '(i, c) => 0 <= i <= 128 * n /\ c = psum p i mod 256 /\
            forall k, 0 <= 128 * k <= i -> psum p (128 * k) mod 256 = 0)
    (m := fun '(i, _) => Z.to_nat (128 * n - i)).
  - intros [i c] (Hi & -> & Hb). destruct (Z.ltb_spec i (128 * n)).
    + step_rd. apply psum_step in Hb0.
      assert (Hc : u8 (psum p i mod 256 + b) = psum p (i + 1) mod 256).
      { unfold wrap. rewrite Hb0. by rewrite Zplus_mod_idemp_l. }
      rewrite Hc. clear Hc.
      destruct (Z.eqb_spec ((i + 1) mod 128) 0) as [Hm|Hm];
        [destruct (Z.eqb_spec (psum p (i + 1) mod 256) 0) as [H0|H0]|]; cbn [andb negb];
        eexists; (split; [reflexivity|]); cbn beta iota.
      * split; [|lia]. split; [lia|]. split; [done|]. intros k Hk.
        destruct (Z.eq_dec (128 * k) (i + 1)) as [->|]; [done|]. apply Hb; lia.
      * split; [done|]. intros Hall. exfalso. apply H0.
        rewrite (Z.div_mod (i + 1) 128), Hm, Z.add_0_r by done. apply Hall.
        split; [apply Z.div_pos; lia|]. apply Z.div_le_upper_bound; lia.
      * split; [|lia]. split; [lia|]. split; [done|]. intros k Hk.
        destruct (Z.eq_dec (128 * k) (i + 1)) as [E|]; [|apply Hb; lia].
        exfalso; apply Hm. rewrite <- E, Z.mul_comm. by apply Z.mod_mul.
    + eexists; split; [reflexivity|]. cbn beta iota. split; [|done]. intros _ k Hk. apply Hb; lia.
  - split; [lia|]. split; [done|]. intros k Hk. assert (k = 0) as -> by lia. done.
  - lia.
Qed.

(** Both directions of the validator's answer. *)
Lemma cbIsEdidChecksumValid_run p ulLength :
  0 <= ulLength <= zlen p ->
  exists b, cbIsEdidChecksumValid p ulLength = Ok b /\
    (b = true <->
     0 < ulLength /\ ulLength mod 128 = 0 /\
     forall k, 0 <= k < ulLength / 128 -> zsum (edid_block p k) mod 256 = 0).
Proof.
  intros Hl. destruct (Z.eq_dec ulLength 0) as [->|H0].
  { exists false. split; [done|]. split; [done|lia]. }
  destruct (Z.eq_dec (ulLength mod 128) 0) as [Hm|Hm].
  - set (n := ulLength / 128). assert (En : ulLength = 128 * n) by (unfold n; dlia).
    destruct (cbIsEdidChecksumValid_psum p n) as (b & Hb & Hiff); [lia|lia|].
    exists b. rewrite En, Hb. split; [done|]. rewrite Hiff, psum_blocks by lia.
    rewrite <- En. split; [intros; repeat split; [lia|done|done] | by intros (_ & _ & ?)].
  - exists false. unfold cbIsEdidChecksumValid, EDID_BLK_SIZE.
    apply Z.eqb_neq in Hm. rewrite Hm. cbn [negb]. rewrite orb_true_r. split; [done|].
    apply Z.eqb_neq in Hm. split; [done|by intros (_ & ? & _)].
Qed.

(** [cbIsEdidChecksumValid] answers (without leaving the buffer) whether
    the length is a positive number of 128-byte blocks each of which sums to
    zero modulo 256. *)
Theorem cbIsEdidChecksumValid_spec p ulLength :
  0 <= ulLength <= zlen p ->
  exists b, cbIsEdidChecksumValid p ulLength = Ok b /\
    (b = true <->
     0 < ulLength /\ ulLength mod 128 = 0 /\
     forall k, 0 <= k < ulLength / 128 -> zsum (edid_block p k) mod 256 = 0).
Proof. apply cbIsEdidChecksumValid_run. Qed.

Lemma cbIsEdidChecksumValid_spec_witness :
  exists b, cbIsEdidChecksumValid (repeat 2 256) 256 = Ok b /\
    (b = true <->
     0 < 256 /\ 256 mod 128 = 0 /\
     forall k, 0 <= k < 256 / 128 -> zsum (edid_block (repeat 2 256) k) mod 256 = 0).
Proof. apply cbIsEdidChecksumValid_spec. vm_compute. split; discriminate. Defined.

(** Loop invariant of [cbFixEdidChecksum]. *)
Definition fix_inv (p0 : list Z) (L : Z) (st : Z * Z * list Z) : Prop :=
  let '(i, c, p) := st in
  0 <= i <= L /\ (i + 1) mod 128 <> 0 /\ zlen p = zlen p0 /\ c = psum p i mod 256 /\
  (forall k, 0 <= 128 * k <= i -> psum p (128 * k) mod 256 = 0) /\
  (forall j, 0 <= j -> (j + 1) mod 128 <> 0 -> rd p j = rd p0 j).

Lemma cbFixEdidChecksum_run p n :
  0 < n -> 128 * n <= zlen p ->
  exists p', cbFixEdidChecksum p (128 * n) = Ok p' /\
    zlen p' = zlen p /\
    (forall k, 0 <= k <= n -> psum p' (128 * k) mod 256 = 0) /\
    (forall j, 0 <= j -> (j + 1) mod 128 <> 0 -> rd p' j = rd p j).
Proof.
  intros Hn Hlen. unfold cbFixEdidChecksum.
  rewrite (Z.mul_comm 128 n), Z.mod_mul, (Z.mul_comm n 128) by done.
  destruct (128 * n =? 0) eqn:?; [lia|]. cbn [orb negb Z.eqb].
  apply iterate_rule with (I := fix_inv p (128 * n))
    (m := fun '(i, _, _) => Z.to_nat (128 * n - i)).
  - intros [[i c] q] (Hi & Hmod & Hq & -> & Hb & Hk). destruct (Z.ltb_spec i (128 * n)).
    + assert (i + 1 < 128 * n).
      { destruct (Z.eq_dec (i + 1) (128 * n)) as [E|]; [|lia].
        exfalso; apply Hmod. rewrite E, Z.mul_comm. by apply Z.mod_mul. }
      step_rd. pose proof (psum_step _ _ _ Hb0) as Hs.
      assert (Hc : u8 (psum q i mod 256 + b) = psum q (i + 1) mod 256).
      { unfold wrap. rewrite Hs. by rewrite Zplus_mod_idemp_l. }
      rewrite Hc. clear Hc. destruct (Z.eqb_spec ((i + 2) mod 128) 0) as [Hm|Hm].
      * rewrite two_complement, wr_in by lia. cbn [rbind].
        set (v := (- (psum q (i + 1) mod 256)) mod 256). set (q' := <[Z.to_nat (i + 1) := v]> q).
        assert (Hlast : psum q' (i + 2) mod 256 = 0).
        { replace (i + 2) with (i + 1 + 1) by lia.
          rewrite (psum_step q' (i + 1) v) by (apply rd_insert_eq; lia).
          unfold q'. rewrite psum_insert by lia. apply neg_mod_cancel. }
        eexists; split; [reflexivity|]. cbn beta iota. split; [|lia].
        split; [lia|]. split; [replace (i + 2 + 1) with (1 + (i + 2)) by lia;
          rewrite <- Zplus_mod_idemp_r, Hm; done|].
        split; [unfold q'; by rewrite zlen_insert|]. split; [done|]. split.
        -- intros k Hk'. destruct (Z.eq_dec (128 * k) (i + 2)) as [->|]; [done|].
           unfold q'. rewrite psum_insert by lia. apply Hb. split; [lia|].
           destruct (Z.eq_dec (128 * k) (i + 1)) as [E|]; [|lia].
           exfalso; apply Hmod. rewrite <- E, Z.mul_comm. by apply Z.mod_mul.
        -- intros j Hj Hjm. rewrite <- Hk by done. unfold q'. apply rd_insert_ne; [lia|lia|].
           intros <-. apply Hjm. by replace (i + 1 + 1) with (i + 2) by lia.
      * eexists; split; [reflexivity|]. cbn beta iota. split; [|lia]. split; [lia|].
        split; [by replace (i + 1 + 1) with (i + 2) by lia|]. split; [done|]. split; [done|].
        split; [|done]. intros k Hk'. apply Hb. split; [lia|].
        destruct (Z.eq_dec (128 * k) (i + 1)) as [E|]; [|lia].
        exfalso; apply Hmod. rewrite <- E, Z.mul_comm. by apply Z.mod_mul.
    + eexists; split; [reflexivity|]. cbn beta iota. split; [done|]. split; [|done].
      intros k Hk'. apply Hb; lia.
  - split; [lia|]. split; [done|]. split; [done|]. split; [done|]. split; [|done].
    intros k Hk. assert (k = 0) as -> by lia. done.
  - lia.
Qed.

(** [cbFixEdidChecksum] makes a whole-block buffer pass
    [cbIsEdidChecksumValid], keeps its length and changes only the last byte of
    each block. *)
Theorem cbFixEdidChecksum_valid p n :
  0 < n -> 128 * n <= zlen p ->
  exists p', cbFixEdidChecksum p (128 * n) = Ok p' /\
    cbIsEdidChecksumValid p' (128 * n) = Ok true /\ zlen p' = zlen p /\
    forall j, 0 <= j -> (j + 1) mod 128 <> 0 -> rd p' j = rd p j.
Proof.
  intros Hn Hl. destruct (cbFixEdidChecksum_run p n Hn Hl) as (p' & Hp & Hlen & Hs & Hk).
  exists p'. destruct (cbIsEdidChecksumValid_psum p' n) as (b & Hb & Hiff); [done|lia|].
  rewrite Hb. by rewrite (proj2 Hiff Hs).
Qed.

Lemma cbFixEdidChecksum_valid_witness :
  exists p', cbFixEdidChecksum (seqZ 0 256) (128 * 2) = Ok p' /\
    cbIsEdidChecksumValid p' (128 * 2) = Ok true /\ zlen p' = zlen (seqZ 0 256) /\
    forall j, 0 <= j -> (j + 1) mod 128 <> 0 -> rd p' j = rd (seqZ 0 256) j.
Proof. apply (cbFixEdidChecksum_valid (seqZ 0 256) 2); [lia | vm_compute; discriminate]. Defined.

(** ** Bit scans: properties *)

Lemma lowest_mask i n :
  fits 32 i -> lowest_bit i n -> Z.land (u32 (i - 1)) (u32 (Z.lnot i)) = Z.ones n.
Proof.
  intros Hi H. pose proof H as (Hn & Hb & Hl). apply Z.bits_inj'. intros m Hm.
  assert (n < 32). { destruct (Z.lt_ge_cases n 32); [done|].
    by rewrite (testbit_fits_high 32) in Hb. }
  rewrite Z.land_spec. destruct (Z.lt_ge_cases m 32).
  - rewrite !testbit_wrap, (testbit_pred _ _ _ H), Z.lnot_spec by lia.
    destruct (Z.ltb_spec m n); [rewrite Hl, Z.ones_spec_low by lia; done|].
    rewrite Z.ones_spec_high by lia.
    destruct (Z.eqb_spec m n); [done|]. by destruct (Z.testbit i m).
  - rewrite !testbit_wrap_high by lia. by rewrite Z.ones_spec_high by lia.
Qed.

Lemma GET_LAST_BIT_lowest N n : fits 32 N -> lowest_bit N n -> GET_LAST_BIT N = 2 ^ n.
Proof.
  intros HN H. pose proof H as (Hn & Hb & Hl). unfold GET_LAST_BIT.
  apply Z.bits_inj'. intros m Hm. rewrite Z.land_spec, Z.pow2_bits_eqb by done.
  destruct (Z.lt_ge_cases m 32).
  - rewrite testbit_wrap, Z.lnot_spec, testbit_wrap, (testbit_pred _ _ _ H) by lia.
    destruct (Z.ltb_spec m n), (Z.eqb_spec m n), (Z.eqb_spec n m); subst; try lia; try done.
    by destruct (Z.testbit N m).
  - rewrite testbit_wrap_high by lia. destruct (Z.eqb_spec n m); [|done].
    subst. by rewrite (testbit_fits_high 32) in Hb.
Qed.

(** [cbGetLastBitIndex] returns the index of the lowest set bit of any
    non-zero 32-bit word. *)
Theorem cbGetLastBitIndex_lowest i n :
  fits 32 i -> lowest_bit i n -> cbGetLastBitIndex i = n.
Proof.
  intros Hi H. unfold cbGetLastBitIndex. rewrite (lowest_mask i n) by done.
  destruct H as (Hn & Hb & _).
  assert (Hlt : n < 32). { destruct (Z.lt_ge_cases n 32); [done|].
    by rewrite (testbit_fits_high 32) in Hb. }
  clear - Hn Hlt. apply Z.eqb_eq.
  match goal with |- (?g =? _) = true => let f := eval pattern n in g in
    lazymatch f with ?f _ =>
      assert (Hall : forallb (fun k => f k =? k) (seqZ 0 32) = true) by reflexivity;
      apply (proj1 (forallb_forall _ _) Hall)
    end
  end.
  apply list_elem_of_In, elem_of_seqZ. lia.
Qed.

Lemma cbGetLastBitIndex_lowest_witness : cbGetLastBitIndex 0xB0 = 4.
Proof.
  apply cbGetLastBitIndex_lowest; [done|]. split; [done|]. split; [done|].
  intros m Hm. assert (m = 0 \/ m = 1 \/ m = 2 \/ m = 3) as [->|[->|[->| ->]]] by lia; done.
Defined.

(** ** Strings: properties *)

(** A buffer that holds the zero terminated string [s], then [k]. *)
Definition nz (s : list Z) : Prop := Forall (fun c => c <> 0) s.

Lemma rd_mid {A} (l : list A) x k i : i = zlen l -> rd (l ++ x :: k) i = Ok x.
Proof. intros ->. rewrite rd_app_r by lia. by rewrite Z.sub_diag. Qed.

Lemma wr_mid {A} (l : list A) x y k i : i = zlen l -> wr (l ++ x :: k) i y = Ok (l ++ y :: k).
Proof.
  intros ->. rewrite wr_in by (rewrite zlen_app, zlen_cons; pose proof (zlen_nonneg k);
    pose proof (zlen_nonneg l); lia).
  f_equal. unfold zlen. rewrite Nat2Z.id, insert_app_r_alt by lia. by rewrite Nat.sub_diag.
Qed.

Lemma cbStrLen_run s k : nz s -> cbStrLen (s ++ 0 :: k) = Ok (zlen s).
Proof.
  intros Hs. unfold cbStrLen.
  destruct (iterate_rule (fun i => 0 <= i <= zlen s) (fun i => i = zlen s)
    (fun i => Z.to_nat (zlen s - i)) (S (length (s ++ 0 :: k)))
    (fun i => let! c := rd (s ++ 0 :: k) i in if negb (c =? 0) then Ok (inl (i + 1)) else Ok (inr i)) 0)
    as (n & -> & ->); [|pose proof (zlen_nonneg s); lia| |done].
  - intros i Hi. destruct (Z.eq_dec i (zlen s)) as [->|].
    + rewrite rd_mid by done. cbn [rbind]. rewrite Z.eqb_refl. cbn [negb]. by eexists.
    + destruct (rd_in s i) as [c Hc]; [lia|]. rewrite rd_app_l, Hc by lia. cbn [rbind].
      pose proof (rd_Forall _ _ _ _ Hs Hc) as Hnz. cbn in Hnz.
      destruct (Z.eqb_spec c 0); [done|]. cbn [negb]. eexists; split; [reflexivity|]. cbn beta iota. lia.
  - unfold zlen. rewrite length_app. simpl. lia.
Qed.

(** Appending a string within the room of the destination. *)
Lemma cbStrCat_run s t k m :
  nz s -> nz t -> zlen t <= zlen k ->
  cbStrCat (s ++ 0 :: k) (t ++ 0 :: m) = Ok (s ++ t ++ 0 :: drop (length t) k).
Proof.
  intros Hs Ht Hk. unfold cbStrCat. rewrite cbStrLen_run by done. cbn [rbind].
  (* after [j] characters the destination holds [s ++ take j t], then the rest *)
  set (D := fun j : nat => s ++ take j t ++ drop j (0 :: k)).
  destruct (iterate_rule
    (fun '(i, dst) => exists j, i = Z.of_nat j /\ (j <= length t)%nat /\ dst = D j)
    (fun '(i, dst) => i = zlen t /\ dst = D (length t))
    (fun '(i, _) => Z.to_nat (zlen t - i)) (S (length (t ++ 0 :: m)))
    (fun '(k0, dst) => let! c := rd (t ++ 0 :: m) k0 in
         if negb (c =? 0) then let! dst := wr dst (zlen s + k0) c in Ok (inl (k0 + 1, dst))
         else Ok (inr (k0, dst)))
    (0, s ++ 0 :: k)) as ([i d] & -> & -> & ->).
  - intros [i d] (j & -> & Hj & ->). cbn beta iota. destruct (decide (j = length t)) as [->|].
    + rewrite rd_mid by done. cbn [rbind]. rewrite Z.eqb_refl. cbn [negb]. by eexists.
    + destruct (rd_in t (Z.of_nat j)) as [c Hc]; [unfold zlen; lia|].
      rewrite rd_app_l, Hc by (unfold zlen; lia). cbn [rbind].
      pose proof (rd_Forall _ _ _ _ Ht Hc) as Hnz. cbn in Hnz.
      destruct (Z.eqb_spec c 0); [done|]. cbn [negb].
      apply rd_inv in Hc as [_ Hc]. rewrite Nat2Z.id in Hc. unfold D.
      assert (exists y r, drop j (0 :: k) = y :: r /\ drop (S j) (0 :: k) = r) as (y & r & E1 & E2).
      { destruct (drop j (0 :: k)) as [|y r] eqn:E.
        - apply (f_equal length) in E. rewrite length_drop in E. simpl in E. unfold zlen in Hk. lia.
        - exists y, r. split; [done|]. by rewrite <- Nat.add_1_r, <- drop_drop, E. }
      rewrite E1, app_assoc, wr_mid.
      2: { rewrite zlen_app. unfold zlen. rewrite length_take. lia. }
      cbn [rbind]. eexists; split; [reflexivity|]. cbn beta iota. split; [|unfold zlen; lia].
      exists (S j). split; [lia|]. split; [lia|]. rewrite (take_S_r _ _ _ Hc), E2, <- !app_assoc. done.
  - exists 0%nat. split; [done|]. split; [lia|]. done.
  - cbn. unfold zlen. rewrite length_app. simpl. lia.
  - cbn beta iota. unfold D. rewrite take_ge by lia.
    assert (exists y, drop (length t) (0 :: k) = y :: drop (length t) k) as [y ->].
    { destruct t as [|c t]; [by exists 0|]. simpl. unfold zlen in Hk. simpl in Hk.
      destruct (lookup_lt_is_Some_2 k (length t)) as [y Hy]; [lia|]. exists y.
      by rewrite (drop_S _ _ _ Hy). }
    cbn [rbind]. rewrite app_assoc, wr_mid, <- app_assoc; [done|]. by rewrite zlen_app.
Qed.

(** Two hexadecimal digits of a byte. *)
Definition hex2 (b : Z) : list Z := [digit_char (b / 16); digit_char (b mod 16)].

Lemma cbItoA_hex2 b x y z :
  fits 8 b -> cbItoA b [x; y; z] 16 2 = Ok (true, hex2 b ++ [0]).
Proof.
  intros Hb. revert x y z.
  assert (H : Forall (fun b => forall x y z, cbItoA b [x; y; z] 16 2 = Ok (true, hex2 b ++ [0]))
    (seqZ 0 256)).
  { vm_compute (seqZ 0 256). repeat (apply Forall_cons_2; [intros ? ? ?; reflexivity|]).
    apply Forall_nil_2. }
  rewrite Forall_forall in H. apply H, list_elem_of_In, elem_of_seqZ. exact Hb.
Qed.

Lemma hex2_nz b : fits 8 b -> nz (hex2 b).
Proof.
  intros Hb. unfold fits in Hb. change (2 ^ 8) with 256 in Hb.
  assert (H : forall d, 0 <= d < 16 -> digit_char d <> 0).
  { intros d Hd. unfold digit_char. destruct (Z.ltb_spec d 10); lia. }
  unfold hex2, nz. apply Forall_cons_2; [apply H; dlia|]. apply Forall_cons_2; [apply H; dlia|].
  apply Forall_nil_2.
Qed.
