(* ===== verification/Timing.v ===== *)
(** * Display timings

    The record [CBIOS_TIMING_ATTRIB] of [cbios/CBios.h], the CVT timing
    calculation [cbCalcCustomizedTiming] of [cbios/Util/CBiosUtil.c] and the
    well-formedness of a timing. *)
From S2P Require Import Prelude CbUtil.

(** Sync polarities ([cbios/Device/CBiosChipShare.h]). *)
Definition HorNEGATIVE : Z := 0x40.
Definition HorPOSITIVE : Z := 0x00.
Definition VerNEGATIVE : Z := 0x80.
Definition VerPOSITIVE : Z := 0x00.

(** [CBIOS_TIMING_ATTRIB]: all fields are 16 bits wide but the 32-bit
    [PixelClock]; refresh rates are in 0.01 Hz, clocks in 100 Hz. *)
Record CBIOS_TIMING_ATTRIB := mkTiming {
  Size : Z;
  FormatVIC : Z;
  XRes : Z;
  YRes : Z;
  RefreshRate : Z;
  HVPolarity : Z;
  PixelClock : Z;
  HorTotal : Z;
  HorDisEnd : Z;
  HorBStart : Z;
  HorBEnd : Z;
  HorSyncStart : Z;
  HorSyncEnd : Z;
  VerTotal : Z;
  VerDisEnd : Z;
  VerBStart : Z;
  VerBEnd : Z;
  VerSyncStart : Z;
  VerSyncEnd : Z
}.

#[export] Instance eta_timing : Eta CBIOS_TIMING_ATTRIB := fun r =>
  mkTiming (Size r) (FormatVIC r) (XRes r) (YRes r) (RefreshRate r) (HVPolarity r) (PixelClock r)
    (HorTotal r) (HorDisEnd r) (HorBStart r) (HorBEnd r) (HorSyncStart r) (HorSyncEnd r)
    (VerTotal r) (VerDisEnd r) (VerBStart r) (VerBEnd r) (VerSyncStart r) (VerSyncEnd r).

#[export] Instance timing_eq_dec : EqDecision CBIOS_TIMING_ATTRIB.
Proof. solve_decision. Defined.

(** [TIMING_ATTRIB_SIZE]: [sizeof(CBIOS_TIMING_ATTRIB)], 18 half words and a word. *)
Definition TIMING_ATTRIB_SIZE : Z := 40.

Definition zero_timing : CBIOS_TIMING_ATTRIB :=
  mkTiming 0 0 0 0 0 0 0 0 0 0 0 0 0 0 0 0 0 0 0.

(** [CBIOS_HDMI_FORMAT_MTX] *)
Record CBIOS_HDMI_FORMAT_MTX := mkFmt {
  fmt_FormatVIC : Z;
  fmt_AspectRatio : Z;
  fmt_Interlace : Z;
  fmt_Supported : Z
}.

(** Constants of the CVT calculation ([cbios/Device/CBiosChipShare.h]). *)
Definition CPRIME : Z := 30.
Definition CLOCKSTEP : Z := 25.
Definition HSYNCPERCENT : Z := 8.
Definition MPRIME : Z := 300.
Definition MINVFPORCH : Z := 3.
Definition MINVBPORCH : Z := 6.
Definition MINVBLANKINGPERIOD : Z := 550.
Definition CELLGRAN : Z := 8.

(** [cbCalcCustomizedTiming]: [None] for [CBIOS_FALSE]; every intermediate is
    a [CBIOS_U32]. *)
Definition cbCalcCustomizedTiming (XRes YRes RefreshRate : Z) : option CBIOS_TIMING_ATTRIB :=
  let HorPixels := XRes in
  let VerticalLines := YRes in
  let VerticalSyncWidth := cbGetVsyncWidth XRes YRes in
  let ReqestRefreshRate := if RefreshRate =? 0 then 6000 else RefreshRate in
  let HPeriodEst := u32 (100000000 / ReqestRefreshRate - MINVBLANKINGPERIOD) in
  let Temp := u32 (VerticalLines + MINVFPORCH) in
  let HPeriodEst := cbRound (u32 (HPeriodEst * 100)) Temp ROUND_NEAREST in
  let VSyncBP := u32 (cbRound (100 * MINVBLANKINGPERIOD) HPeriodEst ROUND_NEAREST + 1) in
  let VSyncBP := if VSyncBP <? u32 (VerticalSyncWidth + MINVBPORCH)
                 then u32 (VerticalSyncWidth + MINVBPORCH) else VSyncBP in
  let VerFrontPorch := MINVFPORCH in
  let VerTotal := u32 (VerticalLines + VSyncBP + MINVFPORCH) in
  let VerBlanking := u32 (VerTotal - VerticalLines) in
  let IdealDutyCycle := u32 (100 * CPRIME - u32 (MPRIME * HPeriodEst) / 1000) in
  let mHorBlanking :=
    if IdealDutyCycle <? 2000 then
      Some (u32 (cbRound (u32 (HorPixels * 2000) / (10000 - 2000)) (2 * CELLGRAN) ROUND_NEAREST
                 * 2 * CELLGRAN))
    else if u32 (10000 - IdealDutyCycle) =? 0 then None
    else
      Some (u32 (cbRound (u32 (HorPixels * IdealDutyCycle) / u32 (10000 - IdealDutyCycle))
                   (2 * CELLGRAN) ROUND_NEAREST * 2 * CELLGRAN)) in
  match mHorBlanking with
  | None => None
  | Some HorBlanking =>
      let HorTotal := u32 (HorPixels + HorBlanking) in
      let HorSync := cbRound (u32 (HorTotal * HSYNCPERCENT)) (CELLGRAN * 100) ROUND_NEAREST in
      let HorSync := u32 (HorSync * CELLGRAN) in
      let HorBackPorch := HorBlanking / 2 in
      let HorFrontPorch := u32 (HorBlanking - HorSync - HorBackPorch) in
      let PixelClock := cbRound (u32 (HorTotal * 100 * 100)) HPeriodEst ROUND_NEAREST in
      let PixelClock := cbRound PixelClock CLOCKSTEP ROUND_NEAREST in
      let PixelClock := u32 (PixelClock * CLOCKSTEP) in
      if HorTotal =? 0 then None
      else
        let HorFreq := u32 (1000 * PixelClock) / HorTotal in
        if VerTotal =? 0 then None
        else
          let ActualVerFreq := u32 (1000 * HorFreq) / VerTotal in
          Some (mkTiming 0 0 (u16 HorPixels) (u16 VerticalLines) (u16 ActualVerFreq)
                  (VerPOSITIVE + HorNEGATIVE) (u32 (PixelClock * 100))
                  (u16 HorTotal) (u16 HorPixels) (u16 HorPixels) (u16 HorTotal)
                  (u16 (u32 (HorPixels + HorFrontPorch)))
                  (u16 (u32 (HorPixels + HorFrontPorch + HorSync)))
                  (u16 VerTotal) (u16 VerticalLines) (u16 VerticalLines)
                  (u16 (u32 (VerticalLines + VerBlanking)))
                  (u16 (u32 (VerticalLines + VerFrontPorch)))
                  (u16 (u32 (VerticalLines + VerFrontPorch + VerticalSyncWidth))))
  end.

(** ** Well-formed timings

    Along each axis: active pixels, then the blanking interval that contains
    the sync pulse, all within the total. *)
Definition axis_ok (active dis bstart sstart send bend total : Z) : bool :=
  (0 <? active) && (dis =? active) && (dis <=? bstart) && (bstart <=? sstart) &&
  (sstart <? send) && (send <=? bend) && (bend <=? total).

Definition timing_ok (t : CBIOS_TIMING_ATTRIB) : bool :=
  axis_ok (XRes t) (HorDisEnd t) (HorBStart t) (HorSyncStart t) (HorSyncEnd t) (HorBEnd t) (HorTotal t) &&
  axis_ok (YRes t) (VerDisEnd t) (VerBStart t) (VerSyncStart t) (VerSyncEnd t) (VerBEnd t) (VerTotal t).

Example cvt_1024x768 :
  cbCalcCustomizedTiming 1024 768 6000 =
  Some (mkTiming 0 0 1024 768 5989 0x40 642500 1344 1024 1024 1344 1080 1184 798 768 768 798 771 775).
Proof. vm_compute. reflexivity. Qed.
