(* ===== verification/TimingTables.v ===== *)
(** * Timing tables

    The tables of [cbios/Util/CBiosEDID.c]: the adapter timings, the CEA-861 /
    HDMI video formats indexed by [VIC - 1], the formats the driver supports,
    the established timings of the base EDID block, and the replacement EDIDs
    of known bad panels. *)
From S2P Require Import Prelude CbUtil Timing.

(** Table sizes ([cbios/Util/CBiosEDID.h]). *)
Definition CBIOS_HDMI_NORMAL_VIC_COUNTS : Z := 107.
Definition CBIOS_HDMI_EXTENED_VIC_COUNTS : Z := 4.
Definition CBIOS_HDMIFORMATCOUNTS : Z := CBIOS_HDMI_NORMAL_VIC_COUNTS + CBIOS_HDMI_EXTENED_VIC_COUNTS.

(** ** [AdapterTimingTbl] *)
Definition AdapterTimingTbl_1 : list CBIOS_TIMING_ATTRIB :=
  [mkTiming TIMING_ATTRIB_SIZE 0 640 350 8500 (VerNEGATIVE + HorPOSITIVE) 315000
    832 640 640 (640 + 192) (640 + 32) (640 + 32 + 64) 445 350 350 (350 + 95) (350 + 32) (350 + 32 + 3);
  mkTiming TIMING_ATTRIB_SIZE 0 640 400 8500 (VerPOSITIVE + HorNEGATIVE) 315000
    832 640 640 (640 + 192) (640 + 32) (640 + 32 + 64) 445 400 400 (400 + 45) (400 + 1) (400 + 1 + 3);
  mkTiming TIMING_ATTRIB_SIZE 0 720 400 8500 (VerPOSITIVE + HorNEGATIVE) 355000
    936 720 720 (720 + 216) (720 + 36) (720 + 36 + 72) 446 400 400 (400 + 46) (400 + 1) (400 + 1 + 3);
  mkTiming TIMING_ATTRIB_SIZE 0 640 480 6000 (VerNEGATIVE+HorNEGATIVE) 251750
    (100*8) (80*8) (81*8) ((100-1)*8) (82*8) ((82+12)*8) 525 480 (488+1) (488+29) 490 (490+2);
  mkTiming TIMING_ATTRIB_SIZE 0 640 480 7200 (VerNEGATIVE+HorNEGATIVE) 315000
    (104*8) (80*8) (81*8) ((81+22)*8) (83*8) ((83+5) *8) 520 480 488 (488+24) 489 (489+3);
  mkTiming TIMING_ATTRIB_SIZE 0 640 480 7500 (VerNEGATIVE+HorNEGATIVE) 315000
    (105*8) (80*8) (80*8) ((80+25)*8) (82*8) ((82+8) *8) 500 480 480 (480+20) 481 (481+3);
  mkTiming TIMING_ATTRIB_SIZE 0 640 480 8500 (VerNEGATIVE+HorNEGATIVE) 360000
    (104*8) (80*8) (80*8) ((80+24) *8) (87*8) ((87+7) *8) 509 480 480 (480+29) 481 (481+3)].

Definition AdapterTimingTbl_2 : list CBIOS_TIMING_ATTRIB :=
  [mkTiming TIMING_ATTRIB_SIZE 0 800 600 5600 (VerPOSITIVE+HorPOSITIVE) 360000
    1024 800 800 (800 + 224) (800 + 24) (800 + 24 + 72) 625 600 600 (600 + 25) (600 + 1) (600 + 1 + 2);
  mkTiming TIMING_ATTRIB_SIZE 0 800 600 6000 (VerPOSITIVE+HorPOSITIVE) 400000
    (132*8) (100*8) (100*8) ((100+32) *8) (105*8) ((105+16) *8) 628 600 600 (600+28) 601 (601+4);
  mkTiming TIMING_ATTRIB_SIZE 0 800 600 7200 (VerPOSITIVE+HorPOSITIVE) 500000
    (130*8) (100*8) (100*8) ((100+30)*8) (107*8) ((107+15)*8) 666 600 600 (600+66) 637 (637+6);
  mkTiming TIMING_ATTRIB_SIZE 0 800 600 7500 (VerPOSITIVE+HorPOSITIVE) 495000
    (132*8) (100*8) (100*8) ((100+32) *8) (102*8) ((102+10) *8) 625 600 600 (600+25) 601 (601+3);
  mkTiming TIMING_ATTRIB_SIZE 0 800 600 8500 (VerPOSITIVE+HorPOSITIVE) 562500
    (131*8) (100*8) (100*8) ((100+31)*8) (104*8) ((104+8) *8) 631 600 600 (600+31) 601 (601+3);
  mkTiming TIMING_ATTRIB_SIZE 0 800 600 10000 (VerPOSITIVE+HorNEGATIVE) 672500
    (132*8) (100*8) (100*8) ((100+32) *8) (106*8) ((106+10) *8) 639 600 600 (600+39) 603 (603+4)].

Definition AdapterTimingTbl_3 : list CBIOS_TIMING_ATTRIB :=
  [mkTiming TIMING_ATTRIB_SIZE 0 848 480 6000 (VerPOSITIVE + HorPOSITIVE) 337500
    1088 848 848 (848 + 240) (848 + 16) (848 + 16 +112) 517 480 480 (480 + 37) (480 + 6) (480 + 6 +8);
  mkTiming TIMING_ATTRIB_SIZE 0 1024 768 6000 (VerNEGATIVE+HorNEGATIVE) 650000
    (168*8) (128*8) (128*8) ((128+40) *8) (131*8) ((131+17) *8) 806 768 768 (768+38) 771 (771+6);
  mkTiming TIMING_ATTRIB_SIZE 0 1024 768 7000 (VerNEGATIVE+HorNEGATIVE) 750000
    (166*8) (128*8) (128*8) ((128+38) *8) (131*8) ((131+17) *8) 806 768 768 (768+38) 771 (771+6);
  mkTiming TIMING_ATTRIB_SIZE 0 1024 768 7500 (VerPOSITIVE+HorPOSITIVE) 787500
    (164*8) (128*8) (128*8) ((128+36)*8) (130*8) ((130+12) *8) 800 768 768 (768+32) 769 (769+3);
  mkTiming TIMING_ATTRIB_SIZE 0 1024 768 8500 (VerPOSITIVE+HorPOSITIVE) 945000
    (172*8) (128*8) (128*8) ((128+44)*8) (134*8) ((134+12) *8) 808 768 768 (768+40) 769 (769+3);
  mkTiming TIMING_ATTRIB_SIZE 0 1024 768 10000 (VerPOSITIVE+HorNEGATIVE) 1122500
    (172*8) (128*8) (128*8) ((128+44) *8) (137*8) ((137+13-1) *8) 816 768 768 (768+48) 771 (771+4)].

Definition AdapterTimingTbl_4 : list CBIOS_TIMING_ATTRIB :=
  [mkTiming TIMING_ATTRIB_SIZE 0 1024 768 12000 (VerPOSITIVE+HorNEGATIVE) 1390000
    (176*8) (128*8) (128*8) ((128+48) *8) (138*8) ((138+14) *8) 823 768 768 (768+55) 769 (769+3);
  mkTiming TIMING_ATTRIB_SIZE 0 1152 864 7500 (VerPOSITIVE + HorPOSITIVE) 1080000
    1600 1152 1152 (1152 + 448) (1152 + 64) (1152 + 64 + 128) 900 864 864 (864 + 36) (864 + 1) (864 + 1 + 3);
  mkTiming TIMING_ATTRIB_SIZE 0 1280 720 5000 (VerPOSITIVE+HorPOSITIVE) 742500
    1980 1280 1280 1980 (1280+440) (1280+440+40) 750 720 720 (720+30) 725 (725+5);
  mkTiming TIMING_ATTRIB_SIZE 0 1280 720 6000 (VerPOSITIVE+HorPOSITIVE) 742500
    1650 1280 1280 1650 (1280+110) (1280+110+40) 750 720 720 (720+30) 725 (725+5);
  mkTiming TIMING_ATTRIB_SIZE 0 1280 768 6000 (VerPOSITIVE + HorNEGATIVE) 795000
    1664 1280 1280 (1280 + 384) (1280 + 64) (1280 + 64 + 128) 798 768 768 (768 + 30) (768 + 3) (768 + 3 + 7);
  mkTiming TIMING_ATTRIB_SIZE 0 1280 768 7500 (VerPOSITIVE + HorNEGATIVE) 1022500
    1696 1280 1280 (1280 + 416) (1280 + 80) (1280 + 80 + 128) 805 768 768 (768 + 37) (768 + 3) (768 + 3 + 7)].

Definition AdapterTimingTbl_5 : list CBIOS_TIMING_ATTRIB :=
  [mkTiming TIMING_ATTRIB_SIZE 0 1280 768 8500 (VerPOSITIVE + HorNEGATIVE) 1175000
    1712 1280 1280 (1280 + 432) (1280 + 80) (1280 + 80 + 136) 809 768 768 (768 + 41) (768 + 3) (768 + 3 + 7);
  mkTiming TIMING_ATTRIB_SIZE 0 1280 800 6000 (VerPOSITIVE + HorNEGATIVE) 835000
    1680 1280 1280 (1280 + 400) (1280 + 72) (1280 + 72 + 128) 831 800 800 (800 + 31) (800 + 3) (800 + 3 + 6);
  mkTiming TIMING_ATTRIB_SIZE 0 1280 800 7500 (VerPOSITIVE + HorNEGATIVE) 1065000
    1696 1280 1280 (1280 + 416) (1280 + 80) (1280 + 80 + 128) 838 800 800 (800 + 38) (800 + 3) (800 + 3 + 6);
  mkTiming TIMING_ATTRIB_SIZE 0 1280 800 8500 (VerPOSITIVE + HorNEGATIVE) 1225000
    1712 1280 1280 (1280 + 432) (1280 + 80) (1280 + 80 + 136) 843 800 800 (800 + 43) (800 + 3) (800 + 3 + 6)].

Definition AdapterTimingTbl_6 : list CBIOS_TIMING_ATTRIB :=
  [mkTiming TIMING_ATTRIB_SIZE 0 1280 960 6000 (VerPOSITIVE + HorPOSITIVE) 1080000
    1800 1280 1280 (1280 + 520) (1280 + 96) (1280 + 96 + 112) 1000 960 960 (960 + 40) (960 + 1) (960 + 1 + 3);
  mkTiming TIMING_ATTRIB_SIZE 0 1280 960 8500 (VerPOSITIVE + HorPOSITIVE) 1485000
    1728 1280 1280 (1280 + 448) (1280 + 64) (1280 + 64 + 160) 1011 960 960 (960 + 51) (960 + 1) (960 + 1 + 3);
  mkTiming TIMING_ATTRIB_SIZE 0 1280 1024 6000 (VerPOSITIVE+HorPOSITIVE) 1080000
    (211*8) (160*8) (160*8) ((160+51)*8) (166*8) ((166+14) *8) 1066 1024 1024 (1024+42) 1025 (1025+3);
  mkTiming TIMING_ATTRIB_SIZE 0 1280 1024 7500 (VerPOSITIVE+HorPOSITIVE) 1350000
    (211*8) (160*8) (160*8) ((160+51) *8) (162*8) ((162+18) *8) 1066 1024 1024 (1024+42) 1025 (1025+3);
  mkTiming TIMING_ATTRIB_SIZE 0 1280 1024 8500 (VerPOSITIVE+HorPOSITIVE) 1575000
    1728 1280 1280 (1280 + 448) (1280 + 64) (1280 + 64 + 160) 1072 1024 1024 (1024 + 48) (1024 + 1) (1024 + 1 + 3)].

Definition AdapterTimingTbl_7 : list CBIOS_TIMING_ATTRIB :=
  [mkTiming TIMING_ATTRIB_SIZE 0 1360 768 6000 (VerPOSITIVE+HorPOSITIVE) 855000
    1792 1360 1360 (1360 + 432) (1360 + 64) (1360 + 64 + 112) 795 768 768 (768 + 27) (768 + 3) (768 + 3 + 6);
  mkTiming TIMING_ATTRIB_SIZE 0 1366 768 6000 (VerPOSITIVE+HorPOSITIVE) 855000
    1792 1366 1366 (1366 + 426) (1366 + 70) (1366 + 70 + 143) 798 768 768 (768 + 30) (768 + 3) (768 + 3 + 3);
  mkTiming TIMING_ATTRIB_SIZE 0 1400 1050 6000 (VerPOSITIVE + HorNEGATIVE) 1217500
    1864 1400 1400 (1400 + 464) (1400 + 88) (1400 + 88 + 144) 1089 1050 1050 (1050 + 39) (1050 + 3) (1050 + 3 + 4)].

Definition AdapterTimingTbl_8 : list CBIOS_TIMING_ATTRIB :=
  [mkTiming TIMING_ATTRIB_SIZE 0 1400 1050 7500 (VerPOSITIVE + HorNEGATIVE) 1560000
    1896 1400 1400 (1400 + 496) (1400 + 104) (1400 + 104 + 144) 1099 1050 1050 (1050 + 49) (1050 + 3) (1050 + 3 + 4);
  mkTiming TIMING_ATTRIB_SIZE 0 1400 1050 8500 (VerPOSITIVE + HorNEGATIVE) 1795000
    1912 1400 1400 (1400 + 512) (1400 + 104) (1400 + 104 + 152) 1105 1050 1050 (1050 + 55) (1050 + 3) (1050 + 3 + 4);
  mkTiming TIMING_ATTRIB_SIZE 0 1440 900 6000 (VerPOSITIVE + HorNEGATIVE) 1065000
    1904 1440 1440 (1440 + 464) (1440 + 80) (1440 + 80 + 152) 934 900 900 (900 + 34) (900 + 3) (900 + 3 + 6);
  mkTiming TIMING_ATTRIB_SIZE 0 1440 900 7500 (VerPOSITIVE + HorNEGATIVE) 1367500
    1936 1440 1440 (1440 + 496) (1440 + 96) (1440 + 96 + 152) 942 900 900 (900 + 42) (900 + 3) (900 + 3 + 6);
  mkTiming TIMING_ATTRIB_SIZE 0 1440 900 8500 (VerPOSITIVE + HorNEGATIVE) 1570000
    1952 1440 1440 (1440 + 512) (1440 + 104) (1440 + 104 + 152) 948 900 900 (900 + 48) (900 + 3) (900 + 3 + 6)].

Definition AdapterTimingTbl_9 : list CBIOS_TIMING_ATTRIB :=
  [mkTiming TIMING_ATTRIB_SIZE 0 1600 900 6000 (VerPOSITIVE+HorPOSITIVE) 1080000
    1800 1600 1600 (1600 + 200) (1600 + 24) (1600 + 24 + 80) 1000 900 900 (900 + 100) (900 + 1) (900 + 1 + 3);
  mkTiming TIMING_ATTRIB_SIZE 0 1600 1200 6000 (VerPOSITIVE+HorPOSITIVE) 1620000
    2160 1600 1600 (1600 + 560) (1600 + 64) (1600 + 64 + 192) 1250 1200 1200 (1200 + 50) (1200 + 1) (1200 + 1 + 3);
  mkTiming TIMING_ATTRIB_SIZE 0 1600 1200 6500 (VerPOSITIVE+HorPOSITIVE) 1755000
    2160 1600 1600 (1600 + 560) (1600 + 64) (1600 + 64 + 192) 1250 1200 1200 (1200 + 50) (1200 + 1) (1200 + 1 + 3);
  mkTiming TIMING_ATTRIB_SIZE 0 1600 1200 7000 (VerPOSITIVE+HorPOSITIVE) 1890000
    2160 1600 1600 (1600 + 560) (1600 + 64) (1600 + 64 + 192) 1250 1200 1200 (1200 + 50) (1200 + 1) (1200 + 1 + 3);
  mkTiming TIMING_ATTRIB_SIZE 0 1600 1200 7500 (VerPOSITIVE+HorPOSITIVE) 2025000
    2160 1600 1600 (1600 + 560) (1600 + 64) (1600 + 64 + 192) 1250 1200 1200 (1200 + 50) (1200 + 1) (1200 + 1 + 3);
  mkTiming TIMING_ATTRIB_SIZE 0 1600 1200 8500 (VerPOSITIVE+HorPOSITIVE) 2295000
    2160 1600 1600 (1600 + 560) (1600 + 64) (1600 + 64 + 192) 1250 1200 1200 (1200 + 50) (1200 + 1) (1200 + 1 + 3)].

Definition AdapterTimingTbl_10 : list CBIOS_TIMING_ATTRIB :=
  [mkTiming TIMING_ATTRIB_SIZE 0 1680 1050 6000 (VerPOSITIVE + HorNEGATIVE) 1462500
    2240 1680 1680 (1680 + 560) (1680 + 104) (1680 + 104 + 176) 1089 1050 1050 (1050 + 39) (1050 + 3) (1050 + 3 + 6);
  mkTiming TIMING_ATTRIB_SIZE 0 1680 1050 7500 (VerPOSITIVE + HorNEGATIVE) 1870000
    2272 1680 1680 (1680 + 592) (1680 + 120) (1680 + 120 + 176) 1099 1050 1050 (1050 + 49) (1050 + 3) (1050 + 3 + 6);
  mkTiming TIMING_ATTRIB_SIZE 0 1680 1050 8500 (VerPOSITIVE + HorNEGATIVE) 2147500
    2288 1680 1680 (1680 + 608) (1680 + 128) (1680 + 128 + 176) 1105 1050 1050 (1050 + 55) (1050 + 3) (1050 + 3 + 6);
  mkTiming TIMING_ATTRIB_SIZE 0 1792 1344 6000 (VerPOSITIVE + HorNEGATIVE) 2047500
    2448 1792 1792 (1792 + 656) (1792 + 128) (1792 + 128 + 200) 1394 1344 1344 (1344 + 50) (1344 + 1) (1344 + 1 + 3);
  mkTiming TIMING_ATTRIB_SIZE 0 1792 1344 7500 (VerPOSITIVE + HorNEGATIVE) 2610000
    2456 1792 1792 (1792 + 664) (1792 + 96) (1792 + 96 + 216) 1417 1344 1344 (1344 + 73) (1344 + 1) (1344 + 1 + 3)].

Definition AdapterTimingTbl_11 : list CBIOS_TIMING_ATTRIB :=
  [mkTiming TIMING_ATTRIB_SIZE 0 1856 1392 6000 (VerPOSITIVE + HorNEGATIVE) 2182500
    2528 1856 1856 (1856 + 672) (1856 + 96) (1856 + 96 + 224) 1439 1392 1392 (1392 + 47) (1392 + 1) (1392 + 1 + 3);
  mkTiming TIMING_ATTRIB_SIZE 0 1856 1392 7500 (VerPOSITIVE + HorNEGATIVE) 2880000
    2560 1856 1856 (1856 + 704) (1856 + 128) (1856 + 128 + 224) 1500 1392 1392 (1392 + 108) (1392 + 1) (1392 + 1 + 3);
  mkTiming TIMING_ATTRIB_SIZE 0 1920 1080 5000 (VerPOSITIVE+HorPOSITIVE) 1485000
    2640 1920 1920 2640 (1920+528) (1920+528+44) 1125 1080 1080 (1080+45) 1084 (1084+5);
  mkTiming TIMING_ATTRIB_SIZE 0 1920 1080 6000 (VerPOSITIVE+HorPOSITIVE) 1485000
    2200 1920 1920 2200 (1920+88) (1920+88+44) 1125 1080 1080 (1080+45) 1084 (1084+5);
  mkTiming TIMING_ATTRIB_SIZE 0 1920 1080 12000 (VerPOSITIVE+HorNEGATIVE) 3687000
    (332*8) (240*8) (240*8) ((240+92) *8) (259*8) ((259+27) *8) 1157 1080 1080 (1080+77) 1081 (1081+3)].

Definition AdapterTimingTbl_12 : list CBIOS_TIMING_ATTRIB :=
  [mkTiming TIMING_ATTRIB_SIZE 0 1920 1200 6000 (VerPOSITIVE+HorNEGATIVE) 1932500
    2592 1920 1920 (1920 + 672) (1920 + 136) (1920 + 136 + 200) 1245 1200 1200 (1200 + 45) (1200 + 3) (1200 + 3 + 6);
  mkTiming TIMING_ATTRIB_SIZE 0 1920 1200 7500 (VerPOSITIVE+HorNEGATIVE) 2452500
    2608 1920 1920 (1920 + 688) (1920 + 136) (1920 + 136 + 208) 1255 1200 1200 (1200 + 55) (1200 + 3) (1200 + 3 + 6);
  mkTiming TIMING_ATTRIB_SIZE 0 1920 1200 8500 (VerPOSITIVE+HorNEGATIVE) 2812500
    2624 1920 1920 (1920 + 704) (1920 + 144) (1920 + 144 + 208) 1262 1200 1200 (1200 + 62) (1200 + 3) (1200 + 3 + 6);
  mkTiming TIMING_ATTRIB_SIZE 0 1920 1440 6000 (VerPOSITIVE+HorNEGATIVE) 2340000
    2600 1920 1920 (1920 + 680) (1920 + 128) (1920 + 128 + 208) 1500 1440 1440 (1440 + 60) (1440 + 1) (1440 + 1 + 3);
  mkTiming TIMING_ATTRIB_SIZE 0 1920 1440 7500 (VerPOSITIVE+HorNEGATIVE) 2970000
    2640 1920 1920 (1920 + 720) (1920 + 144) (1920 + 144 + 224) 1500 1440 1440 (1440 + 60) (1440 + 1) (1440 + 1 + 3)].

Definition AdapterTimingTbl_13 : list CBIOS_TIMING_ATTRIB :=
  [mkTiming TIMING_ATTRIB_SIZE 0 2048 1152 6000 (VerPOSITIVE+HorPOSITIVE) 1620000
    2250 2048 2048 (2048 + 202) (2048 + 26) (2048 + 26 + 80) 1200 1152 1152 (1152 + 48) (1152 + 1) (1152 + 1 + 3);
  mkTiming TIMING_ATTRIB_SIZE 0 2560 1600 6000 (VerPOSITIVE+HorNEGATIVE) 3485000
    3504 2560 2560 (2560 + 944) (2560 + 192) (2560 + 192 + 280) 1658 1600 1600 (1600 + 58) (1600 + 3) (1600 + 3 + 6);
  mkTiming TIMING_ATTRIB_SIZE 0 2560 1600 7500 (VerPOSITIVE+HorNEGATIVE) 4432500
    3536 2560 2560 (2560 + 976) (2560 + 208) (2560 + 208 + 280) 1672 1600 1600 (1600 + 72) (1600 + 3) (1600 + 3 + 6);
  mkTiming TIMING_ATTRIB_SIZE 0 2560 1600 8500 (VerPOSITIVE+HorNEGATIVE) 5052500
    3536 2560 2560 (2560 + 976) (2560 + 208) (2560 + 208 + 280) 1682 1600 1600 (1600 + 82) (1600 + 3) (1600 + 3 + 6)].

Definition AdapterTimingTbl : list CBIOS_TIMING_ATTRIB :=
  AdapterTimingTbl_1 ++ AdapterTimingTbl_2 ++ AdapterTimingTbl_3 ++ AdapterTimingTbl_4 ++
  AdapterTimingTbl_5 ++ AdapterTimingTbl_6 ++ AdapterTimingTbl_7 ++ AdapterTimingTbl_8 ++
  AdapterTimingTbl_9 ++ AdapterTimingTbl_10 ++ AdapterTimingTbl_11 ++ AdapterTimingTbl_12 ++
  AdapterTimingTbl_13.

(** ** [HDMIFormatTimingTbl]: entry [VIC - 1] is the timing of format [VIC]. *)
Definition HDMIFormatTimingTbl_1 : list CBIOS_TIMING_ATTRIB :=
  [mkTiming TIMING_ATTRIB_SIZE 1 640 480 6000 (VerNEGATIVE+HorNEGATIVE) 252000
    800 640 640 800 656 (656+96) 525 480 480 525 490 (490+2);
  mkTiming TIMING_ATTRIB_SIZE 2 720 480 6000 (VerNEGATIVE+HorNEGATIVE) 270270
    858 720 720 858 736 (736+62) 525 480 480 525 489 (489+6);
  mkTiming TIMING_ATTRIB_SIZE 3 720 480 6000 (VerNEGATIVE+HorNEGATIVE) 270270
    858 720 720 858 736 (736+62) 525 480 480 525 489 (489+6);
  mkTiming TIMING_ATTRIB_SIZE 4 1280 720 6000 (VerPOSITIVE+HorPOSITIVE) 742500
    1650 1280 1280 1650 (1280+110) (1280+110+40) 750 720 720 (720+30) 725 (725+5);
  mkTiming TIMING_ATTRIB_SIZE 5 1920 1080 6000 (VerPOSITIVE+HorPOSITIVE) 742500
    2200 1920 1920 2200 (1920+88) (1920+88+44) 1125 1080 1080 (1080+22+23) 1084 (1084+10);
  mkTiming TIMING_ATTRIB_SIZE 6 720 480 6000 (VerNEGATIVE+HorNEGATIVE) 270270
    858 720 720 858 (720+38/2) (720+38/2+124/2) 525 480 480 525 (489-1) (489-1+6)].

Definition HDMIFormatTimingTbl_2 : list CBIOS_TIMING_ATTRIB :=
  [mkTiming TIMING_ATTRIB_SIZE 7 720 480 6000 (VerNEGATIVE+HorNEGATIVE) 270270
    858 720 720 858 (720+38/2) (720+38/2+124/2) 525 480 480 525 (489-1) (489-1+6);
  mkTiming TIMING_ATTRIB_SIZE 8 720 240 6000 (VerNEGATIVE+HorNEGATIVE) 270270
    858 720 858 858 (720+38/2) (720+38/2+124/2) 262 240 240 (240+22) 244 (244+3);
  mkTiming TIMING_ATTRIB_SIZE 9 720 240 6000 (VerNEGATIVE+HorNEGATIVE) 270270
    858 720 858 858 (720+38/2) (720+38/2+124/2) 262 240 240 (240+22) 244 (244+3);
  mkTiming TIMING_ATTRIB_SIZE 10 2880 480 6000 (VerNEGATIVE+HorNEGATIVE) 540540
    3432 2880 2880 3432 (2880+76) (2880+76+248) 525 480 480 525 488 (488+6);
  mkTiming TIMING_ATTRIB_SIZE 11 2880 480 6000 (VerNEGATIVE+HorNEGATIVE) 540540
    3432 2880 2880 3432 (2880+76) (2880+76+248) 525 480 480 525 488 (488+6);
  mkTiming TIMING_ATTRIB_SIZE 12 2880 240 6000 (VerNEGATIVE+HorNEGATIVE) 540540
    3432 2880 2880 3432 (2880+76) (2880+76+248) 262 240 240 (240+22) 244 (244+3)].

Definition HDMIFormatTimingTbl_3 : list CBIOS_TIMING_ATTRIB :=
  [mkTiming TIMING_ATTRIB_SIZE 13 2880 240 6000 (VerNEGATIVE+HorNEGATIVE) 540540
    3432 2880 2880 3432 (2880+76) (2880+76+248) 263 240 240 (240+23) 245 (245+3);
  mkTiming TIMING_ATTRIB_SIZE 14 1440 480 6000 (VerNEGATIVE+HorNEGATIVE) 540540
    1716 1440 1440 1716 1472 (1472+124) 525 480 480 (480+45) 490 (490+6);
  mkTiming TIMING_ATTRIB_SIZE 15 1440 480 6000 (VerNEGATIVE+HorNEGATIVE) 540540
    1716 1440 1440 1716 1472 (1472+124) 525 480 480 (480+45) 490 (490+6);
  mkTiming TIMING_ATTRIB_SIZE 16 1920 1080 6000 (VerPOSITIVE+HorPOSITIVE) 1485000
    2200 1920 1920 2200 (1920+88) (1920+88+44) 1125 1080 1080 (1080+45) 1084 (1084+5);
  mkTiming TIMING_ATTRIB_SIZE 17 720 576 5000 (VerNEGATIVE+HorNEGATIVE) 270000
    864 720 720 864 732 (732+64) 625 576 576 625 581 (581+5);
  mkTiming TIMING_ATTRIB_SIZE 18 720 576 5000 (VerNEGATIVE+HorNEGATIVE) 270000
    864 720 720 864 732 (732+64) 625 576 576 625 581 (581+5)].

Definition HDMIFormatTimingTbl_4 : list CBIOS_TIMING_ATTRIB :=
  [mkTiming TIMING_ATTRIB_SIZE 19 1280 720 5000 (VerPOSITIVE+HorPOSITIVE) 742500
    1980 1280 1280 1980 (1280+440) (1280+440+40) 750 720 720 (720+30) 725 (725+5);
  mkTiming TIMING_ATTRIB_SIZE 20 1920 1080 5000 (VerPOSITIVE+HorPOSITIVE) 742500
    2640 1920 1920 2640 (1920+528) (1920+528+44) 1125 1080 1080 (1080+22+23) 1084 (1084+10);
  mkTiming TIMING_ATTRIB_SIZE 21 720 576 5000 (VerNEGATIVE+HorNEGATIVE) 270000
    864 720 720 864 732 (732+63) 625 576 576 625 580 (580+6);
  mkTiming TIMING_ATTRIB_SIZE 22 720 576 5000 (VerNEGATIVE+HorNEGATIVE) 270000
    864 720 720 864 732 (732+63) 625 576 576 625 580 (580+6);
  mkTiming TIMING_ATTRIB_SIZE 23 720 288 5000 (VerNEGATIVE+HorNEGATIVE) 270000
    864 720 720 864 732 (732+63) 312 288 288 312 290 (290+3);
  mkTiming TIMING_ATTRIB_SIZE 24 720 288 5000 (VerNEGATIVE+HorNEGATIVE) 270000
    864 720 720 864 732 (732+63) 312 288 288 312 290 (290+3)].

Definition HDMIFormatTimingTbl_5 : list CBIOS_TIMING_ATTRIB :=
  [mkTiming TIMING_ATTRIB_SIZE 25 2880 576 5000 (VerNEGATIVE+HorNEGATIVE) 540000
    3456 2880 2880 3456 (2880+48) (2880+48+252) 625 576 576 625 580 (580+6);
  mkTiming TIMING_ATTRIB_SIZE 26 2880 576 5000 (VerNEGATIVE+HorNEGATIVE) 540000
    3456 2880 2880 3456 (2880+48) (2880+48+252) 625 576 576 625 580 (580+6);
  mkTiming TIMING_ATTRIB_SIZE 27 2880 288 5000 (VerNEGATIVE+HorNEGATIVE) 540000
    3456 2880 2880 3456 (2880+48) (2880+48+252) 312 288 288 312 290 (290+3);
  mkTiming TIMING_ATTRIB_SIZE 28 2880 288 5000 (VerNEGATIVE+HorNEGATIVE) 540000
    3456 2880 2880 3456 (2880+48) (2880+48+252) 313 288 288 313 291 (291+3);
  mkTiming TIMING_ATTRIB_SIZE 29 1440 576 5000 (VerNEGATIVE+HorNEGATIVE) 540000
    1728 1440 1440 1728 (1440+24) (1440+24+128) 625 576 576 625 581 (581+5);
  mkTiming TIMING_ATTRIB_SIZE 30 1440 576 5000 (VerNEGATIVE+HorNEGATIVE) 540000
    1728 1440 1440 1728 (1440+24) (1440+24+128) 625 576 576 625 581 (581+ 5)].

Definition HDMIFormatTimingTbl_6 : list CBIOS_TIMING_ATTRIB :=
  [mkTiming TIMING_ATTRIB_SIZE 31 1920 1080 5000 (VerPOSITIVE+HorPOSITIVE) 1485000
    2640 1920 1920 2640 (1920+528) (1920+528+44) 1125 1080 1080 (1080+45) 1084 (1084+5);
  mkTiming TIMING_ATTRIB_SIZE 32 1920 1080 2400 (VerPOSITIVE+HorPOSITIVE) 742500
    2750 1920 1920 2750 (1920+638) (1920+638+44) 1125 1080 1080 (1080+45) 1084 (1084+5);
  mkTiming TIMING_ATTRIB_SIZE 33 1920 1080 2500 (VerPOSITIVE+HorPOSITIVE) 742500
    2640 1920 1920 2640 (1920+528) (1920+528+44) 1125 1080 1080 (1080+45) 1084 (1084+5);
  mkTiming TIMING_ATTRIB_SIZE 34 1920 1080 3000 (VerPOSITIVE+HorPOSITIVE) 742500
    2200 1920 1920 2200 (1920+88) (1920+88+44) 1125 1080 1080 (1080+45) 1084 (1084+5);
  mkTiming TIMING_ATTRIB_SIZE 35 2880 480 6000 (VerNEGATIVE+HorNEGATIVE) 1081080
    3432 2880 2880 3432 (2880+64) (2880+64+248) 525 480 480 525 (480+9) (480+9+6);
  mkTiming TIMING_ATTRIB_SIZE 36 2880 480 6000 (VerNEGATIVE+HorNEGATIVE) 1081080
    3432 2880 2880 3432 (2880+64) (2880+64+248) 525 480 480 525 (480+9) (480+9+6)].

Definition HDMIFormatTimingTbl_7 : list CBIOS_TIMING_ATTRIB :=
  [mkTiming TIMING_ATTRIB_SIZE 37 2880 576 5000 (VerNEGATIVE+HorNEGATIVE) 1080000
    3456 2880 2880 3456 (2880+48) (2880+48+256) 625 576 576 625 (576+5) (576+5+5);
  mkTiming TIMING_ATTRIB_SIZE 38 2880 576 5000 (VerNEGATIVE+HorNEGATIVE) 1080000
    3456 2880 2880 3456 (2880+48) (2880+48+256) 625 576 576 625 (576+5) (576+5+5);
  mkTiming TIMING_ATTRIB_SIZE 39 1920 1080 5000 (VerPOSITIVE+HorPOSITIVE) 720000
    2304 1920 1920 2304 (1920+32) (1920+32+168) 1250 1080 1080 1250 (1080+46) (1080+46+10);
  mkTiming TIMING_ATTRIB_SIZE 40 1920 1080 10000 (VerPOSITIVE+HorPOSITIVE) 1485000
    2640 1920 1920 2640 (1920+528) (1920+528+44) 1125 1080 1080 1125 (1080+4) (1080+4+10);
  mkTiming TIMING_ATTRIB_SIZE 41 1280 720 10000 (VerPOSITIVE+HorPOSITIVE) 1485000
    1980 1280 1280 1980 (1280+440) (1280+440+40) 750 720 720 750 (720+5) (720+5+5);
  mkTiming TIMING_ATTRIB_SIZE 42 720 576 10000 (VerNEGATIVE+HorNEGATIVE) 540000
    864 720 720 864 (720+12) (720+12+64) 625 576 576 625 (576+5) (576+5+5)].

Definition HDMIFormatTimingTbl_8 : list CBIOS_TIMING_ATTRIB :=
  [mkTiming TIMING_ATTRIB_SIZE 43 720 576 10000 (VerNEGATIVE+HorNEGATIVE) 540000
    864 720 720 864 (720+12) (720+12+64) 625 576 576 625 (576+5) (576+5+5);
  mkTiming TIMING_ATTRIB_SIZE 44 720 576 10000 (VerNEGATIVE+HorNEGATIVE) 540000
    864 720 720 864 (720+12) (720+12+63) 625 576 576 625 (576+5-1) (576+5+5);
  mkTiming TIMING_ATTRIB_SIZE 45 720 576 10000 (VerNEGATIVE+HorNEGATIVE) 540000
    864 720 720 864 (720+12) (720+12+63) 625 576 576 625 (576+5-1) (576+5+5);
  mkTiming TIMING_ATTRIB_SIZE 46 1920 1080 10000 (VerPOSITIVE+HorPOSITIVE) 1485000
    2200 1920 1920 2200 (1920+88) (1920+88+44) 1125 1080 1080 1125 (1080+4) (1080+4+10);
  mkTiming TIMING_ATTRIB_SIZE 47 1280 720 12000 (VerPOSITIVE+HorPOSITIVE) 1485000
    1650 1280 1280 1650 (1280+110) (1280+110+40) 750 720 720 (720+30) 725 (725+5);
  mkTiming TIMING_ATTRIB_SIZE 48 720 480 12000 (VerNEGATIVE+HorNEGATIVE) 540540
    858 720 720 858 736 (736+62) 525 480 480 525 489 (489+6)].

Definition HDMIFormatTimingTbl_9 : list CBIOS_TIMING_ATTRIB :=
  [mkTiming TIMING_ATTRIB_SIZE 49 720 480 12000 (VerNEGATIVE+HorNEGATIVE) 540540
    858 720 720 858 736 (736+62) 525 480 480 525 489 (489+6);
  mkTiming TIMING_ATTRIB_SIZE 50 720 480 12000 (VerNEGATIVE+HorNEGATIVE) 540540
    858 720 720 858 (720+38/2) (720+38/2+124/2) 525 480 480 525 (489-1) (489-1+6);
  mkTiming TIMING_ATTRIB_SIZE 51 720 480 12000 (VerNEGATIVE+HorNEGATIVE) 540540
    858 720 720 858 (720+38/2) (720+38/2+124/2) 525 480 480 525 (489-1) (489-1+6);
  mkTiming TIMING_ATTRIB_SIZE 52 720 576 20000 (VerNEGATIVE+HorNEGATIVE) 1080000
    864 720 720 864 732 (732+64) 625 576 576 625 581 (581+5);
  mkTiming TIMING_ATTRIB_SIZE 53 720 576 20000 (VerNEGATIVE+HorNEGATIVE) 1080000
    864 720 720 864 732 (732+64) 625 576 576 625 581 (581+5);
  mkTiming TIMING_ATTRIB_SIZE 54 720 576 20000 (VerNEGATIVE+HorNEGATIVE) 1080000
    864 720 720 864 732 (732+63) 625 576 576 625 (581-1) (581+5)].

Definition HDMIFormatTimingTbl_10 : list CBIOS_TIMING_ATTRIB :=
  [mkTiming TIMING_ATTRIB_SIZE 55 720 576 20000 (VerNEGATIVE+HorNEGATIVE) 1080000
    864 720 720 864 732 (732+63) 625 576 576 625 (581-1) (581+5);
  mkTiming TIMING_ATTRIB_SIZE 56 720 480 24000 (VerNEGATIVE+HorNEGATIVE) 1081080
    858 720 720 858 736 (736+62) 525 480 480 525 (480+9) (480+9+6);
  mkTiming TIMING_ATTRIB_SIZE 57 720 480 24000 (VerNEGATIVE+HorNEGATIVE) 1081080
    858 720 720 858 736 (736+62) 525 480 480 525 (480+9) (480+9+6);
  mkTiming TIMING_ATTRIB_SIZE 58 720 480 24000 (VerNEGATIVE+HorNEGATIVE) 1081080
    858 720 720 858 (720+19) (720+19+62) 525 480 480 525 (480+9-1) (480+9-1+6);
  mkTiming TIMING_ATTRIB_SIZE 59 720 480 24000 (VerNEGATIVE+HorNEGATIVE) 1081080
    858 720 720 858 (720+19) (720+19+62) 525 480 480 525 (480+9-1) (480+9-1+6);
  mkTiming TIMING_ATTRIB_SIZE 60 1280 720 2400 (VerPOSITIVE+HorPOSITIVE) 594000
    3300 1280 1280 3300 (1280+1760) (1280+1760+40) 750 720 720 750 725 (725+5)].

Definition HDMIFormatTimingTbl_11 : list CBIOS_TIMING_ATTRIB :=
  [mkTiming TIMING_ATTRIB_SIZE 61 1280 720 2500 (VerPOSITIVE+HorPOSITIVE) 742500
    3960 1280 1280 3960 (1280+2420) (1280+2420+40) 750 720 720 750 725 (725+5);
  mkTiming TIMING_ATTRIB_SIZE 62 1280 720 3000 (VerPOSITIVE+HorPOSITIVE) 742500
    3300 1280 1280 3300 (1280+1760) (1280+1760+40) 750 720 720 750 725 (725+5);
  mkTiming TIMING_ATTRIB_SIZE 63 1920 1080 12000 (VerPOSITIVE+HorPOSITIVE) 2970000
    2200 1920 1920 2200 (1920+88) (1920+88+44) 1125 1080 1080 1125 (1080+4) (1084+5);
  mkTiming TIMING_ATTRIB_SIZE 64 1920 1080 10000 (VerPOSITIVE+HorPOSITIVE) 2970000
    2640 1920 1920 2640 (1920+528) (1920+528+44) 1125 1080 1080 1125 (1080+4) (1084+5);
  mkTiming TIMING_ATTRIB_SIZE 65 1280 720 2400 (VerPOSITIVE+HorPOSITIVE) 594000
    3300 1280 1280 3300 (1280+1760) (1280+1760+40) 750 720 720 750 725 (725+5);
  mkTiming TIMING_ATTRIB_SIZE 66 1280 720 2500 (VerPOSITIVE+HorPOSITIVE) 742500
    3960 1280 1280 3960 (1280+2420) (1280+2420+40) 750 720 720 750 725 (725+5)].

Definition HDMIFormatTimingTbl_12 : list CBIOS_TIMING_ATTRIB :=
  [mkTiming TIMING_ATTRIB_SIZE 67 1280 720 3000 (VerPOSITIVE+HorPOSITIVE) 742500
    3300 1280 1280 3300 (1280+1760) (1280+1760+40) 750 720 720 750 725 (725+5);
  mkTiming TIMING_ATTRIB_SIZE 68 1280 720 5000 (VerPOSITIVE+HorPOSITIVE) 742500
    1980 1280 1280 1980 (1280+440) (1280+440+40) 750 720 720 (720+30) 725 (725+5);
  mkTiming TIMING_ATTRIB_SIZE 69 1280 720 6000 (VerPOSITIVE+HorPOSITIVE) 742500
    1650 1280 1280 1650 (1280+110) (1280+110+40) 750 720 720 (720+30) 725 (725+5);
  mkTiming TIMING_ATTRIB_SIZE 70 1280 720 10000 (VerPOSITIVE+HorPOSITIVE) 1485000
    1980 1280 1280 1980 (1280+440) (1280+440+40) 750 720 720 750 (720+5) (720+5+5);
  mkTiming TIMING_ATTRIB_SIZE 71 1280 720 12000 (VerPOSITIVE+HorPOSITIVE) 1485000
    1650 1280 1280 1650 (1280+110) (1280+110+40) 750 720 720 (720+30) 725 (725+5);
  mkTiming TIMING_ATTRIB_SIZE 72 1920 1080 2400 (VerPOSITIVE+HorPOSITIVE) 742500
    2750 1920 1920 2750 (1920+638) (1920+638+44) 1125 1080 1080 (1080+45) 1084 (1084+5)].

Definition HDMIFormatTimingTbl_13 : list CBIOS_TIMING_ATTRIB :=
  [mkTiming TIMING_ATTRIB_SIZE 73 1920 1080 2500 (VerPOSITIVE+HorPOSITIVE) 742500
    2640 1920 1920 2640 (1920+528) (1920+528+44) 1125 1080 1080 (1080+45) 1084 (1084+5);
  mkTiming TIMING_ATTRIB_SIZE 74 1920 1080 3000 (VerPOSITIVE+HorPOSITIVE) 741760
    2200 1920 1920 2200 (1920+88) (1920+88+44) 1125 1080 1080 (1080+45) 1084 (1084+5);
  mkTiming TIMING_ATTRIB_SIZE 75 1920 1080 5000 (VerPOSITIVE+HorPOSITIVE) 1485000
    2640 1920 1920 2640 (1920+528) (1920+528+44) 1125 1080 1080 (1080+45) 1084 (1084+5);
  mkTiming TIMING_ATTRIB_SIZE 76 1920 1080 6000 (VerPOSITIVE+HorPOSITIVE) 1485000
    2200 1920 1920 2200 (1920+88) (1920+88+44) 1125 1080 1080 (1080+45) 1084 (1084+5);
  mkTiming TIMING_ATTRIB_SIZE 77 1920 1080 12000 (VerPOSITIVE+HorPOSITIVE) 2970000
    2640 1920 1920 2640 (1920+528) (1920+528+44) 1125 1080 1080 1125 (1080+4) (1084+5);
  mkTiming TIMING_ATTRIB_SIZE 78 1920 1080 12000 (VerPOSITIVE+HorPOSITIVE) 2970000
    2200 1920 1920 2200 (1920+88) (1920+88+44) 1125 1080 1080 1125 (1080+4) (1084+5)].

Definition HDMIFormatTimingTbl_14 : list CBIOS_TIMING_ATTRIB :=
  [mkTiming TIMING_ATTRIB_SIZE 79 1680 720 2400 (VerPOSITIVE+HorPOSITIVE) 594000
    3300 1680 1680 3300 (1680+1360) (1680+1360+40) 750 720 720 750 (720+5) (720+5+5);
  mkTiming TIMING_ATTRIB_SIZE 80 1680 720 2500 (VerPOSITIVE+HorPOSITIVE) 594000
    3168 1680 1680 3168 (1680+1228) (1680+1228+40) 750 720 720 750 (720+5) (720+5+5);
  mkTiming TIMING_ATTRIB_SIZE 81 1680 720 3000 (VerPOSITIVE+HorPOSITIVE) 594000
    2640 1680 1680 2640 (1680+700) (1680+700+40) 750 720 720 750 (720+5) (720+5+5);
  mkTiming TIMING_ATTRIB_SIZE 82 1680 720 5000 (VerPOSITIVE+HorPOSITIVE) 825000
    2200 1680 1680 2200 (1680+260) (1680+260+40) 750 720 720 750 (720+5) (720+5+5);
  mkTiming TIMING_ATTRIB_SIZE 83 1680 720 6000 (VerPOSITIVE+HorPOSITIVE) 990000
    2200 1680 1680 2200 (1680+260) (1680+260+40) 750 720 720 750 (720+5) (720+5+5);
  mkTiming TIMING_ATTRIB_SIZE 84 1680 720 10000 (VerPOSITIVE+HorPOSITIVE) 1650000
    2000 1680 1680 2000 (1680+60) (1680+60+40) 825 720 720 825 (720+5) (720+5+5)].

Definition HDMIFormatTimingTbl_15 : list CBIOS_TIMING_ATTRIB :=
  [mkTiming TIMING_ATTRIB_SIZE 85 1680 720 12000 (VerPOSITIVE+HorPOSITIVE) 1980000
    2000 1680 1680 2000 (1680+60) (1680+60+40) 825 720 720 825 (720+5) (720+5+5);
  mkTiming TIMING_ATTRIB_SIZE 86 2560 1080 2400 (VerPOSITIVE+HorPOSITIVE) 990000
    3750 2560 2560 3750 (2560+998) (2560+998+44) 1100 1080 1080 1100 (1080+4) (1080+4+5);
  mkTiming TIMING_ATTRIB_SIZE 87 2560 1080 2500 (VerPOSITIVE+HorPOSITIVE) 900000
    3200 2560 2560 3200 (2560+448) (2560+448+44) 1125 1080 1080 1125 (1080+4) (1080+4+5);
  mkTiming TIMING_ATTRIB_SIZE 88 2560 1080 3000 (VerPOSITIVE+HorPOSITIVE) 1188000
    3520 2560 2560 3520 (2560+768) (2560+768+44) 1125 1080 1080 1125 (1080+4) (1080+4+5);
  mkTiming TIMING_ATTRIB_SIZE 89 2560 1080 5000 (VerPOSITIVE+HorPOSITIVE) 1856250
    3300 2560 2560 3300 (2560+548) (2560+548+44) 1125 1080 1080 1125 (1080+4) (1080+4+5);
  mkTiming TIMING_ATTRIB_SIZE 90 2560 1080 6000 (VerPOSITIVE+HorPOSITIVE) 1980000
    3000 2560 2560 3000 (2560+248) (2560+248+44) 1100 1080 1080 1100 (1080+4) (1080+4+5)].

Definition HDMIFormatTimingTbl_16 : list CBIOS_TIMING_ATTRIB :=
  [mkTiming TIMING_ATTRIB_SIZE 91 2560 1080 10000 (VerPOSITIVE+HorPOSITIVE) 3712500
    2970 2560 2560 2970 (2560+218) (2560+218+44) 1250 1080 1080 1250 (1080+4) (1080+4+5);
  mkTiming TIMING_ATTRIB_SIZE 92 2560 1080 12000 (VerPOSITIVE+HorPOSITIVE) 4950000
    3300 2560 2560 3300 (2560+548) (2560+548+44) 1250 1080 1080 1250 (1080+4) (1080+4+5);
  mkTiming TIMING_ATTRIB_SIZE 93 3840 2160 2400 (VerPOSITIVE+HorPOSITIVE) 2970000
    (3840+1660) 3840 3840 (3840+1660) (3840+1276) (3840+1276+88) (2160+90) 2160 2160 (2160+90) (2160+8) (2160+8+10);
  mkTiming TIMING_ATTRIB_SIZE 94 3840 2160 2500 (VerPOSITIVE+HorPOSITIVE) 2970000
    (3840+1440) 3840 3840 (3840+1440) (3840+1056) (3840+1056+88) (2160+90) 2160 2160 (2160+90) (2160+8) (2160+8+10);
  mkTiming TIMING_ATTRIB_SIZE 95 3840 2160 3000 (VerPOSITIVE+HorPOSITIVE) 2970000
    (3840+560) 3840 3840 (3840+560) (3840+176) (3840+176+88) (2160+90) 2160 2160 (2160+90) (2160+8) (2160+8+10);
  mkTiming TIMING_ATTRIB_SIZE 96 3840 2160 5000 (VerPOSITIVE+HorPOSITIVE) 5940000
    (3840+1440) 3840 3840 (3840+1440) (3840+1056) (3840+1056+88) (2160+90) 2160 2160 (2160+90) (2160+8) (2160+8+10)].

Definition HDMIFormatTimingTbl_17 : list CBIOS_TIMING_ATTRIB :=
  [mkTiming TIMING_ATTRIB_SIZE 97 3840 2160 6000 (VerPOSITIVE+HorPOSITIVE) 5940000
    (3840+560) 3840 3840 (3840+560) (3840+176) (3840+176+88) (2160+90) 2160 2160 (2160+90) (2160+8) (2160+8+10);
  mkTiming TIMING_ATTRIB_SIZE 98 4096 2160 2400 (VerPOSITIVE+HorPOSITIVE) 2970000
    (4096+1404) 4096 4096 (4096+1404) (4096+1020) (4096+1020+88) (2160+90) 2160 2160 (2160+90) (2160+8) (2160+8+10);
  mkTiming TIMING_ATTRIB_SIZE 99 4096 2160 2500 (VerPOSITIVE+HorPOSITIVE) 2970000
    5280 4096 4096 5280 (4096+968) (4096+968+88) 2250 2160 2160 2250 (2160+8) (2160+8+10);
  mkTiming TIMING_ATTRIB_SIZE 100 4096 2160 3000 (VerPOSITIVE+HorPOSITIVE) 2970000
    4400 4096 4096 4400 (4096+88) (4096+88+88) 2250 2160 2160 2250 (2160+8) (2160+8+10);
  mkTiming TIMING_ATTRIB_SIZE 101 4096 2160 5000 (VerPOSITIVE+HorPOSITIVE) 5940000
    5280 4096 4096 5280 (4096+968) (4096+968+88) 2250 2160 2160 2250 (2160+8) (2160+8+10);
  mkTiming TIMING_ATTRIB_SIZE 102 4096 2160 6000 (VerPOSITIVE+HorPOSITIVE) 5940000
    4400 4096 4096 4400 (4096+88) (4096+88+88) 2250 2160 2160 2250 (2160+8) (2160+8+10)].

Definition HDMIFormatTimingTbl_18 : list CBIOS_TIMING_ATTRIB :=
  [mkTiming TIMING_ATTRIB_SIZE 103 3840 2160 2400 (VerPOSITIVE+HorPOSITIVE) 2970000
    (3840+1660) 3840 3840 (3840+1660) (3840+1276) (3840+1276+88) (2160+90) 2160 2160 (2160+90) (2160+8) (2160+8+10);
  mkTiming TIMING_ATTRIB_SIZE 104 3840 2160 2500 (VerPOSITIVE+HorPOSITIVE) 2970000
    (3840+1440) 3840 3840 (3840+1440) (3840+1056) (3840+1056+88) (2160+90) 2160 2160 (2160+90) (2160+8) (2160+8+10);
  mkTiming TIMING_ATTRIB_SIZE 105 3840 2160 3000 (VerPOSITIVE+HorPOSITIVE) 2970000
    (3840+560) 3840 3840 (3840+560) (3840+176) (3840+176+88) (2160+90) 2160 2160 (2160+90) (2160+8) (2160+8+10);
  mkTiming TIMING_ATTRIB_SIZE 106 3840 2160 5000 (VerPOSITIVE+HorPOSITIVE) 5940000
    (3840+1440) 3840 3840 (3840+1440) (3840+1056) (3840+1056+88) (2160+90) 2160 2160 (2160+90) (2160+8) (2160+8+10);
  mkTiming TIMING_ATTRIB_SIZE 107 3840 2160 6000 (VerPOSITIVE+HorPOSITIVE) 5940000
    (3840+560) 3840 3840 (3840+560) (3840+176) (3840+176+88) (2160+90) 2160 2160 (2160+90) (2160+8) (2160+8+10);
  mkTiming TIMING_ATTRIB_SIZE 108 3840 2160 3000 (VerPOSITIVE+HorPOSITIVE) 2970000
    (3840+560) 3840 3840 (3840+560) (3840+176) (3840+176+88) (2160+90) 2160 2160 (2160+90) (2160+8) (2160+8+10)].

Definition HDMIFormatTimingTbl_19 : list CBIOS_TIMING_ATTRIB :=
  [mkTiming TIMING_ATTRIB_SIZE 109 3840 2160 2500 (VerPOSITIVE+HorPOSITIVE) 2970000
    (3840+1440) 3840 3840 (3840+1440) (3840+1056) (3840+1056+88) (2160+90) 2160 2160 (2160+90) (2160+8) (2160+8+10);
  mkTiming TIMING_ATTRIB_SIZE 110 3840 2160 2400 (VerPOSITIVE+HorPOSITIVE) 2970000
    (3840+1660) 3840 3840 (3840+1660) (3840+1276) (3840+1276+88) (2160+90) 2160 2160 (2160+90) (2160+8) (2160+8+10);
  mkTiming TIMING_ATTRIB_SIZE 111 4096 2160 2400 (VerPOSITIVE+HorPOSITIVE) 2970000
    (4096+1404) 4096 4096 (4096+1404) (4096+1020) (4096+1020+88) (2160+90) 2160 2160 (2160+90) (2160+8) (2160+8+10)].

Definition HDMIFormatTimingTbl : list CBIOS_TIMING_ATTRIB :=
  HDMIFormatTimingTbl_1 ++ HDMIFormatTimingTbl_2 ++ HDMIFormatTimingTbl_3 ++ HDMIFormatTimingTbl_4 ++
  HDMIFormatTimingTbl_5 ++ HDMIFormatTimingTbl_6 ++ HDMIFormatTimingTbl_7 ++ HDMIFormatTimingTbl_8 ++
  HDMIFormatTimingTbl_9 ++ HDMIFormatTimingTbl_10 ++ HDMIFormatTimingTbl_11 ++ HDMIFormatTimingTbl_12 ++
  HDMIFormatTimingTbl_13 ++ HDMIFormatTimingTbl_14 ++ HDMIFormatTimingTbl_15 ++ HDMIFormatTimingTbl_16 ++
  HDMIFormatTimingTbl_17 ++ HDMIFormatTimingTbl_18 ++ HDMIFormatTimingTbl_19.

(** ** [CEAVideoFormatTable]: VIC, aspect ratio, interlaced, supported *)
Definition CEAVideoFormatTable : list CBIOS_HDMI_FORMAT_MTX :=
  [mkFmt 1 1 0 1; mkFmt 2 1 0 1; mkFmt 3 2 0 1;
   mkFmt 4 2 0 1; mkFmt 5 2 1 1; mkFmt 6 1 1 0;
   mkFmt 7 2 1 0; mkFmt 8 1 0 0; mkFmt 9 2 0 0;
   mkFmt 10 1 1 0; mkFmt 11 2 1 0; mkFmt 12 1 0 0;
   mkFmt 13 2 0 0; mkFmt 14 1 0 0; mkFmt 15 2 0 0;
   mkFmt 16 2 0 1; mkFmt 17 1 0 1; mkFmt 18 2 0 1;
   mkFmt 19 2 0 1; mkFmt 20 2 1 1; mkFmt 21 1 1 0;
   mkFmt 22 2 1 0; mkFmt 23 1 0 0; mkFmt 24 2 0 0;
   mkFmt 25 1 1 0; mkFmt 26 2 1 0; mkFmt 27 1 0 0;
   mkFmt 28 2 0 0; mkFmt 29 1 0 0; mkFmt 30 2 0 0;
   mkFmt 31 2 0 1; mkFmt 32 2 0 1; mkFmt 33 2 0 1;
   mkFmt 34 2 0 1; mkFmt 35 1 0 0; mkFmt 36 2 0 0;
   mkFmt 37 1 0 0; mkFmt 38 2 0 0; mkFmt 39 2 1 0;
   mkFmt 40 2 1 0; mkFmt 41 2 0 1; mkFmt 42 1 0 1;
   mkFmt 43 2 0 1; mkFmt 44 1 1 0; mkFmt 45 2 1 0;
   mkFmt 46 2 1 0; mkFmt 47 2 0 1; mkFmt 48 1 0 1;
   mkFmt 49 2 0 1; mkFmt 50 1 1 0; mkFmt 51 2 1 0;
   mkFmt 52 1 0 1; mkFmt 53 2 0 1; mkFmt 54 1 1 0;
   mkFmt 55 2 1 0; mkFmt 56 1 0 1; mkFmt 57 2 0 1;
   mkFmt 58 1 1 0; mkFmt 59 2 1 0; mkFmt 60 2 0 1;
   mkFmt 61 2 0 1; mkFmt 62 2 0 1; mkFmt 63 2 0 1;
   mkFmt 64 2 0 1; mkFmt 65 3 0 1; mkFmt 66 3 0 1;
   mkFmt 67 3 0 1; mkFmt 68 3 0 1; mkFmt 69 3 0 1;
   mkFmt 70 3 0 1; mkFmt 71 3 0 1; mkFmt 72 3 0 1;
   mkFmt 73 3 0 1; mkFmt 74 3 0 1; mkFmt 75 3 0 1;
   mkFmt 76 3 0 1; mkFmt 77 3 0 1; mkFmt 78 3 0 1;
   mkFmt 79 3 0 0; mkFmt 80 3 0 0; mkFmt 81 3 0 0;
   mkFmt 82 3 0 0; mkFmt 83 3 0 0; mkFmt 84 3 0 0;
   mkFmt 85 3 0 0; mkFmt 86 3 0 1; mkFmt 87 3 0 1;
   mkFmt 88 3 0 1; mkFmt 89 3 0 1; mkFmt 90 3 0 1;
   mkFmt 91 3 0 1; mkFmt 92 3 0 1; mkFmt 93 2 0 1;
   mkFmt 94 2 0 1; mkFmt 95 2 0 1; mkFmt 96 2 0 1;
   mkFmt 97 2 0 1; mkFmt 98 4 0 1; mkFmt 99 4 0 1;
   mkFmt 100 4 0 1; mkFmt 101 4 0 1; mkFmt 102 4 0 1;
   mkFmt 103 3 0 1; mkFmt 104 3 0 1; mkFmt 105 3 0 1;
   mkFmt 106 3 0 1; mkFmt 107 3 0 1; mkFmt (CBIOS_HDMI_NORMAL_VIC_COUNTS + 1) 2 0 1;
   mkFmt (CBIOS_HDMI_NORMAL_VIC_COUNTS + 2) 2 0 1; mkFmt (CBIOS_HDMI_NORMAL_VIC_COUNTS + 3) 2 0 1; mkFmt (CBIOS_HDMI_NORMAL_VIC_COUNTS + 4) 2 0 1].

(** ** Established timings: which bits the driver honours, and (x, y, rate). *)
Definition EstModeSupportTbl : list bool :=
  [true; false; true; true; false; true; false; false;
   true; true; true; true; false; false; true; true;
   false].

Definition EstTiming : list (Z * Z * Z) :=
  [(0x320, 0x258, 6000); (0x320, 0x258, 5600); (0x280, 0x1E0, 7500); (0x280, 0x1E0, 7200);
   (0x280, 0x1E0, 6700); (0x280, 0x1E0, 6000); (0x2D0, 0x190, 8800); (0x2D0, 0x190, 7000);
   (0x500, 0x400, 7500); (0x400, 0x300, 7500); (0x400, 0x300, 7000); (0x400, 0x300, 6000);
   (0x400, 0x300, 8700); (0x340, 0x270, 7500); (0x320, 0x258, 7500); (0x320, 0x258, 7200);
   (0x480, 0x366, 7500)].

(** ** Replacement EDIDs *)
Definition PHL_24PFL3545_Edid : list Z :=
  [0; 255; 255; 255; 255; 255; 255; 0; 65; 12; 16; 0; 1; 1; 1; 1;
   0; 23; 1; 3; 128; 53; 30; 120; 42; 71; 137; 163; 87; 71; 159; 34;
   17; 72; 76; 191; 239; 128; 179; 0; 149; 0; 129; 128; 129; 64; 113; 79;
   1; 1; 1; 1; 1; 1; 2; 58; 128; 24; 113; 56; 45; 64; 88; 44;
   69; 0; 9; 37; 33; 0; 0; 30; 102; 33; 80; 176; 81; 0; 27; 48;
   64; 112; 54; 0; 9; 37; 33; 0; 0; 30; 0; 0; 0; 253; 0; 55;
   76; 30; 82; 17; 0; 10; 32; 32; 32; 32; 32; 32; 0; 0; 0; 252;
   0; 66; 50; 52; 80; 70; 76; 51; 53; 52; 53; 47; 84; 51; 1; 49;
   2; 3; 34; 242; 79; 159; 20; 19; 18; 17; 22; 21; 144; 5; 4; 3;
   2; 7; 6; 1; 35; 9; 7; 1; 131; 1; 0; 0; 101; 3; 12; 0;
   16; 0; 2; 58; 128; 208; 114; 56; 45; 64; 16; 44; 69; 128; 9; 37;
   33; 0; 0; 30; 1; 29; 128; 208; 114; 28; 22; 32; 16; 44; 37; 128;
   9; 37; 33; 0; 0; 158; 1; 29; 0; 188; 82; 208; 30; 32; 184; 40;
   85; 64; 9; 37; 33; 0; 0; 24; 140; 10; 208; 144; 32; 64; 49; 32;
   12; 64; 85; 0; 9; 37; 33; 0; 0; 24; 2; 58; 128; 24; 113; 56;
   45; 64; 88; 44; 69; 0; 9; 37; 33; 0; 0; 30; 0; 0; 0; 38].

Definition AUO_B145QAN01_Edid : list Z :=
  [0; 255; 255; 255; 255; 255; 255; 0; 6; 175; 167; 122; 0; 0; 0; 0;
   37; 32; 1; 4; 181; 31; 20; 120; 3; 238; 149; 163; 84; 76; 153; 38;
   15; 80; 84; 0; 0; 0; 1; 1; 1; 1; 1; 1; 1; 1; 1; 1;
   1; 1; 1; 1; 1; 1; 209; 159; 0; 162; 160; 64; 137; 99; 48; 32;
   53; 0; 56; 195; 16; 0; 0; 24; 209; 159; 0; 162; 160; 64; 70; 96;
   48; 32; 53; 0; 56; 195; 16; 0; 0; 24; 0; 0; 0; 254; 0; 65;
   85; 79; 10; 32; 32; 32; 32; 32; 32; 32; 32; 32; 0; 0; 0; 254;
   0; 76; 69; 78; 49; 52; 53; 87; 81; 88; 71; 65; 32; 32; 0; 41].

Definition CSW1473_Edid : list Z :=
  [0; 255; 255; 255; 255; 255; 255; 0; 14; 119; 115; 20; 0; 0; 0; 0;
   39; 35; 1; 4; 165; 31; 20; 120; 7; 238; 149; 163; 84; 76; 153; 38;
   15; 80; 84; 0; 0; 0; 1; 1; 1; 1; 1; 1; 1; 1; 1; 1;
   1; 1; 1; 1; 1; 1; 103; 62; 128; 160; 112; 176; 80; 64; 48; 32;
   54; 0; 56; 195; 16; 0; 0; 26; 154; 93; 128; 160; 112; 176; 80; 64;
   48; 32; 54; 0; 56; 195; 16; 0; 0; 26; 0; 0; 0; 253; 0; 48;
   90; 116; 116; 24; 1; 10; 32; 32; 32; 32; 32; 32; 0; 0; 0; 252;
   0; 77; 78; 69; 53; 48; 55; 81; 83; 50; 45; 52; 10; 32; 1; 78;
   112; 32; 121; 2; 0; 129; 0; 21; 116; 26; 0; 0; 3; 1; 48; 90;
   0; 0; 0; 0; 0; 0; 90; 0; 0; 0; 0; 173; 0; 0; 0; 0;
   0; 0; 0; 0; 0; 0; 0; 0; 0; 0; 0; 0; 0; 0; 0; 0;
   0; 0; 0; 0; 0; 0; 0; 0; 0; 0; 0; 0; 0; 0; 0; 0;
   0; 0; 0; 0; 0; 0; 0; 0; 0; 0; 0; 0; 0; 0; 0; 0;
   0; 0; 0; 0; 0; 0; 0; 0; 0; 0; 0; 0; 0; 0; 0; 0;
   0; 0; 0; 0; 0; 0; 0; 0; 0; 0; 0; 0; 0; 0; 0; 0;
   0; 0; 0; 0; 0; 0; 0; 0; 0; 0; 0; 0; 0; 0; 172; 144].

