(* ===== verification/EdidTypes.v ===== *)
(** * Data of the EDID module

    The structures of [cbios/Util/CBiosEDID.h] and [cbios/CBios.h] that the
    EDID parser fills, with a record per struct and [zero_...] for the value
    [cb_memset(..., 0, ...)] gives it; the tag and flag constants. *)
From S2P Require Import Prelude CbUtil Timing TimingTables.

(** Tags of the data blocks of a CEA extension ([CBIOS_CEA_BLOCK_TAG]). *)
Definition AUDIO_DATA_BLOCK_TAG : Z := 1.
Definition VIDEO_DATA_BLOCK_TAG : Z := 2.
Definition VENDOR_SPECIFIC_DATA_BLOCK_TAG : Z := 3.
Definition SPEAKER_ALLOCATION_DATA_BLOCK_TAG : Z := 4.
Definition CEA_EXTENDED_BLOCK_TAG : Z := 7.

(** Extended tags ([CBIOS_CEA_EXTENDED_BLOCK_TAG]). *)
Definition VIDEO_CAPABILITY_DATA_BLOCK_TAG : Z := 0.
Definition VENDOR_SPECIFIC_VIDEO_DATA_BLOCK_TAG : Z := 1.
Definition COLORIMETRY_DATA_BLOCK_TAG : Z := 5.
Definition HDR_STATIC_META_DATA_BLOCK : Z := 6.
Definition VIDEO_FMT_PREFERENCE_DATA_BLOCK : Z := 0xD.
Definition YCBCR420_VIDEO_DATA_BLOCK : Z := 0xE.
Definition YCBCR420_CAP_MAP_DATA_BLOCK : Z := 0xF.
Definition VENDOR_SPECIFIC_AUDIO_DATA_BLOCK_TAG : Z := 0x11.
Definition RSVD_HDMI_AUDIO_DATA_BLOCK_TAG : Z := 0x12.
Definition INFOFRAME_DATA_BLOCK : Z := 0x20.
Definition HF_EDID_EXTENSION_OVERRIDE_DATA_BLOCK : Z := 0x78.
Definition HF_SINK_CAPABILITY_DATA_BLOCK : Z := 0x79.

(** InfoFrame types ([cbios/Device/Monitor/CBiosHDMIMonitor.h]). *)
Definition VENDOR_SPECIFIC_INFO_FRAME_TYPE : Z := 1.
Definition AVI_INFO_FRAME_TYPE : Z := 2.
Definition SOURCE_PRODUCT_DESCRIPTION_INFO_FRAME_TYPE : Z := 3.
Definition AUDIO_INFO_FRAME_TYPE : Z := 4.
Definition MPEG_SOURCE_INFO_FRAME_TYPE : Z := 5.
Definition NTSC_VBI_INFO_FRAME_TYPE : Z := 6.

(** DisplayID tags, block layout, counts. *)
Definition CEA_TAG : Z := 0x02.
Definition DISPLAYID_TAG : Z := 0x70.
Definition VIDEO_TIMING_MODES_DATA_BLOCK_TYPE1_TAG : Z := 3.
Definition VIDEO_TIMING_MODES_DATA_BLOCK2_TYPE7_TAG : Z := 0x22.
Definition DID_TYPE1_TIMING_DESCRIPTOR_LENGTH : Z := 20.
Definition MONITORIDINDEX : Z := 0x08.
Definition ESTABLISH_TIMINGS_INDEX : Z := 0x23.
Definition STANDARD_TIMINGS_INDEX : Z := 0x26.
Definition DETAILED_TIMINGS_INDEX : Z := 0x36.
Definition CBIOS_ESTABLISHMODECOUNT : Z := 17.
Definition CBIOS_STDMODECOUNT : Z := 8.
Definition CBIOS_DTLMODECOUNT : Z := 4.
Definition MAX_SVD_COUNT : Z := 31.
Definition CBIOS_HDMI_AUDIO_FORMAT_COUNTS : Z := 16.
Definition SVR_FLAG_VIC : Z := 1.
Definition SVR_FLAG_DTD_INDEX : Z := 2.
Definition CBIOS_ER_EDID_INVALID : Z := 26.

(** Smallest timing kept ([CBIOS_MIN_PIXEL_CLK] and its neighbours). *)
Definition CBIOS_MIN_PIXEL_CLK : Z := 200000.
Definition CBIOS_MIN_TIMING_X : Z := 640.
Definition CBIOS_MIN_TIMING_Y : Z := 480.

(** Timing types (bit mask of [cbios/CBios.h]). *)
Definition CBIOS_EST_TIMING : Z := 0x01.
Definition CBIOS_STD_TIMING : Z := 0x02.
Definition CBIOS_DTL_TIMING : Z := 0x04.
Definition CBIOS_DTD_TIMING : Z := 0x08.
Definition CBIOS_SVD_TIMING : Z := 0x10.
Definition CBIOS_DISP_ID_TIMING : Z := 0x20.

(** Audio formats ([CBIOS_HDMI_AUDIO_FORMAT_TYPE]). *)
Definition CBIOS_AUDIO_FORMAT_LPCM : Z := 1.
Definition CBIOS_AUDIO_FORMAT_HE_AAC : Z := 15.
Definition CBIOS_AUDIO_FORMAT_HE_AAC_V2 : Z := 16.
Definition CBIOS_AUDIO_FORMAT_MPEG_SURROUND : Z := 17.

(** Stereo views ([CBIOS_STEREO_VIEW]). *)
Definition FIELD_SEQ_RIGHT : Z := 1.
Definition FIELD_SEQ_LEFT : Z := 2.
Definition TWO_WAY_RIGHT : Z := 3.
Definition TWO_WAY_LEFT : Z := 4.
Definition FOUR_WAY : Z := 5.
Definition SIDE_BY_SIDE_INTERLEAVE : Z := 6.


(** [CBIOS_DEVICE_TIMING_INFO]: A timing of the device list; the bit fields of [TimingFlags] are 0 or 1. *)
Record CBIOS_DEVICE_TIMING_INFO := mkDti {
  TimingType : Z;
  FullTiming : CBIOS_TIMING_ATTRIB;
  AspectRatio : Z;
  IsSupportMono : Z;
  IsSupportStereo : Z;
  IsNativeMode : Z;
  IsPreferMode : Z;
  IsInterLaced : Z;
  IsSupportYCbCr420 : Z;
  IsSupportOtherFormats : Z;
  RsvdTimingFlags : Z;
  Merged : Z
}.

#[export] Instance eta_mkDti : Eta CBIOS_DEVICE_TIMING_INFO := fun r =>
  mkDti (TimingType r) (FullTiming r) (AspectRatio r) (IsSupportMono r) (IsSupportStereo r)
    (IsNativeMode r) (IsPreferMode r) (IsInterLaced r) (IsSupportYCbCr420 r)
    (IsSupportOtherFormats r) (RsvdTimingFlags r) (Merged r).

#[export] Instance mkDti_eq_dec : EqDecision CBIOS_DEVICE_TIMING_INFO.
Proof. solve_decision. Defined.

Definition zero_dti : CBIOS_DEVICE_TIMING_INFO :=
  mkDti 0 zero_timing 0 0 0 0 0 0 0 0 0 0.

(** [CBIOS_HDMI_3D_FORMAT]: An entry of [HDMI3DForamt] (sic): three nibbles. *)
Record CBIOS_HDMI_3D_FORMAT := mk3D {
  HDMI3DStructure : Z;
  HDMI2DVICOrder : Z;
  HDMI3DDetail : Z
}.

#[export] Instance eta_mk3D : Eta CBIOS_HDMI_3D_FORMAT := fun r =>
  mk3D (HDMI3DStructure r) (HDMI2DVICOrder r) (HDMI3DDetail r).

#[export] Instance mk3D_eq_dec : EqDecision CBIOS_HDMI_3D_FORMAT.
Proof. solve_decision. Defined.

Definition zero_3d : CBIOS_HDMI_3D_FORMAT :=
  mk3D 0 0 0.

(** [CBIOS_HDMI_VSDB_EXTENTION]: The decoded HDMI vendor specific data block. [SupportCaps], [PresentFlags]
    and [HDMI3DPresentFlags] are the bytes of the unions; their bit fields are
    the accessors below. *)
Record CBIOS_HDMI_VSDB_EXTENTION := mkVsdb {
  VSDBLength : Z;
  VSDBTag : Z;
  RegistrationIDByte0 : Z;
  RegistrationIDByte1 : Z;
  RegistrationIDByte2 : Z;
  SourcePhyAddr : Z;
  SupportCaps : Z;
  MaxTMDSClock : Z;
  PresentFlags : Z;
  VideoLatency : Z;
  AudioLatency : Z;
  InterlacedVideoLatency : Z;
  InterlacedAudioLatency : Z;
  HDMI3DPresentFlags : Z;
  HDMI3DLen : Z;
  HDMIVICLen : Z;
  HDMIVIC : list Z;
  HDMI3DStructAll : Z;
  HDMI3DMask : Z;
  HDMI3DForamt : list CBIOS_HDMI_3D_FORMAT;
  HDMI3DFormatCount : Z
}.

#[export] Instance eta_mkVsdb : Eta CBIOS_HDMI_VSDB_EXTENTION := fun r =>
  mkVsdb (VSDBLength r) (VSDBTag r) (RegistrationIDByte0 r) (RegistrationIDByte1 r)
    (RegistrationIDByte2 r) (SourcePhyAddr r) (SupportCaps r) (MaxTMDSClock r) (PresentFlags r)
    (VideoLatency r) (AudioLatency r) (InterlacedVideoLatency r) (InterlacedAudioLatency r)
    (HDMI3DPresentFlags r) (HDMI3DLen r) (HDMIVICLen r) (HDMIVIC r) (HDMI3DStructAll r)
    (HDMI3DMask r) (HDMI3DForamt r) (HDMI3DFormatCount r).

#[export] Instance mkVsdb_eq_dec : EqDecision CBIOS_HDMI_VSDB_EXTENTION.
Proof. solve_decision. Defined.

Definition zero_vsdb : CBIOS_HDMI_VSDB_EXTENTION :=
  mkVsdb 0 0 0 0 0 0 0 0 0 0 0 0 0 0 0 0 (replicate 7 0) 0 0 (replicate 31 zero_3d) 0.

(** [CBIOS_MRL]: Monitor range limits. *)
Record CBIOS_MRL := mkMrl {
  bSupportFreeSync : bool;
  mrl_Flags : Z;
  MinVerRate : Z;
  MaxVerRate : Z;
  MinHorRate : Z;
  MaxHorRate : Z;
  MaxPixelClock : Z
}.

#[export] Instance eta_mkMrl : Eta CBIOS_MRL := fun r =>
  mkMrl (bSupportFreeSync r) (mrl_Flags r) (MinVerRate r) (MaxVerRate r) (MinHorRate r)
    (MaxHorRate r) (MaxPixelClock r).

#[export] Instance mkMrl_eq_dec : EqDecision CBIOS_MRL.
Proof. solve_decision. Defined.

Definition zero_mrl : CBIOS_MRL :=
  mkMrl false 0 0 0 0 0 0.

(** [CBIOS_HF_SCDS_DATA]: HDMI Forum sink capabilities. [oui] holds the union of the three bytes:
    the IEEE OUI of an HF-VSDB, or the extended tag code and two reserved
    bytes of an HF-SCDB. *)
Record CBIOS_HF_SCDS_DATA := mkScds {
  scds_Length : Z;
  scds_CTATag : Z;
  oui : list Z;
  scds_Version : Z;
  MaxTMDSCharacterRate : Z;
  scds_SupportCaps : Z
}.

#[export] Instance eta_mkScds : Eta CBIOS_HF_SCDS_DATA := fun r =>
  mkScds (scds_Length r) (scds_CTATag r) (oui r) (scds_Version r) (MaxTMDSCharacterRate r)
    (scds_SupportCaps r).

#[export] Instance mkScds_eq_dec : EqDecision CBIOS_HF_SCDS_DATA.
Proof. solve_decision. Defined.

Definition zero_scds : CBIOS_HF_SCDS_DATA :=
  mkScds 0 0 (replicate 3 0) 0 0 0.

(** [CBIOS_AMD_VSDB_EXTENTION]: The AMD (FreeSync) vendor specific data block. *)
Record CBIOS_AMD_VSDB_EXTENTION := mkAmd {
  amd_VSDBLength : Z;
  amd_VSDBTag : Z;
  IEEEOUIByte0 : Z;
  IEEEOUIByte1 : Z;
  IEEEOUIByte2 : Z;
  amd_Version : Z;
  FreeSyncCaps : Z;
  MinSupportedRefRate : Z;
  MaxSupportedRefRate : Z;
  MCCSVcpCode : Z
}.

#[export] Instance eta_mkAmd : Eta CBIOS_AMD_VSDB_EXTENTION := fun r =>
  mkAmd (amd_VSDBLength r) (amd_VSDBTag r) (IEEEOUIByte0 r) (IEEEOUIByte1 r) (IEEEOUIByte2 r)
    (amd_Version r) (FreeSyncCaps r) (MinSupportedRefRate r) (MaxSupportedRefRate r)
    (MCCSVcpCode r).

#[export] Instance mkAmd_eq_dec : EqDecision CBIOS_AMD_VSDB_EXTENTION.
Proof. solve_decision. Defined.

Definition zero_amd : CBIOS_AMD_VSDB_EXTENTION :=
  mkAmd 0 0 0 0 0 0 0 0 0 0.

(** [CBIOS_HDMI_AUDIO_INFO]: An audio format. [Unit] is the 32-bit word of the union: the bit depths of
    LPCM in bits 0-2, a maximal bit rate, a format dependent value or the WMA
    profile in bits 0-2. *)
Record CBIOS_HDMI_AUDIO_INFO := mkAudio {
  Format : Z;
  MaxChannelNum : Z;
  SampleRateUnit : Z;
  Unit : Z
}.

#[export] Instance eta_mkAudio : Eta CBIOS_HDMI_AUDIO_INFO := fun r =>
  mkAudio (Format r) (MaxChannelNum r) (SampleRateUnit r) (Unit r).

#[export] Instance mkAudio_eq_dec : EqDecision CBIOS_HDMI_AUDIO_INFO.
Proof. solve_decision. Defined.

Definition zero_audio : CBIOS_HDMI_AUDIO_INFO :=
  mkAudio 0 0 0 0.

(** [CBIOS_HDMI_3D_AUDIO_DATA] *)
Record CBIOS_HDMI_3D_AUDIO_DATA := mkAudio3D {
  MaxStreamCount : Z;
  SupportsMSNonMixed : Z;
  NumHDMI3DAD : Z;
  HDMI3DAudioDesc : list CBIOS_HDMI_AUDIO_INFO
}.

#[export] Instance eta_mkAudio3D : Eta CBIOS_HDMI_3D_AUDIO_DATA := fun r =>
  mkAudio3D (MaxStreamCount r) (SupportsMSNonMixed r) (NumHDMI3DAD r) (HDMI3DAudioDesc r).

#[export] Instance mkAudio3D_eq_dec : EqDecision CBIOS_HDMI_3D_AUDIO_DATA.
Proof. solve_decision. Defined.

Definition zero_audio3d : CBIOS_HDMI_3D_AUDIO_DATA :=
  mkAudio3D 0 0 0 (replicate 8 zero_audio).

(** [CBIOS_CEA_EXTENED_BLOCK]: An extended data block. The C struct overlays the four payloads in a union;
    every entry of [ExtDataBlock] is only accessed through the member of its
    own tag, so the model keeps them apart: [ColorimetryData] (2 bytes),
    [VideoCapabilityData] (1 byte), [HDMIAudioData], [HDRStaticMetaData] (5 bytes). *)
Record CBIOS_CEA_EXTENED_BLOCK := mkExt {
  ColorimetryData : list Z;
  VideoCapabilityData : list Z;
  HDMIAudioData : CBIOS_HDMI_3D_AUDIO_DATA;
  HDRStaticMetaData : list Z
}.

#[export] Instance eta_mkExt : Eta CBIOS_CEA_EXTENED_BLOCK := fun r =>
  mkExt (ColorimetryData r) (VideoCapabilityData r) (HDMIAudioData r) (HDRStaticMetaData r).

#[export] Instance mkExt_eq_dec : EqDecision CBIOS_CEA_EXTENED_BLOCK.
Proof. solve_decision. Defined.

Definition zero_ext : CBIOS_CEA_EXTENED_BLOCK :=
  mkExt (replicate 2 0) (replicate 1 0) zero_audio3d (replicate 5 0).

(** [CBIOS_CEA_SVD_DATA]: The short video descriptors of a block. *)
Record CBIOS_CEA_SVD_DATA := mkSvd {
  SVDCount : Z;
  SVD : list Z
}.

#[export] Instance eta_mkSvd : Eta CBIOS_CEA_SVD_DATA := fun r =>
  mkSvd (SVDCount r) (SVD r).

#[export] Instance mkSvd_eq_dec : EqDecision CBIOS_CEA_SVD_DATA.
Proof. solve_decision. Defined.

Definition zero_svd : CBIOS_CEA_SVD_DATA :=
  mkSvd 0 (replicate 31 0).

(** [CBIOS_INFO_FRAME_CAPS]: Two one-bit fields. *)
Record CBIOS_INFO_FRAME_CAPS := mkIfc {
  bSupport : Z;
  Priority : Z
}.

#[export] Instance eta_mkIfc : Eta CBIOS_INFO_FRAME_CAPS := fun r =>
  mkIfc (bSupport r) (Priority r).

#[export] Instance mkIfc_eq_dec : EqDecision CBIOS_INFO_FRAME_CAPS.
Proof. solve_decision. Defined.

Definition zero_ifc : CBIOS_INFO_FRAME_CAPS :=
  mkIfc 0 0.

(** [CBIOS_INFO_FRAME_SUPPORT_CAPS] *)
Record CBIOS_INFO_FRAME_SUPPORT_CAPS := mkIfsc {
  HDMISpecificInfoFrameCaps : CBIOS_INFO_FRAME_CAPS;
  HFSpecificInfoFrameCaps : CBIOS_INFO_FRAME_CAPS;
  AVIInfoFrameCaps : CBIOS_INFO_FRAME_CAPS;
  SourceProductDescInfoFrameCaps : CBIOS_INFO_FRAME_CAPS;
  AudioInfoFrameCaps : CBIOS_INFO_FRAME_CAPS;
  MpegSourceInfoFrameCaps : CBIOS_INFO_FRAME_CAPS;
  NTSCVBIInfoFrameCaps : CBIOS_INFO_FRAME_CAPS
}.

#[export] Instance eta_mkIfsc : Eta CBIOS_INFO_FRAME_SUPPORT_CAPS := fun r =>
  mkIfsc (HDMISpecificInfoFrameCaps r) (HFSpecificInfoFrameCaps r) (AVIInfoFrameCaps r)
    (SourceProductDescInfoFrameCaps r) (AudioInfoFrameCaps r) (MpegSourceInfoFrameCaps r)
    (NTSCVBIInfoFrameCaps r).

#[export] Instance mkIfsc_eq_dec : EqDecision CBIOS_INFO_FRAME_SUPPORT_CAPS.
Proof. solve_decision. Defined.

Definition zero_ifsc : CBIOS_INFO_FRAME_SUPPORT_CAPS :=
  mkIfsc zero_ifc zero_ifc zero_ifc zero_ifc zero_ifc zero_ifc zero_ifc.

(** [CBIOS_SVR_DESC]: A short video reference. *)
Record CBIOS_SVR_DESC := mkSvr {
  SVRFlag : Z;
  SVRValue : Z
}.

#[export] Instance eta_mkSvr : Eta CBIOS_SVR_DESC := fun r =>
  mkSvr (SVRFlag r) (SVRValue r).

#[export] Instance mkSvr_eq_dec : EqDecision CBIOS_SVR_DESC.
Proof. solve_decision. Defined.

Definition zero_svr : CBIOS_SVR_DESC :=
  mkSvr 0 0.

(** [CBIOS_MONITOR_CHROMATICITY] *)
Record CBIOS_MONITOR_CHROMATICITY := mkChroma {
  Red_X : Z;
  Red_Y : Z;
  Green_X : Z;
  Green_Y : Z;
  Blue_X : Z;
  Blue_Y : Z;
  White_X : Z;
  White_Y : Z
}.

#[export] Instance eta_mkChroma : Eta CBIOS_MONITOR_CHROMATICITY := fun r =>
  mkChroma (Red_X r) (Red_Y r) (Green_X r) (Green_Y r) (Blue_X r) (Blue_Y r) (White_X r) (White_Y r).

#[export] Instance mkChroma_eq_dec : EqDecision CBIOS_MONITOR_CHROMATICITY.
Proof. solve_decision. Defined.

Definition zero_chroma : CBIOS_MONITOR_CHROMATICITY :=
  mkChroma 0 0 0 0 0 0 0 0.

(** [CBIOS_MONITOR_MISC_ATTRIB]: The attributes of a monitor. [CEA861MonitorCaps] is the word of the union of
    seven flag bits; [CEA_SADs] is the [15][3] array, row after row. *)
Record CBIOS_MONITOR_MISC_ATTRIB := mkAttrib {
  CEA861MonitorCaps : Z;
  NativeFormatNum : Z;
  Tag : Z;
  RevisionNumber : Z;
  OffsetOfDetailedTimingBlock : Z;
  VSDBData : CBIOS_HDMI_VSDB_EXTENTION;
  HFSCDSData : CBIOS_HF_SCDS_DATA;
  AMDVSDBData : CBIOS_AMD_VSDB_EXTENTION;
  SVDData : list CBIOS_CEA_SVD_DATA;
  ExtDataBlock : list CBIOS_CEA_EXTENED_BLOCK;
  bStereoViewSupport : bool;
  StereoViewType : Z;
  ManufactureName : list Z;
  ProductCode : list Z;
  MonitorName : list Z;
  MonitorID : list Z;
  Alphanumeric : list Z;
  SAD_Count : Z;
  CEA_SADs : list Z;
  SpeakerAllocationData : Z;
  MonitorHorSize : Z;
  MonitorVerSize : Z;
  NumOfAdditionalVSIFs : Z;
  InfoFrameSupCaps : CBIOS_INFO_FRAME_SUPPORT_CAPS;
  ShortVideoRef : list CBIOS_SVR_DESC;
  Chromaticity : CBIOS_MONITOR_CHROMATICITY;
  MRLData : CBIOS_MRL
}.

#[export] Instance eta_mkAttrib : Eta CBIOS_MONITOR_MISC_ATTRIB := fun r =>
  mkAttrib (CEA861MonitorCaps r) (NativeFormatNum r) (Tag r) (RevisionNumber r)
    (OffsetOfDetailedTimingBlock r) (VSDBData r) (HFSCDSData r) (AMDVSDBData r) (SVDData r)
    (ExtDataBlock r) (bStereoViewSupport r) (StereoViewType r) (ManufactureName r) (ProductCode r)
    (MonitorName r) (MonitorID r) (Alphanumeric r) (SAD_Count r) (CEA_SADs r)
    (SpeakerAllocationData r) (MonitorHorSize r) (MonitorVerSize r) (NumOfAdditionalVSIFs r)
    (InfoFrameSupCaps r) (ShortVideoRef r) (Chromaticity r) (MRLData r).

#[export] Instance mkAttrib_eq_dec : EqDecision CBIOS_MONITOR_MISC_ATTRIB.
Proof. solve_decision. Defined.

Definition zero_attrib : CBIOS_MONITOR_MISC_ATTRIB :=
  mkAttrib 0 0 0 0 0 zero_vsdb zero_scds zero_amd (replicate 7 zero_svd) (replicate 122 zero_ext)
    false 0 (replicate 2 0) (replicate 2 0) (replicate 16 0) (replicate 8 0)
    (replicate 13 0) 0 (replicate 45 0) 0 0 0 0 zero_ifsc (replicate 31 zero_svr)
    zero_chroma zero_mrl.

(** [CBIOS_EDID_STRUCTURE_DATA]: The decoded EDID. [pDeviceTimingList] is [None] for the null pointer, else
    the whole allocated array ([TimingArraySize] entries, of which the first
    [TimingNum] are in use). [AllocCalls] is not a field of the C struct: it
    counts the requests made to the kernel's pool, whose outcome is a
    parameter of the model. *)
Record CBIOS_EDID_STRUCTURE_DATA := mkEdidStruct {
  Version : Z;
  NativeNumUsed : Z;
  Attribute : CBIOS_MONITOR_MISC_ATTRIB;
  HDAudioFormatNum : Z;
  HDAudioFormat : list CBIOS_HDMI_AUDIO_INFO;
  TimingNum : Z;
  TimingArraySize : Z;
  pDeviceTimingList : option (list CBIOS_DEVICE_TIMING_INFO);
  AllocCalls : nat
}.

#[export] Instance eta_mkEdidStruct : Eta CBIOS_EDID_STRUCTURE_DATA := fun r =>
  mkEdidStruct (Version r) (NativeNumUsed r) (Attribute r) (HDAudioFormatNum r) (HDAudioFormat r)
    (TimingNum r) (TimingArraySize r) (pDeviceTimingList r) (AllocCalls r).

#[export] Instance mkEdidStruct_eq_dec : EqDecision CBIOS_EDID_STRUCTURE_DATA.
Proof. solve_decision. Defined.

Definition zero_edid_struct : CBIOS_EDID_STRUCTURE_DATA :=
  mkEdidStruct 0 0 zero_attrib 0 (replicate 16 zero_audio) 0 0 None 0%nat.

(** [CBIOS_EDID_DATA]: An EDID buffer; [None] is the null pointer. *)
Record CBIOS_EDID_DATA := mkEdidData {
  Buffer : option (list Z);
  BufferSize : Z
}.

#[export] Instance eta_mkEdidData : Eta CBIOS_EDID_DATA := fun r =>
  mkEdidData (Buffer r) (BufferSize r).

#[export] Instance mkEdidData_eq_dec : EqDecision CBIOS_EDID_DATA.
Proof. solve_decision. Defined.

(** [CBIOS_FAKE_EDID_PARAMS] *)
Record CBIOS_FAKE_EDID_PARAMS := mkFake {
  DtlTiming : CBIOS_TIMING_ATTRIB;
  bProvideDtlTimingEDID : bool;
  DtlTimingEDID : list Z
}.

#[export] Instance eta_mkFake : Eta CBIOS_FAKE_EDID_PARAMS := fun r =>
  mkFake (DtlTiming r) (bProvideDtlTimingEDID r) (DtlTimingEDID r).

#[export] Instance mkFake_eq_dec : EqDecision CBIOS_FAKE_EDID_PARAMS.
Proof. solve_decision. Defined.

(** ** Bit fields of the unions *)

Definition LatencyFieldsPresent (v : CBIOS_HDMI_VSDB_EXTENTION) : Z := bit (PresentFlags v) 7.
Definition ILatencyFieldsPresent (v : CBIOS_HDMI_VSDB_EXTENTION) : Z := bit (PresentFlags v) 6.
Definition HDMIVideoPresent (v : CBIOS_HDMI_VSDB_EXTENTION) : Z := bit (PresentFlags v) 5.
Definition HDMI3DPresent (v : CBIOS_HDMI_VSDB_EXTENTION) : Z := bit (HDMI3DPresentFlags v) 7.
Definition HDMI3DMultiPresent (v : CBIOS_HDMI_VSDB_EXTENTION) : Z :=
  Z.land (Z.shiftr (HDMI3DPresentFlags v) 5) 3.

(** Bits of [CEA861MonitorCaps]. *)
Definition CAP_Monitor : Z := 0.
Definition CAP_RGB : Z := 1.
Definition CAP_YCbCr422 : Z := 2.
Definition CAP_YCbCr444 : Z := 3.
Definition CAP_Audio : Z := 4.
Definition CAP_UnderScan : Z := 5.
Definition CAP_HDMI : Z := 6.
Definition get_cap (a : CBIOS_MONITOR_MISC_ATTRIB) (n : Z) : Z := bit (CEA861MonitorCaps a) n.
Definition set_cap (n v : Z) (a : CBIOS_MONITOR_MISC_ATTRIB) : CBIOS_MONITOR_MISC_ATTRIB :=
  a <| CEA861MonitorCaps ::= fun w => setfield w n 1 v |>.

(** ** Well-formedness

    The arrays have their C sizes and the counters stay within them: the
    invariant every operation of the module preserves. *)
Record svd_ok (d : CBIOS_CEA_SVD_DATA) : Prop := {
  svd_count : 0 <= SVDCount d <= 31;
  svd_len : zlen (SVD d) = 31
}.

Record ext_ok (e : CBIOS_CEA_EXTENED_BLOCK) : Prop := {
  ext_color : zlen (ColorimetryData e) = 2;
  ext_vcap : zlen (VideoCapabilityData e) = 1;
  ext_hdr : zlen (HDRStaticMetaData e) = 5;
  ext_audio : zlen (HDMI3DAudioDesc (HDMIAudioData e)) = 8
}.

Record vsdb_ok (v : CBIOS_HDMI_VSDB_EXTENTION) : Prop := {
  vsdb_viclen : 0 <= HDMIVICLen v <= 7;
  vsdb_vics : zlen (HDMIVIC v) = 7;
  vsdb_vic_range : Forall (fun x => 0 <= x <= CBIOS_HDMI_EXTENED_VIC_COUNTS) (HDMIVIC v);
  vsdb_3d : zlen (HDMI3DForamt v) = 31;
  vsdb_3dcount : 0 <= HDMI3DFormatCount v <= 31
}.

Record attr_ok (a : CBIOS_MONITOR_MISC_ATTRIB) : Prop := {
  at_id : zlen (MonitorID a) = 8;
  at_name : zlen (MonitorName a) = 16;
  at_text : zlen (Alphanumeric a) = 13;
  at_manuf : zlen (ManufactureName a) = 2;
  at_prod : zlen (ProductCode a) = 2;
  at_svd_len : zlen (SVDData a) = 7;
  at_svd : Forall svd_ok (SVDData a);
  at_ext_len : zlen (ExtDataBlock a) = 122;
  at_ext : Forall ext_ok (ExtDataBlock a);
  at_svr : zlen (ShortVideoRef a) = 31;
  at_vsdb : vsdb_ok (VSDBData a);
  at_sads : zlen (CEA_SADs a) = 45;
  at_sadcnt : 0 <= SAD_Count a <= 15
}.

Record audio_ok (s : CBIOS_EDID_STRUCTURE_DATA) : Prop := {
  au_len : zlen (HDAudioFormat s) = 16;
  au_num : 0 <= HDAudioFormatNum s <= 16
}.

(** The timing list holds [TimingNum] <= [B] timings in an array of
    [TimingArraySize] entries. *)
Definition tl_ok (B : Z) (s : CBIOS_EDID_STRUCTURE_DATA) : Prop :=
  0 <= TimingNum s <= B /\ B < 2 ^ 24 /\
  match pDeviceTimingList s with
  | None => TimingNum s = 0
  | Some l => zlen l = TimingArraySize s /\ TimingNum s <= TimingArraySize s <= TimingNum s + 48
  end.

Record st_ok (B : Z) (s : CBIOS_EDID_STRUCTURE_DATA) : Prop := {
  st_tl : tl_ok B s;
  st_attr : attr_ok (Attribute s);
  st_audio : audio_ok s
}.

(** The timings of the list. *)
Definition timings (s : CBIOS_EDID_STRUCTURE_DATA) : list CBIOS_DEVICE_TIMING_INFO :=
  match pDeviceTimingList s with
  | None => []
  | Some l => take (Z.to_nat (TimingNum s)) l
  end.

Lemma attr_ok_zero : attr_ok zero_attrib.
Proof.
  constructor; try reflexivity; try (cbn; lia).
  - apply Forall_replicate. constructor; [cbn; lia | reflexivity].
  - apply Forall_replicate. constructor; reflexivity.
  - constructor; try reflexivity; try (cbn; lia).
    apply (Forall_replicate _ 7). unfold CBIOS_HDMI_EXTENED_VIC_COUNTS; lia.
Qed.

(** Rebuilds an invariant record after the update of fields. *)
Ltac keep_ok H := destruct H; constructor; cbn in *; try assumption; try lia.
