(* ===== verification/EdidTiming.v ===== *)
(** * Timings of an EDID

    The first half of [cbios/Util/CBiosEDID.c]: the CEA helpers, the growing
    list of device timings, the lookup of a timing from a resolution, and the
    decoders of the base EDID block (detailed, established and standard
    timings) and of a video data block. Pointers into the EDID buffer are a
    pair of the buffer and an offset. *)
From S2P Require Import Prelude CbUtil Timing TimingTables EdidTypes.
Import String.StringSyntax.
Local Open Scope string_scope.
Local Open Scope Z_scope.

(** ** CEA-861 helpers *)

Definition cbGetCEAFractRRClock (OriClock : Z) : Z :=
  u32 (cbRound (u32 (OriClock * 100)) 1001 ROUND_NEAREST * 10).

Definition cbGetCEAFractRefrate (OriRefrate : Z) : Z :=
  if negb (OriRefrate mod 600 =? 0) then 0
  else cbRound (u32 (OriRefrate * 1000)) 1001 ROUND_NEAREST.

Definition cbIsCeaNTSCCompatMode (pTiming : CBIOS_TIMING_ATTRIB) : bool :=
  negb (FormatVIC pTiming =? 0) && ((YRes pTiming =? 240) || (YRes pTiming =? 480)).

(** The values stored through [pRefresh] and [pClock] (when they are not null),
    or [None] for [CBIOS_FALSE]. *)
Definition cbEdidModule_IsEquivalentModeExist (VIC : Z) : res (option (Z * Z)) :=
  if VIC =? 0 then Ok None
  else
    let! t := rd HDMIFormatTimingTbl (VIC - 1) in
    if cbGetCEAFractRefrate (RefreshRate t) =? 0 then Ok None
    else if cbIsCeaNTSCCompatMode t then Ok (Some (RefreshRate t, PixelClock t))
    else Ok (Some (cbGetCEAFractRefrate (RefreshRate t), cbGetCEAFractRRClock (PixelClock t))).

Definition cbGetDiff (a b : Z) : Z := if b <? a then a - b else b - a.

(** The values stored through [pFixRefresh] and [pFixClock], or [None]. *)
Definition cbEdidModule_IsRefreshInCEARange (RefrashRate VIC : Z) : res (option (Z * Z)) :=
  if (VIC =? 0) || (CBIOS_HDMIFORMATCOUNTS <? VIC) || (RefrashRate =? 0) then Ok None
  else
    let FormatIndex := VIC - 1 in
    let! t := rd HDMIFormatTimingTbl FormatIndex in
    let FractRefRate := u16 (cbGetCEAFractRefrate (RefreshRate t)) in
    let IntRefRate := RefreshRate t in
    let RefValue :=
      if (FractRefRate =? 0) || ((FractRefRate + IntRefRate) / 2 <? RefrashRate)
      then IntRefRate else FractRefRate in
    if RefValue =? 0 then Ok None
    else
      let Difference := cbGetDiff RefrashRate RefValue in
      let! q := udiv (u32 (Difference * 1000)) RefValue in
      if q <=? 5 then
        Ok (Some (if RefValue =? IntRefRate then IntRefRate else FractRefRate,
                  if RefValue =? IntRefRate then PixelClock t
                  else cbGetCEAFractRRClock (PixelClock t)))
      else Ok None.

(** [*pFormatIdx] comes in and goes out; the result is
    ([bRet], [*pFormatIdx], [*pIsNative]). *)
Definition cbEDIDModule_GetFmtIdxFromSVD (SVD FormatIdx : Z) : bool * Z * bool :=
  let '(bRet, FormatIdx, IsNative) :=
    if (1 <=? SVD) && (SVD <=? 64) then (true, Z.land SVD 0x7F, false)
    else if (65 <=? SVD) && (SVD <=? 127) then (true, SVD, false)
    else if (129 <=? SVD) && (SVD <=? 192) then (true, Z.land SVD 0x7F, true)
    else if (193 <=? SVD) && (SVD <=? 253) then (true, SVD, false)
    else (false, FormatIdx, false) in
  let bRet :=
    if (FormatIdx =? 0) || (CBIOS_HDMI_NORMAL_VIC_COUNTS <? FormatIdx) then false else bRet in
  (bRet, FormatIdx, IsNative).

(** ** The list of device timings *)

Definition cbEDIDModule_isSvdFormatExist (s : CBIOS_EDID_STRUCTURE_DATA) (FmtVIC : Z)
  : res (option Z) :=
  match pDeviceTimingList s with
  | None => Ok None
  | Some pTiming =>
      if (TimingNum s =? 0) || (FmtVIC =? 0) then Ok None
      else scan pTiming (TimingNum s) (fun t => FormatVIC (FullTiming t) =? FmtVIC)
  end.

(** The comparison of [cbEDIDModule_hasSameSvdTiming]: a timing without a VIC
    that agrees with [svd] up to the refresh rate and the sync positions. *)
Definition sameSvdTiming (svd t : CBIOS_DEVICE_TIMING_INFO) : bool :=
  if negb (FormatVIC (FullTiming t) =? 0) then false
  else
    let f := FullTiming svd in
    let tempTiming :=
      (FullTiming t) <| FormatVIC := FormatVIC f |>
        <| RefreshRate := RefreshRate f |>
        <| HorSyncStart := HorSyncStart f |> <| HorSyncEnd := HorSyncEnd f |>
        <| VerSyncStart := VerSyncStart f |> <| VerSyncEnd := VerSyncEnd f |> in
    bool_decide (tempTiming = f) && (AspectRatio t =? AspectRatio svd) &&
    (IsInterLaced t =? IsInterLaced svd).

Definition cbEDIDModule_hasSameSvdTiming (s : CBIOS_EDID_STRUCTURE_DATA)
    (pSvdTiming : CBIOS_DEVICE_TIMING_INFO) : res (option Z) :=
  match pDeviceTimingList s with
  | None => Ok None
  | Some pTiming =>
      if TimingNum s =? 0 then Ok None
      else scan pTiming (TimingNum s) (sameSvdTiming pSvdTiming)
  end.

(** [pDeviceTimingList[i]] read and updated in place. *)
Definition upd_timing (s : CBIOS_EDID_STRUCTURE_DATA) (i : Z)
    (f : CBIOS_DEVICE_TIMING_INFO -> CBIOS_DEVICE_TIMING_INFO) : res CBIOS_EDID_STRUCTURE_DATA :=
  let! l := deref (pDeviceTimingList s) in
  let! t := rd l i in
  let! l := wr l i (f t) in
  Ok (s <| pDeviceTimingList := Some l |>).

Definition MAX_DEVICE_TIMING_NUM : Z := 48.

(** ** Timing of a resolution *)

(** The second search of [cbEDIDModule_GetXYRTiming]: supported progressive
    HDMI formats; the index and [bFractMode]. *)
Definition find_hdmi_timing (XRes_ YRes_ RefreshRate_ : Z) : res (option (Z * bool)) :=
  iterate (S (length HDMIFormatTimingTbl))
    (fun i =>
       if i <? zlen HDMIFormatTimingTbl then
         let! fmt := rd CEAVideoFormatTable i in
         let! t := rd HDMIFormatTimingTbl i in
         if negb (fmt_Supported fmt =? 0) && (XRes t =? XRes_) && (YRes t =? YRes_) &&
            (fmt_Interlace fmt =? 0)
         then
           if RefreshRate_ / 100 =? RefreshRate t / 100 then Ok (inr (Some (i, false)))
           else if RefreshRate_ / 100 =? cbGetCEAFractRefrate (RefreshRate t) / 100
           then Ok (inr (Some (i, true)))
           else Ok (inl (i + 1))
         else Ok (inl (i + 1))
       else Ok (inr None)) 0.

(** The timing copied to [*pTiming], or [None] for [CBIOS_FALSE]. *)
Definition cbEDIDModule_GetXYRTiming (s : CBIOS_EDID_STRUCTURE_DATA)
    (XRes_ YRes_ RefreshRate_ : Z) : res (option CBIOS_TIMING_ATTRIB) :=
  let useHdmi := (XRes_ =? 640) && (YRes_ =? 480) && (RefreshRate_ =? 6000) &&
                 negb (get_cap (Attribute s) CAP_HDMI =? 0) in
  let pTimingTbl := if useHdmi then HDMIFormatTimingTbl else AdapterTimingTbl in
  let! found := scan pTimingTbl (zlen pTimingTbl)
    (fun t => (XRes t =? XRes_) && (YRes t =? YRes_) &&
              ((RefreshRate_ =? 0) || (RefreshRate t / 100 =? RefreshRate_ / 100))) in
  match found with
  | Some i => let! t := rd pTimingTbl i in Ok (Some t)
  | None =>
      let! found := if useHdmi then Ok None else find_hdmi_timing XRes_ YRes_ RefreshRate_ in
      match found with
      | Some (i, bFractMode) =>
          let! t := rd HDMIFormatTimingTbl i in
          Ok (Some (if bFractMode : bool then
                      t <| RefreshRate := u16 (cbGetCEAFractRefrate (RefreshRate t)) |>
                        <| PixelClock := cbGetCEAFractRRClock (PixelClock t) |>
                    else t))
      | None => Ok (cbCalcCustomizedTiming XRes_ YRes_ RefreshRate_)
      end
  end.

(** ** Detailed timing descriptors *)

(** [DETAILEDTIMING_TABLE]: a byte of the descriptor and the mask of its bits. *)
Record DETAILEDTIMING_TABLE := mkReg { reg_type : Z; reg_index : Z; reg_mask : Z }.
Definition EDIDTIMING : Z := 0x00.
Definition EDIDTIMINGEXIT : Z := 0xFF.

Definition EDIDPixelClock :=
  [mkReg EDIDTIMING 0x00 0xFF; mkReg EDIDTIMING 0x01 0xFF; mkReg EDIDTIMINGEXIT 0 0].
Definition EDIDHorizontalActive :=
  [mkReg EDIDTIMING 0x02 0xFF; mkReg EDIDTIMING 0x04 0xF0; mkReg EDIDTIMINGEXIT 0 0].
Definition EDIDHorizontalBlanking :=
  [mkReg EDIDTIMING 0x03 0xFF; mkReg EDIDTIMING 0x04 0x0F; mkReg EDIDTIMINGEXIT 0 0].
Definition EDIDVerticalActive :=
  [mkReg EDIDTIMING 0x05 0xFF; mkReg EDIDTIMING 0x07 0xF0; mkReg EDIDTIMINGEXIT 0 0].
Definition EDIDVerticalBlanking :=
  [mkReg EDIDTIMING 0x06 0xFF; mkReg EDIDTIMING 0x07 0x0F; mkReg EDIDTIMINGEXIT 0 0].
Definition EDIDHorizontalSyncOffset :=
  [mkReg EDIDTIMING 0x08 0xFF; mkReg EDIDTIMING 0x0B 0xC0; mkReg EDIDTIMINGEXIT 0 0].
Definition EDIDHorizontalSyncPulseWidth :=
  [mkReg EDIDTIMING 0x09 0xFF; mkReg EDIDTIMING 0x0B 0x30; mkReg EDIDTIMINGEXIT 0 0].
Definition EDIDVerticalSyncOffset :=
  [mkReg EDIDTIMING 0x0A 0xF0; mkReg EDIDTIMING 0x0B 0x0C; mkReg EDIDTIMINGEXIT 0 0].
Definition EDIDVerticalSyncPulseWidth :=
  [mkReg EDIDTIMING 0x0A 0x0F; mkReg EDIDTIMING 0x0B 0x03; mkReg EDIDTIMINGEXIT 0 0].
Definition EDIDHorizontalImageSize :=
  [mkReg EDIDTIMING 0x0C 0xFF; mkReg EDIDTIMING 0x0E 0xF0; mkReg EDIDTIMINGEXIT 0 0].
Definition EDIDVerticalImageSize :=
  [mkReg EDIDTIMING 0x0D 0xFF; mkReg EDIDTIMING 0x0E 0x0F; mkReg EDIDTIMINGEXIT 0 0].

(** The inner loop of [cbEDIDModule_MapMaskGetEdidInfo]: append the bits of
    [byRegValue] selected by [mask] to [uRet], from bit [j] on. *)
Definition map_reg_bit (mask byRegValue i : Z) (st : Z * Z) : res (Z * Z) :=
  let '(uRet, j) := st in
  if negb (Z.land mask (Z.shiftl 1 i) =? 0) then
    Ok (u32 (uRet + (if negb (Z.land byRegValue (Z.shiftl 1 i) =? 0) then Z.shiftl 1 j else 0)),
        j + 1)
  else Ok (uRet, j).

Definition map_reg_bits (mask byRegValue uRet j : Z) : res (Z * Z) :=
  for_up 8 0 (map_reg_bit mask byRegValue) (uRet, j).

(** [cbEDIDModule_MapMaskGetEdidInfo]: the selected bits, gathered from the
    least significant one up. The loop state is ([reg], [uRet], [j]). *)
Definition cbEDIDModule_MapMaskGetEdidInfo (buf : list Z) (off Base : Z)
    (TimingTable : list DETAILEDTIMING_TABLE) : res Z :=
  iterate (S (length TimingTable))
    (fun '(reg, uRet, j) =>
       let! r := rd TimingTable reg in
       if reg_type r =? EDIDTIMINGEXIT then Ok (inr uRet)
       else
         let! byRegValue := rd buf (off + (18 * Base + reg_index r)) in
         let! '(uRet, j) := map_reg_bits (reg_mask r) byRegValue uRet j in
         Ok (inl (reg + 1, uRet, j)))
    (0, 0, 0).

Definition cbEDIDModule_MatchTiming (pTiming : CBIOS_DEVICE_TIMING_INFO)
    (XResolution YResolution RefreshRate_ InterlaceFlag : Z) : bool :=
  (XRes (FullTiming pTiming) =? XResolution) && (YRes (FullTiming pTiming) =? YResolution) &&
  eqb (negb (IsInterLaced pTiming =? 0)) (negb (InterlaceFlag =? 0)) &&
  (u32 (RefreshRate_ - 50) <=? RefreshRate (FullTiming pTiming)) &&
  (RefreshRate (FullTiming pTiming) <=? u32 (RefreshRate_ + 50)).

(** [!cbStrnCmp(a, "...", n)] *)
Definition str_is (a : list Z) (lit : String.string) (n : Z) : res bool :=
  let! c := cbStrnCmp a (cstr lit) n in Ok (c =? 0).

Definition cbEDIDModule_ValidateTiming (s : CBIOS_EDID_STRUCTURE_DATA)
    (pTiming : CBIOS_DEVICE_TIMING_INFO) : res bool :=
  let f := FullTiming pTiming in
  if (PixelClock f <? CBIOS_MIN_PIXEL_CLK) || (XRes f <? CBIOS_MIN_TIMING_X) ||
     (YRes f <? CBIOS_MIN_TIMING_Y)
  then Ok false
  else
    let! dup :=
      if TimingNum s =? 0 then Ok None
      else let! l := deref (pDeviceTimingList s) in
           scan l (TimingNum s) (fun t => bool_decide (t = pTiming)) in
    match dup with
    | Some _ => Ok false
    | None =>
        if TimingType pTiming =? CBIOS_DTD_TIMING then
          let! id := str_is (MonitorID (Attribute s)) "BNQ7949" 7 in
          let! nm := if id : bool then str_is (MonitorName (Attribute s)) "BenQ EL2870U" 12
                     else Ok false in
          if nm then
            if cbEDIDModule_MatchTiming pTiming 3840 2160 3000 0 then Ok false else Ok true
          else Ok true
        else Ok true
    end.

(** [cbEDIDModule_ParseDtlTiming]; [*pTiming] comes in and goes out, partly
    filled when the result is [false]. *)
Definition cbEDIDModule_ParseDtlTiming (buf : list Z) (off : Z)
    (pTiming : CBIOS_DEVICE_TIMING_INFO) : res (bool * CBIOS_DEVICE_TIMING_INFO) :=
  let info := cbEDIDModule_MapMaskGetEdidInfo buf off 0 in
  let! clk := info EDIDPixelClock in
  let p := pTiming <| FullTiming ::= fun f =>
     f <| FormatVIC := 0 |> <| Size := TIMING_ATTRIB_SIZE |>
       <| PixelClock := u32 (clk * 100) |> |> in
  if PixelClock (FullTiming p) =? 0 then Ok (false, p)
  else
    let! xres := info EDIDHorizontalActive in
    let xres := u16 xres in
    let! SyncOffset := info EDIDHorizontalSyncOffset in
    let SyncOffset := u16 SyncOffset in
    let! SyncWidth := info EDIDHorizontalSyncPulseWidth in
    let SyncWidth := u16 SyncWidth in
    let! Blank := info EDIDHorizontalBlanking in
    let Blank := u16 Blank in
    let p := p <| FullTiming ::= fun f =>
      f <| XRes := xres |> <| HorTotal := u16 (xres + Blank) |> <| HorDisEnd := xres |>
        <| HorBStart := xres |> <| HorBEnd := u16 (xres + Blank) |>
        <| HorSyncStart := u16 (xres + SyncOffset) |>
        <| HorSyncEnd := u16 (u16 (xres + SyncOffset) + SyncWidth) |> |> in
    let! yres := info EDIDVerticalActive in
    let yres := u16 yres in
    let! SyncOffset := info EDIDVerticalSyncOffset in
    let SyncOffset := u16 SyncOffset in
    let! SyncWidth := info EDIDVerticalSyncPulseWidth in
    let SyncWidth := u16 SyncWidth in
    let! Blank := info EDIDVerticalBlanking in
    let Blank := u16 Blank in
    let! flags := rd buf (off + 0x11) in
    let '(il, yres, Blank, SyncOffset, SyncWidth) :=
      if negb (Z.land flags 0x80 =? 0)
      then (1, u16 (yres * 2), u16 (u16 (Blank * 2) + 1), u16 (SyncOffset * 2), u16 (SyncWidth * 2))
      else (0, yres, Blank, SyncOffset, SyncWidth) in
    let p := p <| IsInterLaced := il |> <| FullTiming ::= fun f =>
      f <| YRes := yres |> <| VerTotal := u16 (yres + Blank) |> <| VerDisEnd := yres |>
        <| VerBStart := yres |> <| VerBEnd := u16 (yres + Blank) |>
        <| VerSyncStart := u16 (yres + SyncOffset) |>
        <| VerSyncEnd := u16 (u16 (yres + SyncOffset) + SyncWidth) |> |> in
    let! HImageSize := info EDIDHorizontalImageSize in
    let HImageSize := u16 HImageSize in
    let! VImageSize := info EDIDVerticalImageSize in
    let VImageSize := u16 VImageSize in
    let f := FullTiming p in
    if (XRes f =? 0) || (YRes f =? 0) || (HorTotal f =? 0) || (VerTotal f =? 0)
    then Ok (false, p)
    else
      let ar :=
        if negb (VImageSize =? 0) then
          let Ratio := u16 (u32 (HImageSize * 10000) / VImageSize) in
          if (13000 <? Ratio) && (Ratio <? 14000) then 1 else 2
        else 2 in
      let '(HSync, VSync) :=
        if Z.land flags 0x18 =? 0x18 then
          (if negb (Z.land flags 0x02 =? 0) then HorPOSITIVE else HorNEGATIVE,
           if negb (Z.land flags 0x04 =? 0) then VerPOSITIVE else VerNEGATIVE)
        else (HorNEGATIVE, VerNEGATIVE) in
      let rr := cbCalcRefreshRate (PixelClock f) (HorTotal f) (VerTotal f) in
      let rr := u16 (100 * cbRound rr 100 ROUND_NEAREST) in
      Ok (true, p <| AspectRatio := ar |> <| IsSupportMono := 1 |>
                  <| FullTiming ::= fun f =>
                    f <| HVPolarity := HSync + VSync |> <| RefreshRate := rr |> |>).

(** ** Filling the list *)

Section Pool.
(** Whether the [n]-th request to the kernel's memory pool succeeds. *)
Variable pool : nat -> bool.

Definition cbEDIDModule_AddDeviceTiming (s : CBIOS_EDID_STRUCTURE_DATA)
    (pTiming : CBIOS_DEVICE_TIMING_INFO) : res (bool * CBIOS_EDID_STRUCTURE_DATA) :=
  let s :=
    match pDeviceTimingList s with
    | Some _ => s
    | None =>
        if pool (AllocCalls s) then
          s <| TimingNum := 0 |>
            <| pDeviceTimingList := Some (replicate (Z.to_nat MAX_DEVICE_TIMING_NUM) zero_dti) |>
            <| TimingArraySize := MAX_DEVICE_TIMING_NUM |> <| AllocCalls ::= S |>
        else s <| TimingNum := 0 |> <| TimingArraySize := 0 |> <| AllocCalls ::= S |>
    end in
  let! s :=
    match pDeviceTimingList s with
    | Some l =>
        if TimingArraySize s <=? TimingNum s then
          let NewSize := u32 (TimingArraySize s + MAX_DEVICE_TIMING_NUM / 2) in
          if pool (AllocCalls s) then
            let! pTempTable :=
              memcpy (replicate (Z.to_nat NewSize) zero_dti) 0 l 0 (TimingArraySize s) in
            Ok (s <| pDeviceTimingList := Some pTempTable |>
                  <| TimingArraySize := NewSize |> <| AllocCalls ::= S |>)
          else Ok (s <| AllocCalls ::= S |>)
        else Ok s
    | None => Ok s
    end in
  match pDeviceTimingList s with
  | Some l =>
      if TimingNum s <? TimingArraySize s then
        let! l := wr l (TimingNum s) pTiming in
        Ok (true, s <| pDeviceTimingList := Some l |> <| TimingNum := u32 (TimingNum s + 1) |>)
      else Ok (false, s)
  | None => Ok (false, s)
  end.

(** The index of the timing, old or new ([*AddedIndex]), or [None] for
    [CBIOS_FALSE]. *)
Definition cbEDIDModule_AddSvdFormat (s : CBIOS_EDID_STRUCTURE_DATA) (FmtVic : Z)
    (bNative : bool) : res (option Z * CBIOS_EDID_STRUCTURE_DATA) :=
  let! fmt := rd CEAVideoFormatTable (FmtVic - 1) in
  if fmt_Supported fmt =? 0 then Ok (None, s)
  else
    let! ex := cbEDIDModule_isSvdFormatExist s FmtVic in
    match ex with
    | Some Index => Ok (Some Index, s)
    | None =>
        let! tbl := rd HDMIFormatTimingTbl (FmtVic - 1) in
        let DeviceTiming :=
          zero_dti <| TimingType := CBIOS_SVD_TIMING |> <| FullTiming := tbl |>
            <| AspectRatio := fmt_AspectRatio fmt |> <| IsNativeMode := b2z bNative |>
            <| IsInterLaced := Z.land (fmt_Interlace fmt) 1 |> in
        let DeviceTiming :=
          if cbIsCeaNTSCCompatMode tbl then
            DeviceTiming <| FullTiming ::= fun f =>
              f <| RefreshRate := u16 (cbGetCEAFractRefrate (RefreshRate tbl)) |>
                <| PixelClock := cbGetCEAFractRRClock (PixelClock f) |> |>
          else DeviceTiming in
        let! same := cbEDIDModule_hasSameSvdTiming s DeviceTiming in
        match same with
        | Some Index =>
            let! s := upd_timing s Index (fun t =>
              let t := t <| FullTiming ::= fun f =>
                 f <| RefreshRate := RefreshRate (FullTiming DeviceTiming) |>
                   <| FormatVIC := FmtVic |> |> in
              if IsNativeMode DeviceTiming =? 0 then t else t <| IsNativeMode := 1 |>) in
            Ok (Some Index, s)
        | None =>
            let! '(bAdded, s) := cbEDIDModule_AddDeviceTiming s DeviceTiming in
            Ok (if bAdded then Some (u32 (TimingNum s - 1)) else None, s)
        end
    end.

(** ** The base block *)

(** The duplicate check of the established and standard timings. *)
Definition timing_listed (s : CBIOS_EDID_STRUCTURE_DATA) (XRes_ YRes_ Refresh : Z) : res bool :=
  let! r :=
    if TimingNum s =? 0 then Ok None
    else let! l := deref (pDeviceTimingList s) in
         scan l (TimingNum s)
           (fun t => (XRes (FullTiming t) =? XRes_) && (YRes (FullTiming t) =? YRes_) &&
                     (RefreshRate (FullTiming t) =? Refresh) && (IsInterLaced t =? 0)) in
  Ok (match r with Some _ => true | None => false end).

(** [cbEDIDModule_GetEstablishMode]; the loop state is ([s], [ulMask]). *)
Definition cbEDIDModule_GetEstablishMode (pEDID : list Z) (s : CBIOS_EDID_STRUCTURE_DATA)
  : res (Z * CBIOS_EDID_STRUCTURE_DATA) :=
  let ModeNumOld := TimingNum s in
  let! b0 := rd pEDID ESTABLISH_TIMINGS_INDEX in
  let! b1 := rd pEDID (ESTABLISH_TIMINGS_INDEX + 1) in
  let! b2 := rd pEDID (ESTABLISH_TIMINGS_INDEX + 2) in
  let EstMasks := b0 in
  let EstMasks := u32 (EstMasks + Z.shiftl b1 8) in
  let EstMasks := u32 (EstMasks + Z.shiftl (Z.land b2 0x80) 9) in
  let! '(s, _) :=
    for_up (Z.to_nat CBIOS_ESTABLISHMODECOUNT) 0
      (fun i '(s, ulMask) =>
         let! supported := rd EstModeSupportTbl i in
         if (Z.land EstMasks ulMask =? 0) || negb supported
         then Ok (s, u32 (Z.shiftl ulMask 1))
         else
           let! '(XRes_, YRes_, Refresh) := rd EstTiming i in
           let! bFound := timing_listed s XRes_ YRes_ Refresh in
           let! s :=
             if bFound : bool then Ok s
             else
               let! t := cbEDIDModule_GetXYRTiming s XRes_ YRes_ Refresh in
               match t with
               | Some t =>
                   let! '(_, s) := cbEDIDModule_AddDeviceTiming s
                     (zero_dti <| FullTiming := t <| FormatVIC := 0 |> |>
                        <| TimingType := CBIOS_EST_TIMING |>) in
                   Ok s
               | None => Ok s
               end in
           Ok (s, u32 (Z.shiftl ulMask 1)))
      (s, 0x01) in
  Ok (u32 (TimingNum s - ModeNumOld), s).

(** [cbEDIDModule_GetStandardMode]; [DeviceTiming] lives across iterations. *)
Definition cbEDIDModule_GetStandardMode (pEDID : list Z) (s : CBIOS_EDID_STRUCTURE_DATA)
  : res (Z * CBIOS_EDID_STRUCTURE_DATA) :=
  let ModeNumOld := TimingNum s in
  let! '(s, _) :=
    for_up (Z.to_nat CBIOS_STDMODECOUNT) 0
      (fun i '(s, DeviceTiming) =>
         let! b0 := rd pEDID (STANDARD_TIMINGS_INDEX + i * 2) in
         if (b0 =? 0x01) || (b0 =? 0x00) then Ok (s, DeviceTiming)
         else
           let! b1 := rd pEDID (STANDARD_TIMINGS_INDEX + i * 2 + 1) in
           let XRes_ := u16 (u16 (b0 + 31) * 8) in
           let Refresh := u16 ((Z.land b1 0x3F + 60) * 100) in
           let ar := Z.shiftr (Z.land b1 0xC0) 6 in
           let YRes_ :=
             if ar =? 0 then u16 (XRes_ * 10 / 16)
             else if ar =? 1 then u16 (XRes_ * 3 / 4)
             else if ar =? 2 then u16 (XRes_ * 4 / 5)
             else u16 (XRes_ * 9 / 16) in
           let! bFound := timing_listed s XRes_ YRes_ Refresh in
           if bFound : bool then Ok (s, DeviceTiming)
           else
             let! t := cbEDIDModule_GetXYRTiming s XRes_ YRes_ Refresh in
             match t with
             | Some t =>
                 let DeviceTiming :=
                   DeviceTiming <| FullTiming := t <| FormatVIC := 0 |> |>
                     <| TimingType := CBIOS_STD_TIMING |> in
                 let! '(_, s) := cbEDIDModule_AddDeviceTiming s DeviceTiming in
                 Ok (s, DeviceTiming)
             | None => Ok (s, DeviceTiming)
             end)
      (s, zero_dti) in
  Ok (u32 (TimingNum s - ModeNumOld), s).

(** One detailed timing of the base block or of a CEA extension, parsed into
    [t]: the native flag, the validation and the insertion. *)
Definition mark_native (s : CBIOS_EDID_STRUCTURE_DATA) (t : CBIOS_DEVICE_TIMING_INFO)
  : CBIOS_DEVICE_TIMING_INFO * CBIOS_EDID_STRUCTURE_DATA :=
  if NativeNumUsed s <? NativeFormatNum (Attribute s)
  then (t <| IsNativeMode := 1 |>, s <| NativeNumUsed ::= fun n => u8 (n + 1) |>)
  else (t, s).

(** [cbEDIDModule_GetDetailedMode]; the loop state is ([i], [s],
    [ulNumOfDtlMode]). *)
Definition cbEDIDModule_GetDetailedMode (pEDID : list Z) (s : CBIOS_EDID_STRUCTURE_DATA)
  : res (Z * CBIOS_EDID_STRUCTURE_DATA) :=
  iterate (S (Z.to_nat CBIOS_DTLMODECOUNT))
    (fun '(i, s, num) =>
       let off := DETAILED_TIMINGS_INDEX + i * 18 in
       if negb (i <? CBIOS_DTLMODECOUNT) || (128 <=? off + 18) then Ok (inr (num, s))
       else
         let! '(ok, t) := cbEDIDModule_ParseDtlTiming pEDID off zero_dti in
         if negb ok then Ok (inl (i + 1, s, num))
         else
           let t := t <| TimingType := CBIOS_DTL_TIMING |> in
           let '(t, s) := mark_native s t in
           let! valid := cbEDIDModule_ValidateTiming s t in
           if negb valid then Ok (inl (i + 1, s, num))
           else
             let! t :=
               if i =? 0 then
                 let! id := str_is (MonitorID (Attribute s)) "AUO44B5" 7 in
                 let! nm := if id : bool then str_is (MonitorName (Attribute s)) "B145QAN01.K " 12
                            else Ok false in
                 Ok (t <| IsPreferMode := if nm : bool then 0 else 1 |>)
               else Ok t in
             let! '(added, s) := cbEDIDModule_AddDeviceTiming s t in
             Ok (inl (i + 1, s, if added : bool then u32 (num + 1) else num)))
    (0, s, 0).

(** ** Timings of a CEA extension block *)

(** [cbEDIDModule_GetCEADetailedMode]; [blk] is the offset of [pEdidBlock]. *)
Definition cbEDIDModule_GetCEADetailedMode (buf : list Z) (blk DtlOffset : Z)
    (s : CBIOS_EDID_STRUCTURE_DATA) : res (Z * CBIOS_EDID_STRUCTURE_DATA) :=
  iterate 9
    (fun '(i, s, num) =>
       if negb (i + 18 <? EDID_BLK_SIZE) then Ok (inr (num, s))
       else
         let! '(ok, t) := cbEDIDModule_ParseDtlTiming buf (blk + i) zero_dti in
         if negb ok then Ok (inr (num, s))
         else
           let t := t <| TimingType := CBIOS_DTD_TIMING |> in
           let '(t, s) := mark_native s t in
           let! valid := cbEDIDModule_ValidateTiming s t in
           if negb valid then Ok (inl (i + 18, s, num))
           else
             let! '(added, s) := cbEDIDModule_AddDeviceTiming s t in
             Ok (inl (i + 18, s, if added : bool then u32 (num + 1) else num)))
    (DtlOffset, s, 0).

(** [cbEDIDModule_GetSVDMode]; [off] is the offset of the video data block. *)
Definition cbEDIDModule_GetSVDMode (buf : list Z) (off : Z) (s : CBIOS_EDID_STRUCTURE_DATA)
    (BlockIndex : Z) : res CBIOS_EDID_STRUCTURE_DATA :=
  let! b0 := rd buf off in
  let PayloadLength := Z.land b0 0x1F in
  let! d := rd (SVDData (Attribute s)) (BlockIndex - 1) in
  let! svd := memcpy (SVD d) 0 buf (off + 1) (Z.min PayloadLength MAX_SVD_COUNT) in
  let! l := wr (SVDData (Attribute s)) (BlockIndex - 1) (mkSvd PayloadLength svd) in
  let s := s <| Attribute ::= fun a => a <| SVDData := l |> |> in
  for_up (Z.to_nat PayloadLength) 0
    (fun j s =>
       let! SVD := rd buf (off + (1 + j)) in
       let '(Status, FormatVIC_, IsNative) := cbEDIDModule_GetFmtIdxFromSVD SVD 0 in
       if negb Status then Ok s
       else let! '(_, s) := cbEDIDModule_AddSvdFormat s FormatVIC_ IsNative in Ok s)
    s.
End Pool.

(** ** The timing list: invariant and abstract view *)

(** Everything but the timing list is left alone. *)
Definition same_rest (s s' : CBIOS_EDID_STRUCTURE_DATA) : Prop :=
  Attribute s' = Attribute s /\ HDAudioFormatNum s' = HDAudioFormatNum s /\
  HDAudioFormat s' = HDAudioFormat s.

Lemma take_insert_end {A} (l : list A) n x :
  0 <= n < zlen l -> take (Z.to_nat (n + 1)) (<[Z.to_nat n := x]> l) = take (Z.to_nat n) l ++ [x].
Proof.
  unfold zlen; intros. replace (Z.to_nat (n + 1)) with (S (Z.to_nat n)) by lia.
  rewrite (take_S_r _ _ x) by (apply list_lookup_insert_eq; lia). by rewrite take_insert_ge.
Qed.

Lemma AddDeviceTiming_wp pool B s t :
  tl_ok B s -> B + 1 < 2 ^ 24 ->
  wp (cbEDIDModule_AddDeviceTiming pool s t) (fun '(added, s') =>
    tl_ok (B + 1) s' /\ same_rest s s' /\
    timings s' = (if added then timings s ++ [t] else timings s) /\
    TimingNum s' = TimingNum s + b2z added /\
    (added = false -> exists n, pool n = false)).
Proof.
  destruct s; unfold tl_ok, same_rest, timings, cbEDIDModule_AddDeviceTiming, upd; cbn.
  intros (H1 & H2 & H3) H4. destruct pDeviceTimingList as [l|]; cbn.
  - destruct H3 as [H3 H5]. destruct (Z.leb_spec TimingArraySize TimingNum) as [Hle|Hlt].
    + destruct (pool AllocCalls) eqn:Hpool.
      * replace (u32 (TimingArraySize + MAX_DEVICE_TIMING_NUM / 2)) with (TimingArraySize + 24)
          by (symmetry; apply wrap_small; unfold fits; cbn; lia).
        rewrite <- H3, memcpy_grow by lia. replace (zlen l + 24 - zlen l) with 24 by lia. cbn.
        destruct (Z.ltb_spec TimingNum (zlen l + 24)); [|lia].
        assert (Hz : zlen (l ++ replicate (Z.to_nat 24) zero_dti) = zlen l + 24)
          by (autorewrite with cx; lia).
        rewrite wr_in by lia. cbn.
        rewrite wrap_small by (unfold fits; lia). repeat split; try lia.
        -- rewrite zlen_insert. lia.
        -- rewrite take_insert_end by lia. by rewrite take_app_le by (unfold zlen in *; lia).

      * cbn. destruct (Z.ltb_spec TimingNum TimingArraySize); [lia|]. cbn.
        repeat split; try lia. intros _. by eexists.
    + cbn. destruct (Z.ltb_spec TimingNum TimingArraySize); [|lia].
      rewrite wr_in by lia. cbn. rewrite wrap_small by (unfold fits; lia). repeat split; try lia.
      * rewrite zlen_insert. lia.
      * by rewrite take_insert_end by lia.

  - destruct (pool AllocCalls) eqn:Hpool; cbn.
    + repeat split; first [lia | reflexivity | done | (cbn; change (u32 (0 + 1)) with 1; lia)].
    + repeat split; try lia. intros _; by eexists.
Qed.

(** The postcondition of everything that fills the list: bounds, and the
    rest of the structure untouched. *)
Definition fills (B : Z) (s s' : CBIOS_EDID_STRUCTURE_DATA) : Prop :=
  tl_ok B s' /\ same_rest s s'.

Lemma same_rest_refl s : same_rest s s.
Proof. by repeat split. Qed.

Lemma same_rest_trans s1 s2 s3 : same_rest s1 s2 -> same_rest s2 s3 -> same_rest s1 s3.
Proof. unfold same_rest. intuition congruence. Qed.

Lemma tl_ok_mono B B' s : tl_ok B s -> B <= B' -> B' < 2 ^ 24 -> tl_ok B' s.
Proof. unfold tl_ok. intuition lia. Qed.

Lemma fills_refl B s : tl_ok B s -> fills B s s.
Proof. split; [done | apply same_rest_refl]. Qed.

Lemma tl_ok_len B s l : tl_ok B s -> pDeviceTimingList s = Some l -> TimingNum s <= zlen l.
Proof. unfold tl_ok. intros H E. rewrite E in H. lia. Qed.

Lemma tl_ok_nonempty B s : tl_ok B s -> TimingNum s <> 0 -> pDeviceTimingList s <> None.
Proof. unfold tl_ok. intros H ? E. rewrite E in H. lia. Qed.

(** [scan]s over the list do not fault. *)
Lemma isSvdFormatExist_wp B s v :
  tl_ok B s ->
  wp (cbEDIDModule_isSvdFormatExist s v) (fun r =>
    match r with Some i => 0 <= i < TimingNum s | None => True end).
Proof.
  intros H. unfold cbEDIDModule_isSvdFormatExist. wp_go; try done.
  apply wp_scan; [by eapply tl_ok_len|]. intros [i|] Hr; [apply Hr|done].
Qed.

Lemma hasSameSvdTiming_wp B s t :
  tl_ok B s ->
  wp (cbEDIDModule_hasSameSvdTiming s t) (fun r =>
    match r with Some i => 0 <= i < TimingNum s | None => True end).
Proof.
  intros H. unfold cbEDIDModule_hasSameSvdTiming. wp_go; try done.
  apply wp_scan; [by eapply tl_ok_len|]. intros [i|] Hr; [apply Hr|done].
Qed.

Lemma upd_timing_wp B s i f :
  tl_ok B s -> 0 <= i < TimingNum s ->
  wp (upd_timing s i f) (fun s' => fills B s s' /\ TimingNum s' = TimingNum s).
Proof.
  intros H Hi. pose proof H as (H1 & H2 & H3). unfold upd_timing.
  destruct s; unfold fills, tl_ok, same_rest, upd in *; cbn in *.
  destruct pDeviceTimingList as [l|]; [|lia]. cbn. wp_go. cbn. rewrite zlen_insert.
  intuition lia.
Qed.

Lemma AddSvdFormat_wp pool B s v nat_ :
  tl_ok B s -> B + 1 < 2 ^ 24 -> 1 <= v <= CBIOS_HDMIFORMATCOUNTS ->
  wp (cbEDIDModule_AddSvdFormat pool s v nat_) (fun '(r, s') =>
    fills (B + 1) s s' /\ match r with Some i => 0 <= i < TimingNum s' | None => True end).
Proof.
  intros H HB Hv. unfold cbEDIDModule_AddSvdFormat.
  assert (zlen CEAVideoFormatTable = 111) by done.
  assert (zlen HDMIFormatTimingTbl = 111) by done.
  change CBIOS_HDMIFORMATCOUNTS with 111 in Hv.
  assert (HB1 : tl_ok (B + 1) s) by (eapply tl_ok_mono; [done|lia|lia]).
  wp_go.
  - split; [by apply fills_refl | done].
  - eapply wp_mono; [by eapply isSvdFormatExist_wp|]. intros [i|] Hi.
    + cbn. split; [by apply fills_refl | done].
    + wp_go. eapply wp_mono; [by eapply hasSameSvdTiming_wp|]. intros [i|] Hi'.
      * wp_go. eapply wp_mono; [apply (upd_timing_wp B); [done|exact Hi']|]. intros s' [Hf Hn]. cbn.
        split; [|lia]. destruct Hf as [Ht Hs]. split; [|done]. eapply tl_ok_mono; [done|lia|lia].
      * wp_go. eapply wp_mono; [by apply (AddDeviceTiming_wp pool B)|].
        intros [[|] s'] (Ht & Hs & _ & Hn & _); cbn; (split; [by split|]); [|done].
        destruct Ht as ((? & ?) & ? & _). destruct H as ((? & ?) & _). cbn in Hn.
        rewrite wrap_small by (unfold fits; lia). lia.
Qed.

(** ** Detailed timing descriptors: reading the fields *)

Definition bytes (buf : list Z) : Prop := Forall (fits 8) buf.

(** [uRet] only offsets the result. *)
Lemma map_reg_bits_add mask b u j :
  map_reg_bits mask b (u32 u) j = rmap (fun '(s, j') => (u32 (u + s), j')) (map_reg_bits mask b 0 j).
Proof.
  assert (H : forall n i s j,
    for_up n i (map_reg_bit mask b) (u32 (u + s), j) =
    rmap (fun '(s, j') => (u32 (u + s), j')) (for_up n i (map_reg_bit mask b) (s, j))).
  { induction n as [|n IH]; intros i s j'; [done|]. cbn -[Z.land Z.shiftl].
    destruct (negb (Z.land mask (Z.shiftl 1 i) =? 0)); cbn -[Z.land Z.shiftl]; [|apply IH].
    rewrite <- IH. do 2 f_equal. rewrite wrap_add_l, wrap_add_r by lia. f_equal; lia. }
  unfold map_reg_bits. rewrite <- (Z.add_0_r u) at 1. apply H.
Qed.

(** The masks of the tables, with the position and width of their field. *)
Definition mask_fields : list (Z * Z * Z) :=
  [(0xFF, 0, 8); (0xF0, 4, 4); (0x0F, 0, 4); (0xC0, 6, 2); (0x30, 4, 2); (0x0C, 2, 2); (0x03, 0, 2)].

Lemma map_reg_bits_field mask lo w b j :
  In (mask, lo, w) mask_fields -> In j [0; 4; 8] -> fits 8 b ->
  map_reg_bits mask b 0 j = Ok (Z.shiftr (Z.land b mask) lo * 2 ^ j, j + w).
Proof.
  intros Hm Hj Hb.
  assert (H : forallb (fun '(mask, lo, w) => forallb (fun j => forallb (fun b =>
     bool_decide (map_reg_bits mask b 0 j = Ok (Z.shiftr (Z.land b mask) lo * 2 ^ j, j + w)))
     (seqZ 0 256)) [0; 4; 8]) mask_fields = true) by (vm_compute; reflexivity).
  rewrite forallb_forall in H. specialize (H _ Hm). cbn beta iota in H.
  rewrite forallb_forall in H. specialize (H _ Hj).
  rewrite forallb_forall in H. specialize (H b). apply bool_decide_eq_true in H; [done|].
  apply list_elem_of_In, elem_of_seqZ. unfold fits in Hb. lia.
Qed.

(** A table of two registers. *)
Definition two_regs (i1 m1 i2 m2 : Z) : list DETAILEDTIMING_TABLE :=
  [mkReg EDIDTIMING i1 m1; mkReg EDIDTIMING i2 m2; mkReg EDIDTIMINGEXIT 0 0].

Lemma MapMask_two buf off i1 m1 lo1 w1 i2 m2 lo2 w2 b1 b2 :
  rd buf (off + i1) = Ok b1 -> rd buf (off + i2) = Ok b2 -> fits 8 b1 -> fits 8 b2 ->
  In (m1, lo1, w1) mask_fields -> In (m2, lo2, w2) mask_fields -> In w1 [4; 8] ->
  cbEDIDModule_MapMaskGetEdidInfo buf off 0 (two_regs i1 m1 i2 m2) =
  Ok (u32 (Z.shiftr (Z.land b1 m1) lo1 + Z.shiftr (Z.land b2 m2) lo2 * 2 ^ w1)).
Proof.
  intros H1 H2 Hf1 Hf2 Hm1 Hm2 Hw. unfold cbEDIDModule_MapMaskGetEdidInfo, two_regs.
  assert (Hj : In w1 [0; 4; 8]) by (destruct Hw as [<-|[<-|[]]]; simpl; tauto).
  pose proof (Z.eqb_refl EDIDTIMINGEXIT).
  set (T := [_; _; _]). change (S (length T)) with 4%nat.
  assert (R : rd T 0 = Ok (mkReg EDIDTIMING i1 m1) /\ rd T (0 + 1) = Ok (mkReg EDIDTIMING i2 m2) /\
              rd T (0 + 1 + 1) = Ok (mkReg EDIDTIMINGEXIT 0 0)) by done.
  destruct R as (R0 & R1 & R2). clearbody T. cbn [iterate]. rewrite R0. cbn [rbind reg_type reg_index reg_mask].
  change (EDIDTIMING =? EDIDTIMINGEXIT) with false. cbn iota.
  change (18 * 0 + i1) with i1. rewrite H1. cbn [rbind].
  rewrite (map_reg_bits_field m1 lo1 w1) by (done || simpl; tauto). cbn [rbind].
  rewrite R1. cbn [rbind reg_type reg_index reg_mask].
  change (EDIDTIMING =? EDIDTIMINGEXIT) with false. cbn iota.
  change (18 * 0 + i2) with i2. rewrite H2. cbn [rbind].
  change (2 ^ 0) with 1. rewrite Z.mul_1_r, Z.add_0_l.
  rewrite <- (wrap_small 32 (Z.shiftr (Z.land b1 m1) lo1)) at 1.
  - rewrite map_reg_bits_add, (map_reg_bits_field m2 lo2 w2) by done. cbn [rmap rbind].
    rewrite R2. done.
  - apply fits_mono with 8; [lia|]. apply shiftr_fits; [|rewrite Z.land_comm; by apply land_fits].
    repeat (destruct Hm1 as [[= <- <- <-]|Hm1]; [lia|]). destruct Hm1.
Qed.

(** The 18 bytes of a descriptor. *)
Definition desc_at (buf : list Z) (off : Z) (d : Z -> Z) : Prop :=
  forall i, 0 <= i < 18 -> rd buf (off + i) = Ok (d i) /\ fits 8 (d i).

(** The fields of a detailed timing descriptor, as the VESA E-EDID standard
    (section 3.10.2) lays them out. *)
Definition d_clock (d : Z -> Z) : Z := d 0 + 256 * d 1.
Definition d_hactive (d : Z -> Z) : Z := d 2 + 256 * (d 4 / 16).
Definition d_hblank (d : Z -> Z) : Z := d 3 + 256 * (d 4 mod 16).
Definition d_vactive (d : Z -> Z) : Z := d 5 + 256 * (d 7 / 16).
Definition d_vblank (d : Z -> Z) : Z := d 6 + 256 * (d 7 mod 16).
Definition d_hsoff (d : Z -> Z) : Z := d 8 + 256 * (d 11 / 64).
Definition d_hswidth (d : Z -> Z) : Z := d 9 + 256 * (d 11 / 16 mod 4).
Definition d_vsoff (d : Z -> Z) : Z := d 10 / 16 + 16 * (d 11 / 4 mod 4).
Definition d_vswidth (d : Z -> Z) : Z := d 10 mod 16 + 16 * (d 11 mod 4).
Definition d_hsize (d : Z -> Z) : Z := d 12 + 256 * (d 14 / 16).
Definition d_vsize (d : Z -> Z) : Z := d 13 + 256 * (d 14 mod 16).
Definition d_interlaced (d : Z -> Z) : bool := 128 <=? d 17.

Lemma info_two buf off d i1 m1 lo1 w1 i2 m2 lo2 w2 v1 v2 :
  desc_at buf off d -> 0 <= i1 < 18 -> 0 <= i2 < 18 ->
  In (m1, lo1, w1) mask_fields -> In (m2, lo2, w2) mask_fields -> In w1 [4; 8] ->
  Z.shiftr (Z.land (d i1) m1) lo1 = v1 -> Z.shiftr (Z.land (d i2) m2) lo2 = v2 ->
  fits 8 v1 -> fits 8 v2 ->
  cbEDIDModule_MapMaskGetEdidInfo buf off 0 (two_regs i1 m1 i2 m2) = Ok (v1 + 2 ^ w1 * v2).
Proof.
  intros Hd Hi1 Hi2 Hm1 Hm2 Hw <- <- Hv1 Hv2.
  destruct (Hd i1 Hi1) as [Hr1 Hf1], (Hd i2 Hi2) as [Hr2 Hf2].
  rewrite (MapMask_two _ _ _ _ lo1 w1 _ _ lo2 w2 (d i1) (d i2)) by done. f_equal.
  rewrite wrap_small; [lia|]. unfold fits in *. destruct Hw as [<-|[<-|[]]]; lia.
Qed.

(** The seven masks of the tables, arithmetically. *)
Lemma mask_values b : fits 8 b ->
  Z.shiftr (Z.land b 0xFF) 0 = b /\ Z.shiftr (Z.land b 0xF0) 4 = b / 16 /\
  Z.shiftr (Z.land b 0x0F) 0 = b mod 16 /\ Z.shiftr (Z.land b 0xC0) 6 = b / 64 /\
  Z.shiftr (Z.land b 0x30) 4 = b / 16 mod 4 /\ Z.shiftr (Z.land b 0x0C) 2 = b / 4 mod 4 /\
  Z.shiftr (Z.land b 0x03) 0 = b mod 4.
Proof. intros Hb. repeat split; by_bytes b. Qed.

Section Info.
Context (buf : list Z) (off : Z) (d : Z -> Z) (Hd : desc_at buf off d).

Ltac field_tac i1 m1 lo1 w1 i2 m2 lo2 w2 :=
  destruct (Hd i1 ltac:(lia)) as [_ Hb1]; destruct (Hd i2 ltac:(lia)) as [_ Hb2];
  apply (info_two buf off d i1 m1 lo1 w1 i2 m2 lo2 w2);
  [exact Hd | lia | lia | simpl; tauto | simpl; tauto | simpl; tauto
  | apply mask_values, Hb1 | apply mask_values, Hb2
  | unfold fits in *; clear Hd; dlia | unfold fits in *; clear Hd; dlia].

Lemma info_clock : cbEDIDModule_MapMaskGetEdidInfo buf off 0 EDIDPixelClock = Ok (d_clock d).
Proof. field_tac 0 0xFF 0 8 1 0xFF 0 8. Qed.
Lemma info_hactive : cbEDIDModule_MapMaskGetEdidInfo buf off 0 EDIDHorizontalActive = Ok (d_hactive d).
Proof. field_tac 2 0xFF 0 8 4 0xF0 4 4. Qed.
Lemma info_hblank : cbEDIDModule_MapMaskGetEdidInfo buf off 0 EDIDHorizontalBlanking = Ok (d_hblank d).
Proof. field_tac 3 0xFF 0 8 4 0x0F 0 4. Qed.
Lemma info_vactive : cbEDIDModule_MapMaskGetEdidInfo buf off 0 EDIDVerticalActive = Ok (d_vactive d).
Proof. field_tac 5 0xFF 0 8 7 0xF0 4 4. Qed.
Lemma info_vblank : cbEDIDModule_MapMaskGetEdidInfo buf off 0 EDIDVerticalBlanking = Ok (d_vblank d).
Proof. field_tac 6 0xFF 0 8 7 0x0F 0 4. Qed.
Lemma info_hsoff : cbEDIDModule_MapMaskGetEdidInfo buf off 0 EDIDHorizontalSyncOffset = Ok (d_hsoff d).
Proof. field_tac 8 0xFF 0 8 11 0xC0 6 2. Qed.
Lemma info_hswidth : cbEDIDModule_MapMaskGetEdidInfo buf off 0 EDIDHorizontalSyncPulseWidth = Ok (d_hswidth d).
Proof. field_tac 9 0xFF 0 8 11 0x30 4 2. Qed.
Lemma info_vsoff : cbEDIDModule_MapMaskGetEdidInfo buf off 0 EDIDVerticalSyncOffset = Ok (d_vsoff d).
Proof. field_tac 10 0xF0 4 4 11 0x0C 2 2. Qed.
Lemma info_vswidth : cbEDIDModule_MapMaskGetEdidInfo buf off 0 EDIDVerticalSyncPulseWidth = Ok (d_vswidth d).
Proof. field_tac 10 0x0F 0 4 11 0x03 0 2. Qed.
Lemma info_hsize : cbEDIDModule_MapMaskGetEdidInfo buf off 0 EDIDHorizontalImageSize = Ok (d_hsize d).
Proof. field_tac 12 0xFF 0 8 14 0xF0 4 4. Qed.
Lemma info_vsize : cbEDIDModule_MapMaskGetEdidInfo buf off 0 EDIDVerticalImageSize = Ok (d_vsize d).
Proof. field_tac 13 0xFF 0 8 14 0x0F 0 4. Qed.
End Info.

(** The timing such a descriptor stands for. *)
Definition d_yres (d : Z -> Z) : Z := if d_interlaced d then 2 * d_vactive d else d_vactive d.
Definition d_vblank_lines (d : Z -> Z) : Z := if d_interlaced d then 2 * d_vblank d + 1 else d_vblank d.
Definition d_vsync_start (d : Z -> Z) : Z := d_yres d + (if d_interlaced d then 2 else 1) * d_vsoff d.
Definition d_vsync_end (d : Z -> Z) : Z := d_vsync_start d + (if d_interlaced d then 2 else 1) * d_vswidth d.
Definition d_polarity (d : Z -> Z) : Z :=
  if d 17 / 8 mod 4 =? 3 then
    (if d 17 / 2 mod 2 =? 1 then HorPOSITIVE else HorNEGATIVE) +
    (if d 17 / 4 mod 2 =? 1 then VerPOSITIVE else VerNEGATIVE)
  else HorNEGATIVE + VerNEGATIVE.
Definition d_aspect (d : Z -> Z) : Z :=
  if d_vsize d =? 0 then 2
  else let Ratio := u16 (d_hsize d * 10000 / d_vsize d) in
       if (13000 <? Ratio) && (Ratio <? 14000) then 1 else 2.
(** The refresh rate from the clock and the totals, in Hz, times 100. *)
Definition d_refresh (d : Z -> Z) : Z :=
  100 * cbRound (cbCalcRefreshRate (100 * d_clock d) (d_hactive d + d_hblank d)
                   (d_yres d + d_vblank_lines d)) 100 ROUND_NEAREST.

Definition dtl_full_timing (d : Z -> Z) : CBIOS_TIMING_ATTRIB :=
  mkTiming TIMING_ATTRIB_SIZE 0 (d_hactive d) (d_yres d) (d_refresh d) (d_polarity d) (100 * d_clock d)
    (d_hactive d + d_hblank d) (d_hactive d) (d_hactive d) (d_hactive d + d_hblank d)
    (d_hactive d + d_hsoff d) (d_hactive d + d_hsoff d + d_hswidth d)
    (d_yres d + d_vblank_lines d) (d_yres d) (d_yres d) (d_yres d + d_vblank_lines d)
    (d_vsync_start d) (d_vsync_end d).

Lemma cbRound_le x : 0 <= x < 65536 -> 0 <= 100 * cbRound x 100 ROUND_NEAREST < 65536.
Proof.
  intros Hx. unfold cbRound. change (100 =? 0) with false. cbn iota.
  assert (0 <= x mod 100 < 100) by (apply Z.mod_pos_bound; lia).
  rewrite (wrap_small 32 (x mod 100 * 2)) by (unfold fits; lia).
  assert (0 <= x / 100 <= 655) by dlia.
  destruct (Z.leb_spec 100 (x mod 100 * 2)); [|lia].
  rewrite wrap_small by (unfold fits; lia).
  assert (x = 100 * (x / 100) + x mod 100) by (apply Z.div_mod; lia). lia.
Qed.

Lemma cbCalcRefreshRate_fits c h v : 0 <= cbCalcRefreshRate c h v < 65536.
Proof.
  unfold cbCalcRefreshRate. destruct ((h =? 0) || (v =? 0)); [lia|]. apply (wrap_fits 16); lia.
Qed.

Section Fields.
Context (buf : list Z) (off : Z) (d : Z -> Z) (Hd : desc_at buf off d).

(** All fields are small: nothing wraps. *)
Lemma d_bounds :
  0 <= d_clock d < 65536 /\ 0 <= d_hactive d < 4096 /\ 0 <= d_hblank d < 4096 /\
  0 <= d_vactive d < 4096 /\ 0 <= d_vblank d < 4096 /\ 0 <= d_hsoff d < 1024 /\
  0 <= d_hswidth d < 1024 /\ 0 <= d_vsoff d < 64 /\ 0 <= d_vswidth d < 64 /\
  0 <= d_hsize d < 4096 /\ 0 <= d_vsize d < 4096.
Proof.
  assert (Hb : forall i, 0 <= i < 18 -> 0 <= d i < 256) by (intros i Hi; apply (Hd i Hi)).
  unfold d_clock, d_hactive, d_hblank, d_vactive, d_vblank, d_hsoff, d_hswidth, d_vsoff,
    d_vswidth, d_hsize, d_vsize.
  pose proof (Hb 0); pose proof (Hb 1); pose proof (Hb 2); pose proof (Hb 3); pose proof (Hb 4);
  pose proof (Hb 5); pose proof (Hb 6); pose proof (Hb 7); pose proof (Hb 8); pose proof (Hb 9);
  pose proof (Hb 10); pose proof (Hb 11); pose proof (Hb 12); pose proof (Hb 13); pose proof (Hb 14).
  clear Hb. repeat split; dlia.
Qed.

Lemma flag_values b : fits 8 b ->
  (Z.land b 0x80 =? 0) = negb (128 <=? b) /\
  (Z.land b 0x18 =? 0x18) = (b / 8 mod 4 =? 3) /\
  (Z.land b 0x02 =? 0) = negb (b / 2 mod 2 =? 1) /\
  (Z.land b 0x04 =? 0) = negb (b / 4 mod 2 =? 1).
Proof.
  intros Hb. repeat split; apply eqb_true_iff;
    match goal with |- ?e = true => let p := eval pattern b in e in
      lazymatch p with ?P _ => refine (byte_forall P b _ Hb); vm_compute; reflexivity end end.
Qed.

Lemma ParseDtlTiming_run t :
  d_clock d <> 0 -> d_hactive d <> 0 -> d_vactive d <> 0 ->
  cbEDIDModule_ParseDtlTiming buf off t =
  Ok (true, t <| IsInterLaced := b2z (d_interlaced d) |> <| AspectRatio := d_aspect d |>
              <| IsSupportMono := 1 |> <| FullTiming := dtl_full_timing d |>).
Proof.
  intros Hclk Hh Hv. pose proof d_bounds as (B0 & B1 & B2 & B3 & B4 & B5 & B6 & B7 & B8 & B9 & B10).
  destruct (Hd 17 ltac:(lia)) as [H17 F17].
  destruct (flag_values _ F17) as (E1 & E2 & E3 & E4).
  unfold cbEDIDModule_ParseDtlTiming.
  rewrite (info_clock _ _ _ Hd), (info_hactive _ _ _ Hd), (info_hblank _ _ _ Hd),
    (info_vactive _ _ _ Hd), (info_vblank _ _ _ Hd), (info_hsoff _ _ _ Hd), (info_hswidth _ _ _ Hd),
    (info_vsoff _ _ _ Hd), (info_vswidth _ _ _ Hd), (info_hsize _ _ _ Hd), (info_vsize _ _ _ Hd), H17.
  cbn [rbind]. rewrite E1, E2, E3, E4.
  assert (W : forall x, 0 <= x < 65536 -> u16 x = x) by (intros; by apply wrap_small).
  rewrite (W (d_hactive d)), (W (d_hblank d)), (W (d_vactive d)), (W (d_vblank d)), (W (d_hsoff d)),
    (W (d_hswidth d)), (W (d_vsoff d)), (W (d_vswidth d)), (W (d_hsize d)), (W (d_vsize d)) by lia.
  rewrite (wrap_small 32 (d_clock d * 100)) by (unfold fits; lia).
  rewrite (W (d_hactive d + d_hblank d)), (W (d_hactive d + d_hsoff d)),
    (W (d_hactive d + d_hsoff d + d_hswidth d)) by lia.
  assert (N : forall x, x <> 0 -> (x =? 0) = false) by (intros; by apply Z.eqb_neq).
  destruct t.
  unfold dtl_full_timing, d_refresh, d_vsync_end, d_vsync_start, d_vblank_lines, d_yres,
    d_polarity, d_aspect, d_interlaced.
  destruct (128 <=? d 17);
    cbn -[Z.mul Z.add Z.div Z.modulo cbCalcRefreshRate cbRound Z.eqb Z.leb Z.ltb wrap];
    [ rewrite (W (d_vactive d * 2)), (W (d_vblank d * 2)), (W (d_vblank d * 2 + 1)),
        (W (d_vsoff d * 2)), (W (d_vswidth d * 2)),
        (W (d_vactive d * 2 + (d_vblank d * 2 + 1))), (W (d_vactive d * 2 + d_vsoff d * 2)),
        (W (d_vactive d * 2 + d_vsoff d * 2 + d_vswidth d * 2)) by lia
    | rewrite (W (d_vactive d + d_vblank d)), (W (d_vactive d + d_vsoff d)),
        (W (d_vactive d + d_vsoff d + d_vswidth d)) by lia ];
    rewrite !N by lia; cbn [orb];
    rewrite (wrap_small 32 (d_hsize d * 10000)) by (unfold fits; lia);
    rewrite W by (apply cbRound_le, cbCalcRefreshRate_fits);
    rewrite !(Z.mul_comm (d_clock d) 100), ?(Z.mul_comm _ 2), ?Z.mul_1_l, ?negb_involutive.
  all: destruct (d 17 / 8 mod 4 =? 3), (d 17 / 2 mod 2 =? 1), (d 17 / 4 mod 2 =? 1), (d_vsize d =? 0).
  all: reflexivity.
Qed.

Lemma ParseDtlTiming_reject t :
  d_clock d = 0 \/ d_hactive d = 0 \/ d_vactive d = 0 ->
  exists t', cbEDIDModule_ParseDtlTiming buf off t = Ok (false, t').
Proof.
  intros H. destruct (Hd 17 ltac:(lia)) as [H17 F17]. pose proof d_bounds.
  unfold cbEDIDModule_ParseDtlTiming.
  rewrite (info_clock _ _ _ Hd), (info_hactive _ _ _ Hd), (info_hblank _ _ _ Hd),
    (info_vactive _ _ _ Hd), (info_vblank _ _ _ Hd), (info_hsoff _ _ _ Hd), (info_hswidth _ _ _ Hd),
    (info_vsoff _ _ _ Hd), (info_vswidth _ _ _ Hd), (info_hsize _ _ _ Hd), (info_vsize _ _ _ Hd), H17.
  cbn [rbind]. match goal with |- context [if ?c =? 0 then _ else _] => destruct (Z.eqb_spec c 0) as [E|E] end.
  { by eexists. }
  destruct (if negb _ then _ else _) as [[[[il yres] vb] so] sw] eqn:Hil.
  assert (Hz : d_hactive d = 0 \/ yres = 0).
  { destruct H as [H|[H|H]].
    - cbn in E. rewrite H in E. by destruct E.
    - by left.
    - right. rewrite H in Hil. destruct (negb _) in Hil; by injection Hil. }
  match goal with |- context [if ?c then Ok (false, ?p) else _] => assert (c = true) as -> end.
  { cbn. destruct Hz as [-> | ->]; cbn; [done|]. by rewrite orb_true_r. }
  by eexists.
Qed.
End Fields.

(** C33. [cbEDIDModule_ParseDtlTiming] decodes an 18-byte descriptor as the VESA
    layout prescribes: it accepts exactly the descriptors with a clock and with
    active pixels and lines, and then every timing field has the value of the
    layout (doubled lines for interlaced modes), without any 16-bit wrap. *)
Theorem ParseDtlTiming_spec buf off d t :
  desc_at buf off d ->
  if (d_clock d =? 0) || (d_hactive d =? 0) || (d_vactive d =? 0)
  then exists t', cbEDIDModule_ParseDtlTiming buf off t = Ok (false, t')
  else cbEDIDModule_ParseDtlTiming buf off t =
       Ok (true, t <| IsInterLaced := b2z (d_interlaced d) |> <| AspectRatio := d_aspect d |>
                   <| IsSupportMono := 1 |> <| FullTiming := dtl_full_timing d |>).
Proof.
  intros Hd. destruct (Z.eqb_spec (d_clock d) 0), (Z.eqb_spec (d_hactive d) 0),
    (Z.eqb_spec (d_vactive d) 0); cbn [orb];
    (eapply ParseDtlTiming_run; eassumption) || (eapply ParseDtlTiming_reject; [eassumption|tauto]).
Qed.

(** The first descriptor of a replacement EDID: 1920x1200 at 60 Hz. *)
Definition csw_desc (i : Z) : Z := default 0 (CSW1473_Edid !! Z.to_nat (54 + i)).

Lemma csw_desc_at : desc_at CSW1473_Edid 54 csw_desc.
Proof.
  intros i Hi.
  assert (Hall : forallb (fun i => bool_decide (rd CSW1473_Edid (54 + i) = Ok (csw_desc i)) &&
      (0 <=? csw_desc i) && (csw_desc i <? 256)) (seqZ 0 18) = true) by (vm_compute; reflexivity).
  rewrite forallb_forall in Hall. specialize (Hall i).
  rewrite !andb_true_iff, bool_decide_eq_true, Z.leb_le, Z.ltb_lt in Hall.
  destruct Hall as ((H1 & H2) & H3); [apply list_elem_of_In, elem_of_seqZ; lia|]. done.
Qed.

Lemma ParseDtlTiming_spec_witness :
  cbEDIDModule_ParseDtlTiming CSW1473_Edid 54 zero_dti =
  Ok (true, zero_dti <| IsInterLaced := b2z (d_interlaced csw_desc) |>
              <| AspectRatio := d_aspect csw_desc |>
              <| IsSupportMono := 1 |> <| FullTiming := dtl_full_timing csw_desc |>).
Proof. apply (ParseDtlTiming_spec CSW1473_Edid 54 csw_desc zero_dti csw_desc_at). Defined.

(** C36. A descriptor whose sync pulses lie inside the blanking intervals is
    parsed to a well-formed timing: display, blanking and sync positions in
    order on both axes, within the totals. *)
Theorem ParseDtlTiming_timing_ok buf off d t t' :
  desc_at buf off d ->
  0 < d_hswidth d -> d_hsoff d + d_hswidth d <= d_hblank d ->
  0 < d_vswidth d -> d_vsoff d + d_vswidth d <= d_vblank d ->
  cbEDIDModule_ParseDtlTiming buf off t = Ok (true, t') -> timing_ok (FullTiming t') = true.
Proof.
  intros Hd Hh1 Hh2 Hv1 Hv2 Hp. pose proof (d_bounds _ _ _ Hd).
  destruct (decide (d_clock d = 0 \/ d_hactive d = 0 \/ d_vactive d = 0)) as [Hz|Hz].
  { destruct (ParseDtlTiming_reject _ _ _ Hd t Hz) as [u Hu]. congruence. }
  rewrite (ParseDtlTiming_run _ _ _ Hd) in Hp by tauto. injection Hp as <-.
  unfold timing_ok, axis_ok. cbn. unfold d_vsync_end, d_vsync_start, d_vblank_lines, d_yres.
  rewrite !andb_true_iff, ?Z.leb_le, ?Z.ltb_lt, ?Z.eqb_eq. destruct (d_interlaced d); lia.
Qed.

Lemma ParseDtlTiming_timing_ok_witness :
  timing_ok (dtl_full_timing csw_desc) = true.
Proof.
  refine (ParseDtlTiming_timing_ok CSW1473_Edid 54 csw_desc zero_dti
    (zero_dti <| IsInterLaced := b2z (d_interlaced csw_desc) |> <| AspectRatio := d_aspect csw_desc |>
       <| IsSupportMono := 1 |> <| FullTiming := dtl_full_timing csw_desc |>) csw_desc_at _ _ _ _ _);
    try reflexivity; try (vm_compute; discriminate).
Defined.

(** ** The decoders do not fault *)

Lemma bytes_desc_at buf off :
  bytes buf -> 0 <= off -> off + 18 <= zlen buf ->
  desc_at buf off (fun i => default 0 (buf !! Z.to_nat (off + i))).
Proof.
  intros Hb Ho Hl i Hi. destruct (rd_in buf (off + i)) as [x Hx]; [lia|].
  pose proof (rd_Forall _ _ _ _ Hb Hx). apply rd_inv in Hx as [_ Hx]. rewrite Hx. cbn.
  split; [|done]. apply rd_inv. split; [lia|done].
Qed.

Lemma ParseDtlTiming_wp buf off t (Q : bool * CBIOS_DEVICE_TIMING_INFO -> Prop) :
  bytes buf -> 0 <= off -> off + 18 <= zlen buf -> (forall r, Q r) ->
  wp (cbEDIDModule_ParseDtlTiming buf off t) Q.
Proof.
  intros Hb Ho Hl HQ. pose proof (bytes_desc_at _ _ Hb Ho Hl) as Hd.
  match type of Hd with desc_at _ _ ?d =>
    destruct (decide (d_clock d = 0 \/ d_hactive d = 0 \/ d_vactive d = 0)) as [Hz|Hz] end.
  - destruct (ParseDtlTiming_reject _ _ _ Hd t Hz) as [u ->]. apply HQ.
  - rewrite (ParseDtlTiming_run _ _ _ Hd) by tauto. apply HQ.
Qed.

Lemma cbStrnCmp_wp a b n (Q : Z -> Prop) :
  n <= zlen a -> n <= zlen b -> (forall c, Q c) -> wp (cbStrnCmp a b n) Q.
Proof.
  intros Ha Hb HQ. unfold cbStrnCmp.
  apply wp_iterate with (I := fun i => 0 <= i) (m := fun i => Z.to_nat (n - i)); [lia|lia|].
  intros i Hi. destruct (Z.ltb_spec i n); [|apply HQ].
  wp_go; [apply HQ|]. lia.
Qed.

Lemma str_is_wp a lit n (Q : bool -> Prop) :
  n <= zlen a -> n <= zlen (cstr lit) -> (forall b, Q b) -> wp (str_is a lit n) Q.
Proof. intros. unfold str_is. apply wp_bind, cbStrnCmp_wp; [done|done|]. intros c. apply H1. Qed.

Ltac str_step := apply str_is_wp; [lia | vm_compute; discriminate | intros []].

Lemma ValidateTiming_wp B s t (Q : bool -> Prop) :
  tl_ok B s -> attr_ok (Attribute s) -> (forall b, Q b) ->
  wp (cbEDIDModule_ValidateTiming s t) Q.
Proof.
  intros H Ha HQ. pose proof (at_id _ Ha). pose proof (at_name _ Ha).
  unfold cbEDIDModule_ValidateTiming.
  assert (Htail : forall r : option Z, wp (match r with
    | Some _ => Ok false
    | None => if TimingType t =? CBIOS_DTD_TIMING then
          let! id := str_is (MonitorID (Attribute s)) "BNQ7949" 7 in
          let! nm := if id : bool then str_is (MonitorName (Attribute s)) "BenQ EL2870U" 12
                     else Ok false in
          if nm then
            if cbEDIDModule_MatchTiming t 3840 2160 3000 0 then Ok false else Ok true
          else Ok true
        else Ok true end) Q).
  { intros [r|]; [apply HQ|]. destruct (TimingType t =? CBIOS_DTD_TIMING); [|apply HQ].
    apply wp_bind. str_step; cbn beta iota; apply wp_bind; [str_step|]; cbn beta iota;
      wp_go; apply HQ. }
  destruct (_ || _); [apply HQ|]. apply wp_bind. destruct (Z.eqb_spec (TimingNum s) 0); [apply Htail|].
  apply wp_bind, wp_deref; [by eapply tl_ok_nonempty|]. intros l Hl.
  apply wp_scan; [by eapply tl_ok_len|]. intros r _. apply Htail.
Qed.

Lemma find_hdmi_timing_wp x y r :
  wp (find_hdmi_timing x y r) (fun o => match o with Some (i, _) => 0 <= i < 111 | None => True end).
Proof.
  unfold find_hdmi_timing. change (zlen HDMIFormatTimingTbl) with 111.
  change (length HDMIFormatTimingTbl) with 111%nat.
  apply wp_iterate with (I := fun i => 0 <= i) (m := fun i => Z.to_nat (111 - i)); [lia|lia|].
  assert (zlen CEAVideoFormatTable = 111) by done.
  assert (zlen HDMIFormatTimingTbl = 111) by done.
  intros i Hi. wp_go; lia.
Qed.

Lemma GetXYRTiming_wp s x y r (Q : option CBIOS_TIMING_ATTRIB -> Prop) :
  (forall o, Q o) -> wp (cbEDIDModule_GetXYRTiming s x y r) Q.
Proof.
  intros HQ. unfold cbEDIDModule_GetXYRTiming. cbn beta zeta.
  match goal with |- context [if ?c then HDMIFormatTimingTbl else AdapterTimingTbl] =>
    set (tbl := if c then HDMIFormatTimingTbl else AdapterTimingTbl) end. apply wp_bind, wp_scan; [lia|]. intros [i|] Hi.
  - destruct Hi as [Hi1 _]. wp_go. apply HQ.
  - apply wp_bind. eapply wp_mono with (P := fun o : option (Z * bool) =>
      match o with Some (i, _) => 0 <= i < 111 | None => True end).
    + wp_step; [done | apply find_hdmi_timing_wp].
    + assert (zlen HDMIFormatTimingTbl = 111) by done.
      intros [[i b]|] Ho; [wp_go; apply HQ | apply HQ].
Qed.

Lemma timing_listed_wp B s x y r (Q : bool -> Prop) :
  tl_ok B s -> (forall b, Q b) -> wp (timing_listed s x y r) Q.
Proof.
  intros H HQ. unfold timing_listed. apply wp_bind.
  destruct (Z.eqb_spec (TimingNum s) 0); [apply HQ|].
  apply wp_bind, wp_deref; [by eapply tl_ok_nonempty|]. intros l Hl.
  apply wp_scan; [by eapply tl_ok_len|]. intros o _. apply HQ.
Qed.

(** [AddDeviceTiming_wp] in the form the callers use. *)
Lemma add_timing_wp pool B s0 s t (Q : bool * CBIOS_EDID_STRUCTURE_DATA -> Prop) :
  fills B s0 s -> B + 1 < 2 ^ 24 ->
  (forall b s', fills (B + 1) s0 s' -> Q (b, s')) ->
  wp (cbEDIDModule_AddDeviceTiming pool s t) Q.
Proof.
  intros [H Hs] HB HQ. eapply wp_mono; [by apply AddDeviceTiming_wp|].
  intros [b s'] (Ht & Hs' & _). apply HQ. split; [done|]. by eapply same_rest_trans.
Qed.

Lemma fills_mono B B' s s' : fills B s s' -> B <= B' -> B' < 2 ^ 24 -> fills B' s s'.
Proof. intros [H Hs] ? ?. split; [by eapply tl_ok_mono | done]. Qed.

Lemma GetEstablishMode_wp pool B buf s :
  tl_ok B s -> B + 17 < 2 ^ 24 -> 128 <= zlen buf ->
  wp (cbEDIDModule_GetEstablishMode pool buf s) (fun '(_, s') => fills (B + 17) s s').
Proof.
  intros H HB Hl. unfold cbEDIDModule_GetEstablishMode, ESTABLISH_TIMINGS_INDEX.
  wp_go. apply wp_for_up with (I := fun j '(s', _) => fills (B + j) s s').
  - rewrite Z.add_0_r. by apply fills_refl.
  - change (Z.to_nat CBIOS_ESTABLISHMODECOUNT) with 17%nat. intros j [s' m] Hj Hf.
    assert (zlen EstModeSupportTbl = 17) by done. assert (zlen EstTiming = 17) by done.
    wp_go. 1: eapply fills_mono; [done|lia|lia].
    eapply timing_listed_wp; [apply Hf|]. intros []; wp_go.
    + eapply fills_mono; [done|lia|lia].
    + apply GetXYRTiming_wp. intros [t|]; wp_go.
      * eapply add_timing_wp; [done|lia|]. intros b s'' Hf'. wp_go. cbn.
        by replace (B + (j + 1)) with (B + j + 1) by lia.
      * eapply fills_mono; [done|lia|lia].
  - intros [s' m] Hf. wp_go. done.
Qed.

Lemma GetStandardMode_wp pool B buf s :
  tl_ok B s -> B + 8 < 2 ^ 24 -> 128 <= zlen buf ->
  wp (cbEDIDModule_GetStandardMode pool buf s) (fun '(_, s') => fills (B + 8) s s').
Proof.
  intros H HB Hl. unfold cbEDIDModule_GetStandardMode, STANDARD_TIMINGS_INDEX.
  wp_go. apply wp_for_up with (I := fun j '(s', _) => fills (B + j) s s').
  - rewrite Z.add_0_r. by apply fills_refl.
  - change (Z.to_nat CBIOS_STDMODECOUNT) with 8%nat. intros j [s' m] Hj Hf.
    wp_go. 1: eapply fills_mono; [done|lia|lia].
    eapply timing_listed_wp; [apply Hf|]. intros []; wp_go.
    + eapply fills_mono; [done|lia|lia].
    + apply GetXYRTiming_wp. intros [t|]; wp_go.
      * eapply add_timing_wp; [done|lia|]. intros b s'' Hf'. wp_go. cbn.
        by replace (B + (j + 1)) with (B + j + 1) by lia.
      * eapply fills_mono; [done|lia|lia].
  - intros [s' m] Hf. wp_go. done.
Qed.

(** Every operation keeps the invariant; [st_grows k] allows [k] more timings. *)
Lemma st_ok_fills B B' s s' : st_ok B s -> fills B' s s' -> st_ok B' s'.
Proof.
  intros [H Ha [H1 H2]] [Ht (E1 & E2 & E3)]. constructor; [done|congruence|].
  constructor; congruence.
Qed.

Lemma st_ok_mono B B' s : st_ok B s -> B <= B' -> B' < 2 ^ 24 -> st_ok B' s.
Proof. intros [H Ha Hu] ? ?. constructor; [by eapply tl_ok_mono|done|done]. Qed.

Lemma st_fills_refl B s : st_ok B s -> fills B s s.
Proof. intros H. apply fills_refl, H. Qed.

Lemma mark_native_ok B s t t' s' :
  st_ok B s -> mark_native s t = (t', s') -> st_ok B s'.
Proof.
  unfold mark_native. intros [H1 H2 H3]. destruct (_ <? _); intros [= <- <-]; [|done].
  constructor; [exact H1|exact H2|]. destruct H3. by constructor.
Qed.

(** Insertion of a validated timing. *)
Lemma add_timing_st pool B s t (Q : bool * CBIOS_EDID_STRUCTURE_DATA -> Prop) :
  st_ok B s -> B + 1 < 2 ^ 24 ->
  (forall b s', st_ok (B + 1) s' -> Q (b, s')) ->
  wp (cbEDIDModule_AddDeviceTiming pool s t) Q.
Proof.
  intros H HB HQ. eapply add_timing_wp; [by apply st_fills_refl|done|].
  intros b s' Hf. apply HQ. by eapply st_ok_fills.
Qed.

Ltac st_mono := eapply st_ok_mono; [eassumption|lia|lia].

Lemma GetDetailedMode_wp pool B buf s :
  st_ok B s -> B + 4 < 2 ^ 24 -> bytes buf -> 128 <= zlen buf ->
  wp (cbEDIDModule_GetDetailedMode pool buf s) (fun '(_, s') => st_ok (B + 4) s').
Proof.
  intros H HB Hb Hl. unfold cbEDIDModule_GetDetailedMode, DETAILED_TIMINGS_INDEX, CBIOS_DTLMODECOUNT.
  apply wp_iterate with (I := fun '(i, s', _) => 0 <= i <= 4 /\ st_ok (B + i) s')
    (m := fun '(i, _, _) => Z.to_nat (4 - i)).
  - split; [lia|]. by rewrite Z.add_0_r.
  - cbn. lia.
  - intros [[i s1] num] [Hi H1]. cbn beta iota.
    destruct (Z.ltb_spec i 4); cbn [negb orb].
    2: { cbn. st_mono. }
    destruct (Z.leb_spec 128 (54 + i * 18 + 18)); [lia|].
    apply wp_bind, ParseDtlTiming_wp; [done|lia|lia|]. intros [ok t]. cbn beta iota.
    destruct ok; cbn [negb]; [|cbn; split; [|lia]; split; [lia|st_mono]].
    destruct (mark_native _ _) as [t' s2] eqn:Hm. pose proof (mark_native_ok _ _ _ _ _ H1 Hm) as Hs2.
    apply wp_bind. eapply ValidateTiming_wp; [apply Hs2|apply Hs2|]. intros []; cbn [negb];
      [|cbn; split; [|lia]; split; [lia|st_mono]].
    apply wp_bind. pose proof (at_id _ (st_attr _ _ Hs2)). pose proof (at_name _ (st_attr _ _ Hs2)).
    assert (Hadd : forall t, wp (let! '(added, s) := cbEDIDModule_AddDeviceTiming pool s2 t in
       Ok (inl (i + 1, s, if added : bool then u32 (num + 1) else num)))
      (fun r : (Z * CBIOS_EDID_STRUCTURE_DATA * Z) + (Z * CBIOS_EDID_STRUCTURE_DATA) =>
       match r with inl s' => (let '(i, s', _) := s' in 0 <= i <= 4 /\ st_ok (B + i) s') /\
         ((let '(i, _, _) := s' in Z.to_nat (4 - i)) < Z.to_nat (4 - i))%nat
       | inr (_, s') => st_ok (B + 4) s' end)).
    { intros t1. apply wp_bind, (add_timing_st pool (B + i)); [done|lia|]. intros b s3 Hs3. cbn.
      replace (B + (i + 1)) with (B + i + 1) by lia. split; [split; [lia|done]|lia]. }
    destruct (i =? 0); [|apply Hadd].
    apply wp_bind. str_step; cbn beta iota; apply wp_bind; [str_step|]; cbn; apply Hadd.
Qed.

Lemma GetCEADetailedMode_wp pool B buf blk dtl s :
  st_ok B s -> B + 7 < 2 ^ 24 -> bytes buf -> 0 <= blk -> blk + 128 <= zlen buf -> 0 <= dtl ->
  wp (cbEDIDModule_GetCEADetailedMode pool buf blk dtl s) (fun '(_, s') => st_ok (B + 7) s').
Proof.
  intros H HB Hb Hblk Hl Hd. unfold cbEDIDModule_GetCEADetailedMode, EDID_BLK_SIZE.
  apply wp_iterate with
    (I := fun '(i, s', _) => exists k, 0 <= k /\ (k = 0 \/ k <= 7) /\ i = dtl + 18 * k /\ st_ok (B + k) s')
    (m := fun '(i, _, _) => Z.to_nat (8 - (i - dtl) / 18)).
  - exists 0. replace (B + 0) with B by lia. split; [lia|]. split; [lia|]. split; [lia|done].
  - cbn beta iota. rewrite Z.sub_diag. change (0 / 18) with 0. lia.
  - intros [[i s1] num] (k & Hk & Hk7 & -> & H1). cbn beta iota.
    destruct (Z.ltb_spec (dtl + 18 * k + 18) 128); cbn [negb]; [|cbn; st_mono].
    assert (Hdec : (Z.to_nat (8 - (dtl + 18 * k + 18 - dtl) / 18) <
                    Z.to_nat (8 - (dtl + 18 * k - dtl) / 18))%nat).
    { replace (dtl + 18 * k + 18 - dtl) with ((k + 1) * 18) by lia.
      replace (dtl + 18 * k - dtl) with (k * 18) by lia. rewrite !Z.div_mul by lia. lia. }
    apply wp_bind, ParseDtlTiming_wp; [done|lia|lia|]. intros [ok t]. cbn beta iota.
    destruct ok; cbn [negb]; [|cbn; st_mono].
    destruct (mark_native _ _) as [t' s2] eqn:Hm. pose proof (mark_native_ok _ _ _ _ _ H1 Hm) as Hs2.
    apply wp_bind. eapply ValidateTiming_wp; [apply Hs2|apply Hs2|]. intros []; cbn [negb].
    + apply wp_bind, (add_timing_st pool (B + k)); [done|lia|]. intros b s3 Hs3. cbn.
      split; [|done]. exists (k + 1). split; [lia|]. split; [lia|]. split; [lia|].
      by replace (B + (k + 1)) with (B + k + 1) by lia.
    + cbn. split; [|done]. exists (k + 1). split; [lia|]. split; [lia|]. split; [lia|]. st_mono.
Qed.

(** A usable descriptor stands for a VIC of the tables. *)
Lemma GetFmtIdxFromSVD_range svd f v n :
  cbEDIDModule_GetFmtIdxFromSVD svd f = (true, v, n) -> 1 <= v <= CBIOS_HDMI_NORMAL_VIC_COUNTS.
Proof.
  unfold cbEDIDModule_GetFmtIdxFromSVD. pose proof (land_le_r svd 0x7F ltac:(lia)) as Hl.
  assert (H : forall r v' n', (let bRet := if (v' =? 0) || (CBIOS_HDMI_NORMAL_VIC_COUNTS <? v')
      then false else r in (bRet, v', n')) = (true, v, n) -> 0 <= v' ->
      1 <= v <= CBIOS_HDMI_NORMAL_VIC_COUNTS).
  { intros r v' n'. destruct (Z.eqb_spec v' 0); cbn [orb]; [done|].
    destruct (Z.ltb_spec CBIOS_HDMI_NORMAL_VIC_COUNTS v'); [done|]. intros [= _ <- _]. lia. }
  destruct (Z.leb_spec 1 svd), (Z.leb_spec svd 64), (Z.leb_spec 65 svd), (Z.leb_spec svd 127),
    (Z.leb_spec 129 svd), (Z.leb_spec svd 192), (Z.leb_spec 193 svd), (Z.leb_spec svd 253);
    cbn [andb]; intros E; try lia; try (eapply H; [exact E|lia]);
    revert E; cbn zeta; destruct (_ || _); done.
Qed.

Lemma add_svd_st pool B s v n (Q : option Z * CBIOS_EDID_STRUCTURE_DATA -> Prop) :
  st_ok B s -> B + 1 < 2 ^ 24 -> 1 <= v <= CBIOS_HDMIFORMATCOUNTS ->
  (forall r s', st_ok (B + 1) s' ->
     match r with Some i => 0 <= i < TimingNum s' | None => True end -> Q (r, s')) ->
  wp (cbEDIDModule_AddSvdFormat pool s v n) Q.
Proof.
  intros H HB Hv HQ. eapply wp_mono; [apply (AddSvdFormat_wp pool B); [apply H|done|done]|].
  intros [r s'] [Hf Hr]. apply HQ; [by eapply st_ok_fills|done].
Qed.

Lemma GetSVDMode_wp pool B buf off s k :
  st_ok B s -> B + 31 < 2 ^ 24 -> 1 <= k <= 7 -> 0 <= off < zlen buf ->
  (forall b, rd buf off = Ok b -> off + Z.land b 0x1F < zlen buf) ->
  wp (cbEDIDModule_GetSVDMode pool buf off s k) (fun s' => st_ok (B + 31) s').
Proof.
  intros H HB Hk Ho HL. unfold cbEDIDModule_GetSVDMode.
  apply wp_bind, wp_rd; [done|]. intros b0 Hb0. specialize (HL _ Hb0).
  pose proof (land_le_r b0 0x1F ltac:(lia)). set (L := Z.land b0 31) in *.
  pose proof (st_attr _ _ H) as Ha. pose proof (at_svd_len _ Ha).
  apply wp_bind, (wp_rd_Forall svd_ok); [apply Ha|lia|]. intros d [Hd1 Hd2].
  apply wp_bind, wp_memcpy; try lia. intros svd Hsvd.
  apply wp_bind, wp_wr; [lia|].
  assert (Hs0 : st_ok B (s <| Attribute ::= fun a =>
      a <| SVDData := <[Z.to_nat (k - 1) := mkSvd L svd]> (SVDData (Attribute s)) |> |>)).
  { destruct H as [Ht _ Hu]. constructor; [exact Ht| |by destruct Hu; constructor].
    destruct Ha. constructor; cbn; try assumption.
    - by rewrite zlen_insert.
    - apply Forall_insert; [done|]. constructor; cbn; lia. }
  apply wp_for_up with (I := fun j s' => st_ok (B + j) s').
  - by replace (B + 0) with B by lia.
  - intros j s1 Hj Hs1. rewrite Z2Nat.id in Hj by lia. wp_step. wp_step.
    destruct (cbEDIDModule_GetFmtIdxFromSVD x 0) as [[[] v] n] eqn:Hf; cbn [negb].
    + apply wp_bind. apply GetFmtIdxFromSVD_range in Hf.
      apply (add_svd_st pool (B + j)); [done|lia| |].
      { unfold CBIOS_HDMIFORMATCOUNTS, CBIOS_HDMI_NORMAL_VIC_COUNTS, CBIOS_HDMI_EXTENED_VIC_COUNTS in *. lia. }
      intros r s2 Hs2 _. cbn. by replace (B + (j + 1)) with (B + j + 1) by lia.
    + cbn. st_mono.
  - intros s1 Hs1. st_mono.
Qed.
