(* ===== verification/EdidList.v ===== *)
(** * The timing list, abstractly

    What the operations of [cbios/Util/CBiosEDID.c] on the growing array of
    device timings mean for the list of timings it holds: insertion appends,
    and [cbEDIDModule_AddSvdFormat] refines an operation on plain lists that
    keeps every video identification code unique. *)
From S2P Require Import Prelude CbUtil Timing TimingTables EdidTypes EdidTiming.

(** ** The abstract operations *)

(** The index of the first element that satisfies [P]. *)
Fixpoint find_idx {A} (P : A -> bool) (l : list A) : option Z :=
  match l with
  | [] => None
  | x :: l' => if P x then Some 0 else option_map (Z.add 1) (find_idx P l')
  end.

(** The timing of a video identification code. *)
Definition svd_timing (v : Z) (native : bool) (fmt : CBIOS_HDMI_FORMAT_MTX)
    (tbl : CBIOS_TIMING_ATTRIB) : CBIOS_DEVICE_TIMING_INFO :=
  let d := zero_dti <| TimingType := CBIOS_SVD_TIMING |> <| FullTiming := tbl |>
             <| AspectRatio := fmt_AspectRatio fmt |> <| IsNativeMode := b2z native |>
             <| IsInterLaced := Z.land (fmt_Interlace fmt) 1 |> in
  if cbIsCeaNTSCCompatMode tbl then
    d <| FullTiming ::= fun f =>
      f <| RefreshRate := u16 (cbGetCEAFractRefrate (RefreshRate tbl)) |>
        <| PixelClock := cbGetCEAFractRRClock (PixelClock f) |> |>
  else d.

(** The update of a listed timing that stands for the same format. *)
Definition take_vic (v : Z) (d t : CBIOS_DEVICE_TIMING_INFO) : CBIOS_DEVICE_TIMING_INFO :=
  let t := t <| FullTiming ::= fun f =>
     f <| RefreshRate := RefreshRate (FullTiming d) |> <| FormatVIC := v |> |> in
  if IsNativeMode d =? 0 then t else t <| IsNativeMode := 1 |>.

Definition vic_of (t : CBIOS_DEVICE_TIMING_INFO) : Z := FormatVIC (FullTiming t).

(** Adding a format to a list: it may be listed, be listed without its code,
    or be new. *)
Definition add_svd (v : Z) (native : bool) (l : list CBIOS_DEVICE_TIMING_INFO)
  : option Z * list CBIOS_DEVICE_TIMING_INFO :=
  match CEAVideoFormatTable !! Z.to_nat (v - 1), HDMIFormatTimingTbl !! Z.to_nat (v - 1) with
  | Some fmt, Some tbl =>
      if fmt_Supported fmt =? 0 then (None, l)
      else
        match find_idx (fun t => vic_of t =? v) l with
        | Some i => (Some i, l)
        | None =>
            let d := svd_timing v native fmt tbl in
            match find_idx (sameSvdTiming d) l with
            | Some i => (Some i, alter (take_vic v d) (Z.to_nat i) l)
            | None => (Some (zlen l), l ++ [d])
            end
        end
  | _, _ => (None, l)
  end.

(** ** Searches *)

Lemma find_idx_post {A} (P : A -> bool) l : scan_post l (zlen l) P (find_idx P l).
Proof.
  induction l as [|x l IH]; cbn [find_idx].
  - intros j y Hj Hy%rd_bound. change (zlen []) with 0 in Hy. lia.
  - assert (Hc : forall j y, rd (x :: l) j = Ok y -> j = 0 /\ y = x \/ rd l (j - 1) = Ok y).
    { intros j y Hy. pose proof (rd_bound _ _ _ Hy). apply rd_inv in Hy as [Hj Hy].
      destruct (Z.eq_dec j 0) as [->|]; [left; by injection Hy|right].
      apply rd_inv. split; [lia|]. by replace (Z.to_nat j) with (S (Z.to_nat (j - 1))) in Hy by lia. }
    assert (Hs : forall j y, rd l j = Ok y -> rd (x :: l) (j + 1) = Ok y).
    { intros j y Hy. apply rd_inv in Hy as [Hj Hy]. apply rd_inv. split; [lia|].
      by replace (Z.to_nat (j + 1)) with (S (Z.to_nat j)) by lia. }
    rewrite zlen_cons. pose proof (zlen_nonneg l). destruct (P x) eqn:HP.
    + split; [lia|]. split; [by exists x|]. intros j y Hj Hy%rd_bound. lia.
    + destruct (find_idx P l) as [i|]; cbn [option_map scan_post] in *.
      * destruct IH as (Hi & (y & Hy & HPy) & Hlt). split; [lia|]. split.
        -- exists y. split; [|done]. replace (1 + i) with (i + 1) by lia. by apply Hs.
        -- intros j z Hj Hz. destruct (Hc _ _ Hz) as [[-> ->]|Hz']; [done|].
           apply (Hlt (j - 1)); [lia|done].
      * intros j z Hj Hz. destruct (Hc _ _ Hz) as [[-> ->]|Hz']; [done|].
        apply (IH (j - 1)); [lia|done].
Qed.

Lemma scan_post_det {A} (l : list A) n P r r' :
  n <= zlen l -> scan_post l n P r -> scan_post l n P r' -> r = r'.
Proof.
  intros Hn H H'.
  assert (Hlt : forall i j, 0 <= i < n -> (exists x, rd l i = Ok x /\ P x = true) ->
     (forall k x, k < j -> rd l k = Ok x -> P x = false) -> j <= i).
  { intros i j Hi (x & Hx & HP) Hf. destruct (Z.le_gt_cases j i); [done|].
    rewrite (Hf i x) in HP by done. discriminate. }
  destruct r as [i|], r' as [j|]; cbn in *.
  - destruct H as (Hi & He & Hf), H' as (Hj & He' & Hf'). f_equal.
    pose proof (Hlt i j Hi He Hf'). pose proof (Hlt j i Hj He' Hf). lia.
  - destruct H as (Hi & He & _). pose proof (Hlt i n Hi He H'). lia.
  - destruct H' as (Hi & He & _). pose proof (Hlt j n Hi He H). lia.
  - done.
Qed.

(** A scan of the first [n] entries finds what the abstract search finds. *)
Lemma scan_find {A} (l : list A) n P :
  0 <= n <= zlen l -> scan l n P = Ok (find_idx P (take (Z.to_nat n) l)).
Proof.
  intros Hn. destruct (scan_spec l n P) as (r & -> & Hr); [lia|]. f_equal.
  assert (El : zlen (take (Z.to_nat n) l) = n) by (unfold zlen in *; rewrite length_take; lia).
  eapply scan_post_det; [| |apply find_idx_post].
  - done.
  - rewrite El. destruct r as [i|]; cbn [scan_post] in *.
    + destruct Hr as (Hi & (x & Hx & HP) & Hf). split; [done|].
      assert (Hrd : forall j y, j < n -> rd (take (Z.to_nat n) l) j = Ok y -> rd l j = Ok y).
      { intros j y Hj Hy. apply rd_inv in Hy as [H0 Hy]. apply rd_inv. split; [done|].
        by rewrite lookup_take_lt in Hy by lia. }
      split; [|intros j y Hj Hy; apply (Hf j); [done|apply Hrd; [lia|done]]].
      exists x. split; [|done]. apply rd_inv in Hx as [H0 Hx]. apply rd_inv. split; [done|].
      rewrite lookup_take_lt by lia. done.
    + intros j y Hj Hy. apply (Hr j); [done|]. apply rd_inv in Hy as [H0 Hy]. apply rd_inv.
      split; [done|]. by rewrite lookup_take_lt in Hy by lia.
Qed.

Lemma zlen_timings B s : tl_ok B s -> zlen (timings s) = TimingNum s.
Proof.
  unfold tl_ok, timings. intros (H1 & _ & H3). destruct (pDeviceTimingList s) as [l|].
  - unfold zlen in *. rewrite length_take. lia.
  - change (zlen []) with 0. lia.
Qed.

Lemma isSvdFormatExist_find B s v :
  tl_ok B s -> v <> 0 ->
  cbEDIDModule_isSvdFormatExist s v = Ok (find_idx (fun t => vic_of t =? v) (timings s)).
Proof.
  intros H Hv. pose proof (zlen_timings _ _ H) as Hl.
  unfold cbEDIDModule_isSvdFormatExist, timings in *. destruct (pDeviceTimingList s) as [l|] eqn:E; [|done].
  destruct (Z.eqb_spec (TimingNum s) 0) as [E0|]; cbn [orb]; [by rewrite E0|].
  destruct (Z.eqb_spec v 0); [done|]. rewrite scan_find; [done|].
  split; [apply H|by eapply tl_ok_len].
Qed.

Lemma hasSameSvdTiming_find B s d :
  tl_ok B s -> cbEDIDModule_hasSameSvdTiming s d = Ok (find_idx (sameSvdTiming d) (timings s)).
Proof.
  intros H. pose proof (zlen_timings _ _ H) as Hl.
  unfold cbEDIDModule_hasSameSvdTiming, timings in *. destruct (pDeviceTimingList s) as [l|] eqn:E; [|done].
  destruct (Z.eqb_spec (TimingNum s) 0) as [E0|]; [by rewrite E0|].
  rewrite scan_find; [done|]. split; [apply H|by eapply tl_ok_len].
Qed.

Lemma alter_take {A} (f : A -> A) l n i x :
  (i < n)%nat -> l !! i = Some x -> take n (<[i := f x]> l) = alter f i (take n l).
Proof.
  revert n l. induction i as [|i IH]; intros [|n] [|y l] Hi Hx; try done; try lia.
  - by injection Hx as ->.
  - cbn. f_equal. apply IH; [lia|done].
Qed.

Lemma upd_timing_alter B s i f :
  tl_ok B s -> 0 <= i < TimingNum s ->
  exists s', upd_timing s i f = Ok s' /\ fills B s s' /\
    timings s' = alter f (Z.to_nat i) (timings s).
Proof.
  intros H Hi. pose proof (upd_timing_wp B s i f H Hi) as Hw.
  apply wp_ok in Hw as (s' & Hs' & Hf & Hn). exists s'. split; [done|]. split; [done|].
  unfold timings. rewrite Hn. unfold upd_timing in Hs'.
  destruct (pDeviceTimingList s) as [l|] eqn:E; [|done]. cbn [deref rbind] in Hs'.
  pose proof (tl_ok_len _ _ _ H E). destruct (rd_in l i) as [x Hx]; [lia|].
  rewrite Hx in Hs'. cbn [rbind] in Hs'. rewrite wr_in in Hs' by lia. cbn [rbind] in Hs'.
  injection Hs' as <-. apply rd_inv in Hx as [_ Hx].
  cbn [pDeviceTimingList upd]. cbn. apply alter_take; [lia|done].
Qed.

(** ** Refinement *)

(** The array is a list that grows at its end: an insertion appends the
    timing, through any number of reallocations, or leaves the list unchanged,
    which happens only when the pool refuses a request. Nothing is overwritten,
    the array stays within 48 spare entries of its contents, and the rest of
    the structure is not touched. *)
Theorem AddDeviceTiming_appends pool B s t :
  tl_ok B s -> B + 1 < 2 ^ 24 ->
  exists added s', cbEDIDModule_AddDeviceTiming pool s t = Ok (added, s') /\
    timings s' = timings s ++ (if added then [t] else []) /\ tl_ok (B + 1) s' /\ same_rest s s' /\
    ((forall n, pool n = true) -> added = true).
Proof.
  intros H HB. pose proof (AddDeviceTiming_wp pool B s t H HB) as Hw.
  apply wp_ok in Hw as ([added s'] & Hs' & Ht & Hr & El & _ & Hf). exists added, s'.
  split; [done|]. split; [rewrite El; by destruct added; rewrite ?app_nil_r|].
  split; [done|]. split; [done|]. intros Hp. destruct added; [done|].
  destruct (Hf eq_refl) as [n Hn]. congruence.
Qed.

Lemma AddDeviceTiming_appends_witness :
  exists added s', cbEDIDModule_AddDeviceTiming (fun _ => true) zero_edid_struct zero_dti = Ok (added, s') /\
    timings s' = timings zero_edid_struct ++ (if added then [zero_dti] else []) /\ tl_ok (0 + 1) s' /\
    same_rest zero_edid_struct s' /\ ((forall n : nat, (fun _ : nat => true) n = true) -> added = true).
Proof. apply AddDeviceTiming_appends; [|reflexivity]. split; [cbn; lia|]. split; [reflexivity|reflexivity]. Defined.

Lemma add_svd_refined pool B s v native :
  tl_ok B s -> B + 1 < 2 ^ 24 -> 1 <= v <= CBIOS_HDMIFORMATCOUNTS -> (forall n, pool n = true) ->
  exists s', cbEDIDModule_AddSvdFormat pool s v native = Ok ((add_svd v native (timings s)).1, s') /\
    timings s' = (add_svd v native (timings s)).2 /\ tl_ok (B + 1) s' /\ same_rest s s'.
Proof.
  intros H HB Hv Hp. unfold cbEDIDModule_AddSvdFormat, add_svd.
  assert (HB1 : tl_ok (B + 1) s) by (eapply tl_ok_mono; [done|lia|lia]).
  change CBIOS_HDMIFORMATCOUNTS with 111 in Hv.
  destruct (rd_in CEAVideoFormatTable (v - 1)) as [fmt Hfmt]; [change (zlen CEAVideoFormatTable) with 111; lia|].
  destruct (rd_in HDMIFormatTimingTbl (v - 1)) as [tbl Htbl]; [change (zlen HDMIFormatTimingTbl) with 111; lia|].
  rewrite Hfmt. cbn [rbind]. apply rd_inv in Hfmt as [_ ->]. pose proof Htbl as [_ ->]%rd_inv.
  destruct (fmt_Supported fmt =? 0).
  { exists s. split; [done|]. split; [done|]. split; [done|apply same_rest_refl]. }
  rewrite (isSvdFormatExist_find B) by (done || lia). cbn [rbind].
  destruct (find_idx _ (timings s)) as [i|] eqn:Hfi.
  { exists s. split; [done|]. split; [done|]. split; [done|apply same_rest_refl]. }
  rewrite Htbl. cbn [rbind]. cbn zeta.
  change (if cbIsCeaNTSCCompatMode tbl then _ else _) with (svd_timing v native fmt tbl).
  set (d := svd_timing v native fmt tbl). rewrite (hasSameSvdTiming_find B) by done. cbn [rbind].
  destruct (find_idx (sameSvdTiming d) (timings s)) as [i|] eqn:Hfs.
  - pose proof (find_idx_post (sameSvdTiming d) (timings s)) as Hpost. rewrite Hfs in Hpost.
    destruct Hpost as (Hi & _). rewrite (zlen_timings B) in Hi by done.
    destruct (upd_timing_alter B s i (take_vic v d) H Hi) as (s' & Hs' & [Ht Hr] & El).
    match goal with |- context [upd_timing s i ?f] => change f with (take_vic v d) end.
    rewrite Hs'. cbn [rbind].
    exists s'. split; [done|]. split; [done|]. split; [|done]. eapply tl_ok_mono; [done|lia|lia].
  - pose proof (AddDeviceTiming_wp pool B s d H HB) as Hw.
    apply wp_ok in Hw as ([added s'] & Hs' & Ht & Hr & El & En & Hf). rewrite Hs'. cbn [rbind].
    assert (added = true) as -> by (destruct added; [done|destruct (Hf eq_refl) as [n Hn]; congruence]).
    exists s'. split; [|done]. do 3 f_equal. rewrite (zlen_timings B) by done.
    destruct H as (H1 & H2 & _). cbn in En. rewrite wrap_small by (unfold fits; lia). cbn [fst]. f_equal. lia.
Qed.

(** [cbEDIDModule_AddSvdFormat] refines [add_svd]: with memory available,
    the index it returns and the list it leaves are those of the operation on
    plain lists. *)
Theorem AddSvdFormat_refines pool B s v native :
  tl_ok B s -> B + 1 < 2 ^ 24 -> 1 <= v <= CBIOS_HDMIFORMATCOUNTS -> (forall n, pool n = true) ->
  exists s', cbEDIDModule_AddSvdFormat pool s v native = Ok ((add_svd v native (timings s)).1, s') /\
    timings s' = (add_svd v native (timings s)).2 /\ tl_ok (B + 1) s' /\ same_rest s s'.
Proof. apply add_svd_refined. Qed.

(** A code without a timing in the list, then added. *)
Lemma AddSvdFormat_refines_witness :
  exists s', cbEDIDModule_AddSvdFormat (fun _ => true) zero_edid_struct 16 true =
      Ok ((add_svd 16 true (timings zero_edid_struct)).1, s') /\
    timings s' = (add_svd 16 true (timings zero_edid_struct)).2 /\ tl_ok (0 + 1) s' /\
    same_rest zero_edid_struct s'.
Proof.
  apply AddSvdFormat_refines; [|reflexivity|unfold CBIOS_HDMIFORMATCOUNTS; vm_compute; split; discriminate|done].
  split; [cbn; lia|]. split; reflexivity.
Defined.

(** ** Codes are unique *)

(** No code is listed twice (0 is no code). *)
Definition vics_unique (l : list CBIOS_DEVICE_TIMING_INFO) : Prop :=
  forall i j t u, l !! i = Some t -> l !! j = Some u -> vic_of t = vic_of u -> vic_of t <> 0 -> i = j.

(** The tables are indexed by the code. *)
Lemma tables_vic v fmt tbl :
  1 <= v <= CBIOS_HDMIFORMATCOUNTS ->
  CEAVideoFormatTable !! Z.to_nat (v - 1) = Some fmt -> HDMIFormatTimingTbl !! Z.to_nat (v - 1) = Some tbl ->
  fmt_FormatVIC fmt = v /\ FormatVIC tbl = v.
Proof.
  intros Hv Hf Ht.
  assert (H : forallb (fun v => bool_decide (fmt_FormatVIC <$> CEAVideoFormatTable !! Z.to_nat (v - 1) = Some v) &&
     bool_decide (FormatVIC <$> HDMIFormatTimingTbl !! Z.to_nat (v - 1) = Some v)) (seqZ 1 111) = true)
    by (vm_compute; reflexivity).
  rewrite forallb_forall in H. specialize (H v). rewrite andb_true_iff, !bool_decide_eq_true in H.
  rewrite Hf, Ht in H. change CBIOS_HDMIFORMATCOUNTS with 111 in Hv.
  destruct H as [H1 H2]; [apply list_elem_of_In, elem_of_seqZ; lia|]. cbn in *. split; congruence.
Qed.

Lemma svd_timing_vic v n fmt tbl : vic_of (svd_timing v n fmt tbl) = FormatVIC tbl.
Proof. unfold svd_timing, vic_of. cbn zeta. by destruct (cbIsCeaNTSCCompatMode tbl). Qed.

Lemma take_vic_vic v d t : vic_of (take_vic v d t) = v.
Proof. unfold take_vic, vic_of. cbn zeta. by destruct (_ =? 0). Qed.

Lemma sameSvdTiming_vic d t : sameSvdTiming d t = true -> vic_of t = 0.
Proof. unfold sameSvdTiming, vic_of. destruct (Z.eqb_spec (FormatVIC (FullTiming t)) 0); done. Qed.

Lemma find_idx_some {A} (P : A -> bool) l i :
  find_idx P l = Some i -> 0 <= i < zlen l /\ exists x, l !! Z.to_nat i = Some x /\ P x = true.
Proof.
  intros H. pose proof (find_idx_post P l) as Hp. rewrite H in Hp.
  destruct Hp as (Hi & (x & Hx & HP) & _). split; [done|]. exists x. by apply rd_inv in Hx as [_ Hx].
Qed.

Lemma find_idx_none {A} (P : A -> bool) l i x :
  find_idx P l = None -> l !! i = Some x -> P x = false.
Proof.
  intros H Hx. pose proof (find_idx_post P l) as Hp. rewrite H in Hp. apply (Hp (Z.of_nat i)).
  - apply lookup_lt_Some in Hx. unfold zlen. lia.
  - apply rd_inv. split; [lia|]. by rewrite Nat2Z.id.
Qed.

(** Giving a code that is not listed to an entry without one keeps the codes
    unique. *)
Lemma vics_unique_alter l i v f t :
  vics_unique l -> l !! i = Some t -> (forall j u, l !! j = Some u -> vic_of u <> v) ->
  vic_of (f t) = v -> vics_unique (alter f i l).
Proof.
  intros H Hi Hn Hf j k u w Hj Hk E Hz.
  destruct (decide (j = i)) as [->|], (decide (k = i)) as [->|]; [done| | |].
  - rewrite list_lookup_alter_eq, Hi in Hj. injection Hj as <-. rewrite list_lookup_alter_ne in Hk by done.
    exfalso. apply (Hn _ _ Hk). congruence.
  - rewrite list_lookup_alter_eq, Hi in Hk. injection Hk as <-. rewrite list_lookup_alter_ne in Hj by done.
    exfalso. apply (Hn _ _ Hj). congruence.
  - rewrite list_lookup_alter_ne in Hj, Hk by done. by apply (H j k u w).
Qed.

Lemma vics_unique_app l v d :
  vics_unique l -> (forall j u, l !! j = Some u -> vic_of u <> v) -> vic_of d = v -> vics_unique (l ++ [d]).
Proof.
  intros H Hn Hd j k u w Hj Hk E Hz.
  apply lookup_app_Some in Hj as [Hj|[Hlj Hj]], Hk as [Hk|[Hlk Hk]].
  - by apply (H j k u w).
  - apply list_lookup_singleton_Some in Hk as [? <-]. exfalso. apply (Hn _ _ Hj). congruence.
  - apply list_lookup_singleton_Some in Hj as [? <-]. exfalso. apply (Hn _ _ Hk). congruence.
  - apply list_lookup_singleton_Some in Hj as [? _]. apply list_lookup_singleton_Some in Hk as [? _]. lia.
Qed.

Lemma add_svd_unique v n l r l' :
  1 <= v <= CBIOS_HDMIFORMATCOUNTS -> vics_unique l -> add_svd v n l = (r, l') ->
  vics_unique l' /\ match r with
    | Some i => exists t, l' !! Z.to_nat i = Some t /\ vic_of t = v
    | None => l' = l end.
Proof.
  intros Hv Hu. unfold add_svd.
  destruct (CEAVideoFormatTable !! Z.to_nat (v - 1)) as [fmt|] eqn:Ef; [|by intros [= <- <-]].
  destruct (HDMIFormatTimingTbl !! Z.to_nat (v - 1)) as [tbl|] eqn:Et; [|by intros [= <- <-]].
  destruct (tables_vic v fmt tbl Hv Ef Et) as [_ Hvt].
  destruct (fmt_Supported fmt =? 0); [by intros [= <- <-]|].
  destruct (find_idx (fun t => vic_of t =? v) l) as [i|] eqn:Hf.
  { intros [= <- <-]. split; [done|]. apply find_idx_some in Hf as (_ & t & Ht & Hv'). exists t.
    split; [done|lia]. }
  assert (Hn : forall j u, l !! j = Some u -> vic_of u <> v).
  { intros j u Hj E. pose proof (find_idx_none _ _ _ _ Hf Hj) as HP. cbn in HP. lia. }
  cbn zeta. set (d := svd_timing v n fmt tbl).
  assert (Hd : vic_of d = v) by (unfold d; rewrite svd_timing_vic; done).
  destruct (find_idx (sameSvdTiming d) l) as [i|] eqn:Hs; intros [= <- <-].
  - apply find_idx_some in Hs as (Hi & t & Ht & _). split.
    + eapply vics_unique_alter; [done|done|done|apply take_vic_vic].
    + exists (take_vic v d t). rewrite list_lookup_alter_eq, Ht. split; [done|apply take_vic_vic].
  - split; [by eapply vics_unique_app|]. exists d. split; [|done].
    unfold zlen. rewrite Nat2Z.id. rewrite lookup_app_r by lia. by rewrite Nat.sub_diag.
Qed.

(** Every code is listed at most once: [cbEDIDModule_AddSvdFormat] keeps
    the codes of the list unique, and the index it returns is that of the entry
    with the requested code; a format the driver does not support changes
    nothing. *)
Theorem AddSvdFormat_vic_unique pool B s v native :
  tl_ok B s -> B + 1 < 2 ^ 24 -> 1 <= v <= CBIOS_HDMIFORMATCOUNTS -> (forall n, pool n = true) ->
  vics_unique (timings s) ->
  exists r s', cbEDIDModule_AddSvdFormat pool s v native = Ok (r, s') /\ vics_unique (timings s') /\
    match r with
    | Some i => exists t, timings s' !! Z.to_nat i = Some t /\ vic_of t = v
    | None => timings s' = timings s
    end.
Proof.
  intros H HB Hv Hp Hu. destruct (add_svd v native (timings s)) as [r l'] eqn:E.
  destruct (add_svd_refined pool B s v native H HB Hv Hp) as (s' & Hs' & El & _).
  rewrite E in Hs', El. cbn in Hs', El. exists r, s'. split; [done|]. rewrite El.
  by apply (add_svd_unique v native (timings s)).
Qed.

Lemma AddSvdFormat_vic_unique_witness :
  exists r s', cbEDIDModule_AddSvdFormat (fun _ => true) zero_edid_struct 16 true = Ok (r, s') /\
    vics_unique (timings s') /\
    match r with
    | Some i => exists t, timings s' !! Z.to_nat i = Some t /\ vic_of t = 16
    | None => timings s' = timings zero_edid_struct
    end.
Proof.
  apply (AddSvdFormat_vic_unique (fun _ => true) 0);
    [|reflexivity|unfold CBIOS_HDMIFORMATCOUNTS; vm_compute; split; discriminate|done|].
  - split; [cbn; lia|]. split; reflexivity.
  - intros i j t u Hi. discriminate Hi.
Defined.
