(* ===== verification/EdidFormats.v ===== *)
(** * Formats and codes

    The timing tables of [cbios/Util/CBiosEDID.c] are consistent, and the
    helpers that go from a short video descriptor to a code and from a refresh
    rate to a CEA rate mean what CEA-861 says. *)
From S2P Require Import Prelude CbUtil Timing TimingTables EdidTypes EdidTiming.

(** ** The tables *)

(** The refresh rate (in 0.01 Hz) that follows from the clock and the totals;
    an interlaced format shows two fields per frame. *)
Definition clock_rate (interlace : Z) (t : CBIOS_TIMING_ATTRIB) : Z :=
  (if interlace =? 0 then 1 else 2) * (PixelClock t * 10000) / (HorTotal t * VerTotal t).

(** All checks on the entries of one code. *)
Definition format_consistent (v : Z) (fmt : CBIOS_HDMI_FORMAT_MTX) (t : CBIOS_TIMING_ATTRIB) : bool :=
  (fmt_FormatVIC fmt =? v) && (FormatVIC t =? v) && (Size t =? TIMING_ATTRIB_SIZE) &&
  ((fmt_Supported fmt =? 0) ||
   (timing_ok t && ((v =? 77) || (Z.abs (clock_rate (fmt_Interlace fmt) t - RefreshRate t) <=? 60)))).

(** The two tables of CEA formats agree with each other: entry [v - 1] of
    both is the format with code [v], and every supported format has a
    well-formed timing whose pixel clock gives the refresh rate of the table to
    within 0.6 Hz. Code 77 is the exception: its clock is that of 100 Hz and
    its table rate 120 Hz. *)
Theorem HDMI_tables_consistent v :
  1 <= v <= CBIOS_HDMIFORMATCOUNTS ->
  exists fmt t, rd CEAVideoFormatTable (v - 1) = Ok fmt /\ rd HDMIFormatTimingTbl (v - 1) = Ok t /\
    fmt_FormatVIC fmt = v /\ FormatVIC t = v /\
    (fmt_Supported fmt <> 0 -> timing_ok t = true /\
       (v <> 77 -> Z.abs (clock_rate (fmt_Interlace fmt) t - RefreshRate t) <= 60)) /\
    (v = 77 -> fmt_Supported fmt <> 0 /\ RefreshRate t = 12000 /\ clock_rate (fmt_Interlace fmt) t = 10000).
Proof.
  intros Hv.
  assert (H : forallb (fun v => match rd CEAVideoFormatTable (v - 1), rd HDMIFormatTimingTbl (v - 1) with
     | Ok fmt, Ok t => format_consistent v fmt t &&
         (negb (v =? 77) || (negb (fmt_Supported fmt =? 0) && (RefreshRate t =? 12000) &&
                             (clock_rate (fmt_Interlace fmt) t =? 10000)))
     | _, _ => false end) (seqZ 1 111) = true) by (vm_compute; reflexivity).
  rewrite forallb_forall in H. specialize (H v). change CBIOS_HDMIFORMATCOUNTS with 111 in Hv.
  specialize (H ltac:(apply list_elem_of_In, elem_of_seqZ; lia)).
  destruct (rd CEAVideoFormatTable (v - 1)) as [fmt|]; [|discriminate].
  destruct (rd HDMIFormatTimingTbl (v - 1)) as [t|]; [|discriminate].
  exists fmt, t. unfold format_consistent in H.
  generalize dependent (clock_rate (fmt_Interlace fmt) t). intros r H.
  split; [done|]. split; [done|]. split; [lia|]. split; [lia|]. split; [|lia].
  intros Hs. split; [|lia]. destruct (timing_ok t); [done|]. lia.
Qed.

Lemma HDMI_tables_consistent_witness :
  exists fmt t, rd CEAVideoFormatTable (77 - 1) = Ok fmt /\ rd HDMIFormatTimingTbl (77 - 1) = Ok t /\
    fmt_FormatVIC fmt = 77 /\ FormatVIC t = 77 /\
    (fmt_Supported fmt <> 0 -> timing_ok t = true /\
       (77 <> 77 -> Z.abs (clock_rate (fmt_Interlace fmt) t - RefreshRate t) <= 60)) /\
    (77 = 77 -> fmt_Supported fmt <> 0 /\ RefreshRate t = 12000 /\ clock_rate (fmt_Interlace fmt) t = 10000).
Proof. apply (HDMI_tables_consistent 77). vm_compute. split; discriminate. Defined.

(** ** Short video descriptors *)

(** A short video descriptor stands for the code CEA-861 gives it: 1 to 127
    are codes, 129 to 192 native codes 1 to 64, 193 to 253 codes, the others
    reserved; the function answers true for exactly the codes 1 to 107 of its
    tables. *)
Theorem GetFmtIdxFromSVD_spec svd f :
  0 <= svd < 256 ->
  let code := if svd <=? 127 then svd else if (129 <=? svd) && (svd <=? 192) then svd - 128
              else if (193 <=? svd) && (svd <=? 253) then svd else 0 in
  let native := (129 <=? svd) && (svd <=? 192) in
  exists v, cbEDIDModule_GetFmtIdxFromSVD svd f =
    ((1 <=? code) && (code <=? CBIOS_HDMI_NORMAL_VIC_COUNTS), v, native) /\
    (code <> 0 -> v = code).
Proof.
  intros Hs. cbn zeta. unfold cbEDIDModule_GetFmtIdxFromSVD.
  assert (Hl : Z.land svd 0x7F = svd mod 128) by (change 0x7F with (Z.ones 7); by rewrite Z.land_ones).
  rewrite Hl. clear Hl.
  assert (Hok : forall x, 0 <= x -> (if (x =? 0) || (CBIOS_HDMI_NORMAL_VIC_COUNTS <? x) then false else true) =
    (1 <=? x) && (x <=? CBIOS_HDMI_NORMAL_VIC_COUNTS)).
  { intros x Hx. unfold CBIOS_HDMI_NORMAL_VIC_COUNTS.
    destruct (Z.eqb_spec x 0), (Z.ltb_spec 107 x), (Z.leb_spec 1 x), (Z.leb_spec x 107); cbn; lia || done. }
  assert (Hno : forall c : bool, (if c then false else false) = false) by by intros [].
  destruct (Z.leb_spec 1 svd), (Z.leb_spec svd 64), (Z.leb_spec 65 svd), (Z.leb_spec svd 127),
    (Z.leb_spec 129 svd), (Z.leb_spec svd 192), (Z.leb_spec 193 svd), (Z.leb_spec svd 253);
    cbn [andb]; try lia;
    try (assert (svd = 0) as -> by lia); try (assert (svd = 128) as -> by lia);
    try (assert (svd mod 128 = svd) as -> by dlia);
    try (assert (svd mod 128 = svd - 128) as -> by dlia);
    rewrite ?Hno, ?Hok by lia; eexists; (split; [reflexivity|]); intros; (reflexivity || lia).
Qed.

Lemma GetFmtIdxFromSVD_spec_witness :
  exists v, cbEDIDModule_GetFmtIdxFromSVD 144 0 = (true, v, true) /\ (16 <> 0 -> v = 16).
Proof. apply (GetFmtIdxFromSVD_spec 144 0). vm_compute. split; [discriminate|reflexivity]. Defined.

(** ** CEA refresh rates *)

(** The rates of the table, and the fractional rates (times 1000/1001) of those
    that have one. *)
Lemma table_rates v t :
  1 <= v <= CBIOS_HDMIFORMATCOUNTS -> rd HDMIFormatTimingTbl (v - 1) = Ok t ->
  0 < RefreshRate t < 65536 /\ 0 <= cbGetCEAFractRefrate (RefreshRate t) < RefreshRate t /\
  (cbGetCEAFractRefrate (RefreshRate t) = 0 \/ RefreshRate t mod 600 = 0).
Proof.
  intros Hv Ht. change CBIOS_HDMIFORMATCOUNTS with 111 in Hv.
  assert (H : forallb (fun t => (0 <? RefreshRate t) && (RefreshRate t <? 65536) &&
     (0 <=? cbGetCEAFractRefrate (RefreshRate t)) && (cbGetCEAFractRefrate (RefreshRate t) <? RefreshRate t) &&
     ((cbGetCEAFractRefrate (RefreshRate t) =? 0) || (RefreshRate t mod 600 =? 0)))
    HDMIFormatTimingTbl = true) by (vm_compute; reflexivity).
  rewrite forallb_forall in H. specialize (H t). apply rd_inv in Ht as [_ Ht].
  specialize (H ltac:(apply list_elem_of_In; by eapply list_elem_of_lookup_2)). lia.
Qed.

(** [cbEdidModule_IsRefreshInCEARange] compares a refresh rate with the
    nearer of the format's integer rate and its 1000/1001 rate; its integer
    division accepts every difference of less than 6 per mille, where the comment
    in the source says 5. *)
Theorem IsRefreshInCEARange_exact r v t :
  0 < r < 65536 -> 1 <= v <= CBIOS_HDMIFORMATCOUNTS -> rd HDMIFormatTimingTbl (v - 1) = Ok t ->
  let int := RefreshRate t in let fract := cbGetCEAFractRefrate int in
  exists ref clk,
    ((ref, clk) = (int, PixelClock t) \/
     fract <> 0 /\ (ref, clk) = (fract, cbGetCEAFractRRClock (PixelClock t))) /\
    Z.abs (r - ref) <= Z.abs (r - int) /\ (fract <> 0 -> Z.abs (r - ref) <= Z.abs (r - fract)) /\
    cbEdidModule_IsRefreshInCEARange r v =
      Ok (if 1000 * Z.abs (r - ref) <? 6 * ref then Some (ref, clk) else None).
Proof.
  intros Hr Hv Ht. destruct (table_rates v t Hv Ht) as (Hi & Hf & _). cbn zeta.
  set (I := RefreshRate t) in *. set (F := cbGetCEAFractRefrate I) in *.
  unfold cbEdidModule_IsRefreshInCEARange. destruct (Z.eqb_spec v 0); [lia|].
  destruct (Z.ltb_spec CBIOS_HDMIFORMATCOUNTS v); [lia|]. destruct (Z.eqb_spec r 0); [lia|]. cbn [orb].
  rewrite Ht. cbn [rbind]. cbn zeta. fold I. fold F.
  rewrite (wrap_small 16 F) by (unfold fits; lia).
  set (nearer := (F =? 0) || ((F + I) / 2 <? r)).
  set (ref := if nearer then I else F).
  assert (Hd : cbGetDiff r ref = Z.abs (r - ref)).
  { unfold cbGetDiff. destruct (Z.ltb_spec ref r); lia. }
  rewrite Hd. assert (Href : 0 < ref < 65536 /\ (ref = I \/ F <> 0 /\ ref = F /\ ref <> I)).
  { subst ref nearer. destruct (Z.eqb_spec F 0); cbn [orb]; [lia|]. destruct (_ <? _); lia. }
  destruct (Z.eqb_spec ref 0); [lia|]. unfold udiv. destruct (Z.eqb_spec ref 0); [lia|]. cbn [rbind].
  rewrite (wrap_small 32) by (unfold fits; lia).
  exists ref, (if ref =? I then PixelClock t else cbGetCEAFractRRClock (PixelClock t)).
  split; [|split; [|split]].
  - destruct Href as (_ & [->|(HF & -> & Hne)]); [left; by rewrite Z.eqb_refl|right].
    split; [done|]. destruct (Z.eqb_spec F I); [done|]. done.
  - subst ref nearer. destruct (Z.eqb_spec F 0); cbn [orb]; [lia|].
    destruct (Z.ltb_spec ((F + I) / 2) r); dlia.
  - intros HF. subst ref nearer. destruct (Z.eqb_spec F 0); cbn [orb]; [lia|].
    destruct (Z.ltb_spec ((F + I) / 2) r); dlia.
  - destruct (Z.leb_spec (Z.abs (r - ref) * 1000 / ref) 5) as [Hq|Hq].
    + destruct (Z.ltb_spec (1000 * Z.abs (r - ref)) (6 * ref)) as [_|Hge].
      * destruct (Z.eqb_spec ref I) as [->|]; [done|]. destruct Href as (_ & [?|(_ & -> & _)]); done.
      * exfalso. assert (6 <= Z.abs (r - ref) * 1000 / ref) by (apply Z.div_le_lower_bound; lia). lia.
    + destruct (Z.ltb_spec (1000 * Z.abs (r - ref)) (6 * ref)) as [Hlt|_]; [|done].
      exfalso. assert (Z.abs (r - ref) * 1000 / ref < 6) by (apply Z.div_lt_upper_bound; lia). lia.
Qed.

(** A difference of 0.55 percent, beyond the comment, is accepted. *)
Example refresh_tolerance :
  1000 * Z.abs (6033 - 6000) > 5 * 6000 /\ cbEdidModule_IsRefreshInCEARange 6033 16 = Ok (Some (6000, 1485000)).
Proof. split; [lia|]. by vm_compute. Qed.

(** C37. [cbEdidModule_IsRefreshInCEARange] tests a refresh rate against the
    format's integer rate or its 1000/1001 rate, whichever is nearer. A rate that
    differs by 0.5 percent or less, the tolerance the source documents, is
    accepted, and the answer is that rate of the format with the clock that goes
    with it; one that differs by 0.6 percent or more is refused. (In between the
    code accepts too, which is more than it documents.) *)
Theorem IsRefreshInCEARange_spec r v t :
  0 < r < 65536 -> 1 <= v <= CBIOS_HDMIFORMATCOUNTS -> rd HDMIFormatTimingTbl (v - 1) = Ok t ->
  let int := RefreshRate t in let fract := cbGetCEAFractRefrate int in
  exists ref clk,
    ((ref, clk) = (int, PixelClock t) \/
     fract <> 0 /\ (ref, clk) = (fract, cbGetCEAFractRRClock (PixelClock t))) /\
    Z.abs (r - ref) <= Z.abs (r - int) /\ (fract <> 0 -> Z.abs (r - ref) <= Z.abs (r - fract)) /\
    (1000 * Z.abs (r - ref) <= 5 * ref -> cbEdidModule_IsRefreshInCEARange r v = Ok (Some (ref, clk))) /\
    (6 * ref <= 1000 * Z.abs (r - ref) -> cbEdidModule_IsRefreshInCEARange r v = Ok None) /\
    (cbEdidModule_IsRefreshInCEARange r v = Ok (Some (ref, clk)) \/ cbEdidModule_IsRefreshInCEARange r v = Ok None).
Proof.
  intros Hr Hv Ht int fract. destruct (IsRefreshInCEARange_exact r v t Hr Hv Ht) as (ref & clk & Hc & H1 & H2 & ->).
  destruct (table_rates v t Hv Ht) as (Hi & Hf & _).
  exists ref, clk. do 3 (split; [done|]).
  assert (0 < ref) by (destruct Hc as [[= -> _]|[Hn [= -> _]]]; unfold fract, int in *; lia).
  destruct (Z.ltb_spec (1000 * Z.abs (r - ref)) (6 * ref)); split_and!; intros; (done || lia || tauto).
Qed.

(** 59.94 Hz is the fractional rate of format 16 (1920x1080 at 60 Hz). *)
Lemma IsRefreshInCEARange_spec_witness :
  exists ref clk, 1000 * Z.abs (5990 - ref) <= 5 * ref /\
    cbEdidModule_IsRefreshInCEARange 5990 16 = Ok (Some (ref, clk)).
Proof.
  destruct (rd HDMIFormatTimingTbl 15) as [t|] eqn:E; [|discriminate E].
  destruct (IsRefreshInCEARange_spec 5990 16 t) as (ref & clk & Hc & _ & _ & H & _);
    [lia|unfold CBIOS_HDMIFORMATCOUNTS, CBIOS_HDMI_NORMAL_VIC_COUNTS, CBIOS_HDMI_EXTENED_VIC_COUNTS; lia|exact E|].
  assert (Hd : 1000 * Z.abs (5990 - ref) <= 5 * ref).
  { vm_compute in E. injection E as <-. destruct Hc as [[= -> _]|[_ [= -> _]]]; by vm_compute. }
  exists ref, clk. split; [exact Hd|exact (H Hd)].
Defined.
