(* ===== verification/EdidCea.v ===== *)
(** * Extension blocks of an EDID

    The decoders of [cbios/Util/CBiosEDID.c] for CEA-861 extension blocks
    (audio, vendor specific and extended data blocks) and DisplayID blocks, and
    the two loops over the extension blocks. *)
From S2P Require Import Prelude CbUtil Timing TimingTables EdidTypes EdidTiming.

(** ** Audio formats *)

(** The format specific part of an audio descriptor, whose third byte is [b]. *)
Definition set_audio_detail (AudioFormatCode b : Z) (a : CBIOS_HDMI_AUDIO_INFO)
  : CBIOS_HDMI_AUDIO_INFO :=
  if AudioFormatCode =? 1 then
    a <| Unit ::= fun u => setfield u 0 1 (Z.land b 0x1) |>
      <| Unit ::= fun u => setfield u 1 1 (Z.land (Z.shiftr b 1) 0x1) |>
      <| Unit ::= fun u => setfield u 2 1 (Z.land (Z.shiftr b 2) 0x1) |>
  else if AudioFormatCode <=? 8 then a <| Unit := b * 8 |>
  else if AudioFormatCode <=? 13 then a <| Unit := b |>
  else if AudioFormatCode =? 14 then a <| Unit ::= fun u => setfield u 0 3 (Z.land b 0x7) |>
  else
    let ext := Z.land (Z.shiftr b 3) 0x1F in
    if ext =? 1 then a <| Format := CBIOS_AUDIO_FORMAT_HE_AAC |>
    else if ext =? 2 then a <| Format := CBIOS_AUDIO_FORMAT_HE_AAC_V2 |>
    else if ext =? 3 then a <| Format := CBIOS_AUDIO_FORMAT_MPEG_SURROUND |>
    else a.

(** [cbEDIDModule_GetHDMIAudioFormat]; the loop state is ([j],
    [ulNumOfAudioFormat], [pCEAAudioFormat]). *)
Definition cbEDIDModule_GetHDMIAudioFormat (buf : list Z) (off : Z)
    (s : CBIOS_EDID_STRUCTURE_DATA) : res (Z * CBIOS_EDID_STRUCTURE_DATA) :=
  let! b0 := rd buf off in
  let PayloadLength := Z.land b0 0x1F in
  let! '(num, fmts) :=
    iterate 12
      (fun '(j, num, fmts) =>
         if negb (j <? PayloadLength / 3) || (CBIOS_HDMI_AUDIO_FORMAT_COUNTS <=? num)
         then Ok (inr (num, fmts))
         else
           let! b1 := rd buf (off + (1 + j * 3)) in
           let AudioFormatCode := Z.land (Z.shiftr b1 3) 0xF in
           if (0 <? AudioFormatCode) && (AudioFormatCode <? 16) then
             let! a := rd fmts num in
             let a := if AudioFormatCode <? 15 then a <| Format := AudioFormatCode |> else a in
             let! b2 := rd buf (off + (2 + j * 3)) in
             let! b3 := rd buf (off + (3 + j * 3)) in
             let a := a <| MaxChannelNum := Z.land b1 0x7 + 1 |>
                        <| SampleRateUnit := Z.land b2 0x7F |> in
             let! fmts := wr fmts num (set_audio_detail AudioFormatCode b3 a) in
             Ok (inl (j + 1, num + 1, fmts))
           else Ok (inl (j + 1, num, fmts)))
      (0, HDAudioFormatNum s, HDAudioFormat s) in
  Ok (u32 (num - HDAudioFormatNum s),
      s <| HDAudioFormatNum := num |> <| HDAudioFormat := fmts |>).

Definition cbEDIDPatchHDMIAudio (s : CBIOS_EDID_STRUCTURE_DATA) : res CBIOS_EDID_STRUCTURE_DATA :=
  if get_cap (Attribute s) CAP_Audio =? 0 then Ok s
  else
    let! found := scan (HDAudioFormat s) (HDAudioFormatNum s)
                    (fun a => Format a =? CBIOS_AUDIO_FORMAT_LPCM) in
    match found with
    | Some _ => Ok s
    | None =>
        (* the loop ran to its end: i = HDAudioFormatNum *)
        let i := HDAudioFormatNum s in
        let '(i, s) :=
          if CBIOS_HDMI_AUDIO_FORMAT_COUNTS <=? i then (CBIOS_HDMI_AUDIO_FORMAT_COUNTS - 1, s)
          else (i, s <| HDAudioFormatNum ::= fun n => n + 1 |>) in
        let! a := rd (HDAudioFormat s) i in
        let! fmts := wr (HDAudioFormat s) i
          (a <| Format := CBIOS_AUDIO_FORMAT_LPCM |> <| MaxChannelNum := 2 |>
             <| SampleRateUnit := 7 |> <| Unit ::= fun u => setfield u 0 1 1 |>) in
        Ok (s <| HDAudioFormat := fmts |>)
    end.

(** ** Vendor specific data blocks *)

(** The loop over the 3D formats; its state is ([i], [HDMI3DFormatCount],
    [pCurByte], [HDMI3DForamt]). *)
Definition vsdb_3d_formats (buf : list Z) (pCurByte HDMI3DFormatLength : Z)
    (fmts : list CBIOS_HDMI_3D_FORMAT) : res (Z * list CBIOS_HDMI_3D_FORMAT) :=
  iterate 32
    (fun '(i, count, cur, fmts) =>
       if i <? HDMI3DFormatLength then
         let! b := rd buf cur in
         let! f := rd fmts count in
         let f := f <| HDMI2DVICOrder := Z.land (Z.shiftr b 4) 0x0F |>
                    <| HDMI3DStructure := Z.land b 0x0F |> in
         if 0x08 <=? HDMI3DStructure f then
           let! d := rd buf (cur + 1) in
           let! fmts := wr fmts count (f <| HDMI3DDetail := Z.land (Z.shiftr d 4) 0x0F |>) in
           Ok (inl (i + 2, count + 1, cur + 2, fmts))
         else
           let! fmts := wr fmts count f in
           Ok (inl (i + 1, count + 1, cur + 1, fmts))
       else Ok (inr (count, fmts)))
    (0, 0, pCurByte, fmts).

(** The video part of the block, from the 3D flags on; [cur] is [pCurByte] and
    [PayloadLen] counts the payload bytes consumed. *)
Definition vsdb_video (buf : list Z) (cur PayloadLen : Z) (v : CBIOS_HDMI_VSDB_EXTENTION)
  : res CBIOS_HDMI_VSDB_EXTENTION :=
  let! b := rd buf cur in
  let v := v <| HDMI3DPresentFlags := b |> in
  let cur := cur + 1 in
  let PayloadLen := PayloadLen + 1 in
  if VSDBLength v <=? PayloadLen then Ok v
  else
    let! b := rd buf cur in
    let v := v <| HDMI3DLen := Z.land b 0x1F |> <| HDMIVICLen := Z.land (Z.shiftr b 5) 0x07 |> in
    let cur := cur + 1 in
    let PayloadLen := PayloadLen + 1 in
    if VSDBLength v <=? PayloadLen then Ok v
    else
      let! '(cur, cnt, vics) :=
        for_up (Z.to_nat (HDMIVICLen v)) 0
          (fun _ '(cur, ExtVICCnt, vics) =>
             let! b := rd buf cur in
             if (1 <=? b) && (b <=? CBIOS_HDMI_EXTENED_VIC_COUNTS) then
               let! vics := wr vics ExtVICCnt b in
               Ok (cur + 1, ExtVICCnt + 1, vics)
             else Ok (cur + 1, ExtVICCnt, vics))
          (cur, 0, HDMIVIC v) in
      let PayloadLen := PayloadLen + HDMIVICLen v in
      let v := v <| HDMIVIC := vics |> <| HDMIVICLen := cnt |> in
      if VSDBLength v <=? PayloadLen then Ok v
      else
        let HDMI3DFormatLength := HDMI3DLen v in
        let formats v cur PayloadLen HDMI3DFormatLength :=
          if HDMI3DLen v <? HDMI3DFormatLength then Ok v
          else
            let! '(count, fmts) := vsdb_3d_formats buf cur HDMI3DFormatLength (HDMI3DForamt v) in
            Ok (v <| HDMI3DForamt := fmts |> <| HDMI3DFormatCount := count |>) in
        if HDMI3DMultiPresent v =? 0x01 then
          let! dataHigh := rd buf cur in
          let! dataLow := rd buf (cur + 1) in
          let v := v <| HDMI3DStructAll := Z.lor (Z.shiftl dataHigh 8) dataLow |>
                     <| HDMI3DMask := 0xFFFF |> in
          let HDMI3DFormatLength := u32 (HDMI3DFormatLength - 2) in
          let PayloadLen := PayloadLen + 2 in
          if VSDBLength v <=? PayloadLen then Ok v
          else formats v (cur + 2) PayloadLen HDMI3DFormatLength
        else if HDMI3DMultiPresent v =? 0x02 then
          let! dataHigh := rd buf cur in
          let! dataLow := rd buf (cur + 1) in
          let v := v <| HDMI3DStructAll := Z.lor (Z.shiftl dataHigh 8) dataLow |> in
          let! dataHigh := rd buf (cur + 2) in
          let! dataLow := rd buf (cur + 3) in
          let v := v <| HDMI3DMask := Z.lor (Z.shiftl dataHigh 8) dataLow |> in
          let HDMI3DFormatLength := u32 (HDMI3DFormatLength - 4) in
          let PayloadLen := PayloadLen + 4 in
          if VSDBLength v <=? PayloadLen then Ok v
          else formats v (cur + 4) PayloadLen HDMI3DFormatLength
        else
          let v := v <| HDMI3DStructAll := 0x0000 |> <| HDMI3DMask := 0xFFFF |> in
          formats v cur PayloadLen HDMI3DFormatLength.

(** The latency fields and what follows them. *)
Definition vsdb_latency (buf : list Z) (cur PayloadLen : Z) (v : CBIOS_HDMI_VSDB_EXTENTION)
  : res CBIOS_HDMI_VSDB_EXTENTION :=
  let video v cur PayloadLen :=
    if negb (HDMIVideoPresent v =? 0) then vsdb_video buf cur PayloadLen v else Ok v in
  let interlaced v cur PayloadLen :=
    if negb (ILatencyFieldsPresent v =? 0) then
      let! a := rd buf cur in
      let! b := rd buf (cur + 1) in
      let v := v <| InterlacedVideoLatency := a |> <| InterlacedAudioLatency := b |> in
      if VSDBLength v <=? PayloadLen + 2 then Ok v else video v (cur + 2) (PayloadLen + 2)
    else video (v <| InterlacedVideoLatency := 0 |> <| InterlacedAudioLatency := 0 |>)
           cur PayloadLen in
  if negb (LatencyFieldsPresent v =? 0) then
    let! a := rd buf cur in
    let! b := rd buf (cur + 1) in
    let v := v <| VideoLatency := a |> <| AudioLatency := b |> in
    if VSDBLength v <=? PayloadLen + 2 then Ok v else interlaced v (cur + 2) (PayloadLen + 2)
  else interlaced (v <| VideoLatency := 0 |> <| AudioLatency := 0 |>) cur PayloadLen.

(** [cbEDIDModule_ParseHDMIVSDB]: the total length of the block, and
    [*pVSDBData], which is cleared first. *)
Definition cbEDIDModule_ParseHDMIVSDB (buf : list Z) (off : Z)
  : res (Z * CBIOS_HDMI_VSDB_EXTENTION) :=
  let v := zero_vsdb <| HDMI3DMask := 0xFFFF |> in
  let! b0 := rd buf off in
  let v := v <| VSDBLength := Z.land b0 0x1F |> <| VSDBTag := Z.shiftr b0 5 |> in
  let! v :=
    if negb (VSDBTag v =? VENDOR_SPECIFIC_DATA_BLOCK_TAG) || (VSDBLength v <? 5)
    then Ok (v <| VSDBLength := 0 |>)
    else
      let! r0 := rd buf (off + 1) in
      let! r1 := rd buf (off + 2) in
      let! r2 := rd buf (off + 3) in
      let! dataHigh := rd buf (off + 4) in
      let! dataLow := rd buf (off + 5) in
      let v := v <| RegistrationIDByte0 := r0 |> <| RegistrationIDByte1 := r1 |>
                 <| RegistrationIDByte2 := r2 |>
                 <| SourcePhyAddr := Z.lor (Z.shiftl dataHigh 8) dataLow |> in
      if VSDBLength v <=? 5 then Ok v
      else
        let! b6 := rd buf (off + 6) in
        let v := v <| SupportCaps := b6 |> in
        if VSDBLength v <=? 6 then Ok v
        else
          let! b7 := rd buf (off + 7) in
          let v := v <| MaxTMDSClock := b7 * 5 |> in
          if VSDBLength v <=? 7 then Ok v
          else
            let! b8 := rd buf (off + 8) in
            let v := v <| PresentFlags := b8 |> in
            if VSDBLength v <=? 8 then Ok v
            else vsdb_latency buf (off + 9) 8 v in
  Ok (VSDBLength v + 1, v).

(** [cbEDIDModule_ParseHFSCDS]. *)
Definition cbEDIDModule_ParseHFSCDS (buf : list Z) (off : Z) : res (Z * CBIOS_HF_SCDS_DATA) :=
  let! b0 := rd buf off in
  let d := zero_scds <| scds_Length := Z.land b0 0x1F |> <| scds_CTATag := Z.shiftr b0 5 |> in
  let! d :=
    if (scds_CTATag d =? VENDOR_SPECIFIC_DATA_BLOCK_TAG) && (7 <=? scds_Length d) then
      let! o0 := rd buf (off + 1) in
      let! o1 := rd buf (off + 2) in
      let! o2 := rd buf (off + 3) in
      Ok (d <| oui := [o0; o1; o2] |>)
    else
      let! scdb :=
        if scds_CTATag d =? CEA_EXTENDED_BLOCK_TAG then
          let! b1 := rd buf (off + 1) in Ok (b1 =? HF_SINK_CAPABILITY_DATA_BLOCK)
        else Ok false in
      if scdb && (7 <=? scds_Length d) then
        let! b1 := rd buf (off + 1) in Ok (d <| oui := [b1; 0; 0] |>)
      else Ok (d <| scds_Length := 0 |>) in
  if scds_Length d =? 0 then Ok (scds_Length d + 1, d)
  else
    let! b4 := rd buf (off + 4) in
    let! b5 := rd buf (off + 5) in
    let! b6 := rd buf (off + 6) in
    let! b7 := rd buf (off + 7) in
    let d := d <| scds_Version := b4 |> <| MaxTMDSCharacterRate := b5 * 5 |>
               <| scds_SupportCaps := b6 + Z.shiftl b7 8 |> in
    let d := if 340 <? MaxTMDSCharacterRate d
             then d <| scds_SupportCaps ::= fun c => setfield c 7 1 1 |> else d in
    Ok (scds_Length d + 1, d).

(** [cbEDIDModule_ParseAMDVSDB] (its call is compiled out). *)
Definition cbEDIDModule_ParseAMDVSDB (buf : list Z) (off : Z)
  : res (Z * CBIOS_AMD_VSDB_EXTENTION) :=
  let! b0 := rd buf off in
  let v := zero_amd <| amd_VSDBLength := Z.land b0 0x1F |> <| amd_VSDBTag := Z.shiftr b0 5 |> in
  let! v :=
    if negb (amd_VSDBTag v =? VENDOR_SPECIFIC_DATA_BLOCK_TAG) || (amd_VSDBLength v <? 8)
    then Ok (v <| amd_VSDBLength := 0 |>)
    else
      let! o0 := rd buf (off + 1) in
      let! o1 := rd buf (off + 2) in
      let! o2 := rd buf (off + 3) in
      let! ver := rd buf (off + 4) in
      let! caps := rd buf (off + 5) in
      let! mn := rd buf (off + 6) in
      let! mx := rd buf (off + 7) in
      let! vcp := rd buf (off + 8) in
      Ok (v <| IEEEOUIByte0 := o0 |> <| IEEEOUIByte1 := o1 |> <| IEEEOUIByte2 := o2 |>
            <| amd_Version := ver |> <| FreeSyncCaps := caps |>
            <| MinSupportedRefRate := mn |> <| MaxSupportedRefRate := mx |>
            <| MCCSVcpCode := vcp |>) in
  Ok (amd_VSDBLength v + 1, v).

(** ** Extended data blocks *)

Section Pool.
Variable pool : nat -> bool.

(** Y420VDB: video formats that are only available in YCbCr 4:2:0. *)
Definition ext_y420vdb (buf : list Z) (off PayloadLen : Z) (s : CBIOS_EDID_STRUCTURE_DATA)
  : res CBIOS_EDID_STRUCTURE_DATA :=
  let! '(s, _) :=
    for_up (Z.to_nat (PayloadLen - 1)) 0
      (fun i '(s, FormatVIC_) =>
         let! SVD := rd buf (off + (2 + i)) in
         let '(Status, FormatVIC_, IsNative) := cbEDIDModule_GetFmtIdxFromSVD SVD FormatVIC_ in
         if negb Status then Ok (s, FormatVIC_)
         else
           let! '(added, s) := cbEDIDModule_AddSvdFormat pool s FormatVIC_ IsNative in
           match added with
           | Some EntryIndex =>
               let! s := upd_timing s EntryIndex (fun t =>
                 t <| IsSupportYCbCr420 := 1 |> <| IsSupportOtherFormats := 0 |>) in
               Ok (s, FormatVIC_)
           | None => Ok (s, FormatVIC_)
           end)
      (s, 0) in
  Ok s.

(** One short video descriptor that also supports YCbCr 4:2:0. *)
Definition mark_y420 (SVD : Z) (st : CBIOS_EDID_STRUCTURE_DATA * Z)
  : res (CBIOS_EDID_STRUCTURE_DATA * Z) :=
  let '(s, FormatVIC_) := st in
  let '(Status, FormatVIC_, _) := cbEDIDModule_GetFmtIdxFromSVD SVD FormatVIC_ in
  if negb Status then Ok (s, FormatVIC_)
  else
    let! ex := cbEDIDModule_isSvdFormatExist s FormatVIC_ in
    match ex with
    | Some EntryIndex =>
        let! s := upd_timing s EntryIndex (fun t =>
          t <| IsSupportYCbCr420 := 1 |> <| IsSupportOtherFormats := 1 |>) in
        Ok (s, FormatVIC_)
    | None => Ok (s, FormatVIC_)
    end.

(** Y420CMDB: a bit map over the short video descriptors of the block. *)
Definition ext_y420cmdb (buf : list Z) (off PayloadLen BlockIndex : Z)
    (s : CBIOS_EDID_STRUCTURE_DATA) : res CBIOS_EDID_STRUCTURE_DATA :=
  let pSVDData := rd (SVDData (Attribute s)) (BlockIndex - 1) in
  let! '(s, _) :=
    if PayloadLen =? 1 then
      let! d := pSVDData in
      for_up (Z.to_nat (SVDCount d)) 0
        (fun i st => let! svd := rd (SVD d) i in mark_y420 svd st) (s, 0)
    else
      let! '(st, _) :=
        for_up (Z.to_nat (PayloadLen - 1)) 0
          (fun i '(st, Step) =>
             let! YCbCr420CapMap := rd buf (off + (2 + i)) in
             let! st :=
               for_up 8 0
                 (fun j st =>
                    if negb (Z.land (Z.shiftr YCbCr420CapMap j) 0x1 =? 0) then
                      let! d := pSVDData in
                      if j + Step <? SVDCount d then
                        let! svd := rd (SVD d) (j + Step) in mark_y420 svd st
                      else Ok st
                    else Ok st) st in
             Ok (st, u8 (Step + 8)))
          ((s, 0), 0) in
      Ok st in
  Ok s.

(** VFPDB: the preferred video formats. *)
Definition ext_vfpdb (buf : list Z) (off PayloadLen : Z) (refs : list CBIOS_SVR_DESC)
  : res (list CBIOS_SVR_DESC) :=
  for_up (Z.to_nat (PayloadLen - 1)) 0
    (fun i refs =>
       let! SVR := rd buf (off + (2 + i)) in
       if ((1 <=? SVR) && (SVR <=? 127)) || ((193 <=? SVR) && (SVR <=? 253)) then
         wr refs i (mkSvr SVR_FLAG_VIC SVR)
       else if (129 <=? SVR) && (SVR <=? 144) then
         wr refs i (mkSvr SVR_FLAG_DTD_INDEX (SVR - 128))
       else Ok refs) refs.

(** The HDMI audio data block. *)
Definition ext_hdmi_audio (buf : list Z) (off : Z) (d : CBIOS_HDMI_3D_AUDIO_DATA)
  : res CBIOS_HDMI_3D_AUDIO_DATA :=
  let! b2 := rd buf (off + 2) in
  let! b3 := rd buf (off + 3) in
  let d := d <| MaxStreamCount := Z.land b2 0x3 |>
             <| SupportsMSNonMixed := Z.land (Z.shiftr b2 2) 0x1 |>
             <| NumHDMI3DAD := Z.land b3 0x7 |> in
  let! descs :=
    for_up (Z.to_nat (NumHDMI3DAD d)) 0
      (fun i descs =>
         let! a := rd descs i in
         let! c0 := rd buf (off + (4 + i * 4)) in
         let AudioFormatCode := Z.land c0 0xF in
         let! c1 := rd buf (off + (4 + i * 4 + 1)) in
         let! c2 := rd buf (off + (4 + i * 4 + 2)) in
         let! c3 := rd buf (off + (4 + i * 4 + 3)) in
         let a := a <| Format := AudioFormatCode |> <| MaxChannelNum := Z.land c1 0x1F + 1 |>
                    <| SampleRateUnit := Z.land c2 0x7F |> in
         wr descs i (set_audio_detail AudioFormatCode c3 a))
      (HDMI3DAudioDesc d) in
  Ok (d <| HDMI3DAudioDesc := descs |>).

(** The InfoFrame data block; the loop state is ([Index], [SupportPriority],
    [caps]), and [Priority] is a one-bit field. *)
Definition ext_infoframe (buf : list Z) (off PayloadLen : Z) (a : CBIOS_MONITOR_MISC_ATTRIB)
  : res CBIOS_MONITOR_MISC_ATTRIB :=
  let! b2 := rd buf (off + 2) in
  let Len := Z.land (Z.shiftr b2 5) 0x7 in
  let! b3 := rd buf (off + 3) in
  let a := a <| NumOfAdditionalVSIFs := b3 |> in
  let! caps :=
    iterate 32
      (fun '(Index, SupportPriority, caps) =>
         if Index <? PayloadLen then
           let! SIDHeader := rd buf (off + Index) in
           let Index := u8 (Index + 1) in
           let Len := Z.land (Z.shiftr SIDHeader 5) 0x7 in
           let TypeCode := Z.land SIDHeader 0x1F in
           let c := mkIfc 1 (Z.land SupportPriority 1) in
           let! '(Index, caps) :=
             if TypeCode =? VENDOR_SPECIFIC_INFO_FRAME_TYPE then
               let! hdmi := bytes_are buf (off + (Index + 1)) [0x03; 0x0c; 0x00] in
               if hdmi : bool then
                 Ok (u8 (Index + 3), caps <| HDMISpecificInfoFrameCaps := c |>)
               else
                 let! hf := bytes_are buf (off + (Index + 1)) [0xD8; 0x5D; 0xC4] in
                 Ok (u8 (Index + 3), if hf : bool then caps <| HFSpecificInfoFrameCaps := c |> else caps)
             else if TypeCode =? AVI_INFO_FRAME_TYPE then
               Ok (Index, caps <| AVIInfoFrameCaps := c |>)
             else if TypeCode =? SOURCE_PRODUCT_DESCRIPTION_INFO_FRAME_TYPE then
               Ok (Index, caps <| SourceProductDescInfoFrameCaps := c |>)
             else if TypeCode =? AUDIO_INFO_FRAME_TYPE then
               Ok (Index, caps <| AudioInfoFrameCaps := c |>)
             else if TypeCode =? MPEG_SOURCE_INFO_FRAME_TYPE then
               Ok (Index, caps <| MpegSourceInfoFrameCaps := c |>)
             else if TypeCode =? NTSC_VBI_INFO_FRAME_TYPE then
               Ok (Index, caps <| NTSCVBIInfoFrameCaps := c |>)
             else Ok (Index, caps) in
           Ok (inl (u8 (Index + Len), u8 (SupportPriority + 1), caps))
         else Ok (inr caps))
      (u8 (4 + Len), 0, InfoFrameSupCaps a) in
  Ok (a <| InfoFrameSupCaps := caps |>).

(** An update of one entry of [ExtDataBlock]. *)
Definition upd_ext (s : CBIOS_EDID_STRUCTURE_DATA) (tag : Z)
    (f : CBIOS_CEA_EXTENED_BLOCK -> res CBIOS_CEA_EXTENED_BLOCK) : res CBIOS_EDID_STRUCTURE_DATA :=
  let! e := rd (ExtDataBlock (Attribute s)) tag in
  let! e := f e in
  let! l := wr (ExtDataBlock (Attribute s)) tag e in
  Ok (s <| Attribute ::= fun a => a <| ExtDataBlock := l |> |>).

(** [cbEDIDModule_ParseCEAExtBlock]. *)
Definition cbEDIDModule_ParseCEAExtBlock (buf : list Z) (off : Z)
    (s : CBIOS_EDID_STRUCTURE_DATA) (BlockIndex : Z) : res (Z * CBIOS_EDID_STRUCTURE_DATA) :=
  let! b0 := rd buf off in
  if negb (Z.land (Z.shiftr b0 5) 0x07 =? CEA_EXTENDED_BLOCK_TAG) || (Z.land b0 0x1F =? 0)
  then Ok (0 + 1, s)
  else
    let PayloadLen := Z.land b0 0x1F in
    let! ExtTagCode := rd buf (off + 1) in
    if ExtTagCode =? VIDEO_CAPABILITY_DATA_BLOCK_TAG then
      let! s := upd_ext s VIDEO_CAPABILITY_DATA_BLOCK_TAG (fun e =>
        let! d := memcpy (VideoCapabilityData e) 0 buf (off + 2) 1 in
        Ok (e <| VideoCapabilityData := d |>)) in
      Ok (PayloadLen + 1, s)
    else if ExtTagCode =? VENDOR_SPECIFIC_VIDEO_DATA_BLOCK_TAG then Ok (PayloadLen + 1, s)
    else if ExtTagCode =? COLORIMETRY_DATA_BLOCK_TAG then
      let! s := upd_ext s COLORIMETRY_DATA_BLOCK_TAG (fun e =>
        let! d := memcpy (ColorimetryData e) 0 buf (off + 2) 2 in
        Ok (e <| ColorimetryData := d |>)) in
      Ok (PayloadLen + 1, s)
    else if ExtTagCode =? HDR_STATIC_META_DATA_BLOCK then
      if 6 <? PayloadLen then Ok (PayloadLen + 1, s)
      else
        let! s := upd_ext s HDR_STATIC_META_DATA_BLOCK (fun e =>
          let! d := memcpy (HDRStaticMetaData e) 0 buf (off + 2) (PayloadLen - 1) in
          Ok (e <| HDRStaticMetaData := d |>)) in
        Ok (PayloadLen + 1, s)
    else if ExtTagCode =? VIDEO_FMT_PREFERENCE_DATA_BLOCK then
      let! refs := ext_vfpdb buf off PayloadLen (ShortVideoRef (Attribute s)) in
      Ok (PayloadLen + 1, s <| Attribute ::= fun a => a <| ShortVideoRef := refs |> |>)
    else if ExtTagCode =? YCBCR420_VIDEO_DATA_BLOCK then
      let! s := ext_y420vdb buf off PayloadLen s in Ok (PayloadLen + 1, s)
    else if ExtTagCode =? YCBCR420_CAP_MAP_DATA_BLOCK then
      let! s := ext_y420cmdb buf off PayloadLen BlockIndex s in Ok (PayloadLen + 1, s)
    else if ExtTagCode =? VENDOR_SPECIFIC_AUDIO_DATA_BLOCK_TAG then Ok (PayloadLen + 1, s)
    else if ExtTagCode =? RSVD_HDMI_AUDIO_DATA_BLOCK_TAG then
      let! s := upd_ext s RSVD_HDMI_AUDIO_DATA_BLOCK_TAG (fun e =>
        let! d := ext_hdmi_audio buf off (HDMIAudioData e) in
        Ok (e <| HDMIAudioData := d |>)) in
      Ok (PayloadLen + 1, s)
    else if ExtTagCode =? INFOFRAME_DATA_BLOCK then
      let! a := ext_infoframe buf off PayloadLen (Attribute s) in
      Ok (PayloadLen + 1, s <| Attribute := a |>)
    else if ExtTagCode =? HF_EDID_EXTENSION_OVERRIDE_DATA_BLOCK then Ok (PayloadLen + 1, s)
    else if ExtTagCode =? HF_SINK_CAPABILITY_DATA_BLOCK then
      let! '(len, d) := cbEDIDModule_ParseHFSCDS buf off in
      Ok (len - 1 + 1, s <| Attribute ::= fun a => a <| HFSCDSData := d |> |>)
    else Ok (PayloadLen + 1, s).

(** [cbEDIDModule_GetHDMIVICMode]: the extended HDMI formats of the VSDB. *)
Definition cbEDIDModule_GetHDMIVICMode (s : CBIOS_EDID_STRUCTURE_DATA)
  : res CBIOS_EDID_STRUCTURE_DATA :=
  for_up (Z.to_nat (HDMIVICLen (VSDBData (Attribute s)))) 0
    (fun i s =>
       let! v := rd (HDMIVIC (VSDBData (Attribute s))) i in
       let FormatVIC_ := u16 (v + CBIOS_HDMI_NORMAL_VIC_COUNTS) in
       let! '(_, s) := cbEDIDModule_AddSvdFormat pool s FormatVIC_ false in
       Ok s) s.

(** ** DisplayID blocks *)

(** One type I / type VII descriptor at [d] of a block with the given tag. *)
Definition did_timing (buf : list Z) (d tag BlockRevision : Z)
  : res (option CBIOS_DEVICE_TIMING_INFO) :=
  let word lo hi := let! h := rd buf (d + hi) in let! l := rd buf (d + lo) in
                    Ok (u16 (Z.shiftl h 8 + l + 1)) in
  let word7 lo hi := let! h := rd buf (d + hi) in let! l := rd buf (d + lo) in
                     Ok (u16 (Z.shiftl (Z.land h 0x7F) 8 + l + 1)) in
  let! c2 := rd buf (d + 5) in
  let! c1 := rd buf (d + 4) in
  let! c0 := rd buf (d + 3) in
  let clk := u32 (Z.shiftl c2 16 + Z.shiftl c1 8 + (c0 + 1)) in
  let clk := if tag =? VIDEO_TIMING_MODES_DATA_BLOCK2_TYPE7_TAG
             then u32 (clk * 10) else u32 (clk * 100) in
  let! xres := word 7 8 in
  let! Blank := word 9 10 in
  let! SyncOffset := word7 11 12 in
  let! SyncWidth := word 13 14 in
  let! b12 := rd buf (d + 12) in
  let HSync := if negb (Z.land b12 0x80 =? 0) then HorPOSITIVE else HorNEGATIVE in
  let! yres := word 15 16 in
  let! vBlank := word 17 18 in
  let! vSyncOffset := word7 19 20 in
  let! vSyncWidth := word 21 22 in
  let! b20 := rd buf (d + 20) in
  let VSync := if negb (Z.land b20 0x80 =? 0) then VerPOSITIVE else VerNEGATIVE in
  let! opt := rd buf (d + 6) in
  let f :=
    mkTiming TIMING_ATTRIB_SIZE 0 xres yres 0 (HSync + VSync) clk
      (u16 (xres + Blank)) xres xres (u16 (xres + Blank))
      (u16 (xres + SyncOffset)) (u16 (u16 (xres + SyncOffset) + SyncWidth))
      (u16 (yres + vBlank)) yres yres (u16 (yres + vBlank))
      (u16 (yres + vSyncOffset)) (u16 (u16 (yres + vSyncOffset) + vSyncWidth)) in
  if (xres =? 0) || (yres =? 0) then Ok None
  else
    let rr := cbCalcRefreshRate clk (HorTotal f) (VerTotal f) in
    let f := f <| RefreshRate := u16 (100 * cbRound rr 100 ROUND_NEAREST) |> in
    let t := zero_dti <| TimingType := CBIOS_DISP_ID_TIMING |> <| FullTiming := f |>
               <| IsInterLaced := if negb (Z.land opt 0x10 =? 0) then 1 else 0 |> in
    let t :=
      if BlockRevision <? 2 then
        if negb (Z.land opt 0x80 =? 0) then t <| IsPreferMode := 1 |> else t
      else if BlockRevision =? 2 then
        if negb (Z.land opt 0x80 =? 0) then t <| IsSupportYCbCr420 := 1 |> else t
      else t in
    let SteroSupport := Z.shiftr (Z.land opt 0x60) 5 in
    let t := t <| AspectRatio := Z.land opt 0xF |> in
    Ok (Some (if SteroSupport =? 0 then t <| IsSupportMono := 1 |>
              else if SteroSupport =? 1 then t <| IsSupportStereo := 1 |>
              else if SteroSupport =? 2 then
                t <| IsSupportMono := 1 |> <| IsSupportStereo := 1 |>
              else t)).

(** [cbEDIDModule_GetDisplayIDTiming]: a block of such descriptors at [off]. *)
Definition cbEDIDModule_GetDisplayIDTiming (buf : list Z) (off : Z)
    (s : CBIOS_EDID_STRUCTURE_DATA) : res (Z * CBIOS_EDID_STRUCTURE_DATA) :=
  let! b1 := rd buf (off + 1) in
  let BlockRevision := Z.land b1 7 in
  let! PayloadLen := rd buf (off + 2) in
  let! tag := rd buf off in
  let DescriptorLen := DID_TYPE1_TIMING_DESCRIPTOR_LENGTH in
  let DescriptorLen :=
    if tag =? VIDEO_TIMING_MODES_DATA_BLOCK2_TYPE7_TAG then
      if (BlockRevision =? 1) || (BlockRevision =? 2)
      then DescriptorLen + Z.shiftr (Z.land b1 0x70) 4 else DescriptorLen
    else DescriptorLen in
  if DescriptorLen =? 0 then Ok (0, s)
  else
    let! n := udiv PayloadLen DescriptorLen in
    for_up (Z.to_nat n) 0
      (fun i '(num, s) =>
         let! t := did_timing buf (off + i * DescriptorLen) tag BlockRevision in
         match t with
         | None => Ok (num, s)
         | Some t =>
             let! valid := cbEDIDModule_ValidateTiming s t in
             if negb valid then Ok (num, s)
             else
               let! '(added, s) := cbEDIDModule_AddDeviceTiming pool s t in
               Ok (if added : bool then u32 (num + 1) else num, s)
         end)
      (0, s).

(** ** The extension blocks *)

Definition cbEDIDModule_GetExtBlockNum (pEDID : list Z) : res Z :=
  let! flag := rd pEDID 0x7E in
  if flag =? 0 then Ok 0
  else
    let! b84 := rd pEDID 0x84 in
    let! eeodb :=
      if Z.shiftr b84 5 =? CEA_EXTENDED_BLOCK_TAG then
        let! b85 := rd pEDID 0x85 in Ok (b85 =? HF_EDID_EXTENSION_OVERRIDE_DATA_BLOCK)
      else Ok false in
    if eeodb : bool then rd pEDID 0x86 else rd pEDID 0x7E.

Definition cbEDIDModule_GetTotalBlockNum (pEdidData : CBIOS_EDID_DATA) : Z :=
  match Buffer pEdidData with
  | None => 0
  | Some _ => BufferSize pEdidData / EDID_BLK_SIZE
  end.

(** One data block at index [i] of the extension block at [blk]. *)
Definition cea_data_block (buf : list Z) (blk i BlockIndex : Z) (s : CBIOS_EDID_STRUCTURE_DATA)
  : res CBIOS_EDID_STRUCTURE_DATA :=
  let! b := rd buf (blk + i) in
  let TagCode := Z.land (Z.shiftr b 5) 0x07 in
  if TagCode =? AUDIO_DATA_BLOCK_TAG then
    let! '(_, s) := cbEDIDModule_GetHDMIAudioFormat buf (blk + i) s in Ok s
  else if TagCode =? VIDEO_DATA_BLOCK_TAG then
    cbEDIDModule_GetSVDMode pool buf (blk + i) s BlockIndex
  else if TagCode =? VENDOR_SPECIFIC_DATA_BLOCK_TAG then
    let! hdmi := bytes_are buf (blk + (i + 1)) [0x03; 0x0c; 0x00] in
    if hdmi : bool then
      let! '(_, v) := cbEDIDModule_ParseHDMIVSDB buf (blk + i) in
      Ok (s <| Attribute ::= fun a => a <| VSDBData := v |> |>)
    else
      let! hf := bytes_are buf (blk + (i + 1)) [0xD8; 0x5D; 0xC4] in
      if hf : bool then
        let! '(_, d) := cbEDIDModule_ParseHFSCDS buf (blk + i) in
        Ok (s <| Attribute ::= fun a => a <| HFSCDSData := d |> |>)
      else Ok s
  else if TagCode =? CEA_EXTENDED_BLOCK_TAG then
    let! '(_, s) := cbEDIDModule_ParseCEAExtBlock buf (blk + i) s BlockIndex in Ok s
  else Ok s.

(** The loop over the data blocks: [i] is a byte. *)
Definition cea_data_blocks (buf : list Z) (blk DtlTimingOffset BlockIndex : Z)
    (s : CBIOS_EDID_STRUCTURE_DATA) : res CBIOS_EDID_STRUCTURE_DATA :=
  iterate 128
    (fun '(i, s) =>
       if i <? DtlTimingOffset then
         let! b := rd buf (blk + i) in
         let! s := cea_data_block buf blk i BlockIndex s in
         Ok (inl (u8 (i + (Z.land b 0x1F + 1)), s))
       else Ok (inr s))
    (4, s).

(** [cbEDIDModule_GetCEA861Mode]. *)
Definition cbEDIDModule_GetCEA861Mode (pEdidData : CBIOS_EDID_DATA)
    (s : CBIOS_EDID_STRUCTURE_DATA) : res (Z * CBIOS_EDID_STRUCTURE_DATA) :=
  let ModeNumOld := TimingNum s in
  let TotalBlocks := cbEDIDModule_GetTotalBlockNum pEdidData in
  let! s :=
    for_up (Z.to_nat (TotalBlocks - 1)) 1
      (fun BlockIndex s =>
         let! buf := deref (Buffer pEdidData) in
         let blk := BlockIndex * EDID_BLK_SIZE in
         let! tag := rd buf (blk + 0x00) in
         if negb (tag =? CEA_TAG) then Ok s
         else
           let! DtlTimingOffset := rd buf (blk + 0x02) in
           if (DtlTimingOffset =? 0) || (EDID_BLK_SIZE <=? DtlTimingOffset) then Ok s
           else
             let! '(_, s) := cbEDIDModule_GetCEADetailedMode pool buf blk DtlTimingOffset s in
             cea_data_blocks buf blk DtlTimingOffset BlockIndex s)
      s in
  let! s := cbEDIDPatchHDMIAudio s in
  let! s := cbEDIDModule_GetHDMIVICMode s in
  Ok (u32 (TimingNum s - ModeNumOld), s).

(** [cbEDIDModule_GetDisplayIDMode]. *)
Definition cbEDIDModule_GetDisplayIDMode (pEdidData : CBIOS_EDID_DATA)
    (s : CBIOS_EDID_STRUCTURE_DATA) : res (Z * CBIOS_EDID_STRUCTURE_DATA) :=
  let TotalBlocks := cbEDIDModule_GetTotalBlockNum pEdidData in
  for_up (Z.to_nat (TotalBlocks - 1)) 1
    (fun BlockIndex '(ulModeNum, s) =>
       let! buf := deref (Buffer pEdidData) in
       let blk := BlockIndex * 128 in
       let! tag := rd buf (blk + 0x00) in
       if negb (tag =? DISPLAYID_TAG) then Ok (ulModeNum, s)
       else
         let! size := rd buf (blk + 2) in
         if size =? 0 then Ok (ulModeNum, s)
         else
           iterate 128
             (fun '(i, ulModeNum, s) =>
                if i <? 126 then
                  let! t := rd buf (blk + i) in
                  let! '(ulModeNum, s) :=
                    if (t =? VIDEO_TIMING_MODES_DATA_BLOCK_TYPE1_TAG) ||
                       (t =? VIDEO_TIMING_MODES_DATA_BLOCK2_TYPE7_TAG)
                    then
                      let! '(n, s) := cbEDIDModule_GetDisplayIDTiming buf (blk + i) s in
                      Ok (u32 (ulModeNum + n), s)
                    else Ok (ulModeNum, s) in
                  let! PayloadLength := rd buf (blk + (i + 2)) in
                  Ok (inl (u32 (i + (PayloadLength + 3)), ulModeNum, s))
                else Ok (inr (ulModeNum, s)))
             (5, ulModeNum, s))
    (0, s).
End Pool.

(** ** The decoders do not fault *)

Lemma GetHDMIAudioFormat_wp B buf off s :
  st_ok B s -> 0 <= off < zlen buf ->
  (forall b, rd buf off = Ok b -> off + Z.land b 0x1F < zlen buf) ->
  wp (cbEDIDModule_GetHDMIAudioFormat buf off s) (fun '(_, s') => st_ok B s').
Proof.
  intros H Ho HL. unfold cbEDIDModule_GetHDMIAudioFormat, CBIOS_HDMI_AUDIO_FORMAT_COUNTS.
  apply wp_bind, wp_rd; [done|]. intros b0 Hb0. specialize (HL _ Hb0).
  pose proof (land_le_r b0 0x1F ltac:(lia)). set (L := Z.land b0 31) in *.
  destruct (st_audio _ _ H) as [Hal Han].
  assert (Hdiv : 0 <= L / 3 <= 10 /\ 3 * (L / 3) <= L) by dlia.
  apply wp_bind, wp_iterate with
    (I := fun '(j, num, fmts) => 0 <= j <= L / 3 /\ 0 <= num <= 16 /\ zlen fmts = 16)
    (m := fun '(j, _, _) => Z.to_nat (11 - j)).
  - split; [lia|]. split; [lia|done].
  - cbn. lia.
  - intros [[j num] fmts] (Hj & Hn & Hf). cbn beta iota.
    destruct (Z.ltb_spec j (L / 3)), (Z.leb_spec 16 num); cbn [negb orb].
    1,3,4: cbn; destruct H as [S1 S2 S3]; constructor; [exact S1|exact S2|by constructor].
    wp_go; autorewrite with cx; lia.
Qed.

Lemma PatchHDMIAudio_wp B s :
  st_ok B s -> wp (cbEDIDPatchHDMIAudio s) (st_ok B).
Proof.
  intros H. destruct (st_audio _ _ H) as [Hal Han]. unfold cbEDIDPatchHDMIAudio.
  wp_step; [done|]. apply wp_bind, wp_scan; [lia|]. intros [i|] _; [done|]. cbn zeta.
  assert (Hdone : forall n fmts, zlen fmts = 16 -> 0 <= n <= 16 ->
    st_ok B (s <| HDAudioFormatNum := n |> <| HDAudioFormat := fmts |>)).
  { intros n fmts ? ?. destruct H as [S1 S2 S3]. constructor; [exact S1|exact S2|by constructor]. }
  destruct (Z.leb_spec CBIOS_HDMI_AUDIO_FORMAT_COUNTS (HDAudioFormatNum s));
    unfold CBIOS_HDMI_AUDIO_FORMAT_COUNTS in *; cbn; wp_go.
  - specialize (Hdone (HDAudioFormatNum s)). apply Hdone; autorewrite with cx; lia.
  - refine (Hdone (HDAudioFormatNum s + 1) _ _ _); autorewrite with cx; lia.
Qed.

(** ** How far a data block is read

    The positions behind the last byte that the decoders read. [L] is the payload
    length of the block. *)
Definition edid_byte (buf : list Z) (i : Z) : Z := match rd buf i with Ok b => b | Err _ => 0 end.

(** The video part of an HDMI vendor block, [P] payload bytes being consumed: the flags,
    the lengths, the formats, the 3D masks and the 3D formats, as far as [L] tells. The 3D
    formats are read to their own length, whatever [L] is, and a detail byte may follow. *)
Definition video_reach (buf : list Z) (cur P L : Z) : Z :=
  let lens := edid_byte buf (cur + 1) in
  let vics := Z.land (Z.shiftr lens 5) 0x07 in
  let mult := Z.land (Z.shiftr (edid_byte buf cur) 5) 3 in
  let masks := if mult =? 1 then 2 else if mult =? 2 then 4 else 0 in
  let formats := Z.land lens 0x1F in
  if L <=? P + 1 then cur + 1
  else if L <=? P + 2 then cur + 2
  else if L <=? P + 2 + vics then cur + 2 + vics
  else if negb (masks =? 0) && (L <=? P + 2 + vics + masks) || (formats <=? masks) then cur + 2 + vics + masks
  else cur + 2 + vics + formats + 1.

(** The latencies and the video part, by the flags that announce them. *)
Definition video_part (buf : list Z) (flags cur P L : Z) : Z :=
  if bit flags 5 =? 0 then cur else video_reach buf cur P L.
Definition interlaced_part (buf : list Z) (flags cur P L : Z) : Z :=
  if bit flags 6 =? 0 then video_part buf flags cur P L
  else if L <=? P + 2 then cur + 2 else video_part buf flags (cur + 2) (P + 2) L.
Definition latency_part (buf : list Z) (flags cur P L : Z) : Z :=
  if bit flags 7 =? 0 then interlaced_part buf flags cur P L
  else if L <=? P + 2 then cur + 2 else interlaced_part buf flags (cur + 2) (P + 2) L.

Definition vsdb_reach (buf : list Z) (off L : Z) : Z :=
  if L <=? 8 then off + L + 1 else latency_part buf (edid_byte buf (off + 8)) (off + 9) 8 L.

(** An extended block: some have their fixed length or that of their descriptors,
    whatever [L] is, and an InfoFrame block is read up to three bytes behind its end. *)
Definition ext_reach (buf : list Z) (off L : Z) : Z :=
  let code := edid_byte buf (off + 1) in
  if code =? VIDEO_CAPABILITY_DATA_BLOCK_TAG then off + 3
  else if code =? COLORIMETRY_DATA_BLOCK_TAG then off + 4
  else if code =? RSVD_HDMI_AUDIO_DATA_BLOCK_TAG then off + 4 + 4 * Z.land (edid_byte buf (off + 3)) 0x7
  else if code =? INFOFRAME_DATA_BLOCK then off + L + 4
  else off + L + 1.

(** The data block at [off]: its payload and what is read behind it. *)
Definition block_reach (buf : list Z) (off : Z) : Z :=
  let b := edid_byte buf off in
  let L := Z.land b 0x1F in
  let tag := Z.land (Z.shiftr b 5) 0x07 in
  Z.max (off + L + 1)
    (if tag =? VENDOR_SPECIFIC_DATA_BLOCK_TAG then
       match bytes_are buf (off + 1) [0x03; 0x0c; 0x00] with
       | Ok true => Z.max (off + 4) (vsdb_reach buf off L)
       | _ => off + 4
       end
     else if (tag =? CEA_EXTENDED_BLOCK_TAG) && negb (L =? 0) then ext_reach buf off L
     else 0).

(** The 3D formats: at most one per payload byte, and a detail byte. *)
Lemma vsdb_3d_formats_wp buf cur n fmts :
  0 <= cur -> n <= 31 -> (0 < n -> cur + n + 1 <= zlen buf) -> zlen fmts = 31 ->
  wp (vsdb_3d_formats buf cur n fmts) (fun '(c, f) => 0 <= c <= 31 /\ zlen f = 31).
Proof.
  intros Hc Hn Hl Hf. unfold vsdb_3d_formats.
  apply wp_iterate with
    (I := fun '(i, count, cu, f) => 0 <= count <= i /\ i <= 32 /\ count <= 31 /\ cu = cur + i /\ zlen f = 31)
    (m := fun '(i, _, _, _) => Z.to_nat (31 - i)).
  - repeat split; lia.
  - cbn. lia.
  - intros [[[i count] cu] f] (Hi & Hi2 & Hco & -> & Hlf). cbn beta iota.
    destruct (Z.ltb_spec i n); [|cbn; lia].
    wp_go; autorewrite with cx; lia.
Qed.

(** Updates that touch none of the constrained fields keep [vsdb_ok]. *)
Lemma vsdb_ok_same v v' :
  vsdb_ok v -> HDMIVICLen v' = HDMIVICLen v -> HDMIVIC v' = HDMIVIC v ->
  HDMI3DForamt v' = HDMI3DForamt v -> HDMI3DFormatCount v' = HDMI3DFormatCount v -> vsdb_ok v'.
Proof. intros [] E1 E2 E3 E4. constructor; rewrite ?E1, ?E2, ?E3, ?E4; done. Qed.

Ltac vsdb_keep H := refine (vsdb_ok_same _ _ H _ _ _ _); reflexivity.

(** The 3D formats and what follows the VICs. *)
Lemma vsdb_formats_wp buf v cur n :
  vsdb_ok v -> 0 <= cur -> (0 < n <= HDMI3DLen v -> cur + n + 1 <= zlen buf) -> HDMI3DLen v <= 31 ->
  wp (if HDMI3DLen v <? n then Ok v
      else let! '(count, fmts) := vsdb_3d_formats buf cur n (HDMI3DForamt v) in
           Ok (v <| HDMI3DForamt := fmts |> <| HDMI3DFormatCount := count |>)) vsdb_ok.
Proof.
  intros H Hc Hl H3. destruct (Z.ltb_spec (HDMI3DLen v) n); [done|].
  apply wp_bind. eapply wp_mono; [apply vsdb_3d_formats_wp; [done|lia|lia|apply H]|].
  intros [c f] [Hcc Hf]. cbn. destruct H as [S1 S2 S3 S4 S5]. constructor; cbn; done.
Qed.

Lemma edid_byte_rd buf i b : rd buf i = Ok b -> edid_byte buf i = b.
Proof. unfold edid_byte. by intros ->. Qed.

(** The length of the block is that of [v]. *)
Ltac vsdb_length v :=
  match goal with |- context [VSDBLength ?w <=? _] => change (VSDBLength w) with (VSDBLength v) end.

(** The 3D masks and formats, behind the VICs, at [q], of which the payload reaches to [P]. *)
Lemma vsdb_masks_wp buf v q P :
  vsdb_ok v -> 0 <= q -> 0 <= HDMI3DLen v <= 31 ->
  (let masks := if HDMI3DMultiPresent v =? 1 then 2 else if HDMI3DMultiPresent v =? 2 then 4 else 0 in
   (if negb (masks =? 0) && (VSDBLength v <=? P + masks) || (HDMI3DLen v <=? masks) then q + masks
    else q + HDMI3DLen v + 1) <= zlen buf) ->
  let formats v cur PayloadLen HDMI3DFormatLength :=
    if HDMI3DLen v <? HDMI3DFormatLength then Ok v
    else
      let! '(count, fmts) := vsdb_3d_formats buf cur HDMI3DFormatLength (HDMI3DForamt v) in
      Ok (v <| HDMI3DForamt := fmts |> <| HDMI3DFormatCount := count |>) in
  wp (if HDMI3DMultiPresent v =? 0x01 then
        let! dataHigh := rd buf q in
        let! dataLow := rd buf (q + 1) in
        let v := v <| HDMI3DStructAll := Z.lor (Z.shiftl dataHigh 8) dataLow |> <| HDMI3DMask := 0xFFFF |> in
        if VSDBLength v <=? P + 2 then Ok v else formats v (q + 2) (P + 2) (u32 (HDMI3DLen v - 2))
      else if HDMI3DMultiPresent v =? 0x02 then
        let! dataHigh := rd buf q in
        let! dataLow := rd buf (q + 1) in
        let v := v <| HDMI3DStructAll := Z.lor (Z.shiftl dataHigh 8) dataLow |> in
        let! dataHigh := rd buf (q + 2) in
        let! dataLow := rd buf (q + 3) in
        let v := v <| HDMI3DMask := Z.lor (Z.shiftl dataHigh 8) dataLow |> in
        if VSDBLength v <=? P + 4 then Ok v else formats v (q + 4) (P + 4) (u32 (HDMI3DLen v - 4))
      else
        let v := v <| HDMI3DStructAll := 0x0000 |> <| HDMI3DMask := 0xFFFF |> in
        formats v q P (HDMI3DLen v)) vsdb_ok.
Proof.
  cbn zeta. intros H Hq HD Hr.
  assert (Hw : forall m, u32 (HDMI3DLen v - m) <= HDMI3DLen v -> 0 <= m <= 4 -> u32 (HDMI3DLen v - m) = HDMI3DLen v - m).
  { intros m Hle Hm. destruct (Z.le_gt_cases m (HDMI3DLen v)); [apply wrap_small; unfold fits; lia|].
    revert Hle. unfold u32, wrap. dlia. }
  destruct (Z.eqb_spec (HDMI3DMultiPresent v) 1) as [E1|E1]; [|destruct (Z.eqb_spec (HDMI3DMultiPresent v) 2) as [E2|E2]];
    cbn [Z.eqb negb andb] in Hr.
  - assert (q + 2 <= zlen buf) by (destruct (_ || _) eqn:E in Hr; [lia|]; apply orb_false_iff in E as [_ E]; lia).
    do 4 wp_step. cbn zeta. vsdb_length v. destruct (Z.leb_spec (VSDBLength v) (P + 2)) as [Hs|Hs]; [vsdb_keep H|].
    apply vsdb_formats_wp; [vsdb_keep H|lia| |apply HD]. 
    enough (K : 0 < u32 (HDMI3DLen v - 2) <= HDMI3DLen v -> q + 2 + u32 (HDMI3DLen v - 2) + 1 <= zlen buf) by exact K.
    intros [Hn Hle].
    rewrite (Hw 2 Hle) in Hn |- * by lia. cbn [orb] in Hr.
    destruct (Z.leb_spec (HDMI3DLen v) 2); lia.
  - assert (q + 4 <= zlen buf) by (destruct (_ || _) eqn:E in Hr; [lia|]; apply orb_false_iff in E as [_ E]; lia).
    do 8 wp_step. cbn zeta. vsdb_length v. destruct (Z.leb_spec (VSDBLength v) (P + 4)) as [Hs|Hs]; [vsdb_keep H|].
    apply vsdb_formats_wp; [vsdb_keep H|lia| |apply HD]. 
    enough (K : 0 < u32 (HDMI3DLen v - 4) <= HDMI3DLen v -> q + 4 + u32 (HDMI3DLen v - 4) + 1 <= zlen buf) by exact K.
    intros [Hn Hle].
    rewrite (Hw 4 Hle) in Hn |- * by lia. cbn [orb] in Hr.
    destruct (Z.leb_spec (HDMI3DLen v) 4); lia.
  - apply vsdb_formats_wp; [vsdb_keep H|lia| |apply HD]. 
    enough (K : 0 < HDMI3DLen v <= HDMI3DLen v -> q + HDMI3DLen v + 1 <= zlen buf) by exact K. intros [Hn _].
    cbn [orb] in Hr. destruct (Z.leb_spec (HDMI3DLen v) 0); lia.
Qed.

Lemma vsdb_video_wp buf cur p v :
  vsdb_ok v -> 0 <= cur -> video_reach buf cur p (VSDBLength v) <= zlen buf -> wp (vsdb_video buf cur p v) vsdb_ok.
Proof.
  intros H Hc Hr. unfold video_reach in Hr. cbn zeta in Hr. unfold vsdb_video.
  set (lens := edid_byte buf (cur + 1)) in *. set (flags := edid_byte buf cur) in *.
  pose proof (land_le_r lens 0x1F ltac:(lia)) as H3l. pose proof (land_le_r (Z.shiftr lens 5) 0x07 ltac:(lia)) as Hvl.
  set (vics := Z.land (Z.shiftr lens 5) 7) in *. set (D := Z.land lens 31) in *. set (L := VSDBLength v) in *.
  set (masks := if _ =? 1 then 2 else _) in Hr.
  assert (Hm : 0 <= masks <= 4) by (unfold masks; destruct (_ =? 1); [lia|]; destruct (_ =? 2); lia).
  assert (cur + 1 <= zlen buf) by (clearbody masks vics; repeat case_match; lia).
  wp_step. wp_step. apply edid_byte_rd in Hx as Hfl. fold flags in Hfl. cbn zeta.
  vsdb_length v. fold L. destruct (Z.leb_spec L (p + 1)) as [|Hs1]; [vsdb_keep H|].
  assert (cur + 2 <= zlen buf) by (clearbody masks vics; repeat case_match; lia).
  wp_step. wp_step. apply edid_byte_rd in Hx0 as Hle. fold lens in Hle. rewrite <- Hle, <- Hfl. fold D vics.
  set (v1 := _ <| HDMIVICLen := _ |>).
  assert (Hv1 : vsdb_ok v1) by (destruct H as [S1 S2 S3 S4 S5]; constructor; done).
  assert (Hk1 : HDMI3DLen v1 = D /\ HDMIVICLen v1 = vics /\ VSDBLength v1 = L /\ HDMI3DPresentFlags v1 = flags) by done.
  clearbody v1. clear H. destruct Hk1 as (E1 & E2 & E3 & E4). rewrite E3. replace (p + 1 + 1) with (p + 2) by lia.
  destruct (Z.leb_spec L (p + 2)) as [|Hs2]; [done|].
  assert (cur + 2 + vics <= zlen buf) by (clearbody masks vics; repeat case_match; lia).
  wp_step. rewrite E2.
  apply wp_for_up with (I := fun j '(cu, cnt, vs) => cu = cur + 1 + 1 + j /\ 0 <= cnt <= j /\
      zlen vs = 7 /\ Forall (fun x => 0 <= x <= CBIOS_HDMI_EXTENED_VIC_COUNTS) vs).
  { destruct Hv1. split; [lia|]. split; [lia|]. done. }
  { intros j [[cu cnt] vs] Hj (-> & Hcnt & Hlv & Hfv). wp_go; repeat split; try lia; autorewrite with cx; try done.
    apply Forall_insert; [done|]. lia. }
  intros [[cu cnt] vs] (-> & Hcnt & Hlv & Hfv).
  replace (cur + 1 + 1 + (0 + Z.of_nat (Z.to_nat vics))) with (cur + 2 + vics) by lia.
  set (v2 := _ <| HDMIVICLen := cnt |>).
  assert (Hv2 : vsdb_ok v2) by (destruct Hv1; constructor; cbn; try done; lia).
  assert (Hk2 : HDMI3DLen v2 = D /\ VSDBLength v2 = L /\ HDMI3DPresentFlags v2 = flags) by done.
  clearbody v2. destruct Hk2 as (F1 & F2 & F3). cbn zeta. rewrite F2.
  destruct (Z.leb_spec L (p + 2 + vics)) as [|Hs3]; [done|].
  pose proof (vsdb_masks_wp buf v2 (cur + 2 + vics) (p + 2 + vics) Hv2 ltac:(lia)) as Hgo.
  unfold HDMI3DMultiPresent in *. rewrite F1, F2, F3 in Hgo. cbn zeta in Hgo. fold masks in Hgo.
  specialize (Hgo ltac:(lia) Hr). rewrite F3. exact Hgo.
Qed.

Lemma vsdb_part_wp buf flags cur p v :
  vsdb_ok v -> PresentFlags v = flags -> 0 <= cur -> video_part buf flags cur p (VSDBLength v) <= zlen buf ->
  wp (if negb (HDMIVideoPresent v =? 0) then vsdb_video buf cur p v else Ok v) vsdb_ok.
Proof.
  intros H E Hc Hr. unfold video_part in Hr. unfold HDMIVideoPresent. rewrite E.
  destruct (bit flags 5 =? 0); cbn [negb]; [done|by apply vsdb_video_wp].
Qed.

Lemma video_reach_ge buf cur p L : cur + 1 <= video_reach buf cur p L.
Proof.
  unfold video_reach. pose proof (land_le_r (edid_byte buf (cur + 1)) 0x1F ltac:(lia)).
  pose proof (land_le_r (Z.shiftr (edid_byte buf (cur + 1)) 5) 0x07 ltac:(lia)).
  cbn zeta. repeat case_match; lia.
Qed.

Lemma video_part_ge buf flags cur p L : cur <= video_part buf flags cur p L.
Proof. unfold video_part. pose proof (video_reach_ge buf cur p L). destruct (_ =? 0); lia. Qed.

Lemma interlaced_part_ge buf flags cur p L : cur <= interlaced_part buf flags cur p L.
Proof.
  unfold interlaced_part. pose proof (video_part_ge buf flags cur p L). pose proof (video_part_ge buf flags (cur + 2) (p + 2) L).
  destruct (_ =? 0); [lia|]. destruct (_ <=? _); lia.
Qed.

Lemma vsdb_latency_wp buf cur p v :
  vsdb_ok v -> 0 <= cur -> latency_part buf (PresentFlags v) cur p (VSDBLength v) <= zlen buf ->
  wp (vsdb_latency buf cur p v) vsdb_ok.
Proof.
  intros H Hc Hr. unfold vsdb_latency. cbn zeta.
  assert (Hint : forall w c q, vsdb_ok w -> PresentFlags w = PresentFlags v -> 0 <= c ->
    interlaced_part buf (PresentFlags v) c q (VSDBLength w) <= zlen buf ->
    wp (if negb (ILatencyFieldsPresent w =? 0) then
      let! a := rd buf c in
      let! b := rd buf (c + 1) in
      let w := w <| InterlacedVideoLatency := a |> <| InterlacedAudioLatency := b |> in
      if VSDBLength w <=? q + 2 then Ok w
      else if negb (HDMIVideoPresent w =? 0) then vsdb_video buf (c + 2) (q + 2) w else Ok w
    else if negb (HDMIVideoPresent (w <| InterlacedVideoLatency := 0 |> <| InterlacedAudioLatency := 0 |>) =? 0)
      then vsdb_video buf c q (w <| InterlacedVideoLatency := 0 |> <| InterlacedAudioLatency := 0 |>)
      else Ok (w <| InterlacedVideoLatency := 0 |> <| InterlacedAudioLatency := 0 |>)) vsdb_ok).
  { intros w c q Hw E Hcc Hi. unfold interlaced_part in Hi. unfold ILatencyFieldsPresent. rewrite E.
    destruct (bit (PresentFlags v) 6 =? 0); cbn [negb].
    - apply (vsdb_part_wp buf (PresentFlags v)); [vsdb_keep Hw|done|done|exact Hi].
    - pose proof (video_part_ge buf (PresentFlags v) (c + 2) (q + 2) (VSDBLength w)).
      assert (c + 2 <= zlen buf) by (destruct (_ <=? _); lia).
      do 4 wp_step. cbn zeta. vsdb_length w.
      destruct (_ <=? _); [vsdb_keep Hw|]. apply (vsdb_part_wp buf (PresentFlags v)); [vsdb_keep Hw|done|lia|exact Hi]. }
  unfold latency_part in Hr. unfold LatencyFieldsPresent. destruct (bit (PresentFlags v) 7 =? 0); cbn [negb].
  - apply Hint; [vsdb_keep H|done|done|exact Hr].
  - pose proof (interlaced_part_ge buf (PresentFlags v) (cur + 2) (p + 2) (VSDBLength v)).
    assert (cur + 2 <= zlen buf) by (destruct (_ <=? _); lia).
    do 4 wp_step. vsdb_length v.
    destruct (_ <=? _); [vsdb_keep H|]. apply Hint; [vsdb_keep H|done|lia|exact Hr].
Qed.

Lemma zero_vsdb_ok : vsdb_ok (zero_vsdb <| HDMI3DMask := 0xFFFF |>).
Proof. refine (vsdb_ok_same zero_vsdb _ _ _ _ _ _); try reflexivity. apply attr_ok_zero. Qed.

Lemma ParseHDMIVSDB_wp buf off b :
  0 <= off -> rd buf off = Ok b -> off + Z.land b 0x1F + 1 <= zlen buf -> vsdb_reach buf off (Z.land b 0x1F) <= zlen buf ->
  wp (cbEDIDModule_ParseHDMIVSDB buf off) (fun '(_, v) => vsdb_ok v).
Proof.
  intros Ho Hb Hl Hr. pose proof zero_vsdb_ok as H0. unfold cbEDIDModule_ParseHDMIVSDB.
  set (v0 := zero_vsdb <| HDMI3DMask := 65535 |>) in *. clearbody v0. cbn zeta. rewrite Hb. cbn [rbind].
  set (v1 := v0 <| VSDBLength := _ |> <| VSDBTag := _ |>).
  assert (Hv1 : vsdb_ok v1) by vsdb_keep H0. assert (E : VSDBLength v1 = Z.land b 31) by done. clearbody v1.
  rewrite <- E in *. apply wp_bind. apply wp_mono with (P := vsdb_ok); [|done].
  destruct (_ || _) eqn:E5; [vsdb_keep Hv1|]. apply orb_false_iff in E5 as [_ E5]. apply Z.ltb_ge in E5.
  do 10 wp_step. cbn zeta. vsdb_length v1. destruct (Z.leb_spec (VSDBLength v1) 5); [vsdb_keep Hv1|].
  do 2 wp_step. cbn zeta. vsdb_length v1. destruct (Z.leb_spec (VSDBLength v1) 6); [vsdb_keep Hv1|].
  do 2 wp_step. cbn zeta. vsdb_length v1. destruct (Z.leb_spec (VSDBLength v1) 7); [vsdb_keep Hv1|].
  do 2 wp_step. cbn zeta. vsdb_length v1. destruct (Z.leb_spec (VSDBLength v1) 8) as [|H8]; [vsdb_keep Hv1|].
  apply vsdb_latency_wp; [vsdb_keep Hv1|lia|]. unfold vsdb_reach in Hr. apply Z.leb_gt in H8. rewrite H8 in Hr.
  match goal with Hx : rd buf (off + 8) = Ok _ |- _ => rewrite (edid_byte_rd _ _ _ Hx) in Hr end. exact Hr.
Qed.

Lemma ParseHFSCDS_wp buf off b (Q : Z * CBIOS_HF_SCDS_DATA -> Prop) :
  0 <= off -> rd buf off = Ok b -> off + Z.land b 0x1F + 1 <= zlen buf -> off + 2 <= zlen buf -> (forall r, Q r) ->
  wp (cbEDIDModule_ParseHFSCDS buf off) Q.
Proof.
  intros Ho Hb Hl Hl2 HQ. unfold cbEDIDModule_ParseHFSCDS. rewrite Hb. cbn [rbind]. cbn zeta.
  set (L := Z.land b 31) in *.
  set (d0 := zero_scds <| scds_Length := L |> <| scds_CTATag := _ |>).
  assert (E0 : scds_Length d0 = L) by done. clearbody d0. apply wp_bind.
  apply wp_mono with (P := fun d => scds_Length d = 0 \/ scds_Length d = L /\ 7 <= L).
  - rewrite E0. destruct (Z.leb_spec 7 L) as [H7|H7]; rewrite ?andb_false_r, ?andb_true_r.
    + wp_go; try (left; reflexivity); right; split; (exact E0 || lia).
    + apply wp_bind. apply wp_mono with (P := fun _ => True); [wp_go; done|]. intros c _. rewrite andb_false_r. by left.
  - intros d Hd. destruct (Z.eqb_spec (scds_Length d) 0) as [|Hn]; [apply HQ|].
    destruct Hd as [|[Ed H7]]; [done|]. wp_go; apply HQ.
Qed.

(** How far extended data blocks are read. *)
Lemma ext_vfpdb_wp buf off n refs :
  0 <= off -> n <= 31 -> off + n + 1 <= zlen buf -> zlen refs = 31 ->
  wp (ext_vfpdb buf off n refs) (fun r => zlen r = 31).
Proof.
  intros Ho Hn Hl Hr. unfold ext_vfpdb.
  apply wp_for_up with (I := fun _ r => zlen r = 31); [done| |done].
  intros j r Hj Hr'. wp_go; autorewrite with cx; lia.
Qed.

Lemma upd_timing_st B s i f :
  st_ok B s -> 0 <= i < TimingNum s ->
  wp (upd_timing s i f) (fun s' => st_ok B s' /\ TimingNum s' = TimingNum s).
Proof.
  intros H Hi. eapply wp_mono; [eapply upd_timing_wp; [apply H|done]|].
  intros s' [Hf E]. split; [by eapply st_ok_fills|done].
Qed.

Lemma ext_y420vdb_wp pool B buf off n s :
  st_ok B s -> B + 30 < 2 ^ 24 -> 0 <= off -> n <= 31 -> off + n + 1 <= zlen buf ->
  wp (ext_y420vdb pool buf off n s) (st_ok (B + 30)).
Proof.
  intros H HB Ho Hn Hl. unfold ext_y420vdb.
  apply wp_bind, wp_for_up with (I := fun j '(s', _) => st_ok (B + j) s').
  - by replace (B + 0) with B by lia.
  - intros j [s1 f] Hj Hs1. wp_step. wp_step.
    destruct (cbEDIDModule_GetFmtIdxFromSVD x f) as [[[] v] na] eqn:Hf; cbn [negb].
    + apply wp_bind. apply GetFmtIdxFromSVD_range in Hf.
      apply (add_svd_st pool (B + j)); [done|lia| |].
      { unfold CBIOS_HDMIFORMATCOUNTS, CBIOS_HDMI_NORMAL_VIC_COUNTS, CBIOS_HDMI_EXTENED_VIC_COUNTS in *. lia. }
      intros r s2 Hs2 Hr. replace (B + (j + 1)) with (B + j + 1) by lia.
      destruct r; [|done]. apply wp_bind. eapply wp_mono; [by eapply upd_timing_st|].
      intros s3 [Hs3 _]. done.
    + cbn. st_mono.
  - intros [s1 f] Hs1. cbn. st_mono.
Qed.

Lemma mark_y420_wp B svd s f :
  st_ok B s -> wp (mark_y420 svd (s, f)) (fun '(s', _) => st_ok B s').
Proof.
  intros H. unfold mark_y420.
  destruct (cbEDIDModule_GetFmtIdxFromSVD svd f) as [[st v] na]. wp_step; [done|].
  apply wp_bind. eapply wp_mono; [eapply isSvdFormatExist_wp, H|].
  intros [i|] Hi; [|done]. apply wp_bind. eapply wp_mono; [by eapply upd_timing_st|].
  intros s3 [Hs3 _]. done.
Qed.

Lemma ext_y420cmdb_wp B buf off n k s :
  st_ok B s -> 1 <= k <= 7 -> 0 <= off -> n <= 31 -> off + n + 1 <= zlen buf ->
  wp (ext_y420cmdb buf off n k s) (st_ok B).
Proof.
  intros H Hk Ho Hn Hl. unfold ext_y420cmdb. cbn zeta.
  pose proof (at_svd_len _ (st_attr _ _ H)) as Hsl. pose proof (at_svd _ (st_attr _ _ H)) as Hsv.
  apply wp_bind. eapply wp_mono with (P := fun '(s', _) => st_ok B s'); [|by intros [s1 f]].
  wp_step.
  - apply wp_bind, (wp_rd_Forall svd_ok); [done|lia|]. intros d [Hd1 Hd2].
    apply wp_for_up with (I := fun _ '(s', _) => st_ok B s'); [done| |by intros [??]].
    intros j [s1 f] Hj Hs1. wp_step. wp_step. by apply mark_y420_wp.
  - apply wp_bind, wp_for_up with (I := fun _ '((s', _), Step) => st_ok B s' /\ 0 <= Step < 256).
    { split; [done|lia]. }
    2: { intros [[s1 f] st] [Hs1 _]. done. }
    intros i [[s1 f] st] Hi [Hs1 Hst]. wp_step. wp_step. apply wp_bind.
    apply wp_for_up with (I := fun _ '(s', _) => st_ok B s').
    + done.
    + intros j [s2 f2] Hj Hs2. wp_step; [|done].
      apply wp_bind, (wp_rd_Forall svd_ok); [done|lia|]. intros d [Hd1 Hd2].
      destruct (Z.ltb_spec (j + st) (SVDCount d)); [|done].
      wp_step. wp_step. by apply mark_y420_wp.
    + intros [s2 f2] Hs2. cbn. split; [done|]. unfold u8, wrap. dlia.
Qed.

Lemma ext_hdmi_audio_wp buf off d :
  0 <= off -> off + 4 + 4 * Z.land (edid_byte buf (off + 3)) 0x7 <= zlen buf -> zlen (HDMI3DAudioDesc d) = 8 ->
  wp (ext_hdmi_audio buf off d) (fun d' => zlen (HDMI3DAudioDesc d') = 8).
Proof.
  intros Ho Hl Hd. unfold ext_hdmi_audio. pose proof (land_le_r (edid_byte buf (off + 3)) 0x7 ltac:(lia)) as Hn.
  wp_step. wp_step. wp_step. wp_step. rewrite (edid_byte_rd _ _ _ Hx0) in *. cbn beta iota zeta. cbn.
  apply wp_bind, wp_for_up with (I := fun _ l => zlen l = 8); [done| |done].
  intros j l Hj Hll. wp_go; autorewrite with cx; lia.
Qed.

Lemma ext_infoframe_wp buf off n a :
  attr_ok a -> 0 <= off -> 1 <= n <= 31 -> off + n + 4 <= zlen buf ->
  wp (ext_infoframe buf off n a) attr_ok.
Proof.
  intros Ha Ho Hn Hl. unfold ext_infoframe. wp_step. wp_step. wp_step. wp_step. cbn beta iota zeta.
  pose proof (land_le_r (Z.shiftr x 5) 0x7 ltac:(lia)) as Hx'.
  apply wp_bind, wp_iterate with (I := fun '(i, _, _) => 0 <= i < 256)
    (m := fun '(i, _, _) => Z.to_nat (31 - i)).
  - unfold u8, wrap. dlia.
  - unfold u8, wrap. dlia.
  - intros [[i p] c] Hi. cbn beta iota. destruct (Z.ltb_spec i n).
    2: { cbn. destruct Ha. by constructor. }
    wp_step. wp_step. cbn zeta. set (len := Z.land (Z.shiftr x1 5) 7).
    assert (Hlen : 0 <= len <= 7) by (apply land_le_r; lia).
    assert (E : u8 (i + 1) = i + 1) by (unfold u8, wrap; dlia). rewrite E.
    apply wp_bind. apply wp_mono with (P := fun '(i', _) => i + 1 <= i' <= i + 4).
    + assert (E2 : u8 (i + 1 + 3) = i + 4) by (unfold u8, wrap; dlia). rewrite E2.
      wp_go; lia.
    + intros [i' c'] Hi'. cbn. assert (u8 (i' + len) = i' + len) as -> by (unfold u8, wrap; dlia). lia.
Qed.

Lemma upd_ext_wp B s tag f :
  st_ok B s -> 0 <= tag < 122 -> (forall e, ext_ok e -> wp (f e) ext_ok) ->
  wp (upd_ext s tag f) (st_ok B).
Proof.
  intros H Ht Hf. pose proof (st_attr _ _ H) as Ha. pose proof (at_ext_len _ Ha). unfold upd_ext.
  apply wp_bind, (wp_rd_Forall ext_ok); [apply Ha|lia|]. intros e He.
  apply wp_bind. eapply wp_mono; [by apply Hf|]. intros e' He'. wp_step. wp_step.
  cbn [wp]. destruct H as [H1 _ H3]. constructor; [exact H1| |destruct H3; by constructor].
  destruct Ha. constructor; cbn; try assumption.
  - by rewrite zlen_insert.
  - by apply Forall_insert.
Qed.

Lemma st_ok_attr B s a :
  st_ok B s -> attr_ok a -> st_ok B (s <| Attribute := a |>).
Proof. intros [H1 _ []] Ha. constructor; [exact H1|exact Ha|by constructor]. Qed.

Lemma ParseCEAExtBlock_wp pool B buf off s k :
  st_ok B s -> B + 30 < 2 ^ 24 -> 1 <= k <= 7 -> 0 <= off < zlen buf ->
  (let L := Z.land (edid_byte buf off) 0x1F in
   off + L + 1 <= zlen buf /\ (L <> 0 -> ext_reach buf off L <= zlen buf)) ->
  wp (cbEDIDModule_ParseCEAExtBlock pool buf off s k) (fun '(_, s') => st_ok (B + 30) s').
Proof.
  cbn zeta. intros H HB Hk Ho [Hl Hr]. unfold cbEDIDModule_ParseCEAExtBlock.
  assert (Hm : forall B' s', st_ok B' s' -> B <= B' <= B + 30 -> st_ok (B + 30) s').
  { intros. st_mono. }
  wp_step. wp_step. rewrite (edid_byte_rd _ _ _ Hx) in *.
  destruct (_ || _) eqn:EL; [apply (Hm B); [done|lia]|]. apply orb_false_iff in EL as [_ EL]. apply Z.eqb_neq in EL.
  specialize (Hr EL). pose proof (land_le_r x 0x1F ltac:(lia)) as HL. set (L := Z.land x 31) in *.
  cbn zeta. wp_step. wp_step. unfold ext_reach in Hr. rewrite (edid_byte_rd _ _ _ Hx0) in Hr. cbn zeta in Hr.
  assert (Hext : forall tag f, 0 <= tag < 122 -> (forall e, ext_ok e -> wp (f e) ext_ok) ->
    wp (let! s := upd_ext s tag f in Ok (L + 1, s)) (fun '(_, s') => st_ok (B + 30) s')).
  { intros tag f Ht Hf. apply wp_bind. eapply wp_mono; [by apply upd_ext_wp|].
    intros s' Hs'. apply (Hm B); [done|lia]. }
  wp_step. { apply Hext; [done|]. intros e []. wp_go; try lia. constructor; cbn; lia. }
  wp_step; [apply (Hm B); [done|lia]|].
  wp_step. { apply Hext; [done|]. intros e []. wp_go; try lia. constructor; cbn; lia. }
  wp_step. { destruct (Z.ltb_spec 6 L); [apply (Hm B); [done|lia]|].
    apply Hext; [done|]. intros e []. wp_go. constructor; cbn; lia. }
  wp_step. { apply wp_bind. eapply wp_mono; [apply ext_vfpdb_wp; [lia|lia|lia|apply H]|].
    intros refs Hrefs. cbn. apply (Hm B); [|lia]. apply (st_ok_attr B s); [done|].
    destruct (st_attr _ _ H). by constructor. }
  wp_step. { apply wp_bind. eapply wp_mono; [apply (ext_y420vdb_wp pool B); [done|done|lia|lia|lia]|].
    done. }
  wp_step. { apply wp_bind. eapply wp_mono; [apply (ext_y420cmdb_wp B); [done|done|lia|lia|lia]|].
    intros s' Hs'. apply (Hm B); [done|lia]. }
  wp_step; [apply (Hm B); [done|lia]|].
  wp_step. { apply Hext; [done|]. intros e []. apply wp_bind.
    eapply wp_mono; [apply ext_hdmi_audio_wp; [lia|lia|done]|]. intros d Hd. by constructor. }
  wp_step. { apply wp_bind. eapply wp_mono; [apply ext_infoframe_wp; [apply H|lia|lia|lia]|].
    intros a Ha. apply (Hm B); [|lia]. by apply st_ok_attr. }
  wp_step; [apply (Hm B); [done|lia]|].
  wp_step. { apply wp_bind, (ParseHFSCDS_wp _ _ x); [lia|done|exact Hl|lia|]. intros [len d].
    apply (Hm B); [|lia]. apply (st_ok_attr B s); [done|]. destruct (st_attr _ _ H). by constructor. }
  apply (Hm B); [done|lia].
Qed.

Lemma bytes_are_ok p off l : 0 <= off -> off + zlen l <= zlen p -> exists b, bytes_are p off l = Ok b.
Proof.
  intros H1 H2. enough (wp (bytes_are p off l) (fun _ => True)) as (b & -> & _)%wp_ok by (by exists b).
  by apply wp_bytes_are.
Qed.

(** ** Which buffers are safe to walk

    What is read of the data blocks from index [i] on lies in the buffer. *)
Fixpoint cea_fits (fuel : nat) (buf : list Z) (blk dtl i : Z) : bool :=
  match fuel with
  | O => false
  | S fuel' =>
      if i <? dtl then
        match rd buf (blk + i) with
        | Ok b => (block_reach buf (blk + i) <=? zlen buf) && cea_fits fuel' buf blk dtl (i + Z.land b 0x1F + 1)
        | Err _ => false
        end
      else true
  end.

(** The walk for the attributes of the monitor looks at the registration identifier of
    vendor blocks, copies audio blocks, and takes every speaker block for one of three
    bytes, of which it reads the first. *)
Fixpoint attrib_fits (fuel : nat) (buf : list Z) (blk dtl i : Z) : bool :=
  match fuel with
  | O => false
  | S fuel' =>
      if i <? dtl then
        match rd buf (blk + i) with
        | Ok b =>
            let L := Z.land b 0x1F in
            let tag := Z.land (Z.shiftr b 5) 0x07 in
            let '(need, next) :=
              if tag =? VENDOR_SPECIFIC_DATA_BLOCK_TAG then (4, L + 1)
              else if tag =? AUDIO_DATA_BLOCK_TAG then (L + 1, L + 1)
              else if tag =? SPEAKER_ALLOCATION_DATA_BLOCK_TAG then (2, 4)
              else (1, L + 1) in
            (blk + i + need <=? zlen buf) && attrib_fits fuel' buf blk dtl (i + next)
        | Err _ => false
        end
      else true
  end.

Lemma cea_data_block_wp pool B buf blk i k s b :
  st_ok B s -> B + 31 < 2 ^ 24 -> 1 <= k <= 7 -> 0 <= blk + i ->
  rd buf (blk + i) = Ok b -> block_reach buf (blk + i) <= zlen buf ->
  wp (cea_data_block pool buf blk i k s) (st_ok (B + 31)).
Proof.
  intros H HB Hk Hi Hb Hr. unfold cea_data_block. rewrite Hb. cbn [rbind]. cbn zeta.
  unfold block_reach in Hr. rewrite (edid_byte_rd _ _ _ Hb) in Hr. cbn zeta in Hr. revert Hr. set (tag := Z.land (Z.shiftr b 5) 7).
  pose proof (rd_bound _ _ _ Hb) as Hbd.
  assert (Hm : forall B' s', st_ok B' s' -> B <= B' <= B + 31 -> st_ok (B + 31) s').
  { intros. st_mono. }
  assert (HL : forall c, rd buf (blk + i) = Ok c -> c = b) by (intros; congruence).
  pose proof (st_attr _ _ H) as Ha.
  unfold AUDIO_DATA_BLOCK_TAG, VIDEO_DATA_BLOCK_TAG, VENDOR_SPECIFIC_DATA_BLOCK_TAG,
    CEA_EXTENDED_BLOCK_TAG.
  destruct (Z.eqb_spec tag 1) as [->|].
  { change (1 =? 3) with false. change (1 =? 7) with false. cbn beta iota. intros Hr.
    apply wp_bind. eapply wp_mono; [apply (GetHDMIAudioFormat_wp B); [done|lia|]|].
    - intros c Hc. rewrite (HL _ Hc). lia.
    - intros [n s'] Hs'. cbn. apply (Hm B); [done|lia]. }
  destruct (Z.eqb_spec tag 2) as [->|].
  { change (2 =? 3) with false. change (2 =? 7) with false. cbn beta iota. intros Hr.
    apply GetSVDMode_wp; [done|done|done|lia|]. intros c Hc. rewrite (HL _ Hc). lia. }
  destruct (Z.eqb_spec tag 3); intros Hr.
  { replace (blk + (i + 1)) with (blk + i + 1) by lia.
    assert (H4 : blk + i + 4 <= zlen buf) by (destruct (bytes_are _ _ _) as [[]|] in Hr; lia).
    destruct (bytes_are_ok buf (blk + i + 1) [3; 12; 0]) as [h Eh]; [lia|change (zlen [3; 12; 0]) with 3; lia|].
    rewrite Eh in *. cbn [rbind]. destruct h.
    - apply wp_bind. eapply wp_mono; [apply (ParseHDMIVSDB_wp buf (blk + i) b); [done|done|lia|lia]|]. intros [len v] Hv. cbn.
      apply (Hm B); [|lia]. apply (st_ok_attr B s); [done|]. destruct Ha. by constructor.
    - apply wp_bind. wp_step. wp_step; [|apply (Hm B); [done|lia]].
      apply wp_bind, (ParseHFSCDS_wp _ _ b); [done|done|lia|lia|]. intros [len v]. cbn.
      apply (Hm B); [|lia]. apply (st_ok_attr B s); [done|]. destruct Ha. by constructor. }
  destruct (Z.eqb_spec tag 7).
  - apply wp_bind. eapply wp_mono; [apply (ParseCEAExtBlock_wp pool B); [done|lia|done|lia|]|].
    { cbn zeta. rewrite (edid_byte_rd _ _ _ Hb). cbn [andb] in Hr. split; [lia|]. intros Hn. apply Z.eqb_neq in Hn. rewrite Hn in Hr. cbn [negb] in Hr. lia. }
    intros [len s'] Hs'. cbn. apply (Hm (B + 30)); [done|lia].
  - apply (Hm B); [done|lia].
Qed.

(** One loop over the data blocks adds at most 31 timings per block, and runs
    at most 124 times. *)
Lemma cea_data_blocks_wp pool B fuel buf blk dtl k s :
  st_ok B s -> B + 31 * 124 < 2 ^ 24 -> 1 <= k <= 7 -> 0 <= blk -> dtl < 128 ->
  cea_fits fuel buf blk dtl 4 = true ->
  wp (cea_data_blocks pool buf blk dtl k s) (st_ok (B + 31 * 124)).
Proof.
  intros H HB Hk Hblk Hd Hf. unfold cea_data_blocks.
  apply wp_iterate with
    (I := fun '(i, s') => exists f, cea_fits f buf blk dtl i = true /\ 4 <= i /\
        exists n, 0 <= n <= i - 4 /\ n <= 124 /\ st_ok (B + 31 * n) s')
    (m := fun '(i, _) => Z.to_nat (128 - i)).
  - exists fuel. split; [done|]. split; [lia|]. exists 0. split; [lia|]. split; [lia|].
    by replace (B + 31 * 0) with B by lia.
  - cbn. lia.
  - intros [i s1] ([|f] & Hf1 & Hi & n & Hn & Hn2 & Hs1); [done|]. cbn beta iota.
    cbn [cea_fits] in Hf1. destruct (Z.ltb_spec i dtl).
    2: { cbn. st_mono. }
    destruct (rd buf (blk + i)) as [b|] eqn:Hb; [|done]. cbn zeta in Hf1.
    rewrite andb_true_iff, Z.leb_le in Hf1. destruct Hf1 as [Hr Hf1].
    pose proof (land_le_r b 0x1F ltac:(lia)) as HL. set (L := Z.land b 31) in *.
    cbn [rbind]. apply wp_bind.
    eapply wp_mono; [eapply (cea_data_block_wp pool (B + 31 * n)); [done|lia|done|lia|done|done]|].
    intros s2 Hs2. cbn [wp]. change (Z.land b 31) with L. assert (u8 (i + (L + 1)) = i + L + 1) as -> by (unfold u8, wrap; dlia).
    split; [|lia]. exists f. split; [done|]. split; [lia|]. exists (n + 1). split; [lia|].
    split; [lia|]. by replace (B + 31 * (n + 1)) with (B + 31 * n + 31) by lia.
Qed.

Lemma GetHDMIVICMode_wp pool B s :
  st_ok B s -> B + 7 < 2 ^ 24 ->
  wp (cbEDIDModule_GetHDMIVICMode pool s) (st_ok (B + 7)).
Proof.
  intros H HB. unfold cbEDIDModule_GetHDMIVICMode.
  pose proof (at_vsdb _ (st_attr _ _ H)) as [Hn Hl Hr _ _].
  apply wp_for_up with (I := fun j s' => fills (B + j) s s').
  - replace (B + 0) with B by lia. by apply st_fills_refl.
  - intros j s1 Hj Hf. pose proof Hf as [Ht (Ea & _)]. rewrite Ea. rewrite Z2Nat.id in Hj by lia.
    apply wp_bind, (wp_rd_Forall (fun x => 0 <= x <= CBIOS_HDMI_EXTENED_VIC_COUNTS)); [done|lia|].
    intros v Hv. cbn zeta. apply wp_bind.
    eapply wp_mono; [apply (AddSvdFormat_wp pool (B + j)); [done|lia|]|].
    + unfold CBIOS_HDMIFORMATCOUNTS, CBIOS_HDMI_NORMAL_VIC_COUNTS, CBIOS_HDMI_EXTENED_VIC_COUNTS in *.
      unfold u16, wrap. dlia.
    + intros [r s2] [Hf2 _]. cbn. destruct Hf2 as [Ht2 Hs2]. split.
      * by replace (B + (j + 1)) with (B + j + 1) by lia.
      * eapply same_rest_trans; [apply Hf|done].
  - intros s1 Hf. rewrite Z2Nat.id in Hf by lia. eapply st_ok_fills; [done|].
    eapply fills_mono; [done|lia|lia].
Qed.

(** ** DisplayID *)

Lemma did_timing_wp buf d tag rev (Q : option CBIOS_DEVICE_TIMING_INFO -> Prop) :
  0 <= d -> d + 23 <= zlen buf -> (forall t, Q t) -> wp (did_timing buf d tag rev) Q.
Proof.
  intros Hd Hl HQ. unfold did_timing. cbn beta zeta.
  repeat (first [ apply wp_bind | wp_step; [] ]; cbn beta).
  wp_step; apply HQ.
Qed.

(** A block of descriptors stays inside the buffer if its payload does. *)
Lemma GetDisplayIDTiming_wp pool B buf off s n :
  st_ok B s -> B + 12 < 2 ^ 24 -> bytes buf -> 0 <= off -> rd buf (off + 2) = Ok n ->
  off + 2 + n < zlen buf ->
  wp (cbEDIDModule_GetDisplayIDTiming pool buf off s) (fun '(_, s') => st_ok (B + 12) s').
Proof.
  intros H HB Hb Ho Hn Hl. unfold cbEDIDModule_GetDisplayIDTiming, DID_TYPE1_TIMING_DESCRIPTOR_LENGTH.
  pose proof (rd_bound _ _ _ Hn) as Hbd. pose proof (rd_Forall _ _ _ _ Hb Hn) as Hf. cbn in Hf.
  wp_step. wp_step. cbn zeta. rewrite Hn. cbn [rbind]. wp_step. wp_step. cbn beta zeta.
  match goal with |- context [udiv n ?e] => set (D := e) end.
  pose proof (land_le_r x 0x70 ltac:(lia)) as Hx7.
  assert (HD : 20 <= D).
  { unfold D. destruct (_ =? _); [|lia]. destruct (_ || _); [|lia].
    pose proof (Z.shiftr_nonneg (Z.land x 112) 4). lia. }
  clearbody D. destruct (Z.eqb_spec D 0); [lia|]. apply wp_bind. unfold udiv.
  destruct (Z.eqb_spec D 0); [lia|]. cbn [wp].
  assert (Hq : 0 <= n / D <= 12 /\ D * (n / D) <= n).
  { assert (D * (n / D) <= n) by (apply Z.mul_div_le; lia).
    unfold fits in Hf. change (2 ^ 8) with 256 in Hf.
    assert (0 <= n / D) by (apply Z.div_pos; lia).
    assert (20 * (n / D) <= D * (n / D)) by (apply Z.mul_le_mono_nonneg_r; lia). lia. }
  apply wp_for_up with (I := fun j '(_, s') => st_ok (B + j) s').
  - by replace (B + 0) with B by lia.
  - intros j [num s1] Hj Hs1. rewrite Z2Nat.id in Hj by lia.
    apply wp_bind, did_timing_wp; [nia|nia|]. intros [t|]; [|cbn; st_mono].
    apply wp_bind. eapply ValidateTiming_wp; [apply Hs1|apply Hs1|]. intros []; cbn [negb];
      [|cbn; st_mono].
    apply wp_bind, (add_timing_st pool (B + j)); [done|lia|]. intros b s2 Hs2. cbn.
    by replace (B + (j + 1)) with (B + j + 1) by lia.
  - intros [num s1] Hs1. cbn. st_mono.
Qed.

(** The blocks of a DisplayID section from index [i] on stay inside the
    buffer. *)
Fixpoint did_fits (fuel : nat) (buf : list Z) (blk i : Z) : bool :=
  match fuel with
  | O => false
  | S fuel' =>
      if i <? 126 then
        match rd buf (blk + i), rd buf (blk + (i + 2)) with
        | Ok t, Ok n =>
            (if (t =? VIDEO_TIMING_MODES_DATA_BLOCK_TYPE1_TAG) ||
                (t =? VIDEO_TIMING_MODES_DATA_BLOCK2_TYPE7_TAG)
             then blk + i + 2 + n <? zlen buf else true) &&
            did_fits fuel' buf blk (i + (n + 3))
        | _, _ => false
        end
      else true
  end.

(** The extension block number [k] is safe to walk: if it is a CEA block, for the
    attributes, unless its revision is zero, and for the timings, unless the offset of the
    detailed timings is zero or outside the block. *)
Definition cea_block_fits (buf : list Z) (k : Z) : bool :=
  let blk := k * 128 in
  match rd buf blk, rd buf (blk + 1), rd buf (blk + 2) with
  | Ok tag, Ok revision, Ok dtl =>
      negb (tag =? CEA_TAG) ||
      (((revision =? 0) || attrib_fits 256 buf blk dtl 4) &&
       ((dtl =? 0) || (EDID_BLK_SIZE <=? dtl) || cea_fits 128 buf blk dtl 4))
  | _, _, _ => false
  end.

Definition did_block_fits (buf : list Z) (k : Z) : bool :=
  let blk := k * 128 in
  match rd buf blk, rd buf (blk + 2) with
  | Ok tag, Ok size => negb (tag =? DISPLAYID_TAG) || (size =? 0) || did_fits 128 buf blk 5
  | _, _ => false
  end.

Lemma GetCEA861Mode_wp pool B d buf s :
  st_ok B s -> B + 26964 < 2 ^ 24 -> bytes buf -> Buffer d = Some buf -> BufferSize d = zlen buf ->
  zlen buf <= 1024 ->
  (forall k, 1 <= k < zlen buf / 128 -> cea_block_fits buf k = true) ->
  wp (cbEDIDModule_GetCEA861Mode pool d s) (fun '(_, s') => st_ok (B + 26964) s').
Proof.
  intros H HB Hby Hb Hs Hl Hf. unfold cbEDIDModule_GetCEA861Mode, cbEDIDModule_GetTotalBlockNum.
  rewrite Hb, Hs. unfold EDID_BLK_SIZE. cbn zeta. set (n := zlen buf / 128) in *.
  assert (Hn : 0 <= n <= 8 /\ 128 * n <= zlen buf) by (pose proof (zlen_nonneg buf); unfold n; dlia).
  apply wp_bind, wp_for_up with (I := fun k s' => st_ok (B + 3851 * (k - 1)) s').
  - by replace (B + 3851 * (1 - 1)) with B by lia.
  - intros k s1 Hk Hs1. cbn [deref rbind]. cbn zeta. specialize (Hf k ltac:(lia)).
    unfold cea_block_fits in Hf. cbn zeta in Hf.
    assert (Hm : forall B' s', st_ok B' s' -> B' <= B + 3851 * (k + 1 - 1) ->
      st_ok (B + 3851 * (k + 1 - 1)) s') by (intros; st_mono).
    replace (k * 128 + 0) with (k * 128) by lia.
    wp_step. wp_step. rewrite Hx in Hf. wp_step; [apply (Hm _ _ Hs1); lia|].
    wp_step. wp_step. rewrite Hx0 in Hf. destruct (rd buf (k * 128 + 1)) as [rev|] eqn:Hrev; [|done]. cbn iota beta in Hf.
    apply andb_true_iff in Hf as [_ Hf]. unfold EDID_BLK_SIZE in Hf.
    wp_step; [apply (Hm _ _ Hs1); lia|]. cbn [negb orb] in Hf.
    pose proof (rd_Forall _ _ _ _ Hby Hx0) as Hx0f. unfold fits in Hx0f.
    apply wp_bind. eapply wp_mono; [eapply GetCEADetailedMode_wp; [done|lia|done|lia|lia|lia]|].
    intros [num s2] Hs2. eapply wp_mono; [eapply cea_data_blocks_wp; [done|lia|lia|lia|lia|done]|].
    intros s3 Hs3. apply (Hm _ _ Hs3). lia.
  - intros s1 Hs1. apply wp_bind.
    assert (H1 : st_ok (B + 26957) s1) by st_mono.
    eapply wp_mono; [by apply PatchHDMIAudio_wp|]. intros s2 Hs2.
    apply wp_bind. eapply wp_mono; [apply (GetHDMIVICMode_wp pool _ _ Hs2); lia|].
    intros s3 Hs3. cbn. replace (B + 26964) with (B + 26957 + 7) by lia. done.
Qed.

Lemma GetDisplayIDMode_wp pool B d buf s :
  st_ok B s -> B + 3444 < 2 ^ 24 -> bytes buf -> Buffer d = Some buf -> BufferSize d = zlen buf ->
  zlen buf <= 1024 ->
  (forall k, 1 <= k < zlen buf / 128 -> did_block_fits buf k = true) ->
  wp (cbEDIDModule_GetDisplayIDMode pool d s) (fun '(_, s') => st_ok (B + 3444) s').
Proof.
  intros H HB Hby Hb Hs Hl Hf. unfold cbEDIDModule_GetDisplayIDMode, cbEDIDModule_GetTotalBlockNum.
  rewrite Hb, Hs. unfold EDID_BLK_SIZE. cbn zeta. set (n := zlen buf / 128) in *.
  assert (Hn : 0 <= n <= 8 /\ 128 * n <= zlen buf) by (pose proof (zlen_nonneg buf); unfold n; dlia).
  apply wp_for_up with (I := fun k '(_, s') => st_ok (B + 492 * (k - 1)) s').
  - by replace (B + 492 * (1 - 1)) with B by lia.
  - intros k [num s1] Hk Hs1. cbn [deref rbind]. cbn zeta. specialize (Hf k ltac:(lia)).
    unfold did_block_fits in Hf. cbn zeta in Hf.
    replace (k * 128 + 0) with (k * 128) by lia.
    wp_step. wp_step. rewrite Hx in Hf. wp_step; [st_mono|].
    wp_step. wp_step. rewrite Hx0 in Hf. cbn iota beta in Hf.
    wp_step; [st_mono|].
    apply wp_iterate with
      (I := fun '(i, _, s') => exists f, did_fits f buf (k * 128) i = true /\
          exists c, 0 <= c <= 41 /\ 5 + 3 * c <= i /\ st_ok (B + 492 * (k - 1) + 12 * c) s')
      (m := fun '(i, _, _) => Z.to_nat (126 - i)).
    + exists 128%nat. split; [done|]. exists 0. split; [lia|]. split; [lia|].
      by replace (B + 492 * (k - 1) + 12 * 0) with (B + 492 * (k - 1)) by lia.
    + cbn. lia.
    + intros [[i num1] s2] ([|f] & Hf1 & c & Hcc & Hi & Hs2); [done|]. cbn beta iota.
      cbn [did_fits] in Hf1. destruct (Z.ltb_spec i 126); [|cbn; st_mono].
      wp_step. wp_step. rewrite Hx1 in Hf1.
      destruct (rd buf (k * 128 + (i + 2))) as [len|] eqn:Hlen; [|done]. cbn iota beta in Hf1.
      pose proof (rd_Forall _ _ _ _ Hby Hlen) as Hlf. unfold fits in Hlf.
      change (2 ^ 8) with 256 in Hlf. apply andb_true_iff in Hf1 as [Hin Hf1].
      apply wp_bind. apply wp_mono with (P := fun '(_, s') => st_ok (B + 492 * (k - 1) + 12 * (c + 1)) s').
      * wp_step; [|cbn; st_mono]. apply wp_bind. apply Z.ltb_lt in Hin.
        eapply wp_mono; [eapply (GetDisplayIDTiming_wp pool (B + 492 * (k - 1) + 12 * c));
          [done|lia|done|lia| |]|].
        -- replace (k * 128 + i + 2) with (k * 128 + (i + 2)) by lia. exact Hlen.
        -- lia.
        -- intros [m s3] Hs3. cbn. st_mono.
      * intros [m s3] Hs3. cbn [rbind wp]. assert (u32 (i + (len + 3)) = i + (len + 3)) as ->.
        { unfold u32, wrap. dlia. }
        split; [|lia]. exists f. split; [done|]. exists (c + 1). split; [lia|]. split; [lia|done].
  - intros [num s1] Hs1. cbn. st_mono.
Qed.
