(* ===== verification/Edid.v ===== *)
(** * The EDID module

    The entry points of [cbios/Util/CBiosEDID.c]: validity of a buffer, the
    monitor attributes, the panel patches and [cbEDIDModule_ParseEDID]. *)
From S2P Require Import Prelude CbUtil Timing TimingTables EdidTypes EdidTiming EdidCea.
Import String.StringSyntax.
Local Open Scope string_scope.
Local Open Scope Z_scope.

(** ** Validity *)

Definition EDID1header : list Z := [0x00; 0xff; 0xff; 0xff; 0xff; 0xff; 0xff; 0x00].

Definition cbEDIDModule_IsEDIDHeaderValid (pEDIDBuffer : option (list Z)) (ulBufferSize : Z)
  : res bool :=
  if ulBufferSize <? 8 then Ok false
  else match pEDIDBuffer with
       | None => Ok false
       | Some buf => bytes_are buf 0 EDID1header
       end.

Definition cbEDIDModule_IsEDIDValid (pEdidData : CBIOS_EDID_DATA) : res bool :=
  match Buffer pEdidData with
  | None => Ok false
  | Some buf =>
      let! h := cbEDIDModule_IsEDIDHeaderValid (Some buf) (BufferSize pEdidData) in
      if h : bool then cbIsEdidChecksumValid buf (BufferSize pEdidData) else Ok false
  end.

(** ** Monitor attributes *)

Definition cbEDIDModule_GetMonitorSize (pEDID : list Z) (a : CBIOS_MONITOR_MISC_ATTRIB)
  : res CBIOS_MONITOR_MISC_ATTRIB :=
  let! h := cbEDIDModule_MapMaskGetEdidInfo pEDID DETAILED_TIMINGS_INDEX 0 EDIDHorizontalImageSize in
  let HImageSize := u16 h in
  let! v := cbEDIDModule_MapMaskGetEdidInfo pEDID DETAILED_TIMINGS_INDEX 0 EDIDVerticalImageSize in
  let VImageSize := u16 v in
  if negb (HImageSize =? 0) && negb (VImageSize =? 0) then
    Ok (a <| MonitorHorSize := HImageSize |> <| MonitorVerSize := VImageSize |>)
  else Ok a.

Definition cbEDIDModule_GetChromaticity (pEDID : list Z) : res CBIOS_MONITOR_CHROMATICITY :=
  let! lo1 := rd pEDID 0x19 in
  let! lo2 := rd pEDID 0x1A in
  let coord i lo mask sh :=
    let! b := rd pEDID i in
    Ok (Z.lor (Z.shiftl b 2) (Z.shiftr (Z.land lo mask) sh)) in
  let! rx := coord 0x1B lo1 0xC0 6 in
  let! ry := coord 0x1C lo1 0x30 4 in
  let! gx := coord 0x1D lo1 0x0C 2 in
  let! gy := coord 0x1E lo1 0x03 0 in
  let! bx := coord 0x1F lo2 0xC0 6 in
  let! by_ := coord 0x20 lo2 0x30 4 in
  let! wx := coord 0x21 lo2 0x0C 2 in
  let! wy := coord 0x22 lo2 0x03 0 in
  Ok (mkChroma rx ry gx gy bx by_ wx wy).

(** [cbEDIDModule_GetMonitorID]: the manufacturer in compressed ASCII, then the
    product code as four hexadecimal digits. *)
Definition monitor_id_index : list Z := cstr "0ABCDEFGHIJKLMNOPQRSTUVWXYZ[/]^_".

Definition cbEDIDModule_GetMonitorID (pEDID pMonitorID : list Z) : res (bool * list Z) :=
  let! m0 := rd pEDID MONITORIDINDEX in
  let! m1 := rd pEDID (MONITORIDINDEX + 1) in
  let! c0 := rd monitor_id_index (Z.land (Z.shiftr m0 2) 0x1F) in
  let! c1 := rd monitor_id_index
    (Z.lor (Z.land (Z.shiftr m1 5) 0x07) (Z.land (Z.shiftl m0 3) 0x18)) in
  let! c2 := rd monitor_id_index (Z.land m1 0x1F) in
  let! p := wrs pMonitorID [(0, c0); (1, c1); (2, c2); (3, 0)] in
  let! m3 := rd pEDID (MONITORIDINDEX + 3) in
  let! '(ok, ProductID) := cbItoA m3 [0; 0; 0] 16 2 in
  if ok : bool then
    let! p := cbStrCat p ProductID in
    let! m2 := rd pEDID (MONITORIDINDEX + 2) in
    let! '(ok, ProductID) := cbItoA m2 ProductID 16 2 in
    if ok : bool then let! p := cbStrCat p ProductID in Ok (true, p)
    else Ok (false, p)
  else Ok (false, p).

(** The text of a descriptor: up to 13 characters, ended by 0x0A. *)
Definition copy_text (buf : list Z) (off : Z) (dst : list Z) : res (list Z) :=
  iterate 14
    (fun '(j, dst) =>
       if j <? 13 then
         let! c := rd buf (off + 5 + j) in
         if c =? 0x0A then Ok (inr dst)
         else let! dst := wr dst j c in Ok (inl (j + 1, dst))
       else Ok (inr dst)) (0, dst).

(** The monitor range limits of a 0xFD descriptor at [off]. *)
Definition range_limits (buf : list Z) (off : Z) (m : CBIOS_MRL) : res CBIOS_MRL :=
  let! flags := rd buf (off + 0x4) in
  let! minv := rd buf (off + 0x5) in
  let! maxv := rd buf (off + 0x6) in
  let! minh := rd buf (off + 0x7) in
  let! maxh := rd buf (off + 0x8) in
  let! clk := rd buf (off + 0x9) in
  let m := m <| mrl_Flags := flags |> <| MinVerRate := minv |> <| MaxVerRate := maxv |>
             <| MinHorRate := minh |> <| MaxHorRate := maxh |> <| MaxPixelClock := u16 (clk * 10) |> in
  let m :=
    if Z.land flags 0x3 =? 0x2 then m <| MaxVerRate ::= fun r => u16 (r + 255) |>
    else if Z.land flags 0x3 =? 0x3 then
      m <| MaxVerRate ::= fun r => u16 (r + 255) |> <| MinVerRate ::= fun r => u16 (r + 255) |>
    else m in
  let m :=
    if Z.land flags 0xC =? 0x8 then m <| MaxHorRate ::= fun r => u16 (r + 255) |>
    else if Z.land flags 0xC =? 0xC then
      m <| MaxHorRate ::= fun r => u16 (r + 255) |> <| MinHorRate ::= fun r => u16 (r + 255) |>
    else m in
  Ok (if MinVerRate m <? MaxVerRate m then m <| bSupportFreeSync := true |> else m).

(** One of the four 18-byte descriptors of the base block. *)
Definition base_descriptor (pEDID : list Z) (i : Z) (a : CBIOS_MONITOR_MISC_ATTRIB)
  : res CBIOS_MONITOR_MISC_ATTRIB :=
  let off := DETAILED_TIMINGS_INDEX + i * 18 in
  let! d0 := rd pEDID off in
  let! d1 := rd pEDID (off + 0x1) in
  let! d17 := rd pEDID (off + 0x11) in
  let a :=
    if negb (d0 =? 0) && negb (d1 =? 0) then
      let byte17 := Z.land d17 0x61 in
      if negb (byte17 =? 0) then
        let a := a <| bStereoViewSupport := true |> in
        if byte17 =? 0x20 then a <| StereoViewType := FIELD_SEQ_RIGHT |>
        else if byte17 =? 0x40 then a <| StereoViewType := FIELD_SEQ_LEFT |>
        else if byte17 =? 0x21 then a <| StereoViewType := TWO_WAY_RIGHT |>
        else if byte17 =? 0x41 then a <| StereoViewType := TWO_WAY_LEFT |>
        else if byte17 =? 0x60 then a <| StereoViewType := FOUR_WAY |>
        else if byte17 =? 0x61 then a <| StereoViewType := SIDE_BY_SIDE_INTERLEAVE |>
        else a
      else a
    else a in
  let! is_name := bytes_are pEDID off [0x00; 0x00; 0x00; 0xFC; 0x00] in
  let! a :=
    if is_name : bool then
      let! n := copy_text pEDID off (MonitorName a) in Ok (a <| MonitorName := n |>)
    else Ok a in
  let! is_range := bytes_are pEDID off [0x00; 0x00; 0x00; 0xFD] in
  let! a :=
    if is_range : bool then
      let! m := range_limits pEDID off (MRLData a) in Ok (a <| MRLData := m |>)
    else Ok a in
  let! is_text := bytes_are pEDID off [0x00; 0x00; 0x00; 0xFE; 0x00] in
  if is_text : bool then
    let! n := copy_text pEDID off (Alphanumeric a) in Ok (a <| Alphanumeric := n |>)
  else Ok a.

(** The data blocks of the CEA extension at [blk]: the loop state is ([i],
    [bIsHDMIDevice], [SADCnt], [a]). *)
Definition attrib_data_blocks (buf : list Z) (blk : Z)
    (st : bool * Z * CBIOS_MONITOR_MISC_ATTRIB)
  : res (bool * Z * CBIOS_MONITOR_MISC_ATTRIB) :=
  let '(bIsHDMIDevice, SADCnt, a) := st in
  iterate 256
    (fun '(i, bIsHDMIDevice, SADCnt, a) =>
       if i <? OffsetOfDetailedTimingBlock a then
         let! b := rd buf (blk + i) in
         let tag := Z.land (Z.shiftr b 5) 0x07 in
         let PayloadLength := Z.land b 0x1F in
         if tag =? VENDOR_SPECIFIC_DATA_BLOCK_TAG then
           let! hdmi := bytes_are buf (blk + (i + 1)) [0x03; 0x0C; 0x00] in
           Ok (inl (i + 1 + PayloadLength, if hdmi : bool then true else bIsHDMIDevice, SADCnt, a))
         else if tag =? AUDIO_DATA_BLOCK_TAG then
           let SADCnt := u8 (SADCnt + PayloadLength / 3) in
           let SADCnt := if 15 <? SADCnt then 15 else SADCnt in
           let! sads :=
             if SAD_Count a <? SADCnt then
               memcpy (CEA_SADs a) (SAD_Count a * 3) buf (blk + (i + 1)) ((SADCnt - SAD_Count a) * 3)
             else Ok (CEA_SADs a) in
           Ok (inl (i + 1 + PayloadLength, bIsHDMIDevice, SADCnt,
                    a <| CEA_SADs := sads |> <| SAD_Count := SADCnt |>))
         else if tag =? SPEAKER_ALLOCATION_DATA_BLOCK_TAG then
           let! sp := rd buf (blk + (i + 1)) in
           Ok (inl (i + 4, bIsHDMIDevice, SADCnt, a <| SpeakerAllocationData := sp |>))
         else Ok (inl (i + 1 + PayloadLength, bIsHDMIDevice, SADCnt, a))
       else Ok (inr (bIsHDMIDevice, SADCnt, a)))
    (4, bIsHDMIDevice, SADCnt, a).

(** One extension block. *)
Definition attrib_ext_block (buf : list Z) (blk : Z)
    (st : bool * Z * CBIOS_MONITOR_MISC_ATTRIB)
  : res (bool * Z * CBIOS_MONITOR_MISC_ATTRIB) :=
  let '(bIsHDMIDevice, SADCnt, a) := st in
  let! b0 := rd buf (blk + 0x00) in
  if negb (b0 =? CEA_TAG) then Ok st
  else
    let! b1 := rd buf (blk + 0x01) in
    if b1 =? 0x00 then Ok st
    else
      let! b2 := rd buf (blk + 0x02) in
      let! b3 := rd buf (blk + 0x03) in
      let a := set_cap CAP_RGB 1 (set_cap CAP_Monitor 1 a) in
      let a := a <| Tag := b0 |> <| RevisionNumber := b1 |>
                 <| OffsetOfDetailedTimingBlock := b2 |> <| NativeFormatNum := Z.land b3 0x0F |> in
      let a := set_cap CAP_UnderScan (Z.shiftr (Z.land b3 0x80) 7) a in
      let a := set_cap CAP_Audio (Z.shiftr (Z.land b3 0x40) 6) a in
      let a := set_cap CAP_YCbCr444 (Z.shiftr (Z.land b3 0x20) 5) a in
      let a := set_cap CAP_YCbCr422 (Z.shiftr (Z.land b3 0x10) 4) a in
      let! '(bIsHDMIDevice, SADCnt, a) := attrib_data_blocks buf blk (bIsHDMIDevice, SADCnt, a) in
      Ok (bIsHDMIDevice, SADCnt,
          if bIsHDMIDevice &&
             negb (Z.lor (Z.lor (Z.lor (get_cap a CAP_UnderScan) (get_cap a CAP_Audio))
                     (get_cap a CAP_YCbCr422)) (get_cap a CAP_YCbCr444) =? 0)
          then set_cap CAP_HDMI 1 a else a).

(** [cbEDIDModule_GetMonitorAttrib]: the capability word, or the error code. *)
Definition cbEDIDModule_GetMonitorAttrib (pEdidData : CBIOS_EDID_DATA)
    (a : CBIOS_MONITOR_MISC_ATTRIB) : res (Z * CBIOS_MONITOR_MISC_ATTRIB) :=
  let! valid := cbEDIDModule_IsEDIDValid pEdidData in
  if negb valid then Ok (CBIOS_ER_EDID_INVALID, a)
  else
    let! pEDID := deref (Buffer pEdidData) in
    let! mn := memcpy (ManufactureName a) 0 pEDID 0x08 0x02 in
    let! pc := memcpy (ProductCode a) 0 pEDID 0x0A 0x02 in
    let! chroma := cbEDIDModule_GetChromaticity pEDID in
    let! '(_, id) := cbEDIDModule_GetMonitorID pEDID (MonitorID a) in
    let a := a <| ManufactureName := mn |> <| ProductCode := pc |> <| Chromaticity := chroma |>
               <| MonitorID := id |> in
    let! a := for_up 4 0 (fun i a => base_descriptor pEDID i a) a in
    let! a := cbEDIDModule_GetMonitorSize pEDID a in
    let a := a <| CEA861MonitorCaps := 0 |> in
    let! v1 := rd pEDID 0x12 in
    let! v2 := rd pEDID 0x13 in
    let! input := rd pEDID 0x14 in
    let! feat := rd pEDID 0x18 in
    let a :=
      if (v1 =? 0x01) && (v2 =? 0x04) && negb (Z.land input 0x80 =? 0) then
        let a := set_cap CAP_RGB 1 a in
        if Z.land feat 0x18 =? 0x08 then set_cap CAP_YCbCr444 1 a
        else if Z.land feat 0x18 =? 0x10 then set_cap CAP_YCbCr422 1 a
        else if Z.land feat 0x18 =? 0x18 then set_cap CAP_YCbCr422 1 (set_cap CAP_YCbCr444 1 a)
        else a
      else a in
    let TotalBlocks := cbEDIDModule_GetTotalBlockNum pEdidData in
    let! '(_, _, a) :=
      for_up (Z.to_nat (TotalBlocks - 1)) 1
        (fun BlockIndex st => attrib_ext_block pEDID (BlockIndex * 128) st) (false, 0, a) in
    Ok (CEA861MonitorCaps a, a).

(** ** Monitor 3D capabilities *)

Record MONITOR_3D_CAPABILITY := mk3DCaps {
  caps_bStereoViewSupport : bool;
  caps_StereoViewType : Z;
  bIsSupport3DVideo : bool;
  Monitor3DModeNum : Z
}.

(** [cbEDIDModule_GetMonitor3DCaps]: the body of the loop over the timings is
    commented out in the source, so the mode count stays zero. *)
Definition cbEDIDModule_GetMonitor3DCaps (s : CBIOS_EDID_STRUCTURE_DATA)
    (IsHWSupportHDMI3DVideo : bool) : MONITOR_3D_CAPABILITY :=
  let num := 0 in
  mk3DCaps (bStereoViewSupport (Attribute s)) (StereoViewType (Attribute s)) (negb (num =? 0)) num.

(** ** Patches *)

(** [cbEDIDModule_SADPatch]: no 24-bit samples for LPCM. *)
Definition cbEDIDModule_SADPatch (s : CBIOS_EDID_STRUCTURE_DATA) : res CBIOS_EDID_STRUCTURE_DATA :=
  let! sads :=
    for_up (Z.to_nat (SAD_Count (Attribute s))) 0
      (fun Index sads =>
         let! b0 := rd sads (Index * 3) in
         if Z.land (Z.shiftr b0 3) 0xF =? 1 then
           let! b2 := rd sads (Index * 3 + 2) in
           if negb (Z.land (Z.shiftr b2 2) 0x1 =? 0) then wr sads (Index * 3 + 2) (Z.land b2 0xFB)
           else Ok sads
         else Ok sads) (CEA_SADs (Attribute s)) in
  let! fmts :=
    for_up (Z.to_nat (HDAudioFormatNum s)) 0
      (fun Index fmts =>
         let! f := rd fmts Index in
         if Format f =? CBIOS_AUDIO_FORMAT_LPCM then
           wr fmts Index (f <| Unit ::= fun u => setfield u 2 1 0 |>)
         else Ok fmts) (HDAudioFormat s) in
  Ok (s <| Attribute ::= fun a => a <| CEA_SADs := sads |> |> <| HDAudioFormat := fmts |>).

(** [cbCopyBuffer2EdidData] ([cbios/Device/CBiosShare.c]); [alloc_ok] is the
    outcome of the allocation, if one is needed. *)
Definition cbCopyBuffer2EdidData (alloc_ok : bool) (pEdidData : CBIOS_EDID_DATA)
    (buf : list Z) (size : Z) : res (bool * CBIOS_EDID_DATA) :=
  if size =? 0 then Ok (false, pEdidData)
  else if negb (BufferSize pEdidData =? size) then
    if negb alloc_ok then Ok (false, pEdidData)
    else
      let! b := memcpy (replicate (Z.to_nat size) 0) 0 buf 0 size in
      Ok (true, mkEdidData (Some b) size)
  else
    let! dst := deref (Buffer pEdidData) in
    let! b := memcpy dst 0 buf 0 size in
    Ok (true, pEdidData <| Buffer := Some b |>).

Definition str_is2 (a : list Z) (la : String.string) (na : Z) (b : list Z) (lb : String.string)
    (nb : Z) : res bool :=
  let! x := str_is a la na in
  if x : bool then str_is b lb nb else Ok false.

(** [cbEDIDModule_Patch]: replace the EDID of three panels; FreeSync stays on
    for two others only. *)
Definition cbEDIDModule_Patch (alloc_ok : bool) (pEdidData : CBIOS_EDID_DATA)
    (a : CBIOS_MONITOR_MISC_ATTRIB) : res (bool * CBIOS_EDID_DATA * CBIOS_MONITOR_MISC_ATTRIB) :=
  let! phl := str_is2 (MonitorID a) "PHL0010" 7 (MonitorName a) "B24PFL3545/T3" 13 in
  let! '(bPatched, pEdidData) :=
    if phl && negb (get_cap a CAP_HDMI =? 0) then
      let! '(_, d) := cbCopyBuffer2EdidData alloc_ok pEdidData PHL_24PFL3545_Edid
                        (zlen PHL_24PFL3545_Edid) in
      Ok (true, d)
    else
      let! auo := str_is2 (MonitorID a) "AUO7AA7" 7 (Alphanumeric a) "B145QAN01.H " 12 in
      if auo : bool then
        let! '(_, d) := cbCopyBuffer2EdidData alloc_ok pEdidData AUO_B145QAN01_Edid
                          (zlen AUO_B145QAN01_Edid) in
        Ok (true, d)
      else
        let! csw := str_is2 (MonitorID a) "CSW1473" 7 (MonitorName a) "MNE507QS2-4" 11 in
        if csw : bool then
          let! '(_, d) := cbCopyBuffer2EdidData alloc_ok pEdidData CSW1473_Edid
                            (zlen CSW1473_Edid) in
          Ok (true, d)
        else Ok (false, pEdidData) in
  let! p1 := str_is2 (MonitorID a) "CSW1434" 7 (Alphanumeric a) "MNE507DA1-1" 11 in
  let! bFreeSyncToSupport :=
    if p1 : bool then Ok true
    else str_is2 (MonitorID a) "TMA07E7" 7 (Alphanumeric a) "TL145ADMP010" 12 in
  let a :=
    if negb bFreeSyncToSupport && bSupportFreeSync (MRLData a)
    then a <| MRLData ::= fun m => m <| bSupportFreeSync := false |> |> else a in
  Ok (bPatched, pEdidData, a).

(** ** [cbEDIDModule_ParseEDID]

    The old structure is freed and cleared, so only the EDID comes in. Request
    0 of the pool is the one of the panel patch. *)
Definition cbEDIDModule_ParseEDID (pool : nat -> bool) (pEdidData : CBIOS_EDID_DATA)
  : res (bool * CBIOS_EDID_DATA * CBIOS_EDID_STRUCTURE_DATA) :=
  let s := zero_edid_struct <| AllocCalls := 1%nat |> in
  let! valid := cbEDIDModule_IsEDIDValid pEdidData in
  if negb valid then Ok (false, pEdidData, s)
  else
    let! '(_, a) := cbEDIDModule_GetMonitorAttrib pEdidData (Attribute s) in
    let! '(patched, pEdidData, a) := cbEDIDModule_Patch (pool 0%nat) pEdidData a in
    let! a :=
      if patched : bool then
        let! '(_, a) := cbEDIDModule_GetMonitorAttrib pEdidData zero_attrib in Ok a
      else Ok a in
    let s := s <| Attribute := a |> in
    let! buf := deref (Buffer pEdidData) in
    let! '(_, s) := cbEDIDModule_GetDetailedMode pool buf s in
    let! s :=
      if 128 <? BufferSize pEdidData then
        let! '(_, s) := cbEDIDModule_GetCEA861Mode pool pEdidData s in
        let! '(_, s) := cbEDIDModule_GetDisplayIDMode pool pEdidData s in
        Ok s
      else Ok s in
    let! '(_, s) := cbEDIDModule_GetEstablishMode pool buf s in
    let! '(_, s) := cbEDIDModule_GetStandardMode pool buf s in
    Ok (true, pEdidData, s).

(** ** The identifier of a monitor *)

(** The letters of the manufacturer and the digits of the product code. *)
Definition manufacturer (m0 m1 : Z) : list Z :=
  let letter i := default 0 (monitor_id_index !! Z.to_nat i) in
  [letter (m0 / 4 mod 32); letter (m0 mod 4 * 8 + m1 / 32); letter (m1 mod 32)].

Lemma letter_bits m0 m1 :
  fits 8 m0 -> fits 8 m1 ->
  Z.land (Z.shiftr m0 2) 0x1F = m0 / 4 mod 32 /\
  Z.lor (Z.land (Z.shiftr m1 5) 0x07) (Z.land (Z.shiftl m0 3) 0x18) = m0 mod 4 * 8 + m1 / 32 /\
  Z.land m1 0x1F = m1 mod 32.
Proof.
  intros H0 H1. split; [by_bytes m0|]. split; [|by_bytes m1].
  assert (E0 : Z.land (Z.shiftl m0 3) 0x18 = m0 mod 4 * 8) by (by_bytes m0).
  assert (E1 : Z.land (Z.shiftr m1 5) 0x07 = m1 / 32) by (by_bytes m1).
  rewrite E0, E1. assert (m1 / 32 = (m1 / 32) mod 8) as -> by (by_bytes m1).
  unfold fits in *. change (2 ^ 8) with 256 in *.
  assert (0 <= m1 / 32 < 8) by dlia. assert (0 <= m0 mod 4 < 4) by dlia.
  generalize dependent (m1 / 32). generalize dependent (m0 mod 4). intros a E0 Ha c E1 Hc.
  assert (H : forallb (fun a => forallb (fun c => Z.lor (c mod 8) (a * 8) =? a * 8 + c mod 8)
     (seqZ 0 8)) (seqZ 0 4) = true) by (vm_compute; reflexivity).
  rewrite forallb_forall in H. specialize (H a). rewrite forallb_forall in H.
  apply Z.eqb_eq, H; apply list_elem_of_In, elem_of_seqZ; lia.
Qed.

Lemma letter_ok i : 0 <= i < 32 ->
  exists c, rd monitor_id_index i = Ok c /\ c <> 0 /\ monitor_id_index !! Z.to_nat i = Some c.
Proof.
  intros Hi. destruct (rd_in monitor_id_index i) as [c Hc].
  { change (zlen monitor_id_index) with 33. lia. }
  exists c. split; [done|]. apply rd_inv in Hc as [_ Hc]. split; [|done].
  assert (H : Forall (fun c => c <> 0) (take 32 monitor_id_index)).
  { change (take 32 monitor_id_index) with (take 32 (cstr "0ABCDEFGHIJKLMNOPQRSTUVWXYZ[/]^_")).
    vm_compute. repeat (apply Forall_cons_2; [discriminate|]). apply Forall_nil_2. }
  rewrite Forall_lookup in H. apply (H (Z.to_nat i)). rewrite lookup_take_lt by lia. done.
Qed.

Lemma GetMonitorID_run buf id m0 m1 m2 m3 :
  rd buf 8 = Ok m0 -> rd buf 9 = Ok m1 -> rd buf 10 = Ok m2 -> rd buf 11 = Ok m3 ->
  fits 8 m0 -> fits 8 m1 -> fits 8 m2 -> fits 8 m3 -> zlen id = 8 ->
  cbEDIDModule_GetMonitorID buf id =
  Ok (true, manufacturer m0 m1 ++ hex2 m3 ++ hex2 m2 ++ [0]).
Proof.
  intros R0 R1 R2 R3 F0 F1 F2 F3 Hid. unfold cbEDIDModule_GetMonitorID, MONITORIDINDEX.
  change (8 + 1) with 9. change (8 + 3) with 11. change (8 + 2) with 10.
  rewrite R0. cbn [rbind]. rewrite R1. cbn [rbind].
  destruct (letter_bits m0 m1 F0 F1) as (-> & -> & ->). unfold manufacturer. cbn zeta.
  unfold fits in F0, F1. change (2 ^ 8) with 256 in F0, F1.
  destruct (letter_ok (m0 / 4 mod 32)) as (c0 & -> & N0 & ->); [dlia|]. cbn [rbind].
  destruct (letter_ok (m0 mod 4 * 8 + m1 / 32)) as (c1 & -> & N1 & ->); [dlia|]. cbn [rbind].
  destruct (letter_ok (m1 mod 32)) as (c2 & -> & N2 & ->); [dlia|]. cbn [rbind].
  destruct id as [|a0 [|a1 [|a2 [|a3 [|a4 [|a5 [|a6 [|a7 [|]]]]]]]]];
    try (exfalso; rewrite ?zlen_cons in Hid; change (zlen (@nil Z)) with 0 in Hid;
         try (match type of Hid with context [zlen ?l] => pose proof (zlen_nonneg l) end); lia).
  change (wrs _ [(0, c0); (1, c1); (2, c2); (3, 0)]) with (Ok [c0; c1; c2; 0; a4; a5; a6; a7]).
  cbn [rbind]. rewrite R3. cbn [rbind]. rewrite cbItoA_hex2 by done. cbn [rbind].
  pose proof (cbStrCat_run [c0; c1; c2] (hex2 m3) [a4; a5; a6; a7] []) as E1.
  cbn [app] in E1. rewrite E1; [| |by apply hex2_nz|done].
  2: { repeat (apply Forall_cons_2; [done|]). apply Forall_nil_2. }
  cbn [rbind]. rewrite R2. cbn [rbind]. change (cbItoA m2 (hex2 m3 ++ [0]) 16 2) with
    (cbItoA m2 [digit_char (m3 / 16); digit_char (m3 mod 16); 0] 16 2).
  rewrite cbItoA_hex2 by done. cbn [rbind].
  change (length (hex2 m3)) with 2%nat. cbn [drop].
  pose proof (cbStrCat_run ([c0; c1; c2] ++ hex2 m3) (hex2 m2) [a6; a7] []) as E2.
  cbn [app] in E2. rewrite E2; [| |by apply hex2_nz|done].
  2: { repeat (apply Forall_cons_2; [done|]). by apply hex2_nz. }
  reflexivity.
Qed.

(** ** The entry points do not fault *)

Lemma copy_text_wp buf off dst n :
  0 <= off -> off + 18 <= zlen buf -> 13 <= n -> zlen dst = n ->
  wp (copy_text buf off dst) (fun d => zlen d = n).
Proof.
  intros Ho Hl Hn Hd. unfold copy_text.
  apply wp_iterate with (I := fun '(j, d) => 0 <= j <= 13 /\ zlen d = n)
    (m := fun '(j, _) => Z.to_nat (13 - j)); [split; [lia|done]|cbn; lia|].
  intros [j d] [Hj Hd']. cbn beta iota. destruct (Z.ltb_spec j 13); [|done].
  wp_go; [done|]. autorewrite with cx. lia.
Qed.

Lemma range_limits_wp buf off m (Q : CBIOS_MRL -> Prop) :
  0 <= off -> off + 18 <= zlen buf -> (forall r, Q r) -> wp (range_limits buf off m) Q.
Proof.
  intros Ho Hl HQ. unfold range_limits. do 12 wp_step. cbn beta zeta. apply HQ.
Qed.

(** The monitor attributes whose extension counters agree. *)
Definition at_base (a a' : CBIOS_MONITOR_MISC_ATTRIB) : Prop :=
  attr_ok a' /\ SAD_Count a' = SAD_Count a.

Lemma base_descriptor_wp buf i a :
  attr_ok a -> 0 <= i < 4 -> 128 <= zlen buf ->
  wp (base_descriptor buf i a) (at_base a).
Proof.
  intros Ha Hi Hl. unfold base_descriptor, DETAILED_TIMINGS_INDEX.
  do 6 wp_step. cbn zeta.
  match goal with |- context [if negb (x =? 0) && negb (x0 =? 0) then ?u else a] =>
    set (a1 := if negb (x =? 0) && negb (x0 =? 0) then u else a) end.
  assert (H1 : at_base a a1).
  { destruct Ha. subst a1.
    repeat match goal with |- context [if ?c then _ else _] => destruct c end; (split; [by constructor|done]). }
  clearbody a1.
  wp_step. wp_step. apply wp_bind. apply wp_mono with (P := at_base a).
  { wp_step; [|done]. apply wp_bind. destruct H1 as [Ha1 E1].
    eapply wp_mono; [apply (copy_text_wp _ _ _ 16); [lia|lia|lia|apply Ha1]|].
    intros n Hn. split; [destruct Ha1; by constructor|done]. }
  clear a1 H1. intros a1 H1. wp_step. wp_step. apply wp_bind. apply wp_mono with (P := at_base a).
  { wp_step; [|done]. apply wp_bind, range_limits_wp; [lia|lia|]. intros m. destruct H1 as [Ha1 E1].
    split; [destruct Ha1; by constructor|done]. }
  clear a1 H1. intros a1 H1. wp_step. wp_step. wp_step; [|done].
  apply wp_bind. destruct H1 as [Ha1 E1].
  eapply wp_mono; [apply (copy_text_wp _ _ _ 13); [lia|lia|lia|apply Ha1]|].
  intros n Hn. split; [destruct Ha1; by constructor|done].
Qed.

Lemma GetMonitorSize_wp buf a :
  attr_ok a -> bytes buf -> 128 <= zlen buf ->
  wp (cbEDIDModule_GetMonitorSize buf a) (at_base a).
Proof.
  intros Ha Hb Hl. unfold cbEDIDModule_GetMonitorSize, DETAILED_TIMINGS_INDEX.
  pose proof (bytes_desc_at buf 54 Hb ltac:(lia) ltac:(lia)) as Hd.
  rewrite (info_hsize _ _ _ Hd). cbn [rbind]. rewrite (info_vsize _ _ _ Hd). cbn [rbind]. cbn zeta.
  wp_step; [|done]. split; [destruct Ha; by constructor|done].
Qed.

Lemma GetChromaticity_wp buf (Q : CBIOS_MONITOR_CHROMATICITY -> Prop) :
  128 <= zlen buf -> (forall c, Q c) -> wp (cbEDIDModule_GetChromaticity buf) Q.
Proof. intros Hl HQ. unfold cbEDIDModule_GetChromaticity. wp_go. apply HQ. Qed.

(** The state of the walk over the extension blocks: the two audio counters
    agree. *)
Definition walk_ok (st : bool * Z * CBIOS_MONITOR_MISC_ATTRIB) : Prop :=
  let '(_, cnt, a) := st in attr_ok a /\ SAD_Count a = cnt.

Lemma attrib_data_blocks_wp fuel buf blk st :
  walk_ok st -> 0 <= blk -> OffsetOfDetailedTimingBlock (st.2) < 256 ->
  attrib_fits fuel buf blk (OffsetOfDetailedTimingBlock (st.2)) 4 = true ->
  wp (attrib_data_blocks buf blk st) walk_ok.
Proof.
  destruct st as [[h c] a]. cbn [snd]. intros Hst Hblk Hd Hf. unfold attrib_data_blocks.
  set (dtl := OffsetOfDetailedTimingBlock a) in *.
  apply wp_iterate with
    (I := fun '(i, h', c', a') => OffsetOfDetailedTimingBlock a' = dtl /\ walk_ok (h', c', a') /\ 4 <= i /\
       exists f, attrib_fits f buf blk dtl i = true)
    (m := fun '(i, _, _, _) => Z.to_nat (256 - i)).
  - split; [done|]. split; [done|]. split; [lia|]. by exists fuel.
  - cbn. lia.
  - intros [[[i h'] c'] a'] (Ed & Hw & Hi & [|f] & Hf'); [done|]. cbn beta iota. rewrite Ed.
    cbn [attrib_fits] in Hf'. destruct (Z.ltb_spec i dtl); [|done].
    wp_step. destruct (rd buf (blk + i)) as [b|] eqn:Hb; [|done]. cbn [wp]. cbn zeta in *.
    pose proof (rd_bound _ _ _ Hb) as Hbd. pose proof (land_le_r b 0x1F ltac:(lia)) as HL.
    set (L := Z.land b 31) in *. set (tag := Z.land (Z.shiftr b 5) 7) in *. clearbody L tag.
    assert (Hnext : forall h2 c2 a2 i2, OffsetOfDetailedTimingBlock a2 = dtl -> walk_ok (h2, c2, a2) ->
      i < i2 -> attrib_fits f buf blk dtl i2 = true ->
      (OffsetOfDetailedTimingBlock a2 = dtl /\ walk_ok (h2, c2, a2) /\ 4 <= i2 /\
       exists f, attrib_fits f buf blk dtl i2 = true) /\ (Z.to_nat (256 - i2) < Z.to_nat (256 - i))%nat).
    { intros h2 c2 a2 i2 E2 Hw' Hlt Hfit. split; [|lia]. split; [done|]. split; [done|]. split; [lia|]. by exists f. }
    replace (i + 1 + L) with (i + (L + 1)) by lia.
    destruct (tag =? VENDOR_SPECIFIC_DATA_BLOCK_TAG); [|destruct (tag =? AUDIO_DATA_BLOCK_TAG);
      [|destruct (tag =? SPEAKER_ALLOCATION_DATA_BLOCK_TAG)]];
      apply andb_true_iff in Hf' as [Hr%Z.leb_le Hf'].
    + wp_step. wp_step. apply Hnext; try done. lia.
    + destruct Hw as [Ha' Ec]. pose proof (at_sads _ Ha') as Hsl. pose proof (at_sadcnt _ Ha') as Hsc.
      assert (Hdiv : 0 <= L / 3 <= 10 /\ 3 * (L / 3) <= L) by dlia.
      assert (u8 (c' + L / 3) = c' + L / 3) as -> by (unfold u8, wrap; dlia).
      set (cnt := if 15 <? c' + L / 3 then 15 else c' + L / 3).
      assert (Hn : c' <= cnt <= 15 /\ cnt <= c' + L / 3)
        by (unfold cnt; destruct (Z.ltb_spec 15 (c' + L / 3)); lia). clearbody cnt.
      apply wp_bind. apply wp_mono with (P := fun l => zlen l = 45).
      * wp_step; [|done]. apply wp_memcpy; lia.
      * intros q Hq. cbn [wp]. apply Hnext; [done| |lia|done]. split; [|done].
        destruct Ha'; constructor; cbn; try done; lia.
    + destruct Hw as [Ha' Ec]. wp_step. wp_step. cbn [wp]. apply Hnext; [done| |lia|done].
      split; [destruct Ha'; by constructor|done].
    + cbn [wp]. apply Hnext; try done. lia.
Qed.

Lemma set_cap_ok n v a : attr_ok a -> attr_ok (set_cap n v a).
Proof. intros []. by constructor. Qed.

Lemma attrib_ext_block_wp buf k st :
  walk_ok st -> bytes buf -> 1 <= k < zlen buf / 128 -> cea_block_fits buf k = true ->
  wp (attrib_ext_block buf (k * 128) st) walk_ok.
Proof.
  destruct st as [[h c] a]. intros [Ha Ec] Hb Hk Hf. unfold attrib_ext_block.
  assert (128 * (zlen buf / 128) <= zlen buf) by dlia.
  unfold cea_block_fits in Hf. cbn zeta in Hf. replace (k * 128 + 0) with (k * 128) by lia.
  wp_step. wp_step. rewrite Hx in Hf. destruct (rd buf (k * 128 + 1)) as [b1|] eqn:Hb1; [|done].
  destruct (rd buf (k * 128 + 2)) as [b2|] eqn:Hb2; [|done].
  cbn iota beta in Hf. wp_step; [done|]. cbn [negb orb] in Hf. apply andb_true_iff in Hf as [Hf _].
  cbn [rbind]. wp_step; [done|]. cbn [orb] in Hf. do 2 wp_step. cbn zeta.
  match goal with |- context [attrib_data_blocks buf (k * 128) (h, c, ?u)] => set (a1 := u) end.
  assert (H1 : attr_ok a1 /\ SAD_Count a1 = c /\ OffsetOfDetailedTimingBlock a1 = b2).
  { split; [|by destruct a]. subst a1. repeat apply set_cap_ok. destruct Ha. by constructor. }
  destruct H1 as (Ha1 & Ec1 & Ed). clearbody a1.
  pose proof (rd_Forall _ _ _ _ Hb Hb2) as Hb2f. unfold fits in Hb2f.
  apply wp_bind. eapply wp_mono; [eapply attrib_data_blocks_wp; [done|lia| |]|].
  - cbn [snd]. rewrite Ed. lia.
  - cbn [snd]. rewrite Ed. exact Hf.
  - intros [[h2 c2] a2] [Ha2 Ec2]. cbn. destruct (_ && _); [|done].
    split; [by apply set_cap_ok|by destruct a2].
Qed.

(** A buffer whose blocks can be walked: one to eight blocks of bytes, and in every
    extension what is read of its data blocks ([block_reach], [attrib_fits], [did_fits])
    inside it. *)
Definition edid_wf (buf : list Z) : bool :=
  (zlen buf mod 128 =? 0) && (128 <=? zlen buf) && (zlen buf <=? 1024) &&
  forallb (fun b => (0 <=? b) && (b <? 256)) buf &&
  forallb (fun k => cea_block_fits buf k && did_block_fits buf k) (seqZ 1 (zlen buf / 128 - 1)).

Record wf_facts (buf : list Z) : Prop := {
  wf_len : 128 <= zlen buf <= 1024;
  wf_bytes : bytes buf;
  wf_cea : forall k, 1 <= k < zlen buf / 128 -> cea_block_fits buf k = true;
  wf_did : forall k, 1 <= k < zlen buf / 128 -> did_block_fits buf k = true
}.

Lemma edid_wf_facts buf : edid_wf buf = true -> wf_facts buf.
Proof.
  unfold edid_wf. rewrite !andb_true_iff, !forallb_forall, !Z.leb_le.
  intros ((((_ & H1) & H2) & H3) & H4).
  assert (Hk : forall k, 1 <= k < zlen buf / 128 -> cea_block_fits buf k = true /\ did_block_fits buf k = true).
  { intros k Hk. apply andb_true_iff, H4, list_elem_of_In, elem_of_seqZ. lia. }
  constructor; [lia| |by intros; apply Hk|by intros; apply Hk].
  apply List.Forall_forall. intros x Hx.
  specialize (H3 _ Hx). unfold fits. change (2 ^ 8) with 256. lia.
Qed.

(** An EDID buffer with its recorded size. *)
Definition edid_data_ok (d : CBIOS_EDID_DATA) : Prop :=
  exists buf, Buffer d = Some buf /\ BufferSize d = zlen buf /\ wf_facts buf.

Lemma IsEDIDValid_wp d (Q : bool -> Prop) :
  edid_data_ok d -> (forall b, Q b) -> wp (cbEDIDModule_IsEDIDValid d) Q.
Proof.
  intros (buf & Hb & Hs & [Hl _ _ _]) HQ. unfold cbEDIDModule_IsEDIDValid. rewrite Hb, Hs.
  unfold cbEDIDModule_IsEDIDHeaderValid. destruct (Z.ltb_spec (zlen buf) 8); [lia|].
  wp_step. apply wp_bytes_are; [lia|change (zlen EDID1header) with 8; lia|]. intros []; [|apply HQ].
  destruct (cbIsEdidChecksumValid_run buf (zlen buf)) as (b & -> & _); [lia|]. apply HQ.
Qed.

Lemma GetMonitorAttrib_wp d a :
  attr_ok a -> SAD_Count a = 0 -> edid_data_ok d ->
  wp (cbEDIDModule_GetMonitorAttrib d a) (fun '(_, a') => attr_ok a').
Proof.
  intros Ha Hc Hd. unfold cbEDIDModule_GetMonitorAttrib.
  apply wp_bind, IsEDIDValid_wp; [done|]. intros []; cbn [negb]; [|done].
  destruct Hd as (buf & Hb & Hs & [Hl Hby Hcea _]). rewrite Hb. cbn [deref rbind].
  pose proof (at_manuf _ Ha) as Hmf. pose proof (at_prod _ Ha) as Hpc.
  do 4 wp_step. apply wp_bind, GetChromaticity_wp; [lia|]. intros chroma.
  destruct (rd_in buf 8) as [m0 R0]; [lia|]. destruct (rd_in buf 9) as [m1 R1]; [lia|].
  destruct (rd_in buf 10) as [m2 R2]; [lia|]. destruct (rd_in buf 11) as [m3 R3]; [lia|].
  pose proof (rd_Forall _ _ _ _ Hby R0) as F0. pose proof (rd_Forall _ _ _ _ Hby R1) as F1.
  pose proof (rd_Forall _ _ _ _ Hby R2) as F2. pose proof (rd_Forall _ _ _ _ Hby R3) as F3.
  rewrite (GetMonitorID_run buf _ m0 m1 m2 m3) by (done || apply Ha). cbn [rbind]. cbn zeta.
  match goal with |- context [for_up 4 0 _ ?u] => set (a1 := u) end.
  assert (H1 : at_base a a1).
  { split; [|done]. destruct Ha. constructor; cbn [u8]; try done; subst a1; cbn; congruence. }
  clearbody a1.
  apply wp_bind, wp_for_up with (I := fun _ a' => at_base a a'); [done| |].
  { intros i a' Hi [Ha' E]. eapply wp_mono; [apply base_descriptor_wp; [done|lia|lia]|].
    intros a2 [Ha2 E2]. split; [done|congruence]. }
  clear a1 H1. intros a1 [Ha1 E1]. apply wp_bind.
  eapply wp_mono; [apply GetMonitorSize_wp; [done|done|lia]|]. intros a2 [Ha2 E2].
  do 8 wp_step. cbn zeta.
  match goal with |- context [for_up _ 1 _ (false, 0, ?u)] => set (a3 := u) end.
  assert (H3 : walk_ok (false, 0, a3)).
  { assert (H0 : attr_ok (a2 <| CEA861MonitorCaps := 0 |>) /\ SAD_Count (a2 <| CEA861MonitorCaps := 0 |>) = 0).
    { split; [destruct Ha2; by constructor|cbn; congruence]. }
    assert (Hset : forall n v b, attr_ok b /\ SAD_Count b = 0 ->
      attr_ok (set_cap n v b) /\ SAD_Count (set_cap n v b) = 0).
    { intros n v b [? ?]. split; [by apply set_cap_ok|by destruct b]. }
    subst a3. cbn [walk_ok]. repeat (match goal with |- context [if ?c then _ else _] => destruct c end);
      repeat apply Hset; exact H0. }
  clearbody a3. unfold cbEDIDModule_GetTotalBlockNum, EDID_BLK_SIZE. rewrite Hb, Hs.
  apply wp_bind, wp_for_up with (I := fun _ st => walk_ok st); [done| |].
  - intros k st Hk Hst. apply attrib_ext_block_wp; [done|done|lia|]. apply Hcea. lia.
  - intros [[h c] a4] [Ha4 _]. done.
Qed.
Lemma memcpy_whole {A} (dst src : list A) :
  zlen dst = zlen src -> memcpy dst 0 src 0 (zlen src) = Ok src.
Proof.
  intros Hl. pose proof (zlen_nonneg src).
  destruct (memcpy_ok dst src 0 0 (zlen src)) as (q & -> & Hq & Hin & _); try lia.
  f_equal. apply rd_ext; [lia|]. intros j Hj. apply (Hin j). lia.
Qed.

(** A copy stores the whole buffer, unless the allocation fails. *)
Lemma cbCopyBuffer2EdidData_run ok d buf0 buf :
  Buffer d = Some buf0 -> BufferSize d = zlen buf0 -> 0 < zlen buf ->
  cbCopyBuffer2EdidData ok d buf (zlen buf) =
  Ok (if ok || (zlen buf0 =? zlen buf) then (true, mkEdidData (Some buf) (zlen buf)) else (false, d)).
Proof.
  intros Hb Hs Hl. unfold cbCopyBuffer2EdidData. rewrite Hs.
  destruct (Z.eqb_spec (zlen buf) 0); [lia|].
  destruct (Z.eqb_spec (zlen buf0) (zlen buf)) as [E|E]; cbn [negb orb].
  - rewrite orb_true_r, Hb. cbn [deref rbind]. rewrite (memcpy_whole _ _ E). cbn [rbind].
    destruct d as [b sz]. cbn in *. congruence.
  - rewrite orb_false_r. destruct ok; cbn [negb]; [|done].
    rewrite memcpy_whole; [done|]. rewrite zlen_replicate. lia.
Qed.

Lemma edid_data_ok_copy ok d buf (Q : bool * CBIOS_EDID_DATA -> Prop) :
  edid_data_ok d -> edid_wf buf = true ->
  (forall b d', edid_data_ok d' -> Q (b, d')) ->
  wp (cbCopyBuffer2EdidData ok d buf (zlen buf)) Q.
Proof.
  intros Hd Hw HQ. apply edid_wf_facts in Hw as Hf. pose proof (wf_len _ Hf).
  destruct Hd as (buf0 & Hb & Hs & H0). rewrite (cbCopyBuffer2EdidData_run _ _ buf0) by (done || lia).
  destruct (_ || _); apply HQ.
  - exists buf. done.
  - by exists buf0.
Qed.

Lemma str_is2_wp a la na b lb nb (Q : bool -> Prop) :
  na <= zlen a -> na <= zlen (cstr la) -> nb <= zlen b -> nb <= zlen (cstr lb) ->
  (forall c, Q c) -> wp (str_is2 a la na b lb nb) Q.
Proof.
  intros ? ? ? ? HQ. unfold str_is2. apply wp_bind, str_is_wp; [done|done|].
  intros []; [|apply HQ].
  by apply str_is_wp.
Qed.

Ltac str2_step :=
  apply str_is2_wp; [lia | vm_compute; discriminate | lia | vm_compute; discriminate | intros []].

Lemma replacements_wf :
  edid_wf PHL_24PFL3545_Edid = true /\ edid_wf AUO_B145QAN01_Edid = true /\ edid_wf CSW1473_Edid = true.
Proof. by vm_compute. Qed.

Lemma Patch_wp ok d a :
  attr_ok a -> edid_data_ok d ->
  wp (cbEDIDModule_Patch ok d a) (fun '(_, d', a') => attr_ok a' /\ edid_data_ok d').
Proof.
  intros Ha Hd. destruct replacements_wf as (W1 & W2 & W3). unfold cbEDIDModule_Patch.
  pose proof (at_id _ Ha). pose proof (at_name _ Ha). pose proof (at_text _ Ha).
  assert (Htail : forall (b : bool) d1, edid_data_ok d1 -> wp
    (let! p1 := str_is2 (MonitorID a) "CSW1434" 7 (Alphanumeric a) "MNE507DA1-1" 11 in
     let! bFreeSyncToSupport :=
       if p1 : bool then Ok true
       else str_is2 (MonitorID a) "TMA07E7" 7 (Alphanumeric a) "TL145ADMP010" 12 in
     let a := if negb bFreeSyncToSupport && bSupportFreeSync (MRLData a)
       then a <| MRLData ::= fun m => m <| bSupportFreeSync := false |> |> else a in
     Ok (b, d1, a)) (fun '(_, d', a') => attr_ok a' /\ edid_data_ok d')).
  { intros b d1 Hd1. apply wp_bind. str2_step; apply wp_bind; [|str2_step]; cbn [wp];
      (split; [|exact Hd1]); destruct (_ && _); (exact Ha || (destruct Ha; by constructor)). }
  assert (Hcp : forall e, edid_wf e = true -> wp
    (let! '(_, d') := cbCopyBuffer2EdidData ok d e (zlen e) in Ok (true, d'))
    (fun '(_, d') => edid_data_ok d')).
  { intros e He. apply wp_bind, edid_data_ok_copy; [done|done|]. intros b d' Hd'. done. }
  apply wp_bind. str2_step; apply wp_bind, wp_mono with (P := fun '(_, d') => edid_data_ok d');
    try (intros [b d1] Hd1; by apply Htail); cbn [andb].
  all: repeat match goal with
    | |- wp (if _ then _ else _) _ => wp_step; [by apply Hcp|]
    | |- wp (rbind (str_is2 _ _ _ _ _ _) _) _ => apply wp_bind; str2_step; [by apply Hcp|]
    end.
  all: done.
Qed.

(** *** The whole parse *)

(** The number of timings a buffer of eight blocks can give rise to. *)
Definition max_timings : Z := 30437.

Lemma st_ok_init a n : attr_ok a -> st_ok 0 (zero_edid_struct <| AllocCalls := n |> <| Attribute := a |>).
Proof.
  intros Ha. constructor; [|exact Ha|].
  - split; [cbn; lia|]. split; [lia|done].
  - constructor; [done|cbn; lia].
Qed.

Lemma parse_modes_wp pool d a n :
  attr_ok a -> edid_data_ok d ->
  wp (let s := zero_edid_struct <| AllocCalls := n |> <| Attribute := a |> in
      let! buf := deref (Buffer d) in
      let! '(_, s) := cbEDIDModule_GetDetailedMode pool buf s in
      let! s :=
        if 128 <? BufferSize d then
          let! '(_, s) := cbEDIDModule_GetCEA861Mode pool d s in
          let! '(_, s) := cbEDIDModule_GetDisplayIDMode pool d s in Ok s
        else Ok s in
      let! '(_, s) := cbEDIDModule_GetEstablishMode pool buf s in
      let! '(_, s) := cbEDIDModule_GetStandardMode pool buf s in
      Ok (true, d, s)) (fun '(b, _, s) => b = true /\ st_ok max_timings s).
Proof.
  intros Ha (buf & Hb & Hs & [Hl Hby Hcea Hdid]). cbn zeta. pose proof (st_ok_init a n Ha) as H0.
  set (s0 := _ <| Attribute := a |>) in *. clearbody s0. rewrite Hb. cbn [deref rbind].
  apply wp_bind. eapply wp_mono; [apply (GetDetailedMode_wp pool 0); [done|lia|done|lia]|].
  intros [n1 s1] H1. apply wp_bind. apply wp_mono with (P := st_ok 30412).
  { destruct (128 <? BufferSize d); [|cbn; st_mono]. apply wp_bind.
    eapply wp_mono; [apply (GetCEA861Mode_wp pool 4 d buf); done || lia|]. intros [n2 s2] H2.
    apply wp_bind.
    eapply wp_mono; [apply (GetDisplayIDMode_wp pool 26968 d buf); done || lia|]. intros [n3 s3] H3.
    exact H3. }
  intros s2 H2. apply wp_bind.
  eapply wp_mono; [apply (GetEstablishMode_wp pool 30412); [apply H2|lia|lia]|].
  intros [n3 s3] H3. apply (st_ok_fills _ _ _ _ H2) in H3. apply wp_bind.
  eapply wp_mono; [apply (GetStandardMode_wp pool 30429); [apply H3|lia|lia]|].
  intros [n4 s4] H4. split; [done|]. exact (st_ok_fills _ _ _ _ H3 H4).
Qed.

(** Buffers that start with a header and whose blocks sum to zero. *)
Definition edid_valid (buf : list Z) : Prop :=
  take 8 buf = EDID1header /\ zlen buf mod 128 = 0 /\
  forall k, 0 <= k < zlen buf / 128 -> zsum (edid_block buf k) mod 256 = 0.

Lemma bytes_are_run p off l :
  0 <= off -> off + zlen l <= zlen p ->
  bytes_are p off l = Ok (bool_decide (take (length l) (drop (Z.to_nat off) p) = l)).
Proof.
  revert off. induction l as [|x l IH]; intros off Ho Hl; cbn [bytes_are]; [done|].
  rewrite zlen_cons in Hl. pose proof (zlen_nonneg l).
  destruct (rd_in p off) as [b Hb]; [lia|]. rewrite Hb. cbn [rbind].
  apply rd_inv in Hb as [_ Hb]. rewrite (drop_S _ _ _ Hb). cbn [length take].
  destruct (Z.eqb_spec b x) as [->|Hne].
  - rewrite IH by lia. replace (Z.to_nat (off + 1)) with (S (Z.to_nat off)) by lia.
    f_equal. apply bool_decide_ext. split; congruence.
  - rewrite bool_decide_eq_false_2; [done|]. congruence.
Qed.

Lemma IsEDIDValid_run buf :
  exists b, cbEDIDModule_IsEDIDValid (mkEdidData (Some buf) (zlen buf)) = Ok b /\
    (b = true <-> edid_valid buf).
Proof.
  unfold cbEDIDModule_IsEDIDValid, cbEDIDModule_IsEDIDHeaderValid, edid_valid. cbn [Buffer BufferSize].
  destruct (Z.ltb_spec (zlen buf) 8) as [H8|H8].
  { exists false. split; [done|]. split; [done|]. intros [E _]. apply (f_equal length) in E.
    rewrite length_take in E. change (length EDID1header) with 8%nat in E. unfold zlen in H8. lia. }
  rewrite bytes_are_run by (change (zlen EDID1header) with 8; lia).
  change (length EDID1header) with 8%nat. change (drop (Z.to_nat 0) buf) with buf. cbn [rbind].
  destruct (bool_decide_reflect (take 8 buf = EDID1header)) as [E|E].
  - destruct (cbIsEdidChecksumValid_run buf (zlen buf)) as (b & Hb & Hiff); [lia|].
    exists b. split; [done|]. rewrite Hiff. intuition lia.
  - exists false. split; [done|]. split; [done|]. by intros [? _].
Qed.

(** What a parse leaves behind when the buffer is refused. *)
Definition empty_structure : CBIOS_EDID_STRUCTURE_DATA := zero_edid_struct <| AllocCalls := 1%nat |>.

Lemma ParseEDID_wp pool d valid :
  edid_data_ok d -> cbEDIDModule_IsEDIDValid d = Ok valid ->
  wp (cbEDIDModule_ParseEDID pool d) (fun '(ok, d', s) =>
    st_ok max_timings s /\ if valid then ok = true else ok = false /\ d' = d /\ s = empty_structure).
Proof.
  intros Hd Hv. assert (Hz := st_ok_init _ 1%nat attr_ok_zero).
  unfold cbEDIDModule_ParseEDID. cbn zeta. rewrite Hv. cbn [rbind]. destruct valid; cbn [negb].
  2: { cbn [wp]. split; [|done].
       eapply (st_ok_mono 0); [exact Hz|unfold max_timings; lia|unfold max_timings; lia]. }
  apply wp_bind. eapply wp_mono; [apply GetMonitorAttrib_wp; [apply attr_ok_zero|done|done]|].
  intros [c a] Ha. apply wp_bind. eapply wp_mono; [by apply Patch_wp|].
  intros [[p d1] a1] [Ha1 Hd1]. apply wp_bind. apply wp_mono with (P := attr_ok).
  - destruct p; [|exact Ha1]. apply wp_bind.
    eapply wp_mono; [apply GetMonitorAttrib_wp; [apply attr_ok_zero|done|done]|]. by intros [c2 a2] H2.
  - intros a2 Ha2. eapply wp_mono; [by apply (parse_modes_wp pool d1 a2 1%nat)|].
    intros [[b d2] s] [-> Hs]. done.
Qed.

Lemma edid_data_ok_wf buf : edid_wf buf = true -> edid_data_ok (mkEdidData (Some buf) (zlen buf)).
Proof. intros H. exists buf. split; [done|]. split; [done|by apply edid_wf_facts]. Qed.

(** A buffer that is not valid is refused, whatever its length is. *)
Lemma ParseEDID_refuses pool d :
  cbEDIDModule_IsEDIDValid d = Ok false -> cbEDIDModule_ParseEDID pool d = Ok (false, d, empty_structure).
Proof. intros H. unfold cbEDIDModule_ParseEDID. by rewrite H. Qed.

(** Only the validity is a reason to refuse. *)
Lemma ParseEDID_never_refuses pool d ok d' s :
  cbEDIDModule_IsEDIDValid d = Ok true -> cbEDIDModule_ParseEDID pool d = Ok (ok, d', s) -> ok = true.
Proof.
  intros H. unfold cbEDIDModule_ParseEDID. cbn zeta. rewrite H. cbn [rbind negb].
  repeat (let x := fresh in let E := fresh in intros (x & _ & E)%rbind_ok_inv; revert E;
          repeat match goal with |- context [let '(_, _) := ?p in _] => destruct p end).
  by intros [= <- _ _].
Qed.

(** C1. Parsing never faults, for every buffer, of any length, that is not a valid EDID,
    and for every valid one of one to eight blocks of bytes in which the reading of the
    data blocks stays inside the buffer, and every behaviour of the allocator:
    [cbEDIDModule_ParseEDID] reads and writes inside its arrays, divides by no zero,
    follows no null pointer and ends, and the structure it leaves is well formed. How far
    a data block is read is [block_reach]: to its end and, for what the code reads without
    looking at the length of the block, to the end of the 3D formats of an HDMI vendor
    block, of the descriptors of an HDMI audio block, of the fixed fields of the other
    blocks, and three bytes behind an InfoFrame block. The code checks none of this:
    valid EDIDs on which it leaves the buffer are in ParseEDID_vsdb_length_fault and
    ParseEDID_dtl_offset_fault. *)
Theorem ParseEDID_safe pool buf :
  (edid_valid buf -> edid_wf buf = true) ->
  exists ok d' s, cbEDIDModule_ParseEDID pool (mkEdidData (Some buf) (zlen buf)) = Ok (ok, d', s) /\
    st_ok max_timings s.
Proof.
  intros Hw. destruct (IsEDIDValid_run buf) as (v & Hv & Hiff). destruct v.
  - pose proof (edid_data_ok_wf _ (Hw (proj1 Hiff eq_refl))) as Hd.
    pose proof (ParseEDID_wp pool _ true Hd Hv) as H. apply wp_ok in H as ([[ok d'] s] & H & Hs & _).
    by exists ok, d', s.
  - rewrite ParseEDID_refuses by done. eexists _, _, _. split; [done|].
    eapply (st_ok_mono 0); [exact (st_ok_init _ 1%nat attr_ok_zero)|unfold max_timings; lia|unfold max_timings; lia].
Qed.

Lemma ParseEDID_safe_witness :
  exists ok d' s, cbEDIDModule_ParseEDID (fun _ => true)
      (mkEdidData (Some PHL_24PFL3545_Edid) (zlen PHL_24PFL3545_Edid)) = Ok (ok, d', s) /\
    st_ok max_timings s.
Proof. apply (ParseEDID_safe (fun _ => true) PHL_24PFL3545_Edid). intros _. vm_compute. reflexivity. Defined.

(** C2. [cbEDIDModule_ParseEDID] accepts exactly the buffers that start with the EDID
    header and all of whose blocks sum to zero. Every other buffer, of any length, and
    none at all, is refused, is kept as it is and leaves the cleared structure. A valid
    buffer is never refused; it is accepted if its data blocks can be walked inside it,
    as C1 says (the parser faults on others, ParseEDID_vsdb_length_fault). *)
Theorem ParseEDID_accepts pool buf :
  (forall n, cbEDIDModule_ParseEDID pool (mkEdidData None n) = Ok (false, mkEdidData None n, empty_structure)) /\
  (~ edid_valid buf -> cbEDIDModule_ParseEDID pool (mkEdidData (Some buf) (zlen buf)) =
                         Ok (false, mkEdidData (Some buf) (zlen buf), empty_structure)) /\
  (edid_valid buf -> forall ok d' s,
     cbEDIDModule_ParseEDID pool (mkEdidData (Some buf) (zlen buf)) = Ok (ok, d', s) -> ok = true) /\
  (edid_valid buf -> edid_wf buf = true ->
     exists d' s, cbEDIDModule_ParseEDID pool (mkEdidData (Some buf) (zlen buf)) = Ok (true, d', s)).
Proof.
  destruct (IsEDIDValid_run buf) as (v & Hv & Hiff). split; [|split; [|split]].
  - intros n. by apply ParseEDID_refuses.
  - intros Hn. apply ParseEDID_refuses. rewrite Hv. destruct v; [|done]. by destruct Hn; apply Hiff.
  - intros Hy ok d' s. apply Hiff in Hy as ->. by apply ParseEDID_never_refuses.
  - intros Hy Hw. apply Hiff in Hy as ->.
    pose proof (ParseEDID_wp pool _ true (edid_data_ok_wf _ Hw) Hv) as H. apply wp_ok in H as ([[ok d'] s] & H & _ & ->).
    by exists d', s.
Qed.

Lemma CSW1473_valid : edid_valid CSW1473_Edid.
Proof. destruct (IsEDIDValid_run CSW1473_Edid) as (v & Hv & <-). vm_compute in Hv. by injection Hv as <-. Qed.

Lemma ParseEDID_accepts_witness :
  (exists d' s, cbEDIDModule_ParseEDID (fun _ => true)
      (mkEdidData (Some CSW1473_Edid) (zlen CSW1473_Edid)) = Ok (true, d', s)) /\
  cbEDIDModule_ParseEDID (fun _ => true) (mkEdidData (Some [0; 255]) 2) =
    Ok (false, mkEdidData (Some [0; 255]) 2, empty_structure).
Proof.
  split.
  - destruct (ParseEDID_accepts (fun _ => true) CSW1473_Edid) as (_ & _ & _ & H). apply H; [exact CSW1473_valid|].
    vm_compute. reflexivity.
  - destruct (ParseEDID_accepts (fun _ => true) [0; 255]) as (_ & H & _). apply H. intros [E _]. discriminate E.
Defined.

(** ** Where the bounds are not checked

    EDIDs with correct checksums on which the parser leaves its arrays. *)
Definition with_checksums (buf : list Z) : list Z :=
  match cbFixEdidChecksum buf (zlen buf) with Ok p => p | Err _ => buf end.

(** A base block (of no patched panel) and the given extension blocks. *)
Definition edid_with_exts (exts : list (list Z)) : list Z :=
  with_checksums (take 8 CSW1473_Edid ++ [16; 172; 1; 0] ++ take 114 (drop 12 CSW1473_Edid) ++
                  [zlen exts; 0] ++ concat exts).

Definition cea_block (dtl : Z) (blocks : list Z) : list Z :=
  take 128 ([CEA_TAG; 3; dtl; 0] ++ blocks ++ replicate 124 0).

(** A CEA block whose detailed timings are announced at offset 255. *)
Definition edid_bad_offset : list Z := edid_with_exts [cea_block 255 []].

(** [OffsetOfDetailedTimingBlock] is used unchecked by
    [cbEDIDModule_GetMonitorAttrib]: a valid EDID of two blocks makes the
    parser read past the end of the buffer. *)
Theorem ParseEDID_dtl_offset_fault :
  cbEDIDModule_IsEDIDValid (mkEdidData (Some edid_bad_offset) 256) = Ok true /\ zlen edid_bad_offset = 256 /\
  (forall pool, cbEDIDModule_ParseEDID pool (mkEdidData (Some edid_bad_offset) 256) = Err OutOfBounds).
Proof. split; [vm_compute; reflexivity|]. split; [vm_compute; reflexivity|]. intros pool. vm_compute. reflexivity. Qed.

(** An HDMI vendor block that ends before the checksum of its extension, whose length of
    3D formats is 31. *)
Definition edid_long_3d : list Z :=
  edid_with_exts [cea_block 127 ([0x5F] ++ replicate 31 0 ++ [0x5F] ++ replicate 31 0 ++ [0x5F] ++ replicate 31 0 ++
    [0x46] ++ replicate 6 0 ++ [0x73; 0x03; 0x0C; 0x00; 0x10; 0x00; 0x00; 0x00; 0x20; 0x00; 0x1F] ++ replicate 9 0)].

(** [cbEDIDModule_ParseHDMIVSDB] does not hold the 3D formats against the length of the
    block: a valid EDID of two blocks, with all data blocks inside it, makes the parser
    read past the end of the buffer. *)
Theorem ParseEDID_vsdb_length_fault :
  cbEDIDModule_IsEDIDValid (mkEdidData (Some edid_long_3d) 256) = Ok true /\ zlen edid_long_3d = 256 /\
  cbEDIDModule_ParseEDID (fun _ => true) (mkEdidData (Some edid_long_3d) 256) = Err OutOfBounds.
Proof. by vm_compute. Qed.

(** Nine blocks, the last with a video data block. *)
Definition edid_nine_blocks : list Z :=
  edid_with_exts (replicate 7 (replicate 128 0) ++ [cea_block 6 [0x41; 16]]).

(** [SVDData] has seven entries but is indexed by the block number: a valid
    EDID of nine blocks makes the parser write past the end of the array. *)
Theorem ParseEDID_svd_index_fault :
  cbEDIDModule_IsEDIDValid (mkEdidData (Some edid_nine_blocks) 1152) = Ok true /\
  zlen edid_nine_blocks = 1152 /\
  cbEDIDModule_ParseEDID (fun _ => true) (mkEdidData (Some edid_nine_blocks) 1152) = Err OutOfBounds.
Proof. by vm_compute. Qed.

(** The replacement EDID of the PHL0010 panel has a wrong checksum: once
    installed, the second [cbEDIDModule_GetMonitorAttrib] refuses it and the
    parsed structure has neither the identity nor the HDMI capability of the
    monitor, although its HDMI vendor block is decoded. *)
Theorem PHL_replacement_refused :
  let edid := with_checksums PHL_24PFL3545_Edid in
  cbEDIDModule_IsEDIDValid (mkEdidData (Some PHL_24PFL3545_Edid) 256) = Ok false /\
  exists s, cbEDIDModule_ParseEDID (fun _ => true) (mkEdidData (Some edid) 256) =
              Ok (true, mkEdidData (Some PHL_24PFL3545_Edid) 256, s) /\
            MonitorID (Attribute s) = replicate 8 0 /\ MonitorName (Attribute s) = replicate 16 0 /\
            CEA861MonitorCaps (Attribute s) = 0 /\ VSDBLength (VSDBData (Attribute s)) = 5.
Proof.
  split; [vm_compute; reflexivity|]. eexists. split; [vm_compute; reflexivity|].
  done.
Qed.

(** ** Identity and colours *)

(** The monitor identifier is the three manufacturer letters followed by
    the product code as four hexadecimal digits, high byte first; it always
    fits the eight bytes of [MonitorID] with its terminating zero. *)
Theorem GetMonitorID_spec buf id m0 m1 m2 m3 :
  bytes buf -> rd buf 8 = Ok m0 -> rd buf 9 = Ok m1 -> rd buf 10 = Ok m2 -> rd buf 11 = Ok m3 ->
  zlen id = 8 ->
  cbEDIDModule_GetMonitorID buf id = Ok (true, manufacturer m0 m1 ++ hex2 m3 ++ hex2 m2 ++ [0]).
Proof.
  intros Hb R0 R1 R2 R3 Hid. apply GetMonitorID_run; try done;
    match goal with |- fits 8 ?m => by eapply (rd_Forall _ _ _ _ Hb) end.
Qed.

Lemma CSW1473_bytes : bytes CSW1473_Edid.
Proof. apply wf_bytes, edid_wf_facts. by vm_compute. Qed.

Lemma GetMonitorID_spec_witness :
  cbEDIDModule_GetMonitorID CSW1473_Edid (replicate 8 0) = Ok (true, [67; 83; 87; 49; 52; 55; 51; 0]).
Proof. apply (GetMonitorID_spec CSW1473_Edid (replicate 8 0) 14 119 115 20 CSW1473_bytes); reflexivity. Defined.

Lemma letters_distinct i j :
  0 <= i < 32 -> 0 <= j < 32 ->
  default 0 (monitor_id_index !! Z.to_nat i) = default 0 (monitor_id_index !! Z.to_nat j) -> i = j.
Proof.
  intros Hi Hj.
  assert (H : forallb (fun i => forallb (fun j => negb (default 0 (monitor_id_index !! Z.to_nat i) =?
    default 0 (monitor_id_index !! Z.to_nat j)) || (i =? j)) (seqZ 0 32)) (seqZ 0 32) = true)
    by (vm_compute; reflexivity).
  rewrite forallb_forall in H. specialize (H i). rewrite forallb_forall in H.
  specialize (H ltac:(apply list_elem_of_In, elem_of_seqZ; lia) j
                ltac:(apply list_elem_of_In, elem_of_seqZ; lia)).
  intros E. rewrite E, Z.eqb_refl in H. cbn [negb orb] in H. by apply Z.eqb_eq.
Qed.

Lemma hex2_inj a b : fits 8 a -> fits 8 b -> hex2 a = hex2 b -> a = b.
Proof.
  intros Ha Hb [= E1 E2]. unfold fits in *. change (2 ^ 8) with 256 in *.
  assert (Hd : forall x y, 0 <= x < 16 -> 0 <= y < 16 -> digit_char x = digit_char y -> x = y).
  { intros x y Hx Hy. unfold digit_char. destruct (Z.ltb_spec x 10), (Z.ltb_spec y 10); lia. }
  apply Hd in E1; [|dlia|dlia]. apply Hd in E2; [|dlia|dlia]. dlia.
Qed.

(** The identifier determines the identification bytes it is made of: two
    EDIDs with the same identifier have the same product code and, up to the
    reserved top bit, the same manufacturer. *)
Theorem GetMonitorID_injective buf buf' id id' m0 m1 m2 m3 m0' m1' m2' m3' r :
  bytes buf -> rd buf 8 = Ok m0 -> rd buf 9 = Ok m1 -> rd buf 10 = Ok m2 -> rd buf 11 = Ok m3 ->
  bytes buf' -> rd buf' 8 = Ok m0' -> rd buf' 9 = Ok m1' -> rd buf' 10 = Ok m2' -> rd buf' 11 = Ok m3' ->
  zlen id = 8 -> zlen id' = 8 ->
  cbEDIDModule_GetMonitorID buf id = Ok (true, r) -> cbEDIDModule_GetMonitorID buf' id' = Ok (true, r) ->
  m0 mod 128 = m0' mod 128 /\ m1 = m1' /\ m2 = m2' /\ m3 = m3'.
Proof.
  intros Hb R0 R1 R2 R3 Hb' R0' R1' R2' R3' Hid Hid' E E'.
  pose proof (rd_Forall _ _ _ _ Hb R0) as F0. pose proof (rd_Forall _ _ _ _ Hb R1) as F1.
  pose proof (rd_Forall _ _ _ _ Hb R2) as F2. pose proof (rd_Forall _ _ _ _ Hb R3) as F3.
  pose proof (rd_Forall _ _ _ _ Hb' R0') as G0. pose proof (rd_Forall _ _ _ _ Hb' R1') as G1.
  pose proof (rd_Forall _ _ _ _ Hb' R2') as G2. pose proof (rd_Forall _ _ _ _ Hb' R3') as G3.
  rewrite (GetMonitorID_run buf id m0 m1 m2 m3) in E by done.
  rewrite (GetMonitorID_run buf' id' m0' m1' m2' m3') in E' by done.
  rewrite <- E' in E. clear E'. injection E as E1 E2 E3 E4 E5 E6 E7.
  unfold fits in F0, F1, G0, G1. change (2 ^ 8) with 256 in *.
  apply letters_distinct in E1; [|dlia|dlia]. apply letters_distinct in E2; [|dlia|dlia].
  apply letters_distinct in E3; [|dlia|dlia].
  split; [dlia|]. split; [dlia|]. split; apply hex2_inj; try done; unfold hex2; congruence.
Qed.

Lemma GetMonitorID_injective_witness :
  14 mod 128 = 14 mod 128 /\ 119 = 119 /\ 115 = 115 /\ 20 = 20.
Proof.
  apply (GetMonitorID_injective CSW1473_Edid CSW1473_Edid (replicate 8 0) (replicate 8 1)
    14 119 115 20 14 119 115 20 ([67; 83; 87; 49; 52; 55; 51; 0]) CSW1473_bytes); try reflexivity. exact CSW1473_bytes.
Defined.

(** The eight chromaticity coordinates are the ten-bit numbers of the EDID
    layout: the high eight bits from bytes 0x1B to 0x22, the low two bits from
    bytes 0x19 and 0x1A. *)
Theorem GetChromaticity_spec buf b :
  (forall i, 0 <= i < 128 -> rd buf i = Ok (b i) /\ fits 8 (b i)) ->
  cbEDIDModule_GetChromaticity buf = Ok (mkChroma
    (4 * b 0x1B + b 0x19 / 64) (4 * b 0x1C + b 0x19 / 16 mod 4)
    (4 * b 0x1D + b 0x19 / 4 mod 4) (4 * b 0x1E + b 0x19 mod 4)
    (4 * b 0x1F + b 0x1A / 64) (4 * b 0x20 + b 0x1A / 16 mod 4)
    (4 * b 0x21 + b 0x1A / 4 mod 4) (4 * b 0x22 + b 0x1A mod 4)).
Proof.
  intros H. unfold cbEDIDModule_GetChromaticity.
  assert (Hlor : forall x m, fits 8 x -> 0 <= m < 4 -> Z.lor (Z.shiftl x 2) m = 4 * x + m).
  { intros x m Hx Hm. rewrite Z.shiftl_mul_pow2 by lia. change (2 ^ 2) with 4.
    assert (E : Z.land (x * 4) m = 0).
    { assert (m = 0 \/ m = 1 \/ m = 2 \/ m = 3) as [->|[->|[->| ->]]] by lia; by_bytes x. }
    pose proof (Z.add_lor_land (x * 4) m). lia. }
  repeat match goal with |- context [rd buf ?i] =>
    rewrite (proj1 (H i ltac:(lia))); cbn [rbind] end.
  pose proof (proj2 (H 0x19 ltac:(lia))) as F1. pose proof (proj2 (H 0x1A ltac:(lia))) as F2.
  destruct (mask_values _ F1) as (_ & _ & _ & -> & -> & -> & ->).
  destruct (mask_values _ F2) as (_ & _ & _ & -> & -> & -> & ->).
  unfold fits in F1, F2. change (2 ^ 8) with 256 in F1, F2.
  rewrite !Hlor by (apply H || dlia; lia). reflexivity.
Qed.

Lemma GetChromaticity_spec_witness :
  cbEDIDModule_GetChromaticity CSW1473_Edid = Ok (mkChroma 655 338 307 614 154 61 321 337).
Proof.
  refine (GetChromaticity_spec CSW1473_Edid (fun i => default 0 (CSW1473_Edid !! Z.to_nat i)) _).
  intros i Hi. destruct (rd_in CSW1473_Edid i) as [x Hx]; [change (zlen CSW1473_Edid) with 256; lia|].
  pose proof (rd_Forall _ _ _ _ CSW1473_bytes Hx). rewrite Hx. apply rd_inv in Hx as [_ Hx]. rewrite Hx. done.
Defined.
