(* ===== verification/EdidExt.v ===== *)
(** * What the extension decoders mean

    Theorems on the decoders of [EdidCea]: short audio descriptors, the audio
    patches, the HDMI vendor block and DisplayID descriptors. *)
From S2P Require Import Prelude CbUtil Timing TimingTables EdidTypes EdidTiming EdidCea EdidList Edid.

(** ** Short audio descriptors *)

(** The formats in use. *)
Definition audio_list (s : CBIOS_EDID_STRUCTURE_DATA) : list CBIOS_HDMI_AUDIO_INFO :=
  take (Z.to_nat (HDAudioFormatNum s)) (HDAudioFormat s).

(** One three-byte descriptor: nothing for the reserved code 0. *)
Definition sad_code (b1 : Z) : Z := Z.land (Z.shiftr b1 3) 0xF.
Definition decode_sad (b1 b2 b3 : Z) : list CBIOS_HDMI_AUDIO_INFO :=
  let code := sad_code b1 in
  if code =? 0 then []
  else
    let a := if code <? 15 then zero_audio <| Format := code |> else zero_audio in
    [set_audio_detail code b3
       (a <| MaxChannelNum := Z.land b1 0x7 + 1 |> <| SampleRateUnit := Z.land b2 0x7F |>)].

Fixpoint decode_sads (n : nat) (b : Z -> Z) (i : Z) : list CBIOS_HDMI_AUDIO_INFO :=
  match n with
  | O => []
  | S n' => decode_sad (b i) (b (i + 1)) (b (i + 2)) ++ decode_sads n' b (i + 3)
  end.

(** The unused entries of the array are cleared. *)
Definition audio_clean (s : CBIOS_EDID_STRUCTURE_DATA) : Prop :=
  forall j, HDAudioFormatNum s <= j < 16 -> rd (HDAudioFormat s) j = Ok zero_audio.

Lemma decode_sads_snoc n b i :
  decode_sads (S n) b i = decode_sads n b i ++
    decode_sad (b (i + 3 * Z.of_nat n)) (b (i + 3 * Z.of_nat n + 1)) (b (i + 3 * Z.of_nat n + 2)).
Proof.
  revert i. induction n as [|n IH]; intros i.
  - cbn [decode_sads]. rewrite app_nil_r. by replace (i + 3 * Z.of_nat 0) with i by lia.
  - cbn [decode_sads] in *. rewrite IH, <- app_assoc. do 2 f_equal.
    by replace (i + 3 + 3 * Z.of_nat n) with (i + 3 * Z.of_nat (S n)) by lia.
Qed.

Lemma take_insert_next {A} (l : list A) n x :
  0 <= n < zlen l -> take (Z.to_nat (n + 1)) (<[Z.to_nat n := x]> l) = take (Z.to_nat n) l ++ [x].
Proof. apply take_insert_end. Qed.

(** The state of the loop after [j] descriptors: the formats so far, cut at 16. *)
Definition audio_inv (s : CBIOS_EDID_STRUCTURE_DATA) (b : Z -> Z) (j num : Z)
    (fmts : list CBIOS_HDMI_AUDIO_INFO) : Prop :=
  0 <= num <= 16 /\ zlen fmts = 16 /\
  take (Z.to_nat num) fmts = take 16 (audio_list s ++ decode_sads (Z.to_nat j) b 1) /\
  forall k, num <= k < 16 -> rd fmts k = Ok zero_audio.

Lemma audio_inv_len s b j num fmts :
  audio_inv s b j num fmts ->
  num = Z.min 16 (zlen (audio_list s ++ decode_sads (Z.to_nat j) b 1)).
Proof.
  intros (Hn & Hl & E & _). apply (f_equal zlen) in E. unfold zlen in *.
  rewrite !length_take in E. lia.
Qed.

Lemma audio_step s b j num fmts :
  audio_inv s b j num fmts -> 0 <= j -> num < 16 ->
  let c := sad_code (b (1 + j * 3)) in
  if c =? 0 then audio_inv s b (j + 1) num fmts
  else forall a, decode_sad (b (1 + j * 3)) (b (1 + j * 3 + 1)) (b (1 + j * 3 + 2)) = [a] ->
       audio_inv s b (j + 1) (num + 1) (<[Z.to_nat num := a]> fmts).
Proof.
  intros Hinv Hj Hnum. pose proof (audio_inv_len _ _ _ _ _ Hinv) as Hmin.
  destruct Hinv as (Hn & Hl & E & Hz). cbn zeta.
  assert (El : zlen (audio_list s ++ decode_sads (Z.to_nat j) b 1) = num) by lia.
  rewrite (take_ge (_ ++ _)) in E by (unfold zlen in *; lia).
  assert (Es : decode_sads (Z.to_nat (j + 1)) b 1 = decode_sads (Z.to_nat j) b 1 ++
     decode_sad (b (1 + j * 3)) (b (1 + j * 3 + 1)) (b (1 + j * 3 + 2))).
  { replace (Z.to_nat (j + 1)) with (S (Z.to_nat j)) by lia. rewrite decode_sads_snoc.
    by replace (1 + 3 * Z.of_nat (Z.to_nat j)) with (1 + j * 3) by lia. }
  unfold audio_inv. rewrite Es.
  destruct (Z.eqb_spec (sad_code (b (1 + j * 3))) 0) as [E0|E0].
  - split; [done|]. split; [done|]. split; [|done].
    unfold decode_sad. rewrite E0. cbn [Z.eqb]. rewrite app_nil_r, E, take_ge; [done|unfold zlen in *; lia].
  - intros a ->. split; [lia|]. split; [by rewrite zlen_insert|]. split.
    + rewrite take_insert_next, E by lia. rewrite app_assoc, take_ge; [done|].
      rewrite length_app. cbn. unfold zlen in *. lia.
    + intros k Hk. rewrite rd_insert_ne by lia. apply Hz. lia.
Qed.

(** Once sixteen formats are in use, further descriptors change nothing. *)
Lemma decode_sads_prefix n m b i : (n <= m)%nat -> exists k, decode_sads m b i = decode_sads n b i ++ k.
Proof.
  induction 1 as [|m _ [k IH]]; [exists []; by rewrite app_nil_r|].
  rewrite decode_sads_snoc, IH, <- app_assoc. by eexists.
Qed.

Lemma audio_inv_full s b j j' fmts :
  audio_inv s b j 16 fmts -> 0 <= j <= j' -> audio_inv s b j' 16 fmts.
Proof.
  intros Hinv Hj. pose proof (audio_inv_len _ _ _ _ _ Hinv) as Hm.
  destruct Hinv as (Hn & Hl & E & Hz). split; [done|]. split; [done|]. split; [|done].
  destruct (decode_sads_prefix (Z.to_nat j) (Z.to_nat j') b 1) as [k ->]; [lia|].
  rewrite E, app_assoc, (take_app_le (audio_list s ++ _)); [done|]. unfold zlen in Hm. lia.
Qed.

Lemma sad_code_range b1 : 0 <= sad_code b1 <= 15.
Proof. unfold sad_code. apply land_le_r. lia. Qed.

(** [cbEDIDModule_GetHDMIAudioFormat] appends the decoded descriptors of an
    audio block to the formats in use, in order, skipping the reserved code and
    stopping at 16 formats. *)
Theorem GetHDMIAudioFormat_appends buf off s b L :
  audio_ok s -> audio_clean s -> L = Z.land (b 0) 0x1F ->
  (forall i, 0 <= i <= L -> rd buf (off + i) = Ok (b i)) ->
  exists n s', cbEDIDModule_GetHDMIAudioFormat buf off s = Ok (n, s') /\
    audio_list s' = take 16 (audio_list s ++ decode_sads (Z.to_nat (L / 3)) b 1) /\
    n = zlen (audio_list s') - zlen (audio_list s) /\ audio_ok s' /\ audio_clean s'.
Proof.
  intros [Hal Han] Hc HL Hb. unfold cbEDIDModule_GetHDMIAudioFormat, CBIOS_HDMI_AUDIO_FORMAT_COUNTS.
  pose proof (land_le_r (b 0) 0x1F ltac:(lia)) as HLb. rewrite <- HL in HLb.
  assert (H0 : rd buf off = Ok (b 0)) by (rewrite <- (Hb 0) by lia; f_equal; lia).
  rewrite H0. cbn [rbind]. cbn zeta. rewrite <- HL.
  assert (Hdiv : 0 <= L / 3 <= 10 /\ 3 * (L / 3) <= L) by dlia.
  match goal with |- context [iterate 12 ?body ?st] =>
    destruct (iterate_rule
      (fun '(j, num, fmts) => 0 <= j <= L / 3 /\ audio_inv s b j num fmts)
      (fun '(num, fmts) => audio_inv s b (L / 3) num fmts)
      (fun '(j, _, _) => Z.to_nat (L / 3 - j)) 12 body st) as ([num fmts] & -> & Hinv) end.
  - intros [[j num] fmts] (Hj & Hinv). cbn beta iota.
    destruct (Z.ltb_spec j (L / 3)) as [Hlt|Hge]; cbn [negb orb].
    2: { eexists; split; [reflexivity|]. cbn beta iota. by replace (L / 3) with j by lia. }
    destruct (Z.leb_spec 16 num) as [Hfull|Hroom].
    { eexists; split; [reflexivity|]. cbn beta iota. pose proof Hinv as [Hn _].
      assert (num = 16) as -> by lia. by apply (audio_inv_full s b j). }
    pose proof (audio_step _ _ _ _ _ Hinv ltac:(lia) Hroom) as Hstep. cbn zeta in Hstep.
    rewrite Hb by lia. cbn [rbind]. cbn zeta. fold (sad_code (b (1 + j * 3))).
    pose proof (sad_code_range (b (1 + j * 3))) as Hcr.
    destruct (Z.eqb_spec (sad_code (b (1 + j * 3))) 0) as [E0|E0].
    { rewrite E0. cbn [Z.ltb Z.compare andb]. eexists; split; [reflexivity|]. cbn beta iota.
      split; [split; [lia|done]|lia]. }
    destruct (Z.ltb_spec 0 (sad_code (b (1 + j * 3)))); [|lia].
    destruct (Z.ltb_spec (sad_code (b (1 + j * 3))) 16); [|lia]. cbn [andb].
    destruct Hinv as (Hn & Hl & _ & Hz). rewrite Hz by lia. cbn [rbind].
    rewrite !Hb by lia. cbn [rbind]. rewrite wr_in by lia. cbn [rbind].
    eexists; split; [reflexivity|]. cbn beta iota. split; [|lia]. split; [lia|]. apply Hstep.
    unfold decode_sad. destruct (Z.eqb_spec (sad_code (b (1 + j * 3))) 0); [done|].
    replace (1 + j * 3 + 1) with (2 + j * 3) by lia. replace (1 + j * 3 + 2) with (3 + j * 3) by lia. done.
  - split; [lia|]. split; [lia|]. split; [done|]. split; [|done].
    cbn [decode_sads Z.to_nat]. rewrite app_nil_r, (take_ge (audio_list s)); [done|].
    unfold audio_list. rewrite length_take. lia.
  - cbn. lia.
  - cbn [rbind]. eexists _, _. split; [reflexivity|]. pose proof Hinv as (Hn & Hl & E & Hz).
    assert (Hlen : forall m (f : list CBIOS_HDMI_AUDIO_INFO), 0 <= m <= 16 -> zlen f = 16 ->
      zlen (take (Z.to_nat m) f) = m).
    { intros m f Hm Hf. unfold zlen in *. rewrite length_take. lia. }
    split; [exact E|]. split; [|split; [by constructor|exact Hz]].
    unfold audio_list. cbn [HDAudioFormatNum HDAudioFormat upd]. cbn. rewrite !Hlen by done.
    apply wrap_small. unfold fits.
    assert (HDAudioFormatNum s <= num); [|lia].
    pose proof (audio_inv_len _ _ _ _ _ Hinv) as ->. rewrite zlen_app. unfold audio_list.
    rewrite Hlen by done. pose proof (zlen_nonneg (decode_sads (Z.to_nat (L / 3)) b 1)). lia.
Qed.

(** Two descriptors: stereo LPCM and six-channel AC-3. *)
Definition audio_example : list Z := [0x26; 0x09; 0x07; 0x07; 0x15; 0x07; 0x50].

Lemma GetHDMIAudioFormat_appends_witness :
  exists n s', cbEDIDModule_GetHDMIAudioFormat audio_example 0 zero_edid_struct = Ok (n, s') /\
    audio_list s' = take 16 (audio_list zero_edid_struct ++
      decode_sads (Z.to_nat (6 / 3)) (fun i => default 0 (audio_example !! Z.to_nat i)) 1) /\
    n = zlen (audio_list s') - zlen (audio_list zero_edid_struct) /\ audio_ok s' /\ audio_clean s'.
Proof.
  apply GetHDMIAudioFormat_appends; [by constructor| |reflexivity|].
  - intros j Hj. cbn in Hj. apply rd_inv. split; [lia|]. apply (lookup_replicate_2 16). lia.
  - intros i Hi. destruct (rd_in audio_example i) as [x Hx]; [change (zlen audio_example) with 7; lia|].
    change (0 + i) with i. rewrite Hx. apply rd_inv in Hx as [_ Hx]. by rewrite Hx.
Defined.

(** ** The audio patches *)

Lemma audio_list_lookup s i a :
  audio_ok s -> 0 <= i < HDAudioFormatNum s -> rd (HDAudioFormat s) i = Ok a ->
  audio_list s !! Z.to_nat i = Some a.
Proof.
  intros [Hl Hn] Hi [_ Ha]%rd_inv. unfold audio_list. rewrite lookup_take_lt by lia. done.
Qed.

Definition lpcm (a : CBIOS_HDMI_AUDIO_INFO) : Prop := Format a = CBIOS_AUDIO_FORMAT_LPCM.

(** A monitor with basic audio always ends up with an LPCM format:
    [cbEDIDPatchHDMIAudio] adds one when there is none (in the last entry when
    all sixteen are in use), keeps the other formats, and leaves a structure
    with an LPCM format, or without audio, alone. *)
Theorem PatchHDMIAudio_spec s :
  audio_ok s ->
  exists s', cbEDIDPatchHDMIAudio s = Ok s' /\ audio_ok s' /\ Attribute s' = Attribute s /\
    (get_cap (Attribute s) CAP_Audio = 0 -> s' = s) /\
    (Exists lpcm (audio_list s) -> s' = s) /\
    (get_cap (Attribute s) CAP_Audio <> 0 -> Exists lpcm (audio_list s')) /\
    (forall i, 0 <= i < Z.min 15 (HDAudioFormatNum s) -> rd (HDAudioFormat s') i = rd (HDAudioFormat s) i).
Proof.
  intros H. pose proof H as [Hl Hn]. unfold cbEDIDPatchHDMIAudio.
  destruct (Z.eqb_spec (get_cap (Attribute s) CAP_Audio) 0) as [E|E].
  { exists s. do 5 (split; [done|]). split; [done|]. done. }
  rewrite scan_find by lia. cbn [rbind].
  change (take (Z.to_nat (HDAudioFormatNum s)) (HDAudioFormat s)) with (audio_list s).
  destruct (find_idx _ (audio_list s)) as [i|] eqn:Hf.
  { exists s. do 5 (split; [done|]). split; [|done]. intros _.
    apply find_idx_some in Hf as (_ & a & Ha & HP). apply Exists_exists. exists a.
    split; [apply list_elem_of_In; by eapply list_elem_of_lookup_2|]. unfold lpcm. by apply Z.eqb_eq. }
  assert (Hno : ~ Exists lpcm (audio_list s)).
  { rewrite Exists_exists. intros (a & Ha & HP). apply list_elem_of_In, list_elem_of_lookup_1 in Ha as [k Hk].
    pose proof (find_idx_none _ _ _ _ Hf Hk) as HF. cbn in HF. apply Z.eqb_neq in HF. done. }
  cbn zeta. unfold CBIOS_HDMI_AUDIO_FORMAT_COUNTS.
  assert (Hadd : forall k n a, 0 <= k < 16 -> k < n <= 16 -> k = Z.min 15 (HDAudioFormatNum s) ->
    Format a = CBIOS_AUDIO_FORMAT_LPCM ->
    let s' := s <| HDAudioFormatNum := n |> <| HDAudioFormat := <[Z.to_nat k := a]> (HDAudioFormat s) |> in
    audio_ok s' /\ Attribute s' = Attribute s /\
    (get_cap (Attribute s) CAP_Audio = 0 -> s' = s) /\ (Exists lpcm (audio_list s) -> s' = s) /\
    (get_cap (Attribute s) CAP_Audio <> 0 -> Exists lpcm (audio_list s')) /\
    (forall i, 0 <= i < Z.min 15 (HDAudioFormatNum s) -> rd (HDAudioFormat s') i = rd (HDAudioFormat s) i)).
  { intros k n a Hk Hkn Hmin Ha. cbn zeta.
    assert (Hok : audio_ok (s <| HDAudioFormatNum := n |>
       <| HDAudioFormat := <[Z.to_nat k := a]> (HDAudioFormat s) |>)).
    { constructor; cbn; [by rewrite zlen_insert|lia]. }
    split; [done|]. split; [done|]. split; [done|]. split; [done|]. split.
    - intros _. apply Exists_exists. exists a. split; [|done].
      apply list_elem_of_In, list_elem_of_lookup_2 with (Z.to_nat k). apply audio_list_lookup; [done|cbn; lia|].
      cbn. apply rd_insert_eq. lia.
    - intros j Hj. cbn. apply rd_insert_ne; lia. }
  destruct (Z.leb_spec 16 (HDAudioFormatNum s)) as [Hfull|Hroom]; cbn iota beta.
  - destruct (rd_in (HDAudioFormat s) 15) as [a0 Ha0]; [lia|].
    change (16 - 1) with 15. rewrite Ha0. cbn [rbind]. rewrite wr_in by lia. cbn [rbind].
    eexists. split; [reflexivity|].
    refine (Hadd 15 (HDAudioFormatNum s) _ _ _ _ _); [lia|lia|lia|reflexivity].
  - destruct (rd_in (HDAudioFormat s) (HDAudioFormatNum s)) as [a0 Ha0]; [lia|].
    change (HDAudioFormat (s <| HDAudioFormatNum ::= fun n => n + 1 |>)) with (HDAudioFormat s).
    rewrite Ha0. cbn [rbind]. rewrite wr_in by lia. cbn [rbind].
    eexists. split; [reflexivity|].
    refine (Hadd (HDAudioFormatNum s) (HDAudioFormatNum s + 1) _ _ _ _ _); [lia|lia|lia|reflexivity].
Qed.

Lemma PatchHDMIAudio_spec_witness :
  let s := zero_edid_struct <| Attribute ::= set_cap CAP_Audio 1 |> in
  exists s', cbEDIDPatchHDMIAudio s = Ok s' /\ audio_ok s' /\ Attribute s' = Attribute s /\
    (get_cap (Attribute s) CAP_Audio = 0 -> s' = s) /\
    (Exists lpcm (audio_list s) -> s' = s) /\
    (get_cap (Attribute s) CAP_Audio <> 0 -> Exists lpcm (audio_list s')) /\
    (forall i, 0 <= i < Z.min 15 (HDAudioFormatNum s) -> rd (HDAudioFormat s') i = rd (HDAudioFormat s) i).
Proof. apply PatchHDMIAudio_spec. constructor; [reflexivity|vm_compute; split; discriminate]. Defined.

(** ** A truncated HDMI vendor block *)

(** An HDMI block of ten bytes that announces one extended format and ends
    before it. *)
Definition vsdb_truncated : list Z := [0x6A; 0x03; 0x0C; 0x00; 0x10; 0x00; 0x00; 0x1E; 0x20; 0x00; 0x20].
Definition edid_truncated_vsdb : list Z := edid_with_exts [cea_block 15 vsdb_truncated].

(** [cbEDIDModule_ParseHDMIVSDB] leaves the announced number of extended
    formats in [HDMIVICLen] when the block ends right after it, and
    [cbEDIDModule_GetHDMIVICMode] then reads the cleared entry: the parser
    lists format 107, which the EDID does not mention anywhere. *)
Theorem truncated_VSDB_adds_format :
  exists s, cbEDIDModule_ParseEDID (fun _ => true) (mkEdidData (Some edid_truncated_vsdb) 256) =
      Ok (true, mkEdidData (Some edid_truncated_vsdb) 256, s) /\
    HDMIVICLen (VSDBData (Attribute s)) = 1 /\ HDMIVIC (VSDBData (Attribute s)) = replicate 7 0 /\
    In 107 (map vic_of (timings s)).
Proof.
  eexists. split; [vm_compute; reflexivity|]. split; [reflexivity|]. split; [reflexivity|].
  vm_compute. tauto.
Qed.

(** ** DisplayID descriptors *)

(** The fields of a type I (or VII) descriptor as DisplayID lays them out: all
    counts are stored less one; byte 0 of the descriptor is [d 3]. *)
Definition did_clock (d : Z -> Z) (tag : Z) : Z :=
  (d 3 + 256 * d 4 + 65536 * d 5 + 1) * (if tag =? VIDEO_TIMING_MODES_DATA_BLOCK2_TYPE7_TAG then 10 else 100).
Definition did_count (lo hi : Z) : Z := lo + 256 * hi + 1.
Definition did_count15 (lo hi : Z) : Z := lo + 256 * (hi mod 128) + 1.

Definition did_full_timing (d : Z -> Z) (tag : Z) : CBIOS_TIMING_ATTRIB :=
  let h := did_count (d 7) (d 8) in let ht := h + did_count (d 9) (d 10) in
  let v := did_count (d 15) (d 16) in let vt := v + did_count (d 17) (d 18) in
  mkTiming TIMING_ATTRIB_SIZE 0 h v
    (u16 (100 * cbRound (cbCalcRefreshRate (did_clock d tag) ht vt) 100 ROUND_NEAREST))
    ((if 128 <=? d 12 then HorPOSITIVE else HorNEGATIVE) + (if 128 <=? d 20 then VerPOSITIVE else VerNEGATIVE))
    (did_clock d tag) ht h h ht (h + did_count15 (d 11) (d 12)) (h + did_count15 (d 11) (d 12) + did_count (d 13) (d 14))
    vt v v vt (v + did_count15 (d 19) (d 20)) (v + did_count15 (d 19) (d 20) + did_count (d 21) (d 22)).

Definition did_at (buf : list Z) (off : Z) (d : Z -> Z) : Prop :=
  forall i, 3 <= i < 23 -> rd buf (off + i) = Ok (d i) /\ fits 8 (d i).

(** The sync pulses lie inside the blanking intervals and the totals fit 16
    bits. *)
Definition did_sane (d : Z -> Z) : Prop :=
  did_count (d 7) (d 8) + did_count (d 9) (d 10) < 65536 /\ did_count (d 15) (d 16) + did_count (d 17) (d 18) < 65536 /\
  did_count15 (d 11) (d 12) + did_count (d 13) (d 14) <= did_count (d 9) (d 10) /\ did_count15 (d 19) (d 20) + did_count (d 21) (d 22) <= did_count (d 17) (d 18).

Lemma byte_masks b : fits 8 b ->
  Z.land b 0x7F = b mod 128 /\ negb (Z.land b 0x80 =? 0) = (128 <=? b).
Proof. intros Hb. split; [by_bytes b|]. apply eqb_prop. 
  refine (byte_forall (fun b => Bool.eqb (negb (Z.land b 0x80 =? 0)) (128 <=? b)) b _ _); [vm_compute; reflexivity|done].
Qed.

(** The counts and the clock as the code computes them. *)
Lemma did_count_run h l : fits 8 h -> fits 8 l -> did_count l h < 65536 ->
  u16 (Z.shiftl h 8 + l + 1) = did_count l h.
Proof.
  unfold did_count, fits. intros Hh Hl Hlt. rewrite Z.shiftl_mul_pow2 by lia. rewrite wrap_small; [lia|].
  unfold fits. lia.
Qed.

Lemma did_count15_run h l : fits 8 h -> fits 8 l -> u16 (Z.shiftl (Z.land h 0x7F) 8 + l + 1) = did_count15 l h.
Proof.
  intros Hh Hl. destruct (byte_masks h Hh) as [-> _]. unfold did_count15. unfold fits in *.
  rewrite Z.shiftl_mul_pow2 by lia. rewrite wrap_small; [lia|]. unfold fits. dlia.
Qed.

Lemma did_count_pos h l : fits 8 h -> fits 8 l -> 1 <= did_count l h /\ 1 <= did_count15 l h.
Proof. unfold did_count, did_count15, fits. intros. split; dlia. Qed.

Lemma did_clock_run d tag : fits 8 (d 3) -> fits 8 (d 4) -> fits 8 (d 5) ->
  (if tag =? VIDEO_TIMING_MODES_DATA_BLOCK2_TYPE7_TAG
   then u32 (u32 (Z.shiftl (d 5) 16 + Z.shiftl (d 4) 8 + (d 3 + 1)) * 10)
   else u32 (u32 (Z.shiftl (d 5) 16 + Z.shiftl (d 4) 8 + (d 3 + 1)) * 100)) = did_clock d tag.
Proof.
  unfold did_clock, fits. intros. rewrite !Z.shiftl_mul_pow2 by lia.
  rewrite (wrap_small 32 (_ + (d 3 + 1))) by (unfold fits; lia).
  destruct (tag =? _); rewrite wrap_small by (unfold fits; lia); lia.
Qed.

(** The positions on one axis: no wrap, and well formed. *)
Lemma did_axis_run a bl so sw :
  1 <= a -> 1 <= bl -> 1 <= so -> 1 <= sw -> a + bl < 65536 -> so + sw <= bl ->
  u16 (a + so) = a + so /\ u16 (a + bl) = a + bl /\ u16 (a + so + sw) = a + so + sw /\ (a =? 0) = false /\
  axis_ok a a a (a + so) (a + so + sw) (a + bl) (a + bl) = true.
Proof.
  intros. split; [apply wrap_small; unfold fits; lia|]. split; [apply wrap_small; unfold fits; lia|].
  split; [apply wrap_small; unfold fits; lia|]. split; [lia|].
  unfold axis_ok. rewrite !andb_true_iff, !Z.leb_le, !Z.ltb_lt, !Z.eqb_eq. lia.
Qed.

(** A DisplayID type I or VII descriptor whose totals fit 16 bits and whose
    sync pulses lie in the blanking is decoded field by field as the standard
    prescribes, without any wrap, to a well-formed timing. *)
Theorem did_timing_spec buf off tag rev d opt :
  did_at buf off d -> did_sane d -> rd buf (off + 6) = Ok opt ->
  exists t, did_timing buf off tag rev = Ok (Some t) /\
    FullTiming t = did_full_timing d tag /\ timing_ok (FullTiming t) = true /\
    TimingType t = CBIOS_DISP_ID_TIMING /\
    IsInterLaced t = b2z (negb (Z.land opt 0x10 =? 0)) /\
    (IsPreferMode t = 1 <-> rev < 2 /\ 128 <= opt) /\
    (IsSupportYCbCr420 t = 1 <-> rev = 2 /\ 128 <= opt).
Proof.
  intros Hd (S1 & S2 & S3 & S4) Ho. unfold did_timing. cbn beta zeta.
  assert (Hr : forall i, 3 <= i < 23 -> rd buf (off + i) = Ok (d i)) by (intros; by apply Hd).
  assert (Hf : forall i, 3 <= i < 23 -> fits 8 (d i)) by (intros i Hi; apply (Hd i Hi)).
  assert (opt = d 6) as -> by (rewrite Hr in Ho by lia; congruence).
  repeat (rewrite Hr by lia; cbn [rbind]).
  assert (Hpos : forall i j, 3 <= i < 23 -> 3 <= j < 23 -> 1 <= did_count (d j) (d i) /\ 1 <= did_count15 (d j) (d i))
    by (intros; apply did_count_pos; by apply Hf).
  pose proof (Hpos 8 7). pose proof (Hpos 10 9). pose proof (Hpos 12 11). pose proof (Hpos 14 13).
  pose proof (Hpos 16 15). pose proof (Hpos 18 17). pose proof (Hpos 20 19). pose proof (Hpos 22 21).
  destruct (did_axis_run (did_count (d 7) (d 8)) (did_count (d 9) (d 10)) (did_count15 (d 11) (d 12)) (did_count (d 13) (d 14)))
    as (X1 & X2 & X3 & X4 & Ok1); [lia..|].
  destruct (did_axis_run (did_count (d 15) (d 16)) (did_count (d 17) (d 18)) (did_count15 (d 19) (d 20)) (did_count (d 21) (d 22)))
    as (V1 & V2 & V3 & V4 & Ok2); [lia..|].
  rewrite !did_count15_run by (apply Hf; lia). rewrite !did_count_run by (try (apply Hf; lia); lia).
  rewrite did_clock_run by (apply Hf; lia).
  assert (Hm : forall i, 3 <= i < 23 -> negb (Z.land (d i) 0x80 =? 0) = (128 <=? d i))
    by (intros i Hi; by apply byte_masks, Hf).
  rewrite (Hm 12), (Hm 20), (Hm 6) by lia.
  rewrite !X1, !V1, X2, V2, X3, V3, X4, V4. cbn [orb HorTotal VerTotal].
  match goal with |- exists t, Ok (Some ?x) = _ /\ _ => exists x; split; [reflexivity|] end.
  unfold timing_ok, did_full_timing. cbn zeta. clear -Ok1 Ok2.
  destruct (Z.ltb_spec rev 2), (Z.eqb_spec rev 2); try lia; destruct (Z.leb_spec 128 (d 6));
    destruct (Z.shiftr (Z.land (d 6) 96) 5 =? 0), (Z.shiftr (Z.land (d 6) 96) 5 =? 1),
      (Z.shiftr (Z.land (d 6) 96) 5 =? 2);
    (split; [reflexivity|]); (split; [by apply andb_true_iff|]); (split; [reflexivity|]);
    (split; [reflexivity|]); cbn; lia.
Qed.

(** 1920x1080 at 60 Hz, preferred. *)
Definition did_example : list Z :=
  [0x03; 0x00; 0x14; 0x01; 0x3A; 0x02; 0x88; 0x7F; 0x07; 0x17; 0x01; 0x57; 0x00; 0x2B; 0x00;
   0x37; 0x04; 0x2C; 0x00; 0x03; 0x00; 0x04; 0x00].

Lemma did_timing_spec_witness :
  exists t, did_timing did_example 0 3 0 = Ok (Some t) /\
    FullTiming t = did_full_timing (fun i => default 0 (did_example !! Z.to_nat i)) 3 /\
    timing_ok (FullTiming t) = true /\ TimingType t = CBIOS_DISP_ID_TIMING /\
    IsInterLaced t = b2z (negb (Z.land 0x88 0x10 =? 0)) /\
    (IsPreferMode t = 1 <-> 0 < 2 /\ 128 <= 0x88) /\ (IsSupportYCbCr420 t = 1 <-> 0 = 2 /\ 128 <= 0x88).
Proof.
  apply (did_timing_spec did_example 0 3 0 (fun i => default 0 (did_example !! Z.to_nat i)) 0x88);
    [|unfold did_sane; vm_compute; intuition discriminate|reflexivity].
  intros i Hi.
  assert (Hall : forallb (fun i => bool_decide (rd did_example (0 + i) = Ok (default 0 (did_example !! Z.to_nat i))) &&
      (0 <=? default 0 (did_example !! Z.to_nat i)) && (default 0 (did_example !! Z.to_nat i) <? 256))
    (seqZ 3 20) = true) by (vm_compute; reflexivity).
  rewrite forallb_forall in Hall. specialize (Hall i).
  rewrite !andb_true_iff, bool_decide_eq_true, Z.leb_le, Z.ltb_lt in Hall.
  destruct Hall as ((H1 & H2) & H3); [apply list_elem_of_In, elem_of_seqZ; lia|]. done.
Defined.

(** ** No 24-bit samples *)

(** What the patch does to the three bytes of a descriptor, and to a format. *)
Definition patch_sad (b0 b2 : Z) : Z := if Z.land (Z.shiftr b0 3) 0xF =? 1 then Z.land b2 0xFB else b2.
Definition patch_format (f : CBIOS_HDMI_AUDIO_INFO) : CBIOS_HDMI_AUDIO_INFO :=
  if Format f =? CBIOS_AUDIO_FORMAT_LPCM then f <| Unit ::= fun u => setfield u 2 1 0 |> else f.

Lemma clear_bit2 b : fits 8 b -> Z.land (Z.shiftr b 2) 1 = 0 -> Z.land b 0xFB = b.
Proof.
  intros Hb. assert (H : (Z.land (Z.shiftr b 2) 1 =? 1) || (Z.land b 0xFB =? b) = true).
  { refine (byte_forall (fun b => (Z.land (Z.shiftr b 2) 1 =? 1) || (Z.land b 0xFB =? b)) b _ Hb).
    vm_compute. reflexivity. }
  lia.
Qed.

(** The descriptors below [j] are patched, the other bytes are not. *)
Definition sads_patched (sads : list Z) (j : Z) (q : list Z) : Prop :=
  zlen q = zlen sads /\
  (forall i b0 b2, 0 <= i < j -> rd sads (i * 3) = Ok b0 -> rd sads (i * 3 + 2) = Ok b2 ->
     rd q (i * 3 + 2) = Ok (patch_sad b0 b2)) /\
  (forall k, ~ (exists i, 0 <= i < j /\ k = i * 3 + 2) -> rd q k = rd sads k).

(** One more descriptor: its third byte takes the patched value. *)
Lemma sads_patched_step sads j q b0 b2 q' :
  sads_patched sads j q -> 0 <= j -> j * 3 + 2 < zlen sads ->
  rd sads (j * 3) = Ok b0 -> rd sads (j * 3 + 2) = Ok b2 ->
  (q' = q /\ patch_sad b0 b2 = b2 \/ q' = <[Z.to_nat (j * 3 + 2) := patch_sad b0 b2]> q) ->
  sads_patched sads (j + 1) q'.
Proof.
  intros (Hql & Hq1 & Hq2) Hj Hlt H0 H2 [[-> Hp]| ->].
  - split; [done|]. split.
    + intros i c0 c2 Hi Hc0 Hc2. destruct (Z.eq_dec i j) as [->|]; [|apply (Hq1 i); (done || lia)].
      rewrite Hq2 by (intros (i & Hi' & Hk); lia). congruence.
    + intros k Hk. apply Hq2. intros (i & Hi & Hik). apply Hk. exists i. lia.
  - split; [by rewrite zlen_insert|]. split.
    + intros i c0 c2 Hi Hc0 Hc2. destruct (Z.eq_dec i j) as [->|].
      * rewrite rd_insert_eq by lia. congruence.
      * rewrite rd_insert_ne by lia. by apply (Hq1 i); [lia|..].
    + intros k Hk. destruct (Z.lt_ge_cases k 0); [rewrite !rd_out by lia; done|].
      rewrite rd_insert_ne; [|lia|lia|intros <-; apply Hk; exists j; lia].
      apply Hq2. intros (i & Hi & Hik). apply Hk. exists i. lia.
Qed.

Lemma sads_loop sads n :
  bytes sads -> 0 <= n -> n * 3 <= zlen sads ->
  exists q, for_up (Z.to_nat n) 0
      (fun Index sads =>
         let! b0 := rd sads (Index * 3) in
         if Z.land (Z.shiftr b0 3) 0xF =? 1 then
           let! b2 := rd sads (Index * 3 + 2) in
           if negb (Z.land (Z.shiftr b2 2) 0x1 =? 0) then wr sads (Index * 3 + 2) (Z.land b2 0xFB)
           else Ok sads
         else Ok sads) sads = Ok q /\ sads_patched sads n q.
Proof.
  intros Hby Hn Hl.
  match goal with |- exists q, for_up _ _ ?b _ = _ /\ _ =>
    destruct (for_up_rule (sads_patched sads) (Z.to_nat n) 0 b sads) as (q & -> & Hq) end.
  - intros j q Hj Hinv. rewrite Z2Nat.id in Hj by lia.
    destruct (rd_in sads (j * 3)) as [b0 H0]; [lia|]. destruct (rd_in sads (j * 3 + 2)) as [b2 H2]; [lia|].
    pose proof (sads_patched_step _ _ _ _ _ q Hinv ltac:(lia) ltac:(lia) H0 H2) as Hsame.
    pose proof (sads_patched_step _ _ _ _ _ _ Hinv ltac:(lia) ltac:(lia) H0 H2 ltac:(by right)) as Hset.
    destruct Hinv as (Hql & _ & Hq2). rewrite (Hq2 (j * 3)), H0 by (intros (i & Hi & Hk); lia). cbn [rbind].
    unfold patch_sad in *. destruct (Z.eqb_spec (Z.land (Z.shiftr b0 3) 15) 1) as [Ec|Ec].
    + rewrite Hq2, H2 by (intros (i & Hi & Hk); lia). cbn [rbind].
      destruct (Z.eqb_spec (Z.land (Z.shiftr b2 2) 1) 0) as [Eb|Eb]; cbn [negb].
      * eexists; split; [reflexivity|]. apply Hsame. left. split; [done|].
        apply clear_bit2; [by eapply (rd_Forall _ _ _ _ Hby)|done].
      * rewrite wr_in by lia. eexists; split; [reflexivity|]. exact Hset.
    + eexists; split; [reflexivity|]. apply Hsame. by left.
  - split; [done|]. split; [intros; lia|done].
  - exists q. split; [done|]. by replace (0 + Z.of_nat (Z.to_nat n)) with n in Hq by lia.
Qed.

Lemma formats_loop fmts n :
  0 <= n <= zlen fmts ->
  exists f, for_up (Z.to_nat n) 0
      (fun Index fmts =>
         let! f := rd fmts Index in
         if Format f =? CBIOS_AUDIO_FORMAT_LPCM then
           wr fmts Index (f <| Unit ::= fun u => setfield u 2 1 0 |>)
         else Ok fmts) fmts = Ok f /\
    zlen f = zlen fmts /\ take (Z.to_nat n) f = map patch_format (take (Z.to_nat n) fmts).
Proof.
  intros Hn.
  match goal with |- exists f, for_up _ _ ?b _ = _ /\ _ => destruct (for_up_rule
    (fun j f => zlen f = zlen fmts /\ take (Z.to_nat j) f = map patch_format (take (Z.to_nat j) fmts) /\
       (forall k, j <= k -> rd f k = rd fmts k)) (Z.to_nat n) 0 b fmts) as (f & -> & Hfl & Hf1 & _) end.
  - intros j f Hj (Hfl & Hf1 & Hf2). rewrite Z2Nat.id in Hj by lia.
    destruct (rd_in fmts j) as [a Hra]; [lia|]. rewrite Hf2, Hra by lia. cbn [rbind].
    pose proof Hra as [_ Hla]%rd_inv.
    assert (Ht : take (Z.to_nat (j + 1)) fmts = take (Z.to_nat j) fmts ++ [a]).
    { replace (Z.to_nat (j + 1)) with (S (Z.to_nat j)) by lia. by apply take_S_r. }
    rewrite Ht, map_app, <- Hf1. cbn [map]. unfold patch_format at 1.
    destruct (Format a =? CBIOS_AUDIO_FORMAT_LPCM).
    + rewrite wr_in by lia. eexists; split; [reflexivity|]. split; [by rewrite zlen_insert|].
      split; [by rewrite take_insert_next by lia|].
      intros k Hk. rewrite rd_insert_ne by lia. apply Hf2. lia.
    + eexists; split; [reflexivity|]. split; [done|]. split; [|intros k Hk; apply Hf2; lia].
      replace (Z.to_nat (j + 1)) with (S (Z.to_nat j)) by lia. apply take_S_r.
      pose proof (Hf2 j ltac:(lia)) as Hj2. rewrite Hra in Hj2. by apply rd_inv in Hj2 as [_ ?].
  - split; [done|]. split; [done|]. done.
  - exists f. split; [done|]. split; [done|].
    by replace (0 + Z.of_nat (Z.to_nat n)) with n in Hf1 by lia.
Qed.

(** [cbEDIDModule_SADPatch] clears the 24-bit flag of every LPCM descriptor
    and of every LPCM format in use, and changes nothing else. *)
Theorem SADPatch_spec s :
  attr_ok (Attribute s) -> audio_ok s -> bytes (CEA_SADs (Attribute s)) ->
  exists s', cbEDIDModule_SADPatch s = Ok s' /\
    sads_patched (CEA_SADs (Attribute s)) (SAD_Count (Attribute s)) (CEA_SADs (Attribute s')) /\
    audio_list s' = map patch_format (audio_list s) /\ audio_ok s'.
Proof.
  intros Ha [Hal Han] Hby. pose proof (at_sads _ Ha) as Hl. pose proof (at_sadcnt _ Ha) as Hc.
  unfold cbEDIDModule_SADPatch.
  destruct (sads_loop (CEA_SADs (Attribute s)) (SAD_Count (Attribute s)) Hby) as (q & -> & Hq); [lia|lia|].
  cbn [rbind].
  destruct (formats_loop (HDAudioFormat s) (HDAudioFormatNum s)) as (f & -> & Hfl & Hf); [lia|].
  cbn [rbind]. eexists. split; [reflexivity|]. split; [exact Hq|]. split; [exact Hf|].
  constructor; [cbn; lia|done].
Qed.

(** LPCM with 16, 20 and 24-bit samples. *)
Definition sads_example : CBIOS_EDID_STRUCTURE_DATA :=
  zero_edid_struct <| Attribute ::= fun a =>
    a <| CEA_SADs := [0x09; 0x07; 0x07] ++ replicate 42 0 |> <| SAD_Count := 1 |> |>.

Lemma SADPatch_spec_witness :
  exists s', cbEDIDModule_SADPatch sads_example = Ok s' /\
    sads_patched (CEA_SADs (Attribute sads_example)) (SAD_Count (Attribute sads_example))
      (CEA_SADs (Attribute s')) /\
    audio_list s' = map patch_format (audio_list sads_example) /\ audio_ok s'.
Proof.
  apply SADPatch_spec.
  - unfold sads_example. destruct attr_ok_zero. constructor; cbn in *; (assumption || lia || reflexivity).
  - constructor; [reflexivity|vm_compute; split; discriminate].
  - apply List.Forall_forall. intros x Hx. vm_compute in Hx. unfold fits. intuition lia.
Defined.
