(* ===== verification/EdidFake.v ===== *)
(** * Fake EDIDs

    [cbEDIDModule_FakePanelEDID] of [cbios/Util/CBiosEDID.c] makes an EDID for
    a panel without one ([cbDSIPort_PanelDetect] hands it to the parser). The
    theorems: the result is a valid EDID, and the detailed timing decoder reads
    back the timing it was made from. *)
From S2P Require Import Prelude CbUtil Timing TimingTables EdidTypes EdidTiming EdidCea Edid.

(** [cbEDIDModule_FakeDetailedTiming] *)
Definition cbEDIDModule_FakeDetailedTiming (pEdid : list Z) (t : CBIOS_TIMING_ATTRIB)
  : res (list Z) :=
  let HorBlanking := u16 (HorBEnd t - HorBStart t) in
  let VerBlanking := u16 (VerBEnd t - VerBStart t) in
  let HorSyncOffset := u16 (HorSyncStart t - HorBStart t) in
  let HorSyncWidth := u16 (HorSyncEnd t - HorSyncStart t) in
  let VerSyncOffset := u16 (VerSyncStart t - VerBStart t) in
  let VerSyncWidth := u16 (VerSyncEnd t - VerSyncStart t) in
  let! p := wrs pEdid
    [(0x38, u8 (Z.land (XRes t) 0xFF));
     (0x39, u8 (Z.land HorBlanking 0xFF));
     (0x3A, u8 (Z.lor (Z.shiftr (Z.land (XRes t) 0xF00) 4) (Z.shiftr (Z.land HorBlanking 0xF00) 8)));
     (0x3B, u8 (Z.land (YRes t) 0xFF));
     (0x3C, u8 (Z.land VerBlanking 0xFF));
     (0x3D, u8 (Z.lor (Z.shiftr (Z.land (YRes t) 0xF00) 4) (Z.shiftr (Z.land VerBlanking 0xF00) 8)));
     (0x3E, u8 (Z.land HorSyncOffset 0xFF));
     (0x3F, u8 (Z.land HorSyncWidth 0xFF));
     (0x40, u8 (Z.lor (Z.shiftl (Z.land VerSyncOffset 0x0F) 4) (Z.land VerSyncWidth 0x0F)));
     (0x41, u8 (Z.lor (Z.lor (Z.lor (Z.shiftr (Z.land HorSyncOffset 0x300) 2)
                                    (Z.shiftr (Z.land HorSyncWidth 0x300) 4))
                             (Z.shiftr (Z.land VerSyncOffset 0x30) 2))
                      (Z.shiftr (Z.land VerSyncWidth 0x30) 4)));
     (0x42, 0x90); (0x43, 0x2C); (0x44, 0x11); (0x47, 0x18)] in
  let! p :=
    if Z.land (HVPolarity t) HorNEGATIVE =? 0
    then let! b := rd p 0x47 in wr p 0x47 (Z.lor b 0x2) else Ok p in
  if Z.land (HVPolarity t) VerNEGATIVE =? 0
  then let! b := rd p 0x47 in wr p 0x47 (Z.lor b 0x4) else Ok p.

(** The fixed bytes that [cbEDIDModule_FakePanelEDID] writes before and after
    the detailed timing. *)
Definition fake_head : list (Z * Z) :=
  [(0, 0x00); (1, 0xFF); (2, 0xFF); (3, 0xFF); (4, 0xFF); (5, 0xFF); (6, 0xFF); (7, 0x00);
   (8, 0x36); (9, 0x7f); (0x0A, 0x00); (0x0B, 0x00); (0x0C, 0x00); (0x0D, 0x00); (0x0E, 0x00);
   (0x0F, 0x00); (0x10, 1); (0x11, 10); (0x12, 0x01); (0x13, 0x03); (0x14, 0x80); (0x15, 40);
   (0x16, 30); (0x17, 0)].
Definition fake_color : list (Z * Z) :=
  [(0x19, 0x78); (0x1A, 0xA0); (0x1B, 0x56); (0x1C, 0x48); (0x1D, 0x9A); (0x1E, 0x26);
   (0x1F, 0x12); (0x20, 0x48); (0x21, 0x4C); (0x22, 0xFF)].
Definition fake_name : list (Z * Z) :=
  [(0x48, 0x00); (0x49, 0x00); (0x4A, 0x00); (0x4B, 0xFC); (0x4C, 0x00); (0x4D, 0x5A);
   (0x4E, 0x58); (0x4F, 0x47); (0x50, 0x20); (0x51, 0x4C); (0x52, 0x43); (0x53, 0x44);
   (0x54, 0x0A); (0x55, 0x20); (0x56, 0x20); (0x57, 0x20); (0x58, 0x20); (0x59, 0x20);
   (0x7E, 0)].

(** [cbEDIDModule_FakePanelEDID]; [None] for a null pointer. *)
Definition cbEDIDModule_FakePanelEDID (pFakeEdidParam : option CBIOS_FAKE_EDID_PARAMS)
    (pEdid : option (list Z)) (EdidBufferLength : Z) : res (bool * option (list Z)) :=
  match pFakeEdidParam, pEdid with
  | Some prm, Some p =>
      if negb (EdidBufferLength =? 128) then Ok (false, Some p)
      else
        let! p := memset p 0 0 EdidBufferLength in
        let! p := wrs p fake_head in
        let! b := rd p 0x18 in
        let! p := wr p 0x18 (Z.lor b 0x02) in
        let! p := wrs p fake_color in
        let! p := wrs p [(0x36, u8 (PixelClock (DtlTiming prm)));
                         (0x37, u8 (Z.shiftr (PixelClock (DtlTiming prm)) 8))] in
        let! p :=
          if bProvideDtlTimingEDID prm then memcpy p 0x38 (DtlTimingEDID prm) 0 16
          else cbEDIDModule_FakeDetailedTiming p (DtlTiming prm) in
        let! p := wrs p fake_name in
        let! CheckSum :=
          for_up (Z.to_nat (EdidBufferLength - 1)) 0
            (fun i c => let! b := rd p i in Ok (u8 (c + b))) 0 in
        let! p := wr p 0x7F (u8 (0xFF - CheckSum + 1)) in
        Ok (true, Some p)
  | _, _ => Ok (false, pEdid)
  end.


(** ** The bytes of the fake EDID *)

(** The 18-byte descriptor from byte 2 on, as [cbEDIDModule_FakeDetailedTiming]
    encodes it. *)
Definition fake_dtl (t : CBIOS_TIMING_ATTRIB) : list Z :=
  let HorBlanking := u16 (HorBEnd t - HorBStart t) in
  let VerBlanking := u16 (VerBEnd t - VerBStart t) in
  let HorSyncOffset := u16 (HorSyncStart t - HorBStart t) in
  let HorSyncWidth := u16 (HorSyncEnd t - HorSyncStart t) in
  let VerSyncOffset := u16 (VerSyncStart t - VerBStart t) in
  let VerSyncWidth := u16 (VerSyncEnd t - VerSyncStart t) in
  [u8 (Z.land (XRes t) 0xFF); u8 (Z.land HorBlanking 0xFF);
   u8 (Z.lor (Z.shiftr (Z.land (XRes t) 0xF00) 4) (Z.shiftr (Z.land HorBlanking 0xF00) 8));
   u8 (Z.land (YRes t) 0xFF); u8 (Z.land VerBlanking 0xFF);
   u8 (Z.lor (Z.shiftr (Z.land (YRes t) 0xF00) 4) (Z.shiftr (Z.land VerBlanking 0xF00) 8));
   u8 (Z.land HorSyncOffset 0xFF); u8 (Z.land HorSyncWidth 0xFF);
   u8 (Z.lor (Z.shiftl (Z.land VerSyncOffset 0x0F) 4) (Z.land VerSyncWidth 0x0F));
   u8 (Z.lor (Z.lor (Z.lor (Z.shiftr (Z.land HorSyncOffset 0x300) 2)
                           (Z.shiftr (Z.land HorSyncWidth 0x300) 4))
                    (Z.shiftr (Z.land VerSyncOffset 0x30) 2))
             (Z.shiftr (Z.land VerSyncWidth 0x30) 4));
   0x90; 0x2C; 0x11; 0; 0;
   24 + (if Z.land (HVPolarity t) HorNEGATIVE =? 0 then 2 else 0) +
        (if Z.land (HVPolarity t) VerNEGATIVE =? 0 then 4 else 0)].

(** The constant bytes before the clock and after the descriptor. *)
Definition fake_pre : list Z :=
  fake_head.*2 ++ [0x02] ++ fake_color.*2 ++ replicate 19 0.
Definition fake_post : list Z :=
  take 18 (fake_name.*2) ++ replicate 36 0 ++ [0].
Definition fake_body (c0 c1 : Z) (d : list Z) : list Z := fake_pre ++ [c0; c1] ++ d ++ fake_post.

Lemma memset_whole {A} (p : list A) v n :
  zlen p = n -> memset p 0 v n = Ok (replicate (Z.to_nat n) v).
Proof.
  intros Hn. pose proof (zlen_nonneg p). unfold memset.
  destruct (for_up_rule
    (fun k q => zlen q = n /\ forall j, 0 <= j < k -> rd q j = Ok v)
    (Z.to_nat n) 0 (fun j p => wr p (0 + j) v) p) as (q & -> & Hl & Hq).
  - intros k q Hk (Hl & Hq). rewrite wr_in by lia. eexists; split; [reflexivity|].
    split; [by rewrite zlen_insert|]. intros j Hj. change (0 + k) with k.
    destruct (Z.eq_dec j k) as [->|]; [by rewrite rd_insert_eq by lia|].
    rewrite rd_insert_ne by lia. apply Hq. lia.
  - split; [done|]. lia.
  - f_equal. apply rd_ext; [rewrite zlen_replicate; lia|].
    intros j Hj. rewrite Hq by lia. symmetry. apply rd_inv. split; [lia|].
    apply lookup_replicate_2. lia.
Qed.

(** All the stores but the checksum. *)
Lemma fake_stores prm p :
  zlen p = 128 -> (bProvideDtlTimingEDID prm = true -> 16 <= zlen (DtlTimingEDID prm)) ->
  cbEDIDModule_FakePanelEDID (Some prm) (Some p) 128 =
  (let body := fake_body (u8 (PixelClock (DtlTiming prm))) (u8 (Z.shiftr (PixelClock (DtlTiming prm)) 8))
      (if bProvideDtlTimingEDID prm then take 16 (DtlTimingEDID prm) else fake_dtl (DtlTiming prm)) in
   let! CheckSum := for_up 127 0 (fun i c => let! b := rd (body ++ [0]) i in Ok (u8 (c + b))) 0 in
   let! p := wr (body ++ [0]) 0x7F (u8 (0xFF - CheckSum + 1)) in Ok (true, Some p)).
Proof.
  intros Hp Hd. unfold cbEDIDModule_FakePanelEDID.
  change (negb (128 =? 128)) with false. cbn iota. rewrite memset_whole by done. cbn [rbind].
  destruct prm as [t [] l]; cbn [bProvideDtlTimingEDID DtlTimingEDID DtlTiming] in *.
  - specialize (Hd eq_refl).
    do 16 (destruct l as [|? l]; [exfalso; rewrite ?zlen_cons in Hd; change (zlen (@nil Z)) with 0 in Hd; lia|]).
    generalize (u8 (PixelClock t)) as c0, (u8 (Z.shiftr (PixelClock t) 8)) as c1. intros c0 c1.
    reflexivity.
  - unfold fake_dtl, cbEDIDModule_FakeDetailedTiming. cbn zeta.
    set (b47 := 24 + _ + _).
    generalize (u8 (PixelClock t)) as c0, (u8 (Z.shiftr (PixelClock t) 8)) as c1. intros c0 c1.
    repeat match goal with |- context [u8 ?e] =>
      lazymatch e with context [Z.land] => generalize (u8 e); intro end end.
    subst b47. destruct (Z.land (HVPolarity t) HorNEGATIVE =? 0), (Z.land (HVPolarity t) VerNEGATIVE =? 0);
      reflexivity.
Qed.

Lemma bytes_check l : forallb (fun b => (0 <=? b) && (b <? 256)) l = true -> bytes l.
Proof.
  rewrite forallb_forall. intros H. apply List.Forall_forall. intros x Hx.
  specialize (H _ Hx). unfold fits. change (2 ^ 8) with 256. lia.
Qed.

(** The byte sum of a prefix. *)
Lemma sum_loop p n :
  Z.of_nat n <= zlen p ->
  for_up n 0 (fun i c => let! b := rd p i in Ok (u8 (c + b))) 0 = Ok (psum p (Z.of_nat n) mod 256).
Proof.
  intros Hn.
  destruct (for_up_rule (fun k c => c = psum p k mod 256) n 0
    (fun i c => let! b := rd p i in Ok (u8 (c + b))) 0) as (c & -> & ->); [|done|done].
  intros k c Hk ->. destruct (rd_in p k) as [b Hb]; [lia|]. rewrite Hb. cbn [rbind].
  eexists; split; [reflexivity|]. rewrite (psum_step _ _ _ Hb). unfold u8, wrap.
  change (2 ^ 8) with 256. by rewrite Zplus_mod_idemp_l.
Qed.

Definition fake_detail (prm : CBIOS_FAKE_EDID_PARAMS) : list Z :=
  if bProvideDtlTimingEDID prm then take 16 (DtlTimingEDID prm) else fake_dtl (DtlTiming prm).
Definition fake_edid (prm : CBIOS_FAKE_EDID_PARAMS) : list Z :=
  let body := fake_body (u8 (PixelClock (DtlTiming prm))) (u8 (Z.shiftr (PixelClock (DtlTiming prm)) 8))
                (fake_detail prm) in
  body ++ [(- psum body 127) mod 256].

(** The parameters hold a descriptor of bytes, if they provide one. *)
Definition fake_ok (prm : CBIOS_FAKE_EDID_PARAMS) : Prop :=
  bProvideDtlTimingEDID prm = true -> 16 <= zlen (DtlTimingEDID prm) /\ bytes (DtlTimingEDID prm).

Lemma zlen_prefix {A} n (l : list A) : Z.of_nat n <= zlen l -> zlen (take n l) = Z.of_nat n.
Proof. unfold zlen. rewrite length_take. lia. Qed.

Lemma fake_detail_facts prm : fake_ok prm -> zlen (fake_detail prm) = 16 /\ bytes (fake_detail prm).
Proof.
  unfold fake_ok, fake_detail. intros H. destruct (bProvideDtlTimingEDID prm).
  - destruct (H eq_refl) as [Hl Hb]. split; [by rewrite zlen_prefix|by apply Forall_take].
  - split; [done|]. unfold fake_dtl. cbn zeta.
    repeat (apply Forall_cons_2; [try (apply wrap_fits; lia)|]); try apply Forall_nil_2;
      unfold fits; try lia.
    destruct (Z.land (HVPolarity _) HorNEGATIVE =? 0), (Z.land (HVPolarity _) VerNEGATIVE =? 0); lia.
Qed.

Lemma zlen_fake_body c0 c1 d : zlen d = 16 -> zlen (fake_body c0 c1 d) = 127.
Proof.
  intros Hd. unfold fake_body. rewrite !zlen_app, Hd. change (zlen fake_pre) with 54.
  change (zlen fake_post) with 55. change (zlen [c0; c1]) with 2. lia.
Qed.

Lemma FakePanelEDID_run prm p :
  zlen p = 128 -> fake_ok prm ->
  cbEDIDModule_FakePanelEDID (Some prm) (Some p) 128 = Ok (true, Some (fake_edid prm)).
Proof.
  intros Hp Hf. destruct (fake_detail_facts prm Hf) as [Hd _].
  rewrite fake_stores; [|done|by intros H; apply Hf in H as [? _]].
  change (if bProvideDtlTimingEDID prm then take 16 (DtlTimingEDID prm) else fake_dtl (DtlTiming prm))
    with (fake_detail prm). cbn zeta. unfold fake_edid. cbn zeta.
  set (body := fake_body _ _ _). assert (Hb : zlen body = 127) by by apply zlen_fake_body.
  rewrite sum_loop by (rewrite zlen_app, Hb; change (zlen [0]) with 1; lia). cbn [rbind].
  assert (psum (body ++ [0]) (Z.of_nat 127) = psum body 127) as ->.
  { unfold psum. rewrite take_app_le; [done|]. unfold zlen in Hb. lia. }
  rewrite wr_mid by done. cbn [rbind]. do 5 f_equal. unfold u8, wrap. change (2 ^ 8) with 256.
  set (s := psum body 127). replace (255 - s mod 256 + 1) with (- (s mod 256) + 1 * 256) by lia.
  rewrite Z_mod_plus_full. by rewrite <- (Z.sub_0_l (s mod 256)), Zminus_mod_idemp_r, Z.sub_0_l.
Qed.

(** The fake EDID: its size, its bytes and its validity. *)
Lemma fake_edid_facts prm :
  fake_ok prm ->
  zlen (fake_edid prm) = 128 /\ bytes (fake_edid prm) /\
  cbEDIDModule_IsEDIDValid (mkEdidData (Some (fake_edid prm)) 128) = Ok true.
Proof.
  intros Hf. destruct (fake_detail_facts prm Hf) as [Hd Hby].
  unfold fake_edid. cbn zeta. set (body := fake_body _ _ _).
  assert (Hb : zlen body = 127) by by apply zlen_fake_body.
  set (p' := body ++ _).
  assert (Hl : zlen p' = 128) by (unfold p'; rewrite zlen_app, Hb; reflexivity).
  split; [done|]. split.
  { unfold p', body, fake_body. apply Forall_app_2; [apply Forall_app_2; [|apply Forall_app_2; [|apply Forall_app_2; [exact Hby|]]]|].
    - by apply bytes_check.
    - repeat (apply Forall_cons_2; [apply wrap_fits; lia|]). apply Forall_nil_2.
    - by apply bytes_check.
    - apply Forall_cons_2; [|apply Forall_nil_2]. apply (wrap_fits 8). lia. }
  destruct (IsEDIDValid_run p') as (b & Hv & Hiff). rewrite Hl in Hv. rewrite Hv.
  f_equal. apply Hiff. split; [reflexivity|]. rewrite Hl. split; [done|].
  intros k Hk. change (128 / 128) with 1 in Hk. assert (k = 0) as -> by lia.
  assert (E : edid_block p' 0 = p').
  { unfold edid_block. change (drop (Z.to_nat (128 * 0)) p') with p'. apply take_ge.
    unfold zlen in Hl. lia. }
  rewrite E. unfold p'. rewrite zsum_app.
  assert (zsum body = psum body 127) as ->.
  { unfold psum. rewrite take_ge; [done|]. unfold zlen in Hb. lia. }
  cbn [zsum foldr]. rewrite Z.add_0_r, Zplus_mod_idemp_r, Z.add_opp_diag_r. done.
Qed.

(** The fake EDID of a panel is an EDID: whatever timing or descriptor the
    parameters hold, [cbEDIDModule_FakePanelEDID] fills the 128 bytes with
    bytes and the validator of the parser accepts them (header and checksum). *)
Theorem FakePanelEDID_valid prm p :
  zlen p = 128 -> fake_ok prm ->
  exists p', cbEDIDModule_FakePanelEDID (Some prm) (Some p) 128 = Ok (true, Some p') /\
    zlen p' = 128 /\ bytes p' /\
    cbEDIDModule_IsEDIDValid (mkEdidData (Some p') 128) = Ok true.
Proof.
  intros Hp Hf. exists (fake_edid prm). split; [by apply FakePanelEDID_run|].
  by apply fake_edid_facts.
Qed.

Definition fake_example : CBIOS_FAKE_EDID_PARAMS :=
  mkFake ((dtl_full_timing csw_desc) <| PixelClock := 15400 |>) false [].

Lemma FakePanelEDID_valid_witness :
  exists p', cbEDIDModule_FakePanelEDID (Some fake_example) (Some (replicate 128 7)) 128 = Ok (true, Some p') /\
    zlen p' = 128 /\ bytes p' /\
    cbEDIDModule_IsEDIDValid (mkEdidData (Some p') 128) = Ok true.
Proof. apply (FakePanelEDID_valid fake_example (replicate 128 7)); [reflexivity|]. intros H. discriminate H. Defined.

(** ** Reading the timing back *)

(** The timings a detailed timing descriptor can hold: progressive, no borders,
    twelve-bit sizes, ten- and six-bit sync positions. *)
Definition representable (t : CBIOS_TIMING_ATTRIB) : Prop :=
  HorDisEnd t = XRes t /\ HorBStart t = XRes t /\ HorBEnd t = HorTotal t /\
  VerDisEnd t = YRes t /\ VerBStart t = YRes t /\ VerBEnd t = VerTotal t /\
  0 < XRes t < 4096 /\ 0 <= HorTotal t - XRes t < 4096 /\
  0 < YRes t < 4096 /\ 0 <= VerTotal t - YRes t < 4096 /\
  0 <= HorSyncStart t - XRes t < 1024 /\ 0 <= HorSyncEnd t - HorSyncStart t < 1024 /\
  0 <= VerSyncStart t - YRes t < 64 /\ 0 <= VerSyncEnd t - VerSyncStart t < 64.

(** A property of the numbers below [n], by computation. *)
Lemma below_forall (n : Z) (P : Z -> bool) x :
  forallb P (seqZ 0 n) = true -> 0 <= x < n -> P x = true.
Proof.
  rewrite forallb_forall. intros H Hx. apply H, list_elem_of_In, elem_of_seqZ. lia.
Qed.

Lemma byte_low x : 0 <= x -> u8 (Z.land x 0xFF) = x mod 256.
Proof.
  intros Hx. change 0xFF with (Z.ones 8). rewrite Z.land_ones by lia. unfold u8, wrap.
  change (2 ^ 8) with 256. by rewrite Z.mod_mod.
Qed.

Lemma nibbles a b : 0 <= a < 16 -> 0 <= b < 16 -> u8 (Z.lor (a * 16) b) = a * 16 + b.
Proof.
  intros Ha Hb.
  assert (H : forallb (fun a => forallb (fun b => u8 (Z.lor (a * 16) b) =? a * 16 + b) (seqZ 0 16))
    (seqZ 0 16) = true) by (vm_compute; reflexivity).
  apply (below_forall 16 _ a) in H; [|done]. apply (below_forall 16 _ b) in H; [|done]. cbv beta in H. lia.
Qed.

Lemma quads a b c d :
  0 <= a < 4 -> 0 <= b < 4 -> 0 <= c < 4 -> 0 <= d < 4 ->
  u8 (Z.lor (Z.lor (Z.lor (a * 64) (b * 16)) (c * 4)) d) = a * 64 + b * 16 + c * 4 + d.
Proof.
  intros Ha Hb Hc Hd.
  assert (H : forallb (fun a => forallb (fun b => forallb (fun c => forallb (fun d =>
      u8 (Z.lor (Z.lor (Z.lor (a * 64) (b * 16)) (c * 4)) d) =? a * 64 + b * 16 + c * 4 + d)
    (seqZ 0 4)) (seqZ 0 4)) (seqZ 0 4)) (seqZ 0 4) = true) by (vm_compute; reflexivity).
  apply (below_forall 4 _ a) in H; [|done]. apply (below_forall 4 _ b) in H; [|done].
  apply (below_forall 4 _ c) in H; [|done]. apply (below_forall 4 _ d) in H; [|done]. cbv beta in H. lia.
Qed.

(** The masks of the encoder, arithmetically. *)
Lemma enc12 x : 0 <= x < 4096 ->
  Z.shiftr (Z.land x 0xF00) 4 = x / 256 * 16 /\ Z.shiftr (Z.land x 0xF00) 8 = x / 256.
Proof.
  intros Hx.
  assert (H : forallb (fun x => (Z.shiftr (Z.land x 0xF00) 4 =? x / 256 * 16) &&
     (Z.shiftr (Z.land x 0xF00) 8 =? x / 256)) (seqZ 0 4096) = true) by (vm_compute; reflexivity).
  apply (below_forall 4096 _ x) in H; [|done]. cbv beta in H. lia.
Qed.

Lemma enc10 x : 0 <= x < 1024 ->
  Z.shiftr (Z.land x 0x300) 2 = x / 256 * 64 /\ Z.shiftr (Z.land x 0x300) 4 = x / 256 * 16.
Proof.
  intros Hx.
  assert (H : forallb (fun x => (Z.shiftr (Z.land x 0x300) 2 =? x / 256 * 64) &&
     (Z.shiftr (Z.land x 0x300) 4 =? x / 256 * 16)) (seqZ 0 1024) = true) by (vm_compute; reflexivity).
  apply (below_forall 1024 _ x) in H; [|done]. cbv beta in H. lia.
Qed.

Lemma enc6 x : 0 <= x < 64 ->
  Z.shiftr (Z.land x 0x30) 2 = x / 16 * 4 /\ Z.shiftr (Z.land x 0x30) 4 = x / 16 /\
  Z.shiftl (Z.land x 0x0F) 4 = x mod 16 * 16 /\ Z.land x 0x0F = x mod 16.
Proof.
  intros Hx.
  assert (H : forallb (fun x => (Z.shiftr (Z.land x 0x30) 2 =? x / 16 * 4) &&
     (Z.shiftr (Z.land x 0x30) 4 =? x / 16) && (Z.shiftl (Z.land x 0x0F) 4 =? x mod 16 * 16) &&
     (Z.land x 0x0F =? x mod 16)) (seqZ 0 64) = true) by (vm_compute; reflexivity).
  apply (below_forall 64 _ x) in H; [|done]. cbv beta in H. lia.
Qed.

(** The descriptor bytes of a representable timing. *)
Lemma fake_dtl_bytes t :
  representable t ->
  let hb := HorTotal t - XRes t in let vb := VerTotal t - YRes t in
  let ho := HorSyncStart t - XRes t in let hw := HorSyncEnd t - HorSyncStart t in
  let vo := VerSyncStart t - YRes t in let vw := VerSyncEnd t - VerSyncStart t in
  fake_dtl t =
  [XRes t mod 256; hb mod 256; XRes t / 256 * 16 + hb / 256;
   YRes t mod 256; vb mod 256; YRes t / 256 * 16 + vb / 256;
   ho mod 256; hw mod 256; vo mod 16 * 16 + vw mod 16;
   ho / 256 * 64 + hw / 256 * 16 + vo / 16 * 4 + vw / 16;
   0x90; 0x2C; 0x11; 0; 0;
   24 + (if Z.land (HVPolarity t) HorNEGATIVE =? 0 then 2 else 0) +
        (if Z.land (HVPolarity t) VerNEGATIVE =? 0 then 4 else 0)].
Proof.
  intros (E1 & E2 & E3 & E4 & E5 & E6 & Hx & Hhb & Hy & Hvb & Hho & Hhw & Hvo & Hvw). cbn zeta.
  unfold fake_dtl. rewrite E2, E3, E5, E6. cbn zeta.
  assert (Hu : forall e, 0 <= e < 4096 -> u16 e = e) by (intros e He; apply wrap_small; unfold fits; lia).
  rewrite !Hu by lia.
  destruct (enc12 (XRes t)) as [-> _]; [lia|]. destruct (enc12 (YRes t)) as [-> _]; [lia|].
  destruct (enc12 (HorTotal t - XRes t)) as [_ ->]; [lia|].
  destruct (enc12 (VerTotal t - YRes t)) as [_ ->]; [lia|].
  destruct (enc10 (HorSyncStart t - XRes t)) as [-> _]; [lia|].
  destruct (enc10 (HorSyncEnd t - HorSyncStart t)) as [_ ->]; [lia|].
  destruct (enc6 (VerSyncStart t - YRes t)) as (-> & _ & -> & _); [lia|].
  destruct (enc6 (VerSyncEnd t - VerSyncStart t)) as (_ & -> & _ & ->); [lia|].
  rewrite !byte_low, !nibbles, quads by (lia || dlia). reflexivity.
Qed.

Lemma fake_edid_desc prm :
  bProvideDtlTimingEDID prm = false -> representable (DtlTiming prm) ->
  exists d, desc_at (fake_edid prm) 54 d /\
    dtl_full_timing d = (DtlTiming prm) <| Size := TIMING_ATTRIB_SIZE |> <| FormatVIC := 0 |>
       <| PixelClock := 100 * (PixelClock (DtlTiming prm) mod 65536) |>
       <| RefreshRate := d_refresh d |>
       <| HVPolarity := (if Z.land (HVPolarity (DtlTiming prm)) HorNEGATIVE =? 0 then HorPOSITIVE else HorNEGATIVE) +
                        (if Z.land (HVPolarity (DtlTiming prm)) VerNEGATIVE =? 0 then VerPOSITIVE else VerNEGATIVE) |> /\
    d_clock d = PixelClock (DtlTiming prm) mod 65536 /\ d_interlaced d = false.
Proof.
  intros Hp Hr. assert (Hf : fake_ok prm) by (intros H; congruence).
  destruct (fake_edid_facts prm Hf) as (Hl & Hb & _).
  pose proof (bytes_desc_at _ 54 Hb ltac:(lia) ltac:(lia)) as Hd.
  match type of Hd with desc_at _ _ ?d => set (d0 := d) in * end.
  exists d0. split; [exact Hd|].
  assert (D : map d0 (seqZ 0 18) = [u8 (PixelClock (DtlTiming prm)); u8 (Z.shiftr (PixelClock (DtlTiming prm)) 8)] ++
     fake_dtl (DtlTiming prm)).
  { subst d0. unfold fake_edid, fake_detail, fake_body. rewrite Hp.
    unfold fake_dtl. cbn zeta.
    repeat match goal with |- context [u8 ?e] => generalize (u8 e); intro end. reflexivity. }
  rewrite fake_dtl_bytes in D by done. clearbody d0. clear Hd Hb Hl Hf Hp.
  destruct prm as [t b l]. cbn [DtlTiming] in *. change (seqZ 0 18) with
    [0; 1; 2; 3; 4; 5; 6; 7; 8; 9; 10; 11; 12; 13; 14; 15; 16; 17] in D. cbn [map app] in D. cbn zeta in D.
  injection D as D0 D1 D2 D3 D4 D5 D6 D7 D8 D9 D10 D11 D12 D13 D14 D15 D16 D17.
  destruct Hr as (E1 & E2 & E3 & E4 & E5 & E6 & Hx & Hhb & Hy & Hvb & Hho & Hhw & Hvo & Hvw).
  assert (Ck : d_clock d0 = PixelClock t mod 65536).
  { unfold d_clock. rewrite D0, D1, Z.shiftr_div_pow2 by lia. unfold u8, wrap. change (2 ^ 8) with 256. dlia. }
  assert (I : d_interlaced d0 = false).
  { unfold d_interlaced. rewrite D17. repeat destruct (_ =? 0); reflexivity. }
  split; [|done]. unfold dtl_full_timing.
  assert (Yr : d_yres d0 = YRes t /\ d_vblank_lines d0 = VerTotal t - YRes t).
  { unfold d_yres, d_vblank_lines. rewrite I. unfold d_vactive, d_vblank. rewrite D5, D6, D7.
    split; dlia. }
  destruct Yr as [Yr Vb].
  assert (Hs : d_hactive d0 = XRes t /\ d_hblank d0 = HorTotal t - XRes t).
  { unfold d_hactive, d_hblank. rewrite D2, D3, D4. split; dlia. }
  destruct Hs as [Hs Hbl].
  assert (So : d_hsoff d0 = HorSyncStart t - XRes t /\ d_hswidth d0 = HorSyncEnd t - HorSyncStart t).
  { unfold d_hsoff, d_hswidth. rewrite D8, D9, D11. split; dlia. }
  destruct So as [So Sw].
  assert (Vo : d_vsync_start d0 = VerSyncStart t /\ d_vsync_end d0 = VerSyncEnd t).
  { unfold d_vsync_end, d_vsync_start. rewrite I, Yr. unfold d_vsoff, d_vswidth. rewrite D10, D11. split; dlia. }
  destruct Vo as [Vo Vw].
  assert (Po : d_polarity d0 =
    (if Z.land (HVPolarity t) HorNEGATIVE =? 0 then HorPOSITIVE else HorNEGATIVE) +
    (if Z.land (HVPolarity t) VerNEGATIVE =? 0 then VerPOSITIVE else VerNEGATIVE)).
  { unfold d_polarity. rewrite D17. repeat destruct (_ =? 0); reflexivity. }
  rewrite Yr, Vb, Hs, Hbl, So, Sw, Vo, Vw, Po, Ck. clear -E1 E2 E3 E4 E5 E6.
  destruct t. cbn in *. subst. f_equal; lia.
Qed.

(** C34. What [cbEDIDModule_FakePanelEDID] encodes, [cbEDIDModule_ParseDtlTiming]
    decodes: the first descriptor of the fake EDID gives back every position of
    the panel's timing and its polarities, the clock in units of 100 Hz (the
    panel tables count in 10 kHz), and no interlacing. *)
Theorem FakePanelEDID_roundtrip prm p u :
  zlen p = 128 -> bProvideDtlTimingEDID prm = false -> representable (DtlTiming prm) ->
  0 < PixelClock (DtlTiming prm) < 65536 -> In (HVPolarity (DtlTiming prm)) [0; 0x40; 0x80; 0xC0] ->
  exists p' t', cbEDIDModule_FakePanelEDID (Some prm) (Some p) 128 = Ok (true, Some p') /\
    cbEDIDModule_ParseDtlTiming p' DETAILED_TIMINGS_INDEX u = Ok (true, t') /\ IsInterLaced t' = 0 /\
    FullTiming t' = (DtlTiming prm) <| Size := TIMING_ATTRIB_SIZE |> <| FormatVIC := 0 |>
      <| PixelClock := 100 * PixelClock (DtlTiming prm) |> <| RefreshRate := RefreshRate (FullTiming t') |>.
Proof.
  intros Hp Hb Hr Hc Hv. assert (Hf : fake_ok prm) by (intros H; congruence).
  destruct (fake_edid_desc prm Hb Hr) as (d & Hd & Ht & Hck & Hi).
  rewrite Z.mod_small in Ht, Hck by lia.
  assert (Hx : d_hactive d = XRes (DtlTiming prm)) by exact (f_equal XRes Ht).
  assert (Hy : d_yres d = YRes (DtlTiming prm)) by exact (f_equal YRes Ht).
  destruct Hr as (_ & _ & _ & _ & _ & _ & Rx & _ & Ry & _).
  exists (fake_edid prm). eexists. split; [by apply FakePanelEDID_run|].
  split; [apply (ParseDtlTiming_run _ _ _ Hd)|].
  - lia.
  - lia.
  - unfold d_yres in Hy. rewrite Hi in Hy. lia.
  - split; [cbn; by rewrite Hi|]. cbn [FullTiming]. change (FullTiming _) with (dtl_full_timing d).
    rewrite Ht. destruct (DtlTiming prm). cbn in *. f_equal.
    destruct Hv as [<-|[<-|[<-|[<-|[]]]]]; reflexivity.
Qed.

(** A 1200x1920 panel. *)
Definition panel_example : CBIOS_FAKE_EDID_PARAMS :=
  mkFake (mkTiming 0 0 1200 1920 6000 0xC0 15628 1346 1200 1200 1346 1296 1304 1935 1920 1920 1935 1924 1926)
    false [].

Lemma FakePanelEDID_roundtrip_witness :
  exists p' t', cbEDIDModule_FakePanelEDID (Some panel_example) (Some (replicate 128 7)) 128 = Ok (true, Some p') /\
    cbEDIDModule_ParseDtlTiming p' DETAILED_TIMINGS_INDEX zero_dti = Ok (true, t') /\ IsInterLaced t' = 0 /\
    FullTiming t' = (DtlTiming panel_example) <| Size := TIMING_ATTRIB_SIZE |> <| FormatVIC := 0 |>
      <| PixelClock := 100 * PixelClock (DtlTiming panel_example) |>
      <| RefreshRate := RefreshRate (FullTiming t') |>.
Proof.
  apply (FakePanelEDID_roundtrip panel_example (replicate 128 7) zero_dti);
    [reflexivity|reflexivity|unfold representable; cbn; lia|cbn; lia|cbn; tauto].
Defined.
