(* ===== verification/CoreUtil.v ===== *)
(** * Utilities of the GPU core

    [core/util/util.c] and the inline functions of [core/util/util.h]: base-2
    logarithms, bit scans, alignment and the CRC of command buffers. The
    theorems relate each loop to a closed form, and the table-driven CRC to the
    bitwise one. *)
From S2P Require Import Prelude.

(** ** Logarithms and bit positions *)

(** The [do ... while] of [util_log2]: the state is ([d], [iter]). *)
Definition util_log2_loop (fuel : nat) (s : Z) : res (Z * Z) :=
  iterate fuel
    (fun '(d, iter) =>
       let d := u32 (d * 2) in
       let iter := u32 (iter + 1) in
       if d <? s then Ok (inl (d, iter)) else Ok (inr (d, iter)))
    (1, u32 (-1)).

Definition util_log2 (s : Z) : res Z :=
  if s =? 1 then Ok 0
  else if s =? 2 then Ok 1
  else if s =? 4 then Ok 2
  else if s =? 8 then Ok 3
  else if s =? 16 then Ok 4
  else if s =? 32 then Ok 5
  else if s =? 64 then Ok 6
  else if s =? 128 then Ok 7
  else if s =? 256 then Ok 8
  else if s =? 512 then Ok 9
  else if s =? 1024 then Ok 10
  else
    let! '(d, iter) := util_log2_loop 33 s in
    Ok (u32 (iter + b2z (negb (u32 (Z.shiftl s 1) =? d)))).

Definition util_IsPow2 (value : Z) : bool := Z.land value (u32 (value - 1)) =? 0.

Definition util_NearestLog2 (val : Z) : res Z :=
  let input := val in
  let! '(val, result) :=
    iterate 9
      (fun '(val, result) =>
         if negb (Z.land val 0xFFFFFFF0 =? 0)
         then Ok (inl (Z.shiftr val 4, u32 (result + 4)))
         else Ok (inr (val, result)))
      (val, 0xFFFFFFFF) in
  let! result :=
    iterate 33
      (fun '(val, result) =>
         if negb (val =? 0) then Ok (inl (Z.shiftr val 1, u32 (result + 1)))
         else Ok (inr result))
      (val, result) in
  Ok (if util_IsPow2 input then result else u32 (result + 1)).

Definition util_get_msb_position (num : Z) : res Z :=
  iterate 32
    (fun '(num, msbpos) =>
       if 1 <? num then Ok (inl (Z.shiftr num 1, msbpos + 1)) else Ok (inr msbpos))
    (num, 0).

Definition util_get_lsb_position (data : Z) : res Z :=
  iterate 33
    (fun i =>
       if i <? 32 then
         if negb (Z.land data (u32 (Z.shiftl 1 i)) =? 0) then Ok (inr i) else Ok (inl (i + 1))
       else Ok (inr i)) 0.

(** [util_align] at 32 bits. *)
Definition util_align (size align : Z) : Z :=
  Z.land (u32 (size + align - 1)) (u32 (Z.lnot (u32 (align - 1)))).

(** ** The CRC *)

(** The static variables of [util_crc32]: [None] until the table is made. *)
Definition crc_static : Type := option (list Z).

Definition CRC_POLY : Z := 0x04C11DB7.

Definition crc_bit (crc : Z) : Z :=
  Z.lxor (u32 (Z.shiftl crc 1)) (if negb (Z.land crc 0x80000000 =? 0) then CRC_POLY else 0).

Definition util_crc32_table : res (list Z) :=
  for_up 256 0
    (fun i tbl =>
       let! crc := for_up 8 0 (fun _ crc => Ok (crc_bit crc)) (u32 (Z.shiftl i 24)) in
       wr tbl i crc)
    (replicate 256 0).

Definition util_crc32 (st : crc_static) (pBuf : list Z) (nSize : Z) : res (Z * crc_static) :=
  let! tbl := match st with Some tbl => Ok tbl | None => util_crc32_table end in
  let! crc :=
    for_up (Z.to_nat nSize) 0
      (fun k crc =>
         let! p := rd pBuf k in
         let! t := rd tbl (Z.land (Z.lxor (Z.shiftr crc 24) p) 0xFF) in
         Ok (Z.lxor (u32 (Z.shiftl crc 8)) t))
      0xFFFFFFFF in
  Ok (crc, Some tbl).

(** ** Logarithms: properties *)

Lemma log2_up_pow k : 0 <= k -> Z.log2_up (2 ^ k) = k.
Proof. apply Z.log2_up_pow2. Qed.

(** The doubling loop stops at the first power of two that is not below [s]. *)
Lemma util_log2_loop_run fuel s :
  1 < s <= 2 ^ 31 -> (32 <= fuel)%nat ->
  util_log2_loop fuel s = Ok (2 ^ Z.log2_up s, Z.log2_up s - 1).
Proof.
  intros Hs Hf. unfold util_log2_loop.
  assert (Hb : 0 < Z.log2_up s <= 31).
  { split; [by apply Z.log2_up_pos; lia|]. rewrite <- (log2_up_pow 31) by lia. apply Z.log2_up_le_mono. lia. }
  destruct (Z.log2_up_spec s) as [Hlo Hhi]; [lia|]. replace (Z.pred (Z.log2_up s)) with (Z.log2_up s - 1) in Hlo by lia.
  match goal with |- iterate fuel ?b ?st = _ => destruct (iterate_rule
    (fun '(d, iter) => exists k, 0 <= k < Z.log2_up s /\ d = 2 ^ k /\ iter = u32 (k - 1))
    (fun '(d, iter) => d = 2 ^ Z.log2_up s /\ iter = Z.log2_up s - 1)
    (fun '(d, _) => Z.to_nat (31 - Z.log2 d)) fuel b st) as ([d it] & -> & -> & ->) end; [| | |done].
  - intros [d it] (k & Hk & -> & ->). cbn beta iota zeta.
    assert (Hp : 0 < 2 ^ k /\ 2 ^ k * 2 = 2 ^ (k + 1)) by (rewrite Z.pow_add_r by lia; lia).
    assert (Hp2 : 2 ^ (k + 1) <= 2 ^ Z.log2_up s) by (apply Z.pow_le_mono_r; lia).
    assert (Hp3 : 2 ^ Z.log2_up s <= 2 ^ 31) by (apply Z.pow_le_mono_r; lia).
    destruct Hp as [Hp ->]. rewrite (wrap_small 32 (2 ^ (k + 1))) by (unfold fits; lia).
    rewrite wrap_add_l by lia. replace (k - 1 + 1) with k by lia. rewrite wrap_small by (unfold fits; lia).
    destruct (Z.ltb_spec (2 ^ (k + 1)) s) as [Hlt|Hge]; eexists; (split; [reflexivity|]); cbn beta iota.
    + assert (k + 1 < Z.log2_up s).
      { destruct (Z.eq_dec (k + 1) (Z.log2_up s)) as [E|]; [|lia]. rewrite E in Hlt. lia. }
      split; [|rewrite !Z.log2_pow2 by lia; lia]. exists (k + 1). split; [lia|]. split; [done|].
      replace (k + 1 - 1) with k by lia. symmetry. apply wrap_small. unfold fits; lia.
    + assert (k + 1 = Z.log2_up s) as E; [|rewrite E; split; [done|lia]].
      destruct (Z.lt_ge_cases (k + 1) (Z.log2_up s)); [|lia].
      assert (2 ^ (k + 1) <= 2 ^ (Z.log2_up s - 1)) by (apply Z.pow_le_mono_r; lia). lia.
  - exists 0. split; [lia|]. done.
  - cbn. lia.
Qed.

(** [util_log2] is the logarithm rounded up, for every argument from 1 to
    2^31: the unrolled cases and the loop agree. *)
Theorem util_log2_spec s : 1 <= s <= 2 ^ 31 -> util_log2 s = Ok (Z.log2_up s).
Proof.
  intros Hs. unfold util_log2.
  repeat match goal with |- context [if s =? ?c then _ else _] =>
    destruct (Z.eqb_spec s c) as [->|]; [reflexivity|] end.
  rewrite util_log2_loop_run by lia. cbn [rbind]. do 2 f_equal.
  assert (Hb : 0 < Z.log2_up s <= 31).
  { split; [by apply Z.log2_up_pos; lia|]. rewrite <- (log2_up_pow 31) by lia. apply Z.log2_up_le_mono. lia. }
  destruct (Z.log2_up_spec s) as [Hlo Hhi]; [lia|].
  assert (H2 : 2 ^ Z.log2_up s = 2 * 2 ^ Z.pred (Z.log2_up s)) by (rewrite <- Z.pow_succ_r by lia; f_equal; lia).
  assert (E : negb (u32 (Z.shiftl s 1) =? 2 ^ Z.log2_up s) = true).
  { rewrite Z.shiftl_mul_pow2 by lia. change (2 ^ 1) with 2. apply negb_true_iff, Z.eqb_neq.
    destruct (Z.eq_dec s (2 ^ 31)) as [->|].
    - change (u32 (2 ^ 31 * 2)) with 0. assert (0 < 2 ^ Z.log2_up (2 ^ 31)) by (apply Z.pow_pos_nonneg; lia). lia.
    - rewrite wrap_small by (unfold fits; lia). lia. }
  rewrite E. cbn [b2z]. rewrite wrap_small; [lia|]. unfold fits. lia.
Qed.

Lemma util_log2_spec_witness : util_log2 5 = Ok 3.
Proof. apply (util_log2_spec 5). lia. Defined.

(** Above 2^31 the doubling of [util_log2] wraps to zero and stays there:
    the loop does not end, whatever the bound. *)
Theorem util_log2_diverges fuel s : 2 ^ 31 < s < 2 ^ 32 -> util_log2_loop fuel s = Err OutOfFuel.
Proof.
  intros Hs. unfold util_log2_loop.
  assert (H : forall n d it, (d = 0 \/ exists k, 0 <= k <= 31 /\ d = 2 ^ k) ->
    iterate n (fun '(d, iter) =>
       let d := u32 (d * 2) in let iter := u32 (iter + 1) in
       if d <? s then Ok (inl (d, iter)) else Ok (inr (d, iter))) (d, it) = (Err OutOfFuel : res (Z * Z))).
  { induction n as [|n IH]; intros d it Hd; [done|]. cbn [iterate]. cbn zeta.
    assert (Hd' : u32 (d * 2) = 0 \/ exists k, 0 <= k <= 31 /\ u32 (d * 2) = 2 ^ k).
    { destruct Hd as [->|(k & Hk & ->)]; [by left|].
      destruct (Z.eq_dec k 31) as [->|]; [by left|]. right. exists (k + 1). split; [lia|].
      rewrite wrap_small; [rewrite Z.pow_add_r by lia; lia|].
      assert (2 ^ (k + 1) <= 2 ^ 31) by (apply Z.pow_le_mono_r; lia).
      assert (0 < 2 ^ k /\ 2 ^ (k + 1) = 2 ^ k * 2) by (rewrite Z.pow_add_r by lia; lia). unfold fits. lia. }
    destruct (Z.ltb_spec (u32 (d * 2)) s) as [_|Hge]; [by apply IH|]. exfalso.
    destruct Hd' as [E|(k & Hk & E)]; [lia|].
    assert (2 ^ k <= 2 ^ 31) by (apply Z.pow_le_mono_r; lia). lia. }
  apply H. right. exists 0. split; [lia|done].
Qed.

Lemma util_log2_diverges_witness : util_log2_loop 1000 (2 ^ 31 + 1) = Err OutOfFuel.
Proof. apply util_log2_diverges. lia. Defined.

(** [util_get_msb_position] is the logarithm rounded down of any non-zero
    32-bit word. *)
Lemma util_get_msb_position_spec num :
  0 < num < 2 ^ 32 -> util_get_msb_position num = Ok (Z.log2 num).
Proof.
  intros Hn. unfold util_get_msb_position.
  assert (Z.log2 num < 32) by (apply Z.log2_lt_pow2; lia).
  match goal with |- iterate 32 ?b ?st = _ => destruct (iterate_rule
    (fun '(n, p) => 0 < n /\ Z.log2 n + p = Z.log2 num)
    (fun p => p = Z.log2 num) (fun '(n, _) => Z.to_nat (Z.log2 n)) 32 b st) as (p & -> & ->) end; [| | |done].
  - intros [n p] [Hpos E]. cbn beta iota. destruct (Z.ltb_spec 1 n) as [Hlt|Hge].
    + eexists; split; [reflexivity|]. cbn beta iota.
      assert (El : Z.log2 (Z.shiftr n 1) = Z.log2 n - 1).
      { rewrite Z.log2_shiftr by lia. pose proof (Z.log2_pos n). lia. }
      assert (0 < Z.shiftr n 1) by (rewrite Z.shiftr_div_pow2 by lia; change (2 ^ 1) with 2; dlia).
      pose proof (Z.log2_pos n ltac:(lia)). rewrite El. lia.
    + eexists; split; [reflexivity|]. cbn beta iota. assert (n = 1) as -> by lia. change (Z.log2 1) with 0 in E. lia.
  - lia.
  - cbn. lia.
Qed.

Example util_get_msb_position_example : util_get_msb_position 0x90 = Ok 7.
Proof. apply (util_get_msb_position_spec 0x90). lia. Defined.

(** [util_get_lsb_position] finds the lowest set bit. *)
Lemma land_bit x i : 0 <= i < 32 -> (Z.land x (u32 (Z.shiftl 1 i)) =? 0) = negb (Z.testbit x i).
Proof.
  intros Hi. assert (u32 (Z.shiftl 1 i) = 2 ^ i) as ->.
  { rewrite Z.shiftl_1_l. apply wrap_small. split; [apply Z.pow_nonneg; lia|apply Z.pow_lt_mono_r; lia]. }
  destruct (Z.testbit x i) eqn:E; cbn [negb].
  - apply Z.eqb_neq. intros H. assert (Ht : Z.testbit (Z.land x (2 ^ i)) i = true).
    { rewrite Z.land_spec, E, Z.pow2_bits_eqb by lia. by rewrite Z.eqb_refl. }
    rewrite H, Z.bits_0 in Ht. discriminate.
  - apply Z.eqb_eq, Z.bits_inj'. intros m Hm. rewrite Z.land_spec, Z.pow2_bits_eqb, Z.bits_0 by lia.
    destruct (Z.eqb_spec i m) as [->|]; [by rewrite E|by rewrite andb_false_r].
Qed.

(** [util_get_lsb_position] returns the position of the lowest set bit of
    any non-zero 32-bit word, as the daemon thread needs to pick a hung engine. *)
Lemma util_get_lsb_position_spec data :
  0 < data < 2 ^ 32 -> exists n, util_get_lsb_position data = Ok n /\ lowest_bit data n.
Proof.
  intros Hd. unfold util_get_lsb_position.
  match goal with |- context [iterate 33 ?b ?st] => destruct (iterate_rule
    (fun i => 0 <= i <= 32 /\ forall m, 0 <= m < i -> Z.testbit data m = false)
    (fun i => lowest_bit data i) (fun i => Z.to_nat (32 - i)) 33 b st) as (n & Hn & Hl) end;
    [|split; [lia|intros; lia]|lia|by exists n].
  intros i [Hi Hm]. destruct (Z.ltb_spec i 32) as [Hlt|Hge].
  - rewrite land_bit by lia. destruct (Z.testbit data i) eqn:E; cbn [negb]; eexists; (split; [reflexivity|]); cbn beta iota.
    + split; [lia|]. split; [done|]. done.
    + split; [|lia]. split; [lia|]. intros m Hm'. destruct (Z.eq_dec m i) as [->|]; [done|]. apply Hm. lia.
  - exfalso. assert (data = 0); [|lia]. apply Z.bits_inj'. intros m Hm0. rewrite Z.bits_0.
    destruct (Z.lt_ge_cases m 32); [apply Hm; lia|]. apply (testbit_fits_high 32); [unfold fits; lia|lia].
Qed.

Example util_get_lsb_position_example :
  exists n, util_get_lsb_position 0x28 = Ok n /\ lowest_bit 0x28 n.
Proof. apply util_get_lsb_position_spec. lia. Defined.

Lemma util_IsPow2_spec v : 0 < v < 2 ^ 32 -> util_IsPow2 v = true <-> v = 2 ^ Z.log2 v.
Proof.
  intros Hv. unfold util_IsPow2. rewrite wrap_small by (unfold fits; lia).
  destruct (Z.log2_spec v) as [Hlo Hhi]; [lia|]. rewrite Z.pow_succ_r in Hhi by apply Z.log2_nonneg.
  set (k := Z.log2 v) in *. assert (Hk : 0 <= k) by apply Z.log2_nonneg.
  clearbody k. rewrite Z.eqb_eq. split.
  - intros H. destruct (Z.eq_dec v (2 ^ k)); [done|]. exfalso.
    assert (Ht : Z.testbit (Z.land v (v - 1)) k = true).
    { rewrite Z.land_spec. rewrite !(Z.testbit_true _ k) || idtac.
      apply andb_true_iff. split; apply Z.testbit_true; [lia| |lia|].
      - replace (v / 2 ^ k) with 1; [done|]. apply Z.div_unique with (v - 2 ^ k); lia.
      - replace ((v - 1) / 2 ^ k) with 1; [done|]. apply Z.div_unique with (v - 1 - 2 ^ k); lia. }
    rewrite H, Z.bits_0 in Ht. discriminate.
  - intros ->. rewrite Z.sub_1_r, <- Z.ones_equiv, Z.land_ones by lia. by apply Z.mod_same, Z.pow_nonzero.
Qed.

Lemma mask_high4 x : 0 <= x < 2 ^ 32 -> (Z.land x 0xFFFFFFF0 =? 0) = (x <? 16).
Proof.
  intros Hx. assert (E : Z.land x 0xFFFFFFF0 = Z.shiftl (Z.shiftr x 4) 4).
  { change 0xFFFFFFF0 with (Z.shiftl (Z.ones 28) 4). apply Z.bits_inj'. intros m Hm.
    rewrite Z.land_spec, !Z.shiftl_spec by lia. destruct (Z.lt_ge_cases m 4).
    - rewrite !(Z.testbit_neg_r _ (m - 4)) by lia. by rewrite andb_false_r.
    - rewrite Z.shiftr_spec by lia. replace (m - 4 + 4) with m by lia.
      destruct (Z.lt_ge_cases m 32).
      + rewrite Z.ones_spec_low by lia. by rewrite andb_true_r.
      + rewrite Z.ones_spec_high by lia. rewrite andb_false_r. symmetry.
        apply (testbit_fits_high 32); [exact Hx|lia]. }
  rewrite E, Z.shiftl_mul_pow2, Z.shiftr_div_pow2 by lia. change (2 ^ 4) with 16.
  destruct (Z.ltb_spec x 16), (Z.eqb_spec (x / 16 * 16) 0); try done; exfalso; dlia.
Qed.

(** Shifting a word with a logarithm of at least [n] by [n]. *)
Lemma log2_shift x n : 0 < x -> 0 <= n <= Z.log2 x -> 0 < Z.shiftr x n /\ Z.log2 (Z.shiftr x n) = Z.log2 x - n.
Proof.
  intros Hx Hn. split; [|rewrite Z.log2_shiftr by lia; lia].
  rewrite Z.shiftr_div_pow2 by lia. apply Z.div_str_pos. destruct (Z.log2_spec x); [lia|].
  assert (2 ^ n <= 2 ^ Z.log2 x) by (apply Z.pow_le_mono_r; lia).
  split; [apply Z.pow_pos_nonneg; lia|lia].
Qed.

(** The two loops: nibbles first, then bits; [result] counts the positions
    shifted out, less one. *)
Lemma nearest_nibbles v :
  0 < v < 2 ^ 32 ->
  exists x, iterate 9
      (fun '(val, result) =>
         if negb (Z.land val 0xFFFFFFF0 =? 0)
         then Ok (inl (Z.shiftr val 4, u32 (result + 4)))
         else Ok (inr (val, result))) (v, 0xFFFFFFFF) = Ok (x, u32 (Z.log2 v - Z.log2 x - 1)) /\
    0 < x < 16 /\ Z.log2 x <= Z.log2 v.
Proof.
  intros Hv. assert (Hl : 0 <= Z.log2 v < 32) by (split; [apply Z.log2_nonneg|apply Z.log2_lt_pow2; lia]).
  match goal with |- context [iterate 9 ?b ?st] => destruct (iterate_rule
    (fun '(x, r) => 0 < x < 2 ^ 32 /\ Z.log2 x <= Z.log2 v /\ r = u32 (Z.log2 v - Z.log2 x - 1))
    (fun '(x, r) => 0 < x < 16 /\ Z.log2 x <= Z.log2 v /\ r = u32 (Z.log2 v - Z.log2 x - 1))
    (fun '(x, _) => Z.to_nat (Z.log2 x / 4)) 9 b st) as ([x r] & -> & Hx & Hle & ->) end.
  - intros [x r] (Hx & Hle & ->). rewrite mask_high4 by lia.
    destruct (Z.ltb_spec x 16); cbn [negb]; eexists; (split; [reflexivity|]); cbn beta iota; [split; [lia|done]|].
    assert (4 <= Z.log2 x) by (apply Z.log2_le_pow2; lia).
    destruct (log2_shift x 4) as [Hp E]; [lia|lia|]. rewrite E.
    assert (Z.shiftr x 4 <= x) by (rewrite Z.shiftr_div_pow2 by lia; change (2 ^ 4) with 16; dlia).
    split; [|dlia]. split; [lia|]. split; [lia|]. rewrite wrap_add_l by lia. f_equal. lia.
  - split; [lia|]. split; [lia|]. rewrite Z.sub_diag. reflexivity.
  - cbn. dlia.
  - by exists x.
Qed.

Lemma nearest_bits L x :
  0 < x < 16 -> Z.log2 x <= L < 32 ->
  iterate 33
    (fun '(val, result) =>
       if negb (val =? 0) then Ok (inl (Z.shiftr val 1, u32 (result + 1)))
       else Ok (inr result)) (x, u32 (L - Z.log2 x - 1)) = Ok L.
Proof.
  intros Hx HL.
  match goal with |- iterate 33 ?b ?st = _ => destruct (iterate_rule
    (fun '(y, r) => 0 <= y < 16 /\ r = u32 (L - (if y =? 0 then -1 else Z.log2 y) - 1))
    (fun r => r = L) (fun '(y, _) => Z.to_nat y) 33 b st) as (r & -> & ->) end; [| | |done].
  - intros [y r] [Hy ->]. destruct (Z.eqb_spec y 0) as [->|Hy0]; cbn [negb]; eexists; (split; [reflexivity|]); cbn beta iota.
    + pose proof (Z.log2_nonneg x). rewrite wrap_small by (unfold fits; lia). lia.
    + assert (Es : Z.shiftr y 1 = y / 2) by (rewrite Z.shiftr_div_pow2 by lia; reflexivity). rewrite Es.
      split; [|dlia]. split; [dlia|]. rewrite wrap_add_l by lia. f_equal.
      destruct (Z.eqb_spec (y / 2) 0) as [E0|E0].
      * assert (y = 1) as -> by dlia. change (Z.log2 1) with 0. lia.
      * assert (1 <= Z.log2 y) by (apply Z.log2_le_pow2; dlia).
        destruct (log2_shift y 1) as [_ E]; [lia|lia|]. rewrite Es in E. lia.
  - split; [lia|]. destruct (Z.eqb_spec x 0); [lia|done].
  - cbn. lia.
Qed.

(** [util_NearestLog2] is the logarithm rounded up of any non-zero 32-bit
    word (and so agrees with [util_log2] wherever that one ends). *)
Theorem util_NearestLog2_spec v : 0 < v < 2 ^ 32 -> util_NearestLog2 v = Ok (Z.log2_up v).
Proof.
  intros Hv. assert (Hl : 0 <= Z.log2 v < 32) by (split; [apply Z.log2_nonneg|apply Z.log2_lt_pow2; lia]).
  unfold util_NearestLog2. cbn zeta. destruct (nearest_nibbles v Hv) as (x & -> & Hx & Hle). cbn [rbind].
  rewrite nearest_bits by lia. cbn [rbind]. f_equal.
  pose proof (util_IsPow2_spec v Hv) as Hp. destruct (util_IsPow2 v).
  - pose proof (proj1 Hp eq_refl) as E. rewrite E at 2. rewrite Z.log2_up_pow2 by lia. done.
  - rewrite wrap_small by (unfold fits; lia). destruct (Z.log2_spec v) as [Hlo Hhi]; [lia|].
    symmetry. apply Z.log2_up_unique; [lia|]. replace (Z.pred (Z.log2 v + 1)) with (Z.log2 v) by lia.
    replace (Z.succ (Z.log2 v)) with (Z.log2 v + 1) in Hhi by lia.
    assert (v <> 2 ^ Z.log2 v) by (intros E; by apply Hp in E). lia.
Qed.

Lemma util_NearestLog2_spec_witness : util_NearestLog2 0x80000001 = Ok 32.
Proof. apply (util_NearestLog2_spec 0x80000001). lia. Defined.

(** ** The CRC: table and bits *)

(** The reference: every byte is added to the top of the register, which then
    is shifted eight times. *)
Fixpoint crc_bits (n : nat) (crc : Z) : Z :=
  match n with O => crc | S n' => crc_bit (crc_bits n' crc) end.
Definition crc_step8 (crc : Z) : Z := crc_bits 8 crc.
Definition crc_reference (l : list Z) : Z :=
  fold_left (fun crc b => crc_step8 (Z.lxor crc (Z.shiftl b 24))) l 0xFFFFFFFF.

(** A fit number of bits is closed under exclusive or, and shifting is linear. *)
Lemma fits_lxor w a b : 0 <= w -> fits w a -> fits w b -> fits w (Z.lxor a b).
Proof.
  intros Hw Ha Hb. split.
  - apply Z.lxor_nonneg. unfold fits in *. lia.
  - destruct (Z.eq_dec (Z.lxor a b) 0) as [->|Hne]; [apply Z.pow_pos_nonneg; lia|].
    assert (Hz : Z.lxor a b = wrap w (Z.lxor a b)).
    { apply Z.bits_inj'. intros m Hm. destruct (Z.lt_ge_cases m w).
      - by rewrite testbit_wrap by lia.
      - rewrite testbit_wrap_high, Z.lxor_spec by lia.
        by rewrite !(testbit_fits_high w) by (done || lia). }
    rewrite Hz. by apply wrap_fits.
Qed.

Lemma wrap_lxor w a b : 0 <= w -> wrap w (Z.lxor a b) = Z.lxor (wrap w a) (wrap w b).
Proof.
  intros Hw. apply Z.bits_inj'. intros m Hm. rewrite Z.lxor_spec. destruct (Z.lt_ge_cases m w).
  - by rewrite !testbit_wrap, Z.lxor_spec by lia.
  - by rewrite !testbit_wrap_high by lia.
Qed.

Lemma top_bit x : fits 32 x -> negb (Z.land x 0x80000000 =? 0) = Z.testbit x 31.
Proof.
  intros Hx. change 0x80000000 with (u32 (Z.shiftl 1 31)). rewrite (land_bit x 31) by lia.
  by rewrite negb_involutive.
Qed.

Lemma crc_bit_fits x : fits 32 x -> fits 32 (crc_bit x).
Proof.
  intros Hx. unfold crc_bit. apply fits_lxor; [lia|apply wrap_fits; lia|].
  destruct (negb _); unfold CRC_POLY, fits; lia.
Qed.

Lemma crc_bit_lxor x y : fits 32 x -> fits 32 y -> crc_bit (Z.lxor x y) = Z.lxor (crc_bit x) (crc_bit y).
Proof.
  intros Hx Hy. unfold crc_bit. rewrite !top_bit by (done || (apply fits_lxor; (done || lia))).
  rewrite Z.shiftl_lxor, wrap_lxor, Z.lxor_spec by lia.
  destruct (Z.testbit x 31), (Z.testbit y 31); cbn [xorb]; rewrite ?Z.lxor_0_r;
    generalize (u32 (Z.shiftl x 1)) as a, (u32 (Z.shiftl y 1)) as b; intros a b.
  - rewrite Z.lxor_assoc, (Z.lxor_comm CRC_POLY (Z.lxor b _)), Z.lxor_assoc, Z.lxor_nilpotent, Z.lxor_0_r. done.
  - by rewrite !Z.lxor_assoc, (Z.lxor_comm b).
  - by rewrite Z.lxor_assoc.
  - done.
Qed.

Lemma iter_fits n x : fits 32 x -> fits 32 (crc_bits n x).
Proof. intros Hx. induction n; [done|]. cbn [crc_bits]. by apply crc_bit_fits. Qed.

Lemma iter_lxor n x y :
  fits 32 x -> fits 32 y ->
  crc_bits n (Z.lxor x y) = Z.lxor (crc_bits n x) (crc_bits n y).
Proof.
  intros Hx Hy. induction n as [|n IH]; [done|]. cbn [crc_bits]. rewrite IH. apply crc_bit_lxor; by apply iter_fits.
Qed.

(** While no bit reaches the top, a step is a shift. *)
Lemma iter_small n x :
  0 <= x < 2 ^ (32 - Z.of_nat n) -> (n <= 32)%nat -> crc_bits n x = x * 2 ^ Z.of_nat n.
Proof.
  intros Hx Hn. revert x Hx. induction n as [|n IH]; intros x Hx.
  - cbn [crc_bits]. change (2 ^ Z.of_nat 0) with 1. lia.
  - assert (Hp : 2 ^ (32 - Z.of_nat n) = 2 * 2 ^ (32 - Z.of_nat (S n))).
    { rewrite <- Z.pow_succ_r by lia. f_equal. lia. }
    cbn [crc_bits].
    rewrite IH by lia. set (y := x * 2 ^ Z.of_nat n).
    assert (Hy : 0 <= y < 2 ^ 31).
    { unfold y. split; [apply Z.mul_nonneg_nonneg; [lia|apply Z.pow_nonneg; lia]|].
      replace (2 ^ 31) with (2 ^ (32 - Z.of_nat (S n)) * 2 ^ Z.of_nat n).
      - apply Z.mul_lt_mono_pos_r; [apply Z.pow_pos_nonneg; lia|lia].
      - rewrite <- Z.pow_add_r by lia. f_equal. lia. }
    unfold crc_bit. rewrite top_bit by (unfold fits; lia).
    assert (Z.testbit y 31 = false) as ->.
    { apply (testbit_fits_high 31); [exact Hy|lia]. }
    rewrite Z.lxor_0_r, Z.shiftl_mul_pow2 by lia. rewrite wrap_small by (unfold fits; lia).
    unfold y. replace (Z.of_nat (S n)) with (Z.of_nat n + 1) by lia. rewrite Z.pow_add_r by lia. lia.
Qed.

(** The register splits into its top byte and the rest. *)
Lemma step8_split x :
  fits 32 x -> crc_step8 x = Z.lxor (u32 (Z.shiftl x 8)) (crc_step8 (Z.shiftl (Z.shiftr x 24) 24)).
Proof.
  intros Hx. unfold fits in Hx. rewrite Z.shiftl_mul_pow2, Z.shiftr_div_pow2, Z.shiftl_mul_pow2 by lia.
  set (hi := x / 2 ^ 24 * 2 ^ 24). set (lo := x mod 2 ^ 24).
  assert (Hlo : 0 <= lo < 2 ^ 24) by (apply Z.mod_pos_bound; lia).
  assert (Hhi : 0 <= x / 2 ^ 24 < 2 ^ 8) by (split; [apply Z.div_pos; lia|apply Z.div_lt_upper_bound; lia]).
  assert (E : x = Z.lxor lo hi).
  { apply Z.bits_inj'. intros m Hm. rewrite Z.lxor_spec. replace x with (x / 2 ^ 24 * 2 ^ 24 + lo) at 1.
    2: { unfold lo. pose proof (Z.div_mod x (2 ^ 24)). lia. }
    rewrite testbit_split by (done || lia). unfold hi. rewrite (Z.mul_pow2_bits _ 24 m) by lia.
    destruct (Z.ltb_spec m 24).
    - rewrite (Z.testbit_neg_r _ (m - 24)) by lia. by rewrite xorb_false_r.
    - rewrite (testbit_fits_high 24 lo) by (done || lia). by rewrite xorb_false_l. }
  assert (Hf : fits 32 lo /\ fits 32 hi) by (unfold fits, hi; split; lia).
  rewrite E at 1. unfold crc_step8. rewrite iter_lxor by apply Hf. f_equal.
  rewrite iter_small by lia. change (Z.of_nat 8) with 8. unfold wrap.
  replace (x * 2 ^ 8) with (lo * 2 ^ 8 + x / 2 ^ 24 * 2 ^ 32).
  - rewrite Z_mod_plus_full. symmetry. apply Z.mod_small. lia.
  - unfold lo. pose proof (Z.div_mod x (2 ^ 24)). lia.
Qed.

(** The table holds the eight steps of every byte. *)
Definition crc_table_ok (tbl : list Z) : Prop :=
  forall i, 0 <= i < 256 -> rd tbl i = Ok (crc_step8 (Z.shiftl i 24)).

Lemma util_crc32_table_ok : exists tbl, util_crc32_table = Ok tbl /\ crc_table_ok tbl.
Proof.
  unfold util_crc32_table.
  match goal with |- context [for_up 256 0 ?b ?s] => destruct (for_up_rule
    (fun k tbl => zlen tbl = 256 /\ forall i, 0 <= i < k -> rd tbl i = Ok (crc_step8 (Z.shiftl i 24)))
    256 0 b s) as (tbl & -> & _ & Ht) end; [| |by exists tbl].
  - intros k tbl Hk [Hl Ht]. cbn [for_up rbind]. rewrite wr_in by lia. eexists; split; [reflexivity|].
    split; [by rewrite zlen_insert|]. intros i Hi. destruct (Z.eq_dec i k) as [Eik|]; [rewrite Eik|].
    + rewrite rd_insert_eq by lia. unfold crc_step8.
      assert (u32 (Z.shiftl k 24) = Z.shiftl k 24) as ->.
      { apply wrap_small. rewrite Z.shiftl_mul_pow2 by lia. unfold fits. lia. }
      cbn [crc_bits]. reflexivity.
    + rewrite rd_insert_ne by lia. apply Ht. lia.
  - split; [reflexivity|]. intros; lia.
Qed.

(** C40. The table-driven [util_crc32] computes the bitwise CRC (polynomial
    04C11DB7, no reflection) of the first [nSize] bytes, on the first call,
    which makes the table, and on every later one. *)
Theorem util_crc32_reference st pBuf n :
  match st with Some tbl => crc_table_ok tbl | None => True end ->
  Forall (fits 8) pBuf -> 0 <= n <= zlen pBuf ->
  exists tbl, util_crc32 st pBuf n = Ok (crc_reference (take (Z.to_nat n) pBuf), Some tbl) /\ crc_table_ok tbl.
Proof.
  intros Hst Hb Hn. unfold util_crc32.
  assert (Htbl : exists tbl, (match st with Some tbl => Ok tbl | None => util_crc32_table end) = Ok tbl /\
    crc_table_ok tbl) by (destruct st as [tbl|]; [by exists tbl|apply util_crc32_table_ok]).
  destruct Htbl as (tbl & -> & Ht). cbn [rbind]. exists tbl. split; [|done].
  match goal with |- context [for_up ?k 0 ?b ?s] => destruct (for_up_rule
    (fun j crc => fits 32 crc /\ crc = crc_reference (take (Z.to_nat j) pBuf)) k 0 b s) as (crc & -> & _ & ->) end.
  - intros j crc Hj [Hf Hc]. destruct (rd_in pBuf j) as [p Hp]; [lia|]. rewrite Hp. cbn [rbind].
    pose proof (rd_Forall _ _ _ _ Hb Hp) as Hpf. cbn in Hpf.
    set (y := Z.lxor crc (Z.shiftl p 24)).
    assert (Hp24 : fits 32 (Z.shiftl p 24)) by (rewrite Z.shiftl_mul_pow2 by lia; unfold fits in *; lia).
    assert (Hy : fits 32 y) by (apply fits_lxor; (done || lia)).
    assert (Ei : Z.land (Z.lxor (Z.shiftr crc 24) p) 0xFF = Z.shiftr y 24).
    { unfold y. rewrite Z.shiftr_lxor, Z.shiftr_shiftl_l, Z.shiftl_0_r by lia.
      change 0xFF with (Z.ones 8). rewrite Z.land_ones by lia. apply wrap_small.
      apply fits_lxor; [lia| |done]. rewrite Z.shiftr_div_pow2 by lia. unfold fits in *.
      split; [apply Z.div_pos; lia|apply Z.div_lt_upper_bound; lia]. }
    rewrite Ei, Ht.
    2: { rewrite Z.shiftr_div_pow2 by lia. unfold fits in Hy. split; [apply Z.div_pos; lia|apply Z.div_lt_upper_bound; lia]. }
    cbn [rbind]. eexists; split; [reflexivity|].
    assert (Es : u32 (Z.shiftl crc 8) = u32 (Z.shiftl y 8)).
    { unfold y. rewrite Z.shiftl_lxor, wrap_lxor, Z.shiftl_shiftl by lia.
      assert (u32 (Z.shiftl p (24 + 8)) = 0) as ->; [|by rewrite Z.lxor_0_r].
      rewrite Z.shiftl_mul_pow2 by lia. apply Z.mod_mul. lia. }
    rewrite Es, <- step8_split by done. split; [by apply (iter_fits 8)|].
    apply rd_inv in Hp as [_ Hp]. replace (Z.to_nat (j + 1)) with (S (Z.to_nat j)) by lia.
    rewrite (take_S_r _ _ _ Hp). unfold crc_reference. rewrite fold_left_app. cbn [fold_left].
    unfold y. rewrite Hc. reflexivity.
  - split; [unfold fits; lia|done].
  - cbn [rbind]. by rewrite Z2Nat.id by lia.
Qed.

(** The check value of CRC-32/MPEG-2. *)
Example util_crc32_check :
  util_crc32 None [49; 50; 51; 52; 53; 54; 55; 56; 57] 9 =
  rmap (fun t => (0x0376E6E7, Some t)) util_crc32_table.
Proof. vm_compute. reflexivity. Qed.

Lemma util_crc32_reference_witness :
  exists tbl, util_crc32 None [49; 50; 51] 2 = Ok (crc_reference [49; 50], Some tbl) /\ crc_table_ok tbl.
Proof.
  apply (util_crc32_reference None [49; 50; 51] 2); [done| |vm_compute; split; discriminate].
  repeat (apply Forall_cons_2; [unfold fits; lia|]). apply Forall_nil_2.
Defined.
