(* ===== verification/ListHead.v ===== *)
(** * Linked lists of the GPU core

    The circular doubly linked lists of [core/util/list.h], on an explicit heap
    of nodes: every operation is the sequence of loads and stores of the
    source. The theorems: on a heap that holds a list, each operation yields a
    heap that holds the list the functional operation gives, and leaves every
    other node alone. *)
From S2P Require Import Prelude.
From stdpp Require Import gmap.
Local Open Scope Z_scope.

(** ** The heap *)

(** [struct list_head]; addresses are integers and 0 is the null pointer. *)
Record list_head := mkNode { prev : Z; next : Z }.
Abbreviation heap := (gmap Z list_head).

(** A load through a pointer; a node that is not in the heap is no object. *)
Definition load (h : heap) (a : Z) : res list_head :=
  if a =? 0 then Err NullDeref
  else match h !! a with Some n => Ok n | None => Err OutOfBounds end.

Definition get_prev (h : heap) (a : Z) : res Z := let! n := load h a in Ok (prev n).
Definition get_next (h : heap) (a : Z) : res Z := let! n := load h a in Ok (next n).
Definition set_prev (h : heap) (a v : Z) : res heap :=
  let! n := load h a in Ok (<[a := mkNode v (next n)]> h).
Definition set_next (h : heap) (a v : Z) : res heap :=
  let! n := load h a in Ok (<[a := mkNode (prev n) v]> h).

(** ** The operations *)

Definition list_init_head (item : Z) (h : heap) : res heap :=
  let! h := set_prev h item item in set_next h item item.

Definition list_add (item list : Z) (h : heap) : res heap :=
  let! h := set_prev h item list in
  let! n := get_next h list in
  let! h := set_next h item n in
  let! n := get_next h list in
  let! h := set_prev h n item in
  set_next h list item.

Definition list_add_tail (item list : Z) (h : heap) : res heap :=
  let! h := set_next h item list in
  let! p := get_prev h list in
  let! h := set_prev h item p in
  let! p := get_prev h list in
  let! h := set_next h p item in
  set_prev h list item.

Definition list_replace (from to : Z) (h : heap) : res heap :=
  let! p := get_prev h from in
  let! h := set_prev h to p in
  let! n := get_next h from in
  let! h := set_next h to n in
  let! n := get_next h from in
  let! h := set_prev h n to in
  let! p := get_prev h from in
  set_next h p to.

(** The common part of the deletions: [item->prev->next = item->next;
    item->next->prev = item->prev;] *)
Definition list_unlink (item : Z) (h : heap) : res heap :=
  let! p := get_prev h item in
  let! n := get_next h item in
  let! h := set_next h p n in
  let! n := get_next h item in
  let! p := get_prev h item in
  set_prev h n p.

Definition list_del (item : Z) (h : heap) : res heap :=
  let! h := list_unlink item h in
  let! h := set_prev h item 0 in
  set_next h item 0.

Definition list_del_init (item : Z) (h : heap) : res heap :=
  let! h := list_unlink item h in
  let! h := set_next h item item in
  set_prev h item item.

Definition list_empty (item : Z) (h : heap) : res bool :=
  let! n := get_next h item in Ok (n =? item).

(** [__list_del], [__list_del_entry] *)
Definition list_del_between (p n : Z) (h : heap) : res heap :=
  let! h := set_prev h n p in set_next h p n.

Definition list_del_entry (entry : Z) (h : heap) : res heap :=
  let! p := get_prev h entry in
  let! n := get_next h entry in
  list_del_between p n h.

Definition list_move (list head : Z) (h : heap) : res heap :=
  let! h := list_del_entry list h in list_add list head h.

Definition list_move_tail (list head : Z) (h : heap) : res heap :=
  let! h := list_del_entry list h in list_add_tail list head h.

Definition list_is_last (list head : Z) (h : heap) : res bool :=
  let! n := get_next h list in Ok (n =? head).

(** [__list_splice] *)
Definition list_splice_between (list p n : Z) (h : heap) : res heap :=
  let! first := get_next h list in
  let! last := get_prev h list in
  let! h := set_prev h first p in
  let! h := set_next h p first in
  let! h := set_next h last n in
  set_prev h n last.

Definition list_splice (list head : Z) (h : heap) : res heap :=
  let! e := list_empty list h in
  if negb e then let! n := get_next h head in list_splice_between list head n h else Ok h.

Definition list_splice_tail (list head : Z) (h : heap) : res heap :=
  let! e := list_empty list h in
  if negb e then let! p := get_prev h head in list_splice_between list p head h else Ok h.

Definition list_splice_init (list head : Z) (h : heap) : res heap :=
  let! e := list_empty list h in
  if negb e then
    let! n := get_next h head in
    let! h := list_splice_between list head n h in list_init_head list h
  else Ok h.

Definition list_splice_tail_init (list head : Z) (h : heap) : res heap :=
  let! e := list_empty list h in
  if negb e then
    let! p := get_prev h head in
    let! h := list_splice_between list p head h in list_init_head list h
  else Ok h.

(** [list_first_entry], [list_first_entry_or_null]: the node of the entry. *)
Definition list_first_entry (head : Z) (h : heap) : res Z := get_next h head.
Definition list_first_entry_or_null (head : Z) (h : heap) : res Z :=
  let! e := list_empty head h in
  if negb e then list_first_entry head h else Ok 0.

(** [list_for_each_entry]: the body sees a node and a state and either goes on
    ([inl]) or leaves the loop ([inr]); it must not change the links. *)
Definition list_for_each {S B} (fuel : nat) (head : Z) (h : heap) (body : Z -> S -> res (S + B)) (s : S)
  : res (S + B) :=
  let! first := get_next h head in
  iterate fuel
    (fun '(pos, s) =>
       if negb (pos =? head) then
         let! r := body pos s in
         match r with
         | inl s' => let! n := get_next h pos in Ok (inl (n, s'))
         | inr b => Ok (inr (inr b))
         end
       else Ok (inr (inl s))) (first, s).

(** The same iteration over a sequence. *)
Fixpoint for_list {S B} (body : Z -> S -> res (S + B)) (xs : list Z) (s : S) : res (S + B) :=
  match xs with
  | [] => Ok (inl s)
  | x :: xs' =>
      let! r := body x s in
      match r with inl s' => for_list body xs' s' | inr b => Ok (inr b) end
  end.

(** ** What a heap holds *)

Definition nxt (h : heap) (a : Z) : option Z := next <$> h !! a.
Definition prv (h : heap) (a : Z) : option Z := prev <$> h !! a.

Definition linked (h : heap) (a b : Z) : Prop := nxt h a = Some b /\ prv h b = Some a.

(** The nodes [xs] in order between [a] and [b]. *)
Fixpoint path (h : heap) (a : Z) (xs : list Z) (b : Z) : Prop :=
  match xs with
  | [] => linked h a b
  | x :: xs' => linked h a x /\ path h x xs' b
  end.

(** The list with the head [l] holds the nodes [xs]. *)
Definition is_list (h : heap) (l : Z) (xs : list Z) : Prop :=
  NoDup (l :: xs) /\ (0 ∉ l :: xs) /\ path h l xs l.

Definition present (h : heap) (a : Z) : Prop := a <> 0 /\ is_Some (h !! a).

(** No node appears or vanishes, and all nodes but those of [S] are as before. *)
Definition only_changes (S : list Z) (h h' : heap) : Prop :=
  (forall a, a ∉ S -> h' !! a = h !! a) /\ (forall a, present h' a <-> present h a).

(** The effect of a store on a present node. *)
Definition upd_next (h : heap) (a v : Z) : heap := alter (fun n => mkNode (prev n) v) a h.
Definition upd_prev (h : heap) (a v : Z) : heap := alter (fun n => mkNode v (next n)) a h.

(** A node that is in no list yet: the argument of the insertions. *)
Definition fresh (h : heap) (l : Z) (xs : list Z) (item : Z) : Prop := present h item /\ item ∉ l :: xs.

(** ** Programs of list operations and their abstract meaning *)

(** The calls a client makes on one list. *)
Inductive list_cmd :=
  CAdd (x : Z) | CAddTail (x : Z) | CDel (x : Z) | CDelInit (x : Z)
| CMove (x : Z) | CMoveTail (x : Z) | CReplace (x y : Z).

Definition exec (l : Z) (c : list_cmd) : heap -> res heap :=
  match c with
  | CAdd x => list_add x l | CAddTail x => list_add_tail x l
  | CDel x => list_del x | CDelInit x => list_del_init x
  | CMove x => list_move x l | CMoveTail x => list_move_tail x l
  | CReplace x y => list_replace x y
  end.

Fixpoint exec_all (l : Z) (cs : list list_cmd) (h : heap) : res heap :=
  match cs with [] => Ok h | c :: cs' => let! h := exec l c h in exec_all l cs' h end.

(** The specification: a sequence without repetitions. *)
Definition without (x : Z) (xs : list Z) : list Z := filter (fun y => y <> x) xs.
Definition meaning (c : list_cmd) (xs : list Z) : list Z :=
  match c with
  | CAdd x => x :: xs | CAddTail x => xs ++ [x]
  | CDel x | CDelInit x => without x xs
  | CMove x => x :: without x xs | CMoveTail x => without x xs ++ [x]
  | CReplace x y => (fun z => if decide (z = x) then y else z) <$> xs
  end.

(** Insertions take allocated nodes outside the list, the others nodes of it. *)
Definition allowed (alloc : Z -> Prop) (l : Z) (c : list_cmd) (xs : list Z) : Prop :=
  match c with
  | CAdd x | CAddTail x => alloc x /\ x ∉ l :: xs
  | CDel x | CDelInit x | CMove x | CMoveTail x => x ∈ xs
  | CReplace x y => x ∈ xs /\ alloc y /\ y ∉ l :: xs
  end.

Inductive abs_run (alloc : Z -> Prop) (l : Z) : list list_cmd -> list Z -> list Z -> Prop :=
| abs_nil xs : abs_run alloc l [] xs xs
| abs_cons c cs xs ys : allowed alloc l c xs -> abs_run alloc l cs (meaning c xs) ys ->
                        abs_run alloc l (c :: cs) xs ys.

Definition cmd_node (c : list_cmd) : Z :=
  match c with
  | CAdd x | CAddTail x | CDel x | CDelInit x | CMove x | CMoveTail x => x
  | CReplace _ y => y
  end.

(** ** Loads and stores on present nodes *)

Lemma load_present h a : present h a -> exists n, load h a = Ok n /\ h !! a = Some n.
Proof.
  intros [H0 [n Hn]]. unfold load. destruct (Z.eqb_spec a 0); [done|]. rewrite Hn. by exists n.
Qed.

Lemma get_next_run h a v : present h a -> nxt h a = Some v -> get_next h a = Ok v.
Proof.
  intros Hp Hv. destruct (load_present _ _ Hp) as (n & Hl & Hn). unfold get_next. rewrite Hl.
  unfold nxt in Hv. rewrite Hn in Hv. cbn in *. congruence.
Qed.

Lemma get_prev_run h a v : present h a -> prv h a = Some v -> get_prev h a = Ok v.
Proof.
  intros Hp Hv. destruct (load_present _ _ Hp) as (n & Hl & Hn). unfold get_prev. rewrite Hl.
  unfold prv in Hv. rewrite Hn in Hv. cbn in *. congruence.
Qed.

Lemma set_next_run h a v : present h a -> set_next h a v = Ok (upd_next h a v).
Proof.
  intros Hp. destruct (load_present _ _ Hp) as (n & Hl & Hn). unfold set_next, upd_next. rewrite Hl.
  cbn [rbind]. f_equal. apply map_eq. intros x. destruct (decide (x = a)) as [->|].
  - by rewrite lookup_insert_eq, lookup_alter_eq, Hn.
  - by rewrite lookup_insert_ne, lookup_alter_ne by done.
Qed.

Lemma set_prev_run h a v : present h a -> set_prev h a v = Ok (upd_prev h a v).
Proof.
  intros Hp. destruct (load_present _ _ Hp) as (n & Hl & Hn). unfold set_prev, upd_prev. rewrite Hl.
  cbn [rbind]. f_equal. apply map_eq. intros x. destruct (decide (x = a)) as [->|].
  - by rewrite lookup_insert_eq, lookup_alter_eq, Hn.
  - by rewrite lookup_insert_ne, lookup_alter_ne by done.
Qed.

Lemma present_upd_next h a v x : present (upd_next h a v) x <-> present h x.
Proof.
  unfold present, upd_next. destruct (decide (x = a)) as [->|].
  - rewrite lookup_alter_eq. destruct (h !! a); cbn; [|done]. split; intros [? ?]; split; done.
  - by rewrite lookup_alter_ne by done.
Qed.

Lemma present_upd_prev h a v x : present (upd_prev h a v) x <-> present h x.
Proof.
  unfold present, upd_prev. destruct (decide (x = a)) as [->|].
  - rewrite lookup_alter_eq. destruct (h !! a); cbn; [|done]. split; intros [? ?]; split; done.
  - by rewrite lookup_alter_ne by done.
Qed.

Lemma nxt_upd_next_eq h a v : present h a -> nxt (upd_next h a v) a = Some v.
Proof. intros [_ [n Hn]]. unfold nxt, upd_next. by rewrite lookup_alter_eq, Hn. Qed.
Lemma nxt_upd_next_ne h a v x : x <> a -> nxt (upd_next h a v) x = nxt h x.
Proof. intros. unfold nxt, upd_next. by rewrite lookup_alter_ne. Qed.
Lemma prv_upd_prev_eq h a v : present h a -> prv (upd_prev h a v) a = Some v.
Proof. intros [_ [n Hn]]. unfold prv, upd_prev. by rewrite lookup_alter_eq, Hn. Qed.
Lemma prv_upd_prev_ne h a v x : x <> a -> prv (upd_prev h a v) x = prv h x.
Proof. intros. unfold prv, upd_prev. by rewrite lookup_alter_ne. Qed.
Lemma prv_upd_next h a v x : prv (upd_next h a v) x = prv h x.
Proof.
  unfold prv, upd_next. destruct (decide (x = a)) as [->|]; [|by rewrite lookup_alter_ne].
  rewrite lookup_alter_eq. by destruct (h !! a).
Qed.
Lemma nxt_upd_prev h a v x : nxt (upd_prev h a v) x = nxt h x.
Proof.
  unfold nxt, upd_prev. destruct (decide (x = a)) as [->|]; [|by rewrite lookup_alter_ne].
  rewrite lookup_alter_eq. by destruct (h !! a).
Qed.

Lemma upd_next_other h a v x : x <> a -> upd_next h a v !! x = h !! x.
Proof. intros. unfold upd_next. by rewrite lookup_alter_ne. Qed.
Lemma upd_prev_other h a v x : x <> a -> upd_prev h a v !! x = h !! x.
Proof. intros. unfold upd_prev. by rewrite lookup_alter_ne. Qed.

(** Presence after stores. *)
Ltac pres := repeat first [rewrite present_upd_next | rewrite present_upd_prev]; assumption.

(** The links after a sequence of stores, node by node; the inequalities come
    from the context. *)
Ltac links :=
  repeat first
    [ rewrite prv_upd_next | rewrite nxt_upd_prev
    | rewrite nxt_upd_next_eq by pres | rewrite prv_upd_prev_eq by pres
    | rewrite nxt_upd_next_ne by congruence | rewrite prv_upd_prev_ne by congruence ];
  try done.

(** ** Paths *)

Lemma path_app h a xs y ys b : path h a (xs ++ y :: ys) b <-> path h a xs y /\ path h y ys b.
Proof.
  revert a. induction xs as [|x xs IH]; intros a; cbn [path app]; [done|]. rewrite IH. tauto.
Qed.

Lemma last_cons (xs : list Z) x a : List.last (x :: xs) a = List.last xs x.
Proof. revert x. induction xs as [|y xs IH]; intros x; [done|]. cbn in *. by destruct xs. Qed.

Lemma path_first h a xs b : path h a xs b -> nxt h a = Some (hd b xs).
Proof. destruct xs; cbn; unfold linked; tauto. Qed.

Lemma path_last h a xs b : path h a xs b -> prv h b = Some (List.last xs a).
Proof.
  revert a. induction xs as [|x xs IH]; intros a; cbn [path]; [unfold linked; tauto|].
  intros [_ H]. by rewrite (IH _ H), last_cons.
Qed.

Lemma last_in (xs : list Z) a : List.last xs a ∈ a :: xs.
Proof.
  revert a. induction xs as [|x xs IH]; intros a; [by left|]. rewrite last_cons. right. apply IH.
Qed.

Lemma hd_in (xs : list Z) b : hd b xs ∈ b :: xs.
Proof. destruct xs; cbn; set_solver. Qed.

Lemma path_frame h h' a xs b :
  path h a xs b -> (forall x, x ∈ a :: xs -> nxt h' x = nxt h x) ->
  (forall x, x ∈ xs ++ [b] -> prv h' x = prv h x) -> path h' a xs b.
Proof.
  revert a. induction xs as [|x xs IH]; intros a Hp Hn Hv; cbn [path app] in *; unfold linked in *.
  - rewrite Hn, Hv by set_solver. done.
  - destruct Hp as [Hl Hp]. rewrite Hn, Hv by set_solver. split; [done|].
    apply IH; [done| |]; intros y Hy; [apply Hn|apply Hv]; set_solver.
Qed.

(** Redirecting the last link of a path. *)
Lemma path_relink h h' a xs b b' :
  path h a xs b -> (forall x, x ∈ a :: xs -> x <> List.last xs a -> nxt h' x = nxt h x) ->
  (forall x, x ∈ xs -> prv h' x = prv h x) -> NoDup (a :: xs) ->
  linked h' (List.last xs a) b' -> path h' a xs b'.
Proof.
  revert a. induction xs as [|x xs IH]; intros a Hp Hn Hv Hnd Hl; cbn [path] in *; [done|].
  destruct Hp as [[H1 H2] Hp]. inversion_clear Hnd as [|? ? Ha Hnd'].
  rewrite last_cons in *. pose proof (last_in xs x) as Hin. split.
  - split; [rewrite Hn; [done|by left|intros ->; done]|rewrite Hv; [done|by left]].
  - apply IH; [done| | |done|done]; intros y Hy; intros; [apply Hn|apply Hv]; set_solver.
Qed.

Lemma path_present_next h a xs b : path h a xs b -> forall x, x ∈ a :: xs -> is_Some (h !! x).
Proof.
  revert a. induction xs as [|x xs IH]; intros a Hp y Hy; cbn [path] in *.
  - destruct Hp as [H1 _]. apply list_elem_of_singleton in Hy as ->. unfold nxt in H1.
    destruct (h !! a); [by eexists|done].
  - destruct Hp as [[H1 _] Hp]. apply elem_of_cons in Hy as [->|Hy]; [|by eapply IH].
    unfold nxt in H1. destruct (h !! a); [by eexists|done].
Qed.

Lemma is_list_present h l xs x : is_list h l xs -> x ∈ l :: xs -> present h x.
Proof.
  intros (_ & H0 & Hp) Hx. split; [set_solver|]. by eapply path_present_next.
Qed.


(** A heap holds at most one sequence at a head. *)
Lemma path_fun h a xs ys b : path h a xs b -> path h a ys b -> b ∉ xs -> b ∉ ys -> xs = ys.
Proof.
  revert a ys. induction xs as [|x xs IH]; intros a [|y ys]; cbn [path]; unfold linked; intros H1 H2 Hx Hy; [done|..].
  - destruct H1 as [H1 _], H2 as [[H2 _] _]. exfalso. apply Hy. assert (y = b) as -> by congruence. by left.
  - destruct H1 as [[H1 _] _], H2 as [H2 _]. exfalso. apply Hx. assert (x = b) as -> by congruence. by left.
  - destruct H1 as [[H1 _] P1], H2 as [[H2 _] P2]. assert (y = x) as -> by congruence. f_equal.
    apply (IH x); [done|done|..]; intros Hin; [apply Hx|apply Hy]; by right.
Qed.

Lemma is_list_fun h l xs ys : is_list h l xs -> is_list h l ys -> xs = ys.
Proof.
  intros (N1 & _ & P1) (N2 & _ & P2). inversion_clear N1. inversion_clear N2. by eapply path_fun.
Qed.

(** ** What the operations store *)

Lemma nxt_upd_next h a v x : present h a -> nxt (upd_next h a v) x = if decide (x = a) then Some v else nxt h x.
Proof. intros. case_decide; [subst; by apply nxt_upd_next_eq|by apply nxt_upd_next_ne]. Qed.
Lemma prv_upd_prev h a v x : present h a -> prv (upd_prev h a v) x = if decide (x = a) then Some v else prv h x.
Proof. intros. case_decide; [subst; by apply prv_upd_prev_eq|by apply prv_upd_prev_ne]. Qed.

(** Runs a sequence of loads and stores; presence and links come from the context. *)
Ltac heap_step :=
  first
    [ rewrite set_next_run by pres | rewrite set_prev_run by pres
    | erewrite get_next_run by first [pres | links; eassumption]
    | erewrite get_prev_run by first [pres | links; eassumption] ];
  cbn [rbind].
Ltac heap_go := repeat heap_step.

(** Links of an updated heap as a case distinction on the node. *)
Ltac updated :=
  repeat first
    [ rewrite prv_upd_next | rewrite nxt_upd_prev
    | rewrite nxt_upd_next by pres | rewrite prv_upd_prev by pres ].
Ltac ring_solve :=
  intros; updated; repeat case_decide; subst; first [done | congruence].

Lemma only_changes_upd_next S h h' a v : a ∈ S -> only_changes S h h' -> only_changes S h (upd_next h' a v).
Proof.
  intros Ha [Hc Hp]. split; intros x; [intros Hx|by rewrite present_upd_next].
  rewrite upd_next_other by (intros ->; done). by apply Hc.
Qed.
Lemma only_changes_upd_prev S h h' a v : a ∈ S -> only_changes S h h' -> only_changes S h (upd_prev h' a v).
Proof.
  intros Ha [Hc Hp]. split; intros x; [intros Hx|by rewrite present_upd_prev].
  rewrite upd_prev_other by (intros ->; done). by apply Hc.
Qed.
Lemma only_changes_refl S h : only_changes S h h.
Proof. by split. Qed.
Lemma only_changes_trans S T h h' h'' :
  only_changes S h h' -> only_changes T h' h'' -> only_changes (S ++ T) h h''.
Proof.
  intros [H1 P1] [H2 P2]. split; intros x; [intros Hx|by rewrite P2].
  apply not_elem_of_app in Hx as [? ?]. by rewrite H2, H1.
Qed.
Lemma only_changes_mono S T h h' : S ⊆ T -> only_changes S h h' -> only_changes T h h'.
Proof. intros HS [H1 P1]. split; [|done]. intros x Hx. apply H1. set_solver. Qed.
Ltac changes := repeat first [ apply only_changes_upd_next; [set_solver|] | apply only_changes_upd_prev; [set_solver|] ]; apply only_changes_refl.

Lemma list_add_run h item list n :
  present h item -> present h list -> present h n -> nxt h list = Some n -> item <> list ->
  list_add item list h =
    Ok (upd_next (upd_prev (upd_next (upd_prev h item list) item n) n item) list item).
Proof. intros. unfold list_add. heap_go. done. Qed.

Lemma list_add_tail_run h item list p :
  present h item -> present h list -> present h p -> prv h list = Some p -> item <> list ->
  list_add_tail item list h =
    Ok (upd_prev (upd_next (upd_prev (upd_next h item list) item p) p item) list item).
Proof. intros. unfold list_add_tail. heap_go. done. Qed.

Lemma list_unlink_run h item p n :
  present h item -> present h p -> present h n -> prv h item = Some p -> nxt h item = Some n ->
  item <> p -> item <> n -> list_unlink item h = Ok (upd_prev (upd_next h p n) n p).
Proof. intros. unfold list_unlink. heap_go. done. Qed.

(** ** The operations on lists *)

Lemma is_list_next h l xs : is_list h l xs -> nxt h l = Some (hd l xs).
Proof. intros (_ & _ & Hp). by eapply path_first. Qed.
Lemma is_list_prev h l xs : is_list h l xs -> prv h l = Some (List.last xs l).
Proof. intros (_ & _ & Hp). by eapply path_last. Qed.

Lemma is_list_frame h h' S l xs :
  is_list h l xs -> only_changes S h h' -> (forall x, x ∈ l :: xs -> x ∉ S) -> is_list h' l xs.
Proof.
  intros (Hnd & H0 & Hp) [Hc _] Hd. split; [done|]. split; [done|].
  eapply path_frame; [done| |]; intros x Hx; unfold nxt, prv; rewrite Hc; try done; apply Hd; set_solver.
Qed.

(** Distinctness of the nodes of a concatenation. *)
Ltac members := rewrite ?NoDup_cons, ?NoDup_app, ?NoDup_cons, ?NoDup_nil in *; set_unfold.
(** [apart H1 H2 H3]: nodes are distinct by the memberships [H1 H2 H3]. *)
Ltac apart H1 H2 H3 := clear - H1 H2 H3; members; naive_solver.
Ltac nodup := members; naive_solver.

Lemma list_add_ok h l xs item :
  is_list h l xs -> fresh h l xs item ->
  exists h', list_add item l h = Ok h' /\ is_list h' l (item :: xs) /\
             only_changes [item; l; hd l xs] h h'.
Proof.
  intros Hl [Hp Hf]. pose proof (is_list_next _ _ _ Hl) as Hn. pose proof Hl as (Hnd & H0 & Hpath).
  assert (Pl : present h l) by (eapply is_list_present; [done|by left]).
  assert (Pn : present h (hd l xs)) by (eapply is_list_present; [done|apply hd_in]).
  assert (Hne : item <> l) by set_solver.
  assert (Hni : item <> hd l xs) by (pose proof (hd_in xs l); congruence).
  rewrite (list_add_run h item l (hd l xs)) by done. eexists. split; [done|]. split; [|changes].
  pose proof (proj1 Hp) as Hi0. split; [|split].
  - clear -Hnd Hf. nodup.
  - clear -H0 Hi0. set_solver.
  - cbn [path]. split; [split; ring_solve|]. destruct xs as [|y ys]; cbn [path hd] in *.
    + split; ring_solve.
    + split; [split; ring_solve|].
      destruct Hpath as [_ Hpath]. eapply path_frame; [done| |]; intros x Hx.
      * assert (x <> item /\ x <> l) as [? ?] by apart Hx Hnd Hf. ring_solve.
      * assert (x <> item /\ x <> y) as [? ?] by apart Hx Hnd Hf. ring_solve.
Qed.

Lemma list_add_tail_ok h l xs item :
  is_list h l xs -> fresh h l xs item ->
  exists h', list_add_tail item l h = Ok h' /\ is_list h' l (xs ++ [item]) /\
             only_changes [item; l; List.last xs l] h h'.
Proof.
  intros Hl [Hp Hf]. pose proof (is_list_prev _ _ _ Hl) as Hn. pose proof Hl as (Hnd & H0 & Hpath).
  assert (Pl : present h l) by (eapply is_list_present; [done|by left]).
  pose proof (last_in xs l) as Hin.
  assert (Pn : present h (List.last xs l)) by (by eapply is_list_present).
  assert (Hne : item <> l) by set_solver.
  assert (Hni : item <> List.last xs l) by congruence.
  rewrite (list_add_tail_run h item l (List.last xs l)) by done.
  eexists. split; [done|]. split; [|changes].
  pose proof (proj1 Hp) as Hi0. split; [|split].
  - clear -Hnd Hf. nodup.
  - clear -H0 Hi0. set_solver.
  - apply path_app. split; [|split; ring_solve].
    eapply path_relink; [exact Hpath| | |done|split; ring_solve].
    + intros x Hx Hxl. assert (x <> item) by apart Hx Hf Hf. ring_solve.
    + intros x Hx. assert (x <> item /\ x <> l) as [? ?] by apart Hx Hnd Hf. ring_solve.
Qed.

Lemma ring_disjoint (l : Z) xs ys z : NoDup (l :: xs ++ ys) -> z ∈ l :: xs -> z ∉ ys.
Proof.
  rewrite NoDup_cons, NoDup_app, not_elem_of_app, elem_of_cons. intros ([? ?] & ? & Hd & ?) [->|Hz]; [done|by apply Hd].
Qed.

Lemma ring_disjoint_r (l : Z) xs ys z : NoDup (l :: xs ++ ys) -> z ∈ xs -> z ∉ l :: ys.
Proof.
  rewrite NoDup_cons, NoDup_app, not_elem_of_app, not_elem_of_cons. intros ([? ?] & ? & Hd & ?) Hz.
  split; [intros ->; done|by apply Hd].
Qed.

Lemma is_list_split h l xs x ys :
  is_list h l (xs ++ x :: ys) ->
  path h l xs x /\ path h x ys l /\ x <> l /\ x <> List.last xs l /\ x <> hd l ys /\
  present h x /\ present h (List.last xs l) /\ present h (hd l ys).
Proof.
  intros Hl. pose proof Hl as (Hnd & H0 & Hp). apply path_app in Hp as [Hp1 Hp2].
  pose proof (last_in xs l) as Hla. pose proof (hd_in ys l) as Hhd.
  assert (Hx : x ∉ l :: xs /\ x ∉ l :: ys) by (clear -Hnd; members; naive_solver).
  destruct Hx as [Hx1 Hx2]. split; [done|]. split; [done|]. split; [|split; [|split]].
  1: by intros ->; apply Hx1; left. 1, 2: congruence.
  split; [|split]; eapply (is_list_present _ _ _ _ Hl); clear Hp1 Hp2 Hl; members; naive_solver.
Qed.

Lemma list_unlink_ok h l xs x ys :
  is_list h l (xs ++ x :: ys) ->
  exists h', list_unlink x h = Ok h' /\ is_list h' l (xs ++ ys) /\ present h' x /\
             only_changes [List.last xs l; hd l ys] h h'.
Proof.
  intros Hl. destruct (is_list_split _ _ _ _ _ Hl) as (Hp1 & Hp2 & Hxl & Hxp & Hxn & Px & Pp & Pn).
  pose proof Hl as (Hnd & H0 & _). pose proof (last_in xs l) as Hla. pose proof (hd_in ys l) as Hhd.
  rewrite (list_unlink_run h x (List.last xs l) (hd l ys)); try done;
    [|by eapply path_last|by eapply path_first].
  eexists. split; [done|]. split; [|split; [pres|changes]]. split; [|split].
  - clear -Hnd. nodup.
  - clear -H0. members. naive_solver.
  - destruct ys as [|y ys]; cbn [hd path] in *; [rewrite app_nil_r|apply path_app; destruct Hp2 as [Hp2 Hp3]].
    + eapply path_relink; [exact Hp1| | |clear -Hnd; nodup|split; ring_solve].
      * intros z Hz Hzl. ring_solve.
      * intros z Hz. assert (z <> l) by apart Hz Hnd Hnd. ring_solve.
    + split.
      * eapply path_relink; [exact Hp1| | |clear -Hnd; nodup|split; ring_solve].
        -- intros z Hz Hzl. ring_solve.
        -- intros z Hz. assert (z <> y) by apart Hz Hnd Hnd. ring_solve.
      * eapply path_frame; [exact Hp3| |]; intros z Hz.
        -- assert (z <> List.last xs l) by (intros ->; apply (ring_disjoint _ _ _ _ Hnd Hla); by right). ring_solve.
        -- assert (z <> y) by apart Hz Hnd Hnd. ring_solve.
Qed.

Lemma upd_comm h a v b w : upd_next (upd_prev h b w) a v = upd_prev (upd_next h a v) b w.
Proof.
  unfold upd_next, upd_prev. destruct (decide (a = b)) as [->|Hne].
  - apply map_eq. intros x. destruct (decide (x = b)) as [->|Hx].
    + rewrite !lookup_alter_eq. by destruct (h !! b).
    + by rewrite !lookup_alter_ne by done.
  - by apply alter_alter_ne.
Qed.

(** [__list_del_entry] stores in the other order; the effect is that of the unlinking. *)
Lemma list_del_entry_unlink h l xs x ys :
  is_list h l (xs ++ x :: ys) -> list_del_entry x h = list_unlink x h.
Proof.
  intros Hl. destruct (is_list_split _ _ _ _ _ Hl) as (Hp1 & Hp2 & Hxl & Hxp & Hxn & Px & Pp & Pn).
  assert (Hv : prv h x = Some (List.last xs l)) by (by eapply path_last).
  assert (Hn : nxt h x = Some (hd l ys)) by (by eapply path_first).
  rewrite (list_unlink_run h x (List.last xs l) (hd l ys)) by done.
  unfold list_del_entry, list_del_between. heap_go. by rewrite upd_comm.
Qed.

Lemma list_replace_ok h l xs x ys y :
  is_list h l (xs ++ x :: ys) -> fresh h l (xs ++ x :: ys) y ->
  exists h', list_replace x y h = Ok h' /\ is_list h' l (xs ++ y :: ys) /\
             only_changes [y; List.last xs l; hd l ys] h h'.
Proof.
  intros Hl [Py Hy]. destruct (is_list_split _ _ _ _ _ Hl) as (Hp1 & Hp2 & Hxl & Hxp & Hxn & Px & Pp & Pn).
  pose proof Hl as (Hnd & H0 & _). pose proof (last_in xs l) as Hla. pose proof (hd_in ys l) as Hhd.
  assert (Hv : prv h x = Some (List.last xs l)) by (by eapply path_last).
  assert (Hn : nxt h x = Some (hd l ys)) by (by eapply path_first).
  assert (y <> x /\ y <> l) as [Hyx Hyl] by apart Hy Hy Hy.
  assert (Hyp : y <> List.last xs l) by (intros ->; clear -Hla Hy; members; naive_solver).
  assert (Hyn : y <> hd l ys) by (intros ->; clear -Hhd Hy; members; naive_solver).
  unfold list_replace. heap_go. eexists. split; [done|].
  pose proof (proj1 Py) as Hy0. split; [split; [|split]|changes].
  - clear -Hnd Hy. nodup.
  - clear -H0 Hy0. members. naive_solver.
  - apply path_app. split.
    + eapply path_relink; [exact Hp1| | |clear -Hnd; nodup|split; ring_solve].
      * intros z Hz Hzl. assert (z <> y) by apart Hz Hy Hy. ring_solve.
      * intros z Hz. assert (z <> y) by apart Hz Hy Hy.
        assert (z <> hd l ys) by (intros ->; apply (ring_disjoint_r _ _ _ _ Hnd Hz); clear -Hhd; set_solver). ring_solve.
    + destruct ys as [|w ys]; cbn [hd path] in *; [split; ring_solve|]. destruct Hp2 as [_ Hp2].
      split; [split; ring_solve|]. eapply path_frame; [exact Hp2| |]; intros z Hz.
      * assert (z <> y) by apart Hz Hy Hy.
        assert (z <> List.last xs l) by (intros ->; apply (ring_disjoint _ _ _ _ Hnd Hla); by right). ring_solve.
      * assert (z <> y /\ z <> w) as [? ?] by apart Hz Hy Hnd. ring_solve.
Qed.

(** [list_del] and [list_del_init] store into the removed node as well. *)
Lemma list_del_ok h l xs x ys :
  is_list h l (xs ++ x :: ys) ->
  exists h', list_del x h = Ok h' /\ is_list h' l (xs ++ ys) /\
             only_changes [x; List.last xs l; hd l ys] h h'.
Proof.
  intros Hl. destruct (list_unlink_ok _ _ _ _ _ Hl) as (h1 & Hr & Hl1 & Px & Hc).
  unfold list_del. rewrite Hr. cbn [rbind]. heap_go. eexists. split; [done|].
  assert (Hc' : only_changes [x] h1 (upd_next (upd_prev h1 x 0) x 0)) by changes. split.
  - eapply is_list_frame; [exact Hl1|exact Hc'|]. pose proof Hl as (Hnd & _).
    clear -Hnd. intros z Hz. members. naive_solver.
  - eapply only_changes_mono; [|by eapply only_changes_trans]. set_solver.
Qed.

Lemma list_del_init_ok h l xs x ys :
  is_list h l (xs ++ x :: ys) ->
  exists h', list_del_init x h = Ok h' /\ is_list h' l (xs ++ ys) /\ is_list h' x [] /\
             only_changes [x; List.last xs l; hd l ys] h h'.
Proof.
  intros Hl. destruct (list_unlink_ok _ _ _ _ _ Hl) as (h1 & Hr & Hl1 & Px & Hc).
  unfold list_del_init. rewrite Hr. cbn [rbind]. heap_go. eexists. split; [done|].
  assert (Hc' : only_changes [x] h1 (upd_prev (upd_next h1 x x) x x)) by changes. split; [|split].
  - eapply is_list_frame; [exact Hl1|exact Hc'|]. pose proof Hl as (Hnd & _).
    clear -Hnd. intros z Hz. members. naive_solver.
  - pose proof (proj1 Px). split; [nodup|split; [set_solver|]]. split; ring_solve.
  - eapply only_changes_mono; [|by eapply only_changes_trans]. set_solver.
Qed.

Lemma unlinked_fresh h h' S l xs x ys :
  is_list h l (xs ++ x :: ys) -> only_changes S h h' -> fresh h' l (xs ++ ys) x.
Proof.
  intros Hl [_ Hp]. split.
  - apply Hp. eapply is_list_present; [exact Hl|]. set_solver.
  - pose proof Hl as (Hnd & _). clear -Hnd. nodup.
Qed.

Lemma list_move_ok h l xs x ys :
  is_list h l (xs ++ x :: ys) ->
  exists h', list_move x l h = Ok h' /\ is_list h' l (x :: xs ++ ys) /\ only_changes (l :: xs ++ x :: ys) h h'.
Proof.
  intros Hl. destruct (list_unlink_ok _ _ _ _ _ Hl) as (h1 & Hr & Hl1 & Px & Hc).
  destruct (list_add_ok h1 l (xs ++ ys) x Hl1) as (h2 & Hr2 & Hl2 & Hc2); [by eapply unlinked_fresh|].
  exists h2. unfold list_move. rewrite (list_del_entry_unlink _ _ _ _ _ Hl), Hr. cbn [rbind].
  split; [done|]. split; [done|]. eapply only_changes_mono; [|by eapply only_changes_trans].
  pose proof (last_in xs l). pose proof (hd_in ys l). pose proof (hd_in (xs ++ ys) l). set_solver.
Qed.

Lemma list_move_tail_ok h l xs x ys :
  is_list h l (xs ++ x :: ys) ->
  exists h', list_move_tail x l h = Ok h' /\ is_list h' l ((xs ++ ys) ++ [x]) /\ only_changes (l :: xs ++ x :: ys) h h'.
Proof.
  intros Hl. destruct (list_unlink_ok _ _ _ _ _ Hl) as (h1 & Hr & Hl1 & Px & Hc).
  destruct (list_add_tail_ok h1 l (xs ++ ys) x Hl1) as (h2 & Hr2 & Hl2 & Hc2); [by eapply unlinked_fresh|].
  exists h2. unfold list_move_tail. rewrite (list_del_entry_unlink _ _ _ _ _ Hl), Hr. cbn [rbind].
  split; [done|]. split; [done|]. eapply only_changes_mono; [|by eapply only_changes_trans].
  pose proof (last_in xs l). pose proof (hd_in ys l). pose proof (last_in (xs ++ ys) l). set_solver.
Qed.

Lemma list_empty_ok h l xs : is_list h l xs -> list_empty l h = Ok (match xs with [] => true | _ => false end).
Proof.
  intros Hl. pose proof (is_list_next _ _ _ Hl) as Hn. unfold list_empty.
  assert (Pl : present h l) by (eapply is_list_present; [done|by left]).
  heap_go. destruct xs as [|x xs]; cbn [hd]; [by rewrite Z.eqb_refl|].
  destruct (Z.eqb_spec x l); [|done]. pose proof Hl as (Hnd & _). subst. clear -Hnd. exfalso. nodup.
Qed.

(** ** Iteration *)

Lemma for_each_run {S B} fuel h l xs (body : Z -> S -> res (S + B)) s :
  is_list h l xs -> (length xs < fuel)%nat -> list_for_each fuel l h body s = for_list body xs s.
Proof.
  intros Hl Hfuel. pose proof Hl as (Hnd & _ & Hp).
  assert (Hpr : forall x, x ∈ l :: xs -> present h x) by (intros; by eapply is_list_present).
  unfold list_for_each. rewrite (get_next_run _ _ (hd l xs)) by (try (apply Hpr; left); by eapply path_first).
  cbn [rbind].
  assert (Hgo : forall ys, (forall x, x ∈ ys -> x ∈ xs) -> l ∉ ys -> forall n s a, (length ys < n)%nat -> path h a ys l ->
    iterate n (fun '(pos, s) =>
       if negb (pos =? l) then
         let! r := body pos s in
         match r with inl s' => let! n := get_next h pos in Ok (inl (n, s')) | inr b => Ok (inr (inr b)) end
       else Ok (inr (inl s))) (hd l ys, s) = for_list body ys s).
  { induction ys as [|y ys IH]; intros Hin Hn [|n] t a Hlen Hq; cbn [length] in *; try lia; cbn [iterate hd for_list].
    - by rewrite Z.eqb_refl.
    - apply not_elem_of_cons in Hn as [Hly Hn]. destruct Hq as [_ Hq].
      destruct (Z.eqb_spec y l); [congruence|]. cbn [negb].
      destruct (body y t) as [[s'|b]|]; cbn [rbind]; [|done|done].
      rewrite (get_next_run _ _ (hd l ys)) by (try (apply Hpr; right; apply Hin; left); by eapply path_first).
      cbn [rbind]. apply (IH) with (a := y); [intros x Hx; apply Hin; by right|done|lia|done]. }
  apply Hgo with (a := l); [done|by apply NoDup_cons in Hnd as [? _]|lia|done].
Qed.

(** C39. [list_for_each_entry] is the iteration over the sequence the list
    holds: every node once and in order, leaving early when the body does, for
    any body; one round per node and one for the head are enough. *)
Theorem list_for_each_spec {S B} fuel h l xs (body : Z -> S -> res (S + B)) s :
  is_list h l xs -> (length xs < fuel)%nat -> list_for_each fuel l h body s = for_list body xs s.
Proof. apply for_each_run. Qed.

(** ** Splicing *)

Lemma list_splice_between_ok h l xs zs m y ys :
  is_list h l (xs ++ zs) -> is_list h m (y :: ys) -> NoDup ((l :: xs ++ zs) ++ m :: y :: ys) ->
  exists h', list_splice_between m (List.last xs l) (hd l zs) h = Ok h' /\
             is_list h' l (xs ++ y :: ys ++ zs) /\ only_changes (l :: xs ++ zs ++ y :: ys) h h'.
Proof.
  intros Hl Hm Hnd. pose proof Hl as (Hnl & H0 & Hp). pose proof Hm as (Hnm & H0m & Hq).
  pose proof (last_in xs l) as Hla. pose proof (last_in ys y) as Hly. pose proof (hd_in zs l) as Hhd.
  pose proof (is_list_next _ _ _ Hm) as Hmn. pose proof (is_list_prev _ _ _ Hm) as Hmp.
  rewrite last_cons in Hmp. cbn [hd path] in *. destruct Hq as [_ Hq].
  assert (Pm : present h m) by (eapply is_list_present; [exact Hm|by left]).
  assert (Py : present h y) by (eapply is_list_present; [exact Hm|right; by left]).
  assert (Pe : present h (List.last ys y)) by (eapply is_list_present; [exact Hm|by right]).
  assert (Hpl : List.last xs l ∈ l :: xs ++ zs) by (clear -Hla; set_solver).
  assert (Hnx : hd l zs ∈ l :: xs ++ zs) by (clear -Hhd; set_solver).
  assert (Pp : present h (List.last xs l)) by (eapply is_list_present; [exact Hl|done]).
  assert (Pn : present h (hd l zs)) by (eapply is_list_present; [exact Hl|done]).
  assert (Hd : forall z, z ∈ l :: xs ++ zs -> z ∉ m :: y :: ys) by (apply NoDup_app in Hnd as (_ & Hd & _); exact Hd).
  assert (Hd' : forall z, z ∈ y :: ys -> z ∉ l :: xs ++ zs) by (intros z Hz Hz'; apply (Hd z Hz'); by right).
  unfold list_splice_between. heap_go. eexists. split; [done|].
  assert (Hpe : List.last xs l <> List.last ys y) by (intros E; apply (Hd _ Hpl); rewrite E; by right).
  assert (Hny : hd l zs <> y) by (intros E; apply (Hd _ Hnx); rewrite E; right; by left).
  assert (Hxs : forall z, z ∈ l :: xs -> z <> List.last ys y /\ z <> y).
  { intros z Hz. assert (z ∈ l :: xs ++ zs) as Hz' by (clear -Hz; set_solver).
    split; intros ->; apply (Hd _ Hz'); [by right|right; by left]. }
  assert (Hys : forall z, z ∈ y :: ys -> z <> List.last xs l /\ z <> hd l zs).
  { intros z Hz. split; intros ->; by apply (Hd' _ Hz). }
  assert (Hxn : forall z, z ∈ xs -> z <> hd l zs).
  { intros z Hz ->. destruct zs as [|w zs]; cbn [hd] in *; [apply NoDup_cons in Hnl as [[]%not_elem_of_app _]; done|].
    clear -Hnl Hz. nodup. }
  lazymatch goal with |- is_list ?h' _ _ /\ _ =>
    assert (Q1 : forall w, path h l xs w -> path h' l xs y); [|assert (Q2 : path h' y ys (hd l zs))] end.
  { intros w Hw. eapply path_relink; [exact Hw| | |clear -Hnl; nodup|split; ring_solve].
    - intros z Hz Hzl. destruct (Hxs z Hz). ring_solve.
    - intros z Hz. destruct (Hxs z); [by right|]. pose proof (Hxn z Hz). ring_solve. }
  { eapply path_relink; [exact Hq| | |clear -Hnm; nodup|split; ring_solve].
    - intros z Hz Hzl. destruct (Hys z Hz). ring_solve.
    - intros z Hz. destruct (Hys z); [by right|]. assert (z <> y) by apart Hz Hnm Hnm. ring_solve. }
  split; [split; [|split]|changes].
  - clear -Hnd. apply NoDup_app in Hnd as (H1 & H2 & [_ H3]%NoDup_cons).
    change (NoDup (l :: xs ++ (y :: ys) ++ zs)). rewrite (Permutation_app_comm (y :: ys) zs).
    rewrite (assoc app), app_comm_cons. apply NoDup_app. split; [done|]. split; [|done].
    intros z Hz Hz'. apply (H2 z Hz). by right.
  - clear -H0 H0m. members. naive_solver.
  - apply path_app. destruct zs as [|w zs]; cbn [hd] in *.
    + rewrite app_nil_r in *. split; [by eapply Q1|done].
    + apply path_app in Hp as [Hp1 Hp2]. split; [by eapply Q1|]. apply path_app. split; [done|].
      eapply path_frame; [exact Hp2| |]; intros z Hz.
      * assert (z ∈ l :: xs ++ w :: zs) as Hz' by (clear -Hz; set_solver).
        assert (z <> List.last ys y) by (intros ->; apply (Hd _ Hz'); by right).
        assert (z <> List.last xs l) by (intros E; rewrite <- E in Hla; clear -Hla Hz Hnl; nodup). ring_solve.
      * assert (z ∈ l :: xs ++ w :: zs) as Hz' by (clear -Hz; set_solver).
        assert (z <> y) by (intros ->; apply (Hd _ Hz'); right; by left).
        assert (z <> w) by (intros ->; clear -Hz Hnl; nodup). ring_solve.
Qed.

(** Emptying the list that was spliced. *)
Lemma splice_init_ok h h1 l xs m ys zs :
  is_list h m ys -> is_list h1 l zs -> m ∉ l :: zs -> only_changes (l :: xs ++ ys) h h1 ->
  exists h', list_init_head m h1 = Ok h' /\ is_list h' l zs /\ is_list h' m [] /\
             only_changes (m :: l :: xs ++ ys) h h'.
Proof.
  intros Hm Hl1 Hml Hc.
  assert (Pm : present h1 m) by (apply Hc; eapply is_list_present; [exact Hm|by left]).
  unfold list_init_head. heap_go. eexists. split; [done|].
  assert (Hc' : only_changes [m] h1 (upd_next (upd_prev h1 m m) m m)) by changes.
  split; [|split].
  - eapply is_list_frame; [exact Hl1|exact Hc'|]. clear -Hml. intros z Hz. set_solver.
  - pose proof (proj1 Pm). split; [nodup|split; [set_solver|]]. split; ring_solve.
  - eapply only_changes_mono; [|by eapply only_changes_trans]. set_solver.
Qed.

Lemma list_splice_init_ok h l xs m ys :
  is_list h l xs -> is_list h m ys -> NoDup ((l :: xs) ++ m :: ys) ->
  exists h', list_splice_init m l h = Ok h' /\ is_list h' l (ys ++ xs) /\ is_list h' m [] /\
             only_changes (m :: l :: xs ++ ys) h h'.
Proof.
  intros Hl Hm Hnd. unfold list_splice_init. rewrite (list_empty_ok _ _ _ Hm). cbn [rbind].
  destruct ys as [|y ys]; cbn [negb].
  { exists h. split; [done|]. split; [done|]. split; [done|]. apply only_changes_refl. }
  destruct (list_splice_between_ok h l [] xs m y ys Hl Hm Hnd) as (h1 & Hr & Hl1 & Hc).
  assert (Pl : present h l) by (eapply is_list_present; [exact Hl|by left]).
  rewrite (get_next_run _ _ (hd l xs)) by (done || by eapply is_list_next). cbn [rbind].
  cbn [List.last app] in Hr, Hl1. rewrite Hr. cbn [rbind].
  eapply splice_init_ok; [exact Hm|exact Hl1| |exact Hc]. clear -Hnd. intros Hz. members. naive_solver.
Qed.

(** [list_splice_tail_init] moves every node of the second list, in order,
    behind those of the first and leaves the second list empty. *)
Theorem list_splice_tail_init_spec h l xs m ys :
  is_list h l xs -> is_list h m ys -> NoDup ((l :: xs) ++ m :: ys) ->
  exists h', list_splice_tail_init m l h = Ok h' /\ is_list h' l (xs ++ ys) /\ is_list h' m [] /\
             only_changes (m :: l :: xs ++ ys) h h'.
Proof.
  intros Hl Hm Hnd. unfold list_splice_tail_init. rewrite (list_empty_ok _ _ _ Hm). cbn [rbind].
  destruct ys as [|y ys]; cbn [negb].
  { exists h. rewrite app_nil_r. split; [done|]. split; [done|]. split; [done|]. apply only_changes_refl. }
  assert (Hl0 : is_list h l (xs ++ [])) by by rewrite app_nil_r.
  assert (Hnd0 : NoDup ((l :: xs ++ []) ++ m :: y :: ys)) by by rewrite app_nil_r.
  destruct (list_splice_between_ok _ _ _ _ _ _ _ Hl0 Hm Hnd0) as (h1 & Hr & Hl1 & Hc).
  assert (Pl : present h l) by (eapply is_list_present; [exact Hl|by left]).
  rewrite (get_prev_run _ _ (List.last xs l)) by (done || by eapply is_list_prev). cbn [rbind].
  cbn [hd] in Hr. rewrite Hr, app_nil_r in *. cbn [rbind].
  eapply splice_init_ok; [exact Hm|exact Hl1| |exact Hc]. clear -Hnd. intros Hz. members. naive_solver.
Qed.

(** ** Refinement of sequences *)

Lemma without_notin x xs : x ∉ xs -> without x xs = xs.
Proof.
  unfold without. induction xs as [|y xs IH]; [done|]. intros [Hx Hxs]%not_elem_of_cons.
  rewrite filter_cons_True by congruence. by rewrite IH.
Qed.

Lemma without_mid x xs ys : NoDup (xs ++ x :: ys) -> without x (xs ++ x :: ys) = xs ++ ys.
Proof.
  intros Hnd. assert (Hx : x ∉ xs /\ x ∉ ys) by (clear -Hnd; split; nodup). unfold without.
  rewrite filter_app, filter_cons_False by tauto. fold (without x xs) (without x ys).
  by rewrite !without_notin by tauto.
Qed.

Lemma replace_mid (x y : Z) (xs ys : list Z) : NoDup (xs ++ x :: ys) ->
  (fun z => if decide (z = x) then y else z) <$> (xs ++ x :: ys) = xs ++ y :: ys.
Proof.
  intros Hnd. assert (Hx : x ∉ xs /\ x ∉ ys) by (clear -Hnd; split; nodup). rewrite fmap_app, fmap_cons.
  rewrite decide_True by done.
  assert (G : forall zs : list Z, x ∉ zs -> (fun z => if decide (z = x) then y else z) <$> zs = zs).
  { induction zs as [|z zs IH]; [done|]. intros [Hz Hzs]%not_elem_of_cons. rewrite fmap_cons.
    rewrite decide_False by congruence. by rewrite IH. }
  by rewrite !G by tauto.
Qed.

Lemma ring_ends (l x y : Z) xs ys : [y; List.last xs l; hd l ys] ⊆ y :: l :: xs ++ x :: ys.
Proof.
  pose proof (last_in xs l) as Hx. pose proof (hd_in ys l) as Hy. intros z. set_unfold. naive_solver.
Qed.

Lemma exec_ok l c h xs :
  is_list h l xs -> allowed (present h) l c xs ->
  exists h', exec l c h = Ok h' /\ is_list h' l (meaning c xs) /\
             only_changes (cmd_node c :: l :: xs) h h'.
Proof.
  intros Hl Ha. pose proof Hl as (Hnd & _).
  assert (Hsplit : forall x, x ∈ xs -> exists a b, xs = a ++ x :: b /\ without x xs = a ++ b).
  { intros x Hx. apply list_elem_of_split in Hx as (a & b & ->). exists a, b. split; [done|].
    apply without_mid. by apply NoDup_cons in Hnd as [_ ?]. }
  destruct c; cbn [exec meaning allowed cmd_node] in *.
  1: destruct (list_add_ok h l xs x Hl Ha) as (h' & Hr & Hl' & Hc).
  2: destruct (list_add_tail_ok h l xs x Hl Ha) as (h' & Hr & Hl' & Hc).
  7: destruct Ha as (Hx & Hy).
  3-6: destruct (Hsplit x Ha) as (a & b & -> & ->).
  7: destruct (Hsplit x Hx) as (a & b & -> & _).
  3: destruct (list_del_ok _ _ _ _ _ Hl) as (h' & Hr & Hl' & Hc).
  4: destruct (list_del_init_ok _ _ _ _ _ Hl) as (h' & Hr & Hl' & _ & Hc).
  5: destruct (list_move_ok _ _ _ _ _ Hl) as (h' & Hr & Hl' & Hc).
  6: destruct (list_move_tail_ok _ _ _ _ _ Hl) as (h' & Hr & Hl' & Hc).
  7: destruct (list_replace_ok _ _ _ _ _ _ Hl Hy) as (h' & Hr & Hl' & Hc);
     rewrite replace_mid by (by apply NoDup_cons in Hnd as [_ ?]).
  all: exists h'; split; [exact Hr|]; split; [exact Hl'|]; eapply only_changes_mono; [|exact Hc].
  3, 4, 7: apply ring_ends.
  3, 4: by intros z Hz; right.
  all: intros z; pose proof (last_in xs l) as H1; pose proof (hd_in xs l) as H2; clear -H1 H2; set_unfold; naive_solver.
Qed.

Lemma meaning_nodes c xs : meaning c xs ⊆ cmd_node c :: xs.
Proof.
  intros z. destruct c; cbn [meaning cmd_node]; unfold without;
    rewrite ?elem_of_cons, ?elem_of_app, ?list_elem_of_filter, ?list_elem_of_fmap, ?list_elem_of_singleton;
    try naive_solver.
  intros (w & -> & Hw). case_decide; naive_solver.
Qed.

(** C35. The heap implements sequences: any program of insertions, deletions,
    moves and replacements that the sequence allows runs without a fault and
    leaves the list of the resulting sequence. Nodes of other lists are not
    touched. *)
Theorem list_ops_refine l cs h xs ys :
  is_list h l xs -> abs_run (present h) l cs xs ys ->
  exists h', exec_all l cs h = Ok h' /\ is_list h' l ys /\
             only_changes ((cmd_node <$> cs) ++ l :: xs) h h'.
Proof.
  revert h.
  enough (G : forall P, abs_run P l cs xs ys -> forall h, (forall a, P a <-> present h a) -> is_list h l xs ->
    exists h', exec_all l cs h = Ok h' /\ is_list h' l ys /\ only_changes ((cmd_node <$> cs) ++ l :: xs) h h').
  { intros h Hl Hr. by apply (G (present h)). }
  intros P. induction 1 as [zs|c cs' zs ws Ha Hr IH]; intros h HP Hl; cbn [exec_all].
  - exists h. split; [done|]. split; [done|]. apply only_changes_refl.
  - assert (Ha' : allowed (present h) l c zs) by (destruct c; cbn in *; rewrite <- ?HP; exact Ha).
    destruct (exec_ok _ _ _ _ Hl Ha') as (h1 & -> & Hl1 & Hc1). cbn [rbind].
    destruct (IH h1) as (h2 & -> & Hl2 & Hc2); [|done|].
    { intros a. rewrite HP. symmetry. apply Hc1. }
    exists h2. split; [done|]. split; [done|].
    eapply only_changes_mono; [|by eapply only_changes_trans].
    pose proof (meaning_nodes c zs) as Hm. clear -Hm. rewrite fmap_cons.
    intros z Hz. specialize (Hm z). set_unfold. naive_solver.
Qed.

(** ** Concrete rings: the head 1 with the nodes 2, 3 and the head 5 with 4; 6 is free *)

Definition sample_heap : heap :=
  list_to_map [(1, mkNode 3 2); (2, mkNode 1 3); (3, mkNode 2 1); (4, mkNode 5 5); (5, mkNode 4 4);
               (6, mkNode 0 0)].

Ltac by_decision := apply (bool_decide_unpack _); vm_compute; exact I.

Lemma sample_is_list : is_list sample_heap 1 [2; 3].
Proof. split; [by_decision|split; [by_decision|]]. by vm_compute. Qed.
Lemma sample_is_list5 : is_list sample_heap 5 [4].
Proof. split; [by_decision|split; [by_decision|]]. by vm_compute. Qed.
Lemma sample_present6 : present sample_heap 6.
Proof. split; [done|]. by eexists. Qed.

Lemma list_for_each_spec_witness :
  list_for_each 3 1 sample_heap (fun x seen => if x =? 7 then Ok (inr x) else Ok (inl (seen ++ [x]))) [] =
  Ok (inl [2; 3]).
Proof.
  exact (list_for_each_spec 3 _ _ _ (fun x seen => if x =? 7 then Ok (inr x) else Ok (inl (seen ++ [x])))
    [] sample_is_list (le_n 3)).
Defined.

Lemma list_splice_tail_init_spec_witness : exists h,
  list_splice_tail_init 5 1 sample_heap = Ok h /\ is_list h 1 [2; 3; 4] /\ is_list h 5 [] /\
  only_changes [5; 1; 2; 3; 4] sample_heap h.
Proof.
  apply (list_splice_tail_init_spec _ 1 [2; 3] 5 [4] sample_is_list sample_is_list5). by_decision.
Defined.

Lemma list_ops_refine_witness : exists h,
  exec_all 1 [CMoveTail 2; CAdd 6; CDel 3] sample_heap = Ok h /\ is_list h 1 [6; 2] /\
  only_changes ([2; 6; 3] ++ [1; 2; 3]) sample_heap h.
Proof.
  apply (list_ops_refine 1 [CMoveTail 2; CAdd 6; CDel 3] sample_heap [2; 3] [6; 2] sample_is_list).
  apply abs_cons; [change (2 ∈ [2; 3]); by_decision|].
  apply abs_cons; [split; [apply sample_present6|by_decision]|].
  apply abs_cons; [change (3 ∈ [6; 3; 2]); by_decision|]. apply abs_nil.
Defined.
