(* ===== verification/RingBuffer.v ===== *)
(** * The command ring of an engine

    [core/util/ring_buffer.c] and its client in
    [core/e3k/vidsch/vidsch_submit_e3k.c]: the driver takes space at the tail
    of a circular buffer, writes commands there and publishes the new tail in
    a register; the engine fetches from the head. The engine itself is the
    environment: between any two register reads it may fetch any number of
    bytes up to the published tail. The theorems: while the unread commands
    and the new ones fit, the ring is a queue (the engine fetches exactly what
    was submitted, in order); and the allocator never makes the driver wait,
    so that when they do not fit it hands out space that is still unread. *)
From S2P Require Import Prelude CoreUtil.
Local Open Scope Z_scope.

(** ** The allocator: [core/util/ring_buffer.c] *)

(** [struct ring_buffer]; the callback and its data are the parameters of
    [ring_buffer_get_space]. *)
Record ring_buffer := mkRing
  { head : Z; tail : Z; size : Z; left_size : Z; reserved_size : Z }.

Definition ring_buffer_init (size reserved_size : Z) : ring_buffer :=
  mkRing (u32 reserved_size) (u32 reserved_size) (u32 size) (u32 (size - reserved_size)) (u32 reserved_size).

Section GetSpace.
Context {M : Type} (wrap_fn : ring_buffer -> Z -> M -> res (Z * M)).

Definition ring_buffer_get_space (ring : ring_buffer) (requested_size : Z) (m : M)
  : res (Z * ring_buffer * M) :=
  let! '(ring, m) :=
    if size ring <=? u32 (tail ring + requested_size) then
      let skip_cnt := sgn 32 (size ring - tail ring) in
      let! '(h, m) := wrap_fn ring skip_cnt m in
      let h := u32 h in
      Ok (mkRing h (reserved_size ring) (size ring) (u32 (h - reserved_size ring)) (reserved_size ring), m)
    else Ok (ring, m) in
  let! '(ring, m) :=
    if left_size ring <? u32 requested_size then
      let! '(h, m) := wrap_fn ring 0 m in
      let h := u32 h in
      Ok (mkRing h (tail ring) (size ring)
            (u32 (size ring + h - tail ring - reserved_size ring)) (reserved_size ring), m)
    else Ok (ring, m) in
  if u32 requested_size <=? left_size ring then
    Ok (sgn 32 (tail ring),
        mkRing (head ring) (u32 (tail ring + requested_size)) (size ring)
          (u32 (left_size ring - requested_size)) (reserved_size ring), m)
  else Ok (-1, ring, m).
End GetSpace.

(** ** The engine: [core/e3k/vidsch/vidsch_submit_e3k.c] *)

Definition RING_BUFFER_SIZE_E3K : Z := 64 * 4096.

(** What the driver and the engine share: the bytes of the ring and the
    registers. [fetched] and [fetch_plan] belong to the environment: the bytes
    the engine has read so far, and how far it gets before each of its moves. *)
Record engine := mkEngine
  { ring_buf : list Z; Rb_Head : Z; Rb_Tail : Z; Rb_Size : Z;
    fetched : list Z; fetch_plan : list Z }.

(** The engine reads up to [n] bytes, not beyond the published tail and not
    beyond the end of the ring, where it starts again from the beginning. *)
Definition fetchable (e : engine) : Z :=
  if Rb_Head e <=? Rb_Tail e then Rb_Tail e - Rb_Head e else Rb_Size e - Rb_Head e.

Definition engine_fetch (n : Z) (e : engine) : engine :=
  let k := Z.max 0 (Z.min n (fetchable e)) in
  let h := Rb_Head e + k in
  mkEngine (ring_buf e) (if h =? Rb_Size e then 0 else h) (Rb_Tail e) (Rb_Size e)
    (fetched e ++ take (Z.to_nat k) (drop (Z.to_nat (Rb_Head e)) (ring_buf e))) (fetch_plan e).

(** The driver reads the head register: the engine has moved on by then. *)
Definition read_Rb_Head (e : engine) : Z * engine :=
  match fetch_plan e with
  | [] => (Rb_Head e, e)
  | n :: plan =>
      let e' := engine_fetch n e in
      (Rb_Head e', mkEngine (ring_buf e') (Rb_Head e') (Rb_Tail e') (Rb_Size e') (fetched e') plan)
  end.

Definition set_ring_buf (e : engine) (b : list Z) : engine :=
  mkEngine b (Rb_Head e) (Rb_Tail e) (Rb_Size e) (fetched e) (fetch_plan e).

(** [enginei_ring_buffer_wrap_e3k]: the branch that builds a skip command is
    behind [if (0 && ...)]. *)
Definition enginei_ring_buffer_wrap_e3k (ring : ring_buffer) (skip_cnt : Z) (e : engine)
  : res (Z * engine) :=
  let cmd := 4 * Z.shiftr (tail ring) 2 in
  let! e :=
    if 0 <? skip_cnt then let! b := memset (ring_buf e) cmd 0 skip_cnt in Ok (set_ring_buf e b)
    else Ok e in
  Ok (read_Rb_Head e).

Definition enginei_enable_ring_buffer_e3k (buf plan : list Z) : ring_buffer * engine :=
  (ring_buffer_init RING_BUFFER_SIZE_E3K 0, mkEngine buf 0 0 RING_BUFFER_SIZE_E3K [] plan).

(** The byte offset of the space in the ring ([ring_buffer + (offset >> 2)]). *)
Definition enginei_get_ring_buffer_space_e3k (fuel : nat) (size_uint : Z) (ring : ring_buffer) (e : engine)
  : res (Z * ring_buffer * engine) :=
  iterate fuel
    (fun '(ring, e) =>
       let! '(offset, ring, e) :=
         ring_buffer_get_space enginei_ring_buffer_wrap_e3k ring (u32 (Z.shiftl size_uint 2)) e in
       if offset =? -1 then Ok (inl (ring, e))
       else Ok (inr (4 * Z.shiftr offset 2, ring, e))) (ring, e).

(** The tail is written to its register, which the loop reads back. *)
Definition enginei_release_ring_buffer_space_e3k (ring : ring_buffer) (e : engine) : engine :=
  mkEngine (ring_buf e) (Rb_Head e) (tail ring) (Rb_Size e) (fetched e) (fetch_plan e).

(** The frame of the functions that write commands: take space for them
    (a multiple of 16 words), store them, publish the tail. *)
Definition submit (fuel : nat) (cmds : list Z) (ring : ring_buffer) (e : engine)
  : res (ring_buffer * engine) :=
  let! '(off, ring, e) := enginei_get_ring_buffer_space_e3k fuel (zlen cmds / 4) ring e in
  let! b := memcpy (ring_buf e) off cmds 0 (zlen cmds) in
  Ok (ring, enginei_release_ring_buffer_space_e3k ring (set_ring_buf e b)).

(** ** The queue the ring stands for *)

(** The unread bytes, from the head register to the tail register. *)
Definition unread (e : engine) : list Z :=
  if Rb_Head e <=? Rb_Tail e then
    take (Z.to_nat (Rb_Tail e - Rb_Head e)) (drop (Z.to_nat (Rb_Head e)) (ring_buf e))
  else drop (Z.to_nat (Rb_Head e)) (ring_buf e) ++ take (Z.to_nat (Rb_Tail e)) (ring_buf e).

(** The bytes left unused at the end of the ring when [n] more do not fit there. *)
Definition waste (sz t n : Z) : Z := if sz <=? t + n then sz - t else 0.

(** The room the next submission needs and has. *)
Definition room (e : engine) (n : Z) : Prop :=
  zlen (unread e) + waste (Rb_Size e) (Rb_Tail e) n + n < Rb_Size e.

(** What the engine is to fetch: the commands in order, with zero words
    (no operation) before those that start again at the beginning. *)
Fixpoint stream (sz t : Z) (subs : list (list Z)) : list Z :=
  match subs with
  | [] => []
  | cmds :: subs' =>
      let w := waste sz t (zlen cmds) in
      replicate (Z.to_nat w) 0 ++ cmds ++
      stream sz (if w =? 0 then t + zlen cmds else zlen cmds) subs'
  end.

(** Commands are a multiple of 16 words. *)
Definition command (cmds : list Z) : Prop := 0 < zlen cmds /\ (64 | zlen cmds).

Definition ring_inv (ring : ring_buffer) (e : engine) : Prop :=
  size ring = Rb_Size e /\ tail ring = Rb_Tail e /\ reserved_size ring = 0 /\ fits 32 (left_size ring) /\
  zlen (ring_buf e) = Rb_Size e /\ 0 < Rb_Size e < 2 ^ 30 /\ (4 | Rb_Tail e) /\
  0 <= Rb_Head e < Rb_Size e /\ 0 <= Rb_Tail e < Rb_Size e.

(** Histories: the engine fetches whenever it likes, the driver submits when
    there is room. *)
Inductive drive : list (list Z) -> ring_buffer -> engine -> ring_buffer -> engine -> Prop :=
| drive_done ring e : drive [] ring e ring e
| drive_fetch n subs ring e ring' e' :
    drive subs ring (engine_fetch n e) ring' e' -> drive subs ring e ring' e'
| drive_submit cmds subs ring e ring1 e1 ring' e' :
    command cmds -> room e (zlen cmds) -> submit 1 cmds ring e = Ok (ring1, e1) ->
    drive subs ring1 e1 ring' e' -> drive (cmds :: subs) ring e ring' e'.

(** ** The unread bytes *)

Definition used (e : engine) : Z :=
  if Rb_Head e <=? Rb_Tail e then Rb_Tail e - Rb_Head e else Rb_Size e - Rb_Head e + Rb_Tail e.

(** The part of the invariant that concerns the engine. *)
Definition engine_ok (e : engine) : Prop :=
  zlen (ring_buf e) = Rb_Size e /\ 0 < Rb_Size e < 2 ^ 30 /\ (4 | Rb_Tail e) /\
  0 <= Rb_Head e < Rb_Size e /\ 0 <= Rb_Tail e < Rb_Size e.

Definition place (e : engine) (k : Z) : Z :=
  if Rb_Head e + k <? Rb_Size e then Rb_Head e + k else Rb_Head e + k - Rb_Size e.

Lemma zlen_unread e : engine_ok e -> zlen (unread e) = used e.
Proof.
  intros (Hl & Hs & _ & Hh & Ht). unfold unread, used. destruct (Z.leb_spec (Rb_Head e) (Rb_Tail e)).
  - rewrite zlen_take, zlen_drop by lia. lia.
  - rewrite zlen_app, zlen_take, zlen_drop by lia. lia.
Qed.

Lemma used_bound e : engine_ok e -> 0 <= used e < Rb_Size e.
Proof. intros (Hl & Hs & _ & Hh & Ht). unfold used. destruct (Z.leb_spec (Rb_Head e) (Rb_Tail e)); lia. Qed.

Lemma rd_unread e k : engine_ok e -> 0 <= k < used e -> rd (unread e) k = rd (ring_buf e) (place e k).
Proof.
  intros (Hl & Hs & _ & Hh & Ht). unfold unread, used, place.
  destruct (Z.leb_spec (Rb_Head e) (Rb_Tail e)) as [Hle|Hlt]; intros Hk.
  - rewrite rd_take, rd_drop by lia. destruct (Z.ltb_spec (Rb_Head e + k) (Rb_Size e)); [done|lia].
  - assert (Hd : zlen (drop (Z.to_nat (Rb_Head e)) (ring_buf e)) = Rb_Size e - Rb_Head e)
      by (rewrite zlen_drop; lia).
    destruct (Z.ltb_spec (Rb_Head e + k) (Rb_Size e)).
    + rewrite rd_app_l, rd_drop by lia. done.
    + rewrite rd_app_r, Hd, rd_take by lia. f_equal. lia.
Qed.

(** A state whose unread bytes are [q], position by position. *)
Lemma unread_is e q :
  engine_ok e -> zlen q = used e ->
  (forall k, 0 <= k < used e -> rd (ring_buf e) (place e k) = rd q k) -> unread e = q.
Proof.
  intros He Hq H. apply rd_ext; rewrite zlen_unread by done; [done|].
  intros k Hk. rewrite rd_unread by done. by apply H.
Qed.

(** ** The engine moves on *)

Definition engine_moves (e e' : engine) : Prop :=
  ring_buf e' = ring_buf e /\ Rb_Tail e' = Rb_Tail e /\ Rb_Size e' = Rb_Size e /\ engine_ok e' /\
  fetched e' ++ unread e' = fetched e ++ unread e /\ used e' <= used e /\
  (Rb_Head e <= Rb_Tail e -> Rb_Head e <= Rb_Head e' <= Rb_Tail e).

Lemma engine_moves_refl e : engine_ok e -> engine_moves e e.
Proof. unfold engine_moves. intros. split_and!; try done; lia. Qed.

Lemma engine_fetch_moves n e : engine_ok e -> engine_moves e (engine_fetch n e).
Proof.
  intros He. pose proof He as (Hl & Hs & Hd & Hh & Ht). unfold engine_fetch, fetchable.
  set (k := Z.max 0 (Z.min n _)).
  assert (Hk : 0 <= k <= if Rb_Head e <=? Rb_Tail e then Rb_Tail e - Rb_Head e else Rb_Size e - Rb_Head e)
    by (unfold k; destruct (Z.leb_spec (Rb_Head e) (Rb_Tail e)); lia).
  clearbody k.
  set (e' := mkEngine _ _ _ _ _ _).
  assert (He' : engine_ok e').
  { subst e'. unfold engine_ok; cbn. repeat split; try done; try lia.
    all: destruct (Z.leb_spec (Rb_Head e) (Rb_Tail e)), (Z.eqb_spec (Rb_Head e + k) (Rb_Size e)); lia. }
  assert (Hpart : used e = k + used e' /\ forall j, 0 <= j < used e' -> place e (k + j) = place e' j).
  { unfold used, place, e'; cbn.
    destruct (Z.leb_spec (Rb_Head e) (Rb_Tail e)), (Z.eqb_spec (Rb_Head e + k) (Rb_Size e));
      (split; [case_match; lia|]); intros j; repeat case_match; lia. }
  destruct Hpart as [Hu Hp]. split; [done|]. split; [done|]. split; [done|]. split; [done|].
  split; [|split; [lia|]].
  - change (fetched e') with (fetched e ++ take (Z.to_nat k) (drop (Z.to_nat (Rb_Head e)) (ring_buf e))).
    rewrite <- app_assoc. f_equal. 
    assert (Hz : zlen (take (Z.to_nat k) (drop (Z.to_nat (Rb_Head e)) (ring_buf e))) = k).
    { rewrite zlen_take, zlen_drop by lia. destruct (Z.leb_spec (Rb_Head e) (Rb_Tail e)); lia. }
    symmetry. apply unread_is; [done| |].
    + rewrite zlen_app, Hz, zlen_unread by done. lia.
    + intros j Hj. destruct (Z.lt_ge_cases j k).
      * rewrite rd_app_l, rd_take, rd_drop by lia. f_equal. unfold place.
        destruct (Z.leb_spec (Rb_Head e) (Rb_Tail e)), (Z.ltb_spec (Rb_Head e + j) (Rb_Size e)); lia.
      * rewrite rd_app_r, Hz, rd_unread by (done || lia). f_equal.
        rewrite <- Hp by lia. f_equal. lia.
  - intros Hle. subst e'; cbn. destruct (Z.leb_spec (Rb_Head e) (Rb_Tail e)); [|lia].
    destruct (Z.eqb_spec (Rb_Head e + k) (Rb_Size e)); lia.
Qed.

Lemma read_moves e h e' : engine_ok e -> read_Rb_Head e = (h, e') -> engine_moves e e' /\ h = Rb_Head e' /\ (fetch_plan e = [] -> e' = e).
Proof.
  unfold read_Rb_Head. intros He. destruct (fetch_plan e) as [|n plan]; intros [= <- <-].
  - split; [by apply engine_moves_refl|done].
  - split; [|done]. by apply (engine_fetch_moves n).
Qed.

(** ** Writing outside the unread bytes *)

Lemma set_ring_buf_ok e b : engine_ok e -> zlen b = Rb_Size e -> engine_ok (set_ring_buf e b).
Proof. intros (_ & ?) Hb. by split. Qed.

Lemma unread_write e b :
  engine_ok e -> zlen b = Rb_Size e ->
  (forall k, 0 <= k < used e -> rd b (place e k) = rd (ring_buf e) (place e k)) ->
  unread (set_ring_buf e b) = unread e.
Proof.
  intros He Hb H. apply unread_is.
  - by apply set_ring_buf_ok.
  - by rewrite zlen_unread.
  - intros k Hk. change (place (set_ring_buf e b) k) with (place e k).
    cbn [set_ring_buf ring_buf]. rewrite H by done. by rewrite rd_unread.
Qed.

(** The positions of the unread bytes. *)
Lemma place_range e k :
  engine_ok e -> 0 <= k < used e ->
  if Rb_Head e <=? Rb_Tail e then Rb_Head e <= place e k < Rb_Tail e
  else Rb_Head e <= place e k < Rb_Size e \/ 0 <= place e k < Rb_Tail e.
Proof.
  intros (_ & Hs & _ & Hh & Ht). unfold used, place.
  destruct (Z.leb_spec (Rb_Head e) (Rb_Tail e)), (Z.ltb_spec (Rb_Head e + k) (Rb_Size e)); lia.
Qed.

(** Publishing a new tail behind [w] unused bytes of zeros and the commands. *)
Lemma publish e b t w cmds :
  engine_ok e -> zlen b = Rb_Size e -> 0 <= w -> 0 < zlen cmds -> used e + w + zlen cmds < Rb_Size e ->
  unread (set_ring_buf e b) = unread e ->
  t = (if Rb_Tail e + w + zlen cmds <? Rb_Size e then Rb_Tail e + w + zlen cmds
       else Rb_Tail e + w + zlen cmds - Rb_Size e) ->
  (forall j, 0 <= j < w -> rd b (Rb_Tail e + j) = Ok 0) ->
  Rb_Tail e + w <= Rb_Size e ->
  (forall j, 0 <= j < zlen cmds ->
     rd b (if Rb_Tail e + w <? Rb_Size e then Rb_Tail e + w + j else j) = rd cmds j) ->
  (Rb_Tail e + w < Rb_Size e -> Rb_Tail e + w + zlen cmds < Rb_Size e) ->
  (4 | t) ->
  let e' := mkEngine b (Rb_Head e) t (Rb_Size e) (fetched e) (fetch_plan e) in
  engine_ok e' /\ unread e' = unread e ++ replicate (Z.to_nat w) 0 ++ cmds.
Proof.
  intros He Hb Hw Hc Hroom Hun Ht H0 Hw' Hcm Hfit H4 e'.
  pose proof He as (_ & Hs & _ & Hh & Htl). pose proof (zlen_unread e He) as Hq.
  assert (Hz : zlen (replicate (Z.to_nat w) 0) = w) by (rewrite zlen_replicate; lia).
  assert (Et : t = Rb_Tail e + w + zlen cmds /\ t < Rb_Size e \/
               t = Rb_Tail e + w + zlen cmds - Rb_Size e /\ 0 <= t).
  { destruct (Z.ltb_spec (Rb_Tail e + w + zlen cmds) (Rb_Size e)); lia. }
  clear Ht. assert (Ht' : 0 <= t < Rb_Size e /\ used e' = used e + w + zlen cmds).
  { unfold used in Hroom |- *; cbn. destruct (Z.leb_spec (Rb_Head e) (Rb_Tail e)), (Z.leb_spec (Rb_Head e) t); lia. }
  destruct Ht' as [Ht' Hu]. assert (He' : engine_ok e') by (split_and!; unfold e'; cbn; (done || lia)).
  split; [done|]. apply unread_is; [done|rewrite !zlen_app, Hz, Hq; lia|].
  intros k Hk. change (place e' k) with (place e k). cbn [ring_buf e'].
  destruct (Z.lt_ge_cases k (used e)) as [Hlt|Hge].
  - rewrite rd_app_l by lia. rewrite <- Hun.
    rewrite rd_unread; [done|by apply set_ring_buf_ok|].
    change (used (set_ring_buf e b)) with (used e). lia.
  - rewrite rd_app_r, Hq by lia. assert (Hp : place e (used e) = Rb_Tail e).
    { clear -Hh Htl. unfold place, used. repeat case_match; lia. }
    destruct (Z.lt_ge_cases (k - used e) w) as [Hlw|Hlw].
    + rewrite rd_app_l by lia. replace (place e k) with (Rb_Tail e + (k - used e)).
      * rewrite H0 by lia. unfold rd. destruct (k - used e <? 0) eqn:?; [lia|]. by rewrite lookup_replicate_2 by lia.
      * clear -Hh Htl Hge Hk Hu Hw Hw' Hc Hroom Hfit Hlw. unfold place, used in *. repeat case_match; lia.
    + rewrite rd_app_r, Hz by lia. rewrite <- Hcm by lia. f_equal.
      clear -Hh Htl Hge Hk Hu Hw Hw' Hc Hroom Hfit Hlw. unfold place, used in *. repeat case_match; lia.
Qed.

(** ** One submission *)

(** Where the space is taken, and in which state: the engine may have moved on
    by the register reads; the rest of the ring is zeroed when it is skipped. *)
Definition space_at (e : engine) (n : Z) : Z := if Rb_Size e <=? Rb_Tail e + n then 0 else Rb_Tail e.

Lemma u32_id x : 0 <= x < 2 ^ 32 -> u32 x = x.
Proof. apply wrap_small. Qed.

Lemma wrap_e3k_skip ring e :
  engine_ok e -> tail ring = Rb_Tail e ->
  exists b, enginei_ring_buffer_wrap_e3k ring (sgn 32 (Rb_Size e - Rb_Tail e)) e =
              Ok (read_Rb_Head (set_ring_buf e b)) /\
    zlen b = Rb_Size e /\
    (forall j, 0 <= j < Rb_Size e - Rb_Tail e -> rd b (Rb_Tail e + j) = Ok 0) /\
    (forall j, ~ Rb_Tail e <= j < Rb_Size e -> rd b j = rd (ring_buf e) j).
Proof.
  intros (Hl & Hs & [q H4] & Hh & Ht) Htl. unfold enginei_ring_buffer_wrap_e3k.
  assert (Es : sgn 32 (Rb_Size e - Rb_Tail e) = Rb_Size e - Rb_Tail e).
  { apply sgn_small. lia. }
  assert (Ec : 4 * Z.shiftr (tail ring) 2 = Rb_Tail e).
  { rewrite Htl, Z.shiftr_div_pow2 by lia. change (2 ^ 2) with 4. rewrite H4, Z.div_mul by lia. lia. }
  rewrite Es, Ec. destruct (Z.ltb_spec 0 (Rb_Size e - Rb_Tail e)); [|lia].
  destruct (memset_ok (ring_buf e) (Rb_Tail e) 0 (Rb_Size e - Rb_Tail e)) as (b & -> & Hb & Hin & Hout); try lia.
  exists b. cbn [rbind]. split; [done|]. split; [lia|]. split; [done|].
  intros j Hj. apply Hout. lia.
Qed.

Arguments enginei_ring_buffer_wrap_e3k : simpl never.

Lemma wrap_e3k_update ring e : enginei_ring_buffer_wrap_e3k ring 0 e = Ok (read_Rb_Head e).
Proof. done. Qed.

(** The second half of [ring_buffer_get_space], after the skip to the start. *)
Lemma update_space ring e n :
  engine_ok e -> size ring = Rb_Size e -> tail ring + n < Rb_Size e -> 0 <= tail ring -> reserved_size ring = 0 ->
  fits 32 (left_size ring) -> 0 < n ->
  exists ring' e',
    (if left_size ring <? u32 n then
       let! '(h, m) := enginei_ring_buffer_wrap_e3k ring 0 e in
       let h := u32 h in
       Ok (mkRing h (tail ring) (size ring) (u32 (size ring + h - tail ring - reserved_size ring)) (reserved_size ring), m)
     else Ok (ring, e)) = Ok (ring', e') /\
    engine_moves e e' /\ (fetch_plan e = [] -> e' = e) /\ tail ring' = tail ring /\ size ring' = size ring /\ reserved_size ring' = 0 /\
    n <= left_size ring' < 2 ^ 32.
Proof.
  intros He Hs Hn Ht Hr Hl Hpos. pose proof He as (_ & Hs' & _ & Hh & Htl). unfold fits in Hl.
  rewrite u32_id by lia. destruct (Z.ltb_spec (left_size ring) n).
  - rewrite wrap_e3k_update. destruct (read_Rb_Head e) as [h e'] eqn:E.
    apply read_moves in E as (Hm & -> & Hst); [|done]. pose proof Hm as (_ & _ & Hs1 & (_ & _ & _ & Hh1 & _) & _).
    cbn [rbind]. rewrite (u32_id (Rb_Head e')) by lia. eexists _, _; split; [reflexivity|]. split; [exact Hm|]. split; [exact Hst|].
    cbn. rewrite u32_id by lia. repeat split; (done || lia).
  - exists ring, e. split; [done|]. split; [by apply engine_moves_refl|]. split; [done|]. repeat split; (done || lia).
Qed.

(** What the allocator gives, with or without room. *)
Lemma get_space_run ring e n :
  ring_inv ring e -> 0 < n < Rb_Size e -> (4 | n) ->
  exists ring' e1 b,
    enginei_get_ring_buffer_space_e3k 1 (n / 4) ring e = Ok (space_at e n, ring', e1) /\
    zlen b = Rb_Size e /\ engine_ok (set_ring_buf e b) /\ engine_moves (set_ring_buf e b) e1 /\
    (fetch_plan e = [] -> e1 = set_ring_buf e b) /\ size ring' = Rb_Size e /\ tail ring' = space_at e n + n /\ reserved_size ring' = 0 /\
    fits 32 (left_size ring') /\
    (forall j, 0 <= j < waste (Rb_Size e) (Rb_Tail e) n -> rd b (Rb_Tail e + j) = Ok 0) /\
    (forall j, ~ Rb_Tail e <= j < Rb_Tail e + waste (Rb_Size e) (Rb_Tail e) n -> rd b j = rd (ring_buf e) j).
Proof.
  intros (Hsz & Htl & Hres & Hleft & Hinv) Hn [q Hq]. assert (He : engine_ok e) by exact Hinv.
  pose proof He as (Hl & Hs & H4 & Hh & Ht).
  assert (Er : u32 (Z.shiftl (n / 4) 2) = n).
  { rewrite Hq, Z.div_mul, Z.shiftl_mul_pow2 by lia. change (2 ^ 2) with 4. rewrite u32_id; lia. }
  assert (En : u32 n = n) by (apply u32_id; lia).
  unfold enginei_get_ring_buffer_space_e3k. cbn [iterate]. rewrite Er. unfold ring_buffer_get_space.
  rewrite Hsz, Htl, u32_id by lia. unfold space_at, waste.
  destruct (Z.leb_spec (Rb_Size e) (Rb_Tail e + n)) as [Hw|Hw].
  - destruct (wrap_e3k_skip ring e He Htl) as (b & -> & Hb & Hin & Hout). cbn [rbind].
    destruct (read_Rb_Head (set_ring_buf e b)) as [h e1] eqn:E.
    apply read_moves in E as (Hm & -> & Hst1); [|by apply set_ring_buf_ok].
    pose proof Hm as (_ & _ & Hs1 & He1 & _). pose proof He1 as (_ & _ & _ & Hh1 & _).
    cbn [set_ring_buf Rb_Size] in Hs1.
    rewrite Hres, (u32_id (Rb_Head e1)) by lia.
    destruct (update_space (mkRing (Rb_Head e1) 0 (Rb_Size e) (u32 (Rb_Head e1 - 0)) 0) e1 n)
      as (r2 & e2 & Hrun & Hm2 & Hst2 & Ht2 & Hs2 & Hr2 & Hl2); try done; cbn; try lia; try (apply wrap_fits; lia).
    cbn [tail size left_size reserved_size head rbind] in *. rewrite Hrun. cbn [rbind].
    rewrite En, Ht2. destruct (Z.leb_spec n (left_size r2)); [|lia].
    change (sgn 32 0 =? -1) with false. cbn [rbind]. 
    eexists _, e2, b. split; [reflexivity|]. split; [done|]. split; [by apply set_ring_buf_ok|].
    split.
    { destruct Hm as (A1 & A2 & A3 & A4 & A5 & A6 & A7), Hm2 as (B1 & B2 & B3 & B4 & B5 & B6 & B7).
      split_and!; try congruence; try done; lia. }
    split; [intros Hpl; specialize (Hst1 Hpl); subst e1; by apply Hst2|].
    cbn. rewrite Hs2, u32_id by lia. split_and!; try done; try lia; try (apply wrap_fits; lia).
    intros j Hj. apply Hout. lia.
  - destruct (update_space ring e n) as (r2 & e2 & Hrun & Hm2 & Hst2 & Ht2 & Hs2 & Hr2 & Hl2); try done; try lia.
    cbn [rbind]. cbn zeta in Hrun. rewrite Hrun. cbn [rbind]. rewrite En, Ht2, Htl.
    destruct (Z.leb_spec n (left_size r2)); [|lia].
    assert (Es : sgn 32 (Rb_Tail e) = Rb_Tail e).
    { apply sgn_small. lia. }
    rewrite Es. cbn [rbind]. destruct (Z.eqb_spec (Rb_Tail e) (-1)); [lia|].
    destruct H4 as [p Hp].
    assert (Ec : 4 * Z.shiftr (Rb_Tail e) 2 = Rb_Tail e).
    { rewrite Z.shiftr_div_pow2 by lia. change (2 ^ 2) with 4. rewrite Hp, Z.div_mul by lia. lia. }
    rewrite Ec. eexists _, e2, (ring_buf e). split; [reflexivity|].
    assert (Hset : set_ring_buf e (ring_buf e) = e) by (by destruct e). rewrite Hset.
    cbn. rewrite Hs2, u32_id by lia. split_and!; try done; try lia; try (apply wrap_fits; lia).
Qed.

Lemma waste_cases sz t n : 0 <= t < sz -> 0 < n < sz ->
  sz <= t + n /\ waste sz t n = sz - t \/ t + n < sz /\ waste sz t n = 0.
Proof. unfold waste. intros. destruct (Z.leb_spec sz (t + n)); lia. Qed.

Lemma waste_nonneg sz t n : 0 <= t < sz -> 0 <= waste sz t n.
Proof. unfold waste. intros. destruct (Z.leb_spec sz (t + n)); lia. Qed.

(** Storing the commands and publishing them, once the space is known to be free. *)
Lemma store_commands ring e b e1 cmds w off :
  engine_ok e -> engine_ok (set_ring_buf e b) -> engine_moves (set_ring_buf e b) e1 -> command cmds ->
  zlen b = Rb_Size e -> unread (set_ring_buf e b) = unread e ->
  w = waste (Rb_Size e) (Rb_Tail e) (zlen cmds) -> off = space_at e (zlen cmds) ->
  used e + w + zlen cmds < Rb_Size e ->
  (forall j, 0 <= j < w -> rd b (Rb_Tail e + j) = Ok 0) ->
  tail ring = off + zlen cmds ->
  exists b', memcpy b off cmds 0 (zlen cmds) = Ok b' /\
    let e' := enginei_release_ring_buffer_space_e3k ring (set_ring_buf e1 b') in
    engine_ok e' /\ fetched e' ++ unread e' = fetched e ++ unread e ++ replicate (Z.to_nat w) 0 ++ cmds /\
    Rb_Size e' = Rb_Size e /\ Rb_Tail e' = off + zlen cmds.
Proof.
  intros He Heb Hm [Hc [p Hp]] Hb Hun -> -> Hroom H0 Htl.
  pose proof He as (_ & Hs & [q Hq] & Hh & Ht). destruct Hm as (M1 & M2 & M3 & M4 & M5 & M6 & M7).
  cbn [set_ring_buf ring_buf Rb_Tail Rb_Size Rb_Head fetched] in *.
  change (used (set_ring_buf e b)) with (used e) in M6.
  pose proof (used_bound e He) as Hu0. pose proof (used_bound e1 M4) as Hu1.
  pose proof (waste_nonneg (Rb_Size e) (Rb_Tail e) (zlen cmds) Ht) as Hw0.
  destruct (waste_cases (Rb_Size e) (Rb_Tail e) (zlen cmds)) as [[Hw Ew]|[Hw Ew]]; [lia|lia| |].
  all: unfold space_at in *; rewrite Ew in *.
  - destruct (Z.leb_spec (Rb_Size e) (Rb_Tail e + zlen cmds)); [|lia].
    assert (Hlin : Rb_Head e <= Rb_Tail e).
    { unfold used in Hroom. destruct (Z.leb_spec (Rb_Head e) (Rb_Tail e)); lia. }
    specialize (M7 Hlin). assert (Hfree : zlen cmds < Rb_Head e).
    { unfold used in Hroom. destruct (Z.leb_spec (Rb_Head e) (Rb_Tail e)); lia. }
    destruct (memcpy_ok b cmds 0 0 (zlen cmds)) as (b' & -> & Hb' & Hin & Hout); try lia.
    exists b'. split; [done|]. rewrite Z.add_0_l in Htl.
    destruct (publish e1 b' (tail ring) (Rb_Size e - Rb_Tail e) cmds) as [P1 P2]; try done; try lia.
    + apply unread_write; [done|lia|]. intros k Hk. rewrite M1. apply Hout.
      pose proof (place_range e1 k M4 Hk) as Hpl. rewrite M2 in Hpl.
      destruct (Z.leb_spec (Rb_Head e1) (Rb_Tail e)); lia.
    + rewrite M2, M3, Htl. destruct (Z.ltb_spec (Rb_Tail e + (Rb_Size e - Rb_Tail e) + zlen cmds) (Rb_Size e)); lia.
    + intros j Hj. rewrite M2, Hout by lia. apply H0. lia.
    + intros j Hj. rewrite M2, M3. destruct (Z.ltb_spec (Rb_Tail e + (Rb_Size e - Rb_Tail e)) (Rb_Size e)); [lia|].
      specialize (Hin j Hj). rewrite !Z.add_0_l in Hin. exact Hin.
    + rewrite Htl, Hp. exists (16 * p). lia.
    + split; [exact P1|]. split; [|split; [exact M3|exact Htl]].
      unfold enginei_release_ring_buffer_space_e3k; cbn [set_ring_buf ring_buf Rb_Head Rb_Tail Rb_Size fetched fetch_plan].
      rewrite P2. rewrite app_assoc, M5, Hun. by rewrite <- app_assoc.
  - destruct (Z.leb_spec (Rb_Size e) (Rb_Tail e + zlen cmds)); [lia|].
    destruct (memcpy_ok b cmds (Rb_Tail e) 0 (zlen cmds)) as (b' & -> & Hb' & Hin & Hout); try lia.
    exists b'. split; [done|].
    destruct (publish e1 b' (tail ring) 0 cmds) as [P1 P2]; try done; try lia.
    + apply unread_write; [done|lia|]. intros k Hk. rewrite M1. apply Hout.
      pose proof (place_range e1 k M4 Hk) as Hpl. unfold used in Hroom, M6, Hk. rewrite M2, ?M3 in *.
      destruct (Z.leb_spec (Rb_Head e1) (Rb_Tail e)), (Z.leb_spec (Rb_Head e) (Rb_Tail e)); lia.
    + rewrite M2, M3, Htl. destruct (Z.ltb_spec (Rb_Tail e + 0 + zlen cmds) (Rb_Size e)); lia.
    + intros j Hj. rewrite M2, M3. destruct (Z.ltb_spec (Rb_Tail e + 0) (Rb_Size e)); [|lia].
      specialize (Hin j Hj). rewrite Z.add_0_l in Hin. rewrite <- Hin. f_equal. lia.
    + rewrite Htl, Hp, Hq. exists (q + 16 * p). lia.
    + split; [exact P1|]. split; [|split; [exact M3|exact Htl]].
      unfold enginei_release_ring_buffer_space_e3k; cbn [set_ring_buf ring_buf Rb_Head Rb_Tail Rb_Size fetched fetch_plan].
      rewrite P2. rewrite app_assoc, M5, Hun. by rewrite <- app_assoc.
Qed.

Lemma submit_ok ring e cmds :
  ring_inv ring e -> command cmds -> room e (zlen cmds) ->
  exists ring' e', submit 1 cmds ring e = Ok (ring', e') /\ ring_inv ring' e' /\
    fetched e' ++ unread e' =
      fetched e ++ unread e ++ replicate (Z.to_nat (waste (Rb_Size e) (Rb_Tail e) (zlen cmds))) 0 ++ cmds /\
    Rb_Size e' = Rb_Size e /\ Rb_Tail e' = space_at e (zlen cmds) + zlen cmds.
Proof.
  intros Hinv Hc Hroom. pose proof Hinv as (Hsz & Htl & Hres & Hleft & He). pose proof He as He'.
  destruct He' as (_ & Hs & _ & Hh & Ht). change (engine_ok e) in He.
  unfold room in Hroom. rewrite zlen_unread in Hroom by done.
  pose proof (used_bound e He) as Hu. pose proof Hc as [Hpos [p Hp]].
  assert (Hn : zlen cmds < Rb_Size e).
  { unfold waste in Hroom. destruct (Z.leb_spec (Rb_Size e) (Rb_Tail e + zlen cmds)); lia. }
  destruct (get_space_run ring e (zlen cmds)) as (ring' & e1 & b & Hrun & Hb & Heb & Hm & _ & S1 & S2 & S3 & S4 & H0 & Hout);
    [done|lia|exists (16 * p); lia|].
  assert (Hun : unread (set_ring_buf e b) = unread e).
  { apply unread_write; [done|done|]. intros k Hk. apply Hout.
    pose proof (place_range e k He Hk) as Hpl. unfold used in Hroom, Hk.
    destruct (waste_cases (Rb_Size e) (Rb_Tail e) (zlen cmds)) as [[Hw Ew]|[Hw Ew]]; [lia|lia| |];
      rewrite Ew in *; destruct (Z.leb_spec (Rb_Head e) (Rb_Tail e)); lia. }
  destruct (store_commands ring' e b e1 cmds _ _ He Heb Hm Hc Hb Hun eq_refl eq_refl) as (b' & Hcp & R1 & R2 & R3 & R4);
    [lia|done|done|].
  exists ring'. eexists. unfold submit. rewrite Hrun. cbn [rbind].
  destruct Hm as (M1 & _). cbn [set_ring_buf ring_buf] in M1. rewrite M1, Hcp. cbn [rbind].
  split; [reflexivity|]. split; [|split; [exact R2|split; [exact R3|exact R4]]].
  split_and!; try done; try apply R1. all: cbn in *; congruence.
Qed.

Lemma stream_step sz t n : 0 <= t < sz -> 0 < n < sz ->
  (if waste sz t n =? 0 then t + n else n) = (if sz <=? t + n then 0 else t) + n.
Proof.
  unfold waste. intros. destruct (Z.leb_spec sz (t + n)); [destruct (Z.eqb_spec (sz - t) 0); lia|done].
Qed.

(** C10. While the unread bytes and each new submission fit, the ring is a
    queue: whatever the engine has fetched by then, its bytes followed by the
    unread ones are exactly the submitted commands in order, with zero words
    in front of those that start again at the beginning of the ring. *)
Theorem ring_is_queue subs ring e ring' e' :
  ring_inv ring e -> drive subs ring e ring' e' ->
  fetched e' ++ unread e' = fetched e ++ unread e ++ stream (Rb_Size e) (Rb_Tail e) subs.
Proof.
  intros Hinv Hd. revert Hinv.
  induction Hd as [ring e|n subs ring e ring' e' _ IH|cmds subs ring e ring1 e1 ring' e' Hc Hroom Hrun _ IH]; intros Hinv.
  - cbn [stream]. by rewrite app_nil_r.
  - pose proof Hinv as (A1 & A2 & A3 & A4 & He). destruct (engine_fetch_moves n e He) as (B1 & B2 & B3 & B4 & B5 & _).
    rewrite IH; [rewrite B2, B3, !app_assoc; by rewrite B5|]. split_and!; try congruence; try done; apply B4.
  - destruct (submit_ok ring e cmds Hinv Hc Hroom) as (r2 & e2 & Hrun2 & Hinv2 & Hq & Hs & Ht).
    rewrite Hrun in Hrun2. injection Hrun2 as <- <-. rewrite (IH Hinv2), app_assoc, Hq, Hs, Ht. cbn [stream].
    pose proof Hinv as (_ & _ & _ & _ & He). pose proof He as (_ & _ & _ & _ & Htl). change (engine_ok e) in He.
    rewrite stream_step; [unfold space_at; by rewrite <- !app_assoc|done|]. split; [apply Hc|].
    unfold room in Hroom. rewrite zlen_unread in Hroom by done. pose proof (used_bound e He).
    pose proof (waste_nonneg (Rb_Size e) (Rb_Tail e) (zlen cmds) Htl). lia.
Qed.

(** With room, a submission succeeds at the first attempt, keeps the ring
    well formed, and appends the commands behind the unread bytes, whatever the
    engine fetches meanwhile. *)
Theorem submit_appends ring e cmds :
  ring_inv ring e -> command cmds -> room e (zlen cmds) ->
  exists ring' e', submit 1 cmds ring e = Ok (ring', e') /\ ring_inv ring' e' /\
    fetched e' ++ unread e' =
      fetched e ++ unread e ++ replicate (Z.to_nat (waste (Rb_Size e) (Rb_Tail e) (zlen cmds))) 0 ++ cmds.
Proof.
  intros Hi Hc Hr. destruct (submit_ok _ _ _ Hi Hc Hr) as (r & e' & ? & ? & ? & _). by exists r, e'.
Qed.

(** Without room the driver does not wait: the allocator hands out space
    at once, and commands the engine has not read yet are gone. *)
Theorem submit_overflow_loses ring e cmds :
  ring_inv ring e -> command cmds -> zlen cmds < Rb_Size e -> ~ room e (zlen cmds) -> fetch_plan e = [] ->
  exists ring' e', submit 1 cmds ring e = Ok (ring', e') /\ fetched e' = fetched e /\
    zlen (unread e') < zlen (unread e) + zlen cmds.
Proof.
  intros Hi Hc Hn Hroom Hplan. pose proof Hi as (Hsz & Htl & Hres & Hleft & He). change (engine_ok e) in He.
  pose proof He as (_ & Hs & [q Hq] & Hh & Ht). unfold room in Hroom. rewrite zlen_unread in Hroom by done.
  pose proof Hc as [Hpos [p Hp]].
  destruct (get_space_run ring e (zlen cmds)) as (ring' & e1 & b & Hrun & Hb & Heb & _ & Hst & S1 & S2 & S3 & S4 & _);
    [done|lia|exists (16 * p); lia|].
  rewrite (Hst Hplan) in Hrun. clear Hst e1. unfold submit. rewrite Hrun. cbn [rbind set_ring_buf ring_buf].
  pose proof (used_bound e He) as Hu.
  assert (Hsp : 0 <= space_at e (zlen cmds) /\ space_at e (zlen cmds) + zlen cmds < Rb_Size e)
    by (unfold space_at; destruct (Z.leb_spec (Rb_Size e) (Rb_Tail e + zlen cmds)); lia).
  destruct (memcpy_ok b cmds (space_at e (zlen cmds)) 0 (zlen cmds)) as (b' & -> & Hb' & _); try lia.
  cbn [rbind]. eexists _, _. split; [reflexivity|]. split; [done|].
  rewrite !zlen_unread; [|done|].
  - revert Hroom Hu. unfold used; cbn. rewrite S2. unfold space_at, waste.
    destruct (Z.leb_spec (Rb_Size e) (Rb_Tail e + zlen cmds)), (Z.leb_spec (Rb_Head e) (Rb_Tail e)); intros;
      match goal with |- (if ?a <=? ?b then _ else _) < _ => destruct (Z.leb_spec a b) end; lia.
  - split_and!; cbn; try done; try lia. rewrite S2. unfold space_at.
    destruct (Z.leb_spec (Rb_Size e) (Rb_Tail e + zlen cmds)); [exists (16 * p)|exists (q + 16 * p)]; lia.
Qed.

(** ** A small ring: 256 bytes, the engine idle or 150 bytes ahead *)

Definition small_ring : ring_buffer := ring_buffer_init 256 0.
Definition small_engine (plan : list Z) : engine := mkEngine (replicate 256 0) 0 0 256 [] plan.
Definition cmd_of (n : nat) (x : Z) : list Z := replicate n x.

(** The state after two submissions the engine has not touched. *)
Definition full_state : ring_buffer * engine :=
  match (let! '(r, e) := submit 1 (cmd_of 128 1) small_ring (small_engine []) in submit 1 (cmd_of 64 2) r e) with
  | Ok s => s | Err _ => (small_ring, small_engine [])
  end.

Lemma small_inv plan : ring_inv small_ring (small_engine plan).
Proof. split_and!; try done. by exists 0. Qed.

Lemma full_inv : ring_inv (fst full_state) (snd full_state).
Proof. vm_compute. split_and!; try done. by exists 48. Qed.

Lemma cmd_of_command n x : 0 < Z.of_nat n -> Z.of_nat n mod 64 = 0 -> command (cmd_of n x).
Proof.
  intros H0 Hn. unfold command, cmd_of. rewrite zlen_replicate. split; [done|].
  exists (Z.of_nat n / 64). pose proof (Z.div_mod (Z.of_nat n) 64). lia.
Qed.

Lemma ring_is_queue_witness : exists ring e,
  drive [cmd_of 128 1; cmd_of 64 2; cmd_of 64 3] small_ring (small_engine [0; 150]) ring e /\
  fetched e ++ unread e = cmd_of 128 1 ++ cmd_of 64 2 ++ replicate 64 0 ++ cmd_of 64 3.
Proof.
  eexists _, _.
  match goal with |- ?d /\ _ => assert (Hd : d) end.
  - eapply drive_submit; [by apply cmd_of_command|by vm_compute|vm_compute; reflexivity|].
    eapply drive_submit; [by apply cmd_of_command|by vm_compute|vm_compute; reflexivity|].
    apply (drive_fetch 150). eapply drive_submit; [by apply cmd_of_command|by vm_compute|vm_compute; reflexivity|].
    apply (drive_fetch 50). apply drive_done.
  - split; [exact Hd|]. exact (ring_is_queue _ _ _ _ _ (small_inv _) Hd).
Defined.

Lemma submit_appends_witness : exists ring e,
  submit 1 (cmd_of 128 1) small_ring (small_engine []) = Ok (ring, e) /\ ring_inv ring e /\
  fetched e ++ unread e = cmd_of 128 1.
Proof.
  apply (submit_appends small_ring (small_engine []) (cmd_of 128 1));
    [apply small_inv|by apply cmd_of_command|by vm_compute].
Defined.

Lemma submit_overflow_loses_witness : exists ring e,
  submit 1 (cmd_of 64 3) (fst full_state) (snd full_state) = Ok (ring, e) /\ fetched e = [] /\
  zlen (unread e) < zlen (unread (snd full_state)) + 64.
Proof.
  apply (submit_overflow_loses (fst full_state) (snd full_state) (cmd_of 64 3));
    [apply full_inv|by apply cmd_of_command|by vm_compute|by vm_compute|by vm_compute].
Defined.
