(* ===== verification/Fence.v ===== *)
(** * Fences

    The fence bookkeeping of an engine scheduler in [core/vidsch/vidsch.c]: the
    GPU writes the number of the last finished task into a memory cell, the
    driver polls it. The GPU is the environment: before each poll it may have
    changed every cell ([future]). The theorems: the returned fence never goes
    back, and a forced wait ends once the GPU has written the fence, with the
    fence returned. *)
From S2P Require Import Prelude.
Local Open Scope Z_scope.

(** The fence fields of [struct vidsch_mgr]. *)
Record vidsch_mgr := mkMgr
  { last_send_fence_id : Z; returned_fence_id : Z; uncomplete_task_num : Z }.

(** The engines of an adapter ([adapter->sch_mgr], null where there is none),
    the fence cells ([*fence_buffer_cpu_va] of each engine), and the
    environment: the cells at each later poll, and how often each wait polls
    before its timeout. *)
Record fences := mkFences
  { sch_mgr : list (option vidsch_mgr); fence_cells : list Z; disable_schedule : bool;
    future : list (list Z); polls : list nat }.

Definition set_sch_mgr (s : fences) (l : list (option vidsch_mgr)) : fences :=
  mkFences l (fence_cells s) (disable_schedule s) (future s) (polls s).

Definition get_mgr (s : fences) (i : Z) : res vidsch_mgr :=
  let! p := rd (sch_mgr s) i in deref p.

(** [chip_func->update_fence_id]: a load of the cell the GPU writes. *)
Definition engine_update_fence_id_e3k (i : Z) (s : fences) : res (Z * fences) :=
  let s := match future s with
           | [] => s
           | cells :: f => mkFences (sch_mgr s) cells (disable_schedule s) f (polls s)
           end in
  let! v := rd (fence_cells s) i in Ok (u64 v, s).

(** The result is [*curr_returned] and [update_new]. *)
Definition vidschi_update_fence_id (i : Z) (s : fences) : res (Z * bool * fences) :=
  let! '(new_fence, s) := engine_update_fence_id_e3k i s in
  let! m := get_mgr s i in
  let old_fence := returned_fence_id m in
  if (returned_fence_id m <? new_fence) && (old_fence <=? last_send_fence_id m) then
    let! l := wr (sch_mgr s) i
      (Some (mkMgr (last_send_fence_id m) new_fence (sgn 32 (last_send_fence_id m - new_fence)))) in
    Ok (new_fence, true, set_sch_mgr s l)
  else Ok (returned_fence_id m, false, s).

Definition vidsch_get_current_returned_fence (i : Z) (s : fences) : res Z :=
  let! m := get_mgr s i in Ok (returned_fence_id m).

Definition vidsch_is_fence_back (engine_index fence_id : Z) (s : fences) : res (bool * fences) :=
  let i := u8 engine_index in
  let! '(_, _, s) := vidschi_update_fence_id i s in
  let! m := get_mgr s i in
  Ok (fence_id <=? returned_fence_id m, s).

(** [vidschi_notify_fence_interrupt] with all engines: the null ones are skipped;
    the wake-ups, the trace and the power tuning do not touch the fences. *)
Definition vidschi_notify_fence_interrupt (s : fences) : res fences :=
  for_up (length (sch_mgr s)) 0
    (fun engine s =>
       let! p := rd (sch_mgr s) engine in
       match p with
       | None => Ok s
       | Some _ => let! '(_, _, s) := vidschi_update_fence_id engine s in Ok s
       end) s.

Definition vidsch_notify_interrupt (s : fences) : res fences :=
  if disable_schedule s then Ok s else vidschi_notify_fence_interrupt s.

(** [zx_wait_event_thread_safe] with a timeout: the condition is evaluated until
    it holds or the time is over. *)
Fixpoint wait_event (n : nat) (i fence_id : Z) (s : fences) : res (bool * fences) :=
  let! '(back, s) := vidsch_is_fence_back i fence_id s in
  if back then Ok (true, s)
  else match n with O => Ok (false, s) | S n' => wait_event n' i fence_id s end.

Definition pop_polls (s : fences) : nat * fences :=
  match polls s with
  | [] => (O, s)
  | n :: p => (n, mkFences (sch_mgr s) (fence_cells s) (disable_schedule s) (future s) p)
  end.

(** The result is whether the fence is back ([ZX_EVENT_BACK] or [ZX_EVENT_TIMEOUT]). *)
Definition vidsch_wait_fence_back (fuel : nat) (engine_index fence_id : Z) (force_wait : bool) (s : fences)
  : res (bool * fences) :=
  iterate fuel
    (fun s =>
       let '(n, s) := pop_polls s in
       let! '(back, s) := wait_event n (u8 engine_index) fence_id s in
       let! s := if force_wait && negb back then vidsch_notify_interrupt s else Ok s in
       if force_wait && negb back then Ok (inl s) else Ok (inr (back, s))) s.

Definition vidschi_inc_send_fence_id (i : Z) (s : fences) : res (Z * fences) :=
  let! m := get_mgr s i in
  let f := u64 (last_send_fence_id m + 1) in
  let! l := wr (sch_mgr s) i (Some (mkMgr f (returned_fence_id m) (sgn 32 (f - returned_fence_id m)))) in
  Ok (f, set_sch_mgr s l).

(** ** What holds of the bookkeeping *)

Definition returned (s : fences) (i : Z) : Z :=
  match get_mgr s i with Ok m => returned_fence_id m | Err _ => 0 end.
Definition last_sent (s : fences) (i : Z) : Z :=
  match get_mgr s i with Ok m => last_send_fence_id m | Err _ => 0 end.
Definition engine_present (s : fences) (i : Z) : Prop := is_ok (get_mgr s i).

(** The cells the GPU has left in the end. *)
Fixpoint final_cells (cells : list Z) (f : list (list Z)) : list Z :=
  match f with [] => cells | c :: f' => final_cells c f' end.

(** Every cell of every engine exists, now and later. *)
Definition cells_ok (s : fences) : Prop :=
  Forall (fun c => zlen c = zlen (sch_mgr s)) (fence_cells s :: future s) /\ zlen (sch_mgr s) <= 256.

(** The driver's view of the fences of all engines advances from [s] to [s']. *)
Definition advances (s s' : fences) : Prop :=
  zlen (sch_mgr s') = zlen (sch_mgr s) /\ (cells_ok s -> cells_ok s') /\
  (forall i, engine_present s' i <-> engine_present s i) /\
  (forall i, last_sent s' i = last_sent s i) /\
  (forall i, returned s i <= returned s' i) /\
  (length (future s') <= length (future s))%nat /\
  final_cells (fence_cells s') (future s') = final_cells (fence_cells s) (future s).

(** A working GPU: every cell holds, now and later, the number of a task that
    has been sent. *)
Definition gpu_sound (s : fences) : Prop :=
  Forall (fun c => forall i v, rd c i = Ok v -> 0 <= v <= last_sent s i) (fence_cells s :: future s) /\
  (forall i, returned s i <= last_sent s i < 2 ^ 64).

#[export] Instance advances_preorder : PreOrder advances.
Proof.
  split.
  - intros s. unfold advances. conjs; intros; first [done | reflexivity | lia].
  - intros a b c (A1 & A2 & A3 & A4 & A5 & A6 & A7) (B1 & B2 & B3 & B4 & B5 & B6 & B7).
    unfold advances. conjs; intros; try congruence; try lia; try tauto.
    + rewrite B3. apply A3.
    + etrans; [apply A5|apply B5].
Qed.

(** One poll by the GPU's clock. *)
Lemma read_cell i s :
  cells_ok s -> 0 <= i < zlen (sch_mgr s) ->
  exists v s', engine_update_fence_id_e3k i s = Ok (u64 v, s') /\ rd (fence_cells s') i = Ok v /\
    sch_mgr s' = sch_mgr s /\ cells_ok s' /\
    final_cells (fence_cells s') (future s') = final_cells (fence_cells s) (future s) /\
    (length (future s') <= length (future s))%nat /\
    (future s' = [] \/ (length (future s') < length (future s))%nat) /\
    fence_cells s' :: future s' `suffix_of` fence_cells s :: future s /\
    disable_schedule s' = disable_schedule s /\ polls s' = polls s.
Proof.
  intros [Hf Hl] Hi. unfold engine_update_fence_id_e3k.
  destruct (future s) as [|c f] eqn:E.
  - apply List.Forall_cons_iff in Hf as [Hc _]. destruct (rd_in (fence_cells s) i) as [v Hv]; [lia|].
    rewrite Hv. exists v, s. cbn [rbind]. rewrite E. conjs; try done; try (by left).
    split; [|done]. rewrite E. by constructor.
  - apply List.Forall_cons_iff in Hf as [_ Hf]. apply List.Forall_cons_iff in Hf as [Hc Hf].
    cbn [fence_cells]. destruct (rd_in c i) as [v Hv]; [lia|]. rewrite Hv. cbn [rbind].
    eexists v, _. split; [reflexivity|]. cbn. conjs; try done; try lia; try (right; lia).
    + split; [by constructor|done].
    + by exists [fence_cells s].
Qed.

Lemma get_mgr_ext s s' i : sch_mgr s' = sch_mgr s -> get_mgr s' i = get_mgr s i.
Proof. unfold get_mgr. by intros ->. Qed.

Lemma present_range s i : engine_present s i -> 0 <= i < zlen (sch_mgr s).
Proof.
  intros [m Hm]. unfold get_mgr in Hm. apply rbind_ok_inv in Hm as (p & Hp & _). by eapply rd_bound.
Qed.

Lemma get_mgr_update s i j m :
  0 <= i < zlen (sch_mgr s) -> 0 <= j ->
  get_mgr (set_sch_mgr s (<[Z.to_nat i := Some m]> (sch_mgr s))) j = if j =? i then Ok m else get_mgr s j.
Proof.
  intros Hi Hj. unfold get_mgr; cbn. destruct (Z.eqb_spec j i) as [->|].
  - by rewrite rd_insert_eq.
  - by rewrite rd_insert_ne by lia.
Qed.

Lemma get_mgr_neg s j : j < 0 -> get_mgr s j = Err OutOfBounds.
Proof. intros. unfold get_mgr. by rewrite rd_out by lia. Qed.

(** The next number of an engine. *)
Lemma inc_send_run i s : engine_present s i ->
  exists s', vidschi_inc_send_fence_id i s = Ok (u64 (last_sent s i + 1), s') /\
    zlen (sch_mgr s') = zlen (sch_mgr s) /\ (cells_ok s -> cells_ok s') /\
    (forall j, engine_present s' j <-> engine_present s j) /\
    (forall j, returned s' j = returned s j) /\ future s' = future s /\ fence_cells s' = fence_cells s /\
    last_sent s' i = u64 (last_sent s i + 1) /\ (forall j, j <> i -> last_sent s' j = last_sent s j).
Proof.
  intros Hp. pose proof (present_range _ _ Hp) as Hi. destruct Hp as [m Hm]. unfold vidschi_inc_send_fence_id.
  assert (Hlast : last_sent s i = last_send_fence_id m) by (unfold last_sent; by rewrite Hm). rewrite Hm. cbn [rbind].
  rewrite wr_in by done. cbn [rbind]. rewrite Hlast. set (m' := mkMgr _ _ _). set (s' := set_sch_mgr s _).
  assert (Hg : forall j, get_mgr s' j = if j =? i then Ok m' else get_mgr s j).
  { intros j. destruct (Z.lt_ge_cases j 0) as [Hj|Hj].
    - rewrite !get_mgr_neg by done. destruct (Z.eqb_spec j i); [lia|done].
    - unfold s'. by rewrite get_mgr_update by lia. }
  exists s'. split; [done|]. conjs.
  - unfold s'; cbn. apply zlen_insert.
  - intros [? ?]. unfold s'. split; cbn; rewrite zlen_insert; done.
  - intros j. unfold engine_present. rewrite Hg. destruct (Z.eqb_spec j i) as [->|]; [|done].
    rewrite Hm. split; intros _; apply is_ok_Ok.
  - intros j. unfold returned. rewrite Hg. destruct (Z.eqb_spec j i) as [->|]; [by rewrite Hm|done].
  - done.
  - done.
  - unfold last_sent. rewrite Hg, Z.eqb_refl. done.
  - intros j Hj. unfold last_sent. rewrite Hg. by destruct (Z.eqb_spec j i).
Qed.

(** The GPU's soundness is about the cells still to be read. *)
Lemma sound_later s s1 :
  gpu_sound s -> fence_cells s1 :: future s1 `suffix_of` fence_cells s :: future s ->
  Forall (fun c => forall i v, rd c i = Ok v -> 0 <= v <= last_sent s i) (fence_cells s1 :: future s1).
Proof. intros [Hg _] [l Hl]. rewrite Hl in Hg. by apply Forall_app in Hg as [_ Hg]. Qed.

Lemma sound_cell s s1 i c :
  gpu_sound s -> fence_cells s1 :: future s1 `suffix_of` fence_cells s :: future s ->
  rd (fence_cells s1) i = Ok c -> 0 <= c <= last_sent s i /\ u64 c = c.
Proof.
  intros Hg Hs Hc. pose proof (sound_later _ _ Hg Hs) as Hl. apply List.Forall_cons_iff in Hl as [Hl _].
  specialize (Hl i c Hc). destruct Hg as [_ Hg]. specialize (Hg i). split; [done|].
  apply wrap_small. unfold fits. lia.
Qed.

(** A poll of one engine: its fence is updated, never backwards; a working
    GPU's cell is taken over. *)
Lemma update_run i s :
  cells_ok s -> engine_present s i ->
  exists v b s', vidschi_update_fence_id i s = Ok (v, b, s') /\ v = returned s' i /\ advances s s' /\
    fence_cells s' :: future s' `suffix_of` fence_cells s :: future s /\
    (future s' = [] \/ (length (future s') < length (future s))%nat) /\
    (gpu_sound s -> forall c, rd (fence_cells s') i = Ok c -> c <= returned s' i) /\
    (gpu_sound s -> gpu_sound s') /\ polls s' = polls s.
Proof.
  intros Hc Hp. pose proof (present_range _ _ Hp) as Hi. destruct Hp as [m Hm].
  destruct (read_cell i s Hc Hi) as (c & s1 & Hr & Hcell & Hs1 & Hc1 & Hfin & Hlen & Hprog & Hsuf & Hd & Hpl).
  assert (Hm1 : get_mgr s1 i = Ok m) by (by rewrite (get_mgr_ext s)).
  assert (Hsame : forall s', sch_mgr s' = sch_mgr s1 -> forall j, get_mgr s' j = get_mgr s j)
    by (intros; apply get_mgr_ext; congruence).
  unfold vidschi_update_fence_id. rewrite Hr. cbn [rbind]. rewrite Hm1. cbn [rbind].
  destruct ((returned_fence_id m <? u64 c) && (returned_fence_id m <=? last_send_fence_id m)) eqn:E.
  - rewrite wr_in by (rewrite Hs1; lia). cbn [rbind].
    set (m' := mkMgr _ _ _). set (s' := set_sch_mgr s1 _).
    assert (Hg : forall j, get_mgr s' j = if j =? i then Ok m' else get_mgr s j).
    { intros j. destruct (Z.lt_ge_cases j 0) as [Hj|Hj].
      - rewrite !get_mgr_neg by done. destruct (Z.eqb_spec j i); [lia|done].
      - unfold s'. rewrite get_mgr_update by (rewrite ?Hs1; lia). by rewrite (get_mgr_ext s). }
    assert (Hlast : forall j, last_sent s' j = last_sent s j).
    { intros j. unfold last_sent. rewrite Hg. destruct (Z.eqb_spec j i) as [->|]; [by rewrite Hm|done]. }
    assert (Hret : forall j, returned s' j = if j =? i then u64 c else returned s j).
    { intros j. unfold returned. rewrite Hg. by destruct (j =? i). }
    exists (u64 c), true, s'. split; [done|]. split; [by rewrite Hret, Z.eqb_refl|].
    split; [|conjs; try done].
    + unfold advances. conjs; try done.
      * unfold s'; cbn. rewrite zlen_insert. congruence.
      * intros _. destruct Hc1 as [? ?]. unfold s'. split; cbn; rewrite zlen_insert; done.
      * intros j. unfold engine_present. rewrite Hg. destruct (Z.eqb_spec j i) as [->|]; [|done].
        rewrite Hm. split; intros _; apply is_ok_Ok.
      * intros j. rewrite Hret. destruct (Z.eqb_spec j i) as [->|]; [|lia].
        unfold returned. rewrite Hm. lia.
    + intros Hsd c' Hc'. change (fence_cells s') with (fence_cells s1) in Hc'.
      destruct (sound_cell _ _ _ _ Hsd Hsuf Hc') as [_ Hu]. rewrite Hcell in Hc'. injection Hc' as <-.
      rewrite Hret, Z.eqb_refl, Hu. lia.
    + intros Hsd. pose proof (sound_cell _ _ _ _ Hsd Hsuf Hcell) as [Hb Hu]. split.
      * eapply List.Forall_impl; [|exact (sound_later _ _ Hsd Hsuf)]. cbn. intros a Ha j v Hv. rewrite Hlast. by apply Ha.
      * intros j. rewrite Hret, Hlast. pose proof (proj2 Hsd j) as Hj.
        destruct (Z.eqb_spec j i) as [->|]; lia.
  - exists (returned_fence_id m), false, s1. split; [done|].
    assert (Hret : forall j, returned s1 j = returned s j) by (intros; unfold returned; by rewrite Hsame).
    assert (Hlast : forall j, last_sent s1 j = last_sent s j) by (intros; unfold last_sent; by rewrite Hsame).
    split; [unfold returned; by rewrite Hm1|]. split; [|conjs; try done].
    + unfold advances. conjs; try done; try congruence.
      * intros j. unfold engine_present. by rewrite Hsame.
      * intros j. rewrite Hret. lia.
    + intros Hsd c' Hc'. destruct (sound_cell _ _ _ _ Hsd Hsuf Hc') as [Hb Hu]. rewrite Hcell in Hc'.
      injection Hc' as <-. rewrite Hret, Hu in *. pose proof (proj2 Hsd i) as Hi'.
      unfold returned, last_sent in *. rewrite Hm in *. lia.
    + intros Hsd. split.
      * eapply List.Forall_impl; [|exact (sound_later _ _ Hsd Hsuf)]. cbn. intros a Ha j v Hv. rewrite Hlast. by apply Ha.
      * intros j. rewrite Hret, Hlast. by apply Hsd.
Qed.

(** What one operation on the fences leaves: it advances, reads only cells to
    come, and keeps the GPU sound. *)
Definition evolves (s s' : fences) : Prop :=
  advances s s' /\ fence_cells s' :: future s' `suffix_of` fence_cells s :: future s /\
  (gpu_sound s -> gpu_sound s').

#[export] Instance evolves_preorder : PreOrder evolves.
Proof.
  split.
  - intros s. by split; [reflexivity|split].
  - intros a b c (A1 & A2 & A3) (B1 & B2 & B3). split; [by etrans|]. split; [by etrans|tauto].
Qed.

Lemma evolves_cells s s' : evolves s s' -> cells_ok s -> cells_ok s'.
Proof. intros [(_ & H & _) _]. exact H. Qed.
Lemma evolves_present s s' i : evolves s s' -> engine_present s i -> engine_present s' i.
Proof. intros [(_ & _ & H & _) _] Hp. by apply H. Qed.
Lemma evolves_returned s s' i : evolves s s' -> returned s i <= returned s' i.
Proof. intros [(_ & _ & _ & _ & H & _) _]. apply H. Qed.

Lemma is_fence_back_run i f s :
  cells_ok s -> engine_present s i ->
  exists b s', vidsch_is_fence_back i f s = Ok (b, s') /\ evolves s s' /\ polls s' = polls s /\
    b = (f <=? returned s' i) /\ (future s' = [] \/ (length (future s') < length (future s))%nat) /\
    (gpu_sound s -> forall c, rd (fence_cells s') i = Ok c -> c <= returned s' i).
Proof.
  intros Hc Hp. pose proof (present_range _ _ Hp) as Hi.
  destruct (update_run i s Hc Hp) as (v & b & s' & Hr & Hv & Ha & Hsuf & Hprog & Hlive & Hsd & Hpl).
  unfold vidsch_is_fence_back. rewrite (wrap_small 8) by (destruct Hc; unfold fits; lia).
  rewrite Hr. cbn [rbind]. destruct Ha as (A1 & A2 & A3 & A4).
  assert (Hp' : engine_present s' i) by (by apply A3). destruct Hp' as [m Hm].
  rewrite Hm. cbn [rbind]. exists (f <=? returned_fence_id m), s'. split; [done|].
  conjs; try done. unfold returned. by rewrite Hm.
Qed.

Lemma wait_event_run n i f s :
  cells_ok s -> engine_present s i ->
  exists b s', wait_event n i f s = Ok (b, s') /\ evolves s s' /\
    (b = true -> f <= returned s' i) /\ (future s' = [] \/ (length (future s') < length (future s))%nat) /\
    (gpu_sound s -> b = false -> forall c, rd (fence_cells s') i = Ok c -> c < f).
Proof.
  revert s. induction n as [|n IH]; intros s Hc Hp; cbn [wait_event];
    destruct (is_fence_back_run i f s Hc Hp) as (b & s1 & -> & Hev & _ & Hb & Hprog & Hlive); cbn [rbind].
  - destruct b.
    + exists true, s1. conjs; try done. lia.
    + exists false, s1. conjs; try done. intros Hsd _ c Hcell. specialize (Hlive Hsd c Hcell). lia.
  - destruct b.
    + exists true, s1. conjs; try done. lia.
    + destruct (IH s1) as (b & s2 & -> & Hev2 & Hb2 & Hprog2 & Hlive2);
        [by eapply evolves_cells|by eapply evolves_present|].
      exists b, s2. conjs; try done; [by etrans| |].
      * destruct Hev as [(_ & _ & _ & _ & _ & Hl & _) _], Hev2 as [(_ & _ & _ & _ & _ & Hl2 & _) _].
        destruct Hprog2; [by left|right; lia].
      * intros Hsd. apply Hlive2. by apply Hev.
Qed.

Lemma notify_run s :
  cells_ok s -> exists s', vidsch_notify_interrupt s = Ok s' /\ evolves s s'.
Proof.
  intros Hc. unfold vidsch_notify_interrupt. destruct (disable_schedule s); [by exists s|].
  unfold vidschi_notify_fence_interrupt. destruct (for_up_rule
    (fun _ t => evolves s t) (length (sch_mgr s)) 0
    (fun engine s => let! p := rd (sch_mgr s) engine in
       match p with None => Ok s | Some _ => let! '(_, _, s) := vidschi_update_fence_id engine s in Ok s end) s)
    as (s' & -> & Hev); [|done|by exists s'].
  intros j t Hj Hev. pose proof (evolves_cells _ _ Hev Hc) as Hct.
  assert (Hlen : zlen (sch_mgr t) = zlen (sch_mgr s)) by apply Hev.
  destruct (rd_in (sch_mgr t) j) as [p Hp]; [unfold zlen in *; lia|]. rewrite Hp. cbn [rbind].
  destruct p as [m|]; [|by exists t].
  destruct (update_run j t Hct) as (v & b & s' & -> & _ & Ha & Hsuf & _ & _ & Hsd & _).
  { exists m. unfold get_mgr. by rewrite Hp. }
  exists s'. split; [done|]. etrans; [exact Hev|]. by split.
Qed.

Lemma pop_polls_evolves s : evolves s (snd (pop_polls s)).
Proof. unfold pop_polls. destruct (polls s); [reflexivity|]. split; [|split]; try done. Qed.

(** The cell of an engine in the end. *)
Definition final_fence (s : fences) (i : Z) : Z :=
  match rd (final_cells (fence_cells s) (future s)) i with Ok v => v | Err _ => 0 end.

Lemma final_fence_last s i c : future s = [] -> rd (fence_cells s) i = Ok c -> final_fence s i = c.
Proof. unfold final_fence. intros ->. cbn [final_cells]. by intros ->. Qed.

Lemma final_fence_evolves s s' i : evolves s s' -> final_fence s' i = final_fence s i.
Proof. intros [(_ & _ & _ & _ & _ & _ & H) _]. unfold final_fence. by rewrite H. Qed.

Lemma wait_fence_back_run fuel i f s :
  cells_ok s -> engine_present s i -> gpu_sound s -> f <= final_fence s i -> (length (future s) < fuel)%nat ->
  exists s', vidsch_wait_fence_back fuel i f true s = Ok (true, s') /\ evolves s s' /\ f <= returned s' i.
Proof.
  intros Hc Hp Hsd Hf Hfuel. pose proof (present_range _ _ Hp) as Hi. unfold vidsch_wait_fence_back.
  destruct (iterate_rule
    (fun t => evolves s t) (fun '(b, t) => b = true /\ evolves s t /\ f <= returned t i)
    (fun t => length (future t)) fuel
    (fun s => let '(n, s) := pop_polls s in
       let! '(back, s) := wait_event n (u8 i) f s in
       let! s := if true && negb back then vidsch_notify_interrupt s else Ok s in
       if true && negb back then Ok (inl s) else Ok (inr (back, s))) s)
    as ([b s'] & -> & -> & Hev & Hr); [|done|done|by exists s'].
  intros t Hev. pose proof (pop_polls_evolves t) as Hev1. destruct (pop_polls t) as [n t1]. cbn [snd] in Hev1.
  assert (Hev2 : evolves s t1) by (by etrans). rewrite (wrap_small 8) by (destruct Hc; unfold fits; lia).
  destruct (wait_event_run n i f t1) as (b & t2 & -> & Hev3 & Hb & Hprog & Hlive);
    [by eapply evolves_cells|by eapply evolves_present|]. cbn [rbind].
  assert (Hev4 : evolves s t2) by (by etrans). destruct b; cbn [negb andb].
  - eexists. split; [reflexivity|]. cbn beta iota. conjs; [done|done|by apply Hb].
  - destruct (notify_run t2) as (t3 & -> & Hev5); [by eapply evolves_cells|]. cbn [rbind].
    eexists. split; [reflexivity|]. cbn beta iota. split; [by etrans|].
    assert (Hl1 : (length (future t1) <= length (future t))%nat) by apply Hev1.
    assert (Hl3 : (length (future t3) <= length (future t2))%nat) by apply Hev5.
    destruct Hprog as [Hnil|Hlt]; [|lia]. exfalso.
    assert (Hc2 : cells_ok t2) by (by eapply evolves_cells). destruct Hc2 as [Hc2 _].
    apply List.Forall_cons_iff in Hc2 as [Hc2 _]. assert (Hlen : zlen (sch_mgr t2) = zlen (sch_mgr s)) by apply Hev4.
    destruct (rd_in (fence_cells t2) i) as [c Hcell]; [lia|].
    pose proof (Hlive (proj2 (proj2 Hev2) Hsd) eq_refl c Hcell).
    pose proof (final_fence_last _ _ _ Hnil Hcell). pose proof (final_fence_evolves _ _ i Hev4). lia.
Qed.

(** C29. A forced wait for a fence ends when the GPU gets there: if the engine
    finally writes a number not below the fence, the wait returns, and by then
    the driver's returned fence has passed the fence; no engine's returned
    fence has gone back. Each round polls one more state of the GPU, so that
    the number of these states bounds the rounds. *)
Theorem wait_fence_back_ends i f s :
  cells_ok s -> engine_present s i -> gpu_sound s -> f <= final_fence s i ->
  exists s', vidsch_wait_fence_back (S (length (future s))) i f true s = Ok (true, s') /\
    f <= returned s' i /\ forall j, returned s j <= returned s' j.
Proof.
  intros Hc Hp Hsd Hf. destruct (wait_fence_back_run (S (length (future s))) i f s) as (s' & Hr & Hev & Hb);
    [done|done|done|done|lia|].
  exists s'. conjs; [done|done|]. intros j. by apply evolves_returned.
Qed.

(** The test for an invalid number looks at the old fence, not at the new
    one: a number that was never sent is accepted, and from then on every fence
    sent so far counts as back. *)
Theorem update_accepts_unsent i s c rest :
  cells_ok s -> engine_present s i -> future s = c :: rest ->
  0 <= returned s i <= last_sent s i -> (exists v, rd c i = Ok v /\ last_sent s i < v < 2 ^ 64) ->
  exists v s', vidschi_update_fence_id i s = Ok (v, true, s') /\ last_sent s' i < returned s' i /\
    forall f, f <= last_sent s' i -> exists s'', vidsch_is_fence_back i f s' = Ok (true, s'').
Proof.
  intros Hc Hp Hfut Hold (v & Hv & Hlt). pose proof (present_range _ _ Hp) as Hi.
  destruct (update_run i s Hc Hp) as (w & b & s' & Hr & Hw & Ha & _). pose proof Ha as (A1 & A2 & A3 & A4 & A5 & _).
  assert (Hb : b = true /\ w = v).
  { destruct Hp as [m Hm]. unfold returned, last_sent in Hold, Hlt. rewrite Hm in *.
    unfold vidschi_update_fence_id, engine_update_fence_id_e3k in Hr. rewrite Hfut in Hr. cbn [fence_cells] in Hr.
    rewrite Hv in Hr. cbn [rbind] in Hr. unfold get_mgr in Hm, Hr. cbn [sch_mgr] in Hr. rewrite Hm in Hr. cbn [rbind] in Hr.
    rewrite (wrap_small 64 v) in Hr by (unfold fits; lia).
    destruct (Z.ltb_spec (returned_fence_id m) v); [|lia].
    destruct (Z.leb_spec (returned_fence_id m) (last_send_fence_id m)); [|lia]. cbn [andb] in Hr.
    apply rbind_ok_inv in Hr as (l & _ & [= <- <- _]). done. }
  destruct Hb as [-> ->]. exists v, s'. split; [done|]. split; [rewrite A4; lia|].
  intros f Hf. destruct (is_fence_back_run i f s') as (b & s2 & -> & Hev & _ & -> & _); [by apply A2|by apply A3|].
  exists s2. do 2 f_equal. pose proof (evolves_returned _ _ i Hev). rewrite A4 in Hf. lia.
Qed.

(** ** One engine that has sent five tasks, two of them done; no second engine *)

Definition demo_fences (fut : list (list Z)) : fences :=
  mkFences [Some (mkMgr 5 2 3); None] [2; 0] false fut [1%nat].

Lemma demo_fields i : i <> 0 -> returned (demo_fences []) i = 0 /\ last_sent (demo_fences []) i = 0.
Proof.
  intros Hi. unfold returned, last_sent, get_mgr. destruct (decide (0 <= i < 2)).
  - assert (i = 1) as -> by lia. done.
  - rewrite rd_out by (unfold zlen; cbn; lia). done.
Qed.

Lemma demo_cells fut : Forall (fun c => zlen c = 2) fut -> cells_ok (demo_fences fut).
Proof. intros. split; [constructor; done|done]. Qed.

Lemma demo_sound fut :
  Forall (fun c => exists v, c = [v; 0] /\ 0 <= v <= 5) fut -> gpu_sound (demo_fences fut).
Proof.
  intros Hf. assert (Hi : forall i, i = 0 \/ i <> 0 /\ returned (demo_fences fut) i = 0 /\ last_sent (demo_fences fut) i = 0).
  { intros i. destruct (Z.eq_dec i 0); [by left|right]. split; [done|]. by apply demo_fields. }
  assert (Hcell : forall v i w, 0 <= v <= 5 -> rd [v; 0] i = Ok w -> 0 <= w <= last_sent (demo_fences fut) i).
  { intros v i w Hv Hw. pose proof (rd_bound _ _ _ Hw) as Hb. unfold zlen in Hb; cbn in Hb.
    assert (i = 0 \/ i = 1) as [-> | ->] by lia; vm_compute in Hw; injection Hw as <-.
    - by change (last_sent (demo_fences fut) 0) with 5.
    - by change (last_sent (demo_fences fut) 1) with 0. }
  split.
  - constructor; [intros i v; by apply Hcell|].
    eapply List.Forall_impl; [|exact Hf]. intros c (v & -> & Hv) i w. by apply Hcell.
  - intros i. destruct (Hi i) as [->|(_ & -> & ->)]; [done|lia].
Qed.

Lemma wait_fence_back_ends_witness : exists s',
  vidsch_wait_fence_back 3 0 4 true (demo_fences [[3; 0]; [5; 0]]) = Ok (true, s') /\ 4 <= returned s' 0 /\
  forall j, returned (demo_fences [[3; 0]; [5; 0]]) j <= returned s' j.
Proof.
  apply (wait_fence_back_ends 0 4 (demo_fences [[3; 0]; [5; 0]])).
  - apply demo_cells. repeat constructor.
  - eexists. reflexivity.
  - apply demo_sound. constructor; [exists 3; split; [reflexivity|lia]|].
    constructor; [exists 5; split; [reflexivity|lia]|constructor].
  - vm_compute. discriminate.
Defined.

Lemma update_accepts_unsent_witness : exists v s',
  vidschi_update_fence_id 0 (demo_fences [[1000; 0]]) = Ok (v, true, s') /\ last_sent s' 0 < returned s' 0 /\
  forall f, f <= last_sent s' 0 -> exists s'', vidsch_is_fence_back 0 f s' = Ok (true, s'').
Proof.
  apply (update_accepts_unsent 0 (demo_fences [[1000; 0]]) [1000; 0] []).
  - apply demo_cells. repeat constructor.
  - eexists. reflexivity.
  - reflexivity.
  - vm_compute. split; discriminate.
  - exists 1000. split; [reflexivity|]. vm_compute. split; reflexivity.
Defined.
