(* ===== verification/VmId.v ===== *)
(** * Identifiers of GPU address spaces

    [core/vidsch/vidsch_vm_id.c]: the hardware knows a few address spaces by
    number; the driver lends the numbers to devices, least recently used first,
    and takes one back only when the GPU has finished every task that used it.
    On top of the lists ([ListHead]) and the fences ([Fence]). *)
From S2P Require Import Prelude CoreUtil ListHead Fence.
From stdpp Require Import gmap.
Local Open Scope Z_scope.

Definition MAX_ENGINE_COUNT : Z := 12.

(** [zx_vm_id_obj_t]; its list node is the heap node [node_of vm_id]. *)
Record zx_vm_id_obj := mkVmId
  { vm_id : Z; device_uuid : Z; pd_age : Z; bitmap : Z; last_flush : list Z }.

(** [vidsch_vm_id_mgr_t], with the heap its list lives in, and the fences. *)
Record vidsch_vm_id_mgr := mkMgrVm
  { num_ids : Z; reserved_num_ids : Z; vm_id_array : list zx_vm_id_obj; links : heap; fen : fences }.

(** The addresses of the list head and of the node of entry [i]. *)
Definition vm_id_list : Z := 1.
Definition node_of (i : Z) : Z := i + 2.
Definition entry_of (node : Z) : Z := node - 2.

(** What the functions here use of [gpu_device_t] and [zx_vma_space_t]: [dev_vm_id]
    is the entry [device->vm_id] points to. *)
Record gpu_device := mkDevice { uuid : Z; dev_vm_id : option Z; root_pd_age : Z }.

Definition set_array (m : vidsch_vm_id_mgr) (a : list zx_vm_id_obj) : vidsch_vm_id_mgr :=
  mkMgrVm (num_ids m) (reserved_num_ids m) a (links m) (fen m).
Definition set_links (m : vidsch_vm_id_mgr) (h : heap) : vidsch_vm_id_mgr :=
  mkMgrVm (num_ids m) (reserved_num_ids m) (vm_id_array m) h (fen m).
Definition set_fen (m : vidsch_vm_id_mgr) (s : fences) : vidsch_vm_id_mgr :=
  mkMgrVm (num_ids m) (reserved_num_ids m) (vm_id_array m) (links m) s.

Definition set_bitmap (o : zx_vm_id_obj) (b : Z) : zx_vm_id_obj :=
  mkVmId (vm_id o) (device_uuid o) (pd_age o) b (last_flush o).

(** [zx_set_bit], [zx_clear_bit] on a word. *)
Definition zx_set_bit (nr w : Z) : Z := Z.lor w (Z.shiftl 1 nr).
Definition zx_clear_bit (nr w : Z) : Z := Z.ldiff w (Z.shiftl 1 nr).

(** [vidschi_init_vm_id_mgr]; [vidsch_query_vm_id] gives 16 identifiers, one of
    them reserved. The entry of the private address space of CNE001, if any, gets
    the age of its page table. *)
Definition vidsch_query_vm_id : Z * Z := (16, 1).

Definition vidschi_init_vm_id_mgr (private : option (Z * Z)) (s : fences) : res vidsch_vm_id_mgr :=
  let '(total, reserved) := vidsch_query_vm_id in
  let h : heap := <[vm_id_list := mkNode 0 0]>
    (list_to_map ((fun i : nat => (node_of (Z.of_nat i), mkNode 0 0)) <$> seq 0 (Z.to_nat total))) in
  let! h := list_init_head vm_id_list h in
  let array := replicate (Z.to_nat total) (mkVmId 0 0 0 0 (replicate (Z.to_nat MAX_ENGINE_COUNT) 0)) in
  let set_id i a := let! o := rd a i in
    wr a i (mkVmId i (device_uuid o) (pd_age o) (bitmap o) (last_flush o)) in
  let! array := for_up (Z.to_nat reserved) 0 set_id array in
  let! '(array, h) :=
    for_up (Z.to_nat (total - reserved)) reserved
      (fun i '(array, h) =>
         let! array := set_id i array in
         let! h := list_add_tail (node_of i) vm_id_list h in Ok (array, h)) (array, h) in
  let! array :=
    match private with
    | Some (private_vm_id, age) =>
        let! o := rd array private_vm_id in
        wr array private_vm_id (mkVmId (vm_id o) (device_uuid o) age (bitmap o) (last_flush o))
    | None => Ok array
    end in
  Ok (mkMgrVm total reserved array h s).

(** [vidschi_vm_id_add_sync] on entry [i]. *)
Definition vidschi_vm_id_add_sync (i fence_id engine_idx : Z) (m : vidsch_vm_id_mgr) : res vidsch_vm_id_mgr :=
  let! o := rd (vm_id_array m) i in
  let! lf := wr (last_flush o) engine_idx fence_id in
  let! a := wr (vm_id_array m) i
    (mkVmId (vm_id o) (device_uuid o) (pd_age o) (zx_set_bit engine_idx (bitmap o)) lf) in
  Ok (set_array m a).

(** [vidschi_is_vm_id_idle]: the loop runs over the local bitmap. *)
Definition vidschi_is_vm_id_idle (i engine_mask : Z) (m : vidsch_vm_id_mgr) : res (bool * vidsch_vm_id_mgr) :=
  let! o := rd (vm_id_array m) i in
  iterate 33
    (fun '(bm, m) =>
       if negb (bm =? 0) then
         let! engine_index := util_get_msb_position bm in
         let! o := rd (vm_id_array m) i in
         let! fence_id := rd (last_flush o) engine_index in
         let! '(back, s) := vidsch_is_fence_back engine_index fence_id (fen m) in
         let m := set_fen m s in
         if back then
           let! a := wr (vm_id_array m) i (set_bitmap o (zx_clear_bit engine_index (bitmap o))) in
           Ok (inl (zx_clear_bit engine_index bm, set_array m a))
         else Ok (inr (false, m))
       else Ok (inr (true, m))) (Z.land (bitmap o) (u32 engine_mask), m).

Definition vidschi_wait_vm_id_idle (fuel : nat) (i engine_mask : Z) (m : vidsch_vm_id_mgr) : res vidsch_vm_id_mgr :=
  let! o := rd (vm_id_array m) i in
  iterate 33
    (fun '(bm, m) =>
       if negb (bm =? 0) then
         let! engine_index := util_get_msb_position bm in
         let! o := rd (vm_id_array m) i in
         let! fence_id := rd (last_flush o) engine_index in
         let! '(_, s) := vidsch_wait_fence_back fuel engine_index fence_id true (fen m) in
         let m := set_fen m s in
         let! a := wr (vm_id_array m) i (set_bitmap o (zx_clear_bit engine_index (bitmap o))) in
         Ok (inl (zx_clear_bit engine_index bm, set_array m a))
       else Ok (inr m)) (Z.land (bitmap o) (u32 engine_mask), m).

(** [vidschi_choose_vm_id_004]: the loop that looks for an idle identifier. *)
Definition find_idle_vm_id (fuel : nat) (m : vidsch_vm_id_mgr) : res (option Z * vidsch_vm_id_mgr) :=
  let! r :=
    list_for_each (S (Z.to_nat (num_ids m))) vm_id_list (links m)
      (fun temp m =>
         let! '(idle, m) := vidschi_is_vm_id_idle (entry_of temp) (-1) m in
         if idle then Ok (inr (entry_of temp, m)) else Ok (inl m)) m in
  match r with
  | inr (i, m) => Ok (Some i, m)
  | inl m =>
      let! first := list_first_entry vm_id_list (links m) in
      let! m := vidschi_wait_vm_id_idle fuel (entry_of first) (-1) m in
      Ok (None, m)
  end.

Definition retry_idle_vm_id (rounds fuel : nat) (m : vidsch_vm_id_mgr) : res (Z * vidsch_vm_id_mgr) :=
  iterate rounds
    (fun m =>
       let! '(r, m) := find_idle_vm_id fuel m in
       match r with Some i => Ok (inr (i, m)) | None => Ok (inl m) end) m.

Definition owned (m : vidsch_vm_id_mgr) (dev : gpu_device) : res (option Z) :=
  match dev_vm_id dev with
  | None => Ok None
  | Some i => let! o := rd (vm_id_array m) i in Ok (if device_uuid o =? uuid dev then Some i else None)
  end.

Definition vidschi_choose_vm_id_004 (rounds fuel : nat) (is_reserved : bool) (dev : gpu_device)
  (m : vidsch_vm_id_mgr) : res (Z * gpu_device * vidsch_vm_id_mgr) :=
  let! '(i, m) :=
    if is_reserved then Ok (0, m)
    else
      let! own := owned m dev in
      match own with
      | Some i => Ok (i, m)
      | None => retry_idle_vm_id rounds fuel m
      end in
  let! m :=
    if negb (i =? 0) then
      let! h := list_del (node_of i) (links m) in
      let! h := list_add_tail (node_of i) vm_id_list h in Ok (set_links m h)
    else Ok m in
  let! o := rd (vm_id_array m) i in
  if negb (bool_decide (dev_vm_id dev = Some i)) || negb (device_uuid o =? uuid dev) then
    let! a := wr (vm_id_array m) i (mkVmId (vm_id o) (uuid dev) 0 (bitmap o) (last_flush o)) in
    Ok (i, mkDevice (uuid dev) (Some i) (root_pd_age dev), set_array m a)
  else Ok (i, dev, m).

(** [vidschi_choose_vm_id_cne001]: no identifier is lent; any other device is
    an assertion failure. *)
Definition vidschi_choose_vm_id_cne001 (is_reserved is_private : bool) (private_vm_id : Z) (dev : gpu_device)
  : res (Z * gpu_device) :=
  let! i := if is_reserved then Ok 0 else if is_private then Ok private_vm_id else Err NullDeref in
  Ok (i, mkDevice (uuid dev) (Some i) (root_pd_age dev)).

(** [vidschi_fini_vm_id_mgr], up to the release of the array. *)
Definition vidschi_fini_vm_id_mgr (fuel : nat) (m : vidsch_vm_id_mgr) : res vidsch_vm_id_mgr :=
  for_up (Z.to_nat (num_ids m)) 0
    (fun i m =>
       for_up (Z.to_nat MAX_ENGINE_COUNT) 0
         (fun j m =>
            let! o := rd (vm_id_array m) i in
            if Z.testbit (bitmap o) j then
              let! f := rd (last_flush o) j in
              let! '(_, s) := vidsch_wait_fence_back fuel j f true (fen m) in
              let! a := wr (vm_id_array m) i (set_bitmap o (zx_clear_bit j (bitmap o))) in
              Ok (set_array (set_fen m s) a)
            else Ok m) m) m.

(** [vidsch_choose_vm_id] on CHX004 up to the unlock: the task's identifier, and
    the fence recorded for it. *)
Definition vidsch_choose_vm_id (rounds fuel : nat) (is_reserved : bool) (dev : gpu_device)
  (fence_id engine_idx : Z) (m : vidsch_vm_id_mgr) : res (Z * Z * gpu_device * vidsch_vm_id_mgr) :=
  let! '(i, dev, m) := vidschi_choose_vm_id_004 rounds fuel is_reserved dev m in
  let! o := rd (vm_id_array m) i in
  let! m := vidschi_vm_id_add_sync i fence_id engine_idx m in
  Ok (i, vm_id o, dev, m).

(** Whether the page table of the device must be set, or its TLB cleared, before the task. *)
Definition needs_page_table_set (is_reserved : bool) (o : zx_vm_id_obj) (dev : gpu_device) (utlb_flag dtlb_flag : bool) : bool :=
  negb is_reserved && negb ((root_pd_age dev <=? pd_age o) && negb dtlb_flag && negb utlb_flag).

(** ** What holds of the manager *)

(** An entry: its bitmap covers exactly the engines that may still run its
    tasks, the others have returned the last fence recorded for them. *)
Definition entry_ok (s : fences) (i : Z) (o : zx_vm_id_obj) : Prop :=
  vm_id o = i /\ zlen (last_flush o) = MAX_ENGINE_COUNT /\ 0 <= bitmap o /\
  forall j, 0 <= j ->
    if Z.testbit (bitmap o) j then engine_present s j /\ j < MAX_ENGINE_COUNT
    else forall f, rd (last_flush o) j = Ok f -> f <= returned s j.

(** The list holds every identifier that is not reserved, least recently used first. *)
Definition mgr_ok (lru : list Z) (m : vidsch_vm_id_mgr) : Prop :=
  is_list (links m) vm_id_list (node_of <$> lru) /\
  (forall i, i ∈ lru <-> reserved_num_ids m <= i < num_ids m) /\
  reserved_num_ids m = 1 /\ 1 < num_ids m /\ zlen (vm_id_array m) = num_ids m /\ cells_ok (fen m) /\
  forall i o, rd (vm_id_array m) i = Ok o -> entry_ok (fen m) i o.

(** The GPU is alive: it finally returns every fence recorded in the manager. *)
Definition gpu_alive (m : vidsch_vm_id_mgr) : Prop :=
  gpu_sound (fen m) /\
  forall i o j f, rd (vm_id_array m) i = Ok o -> rd (last_flush o) j = Ok f -> f <= final_fence (fen m) j.

(** The tasks that used the entry are done, on every engine. *)
Definition all_back (s : fences) (o : zx_vm_id_obj) : Prop :=
  forall j f, rd (last_flush o) j = Ok f -> f <= returned s j.

(** ** Bits *)

Lemma clear_bit_spec nr w j : 0 <= nr -> 0 <= j -> Z.testbit (zx_clear_bit nr w) j = Z.testbit w j && negb (j =? nr).
Proof.
  intros. unfold zx_clear_bit. rewrite Z.ldiff_spec, Z.shiftl_spec by done.
  destruct (Z.eqb_spec j nr) as [->|].
  - by rewrite Z.sub_diag.
  - destruct (Z.lt_ge_cases j nr) as [Hlt|Hge]; [by rewrite (Z.testbit_neg_r 1) by lia; destruct (Z.testbit w j)|].
    rewrite (Z.bits_above_log2 1) by (lia || (change (Z.log2 1) with 0; lia)). done.
Qed.

Lemma set_bit_spec nr w j : 0 <= nr -> 0 <= j -> Z.testbit (zx_set_bit nr w) j = Z.testbit w j || (j =? nr).
Proof.
  intros. unfold zx_set_bit. rewrite Z.lor_spec, Z.shiftl_spec by done.
  destruct (Z.eqb_spec j nr) as [->|].
  - rewrite Z.sub_diag. by rewrite !orb_true_r.
  - destruct (Z.lt_ge_cases j nr) as [Hlt|Hge]; [by rewrite (Z.testbit_neg_r 1) by lia; destruct (Z.testbit w j)|].
    by rewrite (Z.bits_above_log2 1) by (lia || (change (Z.log2 1) with 0; lia)).
Qed.

Lemma clear_msb w : 0 < w -> 0 <= zx_clear_bit (Z.log2 w) w < 2 ^ Z.log2 w.
Proof.
  intros Hw. pose proof (Z.log2_nonneg w) as Hl. pose proof (Z.log2_spec w Hw) as Hs.
  assert (Hn : 0 <= zx_clear_bit (Z.log2 w) w) by (unfold zx_clear_bit; apply Z.ldiff_nonneg; lia).
  split; [done|]. destruct (Z.lt_ge_cases (zx_clear_bit (Z.log2 w) w) (2 ^ Z.log2 w)) as [|Hge]; [done|].
  exfalso. set (x := zx_clear_bit (Z.log2 w) w) in *.
  assert (Hx : 0 < x) by (pose proof (Z.pow_pos_nonneg 2 (Z.log2 w)); lia).
  assert (Hlx : Z.log2 w <= Z.log2 x) by (apply Z.log2_le_pow2; lia).
  pose proof (Z.bit_log2 x Hx) as Hb. unfold x in Hb at 1. rewrite clear_bit_spec in Hb by (lia || apply Z.log2_nonneg).
  destruct (Z.eqb_spec (Z.log2 x) (Z.log2 w)); [by rewrite andb_false_r in Hb|].
  rewrite Z.bits_above_log2 in Hb by lia. done.
Qed.

Definition rounds_left (bm : Z) : nat := if bm =? 0 then O else S (Z.to_nat (Z.log2 bm)).

Lemma rounds_left_clear bm : 0 < bm -> (rounds_left (zx_clear_bit (Z.log2 bm) bm) < rounds_left bm)%nat.
Proof.
  intros Hb. pose proof (clear_msb bm Hb) as [H0 Hlt]. unfold rounds_left.
  destruct (Z.eqb_spec bm 0); [lia|]. destruct (Z.eqb_spec (zx_clear_bit (Z.log2 bm) bm) 0); [lia|].
  apply Z.log2_lt_pow2 in Hlt; [|lia]. pose proof (Z.log2_nonneg (zx_clear_bit (Z.log2 bm) bm)). lia.
Qed.

(** ** Entries *)

Lemma entry_bitmap s i o : entry_ok s i o -> 0 <= bitmap o < 2 ^ 12.
Proof.
  intros (_ & _ & H0 & Hb). split; [done|]. destruct (Z.lt_ge_cases (bitmap o) (2 ^ 12)) as [|Hge]; [done|].
  assert (Hp : 0 < bitmap o) by lia. pose proof (Z.bit_log2 _ Hp) as Hl.
  specialize (Hb (Z.log2 (bitmap o)) (Z.log2_nonneg _)). rewrite Hl in Hb.
  assert (12 <= Z.log2 (bitmap o)) by (apply Z.log2_le_pow2; lia). unfold MAX_ENGINE_COUNT in Hb. lia.
Qed.

Lemma entry_evolves s s' i o : evolves s s' -> entry_ok s i o -> entry_ok s' i o.
Proof.
  intros Hev (H1 & H2 & H3 & Hb). repeat split; try done. intros j Hj. specialize (Hb j Hj).
  destruct (Z.testbit (bitmap o) j).
  - destruct Hb. split; [|done]. by eapply evolves_present.
  - intros f Hf. specialize (Hb f Hf). pose proof (evolves_returned _ _ j Hev). lia.
Qed.

(** A returned fence lets the bit go. *)
Lemma entry_clear s i o j f :
  entry_ok s i o -> 0 <= j -> rd (last_flush o) j = Ok f -> f <= returned s j ->
  entry_ok s i (set_bitmap o (zx_clear_bit j (bitmap o))).
Proof.
  intros (H1 & H2 & H3 & Hb) Hj Hf Hr. split; [done|]. split; [done|]. cbn [set_bitmap bitmap last_flush].
  split; [unfold zx_clear_bit; apply Z.ldiff_nonneg; lia|]. intros k Hk.
  rewrite clear_bit_spec by done. specialize (Hb k Hk). destruct (Z.eqb_spec k j) as [->|].
  - rewrite andb_false_r. intros f' Hf'. congruence.
  - rewrite andb_true_r. exact Hb.
Qed.

Lemma entry_idle s i o : entry_ok s i o -> bitmap o = 0 -> all_back s o.
Proof.
  intros (_ & Hl & _ & Hb) H0 j f Hf. pose proof (rd_bound _ _ _ Hf). specialize (Hb j ltac:(lia)).
  rewrite H0, Z.bits_0 in Hb. by apply Hb.
Qed.

Lemma all_back_evolves s s' o : evolves s s' -> all_back s o -> all_back s' o.
Proof. intros Hev Hb j f Hf. specialize (Hb j f Hf). pose proof (evolves_returned _ _ j Hev). lia. Qed.

(** ** Polling and waiting touch one bitmap and the fences *)

Definition entries_ok (m : vidsch_vm_id_mgr) : Prop :=
  cells_ok (fen m) /\ forall i o, rd (vm_id_array m) i = Ok o -> entry_ok (fen m) i o.

Definition touches (m m' : vidsch_vm_id_mgr) : Prop :=
  num_ids m' = num_ids m /\ reserved_num_ids m' = reserved_num_ids m /\ links m' = links m /\
  zlen (vm_id_array m') = zlen (vm_id_array m) /\
  evolves (fen m) (fen m') /\
  (forall j o, rd (vm_id_array m) j = Ok o ->
     exists b, rd (vm_id_array m') j = Ok (set_bitmap o b)).

Lemma set_bitmap_id o : set_bitmap o (bitmap o) = o.
Proof. by destruct o. Qed.

Lemma touches_refl m : touches m m.
Proof. unfold touches. conjs; try done. intros j o Ho. exists (bitmap o). by rewrite set_bitmap_id. Qed.

Lemma touches_trans a b c : touches a b -> touches b c -> touches a c.
Proof.
  intros (A1 & A2 & A3 & A4 & A5 & A6) (B1 & B2 & B3 & B4 & B5 & B6).
  unfold touches. conjs; try congruence; [by etrans|]. intros j o Ho.
  destruct (A6 j o Ho) as (b1 & Hb1). destruct (B6 _ _ Hb1) as (b2 & Hb2). by exists b2.
Qed.

#[export] Instance touches_preorder : PreOrder touches.
Proof. split; [exact touches_refl|exact touches_trans]. Qed.

(** After a poll of engine [j] of entry [i] that found its fence returned. *)
Lemma clear_one m s i o j f :
  entries_ok m -> evolves (fen m) s -> rd (vm_id_array m) i = Ok o -> 0 <= j ->
  rd (last_flush o) j = Ok f -> f <= returned s j ->
  exists a, wr (vm_id_array m) i (set_bitmap o (zx_clear_bit j (bitmap o))) = Ok a /\
    touches m (set_array (set_fen m s) a) /\ entries_ok (set_array (set_fen m s) a) /\
    rd a i = Ok (set_bitmap o (zx_clear_bit j (bitmap o))).
Proof.
  intros [Hc He] Hev Ho Hj Hf Hr. pose proof (rd_bound _ _ _ Ho) as Hi. rewrite wr_in by done.
  eexists. split; [reflexivity|].
  assert (Hrd : forall k o', rd (vm_id_array m) k = Ok o' ->
    rd (<[Z.to_nat i := set_bitmap o (zx_clear_bit j (bitmap o))]> (vm_id_array m)) k =
    Ok (if k =? i then set_bitmap o (zx_clear_bit j (bitmap o)) else o')).
  { intros k o' Ho'. pose proof (rd_bound _ _ _ Ho'). destruct (Z.eqb_spec k i) as [->|].
    - by rewrite rd_insert_eq.
    - by rewrite rd_insert_ne by lia. }
  split; [|split; [split|]].
  - unfold touches. conjs; try done; [by cbn; rewrite zlen_insert|]. intros k o' Ho'. cbn. rewrite (Hrd _ _ Ho').
    destruct (Z.eqb_spec k i) as [->|].
    + rewrite Ho in Ho'. injection Ho' as <-. by eexists.
    + exists (bitmap o'). by rewrite set_bitmap_id.
  - by eapply evolves_cells.
  - intros k o' Ho'. cbn in Ho'. pose proof (rd_bound _ _ _ Ho') as Hk. rewrite zlen_insert in Hk.
    destruct (rd_in (vm_id_array m) k Hk) as [o2 Ho2]. rewrite (Hrd _ _ Ho2) in Ho'. injection Ho' as <-.
    cbn [fen set_array set_fen]. destruct (Z.eqb_spec k i) as [->|].
    + eapply entry_clear; [|exact Hj|exact Hf|exact Hr]. eapply entry_evolves; [exact Hev|]. by apply He.
    + eapply entry_evolves; [exact Hev|]. by apply He.
  - rewrite (Hrd _ _ Ho). by rewrite Z.eqb_refl.
Qed.

(** Only the fences moved on. *)
Lemma only_fences m s : entries_ok m -> evolves (fen m) s ->
  touches m (set_fen m s) /\ entries_ok (set_fen m s).
Proof.
  intros [Hc He] Hev. split.
  - unfold touches. conjs; try done. intros j o Ho. exists (bitmap o). by rewrite set_bitmap_id.
  - split; [by eapply evolves_cells|]. intros j o Ho. eapply entry_evolves; [exact Hev|]. by apply He.
Qed.

(** The highest engine of a non-empty bitmap. *)
Lemma msb_engine s i o :
  entry_ok s i o -> bitmap o <> 0 ->
  util_get_msb_position (bitmap o) = Ok (Z.log2 (bitmap o)) /\ 0 <= Z.log2 (bitmap o) /\
  engine_present s (Z.log2 (bitmap o)) /\ exists f, rd (last_flush o) (Z.log2 (bitmap o)) = Ok f.
Proof.
  intros He Hb. pose proof (entry_bitmap _ _ _ He) as Hr. pose proof He as (_ & Hl & H0 & Hbits).
  assert (Hp : 0 < bitmap o) by lia. pose proof (Z.bit_log2 _ Hp) as Ht. pose proof (Z.log2_nonneg (bitmap o)).
  specialize (Hbits (Z.log2 (bitmap o)) ltac:(lia)). rewrite Ht in Hbits. destruct Hbits as [Hpr Hlt].
  split; [apply util_get_msb_position_spec; lia|]. split; [done|]. split; [done|].
  destruct (rd_in (last_flush o) (Z.log2 (bitmap o))) as [f Hf]; [lia|]. by exists f.
Qed.

Lemma rounds_bound s i o : entry_ok s i o -> (rounds_left (bitmap o) < 33)%nat.
Proof.
  intros He. pose proof (entry_bitmap _ _ _ He) as Hr. unfold rounds_left. destruct (Z.eqb_spec (bitmap o) 0); [lia|].
  assert (Z.log2 (bitmap o) < 12) by (apply Z.log2_lt_pow2; lia). lia.
Qed.

Lemma mask_all s i o : entry_ok s i o -> Z.land (bitmap o) (u32 (-1)) = bitmap o.
Proof.
  intros He. pose proof (entry_bitmap _ _ _ He) as Hr. change (u32 (-1)) with (Z.ones 32).
  rewrite Z.land_ones by lia. apply Z.mod_small. lia.
Qed.

Lemma is_idle_run i m :
  entries_ok m -> 0 <= i < zlen (vm_id_array m) ->
  exists b m', vidschi_is_vm_id_idle i (-1) m = Ok (b, m') /\ touches m m' /\ entries_ok m' /\
    (b = true -> forall o, rd (vm_id_array m') i = Ok o -> bitmap o = 0) /\
    (forall o, rd (vm_id_array m) i = Ok o -> bitmap o = 0 -> b = true).
Proof.
  intros Hok Hi. destruct (rd_in _ _ Hi) as [o Ho]. pose proof (proj2 Hok i o Ho) as Heo.
  unfold vidschi_is_vm_id_idle. rewrite Ho. cbn [rbind]. rewrite (mask_all _ _ _ Heo).
  match goal with |- context [iterate 33 ?body _] => destruct (iterate_rule
    (fun '(bm, t) => touches m t /\ entries_ok t /\ exists o, rd (vm_id_array t) i = Ok o /\ bitmap o = bm)
    (fun '(b, t) => touches m t /\ entries_ok t /\
       (b = true -> forall o, rd (vm_id_array t) i = Ok o -> bitmap o = 0))
    (fun '(bm, t) => rounds_left bm) 33 body (bitmap o, m)) as ([b m'] & Hrun & Ht & Hok' & Hb) end.
  - intros [bm t] (Ht & Hok' & o' & Ho' & <-). pose proof (proj2 Hok' i o' Ho') as He'.
    destruct (Z.eqb_spec (bitmap o') 0) as [Hz|Hz]; cbn [negb].
    { eexists. split; [reflexivity|]. cbn beta iota. conjs; try done. intros _ o2 Ho2. congruence. }
    destruct (msb_engine _ _ _ He' Hz) as (-> & Hj & Hpr & f & Hf). cbn [rbind]. rewrite Ho'. cbn [rbind].
    rewrite Hf. cbn [rbind].
    destruct (is_fence_back_run (Z.log2 (bitmap o')) f (fen t) (proj1 Hok') Hpr)
      as (b & s & -> & Hev & _ & Hb & _). cbn [rbind]. destruct b.
    + destruct (clear_one t s i o' _ f Hok' Hev Ho' Hj Hf ltac:(lia)) as (a & Hw & Ht2 & Hok2 & Ha).
      cbn [vm_id_array set_fen]. rewrite Hw. cbn [rbind]. eexists. split; [reflexivity|]. cbn beta iota.
      pose proof (entry_bitmap _ _ _ He'). split; [|apply rounds_left_clear; lia]. conjs; [by eapply touches_trans|done|].
      exists (set_bitmap o' (zx_clear_bit (Z.log2 (bitmap o')) (bitmap o'))). done.
    + destruct (only_fences t s Hok' Hev) as [Ht2 Hok2]. eexists. split; [reflexivity|]. cbn beta iota.
      conjs; [by eapply touches_trans|done|done].
  - conjs; [apply touches_refl|done|by exists o].
  - by eapply rounds_bound.
  - exists b, m'. split; [exact Hrun|]. split; [exact Ht|]. split; [exact Hok'|]. split; [exact Hb|].
    intros o2 [= <-] Hz.
    rewrite Hz in Hrun. cbn in Hrun. by injection Hrun as <- _.
Qed.

Lemma alive_touches m m' : touches m m' -> zlen (vm_id_array m') = zlen (vm_id_array m) -> gpu_alive m -> gpu_alive m'.
Proof.
  intros (_ & _ & _ & _ & Hev & Ha) Hz [Hs Hf]. split; [by apply Hev|]. intros i o j f Ho Hj.
  pose proof (rd_bound _ _ _ Ho) as Hi. destruct (rd_in (vm_id_array m) i) as [o0 Ho0]; [lia|].
  destruct (Ha i o0 Ho0) as [b Hb]. rewrite Ho in Hb. injection Hb as ->.
  rewrite (final_fence_evolves _ _ _ Hev). by apply (Hf i o0).
Qed.

Lemma wait_idle_run fuel i m :
  entries_ok m -> 0 <= i < zlen (vm_id_array m) -> gpu_alive m -> (length (future (fen m)) < fuel)%nat ->
  exists m', vidschi_wait_vm_id_idle fuel i (-1) m = Ok m' /\ touches m m' /\ entries_ok m' /\
    exists o, rd (vm_id_array m') i = Ok o /\ bitmap o = 0.
Proof.
  intros Hok Hi Hal Hfuel. destruct (rd_in _ _ Hi) as [o Ho]. pose proof (proj2 Hok i o Ho) as Heo.
  unfold vidschi_wait_vm_id_idle. rewrite Ho. cbn [rbind]. rewrite (mask_all _ _ _ Heo).
  match goal with |- context [iterate 33 ?body _] => destruct (iterate_rule
    (fun '(bm, t) => touches m t /\ entries_ok t /\ exists o, rd (vm_id_array t) i = Ok o /\ bitmap o = bm)
    (fun t => touches m t /\ entries_ok t /\ exists o, rd (vm_id_array t) i = Ok o /\ bitmap o = 0)
    (fun '(bm, t) => rounds_left bm) 33 body (bitmap o, m)) as (m' & Hrun & Hpost) end.
  - intros [bm t] (Ht & Hok' & o' & Ho' & <-). pose proof (proj2 Hok' i o' Ho') as He'.
    destruct (Z.eqb_spec (bitmap o') 0) as [Hz|Hz]; cbn [negb].
    { eexists. split; [reflexivity|]. cbn beta iota. split; [done|]. split; [done|]. by exists o'. }
    destruct (msb_engine _ _ _ He' Hz) as (-> & Hj & Hpr & f & Hf). cbn [rbind]. rewrite Ho'. cbn [rbind].
    rewrite Hf. cbn [rbind]. pose proof Ht as (_ & _ & _ & Hzl & Hevt & _).
    destruct (alive_touches _ _ Ht Hzl Hal) as [Hst Hft].
    destruct (wait_fence_back_run fuel (Z.log2 (bitmap o')) f (fen t)) as (s & -> & Hev & Hb); try done;
      [by apply Hok'|by apply (Hft i o')|destruct Hevt as [(_ & _ & _ & _ & _ & Hl & _) _]; lia|].
    cbn [rbind]. destruct (clear_one t s i o' _ f Hok' Hev Ho' Hj Hf Hb) as (a & Hw & Ht2 & Hok2 & Ha).
    cbn [vm_id_array set_fen]. rewrite Hw. cbn [rbind]. eexists. split; [reflexivity|]. cbn beta iota.
    pose proof (entry_bitmap _ _ _ He'). split; [|apply rounds_left_clear; lia]. split; [by etrans|]. split; [done|].
    exists (set_bitmap o' (zx_clear_bit (Z.log2 (bitmap o')) (bitmap o'))). done.
  - split; [reflexivity|]. split; [done|by exists o].
  - by eapply rounds_bound.
  - by exists m'.
Qed.

(** ** The search for an idle identifier *)

Lemma entries_range lru m i : mgr_ok lru m -> i ∈ lru -> 0 <= i < zlen (vm_id_array m).
Proof. intros (_ & Hl & Hr & Hn & Hz & _) Hi. apply Hl in Hi. lia. Qed.

Lemma mgr_touches lru m m' : touches m m' -> entries_ok m' -> mgr_ok lru m -> mgr_ok lru m'.
Proof.
  intros (T1 & T2 & T3 & T4 & T5 & _) [Hc He] (M1 & M2 & M3 & M4 & M5 & _).
  unfold mgr_ok. rewrite T1, T2, T3, T4. conjs; done.
Qed.

Lemma mgr_entries lru m : mgr_ok lru m -> entries_ok m.
Proof. intros (_ & _ & _ & _ & _ & Hc & He). by split. Qed.

Lemma lru_length lru m : mgr_ok lru m -> (length (node_of <$> lru) < S (Z.to_nat (num_ids m)))%nat /\ lru <> [].
Proof.
  intros (Hl & Hm & Hr & Hn & _). pose proof Hl as (Hnd & _). rewrite length_fmap. split.
  - apply NoDup_cons in Hnd as [_ Hnd]. apply NoDup_fmap_1 in Hnd.
    assert (Hsub : lru ⊆ (Z.of_nat <$> seq 0 (Z.to_nat (num_ids m)))).
    { intros i Hi. apply Hm in Hi. apply list_elem_of_fmap. exists (Z.to_nat i). split; [lia|].
      apply list_elem_of_In, in_seq. lia. }
    apply submseteq_length with (l1 := lru) (l2 := Z.of_nat <$> seq 0 (Z.to_nat (num_ids m))) in Hsub || 
    (apply NoDup_submseteq in Hsub; [|done]; apply submseteq_length in Hsub).
    rewrite length_fmap, length_seq in Hsub. lia.
  - intros ->. destruct (Hm 1) as [_ H]. apply elem_of_nil in H; [done|lia].
Qed.

Lemma search_run ids m :
  entries_ok m -> (forall i, i ∈ ids -> 0 <= i < zlen (vm_id_array m)) ->
  exists r, for_list (fun temp m =>
      let! '(idle, m) := vidschi_is_vm_id_idle (entry_of temp) (-1) m in
      if idle then Ok (inr (entry_of temp, m)) else Ok (inl m)) (node_of <$> ids) m = Ok r /\
    match r with
    | inl m' => touches m m' /\ entries_ok m' /\
        (forall i o, hd_error ids = Some i -> rd (vm_id_array m) i = Ok o -> bitmap o <> 0)
    | inr (i, m') => touches m m' /\ entries_ok m' /\ i ∈ ids /\
        forall o, rd (vm_id_array m') i = Ok o -> bitmap o = 0
    end.
Proof.
  revert m. induction ids as [|i ids IH]; intros m Hok Hin; cbn [for_list fmap list_fmap].
  { exists (inl m). split; [done|]. split; [reflexivity|]. by split. }
  replace (entry_of (node_of i)) with i by (unfold entry_of, node_of; lia).
  destruct (is_idle_run i m Hok) as (b & m1 & -> & Ht & Hok1 & Hb & Hb0); [apply Hin; by left|].
  cbn [rbind]. destruct b; cbn [rbind].
  - exists (inr (i, m1)). split; [done|]. split; [done|]. split; [done|]. split; [by left|]. by apply Hb.
  - pose proof Ht as (_ & _ & _ & Hz & _). destruct (IH m1) as (r & Hr & Hpost); [done| |].
    { intros j Hj. rewrite Hz. apply Hin. by right. }
    exists r. split; [exact Hr|]. destruct r as [m'|[j m']].
    + destruct Hpost as (P1 & P2 & _). split; [by etrans|]. split; [done|]. intros k o [= <-] Ho Hzero.
      specialize (Hb0 o Ho Hzero). done.
    + destruct Hpost as (P1 & P2 & P3 & P4). split; [by etrans|]. split; [done|]. split; [by right|done].
Qed.

Lemma find_idle_run fuel lru m :
  mgr_ok lru m -> gpu_alive m -> (length (future (fen m)) < fuel)%nat ->
  exists r m', find_idle_vm_id fuel m = Ok (r, m') /\ touches m m' /\ mgr_ok lru m' /\
    match r with
    | Some i => i ∈ lru /\ forall o, rd (vm_id_array m') i = Ok o -> bitmap o = 0
    | None => exists i o, hd_error lru = Some i /\ rd (vm_id_array m') i = Ok o /\ bitmap o = 0
    end.
Proof.
  intros Hm Hal Hfuel. pose proof (mgr_entries _ _ Hm) as Hok. destruct (lru_length _ _ Hm) as [Hlen Hne].
  pose proof Hm as (Hl & _). unfold find_idle_vm_id. rewrite (for_each_run _ _ _ _ _ _ Hl Hlen).
  destruct (search_run lru m Hok) as (r & -> & Hpost); [intros; by eapply entries_range|]. cbn [rbind].
  destruct r as [m1|[i m1]].
  - destruct Hpost as (Ht & Hok1 & _). pose proof (mgr_touches _ _ _ Ht Hok1 Hm) as Hm1.
    destruct lru as [|i lru]; [done|]. unfold list_first_entry. pose proof Hm1 as (Hl1 & _).
    assert (Hp : present (links m1) vm_id_list) by (eapply is_list_present; [exact Hl1|by left]).
    rewrite (get_next_run _ _ (node_of i) Hp) by (by apply is_list_next in Hl1). cbn [rbind].
    replace (entry_of (node_of i)) with i by (unfold entry_of, node_of; lia).
    pose proof Ht as (_ & _ & _ & Hz & Hev & _).
    destruct (wait_idle_run fuel i m1) as (m2 & -> & Ht2 & Hok2 & o & Ho & Hb0); try done.
    + apply (entries_range (i :: lru)); [done|by left].
    + by apply (alive_touches m).
    + destruct Hev as [(_ & _ & _ & _ & _ & Hl' & _) _]. lia.
    + cbn [rbind]. exists None, m2. split; [done|]. split; [by etrans|]. split; [by eapply mgr_touches|].
      by exists i, o.
  - destruct Hpost as (Ht & Hok1 & Hi & Hb). exists (Some i), m1. split; [done|]. split; [done|].
    split; [by eapply mgr_touches|done].
Qed.

(** When the least recently used identifier is idle, the search ends. *)
Lemma find_idle_succeeds fuel lru m i o :
  mgr_ok lru m -> hd_error lru = Some i -> rd (vm_id_array m) i = Ok o -> bitmap o = 0 ->
  exists j m', find_idle_vm_id fuel m = Ok (Some j, m') /\ touches m m' /\ mgr_ok lru m' /\
    j ∈ lru /\ forall o, rd (vm_id_array m') j = Ok o -> bitmap o = 0.
Proof.
  intros Hm Hi Ho Hb. pose proof (mgr_entries _ _ Hm) as Hok. destruct (lru_length _ _ Hm) as [Hlen Hne].
  pose proof Hm as (Hl & _). unfold find_idle_vm_id. rewrite (for_each_run _ _ _ _ _ _ Hl Hlen).
  destruct (search_run lru m Hok) as (r & -> & Hpost); [intros; by eapply entries_range|]. cbn [rbind].
  destruct r as [m1|[j m1]].
  - destruct Hpost as (_ & _ & H). exfalso. by eapply H.
  - destruct Hpost as (Ht & Hok1 & Hj & Hbj). exists j, m1. split; [done|]. split; [done|].
    split; [by eapply mgr_touches|done].
Qed.

(** Two rounds are enough: the first ends with an identifier or with the least
    recently used one idle. *)
Lemma retry_run fuel lru m :
  mgr_ok lru m -> gpu_alive m -> (length (future (fen m)) < fuel)%nat ->
  exists i m', retry_idle_vm_id 2 fuel m = Ok (i, m') /\ touches m m' /\ mgr_ok lru m' /\
    i ∈ lru /\ forall o, rd (vm_id_array m') i = Ok o -> bitmap o = 0.
Proof.
  intros Hm Hal Hfuel. unfold retry_idle_vm_id. cbn [iterate].
  destruct (find_idle_run fuel lru m Hm Hal Hfuel) as (r & m1 & -> & Ht & Hm1 & Hpost). cbn [rbind].
  destruct r as [i|]; cbn [rbind]; [by exists i, m1|].
  destruct Hpost as (i & o & Hi & Ho & Hb).
  destruct (find_idle_succeeds fuel lru m1 i o Hm1 Hi Ho Hb) as (j & m2 & -> & Ht2 & Hm2 & Hj). cbn [rbind].
  exists j, m2. split; [done|]. split; [by etrans|]. done.
Qed.

(** ** Choosing *)

Lemma mgr_set_links lru lru' m h :
  mgr_ok lru m -> is_list h vm_id_list (node_of <$> lru') -> (forall i, i ∈ lru' <-> i ∈ lru) ->
  mgr_ok lru' (set_links m h).
Proof.
  intros (M1 & M2 & M3 & M4 & M5 & M6 & M7) Hh Hs. unfold mgr_ok; cbn. conjs; try done.
  intros i. rewrite Hs. apply M2.
Qed.

(** Moving the chosen identifier to the end of the list. *)
Lemma to_tail lru m i :
  mgr_ok lru m -> i ∈ lru ->
  exists h1 h2, list_del (node_of i) (links m) = Ok h1 /\ list_add_tail (node_of i) vm_id_list h1 = Ok h2 /\
    mgr_ok (without i lru ++ [i]) (set_links m h2).
Proof.
  intros Hm Hi. pose proof Hm as (Hl & _). pose proof Hl as (Hnd & _).
  apply list_elem_of_split in Hi as (a & b & ->). apply NoDup_cons in Hnd as [Hnl Hnd].
  assert (Hab : NoDup (a ++ i :: b)) by (by apply NoDup_fmap_1 in Hnd).
  rewrite without_mid by done. rewrite fmap_app, fmap_cons in Hl.
  destruct (list_del_ok _ _ _ _ _ Hl) as (h1 & Hd & Hl1 & Hc1).
  destruct (list_add_tail_ok h1 vm_id_list (node_of <$> (a ++ b)) (node_of i)) as (h2 & Ha & Hl2 & Hc2).
  - by rewrite fmap_app.
  - rewrite fmap_app. eapply unlinked_fresh; [exact Hl|exact Hc1].
  - exists h1, h2. split; [done|]. split; [done|]. eapply mgr_set_links; [exact Hm|by rewrite fmap_app|].
    intros j. clear. set_solver.
Qed.

(** Writing an entry whose bookkeeping is in order. *)
Lemma mgr_set_entry lru m i o a :
  mgr_ok lru m -> entry_ok (fen m) i o -> wr (vm_id_array m) i o = Ok a -> mgr_ok lru (set_array m a).
Proof.
  intros (M1 & M2 & M3 & M4 & M5 & M6 & M7) He Hw. apply wr_inv in Hw as [Hi ->].
  unfold mgr_ok; cbn. rewrite zlen_insert. conjs; try done. intros j o' Ho'.
  pose proof (rd_bound _ _ _ Ho') as Hj. rewrite zlen_insert in Hj. destruct (Z.eq_dec j i) as [->|].
  - rewrite rd_insert_eq in Ho' by done. by injection Ho' as <-.
  - rewrite rd_insert_ne in Ho' by lia. by apply M7.
Qed.

Lemma entry_rebind s i o u a : entry_ok s i o -> entry_ok s i (mkVmId (vm_id o) u a (bitmap o) (last_flush o)).
Proof. by intros (? & ? & ? & ?). Qed.

(** The identifier the device still owns, or an idle one. *)
Lemma pick_run fuel lru m dev :
  mgr_ok lru m -> gpu_alive m -> (length (future (fen m)) < fuel)%nat ->
  (forall k, dev_vm_id dev = Some k -> k ∈ lru) ->
  exists i m', (let! own := owned m dev in
      match own with Some i => Ok (i, m) | None => retry_idle_vm_id 2 fuel m end) = Ok (i, m') /\
    touches m m' /\ mgr_ok lru m' /\ i ∈ lru /\
    forall o, rd (vm_id_array m) i = Ok o -> device_uuid o <> uuid dev -> all_back (fen m') o.
Proof.
  intros Hm Hal Hfuel Hown. unfold owned.
  assert (Hretry : exists i m', retry_idle_vm_id 2 fuel m = Ok (i, m') /\ touches m m' /\ mgr_ok lru m' /\ i ∈ lru /\
    forall o, rd (vm_id_array m) i = Ok o -> all_back (fen m') o).
  { destruct (retry_run fuel lru m Hm Hal Hfuel) as (i & m' & Hr & Ht & Hm' & Hi & Hb).
    exists i, m'. conjs; try done. intros o Ho. pose proof Ht as (_ & _ & _ & _ & _ & Ha).
    destruct (Ha i o Ho) as [b Hb']. specialize (Hb _ Hb').
    destruct (mgr_entries _ _ Hm') as [_ He]. exact (entry_idle _ _ _ (He _ _ Hb') Hb). }
  destruct (dev_vm_id dev) as [k|] eqn:E; cbn [rbind].
  - destruct (rd_in (vm_id_array m) k) as [o Ho]; [apply (entries_range lru); auto|]. rewrite Ho. cbn [rbind].
    destruct (Z.eqb_spec (device_uuid o) (uuid dev)) as [Hu|Hu].
    + exists k, m. split; [done|]. split; [reflexivity|]. split; [done|]. split; [by apply Hown|]. intros o' Ho' Hne. congruence.
    + destruct Hretry as (i & m' & -> & Ht & Hm' & Hi & Hb). exists i, m'. conjs; try done. intros o' Ho' _. by apply Hb.
  - destruct Hretry as (i & m' & -> & Ht & Hm' & Hi & Hb). exists i, m'. conjs; try done. intros o' Ho' _. by apply Hb.
Qed.

Lemma choose_004_run fuel lru m dev :
  mgr_ok lru m -> gpu_alive m -> (length (future (fen m)) < fuel)%nat ->
  (forall k, dev_vm_id dev = Some k -> k ∈ lru) ->
  exists i m' o o', vidschi_choose_vm_id_004 2 fuel false dev m =
      Ok (i, mkDevice (uuid dev) (Some i) (root_pd_age dev), m') /\
    mgr_ok (without i lru ++ [i]) m' /\ i ∈ lru /\ evolves (fen m) (fen m') /\
    rd (vm_id_array m) i = Ok o /\ rd (vm_id_array m') i = Ok o' /\ device_uuid o' = uuid dev /\
    (device_uuid o <> uuid dev -> all_back (fen m') o /\ pd_age o' = 0).
Proof.
  intros Hm Hal Hfuel Hown. unfold vidschi_choose_vm_id_004. cbn [rbind].
  destruct (pick_run fuel lru m dev Hm Hal Hfuel Hown) as (i & m1 & -> & Ht & Hm1 & Hi & Hback). cbn [rbind].
  assert (Hi0 : 0 < i) by (destruct Hm as (_ & H & Hr & _); apply H in Hi; lia).
  destruct (Z.eqb_spec i 0); [lia|]. cbn [negb].
  destruct (to_tail _ _ _ Hm1 Hi) as (h1 & h2 & -> & Ha & Hm2). cbn [rbind]. rewrite Ha. cbn [rbind].
  pose proof (entries_range _ _ _ Hm Hi) as Hrange. destruct (rd_in _ _ Hrange) as [o Ho].
  pose proof Ht as (_ & _ & _ & Hz & Hev & Harr). destruct (Harr i o Ho) as [b Hb].
  cbn [vm_id_array set_links]. rewrite Hb. cbn [rbind set_bitmap device_uuid vm_id bitmap last_flush].
  destruct (negb (bool_decide (dev_vm_id dev = Some i)) || negb (device_uuid o =? uuid dev)) eqn:E.
  - rewrite wr_in by (cbn; lia). cbn [rbind]. eexists i, _, o, _. split; [reflexivity|].
    split; [|split; [done|split; [exact Hev|split; [exact Ho|split]]]].
    + eapply mgr_set_entry; [exact Hm2| |by apply wr_in; cbn; lia].
      destruct (mgr_entries _ _ Hm1) as [_ He]. exact (entry_rebind _ _ _ _ _ (He _ _ Hb)).
    + cbn [vm_id_array set_array set_links]. apply rd_insert_eq. lia.
    + split; [done|]. intros Hne. split; [by apply Hback|done].
  - apply orb_false_iff in E as [E1 E2]. apply negb_false_iff in E1, E2. apply bool_decide_eq_true in E1.
    apply Z.eqb_eq in E2. exists i, (set_links m1 h2), o, (set_bitmap o b). split.
    { destruct dev as [u d r]. cbn in *. by rewrite E1. }
    split; [exact Hm2|]. split; [done|]. split; [exact Hev|]. split; [exact Ho|]. split; [exact Hb|]. split; [exact E2|]. done.
Qed.

(** Recording a fence for an entry. *)
Lemma add_sync_run lru m i o fence_id engine_idx :
  mgr_ok lru m -> rd (vm_id_array m) i = Ok o -> engine_present (fen m) engine_idx -> engine_idx < MAX_ENGINE_COUNT ->
  exists m' o', vidschi_vm_id_add_sync i fence_id engine_idx m = Ok m' /\ mgr_ok lru m' /\ fen m' = fen m /\
    zlen (vm_id_array m') = zlen (vm_id_array m) /\
    rd (vm_id_array m') i = Ok o' /\ rd (last_flush o') engine_idx = Ok fence_id /\
    vm_id o' = vm_id o /\ device_uuid o' = device_uuid o /\ pd_age o' = pd_age o.
Proof.
  intros Hm Ho Hpr Hlt. destruct (mgr_entries _ _ Hm) as [_ He]. pose proof (He _ _ Ho) as (Hid & Hl & H0 & Hbits).
  pose proof (present_range _ _ Hpr) as Her. pose proof (rd_bound _ _ _ Ho) as Hib.
  unfold vidschi_vm_id_add_sync. rewrite Ho. cbn [rbind]. rewrite wr_in by lia. cbn [rbind]. rewrite wr_in by done. cbn [rbind].
  eexists _, _. split; [reflexivity|]. split; [|split; [done|split; [cbn; by rewrite zlen_insert|split]]].
  - eapply mgr_set_entry; [exact Hm| |by apply wr_in].
    split; [done|]. split; [cbn [last_flush]; by rewrite zlen_insert|]. cbn [bitmap last_flush].
    split; [unfold zx_set_bit; apply Z.lor_nonneg; split; [done|by apply Z.shiftl_nonneg]|]. intros j Hj.
    rewrite set_bit_spec by lia. specialize (Hbits j Hj). destruct (Z.eqb_spec j engine_idx) as [->|].
    + rewrite orb_true_r. done.
    + rewrite orb_false_r. destruct (Z.testbit (bitmap o) j); [done|]. intros f. rewrite rd_insert_ne by lia. apply Hbits.
  - cbn [vm_id_array set_array]. by apply rd_insert_eq.
  - cbn. split; [apply rd_insert_eq; lia|done].
Qed.

Lemma choose_run fuel lru m dev fence_id engine_idx :
  mgr_ok lru m -> gpu_alive m -> (length (future (fen m)) < fuel)%nat ->
  (forall k, dev_vm_id dev = Some k -> k ∈ lru) -> engine_present (fen m) engine_idx -> engine_idx < MAX_ENGINE_COUNT ->
  exists i m' o o', vidsch_choose_vm_id 2 fuel false dev fence_id engine_idx m =
      Ok (i, i, mkDevice (uuid dev) (Some i) (root_pd_age dev), m') /\
    mgr_ok (without i lru ++ [i]) m' /\ i ∈ lru /\ evolves (fen m) (fen m') /\
    rd (vm_id_array m) i = Ok o /\ rd (vm_id_array m') i = Ok o' /\ device_uuid o' = uuid dev /\
    rd (last_flush o') engine_idx = Ok fence_id /\
    (device_uuid o <> uuid dev -> all_back (fen m') o /\ pd_age o' = 0).
Proof.
  intros Hm Hal Hfuel Hown Hpr Hlt.
  destruct (choose_004_run fuel lru m dev Hm Hal Hfuel Hown) as (i & m1 & o & o1 & Hrun & Hm1 & Hi & Hev & Ho & Ho1 & Hu & Hre).
  destruct (mgr_entries _ _ Hm1) as [_ He]. pose proof (He _ _ Ho1) as (Hid & _).
  unfold vidsch_choose_vm_id. rewrite Hrun. cbn [rbind]. rewrite Ho1. cbn [rbind].
  destruct (add_sync_run _ _ _ _ fence_id engine_idx Hm1 Ho1) as (m2 & o2 & -> & Hm2 & Hf & _ & Ho2 & Hlf & _ & Hu2 & Ha2);
    [by eapply evolves_present|done|]. cbn [rbind]. exists i, m2, o, o2. rewrite Hid, Hf. conjs; try done; [congruence|].
  intros Hne. rewrite Ha2. by apply Hre.
Qed.

(** The reserved device always gets identifier 0. *)
Lemma choose_reserved_run fuel lru m dev fence_id engine_idx :
  mgr_ok lru m -> engine_present (fen m) engine_idx -> engine_idx < MAX_ENGINE_COUNT ->
  exists m' dev', vidsch_choose_vm_id 2 fuel true dev fence_id engine_idx m = Ok (0, 0, dev', m') /\
    mgr_ok lru m' /\ fen m' = fen m /\ dev_vm_id dev' = Some 0 /\ root_pd_age dev' = root_pd_age dev.
Proof.
  intros Hm Hpr Hlt. pose proof Hm as (_ & _ & _ & Hn & Hz & _ & He).
  destruct (rd_in (vm_id_array m) 0) as [o Ho]; [lia|]. pose proof (He _ _ Ho) as (Hid & _).
  assert (Hrun : exists m1 dev' o1, vidschi_choose_vm_id_004 2 fuel true dev m = Ok (0, dev', m1) /\ mgr_ok lru m1 /\ fen m1 = fen m /\
    rd (vm_id_array m1) 0 = Ok o1 /\ vm_id o1 = 0 /\ dev_vm_id dev' = Some 0 /\ root_pd_age dev' = root_pd_age dev).
  { unfold vidschi_choose_vm_id_004. cbn [rbind Z.eqb negb]. rewrite Ho. cbn [rbind].
    destruct (negb (bool_decide (dev_vm_id dev = Some 0)) || negb (device_uuid o =? uuid dev)) eqn:E.
    - rewrite wr_in by lia. cbn [rbind]. eexists _, _, _. split; [reflexivity|]. split; [|split; [done|split]].
      + eapply mgr_set_entry; [exact Hm| |by apply wr_in; lia]. apply (entry_rebind _ _ o). by apply He.
      + cbn [vm_id_array set_array]. apply rd_insert_eq. lia.
      + done.
    - apply orb_false_iff in E as [E1 _]. apply negb_false_iff, bool_decide_eq_true in E1. by exists m, dev, o. }
  destruct Hrun as (m1 & dev' & o1 & Hr & Hm1 & Hf1 & Ho1 & Hid1 & Hd & Ha). unfold vidsch_choose_vm_id. rewrite Hr. cbn [rbind].
  rewrite Ho1. cbn [rbind]. destruct (add_sync_run _ _ _ _ fence_id engine_idx Hm1 Ho1) as (m2 & o2 & -> & Hm2 & Hf2 & _);
    [by rewrite Hf1|done|]. cbn [rbind]. exists m2, dev'. rewrite Hid1. conjs; try done. congruence.
Qed.

(** The age of the page table an identifier has. *)
Lemma set_age_run lru m i o a : mgr_ok lru m -> rd (vm_id_array m) i = Ok o ->
  exists arr, wr (vm_id_array m) i (mkVmId (vm_id o) (device_uuid o) a (bitmap o) (last_flush o)) = Ok arr /\ mgr_ok lru (set_array m arr).
Proof.
  intros Hm Ho. pose proof (rd_bound _ _ _ Ho) as Hb. rewrite wr_in by done. eexists. split; [reflexivity|].
  eapply mgr_set_entry; [exact Hm| |by apply wr_in]. destruct (mgr_entries _ _ Hm) as [_ He].
  exact (entry_rebind _ _ _ _ _ (He _ _ Ho)).
Qed.

(** C7. Every task of a device gets an identifier, at the latest after one
    wait, if the GPU finally returns the fences it was given: the identifier is
    recorded as the device's and as last used, and the new fence for it. If it
    was another device's before, every task that used it is done by then, on
    every engine, and the page table of the device is set before the task. *)
Theorem choose_vm_id_isolates fuel lru m dev fence_id engine_idx utlb dtlb :
  mgr_ok lru m -> gpu_alive m -> (length (future (fen m)) < fuel)%nat ->
  (forall k, dev_vm_id dev = Some k -> k ∈ lru) -> 1 <= root_pd_age dev ->
  engine_present (fen m) engine_idx -> engine_idx < MAX_ENGINE_COUNT ->
  exists i m' o o', let dev' := mkDevice (uuid dev) (Some i) (root_pd_age dev) in
    vidsch_choose_vm_id 2 fuel false dev fence_id engine_idx m = Ok (i, i, dev', m') /\
    mgr_ok (without i lru ++ [i]) m' /\
    rd (vm_id_array m) i = Ok o /\ rd (vm_id_array m') i = Ok o' /\
    device_uuid o' = uuid dev /\ rd (last_flush o') engine_idx = Ok fence_id /\
    (device_uuid o <> uuid dev -> all_back (fen m') o /\ needs_page_table_set false o' dev' utlb dtlb = true).
Proof.
  intros Hm Hal Hfuel Hown Hage Hpr Hlt.
  destruct (choose_run fuel lru m dev fence_id engine_idx Hm Hal Hfuel Hown Hpr Hlt)
    as (i & m' & o & o' & Hrun & Hm' & Hi & Hev & Ho & Ho' & Hu & Hlf & Hre).
  exists i, m', o, o'. cbn beta zeta. conjs; try done. intros Hne. destruct (Hre Hne) as [Hb Hp]. split; [exact Hb|].
  unfold needs_page_table_set. cbn [root_pd_age pd_age]. rewrite Hp. destruct (Z.leb_spec (root_pd_age dev) 0); [lia|done].
Qed.

(** ** The initial state *)

Definition init_array : list zx_vm_id_obj :=
  (fun i : nat => mkVmId (Z.of_nat i) 0 0 0 (replicate 12 0)) <$> seq 0 16.
Definition init_lru : list Z := Z.of_nat <$> seq 1 15.
Definition init_links : heap :=
  match vidschi_init_vm_id_mgr None (mkFences [] [] false [] []) with Ok m => links m | Err _ => ∅ end.

Lemma init_run s : vidschi_init_vm_id_mgr None s = Ok (mkMgrVm 16 1 init_array init_links s).
Proof. vm_compute. reflexivity. Qed.

Lemma init_lookup i o : rd init_array i = Ok o -> exists k : nat, i = Z.of_nat k /\ o = mkVmId i 0 0 0 (replicate 12 0).
Proof.
  intros [Hi Ho]%rd_inv. unfold init_array in Ho. rewrite list_lookup_fmap in Ho.
  destruct (seq 0 16 !! Z.to_nat i) as [k|] eqn:E; [|done]. injection Ho as <-.
  apply lookup_seq in E as [-> _]. exists (Z.to_nat i). split; [lia|]. f_equal. lia.
Qed.

Lemma zero_flush j f : rd (replicate 12 0) j = Ok f -> f = 0.
Proof. by intros [_ [-> _]%lookup_replicate]%rd_inv. Qed.

Lemma init_entry s i o : (forall j, 0 <= returned s j) -> rd init_array i = Ok o -> entry_ok s i o.
Proof.
  intros Hret (k & Hk & ->)%init_lookup. split; [done|]. split; [done|]. split; [done|]. intros j Hj.
  cbn [bitmap last_flush]. rewrite Z.bits_0. intros f ->%zero_flush. apply Hret.
Qed.

Lemma init_ok s : cells_ok s -> (forall j, 0 <= returned s j) -> mgr_ok init_lru (mkMgrVm 16 1 init_array init_links s).
Proof.
  intros Hc Hret. unfold mgr_ok; cbn [links reserved_num_ids num_ids vm_id_array fen].
  split; [split; [by_decision|split; [by_decision|]]; by vm_compute|].
  split; [|split; [done|split; [done|split; [done|split; [done|]]]]].
  - intros i. unfold init_lru. rewrite list_elem_of_fmap. split.
    + intros (k & -> & [? ?]%list_elem_of_In%in_seq). lia.
    + intros Hi. exists (Z.to_nat i). split; [lia|]. apply list_elem_of_In, in_seq. lia.
  - intros i o Ho. by apply init_entry.
Qed.

(** The first task of a device, on the one engine of [demo_fences]. *)
Lemma choose_vm_id_isolates_witness : exists i m' o o',
  let dev' := mkDevice 7 (Some i) 1 in
  vidsch_choose_vm_id 2 2 false (mkDevice 7 None 1) 5 0 (mkMgrVm 16 1 init_array init_links (demo_fences [[5; 0]])) =
    Ok (i, i, dev', m') /\
  mgr_ok (without i init_lru ++ [i]) m' /\
  rd init_array i = Ok o /\ rd (vm_id_array m') i = Ok o' /\ device_uuid o' = 7 /\
  rd (last_flush o') 0 = Ok 5 /\
  (device_uuid o <> 7 -> all_back (fen m') o /\ needs_page_table_set false o' dev' false false = true).
Proof.
  apply (choose_vm_id_isolates 2 init_lru (mkMgrVm 16 1 init_array init_links (demo_fences [[5; 0]]))
    (mkDevice 7 None 1) 5 0 false false).
  - apply init_ok; [apply demo_cells; repeat constructor|]. intros j.
    destruct (Z.eq_dec j 0) as [->|Hj]; [done|]. destruct (demo_fields j Hj) as [Hr _].
    change (returned (demo_fences [[5; 0]]) j) with (returned (demo_fences []) j). lia.
  - split; [apply demo_sound; repeat constructor; by exists 5|]. intros i o j f Ho Hf.
    apply init_lookup in Ho as (k & _ & ->). apply zero_flush in Hf as ->.
    unfold final_fence. cbn [fen demo_fences fence_cells future final_cells].
    destruct (rd [5; 0] j) as [v|] eqn:E; [|done]. pose proof (rd_bound _ _ _ E) as Hb. unfold zlen in Hb; cbn in Hb.
    assert (j = 0 \/ j = 1) as [-> | ->] by lia; vm_compute in E; by injection E as <-.
  - cbn. lia.
  - done.
  - cbn. lia.
  - eexists. reflexivity.
  - done.
Defined.
