(* ===== verification/ListRings.v ===== *)
(** * Several lists in one heap

    The lists of [core/util/list.h] that share a heap: a finite map from the
    heads to the sequences of nodes, no node being in two lists. Each lemma
    says what one operation of [ListHead] does to the whole map; the clients
    (the task queues) need no other fact about pointers. *)
From S2P Require Import Prelude.
From stdpp Require Import gmap.
From S2P Require Import ListHead.
Local Open Scope Z_scope.

(** The heap holds the lists of [R], and they are disjoint. *)
Definition rings (h : heap) (R : gmap Z (list Z)) : Prop :=
  (forall l xs, R !! l = Some xs -> is_list h l xs) /\
  (forall l xs m ys a, R !! l = Some xs -> R !! m = Some ys -> a ∈ l :: xs -> a ∈ m :: ys -> l = m).

(** A node of no list. *)
Definition unlinked (R : gmap Z (list Z)) (a : Z) : Prop :=
  forall l xs, R !! l = Some xs -> a ∉ l :: xs.

Lemma rings_list h R l xs : rings h R -> R !! l = Some xs -> is_list h l xs.
Proof. intros [H _]. apply H. Qed.

Lemma rings_present h R l xs a : rings h R -> R !! l = Some xs -> a ∈ l :: xs -> present h a.
Proof. intros HR Hl. eapply is_list_present. by eapply rings_list. Qed.

(** One list changes, nodes of no list may come in. *)
Lemma rings_change h h' R S l xs ys :
  rings h R -> R !! l = Some xs -> only_changes S h h' -> is_list h' l ys ->
  (forall a, a ∈ S -> a ∈ l :: xs \/ unlinked R a) -> (forall a, a ∈ ys -> a ∈ xs \/ unlinked R a) ->
  rings h' (<[l := ys]> R).
Proof.
  intros [HR Hd] Hl Hc Hl' HS Hys.
  assert (Hin : forall m zs a, m <> l -> R !! m = Some zs -> a ∈ m :: zs -> a ∉ l :: ys).
  { intros m zs a Hm Hz Ha [->|Hy]%elem_of_cons.
    - apply Hm. eapply Hd; [exact Hz|exact Hl|exact Ha|by left].
    - destruct (Hys _ Hy) as [Hx|Hu]; [|by eapply Hu].
      apply Hm. eapply Hd; [exact Hz|exact Hl|exact Ha|by right]. }
  split.
  - intros m zs. destruct (decide (m = l)) as [->|Hm]; [rewrite lookup_insert_eq; by intros [= <-]|].
    rewrite lookup_insert_ne by done. intros Hz. eapply is_list_frame; [by apply HR|exact Hc|].
    intros a Ha Has. destruct (HS _ Has) as [Hx|Hu]; [|by eapply Hu].
    apply Hm. by eapply Hd.
  - intros m zs n ws a. destruct (decide (m = l)) as [->|Hm], (decide (n = l)) as [->|Hn]; [done|..];
      rewrite ?lookup_insert_eq, ?lookup_insert_ne by done.
    + intros [= <-] Hw Ha Ha'. exfalso. by eapply (Hin n ws).
    + intros Hz [= <-] Ha Ha'. exfalso. by eapply (Hin m zs).
    + apply Hd.
Qed.

Lemma unlinked_fresh_in h R l xs a :
  rings h R -> R !! l = Some xs -> present h a -> unlinked R a -> fresh h l xs a.
Proof. intros _ Hl Hp Hu. split; [done|by eapply Hu]. Qed.

Lemma rings_list_add_tail h R l xs a :
  rings h R -> R !! l = Some xs -> present h a -> unlinked R a ->
  exists h', list_add_tail a l h = Ok h' /\ rings h' (<[l := xs ++ [a]]> R) /\
             (forall b, present h' b <-> present h b).
Proof.
  intros HR Hl Hp Hu.
  destruct (list_add_tail_ok h l xs a) as (h' & Hr & Hl' & Hc);
    [by eapply rings_list|by eapply unlinked_fresh_in|].
  exists h'. split; [done|]. split; [|apply Hc].
  eapply rings_change; [done|done|exact Hc|done| |]; intros b Hb; pose proof (last_in xs l).
  - destruct (decide (b = a)) as [->|]; [by right|left; set_solver].
  - destruct (decide (b = a)) as [->|]; [by right|left; set_solver].
Qed.

Lemma rings_list_add h R l xs a :
  rings h R -> R !! l = Some xs -> present h a -> unlinked R a ->
  exists h', list_add a l h = Ok h' /\ rings h' (<[l := a :: xs]> R) /\
             (forall b, present h' b <-> present h b).
Proof.
  intros HR Hl Hp Hu.
  destruct (list_add_ok h l xs a) as (h' & Hr & Hl' & Hc);
    [by eapply rings_list|by eapply unlinked_fresh_in|].
  exists h'. split; [done|]. split; [|apply Hc].
  eapply rings_change; [done|done|exact Hc|done| |]; intros b Hb; pose proof (hd_in xs l).
  - destruct (decide (b = a)) as [->|]; [by right|left; set_solver].
  - destruct (decide (b = a)) as [->|]; [by right|left; set_solver].
Qed.

(** The removed node is in no list afterwards. *)
Lemma rings_list_del h R l xs a ys :
  rings h R -> R !! l = Some (xs ++ a :: ys) ->
  exists h', list_del a h = Ok h' /\ rings h' (<[l := xs ++ ys]> R) /\
             unlinked (<[l := xs ++ ys]> R) a /\ (forall b, present h' b <-> present h b).
Proof.
  intros HR Hl. pose proof (rings_list _ _ _ _ HR Hl) as Hil. pose proof Hil as (Hnd & _).
  destruct (list_del_ok h l xs a ys Hil) as (h' & Hr & Hl' & Hc).
  exists h'. split; [done|]. split; [|split; [|apply Hc]].
  - eapply rings_change; [done|done|exact Hc|done| |]; intros b Hb; left;
      pose proof (last_in xs l); pose proof (hd_in ys l); clear HR Hc; set_solver.
  - intros m zs. destruct (decide (m = l)) as [->|Hm].
    + rewrite lookup_insert_eq. intros [= <-]. clear -Hnd. nodup.
    + rewrite lookup_insert_ne by done. intros Hz Ha. apply Hm. destruct HR as [_ Hd].
      eapply Hd; [exact Hz|exact Hl|exact Ha|]. right. apply elem_of_app. right. by left.
Qed.

Lemma rings_nodup h R l xs m ys :
  rings h R -> R !! l = Some xs -> R !! m = Some ys -> l <> m -> NoDup ((l :: xs) ++ m :: ys).
Proof.
  intros HR Hl Hm Hlm. apply NoDup_app. split; [by eapply rings_list|]. split; [|by eapply rings_list].
  intros a Ha Ha'. apply Hlm. destruct HR as [_ Hd]. by eapply Hd.
Qed.

Lemma rings_list_splice_init h R l xs m ys :
  rings h R -> R !! l = Some xs -> R !! m = Some ys -> l <> m ->
  exists h', list_splice_init m l h = Ok h' /\ rings h' (<[m := []]> (<[l := ys ++ xs]> R)) /\
             (forall b, present h' b <-> present h b).
Proof.
  intros HR Hl Hm Hlm. pose proof (rings_nodup _ _ _ _ _ _ HR Hl Hm Hlm) as Hnd.
  destruct (list_splice_init_ok h l xs m ys) as (h' & Hr & Hl' & Hm' & Hc); [by eapply rings_list..|done|].
  exists h'. split; [done|]. split; [|apply Hc]. destruct HR as [HR Hd].
  assert (Hin : forall n zs a, n <> l -> n <> m -> R !! n = Some zs -> a ∈ n :: zs -> a ∉ m :: l :: xs ++ ys).
  { intros n zs a Hnl Hnm Hz Ha [->|[->|[Hx|Hy]%elem_of_app]%elem_of_cons]%elem_of_cons.
    - apply Hnm. eapply Hd; [exact Hz|exact Hm|exact Ha|by left].
    - apply Hnl. eapply Hd; [exact Hz|exact Hl|exact Ha|by left].
    - apply Hnl. eapply Hd; [exact Hz|exact Hl|exact Ha|by right].
    - apply Hnm. eapply Hd; [exact Hz|exact Hm|exact Ha|by right]. }
  assert (Hcase : forall n zs, <[m := []]> (<[l := ys ++ xs]> R) !! n = Some zs ->
    n = m /\ zs = [] \/ n = l /\ zs = ys ++ xs \/ n <> l /\ n <> m /\ R !! n = Some zs).
  { intros n zs. rewrite !lookup_insert. repeat case_decide; naive_solver. }
  split.
  - intros n zs [[-> ->]|[[-> ->]|(Hnl & Hnm & Hz)]]%Hcase; [done|done|].
    eapply is_list_frame; [by apply HR|exact Hc|]. intros a Ha. by eapply (Hin n).
  - assert (Hlist : forall a, a ∈ [m] -> a ∉ l :: ys ++ xs).
    { intros a ->%list_elem_of_singleton Ha. clear -Hnd Ha. members. naive_solver. }
    intros n zs n' zs' a [[-> ->]|[[-> ->]|(Hnl & Hnm & Hz)]]%Hcase [[-> ->]|[[-> ->]|(Hnl' & Hnm' & Hz')]]%Hcase Ha Ha';
      try done.
    7: by eapply Hd.
    all: exfalso.
    + by eapply Hlist.
    + eapply (Hin n'); [..|exact Ha'|]; [done..|]. clear -Ha. set_solver.
    + by eapply Hlist.
    + eapply (Hin n'); [..|exact Ha'|]; [done..|]. clear -Ha. set_solver.
    + eapply (Hin n); [..|exact Ha|]; [done..|]. clear -Ha'. set_solver.
    + eapply (Hin n); [..|exact Ha|]; [done..|]. clear -Ha'. set_solver.
Qed.

Lemma init_head_run h a : present h a -> list_init_head a h = Ok (<[a := mkNode a a]> h).
Proof.
  intros Hp. unfold list_init_head. rewrite set_prev_run by done. cbn [rbind].
  rewrite set_next_run by by apply present_upd_prev. unfold upd_next, upd_prev. f_equal. apply map_eq. intros b.
  destruct Hp as [_ [n Hn]]. destruct (decide (b = a)) as [->|].
  - by rewrite !lookup_alter_eq, !lookup_insert_eq, Hn.
  - by rewrite !lookup_alter_ne, !lookup_insert_ne by done.
Qed.

(** A list head in new memory, or one that is initialised again. *)
Lemma rings_new h R a :
  rings h R -> a <> 0 -> unlinked R a \/ R !! a = Some [] ->
  exists h', list_init_head a (<[a := mkNode 0 0]> h) = Ok h' /\ rings h' (<[a := []]> R) /\
             (forall b, present h' b <-> b = a \/ present h b).
Proof.
  intros [HR Hd] Ha Hnew.
  assert (Hout : forall l xs b, l <> a -> R !! l = Some xs -> b ∈ l :: xs -> b <> a).
  { intros l xs b Hl Hx Hb ->. destruct Hnew as [Hu|He]; [by eapply Hu|].
    apply Hl. eapply Hd; [exact Hx|exact He|exact Hb|by left]. }
  assert (Hp : present (<[a := mkNode 0 0]> h) a) by (split; [done|]; rewrite lookup_insert_eq; by eexists).
  exists (<[a := mkNode a a]> h). split; [|split].
  - rewrite init_head_run by done. by rewrite insert_insert_eq.
  - split.
    + intros l xs. destruct (decide (l = a)) as [->|Hl].
      * rewrite lookup_insert_eq. intros [= <-]. split; [nodup|]. split; [set_solver|].
        split; unfold nxt, prv; by rewrite lookup_insert_eq.
      * rewrite lookup_insert_ne by done. intros Hx. pose proof (HR _ _ Hx) as (Hnd & H0 & Hpath).
        split; [done|]. split; [done|]. eapply path_frame; [exact Hpath| |]; intros b Hb; unfold nxt, prv;
          rewrite lookup_insert_ne; try done; apply not_eq_sym; eapply Hout; try done. set_solver.
    + intros l xs m ys b. rewrite !lookup_insert.
      destruct (decide (a = l)) as [<-|Hl], (decide (a = m)) as [<-|Hm]; [done|..].
      * intros [= <-] Hy ->%list_elem_of_singleton Hb. exfalso. by eapply (Hout m).
      * intros Hx [= <-] Hb ->%list_elem_of_singleton. exfalso. by eapply (Hout l).
      * apply Hd.
  - intros b. unfold present. destruct (decide (b = a)) as [->|].
    + rewrite lookup_insert_eq. split; [by left|]. intros _. split; [done|by eexists].
    + rewrite lookup_insert_ne by done. naive_solver.
Qed.

Lemma rings_delete h R l : rings h R -> rings h (delete l R).
Proof.
  intros [HR Hd]. split.
  - intros m xs [_ Hx]%lookup_delete_Some. by apply HR.
  - intros m xs n ys a [_ Hx]%lookup_delete_Some [_ Hy]%lookup_delete_Some. by apply Hd.
Qed.

(** New memory elsewhere changes no list. *)
Lemma rings_new_node h R a n : rings h R -> unlinked R a -> rings (<[a := n]> h) R.
Proof.
  intros [HR Hd] Hu. split; [|done]. intros l xs Hx. pose proof (HR _ _ Hx) as (Hnd & H0 & Hpath).
  split; [done|]. split; [done|].
  eapply path_frame; [exact Hpath| |]; intros b Hb; unfold nxt, prv; rewrite lookup_insert_ne; try done;
    intros ->; eapply Hu; try done. set_solver.
Qed.

(** Initialising a node that was allocated before. *)
Lemma rings_init h R a :
  rings h R -> present h a -> unlinked R a ->
  exists h', list_init_head a h = Ok h' /\ rings h' (<[a := []]> R) /\ (forall b, present h' b <-> present h b).
Proof.
  intros HR Hp Hu. destruct (rings_new h R a HR (proj1 Hp) (or_introl Hu)) as (h' & Hr & HR' & Hp').
  exists h'. split; [|split; [done|]].
  - rewrite <- Hr. rewrite !init_head_run; [by rewrite insert_insert_eq| |done].
    split; [apply Hp|]. rewrite lookup_insert_eq. by eexists.
  - intros b. rewrite Hp'. naive_solver.
Qed.

(** A node that is no head of a list the clients follow. *)
Lemma rings_init_node h R a :
  rings h R -> present h a -> unlinked R a ->
  exists h', list_init_head a h = Ok h' /\ rings h' R /\ (forall b, present h' b <-> present h b).
Proof.
  intros HR Hp Hu. destruct (rings_init h R a HR Hp Hu) as (h' & Hr & HR' & Hp').
  exists h'. split; [done|]. split; [|done].
  apply (rings_delete _ _ a) in HR'. rewrite delete_insert_id in HR'; [done|].
  destruct (R !! a) eqn:E; [|done]. exfalso. eapply Hu; [exact E|by left].
Qed.

(** Freed memory that no list uses. *)
Lemma rings_free_node h R a : rings h R -> unlinked R a -> rings (delete a h) R.
Proof.
  intros [HR Hd] Hu. split; [|done]. intros l xs Hx. pose proof (HR _ _ Hx) as (Hnd & H0 & Hpath).
  split; [done|]. split; [done|].
  eapply path_frame; [exact Hpath| |]; intros b Hb; unfold nxt, prv; rewrite lookup_delete_ne; try done;
    intros <-; eapply Hu; try done. set_solver.
Qed.
