(* ===== verification/ListSafe.v ===== *)
(** * The iterator that allows its element to be freed

    [list_for_each_entry_safe] of [core/util/list.h] over a heap that the body may
    change, and the rule for the bodies that take their element out of the list. *)
From S2P Require Import Prelude ListHead.
From stdpp Require Import gmap.
Local Open Scope Z_scope.

(** One round: [pos] is the element, [storage] the next one, loaded before the body
    runs. The heap is a part of the state [s]. *)
Definition safe_round {S B} (nodes : S -> heap) (head : Z) (body : Z -> S -> res (S + B)) (x : Z * Z * S)
  : res (Z * Z * S + (S + B)) :=
  let '(pos, storage, s) := x in
  if negb (pos =? head) then
    let! r := body pos s in
    match r with
    | inl s => let! storage' := get_next (nodes s) storage in Ok (inl (storage, storage', s))
    | inr b => Ok (inr (inr b))
    end
  else Ok (inr (inl s)).
Definition list_for_each_safe {S B} (fuel : nat) (nodes : S -> heap) (head : Z) (body : Z -> S -> res (S + B)) (s : S)
  : res (S + B) :=
  let! pos := get_next (nodes s) head in
  let! storage := get_next (nodes s) pos in
  iterate fuel (safe_round nodes head body) (pos, storage, s).

(** The loop over the sequence [xs]. *)
Fixpoint drain {S B} (body : Z -> S -> res (S + B)) (xs : list Z) (s : S) : res (S + B) :=
  match xs with
  | [] => Ok (inl s)
  | x :: xs => let! r := body x s in match r with inl s => drain body xs s | inr b => Ok (inr b) end
  end.

Lemma list_head_next h head xs : is_list h head xs -> get_next h head = Ok (hd head xs).
Proof.
  intros Hl. apply get_next_run; [|by apply is_list_next]. eapply is_list_present; [exact Hl|by left].
Qed.

Lemma list_node_next h head pre x xs : is_list h head (pre ++ x :: xs) -> get_next h x = Ok (hd head xs).
Proof.
  intros Hl. apply get_next_run.
  - eapply is_list_present; [exact Hl|]. right. apply elem_of_app. right. by left.
  - destruct Hl as (_ & _ & Hp). apply path_app in Hp as [_ Hp]. by eapply path_first.
Qed.

(** The element after the first one. *)
Definition second (head : Z) (xs : list Z) : Z := hd head (tail xs).

Lemma second_next h head xs : is_list h head xs ->
  exists n, get_next h (hd head xs) = Ok n /\ (xs <> [] -> n = second head xs).
Proof.
  intros Hl. destruct xs as [|y l]; cbn [hd].
  - eexists. split; [by apply list_head_next|done].
  - exists (hd head l). split; [by apply (list_node_next _ _ [])|done].
Qed.

(** A body that removes its element and leaves the rest of the list as it is, in the
    states of [I], runs once for each element, in order. *)
Lemma safe_loop {S B} (I : list Z -> S -> Prop) (nodes : S -> heap) head (body : Z -> S -> res (S + B)) :
  (forall xs s, I xs s -> is_list (nodes s) head xs) ->
  (forall x xs s, I (x :: xs) s -> forall s', body x s = Ok (inl s') -> I xs s') ->
  forall xs n storage s, I xs s -> (length xs < n)%nat -> (xs <> [] -> storage = second head xs) ->
  iterate n (safe_round nodes head body) (hd head xs, storage, s) = drain body xs s.
Proof.
  intros HI Hbody xs. induction xs as [|x xs IH]; intros [|n] storage s Hs Hn Hst; cbn [length] in Hn; try lia;
    cbn [iterate drain]; unfold safe_round at 1; cbn [hd].
  - rewrite Z.eqb_refl. done.
  - destruct (HI _ _ Hs) as (Hnd & _). apply NoDup_cons in Hnd as [Hhd _].
    destruct (Z.eqb_spec x head) as [->|_]; [exfalso; apply Hhd; by left|]. cbn [negb].
    destruct (body x s) as [[s'|b]|f] eqn:Hb; cbn [rbind]; [|done|done].
    pose proof (Hbody _ _ _ Hs _ Hb) as Hs'. destruct (second_next _ _ _ (HI _ _ Hs')) as (n' & Hn' & Hsec).
    rewrite Hst by done. unfold second. cbn [tail]. rewrite Hn'. cbn [rbind]. by apply IH; [|lia|].
Qed.

Lemma list_for_each_safe_run {S B} (I : list Z -> S -> Prop) fuel (nodes : S -> heap) head (body : Z -> S -> res (S + B)) xs s :
  (forall xs s, I xs s -> is_list (nodes s) head xs) ->
  (forall x xs s, I (x :: xs) s -> forall s', body x s = Ok (inl s') -> I xs s') ->
  I xs s -> (length xs < fuel)%nat -> list_for_each_safe fuel nodes head body s = drain body xs s.
Proof.
  intros HI Hbody Hs Hfuel. pose proof (HI _ _ Hs) as Hl. unfold list_for_each_safe.
  rewrite (list_head_next _ _ _ Hl). cbn [rbind]. destruct (second_next _ _ _ Hl) as (n & -> & Hsec). cbn [rbind].
  by apply (safe_loop I).
Qed.

(** A body that never leaves early empties the list. *)
Lemma list_for_each_safe_drains {S B} (I : list Z -> S -> Prop) fuel (nodes : S -> heap) head (body : Z -> S -> res (S + B)) xs s :
  (forall xs s, I xs s -> is_list (nodes s) head xs) ->
  (forall x xs s, I (x :: xs) s -> exists s', body x s = Ok (inl s') /\ I xs s') ->
  I xs s -> (length xs < fuel)%nat -> exists s', list_for_each_safe fuel nodes head body s = Ok (inl s') /\ I [] s'.
Proof.
  intros HI Hbody Hs Hfuel. rewrite (list_for_each_safe_run I) with (xs := xs); try done.
  - clear Hfuel fuel. revert s Hs. induction xs as [|x xs IH]; intros s Hs; cbn [drain]; [by exists s|].
    destruct (Hbody _ _ _ Hs) as (s' & -> & Hs'). by apply IH.
  - intros x ys t Ht t' Hb. destruct (Hbody _ _ _ Ht) as (t2 & Hb2 & Ht2). congruence.
Qed.
