(* ===== verification/TaskQueue.v ===== *)
(** * Task queues

    [core/vidsch/vidsch_task_queue.c] and the queue handling of
    [core/vidsch/vidsch.c] and [core/vidsch/vidsch_workerthread.c]: a pool of
    queues, each a list of tasks with a semaphore that bounds it, a flag that
    says whether the pool lists it as active, and a reference count. The locked
    sections of the code are single definitions here, so that [Worker] can
    interleave them. *)
From S2P Require Import Prelude.
From stdpp Require Import gmap.
From S2P Require Import ListHead ListRings.
Local Open Scope Z_scope.

(** [vidsch_task_queue_t] without its list nodes, which live in the heap; [sema]
    is the count of the semaphore and [pooled] says that [pool] is set (there is
    one pool). *)
Record vidsch_task_queue := mkQueue
  { refcount : Z; priority : Z; active : Z; last_active : Z; task_num : Z; max_num : Z;
    sema : Z; pooled : bool }.
#[export] Instance eta_queue : Eta vidsch_task_queue := fun q =>
  mkQueue (refcount q) (priority q) (active q) (last_active q) (task_num q) (max_num q) (sema q) (pooled q).

(** The heap of the list nodes, the queues by their [id] (a freed one is
    [None]), the fields of [vidsch_task_queue_pool_t] and [sch_mgr->current]. *)
Record sched := mkSched
  { links : heap; queues : list (option vidsch_task_queue); queue_num : Z; max_priority : Z; current : Z }.
#[export] Instance eta_sched : Eta sched := fun s =>
  mkSched (links s) (queues s) (queue_num s) (max_priority s) (current s).

(** ** Addresses

    The nodes of queue [i], of task [t] and of the pool, and the worker's list
    on its stack. The addresses are apart, which is all that is used. *)
Definition task_list (i : Z) : Z := 8 * i + 1.
Definition active_link (i : Z) : Z := 8 * i + 2.
Definition link (i : Z) : Z := 8 * i + 3.
Definition active_list (p : Z) : Z := 8 * p + 4.
Definition schedule_node (t : Z) : Z := 8 * t + 5.
Definition local_list : Z := 6.
Definition queue_list : Z := 7.

(** [container_of] from a node to its queue or task. *)
Definition queue_of_active (a : Z) : Z := (a - 2) / 8.
Definition queue_of_link (a : Z) : Z := (a - 3) / 8.
Definition task_of (a : Z) : Z := (a - 5) / 8.

(** A node of memory that was just zeroed. *)
Definition zero_node : list_head := mkNode 0 0.
Definition new_node (a : Z) (h : heap) : heap := <[a := zero_node]> h.

Definition get_queue (i : Z) (s : sched) : res vidsch_task_queue :=
  let! o := rd (queues s) i in deref o.
Definition put_queue (i : Z) (q : vidsch_task_queue) (s : sched) : res sched :=
  let! qs := wr (queues s) i (Some q) in Ok (s <| queues := qs |>).
Definition with_links (f : heap -> res heap) (s : sched) : res sched :=
  let! h := f (links s) in Ok (s <| links := h |>).

(** [zx_atomic_cmpxchg]: the old value and the new one. *)
Definition zx_atomic_cmpxchg (v old new : Z) : Z * Z := (v, if v =? old then new else v).

(** ** Queues *)

Definition vidsch_task_queue_alloc (max_num priority : Z) (s : sched) : res (Z * sched) :=
  let i := zlen (queues s) in
  let q := mkQueue 1 priority 0 0 0 (u32 max_num) max_num false in
  let h := new_node (task_list i) (new_node (link i) (new_node (active_link i) (links s))) in
  let! h := list_init_head (task_list i) h in
  let! h := list_init_head (link i) h in
  let! h := list_init_head (active_link i) h in
  Ok (i, s <| links := h |> <| queues ::= (fun qs => qs ++ [Some q]) |>).

Definition vidsch_task_queue_get (i : Z) (s : sched) : res sched :=
  let! q := get_queue i s in put_queue i (q <| refcount ::= Z.add 1 |>) s.

Definition vidsch_task_queue_release (i : Z) (s : sched) : res sched :=
  let! q := get_queue i s in
  let n := refcount q - 1 in
  if n =? 0 then
    let! qs := wr (queues s) i None in
    Ok (s <| queues := qs |>
          <| links ::= (fun h => delete (task_list i) (delete (link i) (delete (active_link i) h))) |>)
  else put_queue i (q <| refcount := n |>) s.

Definition vidsch_task_queue_try_deactive (i now : Z) (s : sched) : res sched :=
  let! e := list_empty (task_list i) (links s) in
  let! q := get_queue i s in
  if e && (2000000000 <? u64 (now - last_active q)) then
    let '(old, new) := zx_atomic_cmpxchg (active q) 1 0 in
    let! s := put_queue i (q <| active := new |>) s in
    if old =? 1 then with_links (list_del (active_link i)) s else Ok s
  else Ok s.

(** [vidsch_task_queue_add] in the steps other threads can come between:
    [zx_down] ([None]: the caller sleeps), the section under the queue's lock,
    the exchange of the flag and the section under the pool's mutex. *)
Definition vidsch_task_queue_add_down (i : Z) (s : sched) : res (option sched) :=
  let! q := get_queue i s in
  if 0 <? sema q then
    let! s := put_queue i (q <| sema ::= fun v => v - 1 |>) s in Ok (Some s)
  else Ok None.

Definition vidsch_task_queue_add_link (i t : Z) (s : sched) : res sched :=
  let! s := with_links (list_add_tail (schedule_node t) (task_list i)) s in
  let! q := get_queue i s in
  put_queue i (q <| task_num ::= fun n => u32 (n + 1) |>) s.

Definition vidsch_task_queue_add_flag (i : Z) (s : sched) : res (bool * sched) :=
  let! q := get_queue i s in
  let '(old, new) := zx_atomic_cmpxchg (active q) 0 1 in
  let! s := put_queue i (q <| active := new |>) s in
  Ok (old =? 0, s).

Definition vidsch_task_queue_add_activate (i : Z) (s : sched) : res sched :=
  let! q := get_queue i s in
  if pooled q then with_links (list_add_tail (active_link i) (active_list (priority q))) s
  else Err NullDeref.

Definition vidsch_task_queue_add (i t : Z) (s : sched) : res (option sched) :=
  let! o := vidsch_task_queue_add_down i s in
  match o with
  | None => Ok None
  | Some s =>
      let! s := vidsch_task_queue_add_link i t s in
      let! '(first, s) := vidsch_task_queue_add_flag i s in
      if first then let! s := vidsch_task_queue_add_activate i s in Ok (Some s) else Ok (Some s)
  end.

(** ** The pool *)

Definition vidsch_task_queue_pool_alloc (max_priority : Z) : res sched :=
  let h := new_node queue_list ∅ in
  let! h := list_init_head queue_list h in
  let! h := for_up (Z.to_nat (max_priority + 1)) 0
    (fun i h => list_init_head (active_list i) (new_node (active_list i) h)) h in
  Ok (mkSched h [] 0 max_priority 0).

Definition vidsch_task_queue_pool_add (i : Z) (s : sched) : res sched :=
  let! s := vidsch_task_queue_get i s in
  let! q := get_queue i s in
  let p := if priority q <? 0 then 0 else if max_priority s <? priority q then max_priority s else priority q in
  let! s := put_queue i (q <| priority := p |> <| pooled := true |>) s in
  let! s := with_links (list_add_tail (link i) queue_list) s in
  Ok (s <| queue_num ::= fun n => u32 (n + 1) |>).

Definition vidsch_task_queue_pool_remove (i : Z) (s : sched) : res sched :=
  let! s := with_links (list_del (link i)) s in
  let s := s <| queue_num ::= fun n => u32 (n - 1) |> in
  let! q := get_queue i s in
  let '(old, new) := zx_atomic_cmpxchg (active q) 1 0 in
  let! s := put_queue i (q <| active := new |>) s in
  let! s := if old =? 1 then with_links (list_del (active_link i)) s else Ok s in
  let! q := get_queue i s in
  put_queue i (q <| pooled := false |>) s.

(** [vidsch_task_queue_pool_release] without the pool's own memory; one round
    per queue. *)
Definition vidsch_task_queue_pool_release (fuel : nat) (s : sched) : res sched :=
  iterate fuel
    (fun s =>
       let! e := list_empty queue_list (links s) in
       if negb e then
         let! a := list_first_entry queue_list (links s) in
         let! s := with_links (list_del (link (queue_of_link a))) s in
         let! s := vidsch_task_queue_release (queue_of_link a) s in Ok (inl s)
       else Ok (inr s)) s.

(** ** The queue of a context ([vidsch.c]) *)

(** [vidsch_init_task_queue]: the queue the context gets. *)
Definition vidsch_init_task_queue (engine_schedule : bool) (ctx_priority : Z) (s : sched) : res (option Z * sched) :=
  if engine_schedule then
    let! r := list_for_each (S (Z.to_nat (queue_num s))) queue_list (links s)
      (fun a (s : sched) =>
         let! q := get_queue (queue_of_link a) s in
         if priority q =? ctx_priority then
           let! s := vidsch_task_queue_get (queue_of_link a) s in Ok (inr (queue_of_link a, s))
         else Ok (inl s)) s in
    match r with inr (i, s) => Ok (Some i, s) | inl s => Ok (None, s) end
  else
    let! '(i, s) := vidsch_task_queue_alloc 32 ctx_priority s in
    let! s := vidsch_task_queue_pool_add i s in
    Ok (Some i, s).

(** [vidsch_deinit_task_queue], the part of [context->task_queue]. *)
Definition vidsch_deinit_task_queue (engine_schedule : bool) (task_queue : option Z) (s : sched) : res sched :=
  match task_queue with
  | None => Ok s
  | Some i =>
      let! s :=
        if engine_schedule then Ok s
        else let! q := get_queue i s in
             if pooled q then vidsch_task_queue_pool_remove i s else Ok s in
      vidsch_task_queue_release i s
  end.

(** ** The worker's handling of one queue ([vidschi_try_submit_task_queue]) *)

(** The section that takes all waiting tasks to the worker's own list. *)
Definition try_submit_take (i : Z) (s : sched) : res sched :=
  with_links (fun h =>
    let! h := list_init_head local_list (new_node local_list h) in
    list_splice_init (task_list i) local_list h) s.

(** One round of the loop, [n] tasks having been submitted: [can] is the answer
    of [vidschi_can_prepare_dma_task] (a task that is not of the type
    [task_type_render] is dropped with an error). The result says whether the
    loop goes on, the new [n] and the task that left the list. *)
Definition try_submit_next (render : Z -> bool) (i : Z) (can : bool) (n : Z) (s : sched)
  : res (bool * Z * option Z * sched) :=
  let! e := list_empty local_list (links s) in
  if negb e then
    let! a := list_first_entry local_list (links s) in
    let t := task_of a in
    let! s := with_links (list_del a) s in
    if (if render t then can else true) then
      let! q := get_queue i s in
      let! s := put_queue i (q <| sema ::= Z.add 1 |>) s in
      Ok (true, n + 1, Some t, s)
    else
      let! s := with_links (list_add a local_list) s in Ok (false, n, None, s)
  else Ok (false, n, None, s).

(** The section that puts the rest back in front of what came meanwhile. *)
Definition try_submit_back (i n : Z) (s : sched) : res sched :=
  let! s := with_links (list_splice_init local_list (task_list i)) s in
  let! q := get_queue i s in
  let q := q <| task_num ::= fun m => u32 (m - n) |> in
  let! e := list_empty (task_list i) (links s) in
  let q := if (0 <? n) || negb e then q <| last_active := current s |> else q in
  put_queue i q s.
