(* ===== verification/TaskLists.v ===== *)
(** * The lists of a task queue pool

    What the heap of [TaskQueue] holds, in terms of task and queue numbers: the
    tasks waiting in each queue, the queues listed as active at each priority,
    the queues of the pool and the tasks the worker has taken. Each lemma gives
    the effect of one list operation of the code on these sequences. *)
From S2P Require Import Prelude.
From stdpp Require Import gmap functions.
From S2P Require Import ListHead ListRings TaskQueue.
Local Open Scope Z_scope.

Record contents := mkContents
  { waiting : Z -> list Z; listed : Z -> list Z; members : list Z; taken : option (list Z) }.
#[export] Instance eta_contents : Eta contents := fun g =>
  mkContents (waiting g) (listed g) (members g) (taken g).

(** The lists in the heap: the head [l] and the nodes [xs]. *)
Definition ring_of (n max : Z) (g : contents) (l : Z) (xs : list Z) : Prop :=
  (exists i, 0 <= i < n /\ l = task_list i /\ xs = schedule_node <$> waiting g i) \/
  (exists p, 0 <= p <= max /\ l = active_list p /\ xs = active_link <$> listed g p) \/
  (l = queue_list /\ xs = link <$> members g) \/
  (l = local_list /\ exists ts, taken g = Some ts /\ xs = schedule_node <$> ts).

(** The heap holds the lists of a pool with [n] queues and the priorities up to [max]. *)
Definition holds (h : heap) (n max : Z) (g : contents) : Prop :=
  exists R, rings h R /\ forall l xs, R !! l = Some xs <-> ring_of n max g l xs.

(** Addresses are apart. *)
Ltac addresses := unfold task_list, active_link, link, active_list, schedule_node, local_list, queue_list in *; lia.

#[export] Instance schedule_node_inj : Inj (=) (=) schedule_node.
Proof. intros x y H. addresses. Qed.
#[export] Instance active_link_inj : Inj (=) (=) active_link.
Proof. intros x y H. addresses. Qed.
#[export] Instance link_inj : Inj (=) (=) link.
Proof. intros x y H. addresses. Qed.

Lemma task_of_node t : task_of (schedule_node t) = t.
Proof. unfold task_of, schedule_node. dlia. Qed.
Lemma queue_of_active_node i : queue_of_active (active_link i) = i.
Proof. unfold queue_of_active, active_link. dlia. Qed.
Lemma queue_of_link_node i : queue_of_link (link i) = i.
Proof. unfold queue_of_link, link. dlia. Qed.

(** Case analysis on [ring_of]. *)
Ltac rings_of H :=
  let i := fresh "j" in let Hi := fresh "Hj" in let ts := fresh "us" in let Ht := fresh "Hus" in
  destruct H as [(i & Hi & -> & ->)|[(i & Hi & -> & ->)|[[-> ->]|(-> & ts & Ht & ->)]]].

Lemma ring_of_fun n max g l xs ys : ring_of n max g l xs -> ring_of n max g l ys -> xs = ys.
Proof.
  intros H1 H2. unfold ring_of in *.
  destruct H1 as [(i & Hi & E & ->)|[(i & Hi & E & ->)|[[E ->]|(E & ts & Ht & ->)]]], H2 as
    [(j & Hj & E' & ->)|[(j & Hj & E' & ->)|[[E' ->]|(E' & us & Hu & ->)]]]; subst l; try addresses.
  - by replace j with i by addresses.
  - by replace j with i by addresses.
  - done.
  - congruence.
Qed.

Lemma holds_list h n max g l xs : holds h n max g -> ring_of n max g l xs -> is_list h l xs.
Proof. intros (R & HR & Hm) Hl. eapply rings_list; [exact HR|by apply Hm]. Qed.

Lemma holds_present h n max g l xs a :
  holds h n max g -> ring_of n max g l xs -> a ∈ l :: xs -> present h a.
Proof. intros H Hl. eapply is_list_present. by eapply holds_list. Qed.

(** One list changes. *)
Lemma holds_set h R l ys n max g n' max' g' :
  (forall m zs, R !! m = Some zs <-> ring_of n max g m zs) -> rings h (<[l := ys]> R) -> ring_of n' max' g' l ys ->
  (forall m zs, m <> l -> ring_of n max g m zs <-> ring_of n' max' g' m zs) -> holds h n' max' g'.
Proof.
  intros Hm HR Hl Ho. exists (<[l := ys]> R). split; [done|]. intros m zs.
  destruct (decide (m = l)) as [->|Hne].
  - rewrite lookup_insert_eq. split; [by intros [= <-]|]. intros H. f_equal. by eapply ring_of_fun.
  - rewrite lookup_insert_ne by done. by rewrite Hm, Ho.
Qed.

(** Where the node of a task or of a queue is linked. *)
Lemma task_unlinked n max g R t :
  (forall m zs, R !! m = Some zs <-> ring_of n max g m zs) -> 0 <= t ->
  (forall i, 0 <= i < n -> t ∉ waiting g i) -> (forall ts, taken g = Some ts -> t ∉ ts) ->
  unlinked R (schedule_node t).
Proof.
  intros Hm Ht Hw Hta l xs Hl Hin. apply Hm in Hl. rings_of Hl; apply elem_of_cons in Hin as [?|(u & E & Hu)%list_elem_of_fmap];
    try addresses; apply (inj schedule_node) in E as ->; [by eapply Hw|by eapply Hta].
Qed.

Lemma active_unlinked n max g R i :
  (forall m zs, R !! m = Some zs <-> ring_of n max g m zs) ->
  (forall p, 0 <= p <= max -> i ∉ listed g p) -> unlinked R (active_link i).
Proof.
  intros Hm Hw l xs Hl Hin. apply Hm in Hl. rings_of Hl; apply elem_of_cons in Hin as [?|(u & E & Hu)%list_elem_of_fmap];
    try addresses. apply (inj active_link) in E as ->. by eapply Hw.
Qed.

Lemma member_unlinked n max g R i :
  (forall m zs, R !! m = Some zs <-> ring_of n max g m zs) -> i ∉ members g -> unlinked R (link i).
Proof.
  intros Hm Hw l xs Hl Hin. apply Hm in Hl. rings_of Hl; apply elem_of_cons in Hin as [?|(u & E & Hu)%list_elem_of_fmap];
    try addresses. by apply (inj link) in E as ->.
Qed.

(** The lists other than the changed one are the same. *)
Lemma ring_of_waiting n max g i (ts : list Z) m zs : m <> task_list i ->
  ring_of n max g m zs <-> ring_of n max (g <| waiting ::= <[i := ts]> |>) m zs.
Proof.
  intros Hm. unfold ring_of; cbn. split; intros [(j & Hj & -> & ->)|H]; try (by right);
    left; exists j; (split; [done|]; split; [done|]); by rewrite fn_lookup_insert_ne by congruence.
Qed.
Lemma ring_of_listed n max g p (qs : list Z) m zs : m <> active_list p ->
  ring_of n max g m zs <-> ring_of n max (g <| listed ::= <[p := qs]> |>) m zs.
Proof.
  intros Hm. unfold ring_of; cbn. split; intros [H|[(j & Hj & -> & ->)|H]]; try (by left); try (by right; right);
    right; left; exists j; (split; [done|]; split; [done|]); by rewrite fn_lookup_insert_ne by congruence.
Qed.
Lemma ring_of_members n max g qs m zs : m <> queue_list ->
  ring_of n max g m zs <-> ring_of n max (g <| members := qs |>) m zs.
Proof. intros Hm. unfold ring_of; cbn. naive_solver. Qed.
Lemma ring_of_taken n max g o m zs : m <> local_list ->
  ring_of n max g m zs <-> ring_of n max (g <| taken := o |>) m zs.
Proof. intros Hm. unfold ring_of; cbn. naive_solver. Qed.

Lemma ring_waiting n max g i : 0 <= i < n -> ring_of n max g (task_list i) (schedule_node <$> waiting g i).
Proof. intros. left. by exists i. Qed.
Lemma ring_listed n max g p : 0 <= p <= max -> ring_of n max g (active_list p) (active_link <$> listed g p).
Proof. intros. right; left. by exists p. Qed.
Lemma ring_members n max g : ring_of n max g queue_list (link <$> members g).
Proof. right; right; left. done. Qed.
Lemma ring_taken n max g ts : taken g = Some ts -> ring_of n max g local_list (schedule_node <$> ts).
Proof. intros. right; right; right. split; [done|]. by exists ts. Qed.

(** ** The list operations of the code *)

Lemma holds_add_task h n max g i t :
  holds h n max g -> 0 <= i < n -> 0 <= t -> present h (schedule_node t) ->
  (forall j, 0 <= j < n -> t ∉ waiting g j) -> (forall ts, taken g = Some ts -> t ∉ ts) ->
  exists h', list_add_tail (schedule_node t) (task_list i) h = Ok h' /\
    holds h' n max (g <| waiting ::= <[i := waiting g i ++ [t]]> |>) /\
    (forall b, present h' b <-> present h b).
Proof.
  intros (R & HR & Hm) Hi Ht Hp Hw Hl.
  destruct (rings_list_add_tail h R (task_list i) (schedule_node <$> waiting g i) (schedule_node t))
    as (h' & Hr & HR' & Hp'); [done|by apply Hm, ring_waiting|done|by eapply task_unlinked|].
  exists h'. split; [done|]. split; [|done]. eapply holds_set; [exact Hm|exact HR'| |].
  - left. exists i. split; [done|]. split; [done|]. cbn. by rewrite fn_lookup_insert, fmap_app.
  - intros. by apply ring_of_waiting.
Qed.

Lemma holds_add_active h n max g p i :
  holds h n max g -> 0 <= p <= max -> present h (active_link i) ->
  (forall p, 0 <= p <= max -> i ∉ listed g p) ->
  exists h', list_add_tail (active_link i) (active_list p) h = Ok h' /\
    holds h' n max (g <| listed ::= <[p := listed g p ++ [i]]> |>) /\
    (forall b, present h' b <-> present h b).
Proof.
  intros (R & HR & Hm) Hp Hpr Hw.
  destruct (rings_list_add_tail h R (active_list p) (active_link <$> listed g p) (active_link i))
    as (h' & Hr & HR' & Hp'); [done|by apply Hm, ring_listed|done|by eapply active_unlinked|].
  exists h'. split; [done|]. split; [|done]. eapply holds_set; [exact Hm|exact HR'| |].
  - right; left. exists p. split; [done|]. split; [done|]. cbn. by rewrite fn_lookup_insert, fmap_app.
  - intros. by apply ring_of_listed.
Qed.

Lemma holds_add_member h n max g i :
  holds h n max g -> present h (link i) -> i ∉ members g ->
  exists h', list_add_tail (link i) queue_list h = Ok h' /\
    holds h' n max (g <| members := members g ++ [i] |>) /\ (forall b, present h' b <-> present h b).
Proof.
  intros (R & HR & Hm) Hp Hi.
  destruct (rings_list_add_tail h R queue_list (link <$> members g) (link i))
    as (h' & Hr & HR' & Hp'); [done|apply Hm, ring_members|done|by eapply member_unlinked|].
  exists h'. split; [done|]. split; [|done]. eapply holds_set; [exact Hm|exact HR'| |].
  - right; right; left. split; [done|]. cbn. by rewrite fmap_app.
  - intros. by apply ring_of_members.
Qed.

Lemma holds_del_active h n max g p i xs ys :
  holds h n max g -> 0 <= p <= max -> listed g p = xs ++ i :: ys ->
  exists h', list_del (active_link i) h = Ok h' /\
    holds h' n max (g <| listed ::= <[p := xs ++ ys]> |>) /\ (forall b, present h' b <-> present h b).
Proof.
  intros (R & HR & Hm) Hp Hl.
  destruct (rings_list_del h R (active_list p) (active_link <$> xs) (active_link i) (active_link <$> ys))
    as (h' & Hr & HR' & _ & Hp'); [done| |].
  { apply Hm. rewrite <- fmap_cons, <- fmap_app, <- Hl. by apply ring_listed. }
  exists h'. split; [done|]. split; [|done]. eapply holds_set; [exact Hm|exact HR'| |].
  - right; left. exists p. split; [done|]. split; [done|]. cbn. by rewrite fn_lookup_insert, fmap_app.
  - intros. by apply ring_of_listed.
Qed.

Lemma holds_del_member h n max g i xs ys :
  holds h n max g -> members g = xs ++ i :: ys ->
  exists h', list_del (link i) h = Ok h' /\ holds h' n max (g <| members := xs ++ ys |>) /\
    (forall b, present h' b <-> present h b).
Proof.
  intros (R & HR & Hm) Hl.
  destruct (rings_list_del h R queue_list (link <$> xs) (link i) (link <$> ys)) as (h' & Hr & HR' & _ & Hp'); [done| |].
  { apply Hm. rewrite <- fmap_cons, <- fmap_app, <- Hl. apply ring_members. }
  exists h'. split; [done|]. split; [|done]. eapply holds_set; [exact Hm|exact HR'| |].
  - right; right; left. split; [done|]. cbn. by rewrite fmap_app.
  - intros. by apply ring_of_members.
Qed.

Lemma holds_del_taken h n max g t ts :
  holds h n max g -> taken g = Some (t :: ts) ->
  exists h', list_del (schedule_node t) h = Ok h' /\ holds h' n max (g <| taken := Some ts |>) /\
    (forall b, present h' b <-> present h b).
Proof.
  intros (R & HR & Hm) Ht.
  destruct (rings_list_del h R local_list [] (schedule_node t) (schedule_node <$> ts))
    as (h' & Hr & HR' & _ & Hp'); [done|by apply Hm; apply (ring_taken _ _ _ (t :: ts))|].
  exists h'. split; [done|]. split; [|done]. eapply holds_set; [exact Hm|exact HR'| |].
  - by apply ring_taken.
  - intros. by apply ring_of_taken.
Qed.

Lemma holds_add_taken h n max g t ts :
  holds h n max g -> taken g = Some ts -> 0 <= t -> present h (schedule_node t) ->
  (forall i, 0 <= i < n -> t ∉ waiting g i) -> t ∉ ts ->
  exists h', list_add (schedule_node t) local_list h = Ok h' /\ holds h' n max (g <| taken := Some (t :: ts) |>) /\
    (forall b, present h' b <-> present h b).
Proof.
  intros (R & HR & Hm) Ht H0 Hp Hw Hin.
  destruct (rings_list_add h R local_list (schedule_node <$> ts) (schedule_node t))
    as (h' & Hr & HR' & Hp'); [done|by apply Hm, ring_taken|done| |].
  { eapply task_unlinked; [done..|]. congruence. }
  exists h'. split; [done|]. split; [|done]. eapply holds_set; [exact Hm|exact HR'| |].
  - by apply (ring_taken _ _ _ (t :: ts)).
  - intros. by apply ring_of_taken.
Qed.

(** *** The worker's list *)

Lemma fixed_unlinked n max g R a :
  (forall m zs, R !! m = Some zs <-> ring_of n max g m zs) -> a = local_list -> taken g = None -> unlinked R a.
Proof.
  intros Hm -> Ht l xs Hl Hin. apply Hm in Hl.
  rings_of Hl; apply elem_of_cons in Hin as [?|(u & E & Hu)%list_elem_of_fmap]; try addresses. congruence.
Qed.

(** Two lists change. *)
Lemma holds_splice h R l ys m n max g g' :
  (forall k zs, R !! k = Some zs <-> ring_of n max g k zs) -> rings h (<[m := []]> (<[l := ys]> R)) -> m <> l ->
  ring_of n max g' m [] -> ring_of n max g' l ys ->
  (forall k zs, k <> l -> k <> m -> ring_of n max g k zs <-> ring_of n max g' k zs) -> holds h n max g'.
Proof.
  intros Hm HR Hml Hrm Hrl Ho. exists (<[m := []]> (<[l := ys]> R)). split; [done|]. intros k zs.
  rewrite !lookup_insert. destruct (decide (m = k)) as [E|Hk], (decide (l = k)) as [E'|Hk']; try congruence; subst.
  - split; [by intros [= <-]|]. intros H. f_equal. by eapply ring_of_fun.
  - split; [by intros [= <-]|]. intros H. f_equal. by eapply ring_of_fun.
  - rewrite Hm. by apply Ho; apply not_eq_sym.
Qed.

Lemma holds_new_local h n max g :
  holds h n max g -> taken g = None ->
  exists h', list_init_head local_list (new_node local_list h) = Ok h' /\
    holds h' n max (g <| taken := Some [] |>) /\ (forall b, present h b -> present h' b).
Proof.
  intros (R & HR & Hm) Ht.
  destruct (rings_new h R local_list HR) as (h' & Hr & HR' & Hp'); [done|left; by eapply fixed_unlinked|].
  exists h'. split; [done|]. split; [|intros b; rewrite Hp'; by right].
  eapply holds_set; [exact Hm|exact HR'|by apply (ring_taken _ _ _ [])|].
  intros. by apply ring_of_taken.
Qed.

Lemma holds_take h n max g i :
  holds h n max g -> taken g = Some [] -> 0 <= i < n ->
  exists h', list_splice_init (task_list i) local_list h = Ok h' /\
    holds h' n max (g <| waiting ::= <[i := []]> |> <| taken := Some (waiting g i) |>) /\
    (forall b, present h' b <-> present h b).
Proof.
  intros (R & HR & Hm) Ht Hi.
  destruct (rings_list_splice_init h R local_list [] (task_list i) (schedule_node <$> waiting g i))
    as (h' & Hr & HR' & Hp'); [done|by apply Hm, (ring_taken _ _ _ [])|by apply Hm, ring_waiting|addresses|].
  exists h'. split; [done|]. split; [|done]. rewrite app_nil_r in HR'.
  eapply holds_splice; [exact Hm|exact HR'|addresses| | |].
  - left. exists i. cbn. by rewrite fn_lookup_insert.
  - by apply ring_taken.
  - intros k zs H1 H2. rewrite (ring_of_waiting _ _ _ i []) by done. by apply ring_of_taken.
Qed.

Lemma holds_back h n max g i ts :
  holds h n max g -> taken g = Some ts -> 0 <= i < n ->
  exists h', list_splice_init local_list (task_list i) h = Ok h' /\
    holds h' n max (g <| waiting ::= <[i := ts ++ waiting g i]> |> <| taken := None |>) /\
    (forall b, present h' b <-> present h b).
Proof.
  intros (R & HR & Hm) Ht Hi.
  destruct (rings_list_splice_init h R (task_list i) (schedule_node <$> waiting g i) local_list (schedule_node <$> ts))
    as (h' & Hr & HR' & Hp'); [done|by apply Hm, ring_waiting|by apply Hm, ring_taken|addresses|].
  exists h'. split; [done|]. split; [|done]. rewrite <- fmap_app in HR'.
  set (g1 := g <| waiting ::= <[i := ts ++ waiting g i]> |> <| taken := Some [] |>).
  assert (H1 : holds h' n max g1).
  { eapply holds_splice; [exact Hm|exact HR'|addresses| | |].
    - by apply (ring_taken _ _ _ []).
    - left. exists i. cbn. by rewrite fn_lookup_insert.
    - intros k zs Hk1 Hk2. rewrite (ring_of_waiting _ _ _ i (ts ++ waiting g i)) by done. by apply ring_of_taken. }
  destruct H1 as (R1 & HR1 & Hm1). exists (delete local_list R1). split; [by apply rings_delete|].
  intros l xs. rewrite lookup_delete_Some, Hm1. unfold ring_of, g1; cbn. split.
  - intros [Hl [H|[H|[H|[-> _]]]]]; by auto.
  - intros [(j & Hj & -> & ->)|[(p & Hp & -> & ->)|[[-> ->]|(-> & us & [=] & _)]]]; (split; [addresses|]); eauto 10.
Qed.

(** *** New tasks and queues *)

Lemma holds_new_task h n max g t :
  holds h n max g -> 0 <= t -> (forall i, 0 <= i < n -> t ∉ waiting g i) -> (forall ts, taken g = Some ts -> t ∉ ts) ->
  holds (new_node (schedule_node t) h) n max g.
Proof.
  intros (R & HR & Hm) Ht Hw Hl. exists R. split; [|done]. apply rings_new_node; [done|]. by eapply task_unlinked.
Qed.

Lemma present_new_node h a b : present (new_node a h) b <-> (b = a /\ a <> 0) \/ present h b.
Proof.
  unfold present, new_node. destruct (decide (b = a)) as [->|Hb].
  - rewrite lookup_insert_eq. split; [intros [? _]; by left|intros [[_ ?]|[? _]]; (split; [done|by eexists])].
  - rewrite lookup_insert_ne by done. naive_solver.
Qed.

Lemma queue_unlinked n max g R i :
  (forall m zs, R !! m = Some zs <-> ring_of n max g m zs) -> n <= i -> unlinked R (task_list i).
Proof.
  intros Hm Hn l xs Hl Hin. apply Hm in Hl.
  rings_of Hl; apply elem_of_cons in Hin as [?|(u & E & Hu)%list_elem_of_fmap]; addresses.
Qed.

(** [vidsch_task_queue_alloc]. *)
Lemma holds_new_queue h n max g :
  holds h n max g -> 0 <= n -> waiting g n = [] -> n ∉ members g -> (forall p, 0 <= p <= max -> n ∉ listed g p) ->
  exists h', (let! h := list_init_head (task_list n)
                (new_node (task_list n) (new_node (link n) (new_node (active_link n) h))) in
              let! h := list_init_head (link n) h in list_init_head (active_link n) h) = Ok h' /\
    holds h' (n + 1) max g /\
    (forall b, present h' b <-> b = task_list n \/ b = link n \/ b = active_link n \/ present h b).
Proof.
  intros (R & HR & Hm) Hn Hw Hmem Hact.
  pose proof (queue_unlinked _ _ _ _ n Hm ltac:(lia)) as U1.
  pose proof (member_unlinked _ _ _ _ n Hm Hmem) as U2.
  pose proof (active_unlinked _ _ _ _ n Hm Hact) as U3.
  set (h0 := new_node (task_list n) (new_node (link n) (new_node (active_link n) h))).
  assert (HR0 : rings h0 R) by (by repeat apply rings_new_node).
  assert (Hp0 : forall b, present h0 b <-> b = task_list n \/ b = link n \/ b = active_link n \/ present h b).
  { intros b. unfold h0. rewrite !present_new_node. assert (task_list n <> 0 /\ link n <> 0 /\ active_link n <> 0) by addresses.
    naive_solver. }
  destruct (rings_init_node h0 R (link n)) as (hx & _ & _ & _); [done|apply Hp0; auto|done|].
  destruct (rings_init h0 R (task_list n)) as (h1 & -> & HR1 & Hp1); [done|apply Hp0; auto|done|]. cbn [rbind].
  assert (U2' : unlinked (<[task_list n := []]> R) (link n)).
  { intros l xs. rewrite lookup_insert. case_decide; [subst; intros [= <-] ?%list_elem_of_singleton; addresses|apply U2]. }
  assert (U3' : unlinked (<[task_list n := []]> R) (active_link n)).
  { intros l xs. rewrite lookup_insert. case_decide; [subst; intros [= <-] ?%list_elem_of_singleton; addresses|apply U3]. }
  destruct (rings_init_node h1 _ (link n) HR1) as (h2 & -> & HR2 & Hp2); [apply Hp1, Hp0; auto|done|]. cbn [rbind].
  destruct (rings_init_node h2 _ (active_link n) HR2) as (h3 & -> & HR3 & Hp3); [apply Hp2, Hp1, Hp0; auto|done|].
  exists h3. split; [done|]. split; [|intros b; by rewrite Hp3, Hp2, Hp1, Hp0].
  eapply holds_set; [exact Hm|exact HR3| |].
  - left. exists n. rewrite Hw. split; [lia|done].
  - intros m zs Hne. unfold ring_of. split; intros [(j & Hj & -> & ->)|H]; try (by right).
    + left. exists j. split; [lia|done].
    + left. exists j. split; [|done]. destruct (decide (j = n)) as [->|]; [done|lia].
Qed.

(** [vidsch_task_queue_pool_alloc]: the list of the queues, then a list per priority. *)
Definition no_contents : contents := mkContents (fun _ => []) (fun _ => []) [] None.

Lemma holds_new_pool : exists h, list_init_head queue_list (new_node queue_list ∅) = Ok h /\ holds h 0 (-1) no_contents.
Proof.
  assert (He : rings ∅ ∅) by (split; [intros l xs; by rewrite lookup_empty|intros l xs m ys a; by rewrite lookup_empty]).
  destruct (rings_new ∅ ∅ queue_list He) as (h & Hr & HR & _); [done|left; intros l xs; by rewrite lookup_empty|].
  exists h. split; [done|]. exists (<[queue_list := []]> ∅). split; [done|]. intros l xs. split.
  - intros [[<- <-]|[_ H]]%lookup_insert_Some; [by right; right; left|by rewrite lookup_empty in H].
  - intros [(i & Hi & _)|[(p & Hp & _)|[[-> ->]|(_ & ts & [=] & _)]]]; [lia|lia|]. by rewrite lookup_insert_eq.
Qed.

Lemma holds_new_priority h n p g :
  holds h n (p - 1) g -> 0 <= p -> listed g p = [] ->
  exists h', list_init_head (active_list p) (new_node (active_list p) h) = Ok h' /\ holds h' n p g /\
    (forall b, present h b -> present h' b).
Proof.
  intros (R & HR & Hm) Hp Hl.
  assert (Hu : unlinked R (active_list p)).
  { intros l xs H Hin. apply Hm in H.
    rings_of H; apply elem_of_cons in Hin as [?|(u & E & Hu)%list_elem_of_fmap]; addresses. }
  destruct (rings_new h R (active_list p) HR) as (h' & Hr & HR' & Hp'); [addresses|by left|].
  exists h'. split; [done|]. split; [|intros b; rewrite Hp'; by right].
  eapply holds_set; [exact Hm|exact HR'| |].
  - right; left. exists p. rewrite Hl. split; [lia|done].
  - intros m zs Hne. unfold ring_of. split; intros [H|[(j & Hj & -> & ->)|H]]; try (by left); try (by right; right);
      right; left; exists j; (split; [|done]); [lia|]. destruct (decide (j = p)) as [->|]; [done|lia].
Qed.
