(* ===== verification/Worker.v ===== *)
(** * The worker thread and the threads that submit tasks

    The interleaving of [vidschi_schedule] of [core/vidsch/vidsch_workerthread.c]
    (one worker per engine) with any number of callers of
    [vidsch_task_queue_add], as a transition system whose atomic steps are the
    locked sections of [TaskQueue]. The theorems: no step of any interleaving
    faults; tasks leave a queue in the order they entered it, none is lost or
    handled twice; and a waiting task keeps its queue where the worker finds it. *)
From S2P Require Import Prelude.
From stdpp Require Import gmap functions.
From S2P Require Import ListHead ListRings TaskQueue TaskLists.
Local Open Scope Z_scope.

(** ** Threads *)

(** Where a call of [vidsch_task_queue_add] is: before [zx_down], before the
    section under the spin lock, before the exchange of [active], waiting for
    the mutex of the pool, returned. *)
Inductive add_pc := ADown | ALink | AFlag | AActivate | ADone.
#[export] Instance add_pc_eq : EqDecision add_pc.
Proof. solve_decision. Defined.
Record adder := mkAdder { a_queue : Z; a_task : Z; a_pc : add_pc }.

(** Where the worker is in [vidschi_schedule]: outside; at the head of the loop
    over the priorities; at the head of the [list_for_each_entry_safe] with its
    two cursors; in the loop over the taken tasks ([n] of them submitted) of
    queue [q]; before the section that puts the rest back; before
    [vidsch_task_queue_try_deactive]. *)
Inductive worker_pc :=
| WIdle
| WPrio (i : Z)
| WIter (i pos nxt : Z)
| WSubmit (i q nxt n : Z)
| WBack (i q nxt n : Z)
| WDeact (i q nxt : Z).

(** [mutex] says that the worker holds the pool's mutex (the callers' sections
    under it are atomic). [added] and [handled] record, in order, the queue and
    the task of every insertion and of every task the worker took out. *)
Record world := mkWorld
  { core : sched; mutex : bool; adders : list adder; worker : worker_pc;
    added : list (Z * Z); handled : list (Z * Z) }.
#[export] Instance eta_world : Eta world := fun w =>
  mkWorld (core w) (mutex w) (adders w) (worker w) (added w) (handled w).

(** One step of a caller; [None]: it has to wait. *)
Definition adder_step (a : adder) (w : world) : res (option (add_pc * world)) :=
  match a_pc a with
  | ADown =>
      let! o := vidsch_task_queue_add_down (a_queue a) (core w) in
      match o with Some s => Ok (Some (ALink, w <| core := s |>)) | None => Ok None end
  | ALink =>
      let! s := vidsch_task_queue_add_link (a_queue a) (a_task a) (core w) in
      Ok (Some (AFlag, w <| core := s |> <| added ::= fun l => l ++ [(a_queue a, a_task a)] |>))
  | AFlag =>
      let! '(first, s) := vidsch_task_queue_add_flag (a_queue a) (core w) in
      Ok (Some (if first then AActivate else ADone, w <| core := s |>))
  | AActivate =>
      if mutex w then Ok None
      else let! s := vidsch_task_queue_add_activate (a_queue a) (core w) in
           Ok (Some (ADone, w <| core := s |>))
  | ADone => Ok None
  end.

(** One step of the worker. [now] is the clock where the step reads it and [can]
    the answer about the first task; [vidschi_schedule_page_table_set_task] works
    on another pool and only sets [current] here. *)
Definition worker_step (render : Z -> bool) (can : bool) (now : Z) (w : world) : res world :=
  let s := core w in
  match worker w with
  | WIdle =>
      Ok (w <| mutex := true |> <| core := s <| current := now |> |> <| worker := WPrio (max_priority s) |>)
  | WPrio i =>
      if 0 <=? i then
        let! pos := get_next (links s) (active_list i) in
        let! nxt := get_next (links s) pos in
        Ok (w <| core := s <| current := now |> |> <| worker := WIter i pos nxt |>)
      else Ok (w <| mutex := false |> <| worker := WIdle |>)
  | WIter i pos nxt =>
      if negb (pos =? active_list i) then
        let! s := try_submit_take (queue_of_active pos) s in
        Ok (w <| core := s |> <| worker := WSubmit i (queue_of_active pos) nxt 0 |>)
      else Ok (w <| worker := WPrio (i - 1) |>)
  | WSubmit i q nxt n =>
      let! '(more, n, out, s) := try_submit_next render q can n (s <| current := now |>) in
      Ok (w <| core := s |> <| worker := if more : bool then WSubmit i q nxt n else WBack i q nxt n |>
            <| handled ::= fun l => l ++ match out with Some t => [(q, t)] | None => [] end |>)
  | WBack i q nxt n =>
      let! s := try_submit_back q n s in
      Ok (w <| core := s |> <| worker := WDeact i q nxt |>)
  | WDeact i q nxt =>
      let! s := vidsch_task_queue_try_deactive q (current s) s in
      let! nxt' := get_next (links s) nxt in
      Ok (w <| core := s |> <| worker := WIter i nxt nxt' |>)
  end.

(** The steps of the system. A call brings a task that was not submitted before. *)
Inductive step (render : Z -> bool) : world -> world -> Prop :=
| step_worker can now w w' : worker_step render can now w = Ok w' -> step render w w'
| step_adder k a pc w w' :
    adders w !! k = Some a -> adder_step a w = Ok (Some (pc, w')) ->
    step render w (w' <| adders ::= fun l => <[k := mkAdder (a_queue a) (a_task a) pc]> l |>)
| step_call q t w :
    0 <= q < zlen (queues (core w)) -> 0 <= t ->
    (forall a, a ∈ adders w -> a_task a <> t) ->
    step render w (w <| adders ::= fun l => l ++ [mkAdder q t ADown] |>
                     <| core ::= fun s => s <| links ::= new_node (schedule_node t) |> |>).

(** The state after the pool and its queues, given by bound and priority, were
    made. *)
Definition make_pool (max : Z) (qs : list (Z * Z)) : res sched :=
  let! s := vidsch_task_queue_pool_alloc max in
  foldl (fun r '(m, p) => let! s := r in
           let! '(i, s) := vidsch_task_queue_alloc m p s in vidsch_task_queue_pool_add i s) (Ok s) qs.

Definition start (s : sched) : world := mkWorld s false [] WIdle [] [].

(** ** The invariant *)

(** The tasks of queue [i] in a log. *)
Definition of_queue (i : Z) (log : list (Z * Z)) : list Z := (filter (fun e => e.1 = i) log).*2.

(** How many callers on queue [i] are at [pc]. *)
Definition at_pc (i : Z) (pc : add_pc) (l : list adder) : Z :=
  zlen (filter (fun a => a_queue a = i /\ a_pc a = pc) l).

(** The tasks of queue [i] the worker holds, and how many of queue [i] it has
    submitted without yet subtracting them from [task_num]. *)
Definition held (pc : worker_pc) (tk : option (list Z)) (i : Z) : list Z :=
  match pc with
  | WSubmit _ q _ _ | WBack _ q _ _ => if q =? i then default [] tk else []
  | _ => []
  end.
Definition uncounted (pc : worker_pc) (i : Z) : Z :=
  match pc with WSubmit _ q _ n | WBack _ q _ n => if q =? i then n else 0 | _ => 0 end.

(** What the invariant of a queue depends on. *)
Record view := mkView
  { v_count : add_pc -> Z; v_held : list Z; v_waiting : list Z; v_uncounted : Z; v_on : Z -> bool;
    v_added : list Z; v_handled : list Z }.
Definition queue_view (w : world) (g : contents) (i : Z) : view :=
  mkView (fun pc => at_pc i pc (adders w)) (held (worker w) (taken g) i) (waiting g i) (uncounted (worker w) i)
    (fun p => bool_decide (i ∈ listed g p)) (of_queue i (added w)) (of_queue i (handled w)).

Definition view_eq (u v : view) : Prop :=
  (forall pc, v_count u pc = v_count v pc) /\ v_held u = v_held v /\ v_waiting u = v_waiting v /\
  v_uncounted u = v_uncounted v /\ (forall p, v_on u p = v_on v p) /\
  v_added u = v_added v /\ v_handled u = v_handled v.

Record queue_ok (max : Z) (v : view) (q : vidsch_task_queue) : Prop := mkQueueOk
  { q_priority : 0 <= priority q <= max;
    q_pooled : pooled q = true;
    q_max : 0 <= max_num q < 2 ^ 31;
    q_sema : 0 <= sema q;
    q_room : sema q + v_count v ALink + zlen (v_held v) + zlen (v_waiting v) = max_num q;
    q_num : task_num q = u32 (zlen (v_waiting v) + zlen (v_held v) + v_uncounted v);
    q_active : active q = v_count v AActivate + b2z (v_on v (priority q));
    q_flag : active q = 0 \/ active q = 1;
    q_listed : forall p, 0 <= p <= max -> v_on v p = true -> p = priority q;
    q_wake : v_waiting v <> [] -> active q = 1 \/ 0 < v_count v AFlag;
    q_fifo : v_added v = v_handled v ++ v_held v ++ v_waiting v }.

(** The cursor [nxt] of the worker at queue [q] of priority [p]. *)
Definition at_queue (g : contents) (p q nxt : Z) : Prop :=
  exists before after, listed g p = before ++ q :: after /\ nxt = hd (active_list p) (active_link <$> after).

Definition worker_ok (n max : Z) (w : world) (g : contents) : Prop :=
  mutex w = (match worker w with WIdle => false | _ => true end) /\
  match worker w with
  | WIdle => taken g = None
  | WPrio p => taken g = None /\ p <= max
  | WIter p pos nxt => taken g = None /\ 0 <= p <= max /\
                       (pos = active_list p \/ exists q, pos = active_link q /\ at_queue g p q nxt)
  | WSubmit p q nxt k | WBack p q nxt k => taken g <> None /\ 0 <= p <= max /\ at_queue g p q nxt /\ 0 <= k
  | WDeact p q nxt => taken g = None /\ 0 <= p <= max /\ at_queue g p q nxt
  end.

Definition past_link (pc : add_pc) : bool := match pc with ADown | ALink => false | _ => true end.

Record adders_ok (n : Z) (w : world) : Prop := mkAddersOk
  { a_range : forall a, a ∈ adders w -> 0 <= a_queue a < n /\ 0 <= a_task a;
    a_node : forall a, a ∈ adders w -> present (links (core w)) (schedule_node (a_task a));
    a_once : NoDup (a_task <$> adders w);
    a_added : forall i t, (i, t) ∈ added w -> exists a, a ∈ adders w /\ a_task a = t /\ past_link (a_pc a) = true;
    a_distinct : NoDup (added w).*2 }.

Record world_ok (n max : Z) (w : world) (g : contents) : Prop := mkWorldOk
  { w_n : zlen (queues (core w)) = n;
    w_max : max_priority (core w) = max;
    w_lists : holds (links (core w)) n max g;
    w_listed : forall p i, 0 <= p <= max -> i ∈ listed g p -> 0 <= i < n;
    w_nodes : forall i, 0 <= i < n -> present (links (core w)) (active_link i);
    w_queues : forall i, 0 <= i < n -> exists q,
      rd (queues (core w)) i = Ok (Some q) /\ queue_ok max (queue_view w g i) q;
    w_adders : adders_ok n w;
    w_worker : worker_ok n max w g }.

Definition inv (w : world) : Prop := exists n max g, 0 <= max /\ world_ok n max w g.

(** ** Helpers *)

Lemma view_eq_refl v : view_eq v v.
Proof. by repeat split. Qed.

Lemma queue_ok_ext max u v q : view_eq u v -> queue_ok max u q -> queue_ok max v q.
Proof.
  intros (Hc & Hh & Hw & Hu & Ho & Ha & Hd) [].
  constructor; rewrite <- ?Hc, <- ?Hh, <- ?Hw, <- ?Hu, <- ?Ho, <- ?Ha, <- ?Hd; try done.
  intros p. rewrite <- Ho. by auto.
Qed.

Lemma at_pc_nonneg i pc l : 0 <= at_pc i pc l.
Proof. apply zlen_nonneg. Qed.

Lemma at_pc_app i pc l k : at_pc i pc (l ++ k) = at_pc i pc l + at_pc i pc k.
Proof. unfold at_pc. by rewrite list.filter_app, zlen_app. Qed.

Lemma at_pc_one i pc a : at_pc i pc [a] = b2z (bool_decide (a_queue a = i /\ a_pc a = pc)).
Proof.
  unfold at_pc. case_bool_decide; [by rewrite filter_cons_True|by rewrite filter_cons_False].
Qed.

Lemma at_pc_zero i pc l : (forall a, a ∈ l -> ~ (a_queue a = i /\ a_pc a = pc)) -> at_pc i pc l = 0.
Proof.
  unfold at_pc. induction l as [|a l IH]; intros H; [done|].
  rewrite filter_cons_False by (apply H; by left). apply IH. intros b Hb. apply H. by right.
Qed.

(** One caller moves on. *)
Lemma at_pc_insert i pc l k a b :
  l !! k = Some a ->
  at_pc i pc (<[k := b]> l) = at_pc i pc l - at_pc i pc [a] + at_pc i pc [b].
Proof.
  revert k. induction l as [|x l IH]; intros k Hk; [done|]. destruct k as [|k]; cbn in Hk.
  - injection Hk as ->. change (<[0%nat := b]> (a :: l)) with ([b] ++ l). change (a :: l) with ([a] ++ l).
    rewrite !at_pc_app. lia.
  - change (<[S k := b]> (x :: l)) with ([x] ++ <[k := b]> l). change (x :: l) with ([x] ++ l).
    rewrite !at_pc_app, (IH _ Hk). lia.
Qed.

Lemma at_pc_pos i pc l k a : l !! k = Some a -> 0 <= at_pc i pc l - at_pc i pc [a].
Proof.
  revert k. induction l as [|x l IH]; intros k Hk; [done|]. destruct k as [|k]; cbn in Hk.
  - injection Hk as ->. change (a :: l) with ([a] ++ l). rewrite at_pc_app.
    pose proof (at_pc_nonneg i pc l). lia.
  - change (x :: l) with ([x] ++ l). rewrite at_pc_app. pose proof (IH _ Hk). pose proof (at_pc_nonneg i pc [x]). lia.
Qed.

Lemma of_queue_app i l k : of_queue i (l ++ k) = of_queue i l ++ of_queue i k.
Proof. unfold of_queue. by rewrite list.filter_app, fmap_app. Qed.
Lemma of_queue_one i j t : of_queue i [(j, t)] = if decide (j = i) then [t] else [].
Proof. unfold of_queue. case_decide; [by rewrite filter_cons_True|by rewrite filter_cons_False]. Qed.
Lemma of_queue_in i t l : t ∈ of_queue i l <-> (i, t) ∈ l.
Proof.
  unfold of_queue. rewrite list_elem_of_fmap. split.
  - intros ([j u] & -> & [Hj Hin]%list_elem_of_filter). cbn in *. by subst.
  - intros Hin. exists (i, t). split; [done|]. by apply list_elem_of_filter.
Qed.

Lemma get_queue_run i q s : rd (queues s) i = Ok (Some q) -> get_queue i s = Ok q.
Proof. intros H. unfold get_queue. by rewrite H. Qed.
Lemma put_queue_run i q s : 0 <= i < zlen (queues s) ->
  put_queue i q s = Ok (s <| queues := <[Z.to_nat i := Some q]> (queues s) |>).
Proof. intros H. unfold put_queue. by rewrite wr_in. Qed.

(** One queue changes. *)
Lemma world_update n max w g w' g' i q' :
  world_ok n max w g -> 0 <= i < n ->
  queues (core w') = <[Z.to_nat i := Some q']> (queues (core w)) -> max_priority (core w') = max_priority (core w) ->
  holds (links (core w')) n max g' -> (forall b, present (links (core w)) b -> present (links (core w')) b) ->
  (forall p j, 0 <= p <= max -> j ∈ listed g' p -> 0 <= j < n) ->
  (forall j, 0 <= j < n -> j <> i -> view_eq (queue_view w g j) (queue_view w' g' j)) ->
  queue_ok max (queue_view w' g' i) q' -> adders_ok n w' -> worker_ok n max w' g' -> world_ok n max w' g'.
Proof.
  intros [Wn Wm Wl Wr Wd Wq Wa Ww] Hi Hqs Hmax Hl Hp Hr Hv Hq Ha Hw.
  constructor; try done.
  - by rewrite Hqs, zlen_insert.
  - by rewrite Hmax.
  - intros j Hj. by apply Hp, Wd.
  - intros j Hj. rewrite Hqs. destruct (decide (j = i)) as [->|Hne].
    + exists q'. split; [|done]. apply rd_insert_eq. lia.
    + destruct (Wq j Hj) as (q & Hrd & Hok). exists q. rewrite rd_insert_ne by lia. split; [done|].
      eapply queue_ok_ext; [by apply Hv|done].
Qed.

Lemma once_inj (l : list adder) a b : NoDup (a_task <$> l) -> a ∈ l -> b ∈ l -> a_task a = a_task b -> a = b.
Proof.
  intros Hnd [i Hi]%list_elem_of_lookup [j Hj]%list_elem_of_lookup E.
  assert (i = j) as ->; [|congruence].
  eapply NoDup_lookup; [exact Hnd| |]; rewrite list_lookup_fmap; [by rewrite Hi|rewrite Hj; cbn; by rewrite E].
Qed.

Lemma adders_move n w w' k a pc :
  adders_ok n w -> adders w !! k = Some a ->
  adders w' = <[k := mkAdder (a_queue a) (a_task a) pc]> (adders w) ->
  (forall b, present (links (core w)) b -> present (links (core w')) b) ->
  (past_link (a_pc a) = true -> past_link pc = true) ->
  (added w' = added w \/ added w' = added w ++ [(a_queue a, a_task a)] /\
                             past_link (a_pc a) = false /\ past_link pc = true) ->
  adders_ok n w'.
Proof.
  intros [Hr Hn Ho Ha Hdist] Hk Hl Hp Hpast Hadd. pose proof (list_elem_of_lookup_2 _ _ _ Hk) as Hin.
  assert (Hold : forall b, b ∈ adders w' -> b = mkAdder (a_queue a) (a_task a) pc \/ b ∈ adders w).
  { rewrite Hl. intros b [j [(-> & <- & _)|[_ Hj]]%list_lookup_insert_Some]%list_elem_of_lookup;
      [by left|right; by eapply list_elem_of_lookup_2]. }
  assert (Hnew : mkAdder (a_queue a) (a_task a) pc ∈ adders w').
  { rewrite Hl. apply list_elem_of_lookup_2 with k. apply list_lookup_insert_eq. by eapply lookup_lt_Some. }
  assert (Hkeep : forall b, b ∈ adders w -> past_link (a_pc b) = true ->
    exists b', b' ∈ adders w' /\ a_task b' = a_task b /\ past_link (a_pc b') = true).
  { intros b [j Hj]%list_elem_of_lookup Hb. destruct (decide (j = k)) as [->|Hne].
    - rewrite Hj in Hk. injection Hk as ->. eexists. split; [exact Hnew|]. split; [done|]. by apply Hpast.
    - exists b. split; [|done]. rewrite Hl. apply list_elem_of_lookup_2 with j. by rewrite list_lookup_insert_ne. }
  constructor.
  - intros b [->|Hb]%Hold; [exact (Hr a Hin)|exact (Hr b Hb)].
  - intros b [->|Hb]%Hold; apply Hp; [exact (Hn a Hin)|exact (Hn b Hb)].
  - rewrite Hl, list_fmap_insert, list_insert_id; [done|]. by rewrite list_lookup_fmap, Hk.
  - intros i t Hit. destruct Hadd as [E|(E & _ & Hpc)]; rewrite E in Hit; [|apply elem_of_app in Hit as [Hit|[= -> ->]%list_elem_of_singleton]].
    3: by exists (mkAdder (a_queue a) (a_task a) pc).
    all: destruct (Ha _ _ Hit) as (b & Hb & <- & Hb'); by apply Hkeep.
  - destruct Hadd as [->|(-> & Hpc & _)]; [done|]. rewrite fmap_app. apply list.NoDup_app. split; [done|].
    split; [|apply NoDup_singleton]. intros t Ht ->%list_elem_of_singleton.
    apply list_elem_of_fmap in Ht as ([i t] & Ht & Hit). cbn in Ht.
    destruct (Ha _ _ Hit) as (b & Hb & Htb & Hb'). rewrite <- Ht in Htb. by rewrite (once_inj _ _ _ Ho Hb Hin Htb), Hpc in Hb'.
Qed.

Section Invariant.
Context (n max : Z) (w : world) (g : contents) (Hw : world_ok n max w g).

(** Every task in a queue or with the worker came from a caller. *)
Lemma known_task i t : 0 <= i < n -> t ∈ held (worker w) (taken g) i ++ waiting g i ->
  exists a, a ∈ adders w /\ a_task a = t /\ past_link (a_pc a) = true.
Proof.
  intros Hi Ht. destruct (w_queues _ _ _ _ Hw i Hi) as (q & _ & Hok). pose proof (q_fifo _ _ _ Hok) as Hf.
  cbn in Hf. eapply (a_added _ _ (w_adders _ _ _ _ Hw) i). apply of_queue_in. rewrite Hf.
  apply elem_of_app. by right.
Qed.

Lemma at_queue_in p q nxt : at_queue g p q nxt -> 0 <= p <= max -> 0 <= q < n.
Proof.
  intros (xs & ys & Hl & _) Hp. eapply (w_listed _ _ _ _ Hw p); [done|]. rewrite Hl.
  apply elem_of_app. right. by left.
Qed.

Lemma known_taken ts t : taken g = Some ts -> t ∈ ts ->
  exists a, a ∈ adders w /\ a_task a = t /\ past_link (a_pc a) = true.
Proof.
  intros Hts Ht. pose proof (w_worker _ _ _ _ Hw) as [_ Hwk]. destruct (worker w) eqn:E;
    try (destruct Hwk as [Hn _]; congruence); try congruence.
  all: destruct Hwk as (_ & Hp & Hq & _); eapply (known_task q); [by eapply at_queue_in|].
  all: rewrite E; cbn; rewrite Z.eqb_refl, Hts; apply elem_of_app; by left.
Qed.

Lemma task_new k a : adders w !! k = Some a -> past_link (a_pc a) = false ->
  (forall i, 0 <= i < n -> a_task a ∉ waiting g i) /\ (forall ts, taken g = Some ts -> a_task a ∉ ts).
Proof.
  intros Hk Hpc. pose proof (list_elem_of_lookup_2 _ _ _ Hk) as Hin.
  assert (Hno : ~ exists b, b ∈ adders w /\ a_task b = a_task a /\ past_link (a_pc b) = true).
  { intros (b & Hb & Ht & Hpb). rewrite (once_inj _ _ _ (a_once _ _ (w_adders _ _ _ _ Hw)) Hb Hin Ht) in Hpb. congruence. }
  split.
  - intros i Hi Hin'. apply Hno. eapply (known_task i); [done|]. apply elem_of_app. by right.
  - intros ts Hts Hin'. apply Hno. by eapply known_taken.
Qed.

(** The parts of the state a caller's step does not touch. *)
Lemma view_other k a w' g' j pc :
  adders w !! k = Some a -> j <> a_queue a ->
  adders w' = <[k := mkAdder (a_queue a) (a_task a) pc]> (adders w) -> worker w' = worker w ->
  handled w' = handled w -> of_queue j (added w') = of_queue j (added w) -> taken g' = taken g ->
  waiting g' j = waiting g j -> (forall p, j ∈ listed g' p <-> j ∈ listed g p) ->
  view_eq (queue_view w g j) (queue_view w' g' j).
Proof.
  intros Hk Hj Ha Hwk Hh Had Ht Hwt Hl. unfold view_eq, queue_view; cbn.
  rewrite Ha, Hwk, Hh, Had, Ht, Hwt. repeat split.
  - intros pc'. rewrite (at_pc_insert _ _ _ _ _ _ Hk), !at_pc_one. cbn. rewrite !bool_decide_eq_false_2 by naive_solver. lia.
  - intros p. apply bool_decide_ext. by rewrite Hl.
Qed.
End Invariant.

(** ** The steps of the callers *)

Definition pc_eqb (x y : add_pc) : bool :=
  match x, y with
  | ADown, ADown | ALink, ALink | AFlag, AFlag | AActivate, AActivate | ADone, ADone => true
  | _, _ => false
  end.

Lemma at_pc_same a x : at_pc (a_queue a) x [a] = b2z (pc_eqb (a_pc a) x).
Proof.
  rewrite at_pc_one. case_bool_decide as H; [destruct H as [_ ->]; by destruct x|].
  destruct (a_pc a) eqn:E, x; cbn; try done; by destruct H.
Qed.

Lemma moved_count k a l pc x : l !! k = Some a ->
  at_pc (a_queue a) x (<[k := mkAdder (a_queue a) (a_task a) pc]> l) =
  at_pc (a_queue a) x l - b2z (pc_eqb (a_pc a) x) + b2z (pc_eqb pc x).
Proof.
  intros Hk. rewrite (at_pc_insert _ _ _ _ _ _ Hk), at_pc_same.
  by rewrite (at_pc_same (mkAdder (a_queue a) (a_task a) pc)).
Qed.

Section Callers.
Context (n max : Z) (w : world) (g : contents) (Hw : world_ok n max w g).
Context (k : nat) (a : adder) (Hk : adders w !! k = Some a).

Definition moved (r : option (add_pc * world)) : Prop :=
  match r with
  | Some (pc, w') => exists g', world_ok n max (w' <| adders ::= fun l => <[k := mkAdder (a_queue a) (a_task a) pc]> l |>) g'
  | None => True
  end.

Lemma caller_range : 0 <= a_queue a < n /\ 0 <= a_task a.
Proof. apply (w_adders _ _ _ _ Hw). by eapply list_elem_of_lookup_2. Qed.

Lemma caller_queue : exists q, rd (queues (core w)) (a_queue a) = Ok (Some q) /\
  queue_ok max (queue_view w g (a_queue a)) q.
Proof. apply (w_queues _ _ _ _ Hw). apply caller_range. Qed.

(** The fields of [queue_ok] after a step, with the new counts. *)
Ltac fields Hok Hpc :=
  destruct Hok as [F1 F2 F3 F4 F5 F6 F7 F8 F9 F10 F11]; pose proof (at_pc_nonneg (a_queue a) AActivate (adders w)) as F12;
  unfold queue_view in *; 
  cbn -[at_pc held uncounted zlen of_queue u32 b2z bool_decide Z.add Z.sub Z.pow] in F1, F4, F5, F6, F7, F8, F9, F10, F11; constructor;
  cbn -[at_pc held uncounted zlen of_queue u32 b2z bool_decide Z.add Z.sub Z.pow];
  rewrite ?(moved_count _ _ _ _ _ Hk), ?Hpc; cbn [pc_eqb b2z]; rewrite ?Z.sub_0_r, ?Z.add_0_r;
  first [exact F2 | exact F3 | exact F9 | exact F10 | exact F11 | clear F9; lia | idtac].

Lemma down_ok : a_pc a = ADown -> wp (adder_step a w) moved.
Proof.
  intros Hpc. destruct caller_range as [Hi Ht]. destruct caller_queue as (q & Hrd & Hok).
  pose proof (w_n _ _ _ _ Hw) as Hn.
  unfold adder_step, vidsch_task_queue_add_down. rewrite Hpc, (get_queue_run _ _ _ Hrd). cbn [rbind].
  destruct (Z.ltb_spec 0 (sema q)) as [Hs|]; [|done]. rewrite put_queue_run by lia. cbn [rbind wp moved].
  exists g. eapply (world_update _ _ _ _ _ _ (a_queue a)); [exact Hw|done|reflexivity|reflexivity|..].
  - apply (w_lists _ _ _ _ Hw).
  - done.
  - apply (w_listed _ _ _ _ Hw).
  - intros j Hj Hne. eapply view_other; [exact Hk|exact Hne|reflexivity..|]. done.
  - fields Hok Hpc.
  - eapply adders_move; [apply (w_adders _ _ _ _ Hw)|exact Hk|reflexivity|done|by rewrite Hpc|by left].
  - apply (w_worker _ _ _ _ Hw).
Qed.

Lemma link_ok : a_pc a = ALink -> wp (adder_step a w) moved.
Proof.
  intros Hpc. destruct caller_range as [Hi Ht]. destruct caller_queue as (q & Hrd & Hok).
  pose proof (w_n _ _ _ _ Hw) as Hn.
  destruct (task_new _ _ _ _ Hw k a Hk) as [Hnw Hnt]; [by rewrite Hpc|].
  destruct (holds_add_task _ n max g (a_queue a) (a_task a) (w_lists _ _ _ _ Hw)) as (h' & Hr & Hh & Hp); [done..| |done|done|].
  { eapply (a_node _ _ (w_adders _ _ _ _ Hw)). by eapply list_elem_of_lookup_2. }
  unfold adder_step, vidsch_task_queue_add_link, with_links. rewrite Hpc, Hr. cbn [rbind].
  rewrite (get_queue_run _ q) by exact Hrd. cbn [rbind]. rewrite put_queue_run by (cbn; lia). cbn [rbind wp moved].
  eexists. eapply (world_update _ _ _ _ _ _ (a_queue a)); [exact Hw|done|reflexivity|reflexivity|exact Hh|..].
  - intros b. apply Hp.
  - apply (w_listed _ _ _ _ Hw).
  - intros j Hj Hne. eapply view_other; [exact Hk|exact Hne|reflexivity..| | | |]; cbn -[of_queue].
    + rewrite of_queue_app, of_queue_one, decide_False by done. by rewrite app_nil_r.
    + done.
    + by rewrite fn_lookup_insert_ne.
    + done.
  - fields Hok Hpc; rewrite ?fn_lookup_insert, ?zlen_app.
    + change (zlen [a_task a]) with 1. lia.
    + change (zlen [a_task a]) with 1. rewrite F6, wrap_add_l by lia. f_equal. lia.
    + intros _. right. pose proof (at_pc_nonneg (a_queue a) AFlag (adders w)). lia.
    + rewrite of_queue_app, of_queue_one, decide_True by done. rewrite F11. by rewrite <- !(assoc app).
  - eapply adders_move; [apply (w_adders _ _ _ _ Hw)|exact Hk|reflexivity|intros b; apply Hp|done|right; by rewrite Hpc].
  - apply (w_worker _ _ _ _ Hw).
Qed.

Lemma flag_ok : a_pc a = AFlag -> wp (adder_step a w) moved.
Proof.
  intros Hpc. destruct caller_range as [Hi Ht]. destruct caller_queue as (q & Hrd & Hok).
  pose proof (w_n _ _ _ _ Hw) as Hn.
  unfold adder_step, vidsch_task_queue_add_flag, zx_atomic_cmpxchg. rewrite Hpc, (get_queue_run _ _ _ Hrd). cbn [rbind].
  rewrite put_queue_run by lia. cbn [rbind wp moved].
  exists g. eapply (world_update _ _ _ _ _ _ (a_queue a)); [exact Hw|done|reflexivity|reflexivity|..].
  - apply (w_lists _ _ _ _ Hw).
  - done.
  - apply (w_listed _ _ _ _ Hw).
  - intros j Hj Hne. eapply view_other; [exact Hk|exact Hne|reflexivity..|]. done.
  - destruct (Z.eqb_spec (active q) 0) as [Ha|Ha].
    + fields Hok Hpc.
    + fields Hok Hpc.
  - eapply adders_move; [apply (w_adders _ _ _ _ Hw)|exact Hk|reflexivity|done| |by left].
    by destruct (active q =? 0).
  - apply (w_worker _ _ _ _ Hw).
Qed.

Lemma activate_ok : a_pc a = AActivate -> wp (adder_step a w) moved.
Proof.
  intros Hpc. destruct caller_range as [Hi Ht]. destruct caller_queue as (q & Hrd & Hok).
  pose proof (w_n _ _ _ _ Hw) as Hn. pose proof (q_priority _ _ _ Hok) as Hpr.
  unfold adder_step, vidsch_task_queue_add_activate, with_links. rewrite Hpc, (get_queue_run _ _ _ Hrd).
  destruct (mutex w) eqn:Hm; [done|]. cbn [rbind]. rewrite (q_pooled _ _ _ Hok).
  assert (Hidle : worker w = WIdle).
  { destruct (w_worker _ _ _ _ Hw) as [E _]. rewrite Hm in E. by destruct (worker w). }
  assert (Hoff : forall p, 0 <= p <= max -> a_queue a ∉ listed g p).
  { intros p Hp Hin. assert (p = priority q) as -> by (apply (q_listed _ _ _ Hok); [done|by apply bool_decide_eq_true_2]).
    pose proof (q_active _ _ _ Hok) as Ha. pose proof (q_flag _ _ _ Hok) as Hf. cbn in Ha.
    rewrite bool_decide_eq_true_2 in Ha by done. cbn [b2z] in Ha.
    pose proof (at_pc_pos (a_queue a) AActivate _ _ _ Hk) as H1. rewrite at_pc_same, Hpc in H1. cbn in H1. lia. }
  destruct (holds_add_active _ n max g (priority q) (a_queue a) (w_lists _ _ _ _ Hw)) as (h' & Hr & Hh & Hp);
    [exact Hpr|by apply (w_nodes _ _ _ _ Hw)|exact Hoff|].
  rewrite Hr. cbn [rbind wp moved].
  eexists. eapply (world_update _ _ _ _ _ _ (a_queue a) q); [exact Hw|done| |reflexivity|exact Hh|..].
  - symmetry. apply list_insert_id. by apply rd_inv in Hrd as [_ ?].
  - intros b. apply Hp.
  - intros p j Hp'. cbn. destruct (decide (p = priority q)) as [->|]; [rewrite fn_lookup_insert|
      rewrite fn_lookup_insert_ne by done; by apply (w_listed _ _ _ _ Hw)].
    intros [H|H%list_elem_of_singleton]%elem_of_app; [by eapply (w_listed _ _ _ _ Hw)|by subst j].
  - intros j Hj Hne. eapply view_other; [exact Hk|exact Hne|reflexivity..|]. cbn. intros p.
    destruct (decide (p = priority q)) as [->|]; [rewrite fn_lookup_insert|by rewrite fn_lookup_insert_ne].
    rewrite elem_of_app, list_elem_of_singleton. naive_solver.
  - pose proof (Hoff _ Hpr) as Hoff'. fields Hok Hpc.
    + rewrite fn_lookup_insert, bool_decide_eq_true_2 by (apply elem_of_app; right; by left).
      rewrite bool_decide_eq_false_2 in F7 by done. cbn [b2z] in *. lia.
    + intros p Hp' Hin%bool_decide_eq_true_1. destruct (decide (p = priority q)) as [->|]; [done|].
      rewrite fn_lookup_insert_ne in Hin by done. by apply Hoff in Hin.
  - eapply adders_move; [apply (w_adders _ _ _ _ Hw)|exact Hk|reflexivity|intros b; apply Hp|done|by left].
  - unfold worker_ok. cbn. rewrite Hidle. destruct (w_worker _ _ _ _ Hw) as [_ E]. by rewrite Hidle in E.
Qed.

Lemma adder_step_ok : wp (adder_step a w) moved.
Proof.
  destruct (a_pc a) eqn:E; [by apply down_ok|by apply link_ok|by apply flag_ok|by apply activate_ok|].
  unfold adder_step. by rewrite E.
Qed.
End Callers.

(** ** The steps of the worker *)

Lemma get_next_head h l xs : is_list h l xs -> get_next h l = Ok (hd l xs).
Proof.
  intros Hl. apply get_next_run; [eapply is_list_present; [exact Hl|by left]|by apply is_list_next].
Qed.
Lemma get_next_node h l xs x ys : is_list h l (xs ++ x :: ys) -> get_next h x = Ok (hd l ys).
Proof.
  intros Hl. destruct (is_list_split _ _ _ _ _ Hl) as (_ & Hp & _ & _ & _ & Px & _).
  apply get_next_run; [done|by eapply path_first].
Qed.

Lemma adders_same n w w' :
  adders_ok n w -> adders w' = adders w -> added w' = added w ->
  (forall b, present (links (core w)) b -> present (links (core w')) b) -> adders_ok n w'.
Proof.
  intros [Hr Hn Ho Ha Hd] E1 E2 Hp. constructor; rewrite ?E1, ?E2; try done. intros a Hin. by apply Hp, Hn.
Qed.

(** Where [list_for_each_entry_safe] stands after moving to [pos]. *)
Definition cursor (g : contents) (p pos nxt : Z) : Prop :=
  pos = active_list p \/ exists q, pos = active_link q /\ at_queue g p q nxt.

Lemma cursor_next h n max g p before after pos :
  holds h n max g -> 0 <= p <= max -> listed g p = before ++ after ->
  pos = hd (active_list p) (active_link <$> after) ->
  exists nxt, get_next h pos = Ok nxt /\ cursor g p pos nxt.
Proof.
  intros Hh Hp Hl ->. pose proof (holds_list _ _ _ _ _ _ Hh (ring_listed _ _ _ _ Hp)) as Hil.
  destruct after as [|q after]; cbn [fmap list_fmap hd].
  - eexists. split; [by apply get_next_head in Hil|by left].
  - rewrite Hl, fmap_app, fmap_cons in Hil. eexists. split; [by eapply get_next_node|].
    right. exists q. split; [done|]. by exists before, after.
Qed.

Section WorkerSteps.
Context (n max : Z) (w : world) (g : contents) (Hw : world_ok n max w g).
Context (render : Z -> bool) (can : bool) (now : Z).

Definition goes_on (w' : world) : Prop := exists g', world_ok n max w' g'.

(** Steps that move only the worker and the clock. *)
Lemma world_keep w' g' :
  queues (core w') = queues (core w) -> max_priority (core w') = max_priority (core w) ->
  holds (links (core w')) n max g' -> (forall b, present (links (core w)) b -> present (links (core w')) b) ->
  adders w' = adders w -> added w' = added w ->
  (forall p, listed g' p = listed g p) ->
  (forall j, 0 <= j < n -> view_eq (queue_view w g j) (queue_view w' g' j)) ->
  worker_ok n max w' g' -> world_ok n max w' g'.
Proof.
  intros Hqs Hm Hh Hp Ha Had Hl Hv Hwk. destruct Hw as [Wn Wm Wl Wr Wd Wq Wa Ww].
  constructor; try done.
  - by rewrite Hqs.
  - by rewrite Hm.
  - intros p i. rewrite Hl. apply Wr.
  - intros i Hi. by apply Hp, Wd.
  - intros i Hi. rewrite Hqs. destruct (Wq i Hi) as (q & Hrd & Hok). exists q. split; [done|].
    eapply queue_ok_ext; [by apply Hv|done].
  - by eapply adders_same.
Qed.

Lemma idle_ok : worker w = WIdle -> wp (worker_step render can now w) goes_on.
Proof.
  intros E. unfold worker_step. rewrite E. cbn [wp]. exists g. destruct (w_worker _ _ _ _ Hw) as [_ Ht].
  rewrite E in Ht. apply world_keep; try done.
  - apply (w_lists _ _ _ _ Hw).
  - intros j Hj. unfold view_eq, queue_view; cbn. by rewrite E.
  - unfold worker_ok; cbn. rewrite (w_max _ _ _ _ Hw). split; [done|]. split; [done|lia].
Qed.

Lemma prio_ok p : worker w = WPrio p -> wp (worker_step render can now w) goes_on.
Proof.
  intros E. destruct (w_worker _ _ _ _ Hw) as [Hm Ht]. rewrite E in Ht, Hm. destruct Ht as [Ht Hp].
  pose proof (w_lists _ _ _ _ Hw) as Hh. unfold worker_step. rewrite E.
  assert (Hv : forall w' , worker w' = WIdle \/ (exists a b c, worker w' = WIter a b c) ->
    adders w' = adders w -> added w' = added w -> handled w' = handled w ->
    forall j, view_eq (queue_view w g j) (queue_view w' g j)).
  { intros w' Hwk' E1 E2 E3 j. unfold view_eq, queue_view; cbn. rewrite E1, E2, E3, E.
    by destruct Hwk' as [->|(? & ? & ? & ->)]. }
  destruct (Z.leb_spec 0 p) as [H0|H0].
  - assert (Hr : 0 <= p <= max) by lia.
    rewrite (get_next_head _ _ _ (holds_list _ _ _ _ _ _ Hh (ring_listed _ _ _ _ Hr))). cbn [rbind].
    destruct (cursor_next _ _ _ _ p [] (listed g p) _ Hh Hr eq_refl eq_refl) as (nxt & -> & Hc).
    cbn [rbind wp]. exists g. apply world_keep; try done.
    + intros j _. apply Hv; [|done..]. right. eauto.
  - cbn [wp]. exists g. apply world_keep; try done. intros j _. apply Hv; [by left|done..].
Qed.

(** The queue at the cursor. *)
Lemma at_queue_facts p q nxt : at_queue g p q nxt -> 0 <= p <= max ->
  0 <= q < n /\ exists rec, rd (queues (core w)) q = Ok (Some rec) /\ queue_ok max (queue_view w g q) rec /\
    p = priority rec /\ active rec = 1 /\ at_pc q AActivate (adders w) = 0.
Proof.
  intros Hq Hp. pose proof (at_queue_in _ _ _ _ Hw _ _ _ Hq Hp) as Hi. split; [done|].
  destruct (w_queues _ _ _ _ Hw q Hi) as (rec & Hrd & Hok). exists rec. split; [done|]. split; [done|].
  assert (Hin : q ∈ listed g p).
  { destruct Hq as (xs & ys & -> & _). apply elem_of_app. right. by left. }
  assert (Hpr : p = priority rec) by (apply (q_listed _ _ _ Hok); [done|by apply bool_decide_eq_true_2]).
  pose proof (q_active _ _ _ Hok) as Ha. pose proof (q_flag _ _ _ Hok) as Hf.
  cbn in Ha. rewrite bool_decide_eq_true_2 in Ha by by rewrite <- Hpr.
  pose proof (at_pc_nonneg q AActivate (adders w)). cbn [b2z] in Ha. split; [done|]. lia.
Qed.

(** One queue may change, the callers do not. *)
Lemma world_at w' g' q rec' :
  0 <= q < n -> queues (core w') = <[Z.to_nat q := Some rec']> (queues (core w)) ->
  max_priority (core w') = max_priority (core w) -> holds (links (core w')) n max g' ->
  (forall b, present (links (core w)) b -> present (links (core w')) b) ->
  adders w' = adders w -> added w' = added w ->
  (forall p j, 0 <= p <= max -> j ∈ listed g' p -> j ∈ listed g p) ->
  (forall j, 0 <= j < n -> j <> q -> view_eq (queue_view w g j) (queue_view w' g' j)) ->
  queue_ok max (queue_view w' g' q) rec' -> worker_ok n max w' g' -> goes_on w'.
Proof.
  intros Hi Hqs Hm Hh Hp Ha Had Hl Hv Hq Hwk. exists g'.
  eapply world_update; [exact Hw|exact Hi|exact Hqs|exact Hm|exact Hh|exact Hp| |exact Hv|exact Hq| |exact Hwk].
  - intros p j Hp' Hin. eapply (w_listed _ _ _ _ Hw p); [done|]. by eapply Hl.
  - eapply adders_same; [apply (w_adders _ _ _ _ Hw)|done..].
Qed.

Lemma queue_unchanged q rec : rd (queues (core w)) q = Ok (Some rec) ->
  queues (core w) = <[Z.to_nat q := Some rec]> (queues (core w)).
Proof. intros [_ H]%rd_inv. symmetry. by apply list_insert_id. Qed.

(** Views of the queues the worker is not at. *)
Lemma view_elsewhere w' g' j :
  adders w' = adders w -> added w' = added w -> of_queue j (handled w') = of_queue j (handled w) ->
  held (worker w') (taken g') j = held (worker w) (taken g) j -> uncounted (worker w') j = uncounted (worker w) j ->
  waiting g' j = waiting g j -> (forall p, j ∈ listed g' p <-> j ∈ listed g p) ->
  view_eq (queue_view w g j) (queue_view w' g' j).
Proof.
  intros E1 E2 E3 E4 E5 E6 E7. unfold view_eq, queue_view; cbn. rewrite E1, E2, E3, E4, E5, E6.
  repeat split. intros p. apply bool_decide_ext. by rewrite E7.
Qed.

Lemma held_elsewhere i q nxt k tk j : j <> q ->
  held (WSubmit i q nxt k) tk j = [] /\ held (WBack i q nxt k) tk j = [] /\
  uncounted (WSubmit i q nxt k) j = 0 /\ uncounted (WBack i q nxt k) j = 0.
Proof. intros Hj. cbn. destruct (Z.eqb_spec q j); [congruence|done]. Qed.

(** The fields of [queue_ok] for the queue the worker is at. *)
Ltac fields_at Hok E :=
  unfold queue_view in *; rewrite E in Hok; destruct Hok as [F1 F2 F3 F4 F5 F6 F7 F8 F9 F10 F11];
  cbn -[at_pc zlen of_queue u32 b2z bool_decide Z.add Z.sub Z.pow] in F1, F4, F5, F6, F7, F8, F9, F10, F11;
  rewrite ?Z.eqb_refl in *; constructor;
  cbn -[at_pc zlen of_queue u32 b2z bool_decide Z.add Z.sub Z.pow];
  rewrite ?Z.eqb_refl, ?fn_lookup_insert; cbn [default from_option id];
  first [exact F1 | exact F2 | exact F3 | exact F4 | exact F7 | exact F8 | exact F9 | exact F10 | idtac].

Lemma iter_ok p pos nxt : worker w = WIter p pos nxt -> wp (worker_step render can now w) goes_on.
Proof.
  intros E. destruct (w_worker _ _ _ _ Hw) as [Hm Ht]. rewrite E in Ht, Hm. destruct Ht as (Ht & Hp & Hc).
  pose proof (w_lists _ _ _ _ Hw) as Hh. unfold worker_step. rewrite E.
  destruct Hc as [->|(q & -> & Hq)].
  - rewrite Z.eqb_refl. cbn [negb wp]. exists g. apply world_keep; try done.
    + intros j Hj. unfold view_eq, queue_view; cbn. by rewrite E.
    + unfold worker_ok; cbn. split; [done|]. split; [done|lia].
  - destruct (Z.eqb_spec (active_link q) (active_list p)) as [E1|_]; [exfalso; addresses|]. cbn [negb].
    rewrite queue_of_active_node.
    destruct (at_queue_facts _ _ _ Hq Hp) as (Hi & rec & Hrd & Hok & Hpr & Hact & Hno).
    destruct (holds_new_local _ _ _ _ Hh Ht) as (h1 & Hr1 & Hh1 & Hp1).
    destruct (holds_take _ _ _ _ q Hh1 eq_refl Hi) as (h2 & Hr2 & Hh2 & Hp2).
    unfold try_submit_take, with_links. rewrite Hr1. cbn [rbind]. rewrite Hr2. cbn [rbind wp].
    eapply (world_at _ _ q rec); [exact Hi|by apply queue_unchanged|reflexivity|exact Hh2| |reflexivity|reflexivity|done|..].
    + intros b Hb. by apply Hp2, Hp1.
    + intros j Hj Hne. destruct (held_elsewhere p q nxt 0 (Some (waiting g q)) j Hne) as (H1 & _ & H2 & _).
      apply view_elsewhere; rewrite ?E; try done. cbn. by rewrite fn_lookup_insert_ne.
    + fields_at Hok E.
      * change (zlen (@nil Z)) with 0 in *. lia.
      * rewrite F6. f_equal. change (zlen (@nil Z)) with 0. lia.
      * done.
      * by rewrite F11, app_nil_r.
    + unfold worker_ok; cbn. split; [done|]. by split.
Qed.

(** The first task of the worker's list. *)
Lemma taken_first t ts : taken g = Some (t :: ts) ->
  get_next (links (core w)) local_list = Ok (schedule_node t) /\ present (links (core w)) (schedule_node t) /\
  0 <= t /\ (forall i, 0 <= i < n -> t ∉ waiting g i) /\ t ∉ ts.
Proof.
  intros Ht. pose proof (w_lists _ _ _ _ Hw) as Hh.
  pose proof (holds_list _ _ _ _ _ _ Hh (ring_taken n max g _ Ht)) as Hl.
  destruct (known_taken _ _ _ _ Hw _ t Ht) as (a & Ha & <- & _); [by left|].
  split; [by apply get_next_head in Hl|]. split; [by apply (w_adders _ _ _ _ Hw)|].
  split; [by apply (w_adders _ _ _ _ Hw)|]. split.
  - intros i Hi Hin. destruct Hh as (R & [_ Hd] & Hm).
    assert (local_list = task_list i) as E; [|addresses].
    eapply Hd; [apply Hm, (ring_taken _ _ _ _ Ht)|by apply Hm, ring_waiting|by right; left|].
    right. apply list_elem_of_fmap. by exists (a_task a).
  - destruct Hl as (Hnd & _). rewrite fmap_cons in Hnd. apply list.NoDup_cons in Hnd as [_ Hnd].
    apply list.NoDup_cons in Hnd as [Hx _]. intros Hin. apply Hx. apply list_elem_of_fmap. by exists (a_task a).
Qed.

Lemma worker_submit_ok p q nxt k : worker w = WSubmit p q nxt k -> wp (worker_step render can now w) goes_on.
Proof.
  intros E. destruct (w_worker _ _ _ _ Hw) as [Hm Hwk]. rewrite E in Hwk, Hm. destruct Hwk as (Ht & Hp & Hq & Hk0).
  pose proof (w_lists _ _ _ _ Hw) as Hh. destruct (at_queue_facts _ _ _ Hq Hp) as (Hi & rec & Hrd & Hok & _).
  assert (Hvo : forall w' k' g' j, j <> q -> worker w' = WSubmit p q nxt k' \/ worker w' = WBack p q nxt k' ->
    adders w' = adders w -> added w' = added w -> of_queue j (handled w') = of_queue j (handled w) ->
    waiting g' = waiting g -> listed g' = listed g -> view_eq (queue_view w g j) (queue_view w' g' j)).
  { intros w' k' g' j Hne Hwk E1 E2 E3 E4 E5. destruct (held_elsewhere p q nxt k (taken g) j Hne) as (H1 & _ & H2 & _).
    destruct (held_elsewhere p q nxt k' (taken g') j Hne) as (H3 & H4 & H5 & H6).
    apply view_elsewhere; rewrite ?E, ?E4, ?E5; try done; destruct Hwk as [-> | ->]; congruence. }
  destruct (taken g) as [ts|] eqn:Et; [|done].
  pose proof (holds_list _ _ _ _ _ _ Hh (ring_taken n max g _ Et)) as Hl.
  unfold worker_step, try_submit_next, with_links. rewrite E. cbn [links current upd core].
  change (links ((core w) <| current := now |>)) with (links (core w)).
  rewrite (list_empty_ok _ _ _ Hl). cbn [rbind].
  destruct ts as [|t ts]; cbn [fmap list_fmap negb].
  { cbn [rbind wp]. eapply (world_at _ g q rec); [exact Hi|by apply queue_unchanged|done|exact Hh|done..| | |].
    - intros j Hj Hne. apply Hvo with k; try done; [by right|]. cbn. by rewrite app_nil_r.
    - fields_at Hok E; rewrite Et in *; cbn [default from_option id] in *; try done. by rewrite app_nil_r.
    - unfold worker_ok; cbn. rewrite Et. done. }
  destruct (taken_first t ts Et) as (Hg & Hpt & Ht0 & Hnw & Hnt).
  unfold list_first_entry. rewrite Hg. cbn [rbind]. rewrite task_of_node.
  destruct (holds_del_taken _ _ _ _ _ _ Hh Et) as (h1 & Hr1 & Hh1 & Hp1). rewrite Hr1. cbn [rbind].
  destruct (if render t then can else true).
  - rewrite (get_queue_run _ rec) by exact Hrd. cbn [rbind].
    rewrite put_queue_run by (cbn; rewrite (w_n _ _ _ _ Hw); exact Hi). cbn [rbind wp].
    eapply (world_at _ _ q); [exact Hi|reflexivity|reflexivity|exact Hh1|intros b; apply Hp1|done..| | |].
    + intros j Hj Hne. apply Hvo with (k + 1); try done; [by left|]. cbn -[of_queue].
      rewrite of_queue_app, of_queue_one, decide_False by done. by rewrite app_nil_r.
    + fields_at Hok E; rewrite Et in *; cbn [default from_option id] in *; rewrite ?zlen_cons in *.
      * lia.
      * lia.
      * rewrite F6. f_equal. lia.
      * rewrite of_queue_app, of_queue_one, decide_True by done. rewrite F11. by rewrite <- (assoc app).
    + unfold worker_ok; cbn. split; [done|]. split; [done|]. split; [done|]. split; [done|lia].
  - destruct (holds_add_taken h1 n max _ t ts Hh1 eq_refl Ht0) as (h2 & Hr2 & Hh2 & Hp2);
      [by apply Hp1|done|done|].
    match goal with |- context [list_add _ _ ?h] => change h with h1 end. rewrite Hr2. cbn [rbind wp].
    eapply (world_at _ _ q rec); [exact Hi|by apply queue_unchanged|reflexivity|exact Hh2| |done..| | |].
    + intros b Hb. by apply Hp2, Hp1.
    + intros j Hj Hne. apply Hvo with k; try done; [by right|]. cbn. by rewrite app_nil_r.
    + fields_at Hok E; rewrite Et in *; cbn [default from_option id] in *; try done. by rewrite app_nil_r.
    + unfold worker_ok; cbn. done.
Qed.

Lemma back_ok p q nxt k : worker w = WBack p q nxt k -> wp (worker_step render can now w) goes_on.
Proof.
  intros E. destruct (w_worker _ _ _ _ Hw) as [Hm Hwk]. rewrite E in Hwk, Hm. destruct Hwk as (Ht & Hp & Hq & Hk0).
  pose proof (w_lists _ _ _ _ Hw) as Hh. destruct (at_queue_facts _ _ _ Hq Hp) as (Hi & rec & Hrd & Hok & Hpr & Hact & _).
  destruct (taken g) as [ts|] eqn:Et; [|done].
  destruct (holds_back _ _ _ _ q ts Hh Et Hi) as (h1 & Hr1 & Hh1 & Hp1).
  pose proof (holds_list _ _ _ _ _ _ Hh1 (ring_waiting n max _ q Hi)) as Hl.
  unfold worker_step, try_submit_back, with_links. rewrite E, Hr1. cbn [rbind].
  rewrite (get_queue_run _ rec) by exact Hrd. cbn [rbind].
  match goal with |- context [list_empty _ ?h] => change h with h1 end.
  rewrite (list_empty_ok _ _ _ Hl). cbn [rbind].
  rewrite put_queue_run by (cbn; rewrite (w_n _ _ _ _ Hw); exact Hi). cbn [rbind wp].
  eapply (world_at _ _ q); [exact Hi|reflexivity|reflexivity|exact Hh1|intros b; apply Hp1|done..| | |].
  - intros j Hj Hne. destruct (held_elsewhere p q nxt k (taken g) j Hne) as (_ & H1 & _ & H2).
    apply view_elsewhere; rewrite ?E; try done. cbn. by rewrite fn_lookup_insert_ne.
  - match goal with |- queue_ok _ _ (if ?b then _ else _) => destruct b end; fields_at Hok E;
      rewrite Et in *; cbn [default from_option id] in *; rewrite ?zlen_app, ?Z.add_0_r in *; change (zlen (@nil Z)) with 0; try lia; try done.
    all: first [by left | rewrite F6; unfold wrap; rewrite Zminus_mod_idemp_l; f_equal; lia].
  - unfold worker_ok; cbn. done.
Qed.

Lemma deact_ok p q nxt : worker w = WDeact p q nxt -> wp (worker_step render can now w) goes_on.
Proof.
  intros E. destruct (w_worker _ _ _ _ Hw) as [Hm Hwk]. rewrite E in Hwk, Hm. destruct Hwk as (Ht & Hp & Hq).
  pose proof (w_lists _ _ _ _ Hw) as Hh. destruct (at_queue_facts _ _ _ Hq Hp) as (Hi & rec & Hrd & Hok & Hpr & Hact & Hno).
  pose proof (holds_list _ _ _ _ _ _ Hh (ring_waiting n max _ q Hi)) as Hl.
  destruct Hq as (before & after & Hlist & ->).
  unfold worker_step, vidsch_task_queue_try_deactive, with_links, zx_atomic_cmpxchg. rewrite E.
  rewrite (list_empty_ok _ _ _ Hl), (get_queue_run _ rec) by exact Hrd. cbn [rbind].
  match goal with |- context [if ?b && ?c then _ else _] => destruct (b && c) eqn:Hempty end.
  - apply andb_true_iff in Hempty as [Hempty _].
    assert (Hw0 : waiting g q = []) by (destruct (waiting g q); [done|by cbn in Hempty]).
    rewrite put_queue_run by (rewrite (w_n _ _ _ _ Hw); exact Hi). cbn [rbind]. rewrite Hact, Z.eqb_refl.
    destruct (holds_del_active _ _ _ _ p q before after Hh Hp Hlist) as (h1 & Hr1 & Hh1 & Hp1).
    match goal with |- context [list_del _ ?h] => change h with (links (core w)) end. rewrite Hr1. cbn [rbind].
    destruct (cursor_next _ _ _ _ p before after _ Hh1 Hp ltac:(cbn; by rewrite fn_lookup_insert) eq_refl) as (nxt' & Hn & Hc).
    match goal with |- context [get_next ?h _] => change h with h1 end. rewrite Hn. cbn [rbind wp].
    pose proof (holds_list _ _ _ _ _ _ Hh (ring_listed _ _ _ _ Hp)) as Hla. rewrite Hlist in Hla.
    assert (Hnd : NoDup (before ++ q :: after)).
    { destruct Hla as (Hnd & _). apply list.NoDup_cons in Hnd as [_ Hnd]. by apply NoDup_fmap_1 in Hnd. }
    eapply (world_at _ _ q); [exact Hi|reflexivity|reflexivity|exact Hh1|intros b; apply Hp1|done..| | | |].
    + intros p' j Hp'. cbn. destruct (decide (p' = p)) as [->|]; [rewrite fn_lookup_insert, Hlist|by rewrite fn_lookup_insert_ne].
      rewrite !elem_of_app, elem_of_cons. tauto.
    + intros j Hj Hne. apply view_elsewhere; rewrite ?E; try done. cbn. intros p'.
      destruct (decide (p' = p)) as [->|]; [rewrite fn_lookup_insert, Hlist|by rewrite fn_lookup_insert_ne].
      rewrite !elem_of_app, elem_of_cons. tauto.
    + fields_at Hok E; rewrite ?Hpr in *; rewrite ?fn_lookup_insert; try done; try by left.
      * rewrite Hno, bool_decide_eq_false_2; [done|]. intros Hin.
        apply list.NoDup_app in Hnd as (_ & Hd & [Hx _]%list.NoDup_cons).
        apply elem_of_app in Hin as [Hin|Hin]; [|done]. eapply Hd; [exact Hin|by left].
      * intros p' Hp' Hin%bool_decide_eq_true_1. destruct (decide (p' = priority rec)); [done|].
        rewrite fn_lookup_insert_ne in Hin by done. apply F9; [done|]. by apply bool_decide_eq_true_2.
    + unfold worker_ok; cbn. done.
  - cbn [rbind]. destruct (cursor_next _ _ _ _ p (before ++ [q]) after _ Hh Hp ltac:(by rewrite <- (assoc app)) eq_refl) as (nxt' & Hn & Hc).
    rewrite Hn. cbn [rbind wp]. exists g. apply world_keep; try done.
    intros j Hj. apply view_elsewhere; by rewrite ?E.
Qed.

Lemma worker_step_ok : wp (worker_step render can now w) goes_on.
Proof.
  destruct (worker w) eqn:E; [by apply idle_ok|by eapply prio_ok|by eapply iter_ok|by eapply worker_submit_ok|by eapply back_ok|by eapply deact_ok].
Qed.
End WorkerSteps.

(** A new call. *)
Lemma call_ok n max w g q t :
  world_ok n max w g -> 0 <= q < n -> 0 <= t -> (forall a, a ∈ adders w -> a_task a <> t) ->
  world_ok n max (w <| adders ::= fun l => l ++ [mkAdder q t ADown] |>
                    <| core ::= fun s => s <| links ::= new_node (schedule_node t) |> |>) g.
Proof.
  intros Hw Hq Ht Hfresh. pose proof Hw as [Wn Wm Wl Wr Wd Wq Wa Ww].
  assert (Hp : forall b, present (links (core w)) b -> present (new_node (schedule_node t) (links (core w))) b).
  { intros b Hb. apply present_new_node. by right. }
  constructor; try done.
  - apply holds_new_task; try done.
    + intros i Hi Hin. destruct (known_task _ _ _ _ Hw i t Hi) as (a & Ha & Hat & _); [apply elem_of_app; by right|].
      by eapply Hfresh.
    + intros ts Hts Hin. destruct (known_taken _ _ _ _ Hw ts t Hts Hin) as (a & Ha & Hat & _). by eapply Hfresh.
  - intros i Hi. by apply Hp, Wd.
  - intros i Hi. destruct (Wq i Hi) as (rec & Hrd & Hok). exists rec. split; [done|].
    assert (Hc : forall pc, pc <> ADown -> at_pc i pc (adders w ++ [mkAdder q t ADown]) = at_pc i pc (adders w)).
    { intros pc Hpc. rewrite at_pc_app, at_pc_one. cbn. rewrite bool_decide_eq_false_2 by naive_solver. cbn. lia. }
    destruct Hok as [F1 F2 F3 F4 F5 F6 F7 F8 F9 F10 F11]. unfold queue_view in *.
    constructor; cbn -[at_pc]; rewrite ?Hc by done; done.
  - destruct Wa as [Ar An Ao Aa Ad]. constructor; cbn; [| | | |done].
    + intros a [Ha|Ha%list_elem_of_singleton]%elem_of_app; [by apply Ar|by subst a].
    + intros a [Ha|Ha%list_elem_of_singleton]%elem_of_app; [by apply Hp, An|]. subst a.
      apply present_new_node. left. cbn. split; [done|addresses].
    + rewrite fmap_app. apply list.NoDup_app. split; [done|]. split; [|apply NoDup_singleton].
      intros x (a & -> & Ha)%list_elem_of_fmap Hx%list_elem_of_singleton. by eapply Hfresh.
    + intros i u Hu. destruct (Aa i u Hu) as (a & Ha & Hat). exists a. split; [|done]. apply elem_of_app. by left.
Qed.

Lemma step_ok render w w' : inv w -> step render w w' -> inv w'.
Proof.
  intros (n & max & g & Hmax & Hw) Hs. inversion Hs as [can now w0 w1 Hr|k a pc w0 w1 Hk Hr|q t w0 Hq Ht Hf]; subst.
  - pose proof (worker_step_ok n max w g Hw render can now) as H. rewrite Hr in H. destruct H as [g' H].
    by exists n, max, g'.
  - pose proof (adder_step_ok n max w g Hw k a Hk) as H. rewrite Hr in H. destruct H as [g' H].
    by exists n, max, g'.
  - exists n, max, g. split; [done|]. rewrite (w_n _ _ _ _ Hw) in Hq. by apply call_ok.
Qed.

Lemma steps_ok render w w' : inv w -> rtc (step render) w w' -> inv w'.
Proof. intros Hi Hs. induction Hs as [|w w1 w2 H1 _ IH]; [done|]. by eapply IH, step_ok. Qed.
