(* ===== verification/WorkerSpec.v ===== *)
(** * What the task queues promise

    The start of the system of [Worker] (the pool as the driver makes it) and
    the properties of its reachable states: safety of every interleaving, order
    and conservation of tasks, no lost wake-up; and the reference a queue keeps
    when its context returns it. *)
From S2P Require Import Prelude.
From stdpp Require Import gmap functions.
From S2P Require Import ListHead ListRings TaskQueue TaskLists Worker.
Local Open Scope Z_scope.

(** ** The start *)

Record fresh_queue (max : Z) (q : vidsch_task_queue) : Prop := mkFresh
  { fq_priority : 0 <= priority q <= max; fq_pooled : pooled q = true; fq_active : active q = 0;
    fq_task_num : task_num q = 0; fq_refcount : refcount q = 2; fq_max : 0 <= max_num q < 2 ^ 31; fq_sema : sema q = max_num q }.

Record pool_ok (max n : Z) (s : sched) : Prop := mkPoolOk
  { po_n : zlen (queues s) = n;
    po_max : max_priority s = max;
    po_lists : holds (links s) n max (no_contents <| members := seqZ 0 n |>);
    po_nodes : forall i, 0 <= i < n -> present (links s) (active_link i);
    po_queues : forall i, 0 <= i < n -> exists q, rd (queues s) i = Ok (Some q) /\ fresh_queue max q }.

Lemma pool_alloc_ok max : -1 <= max -> wp (vidsch_task_queue_pool_alloc max) (pool_ok max 0).
Proof.
  intros Hmax. unfold vidsch_task_queue_pool_alloc.
  destruct holds_new_pool as (h & -> & Hh). cbn [rbind]. apply wp_bind.
  apply wp_for_up with (I := fun i h => holds h 0 (i - 1) no_contents).
  - exact Hh.
  - intros j h1 Hj H1. apply wp_ok.
    destruct (holds_new_priority h1 0 j no_contents H1) as (h2 & -> & H2 & _); [lia|done|].
    exists h2. split; [done|]. by replace (j + 1 - 1) with j by lia.
  - intros h1 H1. cbn [wp]. replace (0 + Z.of_nat (Z.to_nat (max + 1)) - 1) with max in H1 by lia.
    constructor; try done; intros i Hi; lia.
Qed.

Lemma pool_extend_ok max n s m p : 0 <= max -> 0 <= n -> 0 <= m < 2 ^ 31 -> pool_ok max n s ->
  wp (let! '(i, s) := vidsch_task_queue_alloc m p s in vidsch_task_queue_pool_add i s) (pool_ok max (n + 1)).
Proof.
  intros Hmax Hn Hm [Pn Pm Pl Pd Pq]. unfold vidsch_task_queue_alloc. rewrite Pn.
  assert (Hin : n ∉ seqZ 0 n) by (rewrite elem_of_seqZ; lia).
  destruct (holds_new_queue (links s) n max _ Pl Hn) as (h1 & Hr1 & Hh1 & Hp1); [done|exact Hin|intros; set_solver|].
  destruct (holds_add_member h1 (n + 1) max _ n Hh1) as (h2 & Hr2 & Hh2 & Hp2); [apply Hp1; auto|exact Hin|].
  cbn [rbind] in Hr1. destruct (list_init_head (task_list n) _) as [ha|]; [|done]. cbn [rbind] in *.
  destruct (list_init_head (link n) ha) as [hb|]; [|done]. cbn [rbind] in *. rewrite Hr1. cbn [rbind].
  unfold vidsch_task_queue_pool_add, vidsch_task_queue_get, with_links. cbn [rbind].
  set (q0 := mkQueue _ _ _ _ _ _ _ _). set (qs := queues s ++ [Some q0]).
  assert (Hl : zlen qs = n + 1) by (unfold qs; by rewrite zlen_app, Pn).
  assert (Hrd : rd qs n = Ok (Some q0)) by (unfold qs; rewrite rd_app_r by lia; by rewrite Pn, Z.sub_diag).
  rewrite (get_queue_run _ q0) by exact Hrd. cbn [rbind]. rewrite put_queue_run by (cbn; fold qs; lia). cbn [rbind].
  erewrite get_queue_run by (cbn; fold qs; apply rd_insert_eq; lia). cbn [rbind].
  rewrite put_queue_run by (cbn; rewrite zlen_insert; fold qs; lia). cbn [rbind].
  match goal with |- context [list_add_tail _ _ ?h] => change h with h1 end. rewrite Hr2. cbn [rbind wp].
  constructor.
  - cbn. by rewrite !zlen_insert.
  - done.
  - cbn. replace (seqZ 0 (n + 1)) with (seqZ 0 n ++ [n]); [done|].
    by rewrite seqZ_app by lia.
  - intros i Hi. cbn. apply Hp2, Hp1. destruct (decide (i = n)) as [->|]; [auto|]. right; right; right. apply Pd. lia.
  - intros i Hi. cbn. destruct (decide (i = n)) as [->|].
    + rewrite rd_insert_eq by (rewrite zlen_insert; fold qs; lia). eexists. split; [done|].
      assert (u32 m = m) as Em by (apply wrap_small; unfold fits; lia).
      constructor; cbn; rewrite ?Em; try done. rewrite Pm. destruct (Z.ltb_spec p 0), (Z.ltb_spec max p); lia.
    + destruct (Pq i ltac:(lia)) as (q & Hq & Hf). exists q. split; [|done].
      rewrite !rd_insert_ne by lia. unfold qs. rewrite rd_app_l by lia. done.
Qed.

Lemma make_pool_ok max qs : 0 <= max -> Forall (fun e => 0 <= e.1 < 2 ^ 31) qs ->
  wp (make_pool max qs) (pool_ok max (zlen qs)).
Proof.
  intros Hmax Hqs. unfold make_pool.
  assert (Hgo : forall l r n, 0 <= n -> Forall (fun e : Z * Z => 0 <= e.1 < 2 ^ 31) l -> wp r (pool_ok max n) ->
    wp (foldl (fun r '(m, p) => let! s := r in
           let! '(i, s) := vidsch_task_queue_alloc m p s in vidsch_task_queue_pool_add i s) r l) (pool_ok max (n + zlen l))).
  { induction l as [|[m p] l IH]; intros r n Hn Hl Hr; cbn [foldl].
    - by rewrite Z.add_0_r.
    - inversion_clear Hl. replace (n + zlen ((m, p) :: l)) with (n + 1 + zlen l) by (rewrite zlen_cons; lia).
      apply IH; [lia|done|]. apply wp_bind. eapply wp_mono; [exact Hr|]. intros s Hs. by apply pool_extend_ok. }
  apply wp_bind. eapply wp_mono; [by apply pool_alloc_ok; lia|]. intros s Hs.
  apply (Hgo qs (Ok s) 0); [lia|done|done].
Qed.

Lemma start_ok max n s : 0 <= max -> pool_ok max n s -> inv (start s).
Proof.
  intros Hmax [Pn Pm Pl Pd Pq]. exists n, max, (no_contents <| members := seqZ 0 n |>). split; [done|].
  constructor; try done.
  - intros p i Hp Hin. by apply not_elem_of_nil in Hin.
  - intros i Hi. destruct (Pq i Hi) as (q & Hq & []). exists q. split; [done|].
    unfold queue_view. constructor; cbn; try done; try lia.
    rewrite fq_sema0. unfold at_pc, zlen. cbn. lia.
  - constructor; cbn; [intros a Ha; by apply not_elem_of_nil in Ha..|constructor| |].
    + intros i t Ha. by apply not_elem_of_nil in Ha.
    + constructor.
Qed.

(** ** The properties *)

Definition reachable (render : Z -> bool) (max : Z) (qs : list (Z * Z)) (w : world) : Prop :=
  exists s, make_pool max qs = Ok s /\ rtc (step render) (start s) w.

Lemma reachable_inv render max qs w :
  0 <= max -> Forall (fun e => 0 <= e.1 < 2 ^ 31) qs -> reachable render max qs w -> inv w.
Proof.
  intros Hmax Hqs (s & Hs & Hr). eapply steps_ok; [|exact Hr]. eapply start_ok; [exact Hmax|].
  pose proof (make_pool_ok max qs Hmax Hqs) as H. rewrite Hs in H. exact H.
Qed.

Lemma wp_is_ok {A} (m : res A) Q : wp m Q -> is_ok m.
Proof. destruct m; [by eexists|done]. Qed.

(** C30. No interleaving of the worker with the callers that submit tasks goes
    wrong: every step of every thread, from every reachable state and whatever
    the hardware and the clock answer, runs without a null dereference, an
    access to a node that is no longer there or an index out of range. (A queue
    is unlinked from the active list only when it is on it, although its flag is
    set before it is linked.) *)
Theorem task_queues_safe render max qs w :
  0 <= max -> Forall (fun e => 0 <= e.1 < 2 ^ 31) qs -> reachable render max qs w ->
  (forall can now, is_ok (worker_step render can now w)) /\
  (forall k a, adders w !! k = Some a -> is_ok (adder_step a w)).
Proof.
  intros Hmax Hqs Hr. destruct (reachable_inv _ _ _ _ Hmax Hqs Hr) as (n & mx & g & _ & Hw).
  split; [intros can now|intros k a Hk]; eapply wp_is_ok.
  - by eapply worker_step_ok.
  - by eapply adder_step_ok.
Qed.

(** The tasks of queue [i] the worker holds are the list [hs] of its own list. *)
Definition worker_holds (w : world) (i : Z) (hs : list Z) : Prop :=
  match worker w with
  | WSubmit _ q _ _ | WBack _ q _ _ =>
      if q =? i then is_list (links (core w)) local_list (schedule_node <$> hs) else hs = []
  | _ => hs = []
  end.

(** C8. Tasks leave a queue in the order they entered it, none is lost and none
    is handled twice: at every moment the tasks put into a queue are, in order,
    those the worker has handled, those on its own list and those in the queue;
    and at most [max_num] of them wait. *)
Theorem task_queues_fifo render max qs w i :
  0 <= max -> Forall (fun e => 0 <= e.1 < 2 ^ 31) qs -> reachable render max qs w ->
  0 <= i < zlen (queues (core w)) ->
  exists q hs ts, rd (queues (core w)) i = Ok (Some q) /\
    is_list (links (core w)) (task_list i) (schedule_node <$> ts) /\ worker_holds w i hs /\
    of_queue i (added w) = of_queue i (handled w) ++ hs ++ ts /\ NoDup (added w).*2 /\
    zlen hs + zlen ts <= max_num q.
Proof.
  intros Hmax Hqs Hr Hi. destruct (reachable_inv _ _ _ _ Hmax Hqs Hr) as (n & mx & g & _ & Hw).
  rewrite (w_n _ _ _ _ Hw) in Hi. destruct (w_queues _ _ _ _ Hw i Hi) as (q & Hrd & Hok).
  exists q, (held (worker w) (taken g) i), (waiting g i). split; [done|].
  pose proof (w_lists _ _ _ _ Hw) as Hh. split; [by eapply holds_list, ring_waiting|].
  destruct Hok as [F1 F2 F3 F4 F5 F6 F7 F8 F9 F10 F11]. cbn in F5, F11.
  split; [|split; [done|split; [apply (w_adders _ _ _ _ Hw)|]]].
  - unfold worker_holds. pose proof (w_worker _ _ _ _ Hw) as [_ Hwk].
    destruct (worker w); try done; cbn; destruct (Z.eqb_spec q0 i); try done;
      (destruct (taken g) eqn:Et; [|by destruct Hwk]); eapply holds_list; [done|by apply ring_taken|done|by apply ring_taken].
  - pose proof (at_pc_nonneg i ALink (adders w)). lia.
Qed.

(** C9. No wake-up is lost: when the worker is between two rounds and no caller
    is between inserting its task and listing the queue, a queue with tasks is on
    the list of active queues of its priority, where the next round finds it. *)
Theorem task_queues_no_lost_wakeup render max qs w i q t ts :
  0 <= max -> Forall (fun e => 0 <= e.1 < 2 ^ 31) qs -> reachable render max qs w ->
  worker w = WIdle -> 0 <= i -> rd (queues (core w)) i = Ok (Some q) ->
  is_list (links (core w)) (task_list i) (schedule_node <$> t :: ts) ->
  (forall a, a ∈ adders w -> a_queue a = i -> a_pc a <> AFlag /\ a_pc a <> AActivate) ->
  task_num q = zlen (t :: ts) /\
  exists xs, is_list (links (core w)) (active_list (priority q)) (active_link <$> xs) /\ i ∈ xs.
Proof.
  intros Hmax Hqs Hr Hidle H0 Hrd Hl Hno. destruct (reachable_inv _ _ _ _ Hmax Hqs Hr) as (n & mx & g & _ & Hw).
  pose proof (w_n _ _ _ _ Hw) as Hn. pose proof (rd_bound _ _ _ Hrd) as Hi. rewrite Hn in Hi.
  destruct (w_queues _ _ _ _ Hw i Hi) as (q' & Hrd' & Hok). assert (q' = q) as -> by congruence.
  pose proof (w_lists _ _ _ _ Hw) as Hh.
  assert (Hwt : waiting g i = t :: ts).
  { apply (inj (fmap schedule_node)). eapply is_list_fun; [by eapply holds_list, ring_waiting|done]. }
  assert (Hc : forall pc, pc = AFlag \/ pc = AActivate -> at_pc i pc (adders w) = 0).
  { intros pc Hpc. apply at_pc_zero. intros a Ha [Hq Hp].
    destruct (Hno a Ha Hq). naive_solver. }
  destruct Hok as [F1 F2 F3 F4 F5 F6 F7 F8 F9 F10 F11]. unfold queue_view in *. rewrite Hidle in *.
  cbn -[at_pc of_queue] in *. rewrite Hwt in *. split.
  - rewrite F6. change (zlen (@nil Z)) with 0 in *. rewrite !Z.add_0_r in *. apply wrap_small.
    pose proof (at_pc_nonneg i ALink (adders w)). pose proof (zlen_nonneg (t :: ts)). unfold fits. lia.
  - exists (listed g (priority q)). split; [by eapply holds_list, ring_listed|].
    rewrite (Hc AActivate) in F7 by auto. rewrite (Hc AFlag) in F10 by auto.
    destruct (F10 ltac:(done)) as [Ha|]; [|lia]. rewrite Ha in F7.
    destruct (bool_decide (i ∈ listed g (priority q))) eqn:E; [by apply bool_decide_eq_true_1 in E|done].
Qed.

(** [vidsch_task_queue_pool_remove] does not give back the reference that
    [vidsch_task_queue_pool_add] took: where the driver schedules by context,
    a context that gets its queue and returns it leaves the queue allocated,
    with one reference that nothing holds, in no list of the pool. *)
Theorem deinit_leaks_queue max qs s ctx_priority :
  0 <= max -> Forall (fun e => 0 <= e.1 < 2 ^ 31) qs -> make_pool max qs = Ok s ->
  exists i s1 s2 q, vidsch_init_task_queue false ctx_priority s = Ok (Some i, s1) /\
    vidsch_deinit_task_queue false (Some i) s1 = Ok s2 /\ rd (queues s2) i = Ok (Some q) /\
    refcount q = 1 /\ pooled q = false /\
    is_list (links s2) queue_list (link <$> seqZ 0 (zlen qs)) /\ i = zlen qs.
Proof.
  intros Hmax Hqs Hs. pose proof (make_pool_ok max qs Hmax Hqs) as Hp. rewrite Hs in Hp. cbn [wp] in Hp.
  set (n := zlen qs) in *. pose proof (zlen_nonneg qs) as Hn. fold n in Hn.
  pose proof (pool_extend_ok max n s 32 ctx_priority Hmax Hn ltac:(lia) Hp) as He.
  unfold vidsch_init_task_queue. destruct (vidsch_task_queue_alloc 32 ctx_priority s) as [[i s0]|] eqn:Ea; [|done].
  assert (i = n) as ->.
  { unfold vidsch_task_queue_alloc in Ea. inv_ok. apply (po_n _ _ _ Hp). }
  cbn [rbind] in *. destruct (vidsch_task_queue_pool_add n s0) as [s1|] eqn:Eb; [|done]. cbn [rbind wp] in *.
  destruct He as [Pn Pm Pl Pd Pq]. destruct (Pq n ltac:(lia)) as (q & Hrd & [_ Fp Fa _ Fr _ _]).
  destruct (holds_del_member (links s1) (n + 1) max _ n (seqZ 0 n) [] Pl) as (h' & Hr & Hh & _).
  { cbn. by rewrite seqZ_app by lia. }
  exists n, s1. unfold vidsch_deinit_task_queue, vidsch_task_queue_pool_remove, vidsch_task_queue_release, with_links,
    zx_atomic_cmpxchg. rewrite (get_queue_run _ _ _ Hrd). cbn [rbind]. rewrite Fp, Hr. cbn [rbind].
  rewrite (get_queue_run _ q) by exact Hrd. cbn [rbind]. rewrite put_queue_run by (cbn; lia). cbn [rbind].
  rewrite Fa. cbn [Z.eqb rbind].
  erewrite get_queue_run by (cbn; apply rd_insert_eq; lia). cbn [rbind].
  rewrite put_queue_run by (cbn; rewrite zlen_insert; lia). cbn [rbind].
  erewrite get_queue_run by (cbn; apply rd_insert_eq; rewrite zlen_insert; lia). cbn [rbind].
  replace (refcount _ - 1) with 1 by (cbn; lia). cbn [Z.eqb].
  rewrite put_queue_run by (cbn; rewrite !zlen_insert; lia).
  eexists _, _. split; [done|]. split; [done|]. split; [cbn; apply rd_insert_eq; rewrite !zlen_insert; lia|].
  split; [done|]. split; [done|]. split; [|done].
  pose proof (holds_list _ _ _ _ _ _ Hh (ring_members _ _ _)) as Hl. cbn in Hl. by rewrite app_nil_r in Hl.
Qed.

(** ** Concrete runs *)

(** The choices of an interleaving: a step of the worker, of caller [k], a new call. *)
Inductive choice := Work (can : bool) (now : Z) | Caller (k : nat) | Call (q t : Z).

Definition perform (render : Z -> bool) (w : world) (c : choice) : option world :=
  match c with
  | Work can now => match worker_step render can now w with Ok w' => Some w' | Err _ => None end
  | Caller k =>
      match adders w !! k with
      | Some a =>
          match adder_step a w with
          | Ok (Some (pc, w')) => Some (w' <| adders ::= fun l => <[k := mkAdder (a_queue a) (a_task a) pc]> l |>)
          | _ => None
          end
      | None => None
      end
  | Call q t =>
      if (0 <=? q) && (q <? zlen (queues (core w))) && (0 <=? t) && forallb (fun a => negb (a_task a =? t)) (adders w)
      then Some (w <| adders ::= fun l => l ++ [mkAdder q t ADown] |>
                   <| core ::= fun s => s <| links ::= new_node (schedule_node t) |> |>)
      else None
  end.

Fixpoint run (render : Z -> bool) (cs : list choice) (w : world) : option world :=
  match cs with [] => Some w | c :: cs => match perform render w c with Some w => run render cs w | None => None end end.

Lemma run_steps render cs w w' : run render cs w = Some w' -> rtc (step render) w w'.
Proof.
  revert w. induction cs as [|c cs IH]; intros w; cbn [run]; [by intros [= ->]|].
  destruct (perform render w c) as [w1|] eqn:E; [|done]. intros H. eapply rtc_l; [|by apply IH]. clear IH H.
  destruct c as [can now|k|q t]; cbn [perform] in E.
  - destruct (worker_step _ _ _ _) as [w2|] eqn:Hs; [|done]. injection E as <-. by eapply step_worker.
  - destruct (adders w !! k) as [a|] eqn:Hk; [|done].
    destruct (adder_step a w) as [[[pc w2]|]|] eqn:Hs; [|done|done]. injection E as <-. by eapply step_adder.
  - destruct (_ && _) eqn:Hc; [|done]. injection E as <-.
    apply andb_true_iff in Hc as [[[H1 H2]%andb_true_iff H3]%andb_true_iff H4].
    apply step_call; [lia|lia|]. intros a Ha. rewrite forallb_forall in H4.
    specialize (H4 a). rewrite <- list_elem_of_In in H4. specialize (H4 Ha). lia.
Qed.

(** Two queues of two tasks; two callers put the tasks 7 and 8 into queue 0. *)
Definition sample_queues : list (Z * Z) := [(2, 0); (2, 1)].
Definition sample_pool : sched := match make_pool 1 sample_queues with Ok s => s | Err _ => mkSched ∅ [] 0 0 0 end.
Definition sample_calls : list choice :=
  [Call 0 7; Caller 0; Call 0 8; Caller 0; Caller 1; Caller 1; Caller 1; Caller 1; Caller 0].
Definition sample_work : list choice :=
  [Work true 5; Work true 6; Work true 6; Work true 6; Work true 6; Work true 6].
Definition after (cs : list choice) : world :=
  match run (fun _ => true) cs (start sample_pool) with Some w => w | None => start sample_pool end.

Lemma sample_pool_ok : make_pool 1 sample_queues = Ok sample_pool.
Proof. by vm_compute. Qed.
Lemma sample_bounds : Forall (fun e => 0 <= e.1 < 2 ^ 31) sample_queues.
Proof. repeat constructor; cbn; lia. Qed.
Lemma calls_reachable : reachable (fun _ => true) 1 sample_queues (after sample_calls).
Proof. exists sample_pool. split; [apply sample_pool_ok|]. apply run_steps with sample_calls. by vm_compute. Qed.
Lemma work_reachable : reachable (fun _ => true) 1 sample_queues (after (sample_calls ++ sample_work)).
Proof.
  exists sample_pool. split; [apply sample_pool_ok|]. apply run_steps with (sample_calls ++ sample_work). by vm_compute.
Qed.

(** The worker has handled task 7 and holds task 8. *)
Example work_state : worker (after (sample_calls ++ sample_work)) = WSubmit 0 0 (active_list 0) 1 /\
  handled (after (sample_calls ++ sample_work)) = [(0, 7)] /\ added (after (sample_calls ++ sample_work)) = [(0, 7); (0, 8)].
Proof. by vm_compute. Qed.

Lemma task_queues_safe_witness :
  (forall can now, is_ok (worker_step (fun _ => true) can now (after (sample_calls ++ sample_work)))) /\
  (forall k a, adders (after (sample_calls ++ sample_work)) !! k = Some a -> is_ok (adder_step a (after (sample_calls ++ sample_work)))).
Proof. exact (task_queues_safe (fun _ => true) 1 sample_queues _ ltac:(lia) sample_bounds work_reachable). Defined.

Lemma task_queues_fifo_witness : exists q hs ts,
  rd (queues (core (after (sample_calls ++ sample_work)))) 0 = Ok (Some q) /\
  is_list (links (core (after (sample_calls ++ sample_work)))) (task_list 0) (schedule_node <$> ts) /\
  worker_holds (after (sample_calls ++ sample_work)) 0 hs /\
  of_queue 0 (added (after (sample_calls ++ sample_work))) =
    of_queue 0 (handled (after (sample_calls ++ sample_work))) ++ hs ++ ts /\
  NoDup (added (after (sample_calls ++ sample_work))).*2 /\ zlen hs + zlen ts <= max_num q.
Proof.
  apply (task_queues_fifo (fun _ => true) 1 sample_queues _ 0 ltac:(lia) sample_bounds work_reachable).
  vm_compute. split; [discriminate|reflexivity].
Defined.

Lemma calls_list : is_list (links (core (after sample_calls))) (task_list 0) (schedule_node <$> [7; 8]).
Proof. split; [by_decision|split; [by_decision|]]. by vm_compute. Qed.

Lemma task_queues_no_lost_wakeup_witness : exists q,
  rd (queues (core (after sample_calls))) 0 = Ok (Some q) /\ task_num q = zlen [7; 8] /\
  exists xs, is_list (links (core (after sample_calls))) (active_list (priority q)) (active_link <$> xs) /\ 0 ∈ xs.
Proof.
  eexists. split; [vm_compute; reflexivity|].
  apply (task_queues_no_lost_wakeup (fun _ => true) 1 sample_queues (after sample_calls) 0 _ 7 [8]);
    [lia|exact sample_bounds|exact calls_reachable|vm_compute; reflexivity|lia|vm_compute; reflexivity|exact calls_list|].
  intros a Ha _. assert (E : adders (after sample_calls) = [mkAdder 0 7 ADone; mkAdder 0 8 ADone]) by (by vm_compute).
  rewrite E in Ha. clear E. apply list_elem_of_In in Ha. cbn [In] in Ha. destruct Ha as [<-|[<-|Hf]]; [split; discriminate..|destruct Hf].
Defined.

Lemma deinit_leaks_queue_witness : exists i s1 s2 q,
  vidsch_init_task_queue false 1 sample_pool = Ok (Some i, s1) /\
  vidsch_deinit_task_queue false (Some i) s1 = Ok s2 /\ rd (queues s2) i = Ok (Some q) /\
  refcount q = 1 /\ pooled q = false /\ is_list (links s2) queue_list (link <$> seqZ 0 2) /\ i = 2.
Proof. exact (deinit_leaks_queue 1 sample_queues sample_pool 1 ltac:(lia) sample_bounds sample_pool_ok). Defined.
