(* ===== verification/PageTable.v ===== *)
(** * Page tables of a GPU address space

    [core/vidmm/vidmm_vm.c] and the entry writer of
    [core/e3k/vidmm/vidmm_e3k.c]: a device has a tree of page tables of three
    levels (8, 10 and 10 bits of the page number), kept both as a tree of
    structures of the driver and as tables in memory that the GPU walks. The
    model has both: the tree [vm_pt] and the contents of the buffers, with the
    allocator of buffers as environment. *)
From S2P Require Import Prelude.
From stdpp Require Import gmap.
Local Open Scope Z_scope.

(** ** Constants of the chip ([vidmm_query_chip_vm_info_e3k], 4 KB pages) *)

Definition ZX_PT_LEVEL_ROOT : Z := 0.
Definition ZX_PT_LEVEL_1 : Z := 1.
Definition ZX_PT_LEVEL_2 : Z := 2.
Definition GPU_PAGE_SHIFT : Z := 12.
Definition vidmmi_vm_pt_level_num : Z := 3.
Definition vidmmi_vm_pt_bits_count (level : Z) : Z := if level =? ZX_PT_LEVEL_ROOT then 8 else 10.
Definition vidmmi_vm_pt_addr_mask (level : Z) : Z :=
  if level =? ZX_PT_LEVEL_ROOT then 0xFF00000 else if level =? ZX_PT_LEVEL_1 then 0xFFC00 else 0x3FF.

(** The bits of the page number below a level. *)
Definition vidmmi_vm_accum_pd_bits_count (level : Z) : Z :=
  foldl (fun acc i => acc + vidmmi_vm_pt_bits_count i) 0
    (seqZ (level + 1) (vidmmi_vm_pt_level_num - (level + 1))).
Definition vidmmi_vm_pt_num_entries (level : Z) : Z := Z.shiftl 1 (vidmmi_vm_pt_bits_count level).

Definition S_OK : Z := 0.
Definition E_FAIL : Z := 0x10004005.
Definition E_INVALIDARG : Z := 0x80070057.
Definition E_OUTOFMEMORY : Z := 0x80000002.

(** ** The tables *)

(** [vidmm_vm_pt_t]; a buffer is known by its GPU address, which is not 0. The
    link to the parent is the path to the entry. *)
Inductive vm_pt := mkPt
  { pt_buffer : option Z; pt_addr : Z; update_bitmap : option (list bool);
    pt_entries : option (list vm_pt); pt_age : Z }.
#[export] Instance eta_pt : Eta vm_pt := fun e =>
  mkPt (pt_buffer e) (pt_addr e) (update_bitmap e) (pt_entries e) (pt_age e).
Definition zero_pt : vm_pt := mkPt None 0 None None 0.

(** An entry of a table in memory: zero, the table of the next level, or page
    [k] of an entity. *)
Inductive pte := Zero | Dir (buffer : Z) | Page (entity k : Z).
#[export] Instance pte_eq : EqDecision pte.
Proof. solve_decision. Defined.

(** [gart_dirty_t]: the pages whose translation the GPU must drop. *)
Record gart_dirty := mkDirty { dirty : bool; dirty_addr : Z; dirty_mask : Z }.

(** What [vidmm_create_segment_memory], [vidmm_map_segment_memory] and the
    allocation of the bitmap answer for the next table: where they fail, or the
    address of the buffer. *)
Inductive answer := CreateFails | MapFails (b : Z) | BitmapFails (b : Z) | Fine (b : Z).

(** The live buffers with their contents, the answers to come, the age the
    adapter has since the last resume, the age of the root table, and the dirty
    ranges of the two translation buffers of the engine in use. *)
Record vmem := mkMem
  { bufs : gmap Z (list pte); answers : list answer; resume_age : Z; root_pd_age : Z;
    utlb : gart_dirty; dtlb : gart_dirty }.
#[export] Instance eta_mem : Eta vmem := fun m =>
  mkMem (bufs m) (answers m) (resume_age m) (root_pd_age m) (utlb m) (dtlb m).

(** ** Writing entries ([vidmm_update_ptes_e3k]) *)

(** Entries [off], [off + 1], ... of buffer [b]; a buffer that was destroyed is
    no object any more. *)
Definition write_ptes (b off : Z) (l : list pte) (m : vmem) : res vmem :=
  match bufs m !! b with
  | None => Err OutOfBounds
  | Some t =>
      let! t := wrs t (zip (seqZ off (zlen l)) l) in
      Ok (m <| bufs := <[b := t]> (bufs m) |>)
  end.

(** The mask of the [n] addresses [va], [va + step], ... and the range that also
    covers what was dirty. *)
Definition range_mask (va step : Z) (n : Z) : Z :=
  foldl (fun mask i => Z.lor mask (Z.lxor va (u64 (va + i * step)))) 0 (seqZ 0 n).

Definition add_dirty (va mask : Z) (d : gart_dirty) : gart_dirty :=
  if dirty d then
    let mask' := Z.lor (Z.lor (dirty_mask d) mask) (Z.lxor (dirty_addr d) (Z.ldiff va mask)) in
    mkDirty true (Z.ldiff (dirty_addr d) mask') mask'
  else mkDirty true (Z.ldiff va mask) mask.

(** The directory entry for table [b] (levels 0 and 1). *)
Definition update_pde (level dst off b va : Z) (m : vmem) : res vmem :=
  match bufs m !! b with
  | None => Err OutOfBounds
  | Some _ =>
      let! m := write_ptes dst off [Dir b] m in
      if level =? ZX_PT_LEVEL_1 then Ok (m <| utlb ::= add_dirty va (range_mask va (4 * 1024 * 1024) 1) |>) else Ok m
  end.

(** The page entries (level 2), for pages of 4 KB written by the GPU's update path:
    [cur] is the address of the first page and [vm_va] that of the mapping. *)
Definition update_ptes_page (dst off npte entity entity_offset cur vm_va : Z) (m : vmem) : res vmem :=
  let start_page_idx := u32 (u32 (Z.shiftr (u64 (cur - vm_va)) GPU_PAGE_SHIFT) + Z.shiftr entity_offset GPU_PAGE_SHIFT) in
  let! m := write_ptes dst off ((fun i => Page entity (u32 (i + start_page_idx))) <$> seqZ 0 npte) m in
  Ok (m <| dtlb ::= add_dirty cur (range_mask cur 4096 npte) |>).

(** ** Bitmaps *)

(** [vidmmi_vm_pt_update_bitmap] and [vidmmi_vm_pt_check_bitmap]; a store past
    the bitmap is a fault. *)
Definition vidmmi_vm_pt_update_bitmap (e : vm_pt) (s_idx e_idx : Z) (value : bool) : res vm_pt :=
  match update_bitmap e with
  | None => Ok e
  | Some bm =>
      let! bm := for_up (Z.to_nat (e_idx - s_idx + 1)) s_idx (fun i bm => wr bm i value) bm in
      Ok (e <| update_bitmap := Some bm |>)
  end.

Definition vidmmi_vm_pt_check_bitmap (e : vm_pt) (s_idx e_idx : Z) : res bool :=
  let! bm := deref (update_bitmap e) in
  let! '(all, _) := for_up (Z.to_nat (e_idx - s_idx + 1)) s_idx
    (fun i '(all, broke) =>
       if broke : bool then Ok (all, broke)
       else let! b := rd bm i in if b : bool then Ok (true, false) else Ok (false, true)) (false, false) in
  Ok all.

(** ** Allocating tables ([vidmm_vm_alloc_pd]) *)

Definition destroyed (b : Z) (m : vmem) : vmem := m <| bufs ::= delete b |>.

(** The part of the loop that makes the table of [entry]; where a step after the
    creation of the buffer fails, the buffer is destroyed, but [entry->buffer]
    keeps it. An answer that is no new address counts as a failure. A new table is
    supposed to be cleared; the code clears it if it can map it for the CPU. The
    mode in which the CPU writes the entries ([cpu_update_pte]), with one more step that
    can fail, and the chip that maps its tables ([gpu_vm]) are not modelled. *)
Definition make_table (level : Z) (entry : vm_pt) (m : vmem) : Z * vm_pt * vmem :=
  let entry := entry <| pt_age := resume_age m |> in
  let table := replicate (Z.to_nat (vidmmi_vm_pt_num_entries level)) Zero in
  let new (b : Z) (rest : list answer) (k : vmem -> Z * vm_pt * vmem) : Z * vm_pt * vmem :=
    if decide (b = 0 \/ is_Some (bufs m !! b)) then (E_OUTOFMEMORY, entry, m <| answers := rest |>)
    else k (m <| answers := rest |> <| bufs ::= <[b := table]> |>) in
  match answers m with
  | [] => (E_OUTOFMEMORY, entry, m)
  | CreateFails :: rest => (E_OUTOFMEMORY, entry, m <| answers := rest |>)
  | MapFails b :: rest => new b rest (fun m => (E_FAIL, entry <| pt_buffer := Some b |>, destroyed b m))
  | BitmapFails b :: rest =>
      new b rest (fun m =>
        match update_bitmap entry with
        | Some _ => (S_OK, entry <| pt_buffer := Some b |>, m)
        | None => (E_OUTOFMEMORY, entry <| pt_buffer := Some b |>, destroyed b m)
        end)
  | Fine b :: rest =>
      new b rest (fun m =>
        (S_OK, entry <| pt_buffer := Some b |>
                     <| update_bitmap ::= fun o => match o with
                                                   | Some bm => Some bm
                                                   | None => Some (replicate (Z.to_nat (vidmmi_vm_pt_num_entries level)) false)
                                                   end |>, m))
  end.

(** The body of the loop for one [entry] on [level], with the rest of the range in
    it; [alloc_pd] is the function itself. *)
Definition alloc_entry (alloc_pd : vm_pt -> Z -> Z -> Z -> vmem -> res (Z * vm_pt * vmem))
    (level sub_saddr sub_eaddr : Z) (entry : vm_pt) (m : vmem) : res (Z * vm_pt * vmem) :=
  let '(result, entry, m) :=
    match pt_buffer entry with
    | None => make_table level entry m
    | Some _ => (S_OK, entry, m)
    end in
  if (result =? S_OK) && (level <? vidmmi_vm_pt_level_num - 1)
  then alloc_pd entry sub_saddr sub_eaddr level m
  else Ok (result, entry, m).

(** The function; [n] bounds the depth of the recursion. The small allocation of
    the array of entries is taken to succeed. *)
Fixpoint vidmm_vm_alloc_pd (n : nat) (parent : vm_pt) (saddr eaddr level : Z) (m : vmem) : res (Z * vm_pt * vmem) :=
  match n with
  | O => Err OutOfFuel
  | S n =>
      let shift := vidmmi_vm_accum_pd_bits_count level in
      let num := vidmmi_vm_pt_num_entries level in
      let parent := parent <| pt_entries ::= fun o => match o with
        | Some l => Some l | None => Some (replicate (Z.to_nat num) zero_pt) end |> in
      let from := u32 (Z.shiftr saddr shift) in
      let to := u32 (Z.shiftr eaddr shift) in
      if (num <=? from) || (num <=? to) then Ok (E_INVALIDARG, parent, m)
      else
        let! all := vidmmi_vm_pt_check_bitmap parent from to in
        let! parent := if all then Ok parent else vidmmi_vm_pt_update_bitmap parent from to true in
        let saddr := Z.land saddr (Z.shiftl 1 shift - 1) in
        let eaddr := Z.land eaddr (Z.shiftl 1 shift - 1) in
        let! entries := deref (pt_entries parent) in
        let! '(result, entries, m) :=
          for_up (Z.to_nat (to - from + 1)) from
            (fun cur '(result, entries, m) =>
               if negb (result =? S_OK) then Ok (result, entries, m)
               else
                 let! entry := rd entries cur in
                 let sub_saddr := if cur =? from then saddr else 0 in
                 let sub_eaddr := if cur =? to then eaddr else Z.shiftl 1 shift - 1 in
                 let! '(result, entry, m) := alloc_entry (vidmm_vm_alloc_pd n) (level + 1) sub_saddr sub_eaddr entry m in
                 let! entries := wr entries cur entry in Ok (result, entries, m)) (S_OK, entries, m) in
        Ok (result, parent <| pt_entries := Some entries |>, m)
  end.

(** ** Writing the directories ([vidmmi_vm_update_level], [vidmm_vm_update_pd]) *)

(** The body of the loop for one [entry] with buffer [pt]; [update_level] is the
    function itself. *)
Definition update_pd_entry (update_level : Z -> vm_pt -> Z -> bool -> vmem -> res (vm_pt * bool * vmem))
    (start_va level pd_addr pd_idx pt : Z) (entry : vm_pt) (root_pd_dirty : bool) (m : vmem) : res (vm_pt * bool * vmem) :=
  let gpu_va := u64 (start_va + Z.shiftl pd_idx (vidmmi_vm_accum_pd_bits_count level + GPU_PAGE_SHIFT)) in
  let! '(entry, root_pd_dirty, m) :=
    if (pt_addr entry =? pt) && (resume_age m <=? pt_age entry) then Ok (entry, root_pd_dirty, m)
    else
      let! m := update_pde level pd_addr pd_idx pt gpu_va m in
      Ok (entry <| pt_addr := pt |> <| pt_age := resume_age m |>,
          root_pd_dirty || (level =? ZX_PT_LEVEL_ROOT), m) in
  update_level gpu_va entry (level + 1) root_pd_dirty m.

Fixpoint vidmmi_vm_update_level (n : nat) (start_va : Z) (parent : vm_pt) (level : Z) (root_pd_dirty : bool) (m : vmem)
  : res (vm_pt * bool * vmem) :=
  match n with
  | O => Err OutOfFuel
  | S n =>
      match pt_entries parent with
      | None => Ok (parent, root_pd_dirty, m)
      | Some entries =>
          let! pd_addr := deref (pt_buffer parent) in
          let! bm := deref (update_bitmap parent) in
          let! '(entries, root_pd_dirty, m) :=
            for_up (Z.to_nat (vidmmi_vm_pt_num_entries level)) 0
              (fun pd_idx '(entries, root_pd_dirty, m) =>
                 let! bit := rd bm pd_idx in
                 if bit : bool then
                   let! entry := rd entries pd_idx in
                   match pt_buffer entry with
                   | None => Ok (entries, root_pd_dirty, m)
                   | Some pt =>
                       let! '(entry, root_pd_dirty, m) :=
                         update_pd_entry (vidmmi_vm_update_level n) start_va level pd_addr pd_idx pt entry root_pd_dirty m in
                       let! entries := wr entries pd_idx entry in
                       Ok (entries, root_pd_dirty, m)
                   end
                 else Ok (entries, root_pd_dirty, m)) (entries, root_pd_dirty, m) in
          Ok (parent <| pt_entries := Some entries |>, root_pd_dirty, m)
      end
  end.

(** ** Finding the table of a page ([vidmmi_vm_get_pt_entry]) *)

(** The indices on the way to the entry, and the entry. *)
Definition vidmmi_vm_get_pt_entry (root : vm_pt) (start_addr : Z) : res (option (list Z * vm_pt)) :=
  iterate 4
    (fun '(entry, level, path) =>
       match pt_entries entry with
       | Some entries =>
           match pt_buffer entry with
           | None => Ok (inr None)
           | Some _ =>
               let addr_partion := Z.land start_addr (vidmmi_vm_pt_addr_mask level) in
               let idx := u32 (Z.shiftr addr_partion (vidmmi_vm_accum_pd_bits_count level)) in
               let! e := rd entries idx in Ok (inl (e, level + 1, path ++ [idx]))
           end
       | None => Ok (inr (if level =? 2 then Some (path, entry) else None))
       end) (root, 0, []).

(** The tree with the entry at a path replaced. *)
Fixpoint set_entry (path : list Z) (e root : vm_pt) : res vm_pt :=
  match path with
  | [] => Ok e
  | i :: path =>
      let! entries := deref (pt_entries root) in
      let! child := rd entries i in
      let! child := set_entry path e child in
      let! entries := wr entries i child in
      Ok (root <| pt_entries := Some entries |>)
  end.

(** ** Mapping and unmapping pages *)

(** The entries of one table the range from [s_addr] to [e_addr] takes. *)
Definition expect_nptes (s_addr e_addr : Z) : Z :=
  let n := vidmmi_vm_pt_num_entries ZX_PT_LEVEL_2 in
  let mask := n - 1 in
  if Z.land s_addr (2 ^ 32 - 1 - mask) =? Z.land e_addr (2 ^ 32 - 1 - mask) then u32 (e_addr - s_addr + 1)
  else u32 (n - Z.land s_addr mask).

(** [vidmm_vm_update_ptes]. *)
Definition vidmm_vm_update_ptes (fuel : nat) (entity entity_offset start_addr end_addr : Z) (root : vm_pt) (m : vmem)
  : res (Z * vm_pt * vmem) :=
  let vm_va := start_addr in
  iterate fuel
    (fun '(start_addr, root, m) =>
       if start_addr <? end_addr then
         let s_addr := Z.shiftr start_addr GPU_PAGE_SHIFT in
         let e_addr := Z.shiftr end_addr GPU_PAGE_SHIFT in
         let nptes := expect_nptes s_addr e_addr in
         let! found := vidmmi_vm_get_pt_entry root s_addr in
         match found with
         | Some (path, entry) =>
             match pt_buffer entry with
             | Some dst =>
                 let off := Z.land s_addr (vidmmi_vm_pt_num_entries ZX_PT_LEVEL_2 - 1) in
                 let! m := update_ptes_page dst off nptes entity entity_offset (u64 (Z.shiftl s_addr 12)) vm_va m in
                 let! entry := vidmmi_vm_pt_update_bitmap entry off (off + nptes - 1) true in
                 let! root := set_entry path entry root in
                 Ok (inl (u64 (Z.shiftl (s_addr + nptes) GPU_PAGE_SHIFT), root, m))
             | None => Ok (inr (E_FAIL, root, m))
             end
         | None => Ok (inr (E_FAIL, root, m))
         end
       else Ok (inr (S_OK, root, m))) (start_addr, root, m).

(** The part of the loop of [vidmmi_vm_release_pt] for the table of one page
    [s_addr], which gives up [nptes] pages: [path] and [entry] are what was found,
    [b] its buffer. *)
Definition release_table (s_addr nptes : Z) (path : list Z) (entry : vm_pt) (b : Z) (root : vm_pt) (m : vmem)
  : res (vm_pt * vmem) :=
  let off := Z.land s_addr (vidmmi_vm_pt_num_entries ZX_PT_LEVEL_2 - 1) in
  let! entry := vidmmi_vm_pt_update_bitmap entry off (off + nptes - 1) false in
  let! bm := deref (update_bitmap entry) in
  if existsb id bm then
    let! root := set_entry path entry root in Ok (root, m)
  else
    let! root := set_entry path (mkPt None 0 None (pt_entries entry) (pt_age entry)) root in
    let parent_off := Z.land (Z.shiftr s_addr (vidmmi_vm_accum_pd_bits_count ZX_PT_LEVEL_1))
                             (vidmmi_vm_pt_num_entries ZX_PT_LEVEL_1 - 1) in
    let! i := rd path 0 in
    let! entries := deref (pt_entries root) in
    let! parent := rd entries i in
    let! parent := vidmmi_vm_pt_update_bitmap parent parent_off parent_off false in
    let! root := set_entry [i] parent root in
    Ok (root, destroyed b m).

(** [vidmmi_vm_release_pt]: the entries in memory are left as they are. *)
Definition vidmmi_vm_release_pt (fuel : nat) (start_addr end_addr : Z) (root : vm_pt) (m : vmem) : res (vm_pt * vmem) :=
  iterate fuel
    (fun '(start_addr, root, m) =>
       if start_addr <? end_addr then
         let s_addr := Z.shiftr start_addr GPU_PAGE_SHIFT in
         let e_addr := Z.shiftr end_addr GPU_PAGE_SHIFT in
         let nptes := expect_nptes s_addr e_addr in
         let next := u64 (Z.shiftl (s_addr + nptes) GPU_PAGE_SHIFT) in
         let! found := vidmmi_vm_get_pt_entry root s_addr in
         match found with
         | Some (path, entry) =>
             match pt_buffer entry with
             | Some b => let! '(root, m) := release_table s_addr nptes path entry b root m in Ok (inl (next, root, m))
             | None => Ok (inl (next, root, m))
             end
         | None => Ok (inl (next, root, m))
         end
       else Ok (inr (root, m))) (start_addr, root, m).

(** [vidmm_vm_update_pd]. *)
Definition vidmm_vm_update_pd (root : vm_pt) (m : vmem) : res (vm_pt * bool * vmem) :=
  vidmmi_vm_update_level 4 0 root ZX_PT_LEVEL_ROOT false m.

(** [vidmm_vm_update_mapping] of the node at [node_offset] with [node_size]
    bytes, backed by [entity] from [offset] on. *)
Definition vidmm_vm_update_mapping (fuel : nat) (entity offset node_offset node_size : Z) (root : vm_pt) (m : vmem)
  : res (Z * vm_pt * vmem) :=
  let start_addr := node_offset in
  let end_addr := start_addr + node_size - 1 in
  let! '(result, root, m) :=
    vidmm_vm_alloc_pd 3 root (Z.shiftr start_addr GPU_PAGE_SHIFT) (Z.shiftr end_addr GPU_PAGE_SHIFT) ZX_PT_LEVEL_ROOT m in
  if negb (result =? S_OK) then Ok (result, root, m)
  else
    let! '(root, root_pd_dirty, m) := vidmm_vm_update_pd root m in
    let! '(result, root, m) := vidmm_vm_update_ptes fuel entity offset start_addr end_addr root m in
    Ok (result, root, if root_pd_dirty then m <| root_pd_age ::= fun a => a + 1 |> else m).

(** ** The GPU's walk *)

(** The page behind page number [p], for the root table [b]. *)
Definition table_entry (b i : Z) (m : vmem) : pte :=
  match bufs m !! b with
  | Some t => match rd t i with Ok p => p | Err _ => Zero end
  | None => Zero
  end.

Definition translate (root p : Z) (m : vmem) : option (Z * Z) :=
  match table_entry root (p / 2 ^ 20) m with
  | Dir b1 =>
      match table_entry b1 (p / 2 ^ 10 mod 2 ^ 10) m with
      | Dir b2 => match table_entry b2 (p mod 2 ^ 10) m with Page e k => Some (e, k) | _ => None end
      | _ => None
      end
  | _ => None
  end.

(** ** A new address space *)

(** The root at [b]; [t] is what the memory of the root table held before. *)
Definition fresh_root (b : Z) : vm_pt := mkPt (Some b) b (Some (replicate 256 false)) None 0.
Definition fresh_mem (age : Z) (bs : gmap Z (list pte)) (l : list answer) : vmem :=
  mkMem bs l age 1 (mkDirty true 0 0) (mkDirty true 0 0).

(** [vidmm_vm_init_vma_space] for the space of a process, without its zones. The
    root table is not cleared. Where there is no buffer the code frees the address
    space and then reads the root, which is a part of it. *)
Definition vidmm_vm_init_vma_space (age : Z) (t : list pte) (l : list answer) : res (Z * vm_pt * vmem) :=
  match l with
  | [] | CreateFails :: _ => Err OutOfBounds
  | MapFails b :: l => Ok (E_FAIL, (fresh_root b) <| pt_addr := 0 |>, fresh_mem age ∅ l)
  | BitmapFails b :: l | Fine b :: l => Ok (S_OK, fresh_root b, fresh_mem age {[ b := t ]} l)
  end.
