(* ===== verification/PageTree.v ===== *)
(** * The tree of page tables

    The invariant of the tree of [PageTable]: who owns which buffer, which bits
    of the bitmaps are set, what the tables of the directories contain; the entry
    of a page as the tree has it, and that the GPU's walk finds it. *)
From S2P Require Import Prelude.
From stdpp Require Import gmap.
From S2P Require Import PageTable.
Local Open Scope Z_scope.

(** ** Levels

    A node with [n] levels below it is on level [2 - n]; it spans [span n] pages,
    [width n] for each entry. *)
Definition lv (n : nat) : Z := 2 - Z.of_nat n.
Definition width (n : nat) : Z := 2 ^ (10 * Z.of_nat n).
Definition num (n : nat) : Z := if decide (n = 2%nat) then 256 else 1024.
Definition span (n : nat) : Z := num n * width n.

Lemma lv_facts n : (n <= 2)%nat ->
  vidmmi_vm_accum_pd_bits_count (lv n) = 10 * Z.of_nat n /\ vidmmi_vm_pt_num_entries (lv n) = num n.
Proof. intros H. destruct n as [|[|[|n]]]; [by vm_compute..|lia]. Qed.
Lemma lv_S n : lv (S n) + 1 = lv n.
Proof. unfold lv. lia. Qed.
Lemma num_pos n : 0 < num n.
Proof. unfold num. case_decide; lia. Qed.
Lemma width_pos n : 0 < width n.
Proof. unfold width. apply Z.pow_pos_nonneg; lia. Qed.
Lemma span_width n : (n <= 1)%nat -> span n = width (S n).
Proof. intros Hn. destruct n as [|[|n]]; [by vm_compute..|lia]. Qed.
Lemma mod_span n p : (S n <= 2)%nat -> 0 <= p mod width (S n) < span n.
Proof. intros Hn. rewrite span_width by lia. apply Z.mod_pos_bound, width_pos. Qed.
Lemma div_num n p : 0 <= p < span n -> 0 <= p / width n < num n.
Proof.
  intros Hp. unfold span in Hp. pose proof (width_pos n). split; [apply Z.div_pos; lia|].
  apply Z.div_lt_upper_bound; lia.
Qed.

(** ** The tree *)

Definition child (e : vm_pt) (i : Z) : option vm_pt :=
  match pt_entries e with Some l => match rd l i with Ok c => Some c | Err _ => None end | None => None end.

Definition bit_set (e : vm_pt) (i : Z) : Prop := exists bm, update_bitmap e = Some bm /\ rd bm i = Ok true.

(** The owner of each buffer: the path to its entry. *)
Abbreviation owners := (gmap Z (list Z)).

Record slot_ok (n : nat) (own : owners) (m : vmem) (path : list Z) (e : vm_pt) : Prop := mkEntryOk
  { e_none : pt_buffer e = None -> pt_addr e = 0 /\ update_bitmap e = None /\ pt_entries e = None;
    e_buffer : forall b, pt_buffer e = Some b -> b <> 0 /\ own !! b = Some path /\
      (exists t, bufs m !! b = Some t /\ zlen t = num n) /\
      (exists bm, update_bitmap e = Some bm /\ zlen bm = num n);
    e_entries : forall l, pt_entries e = Some l -> zlen l = num n }.

(** The entry [i] of [e] is [c]: its bit is set, and once its address is
    recorded the table of [e] points to it. *)
Definition dir_ok (m : vmem) (e : vm_pt) (i : Z) (c : vm_pt) : Prop :=
  forall b p, pt_buffer e = Some b -> pt_buffer c = Some p ->
    bit_set e i /\ (pt_addr c = p -> table_entry b i m = Dir p).

Fixpoint node_ok (n : nat) (own : owners) (m : vmem) (path : list Z) (e : vm_pt) : Prop :=
  slot_ok n own m path e /\
  match n with
  | O => pt_entries e = None
  | S n => forall i c, child e i = Some c -> dir_ok m e i c /\ node_ok n own m (path ++ [i]) c
  end.

(** The same for a list of entries of [e] that is not stored yet. *)
Definition kids_ok (n : nat) (own : owners) (m : vmem) (path : list Z) (e : vm_pt) (l : list vm_pt) : Prop :=
  zlen l = num (S n) /\ forall i c, rd l i = Ok c -> dir_ok m e i c /\ node_ok n own m (path ++ [i]) c.

(** Owned buffers are live. *)
Definition live (own : owners) (m : vmem) : Prop := forall b q, own !! b = Some q -> is_Some (bufs m !! b).

Definition bits (e : vm_pt) : list bool := match update_bitmap e with Some bm => bm | None => [] end.

(** The table of the page [p] of the node (counted from its first page), with
    its bitmap. *)
Fixpoint leaf_at (n : nat) (e : vm_pt) (p : Z) : option (Z * list bool) :=
  match n with
  | O => match pt_buffer e with Some b => Some (b, bits e) | None => None end
  | S n' =>
      match pt_buffer e, child e (p / width n) with
      | Some _, Some c => leaf_at n' c (p mod width n)
      | _, _ => None
      end
  end.

(** The entry of page [p] as the tree has it, and whether the bitmap has it as
    mapped. *)
Definition pte_of (n : nat) (e : vm_pt) (p : Z) (m : vmem) : pte * bool :=
  match leaf_at n e p with
  | Some (b, bm) => (table_entry b (p mod 2 ^ 10) m, bool_decide (rd bm (p mod 2 ^ 10) = Ok true))
  | None => (Zero, false)
  end.

(** The directories in memory agree with the tree. *)
Fixpoint synced (n : nat) (m : vmem) (e : vm_pt) : Prop :=
  match n with
  | O => True
  | S n => forall i c b p, child e i = Some c -> pt_buffer e = Some b -> pt_buffer c = Some p ->
             table_entry b i m = Dir p /\ synced n m c
  end.

(** The GPU's walk from level to level. *)
Fixpoint walk (n : nat) (b p : Z) (m : vmem) : option (Z * Z) :=
  match n with
  | O => match table_entry b p m with Page e k => Some (e, k) | _ => None end
  | S n' => match table_entry b (p / width n) m with Dir b' => walk n' b' (p mod width n) m | _ => None end
  end.

(** The indices on the way to the table of a page. *)
Fixpoint digits (n : nat) (p : Z) : list Z :=
  match n with O => [] | S n' => p / width n :: digits n' (p mod width n) end.

Lemma width_split n p : p mod width (S n) mod 2 ^ 10 = p mod 2 ^ 10.
Proof.
  unfold width. replace (10 * Z.of_nat (S n)) with (10 + 10 * Z.of_nat n) by lia.
  rewrite Z.pow_add_r by lia. pose proof (Z.pow_pos_nonneg 2 (10 * Z.of_nat n)).
  rewrite Z.rem_mul_r by lia. rewrite Z.mul_comm, Z_mod_plus_full. apply Z.mod_mod. lia.
Qed.

Lemma child_spec e i c : child e i = Some c <-> exists l, pt_entries e = Some l /\ rd l i = Ok c.
Proof.
  unfold child. destruct (pt_entries e) as [l|]; [|split; [done|by intros (? & ? & ?)]].
  split.
  - destruct (rd l i) eqn:E; [|done]. intros [= <-]. by exists l.
  - by intros (l' & [= <-] & ->).
Qed.

Lemma child_entries e l i c : pt_entries e = Some l -> rd l i = Ok c -> child e i = Some c.
Proof. intros Hl Hr. apply child_spec. eauto. Qed.

Lemma entry_of_S n e p m : pte_of (S n) e p m =
  match pt_buffer e, child e (p / width (S n)) with
  | Some _, Some c => pte_of n c (p mod width (S n)) m
  | _, _ => (Zero, false)
  end.
Proof.
  unfold pte_of. cbn [leaf_at]. destruct (pt_buffer e); [|done]. destruct (child e _); [|done].
  by rewrite width_split.
Qed.

Lemma leaf_none n e p : pt_buffer e = None -> leaf_at n e p = None.
Proof. intros H. destruct n; cbn [leaf_at]; by rewrite H. Qed.

Lemma node_entry n own m path e : node_ok n own m path e -> slot_ok n own m path e.
Proof. destruct n; by intros [? _]. Qed.

Lemma node_kids n own m path e l : node_ok (S n) own m path e -> pt_entries e = Some l -> kids_ok n own m path e l.
Proof.
  intros [He Hc] Hl. split; [by eapply e_entries|]. intros i c Hr. apply Hc. by eapply child_entries.
Qed.

Lemma link_head m e e' i c : pt_buffer e' = pt_buffer e -> (forall j, bit_set e j -> bit_set e' j) -> dir_ok m e i c -> dir_ok m e' i c.
Proof. intros Hb Hs Hl b p. rewrite Hb. intros H1 H2. destruct (Hl b p H1 H2). eauto. Qed.

Lemma link_child m e i c c' : pt_buffer c' = pt_buffer c -> pt_addr c' = pt_addr c -> dir_ok m e i c -> dir_ok m e i c'.
Proof. intros Hb Ha Hl b p. rewrite Hb, Ha. apply Hl. Qed.

(** A list of correct entries stored again. *)
Lemma node_store n own m path e l :
  slot_ok (S n) own m path e -> is_Some (pt_buffer e) -> kids_ok n own m path e l ->
  node_ok (S n) own m path (e <| pt_entries := Some l |>).
Proof.
  intros [E1 E2 E3] [b0 Hb0] [Hlen Hk]. split.
  - constructor; cbn; [congruence|done|]. by intros ? [= <-].
  - intros i c (l' & [= <-] & Hr)%child_spec. destruct (Hk i c Hr) as [Hl Hn]. split; [|done].
    eapply link_head; [..|exact Hl]; done.
Qed.

(** A new bitmap; one of a directory keeps the bits of the entries with a table. *)
Lemma node_bits n own m path e bm :
  node_ok n own m path e -> is_Some (pt_buffer e) -> zlen bm = num n ->
  (forall i c, child e i = Some c -> is_Some (pt_buffer c) -> bit_set e i -> bit_set (e <| update_bitmap := Some bm |>) i) ->
  node_ok n own m path (e <| update_bitmap := Some bm |>).
Proof.
  intros Hn [b0 Hb0] Hbm Hkeep. destruct (node_entry _ _ _ _ _ Hn) as [E1 E2 E3].
  assert (slot_ok n own m path (e <| update_bitmap := Some bm |>)) as He.
  { constructor; cbn; [congruence| |done]. intros b Hb. destruct (E2 b Hb) as (? & ? & ? & _).
    split; [done|]. split; [done|]. split; [done|]. by exists bm. }
  destruct n as [|n]; destruct Hn as [_ Hn]; (split; [done|]); [done|].
  intros i c Hc. destruct (Hn i c Hc) as [Hl Hn']. split; [|done].
  intros b p Hb Hp. destruct (Hl b p Hb Hp) as [Hbit Hd]. split; [|done]. apply (Hkeep i c); [done|by eexists|done].
Qed.

(** The fields of an entry that its node's tables depend on. *)
Lemma entry_frame n own own' m m' path e :
  slot_ok n own m path e ->
  (forall b, own !! b = Some path -> own' !! b = Some path /\ bufs m' !! b = bufs m !! b) ->
  slot_ok n own' m' path e.
Proof.
  intros [E1 E2 E3] Hf. constructor; [done| |done]. intros b Hb.
  destruct (E2 b Hb) as (H0 & Ho & (t & Ht & Hlen) & Hbm). destruct (Hf b Ho) as [Ho' Hb'].
  split; [done|]. split; [done|]. split; [|done]. exists t. by rewrite Hb'.
Qed.

Lemma link_frame m m' e i c :
  dir_ok m e i c -> (forall b, pt_buffer e = Some b -> bufs m' !! b = bufs m !! b) -> dir_ok m' e i c.
Proof.
  intros Hl Hf b p Hb Hp. destruct (Hl b p Hb Hp) as [Hs Hd]. split; [done|]. unfold table_entry. by rewrite (Hf b Hb).
Qed.

(** Only the buffers of the node and below matter. *)
Lemma node_frame n own own' m m' path e :
  node_ok n own m path e ->
  (forall b q, own !! b = Some q -> path `prefix_of` q -> own' !! b = Some q /\ bufs m' !! b = bufs m !! b) ->
  node_ok n own' m' path e.
Proof.
  revert path e. induction n as [|n IH]; intros path e [He Hc] Hf.
  - split; [|done]. eapply entry_frame; [done|]. intros b Hb. by apply Hf.
  - split; [eapply entry_frame; [done|]; intros b Hb; by apply Hf|].
    intros i c Hic. destruct (Hc i c Hic) as [Hlk Hn]. split.
    + eapply link_frame; [done|]. intros b Hb. destruct (e_buffer _ _ _ _ _ He b Hb) as (_ & Ho & _). by apply (Hf b path Ho).
    + eapply IH; [done|]. intros b q Hq Hpre. apply Hf; [done|]. etrans; [|exact Hpre]. by eexists.
Qed.

Lemma prefix_snoc {A} (path : list A) i q : path ++ [i] `prefix_of` q -> path `prefix_of` q.
Proof. intros H. etrans; [|exact H]. by eexists. Qed.
Lemma not_prefix_snoc {A} (path : list A) i : ~ path ++ [i] `prefix_of` path.
Proof. intros [k Hk]. apply (f_equal length) in Hk. rewrite !length_app in Hk. cbn in Hk. lia. Qed.
Lemma prefix_snoc_ne {A} (path : list A) i j q : i <> j -> path ++ [j] `prefix_of` q -> ~ path ++ [i] `prefix_of` q.
Proof.
  intros Hij [k Hk] [k' Hk']. rewrite Hk, <- !app_assoc in Hk'. apply app_inv_head in Hk'. cbn in Hk'. congruence.
Qed.

(** One entry of a node is replaced, and only what it owns has changed. *)
Lemma kids_set n own own' m m' path e l i c :
  slot_ok (S n) own m path e -> kids_ok n own m path e l -> 0 <= i < zlen l ->
  (forall b q, own !! b = Some q -> ~ path ++ [i] `prefix_of` q -> own' !! b = Some q /\ bufs m' !! b = bufs m !! b) ->
  dir_ok m' e i c -> node_ok n own' m' (path ++ [i]) c ->
  slot_ok (S n) own' m' path e /\ kids_ok n own' m' path e (<[Z.to_nat i := c]> l).
Proof.
  intros He [Hlen Hk] Hi Hf Hl Hc.
  assert (Hself : forall b, own !! b = Some path -> own' !! b = Some path /\ bufs m' !! b = bufs m !! b).
  { intros b Hb. apply Hf; [done|apply not_prefix_snoc]. }
  split; [by eapply entry_frame|]. split; [by rewrite zlen_insert|]. intros j c' Hr.
  pose proof (rd_bound _ _ _ Hr) as Hj. destruct (Z.eq_dec i j) as [<-|Hij].
  - rewrite rd_insert_eq in Hr by done. injection Hr as <-. done.
  - rewrite rd_insert_ne in Hr by lia. destruct (Hk j c' Hr) as [Hl' Hn']. split.
    + eapply link_frame; [done|]. intros b Hb. destruct (e_buffer _ _ _ _ _ He b Hb) as (_ & Ho & _). by apply Hself.
    + eapply node_frame; [done|]. intros b q Hq Hpre. apply Hf; [done|]. by eapply prefix_snoc_ne.
Qed.

Lemma synced_frame n own m m' path e :
  node_ok n own m path e -> synced n m e ->
  (forall b q, own !! b = Some q -> path `prefix_of` q -> bufs m' !! b = bufs m !! b) -> synced n m' e.
Proof.
  revert path e. induction n as [|n IH]; [done|]. intros path e [He Hc] Hs Hf i c b p Hic Hb Hp.
  destruct (Hs i c b p Hic Hb Hp) as [Hd Hs']. destruct (Hc i c Hic) as [_ Hn]. split.
  - unfold table_entry. destruct (e_buffer _ _ _ _ _ He b Hb) as (_ & Ho & _). by rewrite (Hf b path).
  - eapply IH; [done..|]. intros b' q Hq Hpre. eapply Hf; [done|]. by eapply prefix_snoc.
Qed.

(** ** The entry of a page *)

(** The table of a page is live by the path of its indices. *)
Lemma leaf_owner n own m path e p b bm :
  node_ok n own m path e -> leaf_at n e p = Some (b, bm) -> own !! b = Some (path ++ digits n p).
Proof.
  revert path e p. induction n as [|n IH]; intros path e p Hn Hl.
  - cbn in *. rewrite app_nil_r. destruct Hn as [He _]. destruct (pt_buffer e) as [b'|] eqn:Hb; [|done].
    injection Hl as -> _. by destruct (e_buffer _ _ _ _ _ He b Hb) as (_ & ? & _).
  - cbn [leaf_at] in Hl. destruct (pt_buffer e); [|done]. destruct (child e _) as [c|] eqn:Hc; [|done].
    destruct Hn as [_ Hn]. destruct (Hn _ _ Hc) as [_ Hn']. rewrite (IH _ _ _ Hn' Hl). cbn [digits]. by rewrite <- app_assoc.
Qed.

Lemma length_digits n p : length (digits n p) = n.
Proof. revert p. induction n as [|n IH]; intros p; [done|]. cbn [digits length]. by rewrite IH. Qed.

Lemma leaf_live n own m path e p b bm :
  node_ok n own m path e -> leaf_at n e p = Some (b, bm) -> exists t, bufs m !! b = Some t /\ zlen t = 1024.
Proof.
  revert path e p. induction n as [|n IH]; intros path e p Hn Hl.
  - cbn in *. destruct Hn as [He _]. destruct (pt_buffer e) as [b'|] eqn:Hb; [|done].
    injection Hl as -> _. by destruct (e_buffer _ _ _ _ _ He b Hb) as (_ & _ & ? & _).
  - cbn [leaf_at] in Hl. destruct (pt_buffer e); [|done]. destruct (child e _) as [c|] eqn:Hc; [|done].
    destruct Hn as [_ Hn]. destruct (Hn _ _ Hc) as [_ Hn']. by eapply IH.
Qed.

Lemma entry_of_frame n own m m' path e p :
  node_ok n own m path e ->
  (forall b, own !! b = Some (path ++ digits n p) -> bufs m' !! b = bufs m !! b) ->
  pte_of n e p m' = pte_of n e p m.
Proof.
  intros Hn Hf. unfold pte_of. destruct (leaf_at n e p) as [[b bm]|] eqn:Hl; [|done].
  unfold table_entry. by rewrite (Hf b) by by eapply leaf_owner.
Qed.

(** Two pages share a table exactly when they share all but the last index. *)
Lemma digits_page n p p' : (n <= 2)%nat -> 0 <= p < span n -> 0 <= p' < span n ->
  digits n p = digits n p' -> p / 2 ^ 10 = p' / 2 ^ 10.
Proof.
  intros Hn Hp Hp'. destruct n as [|[|[|n]]]; [..|lia].
  - change (span 0) with 1024 in *. intros _. rewrite !Z.div_small by (change (2 ^ 10) with 1024; lia). done.
  - unfold digits. by intros [=].
  - unfold digits, width. change (2 ^ (10 * Z.of_nat 2)) with (2 ^ 20). change (2 ^ (10 * Z.of_nat 1)) with (2 ^ 10).
    intros [= H1 H2]. dlia.
Qed.

(** ** The GPU's walk *)

Lemma translate_walk b p m : 0 <= p -> translate b p m = walk 2 b p m.
Proof.
  intros Hp. unfold translate, walk, width. change (2 ^ (10 * Z.of_nat 2)) with (2 ^ 20).
  change (2 ^ (10 * Z.of_nat 1)) with (2 ^ 10).
  destruct (table_entry b (p / 2 ^ 20) m); try done.
  replace (p mod 2 ^ 20 / 2 ^ 10) with (p / 2 ^ 10 mod 2 ^ 10) by dlia.
  replace (p mod 2 ^ 20 mod 2 ^ 10) with (p mod 2 ^ 10) by dlia. done.
Qed.

(** The walk finds what the tree says. *)
Lemma walk_leaf n own m path e b p lb bm : (n <= 2)%nat ->
  node_ok n own m path e -> synced n m e -> pt_buffer e = Some b -> 0 <= p < span n -> leaf_at n e p = Some (lb, bm) ->
  walk n b p m = match table_entry lb (p mod 2 ^ 10) m with Page x k => Some (x, k) | _ => None end.
Proof.
  revert path e b p. induction n as [|n IH]; intros path e b p Hle Hn Hs Hb Hp Hl.
  - cbn in Hl. rewrite Hb in Hl. injection Hl as <- _. cbn [walk]. change (span 0) with 1024 in Hp.
    by rewrite (Z.mod_small p (2 ^ 10)) by (change (2 ^ 10) with 1024; lia).
  - cbn [leaf_at walk] in *. rewrite Hb in Hl. destruct (child e (p / width (S n))) as [c|] eqn:Hc; [|done].
    destruct Hn as [He Hn]. destruct (Hn _ _ Hc) as [_ Hcn].
    destruct (pt_buffer c) as [pb|] eqn:Hpb; [|by rewrite leaf_none in Hl].
    destruct (Hs _ _ _ _ Hc Hb Hpb) as [-> Hs'].
    rewrite (IH _ _ _ _ ltac:(lia) Hcn Hs' Hpb); [by rewrite width_split|by apply mod_span|exact Hl].
Qed.
