(* ===== verification/PageAlloc.v ===== *)
(** * Allocation of page tables

    [vidmm_vm_alloc_pd] on a correct tree: it adds tables and changes no live
    one, whatever the allocator answers; where it succeeds, every page of the
    range has a table, the entries of all pages are what they were, and the tree
    is correct again. It fails only where the allocator does. *)
From S2P Require Import Prelude.
From stdpp Require Import gmap.
From S2P Require Import PageTable PageTree.
Local Open Scope Z_scope.

(** ** Growth *)

(** What a call leaves alone, whether it succeeds or not. *)
Record kept (m m' : vmem) : Prop := mkKept
  { k_bufs : bufs m ⊆ bufs m'; k_resume : resume_age m' = resume_age m; k_root : root_pd_age m' = root_pd_age m;
    k_utlb : utlb m' = utlb m; k_dtlb : dtlb m' = dtlb m }.
#[export] Instance kept_preorder : PreOrder kept.
Proof.
  split; [by constructor|]. intros m1 m2 m3 [] []. constructor; [by etrans|congruence..].
Qed.

(** New buffers belong to nodes below [path]. *)
Record grew (path : list Z) (own : owners) (own' : owners) (m' : vmem) : Prop := mkGrew
  { g_own : own ⊆ own'; g_new : forall b q, own' !! b = Some q -> own !! b = Some q \/ path `prefix_of` q;
    g_owned : live own' m' }.

Lemma grew_refl path own m : live own m -> grew path own own m.
Proof. constructor; auto. Qed.

Lemma grew_below path path' own own1 own2 m1 m2 :
  grew path own own1 m1 -> path `prefix_of` path' -> grew path' own1 own2 m2 -> grew path own own2 m2.
Proof.
  intros [S1 N1 _] Hp [S2 N2 O2]. constructor; [by etrans| |done].
  intros b q Hb. destruct (N2 b q Hb) as [Hb1|Hq]; [by apply N1|]. right. by etrans.
Qed.

Lemma kept_live own m m' b q : live own m -> kept m m' -> own !! b = Some q -> bufs m' !! b = bufs m !! b.
Proof. intros Ho Hk Hb. destruct (Ho b q Hb) as [t Ht]. rewrite Ht. destruct Hk as [Hs _ _ _ _]. by eapply lookup_weaken. Qed.

(** Growth keeps a node. *)
Lemma node_grew n own own' m m' path path' e :
  live own m -> kept m m' -> grew path' own own' m' -> node_ok n own m path e -> node_ok n own' m' path e.
Proof.
  intros Ho Hk Hg Hn. eapply node_frame; [exact Hn|]. intros b q Hb _. split; [|by eapply kept_live].
  destruct Hg as [Hs _ _]. by eapply lookup_weaken.
Qed.

Lemma entry_of_kept n own m m' path e p :
  live own m -> kept m m' -> node_ok n own m path e -> pte_of n e p m' = pte_of n e p m.
Proof. intros Ho Hk Hn. eapply entry_of_frame; [done|]. intros b Hb. by eapply kept_live. Qed.

(** ** An allocator that does not fail *)

(** The next [k] answers are new buffers. *)
Definition fine_answers (k : nat) (m : vmem) : Prop :=
  exists l, answers m = Fine <$> l /\ NoDup l /\ (k <= length l)%nat /\ forall b, In b l -> b <> 0 /\ bufs m !! b = None.

(** ** The table of one entry ([make_table]) *)

Definition table (n : nat) : list pte := replicate (Z.to_nat (num n)) Zero.

(** The new table [b] of the entry at [path]. *)
Lemma new_table_ok n own m m' path e b :
  node_ok n own m path e -> pt_buffer e = None -> live own m -> b <> 0 -> bufs m !! b = None ->
  bufs m' = <[b := table n]> (bufs m) ->
  resume_age m' = resume_age m -> root_pd_age m' = root_pd_age m -> utlb m' = utlb m -> dtlb m' = dtlb m ->
  let e' := mkPt (Some b) 0 (Some (replicate (Z.to_nat (num n)) false)) None (resume_age m) in
  kept m m' /\ grew path own (<[b := path]> own) m' /\ node_ok n (<[b := path]> own) m' path e'.
Proof.
  intros Hn Hb Ho H0 Hnew Hm' ? ? ? ? e'.
  assert (own !! b = None) as Hob.
  { destruct (own !! b) as [q|] eqn:E; [|done]. destruct (Ho b q E) as [? ?]. congruence. }
  split; [|split].
  - constructor; [|done..]. rewrite Hm'. by apply insert_subseteq.
  - constructor.
    + by apply insert_subseteq.
    + intros b' q Hq. destruct (decide (b' = b)) as [->|].
      * rewrite lookup_insert_eq in Hq. injection Hq as <-. by right.
      * rewrite lookup_insert_ne in Hq by done. by left.
    + intros b' q Hq. rewrite Hm'. destruct (decide (b' = b)) as [->|].
      * rewrite lookup_insert_eq. by eexists.
      * rewrite lookup_insert_ne in Hq by done. rewrite lookup_insert_ne by done. by eapply Ho.
  - assert (slot_ok n (<[b := path]> own) m' path e') as He.
    { pose proof (num_pos n). constructor; [done| |done]. intros b' [= <-]. split; [done|].
      rewrite Hm', !lookup_insert_eq. split; [done|].
      split; eexists; (split; [reflexivity|]); unfold table; rewrite zlen_replicate; lia. }
    destruct n; split; [done..|by intros ? ? (? & ? & ?)%child_spec].
Qed.

Lemma entry_of_new n e p m b t :
  pt_buffer e = Some b -> pt_entries e = None -> (exists k, bits e = replicate k false) -> bufs m !! b = Some t -> (exists k, t = replicate k Zero) ->
  pte_of n e p m = (Zero, false).
Proof.
  intros Hb He [k' Hbits] Ht [k ->]. unfold pte_of. destruct n; cbn [leaf_at]; rewrite Hb.
  - unfold table_entry. rewrite Ht, Hbits, bool_decide_eq_false_2.
    + destruct (rd (replicate k Zero) _) eqn:E; [|done]. by apply rd_inv in E as [_ [-> _]%lookup_replicate].
    + by intros [_ [? _]%lookup_replicate]%rd_inv.
  - by unfold child; rewrite He.
Qed.

(** What the call for one entry guarantees: nothing live changes; on success the
    tree below is correct with the same entries of pages; the answers used up are
    at most [cost]. *)
Record entry_post (n : nat) (own : owners) (m : vmem) (path : list Z) (e : vm_pt) (cost : nat)
    (r : Z) (e' : vm_pt) (m' : vmem) : Prop := mkEntryPost
  { p_kept : kept m m';
    p_ok : r = S_OK -> exists own', grew path own own' m' /\ node_ok n own' m' path e' /\ is_Some (pt_buffer e') /\
             (forall p, pte_of n e' p m' = pte_of n e p m) /\
             (pt_buffer e' = pt_buffer e /\ pt_addr e' = pt_addr e \/ pt_buffer e' <> Some (pt_addr e'));
    p_fine : forall k, fine_answers (cost + k) m -> r = S_OK /\ fine_answers k m' }.

Lemma fine_more k k' m : (k <= k')%nat -> fine_answers k' m -> fine_answers k m.
Proof. intros Hk (l & Hl & Hd & Hlen & Hf). exists l. split; [done|]. split; [done|]. split; [lia|done]. Qed.

Lemma fine_next k m b rest t :
  fine_answers (S k) m -> answers m = Fine b :: rest ->
  b <> 0 /\ bufs m !! b = None /\ fine_answers k (m <| answers := rest |> <| bufs ::= <[b := t]> |>).
Proof.
  intros (l & Hl & Hd & Hlen & Hf) Ha. destruct l as [|b' l]; [cbn in Hlen; lia|].
  rewrite Hl in Ha. injection Ha as -> <-. inversion_clear Hd as [|? ? Hb Hd'].
  destruct (Hf b) as [H0 Hn]; [by left|]. split; [done|]. split; [done|].
  exists l. split; [done|]. split; [done|]. split; [cbn in Hlen; lia|].
  intros b1 H1. cbn. destruct (Hf b1) as [? ?]; [by right|]. split; [done|].
  rewrite lookup_insert_ne; [done|]. intros ->. apply Hb. by apply list_elem_of_In.
Qed.


(** A buffer that is made and destroyed at once leaves the others alone. *)
Lemma kept_destroyed m rest b t :
  bufs m !! b = None -> kept m (destroyed b (m <| answers := rest |> <| bufs ::= <[b := t]> |>)).
Proof.
  intros Hb. constructor; [|done..]. apply map_subseteq_spec. intros b' t' H. cbn.
  assert (b' <> b) by congruence. by rewrite lookup_delete_ne, lookup_insert_ne by done.
Qed.

(** A call that fails for want of a buffer. *)
Lemma entry_post_fails n own m path e cost r e' m' :
  r <> S_OK -> kept m m' -> (forall k, ~ fine_answers (S k) m) -> (0 < cost)%nat -> entry_post n own m path e cost r e' m'.
Proof.
  intros Hr Hk Hf Hc. constructor; [done|done|]. intros k H. destruct cost as [|c]; [lia|]. by destruct (Hf (c + k)%nat).
Qed.

Lemma make_table_ok n own m path e : (n <= 2)%nat ->
  node_ok n own m path e -> pt_buffer e = None -> live own m ->
  let '(r, e', m') := make_table (lv n) e m in entry_post n own m path e 1 r e' m'.
Proof.
  intros Hn Hok Hb Ho. destruct (e_none _ _ _ _ _ (node_entry _ _ _ _ _ Hok) Hb) as (Ha & Hbm & Hen).
  unfold make_table. rewrite (proj2 (lv_facts n Hn)). cbn -[fine_answers S_OK E_FAIL E_OUTOFMEMORY]. rewrite Hbm.
  destruct (answers m) as [|a rest] eqn:Has.
  { apply entry_post_fails; [done|done| |lia]. intros k (l & Hl & _ & Hlen & _). rewrite Has in Hl. destruct l; [cbn in Hlen; lia|done]. }
  assert (kept m (m <| answers := rest |>)) as Hk0 by by constructor.
  assert (Hnf : (forall b, a <> Fine b) -> forall k, ~ fine_answers (S k) m).
  { intros Hne k (l & Hl & _ & Hlen & _). destruct l as [|b l]; [cbn in Hlen; lia|]. apply (Hne b). rewrite Has in Hl. by injection Hl. }
  destruct a as [|b|b|b]; [|case_decide as Hd..].
  all: try by apply entry_post_fails; [done|exact Hk0|by apply Hnf|lia].
  - apply entry_post_fails; [done| |by apply Hnf|lia]. apply kept_destroyed. apply eq_None_not_Some. tauto.
  - apply entry_post_fails; [done| |by apply Hnf|lia]. apply kept_destroyed. apply eq_None_not_Some. tauto.
  - apply entry_post_fails; [done|exact Hk0| |lia]. intros k Hf. destruct (fine_next k m b rest [] Hf Has) as (? & Hn' & _).
    destruct Hd as [?|[? ?]]; congruence.
  - set (m1 := m <| answers := rest |> <| bufs ::= <[b := table n]> |>).
    apply Decidable.not_or in Hd as [H0 Hnew%eq_None_not_Some].
    destruct (new_table_ok n own m m1 path e b) as (Hk & Hg & Hok'); [done..|].
    constructor; [exact Hk| |].
    + intros _. exists (<[b := path]> own). split; [done|]. rewrite Ha, Hen.
      split; [exact Hok'|]. split; [by eexists|]. split; [|right; cbn; congruence].
      intros p. transitivity (Zero, false); [|unfold pte_of; by rewrite leaf_none].
      eapply entry_of_new; [done|done|by eexists| |by eexists]. cbn. by rewrite lookup_insert_eq.
    + intros k Hf. split; [done|]. by eapply (fine_next k m b rest).
Qed.

(** ** Bitmaps *)

Lemma update_bitmap_ok e bm s t v :
  update_bitmap e = Some bm -> 0 <= s -> t < zlen bm ->
  exists bm', vidmmi_vm_pt_update_bitmap e s t v = Ok (e <| update_bitmap := Some bm' |>) /\ zlen bm' = zlen bm /\
    (forall i, s <= i <= t -> rd bm' i = Ok v) /\ (forall i, ~ s <= i <= t -> rd bm' i = rd bm i).
Proof.
  intros He Hs Ht. unfold vidmmi_vm_pt_update_bitmap. rewrite He.
  destruct (for_up_rule (fun j q => zlen q = zlen bm /\ (forall i, s <= i < j -> rd q i = Ok v) /\
    (forall i, ~ s <= i < j -> rd q i = rd bm i)) (Z.to_nat (t - s + 1)) s (fun i bm => wr bm i v) bm) as (q & -> & Hl & Hin & Hout).
  - intros j q Hj (Hl & Hin & Hout). rewrite wr_in by lia. eexists. split; [done|]. split; [by rewrite zlen_insert|]. split.
    + intros i Hi. destruct (Z.eq_dec i j) as [->|]; [apply rd_insert_eq; lia|]. rewrite rd_insert_ne by lia. apply Hin. lia.
    + intros i Hi. destruct (Z.lt_ge_cases i 0); [by rewrite !rd_out by lia|]. rewrite rd_insert_ne by lia. apply Hout. lia.
  - split; [done|]. split; [lia|done].
  - cbn [rbind]. exists q. split; [done|]. split; [done|].
    split; intros i Hi; [apply Hin; lia|].
    destruct (decide (s <= t + 1)); [apply Hout; lia|].
    apply Hout. lia.
Qed.

Lemma check_bitmap_ok e bm s t :
  update_bitmap e = Some bm -> 0 <= s <= t -> t < zlen bm ->
  exists all, vidmmi_vm_pt_check_bitmap e s t = Ok all /\ (all = true -> forall i, s <= i <= t -> rd bm i = Ok true).
Proof.
  intros He Hs Ht. unfold vidmmi_vm_pt_check_bitmap. rewrite He. cbn [deref rbind].
  match goal with |- context [for_up ?n s ?f ?x] => destruct (for_up_rule (fun j '(all, broke) =>
    (broke = true -> all = false) /\ (broke = false -> forall i, s <= i < j -> rd bm i = Ok true)) n s f x)
    as ((all & broke) & -> & Hb & Hok) end.
  - intros j (all & broke) Hj (Hb & Hok). destruct broke; [eexists; split; [reflexivity|]; split; [done|done]|].
    destruct (rd_in bm j) as [b Hr]; [lia|]. rewrite Hr. cbn [rbind]. destruct b; eexists; (split; [reflexivity|]); split; try done.
    intros _ i Hi. destruct (Z.eq_dec i j) as [->|]; [done|]. apply Hok; [done|lia].
  - split; [done|]. intros _ i Hi. lia.
  - cbn [rbind]. exists all. split; [done|]. intros -> i Hi. destruct broke; [by specialize (Hb eq_refl)|]. apply Hok; [done|lia].
Qed.

(** The two together: the bits of the range are set, none is cleared. *)
Lemma mark_ok n own m path e s t :
  slot_ok n own m path e -> is_Some (pt_buffer e) -> 0 <= s <= t -> t < num n ->
  wp (let! all := vidmmi_vm_pt_check_bitmap e s t in
      if all then Ok e else vidmmi_vm_pt_update_bitmap e s t true)
    (fun e' => exists bm', e' = e <| update_bitmap := Some bm' |> /\ zlen bm' = num n /\
       (forall i, s <= i <= t -> bit_set e' i) /\ (forall i, bit_set e i -> bit_set e' i)).
Proof.
  intros He [b Hb] Hs Ht. destruct (e_buffer _ _ _ _ _ He b Hb) as (_ & _ & _ & bm & Hbm & Hlen).
  destruct (check_bitmap_ok e bm s t Hbm) as (all & -> & Hall); [done|lia|]. cbn [rbind]. destruct all.
  - exists bm. split; [destruct e; cbn in *; by rewrite Hbm|]. split; [done|]. split; [|done].
    intros i Hi. exists bm. auto.
  - destruct (update_bitmap_ok e bm s t true Hbm) as (bm' & -> & Hl & Hin & Hout); [lia|lia|].
    exists bm'. split; [done|]. split; [lia|]. split; [intros i Hi; exists bm'; auto|].
    intros i (bm0 & Hbm0 & Hr). assert (bm0 = bm) as -> by congruence. exists bm'. split; [done|].
    destruct (decide (s <= i <= t)); [by apply Hin|]. by rewrite Hout.
Qed.

(** ** One entry of the loop *)

(** The most answers that tables below a node can use up. *)
Fixpoint full (n : nat) : nat :=
  match n with O => O | S n' => (Z.to_nat (num n) * (1 + full n'))%nat end.
Definition cost (n : nat) (s t : Z) : nat :=
  match n with O => O | S n' => (Z.to_nat (t / width n - s / width n + 1) * (1 + full n'))%nat end.

Lemma cost_full n s t : 0 <= s <= t -> t < span n -> (cost n s t <= full n)%nat.
Proof.
  intros Hs Ht. destruct n as [|n]; [done|]. cbn [cost full]. apply Nat.mul_le_mono_r.
  pose proof (div_num (S n) t ltac:(lia)). pose proof (div_num (S n) s ltac:(lia)). lia.
Qed.

Lemma entry_post_mono n own m path e c c' r e' m' :
  (c <= c')%nat -> entry_post n own m path e c r e' m' -> entry_post n own m path e c' r e' m'.
Proof.
  intros Hc [K O F]. constructor; [done..|]. intros k Hf. destruct (F (c' - c + k)%nat) as [Hr Hf'].
  - eapply fine_more; [|exact Hf]. lia.
  - split; [done|]. eapply fine_more; [|exact Hf']. lia.
Qed.

Lemma entry_post_refl n own m path e :
  node_ok n own m path e -> live own m -> is_Some (pt_buffer e) -> entry_post n own m path e 0 S_OK e m.
Proof.
  intros Hn Ho Hb. constructor; [done| |done]. intros _. exists own.
  split; [by apply grew_refl|]. split; [done|]. split; [done|]. split; [done|by left].
Qed.

Lemma entry_post_trans n own m path e c1 e1 m1 c2 (M : res (Z * vm_pt * vmem)) (P : Z -> vm_pt -> Prop) :
  entry_post n own m path e c1 S_OK e1 m1 ->
  (forall own1, grew path own own1 m1 -> node_ok n own1 m1 path e1 -> is_Some (pt_buffer e1) ->
    wp M (fun '(r, e2, m2) => entry_post n own1 m1 path e1 c2 r e2 m2 /\ P r e2)) ->
  wp M (fun '(r, e2, m2) => entry_post n own m path e (c1 + c2) r e2 m2 /\ P r e2).
Proof.
  intros [K1 O1 F1] HM. destruct (O1 eq_refl) as (own1 & Hg1 & Hn1 & Hb1 & He1 & Hh1).
  eapply wp_mono; [by apply (HM own1)|]. intros [[r e2] m2] [[K2 O2 F2] HP]. split; [|exact HP].
  constructor; [by etrans| |].
  - intros Hr. destruct (O2 Hr) as (own2 & Hg2 & Hn2 & Hb2 & He2 & Hh2). exists own2.
    split; [by eapply grew_below|]. split; [done|]. split; [done|]. split; [intros p; by rewrite He2|].
    destruct Hh2 as [[Hb Ha]|Hh2]; [|by right]. rewrite Hb, Ha. done.
  - intros k Hf. destruct (F1 (c2 + k)%nat) as [_ Hf1]; [by rewrite Nat.add_assoc|]. by apply F2.
Qed.

(** What [vidmm_vm_alloc_pd] promises for a node with [n] levels below it. *)
Definition alloc_spec (n : nat) (alloc_pd : vm_pt -> Z -> Z -> Z -> vmem -> res (Z * vm_pt * vmem)) : Prop :=
  forall own m path e s t, node_ok n own m path e -> live own m -> is_Some (pt_buffer e) -> 0 <= s <= t -> t < span n ->
    wp (alloc_pd e s t (lv n) m) (fun '(r, e', m') =>
      entry_post n own m path e (cost n s t) r e' m' /\
      (r = S_OK -> pt_buffer e' = pt_buffer e /\ forall p, s <= p <= t -> is_Some (leaf_at n e' p))).

Lemma alloc_entry_ok n alloc_pd own m path c s t : (n <= 1)%nat ->
  (n = 1%nat -> alloc_spec n alloc_pd) ->
  node_ok n own m path c -> live own m -> 0 <= s <= t -> t < width (S n) ->
  wp (alloc_entry alloc_pd (lv n) s t c m) (fun '(r, c', m') =>
    entry_post n own m path c (1 + full n) r c' m' /\ (r = S_OK -> forall p, s <= p <= t -> is_Some (leaf_at n c' p))).
Proof.
  intros Hn Hrec Hc Ho Hs Ht. rewrite <- span_width in Ht by done. unfold alloc_entry.
  assert (H : let '(r, c1, m1) := match pt_buffer c with None => make_table (lv n) c m | Some _ => (S_OK, c, m) end in
    entry_post n own m path c 1 r c1 m1).
  { destruct (pt_buffer c) eqn:Hb.
    - eapply entry_post_mono, entry_post_refl; [lia|done..|by rewrite Hb].
    - apply make_table_ok; [lia|done..]. }
  destruct (match pt_buffer c with None => _ | Some _ => _ end) as [[r c1] m1].
  destruct (Z.eqb_spec r S_OK) as [->|Hr]; cbn [andb]; [|cbn [wp]; split; [eapply entry_post_mono; [|exact H]; lia|done]].
  destruct n as [|n]; cbn [lv].
  - cbn [wp]. split; [exact H|]. intros _ p _. destruct (p_ok _ _ _ _ _ _ _ _ _ H eq_refl) as (? & _ & _ & [b Hb] & _).
    cbn. rewrite Hb. by eexists.
  - assert (n = 0%nat) as -> by lia. change (lv 1 <? vidmmi_vm_pt_level_num - 1) with true. cbn match.
    eapply entry_post_trans; [exact H|]. intros own1 Hg Hn1 Hb.
    eapply wp_mono; [apply (Hrec eq_refl own1 m1 path c1 s t); [done|by destruct Hg|done..]|].
    intros [[r c2] m2] [Hp Hl]. split; [|intros Hr p Hpp; by apply (Hl Hr)].
    eapply entry_post_mono; [|exact Hp]. apply cost_full; [done|exact Ht].
Qed.

(** ** The loop over the entries *)

Definition sub_s (w s i : Z) : Z := if i =? s / w then s mod w else 0.
Definition sub_e (w t i : Z) : Z := if i =? t / w then t mod w else w - 1.

Lemma sub_range w s t i : 0 < w -> 0 <= s <= t -> s / w <= i <= t / w ->
  0 <= sub_s w s i <= sub_e w t i /\ sub_e w t i < w.
Proof.
  intros Hw Hs Hi. unfold sub_s, sub_e. pose proof (Z.mod_pos_bound s w Hw). pose proof (Z.mod_pos_bound t w Hw).
  destruct (Z.eqb_spec i (s / w)), (Z.eqb_spec i (t / w)); try lia.
  pose proof (Z.div_mod s w). pose proof (Z.div_mod t w). nia.
Qed.

Lemma sub_covers w s t p : 0 < w -> s <= p <= t -> sub_s w s (p / w) <= p mod w <= sub_e w t (p / w).
Proof.
  intros Hw Hp. unfold sub_s, sub_e. pose proof (Z.mod_pos_bound p w Hw).
  pose proof (Z.div_mod s w). pose proof (Z.div_mod t w). pose proof (Z.div_mod p w).
  destruct (Z.eqb_spec (p / w) (s / w)), (Z.eqb_spec (p / w) (t / w)); nia.
Qed.

(** The state of the loop before entry [cur]: [l0] were the entries. *)
Record loop_inv (n : nat) (own : owners) (m : vmem) (path : list Z) (e : vm_pt) (l0 : list vm_pt) (s t cur : Z)
    (r : Z) (l : list vm_pt) (m1 : vmem) : Prop := mkLoopInv
  { l_len : zlen l = num (S n);
    l_kept : kept m m1;
    l_ok : r = S_OK -> exists own1, grew path own own1 m1 /\ slot_ok (S n) own1 m1 path e /\ kids_ok n own1 m1 path e l /\
      (forall i c0 c p, rd l0 i = Ok c0 -> rd l i = Ok c -> pte_of n c p m1 = pte_of n c0 p m) /\
      (forall i c p, s / width (S n) <= i < cur -> rd l i = Ok c ->
         sub_s (width (S n)) s i <= p <= sub_e (width (S n)) t i -> is_Some (leaf_at n c p)) /\
      (forall i, cur <= i < num (S n) -> rd l i = rd l0 i);
    l_fine : forall k, fine_answers (cost (S n) s t + k) m ->
      r = S_OK /\ fine_answers (Z.to_nat (t / width (S n) + 1 - cur) * (1 + full n) + k) m1 }.

(** One round: entry [cur] is done. *)
Lemma loop_step n own m path e l0 s t cur l m1 c (M : res (Z * vm_pt * vmem)) :
  loop_inv n own m path e l0 s t cur S_OK l m1 -> s / width (S n) <= cur <= t / width (S n) ->
  cur < num (S n) -> 0 <= cur -> bit_set e cur -> rd l cur = Ok c ->
  (forall own1, grew path own own1 m1 -> node_ok n own1 m1 (path ++ [cur]) c ->
     wp M (fun '(r, c', m2) => entry_post n own1 m1 (path ++ [cur]) c (1 + full n) r c' m2 /\
     (r = S_OK -> forall p, sub_s (width (S n)) s cur <= p <= sub_e (width (S n)) t cur -> is_Some (leaf_at n c' p)))) ->
  wp M (fun '(r, c', m2) => loop_inv n own m path e l0 s t (cur + 1) r (<[Z.to_nat cur := c']> l) m2).
Proof.
  intros [Hlen Hk Hok Hfine] Hcur Hnum H0 Hbit Hc Hpost.
  destruct (Hok eq_refl) as (own1 & Hg1 & He1 & Hkids1 & Hent1 & Hcov1 & Hrest1).
  destruct (proj2 Hkids1 cur c Hc) as [Hl1 Hn1].
  eapply wp_mono; [by apply (Hpost own1)|]. intros [[r c'] m2] [[K2 O2 F2] Hcov2].
  constructor; [by rewrite zlen_insert|by etrans| |].
  - intros Hr. destruct (O2 Hr) as (own2 & Hg2 & Hn2 & _ & Hent2 & Hh2).
    assert (Hlive : forall b q, own1 !! b = Some q -> own2 !! b = Some q /\ bufs m2 !! b = bufs m1 !! b).
    { intros b q Hb. destruct Hg1 as [_ _ Ho1], Hg2 as [Hs2 _ _]. split; [by eapply lookup_weaken|by eapply kept_live]. }
    destruct (kids_set n own1 own2 m1 m2 path e l cur c') as [He2 Hkids2]; [done|done|lia| | |done|].
    + intros b q Hb _. by apply Hlive.
    + intros b p Hb Hp. split; [done|]. destruct Hh2 as [[Hb' Ha']|Hne]; [|congruence]. rewrite Ha'.
      rewrite Hb' in Hp. destruct (Hl1 b p Hb Hp) as [_ Hd]. unfold table_entry.
      destruct (e_buffer _ _ _ _ _ He1 b Hb) as (_ & Ho & _). by rewrite (proj2 (Hlive _ _ Ho)).
    + exists own2. split; [by eapply grew_below; [exact Hg1| |exact Hg2]; eexists|]. split; [done|]. split; [done|].
      split; [|split].
      * intros i c0 ci p Hi0 Hi. destruct (Z.eq_dec i cur) as [->|Hne].
        { rewrite rd_insert_eq in Hi by lia. injection Hi as <-. rewrite Hent2. by eapply Hent1. }
        pose proof (rd_bound _ _ _ Hi0).
        rewrite rd_insert_ne in Hi by lia. rewrite <- (Hent1 i c0 ci p Hi0 Hi).
        eapply entry_of_kept; [by destruct Hg1|done|]. by apply Hkids1.
      * intros i ci p Hi Hri Hp. destruct (Z.eq_dec i cur) as [->|Hne].
        { rewrite rd_insert_eq in Hri by lia. injection Hri as <-. by apply Hcov2. }
        pose proof (rd_bound _ _ _ Hri).
        rewrite rd_insert_ne in Hri by lia. apply (Hcov1 i ci p); [lia|done|done].
      * intros i Hi. rewrite rd_insert_ne by lia. apply Hrest1. lia.
  - intros k Hf. destruct (Hfine k Hf) as [_ Hf1].
    replace (Z.to_nat (t / width (S n) + 1 - cur)) with (S (Z.to_nat (t / width (S n) + 1 - (cur + 1)))) in Hf1 by lia.
    apply F2. eapply fine_more; [|exact Hf1]. lia.
Qed.

(** ** The function *)

Lemma zero_ok n own m path : node_ok n own m path zero_pt.
Proof. destruct n; (split; [by constructor|]); [done|]. by intros i c (? & ? & ?)%child_spec. Qed.

(** The entries of a node, made where there are none yet. *)
Definition entries_of (n : nat) (e : vm_pt) : list vm_pt :=
  match pt_entries e with Some l => l | None => replicate (Z.to_nat (num n)) zero_pt end.

Lemma node_entries_ok n own m path e : node_ok (S n) own m path e -> kids_ok n own m path e (entries_of (S n) e).
Proof.
  intros Hn. unfold entries_of. destruct (pt_entries e) as [l|] eqn:He; [by eapply node_kids|].
  pose proof (num_pos (S n)). split; [rewrite zlen_replicate; lia|]. intros i c [_ [-> _]%lookup_replicate]%rd_inv.
  split; [by intros ? ? ? ?|apply zero_ok].
Qed.

(** The entry of a page, found through the list. *)
Lemma entry_of_list n e p m : is_Some (pt_buffer e) -> pte_of (S n) e p m =
  match rd (entries_of (S n) e) (p / width (S n)) with Ok c => pte_of n c (p mod width (S n)) m | Err _ => (Zero, false) end.
Proof.
  intros [b Hb]. rewrite entry_of_S, Hb. unfold child, entries_of. destruct (pt_entries e) as [l|].
  - by destruct (rd l _).
  - destruct (rd (replicate _ zero_pt) _) eqn:Hr; [|done]. apply rd_inv in Hr as [_ [-> _]%lookup_replicate].
    unfold pte_of. by rewrite leaf_none.
Qed.

(** The loop is over. *)
Lemma loop_done n own m path e e0 s t r l m1 :
  node_ok (S n) own m path e0 -> is_Some (pt_buffer e0) -> pt_buffer e = pt_buffer e0 -> pt_addr e = pt_addr e0 ->
  0 <= s <= t -> t < span (S n) ->
  loop_inv n own m path e (entries_of (S n) e0) s t (t / width (S n) + 1) r l m1 ->
  entry_post (S n) own m path e0 (cost (S n) s t) r (e <| pt_entries := Some l |>) m1 /\
  (r = S_OK -> pt_buffer (e <| pt_entries := Some l |>) = pt_buffer e0 /\
     forall p, s <= p <= t -> is_Some (leaf_at (S n) (e <| pt_entries := Some l |>) p)).
Proof.
  intros Hn Hb0 Hb Ha Hs Ht [Hlen Hk Hok Hfine]. pose proof (width_pos (S n)) as Hw.
  assert (Hb1 : is_Some (pt_buffer e)) by by rewrite Hb.
  assert (Hin : forall p, 0 <= p < span (S n) -> exists c, rd l (p / width (S n)) = Ok c).
  { intros p Hp. pose proof (div_num _ _ Hp). destruct (rd_in l (p / width (S n))) as [c Hc]; [lia|eauto]. }
  split; [constructor; [done| |]|].
  - intros Hr. destruct (Hok Hr) as (own1 & Hg & He1 & Hkids & Hent & _). exists own1. split; [done|].
    split; [by apply node_store|]. split; [done|]. split; [|by left].
    intros p. rewrite !entry_of_list by done. change (entries_of (S n) (e <| pt_entries := Some l |>)) with l.
    pose proof (node_entries_ok _ _ _ _ _ Hn) as [Hlen0 _].
    destruct (decide (0 <= p / width (S n) < num (S n))) as [Hi|Hi]; [|by rewrite !rd_out by lia].
    destruct (rd_in l (p / width (S n))) as [c Hc]; [lia|].
    destruct (rd_in (entries_of (S n) e0) (p / width (S n))) as [c0 Hc0]; [lia|]. rewrite Hc, Hc0. by eapply Hent.
  - intros k Hf. destruct (Hfine k Hf) as [Hr Hf']. split; [done|]. eapply fine_more; [|exact Hf']. lia.
  - intros Hr. destruct (Hok Hr) as (own1 & Hg & He1 & Hkids & Hent & Hcov & _). split; [exact Hb|].
    intros p Hp. destruct (Hin p) as [c Hc]; [lia|]. cbn [leaf_at].
    change (pt_buffer (e <| pt_entries := Some l |>)) with (pt_buffer e).
    destruct Hb1 as [b ->]. rewrite (child_entries _ l _ c); [|done|exact Hc].
    apply (Hcov (p / width (S n)) c); [|exact Hc|by apply sub_covers].
    pose proof (Z.div_le_mono s p _ Hw ltac:(lia)). pose proof (Z.div_le_mono p t _ Hw ltac:(lia)). lia.
Qed.

Lemma wp_unbind {A B} (m : res A) (k : A -> res B) Q : wp (rbind m k) Q -> wp m (fun a => wp (k a) Q).
Proof. by destruct m. Qed.

Lemma shift_width n s : Z.shiftr s (10 * Z.of_nat n) = s / width n.
Proof. unfold width. by rewrite Z.shiftr_div_pow2 by lia. Qed.
Lemma land_width n s : Z.land s (Z.shiftl 1 (10 * Z.of_nat n) - 1) = s mod width n.
Proof. unfold width. by rewrite Z.shiftl_1_l, Z.sub_1_r, <- Z.ones_equiv, Z.land_ones by lia. Qed.

(** One level of the recursion. *)
Lemma alloc_pd_step n F : (n <= 1)%nat ->
  (n = 1%nat -> alloc_spec n (vidmm_vm_alloc_pd F)) -> alloc_spec (S n) (vidmm_vm_alloc_pd (S F)).
Proof.
  intros Hle Hrec own m path e s t Hn Ho Hb Hs Ht. cbn [vidmm_vm_alloc_pd].
  rewrite lv_S, (proj1 (lv_facts (S n) ltac:(lia))), (proj2 (lv_facts (S n) ltac:(lia))), !shift_width, !land_width.
  pose proof (width_pos (S n)) as Hw. pose proof (div_num (S n) s ltac:(lia)) as Hds.
  pose proof (div_num (S n) t ltac:(lia)) as Hdt. pose proof (Z.div_le_mono s t _ Hw ltac:(lia)) as Hst.
  assert (num (S n) <= 1024) as Hnum by (unfold num; case_decide; lia).
  rewrite !(wrap_small 32) by (split; [lia|change (2 ^ 32) with 4294967296; lia]).
  destruct (Z.leb_spec (num (S n)) (s / width (S n))), (Z.leb_spec (num (S n)) (t / width (S n))); try lia. cbn [orb].
  set (e1 := e <| pt_entries ::= _ |>).
  assert (He1 : e1 = e <| pt_entries := Some (entries_of (S n) e) |>).
  { unfold e1, entries_of. destruct e as [? ? ? []]; done. }
  clearbody e1. pose proof (node_entries_ok _ _ _ _ _ Hn) as Hk0.
  assert (Hn1 : node_ok (S n) own m path e1) by (rewrite He1; apply node_store; [by apply node_entry|done..]).
  assert (Hb1 : pt_buffer e1 = pt_buffer e) by by rewrite He1.
  pose proof (mark_ok (S n) own m path e1 (s / width (S n)) (t / width (S n)) (node_entry _ _ _ _ _ Hn1)) as Hm.
  apply wp_unbind in Hm; [|by rewrite Hb1|lia|lia].
  apply wp_bind. eapply wp_mono; [exact Hm|]. intros all Hall. apply wp_bind. eapply wp_mono; [exact Hall|].
  intros e2 (bm & He2 & Hbm & Hbits & Hkeep). clear Hm Hall.
  assert (Hl2 : pt_entries e2 = Some (entries_of (S n) e)) by by rewrite He2, He1.
  assert (Hb2 : pt_buffer e2 = pt_buffer e) by by rewrite He2, He1.
  assert (Ha2 : pt_addr e2 = pt_addr e) by by rewrite He2, He1.
  assert (Hn2 : node_ok (S n) own m path e2).
  { rewrite He2 in Hkeep |- *. apply node_bits; [done|by rewrite Hb1|done|auto]. }
  pose proof (node_entry _ _ _ _ _ Hn2) as Heok. pose proof (node_kids _ _ _ _ _ _ Hn2 Hl2) as Hkok.
  rewrite Hl2. cbn [deref]. apply wp_bind. cbn [wp]. apply wp_bind.
  apply wp_for_up with (I := fun cur '(r, l, m1) => loop_inv n own m path e2 (entries_of (S n) e) s t cur r l m1).
  - constructor; [by destruct Hk0|done| |].
    + intros _. exists own. split; [by apply grew_refl|]. split; [done|]. split; [done|]. split; [|split]; [|lia|done].
      intros i c0 c p Hi0 Hi. congruence.
    + intros k Hf. split; [done|]. eapply fine_more; [|exact Hf]. cbn [cost].
      replace (t / width (S n) + 1 - s / width (S n)) with (t / width (S n) - s / width (S n) + 1) by lia. lia.
  - intros cur [[r l] m1] Hcur Hinv. destruct (Z.eqb_spec r S_OK) as [->|Hr]; cbn [negb].
    + pose proof (l_len _ _ _ _ _ _ _ _ _ _ _ _ Hinv) as Hlen. apply wp_bind, wp_rd; [lia|]. intros c Hc.
      apply wp_bind. eapply wp_mono; [eapply loop_step; [exact Hinv|lia|lia|lia|apply Hbits; lia|exact Hc|]|].
      * intros own1 [_ _ Ho1] Hcn. destruct (sub_range (width (S n)) s t cur Hw Hs) as [? ?]; [lia|].
        by apply (alloc_entry_ok n _ own1 m1 _ c (sub_s (width (S n)) s cur) (sub_e (width (S n)) t cur)).
      * intros [[r c'] m2] Hinv2. cbn beta iota. rewrite wr_in by lia. exact Hinv2.
    + cbn [wp]. destruct Hinv as [Hlen Hk Hok Hfine]. constructor; [done|done|done|]. intros k Hf. by destruct (Hfine k Hf).
  - intros [[r l] m1] Hinv. cbn [wp]. eapply loop_done; [done..|].
    replace (t / width (S n) + 1) with (s / width (S n) + Z.of_nat (Z.to_nat (t / width (S n) - s / width (S n) + 1))) by lia.
    exact Hinv.
Qed.


Lemma vidmm_vm_alloc_pd_ok : alloc_spec 2 (vidmm_vm_alloc_pd 3).
Proof. apply alloc_pd_step; [lia|]. intros _. by apply alloc_pd_step; [lia|]. Qed.
