(* ===== verification/PageUpdate.v ===== *)
(** * Writing page tables

    The writers of entries ([update_pde], [update_ptes_page]), the dirty ranges
    they leave for the translation buffers, and [vidmmi_vm_update_level]: after
    it the directories in memory agree with the tree, and no page has changed. *)
From S2P Require Import Prelude.
From stdpp Require Import gmap.
From S2P Require Import PageTable PageTree.
Local Open Scope Z_scope.

(** ** Dirty ranges

    The GPU drops the translation of every address that agrees with the range's
    address outside the mask. *)
Definition covers (d : gart_dirty) (va : Z) : Prop := dirty d = true /\ Z.ldiff va (dirty_mask d) = dirty_addr d.

(** [va] differs from [va0] in bits of [mask] only. *)
Definition within (va0 mask va : Z) : Prop := Z.ldiff (Z.lxor va0 va) mask = 0.

Lemma within_ldiff va0 mask va : within va0 mask va -> Z.ldiff va mask = Z.ldiff va0 mask.
Proof.
  unfold within. intros H. apply Z.bits_inj'. intros k Hk. apply (f_equal (fun x => Z.testbit x k)) in H.
  rewrite Z.ldiff_spec, Z.lxor_spec, Z.bits_0 in H. rewrite !Z.ldiff_spec.
  by destruct (Z.testbit va0 k), (Z.testbit va k), (Z.testbit mask k).
Qed.

(** A range that contains another. *)
Lemma widen_range a m1 addr mask :
  Z.ldiff a m1 = addr -> forall m2, Z.ldiff a (Z.lor (Z.lor m1 mask) m2) = Z.ldiff addr (Z.lor (Z.lor m1 mask) m2).
Proof.
  intros <- m2. apply Z.bits_inj'. intros k Hk. rewrite !Z.ldiff_spec, !Z.lor_spec.
  by destruct (Z.testbit a k), (Z.testbit m1 k).
Qed.

Lemma add_dirty_keeps va mask d x : covers d x -> covers (add_dirty va mask d) x.
Proof.
  intros [Hd Hx]. unfold add_dirty. rewrite Hd. split; [done|]. cbn. by apply widen_range.
Qed.

Lemma add_dirty_covers va mask d x : within va mask x -> covers (add_dirty va mask d) x.
Proof.
  intros Hw%within_ldiff. unfold add_dirty. destruct (dirty d); split; try done; cbn.
  apply Z.bits_inj'. intros k Hk. apply (f_equal (fun y => Z.testbit y k)) in Hw. revert Hw.
  rewrite !Z.ldiff_spec, !Z.lor_spec, !Z.lxor_spec, !Z.ldiff_spec.
  by destruct (Z.testbit x k), (Z.testbit va k), (Z.testbit mask k), (Z.testbit (dirty_mask d) k), (Z.testbit (dirty_addr d) k).
Qed.

Lemma within_lor va m1 m2 x : within va m1 x \/ within va m2 x -> within va (Z.lor m1 m2) x.
Proof.
  unfold within. intros H. apply Z.bits_inj'. intros k Hk. rewrite Z.ldiff_spec, Z.lor_spec, Z.bits_0.
  destruct H as [H|H]; apply (f_equal (fun x => Z.testbit x k)) in H; rewrite Z.ldiff_spec, Z.bits_0 in H;
    by destruct (Z.testbit (Z.lxor va x) k), (Z.testbit m1 k), (Z.testbit m2 k).
Qed.

(** The mask covers each address that went into it. *)
Lemma range_mask_within va step n i : 0 <= i < n -> within va (range_mask va step n) (u64 (va + i * step)).
Proof.
  unfold range_mask. intros Hi.
  assert (H : forall l mask, (In i l \/ within va mask (u64 (va + i * step))) ->
    within va (foldl (fun mask i => Z.lor mask (Z.lxor va (u64 (va + i * step)))) mask l) (u64 (va + i * step))).
  { induction l as [|j l IH]; intros mask [Hin|Hm]; [done|exact Hm|..]; apply IH.
    - destruct Hin as [->|Hin]; [|by left]. right. apply within_lor. right. apply Z.ldiff_diag.
    - right. apply within_lor. by left. }
  apply H. left. apply list_elem_of_In, elem_of_seqZ. lia.
Qed.

(** ** Writing entries *)

Lemma write_ptes_ok b off l m t :
  bufs m !! b = Some t -> 0 <= off -> off + zlen l <= zlen t ->
  exists t', write_ptes b off l m = Ok (m <| bufs := <[b := t']> (bufs m) |>) /\ zlen t' = zlen t /\
    (forall k v, rd l k = Ok v -> rd t' (off + k) = Ok v) /\ (forall j, ~ off <= j < off + zlen l -> rd t' j = rd t j).
Proof.
  intros Hb Ho Hl. unfold write_ptes. rewrite Hb.
  assert (Hfst : (zip (seqZ off (zlen l)) l).*1 = seqZ off (zlen l)).
  { apply fst_zip. rewrite length_seqZ. unfold zlen. lia. }
  destruct (wrs_ok (zip (seqZ off (zlen l)) l) t) as (t' & -> & Hlen & Hin & Hout).
  - rewrite Hfst. apply NoDup_seqZ.
  - rewrite Hfst. apply Forall_forall. intros k Hk%elem_of_seqZ. lia.
  - exists t'. split; [done|]. split; [done|]. rewrite Hfst in Hout. split.
    + intros k v Hr. apply Hin. apply rd_inv in Hr as [Hk Hr]. apply list_elem_of_In, list_elem_of_lookup_2 with (Z.to_nat k).
      apply lookup_zip_with_Some. exists (off + k), v. split; [done|]. split; [|done].
      apply lookup_seqZ. apply lookup_lt_Some in Hr. unfold zlen. lia.
    + intros j Hj. apply Hout. intros H. apply Hj. apply list_elem_of_In, elem_of_seqZ in H. lia.
Qed.

Lemma update_pde_ok level dst off b va m t :
  bufs m !! dst = Some t -> 0 <= off < zlen t -> is_Some (bufs m !! b) ->
  exists t' u, update_pde level dst off b va m = Ok (m <| bufs := <[dst := t']> (bufs m) |> <| utlb := u |>) /\
    zlen t' = zlen t /\ rd t' off = Ok (Dir b) /\ (forall j, j <> off -> rd t' j = rd t j) /\
    (forall x, covers (utlb m) x -> covers u x) /\ (level = ZX_PT_LEVEL_1 -> covers u va).
Proof.
  intros Hd Ho [tb Hb]. unfold update_pde. rewrite Hb.
  destruct (write_ptes_ok dst off [Dir b] m t Hd) as (t' & -> & Hlen & Hin & Hout); [lia|unfold zlen in *; cbn; lia|].
  assert (Hin' : rd t' off = Ok (Dir b)) by (rewrite <- (Hin 0 (Dir b) eq_refl); f_equal; lia).
  assert (Hout' : forall j, j <> off -> rd t' j = rd t j) by (intros j Hj; apply Hout; unfold zlen; cbn; lia).
  cbn [rbind]. destruct (Z.eqb_spec level ZX_PT_LEVEL_1) as [->|Hne]; exists t'; eexists; (split; [reflexivity|]).
  - split; [done|]. split; [done|]. split; [done|]. split; [intros x; apply add_dirty_keeps|]. intros _.
    apply add_dirty_covers. unfold within. rewrite Z.lxor_nilpotent. apply Z.ldiff_0_l.
  - by split_and!.
Qed.

(** ** The frame of the directory update *)

(** Only directories of the node at [path] and below change. *)
Record pd_kept (own : owners) (path : list Z) (n : nat) (m m' : vmem) : Prop := mkPdKept
  { d_bufs : forall b, bufs m' !! b = bufs m !! b \/
      exists q, own !! b = Some q /\ path `prefix_of` q /\ (length q < length path + n)%nat;
    d_owned : live own m -> live own m';
    d_answers : answers m' = answers m; d_resume : resume_age m' = resume_age m; d_root : root_pd_age m' = root_pd_age m;
    d_dtlb : dtlb m' = dtlb m; d_utlb : forall x, covers (utlb m) x -> covers (utlb m') x }.
#[export] Instance pd_kept_preorder own path n : PreOrder (pd_kept own path n).
Proof.
  split; [intros m; constructor; auto|]. intros m1 m2 m3 [B1 O1 ? ? ? ? U1] [B2 O2 ? ? ? ? U2].
  constructor; [|by auto|congruence..|by auto].
  intros b. destruct (B2 b) as [->|?]; [apply B1|by right].
Qed.

Lemma pd_kept_below own path i n m m' : pd_kept own (path ++ [i]) n m m' -> pd_kept own path (S n) m m'.
Proof.
  intros [B O ? ? ? ? U]. constructor; [|done..]. intros b. destruct (B b) as [->|(q & Hq & Hp & Hlen)]; [by left|].
  right. exists q. split; [done|]. split; [by eapply prefix_snoc|]. rewrite length_app in Hlen. cbn in Hlen. lia.
Qed.

(** A buffer outside the node is left alone. *)
Lemma pd_kept_out own path n m m' b q :
  pd_kept own path n m m' -> own !! b = Some q -> ~ path `prefix_of` q -> bufs m' !! b = bufs m !! b.
Proof. intros Hk Hb Hq. destruct (d_bufs _ _ _ _ _ Hk b) as [->|(q' & Hb' & Hp & _)]; [done|]. congruence. Qed.

(** ** One entry of a directory *)

(** What [vidmmi_vm_update_level] promises for a node with [n] levels below. *)
Definition level_spec (n : nat) (update_level : Z -> vm_pt -> Z -> bool -> vmem -> res (vm_pt * bool * vmem)) : Prop :=
  forall own m path e va d, node_ok n own m path e -> live own m -> is_Some (pt_buffer e) ->
    wp (update_level va e (lv n) d m) (fun '(e', d', m') =>
      pd_kept own path n m m' /\ node_ok n own m' path e' /\ synced n m' e' /\
      pt_buffer e' = pt_buffer e /\ pt_addr e' = pt_addr e /\ forall p, leaf_at n e' p = leaf_at n e p).

(** The state of the loop: the first [i] entries are done. *)
Record sync_inv (n : nat) (own : owners) (m : vmem) (path : list Z) (e : vm_pt) (l0 : list vm_pt) (i : Z)
    (l : list vm_pt) (m1 : vmem) : Prop := mkSyncInv
  { s_kept : pd_kept own path (S n) m m1; s_owned : live own m1; s_entry : slot_ok (S n) own m1 path e;
    s_kids : kids_ok n own m1 path e l;
    s_synced : forall j c b p, j < i -> rd l j = Ok c -> pt_buffer e = Some b -> pt_buffer c = Some p ->
      table_entry b j m1 = Dir p /\ synced n m1 c;
    s_leaf : forall j c c0 p, rd l j = Ok c -> rd l0 j = Ok c0 -> leaf_at n c p = leaf_at n c0 p }.

(** The entry [i] of [e] is [c], with buffer [pt], and the table of [e] says so. *)
Record wired (n : nat) (own : owners) (m : vmem) (path : list Z) (e : vm_pt) (b i pt : Z) (c : vm_pt) : Prop := mkWired
  { n_node : node_ok n own m (path ++ [i]) c; n_buffer : pt_buffer c = Some pt; n_addr : pt_addr c = pt;
    n_table : table_entry b i m = Dir pt }.

Lemma node_addr n own m path e a g : node_ok n own m path e -> is_Some (pt_buffer e) ->
  node_ok n own m path (e <| pt_addr := a |> <| pt_age := g |>).
Proof.
  intros Hn [b0 Hb0]. destruct (node_entry _ _ _ _ _ Hn) as [E1 E2 E3].
  assert (slot_ok n own m path (e <| pt_addr := a |> <| pt_age := g |>)) by (constructor; cbn; [congruence|done..]).
  destruct n; by destruct Hn as [_ Hn].
Qed.

Lemma table_entry_write m b t' u i : 
  table_entry b i (m <| bufs := <[b := t']> (bufs m) |> <| utlb := u |>) = match rd t' i with Ok p => p | Err _ => Zero end.
Proof. unfold table_entry. cbn. by rewrite lookup_insert_eq. Qed.

(** The loop's invariant after the table [b] of the node got a new entry [i]. *)
Lemma sync_write n own m path e l0 i l m1 b t t' u c pt :
  sync_inv n own m path e l0 i l m1 -> pt_buffer e = Some b -> rd l i = Ok c -> pt_buffer c = Some pt ->
  bufs m1 !! b = Some t -> zlen t' = zlen t -> rd t' i = Ok (Dir pt) -> (forall j, j <> i -> rd t' j = rd t j) ->
  (forall x, covers (utlb m1) x -> covers u x) ->
  sync_inv n own m path e l0 i l (m1 <| bufs := <[b := t']> (bufs m1) |> <| utlb := u |>).
Proof.
  intros [Hk Ho He Hkids Hs Hl] Hb Hc Hpt Ht Hlen Hin Hout Hu. set (m2 := m1 <| bufs := _ |> <| utlb := u |>).
  destruct (e_buffer _ _ _ _ _ He b Hb) as (H0 & Hob & (t1 & Ht1 & Hlt) & Hbm). assert (t1 = t) as -> by congruence.
  assert (Hother : forall b', b' <> b -> bufs m2 !! b' = bufs m1 !! b') by (intros b' Hne; cbn; by rewrite lookup_insert_ne).
  assert (Hkid : forall j b' q, own !! b' = Some q -> path ++ [j] `prefix_of` q -> bufs m2 !! b' = bufs m1 !! b').
  { intros j b' q Hq Hp. apply Hother. intros ->. assert (q = path) as -> by congruence. by apply not_prefix_snoc in Hp. }
  assert (Htab : forall j, j <> i -> table_entry b j m2 = table_entry b j m1).
  { intros j Hj. unfold m2. rewrite table_entry_write, Hout by done. unfold table_entry. by rewrite Ht. }
  constructor; [| | | | |done].
  - etrans; [exact Hk|]. constructor; [|intros _|done..|exact Hu].
    + intros b'. destruct (decide (b' = b)) as [->|]; [|left; by apply Hother]. right. exists path.
      split; [done|]. split; [done|]. lia.
    + intros b' q Hq. destruct (decide (b' = b)) as [->|]; [cbn; rewrite lookup_insert_eq; by eexists|].
      rewrite Hother by done. by eapply Ho.
  - intros b' q Hq. destruct (decide (b' = b)) as [->|]; [cbn; rewrite lookup_insert_eq; by eexists|].
    rewrite Hother by done. by eapply Ho.
  - destruct He as [E1 E2 E3]. constructor; [done| |done]. intros b' Hb'. assert (b' = b) as -> by congruence.
    split; [done|]. split; [done|]. split; [|done]. exists t'. cbn. rewrite lookup_insert_eq. split; [done|lia].
  - split; [apply Hkids|]. intros j cj Hj. destruct (proj2 Hkids j cj Hj) as [Hlj Hnj]. split.
    + intros b' p Hb' Hp. assert (b' = b) as -> by congruence. destruct (Hlj b p Hb Hp) as [Hbit Hd]. split; [done|].
      intros Ha. destruct (Z.eq_dec j i) as [->|Hne]; [|rewrite Htab by done; by apply Hd].
      assert (p = pt) as -> by congruence. unfold m2. by rewrite table_entry_write, Hin.
    + eapply node_frame; [exact Hnj|]. intros b' q Hq Hp. split; [done|]. by eapply Hkid.
  - intros j cj b' p Hj Hrj Hb' Hp. assert (b' = b) as -> by congruence.
    destruct (Hs j cj b p Hj Hrj Hb Hp) as [Hd Hsj]. split; [rewrite Htab by lia; done|].
    eapply synced_frame; [by apply (proj2 Hkids j cj)|done|]. intros b' q. apply Hkid.
Qed.

(** The part before the recursion: the entry is written where it has to be. *)
Lemma write_pde_ok n own m path e l0 i l m1 b c pt va d :
  sync_inv n own m path e l0 i l m1 -> pt_buffer e = Some b -> rd l i = Ok c -> pt_buffer c = Some pt ->
  wp (if (pt_addr c =? pt) && (resume_age m1 <=? pt_age c) then Ok (c, d, m1)
      else
        let! m := update_pde (lv (S n)) b i pt va m1 in
        Ok (c <| pt_addr := pt |> <| pt_age := resume_age m |>, d || (lv (S n) =? ZX_PT_LEVEL_ROOT), m))
    (fun '(c', d', m2) => sync_inv n own m path e l0 i l m2 /\ wired n own m2 path e b i pt c' /\
       forall p, leaf_at n c' p = leaf_at n c p).
Proof.
  intros Hinv Hb Hc Hpt. pose proof Hinv as [Hk Ho He Hkids Hs Hl].
  destruct (proj2 Hkids i c Hc) as [Hlink Hn]. destruct (Hlink b pt Hb Hpt) as [Hbit Hdir].
  destruct ((pt_addr c =? pt) && (resume_age m1 <=? pt_age c)) eqn:Hskip.
  - cbn [wp]. assert (pt_addr c = pt) as Ha by lia. split; [done|]. split; [|done]. constructor; auto.
  - destruct (e_buffer _ _ _ _ _ He b Hb) as (H0 & Hob & (t & Ht & Hlt) & _).
    destruct (e_buffer _ _ _ _ _ (node_entry _ _ _ _ _ Hn) pt Hpt) as (_ & Hopt & (tp & Htp & _) & _).
    pose proof (rd_bound _ _ _ Hc) as Hi. rewrite (proj1 Hkids) in Hi.
    destruct (update_pde_ok (lv (S n)) b i pt va m1 t Ht) as (t' & u & -> & Hlen & Hin & Hout & Hu & _); [lia|by rewrite Htp|].
    cbn [rbind wp]. assert (Hinv2 := sync_write n own m path e l0 i l m1 b t t' u c pt Hinv Hb Hc Hpt Ht Hlen Hin Hout Hu).
    split; [exact Hinv2|]. split; [|by destruct n]. constructor; [|done|done|by rewrite table_entry_write, Hin].
    apply node_addr; [|by rewrite Hpt]. by apply (proj2 (s_kids _ _ _ _ _ _ _ _ _ Hinv2) i c).
Qed.

(** The part after the recursion: the entry is stored. *)
Lemma sync_step n own m path e l0 i l m2 b c pt c1 c3 m3 :
  sync_inv n own m path e l0 i l m2 -> wired n own m2 path e b i pt c1 -> pt_buffer e = Some b -> rd l i = Ok c ->
  pt_buffer c = Some pt -> (forall p, leaf_at n c1 p = leaf_at n c p) ->
  pd_kept own (path ++ [i]) n m2 m3 -> node_ok n own m3 (path ++ [i]) c3 -> synced n m3 c3 ->
  pt_buffer c3 = pt_buffer c1 -> (forall p, leaf_at n c3 p = leaf_at n c1 p) ->
  sync_inv n own m path e l0 (i + 1) (<[Z.to_nat i := c3]> l) m3.
Proof.
  intros [Hk Ho He Hkids Hs Hl] [_ Hb1 _ Htab] Hb Hc Hpt Hl1 Hk3 Hn3 Hs3 Hb3 Hl3.
  pose proof (rd_bound _ _ _ Hc) as Hi.
  assert (Hout : forall b' q, own !! b' = Some q -> ~ path ++ [i] `prefix_of` q -> bufs m3 !! b' = bufs m2 !! b').
  { intros b' q. by eapply pd_kept_out. }
  destruct (e_buffer _ _ _ _ _ He b Hb) as (_ & Hob & _).
  assert (Htab3 : forall j, table_entry b j m3 = table_entry b j m2).
  { intros j. unfold table_entry. by rewrite (Hout b path Hob (not_prefix_snoc _ _)). }
  destruct (proj2 Hkids i c Hc) as [Hlc _]. destruct (Hlc b pt Hb Hpt) as [Hbit _].
  destruct (kids_set n own own m2 m3 path e l i c3) as [He3 Hkids3]; [done|done|lia|eauto| |done|].
  { intros b' p Hb' Hp. assert (b' = b) as -> by congruence. split; [done|]. intros _. rewrite Htab3, Htab. congruence. }
  constructor; [etrans; [exact Hk|by eapply pd_kept_below]|by eapply (d_owned _ _ _ _ _ Hk3)|done|done| |].
  - intros j cj b' p Hj Hrj Hb' Hp. assert (b' = b) as -> by congruence. rewrite Htab3.
    destruct (Z.eq_dec j i) as [->|Hne].
    + rewrite rd_insert_eq in Hrj by lia. injection Hrj as <-. split; [|done]. rewrite Htab. congruence.
    + assert (0 <= j) by (pose proof (rd_bound _ _ _ Hrj); lia). rewrite rd_insert_ne in Hrj by lia.
      destruct (Hs j cj b p) as [Hd Hsj]; [lia|done..|]. split; [done|].
      eapply synced_frame; [by apply (proj2 Hkids j cj)|done|]. intros b' q Hq Hp'. eapply Hout; [done|].
      eapply prefix_snoc_ne; [|exact Hp']. lia.
  - intros j cj c0 p Hrj Hr0. destruct (Z.eq_dec j i) as [->|Hne].
    + rewrite rd_insert_eq in Hrj by lia. injection Hrj as <-. rewrite Hl3, Hl1. by eapply Hl.
    + assert (0 <= j) by (pose proof (rd_bound _ _ _ Hrj); lia). rewrite rd_insert_ne in Hrj by lia. by eapply Hl.
Qed.

(** An entry without a buffer is passed over. *)
Lemma sync_skip n own m path e l0 i l m1 :
  sync_inv n own m path e l0 i l m1 -> (forall c b p, rd l i = Ok c -> pt_buffer e = Some b -> pt_buffer c = Some p -> False) ->
  sync_inv n own m path e l0 (i + 1) l m1.
Proof.
  intros [] Hno. constructor; [done..| |done]. intros j c b p Hj Hc Hb Hp.
  destruct (Z.eq_dec j i) as [->|]; [by destruct (Hno c b p)|]. apply (s_synced0 j c b p); [lia|done..].
Qed.

Lemma sync_done n own m path e l0 l m1 :
  pt_entries e = Some l0 -> is_Some (pt_buffer e) -> zlen l0 = num (S n) -> sync_inv n own m path e l0 (num (S n)) l m1 ->
  let e' := e <| pt_entries := Some l |> in
  pd_kept own path (S n) m m1 /\ node_ok (S n) own m1 path e' /\ synced (S n) m1 e' /\
  pt_buffer e' = pt_buffer e /\ pt_addr e' = pt_addr e /\ forall p, leaf_at (S n) e' p = leaf_at (S n) e p.
Proof.
  intros Hl0 Hb Hlen0 [Hk Ho He Hkids Hs Hl] e'. split; [done|]. split; [by apply node_store|]. split; [|split; [done|split; [done|]]].
  - intros i c b p (l' & [= <-] & Hc)%child_spec Hb' Hp. eapply Hs; [|done..].
    rewrite <- (proj1 Hkids). pose proof (rd_bound _ _ _ Hc). lia.
  - intros p. cbn [leaf_at]. change (pt_buffer e') with (pt_buffer e). destruct (pt_buffer e); [|done].
    unfold child. change (pt_entries e') with (Some l). rewrite Hl0. pose proof (proj1 Hkids).
    destruct (decide (0 <= p / width (S n) < num (S n))) as [Hi|Hi]; [|by rewrite !rd_out by lia].
    destruct (rd_in l (p / width (S n))) as [c Hc]; [lia|]. destruct (rd_in l0 (p / width (S n))) as [c0 Hc0]; [lia|].
    rewrite Hc, Hc0. by eapply Hl.
Qed.

(** One level of the recursion. *)
Lemma update_level_step n F : (S n <= 2)%nat ->
  level_spec n (vidmmi_vm_update_level F) -> level_spec (S n) (vidmmi_vm_update_level (S F)).
Proof.
  intros Hle Hrec own m path e va d Hn Ho Hb. cbn [vidmmi_vm_update_level].
  destruct (pt_entries e) as [l0|] eqn:Hl0.
  2: { cbn [wp]. split; [done|]. split; [done|]. split; [|done]. intros i c b p (? & ? & _)%child_spec. congruence. }
  destruct Hb as [b Hb]. pose proof (node_entry _ _ _ _ _ Hn) as He. pose proof (node_kids _ _ _ _ _ _ Hn Hl0) as Hk.
  destruct (e_buffer _ _ _ _ _ He b Hb) as (_ & _ & _ & bm & Hbm & Hbl).
  rewrite Hb, Hbm, (proj2 (lv_facts (S n) ltac:(lia))). cbn [deref rbind]. apply wp_bind.
  pose proof (num_pos (S n)).
  apply wp_for_up with (I := fun i '(l, d, m1) => sync_inv n own m path e l0 i l m1).
  - constructor; [done..| |congruence]. intros j c b' p Hj Hc. apply rd_bound in Hc. lia.
  - intros i [[l d1] m1] Hi Hinv. apply wp_bind, wp_rd; [lia|]. intros bit Hbit.
    pose proof (s_kids _ _ _ _ _ _ _ _ _ Hinv) as [Hlen Hkids]. destruct bit.
    + apply wp_bind, wp_rd; [lia|]. intros c Hc. destruct (pt_buffer c) as [pt|] eqn:Hpt.
      * apply wp_bind. unfold update_pd_entry. cbv zeta. apply wp_bind.
        eapply wp_mono; [by eapply write_pde_ok|]. intros [[c1 d2] m2] (Hinv2 & Hlk & Hl1). rewrite lv_S.
        eapply wp_mono; [apply (Hrec own m2 (path ++ [i])); [by destruct Hlk|by destruct Hinv2|by rewrite (n_buffer _ _ _ _ _ _ _ _ _ Hlk)]|].
        intros [[c3 d3] m3] (Hk3 & Hn3 & Hs3 & Hb3 & _ & Hl3). apply wp_bind, wp_wr; [lia|]. cbn [wp]. by eapply sync_step.
      * cbn [wp]. apply sync_skip; [done|]. intros c' b' p Hc'. congruence.
    + cbn [wp]. apply sync_skip; [done|]. intros c b' p Hc Hb' Hp. destruct (Hkids i c Hc) as [Hlk _].
      destruct (Hlk b' p Hb' Hp) as [(bm' & Hbm' & Hr) _]. congruence.
  - intros [[l d1] m1] Hinv. replace (0 + Z.of_nat (Z.to_nat (num (S n)))) with (num (S n)) in Hinv by lia. cbn [wp].
    rewrite <- Hb. apply (sync_done n own m path e l0); [done|by rewrite Hb|by apply Hk|done].
Qed.

Lemma vidmmi_vm_update_level_ok : level_spec 2 (vidmmi_vm_update_level 4).
Proof.
  apply update_level_step; [lia|]. apply update_level_step; [lia|]. intros own m path e va d Hn Ho Hb.
  destruct Hn as [He Hn]. cbn [vidmmi_vm_update_level]. rewrite Hn. cbn [wp]. by split_and!.
Qed.
