(* ===== verification/PageLeaf.v ===== *)
(** * One table of pages

    Finding the table of a page ([vidmmi_vm_get_pt_entry]) and replacing its
    entry in the tree ([set_entry], which stands for the assignments through the
    pointer the source has): the rest of the tree stays as it is. *)
From S2P Require Import Prelude.
From stdpp Require Import gmap.
From S2P Require Import PageTable PageTree.
Local Open Scope Z_scope.

(** ** The entry of a table *)

Fixpoint leaf_node (n : nat) (e : vm_pt) (p : Z) : option vm_pt :=
  match n with
  | O => Some e
  | S n' =>
      match pt_buffer e, child e (p / width n) with
      | Some _, Some c => leaf_node n' c (p mod width n)
      | _, _ => None
      end
  end.

Definition leaf_val (c : vm_pt) : option (Z * list bool) :=
  match pt_buffer c with Some b => Some (b, bits c) | None => None end.

Lemma leaf_at_node n e p : leaf_at n e p = leaf_node n e p ≫= leaf_val.
Proof.
  revert e p. induction n as [|n IH]; intros e p; [done|]. cbn [leaf_at leaf_node].
  destruct (pt_buffer e); [|done]. destruct (child e _); [apply IH|done].
Qed.

Lemma leaf_at_digits n e p p' : digits n p = digits n p' -> leaf_at n e p = leaf_at n e p'.
Proof.
  revert e p p'. induction n as [|n IH]; intros e p p'; [done|]. cbn [leaf_at digits]. intros [= -> H].
  destruct (pt_buffer e); [|done]. destruct (child e _); [|done]. by apply IH.
Qed.

(** Pages of the same table have the same indices. *)
Lemma page_digits n p p' : (n <= 2)%nat -> p / 2 ^ 10 = p' / 2 ^ 10 -> digits n p = digits n p'.
Proof.
  intros Hn Hp. destruct n as [|[|[|n]]]; [done|..|lia]; unfold digits, width;
    change (2 ^ (10 * Z.of_nat 2)) with (2 ^ 20); change (2 ^ (10 * Z.of_nat 1)) with (2 ^ 10); [by rewrite Hp|].
  f_equal; [dlia|]. f_equal. dlia.
Qed.

Lemma leaf_node_ok n own m path e p c :
  node_ok n own m path e -> leaf_node n e p = Some c -> node_ok 0 own m (path ++ digits n p) c.
Proof.
  revert path e p. induction n as [|n IH]; intros path e p Hn Hl.
  - injection Hl as <-. by rewrite app_nil_r.
  - cbn [leaf_node digits] in *. destruct (pt_buffer e); [|done]. destruct (child e _) as [k|] eqn:Hk; [|done].
    destruct Hn as [_ Hn]. destruct (Hn _ _ Hk) as [_ Hnk]. replace (path ++ p / width (S n) :: digits n (p mod width (S n)))
      with ((path ++ [p / width (S n)]) ++ digits n (p mod width (S n))) by by rewrite <- app_assoc. by apply IH with k.
Qed.

(** ** Replacing an entry *)

(** The directory above still describes the entry. *)
Definition head (c c' : vm_pt) : Prop := pt_buffer c' = pt_buffer c /\ pt_addr c' = pt_addr c \/ pt_buffer c' = None.

Lemma link_head_ok m e i c c' : head c c' -> dir_ok m e i c -> dir_ok m e i c'.
Proof. intros [[Hb Ha]|Hb]; [by apply link_child|]. intros _ b p _. congruence. Qed.

Lemma set_child_ok n own own' m m' path e i c c' :
  node_ok (S n) own m path e -> is_Some (pt_buffer e) -> child e i = Some c -> node_ok n own' m' (path ++ [i]) c' -> head c c' ->
  (forall b q, own !! b = Some q -> ~ path ++ [i] `prefix_of` q -> own' !! b = Some q /\ bufs m' !! b = bufs m !! b) ->
  exists l, pt_entries e = Some l /\ rd l i = Ok c /\ wr l i c' = Ok (<[Z.to_nat i := c']> l) /\
    let e' := e <| pt_entries := Some (<[Z.to_nat i := c']> l) |> in
    node_ok (S n) own' m' path e' /\ child e' i = Some c' /\ (forall j, j <> i -> child e' j = child e j) /\
    (synced (S n) m e -> synced n m' c' -> synced (S n) m' e').
Proof.
  intros Hn Hb Hc Hc' Hh Hf. apply child_spec in Hc as (l & Hl & Hr). exists l. split; [done|]. split; [done|].
  pose proof (rd_bound _ _ _ Hr) as Hi. split; [by apply wr_in|]. intros e'.
  pose proof (node_entry _ _ _ _ _ Hn) as He. pose proof (node_kids _ _ _ _ _ _ Hn Hl) as Hk.
  destruct (proj2 Hk i c Hr) as [Hlink _].
  assert (Hself : forall b, pt_buffer e = Some b -> bufs m' !! b = bufs m !! b).
  { intros b Hbb. destruct (e_buffer _ _ _ _ _ He b Hbb) as (_ & Ho & _). by apply (Hf b path Ho (not_prefix_snoc _ _)). }
  destruct (kids_set n own own' m m' path e l i c' He Hk) as [He' Hk']; [lia|done| |done|].
  { apply link_head_ok with c; [done|]. by eapply link_frame. }
  assert (Hci : child e' i = Some c') by (eapply child_entries; [done|by apply rd_insert_eq]).
  assert (Hcj : forall j, j <> i -> child e' j = child e j).
  { intros j Hj. unfold child. cbn. rewrite Hl. destruct (decide (0 <= j)).
    - by rewrite rd_insert_ne by lia.
    - by rewrite !rd_out by lia. }
  split; [by apply node_store|]. split; [done|]. split; [done|]. intros Hs Hs' j cj b p Hj Hbb Hp.
  assert (Htab : table_entry b j m' = table_entry b j m) by (unfold table_entry; by rewrite (Hself b Hbb)). rewrite Htab.
  destruct (Z.eq_dec j i) as [->|Hne].
  - assert (cj = c') as -> by congruence. destruct Hh as [[Hbc _]|?]; [|congruence]. split; [|done].
    apply (Hs i c b p); [by eapply child_entries|done|congruence].
  - rewrite Hcj in Hj by done. destruct (Hs j cj b p Hj Hbb Hp) as [? Hsj]. split; [done|].
    destruct Hn as [_ Hn]. destruct (Hn j cj Hj) as [_ Hnj]. clear -Hsj Hnj Hf Hne.
    assert (Hf' : forall b q, own !! b = Some q -> path ++ [j] `prefix_of` q -> bufs m' !! b = bufs m !! b).
    { intros b q Hq Hp. apply (Hf b q Hq). eapply prefix_snoc_ne; [|exact Hp]. done. }
    by eapply synced_frame.
Qed.

Lemma set_leaf_ok n own own' m m' path e p c c' :
  node_ok n own m path e -> leaf_node n e p = Some c -> node_ok 0 own' m' (path ++ digits n p) c' -> head c c' ->
  (forall b q, own !! b = Some q -> q <> path ++ digits n p -> own' !! b = Some q /\ bufs m' !! b = bufs m !! b) ->
  exists e', set_entry (digits n p) c' e = Ok e' /\ node_ok n own' m' path e' /\ head e e' /\
    (n <> O -> pt_buffer e' = pt_buffer e) /\ leaf_node n e' p = Some c' /\
    (forall p', digits n p' <> digits n p -> leaf_at n e' p' = leaf_at n e p') /\ (synced n m e -> synced n m' e').
Proof.
  revert path e p. induction n as [|n IH]; intros path e p Hn Hl Hc' Hh Hf.
  - injection Hl as ->. cbn [digits] in Hc'. rewrite app_nil_r in Hc'. exists c'. by split_and!.
  - cbn [leaf_node digits set_entry] in *. set (i := p / width (S n)) in *.
    destruct (pt_buffer e) as [b|] eqn:Hb; [|done]. destruct (child e i) as [k|] eqn:Hk; [|done].
    replace (path ++ i :: digits n (p mod width (S n))) with ((path ++ [i]) ++ digits n (p mod width (S n))) in * by by rewrite <- app_assoc.
    pose proof Hn as [_ Hkids]. destruct (Hkids i k Hk) as [_ Hnk].
    destruct (IH (path ++ [i]) k (p mod width (S n)) Hnk Hl Hc' Hh Hf) as (k' & Hset & Hnk' & Hhk & _ & Hlk & Hother & Hsk).
    destruct (set_child_ok n own own' m m' path e i k k' Hn) as (l & Hle & Hr & Hw & He' & Hci & Hcj & Hs); [by rewrite Hb|done..| |].
    { intros b' q Hq Hp. apply Hf; [done|]. intros ->. apply Hp. by eexists. }
    rewrite Hle. cbn [deref rbind]. rewrite Hr. cbn [rbind]. rewrite Hset. cbn [rbind]. rewrite Hw. cbn [rbind].
    eexists. split; [reflexivity|]. split; [done|]. split; [by left|]. split; [done|]. cbn [leaf_node].
    change (pt_buffer (e <| pt_entries := _ |>)) with (pt_buffer e). rewrite Hb, Hci. split; [done|]. split.
    + intros p' Hne. cbn [leaf_at]. change (pt_buffer (e <| pt_entries := _ |>)) with (pt_buffer e). rewrite Hb.
      destruct (Z.eq_dec (p' / width (S n)) i) as [Hi|Hi].
      * rewrite Hi, Hci, Hk. apply Hother. intros Hd. apply Hne. cbn [digits]. by rewrite Hi, Hd.
      * by rewrite Hcj.
    + intros Hsyn. apply Hs; [done|]. apply Hsk. destruct (pt_buffer k) as [bk|] eqn:Hbk.
      * by apply (Hsyn i k b bk).
      * destruct n; [done|]. cbn [leaf_node] in Hl. by rewrite Hbk in Hl.
Qed.

(** ** Finding the table ([vidmmi_vm_get_pt_entry]) *)

Lemma index_root p : 0 <= p < 2 ^ 28 -> u32 (Z.shiftr (Z.land p (vidmmi_vm_pt_addr_mask 0)) (vidmmi_vm_accum_pd_bits_count 0)) = p / 2 ^ 20.
Proof.
  intros Hp. change (vidmmi_vm_accum_pd_bits_count 0) with 20. change (vidmmi_vm_pt_addr_mask 0) with (Z.shiftl (Z.ones 8) 20).
  rewrite Z.shiftr_land, Z.shiftr_shiftl_l, Z.shiftl_0_r, Z.land_ones, Z.shiftr_div_pow2 by lia.
  change (2 ^ 28) with 268435456 in Hp. change (2 ^ 20) with 1048576. change (2 ^ 8) with 256.
  rewrite wrap_small; [dlia|]. unfold fits. change (2 ^ 32) with 4294967296. dlia.
Qed.

Lemma index_1 p : u32 (Z.shiftr (Z.land p (vidmmi_vm_pt_addr_mask 1)) (vidmmi_vm_accum_pd_bits_count 1)) = p mod 2 ^ 20 / 2 ^ 10.
Proof.
  change (vidmmi_vm_accum_pd_bits_count 1) with 10. change (vidmmi_vm_pt_addr_mask 1) with (Z.shiftl (Z.ones 10) 10).
  rewrite Z.shiftr_land, Z.shiftr_shiftl_l, Z.shiftl_0_r, Z.land_ones, Z.shiftr_div_pow2 by lia.
  change (2 ^ 20) with 1048576. change (2 ^ 10) with 1024.
  rewrite wrap_small; [dlia|]. unfold fits. change (2 ^ 32) with 4294967296. dlia.
Qed.

Lemma get_pt_entry_ok own m root p c :
  node_ok 2 own m [] root -> 0 <= p < 2 ^ 28 -> leaf_node 2 root p = Some c ->
  vidmmi_vm_get_pt_entry root p = Ok (Some (digits 2 p, c)).
Proof.
  intros Hn Hp Hl. assert (Hc0 : pt_entries c = None) by by destruct (leaf_node_ok _ _ _ _ _ _ _ Hn Hl).
  cbn [leaf_node] in Hl. change (width 2) with (2 ^ 20) in Hl. change (width 1) with (2 ^ 10) in Hl.
  destruct (pt_buffer root) as [b0|] eqn:Hb0; [|done]. destruct (child root (p / 2 ^ 20)) as [k|] eqn:Hk; [|done].
  destruct (pt_buffer k) as [b1|] eqn:Hb1; [|done]. destruct (child k (p mod 2 ^ 20 / 2 ^ 10)) as [c'|] eqn:Hc; [|done].
  injection Hl as ->. apply child_spec in Hk as (l0 & Hl0 & Hr0). apply child_spec in Hc as (l1 & Hl1 & Hr1).
  unfold vidmmi_vm_get_pt_entry. cbn [iterate]. rewrite Hl0, Hb0, index_root, Hr0 by done. cbn [rbind].
  change (0 + 1) with 1. rewrite Hl1, Hb1, index_1, Hr1. cbn [rbind]. rewrite Hc0. done.
Qed.

(** Without a table the search finds none, or an entry without a buffer. *)
Lemma get_pt_entry_none own m root p :
  node_ok 2 own m [] root -> is_Some (pt_buffer root) -> 0 <= p < 2 ^ 28 -> leaf_at 2 root p = None ->
  exists r, vidmmi_vm_get_pt_entry root p = Ok r /\ match r with Some (_, c) => pt_buffer c = None | None => True end.
Proof.
  intros Hn [b0 Hb0] Hp Hl. pose proof (node_entry _ _ _ _ _ Hn) as He.
  unfold vidmmi_vm_get_pt_entry. cbn [iterate]. destruct (pt_entries root) as [l0|] eqn:Hl0; [|by eexists].
  pose proof (node_kids _ _ _ _ _ _ Hn Hl0) as [Hlen0 Hk0]. change (num 2) with 256 in Hlen0.
  rewrite Hb0, index_root by done. cbn [leaf_at] in Hl. change (width 2) with (2 ^ 20) in Hl. change (width 1) with (2 ^ 10) in Hl.
  change (2 ^ 28) with 268435456 in Hp. destruct (rd_in l0 (p / 2 ^ 20)) as [k Hk]; [change (2 ^ 20) with 1048576; dlia|].
  rewrite Hk. cbn [rbind]. change (0 + 1) with 1. rewrite Hb0, (child_entries _ _ _ _ Hl0 Hk) in Hl.
  destruct (Hk0 _ _ Hk) as [_ Hnk]. destruct (pt_entries k) as [l1|] eqn:Hl1; [|by eexists].
  destruct (pt_buffer k) as [b1|] eqn:Hb1; [|by eexists]. pose proof (node_kids _ _ _ _ _ _ Hnk Hl1) as [Hlen1 Hk1].
  change (num 1) with 1024 in Hlen1. rewrite index_1.
  destruct (rd_in l1 (p mod 2 ^ 20 / 2 ^ 10)) as [c Hc]; [change (2 ^ 20) with 1048576; change (2 ^ 10) with 1024; dlia|].
  rewrite Hc. cbn [rbind]. rewrite (child_entries _ _ _ _ Hl1 Hc) in Hl.
  destruct (Hk1 _ _ Hc) as [_ [_ Hc0]]. rewrite Hc0. eexists. split; [reflexivity|]. change (1 + 1 =? 2) with true. cbn in Hl |- *.
  by destruct (pt_buffer c).
Qed.

(** ** Changing one table

    The table [lb] of page [s] has new contents and its entry a new bitmap. *)
Lemma change_table own m m1 root s c lb t t' bm :
  node_ok 2 own m [] root -> live own m -> 0 <= s < span 2 -> leaf_node 2 root s = Some c -> pt_buffer c = Some lb ->
  bufs m !! lb = Some t -> bufs m1 = <[lb := t']> (bufs m) -> zlen t' = 1024 -> zlen bm = 1024 ->
  exists root', set_entry (digits 2 s) (c <| update_bitmap := Some bm |>) root = Ok root' /\
    node_ok 2 own m1 [] root' /\ live own m1 /\ pt_buffer root' = pt_buffer root /\ (synced 2 m root -> synced 2 m1 root') /\
    (forall p, 0 <= p < span 2 -> is_Some (leaf_at 2 root p) -> is_Some (leaf_at 2 root' p)) /\
    forall p, 0 <= p < span 2 -> pte_of 2 root' p m1 =
      if decide (p / 2 ^ 10 = s / 2 ^ 10)
      then (match rd t' (p mod 2 ^ 10) with Ok x => x | Err _ => Zero end, bool_decide (rd bm (p mod 2 ^ 10) = Ok true))
      else pte_of 2 root p m.
Proof.
  intros Hn Ho Hs Hl Hlb Ht Hm1 Hlt Hlbm. set (c' := c <| update_bitmap := Some bm |>).
  assert (Hother : forall b, b <> lb -> bufs m1 !! b = bufs m !! b) by (intros b Hb; by rewrite Hm1, lookup_insert_ne).
  pose proof (leaf_node_ok _ _ _ _ _ _ _ Hn Hl) as Hc. pose proof (node_entry _ _ _ _ _ Hc) as [E1 E2 E3].
  destruct (E2 lb Hlb) as (H0 & Holb & _ & _).
  assert (Hc' : node_ok 0 own m1 ([] ++ digits 2 s) c').
  { split; [|by destruct Hc]. constructor; cbn; [congruence| |done]. intros b Hb. assert (b = lb) as -> by congruence.
    split; [done|]. split; [done|]. split; [|by exists bm]. exists t'. by rewrite Hm1, lookup_insert_eq. }
  destruct (set_leaf_ok 2 own own m m1 [] root s c c' Hn Hl Hc') as (root' & Hset & Hn' & _ & Hb' & Hl' & Hdiff & Hsyn); [by left| |].
  { intros b q Hq Hne. split; [done|]. apply Hother. intros ->. congruence. }
  assert (Hlb' : leaf_at 2 root' s = Some (lb, bm)).
  { rewrite leaf_at_node, Hl'. cbn. unfold leaf_val. change (pt_buffer c') with (pt_buffer c). by rewrite Hlb. }
  assert (Hsame : forall p, p / 2 ^ 10 = s / 2 ^ 10 -> leaf_at 2 root' p = Some (lb, bm)).
  { intros p Hp. rewrite <- Hlb'. apply leaf_at_digits, page_digits; [lia|done]. }
  assert (Hne : forall p, 0 <= p < span 2 -> p / 2 ^ 10 <> s / 2 ^ 10 -> leaf_at 2 root' p = leaf_at 2 root p).
  { intros p Hp Hd. apply Hdiff. intros H. apply Hd. by apply (digits_page 2). }
  exists root'. split; [done|]. split; [done|]. split.
  { intros b q Hq. destruct (decide (b = lb)) as [->|Hb]; [rewrite Hm1, lookup_insert_eq; by eexists|]. rewrite Hother by done. by eapply Ho. }
  split; [by apply Hb'|]. split; [done|]. split; intros p Hp.
  - intros Hp'. destruct (decide (p / 2 ^ 10 = s / 2 ^ 10)) as [Hd|Hd]; [rewrite Hsame by done; by eexists|]. by rewrite Hne.
  - case_decide as Hd; unfold pte_of.
    + rewrite Hsame by done. unfold table_entry. by rewrite Hm1, lookup_insert_eq.
    + rewrite Hne by done. destruct (leaf_at 2 root p) as [[b bm']|] eqn:Hb; [|done].
      unfold table_entry. rewrite Hother; [done|]. intros ->. apply Hd. apply (digits_page 2); [lia|done|done|].
      pose proof (leaf_owner _ _ _ _ _ _ _ _ Hn Hb) as Hq. rewrite Holb in Hq. cbn [app] in Hq. congruence.
Qed.

(** Page [s] has a table. *)
Lemma leaf_found own m root s b bm :
  node_ok 2 own m [] root -> leaf_at 2 root s = Some (b, bm) ->
  exists c t, leaf_node 2 root s = Some c /\ pt_buffer c = Some b /\ update_bitmap c = Some bm /\
    bufs m !! b = Some t /\ zlen t = 1024 /\ zlen bm = 1024.
Proof.
  intros Hn Hl. rewrite leaf_at_node in Hl. destruct (leaf_node 2 root s) as [c|] eqn:Hc; [|done]. cbn in Hl.
  pose proof (node_entry _ _ _ _ _ (leaf_node_ok _ _ _ _ _ _ _ Hn Hc)) as [_ E2 _].
  unfold leaf_val in Hl. destruct (pt_buffer c) as [b'|] eqn:Hb; [|done]. injection Hl as -> Hbm.
  destruct (E2 b eq_refl) as (_ & _ & (t & Ht & Hlt) & bm' & Hbm' & Hlb). unfold bits in Hbm. rewrite Hbm' in Hbm. subst bm'.
  exists c, t. by split_and!.
Qed.

(** The pages of the range that share the table of [s]. *)
Lemma expect_nptes_ok s e : 0 <= s <= e -> e < 2 ^ 28 -> expect_nptes s e = Z.min (e - s + 1) (1024 - s mod 2 ^ 10).
Proof.
  intros Hs He. unfold expect_nptes. change (vidmmi_vm_pt_num_entries ZX_PT_LEVEL_2) with 1024. cbv zeta.
  change (2 ^ 32 - 1 - (1024 - 1)) with (Z.shiftl (Z.ones 22) 10). change (1024 - 1) with (Z.ones 10).
  assert (Hl : forall x, 0 <= x < 2 ^ 28 -> Z.land x (Z.shiftl (Z.ones 22) 10) = x / 2 ^ 10 * 2 ^ 10).
  { intros x Hx. rewrite <- Z.shiftl_mul_pow2, <- Z.shiftr_div_pow2 by lia.
    replace (Z.shiftr x 10) with (Z.land (Z.shiftr x 10) (Z.ones 22)).
    - rewrite Z.shiftl_land. apply Z.bits_inj'. intros k Hk. rewrite !Z.land_spec.
      destruct (Z.leb_spec 10 k).
      + rewrite !Z.shiftl_spec, Z.shiftr_spec by lia. by replace (k - 10 + 10) with k by lia.
      + rewrite !Z.shiftl_spec_low by lia. by rewrite !andb_false_r.
    - rewrite Z.land_ones, Z.shiftr_div_pow2 by lia. apply Z.mod_small. change (2 ^ 28) with 268435456 in Hx.
      change (2 ^ 10) with 1024. change (2 ^ 22) with 4194304. dlia. }
  rewrite !Hl, Z.land_ones by (try lia). change (2 ^ 28) with 268435456 in *. change (2 ^ 10) with 1024.
  destruct (Z.eqb_spec (s / 1024 * 1024) (e / 1024 * 1024)); rewrite wrap_small by (unfold fits; change (2 ^ 32) with 4294967296; dlia); dlia.
Qed.
