(* ===== verification/PageRelease.v ===== *)
(** * Unmapping pages

    [vidmmi_vm_release_pt] on a correct address space: the pages of the range are
    gone from the tree, the others stay, and a table without pages is given
    back. What it leaves in memory is the subject of a theorem of [PageSpec]. *)
From S2P Require Import Prelude.
From stdpp Require Import gmap.
From S2P Require Import PageTable PageTree PageAlloc PageUpdate PageLeaf.
Local Open Scope Z_scope.

(** ** The abstract address space *)

(** The page behind page number [p]. *)
Definition page_of (root : vm_pt) (m : vmem) (p : Z) : option (Z * Z) :=
  match pte_of 2 root p m with (Page x k, true) => Some (x, k) | _ => None end.

Record space_ok (own : owners) (b0 : Z) (root : vm_pt) (m : vmem) : Prop := mkSpaceOk
  { v_node : node_ok 2 own m [] root; v_owned : live own m; v_root : pt_buffer root = Some b0; v_synced : synced 2 m root }.

(** ** Addresses of pages *)

Lemma page_addr s : 0 <= s <= 2 ^ 28 -> u64 (Z.shiftl s 12) = s * 4096.
Proof. intros Hs. rewrite Z.shiftl_mul_pow2 by lia. apply wrap_small. unfold fits. change (2 ^ 28) with 268435456 in Hs. lia. Qed.
Lemma page_number s x : 0 <= x < 4096 -> Z.shiftr (s * 4096 + x) GPU_PAGE_SHIFT = s.
Proof. intros Hx. rewrite Z.shiftr_div_pow2 by done. change (2 ^ GPU_PAGE_SHIFT) with 4096. dlia. Qed.

(** ** Giving a table back *)

(** The entry of page [s] loses its table [lb]. *)
Lemma drop_table own m root s c lb :
  node_ok 2 own m [] root -> live own m -> synced 2 m root -> 0 <= s < span 2 -> leaf_node 2 root s = Some c -> pt_buffer c = Some lb ->
  exists root', set_entry (digits 2 s) (mkPt None 0 None (pt_entries c) (pt_age c)) root = Ok root' /\
    node_ok 2 (delete lb own) (destroyed lb m) [] root' /\ live (delete lb own) (destroyed lb m) /\
    pt_buffer root' = pt_buffer root /\ synced 2 (destroyed lb m) root' /\
    leaf_node 2 root' s = Some (mkPt None 0 None (pt_entries c) (pt_age c)) /\
    forall p, 0 <= p < span 2 -> pte_of 2 root' p (destroyed lb m) =
      if decide (p / 2 ^ 10 = s / 2 ^ 10) then (Zero, false) else pte_of 2 root p m.
Proof.
  intros Hn Ho Hsyn Hs Hl Hlb. set (c' := mkPt None 0 None _ _).
  pose proof (leaf_node_ok _ _ _ _ _ _ _ Hn Hl) as Hc. pose proof (node_entry _ _ _ _ _ Hc) as [E1 E2 E3].
  destruct (E2 lb Hlb) as (_ & Holb & _ & _). destruct Hc as [_ Hc0].
  assert (Hc' : node_ok 0 (delete lb own) (destroyed lb m) ([] ++ digits 2 s) c').
  { split; [|done]. constructor; cbn; [done|done|congruence]. }
  destruct (set_leaf_ok 2 own (delete lb own) m (destroyed lb m) [] root s c c' Hn Hl Hc') as (root' & Hset & Hn' & _ & Hb' & Hl' & Hdiff & Hsyn');
    [by right| |].
  { intros b q Hq Hne. assert (b <> lb) by congruence. cbn. by rewrite !lookup_delete_ne by done. }
  exists root'. split; [done|]. split; [done|]. split.
  { intros b q [Hne Hq]%lookup_delete_Some. cbn. rewrite lookup_delete_ne by done. by eapply Ho. }
  split; [by apply Hb'|]. split; [by apply Hsyn'|]. split; [done|]. intros p Hp. case_decide as Hd; unfold pte_of.
  - rewrite (leaf_at_digits 2 root' p s) by (apply page_digits; [lia|done]). by rewrite leaf_at_node, Hl'.
  - rewrite Hdiff by (intros H; apply Hd; by apply (digits_page 2)).
    destruct (leaf_at 2 root p) as [[b bm']|] eqn:Hb; [|done].
    unfold table_entry. cbn. rewrite lookup_delete_ne; [done|]. intros <-. apply Hd. apply (digits_page 2); [lia|done|done|].
    pose proof (leaf_owner _ _ _ _ _ _ _ _ Hn Hb) as Hq. rewrite Holb in Hq. cbn [app] in Hq. congruence.
Qed.

(** The bit of the entry is cleared in its directory. *)
Lemma clear_parent own m root s c :
  node_ok 2 own m [] root -> live own m -> synced 2 m root -> 0 <= s < span 2 -> leaf_node 2 root s = Some c -> pt_buffer c = None ->
  exists l k k' root', pt_entries root = Some l /\ rd l (s / 2 ^ 20) = Ok k /\
    vidmmi_vm_pt_update_bitmap k (s mod 2 ^ 20 / 2 ^ 10) (s mod 2 ^ 20 / 2 ^ 10) false = Ok k' /\
    set_entry [s / 2 ^ 20] k' root = Ok root' /\
    node_ok 2 own m [] root' /\ pt_buffer root' = pt_buffer root /\ synced 2 m root' /\
    forall p, pte_of 2 root' p m = pte_of 2 root p m.
Proof.
  intros Hn Ho Hsyn Hs Hl Hc. cbn [leaf_node] in Hl. change (width 2) with (2 ^ 20) in Hl. change (width 1) with (2 ^ 10) in Hl.
  destruct (pt_buffer root) as [b0|] eqn:Hb0; [|done]. destruct (child root (s / 2 ^ 20)) as [k|] eqn:Hk; [|done].
  destruct (pt_buffer k) as [bk|] eqn:Hbk; [|done]. set (j := s mod 2 ^ 20 / 2 ^ 10) in *.
  destruct (child k j) as [c'|] eqn:Hcj; [|done]. injection Hl as ->.
  pose proof Hn as [_ Hkids]. destruct (Hkids _ _ Hk) as [_ Hnk].
  destruct (e_buffer _ _ _ _ _ (node_entry _ _ _ _ _ Hnk) bk Hbk) as (_ & _ & _ & bm & Hbm & Hlen). change (num 1) with 1024 in Hlen.
  assert (0 <= j < 1024) as Hj by (unfold j; change (2 ^ 20) with 1048576; change (2 ^ 10) with 1024; dlia).
  destruct (update_bitmap_ok k bm j j false Hbm) as (bm' & Hub & Hl' & Hin & Hout); [lia|lia|].
  set (k' := k <| update_bitmap := Some bm' |>) in *.
  assert (Hnk' : node_ok 1 own m ([] ++ [s / 2 ^ 20]) k').
  { apply node_bits; [done|by rewrite Hbk|change (num 1) with 1024; lia|]. intros i ci Hi [bi Hbi] (bm0 & Hbm0 & Hr). exists bm'. split; [done|].
    rewrite Hout; [congruence|]. intros ?. assert (i = j) as -> by lia. congruence. }
  destruct (set_child_ok 1 own own m m [] root (s / 2 ^ 20) k k' Hn) as (l & Hlr & Hr & Hw & Hn' & Hci & Hcj' & Hs'); [by rewrite Hb0|done..|by left|done|].
  exists l, k, k'. eexists. split; [done|]. split; [done|]. split; [done|]. split.
  { cbn [set_entry]. rewrite Hlr. cbn [deref rbind]. rewrite Hr. cbn [rbind]. rewrite Hw. done. }
  split; [done|]. split; [done|]. split; [apply Hs'; [done|]; exact (proj2 (Hsyn _ _ b0 bk Hk Hb0 Hbk))|].
  intros p. rewrite !entry_of_S. change (pt_buffer (root <| pt_entries := _ |>)) with (pt_buffer root).
  destruct (pt_buffer root); [|done]. destruct (Z.eq_dec (p / width 2) (s / 2 ^ 20)) as [->|Hne]; [|by rewrite Hcj'].
  by rewrite Hci, Hk.
Qed.

(** ** The pages of one table *)

Lemma page_of_block root m p s : p / 2 ^ 10 = s / 2 ^ 10 -> leaf_at 2 root s = None -> page_of root m p = None.
Proof.
  intros Hp Hs. unfold page_of, pte_of. by rewrite (leaf_at_digits 2 root p s), Hs by (apply page_digits; [lia|done]).
Qed.

Lemma release_table_ok own b0 root m s n c lb :
  space_ok own b0 root m -> 0 <= s < span 2 -> 0 < n -> s mod 2 ^ 10 + n <= 1024 -> leaf_node 2 root s = Some c -> pt_buffer c = Some lb ->
  wp (release_table s n (digits 2 s) c lb root m) (fun '(root', m') =>
    (exists own', own' ⊆ own /\ space_ok own' b0 root' m') /\ bufs m' ⊆ bufs m /\ (m' = m \/ m' = destroyed lb m) /\
    forall p, 0 <= p < span 2 -> page_of root' m' p = if decide (s <= p < s + n) then None else page_of root m p).
Proof.
  intros [Hn Ho Hb Hsyn] Hs Hn0 Hsn Hc Hlb. unfold release_table.
  change (vidmmi_vm_pt_num_entries ZX_PT_LEVEL_2 - 1) with (Z.ones 10). rewrite Z.land_ones by lia.
  pose proof (Z.mod_pos_bound s (2 ^ 10) eq_refl) as Hoff. set (off := s mod 2 ^ 10) in *. change (2 ^ 10) with 1024 in Hoff.
  assert (Hl : exists bm, leaf_at 2 root s = Some (lb, bm)) by (eexists; rewrite leaf_at_node, Hc; cbn; unfold leaf_val; by rewrite Hlb).
  destruct Hl as [bm Hl]. destruct (leaf_found _ _ _ _ _ _ Hn Hl) as (c0 & t & Hc0 & _ & Hbm & Ht & Hlt & Hlbm).
  assert (c0 = c) as -> by congruence.
  destruct (update_bitmap_ok c bm off (off + n - 1) false Hbm) as (bm' & -> & Hlbm' & Hbin & Hbout); [lia|lia|]. cbn [rbind].
  change (update_bitmap (c <| update_bitmap := Some bm' |>)) with (Some bm'). cbn [deref rbind].
  assert (Hent : forall p, p / 2 ^ 10 = s / 2 ^ 10 -> pte_of 2 root p m =
    (match rd t (p mod 2 ^ 10) with Ok x => x | Err _ => Zero end, bool_decide (rd bm (p mod 2 ^ 10) = Ok true))).
  { intros p Hp. unfold pte_of. rewrite (leaf_at_digits 2 root p s), Hl by (apply page_digits; [lia|done]).
    unfold table_entry. by rewrite Ht. }
  assert (Hin : forall p, s <= p < s + n -> p / 2 ^ 10 = s / 2 ^ 10 /\ p mod 2 ^ 10 = off + (p - s)).
  { intros p Hp. unfold off in *. change (2 ^ 10) with 1024 in *. split; dlia. }
  destruct (existsb id bm') eqn:Hex.
  - destruct (change_table own m m root s c lb t t bm' Hn Ho Hs Hc Hlb Ht) as (root' & -> & Hn' & Ho' & Hb' & Hs' & _ & Hent');
      [by rewrite insert_id|done|lia|]. cbn [rbind wp]. split; [exists own; split; [done|]; constructor; [done|done|congruence|by apply Hs']|].
    split; [done|]. split; [by left|]. intros p Hp. unfold page_of. rewrite Hent' by done.
    destruct (decide (p / 2 ^ 10 = s / 2 ^ 10)) as [Hd|Hd].
    + rewrite Hent by done. case_decide as Hr.
      * destruct (Hin p Hr) as [_ ->]. rewrite Hbin, bool_decide_eq_false_2 by (done || lia). by destruct (rd t _) as [[]|].
      * rewrite Hbout; [done|]. intros Hr'. apply Hr. unfold off in *. change (2 ^ 10) with 1024 in *. dlia.
    + rewrite decide_False; [done|]. intros Hr. by destruct (Hin p Hr).
  - destruct (drop_table own m root s c lb Hn Ho Hsyn Hs Hc Hlb) as (root1 & Hset & Hn1 & Ho1 & Hb1 & Hs1 & Hl1 & Hent1).
    change (pt_entries (c <| update_bitmap := Some bm' |>)) with (pt_entries c).
    change (pt_age (c <| update_bitmap := Some bm' |>)) with (pt_age c). rewrite Hset. cbn [rbind].
    destruct (clear_parent _ _ _ s _ Hn1 Ho1 Hs1 Hs Hl1 eq_refl) as (l & k & k' & root2 & Hlr & Hr & Hub & Hset2 & Hn2 & Hb2 & Hs2 & Hent2).
    assert (Hi : rd (digits 2 s) 0 = Ok (s / 2 ^ 20)) by done. rewrite Hi. cbn [rbind]. rewrite Hlr. cbn [deref rbind]. rewrite Hr. cbn [rbind].
    assert (Hpo : Z.land (Z.shiftr s (vidmmi_vm_accum_pd_bits_count ZX_PT_LEVEL_1)) (vidmmi_vm_pt_num_entries ZX_PT_LEVEL_1 - 1) = s mod 2 ^ 20 / 2 ^ 10).
    { change (vidmmi_vm_pt_num_entries ZX_PT_LEVEL_1 - 1) with (Z.ones 10). change (vidmmi_vm_accum_pd_bits_count ZX_PT_LEVEL_1) with 10.
      rewrite Z.land_ones, Z.shiftr_div_pow2 by lia. change (2 ^ 20) with 1048576. change (2 ^ 10) with 1024. dlia. }
    rewrite Hpo, Hub. cbn [rbind]. rewrite Hset2. cbn [rbind wp].
    split; [exists (delete lb own); split; [apply delete_subseteq|]; constructor; [done|done|congruence|done]|].
    split; [apply delete_subseteq|]. split; [by right|].
    intros p Hp. unfold page_of. rewrite Hent2, Hent1 by done. case_decide as Hd.
    + rewrite Hent by done. case_decide as Hrg; [done|].
      assert (Hbit : rd bm (p mod 2 ^ 10) = rd bm' (p mod 2 ^ 10)).
      { symmetry. apply Hbout. intros Hr'. apply Hrg. unfold off in *. change (2 ^ 10) with 1024 in *. dlia. }
      rewrite Hbit, bool_decide_eq_false_2; [by destruct (rd t _) as [[]|]|]. intros [_ Hx%list_elem_of_lookup_2%list_elem_of_In]%rd_inv.
      assert (existsb id bm' = true); [apply existsb_exists; eauto|congruence].
    + rewrite decide_False; [done|]. intros Hrg. by destruct (Hin p Hrg).
Qed.

(** ** The loop ([vidmmi_vm_release_pt]) *)

(** The state of the loop: the pages of the range before [s] are gone. *)
Record rel_inv (own : owners) (b0 s0 : Z) (root0 : vm_pt) (m0 : vmem) (s : Z) (root : vm_pt) (m : vmem) : Prop := mkRelInv
  { r_space : exists own', own' ⊆ own /\ space_ok own' b0 root m;
    r_bufs : bufs m ⊆ bufs m0;
    r_pages : forall p, 0 <= p < span 2 -> page_of root m p = if decide (s0 <= p < s) then None else page_of root0 m0 p;
    r_rest : answers m = answers m0 /\ resume_age m = resume_age m0 /\ root_pd_age m = root_pd_age m0 /\
             utlb m = utlb m0 /\ dtlb m = dtlb m0 }.

Lemma rel_step own b0 s0 N root0 m0 s root m n :
  rel_inv own b0 s0 root0 m0 s root m -> 0 <= s0 <= s -> s < N -> N <= 2 ^ 28 -> n = expect_nptes s (N - 1) ->
  s < s + n <= N /\
  wp (let! found := vidmmi_vm_get_pt_entry root s in
      match found with
      | Some (path, entry) =>
          match pt_buffer entry with
          | Some b => let! '(root, m) := release_table s n path entry b root m in Ok (root, m)
          | None => Ok (root, m)
          end
      | None => Ok (root, m)
      end) (fun '(root', m') => rel_inv own b0 s0 root0 m0 (s + n) root' m').
Proof.
  intros [(own1 & Hsub & Hsp) Hbufs Hpages Hrest] Hs0 HsN HN Hn0. rewrite expect_nptes_ok in Hn0 by lia.
  pose proof (Z.mod_pos_bound s (2 ^ 10) eq_refl) as Hoff. change (2 ^ 10) with 1024 in Hoff, Hn0.
  assert (Hss : 0 <= s < span 2) by (change (span 2) with (2 ^ 28); lia). split; [lia|].
  destruct (leaf_at 2 root s) as [[lb bm]|] eqn:Hl.
  - destruct (leaf_found _ _ _ _ _ _ (v_node _ _ _ _ Hsp) Hl) as (c & t & Hc & Hlb & _).
    rewrite (get_pt_entry_ok own1 m root s c) by (done || apply Hsp). cbn [rbind]. rewrite Hlb.
    apply wp_bind. eapply wp_mono; [apply (release_table_ok own1 b0 root m s n c lb); [done|done|lia| |done|done]|].
    { change (2 ^ 10) with 1024. lia. }
    intros [root' m'] ((own2 & Hs2 & Hsp2) & Hb2 & Hm' & Hp2). cbn [wp].
    constructor; [exists own2; split; [by etrans|done]|by etrans| |by destruct Hm' as [->| ->]].
    intros p Hp. rewrite Hp2, Hpages by done.
    destruct (decide (s <= p < s + n)), (decide (s0 <= p < s)), (decide (s0 <= p < s + n)); done || lia.
  - assert (Hinv : rel_inv own b0 s0 root0 m0 (s + n) root m).
    { constructor; [by exists own1|done| |done]. intros p Hp.
      destruct (decide (s <= p < s + n)) as [Hr|Hr].
      - rewrite (page_of_block root m p s) by (done || (change (2 ^ 10) with 1024; dlia)). by rewrite decide_True by lia.
      - rewrite Hpages by done. destruct (decide (s0 <= p < s)), (decide (s0 <= p < s + n)); done || lia. }
    destruct (get_pt_entry_none own1 m root s) as (r & -> & Hr); [by apply Hsp|rewrite (v_root _ _ _ _ Hsp); by eexists|done|done|].
    cbn [rbind]. destruct r as [[path c]|]; [rewrite Hr|]; exact Hinv.
Qed.

Lemma vidmmi_vm_release_pt_ok fuel own b0 s0 N root m :
  space_ok own b0 root m -> 0 <= s0 < N -> N <= 2 ^ 28 -> (Z.to_nat (N - s0) < fuel)%nat ->
  wp (vidmmi_vm_release_pt fuel (s0 * 4096) (N * 4096 - 1) root m) (fun '(root', m') => rel_inv own b0 s0 root m N root' m').
Proof.
  intros Hsp Hs0 HN Hfuel. unfold vidmmi_vm_release_pt.
  apply wp_iterate with (I := fun '(start, r1, m1) => exists s, start = s * 4096 /\ s0 <= s <= N /\ rel_inv own b0 s0 root m s r1 m1)
    (m := fun '(start, _, _) => Z.to_nat (N - start / 4096)).
  - exists s0. split; [done|]. split; [lia|]. constructor; [by exists own|done| |done].
    intros p Hp. by rewrite decide_False by lia.
  - by rewrite Z.div_mul by lia.
  - intros [[start r1] m1] (s & -> & Hs & Hinv). change (2 ^ 28) with 268435456 in *. destruct (Z.ltb_spec (s * 4096) (N * 4096 - 1)).
    + assert (HNs : Z.shiftr (N * 4096 - 1) GPU_PAGE_SHIFT = N - 1).
      { replace (N * 4096 - 1) with ((N - 1) * 4096 + 4095) by lia. by apply page_number. }
      assert (Hss : Z.shiftr (s * 4096) GPU_PAGE_SHIFT = s) by (rewrite <- (Z.add_0_r (s * 4096)); by apply page_number).
      rewrite HNs, Hss. change GPU_PAGE_SHIFT with 12.
      destruct (rel_step own b0 s0 N root m s r1 m1 (expect_nptes s (N - 1)) Hinv) as [Hn Hstep]; [lia..|done|].
      rewrite page_addr by (change (2 ^ 28) with 268435456; lia).
      assert (Hgo : forall r2 m2, rel_inv own b0 s0 root m (s + expect_nptes s (N - 1)) r2 m2 ->
        (exists s', (s + expect_nptes s (N - 1)) * 4096 = s' * 4096 /\ s0 <= s' <= N /\ rel_inv own b0 s0 root m s' r2 m2) /\
        (Z.to_nat (N - (s + expect_nptes s (N - 1)) * 4096 / 4096) < Z.to_nat (N - s * 4096 / 4096))%nat).
      { intros r2 m2 Hi. rewrite !Z.div_mul by lia. split; [|lia]. eexists. split; [done|]. split; [lia|done]. }
      destruct (vidmmi_vm_get_pt_entry r1 s) as [[[path c]|]|]; cbn [rbind] in *; [|by apply Hgo|done].
      destruct (pt_buffer c); [|by apply Hgo]. destruct (release_table _ _ _ _ _ _ _) as [[r2 m2]|]; [|done]. by apply Hgo.
    + cbn [wp]. by assert (s = N) as -> by lia.
Qed.
