(* ===== verification/PageSpec.v ===== *)
(** * What mapping and unmapping pages mean

    The loops over the tables of a range, and the theorems about
    [vidmm_vm_update_mapping] and [vidmmi_vm_release_pt]: an address space is a
    map from page numbers to pages, and the GPU's walk computes it. *)
From S2P Require Import Prelude.
From stdpp Require Import gmap.
From S2P Require Import PageTable PageTree PageAlloc PageUpdate PageLeaf PageRelease.
Local Open Scope Z_scope.

(** ** The abstract address space and the GPU *)

(** The GPU finds the page. *)
Lemma page_translate own b0 root m p x :
  space_ok own b0 root m -> 0 <= p < 2 ^ 28 -> page_of root m p = Some x -> translate b0 p m = Some x.
Proof.
  intros [Hn Ho Hb Hs] Hp. change (2 ^ 28) with (span 2) in Hp. unfold page_of, pte_of. destruct (leaf_at 2 root p) as [[lb bm]|] eqn:Hl; [|done].
  rewrite translate_walk, (walk_leaf 2 own m [] root b0 p lb bm) by (done || apply Hp).
  destruct (table_entry lb (p mod 2 ^ 10) m); [done|done|]. by destruct (bool_decide _).
Qed.

(** ** Writing the pages of one table *)

Lemma update_ptes_page_ok lb off n ent o s s0 m t :
  bufs m !! lb = Some t -> zlen t = 1024 -> 0 <= off -> 0 <= n -> off + n <= 1024 -> 0 <= s0 <= s -> s + n <= 2 ^ 28 ->
  0 <= o -> o + (s - s0) + n <= 2 ^ 32 ->
  exists t' d, update_ptes_page lb off n ent (o * 4096) (s * 4096) (s0 * 4096) m =
      Ok (m <| bufs := <[lb := t']> (bufs m) |> <| dtlb := d |>) /\ zlen t' = 1024 /\
    (forall k, 0 <= k < n -> rd t' (off + k) = Ok (Page ent (o + (s - s0) + k))) /\
    (forall j, ~ off <= j < off + n -> rd t' j = rd t j) /\
    (forall x, covers (dtlb m) x -> covers d x) /\ (forall k, 0 <= k < n -> covers d ((s + k) * 4096)).
Proof.
  intros Hlb Ht Ho Hn Hon Hs Hsn Hoff Hbound. unfold update_ptes_page. change (2 ^ 28) with 268435456 in *. change (2 ^ 32) with 4294967296 in *.
  assert (Hidx : u32 (u32 (Z.shiftr (u64 (s * 4096 - s0 * 4096)) GPU_PAGE_SHIFT) + Z.shiftr (o * 4096) GPU_PAGE_SHIFT) = u32 (o + (s - s0))).
  { replace (o * 4096) with (o * 4096 + 0) by lia. rewrite page_number by lia.
    rewrite (wrap_small 64) by (unfold fits; lia). replace (s * 4096 - s0 * 4096) with ((s - s0) * 4096 + 0) by lia.
    rewrite page_number, (wrap_small 32 (s - s0)) by (unfold fits; lia). f_equal. lia. }
  rewrite Hidx. set (l := _ <$> seqZ 0 n).
  assert (Hlen : zlen l = n) by (unfold l, zlen; rewrite length_fmap, length_seqZ; lia).
  destruct (write_ptes_ok lb off l m t Hlb) as (t' & -> & Hlt & Hin & Hout); [done|lia|]. cbn [rbind].
  exists t', (add_dirty (s * 4096) (range_mask (s * 4096) 4096 n) (dtlb m)). split; [done|]. split; [lia|].
  rewrite Hlen in Hout. split; [|split; [done|split; [intros x; apply add_dirty_keeps|]]].
  - intros k Hk. apply Hin. unfold l. apply rd_inv. split; [lia|]. rewrite list_lookup_fmap, lookup_seqZ_lt by lia. cbn.
    do 2 f_equal. rewrite wrap_add_r, wrap_small by (try unfold fits; lia). lia.
  - intros k Hk. apply add_dirty_covers. replace ((s + k) * 4096) with (u64 (s * 4096 + k * 4096)).
    + by apply range_mask_within.
    + rewrite wrap_small by (unfold fits; lia). lia.
Qed.

(** ** The loop over the tables ([vidmm_vm_update_ptes]) *)

(** The pages of the range before [s] are done. *)
Record upd_inv (own : owners) (b0 ent o s0 N : Z) (root0 : vm_pt) (m0 : vmem) (s : Z) (root : vm_pt) (m : vmem) : Prop := mkUpdInv
  { u_space : space_ok own b0 root m;
    u_leaf : forall p, s0 <= p < N -> is_Some (leaf_at 2 root p);
    u_pages : forall p, 0 <= p < span 2 -> pte_of 2 root p m =
      if decide (s0 <= p < s) then (Page ent (o + (p - s0)), true) else pte_of 2 root0 p m0;
    u_dtlb : forall x, covers (dtlb m0) x \/ (exists p, s0 <= p < s /\ x = p * 4096) -> covers (dtlb m) x;
    u_rest : answers m = answers m0 /\ resume_age m = resume_age m0 /\ root_pd_age m = root_pd_age m0 /\ utlb m = utlb m0;
    u_dom : forall b, bufs m0 !! b = None -> bufs m !! b = None }.

Lemma upd_step own b0 ent o s0 N root0 m0 s root m n :
  upd_inv own b0 ent o s0 N root0 m0 s root m -> 0 <= s0 <= s -> s < N -> N <= 2 ^ 28 -> 0 <= o -> o + (N - s0) <= 2 ^ 32 ->
  n = expect_nptes s (N - 1) ->
  exists path c lb c' m' root', vidmmi_vm_get_pt_entry root s = Ok (Some (path, c)) /\ pt_buffer c = Some lb /\
    update_ptes_page lb (Z.land s (vidmmi_vm_pt_num_entries ZX_PT_LEVEL_2 - 1)) n ent (o * 4096) (s * 4096) (s0 * 4096) m = Ok m' /\
    vidmmi_vm_pt_update_bitmap c (Z.land s (vidmmi_vm_pt_num_entries ZX_PT_LEVEL_2 - 1))
      (Z.land s (vidmmi_vm_pt_num_entries ZX_PT_LEVEL_2 - 1) + n - 1) true = Ok c' /\
    set_entry path c' root = Ok root' /\ s < s + n <= N /\ upd_inv own b0 ent o s0 N root0 m0 (s + n) root' m'.
Proof.
  intros [[Hn Ho Hb Hs] Hleaf Hpages Hdtlb Hrest Hdom] Hs0 HsN HN Ho0 Hbound Hn0.
  change (vidmmi_vm_pt_num_entries ZX_PT_LEVEL_2 - 1) with (Z.ones 10). rewrite Z.land_ones by lia.
  rewrite expect_nptes_ok in Hn0 by lia. pose proof (Z.mod_pos_bound s (2 ^ 10) eq_refl) as Hoff.
  set (off := s mod 2 ^ 10) in *. change (2 ^ 10) with 1024 in Hoff.
  assert (Hsp : 0 <= s < span 2) by (change (span 2) with (2 ^ 28); lia).
  destruct (Hleaf s ltac:(lia)) as [[lb bm] Hl].
  destruct (leaf_found _ _ _ _ _ _ Hn Hl) as (c & t & Hc & Hlb & Hbm & Ht & Hlt & Hlbm).
  destruct (update_ptes_page_ok lb off n ent o s s0 m t Ht Hlt) as (t' & d & Hpt & Hlt' & Hin & Hout & Hd1 & Hd2); [lia..|].
  destruct (update_bitmap_ok c bm off (off + n - 1) true Hbm) as (bm' & Hubm & Hlbm' & Hbin & Hbout); [lia|lia|].
  set (m' := m <| bufs := <[lb := t']> (bufs m) |> <| dtlb := d |>) in *.
  destruct (change_table own m m' root s c lb t t' bm' Hn Ho Hsp Hc Hlb Ht eq_refl Hlt') as (root' & Hset & Hn' & Ho' & Hb' & Hs' & Hleaf' & Hent); [lia|].
  exists (digits 2 s), c, lb, (c <| update_bitmap := Some bm' |>), m', root'.
  split; [by eapply get_pt_entry_ok|]. split; [done|]. split; [done|]. split; [done|]. split; [done|]. split; [lia|].
  constructor.
  - constructor; [done|done|congruence|by apply Hs'].
  - intros p Hp. apply Hleaf'; [change (span 2) with (2 ^ 28); lia|by apply Hleaf].
  - intros p Hp. rewrite Hent by done. change (2 ^ 10) with 1024 in *. case_decide as Hd.
    + assert (Hpm : p mod 1024 = off + (p - s)) by (unfold off; dlia). destruct (decide (s <= p < s + n)) as [Hr|Hr].
      * rewrite decide_True by lia. rewrite Hpm, Hin, Hbin by lia. rewrite bool_decide_eq_true_2 by done. do 2 f_equal. lia.
      * rewrite (Hout (p mod 1024)), (Hbout (p mod 1024)) by lia.
        assert (pte_of 2 root p m = (match rd t (p mod 1024) with Ok x => x | Err _ => Zero end, bool_decide (rd bm (p mod 1024) = Ok true))) as <-.
        { unfold pte_of. rewrite (leaf_at_digits 2 root p s), Hl by (apply page_digits; [lia|done]). unfold table_entry. by rewrite Ht. }
        rewrite Hpages by done. destruct (decide (s0 <= p < s)), (decide (s0 <= p < s + n)); try done; lia.
    + rewrite Hpages by done. assert (~ s <= p < s + n) by (unfold off in *; dlia).
      destruct (decide (s0 <= p < s)), (decide (s0 <= p < s + n)); try done; lia.
  - intros x [Hx|(p & Hp & ->)]; [by apply Hd1, Hdtlb; left|]. destruct (decide (p < s)).
    + apply Hd1, Hdtlb. right. exists p. split; [lia|done].
    + replace p with (s + (p - s)) by lia. apply Hd2. lia.
  - done.
  - intros b Hnb%Hdom. unfold m'. cbn. rewrite lookup_insert_ne; [done|]. congruence.
Qed.

Lemma vidmm_vm_update_ptes_ok fuel own b0 ent o s0 N root m :
  space_ok own b0 root m -> (forall p, s0 <= p < N -> is_Some (leaf_at 2 root p)) ->
  0 <= s0 < N -> N <= 2 ^ 28 -> 0 <= o -> o + (N - s0) <= 2 ^ 32 -> (Z.to_nat (N - s0) < fuel)%nat ->
  exists root' m', vidmm_vm_update_ptes fuel ent (o * 4096) (s0 * 4096) (N * 4096 - 1) root m = Ok (S_OK, root', m') /\
    upd_inv own b0 ent o s0 N root m N root' m'.
Proof.
  intros Hsp Hleaf Hs0 HN Ho Hbound Hfuel. unfold vidmm_vm_update_ptes.
  match goal with |- context [iterate fuel ?body ?st] => destruct (iterate_rule
    (fun '(start, r1, m1) => exists s, start = s * 4096 /\ s0 <= s <= N /\ upd_inv own b0 ent o s0 N root m s r1 m1)
    (fun '(result, r1, m1) => result = S_OK /\ upd_inv own b0 ent o s0 N root m N r1 m1)
    (fun '(start, _, _) => Z.to_nat (N - start / 4096)) fuel body st) as ([[result root'] m'] & Hrun & Hpost) end.
  - intros [[start r1] m1] (s & -> & Hs & Hinv). change (2 ^ 28) with 268435456 in *. destruct (Z.ltb_spec (s * 4096) (N * 4096 - 1)).
    + assert (HNs : Z.shiftr (N * 4096 - 1) GPU_PAGE_SHIFT = N - 1).
      { replace (N * 4096 - 1) with ((N - 1) * 4096 + 4095) by lia. by apply page_number. }
      assert (Hss : Z.shiftr (s * 4096) GPU_PAGE_SHIFT = s) by (rewrite <- (Z.add_0_r (s * 4096)); by apply page_number).
      rewrite HNs, Hss, page_addr by (change (2 ^ 28) with 268435456; lia).
      destruct (upd_step own b0 ent o s0 N root m s r1 m1 (expect_nptes s (N - 1)) Hinv) as (path & c & lb & c' & m' & root' & Hget & Hlb & Hw & Hbm & Hset & Hn & Hinv');
        [lia..|done|].
      rewrite Hget. cbn [rbind]. rewrite Hlb, Hw. cbn [rbind]. rewrite Hbm. cbn [rbind]. rewrite Hset. cbn [rbind].
      eexists. split; [reflexivity|]. cbn beta iota. change GPU_PAGE_SHIFT with 12.
      rewrite page_addr by (change (2 ^ 28) with 268435456; lia). split; [|rewrite !Z.div_mul by lia; lia].
      eexists. split; [reflexivity|]. split; [lia|done].
    + eexists. split; [reflexivity|]. split; [done|]. assert (s = N) as -> by lia. done.
  - exists s0. split; [done|]. split; [lia|]. constructor; [done|done| | |done|done].
    + intros p Hp. by rewrite decide_False by lia.
    + intros x [Hx|(p & Hp & _)]; [done|lia].
  - rewrite Z.div_mul by lia. done.
  - destruct Hpost as [-> Hinv]. by exists root', m'.
Qed.

(** ** Mapping ([vidmm_vm_update_mapping]) *)

(** The directories' update changes no page. *)
Lemma entry_of_synced n own m m' path e e' p :
  node_ok n own m path e -> pd_kept own path n m m' -> leaf_at n e' p = leaf_at n e p -> pte_of n e' p m' = pte_of n e p m.
Proof.
  intros Hn Hk Hl. unfold pte_of. rewrite Hl. destruct (leaf_at n e p) as [[b bm]|] eqn:Hb; [|done].
  pose proof (leaf_owner _ _ _ _ _ _ _ _ Hn Hb) as Hq. unfold table_entry.
  destruct (d_bufs _ _ _ _ _ Hk b) as [->|(q & Hq' & _ & Hlen)]; [done|].
  rewrite Hq in Hq'. injection Hq' as <-. rewrite length_app, length_digits in Hlen. lia.
Qed.

Lemma fine_kept k m m' :
  answers m' = answers m -> (forall b, bufs m !! b = None -> bufs m' !! b = None) -> fine_answers k m -> fine_answers k m'.
Proof.
  intros Ha Hb (l & Hl & Hd & Hlen & Hf). exists l. rewrite Ha. split; [done|]. split; [done|]. split; [done|].
  intros b Hin. destruct (Hf b Hin). auto.
Qed.

(** The effect of a call that succeeds. *)
Record mapped (own own' : owners) (b0 ent o s0 N : Z) (root : vm_pt) (m : vmem) (root' : vm_pt) (m' : vmem) : Prop := mkMapped
  { mp_own : own ⊆ own'; mp_space : space_ok own' b0 root' m';
    mp_pages : forall p, 0 <= p < span 2 ->
      page_of root' m' p = if decide (s0 <= p < N) then Some (ent, o + (p - s0)) else page_of root m p;
    mp_dtlb : forall x, covers (dtlb m) x \/ (exists p, s0 <= p < N /\ x = p * 4096) -> covers (dtlb m') x;
    mp_utlb : forall x, covers (utlb m) x -> covers (utlb m') x }.

Lemma root_age_space own b0 root m g : space_ok own b0 root m -> space_ok own b0 root (m <| root_pd_age := g |>).
Proof.
  intros [Hn Ho Hb Hs]. constructor; [|done|done|].
  - eapply node_frame; [exact Hn|]. auto.
  - eapply synced_frame; [exact Hn|exact Hs|]. auto.
Qed.

Definition map_cost (s0 N : Z) : nat := cost 2 s0 (N - 1).

Lemma update_mapping_run fuel own b0 ent o s0 N root m :
  space_ok own b0 root m -> 0 <= s0 < N -> N <= 2 ^ 28 -> 0 <= o -> o + (N - s0) <= 2 ^ 32 -> (Z.to_nat (N - s0) < fuel)%nat ->
  wp (vidmm_vm_update_mapping fuel ent (o * 4096) (s0 * 4096) ((N - s0) * 4096) root m) (fun '(r, root', m') =>
    (r <> S_OK -> kept m m') /\ (r = S_OK -> exists own', mapped own own' b0 ent o s0 N root m root' m') /\
    forall k, fine_answers (map_cost s0 N + k) m -> r = S_OK /\ fine_answers k m').
Proof.
  intros [Hn Ho Hb Hs] Hs0 HN Ho0 Hbound Hfuel. unfold vidmm_vm_update_mapping.
  replace (s0 * 4096 + (N - s0) * 4096 - 1) with (N * 4096 - 1) by lia.
  replace (Z.shiftr (s0 * 4096) GPU_PAGE_SHIFT) with s0 by (rewrite <- (Z.add_0_r (s0 * 4096)); by rewrite page_number).
  replace (Z.shiftr (N * 4096 - 1) GPU_PAGE_SHIFT) with (N - 1)
    by (replace (N * 4096 - 1) with ((N - 1) * 4096 + 4095) by lia; by rewrite page_number).
  apply wp_bind. eapply wp_mono; [apply (vidmm_vm_alloc_pd_ok own m [] root s0 (N - 1)); [done|done|by rewrite Hb|lia|]|].
  { change (span 2) with (2 ^ 28). lia. }
  intros [[r root1] m1] [[Hk Hok Hfine] Hcov]. destruct (Z.eqb_spec r S_OK) as [->|Hr]; cbn [negb].
  2: { cbn [wp]. split; [done|]. split; [done|]. intros k Hf. by destruct (Hfine k Hf). }
  destruct (Hok eq_refl) as (own1 & [Hsub _ Ho1] & Hn1 & Hb1 & He1 & _). destruct (Hcov eq_refl) as [Hbb Hleaf].
  unfold vidmm_vm_update_pd. apply wp_bind. eapply wp_mono; [by apply (vidmmi_vm_update_level_ok own1 m1 [] root1)|].
  intros [[root2 dirty2] m2] (Hk2 & Hn2 & Hs2 & Hb2 & _ & Hl2).
  assert (Hsp2 : space_ok own1 b0 root2 m2).
  { constructor; [done|by eapply (d_owned _ _ _ _ _ Hk2)|congruence|done]. }
  apply wp_bind. destruct (vidmm_vm_update_ptes_ok fuel own1 b0 ent o s0 N root2 m2 Hsp2) as (root3 & m3 & -> & Hinv); [|lia..|].
  { intros p Hp. rewrite Hl2. apply Hleaf. lia. }
  destruct Hinv as [Hsp3 _ Hpages Hdtlb (Ha3 & _ & _ & Hu3) Hdom3]. cbn [wp].
  assert (Hmap : mapped own own1 b0 ent o s0 N root m root3 m3).
  { constructor; [done|done| | |].
    - intros p Hp. unfold page_of. rewrite Hpages by done. case_decide; [done|].
      by rewrite (entry_of_synced 2 own1 m1 m2 [] root1 root2 p Hn1 Hk2 (Hl2 p)), He1.
    - intros x Hx. apply Hdtlb. rewrite (d_dtlb _ _ _ _ _ Hk2), (k_dtlb _ _ Hk). exact Hx.
    - intros x Hx. rewrite Hu3. apply (d_utlb _ _ _ _ _ Hk2). by rewrite (k_utlb _ _ Hk). }
  assert (Hfin : forall k, fine_answers (map_cost s0 N + k) m -> fine_answers k m3).
  { intros k Hf. destruct (Hfine k Hf) as [_ Hf1]. eapply fine_kept; [exact Ha3|exact Hdom3|].
    eapply fine_kept; [by destruct Hk2| |exact Hf1]. intros b Hnb.
    destruct (d_bufs _ _ _ _ _ Hk2 b) as [->|(q & Hq & _)]; [done|]. destruct (Ho1 b q Hq). congruence. }
  split; [done|]. destruct dirty2; [|split; [eauto|intros k Hf; split; [done|by apply Hfin]]].
  split; [intros _; exists own1; destruct Hmap; constructor; [done|by apply root_age_space|done..]|].
  intros k Hf. split; [done|]. by apply Hfin.
Qed.

(** ** Requests on an address space

    A client maps [N - s0] pages of an entity from its page [o] on at page [s0],
    or unmaps a range; the first mapping that fails ends the run. *)
Inductive request := Map (ent o s0 N : Z) | Unmap (s0 N : Z).

Definition serve (fuel : nat) (r : request) (root : vm_pt) (m : vmem) : res (Z * vm_pt * vmem) :=
  match r with
  | Map ent o s0 N => vidmm_vm_update_mapping fuel ent (o * 4096) (s0 * 4096) ((N - s0) * 4096) root m
  | Unmap s0 N =>
      let! '(root, m) := vidmmi_vm_release_pt fuel (s0 * 4096) (s0 * 4096 + (N - s0) * 4096 - 1) root m in Ok (S_OK, root, m)
  end.

Fixpoint serve_all (fuel : nat) (l : list request) (root : vm_pt) (m : vmem) : res (Z * vm_pt * vmem) :=
  match l with
  | [] => Ok (S_OK, root, m)
  | r :: l =>
      let! '(result, root, m) := serve fuel r root m in
      if result =? S_OK then serve_all fuel l root m else Ok (result, root, m)
  end.

(** Ranges inside the address space, entities of less than 2^32 pages, and a round
    of fuel for each page. *)
Definition request_ok (fuel : nat) (r : request) : Prop :=
  match r with
  | Map _ o s0 N => 0 <= s0 < N /\ N <= 2 ^ 28 /\ 0 <= o /\ o + (N - s0) <= 2 ^ 32 /\ (Z.to_nat (N - s0) < fuel)%nat
  | Unmap s0 N => 0 <= s0 < N /\ N <= 2 ^ 28 /\ (Z.to_nat (N - s0) < fuel)%nat
  end.

(** The specification: a map from page numbers to pages. *)
Definition apply (pages : Z -> option (Z * Z)) (r : request) (p : Z) : option (Z * Z) :=
  match r with
  | Map ent o s0 N => if decide (s0 <= p < N) then Some (ent, o + (p - s0)) else pages p
  | Unmap s0 N => if decide (s0 <= p < N) then None else pages p
  end.

(** The tables a request may need. *)
Definition request_cost (r : request) : nat := match r with Map _ _ s0 N => map_cost s0 N | Unmap _ _ => 0 end.

Lemma serve_ok fuel own b0 r root m :
  space_ok own b0 root m -> request_ok fuel r ->
  wp (serve fuel r root m) (fun '(result, root', m') =>
    (result = S_OK -> (exists own', space_ok own' b0 root' m') /\
      forall p, 0 <= p < span 2 -> page_of root' m' p = apply (page_of root m) r p) /\
    forall k, fine_answers (request_cost r + k) m -> result = S_OK /\ fine_answers k m').
Proof.
  intros Hsp Hr. destruct r as [ent o s0 N|s0 N]; cbn [serve request_ok apply request_cost] in *.
  - destruct Hr as (? & ? & ? & ? & ?). eapply wp_mono; [by apply (update_mapping_run fuel own b0 ent o s0 N root m)|].
    intros [[result root'] m'] (_ & Hok & Hf). split; [|exact Hf]. intros Hz. destruct (Hok Hz) as (own' & [_ Hsp' Hp _ _]). eauto.
  - destruct Hr as (? & ? & ?). apply wp_bind. replace (s0 * 4096 + (N - s0) * 4096 - 1) with (N * 4096 - 1) by lia.
    eapply wp_mono; [by apply (vidmmi_vm_release_pt_ok fuel own b0 s0 N root m)|].
    intros [root' m'] [(own' & _ & Hsp') Hb Hp (Ha & _)]. cbn [wp]. split; [eauto|]. intros k Hf. split; [done|].
    eapply fine_kept; [done| |exact Hf]. intros b Hnb. destruct (bufs m' !! b) eqn:E; [|done].
    rewrite (lookup_weaken _ _ _ _ E Hb) in Hnb. done.
Qed.

Lemma apply_ext l f g p : 0 <= p < span 2 -> (forall q, 0 <= q < span 2 -> f q = g q) -> foldl apply f l p = foldl apply g l p.
Proof.
  intros Hp. revert f g. induction l as [|r l IH]; intros f g Hfg; [by apply Hfg|]. cbn [foldl]. apply IH.
  intros q Hq. destruct r; cbn [apply]; case_decide; auto.
Qed.

Lemma serve_all_ok fuel own b0 l root m :
  space_ok own b0 root m -> Forall (request_ok fuel) l ->
  wp (serve_all fuel l root m) (fun '(result, root', m') =>
    (result = S_OK -> (exists own', space_ok own' b0 root' m') /\
      forall p, 0 <= p < span 2 -> page_of root' m' p = foldl apply (page_of root m) l p) /\
    forall k, fine_answers (sum_list_with request_cost l + k) m -> result = S_OK /\ fine_answers k m').
Proof.
  intros Hsp Hl. revert own root m Hsp. induction Hl as [|r l Hr Hl IH]; intros own root m Hsp; cbn [serve_all foldl sum_list_with].
  - cbn [wp]. split; [eauto|done].
  - apply wp_bind. eapply wp_mono; [by eapply serve_ok|]. intros [[z root1] m1] [Hok Hf].
    destruct (Z.eqb_spec z S_OK) as [->|Hz].
    + destruct (Hok eq_refl) as [[own1 Hsp1] Hp1]. eapply wp_mono; [by eapply IH|]. intros [[z root2] m2] [Hok2 Hf2]. split.
      * intros Hz. destruct (Hok2 Hz) as [Hsp2 Hp2]. split; [done|]. intros p Hp. rewrite Hp2 by done.
        by apply apply_ext.
      * intros k Hk. apply Hf2. rewrite <- Nat.add_assoc in Hk. by apply Hf in Hk as [_ ?].
    + cbn [wp]. split; [done|]. intros k Hk. rewrite <- Nat.add_assoc in Hk. by apply Hf in Hk as [? _].
Qed.

(** A run from the creation of the address space on. *)
Definition session (fuel : nat) (age : Z) (t : list pte) (l : list answer) (reqs : list request) : res (Z * vm_pt * vmem) :=
  let! '(result, root, m) := vidmm_vm_init_vma_space age t l in
  if result =? S_OK then serve_all fuel reqs root m else Ok (result, root, m).

(** A fresh address space is correct and empty, whatever its root table holds. *)
Lemma fresh_ok b0 age t l : b0 <> 0 -> zlen t = 256 ->
  space_ok {[ b0 := [] ]} b0 (fresh_root b0) (fresh_mem age {[ b0 := t ]} l) /\
  forall p, page_of (fresh_root b0) (fresh_mem age {[ b0 := t ]} l) p = None.
Proof.
  intros H0 Ht. split; [constructor|done].
  - split; [|by intros i c (? & ? & ?)%child_spec]. constructor; [done| |done]. intros b [= <-].
    split; [done|]. split; [apply lookup_singleton_eq|]. split; eexists; (split; [by try apply lookup_singleton_eq|done]).
  - intros b q [<- _]%lookup_singleton_Some. cbn. rewrite lookup_singleton_eq. by eexists.
  - done.
  - by intros i c b p (? & ? & ?)%child_spec.
Qed.

Lemma session_ok fuel age t b0 l reqs :
  b0 <> 0 -> zlen t = 256 -> Forall (request_ok fuel) reqs ->
  wp (session fuel age t (Fine b0 :: l) reqs) (fun '(result, root, m) =>
    (result = S_OK -> (exists own, space_ok own b0 root m) /\
      forall p, 0 <= p < span 2 -> page_of root m p = foldl apply (fun _ => None) reqs p) /\
    forall k, fine_answers (sum_list_with request_cost reqs + k) (fresh_mem age {[ b0 := t ]} l) -> result = S_OK /\ fine_answers k m).
Proof.
  intros H0 Ht Hr. destruct (fresh_ok b0 age t l H0 Ht) as [Hsp Hnone]. unfold session. cbn [vidmm_vm_init_vma_space rbind].
  change (S_OK =? S_OK) with true. cbn match. eapply wp_mono; [by eapply serve_all_ok|]. intros [[z root] m] [Hok Hf].
  split; [|exact Hf]. intros Hz. destruct (Hok Hz) as [Hsp' Hp]. split; [done|]. intros p Hpp. rewrite Hp by done.
  by apply apply_ext.
Qed.

(** ** Properties *)

(** C6. Address spaces refine a map: after any sequence of mappings
    ([vidmm_vm_update_mapping]) and unmappings ([vidmmi_vm_release_pt]) that
    succeeds on a new address space, whatever the allocator answers and the
    memory of the root table held, the GPU's walk through the three levels of
    tables finds for each page that is mapped the page of the entity the last
    mapping gave it; nothing faults. Running out of fuel is excluded by a round
    for each page. *)
Theorem space_refines_map (fuel : nat) (age : Z) (t : list pte) (b0 : Z) (l : list answer) (reqs : list request) :
  b0 <> 0 -> zlen t = 256 -> Forall (request_ok fuel) reqs ->
  wp (session fuel age t (Fine b0 :: l) reqs) (fun '(result, root, m) =>
    result = S_OK -> forall p x, 0 <= p < 2 ^ 28 -> foldl apply (fun _ => None) reqs p = Some x -> translate b0 p m = Some x).
Proof.
  intros H0 Ht Hr. eapply wp_mono; [by eapply session_ok|]. intros [[z root] m] [Hok _] Hz p x Hp Hx.
  destruct (Hok Hz) as [[own Hsp'] Hpages]. eapply page_translate; [exact Hsp'|done|]. by rewrite Hpages.
Qed.

Ltac by_range := cbn [request_ok]; change (2 ^ 28) with 268435456; change (2 ^ 32) with 4294967296; lia.

(** The result of a run, for the witnesses and the examples. *)
Definition outcome {A} (r : res (Z * vm_pt * vmem)) (f : Z -> vm_pt -> vmem -> A) : option A :=
  match r with Ok (z, root, m) => Some (f z root m) | Err _ => None end.

Definition example_reqs : list request := [Map 7 0 1022 1026; Unmap 1025 1026; Map 8 5 1023 1024].
Definition example_run : res (Z * vm_pt * vmem) := session 10 0 (replicate 256 (Dir 2)) [Fine 1; Fine 2; Fine 3; Fine 4] example_reqs.

Lemma space_refines_map_witness :
  outcome example_run (fun z _ _ => z) = Some S_OK /\
  wp example_run (fun '(_, _, m) => translate 1 1022 m = Some (7, 0) /\ translate 1 1023 m = Some (8, 5) /\ translate 1 1024 m = Some (7, 2)).
Proof.
  assert (Hz : outcome example_run (fun z _ _ => z) = Some S_OK) by (vm_compute; reflexivity). split; [exact Hz|].
  assert (H := space_refines_map 10 0 (replicate 256 (Dir 2)) 1 [Fine 2; Fine 3; Fine 4] example_reqs).
  fold example_run in H. destruct example_run as [[[z root] m]|]; [|discriminate Hz]. injection Hz as ->. cbn [wp] in *.
  assert (Hx : forall p x, 0 <= p < 2 ^ 28 -> foldl apply (fun _ => None) example_reqs p = Some x -> translate 1 p m = Some x).
  { apply H; [lia|done| |done]. repeat constructor; by_range. }
  split; [|split]; (apply Hx; [change (2 ^ 28) with 268435456; lia|reflexivity]).
Defined.

(** C27. Mapping succeeds whenever the allocator does: given new buffers, 1025 for
    each entry of the root table a request touches (that is the directory and all
    its tables), every sequence of mappings and unmappings on a new address
    space ends with [S_OK]. *)
Theorem space_succeeds (fuel : nat) (age : Z) (t : list pte) (b0 : Z) (bs : list Z) (reqs : list request) :
  b0 <> 0 -> zlen t = 256 -> NoDup bs -> ~ In b0 bs -> ~ In 0 bs -> (sum_list_with request_cost reqs <= length bs)%nat ->
  Forall (request_ok fuel) reqs ->
  wp (session fuel age t (Fine b0 :: (Fine <$> bs)) reqs) (fun '(result, _, _) => result = S_OK).
Proof.
  intros H0 Ht Hd Hb Hz Hlen Hr. eapply wp_mono; [by eapply session_ok|]. intros [[z root] m] [_ Hf]. apply (Hf 0%nat).
  exists bs. split; [done|]. split; [done|]. split; [lia|]. intros b Hin. split; [congruence|]. cbn.
  apply lookup_singleton_None. congruence.
Qed.

Lemma space_succeeds_witness :
  wp (session 5 0 (replicate 256 Zero) (Fine 1 :: (Fine <$> seqZ 2 1025)) [Map 7 0 0 3; Unmap 1 2]) (fun '(result, _, _) => result = S_OK).
Proof.
  apply space_succeeds.
  - lia.
  - reflexivity.
  - apply NoDup_seqZ.
  - intros H%list_elem_of_In%elem_of_seqZ. lia.
  - intros H%list_elem_of_In%elem_of_seqZ. lia.
  - rewrite length_seqZ. vm_compute. lia.
  - repeat constructor; by_range.
Defined.

(** C28. No stale translation: after a mapping that succeeds, the dirty range of
    the data translation buffer covers every page of the mapping, and everything
    either translation buffer had to drop before still has to be dropped. *)
Theorem update_mapping_flushes (fuel : nat) own b0 ent o s0 N root m :
  space_ok own b0 root m -> request_ok fuel (Map ent o s0 N) ->
  wp (vidmm_vm_update_mapping fuel ent (o * 4096) (s0 * 4096) ((N - s0) * 4096) root m) (fun '(result, _, m') =>
    result = S_OK ->
    (forall p, s0 <= p < N -> covers (dtlb m') (p * 4096)) /\
    forall x, (covers (dtlb m) x -> covers (dtlb m') x) /\ (covers (utlb m) x -> covers (utlb m') x)).
Proof.
  intros Hsp (? & ? & ? & ? & ?). eapply wp_mono; [by apply (update_mapping_run fuel own b0 ent o s0 N root m)|].
  intros [[z root'] m'] (_ & Hok & _) Hz. destruct (Hok Hz) as (own' & [_ _ _ Hd Hu]).
  split; [intros p Hp; apply Hd; right; by exists p|]. intros x. split; [intros Hx; apply Hd; by left|apply Hu].
Qed.

Lemma update_mapping_flushes_witness :
  wp (vidmm_vm_update_mapping 5 7 (0 * 4096) (2 * 4096) ((5 - 2) * 4096) (fresh_root 1) (fresh_mem 0 {[ 1 := replicate 256 Zero ]} [Fine 2; Fine 3])) (fun '(result, _, m') =>
    result = S_OK -> covers (dtlb m') (4 * 4096)).
Proof.
  eapply wp_mono; [apply (update_mapping_flushes 5 {[ 1 := [] ]} 1 7 0 2 5)|].
  - by apply fresh_ok.
  - by_range.
  - intros [[z root'] m'] H Hz. destruct (H Hz) as [Hp _]. apply (Hp 4). lia.
Defined.

(** C38. A mapping that fails changes nothing the GPU sees: every page that was
    mapped is translated as before. *)
Theorem update_mapping_failure (fuel : nat) own b0 ent o s0 N root m :
  space_ok own b0 root m -> request_ok fuel (Map ent o s0 N) ->
  wp (vidmm_vm_update_mapping fuel ent (o * 4096) (s0 * 4096) ((N - s0) * 4096) root m) (fun '(result, _, m') =>
    result <> S_OK -> (forall p x, 0 <= p < 2 ^ 28 -> page_of root m p = Some x -> translate b0 p m' = Some x) /\
      dtlb m' = dtlb m /\ utlb m' = utlb m /\ root_pd_age m' = root_pd_age m).
Proof.
  intros Hsp (? & ? & ? & ? & ?). pose proof Hsp as [Hn Ho Hb Hs].
  eapply wp_mono; [by apply (update_mapping_run fuel own b0 ent o s0 N root m)|].
  intros [[z root'] m'] (Hfail & _ & _) Hz. pose proof (Hfail Hz) as Hk. split; [|by destruct Hk].
  assert (Hlive : forall b q, own !! b = Some q -> bufs m' !! b = bufs m !! b) by (intros b q Hq; by eapply kept_live).
  assert (Hsp' : space_ok own b0 root m').
  { constructor; [by eapply node_frame; eauto| |done|by eapply synced_frame; eauto].
    intros b q Hq. rewrite (Hlive b q Hq). by eapply Ho. }
  intros p x Hp Hx. eapply page_translate; [exact Hsp'|done|]. rewrite <- Hx. unfold page_of.
  by rewrite (entry_of_kept 2 own m m' [] root p Ho Hk Hn).
Qed.

Lemma update_mapping_failure_witness :
  wp (vidmm_vm_update_mapping 5 7 (0 * 4096) (2 * 4096) ((5 - 2) * 4096) (fresh_root 1) (fresh_mem 0 {[ 1 := replicate 256 Zero ]} [Fine 2; CreateFails])) (fun '(result, _, m') =>
    result = E_OUTOFMEMORY /\ root_pd_age m' = 1).
Proof.
  eapply wp_mono_eq; [apply (update_mapping_failure 5 {[ 1 := [] ]} 1 7 0 2 5)|].
  - by apply fresh_ok.
  - by_range.
  - intros [[z root'] m'] Hrun H. assert (Hz : z = E_OUTOFMEMORY).
    { assert (Ho : outcome (Ok (z, root', m')) (fun z _ _ => z) = Some E_OUTOFMEMORY) by (rewrite <- Hrun; vm_compute; reflexivity).
      by injection Ho. }
    split; [done|]. apply H. by rewrite Hz.
Defined.

(** A mapping that fails half way can poison the address space: the driver
    destroys the new table but keeps its pointer in the entry. When the table that
    failed is a directory, the next mapping of the range goes through the null
    pointer of its bitmap; when it is a table of pages, it uses the destroyed
    buffer. *)
Theorem failed_mapping_dangles :
  let first l := vidmm_vm_update_mapping 5 7 0 0 4096 (fresh_root 1) (fresh_mem 0 {[ 1 := replicate 256 Zero ]} l) in
  let again l := match first l with Ok (_, root, m) => vidmm_vm_update_mapping 5 7 0 0 4096 root m | Err f => Err f end in
  outcome (first [MapFails 2; Fine 3; Fine 4]) (fun z _ _ => z) = Some E_FAIL /\
  again [MapFails 2; Fine 3; Fine 4] = Err NullDeref /\
  outcome (first [Fine 2; BitmapFails 3; Fine 4]) (fun z _ _ => z) = Some E_OUTOFMEMORY /\
  again [Fine 2; BitmapFails 3; Fine 4] = Err OutOfBounds.
Proof. vm_compute. by split_and!. Qed.

(** The converse of the refinement fails: the GPU also translates pages that
    are not mapped. Unmapping leaves the entries in memory valid and marks
    nothing dirty, and a new root table is not cleared, so that what its memory
    held before counts as directories. *)
Theorem unmapped_pages_translate :
  let run := session 5 0 (replicate 256 (Dir 2)) [Fine 1; Fine 2; Fine 3] [Map 7 0 0 2; Unmap 0 1] in
  outcome run (fun z root m => (z, page_of root m 0, page_of root m (2 ^ 20))) = Some (S_OK, None, None) /\
  outcome run (fun _ _ m => (translate 1 0 m, translate 1 (2 ^ 20) m)) = Some (Some (7, 0), Some (7, 0)).
Proof. vm_compute. by split. Qed.
