(* ===== verification/Task.v ===== *)
(** * Tasks: references, submission, completion

    [core/vidsch/vidsch_task.c] and [core/vidsch/vidsch_submit.c] for the graphics
    engine (engine 0, which also runs the paging, update and page table tasks; the
    video engines hand their page table tasks over to it). A task is allocated with
    one reference; the list of submitted tasks of an engine ([submitted_task_list],
    linked through [list_item]) holds another until the fence of the task is back;
    the task is freed with the last one. Each locked section is a definition, and
    the functions are their compositions. What the chip functions write into the
    ring is one entry of [ring]. *)
From S2P Require Import Prelude CoreUtil ListHead PageTable Fence VmId.
From stdpp Require Import gmap.
Local Open Scope Z_scope.

(** ** Data *)

Inductive task_type : Set :=
| task_type_render | task_type_paging | task_type_vm_update | task_type_page_table_set | task_type_vm_prepare.

(** The fields after [desc] of [task_dma_t], [task_paging_t], [task_vm_update_t] and
    [task_page_table_set_t] that the functions here use. *)
Inductive task_body : Set :=
| task_dma (hw_ctx_info : option Z) (null_rendering has_resident : bool)
| task_paging (command_length : Z)
| task_vm_update (command_lengths : list Z)
| task_page_table_set (target_device target_engine_idx target_task_desc : Z) (is_set_root_page_table : bool).

Record task_desc := mkTask
  { type : task_type; dma_cnt : Z; task_vm_id : Z; context : Z; dma_fence : option Z;
    submitted : bool; fake_submitted : bool; reset_dropped : bool; has_prepared : bool;
    ref_cnt : Z; cmd_size : Z; timestamp : Z; fence_id : Z; task_uuid : Z; need_send_irq : bool;
    body : task_body }.
#[export] Instance task_desc_eta : Eta task_desc := fun r =>
  mkTask (type r) (dma_cnt r) (task_vm_id r) (context r) (dma_fence r)
    (submitted r) (fake_submitted r) (reset_dropped r) (has_prepared r)
    (ref_cnt r) (cmd_size r) (timestamp r) (fence_id r) (task_uuid r) (need_send_irq r) (body r).

(** [gpu_context_t]: its device, its engine and its references. *)
Record gpu_context := mkContext { device : Z; rb_index : Z; context_ref_cnt : Z }.
#[export] Instance gpu_context_eta : Eta gpu_context := fun r =>
  mkContext (device r) (rb_index r) (context_ref_cnt r).

(** [gpu_device_t]: what [VmId] uses of it, the dirty ranges of its address space
    per engine, and [task_dropped]. *)
Record device_t := mkDev
  { vm_part : gpu_device; utlb_dirtys : list gart_dirty; dtlb_dirtys : list gart_dirty; task_dropped : bool }.
#[export] Instance device_t_eta : Eta device_t := fun r =>
  mkDev (vm_part r) (utlb_dirtys r) (dtlb_dirtys r) (task_dropped r).

(** The task counters of an engine and the time of its last returned fence. *)
Record engine_t := mkEngine { pending_tasks_num : Z; handled_tasks_num : Z; returned_timestamp : Z }.
#[export] Instance engine_t_eta : Eta engine_t := fun r =>
  mkEngine (pending_tasks_num r) (handled_tasks_num r) (returned_timestamp r).

(** [struct zx_dma_fence]: the value that signals it, whether an interrupt is
    wanted, and its references. *)
Record zx_dma_fence := mkDmaFence { fence_value : Z; send_interrupt : bool; fence_refs : Z }.

(** What a chip function puts into the ring of its engine; the number is the one
    the GPU writes into the fence cell when it gets there. *)
Inductive ring_entry : Set :=
| SubmitDma (fence uuid vm_id : Z)
| SetRootPageTable (fence device vm_id : Z)
| InvalidateTlb (fence device vm_id : Z).
Definition entry_fence (c : ring_entry) : Z :=
  match c with SubmitDma f _ _ => f | SetRootPageTable f _ _ => f | InvalidateTlb f _ _ => f end.

(** The scheduler. A task is named by the address of its [list_item] in [items];
    [released] has the tasks given to their [release] callback, last first; [clock]
    the times [zx_get_nsecs] will return. *)
Record scheduler := mkSched
  { tasks : gmap Z task_desc; items : heap; vms : vidsch_vm_id_mgr;
    contexts : gmap Z gpu_context; devices : gmap Z device_t; engines : list engine_t;
    hwctx_invalid : gmap Z bool; dma_fences : gmap Z zx_dma_fence;
    last_uuid : Z; clock : list Z; ring : gmap Z (list ring_entry); released : list task_desc }.
#[export] Instance sched_eta : Eta scheduler := fun r =>
  mkSched (tasks r) (items r) (vms r) (contexts r) (devices r) (engines r)
    (hwctx_invalid r) (dma_fences r) (last_uuid r) (clock r) (ring r) (released r).

(** The head of [submitted_task_list] of an engine, the reserved device and
    the engines that exist besides the video engines. *)
Definition submitted_task_list (e : Z) : Z := e + 1.
Definition reserved_device : Z := 0.
Definition RESERVED_ENGINE_INDEX : Z := 0.

Definition fetch {A} (m : gmap Z A) (a : Z) : res A := deref (m !! a).

Definition get_task (t : Z) (s : scheduler) : res task_desc := fetch (tasks s) t.
Definition put_task (t : Z) (d : task_desc) (s : scheduler) : scheduler := s <| tasks ::= <[t := d]> |>.
Definition engine_of (d : task_desc) (s : scheduler) : res Z :=
  let! c := fetch (contexts s) (context d) in Ok (rb_index c).
Definition upd_engine (e : Z) (f : engine_t -> engine_t) (s : scheduler) : res scheduler :=
  let! x := rd (engines s) e in let! l := wr (engines s) e (f x) in Ok (s <| engines := l |>).
Definition fence_state (s : scheduler) : fences := fen (vms s).
Definition set_fences (f : fences) (s : scheduler) : scheduler := s <| vms ::= fun m => set_fen m f |>.

Definition zx_get_nsecs (s : scheduler) : Z * scheduler :=
  match clock s with [] => (0, s) | t :: c => (t, s <| clock := c |>) end.

(** A poll of the fences, with the time of a new fence ([vidschi_update_fence_id]). *)
Definition poll_fence (e f : Z) (s : scheduler) : res (bool * scheduler) :=
  let! old := vidsch_get_current_returned_fence e (fence_state s) in
  let! '(back, fs) := vidsch_is_fence_back e f (fence_state s) in
  let! new := vidsch_get_current_returned_fence e fs in
  let s := set_fences fs s in
  if old <? new then
    let '(now, s) := zx_get_nsecs s in
    let! s := upd_engine e (fun x => x <| returned_timestamp := now |>) s in Ok (back, s)
  else Ok (back, s).

(** ** References *)

(** The memory at [t] was just allocated and zeroed. *)
Definition vidsch_task_init_desc (ctx t : Z) (ty : task_type) (bd : task_body) (s : scheduler) : res scheduler :=
  let! c := fetch (contexts s) ctx in
  let s := s <| contexts ::= <[ctx := c <| context_ref_cnt ::= Z.add 1 |>]> |> in
  let uuid := u64 (last_uuid s + 1) in
  let s := s <| last_uuid := uuid |> in
  let s := put_task t (mkTask ty 0 (-1) ctx None false false false false 1 0 0 0 uuid true bd) s in
  let! h := list_init_head t (<[t := mkNode 0 0]> (items s)) in
  upd_engine (rb_index c) (fun x => x <| pending_tasks_num ::= Z.add 1 |>) (s <| items := h |>).

(** The callback gets the task, and frees it. *)
Definition vidschi_do_release_task (e t : Z) (s : scheduler) : res scheduler :=
  let! d := get_task t s in
  let s := s <| released ::= cons d |> <| tasks ::= delete t |> <| items ::= delete t |> in
  let! c := fetch (contexts s) (context d) in
  let s := s <| contexts ::= <[context d := c <| context_ref_cnt ::= Z.pred |>]> |> in
  upd_engine e (fun x => x <| handled_tasks_num ::= Z.add 1 |>) s.

Definition vidsch_task_inc_reference (t : Z) (s : scheduler) : res scheduler :=
  let! d := get_task t s in Ok (put_task t (d <| ref_cnt ::= Z.add 1 |>) s).

Definition vidsch_task_dec_reference (t : Z) (s : scheduler) : res scheduler :=
  let! d := get_task t s in
  let! e := engine_of d s in
  let n := ref_cnt d - 1 in
  let s := put_task t (d <| ref_cnt := n |>) s in
  if n =? 0 then vidschi_do_release_task e t s else Ok s.

(** ** The list of submitted tasks *)

(** The locked section of [vidschi_set_task_submitted]; the result is the [task]
    variable after it. *)
Definition link_submitted (e t : Z) (fake_submit : bool) (s : scheduler) : res (option Z * scheduler) :=
  let! nx := get_next (items s) t in
  if negb (nx =? t) then
    let! h := list_del t (items s) in
    let! h := if fake_submit then Ok h else list_add_tail t (submitted_task_list e) h in
    Ok (Some t, s <| items := h |>)
  else if negb fake_submit then
    let! h := list_add_tail t (submitted_task_list e) (items s) in
    let! s := vidsch_task_inc_reference t (s <| items := h |>) in Ok (Some t, s)
  else Ok (None, s).

(** [vidschi_set_task_submitted] up to the unlock, and the rest. *)
Definition set_task_submitted_begin (e t : Z) (fake_submit : bool) (s : scheduler) : res (option Z * scheduler) :=
  let '(now, s) := zx_get_nsecs s in
  let! d := get_task t s in
  let s := put_task t (d <| timestamp := now |> <| fake_submitted ::= orb fake_submit |>) s in
  link_submitted e t fake_submit s.

Definition mark_submitted (t : Z) (s : scheduler) : res scheduler :=
  let! d := get_task t s in Ok (put_task t (d <| submitted := true |>) s).

Definition vidschi_set_task_submitted (e t : Z) (fake_submit : bool) (s : scheduler) : res scheduler :=
  let! '(task, s) := set_task_submitted_begin e t fake_submit s in
  if fake_submit then
    match task with Some t => vidsch_task_dec_reference t s | None => Ok s end
  else mark_submitted t s.

(** The locked section of [vidsch_release_completed_tasks]: the task taken from
    the list, or the fence of the first one when it is not back. *)
Definition take_completed (e : Z) (s : scheduler) : res (option Z * option Z * scheduler) :=
  let! empty := list_empty (submitted_task_list e) (items s) in
  if negb empty then
    let! t := list_first_entry (submitted_task_list e) (items s) in
    let! d := get_task t s in
    let! '(back, s) := poll_fence e (fence_id d) s in
    if negb back then
      let! x := rd (engines s) e in
      let s := if timestamp d <? returned_timestamp x
               then put_task t (d <| timestamp := returned_timestamp x |>) s else s in
      Ok (None, Some (fence_id d), s)
    else
      let! h := list_del t (items s) in Ok (Some t, None, s <| items := h |>)
  else Ok (None, None, s).

(** The result is [*uncompleted_dma], if it was written. *)
Definition vidsch_release_completed_tasks (fuel : nat) (e : Z) (s : scheduler) : res (option Z * scheduler) :=
  iterate fuel
    (fun '(u, s) =>
       let! '(task, u', s) := take_completed e s in
       let u := match u' with Some _ => u' | None => u end in
       match task with
       | Some t => let! s := vidsch_task_dec_reference t s in Ok (inl (u, s))
       | None => Ok (inr (u, s))
       end) (None, s).

Definition vidschi_set_uncompleted_task_dropped (fuel : nat) (e dropped_task : Z) (s : scheduler) : res scheduler :=
  let! r := list_for_each fuel (submitted_task_list e) (items s)
    (fun t s =>
       let! d := get_task t s in
       if fence_id d <=? dropped_task then Ok (inl (put_task t (d <| reset_dropped := true |>) s))
       else Ok (inl s)) s in
  match r with inl s => Ok s | inr s => Ok s end.

(** The locked section of [vidschi_uncompleted_task_exceed_wait_time]: the
    first task, if it has run for too long; the cell is read once more for the message. *)
Definition exceeds_wait_time (e max_wait_time : Z) (s : scheduler) : res (option Z * scheduler) :=
  let! empty := list_empty (submitted_task_list e) (items s) in
  if negb empty then
    let! t := list_first_entry (submitted_task_list e) (items s) in
    let '(curr_time, s) := zx_get_nsecs s in
    let! d := get_task t s in
    let! returned := vidsch_get_current_returned_fence e (fence_state s) in
    if (u64 (timestamp d + max_wait_time) <? curr_time) && (returned <? fence_id d) then
      let! '(cell, fs) := engine_update_fence_id_e3k e (fence_state s) in
      let s := set_fences fs s in
      if fence_id d <=? cell then Ok (None, s)
      else
        let! '(_, fs) := engine_update_fence_id_e3k e (fence_state s) in
        let! s := vidsch_task_inc_reference t (set_fences fs s) in Ok (Some t, s)
    else Ok (None, s)
  else Ok (None, s).

Definition vidschi_uncompleted_task_exceed_wait_time (fuel : nat) (e max_wait_time : Z) (s : scheduler)
  : res (option Z * scheduler) :=
  let! '(_, s) := vidsch_release_completed_tasks fuel e s in exceeds_wait_time e max_wait_time s.
