(* ===== verification/TaskSubmit.v ===== *)
(** * Submitting tasks

    The functions of [core/vidsch/vidsch_submit.c] on the graphics engine, and the
    part of [vidsch_choose_vm_id] that puts a page table task before the task it
    belongs to. The first half of each function runs under [engine_lock]; a
    function that other threads can interrupt between two locked sections is the
    composition of those sections, which [TaskLife] interleaves. *)
From S2P Require Import Prelude CoreUtil ListHead PageTable Fence VmId Task.
From stdpp Require Import gmap.
Local Open Scope Z_scope.

(** [vidschi_update_and_release_dma_fence]: the waiting threads' object gets the
    value that signals it. *)
Definition vidschi_update_and_release_dma_fence (t : Z) (s : scheduler) : res scheduler :=
  let! d := get_task t s in
  match dma_fence d with
  | None => Ok s
  | Some o =>
      let! f := fetch (dma_fences s) o in
      Ok (put_task t (d <| need_send_irq := send_interrupt f |> <| dma_fence := None |>) s
            <| dma_fences ::= <[o := mkDmaFence (fence_id d) (send_interrupt f) (fence_refs f - 1)]> |>)
  end.

(** The fence number of a new task of engine [e]. *)
Definition next_fence (e : Z) (s : scheduler) : res (Z * scheduler) :=
  let! '(f, fs) := vidschi_inc_send_fence_id e (fence_state s) in Ok (f, set_fences fs s).

Definition put_ring (e : Z) (c : ring_entry) (s : scheduler) : scheduler :=
  s <| ring ::= <[e := default [] (ring s !! e) ++ [c]]> |>.

(** ** The page table task *)

(** The video engines ([IS_VIDEO_ENGINE]); their page table tasks go through the ring of
    the graphics engine. *)
Definition IS_VIDEO_ENGINE (e : Z) : bool := (7 <=? e) && (e <=? 11).
Definition ring_of_target (e : Z) : Z := if IS_VIDEO_ENGINE e then RESERVED_ENGINE_INDEX else e.

(** The end of [vidsch_choose_vm_id]: the identifier has the page table now. *)
Definition choose_vm_id_age (dv : Z) (s : scheduler) : res scheduler :=
  let! dev := fetch (devices s) dv in
  let! i := deref (dev_vm_id (vm_part dev)) in
  let! o := rd (vm_id_array (vms s)) i in
  if pd_age o <? root_pd_age (vm_part dev) then
    let! a := wr (vm_id_array (vms s)) i
      (mkVmId (vm_id o) (device_uuid o) (root_pd_age (vm_part dev)) (bitmap o) (last_flush o)) in
    Ok (s <| vms ::= fun m => set_array m a |>)
  else Ok s.

(** [vidsch_choose_vm_id] up to the decision: the task gets the identifier of its
    device's address space; the result is whether a page table task must go first,
    which is never so for the reserved device. *)
Definition choose_vm_id_lookup (fuel : nat) (t : Z) (s : scheduler) : res (bool * scheduler) :=
  let! d := get_task t s in
  let! c := fetch (contexts s) (context d) in
  let! dev := fetch (devices s) (device c) in
  let is_reserved := device c =? reserved_device in
  let e := rb_index c in
  let! '(i, id, vd, m) := vidsch_choose_vm_id 2 fuel is_reserved (vm_part dev) (fence_id d) e (vms s) in
  let s := put_task t (d <| task_vm_id := id |>) s
             <| vms := m |> <| devices ::= <[device c := dev <| vm_part := vd |>]> |> in
  if is_reserved then let! s := choose_vm_id_age (device c) s in Ok (false, s)
  else
    let! o := rd (vm_id_array m) i in
    let! utlb := rd (utlb_dirtys dev) e in
    let! dtlb := rd (dtlb_dirtys dev) e in
    Ok (needs_page_table_set is_reserved o vd (dirty utlb) (dirty dtlb), s).

(** [vidsch_allocate_page_table_set_task] for target [t], as the caller completes it;
    [pt] is what the allocator answers, and the caller does not handle a failure. *)
Definition vidsch_allocate_page_table_set_task (reserved_context pt dv e t : Z) (s : scheduler) : res scheduler :=
  if pt =? 0 then Err NullDeref
  else
    let! s := vidsch_task_init_desc reserved_context pt task_type_page_table_set
                (task_page_table_set dv e t false) s in
    let! d := get_task pt s in Ok (put_task pt (d <| task_vm_id := 0 |>) s).

(** [vidsch_submit_page_table_set_task] under [engine_lock] of the graphics engine,
    up to the unlock. *)
Definition page_table_set_locked (fuel : nat) (pt : Z) (s : scheduler) : res scheduler :=
  let! d := get_task pt s in
  match body d with
  | task_page_table_set target_device target_engine_index target_task_desc _ =>
      let! c := fetch (contexts s) (context d) in
      let engine_index := rb_index c in
      let! '(fence, s) := next_fence engine_index s in
      let! '(_, s) := choose_vm_id_lookup fuel pt s in
      let! dev := fetch (devices s) target_device in
      let! i := deref (dev_vm_id (vm_part dev)) in
      let! d := get_task pt s in
      let! s :=
        if target_engine_index =? engine_index then
          let! td := get_task target_task_desc s in
          let s := put_task pt (d <| fence_id := fence_id td |>) s in
          let s := put_task target_task_desc (td <| fence_id := fence |>) s in
          let! m := vidschi_vm_id_add_sync i fence target_engine_index (vms s) in
          Ok (s <| vms := m |>)
        else Ok (put_task pt (d <| fence_id := fence |>) s) in
      let! o := rd (vm_id_array (vms s)) i in
      let! d := get_task pt s in
      let ring := ring_of_target target_engine_index in
      if pd_age o <? root_pd_age (vm_part dev) then
        let s := put_task pt
          (d <| body := task_page_table_set target_device target_engine_index target_task_desc true |>) s in
        Ok (put_ring ring (SetRootPageTable (fence_id d) target_device (vm_id o)) s)
      else Ok (put_ring ring (InvalidateTlb (fence_id d) target_device (vm_id o)) s)
  | _ => Err NullDeref
  end.

(** [vidmm_vm_clear_engine_dirty_range] *)
Definition vidmm_vm_clear_engine_dirty_range (dv e : Z) (s : scheduler) : res scheduler :=
  let! dev := fetch (devices s) dv in
  let clear l := let! x := rd l e in if dirty x then wr l e (mkDirty false 0 0) else Ok l in
  let! u := clear (utlb_dirtys dev) in
  let! l := clear (dtlb_dirtys dev) in
  Ok (s <| devices ::= <[dv := dev <| utlb_dirtys := u |> <| dtlb_dirtys := l |>]> |>).

(** What follows the insertion into the list in [vidsch_submit_page_table_set_task]. *)
Definition page_table_set_finish (pt : Z) (s : scheduler) : res scheduler :=
  let! d := get_task pt s in
  match body d with
  | task_page_table_set target_device target_engine_index target_task_desc _ =>
      let! s := vidmm_vm_clear_engine_dirty_range target_device target_engine_index s in
      if IS_VIDEO_ENGINE target_engine_index then
        let! td := get_task target_task_desc s in
        Ok (put_task target_task_desc (td <| has_prepared := true |>) s)
      else Ok s
  | _ => Err NullDeref
  end.

Definition vidsch_submit_page_table_set_task (fuel : nat) (e pt : Z) (s : scheduler) : res scheduler :=
  let! s := page_table_set_locked fuel pt s in
  let! s := vidschi_set_task_submitted e pt false s in
  page_table_set_finish pt s.

(** The whole of [vidsch_choose_vm_id] on the graphics engine; [pt] is the memory for
    the page table task. *)
Definition choose_vm_id (fuel : nat) (reserved_context pt t : Z) (s : scheduler) : res scheduler :=
  let! d := get_task t s in
  let! c := fetch (contexts s) (context d) in
  let! '(needs, s) := choose_vm_id_lookup fuel t s in
  if needs then
    let! s := vidsch_allocate_page_table_set_task reserved_context pt (device c) (rb_index c) t s in
    let! s := vidsch_submit_page_table_set_task fuel (rb_index c) pt s in
    let! s := vidsch_task_dec_reference pt s in
    choose_vm_id_age (device c) s
  else Ok s.

(** ** Submission *)

(** The first step under [engine_lock]: the task gets the next number. *)
Definition take_fence (e t : Z) (s : scheduler) : res (Z * scheduler) :=
  let! '(fence, s) := next_fence e s in
  let! d := get_task t s in
  let d := d <| fence_id := fence |> in
  let d := match body d with task_paging len => d <| cmd_size := len |> | _ => d end in
  Ok (fence, put_task t d s).

(** The last one, [chip_func->submit]: of the [task_dma_t] itself, after its waiters
    got their value; of a paging or update task, by way of a [task_dma_t] on the stack with
    the number [fence] that was taken first. *)
Definition chip_submit (e t fence : Z) (s : scheduler) : res scheduler :=
  let! d := get_task t s in
  match body d with
  | task_dma _ _ _ =>
      let! s := vidschi_update_and_release_dma_fence t s in
      let! d := get_task t s in
      Ok (put_ring e (SubmitDma (fence_id d) (task_uuid d) (task_vm_id d)) s)
  | _ => Ok (put_ring e (SubmitDma fence (task_uuid d) (task_vm_id d)) s)
  end.

(** [vidschi_submit_dma], and what [vidsch_submit_paging_task] and
    [vidsch_submit_vm_update_task] do with a task that has commands. *)
Definition vidschi_submit_dma (fuel : nat) (reserved_context pt t : Z) (s : scheduler) : res scheduler :=
  let! d := get_task t s in
  let! e := engine_of d s in
  let! '(fence, s) := take_fence e t s in
  let! s := choose_vm_id fuel reserved_context pt t s in
  let! s := chip_submit e t fence s in
  vidschi_set_task_submitted e t false s.

(** [vidschi_fake_submit_dma] *)
Definition vidschi_fake_submit_dma (t : Z) (s : scheduler) : res scheduler :=
  let! d := get_task t s in
  let! e := engine_of d s in
  let '(now, s) := zx_get_nsecs s in
  let s := put_task t (d <| timestamp := now |>) s in
  let! s := vidschi_update_and_release_dma_fence t s in
  let! s := vidschi_set_task_submitted e t true s in
  let! fs := vidsch_notify_interrupt (fence_state s) in Ok (set_fences fs s).

(** Whether the commands of the task are to be skipped
    ([vidschi_prepare_and_submit_dma]), and what it returns then. *)
Definition skips_commands (d : task_desc) (s : scheduler) : res (option Z) :=
  match body d with
  | task_dma hw null_rendering _ =>
      let! invalid := match hw with Some h => fetch (hwctx_invalid s) h | None => Ok false end in
      Ok (if (invalid : bool) then Some E_FAIL
          else if null_rendering || (dma_cnt d =? 0) then Some S_OK else None)
  | _ => Err NullDeref
  end.

(** The outcome of [vidsch_prepare_dma_task]: [mapped] is whether
    [vidmm_allocation_list_update_mapping] succeeded for the allocations of the task. *)
Definition prepare_dma_task (t : Z) (mapped : bool) (s : scheduler) : res (bool * scheduler) :=
  let! d := get_task t s in
  match body d with
  | task_dma hw null_rendering resident =>
      let resident := resident || mapped in
      Ok (resident, put_task t (d <| body := task_dma hw null_rendering resident |>) s)
  | _ => Err NullDeref
  end.

(** The task cannot be run: its device and hardware context know. *)
Definition discard_dma_task (t : Z) (s : scheduler) : res scheduler :=
  let! d := get_task t s in
  let! c := fetch (contexts s) (context d) in
  let! dev := fetch (devices s) (device c) in
  let s := s <| devices ::= <[device c := dev <| task_dropped := true |>]> |> in
  match body d with
  | task_dma (Some h) _ _ => Ok (s <| hwctx_invalid ::= <[h := true]> |>)
  | _ => Ok s
  end.

Definition vidschi_prepare_and_submit_dma (fuel : nat) (reserved_context pt : Z) (mapped : bool) (t : Z) (s : scheduler)
  : res (Z * scheduler) :=
  let! d := get_task t s in
  let! skip := skips_commands d s in
  match skip with
  | Some r => let! s := vidschi_fake_submit_dma t s in Ok (r, s)
  | None =>
      let! '(resident, s) := prepare_dma_task t mapped s in
      if resident then let! s := vidschi_submit_dma fuel reserved_context pt t s in Ok (S_OK, s)
      else
        let! s := discard_dma_task t s in
        let! s := vidschi_fake_submit_dma t s in Ok (S_OK, s)
  end.

(** [vidsch_submit_paging_task] and [vidsch_submit_vm_update_task]: a task without
    commands is only taken off; the waiters are woken first. *)
Definition no_commands (d : task_desc) : bool :=
  match body d with
  | task_paging len => len =? 0
  | task_vm_update [len] => len =? 0
  | _ => false
  end.

Definition submit_memory_task (fuel : nat) (reserved_context pt t : Z) (s : scheduler) : res scheduler :=
  let! d := get_task t s in
  if no_commands d then
    let! e := engine_of d s in
    let! fs := vidsch_notify_interrupt (fence_state s) in
    vidschi_set_task_submitted e t true (set_fences fs s)
  else vidschi_submit_dma fuel reserved_context pt t s.
