(* ===== verification/TaskLife.v ===== *)
(** * The life of a task among several threads

    The locked sections of [Task] and [TaskSubmit] interleaved: any number of
    threads create tasks, share and drop references, submit to the graphics engine, take
    completed tasks off the lists and look for hanging ones, in any order, while the
    GPU advances the fence cells. A thread is represented by what it holds ([act]).
    This file has the transition system and its invariant ([life_ok]), and that
    every step runs and preserves it. *)
From S2P Require Import Prelude CoreUtil ListHead ListRings PageTable Fence VmId Task TaskSubmit.
From stdpp Require Import gmap.
Local Open Scope Z_scope.

(** ** The transition system *)

(** What a thread holds. [k] is the task, with its number, that waits for the page
    table task in front of it; such a thread is inside [engine_lock]. *)
Inductive act : Set :=
| Ref (t : Z)                                   (* a reference *)
| New (t : Z)                                   (* a reference to a task that is still to be submitted *)
| NeedsPt (t fence pt : Z)                      (* in [vidsch_choose_vm_id], with the page table task *)
| Sent (t : Z) (k : option (Z * Z))             (* its commands are in the ring *)
| Linked (t : Z) (k : option (Z * Z)).          (* and it has been put into the list *)

(** The references an activity holds; the tasks that are not yet in a list; those
    that have just been put there. *)
Definition waiting_task (k : option (Z * Z)) : list Z := match k with Some (t, _) => [t] | None => [] end.
Definition held_by (a : act) : list Z :=
  match a with
  | Ref t | New t => [t]
  | NeedsPt t _ pt => [t; pt]
  | Sent t k | Linked t k => t :: waiting_task k
  end.
Definition unlisted (a : act) : list Z :=
  match a with
  | Ref _ => []
  | New t => [t]
  | NeedsPt t _ pt => [t; pt]
  | Sent t k => t :: waiting_task k
  | Linked _ k => waiting_task k
  end.
Definition just_linked (a : act) : list Z := match a with Linked t _ => [t] | _ => [] end.
Definition has_lock (a : act) : bool :=
  match a with NeedsPt _ _ _ | Sent _ (Some _) | Linked _ (Some _) => true | _ => false end.

Record life_state := mkWorld { st : scheduler; acts : list act }.

(** The steps; [i] is the place of the acting thread in [acts]. [Describe] is a
    caller that fills in its task, [Remap] the memory manager, [Gpu] what the GPU
    will write into the fence cells from now on. *)
Inductive label : Set :=
| Create (ctx t : Z) (ty : task_type) (bd : task_body)
| Share (i : nat)
| Drop (i : nat)
| Describe (i : nat) (cnt : Z) (o : option Z)
| Prepare (i : nat) (mapped : bool)
| Skip (i : nat)
| Submit (i : nat) (fuel : nat) (pt : Z)
| SetPageTable (i : nat) (fuel : nat)
| Link (i : nat)
| Finish (i : nat)
| TakeCompleted (e : Z)
| CheckHang (e max_wait_time : Z)
| DropUncompleted (fuel : nat) (e dropped_task : Z)
| Notify
| Remap (dv age : Z) (utlb dtlb : list gart_dirty)
| Gpu (cells : list (list Z)).

Section Steps.
(** [adapter->reserved_context], which the page table tasks run in. *)
Context (reserved_context : Z).

Definition at_act (w : life_state) (i : nat) : res act := deref (acts w !! i).
Definition become (i : nat) (a : act) (w : life_state) (s : scheduler) : life_state := mkWorld s (<[i := a]> (acts w)).

(** The task an activity is about. *)
Definition main_task (a : act) : Z :=
  match a with Ref t | New t | NeedsPt t _ _ | Sent t _ | Linked t _ => t end.

(** The first section of a submission. *)
Definition submit_first (fuel : nat) (pt t : Z) (s : scheduler) : res (option Z * scheduler) :=
  let! d := get_task t s in
  let! c := fetch (contexts s) (context d) in
  let! '(fence, s) := take_fence (rb_index c) t s in
  let! '(needs, s) := choose_vm_id_lookup fuel t s in
  if needs then
    let! s := vidsch_allocate_page_table_set_task reserved_context pt (device c) (rb_index c) t s in
    Ok (Some fence, s)
  else let! s := chip_submit (rb_index c) t fence s in Ok (None, s).

(** The end of the page table task's submission, and what its target still has
    to do under the lock. *)
Definition submit_last (pt t fence : Z) (s : scheduler) : res scheduler :=
  let! s := mark_submitted pt s in
  let! s := page_table_set_finish pt s in
  let! s := vidsch_task_dec_reference pt s in
  let! d := get_task t s in
  let! c := fetch (contexts s) (context d) in
  let! s := choose_vm_id_age (device c) s in
  chip_submit (rb_index c) t fence s.

Definition skip_task (t : Z) (s : scheduler) : res scheduler :=
  let! d := get_task t s in
  match body d with
  | task_dma _ _ _ => vidschi_fake_submit_dma t s
  | _ =>
      let! e := engine_of d s in
      let! fs := vidsch_notify_interrupt (fence_state s) in
      vidschi_set_task_submitted e t true (set_fences fs s)
  end.

Definition carry_out (l : label) (w : life_state) : res life_state :=
  match l with
  | Create ctx t ty bd =>
      let! s := vidsch_task_init_desc ctx t ty bd (st w) in Ok (mkWorld s (acts w ++ [New t]))
  | Share i =>
      let! a := at_act w i in
      let! s := vidsch_task_inc_reference (main_task a) (st w) in Ok (mkWorld s (acts w ++ [Ref (main_task a)]))
  | Drop i =>
      let! a := at_act w i in
      let! s := vidsch_task_dec_reference (main_task a) (st w) in Ok (mkWorld s (delete i (acts w)))
  | Describe i cnt o =>
      let! a := at_act w i in
      let! d := get_task (main_task a) (st w) in
      Ok (mkWorld (put_task (main_task a) (d <| dma_cnt := cnt |> <| dma_fence := o |>) (st w)) (acts w))
  | Prepare i mapped =>
      let! a := at_act w i in
      let! '(resident, s) := prepare_dma_task (main_task a) mapped (st w) in
      let! s := if (resident : bool) then Ok s else discard_dma_task (main_task a) s in
      Ok (mkWorld s (acts w))
  | Skip i =>
      let! a := at_act w i in
      let! s := skip_task (main_task a) (st w) in Ok (become i (Ref (main_task a)) w s)
  | Submit i fuel pt =>
      let! a := at_act w i in
      let! '(r, s) := submit_first fuel pt (main_task a) (st w) in
      Ok (become i match r with Some fence => NeedsPt (main_task a) fence pt | None => Sent (main_task a) None end w s)
  | SetPageTable i fuel =>
      let! a := at_act w i in
      match a with
      | NeedsPt t fence pt =>
          let! s := page_table_set_locked fuel pt (st w) in Ok (become i (Sent pt (Some (t, fence))) w s)
      | _ => Err NullDeref
      end
  | Link i =>
      let! a := at_act w i in
      match a with
      | Sent t k =>
          let! d := get_task t (st w) in
          let! e := engine_of d (st w) in
          let! '(_, s) := set_task_submitted_begin e t false (st w) in Ok (become i (Linked t k) w s)
      | _ => Err NullDeref
      end
  | Finish i =>
      let! a := at_act w i in
      match a with
      | Linked t None => let! s := mark_submitted t (st w) in Ok (become i (Ref t) w s)
      | Linked pt (Some (t, fence)) =>
          let! s := submit_last pt t fence (st w) in Ok (become i (Sent t None) w s)
      | _ => Err NullDeref
      end
  | TakeCompleted e =>
      let! '(r, _, s) := take_completed e (st w) in
      Ok (mkWorld s (acts w ++ match r with Some t => [Ref t] | None => [] end))
  | CheckHang e max_wait_time =>
      let! '(r, s) := exceeds_wait_time e max_wait_time (st w) in
      Ok (mkWorld s (acts w ++ match r with Some t => [Ref t] | None => [] end))
  | DropUncompleted fuel e f =>
      let! s := vidschi_set_uncompleted_task_dropped fuel e f (st w) in Ok (mkWorld s (acts w))
  | Notify =>
      let! fs := vidsch_notify_interrupt (fence_state (st w)) in Ok (mkWorld (set_fences fs (st w)) (acts w))
  | Remap dv age utlb dtlb =>
      let! dev := fetch (devices (st w)) dv in
      let vd := mkDevice (uuid (vm_part dev)) (dev_vm_id (vm_part dev)) age in
      Ok (mkWorld ((st w) <| devices ::= <[dv := mkDev vd utlb dtlb (task_dropped dev)]> |>) (acts w))
  | Gpu cells =>
      let f := fence_state (st w) in
      Ok (mkWorld (set_fences (mkFences (sch_mgr f) (fence_cells f) (disable_schedule f) cells (polls f)) (st w)) (acts w))
  end.

(** New memory: not null, none of the list heads, and not in use. *)
Definition new_memory (t : Z) (w : life_state) : Prop :=
  zlen (engines (st w)) < t /\ tasks (st w) !! t = None.

(** The body of a task that is created for a client. *)
Definition client_body (b : task_body) : bool := match b with task_page_table_set _ _ _ _ => false | _ => true end.

Definition is_dma (b : task_body) : bool := match b with task_dma _ _ _ => true | _ => false end.

(** The numbers of an engine have not been used up. *)
Definition no_wrap (s : scheduler) (e : Z) : Prop := last_sent (fence_state s) e < 2 ^ 64 - 2.

(** When a step can be taken: a thread does what its code allows, the allocator
    gives new memory, and a thread that waits for the GPU waits for a GPU that works. *)
Definition permitted (l : label) (w : life_state) : Prop :=
  match l with
  | Create ctx t _ bd => new_memory t w /\ exists c, contexts (st w) !! ctx = Some c /\
      (is_dma bd = true \/ client_body bd = true /\ device c = reserved_device)
  | Share i => exists a, acts w !! i = Some a
  | Drop i => exists t, acts w !! i = Some (Ref t)
  | Describe i _ o => exists t, acts w !! i = Some (New t) /\ forall x, o = Some x -> is_Some (dma_fences (st w) !! x)
  | Prepare i _ => exists t d, acts w !! i = Some (New t) /\ tasks (st w) !! t = Some d /\ is_dma (body d) = true
  | Skip i => exists t, acts w !! i = Some (New t)
  | Submit i fuel pt =>
      exists t d c, acts w !! i = Some (New t) /\ tasks (st w) !! t = Some d /\
        contexts (st w) !! context d = Some c /\ rb_index c = RESERVED_ENGINE_INDEX /\
        forallb (fun a => negb (has_lock a)) (acts w) = true /\ new_memory pt w /\
        gpu_alive (vms (st w)) /\ no_wrap (st w) RESERVED_ENGINE_INDEX /\
        (length (future (fence_state (st w))) < fuel)%nat
  | SetPageTable i fuel => exists t f pt, acts w !! i = Some (NeedsPt t f pt)
  | Link i => exists t k, acts w !! i = Some (Sent t k)
  | Finish i => exists t k, acts w !! i = Some (Linked t k)
  | TakeCompleted e | CheckHang e _ => 0 <= e < zlen (engines (st w)) /\ engine_present (fence_state (st w)) e
  | DropUncompleted fuel e _ => 0 <= e < zlen (engines (st w)) /\ (size (tasks (st w)) < fuel)%nat
  | Notify => True
  | Remap dv _ utlb dtlb => is_Some (devices (st w) !! dv) /\
      zlen utlb = zlen (engines (st w)) /\ zlen dtlb = zlen (engines (st w))
  | Gpu cells => Forall (fun c => zlen c = zlen (sch_mgr (fence_state (st w)))) cells
  end.

Definition life_step (w w' : life_state) : Prop := exists l, permitted l w /\ carry_out l w = Ok w'.

(** ** The invariant *)

Definition flat (f : act -> list Z) (A : list act) : list Z := concat (f <$> A).
Definition cnt (t : Z) (l : list Z) : Z := zlen (filter (fun x => x = t) l).

(** The engine and the device of a task. *)
Definition eng (s : scheduler) (d : task_desc) : Z :=
  match contexts s !! context d with Some c => rb_index c | None => -1 end.
Definition dev_of (s : scheduler) (d : task_desc) : Z :=
  match contexts s !! context d with Some c => device c | None => -1 end.

(** The heap holds the list of each engine, and each task that is in none is
    linked to itself until it is put into one or freed. *)
Definition lists_ok (n : Z) (h : heap) (T : gmap Z task_desc) (L : Z -> list Z) (U : list Z) : Prop :=
  exists R, rings h R /\
    (forall e, 0 <= e < n -> R !! submitted_task_list e = Some (L e)) /\
    (forall t, t ∈ U -> R !! t = Some []) /\
    (forall l xs, R !! l = Some xs -> (exists e, 0 <= e < n /\ l = submitted_task_list e) \/ is_Some (T !! l) /\ xs = []) /\
    (forall t, is_Some (T !! t) -> present h t /\ n < t) /\
    (forall e t, t ∈ L e -> 0 <= e < n /\ is_Some (T !! t)).

(** A task: it is counted by those who hold it and by its list; a thread that is
    still to submit it finds it as it was created; once submitted, it is in the
    list or its fence is back. *)
Definition task_ok (L : Z -> list Z) (s : scheduler) (A : list act) (t : Z) (d : task_desc) : Prop :=
  is_Some (contexts s !! context d) /\
  ref_cnt d = cnt t (flat held_by A) + cnt t (L (eng s d)) /\ 0 < ref_cnt d /\
  (t ∈ flat unlisted A -> submitted d = false) /\
  (submitted d = true \/ t ∈ flat just_linked A -> t ∈ L (eng s d) \/ fence_id d <= returned (fence_state s) (eng s d)) /\
  (forall o, dma_fence d = Some o -> is_Some (dma_fences s !! o)) /\
  (is_dma (body d) = true \/ dev_of s d = reserved_device).

Definition tasks_ok (L : Z -> list Z) (s : scheduler) (A : list act) : Prop :=
  (forall t d, tasks s !! t = Some d -> task_ok L s A t d) /\
  (forall t, t ∈ flat held_by A -> is_Some (tasks s !! t)) /\
  (forall e t d, t ∈ L e -> tasks s !! t = Some d -> eng s d = e) /\
  NoDup (flat unlisted A ++ flat just_linked A).

(** The counters count. *)
Definition of_context (k : Z) (T : gmap Z task_desc) : Z := Z.of_nat (size (filter (fun p => context p.2 = k) T)).
Definition of_engine (s : scheduler) (e : Z) (T : gmap Z task_desc) : Z :=
  Z.of_nat (size (filter (fun p => eng s p.2 = e) T)).
Definition counts_ok (s : scheduler) : Prop :=
  (forall k c, contexts s !! k = Some c -> context_ref_cnt c = of_context k (tasks s)) /\
  (forall e x, rd (engines s) e = Ok x -> pending_tasks_num x - handled_tasks_num x = of_engine s e (tasks s)).

(** Address spaces, devices and contexts. *)
Definition device_ok (n : Z) (lru : list Z) (dv : Z) (dev : device_t) : Prop :=
  zlen (utlb_dirtys dev) = n /\ zlen (dtlb_dirtys dev) = n /\
  forall k, dev_vm_id (vm_part dev) = Some k -> if dv =? reserved_device then k = 0 else k ∈ lru.
Definition context_ok (s : scheduler) (c : gpu_context) : Prop :=
  engine_present (fence_state s) (rb_index c) /\ is_Some (devices s !! device c).
Definition spaces_ok (lru : list Z) (s : scheduler) : Prop :=
  mgr_ok lru (vms s) /\ zlen (sch_mgr (fence_state s)) = zlen (engines s) /\ zlen (engines s) <= MAX_ENGINE_COUNT /\
  (forall dv dev, devices s !! dv = Some dev -> device_ok (zlen (engines s)) lru dv dev) /\
  (forall k c, contexts s !! k = Some c -> context_ok s c) /\
  (exists c, contexts s !! reserved_context = Some c /\ device c = reserved_device /\ rb_index c = RESERVED_ENGINE_INDEX).

(** A thread inside the lock: the page table task [pt] is for the task [t] that waits. *)
Definition pt_for (s : scheduler) (t pt : Z) : Prop :=
  exists d p dev k b, tasks s !! t = Some d /\ tasks s !! pt = Some p /\
    eng s d = RESERVED_ENGINE_INDEX /\ dev_of s d <> reserved_device /\
    context p = reserved_context /\ body p = task_page_table_set (dev_of s d) RESERVED_ENGINE_INDEX t b /\
    devices s !! dev_of s d = Some dev /\ dev_vm_id (vm_part dev) = Some k.
Definition phase_ok (s : scheduler) (a : act) : Prop :=
  match a with
  | NeedsPt t _ pt | Sent pt (Some (t, _)) | Linked pt (Some (t, _)) => pt_for s t pt
  | _ => True
  end.

(** The ring of the graphics engine: the numbers are consecutive, and a thread in
    the lock has the next one. *)
Definition numbers (n : nat) : list Z := (fun i => u64 (Z.of_nat i)) <$> seq 1 n.
Definition ring_fences (s : scheduler) : list Z := entry_fence <$> default [] (ring s !! RESERVED_ENGINE_INDEX).
Definition lock_waits (a : act) : list Z :=
  match a with NeedsPt t _ _ | Sent _ (Some (t, _)) | Linked _ (Some (t, _)) => [t] | _ => [] end.
Definition ring_ok (s : scheduler) (A : list act) : Prop :=
  exists n, ring_fences s = numbers n /\
    match flat lock_waits A with
    | [] => last_sent (fence_state s) RESERVED_ENGINE_INDEX = u64 (Z.of_nat n)
    | [t] => last_sent (fence_state s) RESERVED_ENGINE_INDEX = u64 (Z.of_nat (S n)) /\
        forall d, tasks s !! t = Some d -> fence_id d = u64 (Z.of_nat (S n))
    | _ => False
    end.

(** What has been freed was done. *)
Definition released_ok (s : scheduler) : Prop :=
  Forall (fun d => submitted d = true -> fence_id d <= returned (fence_state s) (eng s d)) (released s).

Record core_ok (L : Z -> list Z) (lru : list Z) (s : scheduler) (A : list act) : Prop :=
  { life_lists : lists_ok (zlen (engines s)) (items s) (tasks s) L (flat unlisted A);
    life_tasks : tasks_ok L s A;
    life_counts : counts_ok s;
    life_space : spaces_ok lru s;
    life_phase : Forall (phase_ok s) A;
    life_released : released_ok s }.

Definition life_ok (w : life_state) : Prop :=
  (exists L lru, core_ok L lru (st w) (acts w)) /\ ring_ok (st w) (acts w).

(** ** Counting *)

Lemma cnt_app t l k : cnt t (l ++ k) = cnt t l + cnt t k.
Proof. unfold cnt, zlen. rewrite filter_app, length_app. lia. Qed.
Lemma cnt_nil t : cnt t [] = 0.
Proof. done. Qed.
Lemma cnt_cons t x l : cnt t (x :: l) = (if decide (x = t) then 1 else 0) + cnt t l.
Proof. unfold cnt, zlen. rewrite filter_cons. destruct (decide (x = t)); cbn [length]; lia. Qed.
Lemma cnt_nonneg t l : 0 <= cnt t l.
Proof. unfold cnt, zlen. lia. Qed.
Lemma cnt_pos t l : 0 < cnt t l <-> t ∈ l.
Proof.
  induction l as [|x l IH]; [rewrite cnt_nil; split; [lia|intros H; inversion H]|]. rewrite cnt_cons, elem_of_cons.
  pose proof (cnt_nonneg t l). destruct (decide (x = t)); [|rewrite <- IH]; naive_solver lia.
Qed.
Lemma cnt_zero t l : t ∉ l -> cnt t l = 0.
Proof. rewrite <- cnt_pos. pose proof (cnt_nonneg t l). lia. Qed.
Lemma cnt_perm t l k : l ≡ₚ k -> cnt t l = cnt t k.
Proof. intros H. unfold cnt, zlen. by rewrite H. Qed.

Lemma flat_cons f a A : flat f (a :: A) = f a ++ flat f A.
Proof. done. Qed.
Lemma flat_app f A B : flat f (A ++ B) = flat f A ++ flat f B.
Proof. unfold flat. by rewrite fmap_app, concat_app. Qed.
Lemma flat_perm f A B : A ≡ₚ B -> flat f A ≡ₚ flat f B.
Proof. intros H. unfold flat. induction H; cbn; [done|by apply Permutation_app_head| |by etrans]. by rewrite !app_assoc, (Permutation_app_comm (f y)). Qed.

(** The order of the activities does not matter. *)
Lemma core_perm L lru s A B : A ≡ₚ B -> core_ok L lru s A -> core_ok L lru s B.
Proof.
  intros HP [Hl (T1 & T2 & T3 & T4) Hc Hs Hp Hr].
  pose proof (flat_perm unlisted _ _ HP) as HU. pose proof (flat_perm just_linked _ _ HP) as HL.
  pose proof (flat_perm held_by _ _ HP) as HH. split; try done.
  - destruct Hl as (R & ? & ? & HR & Hl). exists R. do 2 (split; [done|]). split; [|done].
    intros t Ht. apply HR. by rewrite HU.
  - split; [|split; [|split]]; try done.
    + intros t d Hd. destruct (T1 t d Hd) as (? & Href & ? & Hsub & Hdone & Ho). unfold task_ok.
      split; [done|]. split; [by rewrite <- (cnt_perm _ _ _ HH)|]. split; [done|].
      split; [rewrite <- HU; done|]. split; [rewrite <- HL; done|]. done.
    + intros t. rewrite <- HH. apply T2.
    + by rewrite <- HU, <- HL.
  - by rewrite <- HP.
Qed.

Lemma ring_perm s A B : A ≡ₚ B -> ring_ok s A -> ring_ok s B.
Proof.
  intros HP (n & Hn & H). exists n. split; [done|]. pose proof (flat_perm lock_waits _ _ HP) as HW.
  destruct (flat lock_waits A) as [|t [|u l]].
  - apply Permutation_nil in HW. by rewrite HW.
  - apply Permutation_length_1_inv in HW. by rewrite HW.
  - done.
Qed.

Lemma acts_at (A : list act) i a : A !! i = Some a -> A ≡ₚ a :: delete i A /\ forall b, <[i := b]> A ≡ₚ b :: delete i A.
Proof.
  intros H. split; [by apply delete_Permutation|]. intros b.
  rewrite (delete_Permutation (<[i := b]> A) i b) by (apply list_lookup_insert_eq; by eapply lookup_lt_Some).
  by rewrite !delete_take_drop, take_insert_ge, drop_insert_lt by lia.
Qed.
End Steps.
