(* ===== verification/TaskCore.v ===== *)
(** * The invariant under the parts of a step

    What each small operation of [Task] and [TaskSubmit] does to [core_ok]: polls
    and clock readings ([unmoved]), an update of one task, taking and giving back a
    reference, creating and freeing a task, putting a task into a list and taking it
    out. The steps ([TaskSteps]) are composed of these. *)
From S2P Require Import Prelude CoreUtil ListHead ListRings PageTable Fence VmId Task TaskSubmit TaskLife.
From stdpp Require Import gmap.
Local Open Scope Z_scope.

(** ** Fences that only advance, and a GPU that changes its mind about the future *)

Definition grows (f f' : fences) : Prop :=
  zlen (sch_mgr f') = zlen (sch_mgr f) /\ (cells_ok f -> cells_ok f') /\
  (forall i, engine_present f' i <-> engine_present f i) /\ (forall i, returned f i <= returned f' i).

#[export] Instance grows_preorder : PreOrder grows.
Proof.
  split.
  - intros f. unfold grows. conjs; intros; first [done | reflexivity | lia].
  - intros a b c (A1 & A2 & A3 & A5) (B1 & B2 & B3 & B5). unfold grows. conjs; intros; try congruence; try tauto.
    + rewrite B3. apply A3.
    + etrans; [apply A5|apply B5].
Qed.

Lemma evolves_grows f f' : evolves f f' -> grows f f'.
Proof. intros [(A1 & A2 & A3 & A4 & A5 & _) _]. by unfold grows. Qed.

Lemma evolves_last f f' i : evolves f f' -> last_sent f' i = last_sent f i.
Proof. intros [(_ & _ & _ & H & _) _]. apply H. Qed.

Lemma gpu_grows f cells : Forall (fun c => zlen c = zlen (sch_mgr f)) cells ->
  grows f (mkFences (sch_mgr f) (fence_cells f) (disable_schedule f) cells (polls f)).
Proof.
  intros Hc. unfold grows; cbn. conjs; try done; try (intros; lia).
  intros [Hf Hl]. split; [|done]. cbn. apply List.Forall_cons_iff in Hf as [H _]. by constructor.
Qed.

Lemma entry_grows f f' i o : grows f f' -> entry_ok f i o -> entry_ok f' i o.
Proof.
  intros (_ & _ & Hp & Hr) (H1 & H2 & H3 & Hb). repeat split; try done. intros j Hj. specialize (Hb j Hj).
  destruct (Z.testbit (bitmap o) j).
  - rewrite Hp. done.
  - intros x Hx. specialize (Hb x Hx). specialize (Hr j). lia.
Qed.

Lemma mgr_grows lru m f : mgr_ok lru m -> grows (fen m) f -> mgr_ok lru (set_fen m f).
Proof.
  intros (M1 & M2 & M3 & M4 & M5 & M6 & M7) Hg. unfold mgr_ok; cbn. conjs; try done; [by apply Hg|].
  intros i o Ho. eapply entry_grows; [exact Hg|by apply M7].
Qed.

(** ** Polls and clocks *)

Definition unmoved (s s' : scheduler) : Prop :=
  tasks s' = tasks s /\ items s' = items s /\ contexts s' = contexts s /\ devices s' = devices s /\
  dma_fences s' = dma_fences s /\ hwctx_invalid s' = hwctx_invalid s /\ ring s' = ring s /\ released s' = released s /\
  last_uuid s' = last_uuid s /\
  vms s' = set_fen (vms s) (fence_state s') /\ grows (fence_state s) (fence_state s') /\
  zlen (engines s') = zlen (engines s) /\
  (forall e x', rd (engines s') e = Ok x' -> exists x, rd (engines s) e = Ok x /\
     pending_tasks_num x' = pending_tasks_num x /\ handled_tasks_num x' = handled_tasks_num x).

Lemma set_fen_fen m : set_fen m (fen m) = m.
Proof. by destruct m. Qed.

#[export] Instance quiet_preorder : PreOrder unmoved.
Proof.
  split.
  - intros s. unfold unmoved. conjs; try done.
    + unfold fence_state. by rewrite set_fen_fen.
    + intros e x' Hx. by exists x'.
  - intros a b c (A1 & A2 & A3 & A4 & A5 & A6 & A7 & A8 & A9 & A10 & A11 & A12 & A13)
      (B1 & B2 & B3 & B4 & B5 & B6 & B7 & B8 & B9 & B10 & B11 & B12 & B13).
    unfold unmoved. conjs; try congruence.
    + rewrite B10, A10. done.
    + by etrans.
    + intros e x' Hx. destruct (B13 e x' Hx) as (y & Hy & ? & ?). destruct (A13 e y Hy) as (z & Hz & ? & ?).
      exists z. split; [done|]. split; congruence.
Qed.

Lemma quiet_clock s : unmoved s (snd (zx_get_nsecs s)).
Proof. unfold zx_get_nsecs. destruct (clock s); [reflexivity|]. cbn [snd]. unfold unmoved; cbn. conjs; try done; try reflexivity.
  - unfold fence_state. by rewrite set_fen_fen.
  - intros e x' Hx. by exists x'.
Qed.

Lemma quiet_fences s f : grows (fence_state s) f -> unmoved s (set_fences f s).
Proof. intros Hg. unfold unmoved, set_fences; cbn. conjs; try done. intros e x' Hx. by exists x'. Qed.

Lemma upd_engine_run e g s : 0 <= e < zlen (engines s) ->
  exists x, rd (engines s) e = Ok x /\ upd_engine e g s = Ok (s <| engines := <[Z.to_nat e := g x]> (engines s) |>).
Proof.
  intros He. destruct (rd_in (engines s) e He) as [x Hx]. exists x. split; [done|]. unfold upd_engine.
  rewrite Hx. cbn [rbind]. rewrite wr_in by done. done.
Qed.

Lemma rd_insert_cases {A} (l : list A) i x j y : 0 <= i < zlen l ->
  rd (<[Z.to_nat i := x]> l) j = Ok y -> j = i /\ y = x \/ j <> i /\ rd l j = Ok y.
Proof.
  intros Hi Hy. pose proof (rd_bound _ _ _ Hy). destruct (Z.eq_dec j i) as [->|].
  - rewrite rd_insert_eq in Hy by done. injection Hy as <-. by left.
  - rewrite rd_insert_ne in Hy by lia. by right.
Qed.

Lemma quiet_timestamp s e now : 0 <= e < zlen (engines s) ->
  exists s', upd_engine e (fun x => x <| returned_timestamp := now |>) s = Ok s' /\ unmoved s s' /\ fence_state s' = fence_state s.
Proof.
  intros He. destruct (upd_engine_run e (fun x => x <| returned_timestamp := now |>) s He) as (x & Hx & ->).
  eexists. split; [reflexivity|]. split; [|done]. unfold unmoved; cbn. conjs; try done; try reflexivity.
  - unfold fence_state; cbn. by rewrite set_fen_fen.
  - by rewrite zlen_insert.
  - intros j y Hy. apply rd_insert_cases in Hy as [[-> ->]|[? Hy]]; [by exists x|by exists y|done].
Qed.

Lemma poll_fence_run e f s :
  cells_ok (fence_state s) -> engine_present (fence_state s) e -> 0 <= e < zlen (engines s) ->
  exists b s', poll_fence e f s = Ok (b, s') /\ unmoved s s' /\ b = (f <=? returned (fence_state s') e) /\
    evolves (fence_state s) (fence_state s').
Proof.
  intros Hc Hp He. destruct (is_fence_back_run e f _ Hc Hp) as (b & fs & Hr & Hev & _ & Hb & _).
  unfold poll_fence, vidsch_get_current_returned_fence. pose proof Hp as [m Hm]. rewrite Hm. cbn [rbind]. rewrite Hr. cbn [rbind].
  pose proof (evolves_present _ _ _ Hev Hp) as [m' Hm']. rewrite Hm'. cbn [rbind].
  pose proof (quiet_fences s fs (evolves_grows _ _ Hev)) as Hq.
  destruct (returned_fence_id m <? returned_fence_id m').
  - pose proof (quiet_clock (set_fences fs s)) as Hq2. assert (Hf2 : fence_state (snd (zx_get_nsecs (set_fences fs s))) = fs).
    { unfold zx_get_nsecs. by destruct (clock _). }
    destruct (zx_get_nsecs (set_fences fs s)) as [now s2]. cbn [snd] in *.
    destruct (quiet_timestamp s2 e now) as (s3 & -> & Hq3 & Hf3).
    { destruct Hq as (_&_&_&_&_&_&_&_&_&_&_&H1&_), Hq2 as (_&_&_&_&_&_&_&_&_&_&_&H2&_). lia. }
    cbn [rbind]. exists b, s3. split; [done|]. rewrite Hf3, Hf2. split; [by etrans; [etrans|]|]. done.
  - exists b, (set_fences fs s). done.
Qed.

(** ** Counting tasks *)

Section Sizes.
Context (P : Z * task_desc -> Prop) `{forall x, Decision (P x)}.
Definition one (x : Z * task_desc) : Z := if decide (P x) then 1 else 0.

Lemma size_filter_new (T : gmap Z task_desc) t d : T !! t = None ->
  Z.of_nat (size (filter P (<[t := d]> T))) = Z.of_nat (size (filter P T)) + one (t, d).
Proof.
  intros Ht. unfold one. destruct (decide (P (t, d))) as [Hp|Hp].
  - rewrite map_filter_insert_True by done. rewrite map_size_insert_None; [lia|].
    apply map_lookup_filter_None. by left.
  - rewrite map_filter_insert_False by done. rewrite delete_id by done. lia.
Qed.

Lemma size_filter_delete (T : gmap Z task_desc) t d : T !! t = Some d ->
  Z.of_nat (size (filter P (delete t T))) = Z.of_nat (size (filter P T)) - one (t, d).
Proof.
  intros Ht. rewrite <- (insert_delete_id T t d Ht) at 2. rewrite size_filter_new by apply lookup_delete_eq. lia.
Qed.

Lemma size_filter_change (T : gmap Z task_desc) t d d' : T !! t = Some d ->
  Z.of_nat (size (filter P (<[t := d']> T))) = Z.of_nat (size (filter P T)) - one (t, d) + one (t, d').
Proof.
  intros Ht. rewrite <- (insert_delete_eq T t d'), size_filter_new by apply lookup_delete_eq.
  by rewrite (size_filter_delete T t d).
Qed.
End Sizes.

(** The other fields of two tables of tasks are the same: [f] changes nothing that
    the counters look at. *)
Lemma change_counts s T t d d' : T !! t = Some d -> context d' = context d ->
  (forall k, of_context k (<[t := d']> T) = of_context k T) /\
  (forall e, of_engine s e (<[t := d']> T) = of_engine s e T).
Proof.
  intros Ht Hc. unfold of_context, of_engine. split; intros; rewrite (size_filter_change _ T t d d') by done;
    unfold one, eng; cbn [snd]; rewrite Hc; lia.
Qed.

Section Core.
Context (reserved_context : Z).
Notation core_ok := (core_ok reserved_context).

Lemma core_quiet L lru s s' A : core_ok L lru s A -> unmoved s s' -> core_ok L lru s' A.
Proof.
  intros [Hl (T1 & T2 & T3 & T4) [Hc1 Hc2] (S1 & S2 & S3 & S4 & S5 & S6) Hp Hr]
    (Q1 & Q2 & Q3 & Q4 & Q5 & Q6 & Q7 & Q8 & Q9 & Q10 & Q11 & Q12 & Q13).
  assert (He : forall d, eng s' d = eng s d) by (intros d; unfold eng; by rewrite Q3).
  assert (Hd : forall d, dev_of s' d = dev_of s d) by (intros d; unfold dev_of; by rewrite Q3).
  pose proof Q11 as (G1 & _ & G3 & G5).
  split.
  - by rewrite Q1, Q2, Q12.
  - split; [|split; [|split; [|done]]].
    + intros t d Ht. rewrite Q1 in Ht. destruct (T1 t d Ht) as (? & ? & ? & ? & Hdone & ? & ?).
      unfold task_ok. rewrite He, Hd, Q3, Q5. conjs; try done. intros Hs. specialize (G5 (eng s d)). destruct (Hdone Hs); [by left|right; lia].
    + rewrite Q1. done.
    + rewrite Q1. intros e t d. rewrite He. apply T3.
  - split.
    + rewrite Q1, Q3. done.
    + intros e x Hx. destruct (Q13 e x Hx) as (y & Hy & -> & ->). rewrite (Hc2 e y Hy), Q1.
      unfold of_engine. f_equal. f_equal. apply map_filter_ext. intros i d _. cbn. by rewrite He.
  - unfold spaces_ok. rewrite Q10, Q3, Q4, Q12. conjs; try done.
    + by apply mgr_grows.
    + rewrite <- S2. apply Q11.
    + intros k c Hk. destruct (S5 k c Hk) as [Hpr ?]. split; [by apply G3|by rewrite Q4].
  - eapply List.Forall_impl; [|exact Hp]. intros a. unfold phase_ok, pt_for. rewrite Q1, Q4.
    destruct a as [| |t f pt|t [[u f]|]|t [[u f]|]]; try done; intros (d & p & dev & k & b & Hpt); exists d, p, dev, k, b; by rewrite He, Hd.
  - unfold released_ok. rewrite Q8. eapply List.Forall_impl; [|exact Hr]. cbn. intros d H1 H2. rewrite He.
    specialize (H1 H2). specialize (G5 (eng s d)). lia.
Qed.

(** The threads inside the lock still see their tasks. *)
Lemma pt_for_put s t d d' u q : tasks s !! t = Some d -> context d' = context d ->
  (forall dv e x b, body d = task_page_table_set dv e x b -> exists b', body d' = task_page_table_set dv e x b') ->
  pt_for reserved_context s u q -> pt_for reserved_context (put_task t d' s) u q.
Proof.
  intros Ht Hctx Hpt (du & dq & dev & k & b & H1 & H2 & H3 & H4 & H5 & H6 & H7 & H8).
  assert (Heng : eng s d' = eng s d) by (unfold eng; by rewrite Hctx).
  assert (Hdev : dev_of s d' = dev_of s d) by (unfold dev_of; by rewrite Hctx).
  unfold pt_for. cbn. change (eng (put_task t d' s)) with (eng s). change (dev_of (put_task t d' s)) with (dev_of s).
  exists (if decide (u = t) then d' else du), (if decide (q = t) then d' else dq), dev, k.
  assert (Hu : u = t -> du = d) by (intros ->; congruence). assert (Hq : q = t -> dq = d) by (intros ->; congruence).
  destruct (decide (u = t)) as [Eu|Eu], (decide (q = t)) as [Eq|Eq].
  - rewrite Eu, Eq, !lookup_insert_eq, Heng, Hdev. specialize (Hu Eu). specialize (Hq Eq). subst du dq.
    destruct (Hpt _ _ _ _ H6) as [b' Hb']. exists b'. rewrite <- Eu. conjs; try done; try congruence.
  - rewrite Eu, lookup_insert_eq, lookup_insert_ne by done. rewrite Heng, Hdev. specialize (Hu Eu). subst du.
    exists b. rewrite <- Eu. conjs; done.
  - rewrite Eq, lookup_insert_eq, lookup_insert_ne by done. specialize (Hq Eq). subst dq.
    destruct (Hpt _ _ _ _ H6) as [b' Hb']. exists b'. conjs; try done; congruence.
  - rewrite !lookup_insert_ne by done. exists b. done.
Qed.

Lemma phase_of s s' a : (forall u q, pt_for reserved_context s u q -> pt_for reserved_context s' u q) ->
  phase_ok reserved_context s a -> phase_ok reserved_context s' a.
Proof. intros Hfor. destruct a as [| |x f pt|x [[u f]|]|x [[u f]|]]; cbn; try done; apply Hfor. Qed.

Lemma is_Some_insert {A} (T : gmap Z A) t d d' x : T !! t = Some d -> is_Some (<[t := d']> T !! x) <-> is_Some (T !! x).
Proof.
  intros Ht. destruct (decide (x = t)) as [->|]; [|by rewrite lookup_insert_ne].
  rewrite lookup_insert_eq, Ht. split; intros; by eexists.
Qed.

Lemma lists_alloc n h T T' L U U' : lists_ok n h T L U -> (forall x, is_Some (T' !! x) <-> is_Some (T !! x)) ->
  (forall x, x ∈ U' -> x ∈ U) -> lists_ok n h T' L U'.
Proof.
  intros (R & R1 & R2 & R3 & R4 & R5 & R6) Hall HU. exists R. conjs; try done.
  - intros t Ht. by apply R3, HU.
  - intros l xs Hx. destruct (R4 l xs Hx) as [|[? ?]]; [by left|right]. by rewrite Hall.
  - intros x. rewrite Hall. apply R5.
  - intros e x Hx. rewrite Hall. by apply R6.
Qed.

(** One task, its place in the lists and the activities around it change. *)
Lemma core_move L L' lru s A A' t d d' h :
  core_ok L lru s A -> tasks s !! t = Some d -> context d' = context d ->
  lists_ok (zlen (engines s)) h (tasks s) L' (flat unlisted A') ->
  ref_cnt d' = cnt t (flat held_by A') + cnt t (L' (eng s d)) -> 0 < ref_cnt d' ->
  (forall x, x <> t -> cnt x (flat held_by A') = cnt x (flat held_by A)) ->
  (forall x e, x <> t -> cnt x (L' e) = cnt x (L e)) -> (forall e, t ∈ L' e -> e = eng s d) ->
  (forall x, x ∈ flat unlisted A' -> x ∈ flat unlisted A) ->
  (forall x, x <> t -> x ∈ flat just_linked A' -> x ∈ flat just_linked A) ->
  NoDup (flat unlisted A' ++ flat just_linked A') ->
  (t ∈ flat unlisted A' -> submitted d' = false) ->
  (submitted d' = true \/ t ∈ flat just_linked A' -> t ∈ L' (eng s d) \/ fence_id d' <= returned (fence_state s) (eng s d)) ->
  (forall o, dma_fence d' = Some o -> is_Some (dma_fences s !! o)) ->
  (is_dma (body d') = true \/ dev_of s d = reserved_device) ->
  Forall (phase_ok reserved_context (put_task t d' s)) A' ->
  core_ok L' lru ((put_task t d' s) <| items := h |>) A'.
Proof.
  intros [Hl (T1 & T2 & T3 & T4) [Hc1 Hc2] Hs Hp Hr] Ht Hctx Hl' Href Hpos Hcnt HcL HeL HU HL Hnd Hsub Hdone Ho Hdma Hph.
  assert (Hall : forall x, is_Some (<[t := d']> (tasks s) !! x) <-> is_Some (tasks s !! x)) by (intros; by eapply is_Some_insert).
  assert (Heng : eng s d' = eng s d) by (unfold eng; by rewrite Hctx).
  assert (Hdev : dev_of s d' = dev_of s d) by (unfold dev_of; by rewrite Hctx).
  set (s' := (put_task t d' s) <| items := h |>).
  assert (HeL' : forall x e, x <> t -> x ∈ L' e <-> x ∈ L e) by (intros x e Hx; rewrite <- !cnt_pos; by rewrite HcL).
  split; try done.
  - by eapply lists_alloc.
  - split; [|split; [|split; [|done]]].
    + intros x y Hy. change (<[t := d']> (tasks s) !! x = Some y) in Hy. unfold task_ok.
      change (eng s') with (eng s). change (dev_of s') with (dev_of s). destruct (decide (x = t)) as [->|Hne].
      * rewrite lookup_insert_eq in Hy. injection Hy as <-. destruct (T1 t d Ht) as (? & _).
        rewrite Heng, Hdev, Hctx. conjs; try done.
      * rewrite lookup_insert_ne in Hy by done. destruct (T1 x y Hy) as (? & Hx & ? & Hsx & Hdx & ? & ?).
        rewrite Hcnt, HcL by done. conjs; try done.
        -- intros ?%HU. by apply Hsx.
        -- rewrite HeL' by done. intros [Hsy|Hly]; apply Hdx; [by left|right; by apply HL].
    + intros x Hx. apply Hall. destruct (decide (x = t)) as [->|Hne]; [by eexists|].
      apply T2, cnt_pos. rewrite <- Hcnt by done. by apply cnt_pos.
    + intros e x y Hx. change (<[t := d']> (tasks s) !! x = Some y -> eng s y = e). destruct (decide (x = t)) as [->|Hne].
      * rewrite lookup_insert_eq. intros [= <-]. rewrite Heng. symmetry. by apply HeL.
      * rewrite lookup_insert_ne by done. apply T3. by apply HeL'.
  - destruct (change_counts s (tasks s) t d d' Ht Hctx) as [Hk He]. split; cbn.
    + intros k c Hkc. rewrite Hk. by apply Hc1.
    + intros e x Hx. rewrite (Hc2 e x Hx). symmetry. apply He.
Qed.

Lemma items_same s : s <| items := items s |> = s.
Proof. by destruct s. Qed.

Lemma core_change L lru s A A' t d d' :
  core_ok L lru s A -> tasks s !! t = Some d -> context d' = context d ->
  ref_cnt d' = cnt t (flat held_by A') + cnt t (L (eng s d)) -> 0 < ref_cnt d' ->
  (forall x, x <> t -> cnt x (flat held_by A') = cnt x (flat held_by A)) ->
  (forall x, x ∈ flat unlisted A' -> x ∈ flat unlisted A) ->
  (forall x, x <> t -> x ∈ flat just_linked A' -> x ∈ flat just_linked A) ->
  NoDup (flat unlisted A' ++ flat just_linked A') ->
  (t ∈ flat unlisted A' -> submitted d' = false) ->
  (submitted d' = true \/ t ∈ flat just_linked A' -> t ∈ L (eng s d) \/ fence_id d' <= returned (fence_state s) (eng s d)) ->
  (forall o, dma_fence d' = Some o -> is_Some (dma_fences s !! o)) ->
  (is_dma (body d') = true \/ dev_of s d = reserved_device) ->
  Forall (phase_ok reserved_context (put_task t d' s)) A' ->
  core_ok L lru (put_task t d' s) A'.
Proof.
  intros Hok Ht Hctx Href Hpos Hcnt HU HL Hnd Hsub Hdone Ho Hdma Hph. rewrite <- (items_same (put_task t d' s)).
  pose proof Hok as [Hl (_ & _ & T3 & _) _ _ _ _].
  eapply core_move; try done; [by eapply lists_alloc|]. intros e He. symmetry. by eapply T3.
Qed.

(** Its references and its place stay. *)
Lemma core_put L lru s A t d d' :
  core_ok L lru s A -> tasks s !! t = Some d -> context d' = context d -> ref_cnt d' = ref_cnt d ->
  (t ∈ flat unlisted A -> submitted d' = false) ->
  (submitted d' = true \/ t ∈ flat just_linked A -> t ∈ L (eng s d) \/ fence_id d' <= returned (fence_state s) (eng s d)) ->
  (forall o, dma_fence d' = Some o -> is_Some (dma_fences s !! o)) ->
  (is_dma (body d') = true \/ dev_of s d = reserved_device) ->
  (forall dv e x b, body d = task_page_table_set dv e x b -> exists b', body d' = task_page_table_set dv e x b') ->
  core_ok L lru (put_task t d' s) A.
Proof.
  intros Hok Ht Hctx Href Hsub Hdone Ho Hdma Hpt. pose proof Hok as [_ (T1 & _ & _ & T4) _ _ Hp _].
  destruct (T1 t d Ht) as (_ & Hr & Hpos & _). eapply core_change; try done; try congruence.
  eapply List.Forall_impl; [|exact Hp]. intros a. apply phase_of. intros u q. by eapply pt_for_put.
Qed.

Lemma put_same t d s : tasks s !! t = Some d -> put_task t d s = s.
Proof. intros Ht. destruct s. unfold put_task; cbn in *. f_equal. by apply insert_id. Qed.

(** The activities around a task change, the state does not. *)
Lemma core_retype L lru s A A' t d :
  core_ok L lru s A -> tasks s !! t = Some d ->
  (forall x, cnt x (flat held_by A') = cnt x (flat held_by A)) ->
  (forall x, x ∈ flat unlisted A' -> x ∈ flat unlisted A) ->
  (forall x, x ∈ flat just_linked A' -> x ∈ flat just_linked A) ->
  NoDup (flat unlisted A' ++ flat just_linked A') -> Forall (phase_ok reserved_context s) A' ->
  core_ok L lru s A'.
Proof.
  intros Hok Ht Hcnt HU HL Hnd Hph. pose proof Hok as [_ (T1 & _ & _ & T4) _ _ Hp _].
  destruct (T1 t d Ht) as (_ & Hr & Hpos & Hsub & Hdone & Ho & Hdma). rewrite <- (put_same t d s Ht).
  eapply core_change; try done; rewrite ?put_same by done; try done.
  - by rewrite Hcnt.
  - intros x _. apply HL.
  - intros Hx. by apply Hsub, HU.
  - intros [Hs|Hl]; apply Hdone; [by left|right; by apply HL].
Qed.

Lemma held_task L lru s A t : core_ok L lru s A -> t ∈ flat held_by A -> exists d, tasks s !! t = Some d /\ task_ok L s A t d.
Proof. intros [_ (T1 & T2 & _) _ _ _ _] Ht. destruct (T2 t Ht) as [d Hd]. exists d. split; [done|by apply T1]. Qed.

Lemma get_task_run t d s : tasks s !! t = Some d -> get_task t s = Ok d.
Proof. unfold get_task, fetch. by intros ->. Qed.

(** ** References *)

Lemma inc_run t d s : tasks s !! t = Some d ->
  vidsch_task_inc_reference t s = Ok (put_task t (d <| ref_cnt ::= Z.add 1 |>) s).
Proof. intros Ht. unfold vidsch_task_inc_reference. by rewrite (get_task_run t d). Qed.

(** Whoever sees a task in a list, or holds it, can take one more reference. *)
Lemma core_inc L lru s A t d :
  core_ok L lru s A -> tasks s !! t = Some d ->
  core_ok L lru (put_task t (d <| ref_cnt ::= Z.add 1 |>) s) (Ref t :: A).
Proof.
  intros Hok Ht. pose proof Hok as [_ (T1 & _ & _ & T4) _ _ Hp _].
  destruct (T1 t d Ht) as (_ & Hr & Hpos & Hsub & Hdone & Ho & Hdma).
  eapply core_change; try done; cbn [ref_cnt upd fence_id submitted dma_fence body context]; try done.
  - change (ref_cnt (d <| ref_cnt ::= Z.add 1 |>)) with (1 + ref_cnt d).
    rewrite flat_cons, cnt_app, Hr. cbn [held_by]. rewrite cnt_cons, cnt_nil, decide_True by done. lia.
  - cbn. lia.
  - intros x Hx. rewrite flat_cons, cnt_app. cbn [held_by]. rewrite cnt_cons, cnt_nil, decide_False by done. lia.
  - constructor; [done|]. eapply List.Forall_impl; [|exact Hp]. intros a. apply phase_of. intros u q. eapply pt_for_put; [done|done|].
    intros; by eexists.
Qed.

Lemma unlisted_holds x A : x ∈ flat unlisted A -> x ∈ flat held_by A.
Proof.
  unfold flat. induction A as [|a A IH]; cbn; [done|]. rewrite !elem_of_app. intros [H|H]; [left|right; by apply IH].
  destruct a as [| |y f pt|y [[u f]|]|y [[u f]|]]; cbn in *; set_solver.
Qed.
Lemma linked_holds x A : x ∈ flat just_linked A -> x ∈ flat held_by A.
Proof.
  unfold flat. induction A as [|a A IH]; cbn; [done|]. rewrite !elem_of_app. intros [H|H]; [left|right; by apply IH].
  destruct a as [| |y f pt|y [[u f]|]|y [[u f]|]]; cbn in *; set_solver.
Qed.

Lemma lists_free n h T L U t : lists_ok n h T L U -> is_Some (T !! t) -> t ∉ U -> (forall e, t ∉ L e) ->
  lists_ok n (delete t h) (delete t T) L U.
Proof.
  intros (R & R1 & R2 & R3 & R4 & R5 & R6) Ht HU HL. destruct (R5 t Ht) as [_ Hbig].
  assert (Hhead : forall e, 0 <= e < n -> submitted_task_list e <> t) by (intros e ?; unfold submitted_task_list; lia).
  exists (delete t R). conjs.
  - apply rings_free_node; [by apply rings_delete|]. intros l xs [Hne Hx]%lookup_delete_Some [->|Hin]%elem_of_cons; [done|].
    destruct (R4 l xs Hx) as [(e & He & ->)|[_ ->]]; [|inversion Hin]. rewrite R2 in Hx by done. injection Hx as <-. by eapply HL.
  - intros e He. rewrite lookup_delete_ne by (apply not_eq_sym; by apply Hhead). by apply R2.
  - intros x Hx. rewrite lookup_delete_ne by (intros ->; done). by apply R3.
  - intros l xs [Hne Hx]%lookup_delete_Some. destruct (R4 l xs Hx) as [|[? ?]]; [by left|right]. by rewrite lookup_delete_ne.
  - intros x Hx. rewrite lookup_delete_is_Some in Hx. destruct Hx as [Hne Hx]. destruct (R5 x Hx) as [[? ?] ?].
    split; [|done]. split; [done|]. by rewrite lookup_delete_ne.
  - intros e x Hx. destruct (R6 e x Hx) as [? ?]. split; [done|]. apply lookup_delete_is_Some. split; [|done]. intros ->. by eapply HL.
Qed.

(** The state after the task [t], last held here, is freed. *)
Definition freed (e t : Z) (d : task_desc) (c : gpu_context) (x : engine_t) (s : scheduler) : scheduler :=
  s <| released ::= cons d |> <| tasks ::= delete t |> <| items ::= delete t |>
    <| contexts ::= <[context d := c <| context_ref_cnt ::= Z.pred |>]> |>
    <| engines ::= <[Z.to_nat e := x <| handled_tasks_num ::= Z.add 1 |>]> |>.

Lemma freed_eng e t d c x s : contexts s !! context d = Some c ->
  (forall y, eng (freed e t d c x s) y = eng s y) /\ (forall y, dev_of (freed e t d c x s) y = dev_of s y).
Proof.
  intros Hc. unfold eng, dev_of, freed; cbn.
  split; intros y; (destruct (decide (context y = context d)) as [E|E];
    [rewrite E, lookup_insert_eq, Hc; done|by rewrite lookup_insert_ne]).
Qed.

Lemma freed_counts e t d d0 c x s :
  counts_ok s -> tasks s !! t = Some d0 -> context d0 = context d -> contexts s !! context d = Some c -> rb_index c = e ->
  rd (engines s) e = Ok x -> counts_ok (freed e t d c x s).
Proof.
  intros [Hk He] Ht Hctx Hc Hrb Hx. destruct (freed_eng e t d c x s Hc) as [Heng _]. pose proof (rd_bound _ _ _ Hx) as Hb.
  split; cbn.
  - intros k c' Hc'. unfold of_context. rewrite (size_filter_delete _ _ t d0) by done. fold (of_context k (tasks s)).
    unfold one; cbn. rewrite Hctx. destruct (decide (k = context d)) as [->|Hne].
    + rewrite lookup_insert_eq in Hc'. injection Hc' as <-. cbn. rewrite decide_True by done. rewrite <- (Hk _ _ Hc). lia.
    + rewrite lookup_insert_ne in Hc' by done. rewrite decide_False by done. rewrite <- (Hk _ _ Hc'). lia.
  - intros j y Hy. unfold of_engine. rewrite (size_filter_delete _ _ t d0) by done. unfold one. cbn [snd]. rewrite Heng.
    assert (Hed : eng s d0 = e) by (unfold eng; by rewrite Hctx, Hc).
    rewrite Hed. replace (filter (fun p : Z * task_desc => eng (freed e t d c x s) p.2 = j) (tasks s))
      with (filter (fun p : Z * task_desc => eng s p.2 = j) (tasks s)) by (apply map_filter_ext; intros i z _; cbn; by rewrite Heng).
    apply rd_insert_cases in Hy as [[-> ->]|[Hne Hy]]; [| |done].
    + cbn. rewrite decide_True by done. specialize (He e x Hx). unfold of_engine in He. lia.
    + rewrite decide_False by done. specialize (He j y Hy). unfold of_engine in He. lia.
Qed.

Lemma freed_put e t d c x s : freed e t d c x (put_task t d s) = freed e t d c x s.
Proof. destruct s. unfold freed, put_task; cbn. f_equal. apply delete_insert_eq. Qed.

Lemma core_free L lru s A t d c x :
  core_ok L lru s (Ref t :: A) -> tasks s !! t = Some d -> ref_cnt d = 1 -> contexts s !! context d = Some c ->
  rd (engines s) (rb_index c) = Ok x ->
  core_ok L lru (freed (rb_index c) t (d <| ref_cnt := 0 |>) c x s) A.
Proof.
  intros Hok Ht H1 Hc Hx. pose proof Hok as [Hl (T1 & T2 & T3 & T4) Hcount (S1 & S2 & S3 & S4 & S5 & S6) Hp Hr].
  set (d' := d <| ref_cnt := 0 |>). assert (Hc' : contexts s !! context d' = Some c) by exact Hc.
  destruct (freed_eng (rb_index c) t d' c x s Hc') as [Heng Hdev].
  destruct (T1 t d Ht) as (_ & Href & _ & Hsub & Hdone & _).
  rewrite flat_cons, cnt_app in Href. cbn [held_by] in Href. rewrite cnt_cons, cnt_nil, decide_True in Href by done.
  pose proof (cnt_nonneg t (flat held_by A)) as Hn1. pose proof (cnt_nonneg t (L (eng s d))) as Hn2.
  assert (HtA : t ∉ flat held_by A) by (rewrite <- cnt_pos; lia).
  assert (HtL : forall e, t ∉ L e).
  { intros e He. pose proof (T3 _ _ _ He Ht) as Hed. rewrite Hed in Hn2, Href. apply cnt_pos in He. lia. }
  assert (Hcnt : forall y, y <> t -> cnt y (flat held_by (Ref t :: A)) = cnt y (flat held_by A)).
  { intros y Hy. rewrite flat_cons, cnt_app. cbn [held_by]. rewrite cnt_cons, cnt_nil, decide_False by done. lia. }
  assert (Hctxs : forall k c1, contexts (freed (rb_index c) t d' c x s) !! k = Some c1 ->
    exists c0, contexts s !! k = Some c0 /\ rb_index c1 = rb_index c0 /\ device c1 = device c0).
  { intros k c1. cbn. destruct (decide (k = context d)) as [->|Hne].
    - rewrite lookup_insert_eq. intros [= <-]. by exists c.
    - rewrite lookup_insert_ne by done. intros H. by exists c1. }
  assert (Hsome : forall k, is_Some (contexts s !! k) -> is_Some (contexts (freed (rb_index c) t d' c x s) !! k)).
  { intros k Hk. cbn. destruct (decide (k = context d)) as [->|Hne]; [rewrite lookup_insert_eq; by eexists|by rewrite lookup_insert_ne]. }
  split.
  - cbn [engines items tasks freed upd]. cbn. rewrite zlen_insert. apply lists_free; [done|by eexists| |done].
    intros Hin%unlisted_holds. done.
  - split; [|split; [|split; [|done]]].
    + intros y z Hy. cbn in Hy. apply lookup_delete_Some in Hy as [Hne Hy]. apply not_eq_sym in Hne.
      destruct (T1 y z Hy) as (? & Hry & ? & ? & ? & ? & ?). unfold task_ok. rewrite Heng, Hdev, <- Hcnt by done.
      conjs; try done. by apply Hsome.
    + intros y Hy. cbn. apply lookup_delete_is_Some. split; [intros <-; done|]. apply T2. rewrite flat_cons. apply elem_of_app. by right.
    + intros e y z Hy. cbn. intros [Hne Hz]%lookup_delete_Some. rewrite Heng. by eapply T3.
  - eapply freed_counts; try done.
  - unfold spaces_ok. cbn [vms devices engines freed upd]. cbn. rewrite zlen_insert. conjs; try done.
    + intros k c1 Hk. destruct (Hctxs k c1 Hk) as (c0 & H0 & E1 & E2). unfold context_ok. rewrite E1, E2. by eapply S5.
    + destruct S6 as (c0 & H0 & E1 & E2). destruct (Hsome reserved_context) as [c1 Hc1]; [by eexists|].
      destruct (Hctxs _ _ Hc1) as (c2 & H2 & E3 & E4). assert (c2 = c0) as -> by congruence. exists c1. conjs; [exact Hc1|congruence|congruence].
  - apply List.Forall_cons_iff in Hp as [_ Hp]. rewrite List.Forall_forall in Hp |- *. intros a Ha. specialize (Hp a Ha).
    assert (Hin : forall y, y ∈ held_by a -> y <> t).
    { intros y Hy ->. apply HtA. unfold flat. apply list_elem_of_In, in_concat. exists (held_by a).
      split; [apply in_map_iff; by exists a|by apply list_elem_of_In]. }
    assert (Hfor : forall u q, u <> t -> q <> t -> pt_for reserved_context s u q -> pt_for reserved_context (freed (rb_index c) t d' c x s) u q).
    { intros u q Hu Hq (du & dq & dev & k & b & F1 & F2 & F). exists du, dq, dev, k, b. rewrite !Heng, !Hdev. cbn.
      rewrite !lookup_delete_ne by done. done. }
    destruct a as [| |y f pt|y [[u f]|]|y [[u f]|]]; cbn in *; try done; apply Hfor; try apply Hin; try done; set_solver.
  - unfold released_ok. cbn [released freed upd]. cbn. constructor.
    + intros Hs. rewrite Heng. change (eng s d') with (eng s d). change (fence_id d') with (fence_id d).
      destruct Hdone as [Hin|Hle]; [by left|by apply HtL in Hin|exact Hle].
    + eapply List.Forall_impl; [|exact Hr]. cbn. intros z. rewrite Heng. done.
Qed.

(** Steps that submit nothing: the ring and the numbers stay. *)
Definition calm (s s' : scheduler) : Prop :=
  ring s' = ring s /\ grows (fence_state s) (fence_state s') /\
  (forall i, last_sent (fence_state s') i = last_sent (fence_state s) i) /\ zlen (engines s') = zlen (engines s) /\
  (forall y, eng s' y = eng s y) /\
  (forall t d', tasks s' !! t = Some d' -> exists d, tasks s !! t = Some d /\ fence_id d' = fence_id d).

#[export] Instance calm_preorder : PreOrder calm.
Proof.
  split.
  - intros s. unfold calm. conjs; try done; try reflexivity. intros t d Hd. by exists d.
  - intros a b c (A1 & A2 & A3 & A4 & A6 & A5) (B1 & B2 & B3 & B4 & B6 & B5). unfold calm. conjs; try congruence; [by etrans|].
    intros t d Hd. destruct (B5 t d Hd) as (d1 & H1 & E1). destruct (A5 t d1 H1) as (d2 & H2 & E2). exists d2. split; congruence.
Qed.

Lemma quiet_calm s s' : unmoved s s' -> (forall i, last_sent (fence_state s') i = last_sent (fence_state s) i) -> calm s s'.
Proof.
  intros (Q1 & Q2 & Q3 & Q4 & Q5 & Q6 & Q7 & Q8 & Q9 & Q10 & Q11 & Q12 & Q13) Hlast. unfold calm. conjs; try done.
  - intros y. unfold eng. by rewrite Q3.
  - rewrite Q1. intros t d Hd. by exists d.
Qed.

Lemma put_calm s t d d' : tasks s !! t = Some d -> fence_id d' = fence_id d -> calm s (put_task t d' s).
Proof.
  intros Ht Hf. unfold calm. conjs; try done; try reflexivity. intros x y. cbn. destruct (decide (x = t)) as [->|].
  - rewrite lookup_insert_eq. intros [= <-]. by exists d.
  - rewrite lookup_insert_ne by done. intros Hy. by exists y.
Qed.

Lemma ring_calm s s' A A' : ring_ok s A -> calm s s' -> flat lock_waits A' = flat lock_waits A -> ring_ok s' A'.
Proof.
  intros (n & Hn & H) (C1 & _ & C2 & _ & _ & C3) Hw. exists n. unfold ring_fences in *. rewrite C1, Hw, C2. split; [done|].
  destruct (flat lock_waits A) as [|t [|]]; try done. destruct H as [H1 H2]. split; [done|].
  intros d' Hd. destruct (C3 t d' Hd) as (d & Hd0 & ->). by apply H2.
Qed.

(** What giving a reference back leaves alone. *)
Definition spares (t : Z) (s s' : scheduler) : Prop :=
  vms s' = vms s /\ devices s' = devices s /\ dma_fences s' = dma_fences s /\ ring s' = ring s /\
  zlen (engines s') = zlen (engines s) /\ (forall y, eng s' y = eng s y) /\ (forall y, dev_of s' y = dev_of s y) /\
  (forall x, x <> t -> tasks s' !! x = tasks s !! x).

Lemma context_known L lru s A t d : core_ok L lru s A -> tasks s !! t = Some d ->
  exists c, contexts s !! context d = Some c /\ context_ok s c /\ 0 <= rb_index c < zlen (engines s) /\
    eng s d = rb_index c /\ dev_of s d = device c.
Proof.
  intros [_ (T1 & _) _ (_ & S2 & _ & _ & S5 & _) _ _] Ht. destruct (T1 t d Ht) as ([c Hc] & _).
  exists c. pose proof (S5 _ _ Hc) as Hco. destruct Hco as [Hp Hd]. pose proof (present_range _ _ Hp).
  unfold eng, dev_of. rewrite Hc. conjs; try done; lia.
Qed.

Lemma fetch_run {B} (m : gmap Z B) k v : m !! k = Some v -> fetch m k = Ok v.
Proof. unfold fetch. by intros ->. Qed.

Lemma engine_of_run s d c : contexts s !! context d = Some c -> engine_of d s = Ok (rb_index c).
Proof. intros Hc. unfold engine_of. by rewrite (fetch_run _ _ c). Qed.

(** Giving a reference back; the last one frees the task. *)
Lemma core_dec L lru s A t :
  core_ok L lru s (Ref t :: A) ->
  exists s', vidsch_task_dec_reference t s = Ok s' /\ core_ok L lru s' A /\ spares t s s' /\ calm s s'.
Proof.
  intros Hok. destruct (held_task L lru s (Ref t :: A) t Hok) as (d & Ht & Htask).
  { rewrite flat_cons. apply elem_of_app. left. by left. }
  destruct (context_known _ _ _ _ _ _ Hok Ht) as (c & Hc & Hco & Hrb & Heng & Hdev).
  unfold vidsch_task_dec_reference. rewrite (get_task_run t d) by done. cbn [rbind].
  rewrite (engine_of_run s d c) by done. cbn [rbind]. destruct Htask as (_ & Href & Hpos & Hsub & Hdone & Ho & Hdma).
  destruct (Z.eqb_spec (ref_cnt d - 1) 0) as [E|E].
  - unfold vidschi_do_release_task. set (d' := d <| ref_cnt := ref_cnt d - 1 |>).
    rewrite (get_task_run t d') by apply lookup_insert_eq. cbn [rbind].
    rewrite (fetch_run _ _ c) by exact Hc. cbn [rbind].
    destruct (rd_in (engines s) (rb_index c) Hrb) as [x Hx].
    match goal with |- context [upd_engine ?e ?f ?s1] => destruct (upd_engine_run e f s1 Hrb) as (y & Hy & Hru) end.
    rewrite Hru. cbn [engines put_task upd] in Hy. cbn in Hy. assert (y = x) as -> by congruence.
    assert (Hd' : d' = d <| ref_cnt := 0 |>) by (unfold d'; by rewrite E).
    eexists. split; [reflexivity|].
    match goal with |- TaskLife.core_ok _ _ _ ?s1 _ /\ _ => replace s1 with (freed (rb_index c) t d' c x (put_task t d' s)) by (destruct s; reflexivity) end.
    rewrite freed_put. split.
    + rewrite Hd'. apply core_free; try done. lia.
    + destruct (freed_eng (rb_index c) t d' c x s Hc) as [He' Hd2]. split.
      * unfold spares. conjs; try done; [cbn; by rewrite zlen_insert|]. intros z Hz. cbn. by rewrite lookup_delete_ne.
      * unfold calm. conjs; [done|reflexivity|done|cbn; by rewrite zlen_insert|exact He'|].
        intros z y. cbn. intros [_ Hy1]%lookup_delete_Some. by exists y.
  - eexists. split; [reflexivity|]. split.
    + pose proof Hok as [_ (_ & _ & _ & T4) _ _ Hp _].
      eapply core_change; [exact Hok|exact Ht|..]; cbn [fence_id submitted dma_fence body context]; try done.
      * change (ref_cnt (d <| ref_cnt := ref_cnt d - 1 |>)) with (ref_cnt d - 1). rewrite Href, flat_cons, cnt_app.
        cbn [held_by]. rewrite cnt_cons, cnt_nil, decide_True by done. lia.
      * cbn. lia.
      * intros x Hx. rewrite flat_cons, cnt_app. cbn [held_by]. rewrite cnt_cons, cnt_nil, decide_False by done. lia.
      * apply List.Forall_cons_iff in Hp as [_ Hp]. eapply List.Forall_impl; [|exact Hp]. intros a. apply phase_of.
        intros u q. eapply pt_for_put; [done|done|]. intros; by eexists.
    + split; [|by eapply put_calm]. unfold spares. conjs; try done. intros x Hx. cbn. by rewrite lookup_insert_ne.
Qed.

(** ** A new task *)

Lemma lists_new n h T L U t d : lists_ok n h T L U -> T !! t = None -> n < t -> 0 <= n ->
  exists h', list_init_head t (<[t := mkNode 0 0]> h) = Ok h' /\ lists_ok n h' (<[t := d]> T) L (t :: U).
Proof.
  intros (R & R1 & R2 & R3 & R4 & R5 & R6) Ht Hn H0.
  assert (Hu : unlinked R t).
  { intros l xs Hx Hin. destruct (R4 l xs Hx) as [(e & He & ->)|[[y Hy] ->]].
    - rewrite R2 in Hx by done. injection Hx as <-. apply elem_of_cons in Hin as [->|Hin]; [unfold submitted_task_list in *; lia|].
      destruct (R6 e t Hin) as [_ [y Hy]]. congruence.
    - apply list_elem_of_singleton in Hin as ->. congruence. }
  destruct (rings_new h R t R1) as (h' & Hr & HR' & Hp'); [lia|by left|].
  assert (Hold : forall x, is_Some (T !! x) -> x <> t) by (intros x [y Hy] ->; congruence).
  exists h'. split; [done|]. exists (<[t := []]> R). conjs; try done.
  - intros e He. rewrite lookup_insert_ne by (unfold submitted_task_list in *; lia). by apply R2.
  - intros x [->|Hx]%elem_of_cons; [apply lookup_insert_eq|].
    destruct (decide (x = t)) as [->|]; [apply lookup_insert_eq|rewrite lookup_insert_ne by done; by apply R3].
  - intros l xs. destruct (decide (l = t)) as [->|Hne].
    + rewrite lookup_insert_eq. intros [= <-]. right. split; [|done]. rewrite lookup_insert_eq. by eexists.
    + rewrite lookup_insert_ne by done. intros Hx. destruct (R4 l xs Hx) as [|[? ?]]; [by left|right]. by rewrite lookup_insert_ne.
  - intros x. rewrite Hp'. destruct (decide (x = t)) as [->|Hne]; [intros _; split; [by left|done]|].
    rewrite lookup_insert_ne by done. intros Hx. destruct (R5 x Hx). split; [by right|done].
  - intros e x Hx. destruct (R6 e x Hx) as [? ?]. split; [done|]. rewrite lookup_insert_ne; [done|]. by apply not_eq_sym, Hold.
Qed.

Definition new_task (ctx : Z) (ty : task_type) (bd : task_body) (s : scheduler) : task_desc :=
  mkTask ty 0 (-1) ctx None false false false false 1 0 0 0 (u64 (last_uuid s + 1)) true bd.

(** The state after [vidsch_task_init_desc]. *)
Definition created (ctx t : Z) (d : task_desc) (c : gpu_context) (x : engine_t) (h : heap) (s : scheduler) : scheduler :=
  s <| contexts ::= <[ctx := c <| context_ref_cnt ::= Z.add 1 |>]> |> <| last_uuid := task_uuid d |>
    <| tasks ::= <[t := d]> |> <| items := h |>
    <| engines ::= <[Z.to_nat (rb_index c) := x <| pending_tasks_num ::= Z.add 1 |>]> |>.

Lemma created_eng ctx t d c x h s : contexts s !! ctx = Some c ->
  (forall y, eng (created ctx t d c x h s) y = eng s y) /\ (forall y, dev_of (created ctx t d c x h s) y = dev_of s y).
Proof.
  intros Hc. unfold eng, dev_of, created; cbn.
  split; intros y; (destruct (decide (context y = ctx)) as [E|E];
    [rewrite E, lookup_insert_eq, Hc; done|by rewrite lookup_insert_ne]).
Qed.

Lemma created_counts ctx t d c x h s :
  counts_ok s -> tasks s !! t = None -> context d = ctx -> contexts s !! ctx = Some c ->
  rd (engines s) (rb_index c) = Ok x -> counts_ok (created ctx t d c x h s).
Proof.
  intros [Hk He] Ht Hctx Hc Hx. destruct (created_eng ctx t d c x h s Hc) as [Heng _]. pose proof (rd_bound _ _ _ Hx) as Hb.
  split; cbn.
  - intros k c' Hc'. unfold of_context. rewrite size_filter_new by done. fold (of_context k (tasks s)).
    unfold one; cbn. rewrite Hctx. destruct (decide (k = ctx)) as [->|Hne].
    + rewrite lookup_insert_eq in Hc'. injection Hc' as <-. cbn. rewrite decide_True by done. rewrite <- (Hk _ _ Hc). lia.
    + rewrite lookup_insert_ne in Hc' by done. rewrite decide_False by done. rewrite <- (Hk _ _ Hc'). lia.
  - intros j y Hy. unfold of_engine. rewrite size_filter_new by done. unfold one. cbn [snd]. rewrite Heng.
    assert (Hed : eng s d = rb_index c) by (unfold eng; by rewrite Hctx, Hc).
    rewrite Hed. replace (filter (fun p : Z * task_desc => eng (created ctx t d c x h s) p.2 = j) (tasks s))
      with (filter (fun p : Z * task_desc => eng s p.2 = j) (tasks s)) by (apply map_filter_ext; intros i z _; cbn; by rewrite Heng).
    apply rd_insert_cases in Hy as [[-> ->]|[Hne Hy]]; [| |done].
    + cbn. rewrite decide_True by done. specialize (He _ x Hx). unfold of_engine in He. lia.
    + rewrite decide_False by done. specialize (He j y Hy). unfold of_engine in He. lia.
Qed.

Lemma created_contexts ctx t d c x h s : contexts s !! ctx = Some c ->
  (forall k c1, contexts (created ctx t d c x h s) !! k = Some c1 ->
     exists c0, contexts s !! k = Some c0 /\ rb_index c1 = rb_index c0 /\ device c1 = device c0) /\
  (forall k, is_Some (contexts s !! k) -> is_Some (contexts (created ctx t d c x h s) !! k)).
Proof.
  intros Hc. split.
  - intros k c1. cbn. destruct (decide (k = ctx)) as [->|Hne].
    + rewrite lookup_insert_eq. intros [= <-]. by exists c.
    + rewrite lookup_insert_ne by done. intros H. by exists c1.
  - intros k Hk. cbn. destruct (decide (k = ctx)) as [->|Hne]; [rewrite lookup_insert_eq; by eexists|by rewrite lookup_insert_ne].
Qed.

Lemma created_tasks L lru s A ctx t ty bd c x h :
  core_ok L lru s A -> tasks s !! t = None -> contexts s !! ctx = Some c -> (is_dma bd = true \/ device c = reserved_device) ->
  tasks_ok L (created ctx t (new_task ctx ty bd s) c x h s) (New t :: A).
Proof.
  intros Hok Ht Hc Hbd. pose proof Hok as [Hl (T1 & T2 & T3 & T4) _ _ _ _]. set (d := new_task ctx ty bd s).
  destruct (created_eng ctx t d c x h s Hc) as [Heng Hdev]. destruct (created_contexts ctx t d c x h s Hc) as [_ Hsome].
  assert (Hnot : t ∉ flat held_by A) by (intros Hin; destruct (T2 t Hin) as [y Hy]; congruence).
  assert (HnotL : forall e, t ∉ L e) by (intros e Hin; destruct Hl as (R & _ & _ & _ & _ & _ & R6); destruct (R6 e t Hin) as [_ [y Hy]]; congruence).
  assert (Hold : forall y z, tasks s !! y = Some z -> y <> t) by (intros y z Hy ->; congruence).
  split; [|split; [|split]].
  - intros y z Hy. cbn in Hy. unfold task_ok. rewrite Heng, Hdev, flat_cons, cnt_app. cbn [held_by]. rewrite cnt_cons, cnt_nil.
    destruct (decide (y = t)) as [->|Hne].
    + rewrite lookup_insert_eq in Hy. injection Hy as <-. rewrite decide_True by done.
       rewrite (cnt_zero t (flat held_by A)), cnt_zero by done. conjs; try done.
      * apply Hsome. by eexists.
      * intros [Hs|Hin]; [done|]. rewrite flat_cons in Hin. apply elem_of_app in Hin as [Hin|Hin]; [inversion Hin|].
          by apply linked_holds in Hin.
      * unfold dev_of. cbn. rewrite Hc. exact Hbd.
    + rewrite lookup_insert_ne in Hy by done. rewrite decide_False by done. rewrite Z.add_0_l.
       destruct (T1 y z Hy) as (? & ? & ? & Hsub & Hdone & ? & ?). conjs; try done; [by apply Hsome|].
       intros [Hin|Hin]%elem_of_app; [|by apply Hsub]. apply list_elem_of_singleton in Hin as ->. done.
  - intros y Hy. cbn. rewrite flat_cons in Hy. apply elem_of_app in Hy as [Hy|Hy].
    + apply list_elem_of_singleton in Hy as ->. rewrite lookup_insert_eq. by eexists.
    + destruct (T2 y Hy) as [z Hz]. rewrite lookup_insert_ne by (apply not_eq_sym; by eapply Hold). by eexists.
  - intros e y z Hy. cbn. destruct (decide (y = t)) as [->|Hne]; [by apply HnotL in Hy|]. rewrite lookup_insert_ne by done.
    rewrite Heng. by apply T3.
  - cbn. constructor; [|done]. rewrite elem_of_app. intros [Hin|Hin]; [by apply unlisted_holds in Hin|by apply linked_holds in Hin].
Qed.

Lemma core_new L lru s A ctx t ty bd c :
  core_ok L lru s A -> zlen (engines s) < t -> tasks s !! t = None -> contexts s !! ctx = Some c ->
  (is_dma bd = true \/ device c = reserved_device) ->
  exists s', vidsch_task_init_desc ctx t ty bd s = Ok s' /\ core_ok L lru s' (New t :: A) /\ spares t s s' /\
    tasks s' !! t = Some (new_task ctx ty bd s).
Proof.
  intros Hok Hbig Ht Hc Hbd. pose proof Hok as [Hl (T1 & T2 & T3 & T4) Hcount (S1 & S2 & S3 & S4 & S5 & S6) Hp Hr].
  set (d := new_task ctx ty bd s). pose proof (S5 _ _ Hc) as [Hpr _]. pose proof (present_range _ _ Hpr) as Hrb. rewrite S2 in Hrb.
  destruct (rd_in (engines s) (rb_index c) Hrb) as [x Hx].
  destruct (lists_new _ _ _ _ _ t d Hl Ht Hbig) as (h & Hh & Hl'); [apply zlen_nonneg|].
  exists (created ctx t d c x h s). split; [|split].
  - unfold vidsch_task_init_desc. rewrite (fetch_run _ _ c) by done. cbn [rbind].
    match goal with |- context [list_init_head t ?h0] => change h0 with (<[t := mkNode 0 0]> (items s)) end.
    rewrite Hh. cbn [rbind].
    match goal with |- upd_engine ?e ?f ?s1 = _ => destruct (upd_engine_run e f s1 Hrb) as (y & Hy & ->) end.
    cbn in Hy. assert (y = x) as -> by congruence. destruct s; reflexivity.
  - destruct (created_eng ctx t d c x h s Hc) as [Heng Hdev].
    destruct (created_contexts ctx t d c x h s Hc) as [Hctxs Hsome].
    assert (Hold : forall y z, tasks s !! y = Some z -> y <> t) by (intros y z Hy ->; congruence).
    split.
    + cbn [engines items tasks created upd]. cbn. rewrite zlen_insert. exact Hl'.
    + by eapply created_tasks.
    + by eapply created_counts.
    + unfold spaces_ok. cbn [vms devices engines created upd]. cbn. rewrite zlen_insert. conjs; try done.
      * intros k c1 Hk. destruct (Hctxs k c1 Hk) as (c0 & H0 & E1 & E2). unfold context_ok. rewrite E1, E2. by eapply S5.
      * destruct S6 as (c0 & H0 & E1 & E2). destruct (Hsome reserved_context) as [c1 Hc1]; [by eexists|].
        destruct (Hctxs _ _ Hc1) as (c2 & H2 & E3 & E4). assert (c2 = c0) as -> by congruence. exists c1. conjs; [exact Hc1|congruence|congruence].
    + constructor; [done|]. eapply List.Forall_impl; [|exact Hp]. intros a. apply phase_of.
      intros u q (du & dq & dev & k & b & F1 & F2 & F). exists du, dq, dev, k, b. rewrite !Heng, !Hdev. cbn.
      rewrite !lookup_insert_ne by (apply not_eq_sym; by eapply Hold). done.
    + unfold released_ok. cbn [released created upd]. cbn. eapply List.Forall_impl; [|exact Hr]. cbn. intros z. rewrite Heng. done.
  - destruct (created_eng ctx t d c x h s Hc) as [Heng Hdev]. split; [|cbn; apply lookup_insert_eq]. unfold spares. conjs; try done.
    + cbn. by rewrite zlen_insert.
    + intros y Hy. cbn. by rewrite lookup_insert_ne.
Qed.

(** ** The lists *)

Definition relist (L : Z -> list Z) (e : Z) (l : list Z) : Z -> list Z := fun x => if x =? e then l else L x.
Lemma relist_eq L e l : relist L e l e = l.
Proof. unfold relist. by rewrite Z.eqb_refl. Qed.
Lemma relist_ne L e l x : x <> e -> relist L e l x = L x.
Proof. unfold relist. intros. by destruct (Z.eqb_spec x e). Qed.

Lemma lists_link n h T L U U' t e :
  lists_ok n h T L U -> t ∈ U -> (forall x, x ∈ U -> is_Some (T !! x)) ->
  (forall x, x ∈ U' -> x ∈ U /\ x <> t) -> 0 <= e < n ->
  get_next h t = Ok t /\
  exists h', list_add_tail t (submitted_task_list e) h = Ok h' /\ lists_ok n h' T (relist L e (L e ++ [t])) U'.
Proof.
  intros (R & R1 & R2 & R3 & R4 & R5 & R6) HtU HUT HU He. pose proof (R3 t HtU) as Hself. pose proof (HUT t HtU) as Ht. destruct (R5 t Ht) as [Hp Hbig].
  pose proof (rings_list _ _ _ _ R1 Hself) as Hil. split.
  { rewrite (get_next_run _ _ t Hp); [done|]. by apply is_list_next in Hil. }
  assert (Hhead : forall j, 0 <= j < n -> submitted_task_list j <> t) by (intros j ?; unfold submitted_task_list; lia).
  assert (Hu : unlinked (delete t R) t).
  { intros l xs [Hne Hx]%lookup_delete_Some Hin. destruct R1 as [_ Hd]. apply Hne. symmetry. eapply Hd; [exact Hx|exact Hself|exact Hin|by left]. }
  destruct (rings_list_add_tail h (delete t R) (submitted_task_list e) (L e) t) as (h' & Ha & HR' & Hp'); try done.
  { by apply rings_delete. }
  { rewrite lookup_delete_ne by (apply not_eq_sym; by apply Hhead). by apply R2. }
  exists h'. split; [done|]. exists (<[submitted_task_list e := L e ++ [t]]> (delete t R)). conjs; try done.
  - intros j Hj. destruct (decide (j = e)) as [->|Hne].
    + by rewrite lookup_insert_eq, relist_eq.
    + rewrite lookup_insert_ne by (unfold submitted_task_list; lia).
      rewrite lookup_delete_ne by (apply not_eq_sym; by apply Hhead). rewrite relist_ne by done. by apply R2.
  - intros x Hx. destruct (HU x Hx) as [Hx1 Hx2]. pose proof (R3 x Hx1) as Hx3.
    destruct (R5 x (HUT x Hx1)) as [_ Hbx].
    rewrite lookup_insert_ne by (unfold submitted_task_list; lia). by rewrite lookup_delete_ne.
  - intros l xs. destruct (decide (l = submitted_task_list e)) as [->|Hne]; [intros _; left; by exists e|].
    rewrite lookup_insert_ne by done. intros [_ Hx]%lookup_delete_Some. by apply R4.
  - intros x Hx. destruct (R5 x Hx). split; [by apply Hp'|done].
  - intros j x. destruct (decide (j = e)) as [->|Hne]; [rewrite relist_eq|rewrite relist_ne by done; apply R6].
    intros [Hx|Hx]%elem_of_app; [by apply R6|]. apply list_elem_of_singleton in Hx as ->. done.
Qed.

Lemma lists_take n h T L U t l e :
  lists_ok n h T L U -> (forall x, x ∈ U -> is_Some (T !! x)) -> 0 <= e < n -> L e = t :: l ->
  exists h', list_del t h = Ok h' /\ lists_ok n h' T (relist L e l) U.
Proof.
  intros (R & R1 & R2 & R3 & R4 & R5 & R6) HUT He HL. pose proof (R2 e He) as Hhd. rewrite HL in Hhd.
  destruct (rings_list_del h R (submitted_task_list e) [] t l R1 Hhd) as (h' & Hd & HR' & _ & Hp'). cbn [app] in HR'.
  exists h'. split; [done|]. exists (<[submitted_task_list e := l]> R). conjs; try done.
  - intros j Hj. destruct (decide (j = e)) as [->|Hne]; [by rewrite lookup_insert_eq, relist_eq|].
    rewrite lookup_insert_ne by (unfold submitted_task_list; lia). rewrite relist_ne by done. by apply R2.
  - intros x Hx. destruct (R5 x (HUT x Hx)) as [_ Hbx].
    rewrite lookup_insert_ne by (unfold submitted_task_list; lia). by apply R3.
  - intros k xs. destruct (decide (k = submitted_task_list e)) as [->|Hne]; [intros _; left; by exists e|].
    rewrite lookup_insert_ne by done. apply R4.
  - intros x Hx. destruct (R5 x Hx). split; [by apply Hp'|done].
  - intros j x. destruct (decide (j = e)) as [->|Hne]; [rewrite relist_eq|rewrite relist_ne by done; apply R6].
    intros Hx. apply R6. rewrite HL. by right.
Qed.

Lemma list_head_run n h T L U e : lists_ok n h T L U -> 0 <= e < n ->
  list_empty (submitted_task_list e) h = Ok (match L e with [] => true | _ => false end) /\
  forall t l, L e = t :: l -> list_first_entry (submitted_task_list e) h = Ok t /\ is_Some (T !! t).
Proof.
  intros (R & R1 & R2 & _ & _ & _ & R6) He. pose proof (rings_list _ _ _ _ R1 (R2 e He)) as Hil. split.
  - by apply list_empty_ok.
  - intros t l HL. split; [|apply (R6 e); rewrite HL; by left]. unfold list_first_entry.
    assert (Hp : present h (submitted_task_list e)) by (eapply is_list_present; [exact Hil|by left]).
    rewrite (get_next_run _ _ t Hp); [done|]. apply is_list_next in Hil. by rewrite HL in Hil.
Qed.

(** The locked section that puts a task into the list of its engine. *)
Lemma core_link L lru s A t k :
  core_ok L lru s (Sent t k :: A) ->
  exists d s', tasks s !! t = Some d /\ set_task_submitted_begin (eng s d) t false s = Ok (Some t, s') /\
    core_ok (relist L (eng s d) (L (eng s d) ++ [t])) lru s' (Linked t k :: A) /\ spares t s s' /\ calm s s'.
Proof.
  intros Hok. destruct (held_task _ _ _ _ t Hok) as (d & Ht & Htask); [rewrite flat_cons; left|].
  destruct (context_known _ _ _ _ _ _ Hok Ht) as (c & Hc & Hco & Hrb & Heng & Hdev). exists d.
  unfold set_task_submitted_begin. pose proof (quiet_clock s) as Hq.
  assert (Hv : vms (snd (zx_get_nsecs s)) = vms s) by (unfold zx_get_nsecs; by destruct (clock s)).
  destruct (zx_get_nsecs s) as [now s1]. cbn [snd] in Hq, Hv.
  pose proof (core_quiet _ _ _ _ _ Hok Hq) as Hok1. pose proof Hq as (Q1 & Q2 & Q3 & Q4 & Q5 & Q6 & Q7 & Q8 & Q9 & Q10 & Q11 & Q12 & Q13).
  assert (Ht1 : tasks s1 !! t = Some d) by congruence. rewrite (get_task_run t d) by done. cbn [rbind].
  set (d1 := d <| timestamp := now |> <| fake_submitted ::= orb false |>).
  pose proof Hok1 as [Hl (T1 & T2 & T3 & T4) _ _ Hp _]. destruct (T1 t d Ht1) as (_ & Href & Hpos & Hsub & Hdone & Ho & Hdma).
  assert (He1 : eng s1 d = eng s d) by (unfold eng; by rewrite Q3).
  assert (Hnt : t ∉ flat unlisted (Linked t k :: A)).
  { rewrite !flat_cons in T4. cbn [unlisted just_linked] in T4. apply NoDup_app in T4 as (T4 & _). apply NoDup_cons in T4 as [T4 _]. done. }
  destruct (lists_link (zlen (engines s1)) (items s1) (tasks s1) L (flat unlisted (Sent t k :: A)) (flat unlisted (Linked t k :: A)) t (eng s d))
    as (Hnx & h' & Ha & Hl'); try done.
  { rewrite flat_cons. left. }
  { intros x Hx. by apply T2, unlisted_holds. }
  { intros x Hx. split; [|by intros ->]. rewrite flat_cons in *. cbn [unlisted] in *. rewrite elem_of_app in *. rewrite elem_of_cons. tauto. }
  { rewrite Q12, Heng. exact Hrb. }
  unfold link_submitted. change (items (put_task t d1 s1)) with (items s1). rewrite Hnx. cbn [rbind]. rewrite Z.eqb_refl. cbn [negb].
  rewrite Ha. cbn [rbind]. rewrite (inc_run t d1) by apply lookup_insert_eq. cbn [rbind]. eexists. split; [done|]. split; [reflexivity|].
  set (d2 := d1 <| ref_cnt ::= Z.add 1 |>).
  replace (put_task t d2 ((put_task t d1 s1) <| items := h' |>)) with ((put_task t d2 s1) <| items := h' |>)
    by (destruct s1; unfold put_task; cbn; f_equal; symmetry; apply insert_insert_eq).
  split.
  - eapply core_move; [exact Hok1|exact Ht1|..]; cbn [fence_id submitted dma_fence body context]; try done.
    + change (ref_cnt d2) with (1 + ref_cnt d). rewrite He1, relist_eq, cnt_app, cnt_cons, cnt_nil, decide_True by done.
      rewrite Href, He1, !flat_cons. cbn [held_by]. lia.
    + change (ref_cnt d2) with (1 + ref_cnt d). lia.
    + intros x e Hx. destruct (decide (e = eng s d)) as [->|Hne]; [|by rewrite relist_ne].
      rewrite relist_eq, cnt_app, cnt_cons, cnt_nil, decide_False by done. lia.
    + intros e. rewrite He1. destruct (decide (e = eng s d)) as [->|Hne]; [done|]. rewrite relist_ne by done.
      intros Hin. rewrite <- (T3 _ _ _ Hin Ht1). done.
    + intros x. rewrite !flat_cons. cbn [unlisted]. rewrite !elem_of_app, elem_of_cons. tauto.
    + intros x Hx. rewrite !flat_cons. cbn [just_linked]. rewrite !elem_of_app, list_elem_of_singleton. tauto.
    + rewrite !flat_cons in T4 |- *. cbn [unlisted just_linked] in T4 |- *. cbn [app] in T4 |- *. by rewrite <- Permutation_middle.
    + intros _. left. rewrite He1, relist_eq. apply elem_of_app. right. by left.
    + apply List.Forall_cons_iff in Hp as [Hp1 Hp]. constructor.
      * destruct k as [[u f]|]; [|done]. cbn in Hp1 |- *. eapply pt_for_put; [done|done| |done]. intros; by eexists.
      * eapply List.Forall_impl; [|exact Hp]. intros a. apply phase_of. intros u q. eapply pt_for_put; [done|done|]. intros; by eexists.
  - split.
    + unfold spares, eng, dev_of. cbn. rewrite Q3. conjs; try done.
      intros x Hx. rewrite lookup_insert_ne by done. by rewrite Q1.
    + etrans; [apply quiet_calm; [done|]; intros i; unfold fence_state; by rewrite Hv|]. apply (put_calm s1 t d d2 Ht1). done.
Qed.

(** The locked section that takes a completed task out of its list. *)
Lemma core_take L lru s A e :
  core_ok L lru s A -> 0 <= e < zlen (engines s) -> engine_present (fence_state s) e ->
  exists r u s', take_completed e s = Ok (r, u, s') /\ calm s s' /\ evolves (fence_state s) (fence_state s') /\
    match r with
    | Some t => exists d l, L e = t :: l /\ tasks s !! t = Some d /\ u = None /\
        fence_id d <= returned (fence_state s') e /\ core_ok (relist L e l) lru s' (Ref t :: A)
    | None => core_ok L lru s' A /\
        match L e with
        | [] => u = None
        | t :: _ => exists d, tasks s !! t = Some d /\ u = Some (fence_id d) /\ returned (fence_state s') e < fence_id d
        end
    end.
Proof.
  intros Hok He Hpr. pose proof Hok as [Hl (T1 & T2 & T3 & T4) _ (S1 & S2 & _) _ _].
  destruct (list_head_run _ _ _ _ _ e Hl He) as [Hemp Hfirst]. unfold take_completed. rewrite Hemp. cbn [rbind].
  destruct (L e) as [|t l] eqn:EL; cbn [negb].
  { exists None, None, s. split; [done|]. split; [reflexivity|]. split; [reflexivity|]. by split. }
  destruct (Hfirst t l eq_refl) as [-> [d Ht]]. cbn [rbind]. rewrite (get_task_run t d) by done. cbn [rbind].
  destruct (poll_fence_run e (fence_id d) s) as (b & s1 & -> & Hq & Hb & Hev); try done; [by apply S1|]. cbn [rbind].
  pose proof (core_quiet _ _ _ _ _ Hok Hq) as Hok1. pose proof (quiet_calm _ _ Hq (fun i => evolves_last _ _ i Hev)) as Hcalm1.
  pose proof Hq as (Q1 & Q2 & Q3 & _ & _ & _ & _ & _ & _ & _ & _ & Q12 & _).
  assert (Ht1 : tasks s1 !! t = Some d) by congruence. destruct b; cbn [negb].
  - pose proof Hok1 as [Hl1 (U1 & U2 & U3 & U4) _ _ Hp1 _].
    destruct (lists_take _ _ _ _ _ t l e Hl1) as (h' & -> & Hl'); [intros x Hx; by apply U2, unlisted_holds|lia|done|]. cbn [rbind].
    exists (Some t), None, (s1 <| items := h' |>). split; [done|]. split; [exact Hcalm1|]. split; [exact Hev|].
    exists d, l. split; [done|]. split; [done|]. split; [done|]. assert (Hle : fence_id d <= returned (fence_state s1) e) by lia.
    split; [exact Hle|]. assert (Hed : eng s1 d = e) by (apply (U3 e t d); [rewrite EL; by left|done]).
    destruct (U1 t d Ht1) as (_ & Href & Hpos & Hsub & Hdone & Ho & Hdma).
    replace (s1 <| items := h' |>) with ((put_task t d s1) <| items := h' |>) by (by rewrite put_same).
    rewrite Hed, EL, cnt_cons, decide_True in Href by done.
    eapply core_move; [exact Hok1|exact Ht1|..]; cbn [fence_id submitted dma_fence body context]; try done.
    + rewrite Hed, relist_eq, flat_cons, cnt_app. cbn [held_by]. rewrite cnt_cons, cnt_nil, decide_True by done. lia.
    + intros x Hx. rewrite flat_cons, cnt_app. cbn [held_by]. rewrite cnt_cons, cnt_nil, decide_False by done. lia.
    + intros x j Hx. destruct (decide (j = e)) as [->|Hne]; [|by rewrite relist_ne].
      rewrite relist_eq, EL, cnt_cons, decide_False by done. lia.
    + intros j. destruct (decide (j = e)) as [->|Hne]; [done|]. rewrite relist_ne by done. intros Hin. symmetry. by eapply U3.
    + intros _. right. by rewrite Hed.
    + constructor; [done|]. rewrite put_same by done. exact Hp1.
  - destruct (rd_in (engines s1) e) as [x Hx]; [lia|]. rewrite Hx. cbn [rbind].
    exists None, (Some (fence_id d)). eexists. split; [reflexivity|].
    assert (Hlt : returned (fence_state s1) e < fence_id d) by lia.
    destruct (timestamp d <? returned_timestamp x).
    + split; [etrans; [exact Hcalm1|]; by eapply put_calm|]. split; [exact Hev|]. split.
      * pose proof Hok1 as [_ (U1 & _) _ _ _ _]. destruct (U1 t d Ht1) as (_ & _ & _ & Hsub & Hdone & Ho & Hdma).
        eapply core_put; try done. intros; by eexists.
      * by exists d.
    + split; [exact Hcalm1|]. split; [exact Hev|]. split; [done|]. by exists d.
Qed.
End Core.
