(* ===== verification/TaskSteps.v ===== *)
(** * Every step of a task's life runs

    The locked sections of a submission on top of [TaskCore]: the number, the
    identifier of the address space, the page table task and the exchange of numbers,
    the ring; then every step of [TaskLife] from a state with the invariant: it does not
    fault, and the invariant holds again. *)
From S2P Require Import Prelude CoreUtil ListHead ListRings PageTable Fence VmId Task TaskSubmit TaskLife TaskCore.
From stdpp Require Import gmap.
Local Open Scope Z_scope.

Section Steps.
Context (reserved_context : Z).
Notation core_ok := (core_ok reserved_context).

(** The address spaces change. *)
Lemma core_space L lru lru' s A m devs :
  core_ok L lru s A -> mgr_ok lru' m -> grows (fence_state s) (fen m) ->
  (forall dv dev, devs !! dv = Some dev -> device_ok (zlen (engines s)) lru' dv dev) ->
  (forall dv dev, devices s !! dv = Some dev -> exists dev', devs !! dv = Some dev' /\
     forall k, dev_vm_id (vm_part dev) = Some k -> exists k', dev_vm_id (vm_part dev') = Some k') ->
  core_ok L lru' (s <| vms := m |> <| devices := devs |>) A.
Proof.
  intros Hok Hm Hg Hd Hk. pose proof (core_quiet reserved_context _ _ _ _ _ Hok (quiet_fences s (fen m) Hg)) as
    [Hl Ht Hc (S1 & S2 & S3 & S4 & S5 & S6) Hp Hr].
  split; try done.
  - unfold spaces_ok. cbn. conjs; try done. intros k c Hkc. destruct (S5 k c Hkc) as [Hpr [dev Hdev]].
    split; [exact Hpr|]. destruct (Hk _ _ Hdev) as (dev' & Hdev' & _). by exists dev'.
  - eapply List.Forall_impl; [|exact Hp]. intros a. apply phase_of.
    intros u q (du & dq & dev & k & b & H1 & H2 & H3 & H4 & H5 & H6 & H7 & H8).
    destruct (Hk _ _ H7) as (dev' & Hdev' & Hk'). destruct (Hk' _ H8) as [k' H8']. by exists du, dq, dev', k', b.
Qed.

Lemma space_calm s m devs : grows (fence_state s) (fen m) ->
  (forall i, last_sent (fen m) i = last_sent (fence_state s) i) -> calm s (s <| vms := m |> <| devices := devs |>).
Proof. intros Hg Hl. unfold calm. conjs; try done. intros t d Hd. by exists d. Qed.

Lemma device_found L lru s A t d : core_ok L lru s A -> tasks s !! t = Some d ->
  exists c dev, contexts s !! context d = Some c /\ devices s !! device c = Some dev /\
    device_ok (zlen (engines s)) lru (device c) dev /\ engine_present (fence_state s) (rb_index c) /\
    0 <= rb_index c < zlen (engines s) /\ rb_index c < MAX_ENGINE_COUNT /\ eng s d = rb_index c /\ dev_of s d = device c.
Proof.
  intros Hok Ht. destruct (context_known _ _ _ _ _ _ _ Hok Ht) as (c & Hc & [Hp [dev Hdev]] & Hrb & He & Hd).
  pose proof Hok as [_ _ _ (_ & _ & S3 & S4 & _) _ _]. exists c, dev. conjs; try done; [by apply S4|lia|lia|lia].
Qed.

(** The end of [vidsch_choose_vm_id]. *)
Lemma core_age L lru s A dv dev k :
  core_ok L lru s A -> devices s !! dv = Some dev -> dev_vm_id (vm_part dev) = Some k ->
  exists s', choose_vm_id_age dv s = Ok s' /\ core_ok L lru s' A /\ calm s s' /\ tasks s' = tasks s /\
    contexts s' = contexts s /\ devices s' = devices s /\ dma_fences s' = dma_fences s /\ ring s' = ring s.
Proof.
  intros Hok Hdev Hk. pose proof Hok as [_ _ _ (S1 & _ & _ & S4 & _) _ _].
  destruct (S4 _ _ Hdev) as (_ & _ & Hown). specialize (Hown k Hk). pose proof S1 as (_ & Hlru & Hres & Hn & Hz & _).
  assert (Hrange : 0 <= k < zlen (vm_id_array (vms s))).
  { destruct (dv =? reserved_device); [lia|]. apply Hlru in Hown. lia. }
  destruct (rd_in _ _ Hrange) as [o Ho]. unfold choose_vm_id_age. rewrite (fetch_run _ _ dev) by done. cbn [rbind].
  rewrite Hk. cbn [deref rbind]. rewrite Ho. cbn [rbind].
  destruct (pd_age o <? VmId.root_pd_age (vm_part dev)).
  - destruct (set_age_run _ _ _ _ (VmId.root_pd_age (vm_part dev)) S1 Ho) as (arr & -> & Hm). cbn [rbind].
    exists (s <| vms := set_array (vms s) arr |> <| devices := devices s |>). split; [by destruct s|].
    assert (Hg : grows (fence_state s) (fen (set_array (vms s) arr))) by (unfold fence_state; reflexivity).
    conjs; try done; [|by apply space_calm].
    eapply core_space; [exact Hok|exact Hm|exact Hg|exact S4|]. intros d0 dev0 H0. exists dev0. split; [done|].
    intros k0 Hk0. by exists k0.
  - exists s. conjs; done.
Qed.

Lemma last_used_elem i k lru : i ∈ lru -> k ∈ without i lru ++ [i] <-> k ∈ lru.
Proof.
  intros Hi. unfold without. rewrite elem_of_app, list_elem_of_filter, list_elem_of_singleton.
  destruct (decide (k = i)) as [->|]; tauto.
Qed.

Lemma device_ok_lru n lru lru' dv dev : (forall k, k ∈ lru' <-> k ∈ lru) -> device_ok n lru dv dev -> device_ok n lru' dv dev.
Proof.
  intros Hk (H1 & H2 & H3). split; [done|]. split; [done|]. intros k Hd. specialize (H3 k Hd).
  destruct (dv =? reserved_device); [done|by apply Hk].
Qed.

(** One device gets an identifier. *)
Lemma core_lend L lru lru' s A m dv dev vd k :
  core_ok L lru s A -> mgr_ok lru' m -> (forall x, x ∈ lru' <-> x ∈ lru) -> grows (fence_state s) (fen m) ->
  devices s !! dv = Some dev -> dev_vm_id vd = Some k -> (if dv =? reserved_device then k = 0 else k ∈ lru) ->
  core_ok L lru' (s <| vms := m |> <| devices ::= <[dv := dev <| vm_part := vd |>]> |>) A.
Proof.
  intros Hok Hm Hlru Hg Hdev Hk Hkd. pose proof Hok as [_ _ _ (_ & _ & _ & S4 & _) _ _].
  change (s <| vms := m |> <| devices ::= <[dv := dev <| vm_part := vd |>]> |>)
    with (s <| vms := m |> <| devices := <[dv := dev <| vm_part := vd |>]> (devices s) |>).
  eapply core_space; [exact Hok|exact Hm|exact Hg|..].
  - intros x y. destruct (decide (x = dv)) as [->|Hne].
    + rewrite lookup_insert_eq. intros [= <-]. destruct (S4 _ _ Hdev) as (H1 & H2 & _). split; [done|]. split; [done|].
      cbn. intros k' Hk'. assert (k' = k) as -> by congruence. destruct (dv =? reserved_device); [done|by apply Hlru].
    + rewrite lookup_insert_ne by done. intros Hx. apply (device_ok_lru _ lru); [done|by apply S4].
  - intros x y Hx. destruct (decide (x = dv)) as [->|Hne].
    + eexists. split; [apply lookup_insert_eq|]. intros k' _. by exists k.
    + exists y. rewrite lookup_insert_ne by done. split; [done|]. intros k' Hk'. by exists k'.
Qed.

Lemma core_set_vm_id L lru s A t d id : core_ok L lru s A -> tasks s !! t = Some d ->
  core_ok L lru (put_task t (d <| task_vm_id := id |>) s) A.
Proof.
  intros Hok Ht. pose proof Hok as [_ (T1 & _) _ _ _ _]. destruct (T1 t d Ht) as (_ & _ & _ & Hsub & Hdone & Ho & Hdma).
  eapply core_put; try done. intros; by eexists.
Qed.

(** [vidsch_choose_vm_id] up to the decision. *)
Lemma core_lookup L lru fuel s A t d :
  core_ok L lru s A -> tasks s !! t = Some d ->
  (dev_of s d <> reserved_device -> gpu_alive (vms s) /\ (length (future (fence_state s)) < fuel)%nat) ->
  exists b id s' lru' dev k, choose_vm_id_lookup fuel t s = Ok (b, s') /\ core_ok L lru' s' A /\ calm s s' /\
    tasks s' = <[t := d <| task_vm_id := id |>]> (tasks s) /\ contexts s' = contexts s /\ dma_fences s' = dma_fences s /\
    (b = true -> dev_of s d <> reserved_device) /\
    devices s' !! dev_of s d = Some dev /\ dev_vm_id (vm_part dev) = Some k /\
    (forall dv, dv <> dev_of s d -> devices s' !! dv = devices s !! dv).
Proof.
  intros Hok Ht Hgpu. destruct (device_found _ _ _ _ _ _ Hok Ht) as (c & dev & Hc & Hdev & Hdok & Hpr & Hrb & Hmax & Heng & Hdv).
  rewrite Hdv in *. pose proof Hok as [_ _ _ (S1 & _) _ _]. pose proof Hdok as (Hu & Hd & Hown).
  unfold choose_vm_id_lookup. rewrite (get_task_run t d) by done. cbn [rbind].
  rewrite (fetch_run _ _ c) by done. cbn [rbind]. rewrite (fetch_run _ _ dev) by done. cbn [rbind].
  destruct (Z.eqb_spec (device c) reserved_device) as [Hres|Hres].
  - destruct (choose_reserved_run fuel _ _ (vm_part dev) (fence_id d) (rb_index c) S1 Hpr Hmax) as (m & vd & -> & Hm & Hf & Hvd & Hage).
    cbn [rbind]. set (s1 := (put_task t (d <| task_vm_id := 0 |>) s) <| vms := m |> <| devices ::= <[device c := dev <| vm_part := vd |>]> |>).
    assert (Hg : grows (fence_state s) (fen m)) by (unfold fence_state; rewrite Hf; reflexivity).
    assert (Hok1 : core_ok L lru s1 A).
    { eapply core_lend; [by apply core_set_vm_id|exact Hm|done|exact Hg|exact Hdev|exact Hvd|]. by rewrite Hres. }
    assert (Hcalm : calm s s1).
    { etrans; [eapply (put_calm s t d (d <| task_vm_id := 0 |>) Ht); done|].
      apply (space_calm (put_task t (d <| task_vm_id := 0 |>) s)); [exact Hg|]. intros i. unfold fence_state. cbn. by rewrite Hf. }
    match goal with |- context [choose_vm_id_age _ ?x] => change x with s1 end.
    destruct (core_age L lru s1 A (device c) (dev <| vm_part := vd |>) 0) as (s2 & -> & Hok2 & Hcalm2 & E1 & E2 & E3 & E4 & E5); try done.
    { apply lookup_insert_eq. }
    cbn [rbind]. exists false, 0, s2, lru, (dev <| vm_part := vd |>), 0. rewrite E1, E2, E3, E4. conjs; try done.
    + by etrans.
    + apply lookup_insert_eq.
    + intros x Hx. cbn. by rewrite lookup_insert_ne.
  - destruct (Hgpu Hres) as [Hal Hfuel]. pose proof (proj2 (Z.eqb_neq _ _) Hres) as Hneq.
    assert (Hown' : forall k, dev_vm_id (vm_part dev) = Some k -> k ∈ lru)
      by exact Hown.
    destruct (choose_run fuel _ _ (vm_part dev) (fence_id d) (rb_index c) S1 Hal Hfuel Hown' Hpr Hmax)
      as (i & m & o & o' & -> & Hm & Hi & Hev & Ho & Ho' & _). cbn [rbind].
    set (vd := mkDevice _ _ _). set (s1 := (put_task t (d <| task_vm_id := i |>) s) <| vms := m |> <| devices ::= <[device c := dev <| vm_part := vd |>]> |>).
    pose proof (evolves_grows _ _ Hev) as Hg.
    assert (Hok1 : core_ok L (without i lru ++ [i]) s1 A).
    { eapply core_lend; [by apply core_set_vm_id|exact Hm|intros x; by apply last_used_elem|exact Hg|exact Hdev|done|].
      by rewrite Hneq. }
    rewrite Ho'. cbn [rbind]. destruct (rd_in (utlb_dirtys dev) (rb_index c)) as [u ->]; [lia|]. cbn [rbind].
    destruct (rd_in (dtlb_dirtys dev) (rb_index c)) as [w ->]; [lia|]. cbn [rbind].
    eexists _, i, s1, _, (dev <| vm_part := vd |>), i. split; [reflexivity|]. split; [exact Hok1|]. split.
    { etrans; [eapply (put_calm s t d (d <| task_vm_id := i |>) Ht); done|].
      apply (space_calm (put_task t (d <| task_vm_id := i |>) s)); [exact Hg|]. intros j. by apply evolves_last. }
    conjs; try done; [cbn; apply lookup_insert_eq|]. intros x Hx. cbn. by rewrite lookup_insert_ne.
Qed.

(** ** The number *)

Lemma unlisted_not_linked L lru s A t : core_ok L lru s A -> t ∈ flat unlisted A -> t ∉ flat just_linked A.
Proof. intros [_ (_ & _ & _ & T4) _ _ _ _] Hu Hl. apply NoDup_app in T4 as (_ & T4 & _). by apply (T4 t). Qed.

(** A task that is in no list may change, except for its references. *)
Lemma core_put_unlisted L lru s A t d d' :
  core_ok L lru s A -> tasks s !! t = Some d -> t ∈ flat unlisted A -> context d' = context d -> ref_cnt d' = ref_cnt d ->
  submitted d' = submitted d -> (forall o, dma_fence d' = Some o -> is_Some (dma_fences s !! o)) ->
  is_dma (body d') = is_dma (body d) ->
  (forall dv e x b, body d = task_page_table_set dv e x b -> exists b', body d' = task_page_table_set dv e x b') ->
  core_ok L lru (put_task t d' s) A.
Proof.
  intros Hok Ht Hu Hc Hr Hs Ho Hb Hpt. pose proof Hok as [_ (T1 & _) _ _ _ _].
  destruct (T1 t d Ht) as (_ & _ & _ & Hsub & Hdone & _ & Hdma). specialize (Hsub Hu).
  eapply core_put; try done.
  - congruence.
  - intros [H|H]; [congruence|]. by apply (unlisted_not_linked _ _ _ _ _ Hok Hu) in H.
  - by rewrite Hb.
Qed.

Lemma next_fence_run L lru s A e :
  core_ok L lru s A -> engine_present (fence_state s) e ->
  exists f s', next_fence e s = Ok (f, s') /\ core_ok L lru s' A /\ f = u64 (last_sent (fence_state s) e + 1) /\
    last_sent (fence_state s') e = f /\ (forall j, j <> e -> last_sent (fence_state s') j = last_sent (fence_state s) j) /\
    s' = set_fences (fence_state s') s /\ grows (fence_state s) (fence_state s') /\
    future (fence_state s') = future (fence_state s) /\
    (gpu_alive (vms s) -> no_wrap s e -> gpu_alive (vms s')).
Proof.
  intros Hok Hp. unfold next_fence. destruct (inc_send_run e (fence_state s) Hp) as (fs & -> & G1 & G2 & G3 & G4 & G5 & G6 & G7 & G8).
  cbn [rbind]. exists (u64 (last_sent (fence_state s) e + 1)), (set_fences fs s). split; [done|].
  assert (Hg : grows (fence_state s) fs) by (unfold grows; conjs; try done; intros i; rewrite G4; lia).
  split; [eapply core_quiet; [exact Hok|by apply quiet_fences]|]. conjs; try done.
  intros [[Hc Hl] Ha] Hn. unfold no_wrap in Hn.
  assert (H0 : forall j, 0 <= last_sent (fence_state s) j -> last_sent (fence_state s) j <= last_sent fs j).
  { intros j Hj. destruct (Z.eq_dec j e) as [->|]; [rewrite G7, (wrap_small 64); [lia|unfold fits; lia]|by rewrite G8]. }
  split; [split|].
  - change (fen (vms (set_fences fs s))) with fs. rewrite G5, G6. eapply List.Forall_impl; [|exact Hc]. cbn. intros cs Hcs i v Hv.
    specialize (Hcs i v Hv). specialize (H0 i). change (fence_state s) with (fen (vms s)) in H0. lia.
  - change (fen (vms (set_fences fs s))) with fs. intros i. specialize (Hl i). rewrite G4.
    change (fen (vms s)) with (fence_state s) in Hl. destruct (Z.eq_dec i e) as [->|Hne].
    + destruct (Z.lt_ge_cases (last_sent (fence_state s) e) (-1)) as [Hneg|Hneg].
      * rewrite G7. pose proof (Z.mod_pos_bound (last_sent (fence_state s) e + 1) (2 ^ 64)). unfold wrap. lia.
      * rewrite G7, (wrap_small 64) by (unfold fits; lia). lia.
    + rewrite G8 by done. lia.
  - intros i o j f Ho Hf. specialize (Ha i o j f Ho Hf). unfold final_fence in *.
    change (fen (vms (set_fences fs s))) with fs. rewrite G5, G6. exact Ha.
Qed.

Lemma core_take_fence L lru s A t d :
  core_ok L lru s A -> tasks s !! t = Some d -> t ∈ flat unlisted A ->
  exists f s' d', take_fence (eng s d) t s = Ok (f, s') /\ core_ok L lru s' A /\
    f = u64 (last_sent (fence_state s) (eng s d) + 1) /\ last_sent (fence_state s') (eng s d) = f /\
    ring s' = ring s /\ tasks s' = <[t := d']> (tasks s) /\ fence_id d' = f /\ context d' = context d /\
    body d' = body d /\ dma_fence d' = dma_fence d /\ contexts s' = contexts s /\ devices s' = devices s /\
    dma_fences s' = dma_fences s /\ zlen (engines s') = zlen (engines s) /\
    future (fence_state s') = future (fence_state s) /\ grows (fence_state s) (fence_state s') /\
    (gpu_alive (vms s) -> no_wrap s (eng s d) -> gpu_alive (vms s')).
Proof.
  intros Hok Ht Hu. destruct (device_found _ _ _ _ _ _ Hok Ht) as (c & dev & Hc & Hdev & Hdok & Hpr & Hrb & Hmax & Heng & Hdv).
  unfold take_fence. rewrite Heng. destruct (next_fence_run _ _ _ _ _ Hok Hpr) as (f & s1 & -> & Hok1 & Hf & Hlast & _ & Hs1 & Hg & Hfut & Hal).
  cbn [rbind]. assert (Ht1 : tasks s1 !! t = Some d) by (rewrite Hs1; exact Ht). rewrite (get_task_run t d) by done. cbn [rbind].
  set (d' := match body d with task_paging len => d <| fence_id := f |> <| cmd_size := len |> | _ => d <| fence_id := f |> end).
  assert (Hd' : fence_id d' = f /\ context d' = context d /\ body d' = body d /\ dma_fence d' = dma_fence d /\
    ref_cnt d' = ref_cnt d /\ submitted d' = submitted d) by (unfold d'; by destruct d as [???????????????[]]).
  destruct Hd' as (E1 & E2 & E3 & E4 & E5 & E6).
  exists f, (put_task t d' s1), d'. split; [unfold d'; by destruct d as [???????????????[]]|]. split.
  - eapply core_put_unlisted; try done.
    + pose proof Hok1 as [_ (T1 & _) _ _ _ _]. destruct (T1 t d Ht1) as (_ & _ & _ & _ & _ & Ho & _). by rewrite E4.
    + by rewrite E3.
    + rewrite E3. intros dv e x b Hb. by exists b.
  - rewrite Hs1. conjs; try done. by rewrite Hs1 in Hal.
Qed.

(** ** The ring *)

Lemma core_ring L lru s A e c : core_ok L lru s A -> core_ok L lru (put_ring e c s) A.
Proof. intros [Hl Ht Hc Hs Hp Hr]. by split. Qed.

Lemma core_dma_fences L lru s A o v : core_ok L lru s A -> core_ok L lru (s <| dma_fences ::= <[o := v]> |>) A.
Proof.
  intros [Hl (T1 & T2 & T3 & T4) Hc Hs Hp Hr]. split; try done. split; [|by split].
  intros t d Ht. destruct (T1 t d Ht) as (? & ? & ? & ? & ? & Ho & ?). unfold task_ok. conjs; try done.
  intros x Hx. cbn. destruct (decide (x = o)) as [->|]; [rewrite lookup_insert_eq; by eexists|rewrite lookup_insert_ne by done; by apply Ho].
Qed.

(** The commands of a task go into the ring; those who wait for it get its number. *)
Lemma core_chip L lru s A e t d fence :
  core_ok L lru s A -> tasks s !! t = Some d -> t ∈ flat unlisted A ->
  exists s' d', chip_submit e t fence s = Ok s' /\ core_ok L lru s' A /\
    ring s' = <[e := default [] (ring s !! e) ++
      [SubmitDma (if is_dma (body d) then fence_id d else fence) (task_uuid d) (task_vm_id d)]]> (ring s) /\
    tasks s' = <[t := d']> (tasks s) /\ fence_id d' = fence_id d /\ context d' = context d /\
    fence_state s' = fence_state s /\ contexts s' = contexts s /\ zlen (engines s') = zlen (engines s) /\
    (is_dma (body d) = true -> forall o, dma_fence d = Some o -> exists v, dma_fences s' !! o = Some v /\ fence_value v = fence_id d).
Proof.
  intros Hok Ht Hu. pose proof Hok as [_ (T1 & _) _ _ _ _]. destruct (T1 t d Ht) as (_ & _ & _ & _ & _ & Ho & _).
  unfold chip_submit. rewrite (get_task_run t d) by done. cbn [rbind].
  destruct (is_dma (body d)) eqn:Eb; [destruct (body d) as [hw nr re| | |] eqn:E; [|done..]|].
  2:{ exists (put_ring e (SubmitDma fence (task_uuid d) (task_vm_id d)) s), d.
      split; [by destruct (body d)|]. split; [by apply core_ring|]. conjs; try done. cbn. by rewrite insert_id. }
  unfold vidschi_update_and_release_dma_fence. rewrite (get_task_run t d) by done. cbn [rbind].
  destruct (dma_fence d) as [o|] eqn:Ed.
  - destruct (Ho o eq_refl) as [v Hv]. rewrite (fetch_run _ _ v) by done. cbn [rbind].
    set (d' := d <| need_send_irq := send_interrupt v |> <| dma_fence := None |>).
    rewrite (get_task_run t d') by apply lookup_insert_eq. cbn [rbind].
    set (w := mkDmaFence (fence_id d) (send_interrupt v) (fence_refs v - 1)).
    exists (put_ring e (SubmitDma (fence_id d) (task_uuid d) (task_vm_id d)) (put_task t d' (s <| dma_fences ::= <[o := w]> |>))), d'.
    split; [done|]. split.
    + apply core_ring. eapply core_put_unlisted; try done; [by apply core_dma_fences|]. intros; by eexists.
    + conjs; try done. intros _ o' [= <-]. exists w. split; [apply lookup_insert_eq|done].
  - cbn [rbind]. rewrite (get_task_run t d) by done. cbn [rbind].
    exists (put_ring e (SubmitDma (fence_id d) (task_uuid d) (task_vm_id d)) s), d.
    split; [done|]. split; [by apply core_ring|]. conjs; try done. cbn. by rewrite insert_id.
Qed.

(** ** The sections of a submission *)

Lemma numbers_S n : numbers (S n) = numbers n ++ [u64 (Z.of_nat (S n))].
Proof. unfold numbers. rewrite seq_S, fmap_app. done. Qed.

Lemma next_number n : u64 (u64 (Z.of_nat n) + 1) = u64 (Z.of_nat (S n)).
Proof. rewrite wrap_add_l by lia. f_equal. lia. Qed.

Lemma no_lock_waits A : forallb (fun a => negb (has_lock a)) A = true -> flat lock_waits A = [].
Proof.
  induction A as [|a A IH]; [done|]. cbn [forallb]. intros [Ha HA]%andb_true_iff. rewrite flat_cons, IH by done.
  destruct a as [| |y f pt|y [[u f]|]|y [[u f]|]]; done.
Qed.

(** A thread moves on, holding the same. *)
Lemma core_relabel L lru s A a b t d :
  core_ok L lru s (a :: A) -> tasks s !! t = Some d -> (forall x, cnt x (held_by b) = cnt x (held_by a)) ->
  unlisted b ≡ₚ unlisted a -> just_linked b = just_linked a -> phase_ok reserved_context s b -> core_ok L lru s (b :: A).
Proof.
  intros Hok Ht Hh Hu Hl Hph. pose proof Hok as [_ (_ & _ & _ & T4) _ _ Hp _]. apply List.Forall_cons_iff in Hp as [_ Hp].
  rewrite !flat_cons in T4. eapply core_retype; [exact Hok|exact Ht|..].
  - intros x. by rewrite !flat_cons, !cnt_app, Hh.
  - intros x. by rewrite !flat_cons, !elem_of_app, Hu.
  - intros x. by rewrite !flat_cons, Hl.
  - rewrite !flat_cons, Hl. by rewrite Hu.
  - by constructor.
Qed.

Lemma core_has L lru s a A t : core_ok L lru s (a :: A) -> t ∈ held_by a -> exists d, tasks s !! t = Some d.
Proof.
  intros Hok Ht. destruct (held_task _ _ _ _ _ t Hok) as (d & Hd & _); [rewrite flat_cons; apply elem_of_app; by left|by exists d].
Qed.

Lemma core_phase L lru s a A : core_ok L lru s (a :: A) -> phase_ok reserved_context s a.
Proof. intros [_ _ _ _ Hp _]. by apply List.Forall_cons_iff in Hp as [Hp _]. Qed.

Lemma core_reserved L lru s A : core_ok L lru s A ->
  exists c, contexts s !! reserved_context = Some c /\ device c = reserved_device /\ rb_index c = RESERVED_ENGINE_INDEX.
Proof. by intros [_ _ _ (_ & _ & _ & _ & _ & H) _ _]. Qed.

(** The ring after one more command. *)
Lemma ring_fences_next s s' x n :
  ring s' = <[RESERVED_ENGINE_INDEX := default [] (ring s !! RESERVED_ENGINE_INDEX) ++ [x]]> (ring s) ->
  ring_fences s = numbers n -> entry_fence x = u64 (Z.of_nat (S n)) -> ring_fences s' = numbers (S n).
Proof.
  intros Hr Hn Hx. rewrite numbers_S, <- Hn, <- Hx. unfold ring_fences. rewrite Hr, lookup_insert_eq.
  match goal with |- context [default [] (Some ?y)] => change (default [] (Some y)) with y end. by rewrite fmap_app.
Qed.

(** The page table task is allocated. *)
Lemma allocate_ok L lru s A t d f pt dv dev k :
  core_ok L lru s (New t :: A) -> tasks s !! t = Some d -> eng s d = RESERVED_ENGINE_INDEX -> dev_of s d = dv ->
  dv <> reserved_device -> devices s !! dv = Some dev -> dev_vm_id (vm_part dev) = Some k ->
  zlen (engines s) < pt -> tasks s !! pt = None ->
  exists s', vidsch_allocate_page_table_set_task reserved_context pt dv RESERVED_ENGINE_INDEX t s = Ok s' /\
    core_ok L lru s' (NeedsPt t f pt :: A) /\ ring s' = ring s /\ vms s' = vms s /\ tasks s' !! t = Some d.
Proof.
  intros Hok Hd He Hdv Hnr Hdev Hk Hbig Hpt. unfold vidsch_allocate_page_table_set_task. pose proof (zlen_nonneg (engines s)).
  destruct (Z.eqb_spec pt 0) as [|_]; [lia|]. destruct (core_reserved _ _ _ _ Hok) as (rc & Hrc & Hrcd & Hrcr).
  destruct (core_new reserved_context L lru s _ reserved_context pt task_type_page_table_set
    (task_page_table_set dv RESERVED_ENGINE_INDEX t false) rc Hok) as (s3 & -> & Hok3 & (X1 & X2 & X3 & X4 & X5 & X6 & X7 & X8) & Hp3);
    [done|done|done|by right|]. cbn [rbind].
  rewrite (get_task_run pt _ _ Hp3). cbn [rbind]. set (p := (new_task _ _ _ _) <| task_vm_id := 0 |>).
  assert (Hok4 : core_ok L lru (put_task pt p s3) (New pt :: New t :: A)) by (by apply core_set_vm_id).
  assert (Hd4 : tasks (put_task pt p s3) !! t = Some d).
  { cbn. rewrite lookup_insert_ne by congruence. rewrite X8 by congruence. done. }
  exists (put_task pt p s3). split; [done|]. split; [|done].
  pose proof Hok4 as [_ (_ & _ & _ & T4) _ _ Hph _]. rewrite !flat_cons in T4. cbn [unlisted just_linked app] in T4.
  apply List.Forall_cons_iff in Hph as [_ Hph]. apply List.Forall_cons_iff in Hph as [_ Hph].
  eapply core_retype; [exact Hok4|exact Hd4|..].
  - intros x. rewrite !flat_cons, !cnt_app. cbn [held_by]. rewrite !cnt_cons, !cnt_nil. lia.
  - intros x. rewrite !flat_cons, !elem_of_app. cbn [unlisted]. set_solver.
  - intros x. by rewrite !flat_cons.
  - rewrite !flat_cons. cbn [unlisted just_linked app]. by rewrite (Permutation_swap t pt) in T4.
  - constructor; [|exact Hph]. cbn [phase_ok]. exists d, p, dev, k, false.
    change (dev_of (put_task pt p s3) d) with (dev_of s3 d). change (eng (put_task pt p s3) d) with (eng s3 d).
    rewrite X7, X6, Hdv, He. conjs; try done; [cbn; apply lookup_insert_eq|cbn; by rewrite X2].
Qed.

Lemma submit_first_ok L lru s A t d fuel pt :
  core_ok L lru s (New t :: A) -> ring_ok s (New t :: A) -> flat lock_waits A = [] ->
  tasks s !! t = Some d -> eng s d = RESERVED_ENGINE_INDEX -> zlen (engines s) < pt -> tasks s !! pt = None ->
  gpu_alive (vms s) -> no_wrap s RESERVED_ENGINE_INDEX -> (length (future (fence_state s)) < fuel)%nat ->
  exists r s' lru', submit_first reserved_context fuel pt t s = Ok (r, s') /\
    let b := match r with Some f => NeedsPt t f pt | None => Sent t None end in
    core_ok L lru' s' (b :: A) /\ ring_ok s' (b :: A).
Proof.
  intros Hok (n & Hn & Hlast) Hnw Ht He0 Hbig Hpt Hal Hwrap Hfuel. rewrite flat_cons, Hnw in Hlast. cbn [lock_waits app] in Hlast.
  destruct (device_found _ _ _ _ _ _ Hok Ht) as (c & dev & Hc & Hdev & Hdok & Hpr & Hrb & Hmax & Heng & Hdv).
  unfold submit_first. rewrite (get_task_run t d) by done. cbn [rbind]. rewrite (fetch_run _ _ c) by done. cbn [rbind].
  destruct (core_take_fence _ _ _ _ _ _ Hok Ht) as (f & s1 & d1 & Hrun & Hok1 & Hf & Hl1 & Hr1 & Ht1 & Hfd & Hcx & Hbd & Hdf & Hcs & Hds & Hdfs & Hze & Hfut & Hg1 & Hal1);
    [rewrite flat_cons; left|]. rewrite Heng in Hrun. rewrite Hrun. cbn [rbind].
  assert (Hd1 : tasks s1 !! t = Some d1) by (rewrite Ht1; apply lookup_insert_eq).
  rewrite He0 in *. rewrite Hlast in Hf. rewrite next_number in Hf.
  destruct (core_lookup L lru fuel s1 _ t d1 Hok1 Hd1) as (b & id & s2 & lru2 & dev2 & k & Hrun2 & Hok2 & Hcalm2 & Ht2 & Hcs2 & Hdfs2 & Hb & Hdev2 & Hk & _).
  { intros _. split; [by apply Hal1|]. by rewrite Hfut. }
  rewrite Hrun2. cbn [rbind]. set (d2 := d1 <| task_vm_id := id |>) in *.
  assert (Hd2 : tasks s2 !! t = Some d2) by (rewrite Ht2; apply lookup_insert_eq).
  pose proof Hcalm2 as (K1 & K2 & K3 & K4 & K5 & K6). assert (Hlast2 : last_sent (fence_state s2) RESERVED_ENGINE_INDEX = u64 (Z.of_nat (S n))) by (rewrite K3, Hl1; done).
  assert (Hring2 : ring s2 = ring s) by congruence.
  assert (Hdv2 : dev_of s2 d2 = device c /\ dev_of s1 d1 = device c).
  { unfold dev_of. rewrite Hcs2, Hcs. change (context d2) with (context d1). by rewrite Hcx, Hc. }
  assert (Heng2 : eng s2 d2 = RESERVED_ENGINE_INDEX).
  { unfold eng. rewrite Hcs2, Hcs. change (context d2) with (context d1). rewrite Hcx, Hc. congruence. }
  destruct Hdv2 as [Hdv2 Hdv1]. destruct b.
  - rewrite Hdv1 in Hdev2, Hb. rewrite <- Heng. destruct (allocate_ok L lru2 s2 A t d2 f pt (device c) dev2 k Hok2 Hd2 Heng2 Hdv2)
      as (s4 & -> & Hok4 & Hr4 & Hv4 & Hd4); [by apply Hb|done|done|rewrite K4, Hze; lia| |].
    { rewrite Ht2, Ht1, !lookup_insert_ne by congruence. done. }
    cbn [rbind]. exists (Some f), s4, lru2. split; [done|]. cbn beta zeta. split; [exact Hok4|].
    exists n. split; [unfold ring_fences; rewrite Hr4, Hring2; exact Hn|].
    rewrite flat_cons, Hnw. cbn [lock_waits app]. unfold fence_state in *. rewrite Hv4. split; [exact Hlast2|].
    intros d' Hd'. rewrite Hd4 in Hd'. injection Hd' as <-. unfold d2; cbn. by rewrite Hfd.
  - cbn [rbind]. destruct (core_chip L lru2 s2 (New t :: A) (rb_index c) t d2 f Hok2 Hd2) as (s3 & d3 & -> & Hok3 & Hr3 & Ht3 & Hfd3 & Hcx3 & Hfs3 & Hcs3 & _);
      [rewrite flat_cons; left|]. cbn [rbind]. exists None, s3, lru2. split; [done|]. cbn beta zeta. split.
    + eapply core_relabel; [exact Hok3|rewrite Ht3; apply lookup_insert_eq|done..].
    + exists (S n). rewrite flat_cons, Hnw. cbn [lock_waits app]. rewrite Hfs3. split; [|exact Hlast2].
      rewrite <- Heng in Hr3. eapply (ring_fences_next s2); [exact Hr3|unfold ring_fences; by rewrite Hring2|].
      cbn. rewrite <- Hf. destruct (is_dma (body d1)); [exact Hfd|done].
Qed.

(** The identifier of a device is one of the manager's. *)
Lemma core_entry L lru s A dv dev k : core_ok L lru s A -> devices s !! dv = Some dev -> dev_vm_id (vm_part dev) = Some k ->
  exists o, rd (vm_id_array (vms s)) k = Ok o.
Proof.
  intros [_ _ _ (S1 & _ & _ & S4 & _) _ _] Hdev Hk. destruct (S4 _ _ Hdev) as (_ & _ & Hown). specialize (Hown k Hk).
  pose proof S1 as (_ & Hlru & Hres & Hn & Hz & _). apply rd_in.
  destruct (dv =? reserved_device); [lia|]. apply Hlru in Hown. lia.
Qed.

Lemma core_vms L lru s A m : core_ok L lru s A -> mgr_ok lru m -> fen m = fence_state s ->
  core_ok L lru (s <| vms := m |>) A /\ calm s (s <| vms := m |>).
Proof.
  intros Hok Hm Hf. pose proof Hok as [_ _ _ (_ & _ & _ & S4 & _) _ _].
  assert (Hg : grows (fence_state s) (fen m)) by (rewrite Hf; reflexivity).
  change (s <| vms := m |>) with (s <| vms := m |> <| devices := devices s |>). split.
  - eapply core_space; [exact Hok|exact Hm|exact Hg|exact S4|]. intros dv dev Hdev. exists dev. split; [done|].
    intros k Hk. by exists k.
  - apply space_calm; [exact Hg|]. intros i. by rewrite Hf.
Qed.

Lemma core_add_sync L lru s A dv dev k f e :
  core_ok L lru s A -> devices s !! dv = Some dev -> dev_vm_id (vm_part dev) = Some k ->
  engine_present (fence_state s) e -> e < MAX_ENGINE_COUNT ->
  exists m, vidschi_vm_id_add_sync k f e (vms s) = Ok m /\ core_ok L lru (s <| vms := m |>) A /\
    calm s (s <| vms := m |>) /\ fen m = fence_state s.
Proof.
  intros Hok Hdev Hk Hp Hlt. destruct (core_entry _ _ _ _ _ _ _ Hok Hdev Hk) as [o Ho].
  pose proof Hok as [_ _ _ (S1 & _) _ _].
  destruct (add_sync_run _ _ _ _ f e S1 Ho Hp Hlt) as (m & o' & Hr & Hm & Hf & _). exists m. split; [done|].
  destruct (core_vms _ _ _ _ m Hok Hm Hf). done.
Qed.

(** Two tasks that are in no list exchange their numbers. *)
Lemma core_fence_id L lru s A t d f : core_ok L lru s A -> tasks s !! t = Some d -> t ∈ flat unlisted A ->
  core_ok L lru (put_task t (d <| fence_id := f |>) s) A.
Proof.
  intros Hok Ht Hu. pose proof Hok as [_ (T1 & _) _ _ _ _]. destruct (T1 t d Ht) as (_ & _ & _ & _ & _ & Ho & _).
  eapply core_put_unlisted; try done. intros; by eexists.
Qed.

(** The command of the page table task of a waiting task is in the ring. *)
Lemma page_table_sent L lru s A t f pt d x n :
  core_ok L lru s (NeedsPt t f pt :: A) -> flat lock_waits A = [] -> ring_fences s = numbers n ->
  entry_fence x = u64 (Z.of_nat (S n)) -> tasks s !! t = Some d -> fence_id d = u64 (Z.of_nat (S (S n))) ->
  last_sent (fence_state s) RESERVED_ENGINE_INDEX = u64 (Z.of_nat (S (S n))) ->
  core_ok L lru (put_ring RESERVED_ENGINE_INDEX x s) (Sent pt (Some (t, f)) :: A) /\
  ring_ok (put_ring RESERVED_ENGINE_INDEX x s) (Sent pt (Some (t, f)) :: A).
Proof.
  intros Hok Hnw Hn Hx Ht Hf Hl. split.
  - assert (Hok6 : core_ok L lru (put_ring RESERVED_ENGINE_INDEX x s) (NeedsPt t f pt :: A)) by (by apply core_ring).
    eapply core_relabel; [exact Hok6|exact Ht|..].
    + intros y. cbn [held_by waiting_task]. rewrite !cnt_cons. lia.
    + apply Permutation_swap.
    + done.
    + exact (core_phase _ _ _ _ _ Hok6).
  - exists (S n). split; [by eapply (ring_fences_next s)|]. rewrite flat_cons, Hnw. cbn [lock_waits app].
    split; [exact Hl|]. intros y Hy. change (tasks s !! t = Some y) in Hy. by rewrite Ht in Hy; injection Hy as <-.
Qed.

Lemma page_table_set_ok L lru s A t f pt fuel :
  core_ok L lru s (NeedsPt t f pt :: A) -> ring_ok s (NeedsPt t f pt :: A) ->
  exists s' lru', page_table_set_locked fuel pt s = Ok s' /\
    core_ok L lru' s' (Sent pt (Some (t, f)) :: A) /\ ring_ok s' (Sent pt (Some (t, f)) :: A).
Proof.
  intros Hok (n & Hn & Hlast). rewrite flat_cons in Hlast. cbn [lock_waits app] in Hlast.
  destruct (flat lock_waits A) as [|] eqn:Hnw; [|done]. destruct Hlast as [Hlast Hfid].
  set (B := NeedsPt t f pt :: A) in *.
  assert (Hut : t ∈ flat unlisted B /\ pt ∈ flat unlisted B) by (unfold B; rewrite flat_cons; cbn [unlisted]; set_solver).
  destruct Hut as [Hut Hup]. assert (Hne : t <> pt).
  { pose proof Hok as [_ (_ & _ & _ & T4) _ _ _ _]. unfold B in T4. rewrite flat_cons in T4. cbn in T4.
    apply NoDup_cons in T4 as [T4 _]. set_solver. }
  destruct (core_phase _ _ _ _ _ Hok) as (d & p & dev0 & k0 & b & Ht & Hp & He0 & Hnr & Hpc & Hpb & _).
  destruct (core_reserved _ _ _ _ Hok) as (rc & Hrc & Hrcd & Hrcr).
  assert (Hdvp : dev_of s p = reserved_device) by (unfold dev_of; by rewrite Hpc, Hrc).
  assert (Hengp : eng s p = RESERVED_ENGINE_INDEX) by (unfold eng; by rewrite Hpc, Hrc).
  destruct (device_found _ _ _ _ _ _ Hok Hp) as (c & _ & Hc & _ & _ & Hpr & _ & Hmax & Hce & _).
  rewrite Hpc, Hrc in Hc. injection Hc as <-. rewrite Hrcr in *.
  unfold page_table_set_locked. rewrite (get_task_run pt p) by done. cbn [rbind]. rewrite Hpb. cbn iota beta.
  rewrite Hpc, (fetch_run _ _ rc) by done. cbn [rbind]. rewrite Hrcr.
  destruct (next_fence_run _ _ _ _ _ Hok Hpr) as (fence & s1 & -> & Hok1 & Hf & Hl1 & _ & Hs1 & Hg1 & _). cbn [rbind].
  rewrite Hlast, next_number in Hf.
  assert (Hs1f : tasks s1 = tasks s /\ contexts s1 = contexts s /\ ring s1 = ring s) by (rewrite Hs1; done). destruct Hs1f as (Et & Ec & Er).
  assert (Hp1 : tasks s1 !! pt = Some p) by congruence.
  destruct (core_lookup L lru fuel s1 B pt p Hok1 Hp1) as (b2 & id & s2 & lru2 & dev2 & k2 & -> & Hok2 & Hcalm2 & Ht2 & Hcs2 & _).
  { unfold dev_of in *. rewrite Ec. done. }
  cbn [rbind]. pose proof Hcalm2 as (K1 & K2 & K3 & K4 & K5 & K6).
  destruct (core_phase _ _ _ _ _ Hok2) as (d2 & p2 & dev & k & b' & Hd2 & Hp2 & He2 & _ & _ & Hpb2 & Hdev & Hk).
  assert (d2 = d) as -> by (rewrite Ht2, lookup_insert_ne in Hd2 by done; congruence).
  assert (Hdv : dev_of s2 d = dev_of s d) by (unfold dev_of; by rewrite Hcs2, Ec). rewrite Hdv in *.
  rewrite (fetch_run _ _ dev) by done. cbn [rbind]. rewrite Hk. cbn [deref rbind].
  rewrite (get_task_run pt p2) by done. cbn [rbind]. rewrite Z.eqb_refl.
  rewrite (get_task_run t d) by done. cbn [rbind].
  set (s3 := put_task t (d <| fence_id := fence |>) (put_task pt (p2 <| fence_id := fence_id d |>) s2)).
  assert (Hok3 : core_ok L lru2 s3 B).
  { apply core_fence_id; [by apply core_fence_id|cbn; by rewrite lookup_insert_ne by done|done]. }
  assert (Hpr3 : engine_present (fence_state s3) RESERVED_ENGINE_INDEX) by (apply K2; apply Hg1; exact Hpr).
  destruct (core_add_sync L lru2 s3 B (dev_of s d) dev k fence RESERVED_ENGINE_INDEX Hok3) as (m & Hm & Hok4 & Hcalm4 & Hfm); try done.
  rewrite Hm. cbn [rbind]. set (s4 := s3 <| vms := m |>) in *.
  destruct (core_entry L lru2 s4 B (dev_of s d) dev k Hok4) as [o Ho]; try done.
  rewrite Ho. cbn [rbind].
  assert (Hp4 : tasks s4 !! pt = Some (p2 <| fence_id := fence_id d |>)).
  { cbn. rewrite lookup_insert_ne by congruence. apply lookup_insert_eq. }
  rewrite (get_task_run pt _ s4 Hp4). cbn [rbind].
  change (ring_of_target RESERVED_ENGINE_INDEX) with RESERVED_ENGINE_INDEX.
  assert (Hlast4 : last_sent (fence_state s4) RESERVED_ENGINE_INDEX = fence).
  { unfold fence_state, s4; cbn. rewrite Hfm. change (fence_state s3) with (fence_state s2). rewrite K3. exact Hl1. }
  assert (Hr4 : ring s4 = ring s) by (change (ring s4) with (ring s2); congruence).
  assert (Hn4 : ring_fences s4 = numbers n) by (unfold ring_fences; by rewrite Hr4).
  assert (Ht4 : tasks s4 !! t = Some (d <| fence_id := fence |>)) by apply lookup_insert_eq.
  destruct (pd_age o <? VmId.root_pd_age (vm_part dev)).
  - eexists _, lru2. split; [reflexivity|].
    eapply (page_table_sent _ _ _ _ _ _ _ (d <| fence_id := fence |>)); [|exact Hnw|exact Hn4|exact (Hfid d Ht)| |exact Hf|rewrite <- Hf; exact Hlast4].
    + eapply core_put_unlisted; [exact Hok4|exact Hp4|exact Hup|done|done|done|..].
      * pose proof Hok4 as [_ (T1 & _) _ _ _ _]. destruct (T1 _ _ Hp4) as (_ & _ & _ & _ & _ & Ho4 & _). exact Ho4.
      * cbn. change (body (p2 <| fence_id := fence_id d |>)) with (body p2). by rewrite Hpb2.
      * intros dv e x y. change (body (p2 <| fence_id := fence_id d |>)) with (body p2). rewrite Hpb2. intros [= <- <- <- _]. by eexists.
    + cbn. rewrite lookup_insert_ne by congruence. exact Ht4.
  - eexists _, lru2. split; [reflexivity|].
    eapply (page_table_sent _ _ _ _ _ _ _ (d <| fence_id := fence |>)); [exact Hok4|exact Hnw|exact Hn4|exact (Hfid d Ht)|exact Ht4|exact Hf|rewrite <- Hf; exact Hlast4].
Qed.

(** [task->submitted = TRUE], once the task is in the list. *)
Lemma mark_submitted_ok L lru s A t k :
  core_ok L lru s (Linked t k :: A) ->
  exists d, tasks s !! t = Some d /\ mark_submitted t s = Ok (put_task t (d <| submitted := true |>) s) /\
    core_ok L lru (put_task t (d <| submitted := true |>) s) (Linked t k :: A).
Proof.
  intros Hok. pose proof Hok as [_ (T1 & _ & _ & T4) _ _ _ _].
  destruct (core_has _ _ _ _ _ t Hok) as [d Ht]; [left|]. exists d. split; [done|].
  unfold mark_submitted. rewrite (get_task_run t d) by done. split; [done|].
  destruct (T1 t d Ht) as (_ & _ & _ & Hsub & Hdone & Ho & Hdma).
  assert (Hl : t ∈ flat just_linked (Linked t k :: A)) by (rewrite flat_cons; left).
  eapply core_put; try done.
  - intros Hu. exfalso. apply NoDup_app in T4 as (_ & T4 & _). by apply (T4 t).
  - intros _. apply Hdone. by right.
  - intros; by eexists.
Qed.

Lemma clear_run (l : list gart_dirty) e : 0 <= e < zlen l ->
  exists l', (let! x := rd l e in if dirty x then wr l e (mkDirty false 0 0) else Ok l) = Ok l' /\ zlen l' = zlen l.
Proof.
  intros He. destruct (rd_in l e He) as [x ->]. cbn [rbind]. destruct (dirty x); [|by exists l].
  rewrite wr_in by done. eexists. split; [done|]. apply zlen_insert.
Qed.

(** [vidmm_vm_clear_engine_dirty_range] *)
Lemma clear_dirty_ok L lru s A dv dev e :
  core_ok L lru s A -> devices s !! dv = Some dev -> 0 <= e < zlen (engines s) ->
  exists devs dev', vidmm_vm_clear_engine_dirty_range dv e s = Ok (s <| devices := devs |>) /\
    core_ok L lru (s <| devices := devs |>) A /\ calm s (s <| devices := devs |>) /\
    devs !! dv = Some dev' /\ vm_part dev' = vm_part dev.
Proof.
  intros Hok Hdev He. pose proof Hok as [_ _ _ (S1 & _ & _ & S4 & _) _ _]. destruct (S4 _ _ Hdev) as (Hu & Hd & Hown).
  unfold vidmm_vm_clear_engine_dirty_range. rewrite (fetch_run _ _ dev) by done. cbn [rbind].
  destruct (clear_run (utlb_dirtys dev) e) as (u & -> & Hzu); [lia|]. cbn [rbind].
  destruct (clear_run (dtlb_dirtys dev) e) as (l & -> & Hzl); [lia|]. cbn [rbind].
  set (dev' := dev <| utlb_dirtys := u |> <| dtlb_dirtys := l |>).
  exists (<[dv := dev']> (devices s)), dev'. split; [done|].
  assert (Hg : grows (fence_state s) (fen (vms s))) by reflexivity.
  replace (s <| devices := <[dv := dev']> (devices s) |>) with (s <| vms := vms s |> <| devices := <[dv := dev']> (devices s) |>) by (by destruct s).
  split; [|split; [by apply space_calm|split; [apply lookup_insert_eq|done]]].
  eapply core_space; [exact Hok|exact S1|exact Hg|..].
  - intros x y. destruct (decide (x = dv)) as [->|Hne].
    + rewrite lookup_insert_eq. intros [= <-]. split; [cbn; lia|]. split; [cbn; lia|]. exact Hown.
    + rewrite lookup_insert_ne by done. apply S4.
  - intros x y Hx. destruct (decide (x = dv)) as [->|Hne].
    + exists dev'. rewrite lookup_insert_eq. split; [done|]. intros k Hk. exists k. assert (y = dev) as -> by congruence. exact Hk.
    + exists y. rewrite lookup_insert_ne by done. split; [done|]. intros k Hk. by exists k.
Qed.

Lemma submit_last_ok L lru s A pt t f :
  core_ok L lru s (Linked pt (Some (t, f)) :: A) -> ring_ok s (Linked pt (Some (t, f)) :: A) ->
  exists s', submit_last pt t f s = Ok s' /\ core_ok L lru s' (Sent t None :: A) /\ ring_ok s' (Sent t None :: A).
Proof.
  intros Hok (n & Hn & Hlast). rewrite flat_cons in Hlast. cbn [lock_waits app] in Hlast.
  destruct (flat lock_waits A) as [|] eqn:Hnw; [|done]. destruct Hlast as [Hlast Hfid].
  destruct (mark_submitted_ok _ _ _ _ _ _ Hok) as (p & Hp & Hrun & Hok1). unfold submit_last. rewrite Hrun. cbn [rbind].
  set (s1 := put_task pt (p <| submitted := true |>) s) in *.
  destruct (core_phase _ _ _ _ _ Hok1) as (d & p1 & dev & k & b & Hd & Hp1 & He & Hnr & _ & Hpb & Hdev & Hk).
  destruct (device_found _ _ _ _ _ _ Hok1 Hd) as (c & _ & Hc & _ & _ & Hpr & Hrb & _ & Heng & Hdv).
  assert (Hne : t <> pt).
  { intros ->. pose proof Hok1 as [_ (_ & _ & _ & T4) _ _ _ _]. rewrite !flat_cons in T4. cbn in T4.
    apply NoDup_cons in T4 as [T4 _]. apply T4. apply elem_of_app. right. left. }
  unfold page_table_set_finish. rewrite (get_task_run pt p1) by done. cbn [rbind]. rewrite Hpb. cbn iota beta.
  rewrite Hdv, He in *. destruct (clear_dirty_ok L lru s1 _ (device c) dev RESERVED_ENGINE_INDEX Hok1 Hdev) as (devs & dev' & -> & Hok2 & Hcalm2 & Hdev' & Hvm);
    [rewrite Heng; exact Hrb|]. cbn [rbind].
  change (IS_VIDEO_ENGINE RESERVED_ENGINE_INDEX) with false. cbn iota. cbn [rbind]. set (s2 := s1 <| devices := devs |>) in *.
  assert (Hok2' : core_ok L lru s2 (Ref pt :: New t :: A)).
  { pose proof Hok2 as [_ (_ & _ & _ & T4) _ _ Hph _]. rewrite !flat_cons in T4. cbn [unlisted just_linked waiting_task app] in T4.
    apply List.Forall_cons_iff in Hph as [_ Hph]. eapply core_retype; [exact Hok2|exact Hd|..].
    - intros x. rewrite !flat_cons, !cnt_app. cbn [held_by waiting_task]. rewrite !cnt_cons, !cnt_nil. lia.
    - intros x. rewrite !flat_cons, !elem_of_app. cbn [unlisted waiting_task]. set_solver.
    - intros x. rewrite !flat_cons, !elem_of_app. cbn [just_linked]. set_solver.
    - rewrite !flat_cons. cbn [unlisted just_linked app]. apply NoDup_cons in T4 as [T4 T5].
      apply NoDup_cons. split; [set_solver|]. rewrite <- Permutation_middle in T5. by apply NoDup_cons in T5 as [_ T5].
    - by do 2 (constructor; [done|]). }
  destruct (core_dec _ _ _ _ _ _ Hok2') as (s3 & -> & Hok3 & (X1 & X2 & X3 & X4 & X5 & X6 & X7 & X8) & Hcalm3). cbn [rbind].
  assert (Hd3 : tasks s3 !! t = Some d) by (rewrite X8 by done; exact Hd). rewrite (get_task_run t d) by done. cbn [rbind].
  destruct (device_found _ _ _ _ _ _ Hok3 Hd3) as (c3 & _ & Hc3 & _ & _ & _ & _ & _ & Heng3 & Hdv3).
  assert (Heq : device c3 = device c /\ rb_index c3 = RESERVED_ENGINE_INDEX).
  { rewrite <- Hdv3, <- Heng3, X7, X6. split; [exact Hdv|]. change (eng s1 d = RESERVED_ENGINE_INDEX). congruence. }
  destruct Heq as [Ed Er]. rewrite (fetch_run _ _ c3) by done. cbn [rbind]. rewrite Ed, Er.
  destruct (core_age L lru s3 _ (device c) dev' k Hok3) as (s4 & -> & Hok4 & Hcalm4 & E1 & E2 & E3 & E4 & E5);
    [rewrite X2; exact Hdev'|congruence|]. cbn [rbind].
  assert (Hd4 : tasks s4 !! t = Some d) by congruence.
  destruct (core_chip L lru s4 _ RESERVED_ENGINE_INDEX t d f Hok4 Hd4) as (s5 & d5 & -> & Hok5 & Hr5 & Ht5 & Hfd5 & _ & Hfs5 & _);
    [rewrite flat_cons; left|].
  exists s5. split; [done|]. split.
  - eapply core_relabel; [exact Hok5|rewrite Ht5; apply lookup_insert_eq|done..].
  - assert (Hdma : is_dma (body d) = true).
    { pose proof Hok1 as [_ (T1 & _) _ _ _ _]. destruct (T1 t d Hd) as (_ & _ & _ & _ & _ & _ & [H|H]); [done|]. exfalso. apply Hnr. congruence. }
    assert (Hfd : fence_id d = u64 (Z.of_nat (S n))).
    { apply Hfid. change (<[pt := p <| submitted := true |>]> (tasks s) !! t = Some d) in Hd. by rewrite lookup_insert_ne in Hd. }
    assert (Hr : ring s4 = ring s) by (rewrite E5, X4; done).
    exists (S n). split.
    + eapply (ring_fences_next s4); [exact Hr5|unfold ring_fences; by rewrite Hr|]. by rewrite Hdma.
    + rewrite flat_cons, Hnw. cbn [lock_waits app]. rewrite Hfs5.
      destruct Hcalm4 as (_ & _ & C4 & _), Hcalm3 as (_ & _ & C3 & _), Hcalm2 as (_ & _ & C2 & _). by rewrite C4, C3, C2.
Qed.

(** ** The other sections *)

Lemma notify_ok L lru s A : core_ok L lru s A ->
  exists fs, vidsch_notify_interrupt (fence_state s) = Ok fs /\ core_ok L lru (set_fences fs s) A /\ calm s (set_fences fs s).
Proof.
  intros Hok. pose proof Hok as [_ _ _ (S1 & _) _ _]. destruct (notify_run (fence_state s)) as (fs & Hr & Hev); [by apply S1|].
  exists fs. pose proof (quiet_fences s fs (evolves_grows _ _ Hev)) as Hq. split; [done|]. split; [by eapply core_quiet|].
  apply quiet_calm; [done|]. intros i. by apply evolves_last.
Qed.

(** A task that is skipped stays out of the list. *)
Lemma fake_submit_ok L lru s A t d e :
  core_ok L lru s A -> tasks s !! t = Some d -> t ∈ flat unlisted A ->
  exists s' d', vidschi_set_task_submitted e t true s = Ok s' /\ core_ok L lru s' A /\ calm s s' /\
    tasks s' !! t = Some d'.
Proof.
  intros Hok Ht Hu. unfold vidschi_set_task_submitted, set_task_submitted_begin. pose proof (quiet_clock s) as Hq.
  assert (Hv : vms (snd (zx_get_nsecs s)) = vms s) by (unfold zx_get_nsecs; by destruct (clock s)).
  destruct (zx_get_nsecs s) as [now s1]. cbn [snd] in Hq, Hv.
  pose proof (core_quiet reserved_context _ _ _ _ _ Hok Hq) as Hok1. pose proof Hq as (Q1 & Q2 & _).
  assert (Ht1 : tasks s1 !! t = Some d) by congruence. rewrite (get_task_run t d) by done. cbn [rbind].
  set (d1 := d <| timestamp := now |> <| fake_submitted ::= orb true |>).
  assert (Hok2 : core_ok L lru (put_task t d1 s1) A).
  { pose proof Hok1 as [_ (T1 & _) _ _ _ _]. destruct (T1 t d Ht1) as (_ & _ & _ & _ & _ & Ho & _).
    eapply core_put_unlisted; try done. intros; by eexists. }
  unfold link_submitted. change (items (put_task t d1 s1)) with (items s1).
  assert (Hnx : get_next (items s1) t = Ok t).
  { pose proof Hok1 as [(R & R1 & _ & R3 & _ & R5 & _) (_ & T2 & _) _ _ _ _].
    destruct (R5 t (T2 t (unlisted_holds _ _ Hu))) as [Hp _]. pose proof (rings_list _ _ _ _ R1 (R3 t Hu)) as Hil.
    rewrite (get_next_run _ _ t Hp); [done|]. by apply is_list_next in Hil. }
  rewrite Hnx. cbn [rbind]. rewrite Z.eqb_refl. cbn [negb rbind].
  exists (put_task t d1 s1), d1. split; [done|]. split; [done|]. split; [|apply lookup_insert_eq].
  etrans; [apply quiet_calm; [exact Hq|]; intros i; unfold fence_state; by rewrite Hv|]. by eapply put_calm.
Qed.

Lemma update_dma_fence_ok L lru s A t d :
  core_ok L lru s A -> tasks s !! t = Some d -> t ∈ flat unlisted A ->
  exists s' d', vidschi_update_and_release_dma_fence t s = Ok s' /\ core_ok L lru s' A /\ calm s s' /\
    tasks s' !! t = Some d' /\ context d' = context d.
Proof.
  intros Hok Ht Hu. pose proof Hok as [_ (T1 & _) _ _ _ _]. destruct (T1 t d Ht) as (_ & _ & _ & _ & _ & Ho & _).
  unfold vidschi_update_and_release_dma_fence. rewrite (get_task_run t d) by done. cbn [rbind].
  destruct (dma_fence d) as [o|] eqn:Ed; [|exists s, d; split; [done|split; [done|split; [reflexivity|done]]]].
  destruct (Ho o eq_refl) as [v Hv]. rewrite (fetch_run _ _ v) by done. cbn [rbind].
  set (d' := d <| need_send_irq := send_interrupt v |> <| dma_fence := None |>).
  set (w := mkDmaFence (fence_id d) (send_interrupt v) (fence_refs v - 1)).
  exists (put_task t d' (s <| dma_fences ::= <[o := w]> |>)), d'. split; [done|]. split; [|split; [|split; [apply lookup_insert_eq|done]]].
  - eapply core_put_unlisted; [by apply core_dma_fences|exact Ht|exact Hu|done..|]. intros; by eexists.
  - etrans; [|by eapply (put_calm (s <| dma_fences ::= <[o := w]> |>))]. unfold calm. conjs; try done; try reflexivity.
    intros x y Hy. by exists y.
Qed.

Lemma skip_task_ok L lru s A t :
  core_ok L lru s (New t :: A) ->
  exists s', skip_task t s = Ok s' /\ core_ok L lru s' (Ref t :: A) /\ calm s s'.
Proof.
  intros Hok. destruct (core_has _ _ _ _ _ t Hok) as [d Ht]; [left|].
  destruct (context_known _ _ _ _ _ _ _ Hok Ht) as (c & Hc & _).
  assert (Hu : t ∈ flat unlisted (New t :: A)) by (rewrite flat_cons; left).
  assert (Hend : forall s', core_ok L lru s' (New t :: A) -> core_ok L lru s' (Ref t :: A)).
  { intros s' Hok'. destruct (core_has _ _ _ _ _ t Hok') as [d' Ht']; [left|].
    pose proof Hok' as [_ (_ & _ & _ & T4) _ _ Hp _]. rewrite !flat_cons in T4. cbn [unlisted just_linked app] in T4.
    apply NoDup_cons in T4 as [_ T4]. apply List.Forall_cons_iff in Hp as [_ Hp].
    eapply core_retype; [exact Hok'|exact Ht'|done|..]; try done; [|by constructor].
    intros x. rewrite !flat_cons. cbn [unlisted app]. intros Hx. by right. }
  unfold skip_task. rewrite (get_task_run t d) by done. cbn [rbind].
  assert (Hrun : (exists s', vidschi_fake_submit_dma t s = Ok s' /\ core_ok L lru s' (New t :: A) /\ calm s s') /\
    (exists s', (let! e := engine_of d s in let! fs := vidsch_notify_interrupt (fence_state s) in
       vidschi_set_task_submitted e t true (set_fences fs s)) = Ok s' /\ core_ok L lru s' (New t :: A) /\ calm s s')).
  { split.
    - unfold vidschi_fake_submit_dma. rewrite (get_task_run t d) by done. cbn [rbind]. rewrite (engine_of_run s d c) by done. cbn [rbind].
      pose proof (quiet_clock s) as Hq. assert (Hv : vms (snd (zx_get_nsecs s)) = vms s) by (unfold zx_get_nsecs; by destruct (clock s)).
      destruct (zx_get_nsecs s) as [now s1]. cbn [snd] in Hq, Hv. pose proof (core_quiet reserved_context _ _ _ _ _ Hok Hq) as Hok1.
      pose proof Hq as (Q1 & _). assert (Ht1 : tasks s1 !! t = Some d) by congruence.
      set (d1 := d <| timestamp := now |>). assert (Hok2 : core_ok L lru (put_task t d1 s1) (New t :: A)).
      { pose proof Hok1 as [_ (T1 & _) _ _ _ _]. destruct (T1 t d Ht1) as (_ & _ & _ & _ & _ & Ho & _).
        eapply core_put_unlisted; try done. intros; by eexists. }
      destruct (update_dma_fence_ok _ _ _ _ t d1 Hok2) as (s3 & d3 & -> & Hok3 & Hcalm3 & Ht3 & _); [apply lookup_insert_eq|done|]. cbn [rbind].
      destruct (fake_submit_ok _ _ _ _ t d3 (rb_index c) Hok3 Ht3 Hu) as (s4 & d4 & -> & Hok4 & Hcalm4 & _). cbn [rbind].
      destruct (notify_ok _ _ _ _ Hok4) as (fs & -> & Hok5 & Hcalm5). cbn [rbind]. eexists. split; [done|]. split; [done|].
      etrans; [apply quiet_calm; [exact Hq|]; intros i; unfold fence_state; by rewrite Hv|].
      etrans; [by eapply (put_calm s1 t d d1)|]. etrans; [exact Hcalm3|]. by etrans.
    - rewrite (engine_of_run s d c) by done. cbn [rbind]. destruct (notify_ok _ _ _ _ Hok) as (fs & -> & Hok1 & Hcalm1). cbn [rbind].
      destruct (fake_submit_ok _ _ _ _ t d (rb_index c) Hok1 Ht Hu) as (s2 & d2 & -> & Hok2 & Hcalm2 & _). exists s2. split; [done|]. split; [done|]. by etrans. }
  destruct Hrun as [(s1 & Hr1 & Ho1 & Hc1) (s2 & Hr2 & Ho2 & Hc2)].
  destruct (body d); [exists s1|exists s2..]; (split; [done|]); split; try done; by apply Hend.
Qed.

(** A look at the fence cell. *)
Lemma look_ok L lru s A e : core_ok L lru s A -> 0 <= e < zlen (engines s) ->
  exists v fs, engine_update_fence_id_e3k e (fence_state s) = Ok (v, fs) /\ core_ok L lru (set_fences fs s) A /\
    calm s (set_fences fs s) /\ tasks (set_fences fs s) = tasks s /\ zlen (engines (set_fences fs s)) = zlen (engines s).
Proof.
  intros Hok He. pose proof Hok as [_ _ _ (S1 & S2 & _) _ _]. pose proof S1 as (_ & _ & _ & _ & _ & Hc & _).
  destruct (read_cell e (fence_state s) Hc) as (v & fs & Hr & _ & Hsm & Hc' & _ & _ & _ & _ & _ & _); [lia|].
  exists (u64 v), fs. split; [exact Hr|]. assert (Hext : forall i, get_mgr fs i = get_mgr (fence_state s) i) by (intros; by apply get_mgr_ext).
  assert (Hg : grows (fence_state s) fs).
  { unfold grows, engine_present, returned. rewrite Hsm. conjs; try done; intros i; rewrite Hext; [done|lia]. }
  pose proof (quiet_fences s fs Hg) as Hq. split; [by eapply core_quiet|]. split; [|done].
  apply quiet_calm; [done|]. intros i. unfold last_sent. change (fence_state (set_fences fs s)) with fs. by rewrite Hext.
Qed.

(** The hang check: it takes a reference to the task it reports. *)
Lemma exceeds_ok L lru s A e max :
  core_ok L lru s A -> 0 <= e < zlen (engines s) -> engine_present (fence_state s) e ->
  exists r s', exceeds_wait_time e max s = Ok (r, s') /\
    core_ok L lru s' (match r with Some t => [Ref t] | None => [] end ++ A) /\ calm s s'.
Proof.
  intros Hok He Hpr. pose proof Hok as [Hl _ _ _ _ _].
  destruct (list_head_run _ _ _ _ _ e Hl He) as [Hemp Hfirst]. unfold exceeds_wait_time. rewrite Hemp. cbn [rbind].
  destruct (L e) as [|t l] eqn:EL; cbn [negb].
  { exists None, s. split; [done|]. split; [done|reflexivity]. }
  destruct (Hfirst t l eq_refl) as [-> [d Ht]]. cbn [rbind]. pose proof (quiet_clock s) as Hq.
  assert (Hv : vms (snd (zx_get_nsecs s)) = vms s) by (unfold zx_get_nsecs; by destruct (clock s)).
  destruct (zx_get_nsecs s) as [now s1]. cbn [snd] in Hq, Hv.
  pose proof (core_quiet reserved_context _ _ _ _ _ Hok Hq) as Hok1. pose proof Hq as (Q1 & _ & _ & _ & _ & _ & _ & _ & _ & _ & _ & Q12 & _).
  assert (Hcalm1 : calm s s1) by (apply quiet_calm; [done|]; intros i; unfold fence_state; by rewrite Hv).
  assert (Ht1 : tasks s1 !! t = Some d) by congruence. rewrite (get_task_run t d) by done. cbn [rbind].
  assert (Hm1 : engine_present (fence_state s1) e) by (unfold fence_state; rewrite Hv; exact Hpr).
  destruct Hm1 as [m Hm]. unfold vidsch_get_current_returned_fence. rewrite Hm. cbn [rbind].
  destruct ((u64 (timestamp d + max) <? now) && (returned_fence_id m <? fence_id d)); [|by exists None, s1].
  destruct (look_ok _ _ _ _ e Hok1) as (v & fs & -> & Hok2 & Hcalm2 & Et & Ez); [lia|]. cbn [rbind].
  assert (Hcalm : calm s (set_fences fs s1)) by (by etrans). destruct (fence_id d <=? v); [by exists None, (set_fences fs s1)|].
  destruct (look_ok _ _ _ _ e Hok2) as (v2 & fs2 & -> & Hok3 & Hcalm3 & Et3 & _); [lia|]. cbn [rbind].
  assert (Ht3 : tasks (set_fences fs2 (set_fences fs s1)) !! t = Some d) by congruence.
  rewrite (inc_run t d) by done. cbn [rbind]. eexists (Some t), _. split; [reflexivity|]. split.
  - by apply core_inc.
  - etrans; [exact Hcalm|]. etrans; [exact Hcalm3|]. by eapply put_calm.
Qed.

Lemma list_fits (l : list Z) (T : gmap Z task_desc) : NoDup l -> (forall x, x ∈ l -> is_Some (T !! x)) -> (length l <= size T)%nat.
Proof.
  intros Hnd Hin. rewrite <- size_dom, <- (size_list_to_set (C := gset Z) l Hnd). apply subseteq_size.
  intros x Hx. apply elem_of_dom, Hin. by apply elem_of_list_to_set in Hx.
Qed.

(** Marking the tasks a reset has dropped. *)
Lemma drop_uncompleted_ok L lru s A fuel e f :
  core_ok L lru s A -> 0 <= e < zlen (engines s) -> (size (tasks s) < fuel)%nat ->
  exists s', vidschi_set_uncompleted_task_dropped fuel e f s = Ok s' /\ core_ok L lru s' A /\ calm s s'.
Proof.
  intros Hok He Hfuel. pose proof Hok as [(R & R1 & R2 & _ & _ & _ & R6) _ _ _ _ _].
  pose proof (rings_list _ _ _ _ R1 (R2 e He)) as Hil. pose proof Hil as (Hnd & _). apply NoDup_cons in Hnd as [_ Hnd].
  assert (Hin : forall x, x ∈ L e -> is_Some (tasks s !! x)) by (intros x Hx; by apply (R6 e)).
  unfold vidschi_set_uncompleted_task_dropped. rewrite (for_each_run _ _ _ _ _ _ Hil) by (pose proof (list_fits _ _ Hnd Hin); lia).
  clear Hil Hfuel Hnd R1 R2 R6. revert Hin. generalize (L e) as xs. intros xs. revert s Hok He.
  induction xs as [|x xs IH]; intros s Hok He Hin; cbn [for_list rbind].
  { exists s. split; [done|]. split; [done|reflexivity]. }
  destruct (Hin x) as [d Hd]; [by left|]. rewrite (get_task_run x d) by done. cbn [rbind].
  destruct (fence_id d <=? f); cbn [rbind].
  - pose proof Hok as [_ (T1 & _) _ _ _ _]. destruct (T1 x d Hd) as (_ & _ & _ & Hsub & Hdone & Ho & Hdma).
    assert (Hok1 : core_ok L lru (put_task x (d <| reset_dropped := true |>) s) A) by (eapply core_put; try done; intros; by eexists).
    destruct (IH _ Hok1 He) as (s' & Hr & Hok' & Hcalm).
    { intros y Hy. apply (is_Some_insert _ _ d); [done|]. apply Hin. by right. }
    exists s'. split; [exact Hr|]. split; [done|].
    etrans; [by apply (put_calm s x d (d <| reset_dropped := true |>) Hd)|exact Hcalm].
  - destruct (IH s Hok He) as (s' & Hr & Hok' & Hcalm); [intros y Hy; apply Hin; by right|]. by exists s'.
Qed.

(** The memory manager changes an address space. *)
Lemma core_devices L lru s A dv dev dev' :
  core_ok L lru s A -> devices s !! dv = Some dev -> zlen (utlb_dirtys dev') = zlen (engines s) ->
  zlen (dtlb_dirtys dev') = zlen (engines s) -> dev_vm_id (vm_part dev') = dev_vm_id (vm_part dev) ->
  core_ok L lru (s <| devices ::= <[dv := dev']> |>) A /\ calm s (s <| devices ::= <[dv := dev']> |>).
Proof.
  intros Hok Hdev Hu Hd Hid. pose proof Hok as [_ _ _ (S1 & _ & _ & S4 & _) _ _].
  assert (Hg : grows (fence_state s) (fen (vms s))) by reflexivity.
  replace (s <| devices ::= <[dv := dev']> |>) with (s <| vms := vms s |> <| devices := <[dv := dev']> (devices s) |>) by (by destruct s).
  split; [|by apply space_calm]. eapply core_space; [exact Hok|exact S1|exact Hg|..].
  - intros x y. destruct (decide (x = dv)) as [->|Hne].
    + rewrite lookup_insert_eq. intros [= <-]. split; [done|]. split; [done|]. rewrite Hid. by apply (S4 _ _ Hdev).
    + rewrite lookup_insert_ne by done. apply S4.
  - intros x y Hx. destruct (decide (x = dv)) as [->|Hne].
    + exists dev'. rewrite lookup_insert_eq, Hid. split; [done|]. intros k Hk. exists k. congruence.
    + exists y. rewrite lookup_insert_ne by done. split; [done|]. intros k Hk. by exists k.
Qed.

Lemma core_hwctx L lru s A h : core_ok L lru s A -> core_ok L lru (s <| hwctx_invalid ::= h |>) A.
Proof. intros [Hl Ht Hc Hs Hp Hr]. by split. Qed.

Lemma prepare_ok L lru s A t d mapped :
  core_ok L lru s A -> tasks s !! t = Some d -> t ∈ flat unlisted A -> is_dma (body d) = true ->
  exists s', (let! '(resident, s) := prepare_dma_task t mapped s in
      if (resident : bool) then Ok s else discard_dma_task t s) = Ok s' /\ core_ok L lru s' A /\ calm s s'.
Proof.
  intros Hok Ht Hu Hdma. unfold prepare_dma_task. rewrite (get_task_run t d) by done. cbn [rbind].
  destruct (body d) as [hw nr resident| | |] eqn:Eb; [|done..]. cbn [rbind].
  set (d' := d <| body := task_dma hw nr (resident || mapped) |>).
  pose proof Hok as [_ (T1 & _) _ _ _ _]. destruct (T1 t d Ht) as (_ & _ & _ & _ & _ & Ho & _).
  assert (Hok1 : core_ok L lru (put_task t d' s) A).
  { eapply core_put_unlisted; try done; [by rewrite Eb|]. rewrite Eb. done. }
  assert (Hcalm1 : calm s (put_task t d' s)) by (by eapply put_calm).
  destruct (resident || mapped); [by exists (put_task t d' s)|].
  assert (Ht1 : tasks (put_task t d' s) !! t = Some d') by apply lookup_insert_eq.
  destruct (device_found _ _ _ _ _ _ Hok1 Ht1) as (c & dev & Hc & Hdev & (Hzu & Hzd & _) & _).
  unfold discard_dma_task. rewrite (get_task_run t d') by done. cbn [rbind]. rewrite (fetch_run _ _ c) by done. cbn [rbind].
  rewrite (fetch_run _ _ dev) by done. cbn [rbind].
  destruct (core_devices L lru (put_task t d' s) A (device c) dev (dev <| task_dropped := true |>)) as [Hok2 Hcalm2]; try done.
  change (body d') with (task_dma hw nr false). assert (Hcalm : calm s ((put_task t d' s) <| devices ::= <[device c := dev <| task_dropped := true |>]> |>)) by (by etrans).
  destruct hw as [h|]; [|by eexists]. eexists. split; [done|]. split; [by apply core_hwctx|exact Hcalm].
Qed.
End Steps.
