(* ===== verification/TaskSafe.v ===== *)
(** * No step of a task's life faults

    Every step of [TaskLife] that is enabled in a state with the invariant runs,
    and the invariant holds in the next state ([life_step_ok]); so it does in every state
    that is reached. *)
From S2P Require Import Prelude CoreUtil ListHead ListRings PageTable Fence VmId Task TaskSubmit TaskLife TaskCore TaskSteps.
From stdpp Require Import gmap.
Local Open Scope Z_scope.

Section Safe.
Context (reserved_context : Z).
Notation core_ok := (core_ok reserved_context).
Notation life_ok := (life_ok reserved_context).
Notation carry_out := (carry_out reserved_context).

(** The step runs, and its result has the invariant. *)
Definition safe (l : label) (w : life_state) : Prop := exists w', carry_out l w = Ok w' /\ life_ok w'.

(** ** One activity and the others *)

Lemma life_at w i a : life_ok w -> acts w !! i = Some a ->
  exists L lru, core_ok L lru (st w) (a :: delete i (acts w)) /\ ring_ok (st w) (a :: delete i (acts w)).
Proof.
  intros [(L & lru & Hok) Hr] [HP _]%acts_at. exists L, lru. split; [by eapply core_perm|by eapply ring_perm].
Qed.

Lemma world_become w i a b s L lru : acts w !! i = Some a ->
  core_ok L lru s (b :: delete i (acts w)) -> ring_ok s (b :: delete i (acts w)) -> life_ok (become i b w s).
Proof.
  intros [_ HP]%acts_at Hok Hr. specialize (HP b). split; [exists L, lru|].
  - eapply core_perm; [by symmetry|done].
  - eapply ring_perm; [by symmetry|done].
Qed.

(** A step that does not touch the ring. *)
Lemma world_move w i a b s L lru : acts w !! i = Some a -> ring_ok (st w) (a :: delete i (acts w)) ->
  core_ok L lru s (b :: delete i (acts w)) -> calm (st w) s -> lock_waits b = lock_waits a -> life_ok (become i b w s).
Proof.
  intros Ha Hr Hok Hc Hl. eapply world_become; [done|done|]. eapply ring_calm; [done|done|]. by rewrite !flat_cons, Hl.
Qed.

Lemma world_calm w s L lru : life_ok w -> core_ok L lru s (acts w) -> calm (st w) s -> life_ok (mkWorld s (acts w)).
Proof. intros [_ Hr] Hok Hc. split; [by exists L, lru|by eapply ring_calm]. Qed.

Lemma world_add w s L lru B : life_ok w -> core_ok L lru s (B ++ acts w) -> calm (st w) s ->
  flat lock_waits B = [] -> life_ok (mkWorld s (acts w ++ B)).
Proof.
  intros [_ Hr] Hok Hc Hl. split.
  - exists L, lru. eapply core_perm; [|exact Hok]. apply Permutation_app_comm.
  - eapply ring_calm; [exact Hr|exact Hc|]. cbn [acts]. by rewrite flat_app, Hl, app_nil_r.
Qed.

Lemma world_unlisted w i t L lru : acts w !! i = Some (New t) -> core_ok L lru (st w) (New t :: delete i (acts w)) ->
  core_ok L lru (st w) (acts w) /\ t ∈ flat unlisted (acts w).
Proof.
  intros [HP _]%acts_at Hok. split; [by eapply core_perm|]. rewrite (flat_perm unlisted _ _ HP), flat_cons. by left.
Qed.

Lemma lock_waits_held A t : t ∈ flat lock_waits A -> t ∈ flat held_by A.
Proof.
  induction A as [|a A IH]; [done|]. rewrite !flat_cons, !elem_of_app. intros [Ha|HA]; [left|right; by apply IH].
  destruct a as [| |y f pt|y [[u f]|]|y [[u f]|]]; cbn in *; set_solver.
Qed.

(** ** References *)

Lemma create_ok w ctx t ty bd : life_ok w -> permitted (Create ctx t ty bd) w -> safe (Create ctx t ty bd) w.
Proof.
  intros Hw ([Hbig Hnew] & c & Hc & Hbd). pose proof Hw as [(L & lru & Hok) Hr].
  destruct (core_new _ L lru _ _ ctx t ty bd c Hok Hbig Hnew Hc) as (s' & Hrun & Hok' & Hsp & _); [tauto|].
  unfold safe. cbn [carry_out TaskLife.carry_out]. rewrite Hrun. eexists. split; [done|]. split.
  - exists L, lru. eapply core_perm; [|exact Hok']. apply Permutation_cons_append.
  - destruct Hsp as (Hv & _ & _ & Hring & _ & _ & _ & Ht). destruct Hr as (n & Hn & Hl). exists n.
    unfold ring_fences, fence_state in *. cbn [st acts]. rewrite Hring, Hv, flat_app. cbn [flat]. rewrite app_nil_r. split; [done|].
    destruct (flat lock_waits (acts w)) as [|x [|]] eqn:EW; try done. destruct Hl as [Hl1 Hl2]. split; [done|].
    intros d. rewrite Ht; [apply Hl2|]. intros ->. destruct Hok as [_ (_ & T2 & _) _ _ _ _].
    destruct (T2 t) as [d' Hd']; [apply lock_waits_held; rewrite EW; by left|congruence].
Qed.

Lemma share_ok w i : life_ok w -> permitted (Share i) w -> safe (Share i) w.
Proof.
  intros Hw [a Ha]. destruct (life_at _ _ _ Hw Ha) as (L & lru & Hok & Hr).
  destruct (core_has _ _ _ _ _ _ (main_task a) Hok) as [d Hd]; [by destruct a; left|].
  pose proof Hw as [(L' & lru' & Hok') _]. unfold safe. cbn [TaskLife.carry_out]. unfold at_act. rewrite Ha. cbn [deref rbind].
  rewrite (inc_run _ d) by done. eexists. split; [done|]. eapply (world_add _ _ L' lru' [_]); [done|by apply core_inc| |done].
  by apply (put_calm _ _ d).
Qed.

Lemma drop_ok w i : life_ok w -> permitted (Drop i) w -> safe (Drop i) w.
Proof.
  intros Hw [t Ha]. destruct (life_at _ _ _ Hw Ha) as (L & lru & Hok & Hr).
  destruct (core_dec _ _ _ _ _ _ Hok) as (s' & Hrun & Hok' & _ & Hc). unfold safe. cbn [TaskLife.carry_out]. unfold at_act.
  rewrite Ha. cbn [deref rbind main_task]. rewrite Hrun. eexists. split; [done|]. split; [by exists L, lru|].
  by eapply ring_calm.
Qed.

(** ** Tasks that are not yet submitted *)

Lemma describe_ok w i n o : life_ok w -> permitted (Describe i n o) w -> safe (Describe i n o) w.
Proof.
  intros Hw (t & Ha & Ho). destruct (life_at _ _ _ Hw Ha) as (L & lru & Hok & _).
  destruct (core_has _ _ _ _ _ _ t Hok) as [d Hd]; [by left|]. destruct (world_unlisted _ _ _ _ _ Ha Hok) as [Hok' Hu].
  unfold safe. cbn [TaskLife.carry_out]. unfold at_act. rewrite Ha. cbn [deref rbind main_task]. rewrite (get_task_run t d) by done.
  eexists. split; [done|]. eapply world_calm; [done| |by apply (put_calm _ _ d)].
  eapply core_put_unlisted; try done. intros dv e x b Hb. by exists b.
Qed.

Lemma prepare_step_ok w i mapped : life_ok w -> permitted (Prepare i mapped) w -> safe (Prepare i mapped) w.
Proof.
  intros Hw (t & d & Ha & Hd & Hdma). destruct (life_at _ _ _ Hw Ha) as (L & lru & Hok & _).
  destruct (world_unlisted _ _ _ _ _ Ha Hok) as [Hok' Hu].
  destruct (prepare_ok _ _ _ _ _ t d mapped Hok' Hd Hu Hdma) as (s' & Hrun & Hok2 & Hc).
  unfold safe. cbn [TaskLife.carry_out]. unfold at_act. rewrite Ha. cbn [deref rbind main_task].
  destruct (prepare_dma_task t mapped (st w)) as [[resident s1]|]; [|done]. cbn [rbind] in *. rewrite Hrun.
  eexists. split; [done|]. by eapply world_calm.
Qed.

Lemma skip_ok w i : life_ok w -> permitted (Skip i) w -> safe (Skip i) w.
Proof.
  intros Hw (t & Ha). destruct (life_at _ _ _ Hw Ha) as (L & lru & Hok & Hr).
  destruct (skip_task_ok _ _ _ _ _ _ Hok) as (s' & Hrun & Hok' & Hc).
  unfold safe. cbn [TaskLife.carry_out]. unfold at_act. rewrite Ha. cbn [deref rbind main_task]. rewrite Hrun.
  eexists. split; [done|]. by eapply world_move.
Qed.

(** ** Submission *)

Lemma submit_step_ok w i fuel pt : life_ok w -> permitted (Submit i fuel pt) w -> safe (Submit i fuel pt) w.
Proof.
  intros Hw (t & d & c & Ha & Hd & Hc & He & Hlock & [Hbig Hnew] & Hal & Hwrap & Hfuel).
  destruct (life_at _ _ _ Hw Ha) as (L & lru & Hok & Hr).
  destruct (submit_first_ok reserved_context L lru (st w) (delete i (acts w)) t d fuel pt) as (r & s' & lru' & Hrun & Hok' & Hr'); try done.
  - pose proof (no_lock_waits _ Hlock) as HW. pose proof (proj1 (acts_at _ _ _ Ha)) as HP.
    apply (flat_perm lock_waits) in HP. rewrite HW, flat_cons in HP. by apply Permutation_nil in HP.
  - unfold eng. by rewrite Hc.
  - unfold safe. cbn [TaskLife.carry_out]. unfold at_act. rewrite Ha. cbn [deref rbind main_task]. rewrite Hrun. cbn [rbind].
    eexists. split; [done|]. by eapply world_become.
Qed.

Lemma set_page_table_ok w i fuel : life_ok w -> permitted (SetPageTable i fuel) w -> safe (SetPageTable i fuel) w.
Proof.
  intros Hw (t & f & pt & Ha). destruct (life_at _ _ _ Hw Ha) as (L & lru & Hok & Hr).
  destruct (page_table_set_ok _ _ _ _ _ _ _ _ fuel Hok Hr) as (s' & lru' & Hrun & Hok' & Hr').
  unfold safe. cbn [TaskLife.carry_out]. unfold at_act. rewrite Ha. cbn [deref rbind]. rewrite Hrun.
  eexists. split; [done|]. by eapply world_become.
Qed.

Lemma link_step_ok w i : life_ok w -> permitted (Link i) w -> safe (Link i) w.
Proof.
  intros Hw (t & k & Ha). destruct (life_at _ _ _ Hw Ha) as (L & lru & Hok & Hr).
  destruct (core_link _ _ _ _ _ _ _ Hok) as (d & s' & Hd & Hrun & Hok' & _ & Hc).
  destruct (context_known _ _ _ _ _ _ _ Hok Hd) as (c & Hctx & _ & _ & He & _).
  unfold safe. cbn [TaskLife.carry_out]. unfold at_act, engine_of. rewrite Ha. cbn [deref rbind]. rewrite (get_task_run t d) by done.
  cbn [rbind]. rewrite (fetch_run _ _ c) by done. cbn [rbind]. rewrite He in Hrun. rewrite Hrun.
  eexists. split; [done|]. eapply world_move; [done|done|done|done|]. by destruct k as [[]|].
Qed.

Lemma finish_ok w i : life_ok w -> permitted (Finish i) w -> safe (Finish i) w.
Proof.
  intros Hw (t & k & Ha). destruct (life_at _ _ _ Hw Ha) as (L & lru & Hok & Hr).
  unfold safe. cbn [TaskLife.carry_out]. unfold at_act. rewrite Ha. cbn [deref rbind]. destruct k as [[u f]|].
  - destruct (submit_last_ok _ _ _ _ _ _ _ _ Hok Hr) as (s' & -> & Hok' & Hr'). cbn [rbind].
    eexists. split; [done|]. by eapply world_become.
  - destruct (mark_submitted_ok _ _ _ _ _ _ _ Hok) as (d & Hd & -> & Hok'). cbn [rbind].
    eexists. split; [done|]. eapply world_move; try done; [|by apply (put_calm _ _ d)].
    pose proof Hok' as [_ (_ & _ & _ & T4) _ _ Hp _]. apply List.Forall_cons_iff in Hp as [_ Hp].
    eapply (core_retype _ _ _ _ _ _ t); [exact Hok'|apply lookup_insert_eq|..]; try done.
    + intros x Hx. rewrite flat_cons. by right.
    + rewrite !flat_cons in *. cbn [unlisted just_linked waiting_task app] in *. apply NoDup_app in T4 as (N1 & N2 & N3).
      apply NoDup_cons in N3 as [_ N3]. apply NoDup_app. conjs; try done. intros x Hx Hx'. apply (N2 x Hx). by right.
    + by constructor.
Qed.

(** ** Completion, hangs, and the world around *)

Lemma take_step_ok w e : life_ok w -> permitted (TakeCompleted e) w -> safe (TakeCompleted e) w.
Proof.
  intros Hw [He Hpr]. pose proof Hw as [(L & lru & Hok) _].
  destruct (core_take _ _ _ _ _ _ Hok He Hpr) as (r & u & s' & Hrun & Hc & _ & Hr). unfold safe. cbn [TaskLife.carry_out].
  rewrite Hrun. cbn [rbind]. eexists. split; [done|]. destruct r as [t|].
  - destruct Hr as (d & l & _ & _ & _ & _ & Hok'). by eapply (world_add _ _ _ _ [Ref t]).
  - destruct Hr as [Hok' _]. by eapply (world_add _ _ _ _ []).
Qed.

Lemma check_ok w e max : life_ok w -> permitted (CheckHang e max) w -> safe (CheckHang e max) w.
Proof.
  intros Hw [He Hpr]. pose proof Hw as [(L & lru & Hok) _].
  destruct (exceeds_ok _ _ _ _ _ _ max Hok He Hpr) as (r & s' & Hrun & Hok' & Hc). unfold safe. cbn [TaskLife.carry_out].
  rewrite Hrun. cbn [rbind]. eexists. split; [done|]. eapply world_add; [done|done|done|]. by destruct r.
Qed.

Lemma outside_ok w l : match l with DropUncompleted _ _ _ | Notify | Remap _ _ _ _ | Gpu _ => True | _ => False end ->
  life_ok w -> permitted l w -> safe l w.
Proof.
  intros Hl Hw He. pose proof Hw as [(L & lru & Hok) _]. unfold safe.
  destruct l as [| | | | | | | | | | | |fuel e f| |dv age u d|cells]; try done; cbn [TaskLife.carry_out].
  - destruct He as [He Hf]. destruct (drop_uncompleted_ok _ _ _ _ _ fuel e f Hok He Hf) as (s' & -> & Hok' & Hc). cbn [rbind].
    eexists. split; [done|]. by eapply world_calm.
  - destruct (notify_ok _ _ _ _ _ Hok) as (fs & -> & Hok' & Hc). cbn [rbind]. eexists. split; [done|]. by eapply world_calm.
  - destruct He as ([dev Hdev] & Hu & Hd). rewrite (fetch_run _ _ dev) by done. cbn [rbind]. eexists. split; [done|].
    destruct (core_devices _ _ _ _ _ dv dev (mkDev (mkDevice (uuid (vm_part dev)) (dev_vm_id (vm_part dev)) age) u d (task_dropped dev)) Hok)
      as [Hok' Hc]; try done. by eapply world_calm.
  - eexists. split; [done|]. pose proof (quiet_fences (st w) _ (gpu_grows _ _ He)) as Hq. eapply world_calm; [done| |].
    + eapply core_quiet; [exact Hok|exact Hq].
    + by apply quiet_calm.
Qed.

Lemma life_step_ok l w : life_ok w -> permitted l w -> safe l w.
Proof.
  intros Hw. destruct l; try (by apply outside_ok);
    eauto using create_ok, share_ok, drop_ok, describe_ok, prepare_step_ok, skip_ok, submit_step_ok, set_page_table_ok, link_step_ok,
      finish_ok, take_step_ok, check_ok.
Qed.
End Safe.
