(* ===== verification/TaskRefine.v ===== *)
(** * The submission functions are runs of the steps

    The functions of [TaskSubmit] as one thread calls them, and the steps of
    [TaskLife] this thread takes when no other one comes between: the same final
    state. The contexts of tasks do not change on the way ([keeps_place]). *)
From S2P Require Import Prelude CoreUtil ListHead ListRings PageTable Fence VmId Task TaskSubmit TaskLife TaskCore TaskSteps TaskSafe.
From stdpp Require Import gmap.
Local Open Scope Z_scope.

(** What holds of a result, if there is one. *)
Definition result {A} (m : res A) (P : A -> Prop) : Prop := match m with Ok a => P a | Err _ => True end.

Lemma result_ok {A} (a : A) (P : A -> Prop) : P a -> result (Ok a) P.
Proof. done. Qed.
Lemma result_bind {A B} (m : res A) (k : A -> res B) P Q :
  result m P -> (forall a, P a -> result (k a) Q) -> result (rbind m k) Q.
Proof. destruct m; [|done]. cbn. auto. Qed.
Lemma result_run {A} (m : res A) (P : A -> Prop) a : result m P -> m = Ok a -> P a.
Proof. by intros H ->. Qed.
Lemma result_any {A} (m : res A) (P : A -> Prop) : (forall a, m = Ok a -> P a) -> result m P.
Proof. destruct m; cbn; auto. Qed.

(** ** The contexts, and the context of a task, stay *)

Section Place.
Context (t : Z).

Definition keeps_place (s s' : scheduler) : Prop :=
  (forall k c', contexts s' !! k = Some c' ->
     exists c, contexts s !! k = Some c /\ device c' = device c /\ rb_index c' = rb_index c) /\
  (forall d', tasks s' !! t = Some d' -> exists d, tasks s !! t = Some d /\ context d' = context d).

#[export] Instance keeps_place_preorder : PreOrder keeps_place.
Proof.
  split.
  - intros s. split; [intros k c Hc; by exists c|intros d Hd; by exists d].
  - intros a b c [A1 A2] [B1 B2]. split.
    + intros k z Hz. destruct (B1 k z Hz) as (y & Hy & E1 & E2). destruct (A1 k y Hy) as (x & Hx & E3 & E4). exists x. conjs; congruence.
    + intros z Hz. destruct (B2 z Hz) as (y & Hy & E1). destruct (A2 y Hy) as (x & Hx & E2). exists x. conjs; congruence.
Qed.

#[local] Ltac inv_pair := inv_ok; repeat match goal with
  | H : (_, _) = (_, _) |- _ => injection H as H; subst | H : Ok _ = Ok _ |- _ => injection H as H; subst end.

Lemma place_same s s' : contexts s' = contexts s -> tasks s' = tasks s -> keeps_place s s'.
Proof. intros E1 E2. split; [rewrite E1; intros k c Hc; by exists c|rewrite E2; intros d Hd; by exists d]. Qed.

Lemma place_put x d d' s : get_task x s = Ok d -> context d' = context d -> keeps_place s (put_task x d' s).
Proof.
  intros Hx E. split; [intros k c Hc; by exists c|]. intros y. cbn. unfold get_task, fetch in Hx.
  destruct (tasks s !! x) as [d0|] eqn:Hd; [|done]. injection Hx as ->. destruct (decide (t = x)) as [->|].
  - rewrite lookup_insert_eq. intros [= <-]. by exists d.
  - rewrite lookup_insert_ne by done. intros Hy. by exists y.
Qed.

Lemma place_new x d' s s' : x <> t -> contexts s' = contexts s -> tasks s' = <[x := d']> (tasks s) -> keeps_place s s'.
Proof.
  intros Hne E1 E2. split; [rewrite E1; intros k c Hc; by exists c|]. intros y. rewrite E2, lookup_insert_ne by done.
  intros Hy. by exists y.
Qed.

Lemma place_context k c c' s : fetch (contexts s) k = Ok c -> device c' = device c -> rb_index c' = rb_index c ->
  keeps_place s (s <| contexts ::= <[k := c']> |>).
Proof.
  intros Hk E1 E2. split; [|intros d Hd; by exists d]. intros x y. cbn. unfold fetch in Hk.
  destruct (contexts s !! k) as [c0|] eqn:Hc; [|done]. injection Hk as ->. destruct (decide (x = k)) as [->|].
  - rewrite lookup_insert_eq. intros [= <-]. by exists c.
  - rewrite lookup_insert_ne by done. intros Hy. by exists y.
Qed.

Lemma place_delete x s : keeps_place s (s <| tasks ::= delete x |>).
Proof.
  split; [intros k c Hc; by exists c|]. intros y. cbn. intros [_ Hy]%lookup_delete_Some. by exists y.
Qed.

Lemma place_engine e f s s' : upd_engine e f s = Ok s' -> keeps_place s s'.
Proof. unfold upd_engine. intros H. inv_ok. by apply place_same. Qed.

Lemma place_clock s : keeps_place s (snd (zx_get_nsecs s)).
Proof. unfold zx_get_nsecs. destruct (clock s); by apply place_same. Qed.

Lemma place_dec x s s' : vidsch_task_dec_reference x s = Ok s' -> keeps_place s s'.
Proof.
  unfold vidsch_task_dec_reference. intros H. inv_ok. rename x0 into d, Hx into Hd, x1 into e.
  assert (HP : keeps_place s (put_task x (d <| ref_cnt := ref_cnt d - 1 |>) s)) by (by eapply place_put).
  destruct (ref_cnt d - 1 =? 0); [|by injection H as <-]. etrans; [exact HP|].
  unfold vidschi_do_release_task in H. inv_ok. etrans; [by apply place_delete|].
  etrans; [|by eapply place_engine]. etrans; [|by eapply place_context]. by apply place_same.
Qed.

Lemma place_link e x s r s' : link_submitted e x false s = Ok (r, s') -> keeps_place s s'.
Proof.
  unfold link_submitted. intros H. inv_ok. destruct (negb (x0 =? x)); cbn [negb] in H.
  - inv_pair. by apply place_same.
  - unfold vidsch_task_inc_reference in H. inv_pair. etrans; [|by eapply place_put]. by apply place_same.
Qed.

Lemma place_begin e x s r s' : set_task_submitted_begin e x false s = Ok (r, s') -> keeps_place s s'.
Proof.
  unfold set_task_submitted_begin. pose proof (place_clock s) as Hc. destruct (zx_get_nsecs s) as [now s1]. cbn [snd] in Hc.
  intros H. inv_ok. etrans; [exact Hc|]. etrans; [|by eapply place_link]. by eapply place_put.
Qed.

Lemma place_mark x s s' : mark_submitted x s = Ok s' -> keeps_place s s'.
Proof. unfold mark_submitted. intros H. inv_ok. by eapply place_put. Qed.

Lemma place_finish pt s s' : page_table_set_finish pt s = Ok s' -> keeps_place s s'.
Proof.
  unfold page_table_set_finish, vidmm_vm_clear_engine_dirty_range. intros H. inv_ok. destruct (body x); [done..|]. inv_ok.
  destruct (IS_VIDEO_ENGINE _); inv_ok; [etrans; [|by eapply place_put]|]; by apply place_same.
Qed.

Lemma place_init ctx x ty bd s s' : x <> t -> vidsch_task_init_desc ctx x ty bd s = Ok s' -> keeps_place s s'.
Proof.
  unfold vidsch_task_init_desc. intros Hne H. inv_ok. etrans; [|by eapply place_engine].
  etrans; [|by eapply (place_new x _ (s <| contexts ::= <[ctx := x0 <| context_ref_cnt ::= Z.add 1 |>]> |>))].
  by eapply place_context.
Qed.

Lemma place_allocate rc pt dv e x s s' : pt <> t ->
  vidsch_allocate_page_table_set_task rc pt dv e x s = Ok s' -> keeps_place s s'.
Proof.
  unfold vidsch_allocate_page_table_set_task. intros Hne H. destruct (pt =? 0); [done|]. inv_ok.
  etrans; [by eapply place_init|by eapply place_new].
Qed.

Lemma place_next e s r s' : next_fence e s = Ok (r, s') -> keeps_place s s'.
Proof. unfold next_fence. intros H. inv_ok. destruct x. inv_pair. by apply place_same. Qed.

Lemma place_take e x s r s' : take_fence e x s = Ok (r, s') -> keeps_place s s'.
Proof.
  unfold take_fence. intros H. inv_ok. destruct x0 as [f s1]. inv_pair. rename x0 into d.
  etrans; [by eapply place_next|]. eapply place_put; [done|]. cbn. by destruct (body d).
Qed.

Lemma place_age dv s s' : choose_vm_id_age dv s = Ok s' -> keeps_place s s'.
Proof. unfold choose_vm_id_age. intros H. inv_ok. destruct (_ <? _); inv_ok; by apply place_same. Qed.

Lemma place_lookup fuel x s r s' : choose_vm_id_lookup fuel x s = Ok (r, s') -> keeps_place s s'.
Proof.
  unfold choose_vm_id_lookup. intros H. inv_ok. rename x0 into d. destruct x3 as [[[i id] vd] m].
  assert (HP : keeps_place s (put_task x (d <| task_vm_id := id |>) s <| vms := m |> <| devices ::= <[device x1 := x2 <| vm_part := vd |>]> |>))
    by (etrans; [|by apply (place_put x d)]; by apply place_same).
  etrans; [exact HP|]. destruct (_ =? _); inv_pair; [by eapply place_age|done].
Qed.

Lemma place_chip e x f s s' : chip_submit e x f s = Ok s' -> keeps_place s s'.
Proof.
  unfold chip_submit, vidschi_update_and_release_dma_fence. intros H. inv_ok.
  destruct (body x0); inv_ok; [|by apply place_same..]. etrans; [|by apply (place_same x1)].
  destruct (dma_fence x3) as [o|]; inv_ok; [|done]. etrans; [|by eapply place_put]. by apply place_same.
Qed.

Lemma place_exchange a b d e d' e' s : get_task a s = Ok d -> get_task b s = Ok e ->
  context d' = context d -> context e' = context e -> keeps_place s (put_task b e' (put_task a d' s)).
Proof.
  intros Ha Hb Ed Ee. etrans; [by apply (place_put a d)|]. destruct (decide (b = a)) as [->|Hne].
  - apply (place_put a d'); [|congruence]. unfold get_task, fetch. cbn. by rewrite lookup_insert_eq.
  - apply (place_put b e); [|done]. unfold get_task, fetch in *. cbn. by rewrite lookup_insert_ne.
Qed.

Lemma place_locked fuel pt s s' : page_table_set_locked fuel pt s = Ok s' -> keeps_place s s'.
Proof.
  unfold page_table_set_locked. intros H. inv_ok. destruct (body x) as [| | |dv e tt b]; [done..|]. inv_ok.
  destruct x1 as [fence s1]. inv_ok. destruct x1 as [b2 s2]. inv_ok.
  assert (H2 : keeps_place s s2) by (etrans; [by eapply place_next|by eapply place_lookup]). etrans; [exact H2|].
  assert (H4 : keeps_place s2 x4).
  { clear H Hx7 Hx8. destruct (e =? _); inv_ok; [|by apply (place_put pt x3)].
    exact (place_exchange pt tt x3 x7 (x3 <| fence_id := fence_id x7 |>) (x7 <| fence_id := fence |>) s2 Hx5 Hx7 ltac:(done) ltac:(done)). }
  etrans; [exact H4|]. destruct (_ <? _); inv_ok; [|by apply place_same].
  exact (place_put pt x6 (x6 <| body := task_page_table_set dv e tt true |>) x4 Hx8 ltac:(done)).
Qed.
End Place.

(** ** A submission alone *)

Section Alone.
Context (reserved_context : Z).
Notation life_ok := (life_ok reserved_context).
Notation life_step := (life_step reserved_context).
Notation carry_out := (carry_out reserved_context).

Lemma become_become i a b w s s' : become i a (become i b w s) s' = become i a w s'.
Proof. unfold become. cbn. by rewrite list_insert_insert_eq. Qed.

Lemma become_acts i a b w s : acts w !! i = Some a -> acts (become i b w s) !! i = Some b.
Proof. intros H. cbn. apply list_lookup_insert_eq. by eapply lookup_lt_Some. Qed.

Lemma fetch_inv {A} (m : gmap Z A) k a : fetch m k = Ok a -> m !! k = Some a.
Proof. unfold fetch. destruct (m !! k); [|done]. by intros [= ->]. Qed.

Lemma place_found t s s' d d' c c' : keeps_place t s s' -> get_task t s = Ok d -> fetch (contexts s) (context d) = Ok c ->
  get_task t s' = Ok d' -> fetch (contexts s') (context d') = Ok c' -> rb_index c' = rb_index c /\ device c' = device c.
Proof.
  intros [P1 P2] Hd%fetch_inv Hc%fetch_inv Hd'%fetch_inv Hc'%fetch_inv. destruct (P2 _ Hd') as (y & Hy & Ey).
  destruct (P1 _ _ Hc') as (z & Hz & E1 & E2). assert (y = d) as -> by congruence. split; congruence.
Qed.

(** A step that runs and moves one activity. *)
Lemma run_become l w m i b : life_ok w -> permitted l w -> carry_out l w = rbind m (fun s => Ok (become i b w s)) ->
  exists s, m = Ok s /\ life_step w (become i b w s) /\ life_ok (become i b w s).
Proof.
  intros Hw He Hx. destruct (life_step_ok _ _ _ Hw He) as (w' & Hr & Hw'). pose proof Hr as Hr'. rewrite Hx in Hr'.
  destruct m as [s|]; [|done]. injection Hr' as <-. exists s. split; [done|]. split; [by exists l|done].
Qed.

Lemma at_act_run w i a : acts w !! i = Some a -> at_act w i = Ok a.
Proof. unfold at_act. by intros ->. Qed.

(** [Link], with the task and the engine it looks up. *)
Lemma link_run w i t k d e : life_ok w -> acts w !! i = Some (Sent t k) -> get_task t (st w) = Ok d -> engine_of d (st w) = Ok e ->
  exists o s, set_task_submitted_begin e t false (st w) = Ok (o, s) /\ life_step w (become i (Linked t k) w s) /\
    life_ok (become i (Linked t k) w s).
Proof.
  intros Hw Ha Hd He.
  destruct (run_become (Link i) w (let! '(_, s) := set_task_submitted_begin e t false (st w) in Ok s) i (Linked t k) Hw)
    as (s & Hm & Hs & Hw'); [by exists t, k| |].
  - cbn [TaskLife.carry_out]. rewrite (at_act_run _ _ _ Ha). cbn [rbind]. rewrite Hd. cbn [rbind]. rewrite He. cbn [rbind].
    by destruct (set_task_submitted_begin _ _ _ _) as [[]|].
  - destruct (set_task_submitted_begin e t false (st w)) as [[o s0]|]; [|done]. injection Hm as <-. by exists o, s0.
Qed.

(** The task goes into the list. *)
Lemma link_alone w i t d e : life_ok w -> acts w !! i = Some (Sent t None) -> get_task t (st w) = Ok d -> engine_of d (st w) = Ok e ->
  exists s', vidschi_set_task_submitted e t false (st w) = Ok s' /\ rtc life_step w (become i (Ref t) w s').
Proof.
  intros Hw Ha Hd He. destruct (link_run _ _ _ _ _ _ Hw Ha Hd He) as (o & s1 & Hb & Hs1 & Hw1).
  pose proof (become_acts i _ (Linked t None) w s1 Ha) as Ha1.
  destruct (run_become (Finish i) _ (mark_submitted t s1) i (Ref t) Hw1) as (s2 & Hm & Hs2 & _); [by exists t, None| |].
  { cbn [TaskLife.carry_out]. by rewrite (at_act_run _ _ _ Ha1). }
  exists s2. unfold vidschi_set_task_submitted. rewrite Hb. cbn [rbind]. split; [exact Hm|]. rewrite become_become in Hs2.
  eapply rtc_l; [exact Hs1|]. by apply rtc_once.
Qed.

(** The first section, and what is left of the function after it. *)
Definition submit_rest (fuel : nat) (pt t : Z) (c : gpu_context) (r : option Z) (s : scheduler) : res scheduler :=
  match r with
  | None => vidschi_set_task_submitted (rb_index c) t false s
  | Some f =>
      let! s := vidsch_submit_page_table_set_task fuel (rb_index c) pt s in
      let! s := vidsch_task_dec_reference pt s in
      let! s := choose_vm_id_age (device c) s in
      let! s := chip_submit (rb_index c) t f s in
      vidschi_set_task_submitted (rb_index c) t false s
  end.

Lemma submit_split fuel pt t s r s1 d c :
  get_task t s = Ok d -> fetch (contexts s) (context d) = Ok c -> submit_first reserved_context fuel pt t s = Ok (r, s1) ->
  vidschi_submit_dma fuel reserved_context pt t s = submit_rest fuel pt t c r s1.
Proof.
  unfold vidschi_submit_dma, engine_of, submit_first, choose_vm_id. intros Hd Hc. rewrite Hd. cbn [rbind]. rewrite Hc. cbn [rbind].
  destruct (take_fence (rb_index c) t s) as [[f sa]|] eqn:Hf; [|done]. cbn [rbind]. apply (place_take t) in Hf.
  destruct (choose_vm_id_lookup fuel t sa) as [[needs sb]|] eqn:Hl; [|done]. cbn [rbind].
  assert (Hg : exists d' c', get_task t sa = Ok d' /\ fetch (contexts sa) (context d') = Ok c').
  { unfold choose_vm_id_lookup in Hl. inv_ok. by eexists _, _. }
  destruct Hg as (d' & c' & Hd' & Hc'). destruct (place_found _ _ _ _ _ _ _ Hf Hd Hc Hd' Hc') as [Er Ed].
  rewrite Hd'. cbn [rbind]. rewrite Hc'. cbn [rbind]. rewrite Er, Ed. destruct needs.
  - destruct (vidsch_allocate_page_table_set_task _ _ _ _ _ _) as [sc|]; [|done]. cbn [rbind]. intros [= <- <-]. cbn [submit_rest].
    destruct (vidsch_submit_page_table_set_task _ _ _ _); [|done]. cbn [rbind].
    destruct (vidsch_task_dec_reference _ _); [|done]. cbn [rbind]. by destruct (choose_vm_id_age _ _).
  - cbn [rbind]. destruct (chip_submit _ _ _ _) as [sc|]; [|done]. cbn [rbind]. by intros [= <- <-].
Qed.

Lemma place_submit_first fuel pt t s r s1 : pt <> t -> submit_first reserved_context fuel pt t s = Ok (r, s1) -> keeps_place t s s1.
Proof.
  unfold submit_first. intros Hne H. inv_ok. destruct x1 as [f sa]. inv_ok. destruct x1 as [needs sb].
  assert (HP : keeps_place t s sb) by (etrans; [by eapply place_take|by eapply place_lookup]). etrans; [exact HP|].
  destruct needs; inv_ok; [by eapply place_allocate|by eapply place_chip].
Qed.

Lemma waiting_place s t pt c d : pt_for reserved_context s t pt -> get_task t s = Ok d -> fetch (contexts s) (context d) = Ok c ->
  rb_index c = RESERVED_ENGINE_INDEX.
Proof.
  intros (d0 & p & dev & k & b & H1 & _ & H2 & _) Hd%fetch_inv Hc%fetch_inv. assert (d0 = d) as -> by congruence.
  unfold eng in H2. by rewrite Hc in H2.
Qed.

Lemma page_task_engine w i t f pt : life_ok w -> acts w !! i = Some (Sent pt (Some (t, f))) ->
  exists p, get_task pt (st w) = Ok p /\ engine_of p (st w) = Ok RESERVED_ENGINE_INDEX.
Proof.
  intros Hw Ha. destruct (life_at _ _ _ _ Hw Ha) as (L & lru & Hok & _).
  destruct (core_phase _ _ _ _ _ _ Hok) as (d & p & dev & k & b & _ & Hp & _ & _ & Hc & _).
  destruct (core_reserved _ _ _ _ _ Hok) as (rc & Hrc & _ & He). exists p. split; [by apply (get_task_run pt p)|].
  unfold engine_of. rewrite Hc, (fetch_run _ _ rc) by done. cbn [rbind]. by rewrite He.
Qed.

Lemma submit_last_inv pt t f d c s0 s s' : keeps_place t s0 s -> get_task t s0 = Ok d -> fetch (contexts s0) (context d) = Ok c ->
  submit_last pt t f s = Ok s' ->
  (let! s := mark_submitted pt s in
   let! s := page_table_set_finish pt s in
   let! s := vidsch_task_dec_reference pt s in
   let! s := choose_vm_id_age (device c) s in chip_submit (rb_index c) t f s) = Ok s' /\ keeps_place t s0 s'.
Proof.
  intros HP Hd Hc Hl. unfold submit_last in Hl.
  destruct (mark_submitted pt s) as [s1|] eqn:E1; [|done]. cbn [rbind] in *. apply (place_mark t) in E1.
  destruct (page_table_set_finish pt s1) as [s2|] eqn:E2; [|done]. cbn [rbind] in *. apply (place_finish t) in E2.
  destruct (vidsch_task_dec_reference pt s2) as [s3|] eqn:E3; [|done]. cbn [rbind] in *. apply (place_dec t) in E3.
  assert (HP3 : keeps_place t s0 s3) by (do 3 (etrans; [eassumption|]); done).
  destruct (get_task t s3) as [d'|] eqn:Hd'; [|done]. cbn [rbind] in Hl.
  destruct (fetch (contexts s3) (context d')) as [c'|] eqn:Hc'; [|done]. cbn [rbind] in Hl.
  destruct (place_found _ _ _ _ _ _ _ HP3 Hd Hc Hd' Hc') as [Er Ed]. rewrite Er, Ed in Hl.
  destruct (choose_vm_id_age (device c) s3) as [s4|] eqn:E4; [|done]. cbn [rbind] in *. apply (place_age t) in E4.
  split; [exact Hl|]. apply (place_chip t) in Hl. etrans; [exact HP3|]. by etrans.
Qed.

(** The page table task, from the thread that waits for it. *)
Lemma page_table_alone w i t f pt fuel d c : life_ok w -> acts w !! i = Some (NeedsPt t f pt) ->
  get_task t (st w) = Ok d -> fetch (contexts (st w)) (context d) = Ok c ->
  exists s', (let! s := vidsch_submit_page_table_set_task fuel (rb_index c) pt (st w) in
      let! s := vidsch_task_dec_reference pt s in
      let! s := choose_vm_id_age (device c) s in chip_submit (rb_index c) t f s) = Ok s' /\
    rtc life_step w (become i (Sent t None) w s') /\ life_ok (become i (Sent t None) w s') /\ keeps_place t (st w) s'.
Proof.
  intros Hw Ha Hd Hc. destruct (life_at _ _ _ _ Hw Ha) as (L & lru & Hok & _).
  pose proof (waiting_place _ _ _ _ _ (core_phase _ _ _ _ _ _ Hok) Hd Hc) as He. clear L lru Hok.
  destruct (run_become (SetPageTable i fuel) w (page_table_set_locked fuel pt (st w)) i (Sent pt (Some (t, f))) Hw)
    as (s1 & Hr1 & Hs1 & Hw1); [by exists t, f, pt|cbn [TaskLife.carry_out]; by rewrite (at_act_run _ _ _ Ha)|].
  pose proof (become_acts i _ (Sent pt (Some (t, f))) w s1 Ha) as Ha1.
  destruct (page_task_engine _ _ _ _ _ Hw1 Ha1) as (p & Hp & Hpe).
  destruct (link_run _ _ _ _ _ _ Hw1 Ha1 Hp Hpe) as (o & s2 & Hb & Hs2 & Hw2). rewrite become_become in Hs2, Hw2.
  pose proof (become_acts i _ (Linked pt (Some (t, f))) w s2 Ha) as Ha2.
  destruct (run_become (Finish i) _ (submit_last pt t f s2) i (Sent t None) Hw2) as (s3 & Hl & Hs3 & Hw3);
    [by exists pt, (Some (t, f))|cbn [TaskLife.carry_out]; by rewrite (at_act_run _ _ _ Ha2)|]. rewrite become_become in Hs3, Hw3.
  cbn [st become] in *. apply (place_locked t) in Hr1 as HP1. apply (place_begin t) in Hb as HP2.
  destruct (submit_last_inv pt t f d c (st w) s2 s3) as [Hrest HP]; [by etrans|done..|].
  exists s3. split; [|split; [|done]].
  - unfold vidsch_submit_page_table_set_task, vidschi_set_task_submitted. rewrite Hr1. cbn [rbind]. rewrite He in *. rewrite Hb. cbn [rbind].
    destruct (mark_submitted pt s2) as [s4|]; [|done]. cbn [rbind] in *. done.
  - eapply rtc_l; [exact Hs1|]. eapply rtc_l; [exact Hs2|]. by apply rtc_once.
Qed.


Lemma link_end w i t a s d c : acts w !! i = Some a -> life_ok (become i (Sent t None) w s) -> keeps_place t (st w) s ->
  get_task t (st w) = Ok d -> fetch (contexts (st w)) (context d) = Ok c ->
  exists s', vidschi_set_task_submitted (rb_index c) t false s = Ok s' /\
    rtc life_step (become i (Sent t None) w s) (become i (Ref t) w s').
Proof.
  intros Ha Hw HP Hd Hc. pose proof (become_acts i _ (Sent t None) w s Ha) as Ha1.
  destruct (life_at _ _ _ _ Hw Ha1) as (L & lru & Hok & _). destruct (core_has _ _ _ _ _ _ t Hok) as [d1 Hd1]; [by left|].
  destruct (context_known _ _ _ _ _ _ _ Hok Hd1) as (c1 & Hc1 & _).
  apply (get_task_run t d1) in Hd1 as Hgd1. apply fetch_run in Hc1 as Hgc1.
  destruct (place_found _ _ _ _ _ _ _ HP Hd Hc Hgd1 Hgc1) as [<- _].
  destruct (link_alone _ _ _ d1 (rb_index c1) Hw Ha1 Hgd1) as (s' & Hr & Hs).
  - unfold engine_of. cbn [st become] in *. by rewrite Hgc1.
  - exists s'. rewrite become_become in Hs. done.
Qed.

(** The whole function. *)
Lemma submit_alone w i t fuel pt : life_ok w -> acts w !! i = Some (New t) -> permitted (Submit i fuel pt) w ->
  exists s', vidschi_submit_dma fuel reserved_context pt t (st w) = Ok s' /\ rtc life_step w (become i (Ref t) w s').
Proof.
  intros Hw Ha He. pose proof He as (t0 & d & c & Ha0 & Hd & Hc & Hrb & _ & [_ Hnew] & _).
  assert (t0 = t) as -> by congruence. apply (get_task_run t d) in Hd as Hgd. apply fetch_run in Hc as Hgc.
  destruct (submit_step_ok _ _ _ _ _ Hw He) as (w1 & Hr & Hw1). assert (Hs1 : life_step w w1) by (by exists (Submit i fuel pt)).
  cbn [TaskLife.carry_out] in Hr. rewrite (at_act_run _ _ _ Ha) in Hr. cbn [rbind main_task] in Hr.
  destruct (submit_first reserved_context fuel pt t (st w)) as [[r s1]|] eqn:Hf; [|done]. cbn [rbind] in Hr. injection Hr as <-.
  assert (Hne : pt <> t) by congruence.
  pose proof (place_submit_first _ _ _ _ _ _ Hne Hf) as HP.
  rewrite (submit_split _ _ _ _ _ _ _ _ Hgd Hgc Hf). destruct r as [f|]; cbn [submit_rest].
  - pose proof (become_acts i _ (NeedsPt t f pt) w s1 Ha) as Ha1.
    destruct (life_at _ _ _ _ Hw1 Ha1) as (L & lru & Hok & _). destruct (core_has _ _ _ _ _ _ t Hok) as [d1 Hd1]; [by left|].
    destruct (context_known _ _ _ _ _ _ _ Hok Hd1) as (c1 & Hc1 & _).
    apply (get_task_run t d1) in Hd1 as Hgd1. apply fetch_run in Hc1 as Hgc1.
    destruct (place_found _ _ _ _ _ _ _ HP Hgd Hgc Hgd1 Hgc1) as [Er Ed].
    destruct (page_table_alone _ _ _ _ _ fuel _ _ Hw1 Ha1 Hgd1 Hgc1) as (s2 & Hr2 & Hs2 & Hw2 & HP2). rewrite Er, Ed in Hr2.
    rewrite become_become in Hs2, Hw2. cbn [st become] in *.
    destruct (link_end w i t _ s2 d c Ha Hw2 ltac:(by etrans) Hgd Hgc) as (s3 & Hr3 & Hs3). exists s3. split.
    + destruct (vidsch_submit_page_table_set_task _ _ _ _) as [x|]; [|done]. cbn [rbind] in *.
      destruct (vidsch_task_dec_reference _ _) as [y|]; [|done]. cbn [rbind] in *.
      destruct (choose_vm_id_age _ _) as [z|]; [|done]. cbn [rbind] in *. by rewrite Hr2.
    + eapply rtc_l; [exact Hs1|]. by etrans.
  - destruct (link_end w i t _ s1 d c Ha Hw1 HP Hgd Hgc) as (s3 & Hr3 & Hs3).
    exists s3. split; [done|]. by eapply rtc_l.
Qed.

(** ** The functions around it *)

Lemma skip_alone w i t : life_ok w -> acts w !! i = Some (New t) ->
  exists s', skip_task t (st w) = Ok s' /\ life_step w (become i (Ref t) w s').
Proof.
  intros Hw Ha. destruct (run_become (Skip i) w (skip_task t (st w)) i (Ref t) Hw) as (s' & Hr & Hs & _); [by exists t| |by exists s'].
  cbn [TaskLife.carry_out]. by rewrite (at_act_run _ _ _ Ha).
Qed.

Lemma fake_alone w i t d : life_ok w -> acts w !! i = Some (New t) -> tasks (st w) !! t = Some d -> is_dma (body d) = true ->
  exists s', vidschi_fake_submit_dma t (st w) = Ok s' /\ life_step w (become i (Ref t) w s').
Proof.
  intros Hw Ha Hd Hdma. destruct (skip_alone w i t Hw Ha) as (s' & Hr & Hs). exists s'. split; [|done].
  unfold skip_task in Hr. rewrite (get_task_run t d) in Hr by done. cbn [rbind] in Hr. by destruct (body d).
Qed.

Lemma memory_alone w i t d fuel pt : life_ok w -> acts w !! i = Some (New t) -> permitted (Submit i fuel pt) w ->
  tasks (st w) !! t = Some d -> is_dma (body d) = false ->
  exists s', submit_memory_task fuel reserved_context pt t (st w) = Ok s' /\ rtc life_step w (become i (Ref t) w s').
Proof.
  intros Hw Ha He Hd Hdma. unfold submit_memory_task. rewrite (get_task_run t d) by done. cbn [rbind].
  destruct (no_commands d); [|by apply submit_alone]. destruct (skip_alone w i t Hw Ha) as (s' & Hr & Hs). exists s'.
  split; [|by apply rtc_once]. unfold skip_task in Hr. rewrite (get_task_run t d) in Hr by done. cbn [rbind] in Hr. by destruct (body d).
Qed.

(** The outcome of [vidschi_prepare_and_submit_dma]. *)
Definition invalid_context (d : task_desc) (s : scheduler) : bool :=
  match body d with task_dma (Some h) _ _ => default false (hwctx_invalid s !! h) | _ => false end.

Lemma skips_run d s : is_dma (body d) = true ->
  (forall h nr re, body d = task_dma (Some h) nr re -> is_Some (hwctx_invalid s !! h)) ->
  exists o, skips_commands d s = Ok o /\
    match o with Some r => r = if invalid_context d s then E_FAIL else S_OK | None => invalid_context d s = false end.
Proof.
  unfold skips_commands, invalid_context. destruct (body d) as [hw nr re| | |]; [|done..]. intros _ Hh. destruct hw as [h|].
  - destruct (Hh h nr re eq_refl) as [b Hb]. unfold fetch. rewrite Hb. cbn. eexists. split; [done|].
    destruct b; [done|]. by destruct (nr || (dma_cnt d =? 0)).
  - cbn. eexists. split; [done|]. by destruct (nr || (dma_cnt d =? 0)).
Qed.

Lemma prepare_run w i t d mapped : life_ok w -> acts w !! i = Some (New t) -> tasks (st w) !! t = Some d -> is_dma (body d) = true ->
  exists resident s1 s2 d', prepare_dma_task t mapped (st w) = Ok (resident, s1) /\
    (if (resident : bool) then Ok s1 else discard_dma_task t s1) = Ok s2 /\
    life_step w (mkWorld s2 (acts w)) /\ life_ok (mkWorld s2 (acts w)) /\ vms s1 = vms (st w) /\
    tasks s1 = <[t := d']> (tasks (st w)) /\ tasks s2 = tasks s1 /\ is_dma (body d') = true /\ context d' = context d /\
    contexts s1 = contexts (st w) /\ engines s1 = engines (st w).
Proof.
  intros Hw Ha Hd Hdma. assert (He : permitted (Prepare i mapped) w) by (by eexists t, d).
  destruct (life_step_ok _ _ _ Hw He) as (w' & Hr & Hw'). assert (Hs : life_step w w') by (by exists (Prepare i mapped)).
  cbn [TaskLife.carry_out] in Hr. rewrite (at_act_run _ _ _ Ha) in Hr. cbn [rbind main_task] in Hr.
  destruct (prepare_dma_task t mapped (st w)) as [[resident s1]|] eqn:Hp; [|done]. cbn [rbind] in Hr.
  destruct (if resident then Ok s1 else discard_dma_task t s1) as [s2|] eqn:Hq; [|done]. cbn [rbind] in Hr. injection Hr as <-.
  unfold prepare_dma_task in Hp. rewrite (get_task_run t d) in Hp by done. cbn [rbind] in Hp.
  destruct (body d) as [hw nr re| | |] eqn:Eb; [|done..]. cbn beta zeta iota in Hp. injection Hp as <- <-.
  eexists _, _, s2, _. split; [done|]. split; [exact Hq|]. split; [done|]. split; [done|]. split; [done|]. split; [done|]. split; [|done].
  destruct (re || mapped); [by injection Hq as <-|]. unfold discard_dma_task in Hq. clear - Hq. inv_ok.
  by destruct (body x) as [[h|] ? ?| | |]; injection Hq as <-.
Qed.

Lemma prepare_and_submit_alone w i t d fuel pt mapped : life_ok w -> acts w !! i = Some (New t) -> permitted (Submit i fuel pt) w ->
  tasks (st w) !! t = Some d -> is_dma (body d) = true ->
  (forall h nr re, body d = task_dma (Some h) nr re -> is_Some (hwctx_invalid (st w) !! h)) ->
  exists s', vidschi_prepare_and_submit_dma fuel reserved_context pt mapped t (st w) =
      Ok (if invalid_context d (st w) then E_FAIL else S_OK, s') /\ rtc life_step w (become i (Ref t) w s').
Proof.
  intros Hw Ha He Hd Hdma Hh. unfold vidschi_prepare_and_submit_dma. rewrite (get_task_run t d) by done. cbn [rbind].
  destruct (skips_run d (st w) Hdma Hh) as (o & -> & Ho). cbn [rbind]. destruct o as [r|].
  { subst r. destruct (fake_alone w i t d Hw Ha Hd Hdma) as (s' & -> & Hs). cbn [rbind]. exists s'. split; [done|]. by apply rtc_once. }
  rewrite Ho. destruct (prepare_run w i t d mapped Hw Ha Hd Hdma)
    as (resident & s1 & s2 & d' & -> & Hq & Hs & Hw2 & Ev & Et & Et2 & Hdma' & Ec & Ecs & Een). cbn [rbind].
  destruct resident.
  - injection Hq as <-. destruct (submit_alone (mkWorld s1 (acts w)) i t fuel pt Hw2 Ha) as (s' & Hr & Hsteps).
    + destruct He as (t0 & d0 & c & Ha0 & Hd0 & Hc & Hrb & Hlock & [Hbig Hnew] & Hal & Hwr & Hf).
      assert (t0 = t) as -> by congruence. assert (d0 = d) as -> by congruence. assert (Hne : pt <> t) by congruence.
      exists t, d', c. unfold new_memory, no_wrap, fence_state in *. cbn [st acts]. rewrite Ev, Een, Et, Ecs, Ec, lookup_insert_eq.
      rewrite lookup_insert_ne by done. conjs; done.
    + cbn [st] in Hr. rewrite Hr. cbn [rbind]. exists s'. split; [done|]. by eapply rtc_l.
  - rewrite Hq. cbn [rbind]. destruct (fake_alone (mkWorld s2 (acts w)) i t d' Hw2 Ha) as (s' & Hr & Hstep).
    + cbn [st]. rewrite Et2, Et. apply lookup_insert_eq.
    + done.
    + cbn [st] in Hr. rewrite Hr. cbn [rbind]. exists s'. split; [done|]. eapply rtc_l; [exact Hs|]. by apply rtc_once.
Qed.
End Alone.
