(* ===== verification/TaskSpec.v ===== *)
(** * What the task life cycle promises

    The claims about tasks, over every state that is reached from a start state by
    any interleaving of steps, and about the sequential functions. The invariant and
    the steps are in [TaskLife], [TaskCore], [TaskSteps] and [TaskSafe]. *)
From S2P Require Import Prelude CoreUtil ListHead ListRings PageTable Fence VmId Task TaskSubmit TaskLife TaskCore TaskSteps TaskSafe TaskRefine.
From stdpp Require Import gmap.
Local Open Scope Z_scope.

(** ** The start *)

(** The lists [vidsch_create_engine] (in [vidsch.c]) initialises. *)
Definition submitted_lists (n : nat) : res heap :=
  for_up n 0 (fun e h => list_init_head (submitted_task_list e) (<[submitted_task_list e := mkNode 0 0]> h)) ∅.

Section Spec.
Context (reserved_context : Z).
Notation core_ok := (core_ok reserved_context).
Notation life_ok := (life_ok reserved_context).
Notation life_step := (life_step reserved_context).
Notation carry_out := (carry_out reserved_context).

(** Before the first task: the managers, the contexts and the devices are there. *)
Definition fresh_start (s : scheduler) : Prop :=
  submitted_lists (length (engines s)) = Ok (items s) /\ tasks s = ∅ /\ released s = [] /\
  Forall (fun x => pending_tasks_num x = 0 /\ handled_tasks_num x = 0) (engines s) /\
  map_Forall (fun _ c => context_ref_cnt c = 0) (contexts s) /\
  ring s !! RESERVED_ENGINE_INDEX = None /\ last_sent (fence_state s) RESERVED_ENGINE_INDEX = 0 /\
  spaces_ok reserved_context init_lru s.

Definition reached (w : life_state) : Prop := exists s, fresh_start s /\ rtc life_step (mkWorld s []) w.

Lemma submitted_lists_run n : exists h, submitted_lists n = Ok h /\
  lists_ok (Z.of_nat n) h ∅ (fun _ => []) [].
Proof.
  unfold submitted_lists. destruct (for_up_rule (fun j h => exists R, rings h R /\
      (forall e, 0 <= e < j -> R !! submitted_task_list e = Some []) /\
      (forall l xs, R !! l = Some xs -> exists e, 0 <= e < j /\ l = submitted_task_list e /\ xs = [])) n 0
    (fun e h => list_init_head (submitted_task_list e) (<[submitted_task_list e := mkNode 0 0]> h)) ∅)
    as (h & Hr & R & R1 & R2 & R3).
  - intros j h Hj (R & R1 & R2 & R3). destruct (rings_new h R (submitted_task_list j) R1) as (h' & Hr & R1' & _).
    + unfold submitted_task_list. lia.
    + left. intros l xs Hl Hin. destruct (R3 _ _ Hl) as (e & He & -> & ->). apply list_elem_of_singleton in Hin.
      unfold submitted_task_list in Hin. lia.
    + exists h'. split; [done|]. exists (<[submitted_task_list j := []]> R). split; [done|]. split.
      * intros e He. destruct (decide (e = j)) as [->|Hne]; [apply lookup_insert_eq|].
        rewrite lookup_insert_ne by (unfold submitted_task_list; lia). apply R2. lia.
      * intros l xs [[<- <-]|[_ Hl]]%lookup_insert_Some; [exists j; split; [lia|done]|].
        destruct (R3 _ _ Hl) as (e & He & -> & ->). exists e. split; [lia|done].
  - exists ∅. split; [split; intros l xs; by rewrite lookup_empty|]. split; [lia|]. intros l xs. by rewrite lookup_empty.
  - rewrite Z.add_0_l in *. exists h. split; [done|]. exists R. conjs; try done.
    + intros t Ht. inversion Ht.
    + intros l xs Hl. left. destruct (R3 _ _ Hl) as (e & He & -> & _). by exists e.
    + intros t [d Ht]. by rewrite lookup_empty in Ht.
    + intros e t Ht. inversion Ht.
Qed.

Lemma fresh_start_ok s : fresh_start s -> life_ok (mkWorld s []).
Proof.
  intros (Hi & Ht & Hrel & Hen & Hctx & Hring & Hlast & Hsp). split.
  - exists (fun _ => []), init_lru. split; cbn [st acts].
    + destruct (submitted_lists_run (length (engines s))) as (h & Hh & Hl). rewrite Ht. assert (h = items s) as <- by congruence. exact Hl.
    + split; [|split; [|split]]; cbn; [rewrite Ht; done|intros t Hx; inversion Hx|intros e t d Hx; inversion Hx|constructor].
    + split; cbn.
      * intros k c Hc. rewrite Ht. unfold of_context. rewrite map_filter_empty, map_size_empty. by apply (Hctx k c).
      * intros e x Hx. rewrite Ht. unfold of_engine. rewrite map_filter_empty, map_size_empty.
        destruct (rd_Forall _ _ _ _ Hen Hx) as [-> ->]. done.
    + done.
    + constructor.
    + unfold released_ok. cbn. by rewrite Hrel.
  - exists 0%nat. cbn [st acts]. unfold ring_fences. rewrite Hring, Hlast. done.
Qed.

Lemma reachable_ok w : reached w -> life_ok w.
Proof.
  intros (s & Hs & Hr). apply fresh_start_ok in Hs. induction Hr as [|x y z (l & He & Hx) _ IH]; [done|].
  apply IH. destruct (life_step_ok _ _ _ Hs He) as (w' & Hw' & Hok). rewrite Hx in Hw'. by injection Hw' as <-.
Qed.

(** ** Completion *)

Lemma release_run L lru s A e fuel :
  core_ok L lru s A -> 0 <= e < zlen (engines s) -> engine_present (fence_state s) e -> (length (L e) < fuel)%nat ->
  exists u s' xs ys L', vidsch_release_completed_tasks fuel e s = Ok (u, s') /\
  L e = xs ++ ys /\ core_ok L' lru s' A /\ L' e = ys /\ (forall e', e' <> e -> L' e' = L e') /\ calm s s' /\
    Forall (fun x => exists d, tasks s !! x = Some d /\ fence_id d <= returned (fence_state s') e) xs /\
    match ys with
    | [] => u = None
    | t :: _ => exists d, tasks s !! t = Some d /\ u = Some (fence_id d) /\ returned (fence_state s') e < fence_id d
    end.
Proof.
  revert s fuel. remember (L e) as l0 eqn:El. revert L El. induction l0 as [|x l0 IH]; intros L El s fuel Hok He Hpr Hfuel;
    (destruct fuel as [|fuel]; [cbn in Hfuel; lia|]); unfold vidsch_release_completed_tasks; cbn [iterate];
    destruct (core_take _ _ _ _ _ _ Hok He Hpr) as (r & u & s1 & -> & Hc & _ & Hr); cbn [rbind]; rewrite <- El in Hr.
  - destruct r as [t|]; [destruct Hr as (d & l & Hl & _); done|]. destruct Hr as [Hok1 ->]. cbn [rbind].
    exists None, s1, [], [], L. by conjs.
  - destruct r as [t|].
    + destruct Hr as (d & l & [= <- <-] & Hd & -> & Hf & Hok1).
      destruct (core_dec _ _ _ _ _ _ Hok1) as (s2 & -> & Hok2 & Hsp & Hc2). cbn [rbind].
      match goal with |- context [iterate fuel ?b (None, s2)] =>
        change (iterate fuel b (None, s2)) with (vidsch_release_completed_tasks fuel e s2) end.
      assert (Hc12 : calm s s2) by (by etrans). pose proof Hc12 as (_ & (_ & _ & Hpr2 & _) & _ & Hz2 & _ & C5).
      destruct (IH (relist L e l0)) with (s := s2) (fuel := fuel) as (u & s' & xs & ys & L' & -> & -> & Hok' & Hys & Hoth & Hc' & Hxs & Hu);
        [by rewrite relist_eq|exact Hok2|rewrite Hz2; exact He|apply Hpr2; exact Hpr|cbn in Hfuel; lia|].
      exists u, s', (x :: xs), ys, L'. conjs; try done.
      * intros e' Hne. rewrite Hoth by done. by apply relist_ne.
      * by etrans.
      * constructor.
        -- exists d. split; [done|]. destruct Hc2 as (_ & (_ & _ & _ & G1) & _), Hc' as (_ & (_ & _ & _ & G2) & _).
           etrans; [exact Hf|]. etrans; [apply G1|apply G2].
        -- eapply List.Forall_impl; [|exact Hxs]. intros y (dy & Hy & Hle). destruct (C5 _ _ Hy) as (d0 & H0 & E). exists d0.
           split; [done|]. by rewrite <- E.
      * destruct ys as [|y ys]; [done|]. destruct Hu as (dy & Hy & -> & Hlt). destruct (C5 _ _ Hy) as (d0 & H0 & E).
        exists d0. rewrite <- E. done.
    + destruct Hr as [Hok1 (d & Hd & -> & Hlt)]. cbn [rbind]. exists (Some (fence_id d)), s1, [], (x :: l0), L. conjs; try done.
      by exists d.
Qed.

Lemma steps_reachable w w' : reached w -> rtc life_step w w' -> reached w'.
Proof. intros (s & Hs & Hr) Hst. exists s. split; [done|]. by etrans. Qed.
Lemma step_reachable w w' : reached w -> life_step w w' -> reached w'.
Proof. intros Hw Hst. eapply steps_reachable; [exact Hw|by apply rtc_once]. Qed.

(** A task that is neither held nor in a list has been freed. *)
Lemma unheld_freed L lru s A x : core_ok L lru s A -> x ∉ flat held_by A -> (forall e, x ∉ L e) -> tasks s !! x = None.
Proof.
  intros [_ (T1 & _) _ _ _ _] Hx HL. destruct (tasks s !! x) as [d|] eqn:E; [|done].
  destruct (T1 x d E) as (_ & Hr & Hpos & _). rewrite !cnt_zero in Hr by auto. lia.
Qed.

(** ** The claims *)

(** C11. No step of any thread faults, whatever the threads did before: in every state that
    is reached, a step that is enabled runs to its end. So no task is used after it has
    been freed, no list is torn, no counter leaves its array. *)
Theorem tasks_safe w l : reached w -> permitted l w -> exists w', carry_out l w = Ok w' /\ reached w'.
Proof.
  intros Hw He. destruct (life_step_ok _ _ _ (reachable_ok _ Hw) He) as (w' & Hx & _). exists w'. split; [done|].
  eapply step_reachable; [done|]. by exists l.
Qed.

(** C12. A task is freed with its last reference, and a submitted task only after the
    GPU has returned its fence: whatever was released is not in use, and no list and
    no thread has it. *)
Theorem released_tasks_are_done w : reached w ->
  Forall (fun d => submitted d = true -> fence_id d <= returned (fence_state (st w)) (eng (st w) d)) (released (st w)) /\
  forall t d, tasks (st w) !! t = Some d -> 0 < ref_cnt d /\
    (submitted d = true -> returned (fence_state (st w)) (eng (st w) d) < fence_id d ->
     exists l, is_list (items (st w)) (submitted_task_list (eng (st w) d)) l /\ t ∈ l).
Proof.
  intros Hw. destruct (reachable_ok _ Hw) as [(L & lru & [Hl (T1 & _) _ _ _ Hr]) _]. split; [exact Hr|].
  intros t d Hd. destruct (T1 t d Hd) as (_ & _ & Hpos & _ & Hdone & _). split; [done|]. intros Hs Hlt.
  destruct (Hdone (or_introl Hs)) as [Hin|]; [|lia]. destruct Hl as (R & R1 & R2 & _ & _ & _ & R6).
  exists (L (eng (st w) d)). split; [|done]. eapply rings_list; [exact R1|]. apply R2. by eapply R6.
Qed.

(** C16. The worker thread's test for an idle engine is right: the counters of
    pending and handled tasks are equal exactly when no task of the engine is alive. *)
Theorem engine_idle_exact w e x : reached w -> rd (engines (st w)) e = Ok x ->
  pending_tasks_num x - handled_tasks_num x = of_engine (st w) e (tasks (st w)) /\
  (pending_tasks_num x = handled_tasks_num x <-> forall t d, tasks (st w) !! t = Some d -> eng (st w) d <> e).
Proof.
  intros Hw Hx. destruct (reachable_ok _ Hw) as [(L & lru & [_ _ (_ & Hc) _ _ _]) _]. pose proof (Hc e x Hx) as Hn.
  split; [done|]. set (F := filter (fun p : Z * task_desc => eng (st w) p.2 = e) (tasks (st w))).
  assert (HF : of_engine (st w) e (tasks (st w)) = Z.of_nat (size F)) by done. split.
  - intros Heq t d Hd He. assert (Hs : size F = 0%nat) by lia. apply map_size_empty_inv in Hs.
    assert (HF' : F !! t = Some d) by (by apply map_lookup_filter_Some). rewrite Hs in HF'. by rewrite lookup_empty in HF'.
  - intros Hno. assert (HF' : F = ∅).
    { apply map_eq. intros t. rewrite lookup_empty. apply map_lookup_filter_None. right. intros d Hd. by apply (Hno t). }
    rewrite HF, HF', map_size_empty in Hn. lia.
Qed.

(** C13. The commands reach the ring of the graphics engine with the numbers 1, 2, 3 and
    so on, each once and in this order, whatever threads submit; a task that
    waits for its page table task keeps the number after it, though it took its own
    number first. *)
Theorem ring_numbers_consecutive w : reached w -> exists n,
  ring_fences (st w) = numbers n /\
  (flat lock_waits (acts w) = [] -> last_sent (fence_state (st w)) RESERVED_ENGINE_INDEX = u64 (Z.of_nat n)) /\
  forall i t f pt d, acts w !! i = Some (NeedsPt t f pt) \/ acts w !! i = Some (Sent pt (Some (t, f))) \/
      acts w !! i = Some (Linked pt (Some (t, f))) -> tasks (st w) !! t = Some d ->
    fence_id d = u64 (Z.of_nat (S n)) /\ last_sent (fence_state (st w)) RESERVED_ENGINE_INDEX = fence_id d.
Proof.
  intros Hw. destruct (reachable_ok _ Hw) as [_ (n & Hn & Hl)]. exists n. split; [done|]. split.
  - intros E. by rewrite E in Hl.
  - intros i t f pt d Ha Hd. assert (Hin : t ∈ flat lock_waits (acts w)).
    { assert (exists a, acts w !! i = Some a /\ t ∈ lock_waits a) as (a & Ha' & Hta)
        by (destruct Ha as [Ha|[Ha|Ha]]; eexists; (split; [exact Ha|left])).
      destruct (acts_at _ _ _ Ha') as [HP _]. rewrite (flat_perm lock_waits _ _ HP), flat_cons. apply elem_of_app. by left. }
    destruct (flat lock_waits (acts w)) as [|u [|]]; [inversion Hin| |done]. apply list_elem_of_singleton in Hin as ->.
    destruct Hl as [Hl1 Hl2]. rewrite Hl1, (Hl2 d Hd). done.
Qed.

(** C15. [vidsch_release_completed_tasks] ends within one round more than the list is
    long. It takes exactly the tasks off the front whose fences are back, frees those
    that no thread holds, leaves the others in their order, and reports the
    fence of the first one that is not back. *)
Theorem release_completed_spec w e fuel : reached w -> 0 <= e < zlen (engines (st w)) ->
  engine_present (fence_state (st w)) e -> (size (tasks (st w)) < fuel)%nat ->
  exists u s' xs ys, vidsch_release_completed_tasks fuel e (st w) = Ok (u, s') /\
    is_list (items (st w)) (submitted_task_list e) (xs ++ ys) /\ is_list (items s') (submitted_task_list e) ys /\
    Forall (fun x => exists d, tasks (st w) !! x = Some d /\ fence_id d <= returned (fence_state s') e) xs /\
    Forall (fun x => x ∉ flat held_by (acts w) -> tasks s' !! x = None) xs /\
    match ys with
    | [] => u = None
    | t :: _ => exists d, tasks (st w) !! t = Some d /\ u = Some (fence_id d) /\ returned (fence_state s') e < fence_id d
    end.
Proof.
  intros Hw He Hpr Hfuel. destruct (reachable_ok _ Hw) as [(L & lru & Hok) _].
  pose proof Hok as [(R & R1 & R2 & _ & _ & _ & R6) (_ & _ & T3 & _) _ _ _ _].
  pose proof (rings_list _ _ _ _ R1 (R2 e He)) as Hil. pose proof Hil as (Hnd & _). apply NoDup_cons in Hnd as [_ Hnd].
  destruct (release_run L lru (st w) (acts w) e fuel Hok He Hpr) as (u & s' & xs & ys & L' & Hrun & EL & Hok' & EL' & Hoth & Hc & Hxs & Hu).
  { assert (Hlen : (length (L e) <= size (tasks (st w)))%nat) by (apply list_fits; [done|]; intros x Hx; by apply (R6 e)). lia. }
  exists u, s', xs, ys. rewrite <- EL. conjs; try done.
  - destruct Hok' as [(R' & R1' & R2' & _) _ _ _ _ _]. rewrite <- EL'. eapply rings_list; [exact R1'|]. apply R2'.
    destruct Hc as (_ & _ & _ & -> & _). exact He.
  - apply List.Forall_forall. intros x Hx%list_elem_of_In Hnh. eapply unheld_freed; [exact Hok'|done|].
    intros e' Hin. rewrite EL in Hnd. apply NoDup_app in Hnd as (_ & Hnd & _).
    destruct (decide (e' = e)) as [->|Hne]; [rewrite EL' in Hin; by apply (Hnd x)|]. rewrite Hoth in Hin by done.
    assert (HxL : x ∈ L e) by (rewrite EL; apply elem_of_app; by left). destruct (proj2 (R6 e x HxL)) as [d Hd].
    apply Hne. rewrite <- (T3 e' x d Hin Hd). by apply (T3 e x d).
Qed.

(** C14. The submission functions are runs of the locked steps, on every branch. From any
    reached state, called by the thread that created the task, they return without a
    fault, and the state they leave is one this thread reaches by its own steps: for a
    DMA, skipped because of its context, without commands, without resident memory, or submitted
    behind the page table task it may need ([E_FAIL] exactly if its hardware context is
    invalid); for a paging or update task, with commands or without. *)
Theorem submission_refines w i t d fuel pt : reached w -> acts w !! i = Some (New t) -> permitted (Submit i fuel pt) w ->
  tasks (st w) !! t = Some d ->
  (forall h nr re, body d = task_dma (Some h) nr re -> is_Some (hwctx_invalid (st w) !! h)) ->
  (is_dma (body d) = true -> forall mapped, exists s',
     vidschi_prepare_and_submit_dma fuel reserved_context pt mapped t (st w) =
       Ok (if invalid_context d (st w) then E_FAIL else S_OK, s') /\
     rtc life_step w (become i (Ref t) w s') /\ reached (become i (Ref t) w s')) /\
  (is_dma (body d) = false -> exists s',
     submit_memory_task fuel reserved_context pt t (st w) = Ok s' /\
     rtc life_step w (become i (Ref t) w s') /\ reached (become i (Ref t) w s')).
Proof.
  intros Hw Ha He Hd Hh. pose proof (reachable_ok _ Hw) as Hok. split; [intros Hdma mapped|intros Hdma].
  - destruct (prepare_and_submit_alone _ _ _ _ _ fuel pt mapped Hok Ha He Hd Hdma Hh) as (s' & Hr & Hs). exists s'. conjs; try done.
    by eapply steps_reachable.
  - destruct (memory_alone _ _ _ _ _ fuel pt Hok Ha He Hd Hdma) as (s' & Hr & Hs). exists s'. conjs; try done.
    by eapply steps_reachable.
Qed.
End Spec.

(** ** A run *)

Definition demo_start : scheduler :=
  mkSched ∅ (match submitted_lists 1 with Ok h => h | Err _ => ∅ end)
    (mkMgrVm 16 1 init_array init_links (mkFences [Some (mkMgr 0 0 0)] [0] false [] []))
    {[100 := mkContext 0 0 0; 101 := mkContext 9 0 0]}
    {[0 := mkDev (mkDevice 1 (Some 0) 1) [mkDirty false 0 0] [mkDirty false 0 0] false;
      9 := mkDev (mkDevice 7 None 1) [mkDirty false 0 0] [mkDirty false 0 0] false]}
    [mkEngine 0 0 0] ∅ ∅ 0 [] ∅ [].
Definition demo_labels : list label :=
  [Create 101 50 task_type_render (task_dma None false false); Describe 0 4 None; Prepare 0 true; Submit 0 1 60; SetPageTable 0 1;
   Link 0; Finish 0; Link 0; Finish 0; Gpu [[2]]; TakeCompleted 0; Drop 1; TakeCompleted 0; Drop 1; Drop 0].
Fixpoint perform_all (ls : list label) (w : life_state) : res life_state :=
  match ls with [] => Ok w | l :: ls => let! w := carry_out 100 l w in perform_all ls w end.
Definition demo (n : nat) : life_state :=
  match perform_all (take n demo_labels) (mkWorld demo_start []) with Ok w => w | Err _ => mkWorld demo_start [] end.

Lemma demo_fields_0 i : returned (fence_state demo_start) i = 0 /\ last_sent (fence_state demo_start) i = 0.
Proof.
  unfold returned, last_sent, get_mgr. destruct (decide (i = 0)) as [->|Hi]; [done|].
  rewrite rd_out by (unfold zlen; cbn; lia). done.
Qed.

Lemma demo_start_ok : fresh_start 100 demo_start.
Proof.
  unfold fresh_start. conjs; try (by vm_compute).
  - by constructor.
  - intros k c. cbn. intros [[_ <-]|[_ [_ <-]%lookup_singleton_Some]]%lookup_insert_Some; done.
  - split.
    { apply init_ok; [split; [by constructor|done]|]. intros j. change (0 <= returned (fence_state demo_start) j). by rewrite (proj1 (demo_fields_0 j)). }
    conjs; try done.
    + intros dv dev. cbn. intros [[<- <-]|[_ [<- <-]%lookup_singleton_Some]]%lookup_insert_Some; (split; [done|split; [done|]]).
      * intros k [= <-]. done.
      * done.
    + intros k c. cbn. intros [[_ <-]|[_ [_ <-]%lookup_singleton_Some]]%lookup_insert_Some; (split; [by eexists|by eexists]).
    + by eexists.
Qed.

(** The GPU of the demo has nothing to do before the first submission. *)
Lemma demo_alive n : fence_cells (fence_state (st (demo n))) = [0] -> future (fence_state (st (demo n))) = [] ->
  sch_mgr (fence_state (st (demo n))) = [Some (mkMgr 0 0 0)] -> vm_id_array (vms (st (demo n))) = init_array ->
  gpu_alive (vms (st (demo n))).
Proof.
  intros Hc Hf Hm Ha. assert (HF : forall i, returned (fence_state (st (demo n))) i = 0 /\ last_sent (fence_state (st (demo n))) i = 0).
  { intros i. destruct (demo_fields_0 i) as [H1 H2]. unfold returned, last_sent, get_mgr in *. by rewrite Hm. }
  unfold gpu_alive, gpu_sound, final_fence. fold (fence_state (st (demo n))). rewrite Hc, Hf, Ha. cbn [final_cells]. split; [split|].
  - constructor; [|constructor]. intros i v Hv. rewrite (proj2 (HF i)). apply (rd_Forall (fun v => 0 <= v <= 0) _ _ _) in Hv; [done|].
    by repeat constructor.
  - intros i. destruct (HF i) as [-> ->]. done.
  - intros i o j f Ho Hj. apply init_lookup in Ho as (k & _ & ->). apply zero_flush in Hj as ->.
    destruct (rd [0] j) as [v|] eqn:E; [|done]. by apply (rd_Forall (fun v => 0 <= v) _ _ _) in E; [|by repeat constructor].
Qed.

(** The [n]th step of the run can be taken. *)
Lemma demo_enabled n l : demo_labels !! n = Some l -> permitted l (demo n).
Proof.
  intros Hl. repeat (destruct n as [|n]; [injection Hl as <-|]); [..|done]; cbn [permitted].
  - split; [by vm_compute|]. exists (mkContext 9 0 0). split; [by vm_compute|by left].
  - exists 50. split; [by vm_compute|done].
  - eexists 50, _. split; [by vm_compute|]. split; by vm_compute.
  - eexists 50, _, (mkContext 9 0 1). split; [by vm_compute|]. split; [vm_compute; reflexivity|]. split; [by vm_compute|]. split; [by vm_compute|]. split; [by vm_compute|]. split; [split; by vm_compute|]. conjs.
    + apply demo_alive; by vm_compute.
    + by vm_compute.
    + vm_compute. lia.
  - exists 50, 1, 60. by vm_compute.
  - exists 60, (Some (50, 1)). by vm_compute.
  - exists 60, (Some (50, 1)). by vm_compute.
  - exists 50, None. by vm_compute.
  - exists 50, None. by vm_compute.
  - by constructor.
  - split; [by vm_compute|]. eexists. by vm_compute.
  - exists 60. by vm_compute.
  - split; [by vm_compute|]. eexists. by vm_compute.
  - exists 50. by vm_compute.
  - exists 50. by vm_compute.
Qed.

Lemma demo_runs n l : demo_labels !! n = Some l -> carry_out 100 l (demo n) = Ok (demo (S n)).
Proof.
  intros Hl. repeat (destruct n as [|n]; [injection Hl as <-; by vm_compute|]). done.
Qed.

Lemma demo_reachable n : (n <= 15)%nat -> reached 100 (demo n).
Proof.
  induction n as [|n IH]; intros Hn; [exists demo_start; split; [apply demo_start_ok|done]|].
  destruct (lookup_lt_is_Some_2 demo_labels n) as [l Hl]; [cbn; lia|].
  eapply step_reachable; [apply IH; lia|]. exists l. split; [by apply demo_enabled|by apply demo_runs].
Qed.

(** The waiting thread's task has the number 2, its page table task the number 1. *)
Example demo_exchange : ring (st (demo 7)) !! 0 = Some [SetRootPageTable 1 9 1; SubmitDma 2 1 1].
Proof. by vm_compute. Qed.

Lemma tasks_safe_witness : exists w', carry_out 100 (SetPageTable 0 1) (demo 4) = Ok w' /\ reached 100 w'.
Proof. apply (tasks_safe 100 (demo 4)); [apply demo_reachable; lia|by apply demo_enabled]. Defined.

Lemma released_tasks_are_done_witness :
  map task_uuid (released (st (demo 15))) = [1; 2] /\
  Forall (fun d => submitted d = true -> fence_id d <= returned (fence_state (st (demo 15))) (eng (st (demo 15)) d)) (released (st (demo 15))).
Proof. split; [by vm_compute|]. apply (released_tasks_are_done 100 (demo 15)). apply demo_reachable. lia. Defined.

Lemma engine_idle_exact_witness : exists x, rd (engines (st (demo 12))) 0 = Ok x /\
  pending_tasks_num x - handled_tasks_num x = of_engine (st (demo 12)) 0 (tasks (st (demo 12))).
Proof.
  eexists. split; [vm_compute; reflexivity|]. apply (engine_idle_exact 100 (demo 12) 0); [apply demo_reachable; lia|vm_compute; reflexivity].
Defined.

Lemma ring_numbers_consecutive_witness : exists n, ring_fences (st (demo 6)) = numbers n /\
  forall d, tasks (st (demo 6)) !! 50 = Some d -> fence_id d = u64 (Z.of_nat (S n)).
Proof.
  destruct (ring_numbers_consecutive 100 (demo 6)) as (n & Hn & _ & H); [apply demo_reachable; lia|]. exists n. split; [exact Hn|].
  intros d Hd. apply (H 0%nat 50 1 60 d); [|exact Hd]. right. right. by vm_compute.
Defined.

Lemma release_completed_spec_witness : exists u s' xs ys, vidsch_release_completed_tasks 3 0 (st (demo 10)) = Ok (u, s') /\
  is_list (items (st (demo 10))) 1 (xs ++ ys) /\ is_list (items s') 1 ys /\ Forall (fun x => x ∉ [50] -> tasks s' !! x = None) xs.
Proof.
  destruct (release_completed_spec 100 (demo 10) 0 3) as (u & s' & xs & ys & H1 & H2 & H3 & _ & H4 & _);
    [apply demo_reachable; lia|by vm_compute|eexists; by vm_compute|vm_compute; lia|].
  exists u, s', xs, ys. split; [exact H1|]. split; [exact H2|]. split; [exact H3|]. exact H4.
Defined.

Lemma submission_refines_witness : exists s',
  vidschi_prepare_and_submit_dma 1 100 60 true 50 (st (demo 3)) = Ok (S_OK, s') /\
  rtc (life_step 100) (demo 3) (become 0 (Ref 50) (demo 3) s').
Proof.
  destruct (submission_refines 100 (demo 3) 0 50 (match tasks (st (demo 3)) !! 50 with Some d => d | None => new_task 0 task_type_render (task_dma None false false) demo_start end) 1 60)
    as [H _]; [apply demo_reachable; lia|by vm_compute|by apply demo_enabled|by vm_compute|by vm_compute|].
  destruct (H eq_refl true) as (s' & H1 & H2 & _). exists s'. split; [exact H1|exact H2].
Defined.
