(* ===== verification/I2cBus.v ===== *)
(** * The I2C bus: registers, pins and targets

    The lower half of the I2C master of [Hw/HwUtil/CBiosI2C.c]: access to a display
    register ([Hw/HwUtil/CBiosUtilHw.c]), the table of the ten buses, and the
    environment the master drives, which is not code of the repository: the pins
    of a bus and the target at its other end.

    The environment is the I2C specification. A line is low when the master or
    the target pulls it. The target watches the lines: a fall of the data line
    while the clock is high is START, a rise is STOP; it samples the data line
    when the clock rises and changes what it drives when the clock falls; it may
    hold the clock low for a number of polls after each fall ([stretch]). What a
    target does with the bytes is a parameter, the class [I2CTarget]. *)
From S2P Require Import Prelude.
From stdpp Require Import gmap.
#[local] Open Scope Z_scope.

(** ** Total stateful operations *)
Definition st (S A : Type) : Type := S -> A * S.
Definition sret {S A} (a : A) : st S A := fun s => (a, s).
Definition sbind {S A B} (m : st S A) (k : A -> st S B) : st S B :=
  fun s => let '(a, s1) := m s in k a s1.
Notation "'do!' x ':=' m 'in' k" := (sbind m (fun x => k))
  (at level 10, x binder, m at level 100, k at level 200) : cx_scope.

(** ** Display registers

    [cb_ReadU8] and [cb_WriteU8] access a byte of the register space of the chip;
    a read may have an effect. *)
Class Mmio (S : Type) := {
  cb_ReadU8 : Z -> st S Z;
  cb_WriteU8 : Z -> Z -> st S unit
}.

(** [enum _CBIOS_REGISTER_TYPE]. *)
Definition CR : Z := 0.
Definition SR : Z := 1.
Definition AR : Z := 2.
Definition GR : Z := 3.
Definition MISC : Z := 4.
Definition CR_B : Z := 5.
Definition CR_C : Z := 6.
Definition CR_D : Z := 7.
Definition CR_T : Z := 8.
Definition SR_T : Z := 9.
Definition SR_B : Z := 10.
Definition CR_D_0 : Z := 11.
Definition CR_D_1 : Z := 12.
Definition CR_D_2 : Z := 13.
Definition CR_D_3 : Z := 14.
Definition CR_F : Z := 15.
Definition SR_F : Z := 16.

Definition CB_ATTR_ADDR_REG : Z := 0x83C0.
Definition CB_ATTR_DATA_WRITE_REG : Z := 0x83C0.
Definition CB_ATTR_DATA_READ_REG : Z := 0x83C1.
Definition CB_GRAPH_ADDR_REG : Z := 0x83CE.
Definition CB_GRAPH_DATA_REG : Z := 0x83CF.
Definition CB_ATTR_INITIALIZE_REG : Z := 0x83DA.
Definition CB_MISC_OUTPUT_READ_REG : Z := 0x83CC.
Definition CB_MISC_OUTPUT_WRITE_REG : Z := 0x83C2.

Definition cbMMIOGetGroupOffset (type : Z) : Z :=
  if type =? CR then 0x8800 else
  if type =? CR_B then 0x8900 else
  if type =? CR_C then 0x8A00 else
  if type =? CR_D then 0x8B00 else
  if type =? CR_D_0 then 0x8C00 else
  if type =? CR_D_1 then 0x8D00 else
  if type =? CR_D_2 then 0x8E00 else
  if type =? CR_D_3 then 0x8F00 else
  if type =? CR_T then 0x9500 else
  if type =? CR_F then 0x9100 else
  if type =? SR then 0x8600 else
  if type =? SR_B then 0x8700 else
  if type =? SR_T then 0x9400 else
  if type =? SR_F then 0x9000 else 0xFFFFFFFF.

Definition ti_type (type_index : Z) : Z := Z.shiftr (Z.land type_index 0xFF00) 8.
Definition ti_index (type_index : Z) : Z := Z.land type_index 0x00FF.

Section registers.
Context {S : Type} `{Mmio S}.

Definition cbMMIOReadReg (type_index : Z) : st S Z :=
  let type := ti_type type_index in
  let index := ti_index type_index in
  if type =? MISC then cb_ReadU8 CB_MISC_OUTPUT_READ_REG
  else if type =? AR then
    do! _ := cb_ReadU8 CB_ATTR_INITIALIZE_REG in
    do! _ := cb_WriteU8 CB_ATTR_ADDR_REG index in
    cb_ReadU8 CB_ATTR_DATA_READ_REG
  else if type =? GR then
    do! _ := cb_WriteU8 CB_GRAPH_ADDR_REG index in
    cb_ReadU8 CB_GRAPH_DATA_REG
  else
    let mmioAddress := cbMMIOGetGroupOffset type in
    if negb (mmioAddress =? 0xFFFFFFFF) then cb_ReadU8 (mmioAddress + index) else sret 0.

(** The bits set in [mask] keep their value, the others are those of [value]; a value
    with bits inside the mask is refused. *)
Definition cbMMIOWriteReg (type_index value mask : Z) : st S unit :=
  let type := ti_type type_index in
  let index := ti_index type_index in
  let merge byTemp := Z.lor (Z.land byTemp mask) value in
  if negb (Z.land value mask =? 0) then sret tt
  else if mask =? 0xFF then sret tt
  else if type =? MISC then
    do! byTemp := cb_ReadU8 CB_MISC_OUTPUT_READ_REG in
    cb_WriteU8 CB_MISC_OUTPUT_WRITE_REG (merge byTemp)
  else if type =? AR then
    do! _ := cb_ReadU8 CB_ATTR_INITIALIZE_REG in
    do! _ := cb_WriteU8 CB_ATTR_ADDR_REG index in
    do! byTemp := cb_ReadU8 CB_ATTR_DATA_READ_REG in
    do! _ := cb_ReadU8 CB_ATTR_INITIALIZE_REG in
    do! _ := cb_WriteU8 CB_ATTR_ADDR_REG index in
    cb_WriteU8 CB_ATTR_DATA_WRITE_REG (merge byTemp)
  else if type =? GR then
    do! _ := cb_WriteU8 CB_GRAPH_ADDR_REG index in
    do! byTemp := cb_ReadU8 CB_GRAPH_DATA_REG in
    cb_WriteU8 CB_GRAPH_DATA_REG (merge byTemp)
  else
    let mmioAddress := cbMMIOGetGroupOffset type in
    if negb (mmioAddress =? 0xFFFFFFFF) then
      do! byTemp := cb_ReadU8 (mmioAddress + index) in
      cb_WriteU8 (mmioAddress + index) (merge byTemp)
    else sret tt.

(** The bank of a register for the second to fourth display controller; [IGA2] and
    [CBIOS_MODULE_INDEX2] are both 1, and so on. *)
Definition bank_type (type IGAModuleIndex : Z) : Z :=
  if IGAModuleIndex =? 1 then
    (if type =? CR then CR_B else if type =? SR then SR_B else type)
  else if IGAModuleIndex =? 2 then
    (if type =? CR then CR_T else if type =? SR then SR_T else type)
  else if IGAModuleIndex =? 3 then
    (if type =? CR then CR_F else if type =? SR then SR_F else type)
  else type.

Definition cbBiosMMIOReadReg (type_index IGAModuleIndex : Z) : st S Z :=
  cbMMIOReadReg (Z.lor (Z.shiftl (bank_type (ti_type type_index) IGAModuleIndex) 8)
                       (ti_index type_index)).

Definition cbBiosMMIOWriteReg (type_index value mask IGAModuleIndex : Z) : st S unit :=
  cbMMIOWriteReg (Z.lor (Z.shiftl (bank_type (ti_type type_index) IGAModuleIndex) 8)
                        (ti_index type_index)) value mask.
End registers.

(** ** The buses *)

(** [CBIOS_I2C_REG_PARAMS]: where the clock (C) and data (D) lines of a bus are. *)
Record I2C_REG_PARAMS := mkRegParams {
  CLineRegType_Index : Z;
  CLineRegReadEnableMask : Z;
  CLineRegReadEnableValue : Z;
  CLineRegReadBitNum : Z;
  CLineRegWriteBitNum : Z;
  CLineRegWriteEnableMask : Z;
  CLineRegWriteEnableValue : Z;
  DLineRegType_Index : Z;
  DLineRegReadEnableMask : Z;
  DLineRegReadEnableValue : Z;
  DLineRegReadBitNum : Z;
  DLineRegWriteBitNum : Z;
  DLineRegWriteEnableMask : Z;
  DLineRegWriteEnableValue : Z
}.

Definition CR_A0 : Z := 0x00A0.
Definition CR_AA : Z := 0x00AA.
Definition CR_B_C5 : Z := 0x05C5.
Definition CR_B_C6 : Z := 0x05C6.
Definition CR_B_F8 : Z := 0x05F8.
Definition CR_B_DA : Z := 0x05DA.
Definition SR_48 : Z := 0x0148.
Definition SR_4A : Z := 0x014A.

Definition MIN_NORMAL_I2C_BUS : Z := 0.
Definition MAX_NORMAL_I2C_BUS : Z := 4.
Definition MIN_GPIO_I2C_BUS : Z := 8.
Definition MAX_GPIO_I2C_BUS : Z := 12.

Definition cbI2CModule_CheckBusNum (I2CBusNum : Z) : bool :=
  if (MIN_NORMAL_I2C_BUS <=? I2CBusNum) && (I2CBusNum <=? MAX_NORMAL_I2C_BUS) then true
  else if (MIN_GPIO_I2C_BUS <=? I2CBusNum) && (I2CBusNum <=? MAX_GPIO_I2C_BUS) then true
  else false.

(** [cbI2CModule_GetI2CParams]: [None] where it returns [CBIOS_FALSE]. *)
Definition cbI2CModule_GetI2CParams (I2CBusNum : Z) : option I2C_REG_PARAMS :=
  if negb (cbI2CModule_CheckBusNum I2CBusNum) then None
  else match I2CBusNum with
  | 0 => Some (mkRegParams CR_A0 0xFF 0 2 0 0xEF 0x10 CR_A0 0xFF 0 3 1 0xEF 0x10)
  | 1 => Some (mkRegParams CR_AA 0xFF 0 2 0 0xEF 0x10 CR_AA 0xFF 0 3 1 0xEF 0x10)
  | 2 => Some (mkRegParams CR_B_C5 0xFF 0 2 0 0xEF 0x10 CR_B_C5 0xFF 0 3 1 0xEF 0x10)
  | 3 => Some (mkRegParams CR_B_C6 0xFF 0 2 0 0xEF 0x10 CR_B_C6 0xFF 0 3 1 0xEF 0x10)
  | 4 => Some (mkRegParams CR_B_F8 0xFF 0 2 0 0xEF 0x10 CR_B_F8 0xFF 0 3 1 0xEF 0x10)
  | 8 => Some (mkRegParams SR_48 0xBF 0x40 7 4 0xDF 0x20 SR_4A 0xFB 0x04 3 0 0xFD 0x02)
  | 9 => Some (mkRegParams SR_4A 0xFB 0x04 3 0 0xFD 0x02 CR_B_DA 0xBF 0x40 7 4 0xDF 0x20)
  | 10 => Some (mkRegParams SR_48 0xFB 0x04 3 0 0xFD 0x02 SR_48 0xBF 0x40 7 4 0xDF 0x20)
  | 11 => Some (mkRegParams CR_B_DA 0xBF 0x40 7 4 0xDF 0x20 SR_4A 0xFB 0x04 3 0 0xFD 0x02)
  | 12 => Some (mkRegParams CR_B_DA 0xBF 0x40 7 4 0xDF 0x20 SR_48 0xFB 0x04 3 0 0xFD 0x02)
  | _ => None
  end.

Definition reg_addr (type_index : Z) : Z :=
  cbMMIOGetGroupOffset (ti_type type_index) + ti_index type_index.

(** ** The target

    What a target does with the bytes of a transfer: the address byte after a
    START and each byte written are acknowledged or not; [tg_send] is the next byte of
    a read. *)
Class I2CTarget (T : Type) := {
  tg_addr : Z -> T -> bool * T;
  tg_recv : Z -> T -> bool * T;
  tg_send : T -> Z * T;
  tg_stop : T -> T
}.

(** The bit engine of a target: waiting for START; receiving bit [n] of a byte; driving
    an acknowledge (before sending, if [rd]); driving bit [7 - n] of [b]; listening for
    the master's acknowledge, and having sampled it. *)
Inductive phase :=
| Idle
| Recv (isaddr : bool) (acc : Z) (n : nat)
| AckBit (rd : bool)
| Send (b : Z) (n : nat)
| MAck
| MAcked (ack : bool).

(** The target pulls the data line low. *)
Definition pulls (p : phase) : bool :=
  match p with
  | AckBit _ => true
  | Send b n => negb (Z.testbit b (7 - Z.of_nat n))
  | _ => false
  end.

(** The clock rises with the data line at [sda]. *)
Definition rise (sda : bool) (p : phase) : phase :=
  match p with
  | Recv a acc n => Recv a (2 * acc + b2z sda) (S n)
  | MAck => MAcked (negb sda)
  | _ => p
  end.

(** The clock falls. *)
Definition send_next `{I2CTarget T} (t : T) : phase * T :=
  let '(b, t1) := tg_send t in (Send b 0, t1).

Definition fall `{I2CTarget T} (p : phase) (t : T) : phase * T :=
  match p with
  | Recv a acc 8 =>
      let '(ok, t1) := if a then tg_addr acc t else tg_recv acc t in
      (if ok then AckBit (a && Z.odd acc) else Idle, t1)
  | AckBit true => send_next t
  | AckBit false => (Recv false 0 0, t)
  | Send b n => (if (n =? 7)%nat then MAck else Send b (S n), t)
  | MAcked true => send_next t
  | MAcked false => (Idle, t)
  | _ => (p, t)
  end.

(** ** A bus

    [regs]: what was last written to each register. [wiring]: the pins of the bus.
    [scl], [sda]: the lines as the target last saw them. [hold]: for how many polls
    the target still holds the clock low; [stretch]: the same for each later fall of
    the clock. *)
Record bus (T : Type) := mkBus {
  regs : gmap Z Z;
  wiring : I2C_REG_PARAMS;
  scl : bool;
  sda : bool;
  ph : phase;
  tgt : T;
  hold : nat;
  stretch : list nat
}.
Arguments mkBus {T}.
Arguments regs {T}.
Arguments wiring {T}.
Arguments scl {T}.
Arguments sda {T}.
Arguments ph {T}.
Arguments tgt {T}.
Arguments hold {T}.
Arguments stretch {T}.
#[export] Instance bus_eta {T} : Eta (bus T) :=
  fun s => mkBus (regs s) (wiring s) (scl s) (sda s) (ph s) (tgt s) (hold s) (stretch s).

(** The output side of a pin: its level, and whether it is driven at all. A pin drives
    only low (open drain). *)
Definition pin_out (v wbit : Z) : bool := Z.testbit v wbit.
Definition pin_en (v wen : Z) : bool := Z.land v wen =? wen.
Definition pin_pulls (v wbit wen : Z) : bool := pin_en v wen && negb (pin_out v wbit).

Section bus.
Context {T : Type} `{I2CTarget T}.
Implicit Types s : bus T.

Definition regC s : Z := regs s !!! reg_addr (CLineRegType_Index (wiring s)).
Definition regD s : Z := regs s !!! reg_addr (DLineRegType_Index (wiring s)).

Definition outC s : bool := pin_out (regC s) (CLineRegWriteBitNum (wiring s)).
Definition enC s : bool := pin_en (regC s) (CLineRegWriteEnableValue (wiring s)).
Definition outD s : bool := pin_out (regD s) (DLineRegWriteBitNum (wiring s)).
Definition enD s : bool := pin_en (regD s) (DLineRegWriteEnableValue (wiring s)).

Definition line_scl s : bool := negb (enC s && negb (outC s)) && (hold s =? 0)%nat.
Definition line_sda s : bool := negb (enD s && negb (outD s)) && negb (pulls (ph s)).

(** The target sees the lines change to [scl'], [sda']. *)
Definition react (scl' sda' : bool) s : bus T :=
  if negb (scl s) && scl' then s <| ph := rise sda' (ph s) |>
  else if scl s && negb scl' then
    let '(p, t) := fall (ph s) (tgt s) in
    s <| ph := p |> <| tgt := t |>
      <| hold := default 0%nat (head (stretch s)) |> <| stretch := tail (stretch s) |>
  else if scl' && sda s && negb sda' then s <| ph := Recv true 0 0 |>
  else if scl' && negb (sda s) && sda' then s <| ph := Idle |> <| tgt := tg_stop (tgt s) |>
  else s.

(** The lines settle after a change of what is driven. *)
Definition settle s : bus T :=
  let s1 := react (line_scl s) (line_sda s) s in
  s1 <| scl := line_scl s1 |> <| sda := line_sda s1 |>.

(** A register reads back what was written, except that an input bit whose read
    function is on reads its line. *)
Definition set_bit (v n : Z) (b : bool) : Z := setfield v n 1 (b2z b).
Definition input_bit (ti bitnum ren : Z) (line : bool) (a v : Z) : Z :=
  if (a =? reg_addr ti) && pin_en v ren then set_bit v bitnum line else v.

Definition read_back (w : I2C_REG_PARAMS) (c d : bool) (a v : Z) : Z :=
  input_bit (DLineRegType_Index w) (DLineRegReadBitNum w) (DLineRegReadEnableValue w) d a
    (input_bit (CLineRegType_Index w) (CLineRegReadBitNum w) (CLineRegReadEnableValue w) c a v).

Definition read_reg (a : Z) s : Z := read_back (wiring s) (scl s) (sda s) a (regs s !!! a).

Definition write_reg (a v : Z) s : bus T := settle (s <| regs ::= <[a := v]> |>).

#[export] Instance bus_mmio : Mmio (bus T) := {
  cb_ReadU8 a := fun s => (read_reg a s, s);
  cb_WriteU8 a v := fun s => (tt, write_reg a v s)
}.

(** A delay gives a target that holds the clock the time of one poll. *)
Definition cb_DelayMicroSeconds (us : Z) : st (bus T) unit :=
  fun s => (tt, settle (s <| hold ::= Nat.pred |>)).
End bus.
