(* ===== verification/I2C.v ===== *)
(** * The I2C master by bit-banging

    [Hw/HwUtil/CBiosI2C.c], one definition per function, over the bus of [I2cBus].
    A function whose return value the caller tests is an [st] returning [bool]; the two
    interfaces, which access the caller's buffer, can fault. The loop that raises
    the clock line and waits for it, which the source writes out in each function,
    is [raise_scl]. *)
From S2P Require Import Prelude I2cBus.
From stdpp Require Import gmap.
Local Open Scope Z_scope.

Definition MAXI2CWAITLOOP : Z := 4000.
Definition I2C_SHORT_DELAY : Z := 1.
Definition I2C_DDCCI_SLAVE_ADDR : Z := 0x6E.
Definition I2C_EDID_SEGNUM_SLAVE_ADDR : Z := 0x60.
Definition LEVEL_HIGH : Z := 1.
Definition LEVEL_LOW : Z := 0.

(** [CBIOS_MODULE_I2C_PARAMS], without the fields the functions do not use;
    [I2CRegParams] is passed beside it. *)
Record I2C_PARAMS := mkI2CParams {
  I2CBusNum : Z;
  SlaveAddress : Z;
  OffSet : Z;
  Buffer : list Z;
  BufferLen : Z;
  I2CDelay : Z
}.

Section driver.
Context {T : Type} `{I2CTarget T}.
Variable par : I2C_PARAMS.
Variable rp : I2C_REG_PARAMS.

Definition cbI2CModule_SetScl (lineLvl : Z) : st (bus T) unit :=
  let ulValue := u8 (Z.shiftl lineLvl (CLineRegWriteBitNum rp)) in
  let ulValue := u8 (ulValue + CLineRegWriteEnableValue rp) in
  let ulMask := u8 (Z.shiftl 1 (CLineRegWriteBitNum rp)) in
  let ulMask := Z.land (CLineRegWriteEnableMask rp) (Z.lnot ulMask) in
  cbMMIOWriteReg (CLineRegType_Index rp) ulValue ulMask.

Definition cbI2CModule_GetScl : st (bus T) Z :=
  do! _ := cbMMIOWriteReg (CLineRegType_Index rp)
             (CLineRegReadEnableValue rp) (CLineRegReadEnableMask rp) in
  do! ulRet := cbMMIOReadReg (CLineRegType_Index rp) in
  sret (Z.land (Z.shiftr ulRet (CLineRegReadBitNum rp)) 0x01).

Definition cbI2CModule_SetSda (lineLvl : Z) : st (bus T) unit :=
  let ulValue := u8 (Z.shiftl lineLvl (DLineRegWriteBitNum rp)) in
  let ulValue := u8 (ulValue + DLineRegWriteEnableValue rp) in
  let ulMask := u8 (Z.shiftl 1 (DLineRegWriteBitNum rp)) in
  let ulMask := Z.land (DLineRegWriteEnableMask rp) (Z.lnot ulMask) in
  cbMMIOWriteReg (DLineRegType_Index rp) ulValue ulMask.

Definition cbI2CModule_GetSda : st (bus T) Z :=
  do! _ := cbMMIOWriteReg (DLineRegType_Index rp)
             (DLineRegReadEnableValue rp) (DLineRegReadEnableMask rp) in
  do! ulRet := cbMMIOReadReg (DLineRegType_Index rp) in
  sret (Z.land (Z.shiftr ulRet (DLineRegReadBitNum rp)) 0x01).

(** [for (i = 0; i < n; i++) { SetScl (HIGH); delay; if (GetScl () == HIGH) break; }];
    the result says whether the loop was left by [break]. *)
Fixpoint raise_scl (n : nat) : st (bus T) bool :=
  match n with
  | O => sret false
  | S n' =>
      do! _ := cbI2CModule_SetScl LEVEL_HIGH in
      do! _ := cb_DelayMicroSeconds (I2CDelay par) in
      do! bySCL := cbI2CModule_GetScl in
      if bySCL =? LEVEL_HIGH then sret true else raise_scl n'
  end.

Definition wait_scl : st (bus T) bool := raise_scl (Z.to_nat MAXI2CWAITLOOP).

(** Clock low, short delay, data to [lvl], delay: the closing sequence of a bit. *)
Definition low_then_sda (lvl : Z) : st (bus T) unit :=
  do! _ := cbI2CModule_SetScl LEVEL_LOW in
  do! _ := cb_DelayMicroSeconds I2C_SHORT_DELAY in
  do! _ := cbI2CModule_SetSda lvl in
  cb_DelayMicroSeconds (I2CDelay par).

(** The end of [cbI2CModule_Start]: START when both lines are high. *)
Definition start_condition : st (bus T) bool :=
  do! bySCL := cbI2CModule_GetScl in
  do! bySDL := cbI2CModule_GetSda in
  if (bySCL =? LEVEL_HIGH) && (bySDL =? LEVEL_HIGH) then
    do! _ := cbI2CModule_SetSda LEVEL_LOW in
    do! _ := cb_DelayMicroSeconds (I2CDelay par) in
    do! _ := cbI2CModule_SetScl LEVEL_LOW in
    do! _ := cb_DelayMicroSeconds (I2CDelay par) in
    sret true
  else sret false.

Definition cbI2CModule_Start : st (bus T) bool :=
  if negb (cbI2CModule_CheckBusNum (I2CBusNum par)) then sret false else
  do! bySCL := cbI2CModule_GetScl in
  do! up := if bySCL =? LEVEL_LOW then wait_scl else sret true in
  if negb up then sret false else
  do! bySDL := cbI2CModule_GetSda in
  if bySDL =? LEVEL_LOW then
    do! _ := low_then_sda LEVEL_HIGH in
    do! up := wait_scl in
    if negb up then sret false else start_condition
  else start_condition.

Definition cbI2CModule_Stop : st (bus T) bool :=
  if negb (cbI2CModule_CheckBusNum (I2CBusNum par)) then sret false else
  do! _ := low_then_sda LEVEL_LOW in
  do! up := wait_scl in
  if up then
    do! _ := cbI2CModule_SetSda LEVEL_HIGH in
    do! _ := cb_DelayMicroSeconds (I2CDelay par) in
    sret true
  else sret true.

Definition cbI2CModule_Enable : st (bus T) unit :=
  if negb (cbI2CModule_CheckBusNum (I2CBusNum par)) then sret tt else
  do! _ := cbI2CModule_SetSda LEVEL_HIGH in
  do! _ := cb_DelayMicroSeconds I2C_SHORT_DELAY in
  do! _ := cbI2CModule_SetScl LEVEL_HIGH in
  cb_DelayMicroSeconds (I2CDelay par).

(** [~v & ~m] in eight bits. *)
Definition disable_value (v m : Z) : Z := u8 (Z.land (Z.lnot v) (Z.lnot m)).

Definition cbI2CModule_Disable : st (bus T) unit :=
  if negb (cbI2CModule_CheckBusNum (I2CBusNum par)) then sret tt else
  do! _ := cbMMIOWriteReg (CLineRegType_Index rp)
             (disable_value (CLineRegReadEnableValue rp) (CLineRegReadEnableMask rp))
             (CLineRegReadEnableMask rp) in
  do! _ := cbMMIOWriteReg (CLineRegType_Index rp)
             (disable_value (CLineRegWriteEnableValue rp) (CLineRegWriteEnableMask rp))
             (CLineRegWriteEnableMask rp) in
  do! _ := cbMMIOWriteReg (DLineRegType_Index rp)
             (disable_value (DLineRegReadEnableValue rp) (DLineRegReadEnableMask rp))
             (DLineRegReadEnableMask rp) in
  cbMMIOWriteReg (DLineRegType_Index rp)
    (disable_value (DLineRegWriteEnableValue rp) (DLineRegWriteEnableMask rp))
    (DLineRegWriteEnableMask rp).

(** [cbI2CModule_AckRead], [cbI2CModule_AckWrite] and [cbI2CModule_NackWrite] are not
    called in the repository: [ReadByte] and [WriteByte] do their work inline. *)
Definition cbI2CModule_AckRead : st (bus T) bool :=
  if negb (cbI2CModule_CheckBusNum (I2CBusNum par)) then sret false else
  do! up := wait_scl in
  do! bAck := if up then (do! byTemp := cbI2CModule_GetSda in sret (byTemp =? LEVEL_LOW))
              else sret false in
  do! _ := low_then_sda LEVEL_HIGH in
  sret bAck.

Definition cbI2CModule_AckWrite : st (bus T) bool :=
  if negb (cbI2CModule_CheckBusNum (I2CBusNum par)) then sret false else
  do! _ := cbI2CModule_SetScl LEVEL_LOW in
  do! _ := cbI2CModule_SetSda LEVEL_LOW in
  do! _ := cb_DelayMicroSeconds I2C_SHORT_DELAY in
  do! up := wait_scl in
  do! _ := low_then_sda LEVEL_HIGH in
  sret up.

Definition cbI2CModule_NackWrite : st (bus T) unit :=
  if negb (cbI2CModule_CheckBusNum (I2CBusNum par)) then sret tt else
  do! _ := cbI2CModule_SetScl LEVEL_LOW in
  do! _ := cbI2CModule_SetSda LEVEL_HIGH in
  do! _ := cb_DelayMicroSeconds I2C_SHORT_DELAY in
  do! _ := wait_scl in
  do! _ := cbI2CModule_GetSda in
  sret tt.

(** The loop of [cbI2CModule_ReadByte] over [n] more bits; [data] so far. *)
Fixpoint read_bits (n : nat) (data : Z) : st (bus T) (bool * Z) :=
  match n with
  | O => sret (true, data)
  | S n' =>
      do! up := wait_scl in
      if negb up then sret (false, data) else
      do! b := cbI2CModule_GetSda in
      let data := u8 (Z.shiftl data 1 + b) in
      do! _ := cbI2CModule_SetScl LEVEL_LOW in
      do! _ := cb_DelayMicroSeconds (I2CDelay par) in
      read_bits n' data
  end.

(** [cbI2CModule_ReadByte]: the status and [*pData]; [None] where [*pData] is not
    written. *)
Definition cbI2CModule_ReadByte (bWriteAck bWriteNAck : bool) : st (bus T) (bool * option Z) :=
  if negb (cbI2CModule_CheckBusNum (I2CBusNum par)) then sret (false, None) else
  let bWriteNAck := if bWriteAck && bWriteNAck then false else bWriteNAck in
  do! r := read_bits 8 0 in
  let '(bStatus, data) := r in
  if bStatus && (bWriteAck || bWriteNAck) then
    do! _ := cbI2CModule_SetSda (if bWriteAck then LEVEL_LOW else LEVEL_HIGH) in
    do! _ := cb_DelayMicroSeconds I2C_SHORT_DELAY in
    do! up := wait_scl in
    do! _ := cbI2CModule_SetScl LEVEL_LOW in
    do! _ := if bWriteAck then
               do! _ := cb_DelayMicroSeconds I2C_SHORT_DELAY in
               cbI2CModule_SetSda LEVEL_HIGH
             else sret tt in
    do! _ := cb_DelayMicroSeconds (I2CDelay par) in
    sret (up, Some data)
  else sret (bStatus, Some data).

(** The loop of [cbI2CModule_WriteByte] for the bits [i-1] down to [0]. *)
Fixpoint write_bits (data : Z) (i : nat) : st (bus T) bool :=
  match i with
  | O => sret true
  | S i' =>
      let value := Z.land (Z.shiftr data (Z.of_nat i')) 0x01 in
      do! _ := low_then_sda (if value =? 0 then LEVEL_LOW else LEVEL_HIGH) in
      do! up := wait_scl in
      do! same := if up then (do! b := cbI2CModule_GetSda in sret (value =? b)) else sret false in
      if negb same then sret false else
      do! _ := if (i' =? 0)%nat then low_then_sda LEVEL_HIGH else sret tt in
      write_bits data i'
  end.

Definition cbI2CModule_WriteByte (data : Z) (bReadAck : bool) : st (bus T) bool :=
  if negb (cbI2CModule_CheckBusNum (I2CBusNum par)) then sret false else
  do! bRet := write_bits data 8 in
  if bReadAck && bRet then
    do! up := wait_scl in
    do! bRet := if up then (do! b := cbI2CModule_GetSda in sret (b =? LEVEL_LOW))
                else sret false in
    do! _ := low_then_sda LEVEL_HIGH in
    sret bRet
  else sret bRet.

(** Operations that must succeed in turn, as the [goto exit] of the interfaces. *)
Fixpoint all_ok (l : list (st (bus T) bool)) : st (bus T) bool :=
  match l with
  | [] => sret true
  | m :: l' => do! ok := m in if ok then all_ok l' else sret false
  end.

(** The condition on the address of [ReadData] and [WriteData]: a target with an
    offset byte. *)
Definition has_offset : bool :=
  negb (SlaveAddress par =? I2C_DDCCI_SLAVE_ADDR) &&
  negb (SlaveAddress par =? I2C_EDID_SEGNUM_SLAVE_ADDR).

(** What [ReadData] sends before the data. *)
Definition read_header : st (bus T) bool :=
  all_ok ((if has_offset then
             [cbI2CModule_Start; cbI2CModule_WriteByte (SlaveAddress par) true;
              cbI2CModule_WriteByte (OffSet par) true]
           else []) ++
          [cbI2CModule_Start; cbI2CModule_WriteByte (u8 (SlaveAddress par + 1)) true]).

(** [ReadByte (&Buffer[i], bWriteAck, !bWriteAck)]. *)
Definition read_into (buf : list Z) (i : Z) (bWriteAck : bool) (s : bus T) :
    res (bool * list Z * bus T) :=
  let '((ok, data), s) := cbI2CModule_ReadByte bWriteAck (negb bWriteAck) s in
  let! buf := match data with Some d => wr buf i d | None => Ok buf end in
  Ok (ok, buf, s).

(** [n] bytes from index [i], each acknowledged, then one that is not. *)
Fixpoint read_bytes (n : nat) (buf : list Z) (i : Z) (s : bus T) : res (bool * list Z * bus T) :=
  match n with
  | O => read_into buf i false s
  | S n' =>
      let! '(ok, buf, s) := read_into buf i true s in
      if ok then read_bytes n' buf (i + 1) s else Ok (false, buf, s)
  end.

(** The bytes [WriteData] sends from the buffer. *)
Fixpoint write_bytes (n : nat) (buf : list Z) (i : Z) (s : bus T) : res (bool * bus T) :=
  match n with
  | O => Ok (true, s)
  | S n' =>
      let! x := rd buf i in
      let '(ok, s) := cbI2CModule_WriteByte x true s in
      if ok then write_bytes n' buf (i + 1) s else Ok (false, s)
  end.

(** The label [exit]. *)
Definition i2c_exit (bStatus : bool) : st (bus T) bool :=
  do! _ := if bStatus then sret true else cbI2CModule_Stop in
  do! _ := cbI2CModule_Disable in
  sret bStatus.
End driver.

Section interfaces.
Context {T : Type} `{I2CTarget T}.

(** [cbI2CModule_ReadData]: the status and the buffer. *)
Definition cbI2CModule_ReadData (par : I2C_PARAMS) (s : bus T) : res (bool * list Z * bus T) :=
  match cbI2CModule_GetI2CParams (I2CBusNum par) with
  | None => Ok (false, Buffer par, s)
  | Some rp =>
      let '(_, s) := cbI2CModule_Enable par rp s in
      let '(ok, s) := read_header par rp s in
      let! '(ok, buf, s) :=
        if ok then read_bytes par rp (Z.to_nat (u32 (BufferLen par - 1))) (Buffer par) 0 s
        else Ok (false, Buffer par, s) in
      let '(bStatus, s) := if ok then cbI2CModule_Stop par rp s else (false, s) in
      let '(bStatus, s) := i2c_exit par rp bStatus s in
      Ok (bStatus, buf, s)
  end.

(** [cbI2CModule_WriteData]. *)
Definition cbI2CModule_WriteData (par : I2C_PARAMS) (s : bus T) : res (bool * bus T) :=
  match cbI2CModule_GetI2CParams (I2CBusNum par) with
  | None => Ok (false, s)
  | Some rp =>
      let '(_, s) := cbI2CModule_Enable par rp s in
      let '(ok, s) :=
        all_ok ([cbI2CModule_Start par rp; cbI2CModule_WriteByte par rp (SlaveAddress par) true] ++
                (if has_offset par then [cbI2CModule_WriteByte par rp (OffSet par) true] else [])) s in
      let! '(ok, s) :=
        if ok then write_bytes par rp (Z.to_nat (BufferLen par)) (Buffer par) 0 s
        else Ok (false, s) in
      let '(bStatus, s) :=
        if ok then
          if negb (SlaveAddress par =? 0x60) then cbI2CModule_Stop par rp s else (true, s)
        else (false, s) in
      let '(bStatus, s) := i2c_exit par rp bStatus s in
      Ok (bStatus, s)
  end.

(** [cbI2CModule_HDCPI2CEnableDisable]; the register parameters of an unknown bus are
    not used. *)
Definition cbI2CModule_HDCPI2CEnableDisable (par : I2C_PARAMS) (bIsEnable : bool) (s : bus T) :
    bus T :=
  match cbI2CModule_GetI2CParams (I2CBusNum par) with
  | None => s
  | Some rp =>
      if bIsEnable then (cbI2CModule_Enable par rp s).2 else (cbI2CModule_Disable par rp s).2
  end.
End interfaces.
