(* ===== verification/I2cPins.v ===== *)
(** * Register bytes of the I2C pins

    What the read-modify-write accesses of the driver ([I2C]) do to the output and
    enable bits of the two lines of a bus: checked by computation for every row of the table
    of buses, every value of the register and every level of the lines. *)
From S2P Require Import Prelude I2cBus I2C.
From stdpp Require Import gmap.
Local Open Scope Z_scope.

(** The rows of the table. *)
Definition rows : list I2C_REG_PARAMS :=
  omap cbI2CModule_GetI2CParams [0; 1; 2; 3; 4; 8; 9; 10; 11; 12].

Lemma params_row n rp : cbI2CModule_GetI2CParams n = Some rp -> In rp rows.
Proof.
  unfold cbI2CModule_GetI2CParams. destruct (cbI2CModule_CheckBusNum n); [cbn [negb]|done].
  destruct n as [|q|q]; [intros [= <-]; by left | | done].
  do 4 (try (destruct q as [q|q|]; try done)); intros [= <-]; vm_compute; tauto.
Qed.

Lemma params_check n rp : cbI2CModule_GetI2CParams n = Some rp -> cbI2CModule_CheckBusNum n = true.
Proof. unfold cbI2CModule_GetI2CParams. by destruct (cbI2CModule_CheckBusNum n). Qed.

(** The two pins are in one register. *)
Definition same_reg (w : I2C_REG_PARAMS) : bool :=
  reg_addr (CLineRegType_Index w) =? reg_addr (DLineRegType_Index w).
(** ... and are enabled by the same bit of it. *)
Definition shared (w : I2C_REG_PARAMS) : bool :=
  same_reg w && (CLineRegWriteEnableValue w =? DLineRegWriteEnableValue w).

Definition bools : list bool := [false; true].

(** [P] of every row, byte and level of the two lines. *)
Definition rows_all (P : I2C_REG_PARAMS -> bool -> bool -> Z -> bool) : bool :=
  forallb (fun w => forallb (fun c => forallb (fun d => forallb (P w c d) (seqZ 0 256))
    bools) bools) rows.

Lemma rows_all_elim P w c d v :
  rows_all P = true -> In w rows -> fits 8 v -> P w c d v = true.
Proof.
  unfold rows_all. rewrite forallb_forall. intros H Hw Hv.
  specialize (H w Hw). rewrite forallb_forall in H. specialize (H c).
  rewrite forallb_forall in H. eapply byte_forall; [apply (H ltac:(destruct c; simpl; tauto) d);
    destruct d; simpl; tauto | done].
Qed.

(** A register that [cbMMIOWriteReg] reaches through the register window. *)
Definition plain (ti : Z) : bool :=
  negb (ti_type ti =? MISC) && negb (ti_type ti =? AR) && negb (ti_type ti =? GR) &&
  negb (cbMMIOGetGroupOffset (ti_type ti) =? 0xFFFFFFFF).

Definition rmw (w : I2C_REG_PARAMS) (c d : bool) (ti v value mask : Z) : Z :=
  Z.lor (Z.land (read_back w c d (reg_addr ti) v) mask) value.

(** The pins of a byte of the C and the D register. *)
Definition pinsC (w : I2C_REG_PARAMS) (v : Z) : bool * bool :=
  (pin_out v (CLineRegWriteBitNum w), pin_en v (CLineRegWriteEnableValue w)).
Definition pinsD (w : I2C_REG_PARAMS) (v : Z) : bool * bool :=
  (pin_out v (DLineRegWriteBitNum w), pin_en v (DLineRegWriteEnableValue w)).

(** A write of [value] under [mask] to register [ti] is accepted, stays a byte, and changes
    the C and D pins of that register by [fc] and [fd]. *)
Definition write_check (ti : I2C_REG_PARAMS -> Z) (value mask : I2C_REG_PARAMS -> Z)
    (fc fd : I2C_REG_PARAMS -> bool * bool -> bool * bool)
    (w : I2C_REG_PARAMS) (c d : bool) (v : Z) : bool :=
  let b := rmw w c d (ti w) v (value w) (mask w) in
  let hit f := reg_addr (f w) =? reg_addr (ti w) in
  plain (ti w) && (Z.land (value w) (mask w) =? 0) && (0 <=? b) && (b <? 256) &&
  (negb (hit CLineRegType_Index) || bool_decide (pinsC w b = fc w (pinsC w v))) &&
  (negb (hit DLineRegType_Index) || bool_decide (pinsD w b = fd w (pinsD w v))).

Definition pin_keep (_ : I2C_REG_PARAMS) (x : bool * bool) : bool * bool := x.
Definition pin_drive (lvl : bool) (_ : I2C_REG_PARAMS) (_ : bool * bool) : bool * bool := (lvl, true).
Definition pin_join (w : I2C_REG_PARAMS) (x : bool * bool) : bool * bool := (x.1, x.2 || shared w).
Definition pin_undrive (_ : I2C_REG_PARAMS) (x : bool * bool) : bool * bool := (x.1, false).
Definition pin_unjoin (w : I2C_REG_PARAMS) (x : bool * bool) : bool * bool :=
  (x.1, x.2 && negb (shared w)).

Definition setC_value (lvl : bool) (w : I2C_REG_PARAMS) : Z :=
  u8 (u8 (Z.shiftl (b2z lvl) (CLineRegWriteBitNum w)) + CLineRegWriteEnableValue w).
Definition setC_mask (w : I2C_REG_PARAMS) : Z :=
  Z.land (CLineRegWriteEnableMask w) (Z.lnot (u8 (Z.shiftl 1 (CLineRegWriteBitNum w)))).
Definition setD_value (lvl : bool) (w : I2C_REG_PARAMS) : Z :=
  u8 (u8 (Z.shiftl (b2z lvl) (DLineRegWriteBitNum w)) + DLineRegWriteEnableValue w).
Definition setD_mask (w : I2C_REG_PARAMS) : Z :=
  Z.land (DLineRegWriteEnableMask w) (Z.lnot (u8 (Z.shiftl 1 (DLineRegWriteBitNum w)))).

Lemma setC_check lvl :
  rows_all (write_check CLineRegType_Index (setC_value lvl) setC_mask (pin_drive lvl) pin_join) = true.
Proof. by destruct lvl; vm_compute. Qed.

Lemma setD_check lvl :
  rows_all (write_check DLineRegType_Index (setD_value lvl) setD_mask pin_join (pin_drive lvl)) = true.
Proof. by destruct lvl; vm_compute. Qed.

Lemma readC_check :
  rows_all (write_check CLineRegType_Index CLineRegReadEnableValue CLineRegReadEnableMask
    pin_keep pin_keep) = true.
Proof. by vm_compute. Qed.

Lemma readD_check :
  rows_all (write_check DLineRegType_Index DLineRegReadEnableValue DLineRegReadEnableMask
    pin_keep pin_keep) = true.
Proof. by vm_compute. Qed.

Lemma offC_check :
  rows_all (write_check CLineRegType_Index
    (fun w => disable_value (CLineRegWriteEnableValue w) (CLineRegWriteEnableMask w))
    CLineRegWriteEnableMask pin_undrive pin_unjoin) = true.
Proof. by vm_compute. Qed.

Lemma offD_check :
  rows_all (write_check DLineRegType_Index
    (fun w => disable_value (DLineRegWriteEnableValue w) (DLineRegWriteEnableMask w))
    DLineRegWriteEnableMask pin_unjoin pin_undrive) = true.
Proof. by vm_compute. Qed.

Lemma offRC_check :
  rows_all (write_check CLineRegType_Index
    (fun w => disable_value (CLineRegReadEnableValue w) (CLineRegReadEnableMask w))
    CLineRegReadEnableMask pin_keep pin_keep) = true.
Proof. by vm_compute. Qed.

Lemma offRD_check :
  rows_all (write_check DLineRegType_Index
    (fun w => disable_value (DLineRegReadEnableValue w) (DLineRegReadEnableMask w))
    DLineRegReadEnableMask pin_keep pin_keep) = true.
Proof. by vm_compute. Qed.

(** With the read function on, the input bits read the lines; switching it on does that. *)
Definition input_check (w : I2C_REG_PARAMS) (c d : bool) (v : Z) : bool :=
  let readC u := Z.land (Z.shiftr (read_back w c d (reg_addr (CLineRegType_Index w)) u)
                           (CLineRegReadBitNum w)) 0x01 in
  let readD u := Z.land (Z.shiftr (read_back w c d (reg_addr (DLineRegType_Index w)) u)
                           (DLineRegReadBitNum w)) 0x01 in
  let onC := rmw w c d (CLineRegType_Index w) v (CLineRegReadEnableValue w)
               (CLineRegReadEnableMask w) in
  let onD := rmw w c d (DLineRegType_Index w) v (DLineRegReadEnableValue w)
               (DLineRegReadEnableMask w) in
  (readC (if CLineRegReadEnableMask w =? 0xFF then v else onC) =? b2z c) &&
  (readD (if DLineRegReadEnableMask w =? 0xFF then v else onD) =? b2z d).

Lemma input_checked : rows_all input_check = true.
Proof. by vm_compute. Qed.

(** Stores under a full mask are dropped; the stores that move a line are not. *)
Lemma set_masks w :
  In w rows -> (setC_mask w =? 0xFF) = false /\ (setD_mask w =? 0xFF) = false /\
  (CLineRegWriteEnableMask w =? 0xFF) = false /\ (DLineRegWriteEnableMask w =? 0xFF) = false.
Proof.
  assert (forallb (fun w => negb (setC_mask w =? 0xFF) && negb (setD_mask w =? 0xFF) &&
    negb (CLineRegWriteEnableMask w =? 0xFF) && negb (DLineRegWriteEnableMask w =? 0xFF)) rows = true)
    as Hall by by vm_compute.
  rewrite forallb_forall in Hall. intros Hw. specialize (Hall w Hw).
  rewrite !andb_true_iff, !negb_true_iff in Hall. tauto.
Qed.
