(* ===== verification/I2cLines.v ===== *)
(** * The two lines under the driver's operations

    The functions that set and read a line ([I2C]) move the pins of the bus and
    nothing else. The states of a bus the driver keeps to are described by [bus_at]: the
    pins, the phase of the target, and that the lines are settled; each operation is
    a rule ([runs]) from one such description to another. *)
From S2P Require Import Prelude I2cBus I2C I2cPins.
From stdpp Require Import gmap.
Local Open Scope Z_scope.

(** ** Operations on states *)
Section lines.
Context {T : Type} `{I2CTarget T}.
Implicit Types s : bus T.

(** [m] from a state in [P] returns [a] and leaves a state in [Q]. *)
Definition runs {A} (P : bus T -> Prop) (m : st (bus T) A) (a : A) (Q : bus T -> Prop) : Prop :=
  forall s, P s -> exists s', m s = (a, s') /\ Q s'.

Lemma runs_ret {A} (P : bus T -> Prop) (a : A) : runs P (sret a) a P.
Proof. intros s Hs. by exists s. Qed.

Lemma runs_bind {A B} P R Q (m : st (bus T) A) (k : A -> st (bus T) B) a b :
  runs P m a R -> runs R (k a) b Q -> runs P (sbind m k) b Q.
Proof.
  intros Hm Hk s Hs. destruct (Hm s Hs) as (s1 & H1 & Hs1). unfold sbind. rewrite H1.
  by apply Hk.
Qed.

Lemma runs_mono {A} (P P' Q Q' : bus T -> Prop) (m : st (bus T) A) a :
  runs P m a Q -> (forall s, P' s -> P s) -> (forall s, Q s -> Q' s) -> runs P' m a Q'.
Proof. intros Hm HP HQ s Hs. destruct (Hm s (HP s Hs)) as (s1 & H1 & Hs1). eauto. Qed.

Variable rp : I2C_REG_PARAMS.
Hypothesis row : In rp rows.

(** A state of the bus the master drives. *)
Definition on_bus s : Prop := wiring s = rp /\ forall a, fits 8 (regs s !!! a).

(** The pins: what is put out and whether it is driven. *)
Definition pins s : (bool * bool) * (bool * bool) := ((outC s, enC s), (outD s, enD s)).

Lemma pins_eq s : on_bus s -> pins s = (pinsC rp (regC s), pinsD rp (regD s)).
Proof. intros [<- _]. done. Qed.

Lemma wired_store s a b : on_bus s -> fits 8 b -> on_bus (s <| regs ::= <[a := b]> |>).
Proof.
  intros [Hw Hf] Hb. split; [done|]. intros a'. cbn.
  destruct (decide (a' = a)) as [->|].
  - by rewrite lookup_total_insert_eq.
  - by rewrite lookup_total_insert_ne.
Qed.

Lemma cbMMIOWriteReg_run (ti : I2C_REG_PARAMS -> Z) value mask fc fd s :
  rows_all (write_check ti value mask fc fd) = true ->
  (forall x, reg_addr (ti rp) <> reg_addr (CLineRegType_Index rp) -> fc rp x = x) ->
  (forall x, reg_addr (ti rp) <> reg_addr (DLineRegType_Index rp) -> fd rp x = x) ->
  on_bus s ->
  let a := reg_addr (ti rp) in
  let b := rmw rp (scl s) (sda s) (ti rp) (regs s !!! a) (value rp) (mask rp) in
  let s1 := s <| regs ::= <[a := b]> |> in
  cbMMIOWriteReg (ti rp) (value rp) (mask rp) s =
    (tt, if mask rp =? 0xFF then s else settle s1) /\
  on_bus s1 /\ pins s1 = (fc rp (pins s).1, fd rp (pins s).2).
Proof.
  intros Hck Hfc Hfd Hw. pose proof Hw as [Hwi Hfit]. cbn zeta.
  pose proof (rows_all_elim _ rp (scl s) (sda s) (regs s !!! reg_addr (ti rp)) Hck row (Hfit _)) as Hc.
  unfold write_check in Hc. cbn zeta in Hc.
  set (b := rmw rp (scl s) (sda s) (ti rp) (regs s !!! reg_addr (ti rp)) (value rp) (mask rp)) in *.
  rewrite !andb_true_iff in Hc. destruct Hc as [[[[[Hp Hm] Hb0] Hb1] HC] HD].
  assert (Hb : fits 8 b) by (unfold fits; change (2 ^ 8) with 256; lia).
  pose proof (wired_store s (reg_addr (ti rp)) b Hw Hb) as Hw1.
  unfold plain in Hp. rewrite !andb_true_iff, !negb_true_iff in Hp.
  destruct Hp as [[[H1 H2] H3] H4]. split; [|split; [done|]].
  - unfold cbMMIOWriteReg. rewrite Hm. cbn [negb]. destruct (mask rp =? 255); [done|].
    rewrite H1, H2, H3, H4. cbn [negb]. unfold sbind. cbn [cb_ReadU8 cb_WriteU8 bus_mmio].
    unfold write_reg, read_reg. rewrite Hwi. fold (reg_addr (ti rp)). done.
  - rewrite !pins_eq by done. cbn [fst snd]. f_equal.
    + unfold regC. cbn. rewrite Hwi.
      destruct (Z.eqb_spec (reg_addr (CLineRegType_Index rp)) (reg_addr (ti rp))) as [E|E].
      * rewrite E, lookup_total_insert_eq. by apply bool_decide_eq_true in HC.
      * rewrite lookup_total_insert_ne by done. symmetry. by apply Hfc.
    + unfold regD. cbn. rewrite Hwi.
      destruct (Z.eqb_spec (reg_addr (DLineRegType_Index rp)) (reg_addr (ti rp))) as [E|E].
      * rewrite E, lookup_total_insert_eq. by apply bool_decide_eq_true in HD.
      * rewrite lookup_total_insert_ne by done. symmetry. by apply Hfd.
Qed.

(** Settling keeps the registers. *)
Lemma settle_regs s : regs (settle s) = regs s /\ wiring (settle s) = wiring s.
Proof.
  unfold settle, react.
  destruct (negb (scl s) && line_scl s); [done|].
  destruct (scl s && negb (line_scl s)); [by destruct (fall (ph s) (tgt s))|].
  destruct (line_scl s && sda s && negb (line_sda s)); [done|].
  by destruct (line_scl s && negb (sda s) && line_sda s).
Qed.

Lemma settle_wired s : on_bus s -> on_bus (settle s).
Proof. destruct (settle_regs s) as [H1 H2]. unfold on_bus. by rewrite H1, H2. Qed.

Lemma settle_pins s : pins (settle s) = pins s.
Proof.
  destruct (settle_regs s) as [H1 H2].
  unfold pins, outC, enC, outD, enD, regC, regD. by rewrite H1, H2.
Qed.

(** What the target makes of the lines going from [x], [y] to [x'], [y']. *)
Definition seen (x y x' y' : bool) (p : phase) (t : T) : phase * T :=
  if negb x && x' then (rise y' p, t)
  else if x && negb x' then fall p t
  else if x' && y && negb y' then (Recv true 0 0, t)
  else if x' && negb y && y' then (Idle, tg_stop t)
  else (p, t).

(** The number of polls the driver waits for. *)
Definition patience : nat := Z.to_nat MAXI2CWAITLOOP.

(** The level a pin allows. *)
Definition lvl (p : bool * bool) : bool := negb (p.2 && negb p.1).

(** A settled state with pins [pc] and [pd] and a target that will not try the driver's
    patience. *)
Record bus_at (pc pd : bool * bool) (p : phase) (t : T) (s : bus T) : Prop := {
  live_wired : on_bus s;
  live_pins : pins s = (pc, pd);
  live_ph : ph s = p;
  live_tgt : tgt s = t;
  live_scl : scl s = line_scl s;
  live_sda : sda s = line_sda s;
  live_hold : (hold s <= patience)%nat;
  live_stretch : Forall (fun n => (n <= patience)%nat) (stretch s)
}.

Lemma live_line_scl pc pd p t s : bus_at pc pd p t s -> line_scl s = lvl pc && (hold s =? 0)%nat.
Proof. intros []. unfold line_scl, lvl. by injection live_pins0 as <- <-. Qed.

Lemma live_line_sda pc pd p t s : bus_at pc pd p t s -> line_sda s = lvl pd && negb (pulls p).
Proof. intros []. unfold line_sda, lvl. rewrite live_ph0. by injection live_pins0 as <- <-. Qed.

(** Any change of the pins or of [hold] is followed by settling. *)
Lemma settle_live s pc pd p t :
  on_bus s -> pins s = (pc, pd) -> ph s = p -> tgt s = t -> (hold s <= patience)%nat ->
  Forall (fun n => (n <= patience)%nat) (stretch s) ->
  let x' := lvl pc && (hold s =? 0)%nat in
  let y' := lvl pd && negb (pulls p) in
  let '(p', t') := seen (scl s) (sda s) x' y' p t in
  bus_at pc pd p' t' (settle s) /\
  (scl s = false \/ x' = true -> hold (settle s) = hold s /\ stretch (settle s) = stretch s).
Proof.
  intros Hw Hp <- <- Hh Hs. cbn zeta.
  assert (Hx : lvl pc && (hold s =? 0)%nat = line_scl s).
  { unfold line_scl, lvl. by injection Hp as <- <-. }
  assert (Hy : lvl pd && negb (pulls (ph s)) = line_sda s).
  { unfold line_sda, lvl. by injection Hp as <- <-. }
  rewrite Hx, Hy. unfold seen.
  pose proof (settle_wired s Hw) as Hw1. pose proof (settle_pins s) as Hp1. rewrite Hp in Hp1.
  assert (Hl : scl (settle s) = line_scl (settle s) /\ sda (settle s) = line_sda (settle s)) by done.
  destruct Hl as [Hl1 Hl2]. revert Hw1 Hp1 Hl1 Hl2.
  set (s1 := settle s). assert (E : s1 = settle s) by done. clearbody s1.
  unfold settle, react in E. intros Hw1 Hp1 Hl1 Hl2.
  destruct (negb (scl s) && line_scl s) eqn:E1.
  { split; [subst s1; by constructor | by subst s1]. }
  destruct (scl s && negb (line_scl s)) eqn:E2.
  { destruct (fall (ph s) (tgt s)) as [p' t'] eqn:Ef. split.
    - subst s1. constructor; try done; cbn; destruct Hs; cbn; by try lia.
    - destruct (scl s), (line_scl s); naive_solver. }
  destruct (line_scl s && sda s && negb (line_sda s)).
  { split; [subst s1; by constructor | by subst s1]. }
  destruct (line_scl s && negb (sda s) && line_sda s).
  { split; [subst s1; by constructor | by subst s1]. }
  split; [subst s1; by constructor | by subst s1].
Qed.

(** A store to a register of the bus, from a settled state. *)
Definition store_ok pc pd p t s pc' pd' s' : Prop :=
  let '(p', t') := seen (lvl pc && (hold s =? 0)%nat) (lvl pd && negb (pulls p))
                        (lvl pc' && (hold s =? 0)%nat) (lvl pd' && negb (pulls p)) p t in
  bus_at pc' pd' p' t' s' /\
  (lvl pc && (hold s =? 0)%nat = false \/ lvl pc' && (hold s =? 0)%nat = true -> hold s' = hold s).

Lemma store_live pc pd p t s a b pc' pd' :
  bus_at pc pd p t s -> on_bus (s <| regs ::= <[a := b]> |>) ->
  pins (s <| regs ::= <[a := b]> |>) = (pc', pd') ->
  store_ok pc pd p t s pc' pd' (settle (s <| regs ::= <[a := b]> |>)).
Proof.
  intros Hl Hw Hp. pose proof (settle_live _ pc' pd' p t Hw Hp) as H1. unfold store_ok.
  specialize (H1 ltac:(apply Hl) ltac:(apply Hl) ltac:(apply Hl) ltac:(apply Hl)). cbn in H1.
  rewrite <- (live_line_scl _ _ _ _ _ Hl), <- (live_line_sda _ _ _ _ _ Hl).
  rewrite <- (live_scl _ _ _ _ _ Hl), <- (live_sda _ _ _ _ _ Hl).
  destruct (seen _ _ _ _ p t). naive_solver.
Qed.

(** A store that leaves the pins alone does nothing else either. *)
Lemma seen_same x y p t : seen x y x y p t = (p, t).
Proof. unfold seen. by destruct x, y. Qed.

(** ** The four line operations *)

Lemma join_other x :
  reg_addr (CLineRegType_Index rp) <> reg_addr (DLineRegType_Index rp) -> pin_join rp x = x.
Proof.
  intros E. unfold pin_join, shared, same_reg. apply Z.eqb_neq in E. rewrite E. destruct x as [o e].
  cbn. by rewrite orb_false_r.
Qed.

Lemma unjoin_other x :
  reg_addr (CLineRegType_Index rp) <> reg_addr (DLineRegType_Index rp) -> pin_unjoin rp x = x.
Proof.
  intros E. unfold pin_unjoin, shared, same_reg. apply Z.eqb_neq in E. rewrite E. destruct x as [o e].
  cbn. by rewrite andb_true_r.
Qed.

Lemma write_live (ti : I2C_REG_PARAMS -> Z) value mask fc fd pc pd p t s :
  rows_all (write_check ti value mask fc fd) = true ->
  (forall x, reg_addr (ti rp) <> reg_addr (CLineRegType_Index rp) -> fc rp x = x) ->
  (forall x, reg_addr (ti rp) <> reg_addr (DLineRegType_Index rp) -> fd rp x = x) ->
  (mask rp =? 0xFF) = false ->
  bus_at pc pd p t s ->
  exists s', cbMMIOWriteReg (ti rp) (value rp) (mask rp) s = (tt, s') /\
    store_ok pc pd p t s (fc rp pc) (fd rp pd) s'.
Proof.
  intros Hck Hfc Hfd Hm Hl.
  destruct (cbMMIOWriteReg_run ti value mask fc fd s Hck Hfc Hfd (live_wired _ _ _ _ _ Hl))
    as (Hr & Hw & Hp).
  rewrite Hm in Hr. rewrite (live_pins _ _ _ _ _ Hl) in Hp. rewrite Hr. eexists; split; [done|].
  by apply store_live.
Qed.

Lemma SetScl_live l pc pd p t s :
  bus_at pc pd p t s ->
  exists s', cbI2CModule_SetScl rp (b2z l) s = (tt, s') /\
    store_ok pc pd p t s (l, true) (pin_join rp pd) s'.
Proof.
  apply (write_live CLineRegType_Index (setC_value l) setC_mask (pin_drive l) pin_join).
  - apply setC_check.
  - done.
  - apply join_other.
  - by apply set_masks.
Qed.

Lemma SetSda_live l pc pd p t s :
  bus_at pc pd p t s ->
  exists s', cbI2CModule_SetSda rp (b2z l) s = (tt, s') /\
    store_ok pc pd p t s (pin_join rp pc) (l, true) s'.
Proof.
  apply (write_live DLineRegType_Index (setD_value l) setD_mask pin_join (pin_drive l)).
  - apply setD_check.
  - intros x E. apply join_other. congruence.
  - done.
  - by apply set_masks.
Qed.

(** Switching a pin off. *)
Lemma offC_live pc pd p t s :
  bus_at pc pd p t s ->
  exists s', cbMMIOWriteReg (CLineRegType_Index rp)
      (disable_value (CLineRegWriteEnableValue rp) (CLineRegWriteEnableMask rp))
      (CLineRegWriteEnableMask rp) s = (tt, s') /\
    store_ok pc pd p t s (pc.1, false) (pin_unjoin rp pd) s'.
Proof.
  apply (write_live CLineRegType_Index
    (fun w => disable_value (CLineRegWriteEnableValue w) (CLineRegWriteEnableMask w))
    CLineRegWriteEnableMask pin_undrive pin_unjoin).
  - apply offC_check.
  - done.
  - apply unjoin_other.
  - by apply set_masks.
Qed.

Lemma offD_live pc pd p t s :
  bus_at pc pd p t s ->
  exists s', cbMMIOWriteReg (DLineRegType_Index rp)
      (disable_value (DLineRegWriteEnableValue rp) (DLineRegWriteEnableMask rp))
      (DLineRegWriteEnableMask rp) s = (tt, s') /\
    store_ok pc pd p t s (pin_unjoin rp pc) (pd.1, false) s'.
Proof.
  apply (write_live DLineRegType_Index
    (fun w => disable_value (DLineRegWriteEnableValue w) (DLineRegWriteEnableMask w))
    DLineRegWriteEnableMask pin_unjoin pin_undrive).
  - apply offD_check.
  - intros x E. apply unjoin_other. congruence.
  - done.
  - by apply set_masks.
Qed.

(** Switching the read function of a pin on or off. *)
Lemma keep_live (ti : I2C_REG_PARAMS -> Z) value mask pc pd p t s :
  rows_all (write_check ti value mask pin_keep pin_keep) = true ->
  bus_at pc pd p t s ->
  exists s', cbMMIOWriteReg (ti rp) (value rp) (mask rp) s = (tt, s') /\
    bus_at pc pd p t s' /\ hold s' = hold s /\
    regs s' !!! reg_addr (ti rp) =
      (if mask rp =? 0xFF then regs s !!! reg_addr (ti rp)
       else rmw rp (scl s) (sda s) (ti rp) (regs s !!! reg_addr (ti rp)) (value rp) (mask rp)).
Proof.
  intros Hck Hl.
  destruct (cbMMIOWriteReg_run ti value mask pin_keep pin_keep s Hck ltac:(done) ltac:(done)
    (live_wired _ _ _ _ _ Hl)) as (Hr & Hw & Hp).
  rewrite Hr. rewrite (live_pins _ _ _ _ _ Hl) in Hp. unfold pin_keep in Hp.
  destruct (mask rp =? 255); [by exists s|].
  pose proof (store_live pc pd p t s _ _ pc pd Hl Hw Hp) as H1.
  eexists; split; [done|]. unfold store_ok in H1. rewrite seen_same in H1.
  destruct H1 as [H1 H2]. split; [done|]. split.
  - apply H2. destruct (lvl pc && _); tauto.
  - destruct (settle_regs (s <| regs ::= <[reg_addr (ti rp) := rmw rp (scl s) (sda s) (ti rp)
      (regs s !!! reg_addr (ti rp)) (value rp) (mask rp)]> |>)) as [-> _].
    cbn. by rewrite lookup_total_insert_eq.
Qed.

Lemma plain_of_check (ti : I2C_REG_PARAMS -> Z) value mask fc fd :
  rows_all (write_check ti value mask fc fd) = true -> plain (ti rp) = true.
Proof.
  intros Hck. assert (H0 : fits 8 0) by done.
  pose proof (rows_all_elim _ rp false false 0 Hck row H0) as Hc. unfold write_check in Hc.
  cbn zeta in Hc. rewrite !andb_true_iff in Hc. tauto.
Qed.

Lemma cbMMIOReadReg_run ti s :
  plain ti = true -> cbMMIOReadReg ti s = (read_reg (reg_addr ti) s, s).
Proof.
  unfold plain. rewrite !andb_true_iff, !negb_true_iff. intros [[[Hp1 Hp2] Hp3] Hp4].
  unfold cbMMIOReadReg. by rewrite Hp1, Hp2, Hp3, Hp4.
Qed.

Lemma live_lines pc pd p t s s' :
  bus_at pc pd p t s -> bus_at pc pd p t s' -> hold s' = hold s -> scl s' = scl s /\ sda s' = sda s.
Proof.
  intros H1 H2 Hh. rewrite (live_scl _ _ _ _ _ H1), (live_scl _ _ _ _ _ H2),
    (live_sda _ _ _ _ _ H1), (live_sda _ _ _ _ _ H2), (live_line_scl _ _ _ _ _ H1),
    (live_line_scl _ _ _ _ _ H2), (live_line_sda _ _ _ _ _ H1), (live_line_sda _ _ _ _ _ H2), Hh.
  done.
Qed.

Lemma GetScl_live pc pd p t s :
  bus_at pc pd p t s ->
  exists s', cbI2CModule_GetScl rp s = (b2z (line_scl s), s') /\ bus_at pc pd p t s' /\
    hold s' = hold s.
Proof.
  intros Hl. destruct (keep_live _ _ _ pc pd p t s readC_check Hl) as (s1 & H1 & Hl1 & Hh & Hr).
  unfold cbI2CModule_GetScl, sbind. rewrite H1.
  rewrite cbMMIOReadReg_run by (by eapply plain_of_check, readC_check).
  pose proof (rows_all_elim _ rp (scl s) (sda s) (regs s !!! reg_addr (CLineRegType_Index rp))
    input_checked row ltac:(apply Hl)) as Hi.
  apply andb_true_iff, proj1, Z.eqb_eq in Hi.
  eexists; split; [|done]. unfold sret. f_equal.
  unfold read_reg. rewrite Hr. destruct (live_wired _ _ _ _ _ Hl1) as [-> _].
  destruct (live_lines _ _ _ _ _ _ Hl Hl1 Hh) as [-> ->].
  rewrite <- (live_scl _ _ _ _ _ Hl). exact Hi.
Qed.

Lemma GetSda_live pc pd p t s :
  bus_at pc pd p t s ->
  exists s', cbI2CModule_GetSda rp s = (b2z (line_sda s), s') /\ bus_at pc pd p t s' /\
    hold s' = hold s.
Proof.
  intros Hl. destruct (keep_live _ _ _ pc pd p t s readD_check Hl) as (s1 & H1 & Hl1 & Hh & Hr).
  unfold cbI2CModule_GetSda, sbind. rewrite H1.
  rewrite cbMMIOReadReg_run by (by eapply plain_of_check, readD_check).
  pose proof (rows_all_elim _ rp (scl s) (sda s) (regs s !!! reg_addr (DLineRegType_Index rp))
    input_checked row ltac:(apply Hl)) as Hi.
  apply andb_true_iff, proj2, Z.eqb_eq in Hi.
  eexists; split; [|done]. unfold sret. f_equal.
  unfold read_reg. rewrite Hr. destruct (live_wired _ _ _ _ _ Hl1) as [-> _].
  destruct (live_lines _ _ _ _ _ _ Hl Hl1 Hh) as [-> ->].
  rewrite <- (live_sda _ _ _ _ _ Hl). exact Hi.
Qed.

(** A delay: the target's hold on the clock shrinks, and the clock may rise. *)
Lemma delay_live us pc pd p t s :
  bus_at pc pd p t s ->
  let up := lvl pc && (hold s =? 1)%nat in
  exists s', cb_DelayMicroSeconds us s = (tt, s') /\
    bus_at pc pd (if up then rise (lvl pd && negb (pulls p)) p else p) t s' /\
    hold s' = Nat.pred (hold s).
Proof.
  intros Hl. cbn zeta. pose proof (live_scl _ _ _ _ _ Hl) as Hc. pose proof (live_sda _ _ _ _ _ Hl) as Hd.
  rewrite (live_line_scl _ _ _ _ _ Hl) in Hc. rewrite (live_line_sda _ _ _ _ _ Hl) in Hd.
  pose (s0 := s <| hold ::= Nat.pred |> : bus T).
  pose proof (settle_live s0 pc pd p t
    (live_wired _ _ _ _ _ Hl) (live_pins _ _ _ _ _ Hl) (live_ph _ _ _ _ _ Hl)
    (live_tgt _ _ _ _ _ Hl)) as H1.
  pose proof (live_hold _ _ _ _ _ Hl). cbn -[settle] in H1.
  specialize (H1 ltac:(lia) (live_stretch _ _ _ _ _ Hl)).
  exists (settle s0). split; [done|]. rewrite Hc, Hd in H1. revert H1. unfold seen.
  generalize (settle s0). intros s1.
  destruct (lvl pc), (hold s) as [|[|n]]; cbn; destruct (lvl pd && negb (pulls p)); cbn;
    intros [? Hx]; (split; [done|apply Hx; tauto]).
Qed.

(** ** The rules

    The master drives both lines, [oc] and [od]; a high clock is not held. *)
Definition at_ (oc od : bool) (p : phase) (t : T) (s : bus T) : Prop :=
  bus_at (oc, true) (od, true) p t s /\ (oc = true -> hold s = O).

Lemma join_on o : pin_join rp (o, true) = (o, true).
Proof. done. Qed.

#[local] Ltac use_at :=
  match goal with
  | |- runs (at_ _ _ _ _) _ _ _ =>
      let s := fresh "s" in let Hl := fresh "Hl" in let Hh := fresh "Hh" in
      intros s [Hl Hh]
  end.

(** Finish a rule from the effect of a store. *)
#[local] Ltac by_store H :=
  let s' := fresh "s'" in let H1 := fresh in let H2 := fresh in
  destruct H as (s' & H1 & H2); exists s'; split; [exact H1|]; revert H2;
  unfold store_ok, seen, at_; rewrite ?join_on; cbn.

Lemma at_SetScl_low od p t :
  runs (at_ false od p t) (cbI2CModule_SetScl rp LEVEL_LOW) tt (at_ false od p t).
Proof. use_at. by_store (SetScl_live false _ _ _ _ s Hl). destruct (od && negb (pulls p)); naive_solver. Qed.

Lemma at_SetScl_fall od p t p' t' :
  fall p t = (p', t') ->
  runs (at_ true od p t) (cbI2CModule_SetScl rp LEVEL_LOW) tt (at_ false od p' t').
Proof.
  intros Hf. use_at. by_store (SetScl_live false _ _ _ _ s Hl). rewrite Hh, Hf by done. cbn.
  naive_solver.
Qed.

Lemma at_SetSda b od p t :
  runs (at_ false od p t) (cbI2CModule_SetSda rp (b2z b)) tt (at_ false b p t).
Proof. use_at. by_store (SetSda_live b _ _ _ _ s Hl). naive_solver. Qed.

Lemma at_SetSda_start p t :
  pulls p = false ->
  runs (at_ true true p t) (cbI2CModule_SetSda rp LEVEL_LOW) tt (at_ true false (Recv true 0 0) t).
Proof.
  intros Hp. use_at. by_store (SetSda_live false _ _ _ _ s Hl). rewrite Hh, Hp by done. cbn.
  naive_solver.
Qed.

Lemma at_SetSda_stop p t :
  pulls p = false ->
  runs (at_ true false p t) (cbI2CModule_SetSda rp LEVEL_HIGH) tt (at_ true true Idle (tg_stop t)).
Proof.
  intros Hp. use_at. by_store (SetSda_live true _ _ _ _ s Hl). rewrite Hh, Hp by done. cbn.
  naive_solver.
Qed.

Lemma at_GetScl oc od p t :
  runs (at_ oc od p t) (cbI2CModule_GetScl rp) (b2z oc) (at_ oc od p t).
Proof.
  use_at. destruct (GetScl_live _ _ _ _ s Hl) as (s' & H1 & Hl' & Hh').
  rewrite (live_line_scl _ _ _ _ _ Hl) in H1. exists s'. split.
  - rewrite H1. unfold lvl; cbn. destruct oc; cbn; [by rewrite Hh|done].
  - split; [done|]. intros. rewrite Hh'. auto.
Qed.

Lemma at_GetSda oc od p t :
  runs (at_ oc od p t) (cbI2CModule_GetSda rp) (b2z (od && negb (pulls p))) (at_ oc od p t).
Proof.
  use_at. destruct (GetSda_live _ _ _ _ s Hl) as (s' & H1 & Hl' & Hh').
  rewrite (live_line_sda _ _ _ _ _ Hl) in H1. exists s'. split.
  - rewrite H1. unfold lvl; cbn. by rewrite negb_involutive.
  - split; [done|]. intros. rewrite Hh'. auto.
Qed.

Lemma at_delay us oc od p t :
  runs (at_ oc od p t) (cb_DelayMicroSeconds us) tt (at_ oc od p t).
Proof.
  use_at. destruct (delay_live us _ _ _ _ s Hl) as (s' & H1 & Hl' & Hh').
  exists s'. split; [done|]. split.
  - destruct oc; cbn in Hl'; [|done]. by rewrite Hh in Hl' by done.
  - intros ->. by rewrite Hh', Hh.
Qed.

(** ** Waiting for the clock *)
Variable par : I2C_PARAMS.

(** One round of the loop; the clock is up when the target has let it go. *)
Lemma raise_round od pc p t s :
  bus_at pc (od, true) p t s ->
  let y := od && negb (pulls p) in
  exists s1 s2, cbI2CModule_SetScl rp LEVEL_HIGH s = (tt, s1) /\
    cb_DelayMicroSeconds (I2CDelay par) s1 = (tt, s2) /\
    bus_at (true, true) (od, true) (if line_scl s || (1 <? hold s)%nat then p else rise y p) t s2 /\
    hold s2 = Nat.pred (hold s).
Proof.
  intros Hl. cbn zeta. rewrite (live_line_scl _ _ _ _ _ Hl).
  destruct (SetScl_live true _ _ _ _ s Hl) as (s1 & H1 & H2). exists s1.
  unfold store_ok, seen in H2. rewrite join_on in H2. unfold lvl in H2 |- *. cbn in H2 |- *.
  rewrite negb_involutive in H2.
  set (c := negb (pc.2 && negb pc.1)) in *. set (y := od && negb (pulls p)) in *.
  assert (Hy : forall q, pulls (rise q p) = pulls p) by (by destruct p).
  assert (H3 : exists p1, bus_at (true, true) (od, true) p1 t s1 /\ hold s1 = hold s /\
    p1 = (if negb c && (hold s =? 0)%nat then rise y p else p)).
  { revert H2. destruct c, (hold s =? 0)%nat eqn:Eh, y; cbn; intros [Hp Hx];
      eexists; (split; [exact Hp|]); split; try done; apply Hx; tauto. }
  destruct H3 as (p1 & Hl1 & Hh1 & Hp1).
  destruct (delay_live (I2CDelay par) _ _ _ _ s1 Hl1) as (s2 & H4 & Hl2 & Hh2).
  exists s2. split; [done|]. split; [done|]. rewrite Hh2, Hh1. split; [|done].
  revert Hl2. rewrite Hh1. unfold lvl; cbn. rewrite negb_involutive. intros Hl2.
  match goal with | Hl : bus_at _ _ ?a _ _ |- bus_at _ _ ?b _ _ => replace b with a; [exact Hl|] end.
  subst p1. unfold y. destruct c, (hold s) as [|[|n]]; cbn; rewrite ?Hy; done.
Qed.

Lemma raise_live n od pc p t s :
  bus_at pc (od, true) p t s -> (hold s <= n)%nat -> (0 < n)%nat ->
  exists s', raise_scl par rp n s = (true, s') /\
    at_ true od (if line_scl s then p else rise (od && negb (pulls p)) p) t s'.
Proof.
  revert pc p s. induction n as [|n IH]; intros pc p s Hl Hn Hpos; [lia|].
  destruct (raise_round od pc p t s Hl) as (s1 & s2 & H1 & H2 & Hl2 & Hh2).
  destruct (GetScl_live _ _ _ _ s2 Hl2) as (s3 & H3 & Hl3 & Hh3).
  cbn [raise_scl]. unfold sbind. rewrite H1, H2, H3.
  rewrite (live_line_scl _ _ _ _ _ Hl2), Hh2. unfold lvl at 1. cbn [fst snd negb andb].
  rewrite (live_line_scl _ _ _ _ _ Hl) in *.
  destruct (hold s) as [|[|h]] eqn:Eh; cbn [Nat.pred Nat.eqb b2z] in *.
  1, 2: exists s3; (split; [done|]); split; [|intros _; by rewrite Hh3, Hh2].
  1, 2: by destruct (lvl pc).
  change (0 =? LEVEL_HIGH) with false. cbn iota.
  replace (lvl pc && false || (1 <? S (S h))%nat) with true in Hl3 by (by destruct (lvl pc)).
  destruct (IH _ _ _ Hl3) as (s4 & H4 & Ha4); [lia | lia |]. exists s4. split; [done|].
  rewrite (live_line_scl _ _ _ _ _ Hl3), Hh3, Hh2 in Ha4. cbn in Ha4.
  rewrite andb_false_r. done.
Qed.

Lemma wait_live od pc p t s :
  bus_at pc (od, true) p t s ->
  exists s', wait_scl par rp s = (true, s') /\
    at_ true od (if line_scl s then p else rise (od && negb (pulls p)) p) t s'.
Proof.
  intros Hl. apply (raise_live _ od pc); [done | apply Hl | unfold MAXI2CWAITLOOP; lia].
Qed.

Lemma at_wait_low od p t :
  runs (at_ false od p t) (wait_scl par rp) true (at_ true od (rise (od && negb (pulls p)) p) t).
Proof.
  use_at. pose proof (wait_live _ _ _ _ s Hl) as H1.
  by rewrite (live_line_scl _ _ _ _ _ Hl) in H1.
Qed.

Lemma at_wait_high od p t :
  runs (at_ true od p t) (wait_scl par rp) true (at_ true od p t).
Proof.
  use_at. pose proof (wait_live _ _ _ _ s Hl) as H1.
  by rewrite (live_line_scl _ _ _ _ _ Hl), Hh in H1.
Qed.
End lines.
