(* ===== verification/I2cBytes.v ===== *)
(** * Bytes and conditions on the I2C bus

    START, STOP, writing and reading a byte, enabling and disabling the bus
    ([I2C]), as rules over the states of [I2cLines]: what each does to the lines and
    what the target makes of it. *)
From S2P Require Import Prelude I2cBus I2C I2cPins I2cLines.
From stdpp Require Import gmap.
Local Open Scope Z_scope.

(** ** The target between bytes *)
Lemma fall_recv `{I2CTarget T} a acc n (t : T) :
  (n < 8)%nat -> fall (Recv a acc n) t = (Recv a acc n, t).
Proof. intros Hn. do 8 (destruct n as [|n]; [done|]). lia. Qed.

(** The target takes a byte: the acknowledge, and the state after it. *)
Definition take_byte `{I2CTarget T} (a : bool) (data : Z) (t : T) : bool * T :=
  if a then tg_addr data t else tg_recv data t.

Definition after_byte `{I2CTarget T} (a : bool) (data : Z) (ok : bool) (t : T) : phase * T :=
  if ok then if a && Z.odd data then send_next t else (Recv false 0 0, t) else (Idle, t).

(** The shift register of the target, and of the driver. *)
Lemma shift_in data k :
  0 <= k -> 2 * Z.shiftr data (k + 1) + b2z (Z.testbit data k) = Z.shiftr data k.
Proof.
  intros Hk. apply Z.bits_inj'. intros m Hm.
  rewrite Z.shiftr_spec by done. rewrite Z.add_comm.
  change (b2z (Z.testbit data k)) with (Z.b2z (Z.testbit data k)).
  destruct (Z.eq_dec m 0) as [->|].
  - rewrite Z.add_b2z_double_bit0. f_equal; lia.
  - replace m with (Z.succ (m - 1)) at 1 by lia. rewrite Z.add_comm, Z.testbit_succ_r by lia.
    rewrite Z.shiftr_spec by lia. f_equal; lia.
Qed.

Lemma shift_in_nat data k :
  2 * Z.shiftr data (Z.of_nat (S k)) + b2z (Z.testbit data (Z.of_nat k)) =
  Z.shiftr data (Z.of_nat k).
Proof. rewrite <- (shift_in data (Z.of_nat k)) by lia. do 3 f_equal. lia. Qed.

Lemma bit_value data k : 0 <= k -> Z.land (Z.shiftr data k) 1 = b2z (Z.testbit data k).
Proof.
  intros Hk. change 1 with (Z.ones 1). rewrite Z.land_ones by done. change (2 ^ 1) with 2.
  rewrite <- Z.bit0_mod, Z.shiftr_spec by done. done.
Qed.

Section bytes.
Context {T : Type} `{I2CTarget T}.
Implicit Types t : T.
Variable par : I2C_PARAMS.
Variable rp : I2C_REG_PARAMS.
Hypothesis Hrp : cbI2CModule_GetI2CParams (I2CBusNum par) = Some rp.

Let row : In rp rows := params_row _ _ Hrp.

Lemma bus_checked : cbI2CModule_CheckBusNum (I2CBusNum par) = true.
Proof. by eapply params_check. Qed.

(** Run a sequence by its rules. *)
Lemma low_then_sda_low b od p t :
  runs (at_ rp false od p t) (low_then_sda par rp (b2z b)) tt (at_ rp false b p t).
Proof.
  eapply runs_bind; [by apply at_SetScl_low|]. eapply runs_bind; [by apply at_delay|].
  eapply runs_bind; [by apply at_SetSda|]. by apply at_delay.
Qed.

Lemma low_then_sda_fall b od p t p' t' :
  fall p t = (p', t') ->
  runs (at_ rp true od p t) (low_then_sda par rp (b2z b)) tt (at_ rp false b p' t').
Proof.
  intros Hf. eapply runs_bind; [by apply at_SetScl_fall|]. eapply runs_bind; [by apply at_delay|].
  eapply runs_bind; [by apply at_SetSda|]. by apply at_delay.
Qed.

(** ** Writing a byte *)
Lemma write_bits_run data a k oc od t p' t' :
  (k < 8)%nat -> fits 8 data -> fall (Recv a data 8) t = (p', t') ->
  runs (at_ rp oc od (Recv a (Z.shiftr data (Z.of_nat (S k))) (7 - k)) t)
    (write_bits par rp data (S k)) true (at_ rp false true p' t').
Proof.
  intros Hk Hd Hf. revert oc od. induction k as [|k IH]; intros oc od.
  all: cbn [write_bits]; rewrite bit_value by lia.
  all: set (v := Z.testbit data (Z.of_nat _)).
  all: replace (if b2z v =? 0 then LEVEL_LOW else LEVEL_HIGH) with (b2z v) by (by destruct v).
  all: eapply runs_bind; [destruct oc;
    [apply low_then_sda_fall, fall_recv; lia | apply low_then_sda_low]|].
  all: eapply runs_bind; [by apply at_wait_low|]; cbn [pulls negb rise].
  all: rewrite andb_true_r.
  all: eapply runs_bind; [eapply runs_bind; [by apply at_GetSda|]; apply runs_ret|].
  all: cbn [pulls negb]; rewrite andb_true_r, Z.eqb_refl; cbn [negb].
  all: unfold v; rewrite shift_in_nat.
  - eapply runs_bind; [apply (low_then_sda_fall true); exact Hf|]. apply runs_ret.
  - eapply runs_bind; [apply runs_ret|].
    replace (S (7 - S k)) with (7 - k)%nat by lia. apply IH. lia.
Qed.

Lemma WriteByte_run data a od t ok t1 p2 t2 :
  fits 8 data -> take_byte a data t = (ok, t1) -> after_byte a data ok t1 = (p2, t2) ->
  runs (at_ rp false od (Recv a 0 0) t) (cbI2CModule_WriteByte par rp data true) ok
       (at_ rp false true p2 t2).
Proof.
  intros Hd Ht Ha. unfold cbI2CModule_WriteByte. rewrite bus_checked. cbn [negb].
  set (p1 := if ok then AckBit (a && Z.odd data) else Idle).
  assert (Hf : fall (Recv a data 8) t = (p1, t1)).
  { cbn. unfold take_byte in Ht. by rewrite Ht. }
  eapply runs_bind.
  { replace (Recv a 0 0) with (Recv a (Z.shiftr data (Z.of_nat 8)) (7 - 7)).
    - apply write_bits_run; [lia | done | exact Hf].
    - f_equal. rewrite Z.shiftr_div_pow2 by lia. by apply Z.div_small. }
  cbn [andb]. eapply runs_bind; [by apply at_wait_low|].
  assert (Hr : forall y, rise y p1 = p1) by (unfold p1; by destruct ok).
  rewrite Hr. eapply runs_bind; [eapply runs_bind; [by apply at_GetSda|]; apply runs_ret|].
  assert (Hb : (b2z (true && negb (pulls p1)) =? LEVEL_LOW) = ok) by (unfold p1; by destruct ok).
  rewrite Hb. eapply runs_bind; [|apply runs_ret]. apply (low_then_sda_fall true).
  unfold p1. unfold after_byte in Ha. destruct ok; [|done]. cbn.
  by destruct (a && Z.odd data).
Qed.

(** ** Reading a byte *)
Lemma u8_shift_in b k :
  (k < 8)%nat ->
  u8 (Z.shiftl (Z.shiftr (u8 b) (Z.of_nat (S k))) 1 + b2z (Z.testbit b (Z.of_nat k))) =
  Z.shiftr (u8 b) (Z.of_nat k).
Proof.
  intros Hk. rewrite Z.shiftl_mul_pow2, Z.mul_comm by lia. change (2 ^ 1) with 2.
  rewrite <- (testbit_wrap 8 b) by lia. rewrite shift_in_nat.
  apply wrap_small, shiftr_fits; [lia | by apply wrap_fits].
Qed.

Lemma read_bits_run b k t :
  (k < 8)%nat ->
  runs (at_ rp false true (Send b (7 - k)) t)
    (read_bits par rp (S k) (Z.shiftr (u8 b) (Z.of_nat (S k)))) (true, u8 b)
    (at_ rp false true MAck t).
Proof.
  intros Hk. induction k as [|k IH].
  all: cbn [read_bits].
  all: eapply runs_bind; [by apply at_wait_low|]; cbn [rise negb].
  all: eapply runs_bind; [by apply at_GetSda|]; cbn [pulls].
  all: rewrite andb_true_l, negb_involutive.
  all: match goal with |- context [Z.testbit _ ?i] =>
         lazymatch i with
         | 7 - Z.of_nat (7 - ?j) => replace i with (Z.of_nat j) by lia
         end end.
  all: rewrite u8_shift_in by done.
  all: eapply runs_bind; [by apply at_SetScl_fall|].
  all: eapply runs_bind; [by apply at_delay|].
  - apply (runs_ret (at_ rp false true MAck t)).
  - replace ((7 - S k) =? 7)%nat with false by (symmetry; apply Nat.eqb_neq; lia).
    replace (S (7 - S k)) with (7 - k)%nat by lia. apply IH. lia.
Qed.

(** With an acknowledge the target goes on to its next byte, without it stops. *)
Lemma ReadByte_ack_run b t p' t' :
  send_next t = (p', t') ->
  runs (at_ rp false true (Send b 0) t) (cbI2CModule_ReadByte par rp true false)
       (true, Some (u8 b)) (at_ rp false true p' t').
Proof.
  intros Hs. unfold cbI2CModule_ReadByte. rewrite bus_checked. cbn [negb andb].
  eapply runs_bind.
  { pose proof (read_bits_run b 7 t ltac:(lia)) as H1.
    replace (Z.shiftr (u8 b) (Z.of_nat 8)) with 0 in H1; [exact H1|].
    rewrite Z.shiftr_div_pow2 by lia. symmetry. apply Z.div_small, (wrap_fits 8); lia. }
  cbn [orb andb]. eapply runs_bind; [apply (at_SetSda rp row false)|].
  eapply runs_bind; [by apply at_delay|]. eapply runs_bind; [by apply at_wait_low|].
  cbn [rise andb negb]. eapply runs_bind; [by apply at_SetScl_fall|].
  eapply runs_bind; [eapply runs_bind; [by apply at_delay|]; apply (at_SetSda rp row true)|].
  eapply runs_bind; [by apply at_delay|]. apply runs_ret.
Qed.

Lemma ReadByte_nack_run b t :
  runs (at_ rp false true (Send b 0) t) (cbI2CModule_ReadByte par rp false true)
       (true, Some (u8 b)) (at_ rp false true Idle t).
Proof.
  unfold cbI2CModule_ReadByte. rewrite bus_checked. cbn [negb andb].
  eapply runs_bind.
  { pose proof (read_bits_run b 7 t ltac:(lia)) as H1.
    replace (Z.shiftr (u8 b) (Z.of_nat 8)) with 0 in H1; [exact H1|].
    rewrite Z.shiftr_div_pow2 by lia. symmetry. apply Z.div_small, (wrap_fits 8); lia. }
  cbn [orb andb]. eapply runs_bind; [apply (at_SetSda rp row true)|].
  eapply runs_bind; [by apply at_delay|]. eapply runs_bind; [by apply at_wait_low|].
  cbn [rise andb negb pulls]. eapply runs_bind; [by apply at_SetScl_fall|].
  eapply runs_bind; [apply runs_ret|]. eapply runs_bind; [by apply at_delay|]. apply runs_ret.
Qed.

(** ** START and STOP *)
Lemma pulls_rise y p : pulls (rise y p) = pulls p.
Proof. by destruct p. Qed.

Lemma Stop_run od p t :
  pulls p = false ->
  runs (at_ rp false od p t) (cbI2CModule_Stop par rp) true (at_ rp true true Idle (tg_stop t)).
Proof.
  intros Hp. unfold cbI2CModule_Stop. rewrite bus_checked. cbn [negb].
  eapply runs_bind; [apply (low_then_sda_low false)|].
  eapply runs_bind; [by apply at_wait_low|].
  eapply runs_bind; [apply at_SetSda_stop; [done | by rewrite pulls_rise]|].
  eapply runs_bind; [by apply at_delay|]. apply runs_ret.
Qed.

Lemma start_condition_run p t :
  pulls p = false ->
  runs (at_ rp true true p t) (start_condition par rp) true (at_ rp false false (Recv true 0 0) t).
Proof.
  intros Hp. eapply runs_bind; [by apply at_GetScl|]. eapply runs_bind; [by apply at_GetSda|].
  rewrite Hp. cbn [b2z andb negb]. change (1 =? LEVEL_HIGH) with true. cbn [andb].
  eapply runs_bind; [by apply at_SetSda_start|]. eapply runs_bind; [by apply at_delay|].
  eapply runs_bind; [by apply at_SetScl_fall|]. eapply runs_bind; [by apply at_delay|].
  apply runs_ret.
Qed.

(** START from any state in which nobody pulls the data line: from an idle bus and, in the
    middle of a transfer, with the clock low. *)
Lemma Start_live oc p t s :
  bus_at rp (oc, true) (true, true) p t s -> pulls p = false ->
  exists s', cbI2CModule_Start par rp s = (true, s') /\
    at_ rp false false (Recv true 0 0) t s'.
Proof.
  intros Hl Hp. unfold cbI2CModule_Start. rewrite bus_checked. cbn [negb].
  destruct (GetScl_live rp row _ _ _ _ s Hl) as (s1 & H1 & Hl1 & Hh1).
  unfold sbind at 1. rewrite H1.
  assert (Hup : exists p2 s2, pulls p2 = false /\ at_ rp true true p2 t s2 /\
    (if b2z (line_scl s) =? LEVEL_LOW then wait_scl par rp else sret true) s1 = (true, s2)).
  { assert (El : line_scl s = line_scl s1).
    { by rewrite (live_line_scl _ _ _ _ _ _ Hl), (live_line_scl _ _ _ _ _ _ Hl1), Hh1. }
    destruct (line_scl s) eqn:E.
    - exists p, s1. split; [done|]. split; [|done].
      rewrite (live_line_scl _ _ _ _ _ _ Hl1) in El. unfold lvl in El. cbn in El.
      destruct oc; [|done]. split; [done|]. intros _.
      destruct (Nat.eqb_spec (hold s1) 0); [done|]. cbn in El. done.
    - destruct (wait_live rp row par _ _ _ _ s1 Hl1) as (s2 & H2 & Ha2).
      rewrite <- El in Ha2. exists (rise (true && negb (pulls p)) p), s2.
      rewrite pulls_rise. done. }
  destruct Hup as (p2 & s2 & Hp2 & Ha2 & H2). unfold sbind at 1. rewrite H2. cbn [negb].
  destruct (at_GetSda rp row true true p2 t s2 Ha2) as (s3 & H3 & Ha3).
  unfold sbind at 1. rewrite H3, Hp2. cbn [b2z andb negb]. change (1 =? LEVEL_LOW) with false.
  cbn iota. by apply (start_condition_run p2 t Hp2).
Qed.

(** ** Between transfers

    Nobody pulls the data line, and the target is not in the middle of a byte it
    could answer. What the pins put out is left over from the last transfer. *)
Definition quiet (p : phase) : bool :=
  match p with Idle => true | Recv _ _ n => (n <? 8)%nat | _ => false end.

Definition rest (t : T) (s : bus T) : Prop :=
  exists pc pd p, bus_at rp pc pd p t s /\ lvl pd = true /\ quiet p = true /\
    (line_scl s = false -> quiet (rise true p) = true).

Lemma quiet_pulls p : quiet p = true -> pulls p = false.
Proof. by destruct p. Qed.

Lemma quiet_fall p t : quiet p = true -> fall p t = (p, t).
Proof. destruct p; try done. intros Hq. apply fall_recv. by apply Nat.ltb_lt. Qed.

(** A store while the data line is and stays high. *)
Lemma store_quiet pc pd p t s pc' pd' s' :
  store_ok rp pc pd p t s pc' pd' s' -> quiet p = true -> lvl pd = true -> lvl pd' = true ->
  bus_at rp pc' pd'
    (if negb (lvl pc && (hold s =? 0)%nat) && (lvl pc' && (hold s =? 0)%nat) then rise true p else p)
    t s'.
Proof.
  unfold store_ok, seen. intros Hs Hq Hd Hd'. rewrite Hd, Hd' in Hs.
  rewrite (quiet_pulls p Hq), (quiet_fall p t Hq) in Hs. cbn in Hs.
  destruct (negb (lvl pc && _) && _); [apply Hs|].
  destruct (lvl pc && _), (lvl pc' && _); cbn in Hs; apply Hs.
Qed.

Lemma hold_quiet pc pd p t s pc' pd' s' :
  store_ok rp pc pd p t s pc' pd' s' -> lvl pc' = true -> hold s' = hold s.
Proof.
  unfold store_ok. destruct (seen _ _ _ _ p t) as [p' t']. intros [_ Hh] Hc. apply Hh.
  rewrite Hc. destruct (hold s =? 0)%nat; [by right | left; apply andb_false_r].
Qed.

Lemma Enable_run t :
  runs (rest t) (cbI2CModule_Enable par rp) tt
    (fun s => exists p, bus_at rp (true, true) (true, true) p t s /\ pulls p = false).
Proof.
  intros s (pc & pd & p & Hl & Hd & Hq & _). unfold cbI2CModule_Enable. rewrite bus_checked. cbn [negb].
  destruct (SetSda_live rp row true _ _ _ _ s Hl) as (s1 & H1 & Hs1).
  change (b2z true) with LEVEL_HIGH in H1. unfold sbind at 1. rewrite H1.
  apply store_quiet in Hs1; [|done|done|done].
  replace (negb _ && _) with false in Hs1 by
    (unfold lvl, pin_join; destruct pc as [[] []], (shared rp), (hold s); done).
  destruct (delay_live rp I2C_SHORT_DELAY _ _ _ _ s1 Hs1) as (s2 & H2 & Hl2 & Hh2).
  unfold sbind at 1. rewrite H2. cbn zeta in Hl2.
  set (p2 := if lvl _ && _ then _ else _) in Hl2.
  destruct (raise_round rp row par true _ p2 t s2 Hl2) as (s3 & s4 & H3 & H4 & Hl4 & Hh4).
  exists s4. split; [unfold sbind; by rewrite H3|]. eexists; split; [exact Hl4|].
  assert (Hp2 : pulls p2 = false).
  { unfold p2. destruct (lvl _ && _); rewrite ?pulls_rise; by apply quiet_pulls. }
  destruct (line_scl s2 || _); by rewrite ?pulls_rise.
Qed.

Lemma quiet_rise p : quiet p = true -> (match p with Recv _ _ n => (n < 7)%nat | _ => True end) ->
  quiet (rise true p) = true.
Proof. destruct p as [|a acc n| | | |]; try done. cbn. intros. apply Nat.leb_le. lia. Qed.

Lemma Disable_run oc p t :
  quiet p = true -> (match p with Recv _ _ n => (n < 7)%nat | _ => True end) ->
  runs (at_ rp oc true p t) (cbI2CModule_Disable par rp) tt (rest t).
Proof.
  intros Hq Hn s [Hl Hh]. unfold cbI2CModule_Disable. rewrite bus_checked. cbn [negb].
  destruct (keep_live rp row CLineRegType_Index _ _ _ _ _ _ s offRC_check Hl) as (s1 & H1 & Hl1 & Hh1 & _).
  unfold sbind at 1. rewrite H1.
  destruct (offC_live rp row _ _ _ _ s1 Hl1) as (s2 & H2 & Hs2).
  assert (Hu : lvl (pin_unjoin rp (true, true)) = true) by (by unfold lvl; cbn; destruct (shared rp)).
  pose proof (hold_quiet _ _ _ _ _ _ _ _ Hs2 eq_refl) as Hh2.
  unfold sbind at 1. rewrite H2. apply store_quiet in Hs2; [|done|done|done].
  set (p2 := if negb _ && _ then _ else _) in Hs2.
  assert (Hq2 : quiet p2 = true) by (unfold p2; destruct (negb _ && _); [by apply quiet_rise|done]).
  destruct (keep_live rp row DLineRegType_Index _ _ _ _ _ _ s2 offRD_check Hs2) as (s3 & H3 & Hl3 & Hh3 & _).
  unfold sbind at 1. rewrite H3.
  destruct (offD_live rp row _ _ _ _ s3 Hl3) as (s4 & H4 & Hs4).
  rewrite H4. exists s4. split; [done|].
  pose proof (hold_quiet _ _ _ _ _ _ _ _ Hs4 eq_refl) as Hh4.
  apply store_quiet in Hs4; [|done|done|done].
  eexists _, _, _. split; [exact Hs4|]. split; [done|].
  rewrite (live_line_scl _ _ _ _ _ _ Hs4), Hh4, Hh3, Hh2. unfold p2 in *.
  destruct (hold s1 =? 0)%nat; cbn; rewrite ?andb_false_r; cbn; [by destruct oc|].
  split; [done|]. intros _. by apply quiet_rise.
Qed.

(** Time passes. *)
Lemma rest_delay us t : runs (rest t) (cb_DelayMicroSeconds us) tt (rest t).
Proof.
  clear row Hrp par. intros s (pc & pd & p & Hl & Hd & Hq & Hr).
  destruct (delay_live rp us _ _ _ _ s Hl) as (s' & H1 & Hl' & Hh').
  exists s'. split; [done|]. eexists _, _, _. split; [exact Hl'|]. split; [done|].
  rewrite (live_line_scl _ _ _ _ _ _ Hl'), Hh'. rewrite (live_line_scl _ _ _ _ _ _ Hl) in Hr.
  rewrite Hd, (quiet_pulls p Hq) in *. cbn [andb negb] in *.
  destruct (lvl pc), (hold s) as [|[|n]]; cbn in *; naive_solver.
Qed.
End bytes.

(** A bus that was not used yet: nothing is driven, and the target is idle. *)
Definition idle_bus {T} (rp : I2C_REG_PARAMS) (t : T) (st : list nat) : bus T :=
  mkBus ∅ rp true true Idle t 0 st.

Lemma idle_rest `{I2CTarget T} rp (t : T) st :
  In rp rows -> Forall (fun n => (n <= patience)%nat) st -> rest rp t (idle_bus rp t st).
Proof.
  intros Hr Hst.
  assert (Hp : exists oc od, pins (idle_bus rp t st) = ((oc, false), (od, false))).
  { do 10 (destruct Hr as [<- | Hr]; [eexists _, _; vm_compute; reflexivity|]). by destruct Hr. }
  destruct Hp as (oc & od & Hp).
  assert (Hl : line_scl (idle_bus rp t st) = true /\ line_sda (idle_bus rp t st) = true).
  { unfold line_scl, line_sda. revert Hp. unfold pins. by intros [= -> -> -> ->]. }
  destruct Hl as [Hl1 Hl2].
  exists (oc, false), (od, false), Idle. split; [|by rewrite Hl1].
  constructor; done || (cbn; lia).
Qed.
