(* ===== verification/I2cSpec.v ===== *)
(** * I2C transfers

    The two interfaces of the I2C master ([I2C]) against what they promise: a transfer
    of bytes with the target. The specification knows bytes and acknowledges only
    ([read_transfer], [write_transfer]); the theorems say that the driver implements it
    over the lines, for each bus, any target, and any stretching of the clock the
    driver has the patience for; and that it gives up when the clock stays low. *)
From S2P Require Import Prelude I2cBus I2C I2cPins I2cLines I2cBytes.
From stdpp Require Import gmap.
Local Open Scope Z_scope.

(** ** The specification *)
Section transfer.
Context {T : Type} `{I2CTarget T}.

(** The target takes the bytes as long as it acknowledges them. *)
Fixpoint recv_all (l : list Z) (t : T) : bool * T :=
  match l with
  | [] => (true, t)
  | x :: l' => let '(ok, t) := tg_recv x t in if ok then recv_all l' t else (false, t)
  end.

(** The target sends [n] bytes. *)
Fixpoint send_all (n : nat) (t : T) : list Z * T :=
  match n with
  | O => ([], t)
  | S n' => let '(b, t) := tg_send t in let '(l, t) := send_all n' t in (u8 b :: l, t)
  end.

(** START, the address and [l]. *)
Definition address_and (addr : Z) (l : list Z) (t : T) : bool * T :=
  let '(ok, t) := tg_addr addr t in if ok then recv_all l t else (false, t).

(** The start of a read: the offset is written first, in a transfer of its own without a
    STOP, for a target that has one; then the address is sent with the read bit. *)
Definition read_head (addr off : Z) (offset : bool) (t : T) : bool * T :=
  let '(ok, t) := if offset then address_and addr [off] t else (true, t) in
  if ok then tg_addr (addr + 1) t else (false, t).

(** A read of [n] bytes. *)
Definition read_transfer (addr off : Z) (n : nat) (offset : bool) (t : T) : bool * list Z * T :=
  let '(ok, t) := read_head addr off offset t in
  if ok then let '(l, t) := send_all n t in (true, l, tg_stop t) else (false, [], tg_stop t).

(** A write: no STOP after the segment pointer was written. *)
Definition write_transfer (addr off : Z) (l : list Z) (offset : bool) (t : T) : bool * T :=
  let '(ok, t) := address_and addr ((if offset then [off] else []) ++ l) t in
  (ok, if ok && (addr =? I2C_EDID_SEGNUM_SLAVE_ADDR) then t else tg_stop t).
End transfer.

(** ** The parts of a transfer *)
Section parts.
Context {T : Type} `{I2CTarget T}.
Implicit Types t : T.
Variable par : I2C_PARAMS.
Variable rp : I2C_REG_PARAMS.
Hypothesis Hrp : cbI2CModule_GetI2CParams (I2CBusNum par) = Some rp.

Let row : In rp rows := params_row _ _ Hrp.

(** Between two bytes: ready for one, or turned away. *)
Definition ready (ok : bool) : phase := if ok then Recv false 0 0 else Idle.

Lemma write_data_run x t ok t1 :
  fits 8 x -> tg_recv x t = (ok, t1) ->
  runs (at_ rp false true (Recv false 0 0) t) (cbI2CModule_WriteByte par rp x true) ok
       (at_ rp false true (ready ok) t1).
Proof.
  intros Hx Ht. apply (WriteByte_run par rp Hrp x false _ _ ok t1); [done | done |].
  by destruct ok.
Qed.

Lemma write_addr_run x t ok t1 :
  fits 8 x -> Z.even x = true -> tg_addr x t = (ok, t1) ->
  runs (at_ rp false false (Recv true 0 0) t) (cbI2CModule_WriteByte par rp x true) ok
       (at_ rp false true (ready ok) t1).
Proof.
  intros Hx He Ht. apply (WriteByte_run par rp Hrp x true _ _ ok t1); [done | done |].
  unfold after_byte. rewrite <- Z.negb_even, He. by destruct ok.
Qed.

Lemma read_addr_run x t t1 ok p2 t2 :
  fits 8 x -> Z.odd x = true -> tg_addr x t = (ok, t1) ->
  (if ok then send_next t1 else (Idle, t1)) = (p2, t2) ->
  runs (at_ rp false false (Recv true 0 0) t) (cbI2CModule_WriteByte par rp x true) ok
       (at_ rp false true p2 t2).
Proof.
  intros Hx Ho Ht Hs. apply (WriteByte_run par rp Hrp x true _ _ ok t1); [done | done |].
  unfold after_byte. by rewrite Ho.
Qed.

(** A repeated START. *)
Lemma restart_run p t :
  quiet p = true ->
  runs (at_ rp false true p t) (cbI2CModule_Start par rp) true (at_ rp false false (Recv true 0 0) t).
Proof.
  intros Hq s [Hl _]. apply (Start_live par rp Hrp _ _ _ _ Hl). by apply quiet_pulls.
Qed.

(** The states after [Enable]. *)
Definition enabled t (s : bus T) : Prop :=
  exists p, bus_at rp (true, true) (true, true) p t s /\ pulls p = false.

Lemma start_run t :
  runs (enabled t) (cbI2CModule_Start par rp) true (at_ rp false false (Recv true 0 0) t).
Proof. intros s (p & Hl & Hp). by apply (Start_live par rp Hrp _ _ _ _ Hl). Qed.

(** [all_ok] *)
Lemma all_ok_cons (P R Q : bus T -> Prop) m l ok b :
  runs P m ok R -> (ok = true -> runs R (all_ok l) b Q) ->
  (ok = false -> b = false /\ forall s, R s -> Q s) -> runs P (all_ok (m :: l)) b Q.
Proof.
  intros Hm Hl Hf. eapply runs_bind; [exact Hm|]. destruct ok; [by apply Hl|].
  destruct (Hf eq_refl) as [-> HQ]. eapply runs_mono; [apply runs_ret | | exact HQ]; done.
Qed.

Lemma write_bytes_run l buf i t ok t1 s :
  0 <= i -> Forall (fits 8) l ->
  (forall j x, l !! j = Some x -> rd buf (i + Z.of_nat j) = Ok x) ->
  recv_all l t = (ok, t1) -> at_ rp false true (Recv false 0 0) t s ->
  exists s', write_bytes par rp (length l) buf i s = Ok (ok, s') /\
    at_ rp false true (ready ok) t1 s'.
Proof.
  intros Hi Hf. revert i t s Hi. induction Hf as [|x l Hx Hf IH]; intros i t s Hi Hb Ht Hs.
  - injection Ht as <- <-. by exists s.
  - cbn [length write_bytes]. pose proof (Hb 0%nat x eq_refl) as H0. rewrite Z.add_0_r in H0.
    rewrite H0. cbn [rbind]. cbn [recv_all] in Ht.
    destruct (tg_recv x t) as [ok1 t2] eqn:E.
    destruct (write_data_run x t ok1 t2 Hx E s Hs) as (s1 & H1 & Hs1). rewrite H1.
    destruct ok1.
    + apply (IH (i + 1) t2 s1); [lia | | done | done].
      intros j y Hj. specialize (Hb (S j) y Hj).
      by replace (i + 1 + Z.of_nat j) with (i + Z.of_nat (S j)) by lia.
    + injection Ht as <- <-. by exists s1.
Qed.

(** The bytes of a read, from the state in which the target has put out the first. *)
Lemma read_bytes_run n buf i b t l t1 s :
  0 <= i -> i + Z.of_nat (S n) <= zlen buf -> send_all n t = (l, t1) ->
  at_ rp false true (Send b 0) t s ->
  exists s', read_bytes par rp n buf i s =
      Ok (true, take (Z.to_nat i) buf ++ (u8 b :: l) ++ drop (Z.to_nat i + S n) buf, s') /\
    at_ rp false true Idle t1 s'.
Proof.
  revert buf i b t l s. induction n as [|n IH]; intros buf i b t l s Hi Hl Hsend Hs.
  - injection Hsend as <- <-. cbn [read_bytes]. unfold read_into. cbn [negb].
    destruct (ReadByte_nack_run par rp Hrp b t s Hs) as (s1 & H1 & Hs1). rewrite H1.
    rewrite wr_in by lia. cbn [rbind]. exists s1. split; [|done].
    rewrite insert_take_drop by (unfold zlen in Hl; lia).
    replace (Z.to_nat i + 1)%nat with (S (Z.to_nat i)) by lia. done.
  - cbn [send_all] in Hsend. destruct (tg_send t) as [b2 t2] eqn:E2.
    destruct (send_all n t2) as [l2 t3] eqn:E3. injection Hsend as <- <-.
    cbn [read_bytes]. unfold read_into. cbn [negb].
    assert (Hn : send_next t = (Send b2 0, t2)) by (unfold send_next; by rewrite E2).
    destruct (ReadByte_ack_run par rp Hrp b t _ _ Hn s Hs) as (s1 & H1 & Hs1). rewrite H1.
    rewrite wr_in by lia. cbn [rbind].
    destruct (IH (<[Z.to_nat i := u8 b]> buf) (i + 1) b2 t2 l2 s1) as (s2 & H2 & Hs2);
      [lia | rewrite zlen_insert; lia | done | done |].
    rewrite H2. exists s2. split; [|done]. do 3 f_equal. unfold zlen in Hl.
    replace (Z.to_nat (i + 1)) with (S (Z.to_nat i)) by lia.
    rewrite (take_S_r _ _ (u8 b)) by (apply list_lookup_insert_eq; lia).
    rewrite take_insert_ge by lia. rewrite drop_insert_lt by lia.
    rewrite <- app_assoc.
    by replace (Z.to_nat i + S (S n))%nat with (S (Z.to_nat i) + S n)%nat by lia.
Qed.

(** A read of more bytes than the buffer has room for. *)
Lemma read_bytes_overrun n buf i b t s :
  0 <= i <= zlen buf -> zlen buf - i <= Z.of_nat n -> at_ rp false true (Send b 0) t s ->
  read_bytes par rp n buf i s = Err OutOfBounds.
Proof.
  revert buf i b t s. induction n as [|n IH]; intros buf i b t s Hi Hn Hs; cbn [read_bytes];
    unfold read_into; cbn [negb].
  - destruct (ReadByte_nack_run par rp Hrp b t s Hs) as (s1 & H1 & Hs1). rewrite H1.
    by rewrite wr_out by lia.
  - destruct (send_next t) as [p2 t2] eqn:E. unfold send_next in E.
    destruct (tg_send t) as [b2 t2'] eqn:E2. injection E as <- <-.
    assert (Hn2 : send_next t = (Send b2 0, t2')) by (unfold send_next; by rewrite E2).
    destruct (ReadByte_ack_run par rp Hrp b t _ _ Hn2 s Hs) as (s1 & H1 & Hs1). rewrite H1.
    destruct (Z.eq_dec i (zlen buf)); [by rewrite wr_out by lia|].
    rewrite wr_in by lia. cbn [rbind].
    apply (IH _ _ b2 t2'); [rewrite zlen_insert; lia | rewrite zlen_insert; lia | done].
Qed.

(** The second half of the start of a read. *)
Lemma read_addr_ok P t ok t2 p3 t3 :
  runs P (cbI2CModule_Start par rp) true (at_ rp false false (Recv true 0 0) t) ->
  fits 8 (SlaveAddress par) -> Z.even (SlaveAddress par) = true ->
  tg_addr (SlaveAddress par + 1) t = (ok, t2) ->
  (if ok then send_next t2 else (Idle, t2)) = (p3, t3) ->
  runs P (all_ok [cbI2CModule_Start par rp;
            cbI2CModule_WriteByte par rp (u8 (SlaveAddress par + 1)) true]) ok
    (at_ rp false true p3 t3).
Proof.
  intros Hst Hf He Ha Hn.
  assert (Hodd : Z.odd (SlaveAddress par + 1) = true) by (by rewrite Z.odd_add, <- Z.negb_even, He).
  assert (Hx : u8 (SlaveAddress par + 1) = SlaveAddress par + 1).
  { apply wrap_small. unfold fits in *. change (2 ^ 8) with 256 in *.
    destruct (Z.eq_dec (SlaveAddress par) 255) as [E|]; [by rewrite E in He|lia]. }
  assert (Hfx : fits 8 (SlaveAddress par + 1)) by (rewrite <- Hx; by apply wrap_fits).
  rewrite Hx. eapply all_ok_cons; [exact Hst | intros _ | done].
  eapply all_ok_cons; [by apply (read_addr_run _ t t2 ok p3 t3) | intros -> | intros ->; done].
  apply runs_ret.
Qed.

Lemma read_header_run t ok t2 p3 t3 :
  fits 8 (SlaveAddress par) -> Z.even (SlaveAddress par) = true -> fits 8 (OffSet par) ->
  read_head (SlaveAddress par) (OffSet par) (has_offset par) t = (ok, t2) ->
  (if ok then send_next t2 else (Idle, t2)) = (p3, t3) ->
  runs (enabled t) (read_header par rp) ok (at_ rp false true p3 t3).
Proof.
  intros Hf He Ho Hh Hn. unfold read_header, read_head in *.
  destruct (has_offset par); cbn [app].
  - unfold address_and in Hh. destruct (tg_addr (SlaveAddress par) t) as [ok1 t1] eqn:E1.
    eapply all_ok_cons; [by apply start_run | intros _ | done].
    eapply all_ok_cons; [by apply write_addr_run with (ok := ok1) (t1 := t1) | |].
    2: { intros ->. injection Hh as <- <-. injection Hn as <- <-. done. }
    intros ->. cbn [recv_all] in Hh. destruct (tg_recv (OffSet par) t1) as [ok2 t1'] eqn:E2.
    eapply all_ok_cons; [by apply write_data_run with (ok := ok2) (t1 := t1') | |].
    2: { intros ->. injection Hh as <- <-. injection Hn as <- <-. done. }
    intros ->. eapply read_addr_ok; [by apply restart_run | done | done | exact Hh | exact Hn].
  - eapply read_addr_ok; [by apply start_run | done | done | exact Hh | exact Hn].
Qed.

(** The end of a transfer that failed or was left open. *)
Lemma exit_fail p t :
  pulls p = false -> runs (at_ rp false true p t) (i2c_exit par rp false) false (rest rp (tg_stop t)).
Proof.
  intros Hp. unfold i2c_exit. eapply runs_bind; [by apply Stop_run|].
  eapply runs_bind; [by apply Disable_run|]. apply runs_ret.
Qed.

Lemma exit_ok oc p t :
  quiet p = true -> (match p with Recv _ _ n => (n < 7)%nat | _ => True end) ->
  runs (at_ rp oc true p t) (i2c_exit par rp true) true (rest rp t).
Proof.
  intros Hq Hn. unfold i2c_exit. eapply runs_bind; [apply runs_ret|].
  eapply runs_bind; [by apply Disable_run|]. apply runs_ret.
Qed.

(** The start of a write. *)
Lemma write_header_run l t ok t2 :
  fits 8 (SlaveAddress par) -> Z.even (SlaveAddress par) = true -> fits 8 (OffSet par) ->
  address_and (SlaveAddress par) ((if has_offset par then [OffSet par] else []) ++ l) t = (ok, t2) ->
  exists ok1 t1, runs (enabled t)
    (all_ok ([cbI2CModule_Start par rp; cbI2CModule_WriteByte par rp (SlaveAddress par) true] ++
       (if has_offset par then [cbI2CModule_WriteByte par rp (OffSet par) true] else []))) ok1
    (at_ rp false true (ready ok1) t1) /\
    (if ok1 then recv_all l t1 else (false, t1)) = (ok, t2).
Proof.
  intros Hf He Ho Ha. unfold address_and in Ha.
  destruct (tg_addr (SlaveAddress par) t) as [ok0 t0] eqn:E0.
  destruct ok0.
  2: { injection Ha as <- <-. exists false, t0. split; [|done].
       eapply all_ok_cons; [by apply start_run | intros _ | done].
       by eapply all_ok_cons; [by apply write_addr_run with (ok := false) (t1 := t0) | done | done]. }
  destruct (has_offset par); cbn [app recv_all] in Ha |- *.
  - destruct (tg_recv (OffSet par) t0) as [ok1 t1] eqn:E1. exists ok1, t1. split; [|done].
    eapply all_ok_cons; [by apply start_run | intros _ | done].
    eapply all_ok_cons; [by apply write_addr_run with (ok := true) (t1 := t0) | intros _ | done].
    eapply all_ok_cons; [by apply write_data_run with (ok := ok1) (t1 := t1) | intros -> | intros ->; done].
    apply runs_ret.
  - exists true, t0. split; [|done].
    eapply all_ok_cons; [by apply start_run | intros _ | done].
    eapply all_ok_cons; [by apply write_addr_run with (ok := true) (t1 := t0) | intros _ | done].
    apply runs_ret.
Qed.
End parts.

(** ** A clock that stays low *)
Section stuck.
Context {T : Type} `{I2CTarget T}.
Implicit Types t : T.
Variable par : I2C_PARAMS.
Variable rp : I2C_REG_PARAMS.
Hypothesis Hrp : cbI2CModule_GetI2CParams (I2CBusNum par) = Some rp.

Let row : In rp rows := params_row _ _ Hrp.

(** The target holds the clock for more than [n] polls. *)
Definition stuck (n : nat) (t : T) (s : bus T) : Prop :=
  on_bus rp s /\ scl s = false /\ sda s = line_sda s /\ tgt s = t /\ (n < hold s)%nat.

Lemma settle_low s :
  scl s = false -> (0 < hold s)%nat ->
  settle s = s <| scl := false |> <| sda := line_sda s |>.
Proof.
  intros Hc Hn. assert (El : line_scl s = false).
  { unfold line_scl. rewrite (proj2 (Nat.eqb_neq (hold s) 0)) by lia. by rewrite andb_false_r. }
  assert (Er : react (line_scl s) (line_sda s) s = s) by (unfold react; by rewrite El, Hc).
  unfold settle. by rewrite Er, El.
Qed.

Lemma settle_stuck n t s :
  on_bus rp s -> scl s = false -> tgt s = t -> (n < hold s)%nat -> stuck n t (settle s).
Proof. intros Hw Hc <- Hn. split; [by apply settle_wired|]. by rewrite settle_low by (done || lia). Qed.

Lemma stuck_delay us n t : runs (stuck (S n) t) (cb_DelayMicroSeconds us) tt (stuck n t).
Proof.
  intros s (Hw & Hc & Hd & Ht & Hn). eexists; split; [done|]. apply settle_stuck; [exact Hw|done|done|].
  cbn. lia.
Qed.

Lemma stuck_write (ti : I2C_REG_PARAMS -> Z) value mask fc fd n t :
  rows_all (write_check ti value mask fc fd) = true ->
  (forall x, reg_addr (ti rp) <> reg_addr (CLineRegType_Index rp) -> fc rp x = x) ->
  (forall x, reg_addr (ti rp) <> reg_addr (DLineRegType_Index rp) -> fd rp x = x) ->
  runs (stuck n t) (cbMMIOWriteReg (ti rp) (value rp) (mask rp)) tt (stuck n t).
Proof.
  intros Hck Hfc Hfd s (Hw & Hc & Hd & Ht & Hn).
  destruct (cbMMIOWriteReg_run rp row ti value mask fc fd s Hck Hfc Hfd Hw) as (Hr & Hw1 & _).
  rewrite Hr. eexists; split; [done|]. destruct (mask rp =? 255); [done|].
  by apply settle_stuck.
Qed.

Lemma stuck_SetScl b n t : runs (stuck n t) (cbI2CModule_SetScl rp (b2z b)) tt (stuck n t).
Proof.
  apply (stuck_write CLineRegType_Index (setC_value b) setC_mask _ _ n t (setC_check b));
    [done | apply join_other].
Qed.

Lemma stuck_SetSda b n t : runs (stuck n t) (cbI2CModule_SetSda rp (b2z b)) tt (stuck n t).
Proof.
  apply (stuck_write DLineRegType_Index (setD_value b) setD_mask _ _ n t (setD_check b));
    [intros x E; apply join_other; congruence | done].
Qed.

Lemma line_sda_pins (x y : bus T) : pins x = pins y -> ph x = ph y -> line_sda x = line_sda y.
Proof. unfold pins, line_sda. by intros [= _ _ -> ->] ->. Qed.

Lemma stuck_GetScl n t : runs (stuck n t) (cbI2CModule_GetScl rp) LEVEL_LOW (stuck n t).
Proof.
  intros s (Hw & Hc & Hd & Ht & Hn).
  destruct (cbMMIOWriteReg_run rp row _ _ _ _ _ s readC_check ltac:(done) ltac:(done) Hw)
    as (Hr & Hw1 & Hp).
  pose proof (rows_all_elim _ rp (scl s) (sda s) (regs s !!! reg_addr (CLineRegType_Index rp))
    input_checked row ltac:(apply Hw)) as Hi.
  apply andb_true_iff, proj1, Z.eqb_eq in Hi.
  unfold cbI2CModule_GetScl, sbind. rewrite Hr.
  rewrite cbMMIOReadReg_run by (by eapply (plain_of_check rp row), readC_check).
  set (s1 := if CLineRegReadEnableMask rp =? 255 then s else _).
  assert (Hs1 : stuck n t s1 /\ scl s1 = scl s /\ sda s1 = sda s /\
    regs s1 !!! reg_addr (CLineRegType_Index rp) =
      (if CLineRegReadEnableMask rp =? 255 then regs s !!! reg_addr (CLineRegType_Index rp)
       else rmw rp (scl s) (sda s) (CLineRegType_Index rp)
              (regs s !!! reg_addr (CLineRegType_Index rp))
              (CLineRegReadEnableValue rp) (CLineRegReadEnableMask rp))).
  { unfold s1. destruct (CLineRegReadEnableMask rp =? 255); [done|].
    split; [by apply settle_stuck|]. rewrite settle_low by (cbn; (done || lia)). cbn.
    split; [done|]. split; [|by rewrite lookup_total_insert_eq].
    transitivity (line_sda s); [|done]. apply line_sda_pins; [exact Hp|done]. }
  destruct Hs1 as (Hs1 & Ec & Ed & Er). exists s1. split; [|done]. unfold sret. f_equal.
  unfold read_reg. rewrite Er, Ec, Ed. destruct Hs1 as [[-> _] _]. rewrite Hi. by rewrite Hc.
Qed.

Lemma stuck_raise k n t : runs (stuck (k + n) t) (raise_scl par rp k) false (stuck n t).
Proof.
  induction k as [|k IH]; [apply runs_ret|]. cbn [raise_scl].
  eapply runs_bind; [apply (stuck_SetScl true)|]. eapply runs_bind; [apply stuck_delay|].
  eapply runs_bind; [apply stuck_GetScl|]. exact IH.
Qed.

Lemma stuck_low_then_sda b n t :
  runs (stuck (S (S n)) t) (low_then_sda par rp (b2z b)) tt (stuck n t).
Proof.
  eapply runs_bind; [apply (stuck_SetScl false)|]. eapply runs_bind; [apply stuck_delay|].
  eapply runs_bind; [apply stuck_SetSda|]. apply stuck_delay.
Qed.

Lemma stuck_Start n t :
  runs (stuck (patience + n) t) (cbI2CModule_Start par rp) false (stuck n t).
Proof.
  unfold cbI2CModule_Start. rewrite (bus_checked par rp Hrp). cbn [negb].
  eapply runs_bind; [apply stuck_GetScl|]. cbn [LEVEL_LOW Z.eqb].
  eapply runs_bind; [apply stuck_raise|]. apply runs_ret.
Qed.

Lemma stuck_Stop n t :
  runs (stuck (S (S (patience + n))) t) (cbI2CModule_Stop par rp) true (stuck n t).
Proof.
  unfold cbI2CModule_Stop. rewrite (bus_checked par rp Hrp). cbn [negb].
  eapply runs_bind; [apply (stuck_low_then_sda false)|].
  eapply runs_bind; [apply stuck_raise|]. apply runs_ret.
Qed.

Lemma stuck_Enable n t :
  runs (stuck (S (S n)) t) (cbI2CModule_Enable par rp) tt (stuck n t).
Proof.
  unfold cbI2CModule_Enable. rewrite (bus_checked par rp Hrp). cbn [negb].
  eapply runs_bind; [apply (stuck_SetSda true)|]. eapply runs_bind; [apply stuck_delay|].
  eapply runs_bind; [apply (stuck_SetScl true)|]. apply stuck_delay.
Qed.

Lemma stuck_Disable n t : runs (stuck n t) (cbI2CModule_Disable par rp) tt (stuck n t).
Proof.
  unfold cbI2CModule_Disable. rewrite (bus_checked par rp Hrp). cbn [negb].
  eapply runs_bind; [by apply (stuck_write _ _ _ _ _ _ _ offRC_check)|].
  eapply runs_bind; [by apply (stuck_write _ _ _ _ _ _ _ offC_check); [|apply unjoin_other]|].
  eapply runs_bind; [by apply (stuck_write _ _ _ _ _ _ _ offRD_check)|].
  apply (stuck_write _ _ _ _ _ _ _ offD_check); [intros x E; apply unjoin_other; congruence | done].
Qed.

Lemma stuck_exit n t :
  runs (stuck (S (S (patience + n))) t) (i2c_exit par rp false) false (stuck n t).
Proof.
  unfold i2c_exit. eapply runs_bind; [apply stuck_Stop|].
  eapply runs_bind; [apply stuck_Disable|]. apply runs_ret.
Qed.

Lemma stuck_header n t :
  runs (stuck (patience + n) t) (read_header par rp) false (stuck n t).
Proof.
  unfold read_header. destruct (has_offset par); cbn [app];
    (eapply all_ok_cons; [apply stuck_Start | done | done]).
Qed.
End stuck.

(** ** The theorems *)
Section theorems.
Context {T : Type} `{I2CTarget T}.

(** C4. Reading over I2C. On each of the ten buses, with any target at the other end and
    any stretching of the clock within the patience of the driver,
    [cbI2CModule_ReadData] performs the read transfer of the specification: it returns
    whether the target acknowledged the address and the offset, stores the bytes
    the target sends at the start of the buffer and leaves the rest of it alone, ends with a
    STOP in every case, and leaves the bus at rest. *)
Theorem ReadData_spec (par : I2C_PARAMS) (rp : I2C_REG_PARAMS) (t : T) (s : bus T) :
  cbI2CModule_GetI2CParams (I2CBusNum par) = Some rp ->
  fits 8 (SlaveAddress par) -> Z.even (SlaveAddress par) = true -> fits 8 (OffSet par) ->
  1 <= BufferLen par <= zlen (Buffer par) -> fits 32 (BufferLen par) ->
  rest rp t s ->
  let '(ok, l, t') := read_transfer (SlaveAddress par) (OffSet par) (Z.to_nat (BufferLen par))
                        (has_offset par) t in
  exists s', cbI2CModule_ReadData par s =
      Ok (ok, (if ok then l ++ drop (Z.to_nat (BufferLen par)) (Buffer par) else Buffer par), s') /\
    rest rp t' s'.
Proof.
  intros Hrp Hf He Ho Hlen Hl32 Hs. unfold read_transfer, cbI2CModule_ReadData. rewrite Hrp.
  destruct (Enable_run par rp Hrp t s Hs) as (s1 & H1 & Hs1). rewrite H1.
  destruct (read_head _ _ _ t) as [ok t2] eqn:Eh.
  destruct (if ok then send_next t2 else (Idle, t2)) as [p3 t3] eqn:En.
  destruct (read_header_run par rp Hrp t ok t2 p3 t3 Hf He Ho Eh En s1 Hs1) as (s2 & H2 & Hs2).
  rewrite H2. destruct ok.
  - replace (u32 (BufferLen par - 1)) with (BufferLen par - 1)
      by (symmetry; apply wrap_small; unfold fits in *; lia).
    replace (Z.to_nat (BufferLen par)) with (S (Z.to_nat (BufferLen par - 1))) by lia.
    unfold send_next in En. cbn [send_all]. destruct (tg_send t2) as [b t2'].
    injection En as <- <-. destruct (send_all (Z.to_nat (BufferLen par - 1)) t2') as [l t4] eqn:Ea.
    destruct (read_bytes_run par rp Hrp (Z.to_nat (BufferLen par - 1)) (Buffer par) 0 b t2' l t4 s2) as (s3 & H3 & Hs3);
      [lia | lia | done | done |].
    rewrite H3. cbn [rbind].
    destruct (Stop_run par rp Hrp true Idle t4 eq_refl s3 Hs3) as (s4 & H4 & Hs4). rewrite H4.
    destruct (exit_ok par rp Hrp true Idle (tg_stop t4) eq_refl I s4 Hs4) as (s5 & H5 & Hs5).
    rewrite H5. by exists s5.
  - injection En as <- <-. cbn [rbind].
    destruct (exit_fail par rp Hrp Idle t2 eq_refl s2 Hs2) as (s3 & H3 & Hs3). rewrite H3.
    by exists s3.
Qed.

(** C5. Writing over I2C: [cbI2CModule_WriteData] performs the write transfer of the
    specification; it ends with a STOP except after the segment pointer of an EDID was
    written, which the next transfer relies on. *)
Theorem WriteData_spec (par : I2C_PARAMS) (rp : I2C_REG_PARAMS) (t : T) (s : bus T) :
  cbI2CModule_GetI2CParams (I2CBusNum par) = Some rp ->
  fits 8 (SlaveAddress par) -> Z.even (SlaveAddress par) = true -> fits 8 (OffSet par) ->
  0 <= BufferLen par <= zlen (Buffer par) -> Forall (fits 8) (Buffer par) ->
  rest rp t s ->
  let '(ok, t') := write_transfer (SlaveAddress par) (OffSet par)
                     (take (Z.to_nat (BufferLen par)) (Buffer par)) (has_offset par) t in
  exists s', cbI2CModule_WriteData par s = Ok (ok, s') /\ rest rp t' s'.
Proof.
  intros Hrp Hf He Ho Hlen Hbuf Hs. unfold write_transfer, cbI2CModule_WriteData. rewrite Hrp.
  destruct (Enable_run par rp Hrp t s Hs) as (s1 & H1 & Hs1). rewrite H1.
  set (l := take _ _).
  destruct (address_and _ _ t) as [ok t2] eqn:Ea.
  assert (Hpre : exists ok1 t1, runs (enabled rp t)
      (all_ok ([cbI2CModule_Start par rp; cbI2CModule_WriteByte par rp (SlaveAddress par) true] ++
         (if has_offset par then [cbI2CModule_WriteByte par rp (OffSet par) true] else []))) ok1
      (at_ rp false true (ready ok1) t1) /\
      (if ok1 then recv_all l t1 else (false, t1)) = (ok, t2)).
  { by apply write_header_run. }
  destruct Hpre as (ok1 & t1 & Hrun & Hrest).
  destruct (Hrun s1 Hs1) as (s2 & H2 & Hs2). rewrite H2.
  assert (Hbytes : exists s3,
    (if ok1 then write_bytes par rp (Z.to_nat (BufferLen par)) (Buffer par) 0 s2
     else Ok (false, s2)) = Ok (ok, s3) /\ at_ rp false true (ready ok) t2 s3).
  { destruct ok1; [|injection Hrest as <- <-; by exists s2].
    replace (Z.to_nat (BufferLen par)) with (length l)
      by (unfold l; rewrite length_take; unfold zlen in Hlen; lia).
    apply (write_bytes_run par rp Hrp l (Buffer par) 0 t1 ok t2 s2); [lia | | | done | done].
    - by apply Forall_take.
    - intros j x Hj. apply rd_inv. rewrite Z.add_0_l, Nat2Z.id.
      unfold l in Hj. apply lookup_take_Some in Hj as [Hj _]. split; [lia|done]. }
  destruct Hbytes as (s3 & H3 & Hs3). rewrite H3. cbn [rbind].
  destruct ok; cbn [andb].
  - unfold I2C_EDID_SEGNUM_SLAVE_ADDR. destruct (SlaveAddress par =? 96); cbn [negb].
    + destruct (exit_ok par rp Hrp false (Recv false 0 0) t2 eq_refl ltac:(cbn; lia) s3 Hs3) as (s4 & H4 & Hs4).
      rewrite H4. by exists s4.
    + destruct (Stop_run par rp Hrp true (Recv false 0 0) t2 eq_refl s3 Hs3) as (s4 & H4 & Hs4). rewrite H4.
      destruct (exit_ok par rp Hrp true Idle (tg_stop t2) eq_refl I s4 Hs4) as (s5 & H5 & Hs5).
      rewrite H5. by exists s5.
  - destruct (exit_fail par rp Hrp Idle t2 eq_refl s3 Hs3) as (s4 & H4 & Hs4). rewrite H4.
    by exists s4.
Qed.

(** C32. A target that holds the clock low longer than the driver waits (twice 4000 polls,
    once for START and once for STOP) makes [cbI2CModule_ReadData] fail: it returns after a
    bounded number of polls, the buffer is as before and the target has seen no byte. *)
Theorem ReadData_gives_up (par : I2C_PARAMS) (rp : I2C_REG_PARAMS) (s : bus T) :
  cbI2CModule_GetI2CParams (I2CBusNum par) = Some rp ->
  on_bus rp s -> scl s = false -> sda s = line_sda s ->
  2 * MAXI2CWAITLOOP + 4 < Z.of_nat (hold s) ->
  exists s', cbI2CModule_ReadData par s = Ok (false, Buffer par, s') /\ tgt s' = tgt s.
Proof.
  intros Hrp Hw Hc Hd Hh. unfold cbI2CModule_ReadData. rewrite Hrp.
  assert (Hs : stuck rp (S (S (patience + (S (S (patience + 0)))))) (tgt s) s).
  { split; [done|]. do 3 (split; [done|]). unfold patience. unfold MAXI2CWAITLOOP in *. lia. }
  destruct (stuck_Enable par rp Hrp _ _ s Hs) as (s1 & H1 & Hs1). rewrite H1.
  destruct (stuck_header par rp Hrp _ _ s1 Hs1) as (s2 & H2 & Hs2). rewrite H2. cbn [rbind].
  destruct (stuck_exit par rp Hrp _ _ s2 Hs2) as (s3 & H3 & Hs3). rewrite H3.
  exists s3. split; [done|]. apply Hs3.
Qed.

(** A read of no bytes is a read past the buffer: [BufferLen - 1] wraps, and the loop
    stores the bytes the target sends until it leaves the buffer, whatever its size. *)
Theorem ReadData_zero_length (par : I2C_PARAMS) (rp : I2C_REG_PARAMS) (t t' : T) (s : bus T) :
  cbI2CModule_GetI2CParams (I2CBusNum par) = Some rp ->
  fits 8 (SlaveAddress par) -> Z.even (SlaveAddress par) = true -> fits 8 (OffSet par) ->
  BufferLen par = 0 -> zlen (Buffer par) < 2 ^ 32 ->
  read_head (SlaveAddress par) (OffSet par) (has_offset par) t = (true, t') ->
  rest rp t s ->
  cbI2CModule_ReadData par s = Err OutOfBounds.
Proof.
  intros Hrp Hf He Ho H0 Hlen Hh Hs. unfold cbI2CModule_ReadData. rewrite Hrp, H0.
  destruct (Enable_run par rp Hrp t s Hs) as (s1 & H1 & Hs1). rewrite H1.
  destruct (send_next t') as [p3 t3] eqn:En.
  destruct (read_header_run par rp Hrp t true t' p3 t3 Hf He Ho Hh En s1 Hs1) as (s2 & H2 & Hs2).
  rewrite H2. unfold send_next in En. destruct (tg_send t') as [b t2']. injection En as <- <-.
  rewrite (read_bytes_overrun par rp Hrp _ _ _ b t2'); [done | | | done].
  - pose proof (zlen_nonneg (Buffer par)). lia.
  - change (u32 (0 - 1)) with (2 ^ 32 - 1). lia.
Qed.
End theorems.

(** ** Witnesses

    A memory of 256 bytes at address 0xA0, with its byte counter. *)
Record eeprom := mkEeprom { cells : list Z; counter : Z }.

#[export] Instance eeprom_target : I2CTarget eeprom := {
  tg_addr a d := ((a =? 0xA0) || (a =? 0xA1), d);
  tg_recv b d := (true, mkEeprom (cells d) b);
  tg_send d := (default 0xFF (cells d !! Z.to_nat (counter d)),
                mkEeprom (cells d) ((counter d + 1) mod 256));
  tg_stop d := d
}.

Definition eeprom_example : eeprom := mkEeprom [10; 11; 12; 13; 14; 15] 0.
Definition read_example : I2C_PARAMS := mkI2CParams 9 0xA0 2 [0; 0; 0; 0] 3 10.
Definition bus9 : I2C_REG_PARAMS :=
  mkRegParams SR_4A 0xFB 0x04 3 0 0xFD 0x02 CR_B_DA 0xBF 0x40 7 4 0xDF 0x20.

Lemma bus9_idle : rest bus9 eeprom_example (idle_bus bus9 eeprom_example [3; 0; 4000]%nat).
Proof.
  apply idle_rest; [by apply (params_row 9)|].
  rewrite !Forall_cons. unfold patience, MAXI2CWAITLOOP. repeat split; [lia|lia|lia|constructor].
Qed.

Lemma ReadData_spec_witness :
  exists s', cbI2CModule_ReadData read_example (idle_bus bus9 eeprom_example [3; 0; 4000]%nat) =
      Ok (true, [12; 13; 14; 0], s') /\ rest bus9 (mkEeprom [10; 11; 12; 13; 14; 15] 5) s'.
Proof.
  pose proof (ReadData_spec read_example bus9 eeprom_example
    (idle_bus bus9 eeprom_example [3; 0; 4000]%nat) eq_refl ltac:(done) eq_refl ltac:(done)
    ltac:(done) ltac:(done) bus9_idle) as Hread.
  change (read_transfer _ _ _ _ eeprom_example)
    with (true, [12; 13; 14], mkEeprom [10; 11; 12; 13; 14; 15] 5) in Hread.
  exact Hread.
Defined.

Lemma WriteData_spec_witness :
  exists s', cbI2CModule_WriteData read_example (idle_bus bus9 eeprom_example [3; 0; 4000]%nat) =
      Ok (true, s') /\ rest bus9 (mkEeprom [10; 11; 12; 13; 14; 15] 0) s'.
Proof.
  pose proof (WriteData_spec read_example bus9 eeprom_example
    (idle_bus bus9 eeprom_example [3; 0; 4000]%nat) eq_refl ltac:(done) eq_refl ltac:(done)
    ltac:(done) ltac:(by repeat constructor) bus9_idle) as Hwrite.
  change (write_transfer _ _ _ _ eeprom_example)
    with (true, mkEeprom [10; 11; 12; 13; 14; 15] 0) in Hwrite.
  exact Hwrite.
Defined.

Lemma ReadData_zero_length_witness :
  cbI2CModule_ReadData (mkI2CParams 9 0xA0 2 [0; 0; 0; 0] 0 10)
    (idle_bus bus9 eeprom_example [3; 0; 4000]%nat) = Err OutOfBounds.
Proof.
  apply (ReadData_zero_length (mkI2CParams 9 0xA0 2 [0; 0; 0; 0] 0 10) bus9 eeprom_example (mkEeprom [10; 11; 12; 13; 14; 15] 2) _ eq_refl);
    [done | done | done | done | cbn; unfold zlen; cbn; lia | done | exact bus9_idle].
Defined.

(** The clock is held for ten thousand polls. *)
Definition held_bus : bus eeprom :=
  (idle_bus bus9 eeprom_example []) <| scl := false |> <| hold := Z.to_nat 10000 |>.

Lemma ReadData_gives_up_witness :
  exists s', cbI2CModule_ReadData read_example held_bus = Ok (false, [0; 0; 0; 0], s') /\
    tgt s' = eeprom_example.
Proof.
  apply (ReadData_gives_up read_example bus9 held_bus eq_refl);
    [| done | done |].
  - split; [done|]. intros a. cbn. done.
  - unfold held_bus. cbn [hold]. unfold upd. cbn [hold]. rewrite Z2Nat.id by lia. done.
Defined.
