(* ===== verification/EdidRead.v ===== *)
(** * Reading an EDID from a display

    [Device/CBiosDeviceShare.c]: a block, a range of bytes, or the whole EDID of a
    monitor, over the I2C transfers of [I2C]. Whether the HDCP engine occupies a bus
    ([cbHwI2CCheckStatus]) depends on a register of its own, whose value is an
    argument; the reader over the AUX channel of DisplayPort is an argument too. *)
From S2P Require Import Prelude CbUtil EdidTypes EdidCea Edid I2cBus I2C.
From stdpp Require Import gmap.
Local Open Scope Z_scope.

(** The values of [CBIOS_STATUS] used here. *)
Inductive i2c_status := CBIOS_OK | CBIOS_ER_INTERNAL | CBIOS_ER_HDCP_USING_I2C.

#[export] Instance i2c_status_eq_dec : EqDecision i2c_status.
Proof. solve_decision. Defined.

(** What the functions use of [CBIOS_DEVICE_COMMON]. *)
Record EDID_DEVICE := mkEdidDevice {
  I2CBus : Z;
  DevI2CDelay : Z;
  CachedEdid : CBIOS_EDID_DATA
}.

Definition EXTENSION_FLAG_INDEX : Z := 0x7E.
Definition HDCPCTL2_DEST : Z := 0x82B8.
Definition HDCP2_CTL2_DEST : Z := 0x33C64.
Definition HDCP_I2C_ENABLE_DEST : Z := 1.

Section reader.
Context {T : Type} `{I2CTarget T}.
Variable cb_ReadU32 : Z -> Z.

(** [cbHwI2CCheckStatus]: is the bus in use by the HDCP engine? *)
Definition HDCP_Port1 (Temp Temp1 : Z) : Z :=
  Z.lor (Z.shiftl (Z.land (Z.shiftr Temp 5) 0x01) 2) (Z.shiftr Temp 6).
Definition HDCP_Port2 (Temp Temp1 : Z) : Z :=
  Z.lor (Z.shiftl (Z.land (Z.shiftr Temp1 5) 0x01) 2) (Z.shiftr Temp 6).

Definition cbHwI2CCheckStatus (I2CBusNum : Z) : st (bus T) i2c_status :=
  do! Temp := cbMMIOReadReg CR_AA in
  do! Temp1 := cbMMIOReadReg CR_B_C6 in
  let HdcpReg :=
    if (HDCP_Port1 Temp Temp1 =? I2CBusNum) &&
       negb (Z.land (cb_ReadU32 HDCPCTL2_DEST) HDCP_I2C_ENABLE_DEST =? 0) then HDCPCTL2_DEST
    else if (HDCP_Port2 Temp Temp1 =? I2CBusNum) &&
            negb (Z.land (cb_ReadU32 HDCP2_CTL2_DEST) HDCP_I2C_ENABLE_DEST =? 0)
         then HDCP2_CTL2_DEST else 0 in
  sret (if negb (HdcpReg =? 0) then CBIOS_ER_HDCP_USING_I2C else CBIOS_OK).

(** [cbI2C_ReadData], [cbI2C_WriteData], under the lock of the bus. *)
Definition cbI2C_ReadData (par : I2C_PARAMS) (s : bus T) : res (i2c_status * list Z * bus T) :=
  let '(Status, s) := cbHwI2CCheckStatus (I2CBusNum par) s in
  if bool_decide (Status = CBIOS_ER_HDCP_USING_I2C) then Ok (Status, I2C.Buffer par, s)
  else
    let! '(bRet, buf, s) := cbI2CModule_ReadData par s in
    Ok (if bRet : bool then CBIOS_OK else CBIOS_ER_INTERNAL, buf, s).

Definition cbI2C_WriteData (par : I2C_PARAMS) (s : bus T) : res (i2c_status * bus T) :=
  let '(Status, s) := cbHwI2CCheckStatus (I2CBusNum par) s in
  if bool_decide (Status = CBIOS_ER_HDCP_USING_I2C) then Ok (Status, s)
  else
    let! '(bRet, s) := cbI2CModule_WriteData par s in
    Ok (if bRet : bool then CBIOS_OK else CBIOS_ER_INTERNAL, s).

(** One attempt of the loop of [cbI2cNormal_ReadEDID]: [inl] to try again. The buffer is
    [EDIDData] from the pointer on. *)
Definition read_edid_try (pDev : EDID_DEVICE) (off size seg : Z) (buf : list Z) (s : bus T) :
    res ((list Z * bus T) + (i2c_status * list Z * bus T)) :=
  let num := u8 (I2CBus pDev) in
  let delay := u8 (DevI2CDelay pDev) in
  let! '(bStatus, s) :=
    if negb (seg =? 0) then
      cbI2C_WriteData (mkI2CParams num 0x60 0 [seg] 1 delay) s
    else Ok (CBIOS_OK, s) in
  if negb (bool_decide (bStatus = CBIOS_OK)) then Ok (inr (bStatus, buf, s)) else
  let! '(bStatus, buf, s) :=
    cbI2C_ReadData (mkI2CParams num 0xA0 (u8 off) buf size delay) s in
  if negb (bool_decide (bStatus = CBIOS_OK)) then Ok (inr (bStatus, buf, s)) else
  let! bad :=
    if (size mod 128 =? 0) && (off mod 128 =? 0) then
      let! valid := cbIsEdidChecksumValid buf size in Ok (negb valid)
    else Ok false in
  if bad : bool then Ok (inl (buf, s)) else Ok (inr (CBIOS_OK, buf, s)).

(** The loop over the tries: [j] from 1 to 3, with a delay after a bad checksum. *)
Fixpoint read_edid_loop (tries : nat) (j : Z) (pDev : EDID_DEVICE) (off size seg : Z)
    (buf : list Z) (s : bus T) : res (i2c_status * list Z * bus T) :=
  match tries with
  | O => Ok (CBIOS_ER_INTERNAL, buf, s)
  | S tries' =>
      let! r := read_edid_try pDev off size seg buf s in
      match r with
      | inr out => Ok out
      | inl (buf, s) =>
          let '(_, s) := cb_DelayMicroSeconds (j * 50) s in
          read_edid_loop tries' (j + 1) pDev off size seg buf s
      end
  end.

Definition cbI2cNormal_ReadEDID (pDev : EDID_DEVICE) (buf : list Z) (off size seg : Z) (s : bus T) :
    res (i2c_status * list Z * bus T) :=
  read_edid_loop 3 1 pDev off size seg buf s.

(** The reader used for a device in DisplayPort mode ([cbI2cOverAux_ReadEDID]), if it is. *)
Variable overAux : option (list Z -> Z -> Z -> Z -> bus T -> res (bool * list Z * bus T)).

(** [cbGetEdidPerSeg]: when the HDCP engine has the bus, the EDID read before is used. *)
Definition cbGetEdidPerSeg (pDev : EDID_DEVICE) (buf : list Z) (off size seg : Z) (s : bus T) :
    res (bool * list Z * bus T) :=
  match overAux with
  | Some aux => aux buf size off seg s
  | None =>
      let! '(bStatus, buf, s) := cbI2cNormal_ReadEDID pDev buf off size seg s in
      let cached := CachedEdid pDev in
      let! usable :=
        if bool_decide (bStatus = CBIOS_ER_HDCP_USING_I2C) then
          let! h := cbEDIDModule_IsEDIDHeaderValid (EdidTypes.Buffer cached) (BufferSize cached) in
          Ok (h && (u32 (seg * 256 + off + size) <=? BufferSize cached))
        else Ok false in
      if usable : bool then
        let! src := deref (EdidTypes.Buffer cached) in
        let! buf := memcpy buf 0 src (seg * 256 + off) size in
        Ok (true, buf, s)
      else Ok (bool_decide (bStatus = CBIOS_OK), buf, s)
  end.

(** [cbGetExtBlockNum]: the status, the number of extension blocks. *)
Definition cbGetExtBlockNum (pDev : EDID_DEVICE) (s : bus T) : res (bool * Z * bus T) :=
  let! '(bStatus, flag, s) := cbGetEdidPerSeg pDev [0] 0x7E 1 0 s in
  let! ExtFlag := rd flag 0 in
  if negb bStatus || (ExtFlag =? 0) then Ok (bStatus, 0, s)
  else
    let! '(bStatus, pEeodb, s) := cbGetEdidPerSeg pDev [0; 0; 0] 0x84 3 0 s in
    let! e0 := rd pEeodb 0 in
    let! e1 := rd pEeodb 1 in
    let! e2 := rd pEeodb 2 in
    if bStatus && (Z.shiftr e0 5 =? CEA_EXTENDED_BLOCK_TAG) &&
       (e1 =? HF_EDID_EXTENSION_OVERRIDE_DATA_BLOCK)
    then Ok (bStatus, e2, s) else Ok (bStatus, ExtFlag, s).

(** A function on the buffer from [EDIDData + d] on. *)
Definition at_offset (d : Z) (f : list Z -> bus T -> res (bool * list Z * bus T))
    (buf : list Z) (s : bus T) : res (bool * list Z * bus T) :=
  let! '(ok, tl, s) := f (drop (Z.to_nat d) buf) s in
  Ok (ok, take (Z.to_nat d) buf ++ tl, s).

(** The loop of [cbGetEdidBytes] over the segments; [inr] is the result. *)
Definition edid_bytes_step (pDev : EDID_DEVICE) (off size : Z)
    (x : Z * bool * list Z * bus T) : res ((Z * bool * list Z * bus T) + (bool * list Z * bus T)) :=
  let '(ulReadSize, bStatus, buf, s) := x in
  if ulReadSize <? size then
    let ulStartSeg := u32 (off + ulReadSize) / 256 in
    let ulOffsetInSeg := u32 (off + ulReadSize) mod 256 in
    let ulOneceSize := Z.min (256 - ulOffsetInSeg) (size - ulReadSize) in
    let! '(ok, buf, s) :=
      at_offset ulReadSize
        (fun b => cbGetEdidPerSeg pDev b ulOffsetInSeg ulOneceSize (u8 ulStartSeg)) buf s in
    if ok : bool then Ok (inl (ulReadSize + ulOneceSize, true, buf, s))
    else let! buf := memset buf 0 0 size in Ok (inr (false, buf, s))
  else Ok (inr (bStatus, buf, s)).

Definition cbGetEdidBytes (pDev : EDID_DEVICE) (EDIDData : option (list Z)) (off size : Z)
    (s : bus T) : res (bool * option (list Z) * bus T) :=
  match EDIDData with
  | None => Ok (false, None, s)
  | Some buf =>
      if size =? 0 then Ok (false, Some buf, s) else
      let ulToBlockIdx := u32 (off + size) / EDID_BLK_SIZE in
      let ulToBlockIdx := if negb (u32 (off + size) mod EDID_BLK_SIZE =? 0)
                          then ulToBlockIdx + 1 else ulToBlockIdx in
      let! '(bStatus, ulExtsNum, s) :=
        if 1 <? ulToBlockIdx then cbGetExtBlockNum pDev s else Ok (true, 0, s) in
      if (1 <? ulToBlockIdx) && (negb bStatus || (ulExtsNum + 1 <? ulToBlockIdx)) then
        let! buf := memset buf 0 0 size in Ok (false, Some buf, s)
      else
        let! '(ok, buf, s) :=
          iterate (S (Z.to_nat size)) (edid_bytes_step pDev off size) (0, false, buf, s) in
        Ok (ok, Some buf, s)
  end.

(** The state of the loop of [cbGetFullEdid]; the allocator is a list of answers, and
    [fill] is what is in a block of memory it returns. *)
Record edid_state := mkFull {
  f_data : list Z;
  f_size : Z;
  f_exts : Z;
  f_status : bool;
  f_alloc : list bool;
  f_bus : bus T
}.

Definition cb_Allocate (fill : Z) (n : Z) (alloc : list bool) : option (list Z) * list bool :=
  match alloc with
  | true :: a => (Some (replicate (Z.to_nat n) fill), a)
  | false :: a => (None, a)
  | [] => (None, [])
  end.

(** The first block: one with a wrong checksum is repaired if it has the header and the first
    detailed timing. [None]: give up. *)
Definition first_block (bRet : bool) (d : list Z) : res (option (list Z)) :=
  if bRet then Ok (Some d)
  else
    let! hi := rd d 0x37 in
    let! lo := rd d 0x36 in
    let DCLK := Z.lor (Z.shiftl hi 8) lo in
    let! h := cbEDIDModule_IsEDIDHeaderValid (Some d) EDID_BLK_SIZE in
    let! c := cbIsEdidChecksumValid d EDID_BLK_SIZE in
    if h && negb c && (0 <? DCLK) then
      let! d := cbFixEdidChecksum d EDID_BLK_SIZE in Ok (Some d)
    else Ok None.

(** The result: the buffer, its size, the allocator and the bus. *)
Definition full_result : Type := option (list Z) * Z * list bool * bus T.

(** Reallocation when the blocks announced do not fit. *)
Definition grow_full (fill : Z) (data : list Z) (size exts : Z) (alloc : list bool) :
    res (option (list Z) * Z * list bool) :=
  if size <? (exts + 1) * EDID_BLK_SIZE then
    let '(tmp, alloc) := cb_Allocate fill ((exts + 1) * EDID_BLK_SIZE) alloc in
    match tmp with
    | None => Ok (None, size, alloc)
    | Some tmp =>
        let! tmp := memcpy tmp 0 data 0 size in
        Ok (Some tmp, (exts + 1) * EDID_BLK_SIZE, alloc)
    end
  else Ok (Some data, size, alloc).

Definition full_step (pDev : EDID_DEVICE) (fill : Z) (k : Z) (x : edid_state) :
    res (edid_state + full_result) :=
  let! '(bRet, data, s) :=
    at_offset (k * EDID_BLK_SIZE)
      (fun b => cbGetEdidPerSeg pDev b ((k * EDID_BLK_SIZE) mod 256) EDID_BLK_SIZE
                  (u8 ((k * EDID_BLK_SIZE) / 256)))
      (f_data x) (f_bus x) in
  let! first := if k =? 0 then first_block bRet data else Ok (Some data) in
  match first with
  | None => Ok (inr (None, 0, f_alloc x, s))
  | Some data =>
      let bStatus := if k =? 0 then true else f_status x in
      let bRet := if k =? 0 then true else bRet in
      let! exts := if k =? 0 then rd data EXTENSION_FLAG_INDEX
                   else if k =? 1 then cbEDIDModule_GetExtBlockNum data
                   else Ok (f_exts x) in
      let! data := if bRet then Ok data else memset data (k * EDID_BLK_SIZE) 0 EDID_BLK_SIZE in
      let! '(grown, size, alloc) := grow_full fill data (f_size x) exts (f_alloc x) in
      match grown with
      | None => Ok (inr (None, 0, alloc, s))
      | Some data => Ok (inl (mkFull data size exts bStatus alloc s))
      end
  end.

(** [cbGetFullEdid]: at most 256 blocks. *)
Definition cbGetFullEdid (pDev : EDID_DEVICE) (fill : Z) (alloc : list bool) (s : bus T) :
    res full_result :=
  let '(EDIDData, alloc) := cb_Allocate fill EDID_BLK_SIZE alloc in
  match EDIDData with
  | None => Ok (None, 0, alloc, s)
  | Some d =>
      iterate 258
        (fun '(k, x) =>
           if k <? f_size x / EDID_BLK_SIZE then
             let! r := full_step pDev fill k x in
             match r with inl x => Ok (inl (k + 1, x)) | inr out => Ok (inr out) end
           else Ok (inr (if f_status x then (Some (f_data x), f_size x, f_alloc x, f_bus x)
                         else (None, 0, f_alloc x, f_bus x))))
        (0, mkFull d EDID_BLK_SIZE 0 false alloc s)
  end.
End reader.
