(* ===== verification/EdidReadSpec.v ===== *)
(** * Reading an EDID: what the reader returns

    The functions of [EdidRead] against the image a display holds. The interface
    between the reader of ranges and blocks and the transfers below it is the class
    [EdidSource]: a read of a segment returns those bytes of the image, and
    the status is the checksum's when the range is one of whole blocks. A display on an
    I2C bus ([ddc], the VESA data channel) is an instance, by the theorems of
    [I2cSpec]; the functions above are verified against the interface. *)
From S2P Require Import Prelude CbUtil EdidTypes EdidCea Edid I2cBus I2C I2cPins I2cLines I2cBytes I2cSpec EdidRead.
From stdpp Require Import gmap.
Local Open Scope Z_scope.

(** [n] bytes of [l] from [a] on. *)
Definition slice (l : list Z) (a n : Z) : list Z := take (Z.to_nat n) (drop (Z.to_nat a) l).

Lemma zlen_slice l a n : 0 <= a -> 0 <= n -> a + n <= zlen l -> zlen (slice l a n) = n.
Proof. unfold slice, zlen. intros. rewrite length_take, length_drop. lia. Qed.

Lemma rd_slice l a n i : 0 <= a -> 0 <= i < n -> a + n <= zlen l -> rd (slice l a n) i = rd l (a + i).
Proof. intros. unfold slice. rewrite rd_take by lia. by rewrite rd_drop by lia. Qed.

(** The answer of [cbIsEdidChecksumValid] for a buffer of whole blocks. *)
Definition blocks_valid (l : list Z) : bool :=
  match cbIsEdidChecksumValid l (zlen l) with Ok b => b | Err _ => false end.

Lemma blocks_valid_run l rest :
  cbIsEdidChecksumValid (l ++ rest) (zlen l) = Ok (blocks_valid l).
Proof.
  assert (Hp : forall k, 0 <= k <= zlen l -> psum (l ++ rest) k = psum l k).
  { intros k Hk. unfold psum, zlen in *. by rewrite take_app_le by lia. }
  unfold blocks_valid. destruct (Z.eq_dec (zlen l) 0) as [E0|E0].
  { unfold cbIsEdidChecksumValid. by rewrite E0. }
  destruct (Z.eq_dec (zlen l mod 128) 0) as [Em|Em].
  - pose proof (zlen_nonneg l). pose proof (zlen_nonneg rest).
    set (n := zlen l / 128). assert (En : zlen l = 128 * n) by (unfold n; dlia).
    destruct (cbIsEdidChecksumValid_psum l n) as (b & Hb & Hi); [lia|lia|].
    destruct (cbIsEdidChecksumValid_psum (l ++ rest) n) as (b' & Hb' & Hi');
      [lia | rewrite zlen_app; lia |].
    rewrite En, Hb, Hb'. f_equal. apply eq_true_iff_eq. rewrite Hi, Hi'.
    split; intros Hk k Hkn; specialize (Hk k Hkn); rewrite Hp in * by lia; done.
  - unfold cbIsEdidChecksumValid, EDID_BLK_SIZE. rewrite (proj2 (Z.eqb_neq _ _) Em).
    cbn [negb]. by rewrite !orb_true_r.
Qed.

(** ** The interface *)
Section source.
Context {T : Type} `{I2CTarget T}.
Variable cb_ReadU32 : Z -> Z.
Variable overAux : option (list Z -> Z -> Z -> Z -> bus T -> res (bool * list Z * bus T)).

(** The status of a read: whole blocks must have valid checksums. *)
Definition read_status (off size : Z) (l : list Z) : bool :=
  if (size mod 128 =? 0) && (off mod 128 =? 0) then blocks_valid l else true.

Class EdidSource (pDev : EDID_DEVICE) (rom : list Z) (serves : bus T -> Prop) : Prop :=
  source_ok : forall buf off size seg s,
    serves s -> 0 <= off -> 1 <= size <= zlen buf -> off + size <= 256 -> 0 <= seg < 128 ->
    256 * seg + off + size <= zlen rom ->
    let l := slice rom (256 * seg + off) size in
    exists s', cbGetEdidPerSeg cb_ReadU32 overAux pDev buf off size seg s =
        Ok (read_status off size l, l ++ drop (Z.to_nat size) buf, s') /\ serves s'.
End source.
Arguments source_ok {T H cb_ReadU32 overAux pDev rom serves _} buf off size seg s.

(** ** A display on an I2C bus

    The VESA E-DDC channel: the image in segments of 256 bytes at address 0xA0, the
    segment pointer at 0x60, set to zero by a STOP. *)
Record ddc := mkDdc { ddc_rom : list Z; ddc_seg : Z; ddc_off : Z; ddc_ptr : bool }.

#[export] Instance ddc_eta : Eta ddc :=
  fun d => mkDdc (ddc_rom d) (ddc_seg d) (ddc_off d) (ddc_ptr d).

#[export] Instance ddc_target : I2CTarget ddc := {
  tg_addr a d :=
    if a =? 0x60 then (true, d <| ddc_ptr := true |>)
    else ((a =? 0xA0) || (a =? 0xA1), d <| ddc_ptr := false |>);
  tg_recv b d := (true, if ddc_ptr d then d <| ddc_seg := b |> else d <| ddc_off := b |>);
  tg_send d := (default 0xFF (ddc_rom d !! Z.to_nat (256 * ddc_seg d + ddc_off d)),
                d <| ddc_off := (ddc_off d + 1) mod 256 |>);
  tg_stop d := d <| ddc_seg := 0 |>
}.

Lemma ddc_send_all n d :
  Forall (fits 8) (ddc_rom d) -> 0 <= ddc_seg d -> 0 <= ddc_off d ->
  ddc_off d + Z.of_nat n <= 256 -> 256 * ddc_seg d + ddc_off d + Z.of_nat n <= zlen (ddc_rom d) ->
  send_all n d =
    (slice (ddc_rom d) (256 * ddc_seg d + ddc_off d) (Z.of_nat n),
     if (n =? 0)%nat then d else d <| ddc_off := (ddc_off d + Z.of_nat n) mod 256 |>).
Proof.
  revert d. induction n as [|n IH]; intros d Hf Hs Ho H256 Hl; [done|].
  cbn [send_all]. unfold zlen in Hl.
  destruct (lookup_lt_is_Some_2 (ddc_rom d) (Z.to_nat (256 * ddc_seg d + ddc_off d))) as [x Hx]; [lia|].
  assert (Hfx : fits 8 x) by (by eapply Forall_lookup_1).
  cbn [tg_send ddc_target]. rewrite Hx. cbn [default].
  destruct n as [|n].
  - cbn. rewrite wrap_small by done. unfold slice.
    change (Z.to_nat (Z.of_nat 1)) with 1%nat. by rewrite (drop_S _ _ _ Hx).
  - rewrite IH; cbn; [|done|lia|dlia|dlia|unfold zlen; dlia].
    rewrite wrap_small by done. f_equal.
    + unfold slice. replace (Z.to_nat (Z.of_nat (S (S n)))) with (S (S n)) by lia.
      rewrite (drop_S _ _ _ Hx). cbn [take]. f_equal.
      replace (S (Z.to_nat (256 * ddc_seg d + ddc_off d)))
        with (Z.to_nat (256 * ddc_seg d + (ddc_off d + 1) mod 256)) by dlia.
      f_equal. lia.
    + unfold upd. cbn. f_equal. dlia.
Qed.

(** A read of the image. *)
Lemma ddc_read d off n :
  Forall (fits 8) (ddc_rom d) -> 0 <= ddc_seg d -> 0 <= off ->
  off + Z.of_nat n <= 256 -> 256 * ddc_seg d + off + Z.of_nat n <= zlen (ddc_rom d) ->
  exists d', read_transfer 0xA0 off n true d =
      (true, slice (ddc_rom d) (256 * ddc_seg d + off) (Z.of_nat n), d') /\
    ddc_rom d' = ddc_rom d /\ ddc_seg d' = 0.
Proof.
  intros Hf Hs Ho H256 Hl. unfold read_transfer, read_head, address_and. cbn [tg_addr ddc_target].
  change (160 =? 96) with false. change ((160 =? 160) || (160 =? 161)) with true. cbn iota.
  cbn [recv_all tg_recv ddc_target ddc_ptr].
  change (160 + 1 =? 96) with false. change ((160 + 1 =? 160) || (160 + 1 =? 161)) with true.
  cbn iota. rewrite ddc_send_all by done. eexists; split; [done|]. by destruct n.
Qed.

Section display.
Variable cb_ReadU32 : Z -> Z.
Hypothesis no_hdcp : Z.land (cb_ReadU32 HDCPCTL2_DEST) HDCP_I2C_ENABLE_DEST = 0 /\
  Z.land (cb_ReadU32 HDCP2_CTL2_DEST) HDCP_I2C_ENABLE_DEST = 0.
Variable pDev : EDID_DEVICE.
Variable rp : I2C_REG_PARAMS.
Hypothesis Hrp : cbI2CModule_GetI2CParams (u8 (I2CBus pDev)) = Some rp.
Variable rom : list Z.
Hypothesis rom_bytes : Forall (fits 8) rom.

(** The display is at rest, with its segment pointer at zero. *)
Definition display (s : bus ddc) : Prop :=
  exists d, rest rp d s /\ ddc_rom d = rom /\ ddc_seg d = 0.

Lemma CheckStatus_ok n (s : bus ddc) : cbHwI2CCheckStatus cb_ReadU32 n s = (CBIOS_OK, s).
Proof.
  unfold cbHwI2CCheckStatus, sbind. rewrite !cbMMIOReadReg_run by done.
  destruct no_hdcp as [-> ->]. cbn [Z.eqb negb]. by rewrite !andb_false_r.
Qed.

(** One attempt reads the bytes. *)
Lemma read_edid_try_run buf off size seg s :
  display s -> 0 <= off -> 1 <= size <= zlen buf -> off + size <= 256 -> 0 <= seg < 128 ->
  256 * seg + off + size <= zlen rom ->
  let l := slice rom (256 * seg + off) size in
  let buf' := l ++ drop (Z.to_nat size) buf in
  exists s', read_edid_try cb_ReadU32 pDev off size seg buf s =
      Ok (if read_status off size l then inr (CBIOS_OK, buf', s') else inl (buf', s')) /\
    display s'.
Proof.
  intros (d & Hs & Hrom & Hseg) Hoff Hsize H256 Hsg Hlen. cbn zeta.
  unfold read_edid_try.
  assert (Hw : exists d1 s1, (if negb (seg =? 0) then
      cbI2C_WriteData cb_ReadU32 (mkI2CParams (u8 (I2CBus pDev)) 96 0 [seg] 1 (u8 (DevI2CDelay pDev))) s
    else Ok (CBIOS_OK, s)) = Ok (CBIOS_OK, s1) /\ rest rp d1 s1 /\ ddc_rom d1 = rom /\ ddc_seg d1 = seg).
  { destruct (Z.eqb_spec seg 0) as [->|Hne]; cbn [negb]; [by exists d, s|].
    unfold cbI2C_WriteData. cbn [I2CBusNum]. rewrite CheckStatus_ok.
    pose proof (WriteData_spec (mkI2CParams (u8 (I2CBus pDev)) 96 0 [seg] 1 (u8 (DevI2CDelay pDev)))
      rp d s Hrp ltac:(done) ltac:(done) ltac:(done) ltac:(done)
      ltac:(constructor; [unfold fits; change (2 ^ 8) with 256; lia|constructor]) Hs) as H1.
    cbn in H1. destruct H1 as (s1 & H1 & Hs1). rewrite H1.
    eexists _, s1. split; [done|]. split; [exact Hs1|]. by cbn. }
  destruct Hw as (d1 & s1 & Hw & Hs1 & Hrom1 & Hseg1). rewrite Hw. cbn [rbind].
  rewrite bool_decide_true by done. cbn [negb].
  unfold cbI2C_ReadData. cbn [I2CBusNum]. rewrite CheckStatus_ok.
  rewrite bool_decide_false by done.
  assert (Hu8 : u8 off = off) by (apply wrap_small; unfold fits; change (2 ^ 8) with 256; lia).
  rewrite Hu8.
  set (par := mkI2CParams (u8 (I2CBus pDev)) 160 off buf size (u8 (DevI2CDelay pDev))).
  pose proof (ReadData_spec par rp d1 s1 Hrp ltac:(done) ltac:(done)
    ltac:(unfold fits; change (2 ^ 8) with 256; cbn; lia) Hsize
    ltac:(unfold fits; change (2 ^ 32) with 4294967296; cbn; lia) Hs1) as H2.
  destruct (ddc_read d1 off (Z.to_nat size)) as (d2 & Hd2 & Hrom2 & Hseg2);
    rewrite ?Hrom1, ?Hseg1; try done; try lia.
  change (has_offset par) with true in H2. cbn [SlaveAddress OffSet BufferLen par] in H2.
  rewrite Hd2 in H2. destruct H2 as (s2 & H2 & Hs2). rewrite H2. cbn [rbind I2C.Buffer par].
  rewrite bool_decide_true by done. cbn [negb].
  rewrite Z2Nat.id by lia. rewrite Hrom1, Hseg1. rewrite Hrom1 in Hrom2.
  set (l := slice rom _ size). assert (Hll : zlen l = size) by (apply zlen_slice; lia).
  exists s2. split.
  2: { by exists d2. }
  unfold read_status. destruct (size mod 128 =? 0), (off mod 128 =? 0); cbn [andb rbind]; try done.
  rewrite <- Hll at 2. rewrite blocks_valid_run. cbn [rbind].
  by destruct (blocks_valid l).
Qed.

Lemma display_delay us s : display s -> display (cb_DelayMicroSeconds us s).2.
Proof.
  intros (d & Hs & Hd). destruct (rest_delay rp us d s Hs) as (s' & H1 & Hs').
  rewrite H1. by exists d.
Qed.

(** The driver gives a range with a wrong checksum three tries. *)
Lemma read_edid_loop_run tries j buf off size seg s :
  display s -> 0 <= off -> 1 <= size <= zlen buf -> off + size <= 256 -> 0 <= seg < 128 ->
  256 * seg + off + size <= zlen rom ->
  let l := slice rom (256 * seg + off) size in
  exists s', read_edid_loop cb_ReadU32 (S tries) j pDev off size seg buf s =
      Ok (if read_status off size l then CBIOS_OK else CBIOS_ER_INTERNAL,
          l ++ drop (Z.to_nat size) buf, s') /\
    display s'.
Proof.
  cbn zeta. revert j buf s. induction tries as [|tries IH]; intros j buf s Hs Hoff Hsize H256 Hsg Hlen.
  all: set (l := slice rom (256 * seg + off) size) in *.
  all: assert (Hll : zlen l = size) by (apply zlen_slice; lia).
  all: cbn [read_edid_loop].
  all: destruct (read_edid_try_run buf off size seg s) as (s1 & H1 & Hs1); try done.
  all: rewrite H1; cbn [rbind]; fold l.
  all: destruct (read_status off size l) eqn:E; [by exists s1|].
  all: pose proof (display_delay (j * 50) s1 Hs1) as Hs2.
  all: destruct (cb_DelayMicroSeconds (j * 50) s1) as [u s2]; cbn [snd] in Hs2.
  - by exists s2.
  - assert (Hb : size <= zlen (l ++ drop (Z.to_nat size) buf)).
    { rewrite zlen_app, Hll. pose proof (zlen_nonneg (drop (Z.to_nat size) buf)). lia. }
    destruct (IH (j + 1) (l ++ drop (Z.to_nat size) buf) s2) as (s3 & H3 & Hs3);
      [done | done | lia | done | done | done |].
    cbn [read_edid_loop] in H3. rewrite H3. exists s3. split; [|done].
    do 3 f_equal. rewrite drop_app_le by (unfold zlen in Hll; lia).
    rewrite drop_ge by (unfold zlen in Hll; lia). done.
Qed.

(** A display on an I2C bus serves its image. *)
#[export] Instance display_source : EdidSource cb_ReadU32 None pDev rom display.
Proof.
  intros buf off size seg s Hs Hoff Hsize H256 Hsg Hlen. cbn zeta.
  unfold cbGetEdidPerSeg, cbI2cNormal_ReadEDID.
  destruct (read_edid_loop_run 2 1 buf off size seg s) as (s1 & H1 & Hs1); try done.
  rewrite H1. cbn [rbind]. exists s1. split; [|done].
  by destruct (read_status off size _).
Qed.
End display.

(** ** Against the interface *)
Section client.
Context {T : Type} `{I2CTarget T}.
Variable cb_ReadU32 : Z -> Z.
Variable overAux : option (list Z -> Z -> Z -> Z -> bus T -> res (bool * list Z * bus T)).
Variable pDev : EDID_DEVICE.
Variable rom : list Z.
Variable serves : bus T -> Prop.
Context `{!EdidSource cb_ReadU32 overAux pDev rom serves}.

(** The number of extension blocks a display announces in its image. *)
Definition announced : Z :=
  match cbEDIDModule_GetExtBlockNum rom with Ok n => n | Err _ => 0 end.

Lemma rd_slice1 a : 0 <= a -> a + 1 <= zlen rom -> rd (slice rom a 1 ++ drop 1 [0]) 0 = rd rom a.
Proof.
  intros. rewrite rd_app_l by (rewrite zlen_slice; lia). rewrite rd_slice by lia. by rewrite Z.add_0_r.
Qed.

Lemma GetExtBlockNum_run (s : bus T) :
  serves s -> 128 <= zlen rom -> (rd rom 0x7E <> Ok 0 -> 256 <= zlen rom) ->
  exists s', cbGetExtBlockNum cb_ReadU32 overAux pDev s = Ok (true, announced, s') /\ serves s'.
Proof.
  intros Hs Hl Hl2. unfold cbGetExtBlockNum, announced, cbEDIDModule_GetExtBlockNum.
  destruct (source_ok [0] 0x7E 1 0 s) as (s1 & H1 & Hs1); try done; try lia.
  change (256 * 0 + 126) with 126 in H1. rewrite H1. cbn [rbind].
  rewrite rd_slice1 by lia. destruct (rd_in rom 126) as [f Hf]; [lia|]. rewrite Hf. cbn [rbind].
  change (read_status 126 1 _) with true. cbn [negb orb].
  destruct (Z.eqb_spec f 0) as [->|Hf0]; [by exists s1|].
  assert (Hl3 : 256 <= zlen rom) by (apply Hl2; congruence).
  destruct (source_ok [0; 0; 0] 0x84 3 0 s1) as (s2 & H2 & Hs2); try done; try lia.
  change (256 * 0 + 132) with 132 in H2. rewrite H2. cbn [rbind]. exists s2.
  change (drop (Z.to_nat 3) [0; 0; 0]) with ([] : list Z). rewrite app_nil_r.
  rewrite !rd_slice by lia. rewrite Z.add_0_r. change (132 + 1) with 133. change (132 + 2) with 134.
  destruct (rd_in rom 132) as [e0 H0]; [lia|]. destruct (rd_in rom 133) as [e1 H3]; [lia|].
  destruct (rd_in rom 134) as [e2 H4]; [lia|]. rewrite H0, H3, H4. cbn [rbind].
  change (read_status 132 3 _) with true. cbn [andb].
  destruct (Z.shiftr e0 5 =? CEA_EXTENDED_BLOCK_TAG); cbn [andb rbind]; [|done].
  by destruct (e1 =? HF_EDID_EXTENSION_OVERRIDE_DATA_BLOCK).
Qed.

(** The number of extension blocks read over the channel is the one computed from the
    whole image. *)
Theorem GetExtBlockNum_remote (s : bus T) :
  serves s -> 128 <= zlen rom -> (rd rom 0x7E <> Ok 0 -> 256 <= zlen rom) ->
  exists s', cbGetExtBlockNum cb_ReadU32 overAux pDev s = Ok (true, announced, s') /\ serves s'.
Proof. apply GetExtBlockNum_run. Qed.

(** Every block of the image has a valid checksum. *)
Definition image_valid : Prop :=
  forall k, 0 <= k -> 128 * (k + 1) <= zlen rom -> zsum (edid_block rom k) mod 256 = 0.

Lemma slice_valid a n :
  image_valid -> 0 <= a -> 0 < n -> a mod 128 = 0 -> n mod 128 = 0 -> a + n <= zlen rom ->
  blocks_valid (slice rom a n) = true.
Proof.
  intros Hv Ha Hn Hma Hmn Hl. unfold blocks_valid.
  assert (Hz : zlen (slice rom a n) = n) by (apply zlen_slice; lia).
  destruct (cbIsEdidChecksumValid_run (slice rom a n) n) as (b & Hb & Hiff); [lia|].
  rewrite Hz, Hb. apply Hiff. split; [done|]. split; [done|]. intros k Hk.
  replace (edid_block (slice rom a n) k) with (edid_block rom (a / 128 + k)).
  - apply Hv; [dlia|dlia].
  - unfold edid_block, slice. rewrite skipn_firstn_comm, take_take, drop_drop.
    f_equal; [dlia|]. f_equal. dlia.
Qed.

Lemma read_status_ok off size seg :
  image_valid -> 0 <= off -> 1 <= size -> 0 <= seg -> 256 * seg + off + size <= zlen rom ->
  read_status off size (slice rom (256 * seg + off) size) = true.
Proof.
  intros Hv Ho Hs Hsg Hl. unfold read_status.
  destruct (Z.eqb_spec (size mod 128) 0), (Z.eqb_spec (off mod 128) 0); cbn [andb]; try done.
  apply slice_valid; [done | lia | lia | dlia | done | lia].
Qed.

Lemma slice_app a n m :
  0 <= a -> 0 <= n -> 0 <= m -> slice rom a n ++ slice rom (a + n) m = slice rom a (n + m).
Proof.
  intros. unfold slice. replace (Z.to_nat (n + m)) with (Z.to_nat n + Z.to_nat m)%nat by lia.
  rewrite <- take_take_drop, drop_drop. do 3 f_equal. lia.
Qed.

(** What is in the buffer after [r] bytes were read. *)
Definition filled (off r : Z) (buf : list Z) : list Z := slice rom off r ++ drop (Z.to_nat r) buf.

Lemma filled_step off r n buf :
  0 <= off -> 0 <= r -> 0 <= n -> off + r + n <= zlen rom -> r + n <= zlen buf ->
  take (Z.to_nat r) (filled off r buf) ++
    slice rom (off + r) n ++ drop (Z.to_nat n) (drop (Z.to_nat r) (filled off r buf)) =
  filled off (r + n) buf.
Proof.
  intros. unfold filled. pose proof (zlen_slice rom off r ltac:(lia) ltac:(lia) ltac:(lia)) as Hz.
  assert (Hln : length (slice rom off r) = Z.to_nat r) by (unfold zlen in Hz; lia).
  rewrite take_app_le by lia. rewrite take_ge by lia.
  rewrite (drop_app_ge _ _ (Z.to_nat r)) by lia. rewrite Hln, Nat.sub_diag, drop_0, drop_drop.
  rewrite app_assoc, slice_app by lia. do 2 f_equal. lia.
Qed.

Lemma memset_at (l : list Z) d v n :
  0 <= d -> 0 <= n -> d + n <= zlen l ->
  memset l d v n =
    Ok (take (Z.to_nat d) l ++ replicate (Z.to_nat n) v ++ drop (Z.to_nat (d + n)) l).
Proof.
  intros Hd Hn Hl. destruct (memset_ok l d v n Hd Hn Hl) as (q & Hq & Hlen & Hin & Hout).
  rewrite Hq. f_equal. pose proof (zlen_take l d Hd) as Ht.
  apply rd_ext.
  - rewrite !zlen_app, zlen_replicate, zlen_drop, Ht by lia. lia.
  - intros j Hj. rewrite Hlen in Hj. destruct (Z.lt_ge_cases j d).
    + rewrite Hout by lia. rewrite rd_app_l by lia. by rewrite rd_take.
    + rewrite (rd_app_r (take _ _)) by lia. rewrite Ht, Z.min_l by lia.
      destruct (Z.lt_ge_cases j (d + n)).
      * rewrite rd_app_l by (rewrite zlen_replicate; lia).
        replace j with (d + (j - d)) at 1 by lia. rewrite Hin by lia. symmetry.
        apply rd_inv. split; [lia|]. apply lookup_replicate_2. lia.
      * rewrite rd_app_r by (rewrite zlen_replicate; lia). rewrite zlen_replicate, rd_drop by lia.
        rewrite Hout by lia. f_equal. lia.
Qed.

(** One round of the loop over the segments. *)
Lemma edid_bytes_step_run off size buf r b s :
  serves s -> image_valid -> zlen rom <= 32768 -> 0 <= off -> off + size <= zlen rom ->
  1 <= size <= zlen buf -> 0 <= r < size ->
  exists n s', edid_bytes_step cb_ReadU32 overAux pDev off size (r, b, filled off r buf, s) =
      Ok (inl (r + n, true, filled off (r + n) buf, s')) /\
    serves s' /\ 1 <= n /\ r + n <= size.
Proof.
  intros Hs Hv Hmax Ho Hl Hb Hr. unfold edid_bytes_step.
  replace (r <? size) with true by lia.
  assert (Hu : u32 (off + r) = off + r).
  { apply wrap_small. unfold fits. change (2 ^ 32) with 4294967296. lia. }
  rewrite Hu. set (seg := (off + r) / 256). set (o := (off + r) mod 256).
  set (n := Z.min (256 - o) (size - r)).
  assert (Hseg : 0 <= seg < 128) by (unfold seg; dlia).
  assert (Ho' : 0 <= o < 256) by (unfold o; dlia).
  assert (Eo : 256 * seg + o = off + r) by (unfold seg, o; dlia).
  assert (Hu8 : u8 seg = seg).
  { apply wrap_small. unfold fits. change (2 ^ 8) with 256. lia. }
  assert (Hlen : zlen (filled off r buf) = zlen buf).
  { unfold filled. rewrite zlen_app, zlen_slice, zlen_drop by lia. lia. }
  unfold at_offset. rewrite Hu8.
  destruct (source_ok (drop (Z.to_nat r) (filled off r buf)) o n seg s) as (s' & H1 & Hs');
    [done | lia | rewrite zlen_drop; lia | lia | done | lia |].
  rewrite H1. cbn [rbind]. rewrite read_status_ok by (done || lia). cbn iota.
  rewrite Eo. exists n, s'. split; [|split; [done|lia]].
  by rewrite filled_step by lia.
Qed.

(** A range of bytes of the EDID: when every block it touches is announced, the range is
    delivered, across any number of segments; when not, the call fails and the range is
    cleared. *)
Theorem GetEdidBytes_spec (buf : list Z) (off size : Z) (s : bus T) :
  serves s -> image_valid -> zlen rom <= 32768 -> 128 <= zlen rom ->
  (rd rom 0x7E <> Ok 0 -> 256 <= zlen rom) ->
  128 * (announced + 1) <= zlen rom -> 0 <= off -> 1 <= size <= zlen buf -> off + size < 2 ^ 32 ->
  exists s', serves s' /\
    cbGetEdidBytes cb_ReadU32 overAux pDev (Some buf) off size s =
      Ok (if off + size <=? 128 * Z.max 1 (announced + 1)
          then (true, Some (slice rom off size ++ drop (Z.to_nat size) buf), s')
          else (false, Some (replicate (Z.to_nat size) 0 ++ drop (Z.to_nat size) buf), s')).
Proof.
  intros Hs Hv Hmax H128 Hl2 Hann Ho Hb Hos. unfold cbGetEdidBytes.
  replace (size =? 0) with false by lia.
  assert (Hu : u32 (off + size) = off + size) by (by apply wrap_small; unfold fits; lia).
  rewrite Hu. unfold EDID_BLK_SIZE.
  set (blk := if negb ((off + size) mod 128 =? 0) then _ else _).
  assert (Hblk : forall m, blk <= m <-> off + size <= 128 * m).
  { intros m. unfold blk. destruct (Z.eqb_spec ((off + size) mod 128) 0); cbn [negb]; dlia. }
  assert (H1 : exists s1, serves s1 /\
    (if 1 <? blk then cbGetExtBlockNum cb_ReadU32 overAux pDev s else Ok (true, 0, s)) =
    Ok (true, if 1 <? blk then announced else 0, s1)).
  { destruct (1 <? blk); [|by exists s].
    destruct (GetExtBlockNum_run s) as (s1 & H1 & Hs1); try done. by exists s1. }
  destruct H1 as (s1 & Hs1 & ->). cbn [rbind negb orb].
  pose proof (Hblk 1) as Hb1. pose proof (Hblk (announced + 1)) as Hb2.
  destruct (Z.leb_spec (off + size) (128 * Z.max 1 (announced + 1))) as [Hin|Hout].
  - replace ((1 <? blk) && ((if 1 <? blk then announced else 0) + 1 <? blk)) with false
      by (destruct (Z.ltb_spec 1 blk); lia).
    destruct (iterate_rule (fun '(r, b, buf', s) => 0 <= r <= size /\ b = (0 <? r) /\
        buf' = filled off r buf /\ serves s)
      (fun '(ok, buf', s) => ok = true /\ buf' = filled off size buf /\ serves s)
      (fun '(r, _, _, _) => Z.to_nat (size - r)) (S (Z.to_nat size))
      (edid_bytes_step cb_ReadU32 overAux pDev off size) (0, false, buf, s1))
      as ([[ok buf'] s2] & H2 & -> & -> & Hs2).
    + intros [[[r b] buf'] s2] (Hr & -> & -> & Hs2). destruct (Z.eq_dec r size) as [->|Hrs].
      * eexists. unfold edid_bytes_step. rewrite Z.ltb_irrefl. split; [done|].
        by replace (0 <? size) with true by lia.
      * destruct (edid_bytes_step_run off size buf r (0 <? r) s2) as (n & s3 & H3 & Hs3 & Hn & Hrn);
          try done; try lia.
        eexists; split; [exact H3|]. cbn. split; [|lia]. split; [lia|]. split; [|done]. lia.
    + split; [lia|]. done.
    + lia.
    + rewrite H2. cbn [rbind]. by exists s2.
  - replace ((1 <? blk) && ((if 1 <? blk then announced else 0) + 1 <? blk)) with true
      by (destruct (Z.ltb_spec 1 blk); lia).
    rewrite memset_at by lia. cbn [rbind]. by exists s1.
Qed.

(** ** The whole EDID *)

(** What the reader keeps of block [k]: the block, or zeros when its checksum is wrong. *)
Definition shown (k : Z) : list Z :=
  if blocks_valid (edid_block rom k) then edid_block rom k else replicate 128 0.

Fixpoint shown_upto (n : nat) : list Z :=
  match n with O => [] | S m => shown_upto m ++ shown (Z.of_nat m) end.

(** The number of extension blocks the reader ends up with: what the first block announces
    and, if that is not zero, the HF-EEODB of the second, when that is more. *)
Definition first_exts : Z := match rd rom 0x7E with Ok f => f | Err _ => 0 end.
Definition total_exts : Z := if first_exts =? 0 then 0 else Z.max first_exts announced.

Hypothesis rom_bytes : Forall (fits 8) rom.
Hypothesis rom_blocks : 128 * (total_exts + 1) <= zlen rom.

Lemma edid_block_slice k : edid_block rom k = slice rom (128 * k) 128.
Proof. done. Qed.

Lemma zlen_shown k : 0 <= k -> 128 * (k + 1) <= zlen rom -> zlen (shown k) = 128.
Proof.
  intros. unfold shown. destruct (blocks_valid _); [|done].
  rewrite edid_block_slice. apply zlen_slice; lia.
Qed.

Lemma zlen_shown_upto n : 128 * Z.of_nat n <= zlen rom -> zlen (shown_upto n) = 128 * Z.of_nat n.
Proof.
  induction n as [|n IH]; intros Hl; [done|]. cbn [shown_upto].
  rewrite zlen_app, IH, zlen_shown by lia. lia.
Qed.

(** Reading block [k] into its place. *)
Lemma block_read k (data : list Z) s :
  serves s -> 0 <= k < 256 -> 128 * (k + 1) <= zlen data -> 128 * (k + 1) <= zlen rom ->
  exists s', serves s' /\
    at_offset (k * EDID_BLK_SIZE)
      (fun b => cbGetEdidPerSeg cb_ReadU32 overAux pDev b ((k * EDID_BLK_SIZE) mod 256)
                  EDID_BLK_SIZE (u8 ((k * EDID_BLK_SIZE) / 256))) data s =
    Ok (blocks_valid (edid_block rom k),
        take (Z.to_nat (128 * k)) data ++ edid_block rom k ++
          drop (Z.to_nat (128 * (k + 1))) data, s').
Proof.
  intros Hs Hk Hd Hr. unfold at_offset, EDID_BLK_SIZE. rewrite (Z.mul_comm k).
  set (o := (128 * k) mod 256). set (seg := 128 * k / 256).
  assert (Ho : 0 <= o <= 128 /\ o mod 128 = 0) by (unfold o; dlia).
  assert (Hseg : 0 <= seg < 128) by (unfold seg; dlia).
  assert (E : 256 * seg + o = 128 * k) by (unfold o, seg; dlia).
  assert (Hu8 : u8 seg = seg).
  { apply wrap_small. unfold fits. change (2 ^ 8) with 256. lia. }
  rewrite Hu8.
  destruct (source_ok (drop (Z.to_nat (128 * k)) data) o 128 seg s) as (s' & H1 & Hs');
    [done | lia | rewrite zlen_drop; lia | lia | done | lia |].
  rewrite H1. cbn [rbind]. exists s'. split; [done|].
  rewrite E, <- edid_block_slice. unfold read_status. rewrite (proj2 Ho). cbn [Z.eqb].
  change (128 mod 128 =? 0) with true. cbn [andb]. rewrite drop_drop.
  by replace (Z.to_nat (128 * k) + Z.to_nat 128)%nat with (Z.to_nat (128 * (k + 1))) by lia.
Qed.

(** The block as it is kept, in front of what is not read yet. *)
Lemma keep_block k (data tl : list Z) :
  data = shown_upto k ++ tl -> 128 * (Z.of_nat k + 1) <= zlen rom -> 128 <= zlen tl ->
  let kz := Z.of_nat k in
  let read := take (Z.to_nat (128 * kz)) data ++ edid_block rom kz ++
              drop (Z.to_nat (128 * (kz + 1))) data in
  (if blocks_valid (edid_block rom kz) then Ok read
   else memset read (kz * EDID_BLK_SIZE) 0 EDID_BLK_SIZE) =
  Ok (shown_upto (S k) ++ drop 128 tl).
Proof.
  intros -> Hr Htl. cbn zeta. pose proof (zlen_shown_upto k ltac:(lia)) as Hz.
  assert (Hlen : length (shown_upto k) = Z.to_nat (128 * Z.of_nat k)) by (unfold zlen in Hz; lia).
  assert (Hb : length (edid_block rom (Z.of_nat k)) = 128%nat).
  { rewrite edid_block_slice. pose proof (zlen_slice rom (128 * Z.of_nat k) 128) as Hs.
    unfold zlen in *. lia. }
  rewrite take_app_le by lia. rewrite take_ge by lia.
  rewrite drop_app_ge by lia.
  replace (Z.to_nat (128 * (Z.of_nat k + 1)) - length (shown_upto k))%nat with 128%nat by lia.
  cbn [shown_upto]. unfold shown. destruct (blocks_valid _); [by rewrite <- app_assoc|].
  unfold EDID_BLK_SIZE. rewrite memset_at; [|lia|lia|].
  - f_equal. rewrite take_app_le by lia. rewrite take_ge by lia.
    rewrite <- app_assoc. f_equal. f_equal.
    rewrite drop_app_ge by lia. rewrite drop_app_ge by lia.
    replace (_ - _ - _)%nat with 0%nat by lia. done.
  - rewrite !zlen_app. unfold zlen. rewrite Hb, Hlen. pose proof (zlen_nonneg (drop 128 tl)).
    unfold zlen in *. lia.
Qed.

Lemma GetExtBlockNum_ext (l l' : list Z) :
  (forall i, 0 <= i < 256 -> rd l i = rd l' i) ->
  cbEDIDModule_GetExtBlockNum l = cbEDIDModule_GetExtBlockNum l'.
Proof. intros Hr. unfold cbEDIDModule_GetExtBlockNum. by rewrite !Hr by lia. Qed.

Lemma GetExtBlockNum_bytes (l : list Z) :
  256 <= zlen l -> Forall (fits 8) l ->
  exists n, cbEDIDModule_GetExtBlockNum l = Ok n /\ 0 <= n < 256.
Proof.
  intros Hl Hf. unfold cbEDIDModule_GetExtBlockNum.
  assert (Hr : forall i, 0 <= i < 256 -> exists x, rd l i = Ok x /\ 0 <= x < 256).
  { intros i Hi. destruct (rd_in l i) as [x Hx]; [lia|]. exists x. split; [done|].
    by apply (rd_Forall (fits 8) l i). }
  destruct (Hr 126) as (f & Ef & ?); [lia|]. destruct (Hr 132) as (b & Eb & ?); [lia|].
  destruct (Hr 133) as (c & Ec & ?); [lia|]. destruct (Hr 134) as (d & Ed & ?); [lia|].
  rewrite Ef, Eb, Ec, Ed. cbn [rbind]. destruct (f =? 0); [by exists 0|].
  destruct (Z.shiftr b 5 =? CEA_EXTENDED_BLOCK_TAG); cbn [rbind];
    [destruct (c =? HF_EDID_EXTENSION_OVERRIDE_DATA_BLOCK)|]; by eexists.
Qed.

Lemma grow_full_run fill (data : list Z) exts alloc :
  128 <= zlen data -> 0 <= exts ->
  exists alloc' (ok : bool), grow_full fill data (zlen data) exts alloc =
    Ok (if ok then Some (data ++ replicate (Z.to_nat (128 * (exts + 1) - zlen data)) fill) else None,
        if ok then Z.max (zlen data) (128 * (exts + 1)) else zlen data, alloc') /\
    (alloc' = alloc \/ alloc' = tail alloc /\ zlen data < 128 * (exts + 1)) /\
    (ok = false -> head alloc <> Some true /\ zlen data < 128 * (exts + 1)).
Proof.
  intros Hd He. unfold grow_full, EDID_BLK_SIZE, cb_Allocate. rewrite (Z.mul_comm (exts + 1)).
  destruct (Z.ltb_spec (zlen data) (128 * (exts + 1))) as [Hlt|Hge].
  - destruct alloc as [|[] alloc].
    + exists [], false. split; [done|]. split; [by left|done].
    + rewrite memcpy_grow by lia. cbn [rbind]. exists alloc, true.
      rewrite Z.max_r by lia. split; [done|]. split; [by right|done].
    + exists alloc, false. split; [done|]. split; [by right|done].
  - exists alloc, true. rewrite Z.max_l by lia.
    replace (Z.to_nat (128 * (exts + 1) - zlen data)) with 0%nat by lia.
    rewrite app_nil_r. split; [done|]. split; [by left|done].
Qed.

(** The number of extension blocks known after [k] blocks. *)
Definition known (k : nat) : Z :=
  match k with O => 0 | S O => first_exts | _ => total_exts end.

(** [k] blocks are read. *)
Definition edid_inv (k : nat) (x : edid_state) : Prop :=
  exists tl, f_data x = shown_upto k ++ tl /\ f_size x = zlen (f_data x) /\
    f_size x = 128 * (known k + 1) /\ f_status x = (0 <? Z.of_nat k) /\
    ((2 <= k)%nat -> f_exts x = announced) /\ Z.of_nat k <= known k + 1 /\ serves (f_bus x).

Hypothesis first_valid : blocks_valid (edid_block rom 0) = true.

Lemma first_exts_ok : 0 <= first_exts < 256 /\ rd rom 0x7E = Ok first_exts.
Proof.
  unfold first_exts. destruct (rd rom 126) as [f|e] eqn:E.
  - split; [by apply (rd_Forall (fits 8) rom 126) | done].
  - exfalso. destruct (rd_in rom 126) as [x Hx]; [|congruence].
    unfold total_exts, first_exts in rom_blocks. rewrite E in rom_blocks. cbn in rom_blocks. lia.
Qed.

Lemma known_total k : (k <= 1)%nat \/ first_exts <> 0 -> 0 <= known k <= total_exts.
Proof.
  pose proof first_exts_ok. unfold known, total_exts. intros Hk.
  destruct (Z.eqb_spec first_exts 0); destruct k as [|[|k]]; lia.
Qed.

(** The first two blocks as read are those of the image. *)
Lemma raw_rd k (t : list Z) i :
  (k <= 1)%nat -> 128 * (Z.of_nat k + 1) <= zlen rom -> 0 <= i < 128 * (Z.of_nat k + 1) ->
  rd (shown_upto k ++ edid_block rom (Z.of_nat k) ++ t) i = rd rom i.
Proof.
  intros Hk Hl Hi. assert (E : shown_upto k = slice rom 0 (128 * Z.of_nat k)).
  { destruct k as [|[|k]]; [done| |lia]. change (shown_upto 1) with (shown 0). unfold shown.
    by rewrite first_valid. }
  rewrite E, edid_block_slice, app_assoc.
  change (128 * Z.of_nat k) with (0 + 128 * Z.of_nat k) at 2. rewrite slice_app by lia.
  rewrite rd_app_l by (rewrite zlen_slice; lia). rewrite rd_slice by lia. done.
Qed.

(** The number of extensions after block [k] is read. *)
Lemma exts_after k (t : list Z) exts :
  (k = 0%nat \/ first_exts <> 0) -> ((2 <= k)%nat -> exts = announced) ->
  let data := shown_upto k ++ edid_block rom (Z.of_nat k) ++ t in
  exists n, (if Z.of_nat k =? 0 then rd data EXTENSION_FLAG_INDEX
             else if Z.of_nat k =? 1 then cbEDIDModule_GetExtBlockNum data
             else Ok exts) = Ok n /\
    0 <= n < 256 /\ Z.max (known k) n = known (S k) /\ ((1 <= k)%nat -> n = announced).
Proof.
  intros Hk He. cbn zeta. pose proof first_exts_ok as [Hf Hrd].
  assert (H2 : first_exts <> 0 -> 256 <= zlen rom /\ 0 <= announced < 256 /\
                cbEDIDModule_GetExtBlockNum rom = Ok announced).
  { intros Hne. assert (Hl : 256 <= zlen rom).
    { unfold total_exts in rom_blocks. destruct (Z.eqb_spec first_exts 0); lia. }
    split; [done|]. unfold announced.
    by destruct (GetExtBlockNum_bytes rom Hl rom_bytes) as (n & -> & Hn). }
  destruct k as [|[|k]].
  - cbn [Z.of_nat Z.eqb]. exists first_exts. split; [|split; [done|split; [cbn; lia|lia]]].
    change 0 with (Z.of_nat 0). rewrite raw_rd; [exact Hrd | lia | | unfold EXTENSION_FLAG_INDEX; lia].
    unfold total_exts in rom_blocks. destruct (Z.eqb_spec first_exts 0); lia.
  - change (Z.of_nat 1 =? 0) with false. change (Z.of_nat 1 =? 1) with true. cbn iota.
    destruct H2 as (Hl & H2 & H3); [destruct Hk; done|]. exists announced.
    rewrite (GetExtBlockNum_ext _ rom) by (intros i Hi; apply raw_rd; lia).
    split; [done|]. split; [done|]. split; [|done].
    unfold known, total_exts. destruct (Z.eqb_spec first_exts 0); [|done]. destruct Hk; done.
  - destruct H2 as (_ & H2 & _); [destruct Hk; done|].
    rewrite !(proj2 (Z.eqb_neq _ _)) by lia.
    exists exts. rewrite He by lia. split; [done|]. split; [done|]. split; [|done].
    unfold known, total_exts. destruct (Z.eqb_spec first_exts 0); [destruct Hk; done|lia].
Qed.

Lemma full_step_run fill k x :
  edid_inv k x -> Z.of_nat k <= known k ->
  exists r, full_step cb_ReadU32 overAux pDev fill (Z.of_nat k) x = Ok r /\
    match r with
    | inl x' => edid_inv (S k) x' /\
        (f_alloc x' = f_alloc x \/ f_alloc x' = tail (f_alloc x) /\ (k < 2)%nat)
    | inr (d, n, a, s) =>
        d = None /\ n = 0 /\ serves s /\ head (f_alloc x) <> Some true /\ (k < 2)%nat
    end.
Proof.
  intros (tl & Hd & Hz & Hsz & Hst & Hex & Hk & Hs) Hkn.
  pose proof first_exts_ok as [Hf _].
  assert (Hk0 : k = 0%nat \/ first_exts <> 0).
  { destruct k as [|[|k]]; [by left|right; cbn in Hkn; lia|right]. intros E. cbn in Hkn.
    unfold total_exts in Hkn. rewrite E in Hkn. cbn in Hkn. lia. }
  pose proof (known_total k ltac:(lia)) as Hkt.
  assert (Hk256 : Z.of_nat k < 256).
  { destruct k as [|[|k]]; [lia|lia|]. destruct Hk0 as [?|Hne]; [done|].
    destruct (exts_after 1 [] 0 ltac:(by right) ltac:(lia)) as (n1 & _ & Hn1 & Hm1 & _).
    cbn [known] in Hm1, Hkn. lia. }
  unfold full_step.
  destruct (block_read (Z.of_nat k) (f_data x) (f_bus x)) as (s1 & Hs1 & H1); [done|lia|lia|lia|].
  rewrite H1. cbn [rbind].
  assert (Htl : 128 <= zlen tl).
  { rewrite Hz, Hd, zlen_app, zlen_shown_upto in Hsz by lia. lia. }
  pose proof (keep_block k (f_data x) tl Hd ltac:(lia) Htl) as Hkeep. cbn zeta in Hkeep.
  destruct (exts_after k (drop 128 tl) (f_exts x) Hk0 Hex) as (n & Hn & Hnb & Hmax & Hn2).
  assert (Hraw : take (Z.to_nat (128 * Z.of_nat k)) (f_data x) ++ edid_block rom (Z.of_nat k) ++
      drop (Z.to_nat (128 * (Z.of_nat k + 1))) (f_data x) =
    shown_upto k ++ edid_block rom (Z.of_nat k) ++ drop 128 tl).
  { pose proof (zlen_shown_upto k ltac:(lia)) as Hzk. unfold zlen in Hzk.
    rewrite Hd. rewrite take_app_le by lia. rewrite take_ge by lia. rewrite drop_app_ge by lia.
    do 3 f_equal. lia. }
  rewrite Hraw in Hkeep |- *. set (rdd := shown_upto k ++ edid_block rom _ ++ _) in *.
  set (fst := if Z.of_nat k =? 0 then first_block _ _ else _).
  assert (Hfst : fst = Ok (Some rdd)).
  { unfold fst. destruct (Z.eqb_spec (Z.of_nat k) 0) as [E|]; [|done].
    rewrite E, first_valid. done. }
  rewrite Hfst. cbn [rbind]. clear fst Hfst.
  set (bret := if Z.of_nat k =? 0 then true else _).
  assert (Hbret : bret = blocks_valid (edid_block rom (Z.of_nat k))).
  { unfold bret. destruct (Z.eqb_spec (Z.of_nat k) 0) as [E|]; [|done]. by rewrite E, first_valid. }
  rewrite Hbret. clear bret Hbret.
  rewrite Hn. cbn [rbind]. rewrite Hkeep. cbn [rbind].
  set (data := shown_upto (S k) ++ drop 128 tl) in *.
  assert (Hzd : zlen data = f_size x).
  { unfold data. rewrite Hz, Hd, !zlen_app, !zlen_shown_upto by lia.
    change 128%nat with (Z.to_nat 128). rewrite zlen_drop by lia. lia. }
  destruct (grow_full_run fill data n (f_alloc x)) as (al & ok & Hg & Hal & Hok); [lia|lia|].
  rewrite Hzd in Hg, Hal, Hok. rewrite Hg. cbn [rbind].
  assert (Hk2 : f_size x < 128 * (n + 1) -> (k < 2)%nat).
  { intros Hlt. destruct k as [|[|k]]; [lia|lia|].
    change (known (S (S (S k)))) with (known (S (S k))) in Hmax. lia. }
  destruct ok; [|eexists; split; [done|]; cbn; naive_solver].
  eexists; split; [done|]. cbn [f_data f_size f_alloc f_bus]. split; [|naive_solver].
  eexists. cbn [f_data f_size f_exts f_status f_bus]. split; [unfold data; by rewrite <- app_assoc|].
  split; [rewrite zlen_app, zlen_replicate; lia|]. split; [lia|]. split; [by destruct k|].
  split; [intros; apply Hn2; lia|]. split; [lia|done].
Qed.

(** The allocator grants the next [n] requests. *)
Definition grants (n : nat) (alloc : list bool) : Prop :=
  forall i, (i < n)%nat -> alloc !! i = Some true.

Lemma grants_tail n alloc : grants (S n) alloc -> grants n (tail alloc).
Proof. intros Hg i Hi. rewrite lookup_tail. apply Hg. lia. Qed.

Lemma total_bound : 0 <= total_exts < 256.
Proof.
  pose proof first_exts_ok as [Hf _]. unfold total_exts.
  destruct (Z.eqb_spec first_exts 0) as [|Hne]; [lia|].
  destruct (exts_after 1 [] 0 ltac:(by right) ltac:(lia)) as (n & _ & Hn & _ & Ha).
  rewrite Ha in Hn by lia. lia.
Qed.

(** While there are blocks to read, their number is below the total. *)
Lemma full_inv_bound n x : Z.of_nat n <= known n -> edid_inv n x -> Z.of_nat n <= total_exts.
Proof.
  intros Hn _. pose proof first_exts_ok as [Hf _]. pose proof total_bound.
  destruct n as [|[|n]]; [lia| |cbn in *; lia]. cbn [known] in Hn. unfold total_exts.
  destruct (Z.eqb_spec first_exts 0); lia.
Qed.

Lemma full_loop_run fill alloc s :
  serves s -> head alloc = Some true ->
  exists out size alloc' s', cbGetFullEdid cb_ReadU32 overAux pDev fill alloc s =
      Ok (out, size, alloc', s') /\ serves s' /\
    (out = Some (shown_upto (Z.to_nat (total_exts + 1))) /\ size = 128 * (total_exts + 1) \/
     out = None /\ size = 0 /\ ~ grants 2 (tail alloc)).
Proof.
  intros Hs Ha. unfold cbGetFullEdid, cb_Allocate. destruct alloc as [|b alloc]; [done|].
  injection Ha as ->. cbn [tail]. pose proof first_exts_ok as [Hf _].
  pose proof (known_total 0 ltac:(lia)) as Ht0. cbn in Ht0.
  match goal with |- context [iterate 258 ?f ?st] =>
    destruct (iterate_rule (fun '(k, x) => exists n : nat, k = Z.of_nat n /\ edid_inv n x /\
        (grants 2 alloc -> grants (2 - n) (f_alloc x)))
      (fun '(out, size, alloc', s') => serves s' /\
        (out = Some (shown_upto (Z.to_nat (total_exts + 1))) /\ size = 128 * (total_exts + 1) \/
         out = None /\ size = 0 /\ ~ grants 2 alloc))
      (fun '(k, x) => Z.to_nat (total_exts + 1 - k)) 258 f st) as ([[[out size] a'] s'] & H1 & H2) end.
  - intros [k x] (n & -> & Hinv & Hg). pose proof Hinv as (tl & Hd & Hz & Hsz & Hst & Hex & Hk & Hsx).
    assert (Eq : f_size x / EDID_BLK_SIZE = known n + 1).
    { rewrite Hsz. unfold EDID_BLK_SIZE. rewrite Z.mul_comm. by apply Z.div_mul. }
    rewrite Eq. destruct (Z.ltb_spec (Z.of_nat n) (known n + 1)) as [Hlt|Hge].
    + destruct (full_step_run fill n x Hinv ltac:(lia)) as (r & Hr & Hpost).
      rewrite Hr. cbn [rbind]. destruct r as [x'|[[[d m] a] s1]]; (eexists; split; [done|]).
      * destruct Hpost as [Hinv' Hal]. pose proof (full_inv_bound n x ltac:(lia) Hinv).
        split; [|lia]. exists (S n). split; [lia|]. split; [done|]. intros Hgr.
        specialize (Hg Hgr). destruct Hal as [-> | [-> Hn2]].
        -- intros i Hi. apply Hg. lia.
        -- replace (2 - n)%nat with (S (2 - S n)) in Hg by lia. by apply grants_tail.
      * destruct Hpost as (-> & -> & Hs1 & Hh & Hn2). split; [done|]. right.
        split; [done|]. split; [done|]. intros Hgr. apply Hh.
        specialize (Hg Hgr 0%nat ltac:(lia)). by destruct (f_alloc x).
    + assert (En : Z.of_nat n = known n + 1) by lia.
      rewrite Hst. destruct n as [|n]; [cbn in En; lia|].
      rewrite (proj2 (Z.ltb_lt 0 (Z.of_nat (S n)))) by lia. eexists; split; [done|].
      split; [done|]. left. assert (Ek : known (S n) = total_exts).
      { destruct n as [|n]; [|done]. cbn in En |- *. unfold total_exts.
        by replace first_exts with 0 by lia. }
      rewrite Hsz, Ek. split; [|done]. f_equal. rewrite Hd.
      assert (Htl : zlen tl = 0).
      { rewrite Hz, Hd, zlen_app, zlen_shown_upto in Hsz by lia. lia. }
      destruct tl; [|unfold zlen in Htl; cbn in Htl; lia]. rewrite app_nil_r.
      f_equal. lia.
  - exists 0%nat. split; [done|]. split; [|by rewrite Nat.sub_0_r].
    exists (replicate 128 fill). split; [done|]. split; [done|]. split; [done|].
    split; [done|]. split; [lia|]. split; [cbn; lia|done].
  - cbn. pose proof total_bound. lia.
  - exists out, size, a', s'. done.
Qed.

(** C31. The whole EDID of a display with a valid first block: the caller gets every block
    announced (also by an HF-EEODB), a block with a wrong checksum as zeros, in a buffer
    of just that size; or nothing when an allocation fails. *)
Theorem GetFullEdid_spec (fill : Z) (alloc : list bool) (s : bus T) :
  serves s -> head alloc = Some true ->
  exists out size alloc' s', cbGetFullEdid cb_ReadU32 overAux pDev fill alloc s =
      Ok (out, size, alloc', s') /\ serves s' /\
    (out = Some (shown_upto (Z.to_nat (total_exts + 1))) /\ size = 128 * (total_exts + 1) \/
     out = None /\ size = 0 /\ ~ grants 2 (tail alloc)).
Proof. apply full_loop_run. Qed.

Lemma shown_upto_valid n :
  image_valid -> 128 * Z.of_nat n <= zlen rom -> shown_upto n = slice rom 0 (128 * Z.of_nat n).
Proof.
  intros Hv. induction n as [|n IH]; intros Hl; [done|]. cbn [shown_upto]. rewrite IH by lia.
  unfold shown. rewrite edid_block_slice, slice_valid by (done || lia || dlia).
  change (128 * Z.of_nat n) with (0 + 128 * Z.of_nat n) at 2. rewrite slice_app by lia.
  f_equal. lia.
Qed.

Lemma slice_all : slice rom 0 (zlen rom) = rom.
Proof. unfold slice, zlen. rewrite Nat2Z.id. by apply firstn_all. Qed.
End client.

(** ** The display and the reader together *)

(** C3. End to end: the bytes a display holds are the bytes the display BIOS parses. On
    each of the ten I2C buses, for a display whose image is the blocks it announces, with
    valid checksums, [cbGetFullEdid] returns exactly the image, through START, STOP,
    acknowledges and the two lines of the bus, whatever the stretching of the clock. *)
Theorem edid_end_to_end (cb_ReadU32 : Z -> Z) (pDev : EDID_DEVICE) (rp : I2C_REG_PARAMS)
    (rom : list Z) (fill : Z) (s : bus ddc) :
  Z.land (cb_ReadU32 HDCPCTL2_DEST) HDCP_I2C_ENABLE_DEST = 0 ->
  Z.land (cb_ReadU32 HDCP2_CTL2_DEST) HDCP_I2C_ENABLE_DEST = 0 ->
  cbI2CModule_GetI2CParams (u8 (I2CBus pDev)) = Some rp ->
  Forall (fits 8) rom -> image_valid rom -> zlen rom = 128 * (total_exts rom + 1) ->
  display rp rom s ->
  exists alloc' s', cbGetFullEdid cb_ReadU32 None pDev fill [true; true; true] s =
      Ok (Some rom, zlen rom, alloc', s') /\
    display rp rom s'.
Proof.
  intros H1 H2 Hrp Hb Hv Hl Hs.
  assert (Hpos : 128 <= zlen rom).
  { destruct (rd rom 0x7E) as [f|e] eqn:E.
    - apply rd_bound in E. lia.
    - unfold total_exts, first_exts in Hl. rewrite E in Hl. cbn in Hl. lia. }
  assert (Hfirst : blocks_valid (edid_block rom 0) = true).
  { rewrite edid_block_slice. apply slice_valid; (done || lia). }
  pose proof (display_source cb_ReadU32 (conj H1 H2) pDev rp Hrp rom Hb) as Hsrc.
  destruct (full_loop_run cb_ReadU32 None pDev rom (display rp rom) Hb ltac:(lia) Hfirst
    fill [true; true; true] s Hs eq_refl) as (out & size & al & s' & Hrun & Hs' & Hout).
  exists al, s'. split; [|done]. rewrite Hrun.
  destruct Hout as [[-> ->] | (_ & _ & Hg)].
  - rewrite shown_upto_valid by (done || lia).
    replace (128 * Z.of_nat (Z.to_nat (total_exts rom + 1))) with (zlen rom) by lia.
    by rewrite slice_all, Hl.
  - exfalso. apply Hg. intros i Hi. destruct i as [|[|i]]; [done|done|lia].
Qed.

(** ** Witnesses

    A display with one extension block, on GPIO bus 9; bytes that make the sums zero. *)
Definition rom_example : list Z :=
  EDID1header ++ replicate 118 0 ++ [1; 5] ++ [2; 3] ++ replicate 125 0 ++ [251].
Definition dev_example : EDID_DEVICE := mkEdidDevice 9 10 (mkEdidData None 0).
Definition display_example : ddc := mkDdc rom_example 0 0 false.

Lemma rom_example_bytes : Forall (fits 8) rom_example.
Proof. by repeat (apply Forall_app_2 || apply Forall_replicate || constructor). Qed.

Lemma rom_example_valid : image_valid rom_example.
Proof.
  intros k Hk Hl. change (zlen rom_example) with 256 in Hl.
  assert (Hk2 : k = 0 \/ k = 1) by lia. by destruct Hk2 as [-> | ->].
Qed.

Lemma display_example_ok : display bus9 rom_example (idle_bus bus9 display_example [7]%nat).
Proof.
  exists display_example. split; [|done].
  apply idle_rest; [by apply (params_row 9)|].
  rewrite Forall_cons. unfold patience, MAXI2CWAITLOOP. split; [lia|constructor].
Qed.

Lemma edid_end_to_end_witness :
  exists alloc' s', cbGetFullEdid (fun _ => 0) None dev_example 0xAA [true; true; true]
      (idle_bus bus9 display_example [7]%nat) = Ok (Some rom_example, 256, alloc', s') /\
    display bus9 rom_example s'.
Proof.
  exact (edid_end_to_end (fun _ => 0) dev_example bus9 rom_example 0xAA _ eq_refl eq_refl eq_refl
    rom_example_bytes rom_example_valid eq_refl display_example_ok).
Defined.

#[export] Instance example_source :
  EdidSource (fun _ => 0) None dev_example rom_example (display bus9 rom_example) :=
  display_source (fun _ => 0) (conj eq_refl eq_refl) dev_example bus9 eq_refl rom_example
    rom_example_bytes.

(** Twenty bytes across the boundary of the blocks, and a range that was not announced. *)
Lemma GetEdidBytes_spec_witness :
  (exists s', display bus9 rom_example s' /\
    cbGetEdidBytes (fun _ => 0) None dev_example (Some (replicate 21 7)) 120 20
      (idle_bus bus9 display_example [7]%nat) =
      Ok (true, Some (replicate 6 0 ++ [1; 5; 2; 3] ++ replicate 10 0 ++ [7]), s')) /\
  (exists s', display bus9 rom_example s' /\
    cbGetEdidBytes (fun _ => 0) None dev_example (Some (replicate 21 7)) 250 20
      (idle_bus bus9 display_example [7]%nat) =
      Ok (false, Some (replicate 20 0 ++ [7]), s')).
Proof.
  split;
    [ refine (GetEdidBytes_spec (fun _ => 0) None dev_example rom_example (display bus9 rom_example)
        (replicate 21 7) 120 20 _ display_example_ok rom_example_valid _ _ _ _ _ _ _)
    | refine (GetEdidBytes_spec (fun _ => 0) None dev_example rom_example (display bus9 rom_example)
        (replicate 21 7) 250 20 _ display_example_ok rom_example_valid _ _ _ _ _ _ _) ];
    try done; by vm_compute.
Defined.

Lemma GetExtBlockNum_remote_witness :
  exists s', cbGetExtBlockNum (fun _ => 0) None dev_example
      (idle_bus bus9 display_example [7]%nat) = Ok (true, 1, s') /\ display bus9 rom_example s'.
Proof.
  by apply (GetExtBlockNum_remote (fun _ => 0) None dev_example rom_example
    (display bus9 rom_example) _ display_example_ok).
Defined.

(** The extension block is corrupted: it is delivered as zeros. *)
Definition rom_bad : list Z := <[200%nat := 1]> rom_example.

Lemma GetFullEdid_spec_witness :
  exists out size alloc' s', cbGetFullEdid (fun _ => 0) None dev_example 0xAA [true; true]
      (idle_bus bus9 (mkDdc rom_bad 0 0 false) []) = Ok (out, size, alloc', s') /\
    display bus9 rom_bad s' /\
    (out = Some (take 128 rom_example ++ replicate 128 0) /\ size = 256 \/
     out = None /\ size = 0 /\ ~ grants 2 [true]).
Proof.
  assert (Hb : Forall (fits 8) rom_bad) by (apply Forall_insert; [exact rom_example_bytes|done]).
  pose proof (display_source (fun _ => 0) (conj eq_refl eq_refl) dev_example bus9 eq_refl rom_bad Hb)
    as Hsrc.
  refine (GetFullEdid_spec (fun _ => 0) None dev_example rom_bad (display bus9 rom_bad) Hb _ _
    0xAA [true; true] _ _ eq_refl); [by vm_compute | by vm_compute |].
  exists (mkDdc rom_bad 0 0 false). split; [|done].
  apply idle_rest; [by apply (params_row 9) | constructor].
Defined.

(** The second HDCP engine is on I2C bus 2 according to its register (0x80 in [CR_B_C6]) and
    enabled, but the check of bus 2 takes bits of the port from the register of the
    first engine and finds the bus free. *)
Definition hdcp2_bus : bus ddc :=
  (idle_bus bus9 display_example []) <| regs := {[ 0x88AA := 0; 0x89C6 := 0x80 ]} |>.

Lemma HDCP2_bus_missed :
  HDCP_Port1 0x80 0 = 2 /\
  cbHwI2CCheckStatus (fun a => if a =? HDCP2_CTL2_DEST then HDCP_I2C_ENABLE_DEST else 0) 2 hdcp2_bus =
    (CBIOS_OK, hdcp2_bus).
Proof. split; by vm_compute. Qed.
