(* ===== verification/HwContext.v ===== *)
(** * Hardware contexts

    The hardware context buffers of [core/context/context.c]: the bitmap of physical
    context indices of the adapter, and the lists in which each device keeps its
    buffers. A buffer is named by the address of its [list_node]. *)
From S2P Require Import Prelude ListHead ListRings ListSafe PageTable.
From stdpp Require Import gmap.
Local Open Scope Z_scope.

(** ** Operations *)

(** [hw_ctxbuf_t]: the fields these functions set. *)
Record hw_ctxbuf := mkHwCtx { index : Z; phys_index : Z }.

(** [adapter->context_buffer_inuse], the buffers, and the nodes of all
    [hwctx_list]s, which are named by the address of their head. *)
Record hw_contexts := mkHw { context_buffer_inuse : list Z; hwctxs : gmap Z hw_ctxbuf; hw_nodes : heap }.
#[export] Instance hw_contexts_eta : Eta hw_contexts := fun r =>
  mkHw (context_buffer_inuse r) (hwctxs r) (hw_nodes r).

(** "no phys context index" *)
Definition NO_INDEX : Z := 0xFFFF.
Definition mask_num : Z := 0xFFFF / 8.

(** The inner loop, which marks the first free bit of byte [i]: one round, and the
    loop. *)
Definition acquire_step (i p : Z) (m : list Z) (j : Z) : res (Z + Z * list Z) :=
  if j <? 8 then
    let! b := rd m i in
    if negb (Z.land b (Z.shiftl 1 j) =? 0) then Ok (inl (j + 1))
    else let! m := wr m i (Z.lor b (Z.shiftl 1 j)) in Ok (inr (i * 8 + j, m))
  else Ok (inr (p, m)).
Definition acquire_bit (i p : Z) (m : list Z) : res (Z * list Z) := iterate 9 (acquire_step i p m) 0.

(** The outer loop over the bytes. *)
Definition acquire_round (x : Z * Z * list Z) : res (Z * Z * list Z + Z * list Z) :=
  let '(i, p, m) := x in
  if i <? mask_num then
    let! b := rd m i in
    if b =? 0xFF then Ok (inl (i + 1, p, m))
    else
      let! '(p, m) := acquire_bit i p m in
      if negb (p =? 0) then Ok (inr (p, m)) else Ok (inl (i + 1, p, m))
  else Ok (inr (p, m)).
Definition cmi_acquire_physical_context_index (m : list Z) : res (Z * list Z) :=
  iterate (S (Z.to_nat mask_num)) acquire_round (0, NO_INDEX, m).

Definition cmi_release_physical_context_index (p : Z) (m : list Z) : res (list Z) :=
  if negb (p =? 0) && (p <? NO_INDEX) then
    let! b := rd m (p / 8) in wr m (p / 8) (Z.ldiff b (Z.shiftl 1 (p mod 8)))
  else Ok m.

(** [a] is what the allocator answers. *)
Definition cm_add_hwctx_buffer (a head hw_buf_index : Z) (s : hw_contexts) : res (Z * hw_contexts) :=
  if a =? 0 then Ok (E_OUTOFMEMORY, s)
  else
    let! '(p, m) := cmi_acquire_physical_context_index (context_buffer_inuse s) in
    let! h := list_add a head (<[a := mkNode 0 0]> (hw_nodes s)) in
    Ok (S_OK, mkHw m (<[a := mkHwCtx hw_buf_index p]> (hwctxs s)) h).

(** The loop that looks for a buffer of the list. *)
Definition find_hwctx (fuel : nat) (head i : Z) (s : hw_contexts) : res (option Z) :=
  let! r := list_for_each fuel head (hw_nodes s)
    (fun a (_ : unit) =>
       let! b := deref (hwctxs s !! a) in
       if index b =? i then Ok (inr a) else Ok (inl tt)) tt in
  match r with inl _ => Ok None | inr a => Ok (Some a) end.

Definition cm_remove_hwctx_buffer (fuel : nat) (head hwctx_index : Z) (s : hw_contexts) : res (Z * hw_contexts) :=
  let! r := find_hwctx fuel head hwctx_index s in
  match r with
  | Some a =>
      let! h := list_del a (hw_nodes s) in
      let! b := deref (hwctxs s !! a) in
      let! m := cmi_release_physical_context_index (phys_index b) (context_buffer_inuse s) in
      Ok (S_OK, mkHw m (delete a (hwctxs s)) (delete a h))
  | None => Ok (E_FAIL, s)
  end.

(** [own] is the buffer in the context itself, for index 0. *)
Definition cm_get_hwctx_buffer (fuel : nat) (own head hwctx_index : Z) (s : hw_contexts) : res (option Z) :=
  if hwctx_index =? 0 then Ok (Some own) else find_hwctx fuel head hwctx_index s.

(** The loop of [cm_destroy_device] over the buffers that are left. *)
Definition destroy_hwctxs (fuel : nat) (head : Z) (s : hw_contexts) : res hw_contexts :=
  let! r := list_for_each_safe (B := Empty_set) fuel hw_nodes head
    (fun a s =>
       let! b := deref (hwctxs s !! a) in
       let! '(_, s) := cm_remove_hwctx_buffer fuel head (index b) s in Ok (inl s)) s in
  match r with inl s => Ok s | inr b => match b with end end.

(** ** The bitmap *)

Definition in_use (m : list Z) (k : Z) : bool :=
  match rd m (k / 8) with Ok b => Z.testbit b (k mod 8) | Err _ => false end.
Definition marked (m : list Z) (k : Z) (v : bool) : list Z :=
  match rd m (k / 8) with
  | Ok b => <[Z.to_nat (k / 8) := if v then Z.lor b (Z.shiftl 1 (k mod 8)) else Z.ldiff b (Z.shiftl 1 (k mod 8))]> m
  | Err _ => m
  end.

(** The least free index from [k] on. *)
Fixpoint first_free (n : nat) (k : Z) (m : list Z) : option Z :=
  match n with O => None | S n' => if in_use m k then first_free n' (k + 1) m else Some k end.

(** What [cmi_acquire_physical_context_index] does: the least free index, but index 0
    is marked and passed over, with the rest of its byte. *)
Definition indices : nat := Z.to_nat (mask_num * 8).
Definition acquire_spec (m : list Z) : Z * list Z :=
  match first_free indices 0 m with
  | None => (NO_INDEX, m)
  | Some 0 =>
      match first_free (indices - 8) 8 m with
      | None => (0, marked m 0 true)
      | Some k => (k, marked (marked m 0 true) k true)
      end
  | Some k => (k, marked m k true)
  end.
Definition bitmap_ok (m : list Z) : Prop := zlen m = 0xFFFF /\ Forall (fits 8) m.

(** ** The bitmap functions *)

Lemma bit_clear b j : 0 <= j -> (Z.land b (Z.shiftl 1 j) =? 0) = negb (Z.testbit b j).
Proof.
  intros Hj. rewrite Z.shiftl_1_l. destruct (Z.testbit b j) eqn:E; cbn [negb].
  - apply Z.eqb_neq. intros H0. assert (H : Z.testbit (Z.land b (2 ^ j)) j = true).
    { rewrite Z.land_spec, E, Z.pow2_bits_true by done. done. }
    by rewrite H0, Z.bits_0 in H.
  - apply Z.eqb_eq, Z.bits_inj_0. intros k. rewrite Z.land_spec, Z.pow2_bits_eqb by done.
    destruct (Z.eqb_spec j k) as [->|]; [by rewrite E|apply andb_false_r].
Qed.

Lemma set_spec b j k : 0 <= j -> 0 <= k -> Z.testbit (Z.lor b (Z.shiftl 1 j)) k = (j =? k) || Z.testbit b k.
Proof. intros. rewrite Z.lor_spec, Z.shiftl_1_l, Z.pow2_bits_eqb by done. by rewrite orb_comm. Qed.

Lemma clear_spec b j k : 0 <= j -> 0 <= k -> Z.testbit (Z.ldiff b (Z.shiftl 1 j)) k = negb (j =? k) && Z.testbit b k.
Proof. intros. rewrite Z.ldiff_spec, Z.shiftl_1_l, Z.pow2_bits_eqb by done. by rewrite andb_comm. Qed.

Lemma fits_of_bits b : 0 <= b -> (forall k, 8 <= k -> Z.testbit b k = false) -> fits 8 b.
Proof.
  intros H0 Hb. split; [done|]. destruct (Z.eq_dec b 0) as [->|]; [done|]. apply Z.log2_lt_pow2; [lia|].
  destruct (Z.lt_ge_cases (Z.log2 b) 8) as [|Hge]; [done|]. specialize (Hb _ Hge). rewrite Z.bit_log2 in Hb by lia. done.
Qed.

Lemma mark_fits b j (v : bool) : fits 8 b -> 0 <= j < 8 ->
  fits 8 (if v then Z.lor b (Z.shiftl 1 j) else Z.ldiff b (Z.shiftl 1 j)).
Proof.
  intros Hb Hj. pose proof (proj1 Hb) as H0. assert (H1 : 0 <= Z.shiftl 1 j) by (apply Z.shiftl_nonneg; lia).
  apply fits_of_bits.
  - destruct v; [by apply Z.lor_nonneg|apply Z.ldiff_nonneg; by left].
  - intros k Hk. pose proof (testbit_fits_high 8 b k Hb) as E. destruct v; [rewrite set_spec by lia|rewrite clear_spec by lia].
    + destruct (Z.eqb_spec j k); [lia|]. apply E. lia.
    + rewrite E by lia. apply andb_false_r.
Qed.

Lemma byte_at m k : bitmap_ok m -> 0 <= k < NO_INDEX -> exists b, rd m (k / 8) = Ok b /\ fits 8 b /\ 0 <= k mod 8 < 8.
Proof.
  intros [Hz Hf] Hk. unfold NO_INDEX in Hk. destruct (rd_in m (k / 8)) as [b Hb]; [rewrite Hz; dlia|].
  exists b. split; [done|]. split; [by eapply (rd_Forall (fits 8))|dlia].
Qed.

Lemma marked_ok m k v : bitmap_ok m -> 0 <= k < NO_INDEX -> bitmap_ok (marked m k v).
Proof.
  intros Hm Hk. destruct (byte_at m k Hm Hk) as (b & Hb & Hf & Hj). unfold marked. rewrite Hb. destruct Hm as [Hz Hm].
  split; [by rewrite zlen_insert|]. apply Forall_insert; [done|by apply mark_fits].
Qed.

Lemma in_use_marked m k v k' : bitmap_ok m -> 0 <= k < NO_INDEX -> 0 <= k' < NO_INDEX ->
  in_use (marked m k v) k' = if k' =? k then v else in_use m k'.
Proof.
  intros Hm Hk Hk'. destruct (byte_at m k Hm Hk) as (b & Hb & Hf & Hj). destruct (byte_at m k' Hm Hk') as (b' & Hb' & _ & Hj').
  unfold marked, in_use. rewrite Hb, Hb'. pose proof (rd_bound _ _ _ Hb) as Hr. destruct (Z.eq_dec (k' / 8) (k / 8)) as [E|E].
  - rewrite E in *. rewrite rd_insert_eq by done. assert (b' = b) as -> by congruence.
    destruct v; [rewrite set_spec by lia|rewrite clear_spec by lia];
      destruct (Z.eqb_spec (k mod 8) (k' mod 8)), (Z.eqb_spec k' k); try dlia; cbn; try done; exfalso; dlia.
  - rewrite rd_insert_ne, Hb' by (try done; dlia). destruct (Z.eqb_spec k' k); [subst; done|done].
Qed.

Lemma first_free_app n l k m :
  first_free (n + l) k m = match first_free n k m with Some x => Some x | None => first_free l (k + Z.of_nat n) m end.
Proof.
  revert k. induction n as [|n IH]; intros k; cbn [first_free Nat.add]; [f_equal; lia|].
  destruct (in_use m k); [|done]. rewrite IH. destruct (first_free n (k + 1) m); [done|]. f_equal. lia.
Qed.

Lemma first_free_some n k m x : first_free n k m = Some x ->
  k <= x < k + Z.of_nat n /\ in_use m x = false /\ forall y, k <= y < x -> in_use m y = true.
Proof.
  revert k. induction n as [|n IH]; intros k; cbn [first_free]; [done|]. destruct (in_use m k) eqn:E.
  - intros H. destruct (IH _ H) as (H1 & H2 & H3). split; [lia|]. split; [done|]. intros y Hy.
    destruct (Z.eq_dec y k) as [->|]; [done|]. apply H3. lia.
  - intros [= <-]. split; [lia|]. split; [done|lia].
Qed.

Lemma first_free_none n k m : first_free n k m = None -> forall y, k <= y < k + Z.of_nat n -> in_use m y = true.
Proof.
  revert k. induction n as [|n IH]; intros k; cbn [first_free]; [lia|]. destruct (in_use m k) eqn:E; [|done].
  intros H y Hy. destruct (Z.eq_dec y k) as [->|]; [done|]. apply (IH _ H). lia.
Qed.

Lemma first_free_ext n k m m' : (forall y, k <= y < k + Z.of_nat n -> in_use m y = in_use m' y) -> first_free n k m = first_free n k m'.
Proof.
  revert k. induction n as [|n IH]; intros k H; [done|]. cbn [first_free]. rewrite H by lia. rewrite (IH (k + 1)); [done|].
  intros y Hy. apply H. lia.
Qed.

Lemma acquire_bit_run i p m b : rd m i = Ok b -> 0 <= i ->
  acquire_bit i p m = Ok (match first_free 8 (i * 8) m with Some k => (k, marked m k true) | None => (p, m) end).
Proof.
  intros Hb Hi. unfold acquire_bit. change 9%nat with (S 8).
  enough (H : forall n j, 0 <= j -> j + Z.of_nat n = 8 -> iterate (S n) (acquire_step i p m) j =
    Ok (match first_free n (i * 8 + j) m with Some k => (k, marked m k true) | None => (p, m) end)).
  { specialize (H 8%nat 0 ltac:(lia) ltac:(lia)). rewrite Z.add_0_r in H. exact H. }
  induction n as [|n IH]; intros j Hj Hn; rewrite iterate_S; unfold acquire_step at 1.
  - destruct (Z.ltb_spec j 8); [lia|]. done.
  - destruct (Z.ltb_spec j 8) as [Hlt|]; [|lia]. rewrite Hb. cbn [rbind]. rewrite bit_clear by done.
    assert (Hq : (i * 8 + j) / 8 = i /\ (i * 8 + j) mod 8 = j) by dlia. destruct Hq as [Hq Hr].
    cbn [first_free]. unfold in_use at 1. rewrite Hq, Hr, Hb. destruct (Z.testbit b j); cbn [negb].
    + cbn [rbind]. rewrite IH by lia. by rewrite Z.add_assoc.
    + rewrite wr_in by (by eapply rd_bound). cbn [rbind]. unfold marked. by rewrite Hq, Hr, Hb.
Qed.

(** A byte is 255 when its eight indices are in use. *)
Lemma full_byte m i b : rd m i = Ok b -> fits 8 b -> 0 <= i -> (b =? 0xFF) = match first_free 8 (i * 8) m with Some _ => false | None => true end.
Proof.
  intros Hb Hf Hi. assert (Hbit : forall j, 0 <= j < 8 -> in_use m (i * 8 + j) = Z.testbit b j).
  { intros j Hj. unfold in_use. assert ((i * 8 + j) / 8 = i /\ (i * 8 + j) mod 8 = j) as [-> ->] by dlia. by rewrite Hb. }
  destruct (first_free 8 (i * 8) m) as [x|] eqn:E.
  - apply first_free_some in E as (Hx & Hu & _). apply Z.eqb_neq. intros ->.
    specialize (Hbit (x - i * 8)). replace (i * 8 + (x - i * 8)) with x in Hbit by lia. rewrite Hu in Hbit.
    change 0xFF with (Z.ones 8) in Hbit. rewrite Z.ones_spec_low in Hbit by lia. discriminate Hbit. lia.
  - apply Z.eqb_eq. change 0xFF with (Z.ones 8). apply Z.bits_inj'. intros j Hj. destruct (Z.lt_ge_cases j 8) as [Hlt|Hge].
    + rewrite Z.ones_spec_low by lia. rewrite <- Hbit by lia. apply (first_free_none _ _ _ E). lia.
    + rewrite Z.ones_spec_high by lia. apply (testbit_fits_high 8); [done|lia].
Qed.

(** The outer loop from byte [i] on. *)
Definition acquire_from (n : nat) (i p : Z) (m : list Z) : Z * list Z :=
  match first_free (8 * n) (i * 8) m with
  | None => (p, m)
  | Some k =>
      if k =? 0 then match first_free (8 * (n - 1)) 8 m with
                     | None => (0, marked m 0 true)
                     | Some k => (k, marked (marked m 0 true) k true)
                     end
      else (k, marked m k true)
  end.

Lemma rounds_run n i p m : bitmap_ok m -> 0 <= i -> i + Z.of_nat n = mask_num ->
  iterate (S n) acquire_round (i, p, m) = Ok (acquire_from n i p m).
Proof.
  revert i p m. induction n as [|n IH]; intros i p m Hm Hi Hn; rewrite iterate_S; unfold acquire_round at 1.
  { destruct (Z.ltb_spec i mask_num); [lia|]. done. }
  destruct (Z.ltb_spec i mask_num) as [Hlt|]; [|lia]. assert (Hmn : mask_num = 8191) by done.
  destruct (rd_in m i) as [b Hb]; [rewrite (proj1 Hm); lia|]. rewrite Hb. cbn [rbind].
  pose proof (rd_Forall (fits 8) _ _ _ (proj2 Hm) Hb) as Hf. rewrite (full_byte m i b Hb Hf Hi).
  unfold acquire_from. replace (8 * S n)%nat with (8 + 8 * n)%nat by lia. rewrite first_free_app.
  replace (i * 8 + Z.of_nat 8) with ((i + 1) * 8) by lia.
  destruct (first_free 8 (i * 8) m) as [k|] eqn:E.
  - rewrite (acquire_bit_run i p m b Hb Hi), E. cbn [rbind]. apply first_free_some in E as (Hk & _).
    destruct (Z.eqb_spec k 0) as [->|Hk0]; cbn [negb rbind]; [|done].
    assert (i = 0) as -> by lia. assert (H0 : 0 <= 0 < NO_INDEX) by (unfold NO_INDEX; lia).
    rewrite IH; [|by apply marked_ok|lia|lia]. unfold acquire_from. replace (S n - 1)%nat with n by lia.
    rewrite (first_free_ext _ _ (marked m 0 true) m).
    + change ((0 + 1) * 8) with 8. destruct (first_free (8 * n) 8 m) as [x|] eqn:Ex; [|done].
      apply first_free_some in Ex as (Hx & _). destruct (Z.eqb_spec x 0); [lia|done].
    + intros y Hy. rewrite in_use_marked by (try done; unfold NO_INDEX; lia). destruct (Z.eqb_spec y 0); [lia|done].
  - cbn [rbind]. rewrite IH by (try done; lia). unfold acquire_from.
    destruct (first_free (8 * n) ((i + 1) * 8) m) as [k|] eqn:Ek; [|done]. apply first_free_some in Ek as (Hk & _).
    destruct (Z.eqb_spec k 0); [lia|done].
Qed.

Lemma acquire_run m : bitmap_ok m -> cmi_acquire_physical_context_index m = Ok (acquire_spec m).
Proof.
  intros Hm. unfold cmi_acquire_physical_context_index, acquire_spec. rewrite rounds_run by done. unfold acquire_from, indices.
  replace (8 * Z.to_nat mask_num)%nat with (Z.to_nat (mask_num * 8)) by (unfold mask_num; lia).
  replace (8 * (Z.to_nat mask_num - 1))%nat with (Z.to_nat (mask_num * 8) - 8)%nat by (unfold mask_num; lia).
  change (0 * 8) with 0. destruct (first_free _ 0 m) as [k|]; [|done]. by destruct k.
Qed.
