(* ===== verification/HwContextSpec.v ===== *)
(** * Hardware contexts: what they promise

    The abstract table of the hardware context buffers, the invariant that relates it
    to the lists and the bitmap of HwContext.v, and the proof that each operation, and
    each sequence of operations, refines the table. *)
From S2P Require Import Prelude ListHead ListRings ListSafe PageTable HwContext.
From stdpp Require Import gmap.
Local Open Scope Z_scope.

(** ** The specification *)

(** The buffers of the devices, the last one added first: the address and
    the contents of each. *)
Abbreviation hw_table := (gmap Z (list (Z * hw_ctxbuf))).
Definition in_table (T : hw_table) (a : Z) (b : hw_ctxbuf) : Prop := exists head l, T !! head = Some l /\ (a, b) ∈ l.

(** The first buffer of a list with an index. *)
Fixpoint entry_of_index (i : Z) (l : list (Z * hw_ctxbuf)) : option Z :=
  match l with [] => None | (a, b) :: l => if index b =? i then Some a else entry_of_index i l end.
Definition drop_entry (a : Z) (l : list (Z * hw_ctxbuf)) : list (Z * hw_ctxbuf) := filter (fun p => p.1 <> a) l.

Inductive hw_op := Add (a head i : Z) | Remove (head i : Z) | Get (own head i : Z) | DestroyAll (head : Z).
Inductive hw_answer := Status (r : Z) | Found (a : option Z).

(** A new buffer gets an index no other one has, or none if all but index 0 are taken. *)
Definition new_index (T : hw_table) (p : Z) : Prop :=
  0 <= p < mask_num * 8 /\ (forall a b, in_table T a b -> phys_index b <> p) \/
  p = NO_INDEX /\ forall k, 0 < k < mask_num * 8 -> exists a b, in_table T a b /\ phys_index b = k.

Inductive hw_step : hw_op -> hw_table -> hw_answer -> hw_table -> Prop :=
| step_add_fails head i T : hw_step (Add 0 head i) T (Status E_OUTOFMEMORY) T
| step_add a head i p l T : a <> 0 -> T !! head = Some l -> new_index T p ->
    hw_step (Add a head i) T (Status S_OK) (<[head := (a, mkHwCtx i p) :: l]> T)
| step_remove head i l a T : T !! head = Some l -> entry_of_index i l = Some a ->
    hw_step (Remove head i) T (Status S_OK) (<[head := drop_entry a l]> T)
| step_remove_fails head i l T : T !! head = Some l -> entry_of_index i l = None -> hw_step (Remove head i) T (Status E_FAIL) T
| step_get own head i l T : T !! head = Some l ->
    hw_step (Get own head i) T (Found (if i =? 0 then Some own else entry_of_index i l)) T
| step_destroy head l T : T !! head = Some l -> hw_step (DestroyAll head) T (Status S_OK) (<[head := []]> T).

(** The code. [own] is the buffer in the context. *)
Definition run_hw_op (fuel : nat) (o : hw_op) (s : hw_contexts) : res (hw_answer * hw_contexts) :=
  match o with
  | Add a head i => let! '(r, s) := cm_add_hwctx_buffer a head i s in Ok (Status r, s)
  | Remove head i => let! '(r, s) := cm_remove_hwctx_buffer fuel head i s in Ok (Status r, s)
  | Get own head i => let! r := cm_get_hwctx_buffer fuel own head i s in Ok (Found r, s)
  | DestroyAll head => let! s := destroy_hwctxs fuel head s in Ok (Status S_OK, s)
  end.

(** ** The invariant *)

Definition ctx_of (s : hw_contexts) (a : Z) : hw_ctxbuf := default (mkHwCtx 0 0) (hwctxs s !! a).
Definition entries (s : hw_contexts) (xs : list Z) : list (Z * hw_ctxbuf) := (fun a => (a, ctx_of s a)) <$> xs.
Definition hw_view (R : gmap Z (list Z)) (s : hw_contexts) : hw_table := entries s <$> R.

Record hw_ok (R : gmap Z (list Z)) (s : hw_contexts) : Prop :=
  { ok_lists : rings (hw_nodes s) R;
    ok_bitmap : bitmap_ok (context_buffer_inuse s);
    ok_live : forall head xs a, R !! head = Some xs -> a ∈ xs -> is_Some (hwctxs s !! a);
    ok_heads : forall head, is_Some (R !! head) -> hwctxs s !! head = None;
    ok_listed : forall a, is_Some (hwctxs s !! a) -> exists head xs, R !! head = Some xs /\ a ∈ xs;
    ok_index : forall a b, hwctxs s !! a = Some b ->
      phys_index b = NO_INDEX \/ 0 <= phys_index b < mask_num * 8 /\ in_use (context_buffer_inuse s) (phys_index b) = true;
    ok_unique : forall a a' b b', hwctxs s !! a = Some b -> hwctxs s !! a' = Some b' -> phys_index b = phys_index b' ->
      a = a' \/ phys_index b = NO_INDEX;
    ok_no_leak : forall k, 0 < k < mask_num * 8 -> in_use (context_buffer_inuse s) k = true ->
      exists a b, hwctxs s !! a = Some b /\ phys_index b = k }.

Lemma view_lookup R s head xs : R !! head = Some xs -> hw_view R s !! head = Some (entries s xs).
Proof. intros H. unfold hw_view. by rewrite lookup_fmap, H. Qed.

Lemma in_view R s a b : hw_ok R s -> in_table (hw_view R s) a b <-> hwctxs s !! a = Some b.
Proof.
  intros Hok. split.
  - intros (head & l & Hl & Hin). unfold hw_view in Hl. rewrite lookup_fmap in Hl. destruct (R !! head) as [xs|] eqn:Hx; [|done].
    injection Hl as <-. apply list_elem_of_fmap in Hin as (y & [= -> ->] & Hy). destruct (ok_live _ _ Hok _ _ _ Hx Hy) as [b Hb].
    unfold ctx_of. by rewrite Hb.
  - intros Hb. destruct (ok_listed _ _ Hok a) as (head & xs & Hx & Ha); [by eexists|]. exists head, (entries s xs).
    split; [by apply view_lookup|]. apply list_elem_of_fmap. exists a. unfold ctx_of. by rewrite Hb.
Qed.

(** Each buffer is in one list, once. *)
Lemma one_list R s h1 h2 xs ys a : hw_ok R s -> R !! h1 = Some xs -> R !! h2 = Some ys -> a ∈ xs -> a ∈ ys -> h1 = h2.
Proof. intros Hok H1 H2 Ha Hb. destruct (ok_lists _ _ Hok) as [_ Hd]. by eapply (Hd h1 xs h2 ys a); try done; right. Qed.

Lemma list_nodup R s head xs : hw_ok R s -> R !! head = Some xs -> NoDup xs /\ head ∉ xs.
Proof.
  intros Hok Hx. destruct (rings_list _ _ _ _ (ok_lists _ _ Hok) Hx) as (Hnd & _). by apply NoDup_cons in Hnd as [? ?].
Qed.

(** ** Finding *)

Lemma length_hwctxs R s head xs : hw_ok R s -> R !! head = Some xs -> (length xs <= size (hwctxs s))%nat.
Proof.
  intros Hok Hx. destruct (list_nodup _ _ _ _ Hok Hx) as [Hnd _].
  rewrite <- size_dom, <- (size_list_to_set (C := gset Z) xs Hnd). apply subseteq_size.
  intros x Hin. apply elem_of_dom. apply elem_of_list_to_set in Hin. by eapply ok_live.
Qed.

Lemma find_run R s head xs i fuel : hw_ok R s -> R !! head = Some xs -> (size (hwctxs s) < fuel)%nat ->
  find_hwctx fuel head i s = Ok (entry_of_index i (entries s xs)).
Proof.
  intros Hok Hx Hfuel. unfold find_hwctx. destruct (list_nodup _ _ _ _ Hok Hx) as [Hnd _].
  pose proof (length_hwctxs _ _ _ _ Hok Hx) as Hlen.
  rewrite (for_each_run _ _ _ _ _ _ (rings_list _ _ _ _ (ok_lists _ _ Hok) Hx)) by lia.
  assert (Hl : forall a, a ∈ xs -> is_Some (hwctxs s !! a)) by (intros a Ha; by eapply ok_live). clear Hx Hlen Hnd.
  induction xs as [|x xs IH]; [done|]. cbn [for_list entries fmap list_fmap entry_of_index]. destruct (Hl x) as [b Hb]; [by left|].
  assert (E : ctx_of s x = b) by (unfold ctx_of; by rewrite Hb). rewrite Hb, E. cbn [deref rbind]. destruct (index b =? i); [done|]. cbn [rbind].
  apply IH. intros a Ha. apply Hl. by right.
Qed.

Lemma entry_found i l a : entry_of_index i l = Some a -> a ∈ l.*1.
Proof. induction l as [|[x b] l IH]; cbn; [done|]. destruct (index b =? i); [intros [= ->]; by left|right; auto]. Qed.

(** ** Adding *)

Lemma indices_Z : Z.of_nat indices = mask_num * 8.
Proof. unfold indices. by rewrite Z2Nat.id. Qed.

(** What the bitmap gives is new, and marked. *)
Lemma acquire_new R s p m : hw_ok R s -> acquire_spec (context_buffer_inuse s) = (p, m) ->
  bitmap_ok m /\ new_index (hw_view R s) p /\ (p = NO_INDEX \/ 0 <= p < mask_num * 8 /\ in_use m p = true) /\
  (forall k, 0 <= k < mask_num * 8 -> in_use (context_buffer_inuse s) k = true -> in_use m k = true) /\
  (forall k, 0 < k < mask_num * 8 -> in_use m k = true -> k = p \/ in_use (context_buffer_inuse s) k = true).
Proof.
  intros Hok. set (m0 := context_buffer_inuse s). assert (Hmn : mask_num * 8 = 65528) by done. pose proof (ok_bitmap _ _ Hok) as Hm. fold m0 in Hm.
  assert (Hfresh : forall k, 0 <= k < mask_num * 8 -> in_use m0 k = false -> forall a b, in_table (hw_view R s) a b -> phys_index b <> k).
  { intros k Hk Hu a b Hab <-. apply (in_view _ _ _ _ Hok) in Hab. destruct (ok_index _ _ Hok a b Hab) as [E|[_ E]]; [unfold NO_INDEX in E; lia|].
    fold m0 in E. congruence. }
  assert (Hone : forall k, 0 <= k < mask_num * 8 -> in_use m0 k = false -> let m := marked m0 k true in
    bitmap_ok m /\ forall x, 0 <= x < mask_num * 8 -> in_use m x = if x =? k then true else in_use m0 x).
  { intros k Hk Hu. split; [apply marked_ok; [done|unfold NO_INDEX; lia]|]. intros x Hx. apply in_use_marked; [done|unfold NO_INDEX; lia..]. }
  unfold acquire_spec. fold m0. destruct (first_free indices 0 m0) as [k|] eqn:E.
  - apply first_free_some in E as (Hk & Hu & _). rewrite indices_Z in Hk. destruct (Hone k) as [H1 H2]; [lia|done|].
    destruct (Z.eq_dec k 0) as [->|Hk0].
    + destruct (first_free (indices - 8) 8 m0) as [x|] eqn:Ex.
      * apply first_free_some in Ex as (Hx & Hux & _). assert (Hx' : 8 <= x < mask_num * 8) by (pose proof indices_Z; lia).
        intros [= <- <-]. assert (Hin : forall y, 0 <= y < mask_num * 8 -> in_use (marked (marked m0 0 true) x true) y =
          if y =? x then true else if y =? 0 then true else in_use m0 y).
        { intros y Hy. rewrite in_use_marked by (try done; unfold NO_INDEX; lia). by rewrite H2. }
        conjs.
        -- apply marked_ok; [done|unfold NO_INDEX; lia].
        -- left. split; [lia|]. apply Hfresh; [lia|done].
        -- right. split; [lia|]. rewrite Hin by lia. by rewrite Z.eqb_refl.
        -- intros y Hy Hyu. rewrite Hin by lia. destruct (y =? x), (y =? 0); done.
        -- intros y Hy. rewrite Hin by lia. destruct (Z.eqb_spec y x); [by left|]. destruct (Z.eqb_spec y 0); [lia|by right].
      * intros [= <- <-]. conjs; [done|left; split; [lia|by apply Hfresh]|right; split; [lia|]; by rewrite H2 by lia|..].
        -- intros y Hy Hyu. rewrite H2 by lia. by destruct (y =? 0).
        -- intros y Hy. rewrite H2 by lia. destruct (Z.eqb_spec y 0); [lia|by right].
    + destruct k as [|q|q]; [done| |lia]. intros [= <- <-]. conjs; [done|left; split; [lia|]; apply Hfresh; [lia|done]|right; split; [lia|]; rewrite H2 by lia; by rewrite Z.eqb_refl|..].
      * intros y Hy Hyu. rewrite H2 by lia. by destruct (y =? _).
      * intros y Hy. rewrite H2 by lia. destruct (Z.eqb_spec y (Zpos q)); [by left|by right].
  - intros [= <- <-]. pose proof (first_free_none _ _ _ E) as Hall. rewrite indices_Z in Hall. conjs; [done| |by left|done|by right].
    right. split; [done|]. intros k Hk. destruct (ok_no_leak _ _ Hok k Hk) as (a & b & Hab & Hp); [apply Hall; lia|].
    exists a, b. split; [by apply (in_view _ _ _ _ Hok)|done].
Qed.

Lemma entries_ext s s' xs : (forall a, a ∈ xs -> hwctxs s' !! a = hwctxs s !! a) -> entries s' xs = entries s xs.
Proof.
  intros H. unfold entries. apply list_fmap_ext. intros i x Hx. unfold ctx_of. rewrite H; [done|]. by eapply list_elem_of_lookup_2.
Qed.

Lemma view_change R s s' head ys : (forall h xs a, h <> head -> R !! h = Some xs -> a ∈ xs -> hwctxs s' !! a = hwctxs s !! a) ->
  hw_view (<[head := ys]> R) s' = <[head := entries s' ys]> (hw_view R s).
Proof.
  intros H. apply map_eq. intros h. unfold hw_view. destruct (decide (h = head)) as [->|Hne].
  - by rewrite lookup_fmap, !lookup_insert_eq.
  - rewrite lookup_fmap, !lookup_insert_ne, lookup_fmap by done. destruct (R !! h) as [xs|] eqn:Hx; [|done]. cbn. f_equal.
    apply entries_ext. intros a Ha. by eapply H.
Qed.

Lemma add_ok R s a head xs i : hw_ok R s -> R !! head = Some xs -> a <> 0 -> hw_nodes s !! a = None ->
  exists p s' , cm_add_hwctx_buffer a head i s = Ok (S_OK, s') /\ hw_ok (<[head := a :: xs]> R) s' /\
    new_index (hw_view R s) p /\ hw_view (<[head := a :: xs]> R) s' = <[head := (a, mkHwCtx i p) :: entries s xs]> (hw_view R s) /\
    (size (hwctxs s') <= S (size (hwctxs s)))%nat.
Proof.
  intros Hok Hx Ha Hnew. unfold cm_add_hwctx_buffer. destruct (Z.eqb_spec a 0); [done|].
  rewrite acquire_run by apply Hok. cbn [rbind]. destruct (acquire_spec (context_buffer_inuse s)) as [p m] eqn:Ep.
  destruct (acquire_new R s p m Hok Ep) as (Hm & Hp & Hpm & Hkeep & Hback).
  assert (Hun : unlinked R a).
  { intros l ys Hl Hin. destruct (rings_present _ _ _ _ _ (ok_lists _ _ Hok) Hl Hin) as [_ [n' Hn']]. congruence. }
  pose proof (rings_new_node _ _ a (mkNode 0 0) (ok_lists _ _ Hok) Hun) as HR0.
  destruct (rings_list_add (<[a := mkNode 0 0]> (hw_nodes s)) R head xs a HR0 Hx) as (h & -> & HR & _);
    [split; [done|rewrite lookup_insert_eq; by eexists]|done|]. cbn [rbind].
  assert (Hold : hwctxs s !! a = None).
  { destruct (hwctxs s !! a) as [b|] eqn:E; [|done]. destruct (ok_listed _ _ Hok a) as (hd & ys & Hy & Hin); [by eexists|].
    exfalso. apply (Hun hd ys Hy). by right. }
  assert (Hoth : forall y, y <> a -> <[a := mkHwCtx i p]> (hwctxs s) !! y = hwctxs s !! y) by (intros; by apply lookup_insert_ne).
  assert (Hmem : forall hd ys y, R !! hd = Some ys -> y ∈ ys -> y <> a) by (intros hd ys y Hy Hin ->; apply (Hun hd ys Hy); by right).
  exists p, (mkHw m (<[a := mkHwCtx i p]> (hwctxs s)) h). split; [done|]. split; [|split; [done|split; [|cbn; by rewrite map_size_insert_None]]].
  - split; cbn [hw_nodes hwctxs context_buffer_inuse].
    + done.
    + done.
    + intros hd ys y Hy Hin. destruct (decide (y = a)) as [->|Hya]; [rewrite lookup_insert_eq; by eexists|]. rewrite Hoth by done.
      apply lookup_insert_Some in Hy as [[<- <-]|[_ Hy]]; [|by eapply ok_live]. apply elem_of_cons in Hin as [|Hin]; [done|by eapply ok_live].
    + intros hd [ys Hy]. destruct (decide (hd = a)) as [->|Hne].
      * exfalso. apply lookup_insert_Some in Hy as [[-> _]|[_ Hy]]; [apply (Hun a xs Hx)|apply (Hun a ys Hy)]; by left.
      * rewrite Hoth by done. apply (ok_heads _ _ Hok). apply lookup_insert_Some in Hy as [[-> _]|[_ Hy]]; by eexists.
    + intros y Hy. destruct (decide (y = a)) as [->|Hya]; [exists head, (a :: xs); split; [by apply lookup_insert_eq|by left]|].
      rewrite Hoth in Hy by done. destruct (ok_listed _ _ Hok y Hy) as (hd & ys & Hl & Hin). destruct (decide (hd = head)) as [->|Hne].
      * exists head, (a :: xs). split; [by apply lookup_insert_eq|]. right. congruence.
      * exists hd, ys. by rewrite lookup_insert_ne.
    + intros y b. destruct (decide (y = a)) as [->|Hya]; [rewrite lookup_insert_eq; intros [= <-]; done|]. rewrite Hoth by done.
      intros Hb. destruct (ok_index _ _ Hok y b Hb) as [|[H1 H2]]; [by left|right]. split; [done|by apply Hkeep].
    + assert (Hfr : forall y b, hwctxs s !! y = Some b -> phys_index b = p -> p = NO_INDEX).
      { intros y b Hb Hpb. destruct Hp as [[_ Hf]|[-> _]]; [|done]. apply (in_view _ _ _ _ Hok) in Hb. by apply Hf in Hb. }
      intros y z b c. destruct (decide (y = a)) as [->|Hya], (decide (z = a)) as [->|Hza]; rewrite ?lookup_insert_eq, ?Hoth by done.
      * by left.
      * intros [= <-] Hc. cbn. intros E. right. symmetry in E. by apply (Hfr z c).
      * intros Hb [= <-]. cbn. intros E. right. rewrite E. by apply (Hfr y b).
      * by apply (ok_unique _ _ Hok).
    + intros k Hk Hu. destruct (Hback k Hk Hu) as [->|Hu0].
      * exists a, (mkHwCtx i p). by rewrite lookup_insert_eq.
      * destruct (ok_no_leak _ _ Hok k Hk Hu0) as (y & b & Hb & E). exists y, b. rewrite Hoth; [done|intros ->; congruence].
  - rewrite (view_change R s).
    + f_equal. unfold entries at 1. cbn [fmap list_fmap]. unfold ctx_of at 1. cbn [hwctxs]. rewrite lookup_insert_eq. cbn. f_equal.
      apply entries_ext. intros y Hy. cbn. apply Hoth. by eapply Hmem.
    + intros hd ys y _ Hy Hin. cbn. apply Hoth. by eapply Hmem.
Qed.

(** ** Removing *)

Lemma release_bitmap_run m p : bitmap_ok m -> 0 <= p <= NO_INDEX ->
  cmi_release_physical_context_index p m = Ok (if (0 <? p) && (p <? NO_INDEX) then marked m p false else m).
Proof.
  intros Hm Hp. unfold cmi_release_physical_context_index. destruct (Z.eqb_spec p 0) as [->|Hp0]; [done|].
  destruct (Z.ltb_spec 0 p) as [_|]; [|lia]. cbn [negb andb]. destruct (Z.ltb_spec p NO_INDEX) as [Hlt|]; [|done].
  destruct (byte_at m p Hm) as (b & Hb & _); [lia|]. rewrite Hb. cbn [rbind]. rewrite wr_in by (by eapply rd_bound).
  unfold marked. by rewrite Hb.
Qed.

Lemma entry_of_index_in s xs i a : entry_of_index i (entries s xs) = Some a -> a ∈ xs.
Proof. intros H%entry_found. unfold entries in H. rewrite <- list_fmap_compose in H. apply list_elem_of_fmap in H as (x & -> & Hx). done. Qed.

Lemma drop_entries s xs a : drop_entry a (entries s xs) = entries s (filter (fun x => x <> a) xs).
Proof.
  induction xs as [|x xs IH]; [done|]. unfold drop_entry, entries in *. cbn [fmap list_fmap]. rewrite !filter_cons. cbn [fst].
  destruct (decide (x <> a)); [cbn [fmap list_fmap]; by rewrite IH|done].
Qed.

Lemma filter_nodup (pre post : list Z) a : NoDup (pre ++ a :: post) -> filter (fun x => x <> a) (pre ++ a :: post) = pre ++ post.
Proof.
  intros Hnd. apply NoDup_app in Hnd as (_ & H1 & H2). apply NoDup_cons in H2 as [H2 _].
  assert (H : forall l : list Z, a ∉ l -> filter (fun x : Z => x <> a) l = l).
  { induction l as [|y l IH]; [done|]. intros Hl. apply not_elem_of_cons in Hl as [Hy Hl]. rewrite filter_cons, decide_True by done. by rewrite IH. }
  rewrite filter_app, filter_cons, decide_False by (by intros []). rewrite !H; [done|done|]. intros Hin. apply (H1 a Hin). by left.
Qed.

(** A buffer leaves its list and is freed. *)
Lemma free_ok R s a head xs ys h b m : hw_ok R s -> R !! head = Some xs -> a ∈ xs -> (forall y, y ∈ ys <-> y ∈ xs /\ y <> a) ->
  rings h (<[head := ys]> R) -> hwctxs s !! a = Some b -> cmi_release_physical_context_index (phys_index b) (context_buffer_inuse s) = Ok m ->
  hw_ok (<[head := ys]> R) (mkHw m (delete a (hwctxs s)) h) /\
  hw_view (<[head := ys]> R) (mkHw m (delete a (hwctxs s)) h) = <[head := entries s ys]> (hw_view R s).
Proof.
  intros Hok Hx Ha Hys HR Hb Hrel. set (s' := mkHw m (delete a (hwctxs s)) h).
  assert (Hoth : forall y, y <> a -> hwctxs s' !! y = hwctxs s !! y) by (intros; cbn; by apply lookup_delete_ne).
  assert (Hp : 0 <= phys_index b <= NO_INDEX).
  { destruct (ok_index _ _ Hok a b Hb) as [->|[H _]]; unfold NO_INDEX; [lia|]. change (mask_num * 8) with 65528 in H. lia. }
  rewrite release_bitmap_run in Hrel by (try done; apply Hok). injection Hrel as <-.
  set (m := if (0 <? phys_index b) && _ then _ else _) in *.
  assert (Hm : bitmap_ok m).
  { unfold m. destruct (Z.ltb_spec 0 (phys_index b)), (Z.ltb_spec (phys_index b) NO_INDEX); try apply Hok. apply marked_ok; [apply Hok|lia]. }
  assert (Huse : forall k, 0 <= k < mask_num * 8 -> in_use m k = if (k =? phys_index b) && (0 <? k) then false else in_use (context_buffer_inuse s) k).
  { intros k Hk. change (mask_num * 8) with 65528 in Hk. unfold m, NO_INDEX in *.
    destruct (Z.ltb_spec 0 (phys_index b)), (Z.ltb_spec (phys_index b) 0xFFFF); cbn [andb];
      rewrite ?in_use_marked by (try apply Hok; unfold NO_INDEX; lia); destruct (Z.eqb_spec k (phys_index b)), (Z.ltb_spec 0 k); try lia; done. }
  assert (Hne : forall hd zs y, hd <> head -> R !! hd = Some zs -> y ∈ zs -> y <> a).
  { intros hd zs y Hhd Hz Hy ->. apply Hhd. by eapply one_list. }
  split.
  - split; cbn [hw_nodes context_buffer_inuse s'].
    + done.
    + done.
    + intros hd zs y Hz Hy. apply lookup_insert_Some in Hz as [[<- <-]|[Hhd Hz]].
      * apply Hys in Hy as [Hy Hya]. rewrite Hoth by done. by eapply ok_live.
      * rewrite Hoth by (by apply (Hne hd zs)). by eapply ok_live.
    + intros hd [zs Hz]. destruct (decide (hd = a)) as [->|Hya]; [by apply lookup_delete_eq|]. rewrite Hoth by done.
      apply (ok_heads _ _ Hok). apply lookup_insert_Some in Hz as [[<- _]|[_ Hz]]; by eexists.
    + intros y Hy. destruct (decide (y = a)) as [->|Hya]; [cbn in Hy; rewrite lookup_delete_eq in Hy; by destruct Hy|].
      rewrite Hoth in Hy by done. destruct (ok_listed _ _ Hok y Hy) as (hd & zs & Hl & Hin). destruct (decide (hd = head)) as [->|Hhd].
      * exists head, ys. split; [by apply lookup_insert_eq|]. apply Hys. split; [congruence|done].
      * exists hd, zs. by rewrite lookup_insert_ne.
    + intros y c Hc. destruct (decide (y = a)) as [->|Hya]; [cbn in Hc; by rewrite lookup_delete_eq in Hc|]. rewrite Hoth in Hc by done.
      destruct (ok_index _ _ Hok y c Hc) as [|[H1 H2]]; [by left|right]. split; [done|]. rewrite Huse by done.
      destruct (Z.eqb_spec (phys_index c) (phys_index b)) as [E|]; [|done].
      destruct (ok_unique _ _ Hok y a c b Hc Hb E) as [|E2]; [done|]. unfold NO_INDEX in E2. change (mask_num * 8) with 65528 in H1. lia.
    + intros y z c d Hc Hd. destruct (decide (y = a)) as [->|Hya]; [cbn in Hc; by rewrite lookup_delete_eq in Hc|].
      destruct (decide (z = a)) as [->|Hza]; [cbn in Hd; by rewrite lookup_delete_eq in Hd|]. rewrite Hoth in Hc, Hd by done. by apply (ok_unique _ _ Hok).
    + intros k Hk Hu. rewrite Huse in Hu by lia. destruct (Z.ltb_spec 0 k); [|lia]. destruct (Z.eqb_spec k (phys_index b)) as [|Hkb]; [done|].
      destruct (ok_no_leak _ _ Hok k Hk Hu) as (y & c & Hc & E). exists y, c. rewrite Hoth; [done|]. intros ->. congruence.
  - rewrite (view_change R s).
    + f_equal. apply entries_ext. intros y Hy. apply Hoth. by apply Hys.
    + intros hd zs y Hhd Hz Hy. apply Hoth. by apply (Hne hd zs).
Qed.

Lemma remove_ok R s head xs i fuel : hw_ok R s -> R !! head = Some xs -> (size (hwctxs s) < fuel)%nat ->
  match entry_of_index i (entries s xs) with
  | None => cm_remove_hwctx_buffer fuel head i s = Ok (E_FAIL, s)
  | Some a => exists s', cm_remove_hwctx_buffer fuel head i s = Ok (S_OK, s') /\
      let ys := filter (fun x => x <> a) xs in
      hw_ok (<[head := ys]> R) s' /\ hw_view (<[head := ys]> R) s' = <[head := drop_entry a (entries s xs)]> (hw_view R s) /\
      hwctxs s' = delete a (hwctxs s)
  end.
Proof.
  intros Hok Hx Hfuel. unfold cm_remove_hwctx_buffer. rewrite (find_run R s head xs i fuel Hok Hx Hfuel). cbn [rbind].
  destruct (entry_of_index i (entries s xs)) as [a|] eqn:E; [|done]. apply entry_of_index_in in E.
  destruct (list_nodup _ _ _ _ Hok Hx) as [Hnd Hhd]. pose proof E as (pre & post & Exs)%list_elem_of_split.
  destruct (ok_live _ _ Hok _ _ _ Hx E) as [b Hb].
  destruct (rings_list_del (hw_nodes s) R head pre a post (ok_lists _ _ Hok)) as (h & -> & HR & Hun & _); [congruence|]. cbn [rbind].
  rewrite Hb. cbn [deref rbind].
  assert (Hp : 0 <= phys_index b <= NO_INDEX).
  { destruct (ok_index _ _ Hok a b Hb) as [->|[H _]]; unfold NO_INDEX; [lia|]. change (mask_num * 8) with 65528 in H. lia. }
  pose proof (release_bitmap_run _ _ (ok_bitmap _ _ Hok) Hp) as Hrel. rewrite Hrel. cbn [rbind]. eexists. split; [reflexivity|].
  assert (Ef : filter (fun x => x <> a) xs = pre ++ post) by (rewrite Exs in *; by apply filter_nodup).
  cbn beta zeta. rewrite drop_entries, Ef.
  assert (Hin : forall y, y ∈ pre ++ post <-> y ∈ xs /\ y <> a).
  { intros y. rewrite <- Ef, list_elem_of_filter. tauto. }
  destruct (free_ok R s a head xs (pre ++ post) (delete a h) b _ Hok Hx E Hin (rings_free_node _ _ _ HR Hun) Hb Hrel) as [H1 H2]. by conjs.
Qed.

(** ** Emptying a list *)

Lemma first_entry s x xs : entry_of_index (index (ctx_of s x)) (entries s (x :: xs)) = Some x.
Proof. cbn. by rewrite Z.eqb_refl. Qed.

Lemma size_delete (a : Z) (m : gmap Z hw_ctxbuf) : (size (delete a m) <= size m)%nat.
Proof. rewrite map_size_delete. destruct (m !! a); cbn; lia. Qed.

Lemma destroy_ok R s head xs fuel : hw_ok R s -> R !! head = Some xs -> (size (hwctxs s) < fuel)%nat ->
  exists s', destroy_hwctxs fuel head s = Ok s' /\ hw_ok (<[head := []]> R) s' /\
    hw_view (<[head := []]> R) s' = <[head := []]> (hw_view R s) /\ (size (hwctxs s') <= size (hwctxs s))%nat.
Proof.
  intros Hok Hx Hfuel. unfold destroy_hwctxs.
  destruct (list_for_each_safe_drains (B := Empty_set) (fun ys t => hw_ok (<[head := ys]> R) t /\
    (exists l, hw_view (<[head := ys]> R) t = <[head := l]> (hw_view R s)) /\ (size (hwctxs t) <= size (hwctxs s))%nat)
    fuel hw_nodes head (fun a t => let! b := deref (hwctxs t !! a) in
      let! '(_, t) := cm_remove_hwctx_buffer fuel head (index b) t in Ok (inl t)) xs s) as (s' & Hrun & Hok' & [l Hv] & Hsz).
  - intros ys t (Ht & _). apply (rings_list _ _ _ _ (ok_lists _ _ Ht)). by rewrite lookup_insert_eq.
  - intros x ys t (Ht & [l Hv] & Hsz). assert (Hy : <[head := x :: ys]> R !! head = Some (x :: ys)) by apply lookup_insert_eq.
    destruct (list_nodup _ _ _ _ Ht Hy) as [Hnd _].
    destruct (ok_live _ _ Ht head (x :: ys) x Hy) as [b Hb]; [by left|]. rewrite Hb. cbn [deref rbind].
    assert (Eb : b = ctx_of t x) by (unfold ctx_of; by rewrite Hb).
    pose proof (remove_ok _ t head (x :: ys) (index b) fuel Ht Hy) as Hrem. rewrite Eb, first_entry in Hrem.
    destruct Hrem as (t1 & Hrun & Hok1 & Hv1 & Hd1); [lia|]. rewrite Eb, Hrun. cbn [rbind]. exists t1. split; [done|].
    assert (Ef : filter (fun y => y <> x) (x :: ys) = ys) by (by apply (filter_nodup [])). rewrite drop_entries, Ef in *.
    rewrite insert_insert_eq in Hok1, Hv1. rewrite Hv, insert_insert_eq in Hv1. conjs; [done| |rewrite Hd1; etrans; [apply size_delete|done]].
    by eexists.
  - rewrite insert_id by done. conjs; [done| |done]. exists (entries s xs). symmetry. apply insert_id. by apply view_lookup.
  - destruct (list_nodup _ _ _ _ Hok Hx) as [Hnd _]. pose proof (length_hwctxs R s head xs Hok Hx). lia.
  - rewrite Hrun. cbn [rbind]. exists s'. conjs; [done|done| |done]. rewrite Hv. f_equal.
    assert (Hl : hw_view (<[head := []]> R) s' !! head = Some (entries s' [])) by apply view_lookup, lookup_insert_eq.
    rewrite Hv, lookup_insert_eq in Hl. by injection Hl.
Qed.

(** ** Sequences of operations *)

Definition head_of (o : hw_op) : Z := match o with Add _ h _ | Remove h _ | Get _ h _ | DestroyAll h => h end.

(** The device exists, and the allocator gives new memory, or none. *)
Definition hw_allowed (heads : list Z) (o : hw_op) (s : hw_contexts) : Prop :=
  head_of o ∈ heads /\ match o with Add a _ _ => a = 0 \/ hw_nodes s !! a = None | _ => True end.

Lemma hw_op_ok R s o fuel heads : hw_ok R s -> (forall h, h ∈ heads <-> is_Some (R !! h)) -> hw_allowed heads o s ->
  (size (hwctxs s) < fuel)%nat ->
  exists ans s' R', run_hw_op fuel o s = Ok (ans, s') /\ hw_step o (hw_view R s) ans (hw_view R' s') /\ hw_ok R' s' /\
    (forall h, h ∈ heads <-> is_Some (R' !! h)) /\ (size (hwctxs s') <= S (size (hwctxs s)))%nat.
Proof.
  intros Hok Hheads [Hh Ho] Hfuel. apply Hheads in Hh as [xs Hx]. pose proof (view_lookup _ s _ _ Hx) as Hvx.
  assert (Hins : forall ys h, h ∈ heads <-> is_Some (<[head_of o := ys]> R !! h)).
  { intros ys h. rewrite Hheads. destruct (decide (h = head_of o)) as [->|Hne]; [rewrite lookup_insert_eq, Hx; by split; eexists|by rewrite lookup_insert_ne]. }
  destruct o as [a head i|head i|own head i|head]; cbn [run_hw_op head_of] in *.
  - destruct (decide (a = 0)) as [->|Ha].
    { exists (Status E_OUTOFMEMORY), s, R. conjs; [done|constructor|done|done|lia]. }
    destruct Ho as [|Ho]; [done|]. destruct (add_ok R s a head xs i Hok Hx Ha Ho) as (p & s' & Hrun & Hok' & Hp & Hv & Hsz).
    rewrite Hrun. cbn [rbind]. exists (Status S_OK), s', (<[head := a :: xs]> R). conjs; [done| |done|apply Hins|done].
    rewrite Hv. by apply step_add.
  - pose proof (remove_ok R s head xs i fuel Hok Hx Hfuel) as Hrem. destruct (entry_of_index i (entries s xs)) as [a|] eqn:E.
    + destruct Hrem as (s' & -> & Hok' & Hv & Hd). cbn [rbind]. exists (Status S_OK), s', (<[head := filter (fun y => y <> a) xs]> R).
      conjs; [done| |done|apply Hins|rewrite Hd; etrans; [apply size_delete|lia]]. rewrite Hv. by apply step_remove.
    + rewrite Hrem. cbn [rbind]. exists (Status E_FAIL), s, R. conjs; [done|by eapply step_remove_fails|done|done|lia].
  - exists (Found (if i =? 0 then Some own else entry_of_index i (entries s xs))), s, R.
    conjs; [|by apply step_get|done|done|lia]. unfold cm_get_hwctx_buffer. destruct (i =? 0); [done|].
    by rewrite (find_run R s head xs i fuel Hok Hx Hfuel).
  - destruct (destroy_ok R s head xs fuel Hok Hx Hfuel) as (s' & -> & Hok' & Hv & Hsz). cbn [rbind].
    exists (Status S_OK), s', (<[head := []]> R). conjs; [done|rewrite Hv; by eapply step_destroy|done|apply Hins|lia].
Qed.

Fixpoint run_hw_ops (fuel : nat) (ops : list hw_op) (s : hw_contexts) : res (list hw_answer * hw_contexts) :=
  match ops with
  | [] => Ok ([], s)
  | o :: ops => let! '(r, s) := run_hw_op fuel o s in let! '(rs, s) := run_hw_ops fuel ops s in Ok (r :: rs, s)
  end.
Inductive hw_steps : list hw_op -> hw_table -> list hw_answer -> hw_table -> Prop :=
| steps_nil T : hw_steps [] T [] T
| steps_cons o ops T r T1 rs T2 : hw_step o T r T1 -> hw_steps ops T1 rs T2 -> hw_steps (o :: ops) T (r :: rs) T2.
(** Every operation is allowed when it comes. *)
Fixpoint hw_allowed_all (fuel : nat) (heads : list Z) (ops : list hw_op) (s : hw_contexts) : Prop :=
  match ops with
  | [] => True
  | o :: ops => hw_allowed heads o s /\ match run_hw_op fuel o s with Ok (_, s) => hw_allowed_all fuel heads ops s | Err _ => True end
  end.

Lemma hw_ops_run fuel heads ops : forall R s, hw_ok R s -> (forall h, h ∈ heads <-> is_Some (R !! h)) -> hw_allowed_all fuel heads ops s ->
  (size (hwctxs s) + length ops < fuel)%nat ->
  exists rs s' R', run_hw_ops fuel ops s = Ok (rs, s') /\ hw_steps ops (hw_view R s) rs (hw_view R' s') /\ hw_ok R' s' /\
    (forall h, h ∈ heads <-> is_Some (R' !! h)).
Proof.
  induction ops as [|o ops IH]; intros R s Hok Hheads Hall Hfuel; cbn [run_hw_ops length] in *.
  { exists [], s, R. conjs; try done. constructor. }
  destruct Hall as [Ha Hall]. destruct (hw_op_ok R s o fuel heads Hok Hheads Ha) as (r & s1 & R1 & Hrun & Hst & Hok1 & Hh1 & Hsz); [lia|].
  rewrite Hrun in *. cbn [rbind]. destruct (IH R1 s1 Hok1 Hh1 Hall) as (rs & s2 & R2 & -> & Hsts & Hok2 & Hh2); [lia|]. cbn [rbind].
  exists (r :: rs), s2, R2. conjs; try done. by econstructor.
Qed.

(** ** The start *)

(** Each device has an empty list ([cm_create_device]), and no index is taken. *)
Fixpoint init_hwctx_lists (heads : list Z) (h : heap) : res heap :=
  match heads with [] => Ok h | l :: heads => let! h := list_init_head l (<[l := mkNode 0 0]> h) in init_hwctx_lists heads h end.
Definition no_hwctxs (h : heap) : hw_contexts := mkHw (replicate (Z.to_nat 0xFFFF) 0) ∅ h.
Definition no_entries (heads : list Z) : hw_table := list_to_map ((fun h => (h, [])) <$> heads).

Lemma init_lists_run heads : forall h R, NoDup heads -> 0 ∉ heads -> rings h R -> (forall l xs, R !! l = Some xs -> xs = [] /\ l ∉ heads) ->
  exists h', init_hwctx_lists heads h = Ok h' /\ rings h' (list_to_map ((fun l => (l, [])) <$> heads) ∪ R).
Proof.
  induction heads as [|l heads IH]; intros h R Hnd H0 HR Hempty; cbn [init_hwctx_lists fmap list_fmap list_to_map].
  { exists h. split; [done|]. change (rings h (∅ ∪ R)). by rewrite map_empty_union. }
  apply NoDup_cons in Hnd as [Hl Hnd]. apply not_elem_of_cons in H0 as [H0l H0].
  destruct (rings_new h R l HR) as (h1 & -> & HR1 & _); [done|left; intros k xs Hk Hin|]; cbn [rbind].
  { destruct (Hempty _ _ Hk) as [-> Hnot]. apply list_elem_of_singleton in Hin as ->. apply Hnot. by left. }
  destruct (IH h1 (<[l := []]> R) Hnd H0 HR1) as (h' & -> & HR').
  { intros k xs [[<- <-]|[Hne Hk]]%lookup_insert_Some; [done|]. destruct (Hempty _ _ Hk) as [-> Hnot]. split; [done|].
    intros Hin. apply Hnot. by right. }
  exists h'. split; [done|]. cbn. rewrite <- insert_union_l. rewrite <- insert_union_r in HR'; [done|].
  apply not_elem_of_list_to_map_1. rewrite <- list_fmap_compose. by rewrite list_fmap_id.
Qed.

Lemma zero_bits k : in_use (replicate (Z.to_nat 0xFFFF) 0) k = false.
Proof.
  unfold in_use. destruct (rd _ (k / 8)) as [b|] eqn:E; [|done]. apply rd_inv in E as [_ E]. apply lookup_replicate in E as [-> _]. apply Z.bits_0.
Qed.

Lemma hw_start heads h : NoDup heads -> 0 ∉ heads -> init_hwctx_lists heads ∅ = Ok h ->
  exists R, hw_ok R (no_hwctxs h) /\ (forall x, x ∈ heads <-> is_Some (R !! x)) /\ hw_view R (no_hwctxs h) = no_entries heads.
Proof.
  intros Hnd H0 Hh. destruct (init_lists_run heads ∅ ∅ Hnd H0) as (h' & Hr & HR).
  { split; intros l xs; by rewrite lookup_empty. }
  { intros l xs. by rewrite lookup_empty. }
  rewrite map_union_empty in HR. assert (h' = h) as -> by congruence. set (R := list_to_map _) in HR. exists R.
  assert (HRl : forall l xs, R !! l = Some xs -> xs = [] /\ l ∈ heads).
  { intros l xs Hl%elem_of_list_to_map_2. apply list_elem_of_fmap in Hl as (y & [= -> ->] & Hy). done. }
  split; [|split].
  - split; cbn [hw_nodes hwctxs context_buffer_inuse no_hwctxs]; try (intros *; rewrite lookup_empty; done).
    + done.
    + split; [by rewrite zlen_replicate, Z2Nat.id|]. apply Forall_replicate. done.
    + intros l xs a Hl Ha. destruct (HRl _ _ Hl) as [-> _]. inversion Ha.
    + intros k _. by rewrite zero_bits.
  - intros x. split; [|intros [xs Hx]; by apply (HRl x xs)]. intros Hx. unfold R. exists [].
    apply elem_of_list_to_map_1; [rewrite <- list_fmap_compose; by rewrite list_fmap_id|]. apply list_elem_of_fmap. by exists x.
  - unfold hw_view, no_entries, R. rewrite <- list_to_map_fmap. f_equal. rewrite <- list_fmap_compose. done.
Qed.

(** ** Claims *)

(** C17. From devices with empty lists, every sequence of additions, removals, searches
    and destructions of hardware context buffers runs without a fault and answers what
    the abstract table answers: an addition prepends a buffer to the list of its device
    with an index no other buffer has (or none when all are taken), a removal drops the
    first buffer with the given index and fails when there is none, a search finds that
    buffer (for index 0, the one in the context), and destroying the device's buffers empties its list and no other. The lists
    in memory are the lists of the table. *)
Theorem hw_contexts_refine fuel heads h ops : NoDup heads -> 0 ∉ heads -> init_hwctx_lists heads ∅ = Ok h ->
  hw_allowed_all fuel heads ops (no_hwctxs h) -> (length ops < fuel)%nat ->
  exists answers s T, run_hw_ops fuel ops (no_hwctxs h) = Ok (answers, s) /\ hw_steps ops (no_entries heads) answers T /\
    forall head, head ∈ heads -> exists xs, is_list (hw_nodes s) head xs /\ T !! head = Some (entries s xs).
Proof.
  intros Hnd H0 Hh Hall Hfuel. destruct (hw_start heads h Hnd H0 Hh) as (R & Hok & Hheads & Hv).
  destruct (hw_ops_run fuel heads ops R _ Hok Hheads Hall) as (rs & s & R' & Hrun & Hst & Hok' & Hheads'); [cbn; done|].
  exists rs, s, (hw_view R' s). rewrite Hv in Hst. conjs; [done|done|]. intros head Hin. apply Hheads' in Hin as [xs Hx].
  exists xs. split; [by apply (rings_list _ _ _ _ (ok_lists _ _ Hok') Hx)|by apply view_lookup].
Qed.

(** C18. After every such sequence the bitmap of the adapter is exact: no two live
    buffers have the same physical context index, and an index other than 0 is marked
    exactly when a live buffer has it, so none is lost and none is given twice. *)
Theorem hw_indices_exact fuel heads h ops answers s : NoDup heads -> 0 ∉ heads -> init_hwctx_lists heads ∅ = Ok h ->
  hw_allowed_all fuel heads ops (no_hwctxs h) -> (length ops < fuel)%nat -> run_hw_ops fuel ops (no_hwctxs h) = Ok (answers, s) ->
  (forall a a' b b', hwctxs s !! a = Some b -> hwctxs s !! a' = Some b' -> phys_index b = phys_index b' ->
     a = a' \/ phys_index b = NO_INDEX) /\
  (forall k, 0 < k < mask_num * 8 ->
     in_use (context_buffer_inuse s) k = true <-> exists a b, hwctxs s !! a = Some b /\ phys_index b = k).
Proof.
  intros Hnd H0 Hh Hall Hfuel Hrun. destruct (hw_start heads h Hnd H0 Hh) as (R & Hok & Hheads & _).
  destruct (hw_ops_run fuel heads ops R _ Hok Hheads Hall) as (rs & s' & R' & Hrun' & _ & Hok' & _); [cbn; done|].
  assert (s' = s) as -> by congruence. split; [apply (ok_unique _ _ Hok')|]. intros k Hk. split; [by apply (ok_no_leak _ _ Hok')|].
  intros (a & b & Hb & <-). destruct (ok_index _ _ Hok' a b Hb) as [E|[_ Hu]]; [|done].
  rewrite E in Hk. unfold NO_INDEX in Hk. change (mask_num * 8) with 65528 in Hk. lia.
Qed.

(** Two devices; two buffers are added, found and removed, one more is added, and a
    device is destroyed. *)
Definition some_ops : list hw_op :=
  [Add 100 16 3; Add 200 32 3; Get 900 16 3; Remove 16 3; Add 300 32 5; Remove 16 3; Add 0 16 1; DestroyAll 32; Add 400 16 7].
Definition some_heads : heap := <[32 := mkNode 32 32]> (<[16 := mkNode 16 16]> ∅).

Lemma some_heads_fresh : NoDup [16; 32] /\ 0 ∉ [16; 32] /\ init_hwctx_lists [16; 32] ∅ = Ok some_heads.
Proof. conjs; [apply (bool_decide_unpack _); by vm_compute|apply (bool_decide_unpack _); by vm_compute|by vm_compute]. Qed.
Lemma some_ops_allowed : hw_allowed_all 20 [16; 32] some_ops (no_hwctxs some_heads).
Proof. vm_compute. repeat split; first [by left|right; by left|by right]. Qed.

Lemma hw_contexts_refine_witness : exists answers s T,
  run_hw_ops 20 some_ops (no_hwctxs some_heads) = Ok (answers, s) /\ hw_steps some_ops (no_entries [16; 32]) answers T /\
  forall head, head ∈ [16; 32] -> exists xs, is_list (hw_nodes s) head xs /\ T !! head = Some (entries s xs).
Proof.
  apply (hw_contexts_refine 20 [16; 32] some_heads some_ops); [apply some_heads_fresh..|apply some_ops_allowed|cbn; lia].
Defined.

Lemma hw_indices_exact_witness : exists answers s,
  run_hw_ops 20 some_ops (no_hwctxs some_heads) = Ok (answers, s) /\
  (forall a a' b b', hwctxs s !! a = Some b -> hwctxs s !! a' = Some b' -> phys_index b = phys_index b' ->
     a = a' \/ phys_index b = NO_INDEX) /\
  (forall k, 0 < k < mask_num * 8 ->
     in_use (context_buffer_inuse s) k = true <-> exists a b, hwctxs s !! a = Some b /\ phys_index b = k).
Proof.
  assert (H : match run_hw_ops 20 some_ops (no_hwctxs some_heads) with Ok _ => True | Err _ => False end) by (vm_compute; exact I).
  destruct (run_hw_ops 20 some_ops (no_hwctxs some_heads)) as [[answers s]|e] eqn:E; [|destruct H]. exists answers, s. split; [reflexivity|].
  apply (hw_indices_exact 20 [16; 32] some_heads some_ops answers); [apply some_heads_fresh..|apply some_ops_allowed|cbn; lia|exact E].
Defined.

(** What the operations answer, and the index of the buffer that is left: index 1 was
    released with the second device and is given again. *)
Example some_answers : match run_hw_ops 20 some_ops (no_hwctxs some_heads) with
  | Ok (answers, s) => answers = [Status S_OK; Status S_OK; Found (Some 100); Status S_OK; Status S_OK; Status E_FAIL;
      Status E_OUTOFMEMORY; Status S_OK; Status S_OK] /\ map_to_list (hwctxs s) = [(400, mkHwCtx 7 1)]
  | Err _ => False end.
Proof. by vm_compute. Qed.

(** The first acquisition of an adapter marks index 0 as well, returns index 8, and index 0 is not
    released. *)
Lemma first_index_lost :
  match cmi_acquire_physical_context_index (replicate (Z.to_nat 0xFFFF) 0) with
  | Ok (p, m) => (p =? 8) && in_use m 0
  | Err _ => false
  end = true /\ forall m, cmi_release_physical_context_index 0 m = Ok m.
Proof. split; [by vm_compute|done]. Qed.
