(* ===== verification/PerfEvent.v ===== *)
(** * Performance events

    [core/perfevent/perfevent.c]: the events that processes send are kept in a list of
    bounded length, those of interrupt handlers as bytes in a ring; a profiling tool
    begins a session, collects both from time to time, and ends it. An event is the
    bytes of its object, which start with its size. The functions for the counters of
    the memory unit, whose entry points are commented out, are not here. *)
From S2P Require Import Prelude ListHead ListSafe.
From stdpp Require Import gmap.
Local Open Scope Z_scope.

(** ** Data *)

Definition PERF_EVENT_MAX_ISR_EVENT_BUFFER_SIZE : Z := 512 * 1024.
(** [sizeof (zx_perf_event_header_t)]; [sizeof (zx_perf_event_t)], which is that of its
    largest member, [zx_perf_event_wait_start_t]. *)
Definition sizeof_header : Z := 24.
Definition sizeof_event : Z := sizeof_header + 4 * 4 + 32 * 16.

(** [perf_event_mgr_t]. A node of [event_list], whose head is at [event_list], is named
    by the address of its [list_node]; [nodes] has the links and [perf_events] the bytes
    of each. *)
Record perf_event_mgr := mkPerf
  { perf_started : bool; event_list : Z; nodes : heap; perf_events : gmap Z (list Z);
    event_number : Z; max_event_number : Z; lost_event_number : Z; lost_event_time : Z;
    isr_event_buffer : list Z; isr_event_tail : Z; isr_event_head : Z; isr_event_buffer_size : Z; isr_event_num : Z }.
#[export] Instance perf_event_mgr_eta : Eta perf_event_mgr := fun r =>
  mkPerf (perf_started r) (event_list r) (nodes r) (perf_events r)
    (event_number r) (max_event_number r) (lost_event_number r) (lost_event_time r)
    (isr_event_buffer r) (isr_event_tail r) (isr_event_head r) (isr_event_buffer_size r) (isr_event_num r).

(** [zx_get_perf_event_t]: what the caller asks, what is filled in, and the bytes
    written to its two buffers, from their start. *)
Record zx_get_perf_event := mkGet
  { max_event_num : Z; event_filled_num : Z; event_buffer_filled_size : Z; event_lost_num : Z; event_lost_timestamp : Z;
    event_bytes : list Z; isr_filled_num : Z; isr_filled_size : Z; isr_bytes : list Z }.
#[export] Instance zx_get_perf_event_eta : Eta zx_get_perf_event := fun r =>
  mkGet (max_event_num r) (event_filled_num r) (event_buffer_filled_size r) (event_lost_num r) (event_lost_timestamp r)
    (event_bytes r) (isr_filled_num r) (isr_filled_size r) (isr_bytes r).

(** [perf_event->header.size] *)
Definition header_size (e : list Z) : res Z :=
  let! b0 := rd e 0 in let! b1 := rd e 1 in let! b2 := rd e 2 in let! b3 := rd e 3 in
  Ok (b0 + 2 ^ 8 * b1 + 2 ^ 16 * b2 + 2 ^ 24 * b3).

(** The bytes that [zx_copy_to_user] takes from [p + off]. *)
Definition copy_to_user (p : list Z) (off n : Z) : res (list Z) :=
  if (0 <=? off) && (0 <=? n) && (off + n <=? zlen p) then Ok (take (Z.to_nat n) (drop (Z.to_nat off) p)) else Err OutOfBounds.

(** ** Sessions *)

(** [head] is the address of [event_list] in the new manager. *)
Definition zx_perf_event_init (head : Z) : res perf_event_mgr :=
  let! h := list_init_head head (<[head := mkNode 0 0]> ∅) in
  Ok (mkPerf false head h ∅ 0 0 0 0 (replicate (Z.to_nat PERF_EVENT_MAX_ISR_EVENT_BUFFER_SIZE) 0) 0 0 0 0).

(** [list_del] and [zx_free] of a node. *)
Definition free_event (a : Z) (s : perf_event_mgr) : res perf_event_mgr :=
  let! h := list_del a (nodes s) in
  Ok (s <| nodes := delete a h |> <| perf_events := delete a (perf_events s) |>).
Definition free_events (fuel : nat) (s : perf_event_mgr) : res perf_event_mgr :=
  let! r := list_for_each_safe (B := Empty_set) fuel nodes (event_list s)
    (fun a s => let! s := free_event a s in Ok (inl s)) s in
  match r with inl s => Ok s | inr b => match b with end end.

(** A false [zx_assert] is a panic. *)
Definition zx_assert (b : bool) : res unit := if b then Ok tt else Err Panic.

Definition perf_event_deinit (fuel : nat) (s : perf_event_mgr) : res unit :=
  let! _ := zx_assert (negb (perf_started s)) in
  let! _ := free_events fuel s in Ok tt.

(** [enabled] is [ctl_flags.perf_event_enable], [max] is [begin->max_event_num]. *)
Definition perf_event_begin (fuel : nat) (enabled : bool) (max : Z) (s : perf_event_mgr) : res (Z * perf_event_mgr) :=
  let! _ := zx_assert enabled in
  let! _ := zx_assert (negb (perf_started s)) in
  let s := s <| isr_event_head := 0 |> <| isr_event_tail := 0 |> <| isr_event_buffer_size := 0 |>
    <| lost_event_number := 0 |> <| event_number := 0 |> in
  let! s := free_events fuel s in
  Ok (0, s <| perf_started := true |> <| max_event_number := sgn 32 max |>).

Definition perf_event_end (s : perf_event_mgr) : res (Z * perf_event_mgr) :=
  let! _ := zx_assert (perf_started s) in Ok (0, s <| perf_started := false |>).

Definition perf_event_get_status (s : perf_event_mgr) (miu_counter_enable : bool) : Z * (bool * bool) :=
  (0, (perf_started s, miu_counter_enable)).

(** ** Events of processes *)

(** The new node: [a] is what the allocator answers. *)
Definition make_event (a : Z) (e : list Z) (s : perf_event_mgr) : res perf_event_mgr :=
  let! n := header_size e in
  let! b := memcpy (replicate (Z.to_nat n) 0) 0 e 0 n in
  Ok (s <| nodes := <[a := mkNode 0 0]> (nodes s) |> <| perf_events := <[a := b]> (perf_events s) |>).

(** The section under [event_list_lock]; [now] is the time. *)
Definition link_event (a now : Z) (s : perf_event_mgr) : res perf_event_mgr :=
  if event_number s <? max_event_number s then
    let! h := list_add_tail a (event_list s) (nodes s) in
    Ok (s <| nodes := h |> <| event_number ::= Z.add 1 |>)
  else
    let s := s <| lost_event_number ::= fun n => sgn 32 (n + 1) |> in
    Ok (if lost_event_number s =? 1 then s <| lost_event_time := now |> else s).

(** The end, after the section. *)
Definition drop_lost_event (a : Z) (s : perf_event_mgr) : res (Z * perf_event_mgr) :=
  if 0 <? lost_event_number s then
    let! n := get_next (nodes s) a in
    if negb (n =? event_list s) then
      Ok (-1, s <| nodes := delete a (nodes s) |> <| perf_events := delete a (perf_events s) |>)
    else Ok (0, s)
  else Ok (0, s).

Definition perf_event_add_event (a now : Z) (e : list Z) (s : perf_event_mgr) : res (Z * perf_event_mgr) :=
  if negb (perf_started s) then Ok (-1, s)
  else if 0 <? lost_event_number s then Ok (-1, s <| lost_event_number ::= fun n => sgn 32 (n + 1) |>)
  else if a =? 0 then Ok (-1, s)
  else
    let! s := make_event a e s in
    let! s := link_event a now s in
    drop_lost_event a s.

(** The entry point: [data] is what the process sent. *)
Definition zx_ioctl_send_perf_event (a now : Z) (data : list Z) (s : perf_event_mgr) : res (Z * perf_event_mgr) :=
  let! n := header_size data in
  if sizeof_event <? n then Ok (-1, s)
  else if sizeof_header <=? n then
    let! perf_event := memcpy (replicate (Z.to_nat sizeof_event) 0) 0 data 0 n in
    perf_event_add_event a now perf_event s
  else Ok (0, s).

(** ** Events of interrupt handlers *)

(** The copy into the ring. *)
Definition put_bytes (buffer : list Z) (tail : Z) (e : list Z) (n : Z) : res (list Z) :=
  if tail + n <? PERF_EVENT_MAX_ISR_EVENT_BUFFER_SIZE then memcpy buffer tail e 0 n
  else
    let partial_copy_size := PERF_EVENT_MAX_ISR_EVENT_BUFFER_SIZE - tail in
    let! buffer := memcpy buffer tail e 0 partial_copy_size in
    memcpy buffer 0 e partial_copy_size (u32 (n - partial_copy_size)).

Definition perf_event_add_isr_event (e : list Z) (s : perf_event_mgr) : res (Z * perf_event_mgr) :=
  if negb (perf_started s) then Ok (-1, s)
  else
    let! n := header_size e in
    if u32 (isr_event_buffer_size s + n) <? PERF_EVENT_MAX_ISR_EVENT_BUFFER_SIZE then
      let! b := put_bytes (isr_event_buffer s) (isr_event_tail s) e n in
      Ok (0, s <| isr_event_buffer := b |>
        <| isr_event_tail := u32 (isr_event_tail s + n) mod PERF_EVENT_MAX_ISR_EVENT_BUFFER_SIZE |>
        <| isr_event_buffer_size ::= Z.add n |> <| isr_event_num ::= fun n => sgn 32 (n + 1) |>)
    else Ok (0, s).

(** Interrupts, one after the other. *)
Fixpoint interrupts (es : list (list Z)) (s : perf_event_mgr) : res perf_event_mgr :=
  match es with
  | [] => Ok s
  | e :: es => let! '(_, s) := perf_event_add_isr_event e s in interrupts es s
  end.

(** The copy out of the ring, between the two sections under [isr_event_lock]. *)
Definition get_bytes (fill_size : Z) (s : perf_event_mgr) : res (list Z) :=
  if isr_event_head s + fill_size <=? PERF_EVENT_MAX_ISR_EVENT_BUFFER_SIZE then
    copy_to_user (isr_event_buffer s) (isr_event_head s) (isr_event_buffer_size s)
  else
    let fill_size_partial := PERF_EVENT_MAX_ISR_EVENT_BUFFER_SIZE - isr_event_head s in
    let! b := copy_to_user (isr_event_buffer s) (isr_event_head s) fill_size_partial in
    let! c := copy_to_user (isr_event_buffer s) 0 fill_size in
    Ok (b ++ c).

(** [before] and [behind] are the events of the interrupts that come between the first
    section and the copy, and between the copy and the second section. *)
Definition perf_event_get_isr_event (before behind : list (list Z)) (get : zx_get_perf_event) (s : perf_event_mgr)
  : res (Z * zx_get_perf_event * perf_event_mgr) :=
  if negb (perf_started s) then Ok (-1, get, s)
  else if isr_event_num s =? 0 then
    Ok (0, get, s <| isr_event_num := 0 |> <| isr_event_buffer_size := 0 |>)
  else
    let event_fill_number := isr_event_num s in
    let event_fill_size := isr_event_buffer_size s in
    let! s := interrupts before s in
    let! b := get_bytes event_fill_size s in
    let s := s <| isr_event_head := (isr_event_head s + event_fill_size) mod PERF_EVENT_MAX_ISR_EVENT_BUFFER_SIZE |> in
    let! s := interrupts behind s in
    let s := s <| isr_event_num ::= fun n => n - event_fill_number |>
      <| isr_event_buffer_size ::= fun n => n - event_fill_size |> in
    Ok (0, get <| isr_bytes := b |> <| isr_filled_num := event_fill_number |> <| isr_filled_size := event_fill_size |>, s).

(** ** Collecting *)

(** The body of the loop over the list: the state is the number of events copied, the
    bytes copied, and the manager. *)
Definition collect_event (limit fill_num : Z) (a : Z) (x : Z * list Z * perf_event_mgr)
  : res (Z * list Z * perf_event_mgr + Z * list Z * perf_event_mgr) :=
  let '(i, out, s) := x in
  let! e := deref (perf_events s !! a) in
  let! n := header_size e in
  let! b := copy_to_user e 0 n in
  let! s := free_event a s in
  let i := i + 1 in
  if (limit <=? i) || (fill_num <=? i) then Ok (inr (i, out ++ b, s)) else Ok (inl (i, out ++ b, s)).

Definition collect_events (fuel : nat) (limit fill_num : Z) (s : perf_event_mgr) : res (Z * list Z * perf_event_mgr) :=
  let! r := list_for_each_safe fuel (fun x => nodes x.2) (event_list s) (collect_event limit fill_num) (0, [], s) in
  match r with inl x => Ok x | inr x => Ok x end.

Definition perf_event_get_event (fuel : nat) (before behind : list (list Z)) (get : zx_get_perf_event) (s : perf_event_mgr)
  : res (Z * zx_get_perf_event * perf_event_mgr) :=
  if negb (perf_started s) then Ok (-1, get, s)
  else
    let event_fill_num := if 2 <? event_number s then event_number s - 1 else 0 in
    if event_fill_num =? 0 then
      let get := get <| event_filled_num := 0 |> <| event_buffer_filled_size := 0 |> <| event_lost_num := 0 |> in
      if isr_event_num s =? 0 then Ok (0, get, s)
      else perf_event_get_isr_event before behind get s
    else
      let! '(i, out, s) := collect_events fuel (max_event_num get) event_fill_num s in
      let get := get <| event_bytes := out |> <| event_filled_num := i |> <| event_buffer_filled_size := u32 (zlen out) |>
        <| event_lost_num := u32 (lost_event_number s) |> <| event_lost_timestamp := lost_event_time s |> in
      let s := s <| event_number ::= fun n => n - i |> <| lost_event_number := 0 |> <| lost_event_time := 0 |> in
      perf_event_get_isr_event before behind get s.
