(* ===== verification/PerfRing.v ===== *)
(** * The ring of the interrupt events is a queue

    The bytes between head and tail of the ring of [perfevent.c], read around its end,
    are the accepted events in order: what an addition, an interrupt during a
    collection, and a collection do to that queue. *)
From S2P Require Import Prelude ListHead ListSafe PerfEvent.
From stdpp Require Import gmap.
Local Open Scope Z_scope.

Notation BUF := PERF_EVENT_MAX_ISR_EVENT_BUFFER_SIZE (only parsing).

(** ** Events *)

Definition event_size (e : list Z) : Z := match header_size e with Ok n => n | Err _ => 0 end.
(** An event as the kernel has it: an object of [zx_perf_event_t] whose size field says
    how much of it counts. *)
Definition event_ok (e : list Z) : Prop :=
  zlen e = sizeof_event /\ sizeof_header <= event_size e <= sizeof_event.
Definition payload (e : list Z) : list Z := take (Z.to_nat (event_size e)) e.

Lemma header_size_run e : 4 <= zlen e -> header_size e = Ok (event_size e).
Proof.
  intros He. unfold event_size, header_size.
  destruct (rd_in e 0) as [b0 ->]; [lia|]. destruct (rd_in e 1) as [b1 ->]; [lia|].
  destruct (rd_in e 2) as [b2 ->]; [lia|]. destruct (rd_in e 3) as [b3 ->]; [lia|]. done.
Qed.

Lemma event_header e : event_ok e -> header_size e = Ok (event_size e).
Proof. intros (He & _). apply header_size_run. rewrite He. done. Qed.

Lemma zlen_payload e : event_ok e -> zlen (payload e) = event_size e.
Proof. intros (He & Hn). unfold payload, sizeof_header in *. rewrite zlen_take by lia. lia. Qed.

(** The size field is in the bytes that count. *)
Lemma header_payload e : event_ok e -> header_size (payload e) = Ok (zlen (payload e)).
Proof.
  intros He. rewrite zlen_payload, <- event_header by done. destruct He as (_ & Hn). unfold sizeof_header in Hn.
  unfold header_size, payload. by rewrite !rd_take by lia.
Qed.

(** ** The ring *)

Definition ring_holds (buffer : list Z) (head : Z) (l : list Z) : Prop :=
  forall j, 0 <= j < zlen l -> rd buffer ((head + j) mod BUF) = rd l j.

Lemma ring_place t j : 0 <= t < BUF -> 0 <= j < BUF ->
  (t + j) mod BUF = if t + j <? BUF then t + j else t + j - BUF.
Proof.
  unfold PERF_EVENT_MAX_ISR_EVENT_BUFFER_SIZE. intros Ht Hj. destruct (Z.ltb_spec (t + j) (512 * 1024)); dlia.
Qed.

Lemma put_bytes_run b t e n : zlen b = BUF -> 0 <= t < BUF -> 0 <= n <= zlen e -> n < BUF ->
  exists b', put_bytes b t e n = Ok b' /\ zlen b' = BUF /\
    (forall j, 0 <= j < n -> rd b' ((t + j) mod BUF) = rd e j) /\
    (forall j, n <= j < BUF -> rd b' ((t + j) mod BUF) = rd b ((t + j) mod BUF)).
Proof.
  intros Hb Ht Hn Hlt. unfold put_bytes. destruct (Z.ltb_spec (t + n) BUF) as [Hin|Hout].
  - destruct (memcpy_ok b e t 0 n) as (b' & -> & Hz & Hnew & Hold); [lia..|]. exists b'. split; [done|]. split; [lia|]. split.
    + intros j Hj. rewrite ring_place by lia. destruct (Z.ltb_spec (t + j) BUF); [|lia]. by rewrite Hnew.
    + intros j Hj. apply Hold. rewrite ring_place by lia. destruct (Z.ltb_spec (t + j) BUF); lia.
  - set (k := BUF - t). assert (Hk : u32 (n - k) = n - k).
    { apply wrap_small. unfold fits, k, PERF_EVENT_MAX_ISR_EVENT_BUFFER_SIZE in *. lia. }
    destruct (memcpy_ok b e t 0 k) as (b1 & -> & Hz1 & Hnew1 & Hold1); [lia..|]. cbn [rbind]. rewrite Hk.
    destruct (memcpy_ok b1 e 0 k (n - k)) as (b2 & -> & Hz2 & Hnew2 & Hold2); [lia..|]. exists b2. split; [done|]. split; [lia|]. split.
    + intros j Hj. rewrite ring_place by lia. destruct (Z.ltb_spec (t + j) BUF) as [Hj1|Hj1].
      * rewrite Hold2 by lia. rewrite Hnew1 by lia. done.
      * replace (t + j - BUF) with (0 + (j - k)) by lia. rewrite Hnew2 by lia. f_equal. lia.
    + intros j Hj. rewrite ring_place by lia. destruct (Z.ltb_spec (t + j) BUF) as [Hj1|Hj1].
      * rewrite Hold2 by lia. apply Hold1. lia.
      * rewrite Hold2 by lia. apply Hold1. lia.
Qed.

(** The bytes are a queue: [Q] are the events in the ring; the count of events is [k]
    too high. *)
Record isr_ok (k : Z) (Q : list (list Z)) (s : perf_event_mgr) : Prop :=
  { isr_length : zlen (isr_event_buffer s) = BUF;
    isr_head : 0 <= isr_event_head s < BUF;
    isr_size : isr_event_buffer_size s = zlen (concat Q);
    isr_room : zlen (concat Q) < BUF;
    isr_tail : isr_event_tail s = (isr_event_head s + zlen (concat Q)) mod BUF;
    isr_num : isr_event_num s = k + zlen Q;
    isr_holds : ring_holds (isr_event_buffer s) (isr_event_head s) (concat Q) }.

(** The part of the manager that is not the ring. *)
Definition list_part (s : perf_event_mgr) :=
  (perf_started s, event_list s, nodes s, perf_events s, (event_number s, max_event_number s, lost_event_number s, lost_event_time s)).

Definition accept (Q : list (list Z)) (e : list Z) : list (list Z) :=
  if zlen (concat Q) + event_size e <? BUF then Q ++ [payload e] else Q.

Lemma concat_snoc (Q : list (list Z)) p : concat (Q ++ [p]) = concat Q ++ p.
Proof. rewrite concat_app. cbn. by rewrite app_nil_r. Qed.

Lemma add_isr_ok e k Q s : perf_started s = true -> isr_ok k Q s -> event_ok e -> 0 <= k -> k + zlen Q < 2 ^ 31 - 1 ->
  exists s', perf_event_add_isr_event e s = Ok (0, s') /\ isr_ok k (accept Q e) s' /\ list_part s' = list_part s /\
    isr_event_head s' = isr_event_head s.
Proof.
  intros Hst [Hz Hh Hs Hroom Ht Hn Hr] He Hk Hmax. pose proof (zlen_nonneg Q) as HQ0. unfold perf_event_add_isr_event, accept. rewrite Hst. cbn [negb].
  rewrite event_header by done. cbn [rbind]. pose proof (zlen_payload e He) as Hp. pose proof (zlen_nonneg (concat Q)).
  pose proof He as (Hlen & Hsz). unfold sizeof_event, sizeof_header in *. set (n := event_size e) in *.
  assert (Hu : u32 (isr_event_buffer_size s + n) = zlen (concat Q) + n).
  { rewrite Hs. apply wrap_small. unfold fits, PERF_EVENT_MAX_ISR_EVENT_BUFFER_SIZE in *. lia. }
  rewrite Hu. destruct (Z.ltb_spec (zlen (concat Q) + n) BUF) as [Hfit|]; [|by exists s].
  assert (Htl : 0 <= isr_event_tail s < BUF) by (rewrite Ht; apply Z.mod_pos_bound; done).
  destruct (put_bytes_run (isr_event_buffer s) (isr_event_tail s) e n) as (b & -> & Hzb & Hnew & Hold); [done|done|lia|lia|].
  cbn [rbind]. eexists. split; [reflexivity|]. split; [|done].
  assert (Hut : u32 (isr_event_tail s + n) = isr_event_tail s + n).
  { apply wrap_small. unfold fits, PERF_EVENT_MAX_ISR_EVENT_BUFFER_SIZE in *. lia. }
  assert (Hc : zlen (concat (Q ++ [payload e])) = zlen (concat Q) + n) by (rewrite concat_snoc, zlen_app; lia).
  split; cbn.
  - done.
  - done.
  - rewrite Hc, Hs. apply Z.add_comm.
  - lia.
  - rewrite Hut, Hc, Ht, Zplus_mod_idemp_l. f_equal. lia.
  - rewrite Hn, sgn_small, zlen_app by lia. change (zlen [payload e]) with 1. lia.
  - intros j Hj. rewrite Hc in Hj. rewrite concat_snoc. destruct (Z.lt_ge_cases j (zlen (concat Q))) as [Hjq|Hjq].
    + rewrite rd_app_l, <- Hr by lia.
      assert (Hpos : (isr_event_head s + j) mod BUF = (isr_event_tail s + (BUF + j - zlen (concat Q))) mod BUF).
      { rewrite Ht, Zplus_mod_idemp_l. replace (_ + _ + _) with (isr_event_head s + j + 1 * BUF) by lia. by rewrite Z.mod_add. }
      rewrite Hpos. apply Hold. lia.
    + rewrite rd_app_r by lia. unfold payload. fold n. rewrite rd_take by lia. rewrite <- Hnew by lia. f_equal.
      rewrite Ht, Zplus_mod_idemp_l. f_equal. lia.
Qed.

(** ** Interrupts *)

Lemma zlen_accept Q e : zlen Q <= zlen (accept Q e) <= zlen Q + 1.
Proof. unfold accept. destruct (_ <? _); rewrite ?zlen_app; change (zlen [payload e]) with 1; lia. Qed.

Lemma interrupts_ok es k : 0 <= k -> forall Q s, perf_started s = true -> isr_ok k Q s -> Forall event_ok es ->
  k + zlen Q + zlen es < 2 ^ 31 ->
  exists s', interrupts es s = Ok s' /\ isr_ok k (foldl accept Q es) s' /\ list_part s' = list_part s /\
    isr_event_head s' = isr_event_head s.
Proof.
  intros Hk. induction es as [|e es IH]; intros Q s Hst Hok Hes Hb; cbn [interrupts foldl]; [by exists s|].
  rewrite zlen_cons in Hb. pose proof (zlen_nonneg es). pose proof (zlen_accept Q e).
  apply Forall_cons in Hes as [He Hes]. destruct (add_isr_ok e k Q s Hst Hok He) as (s1 & -> & Hok1 & Hl1 & Hh1); [lia..|]. cbn [rbind].
  assert (Hst1 : perf_started s1 = true) by (by injection Hl1 as ->).
  destruct (IH _ s1 Hst1 Hok1 Hes ltac:(lia)) as (s' & -> & Hok' & Hl' & Hh'). exists s'. conjs; [done|done|congruence|congruence].
Qed.

Lemma accept_extends Q es : exists R, foldl accept Q es = Q ++ R.
Proof.
  revert Q. induction es as [|e es IH]; intros Q; cbn [foldl]; [exists []; by rewrite app_nil_r|].
  destruct (IH (accept Q e)) as [R ->]. unfold accept. destruct (_ <? _); [|by exists R].
  exists (payload e :: R). by rewrite <- app_assoc.
Qed.

(** An addition does not look at the head. *)
Lemma add_isr_head e h s : perf_event_add_isr_event e (s <| isr_event_head := h |>) =
  rmap (fun '(r, s) => (r, s <| isr_event_head := h |>)) (perf_event_add_isr_event e s).
Proof.
  unfold perf_event_add_isr_event. destruct s as [[|] ? ? ? ? ? ? ? b t ? z n]; [|done]. cbn.
  destruct (header_size e) as [k|]; [|done]. cbn. destruct (_ <? _); [|done]. by destruct (put_bytes b t e k).
Qed.

Lemma interrupts_head es : forall h s, interrupts es (s <| isr_event_head := h |>) =
  rmap (fun s => s <| isr_event_head := h |>) (interrupts es s).
Proof.
  induction es as [|e es IH]; intros h s; cbn [interrupts]; [done|]. rewrite add_isr_head.
  destruct (perf_event_add_isr_event e s) as [[r s1]|]; [|done]. cbn [rmap rbind]. apply IH.
Qed.

(** ** Collections *)

Lemma take_app_zlen {A} (l k : list A) : take (Z.to_nat (zlen l)) (l ++ k) = l.
Proof. unfold zlen. rewrite Nat2Z.id. apply take_app_length. Qed.

Lemma copy_to_user_run p off n : 0 <= off -> 0 <= n -> off + n <= zlen p ->
  copy_to_user p off n = Ok (take (Z.to_nat n) (drop (Z.to_nat off) p)).
Proof.
  intros H1 H2 H3. unfold copy_to_user.
  destruct (Z.leb_spec 0 off), (Z.leb_spec 0 n), (Z.leb_spec (off + n) (zlen p)); try lia. done.
Qed.

(** The copy has the events [Q], the ring having [R] behind them by then. More bytes
    follow: those of [R] or, when the events [Q] reach around the end of the ring, as many
    as there are before it, since the second copy has the length of both. *)
Lemma get_bytes_run k Q R s : isr_ok k (Q ++ R) s ->
  (isr_event_head s + zlen (concat Q) <= BUF -> isr_event_head s + zlen (concat (Q ++ R)) <= BUF) ->
  exists extra, get_bytes (zlen (concat Q)) s = Ok (concat Q ++ extra) /\
    zlen extra = (if isr_event_head s + zlen (concat Q) <=? BUF then zlen (concat R) else BUF - isr_event_head s).
Proof.
  intros [Hz Hh Hs Hroom Ht Hn Hr] Hin. rewrite concat_app in Hs, Hroom, Hr, Hin. rewrite zlen_app in Hs, Hroom, Hin.
  unfold get_bytes. pose proof (zlen_nonneg (concat Q)) as H0. pose proof (zlen_nonneg (concat R)) as H1.
  assert (Hr' : forall j, 0 <= j < zlen (concat Q) -> rd (isr_event_buffer s) ((isr_event_head s + j) mod BUF) = rd (concat Q) j).
  { intros j Hj. rewrite Hr by (rewrite zlen_app; lia). by rewrite rd_app_l by lia. }
  set (m := zlen (concat Q)) in *. set (hd := isr_event_head s) in *. set (b := isr_event_buffer s) in *.
  destruct (Z.leb_spec (hd + m) BUF) as [Hle|Hout].
  - specialize (Hin Hle). rewrite Hs, copy_to_user_run by lia. exists (concat R). split; [|done]. f_equal.
    apply rd_ext. + rewrite zlen_take, zlen_drop, zlen_app by lia. lia.
    + intros j Hj. rewrite zlen_take, zlen_drop in Hj by lia. rewrite rd_take, rd_drop, <- Hr by (rewrite ?zlen_app; lia).
      rewrite ring_place by lia. destruct (Z.ltb_spec (hd + j) BUF); [done|lia].
  - set (n := BUF - hd). rewrite !copy_to_user_run by lia. cbn [rbind].
    set (l1 := take _ _). set (l2 := take _ _). assert (Hl1 : zlen l1 = n) by (unfold l1; rewrite zlen_take, zlen_drop by lia; lia).
    assert (Hl2 : zlen l2 = m) by (unfold l2; rewrite zlen_take, zlen_drop by lia; lia).
    exists (drop (Z.to_nat (m - n)) l2). split; [|rewrite zlen_drop; lia]. f_equal.
    rewrite <- (take_drop (Z.to_nat (m - n)) l2) at 1. rewrite app_assoc. f_equal.
    apply rd_ext. + rewrite zlen_app, zlen_take by lia. lia.
    + intros j Hj. rewrite zlen_app, zlen_take in Hj by lia. rewrite <- Hr' by lia. rewrite ring_place by lia.
      destruct (Z.ltb_spec (hd + j) BUF).
      * rewrite rd_app_l by lia. unfold l1. by rewrite rd_take, rd_drop by lia.
      * rewrite rd_app_r, rd_take by lia. unfold l2. rewrite rd_take, rd_drop by lia. f_equal. lia.
Qed.

Lemma isr_skip k Q R s : isr_ok k (Q ++ R) s ->
  isr_ok 0 R (s <| isr_event_head := (isr_event_head s + zlen (concat Q)) mod BUF |> <| isr_event_num ::= fun n => n - (k + zlen Q) |>
    <| isr_event_buffer_size ::= fun n => n - zlen (concat Q) |>).
Proof.
  intros [Hz Hh Hs Hroom Ht Hn Hr]. rewrite concat_app in Hs, Hroom, Ht, Hr. rewrite zlen_app in Hs, Hroom, Ht. rewrite zlen_app in Hn. pose proof (zlen_nonneg (concat Q)). pose proof (zlen_nonneg (concat R)).
  split; cbn.
  - done.
  - apply Z.mod_pos_bound. done.
  - lia.
  - lia.
  - rewrite Ht, Zplus_mod_idemp_l. f_equal. lia.
  - lia.
  - intros j Hj. rewrite Zplus_mod_idemp_l, <- Z.add_assoc, Hr by (rewrite zlen_app; lia). rewrite rd_app_r by lia. f_equal. lia.
Qed.

(** What a collection reports of the events [Q] of interrupts, the count of events being
    [k] too high: their bytes, perhaps with others behind them, and the number of those
    bytes that count. *)
Definition isr_reported (k : Z) (Q : list (list Z)) (get get' : zx_get_perf_event) : Prop :=
  exists extra, get' = (if k + zlen Q =? 0 then get
    else get <| isr_bytes := concat Q ++ extra |> <| isr_filled_num := k + zlen Q |> <| isr_filled_size := zlen (concat Q) |>).

(** What is left behind it of the interrupts [es] that come during the collection, which
    can do so only if there is something to copy. *)
Definition isr_rest (k : Z) (Q es : list (list Z)) : list (list Z) :=
  if k + zlen Q =? 0 then [] else drop (length Q) (foldl accept Q es).

(** The interrupts [before] the copy do not take it beyond the buffer: unless the events
    already reach around the end of the ring, they do not do so now. *)
Definition copy_in_buffer (k : Z) (Q before : list (list Z)) (head : Z) : Prop :=
  k + zlen Q = 0 \/ (head + zlen (concat Q) <= BUF -> head + zlen (concat (foldl accept Q before)) <= BUF).

Lemma get_isr_ok k Q s get before behind : perf_started s = true -> isr_ok k Q s -> 0 <= k ->
  Forall event_ok before -> Forall event_ok behind -> k + zlen Q + zlen before + zlen behind < 2 ^ 31 ->
  copy_in_buffer k Q before (isr_event_head s) ->
  exists get' s', perf_event_get_isr_event before behind get s = Ok (0, get', s') /\ isr_reported k Q get get' /\
    isr_ok 0 (isr_rest k Q (before ++ behind)) s' /\ list_part s' = list_part s.
Proof.
  intros Hst Hok Hk Hbefore Hbehind Hb Hcopy. unfold perf_event_get_isr_event, isr_reported, isr_rest. rewrite Hst, (isr_num _ _ _ Hok). cbn [negb].
  pose proof (zlen_nonneg Q). pose proof (zlen_nonneg before). pose proof (zlen_nonneg behind).
  destruct (Z.eqb_spec (k + zlen Q) 0) as [Hnum|Hnum].
  { assert (Q = []) as -> by (apply nil_length_inv; unfold zlen in *; lia). eexists _, _. split; [reflexivity|]. split; [by exists []|].
    split; [|done]. destruct Hok. by split. }
  destruct Hcopy as [?|Hcopy]; [done|]. rewrite (isr_size _ _ _ Hok).
  destruct (interrupts_ok before k Hk Q s Hst Hok Hbefore) as (s1 & -> & Hok1 & Hl1 & Hh1); [lia|]. cbn [rbind].
  assert (Hst1 : perf_started s1 = true) by (by injection Hl1 as ->).
  assert (HQ1 : zlen (foldl accept Q before) <= zlen Q + zlen before).
  { clear. revert Q. induction before as [|e es IH]; intros Q; cbn [foldl]; [unfold zlen; cbn; lia|].
    specialize (IH (accept Q e)). pose proof (zlen_accept Q e). rewrite zlen_cons. lia. }
  destruct (interrupts_ok behind k Hk (foldl accept Q before) s1 Hst1 Hok1 Hbehind) as (s2 & Hs2 & Hok2 & Hl2 & Hh2); [lia|].
  destruct (accept_extends Q before) as [R1 HR1]. rewrite HR1 in Hok1, Hcopy, Hok2. rewrite <- Hh1 in Hcopy. destruct (get_bytes_run k Q R1 s1 Hok1 Hcopy) as (extra & -> & _). cbn [rbind].
  rewrite interrupts_head, Hs2. cbn [rmap rbind]. eexists _, _. split; [reflexivity|]. split; [by exists extra|].
  rewrite foldl_app, HR1. destruct (accept_extends (Q ++ R1) behind) as [R2 HR2]. rewrite HR2, <- app_assoc in *. clear HR2.
  rewrite drop_app_length. split; [|cbn; rewrite <- Hl1, <- Hl2; done]. rewrite <- Hh2. by apply (isr_skip k Q (R1 ++ R2) s2).
Qed.
