(* ===== verification/PerfSpec.v ===== *)
(** * Performance events: what a session promises

    The abstract session: the pending events of processes, bounded, with the count of
    those that were lost, and the pending events of interrupts; and the proof that the
    functions of PerfEvent.v implement it. *)
From S2P Require Import Prelude ListHead ListRings ListSafe PerfEvent PerfRing.
From stdpp Require Import gmap.
Local Open Scope Z_scope.
#[local] Arguments Z.eqb : simpl never.

(** ** The list of events *)

(** The events [P] are in the list, each in the memory of its node. *)
Record events_ok (P : list (list Z)) (xs : list Z) (s : perf_event_mgr) : Prop :=
  { ev_rings : rings (nodes s) {[event_list s := xs]};
    ev_bytes : Forall2 (fun a p => perf_events s !! a = Some p) xs P;
    ev_headers : Forall (fun p => header_size p = Ok (zlen p)) P;
    ev_no_leak : forall a, is_Some (perf_events s !! a) -> a ∈ xs }.

(** The part of the manager that is not the list. *)
Definition other_part (s : perf_event_mgr) :=
  (perf_started s, event_list s, (event_number s, max_event_number s, lost_event_number s, lost_event_time s),
   (isr_event_buffer s, isr_event_tail s, isr_event_head s, isr_event_buffer_size s, isr_event_num s)).

Lemma events_list P xs s : events_ok P xs s -> is_list (nodes s) (event_list s) xs.
Proof. intros H. apply (rings_list _ _ _ _ (ev_rings _ _ _ H)). apply lookup_singleton_eq. Qed.

Lemma events_nodup P xs s : events_ok P xs s -> NoDup (event_list s :: xs).
Proof. intros H. apply (events_list _ _ _ H). Qed.

Lemma bytes_kept (m m' : gmap Z (list Z)) xs P : Forall2 (fun a p => m !! a = Some p) xs P ->
  (forall a, a ∈ xs -> m' !! a = m !! a) -> Forall2 (fun a p => m' !! a = Some p) xs P.
Proof.
  intros Hb Hm. induction Hb as [|a p xs P Ha Hb IH]; [done|]. constructor; [rewrite Hm; [done|by left]|].
  apply IH. intros b Hin. apply Hm. by right.
Qed.

Lemma free_event_run P p xs a s : events_ok (p :: P) (a :: xs) s ->
  exists s', free_event a s = Ok s' /\ events_ok P xs s' /\ other_part s' = other_part s.
Proof.
  intros Hok. pose proof (events_nodup _ _ _ Hok) as Hnd. apply NoDup_cons in Hnd as [_ Hnd]. apply NoDup_cons in Hnd as [Ha _].
  destruct Hok as [HR Hb Hh Hn]. unfold free_event.
  destruct (rings_list_del (nodes s) _ (event_list s) [] a xs HR) as (h & -> & HR' & Hun & _); [apply lookup_singleton_eq|].
  cbn [rbind]. rewrite insert_singleton_eq in HR', Hun. eexists. split; [reflexivity|]. split; [|done].
  apply Forall2_cons in Hb as [_ Hb]. apply Forall_cons in Hh as [_ Hh]. split; cbn.
  - by apply rings_free_node.
  - eapply bytes_kept; [exact Hb|]. intros b Hin. apply lookup_delete_ne. intros ->. done.
  - done.
  - intros b [q Hq]. apply lookup_delete_Some in Hq as [Hne Hq]. assert (Hin : b ∈ a :: xs) by (apply Hn; by eexists). apply elem_of_cons in Hin as [|]; done.
Qed.

Lemma free_events_run fuel P xs s : events_ok P xs s -> (length xs < fuel)%nat ->
  exists s', free_events fuel s = Ok s' /\ events_ok [] [] s' /\ other_part s' = other_part s.
Proof.
  intros Hok Hfuel. unfold free_events.
  destruct (list_for_each_safe_drains (B := Empty_set)
    (fun ys t => (exists P, events_ok P ys t) /\ other_part t = other_part s) fuel nodes (event_list s)
    (fun a t => let! t := free_event a t in Ok (inl t)) xs s) as (s' & -> & [[P' Hok'] Ho]).
  - intros ys t [[P' Ht] Ho]. injection Ho as _ <- _ _ _ _ _ _ _ _ _. by eapply events_list.
  - intros x ys t [[P' Ht] Ho]. pose proof (ev_bytes _ _ _ Ht) as Hb. apply Forall2_cons_inv_l in Hb as (p & P'' & _ & _ & ->).
    destruct (free_event_run _ _ _ _ _ Ht) as (t' & -> & Ht' & Ho'). cbn [rbind]. exists t'. split; [done|].
    split; [by exists P''|congruence].
  - split; [by exists P|done].
  - done.
  - cbn [rbind]. exists s'. split; [done|]. pose proof (ev_bytes _ _ _ Hok') as Hb. apply Forall2_nil_inv_l in Hb as ->. done.
Qed.

(** ** The session *)

(** [stale] are the events of interrupts that earlier sessions have left uncollected:
    their bytes are gone, but they are still counted. *)
Record perf_session := mkSession
  { active : bool; pending : list (list Z); maximum : Z; lost : Z; lost_at : Z; isr_pending : list (list Z); stale : Z }.
#[export] Instance session_eta : Eta perf_session := fun T =>
  mkSession (active T) (pending T) (maximum T) (lost T) (lost_at T) (isr_pending T) (stale T).

(** An event of a process. *)
Definition post_spec (a now : Z) (e : list Z) (T : perf_session) : Z * perf_session :=
  if negb (active T) then (-1, T)
  else if 0 <? lost T then (-1, T <| lost ::= Z.add 1 |>)
  else if a =? 0 then (-1, T)
  else if zlen (pending T) <? maximum T then (0, T <| pending ::= fun P => P ++ [payload e] |>)
  else (-1, T <| lost := 1 |> <| lost_at := now |>).
Definition send_spec (a now : Z) (data : list Z) (T : perf_session) : Z * perf_session :=
  if sizeof_event <? event_size data then (-1, T)
  else if event_size data <? sizeof_header then (0, T)
  else post_spec a now data T.

(** The manager holds the session. *)
Definition perf_ok (T : perf_session) (s : perf_event_mgr) : Prop :=
  (exists xs, events_ok (pending T) xs s) /\ 0 <= stale T /\ isr_ok (stale T) (isr_pending T) s /\
  perf_started s = active T /\ event_number s = zlen (pending T) /\ max_event_number s = maximum T /\
  lost_event_number s = lost T /\ lost_event_time s = lost_at T.

(** Fresh memory, or none. *)
Definition answers (a : Z) (s : perf_event_mgr) : Prop := a = 0 \/ nodes s !! a = None.

Lemma isr_ok_other k Q s s' : isr_ok k Q s -> other_part s' = other_part s -> isr_ok k Q s'.
Proof. intros [? ? ? ? ? ? ?] Ho. injection Ho as _ _ _ _ _ _ E1 E2 E3 E4 E5. split; rewrite ?E1, ?E2, ?E3, ?E4, ?E5; done. Qed.

Lemma memcpy_take e n : 0 <= n <= zlen e -> memcpy (replicate (Z.to_nat n) 0) 0 e 0 n = Ok (take (Z.to_nat n) e).
Proof.
  intros Hn. destruct (memcpy_ok (replicate (Z.to_nat n) 0) e 0 0 n) as (b & -> & Hz & Hb & _); try (rewrite ?zlen_replicate; lia).
  rewrite zlen_replicate in Hz. f_equal. apply rd_ext; [rewrite zlen_take; lia|]. intros j Hj. rewrite rd_take by lia.
  specialize (Hb j). rewrite !Z.add_0_l in Hb. apply Hb. lia.
Qed.

(** The object that the entry point makes. *)
Lemma ioctl_event data : zlen data = sizeof_event -> sizeof_header <= event_size data <= sizeof_event ->
  exists e, memcpy (replicate (Z.to_nat sizeof_event) 0) 0 data 0 (event_size data) = Ok e /\ event_ok e /\
    payload e = payload data.
Proof.
  intros Hz Hn. unfold sizeof_event, sizeof_header in *. set (n := event_size data) in *.
  destruct (memcpy_ok (replicate (Z.to_nat (24 + 4 * 4 + 32 * 16)) 0) data 0 0 n) as (e & Hrun & He & Hb & _);
    try (rewrite ?zlen_replicate; lia). rewrite zlen_replicate in He.
  assert (Hc : forall j, 0 <= j < n -> rd e j = rd data j) by (intros j Hj; exact (Hb j Hj)).
  assert (Hsz : event_size e = n).
  { unfold n, event_size, header_size. by rewrite !Hc by lia. }
  exists e. split; [done|]. unfold event_ok, sizeof_event, sizeof_header. split; [lia|]. unfold payload. rewrite Hsz. fold n.
  apply rd_ext; [rewrite !zlen_take; lia|]. intros j Hj. rewrite zlen_take in Hj by lia. rewrite !rd_take by lia. apply Hc. lia.
Qed.

Lemma event_list_nonzero P xs s : events_ok P xs s -> event_list s <> 0.
Proof. intros H. apply events_list in H. eapply is_list_present in H; [|by left]. apply H. Qed.

Lemma fresh_unlinked P xs s a : events_ok P xs s -> nodes s !! a = None ->
  unlinked {[event_list s := xs]} a /\ perf_events s !! a = None.
Proof.
  intros Hok Ha. assert (Hun : unlinked {[event_list s := xs]} a).
  { intros l ys Hl Hin. destruct (rings_present _ _ _ _ _ (ev_rings _ _ _ Hok) Hl Hin) as [_ [n Hn]]. congruence. }
  split; [done|]. destruct (perf_events s !! a) as [p|] eqn:E; [|done]. exfalso.
  apply (Hun (event_list s) xs); [apply lookup_singleton_eq|]. right. apply (ev_no_leak _ _ _ Hok). by eexists.
Qed.

(** A new event at the end of the list. *)
Lemma link_new P xs s a e : events_ok P xs s -> a <> 0 -> nodes s !! a = None -> event_ok e ->
  exists h, list_add_tail a (event_list s) (<[a := mkNode 0 0]> (nodes s)) = Ok h /\
    events_ok (P ++ [payload e]) (xs ++ [a]) (s <| nodes := h |> <| perf_events := <[a := payload e]> (perf_events s) |>).
Proof.
  intros Hok Ha Hnew He. destruct (fresh_unlinked _ _ _ _ Hok Hnew) as [Hun Hno].
  destruct (rings_list_add_tail (<[a := mkNode 0 0]> (nodes s)) {[event_list s := xs]} (event_list s) xs a) as (h & -> & HR & _).
  - apply rings_new_node; [apply Hok|done].
  - apply lookup_singleton_eq.
  - split; [done|]. rewrite lookup_insert_eq. by eexists.
  - done.
  - rewrite insert_singleton_eq in HR. exists h. split; [done|]. split; cbn.
    + done.
    + apply Forall2_app; [|constructor; [by rewrite lookup_insert_eq|done]]. eapply bytes_kept; [apply Hok|].
      intros b Hb. apply lookup_insert_ne. intros <-. apply (Hun (event_list s) xs); [apply lookup_singleton_eq|by right].
    + apply Forall_app. split; [apply Hok|]. constructor; [by apply header_payload|done].
    + intros b Hb. apply elem_of_app. destruct (decide (b = a)) as [->|Hne]; [right; by left|]. left. rewrite lookup_insert_ne in Hb by done.
      by apply (ev_no_leak _ _ _ Hok).
Qed.

Lemma add_event_ok a now e T s : perf_ok T s -> event_ok e -> answers a s -> 0 <= lost T < 2 ^ 31 - 1 ->
  exists s', perf_event_add_event a now e s = Ok ((post_spec a now e T).1, s') /\ perf_ok (post_spec a now e T).2 s'.
Proof.
  intros Hperf He Ha Hl. pose proof Hperf as ([xs Hev] & Hk & Hisr & Hst & Hnum & Hmax & Hlost & Hat). unfold perf_event_add_event, post_spec.
  rewrite Hst, Hlost. destruct (active T) eqn:Hact; cbn [negb]; [|by exists s].
  destruct (Z.ltb_spec 0 (lost T)) as [Hl0|Hl0].
  { eexists. split; [reflexivity|]. unfold perf_ok. conjs; cbn; try congruence; [exists xs; by destruct Hev|by destruct Hisr|]. rewrite Hlost, sgn_small; lia. }
  destruct (Z.eqb_spec a 0) as [->|Ha0]; [by exists s|]. destruct Ha as [|Hnew]; [done|].
  unfold make_event. rewrite event_header by done. cbn [rbind]. pose proof He as (Hz & Hn). unfold sizeof_header, sizeof_event in Hn, Hz.
  rewrite memcpy_take by lia. change (take _ e) with (payload e). cbn [rbind]. unfold link_event. cbn.
  rewrite Hnum, Hmax. destruct (zlen (pending T) <? maximum T).
  - destruct (link_new _ _ _ a e Hev Ha0 Hnew He) as (h & -> & Hev'). cbn [rbind]. unfold drop_lost_event. cbn. rewrite Hlost.
    destruct (Z.ltb_spec 0 (lost T)); [lia|]. eexists. split; [reflexivity|]. unfold perf_ok. conjs; cbn; try congruence.
    + exists (xs ++ [a]). by destruct Hev'.
    + by destruct Hisr.
    + rewrite zlen_app. apply Z.add_comm.
  - assert (lost T = 0) as E by lia. rewrite Hlost, E. change (sgn 32 (0 + 1)) with 1. cbn. change (1 =? 1) with true. cbn iota. unfold drop_lost_event. cbn.
    unfold get_next, load. cbn. destruct (Z.eqb_spec a 0); [done|]. rewrite lookup_insert_eq. cbn.
    pose proof (event_list_nonzero _ _ _ Hev). destruct (Z.eqb_spec 0 (event_list s)); [lia|]. cbn. eexists. split; [reflexivity|].
    destruct (fresh_unlinked _ _ _ _ Hev Hnew) as [_ Hno]. rewrite !delete_insert_id by done.
    unfold perf_ok. conjs; cbn; try congruence; [exists xs; by destruct Hev|by destruct Hisr].
Qed.

(** ** Collecting the list *)

Lemma collect_event_run limit fill P p xs a i out s : events_ok (p :: P) (a :: xs) s ->
  exists s', collect_event limit fill a (i, out, s) =
      Ok (if (limit <=? i + 1) || (fill <=? i + 1) then inr (i + 1, out ++ p, s') else inl (i + 1, out ++ p, s')) /\
    events_ok P xs s' /\ other_part s' = other_part s.
Proof.
  intros Hok. unfold collect_event. pose proof (ev_bytes _ _ _ Hok) as Hb. apply Forall2_cons in Hb as [Ha _]. rewrite Ha. cbn [deref rbind].
  pose proof (ev_headers _ _ _ Hok) as Hh. apply Forall_cons in Hh as [Hh _]. rewrite Hh. cbn [rbind].
  rewrite copy_to_user_run by (pose proof (zlen_nonneg p); lia). cbn [rbind].
  rewrite drop_0. pose proof (take_app_zlen p []) as Ht. rewrite app_nil_r in Ht. rewrite Ht.
  destruct (free_event_run _ _ _ _ _ Hok) as (s' & -> & Hok' & Ho). cbn [rbind]. exists s'. conjs; [|done|done]. by destruct (_ || _).
Qed.

Lemma drop_pred {A} (x : A) l m : 1 <= m -> drop (Z.to_nat m) (x :: l) = drop (Z.to_nat (m - 1)) l.
Proof. intros Hm. replace (Z.to_nat m) with (S (Z.to_nat (m - 1))) by lia. done. Qed.
Lemma take_pred {A} (x : A) l m : 1 <= m -> take (Z.to_nat m) (x :: l) = x :: take (Z.to_nat (m - 1)) l.
Proof. intros Hm. replace (Z.to_nat m) with (S (Z.to_nat (m - 1))) by lia. done. Qed.

Lemma collect_drain limit fill k xs : forall P i out s, k = Z.max 1 (Z.min limit fill) -> events_ok P xs s ->
  0 <= i < k -> k - i <= zlen P ->
  exists s', drain (collect_event limit fill) xs (i, out, s) = Ok (inr (k, out ++ concat (take (Z.to_nat (k - i)) P), s')) /\
    events_ok (drop (Z.to_nat (k - i)) P) (drop (Z.to_nat (k - i)) xs) s' /\ other_part s' = other_part s.
Proof.
  induction xs as [|a xs IH]; intros P i out s Hk Hok Hi Hlen; pose proof (ev_bytes _ _ _ Hok) as Hb.
  - apply Forall2_nil_inv_l in Hb as ->. unfold zlen in Hlen. cbn in Hlen. lia.
  - apply Forall2_cons_inv_l in Hb as (p & P' & _ & _ & ->). rewrite zlen_cons in Hlen. cbn [drain].
    destruct (collect_event_run limit fill _ _ _ _ i out _ Hok) as (s1 & -> & Hok1 & Ho1). cbn [rbind].
    rewrite !drop_pred, take_pred by lia. cbn [concat].
    destruct (Z.leb_spec limit (i + 1)), (Z.leb_spec fill (i + 1)); cbn [orb];
      try (assert (k = i + 1) as -> by lia; replace (i + 1 - i - 1) with 0 by lia; exists s1; rewrite take_0, !drop_0; cbn; rewrite app_nil_r; by conjs).
    destruct (IH P' (i + 1) (out ++ p) s1) as (s' & -> & Hok' & Ho'); [done|done|lia|lia|].
    exists s'. replace (k - i - 1) with (k - (i + 1)) by lia. conjs; [by rewrite app_assoc|done|congruence].
Qed.

Lemma collect_events_run fuel limit fill P xs s : events_ok P xs s -> (length xs < fuel)%nat ->
  Z.max 1 (Z.min limit fill) <= zlen P ->
  let k := Z.max 1 (Z.min limit fill) in
  exists s', collect_events fuel limit fill s = Ok (k, concat (take (Z.to_nat k) P), s') /\
    events_ok (drop (Z.to_nat k) P) (drop (Z.to_nat k) xs) s' /\ other_part s' = other_part s.
Proof.
  intros Hok Hfuel Hlen k. unfold collect_events.
  rewrite (list_for_each_safe_run (fun ys (x : Z * list Z * perf_event_mgr) => exists P, events_ok P ys x.2 /\ event_list x.2 = event_list s)) with (xs := xs).
  - destruct (collect_drain limit fill k xs P 0 [] s) as (s' & -> & Hok' & Ho); [done|done|lia|lia|]. rewrite Z.sub_0_r in *. by exists s'.
  - intros ys [[i out] t] (P' & Ht & <-). by eapply events_list.
  - intros a ys [[i out] t] (P' & Ht & Hl) x Hx. cbn [snd] in Ht, Hl. pose proof (ev_bytes _ _ _ Ht) as Hb. apply Forall2_cons_inv_l in Hb as (p & P'' & _ & _ & ->).
    destruct (collect_event_run limit fill _ _ _ _ i out _ Ht) as (t' & Hrun & Ht' & Ho). rewrite Hrun in Hx.
    destruct (_ || _); [done|]. injection Hx as <-. exists P''. split; [done|]. injection Ho; intros; cbn; congruence.
  - by exists P.
  - done.
Qed.

(** How many events a collection takes: all but one of more than two, at most as many as
    are asked for, but one if none are. *)
Definition fill_number (T : perf_session) : Z := if 2 <? zlen (pending T) then zlen (pending T) - 1 else 0.
Definition collected (get : zx_get_perf_event) (T : perf_session) : list (list Z) :=
  if fill_number T =? 0 then [] else take (Z.to_nat (Z.max 1 (Z.min (max_event_num get) (fill_number T)))) (pending T).

Definition events_reported (T : perf_session) (get : zx_get_perf_event) : zx_get_perf_event :=
  let P := collected get T in
  if decide (P = []) then get <| event_filled_num := 0 |> <| event_buffer_filled_size := 0 |> <| event_lost_num := 0 |>
  else get <| event_bytes := concat P |> <| event_filled_num := zlen P |> <| event_buffer_filled_size := u32 (zlen (concat P)) |>
    <| event_lost_num := lost T |> <| event_lost_timestamp := lost_at T |>.

(** [es] are the interrupts that come during the collection. *)
Definition after_collect (get : zx_get_perf_event) (es : list (list Z)) (T : perf_session) : perf_session :=
  (if decide (collected get T = []) then T
   else T <| pending ::= drop (length (collected get T)) |> <| lost := 0 |> <| lost_at := 0 |>)
  <| isr_pending := isr_rest (stale T) (isr_pending T) es |> <| stale := 0 |>.

Section Collection.
Context (before behind : list (list Z)) (get : zx_get_perf_event).
Hypothesis Hbefore : Forall event_ok before.
Hypothesis Hbehind : Forall event_ok behind.

Lemma collect_isr T s get0 : active T = true -> perf_ok T s ->
  stale T + zlen (isr_pending T) + zlen before + zlen behind < 2 ^ 31 ->
  copy_in_buffer (stale T) (isr_pending T) before (isr_event_head s) ->
  exists get' s', perf_event_get_isr_event before behind get0 s = Ok (0, get', s') /\
    isr_reported (stale T) (isr_pending T) get0 get' /\
    perf_ok (T <| isr_pending := isr_rest (stale T) (isr_pending T) (before ++ behind) |> <| stale := 0 |>) s'.
Proof.
  intros Hact ([xs Hev] & Hk & Hisr & Hst & Hnum & Hmax & Hlost & Hat) Hb Hc.
  destruct (get_isr_ok _ _ s get0 before behind (eq_trans Hst Hact) Hisr Hk Hbefore Hbehind Hb Hc) as (get' & s' & -> & Hrep & Hisr' & Hl).
  exists get', s'. split; [done|]. split; [done|]. injection Hl as E1 E2 E3 E4 E5 E6 E7 E8. unfold perf_ok. conjs; cbn; try congruence; [|done].
  exists xs. destruct Hev. split; rewrite ?E2, ?E3, ?E4; done.
Qed.

Lemma collect_ok fuel T s : active T = true -> perf_ok T s ->
  0 <= max_event_num get -> 0 <= lost T < 2 ^ 31 -> (length (pending T) < fuel)%nat ->
  stale T + zlen (isr_pending T) + zlen before + zlen behind < 2 ^ 31 ->
  copy_in_buffer (stale T) (isr_pending T) before (isr_event_head s) ->
  exists get' s', perf_event_get_event fuel before behind get s = Ok (0, get', s') /\
    isr_reported (stale T) (isr_pending T) (events_reported T get) get' /\ perf_ok (after_collect get (before ++ behind) T) s'.
Proof.
  intros Hact Hperf Hmx Hl Hfuel Hb Hc. pose proof Hperf as ([xs Hev] & Hk & Hisr & Hst & Hnum & Hmax & Hlost & Hat).
  unfold perf_event_get_event, events_reported, after_collect, collected. rewrite Hst, Hact, Hnum. cbn [negb].
  change (if 2 <? zlen (pending T) then zlen (pending T) - 1 else 0) with (fill_number T).
  destruct (Z.eqb_spec (fill_number T) 0) as [Hf|Hf].
  - rewrite !decide_True, (isr_num _ _ _ Hisr) by done. destruct (Z.eqb_spec (stale T + zlen (isr_pending T)) 0) as [H0|H0].
    + pose proof (zlen_nonneg (isr_pending T)). assert (E : isr_pending T = []) by (apply nil_length_inv; unfold zlen in *; lia).
      assert (Ek : stale T = 0) by lia. unfold isr_reported, isr_rest. rewrite E, Ek in *.
      eexists _, s. split; [reflexivity|]. split; [by exists []|]. unfold perf_ok. conjs; cbn; try congruence; [by exists xs|done].
    + by apply collect_isr.
  - assert (Hfill : 2 <= fill_number T < zlen (pending T)) by (unfold fill_number in *; destruct (Z.ltb_spec 2 (zlen (pending T))); lia).
    set (k := Z.max 1 (Z.min (max_event_num get) (fill_number T))). set (P := take (Z.to_nat k) (pending T)).
    assert (HP : zlen P = k) by (unfold P; rewrite zlen_take; unfold k; lia).
    rewrite !decide_False by (intros E; rewrite E in HP; unfold zlen, k in HP; cbn in HP; lia).
    assert (Hxs : length xs = length (pending T)) by (eapply Forall2_length, Hev).
    destruct (collect_events_run fuel (max_event_num get) (fill_number T) (pending T) xs s) as (s1 & -> & Hev1 & Ho1); [done|lia|lia|].
    cbn [rbind]. fold k P in Hev1 |- *. injection Ho1 as E1 E2 E3 E4 E5 E6 E7 E8 E9 E10 E11. rewrite E5, E6, Hlost, Hat.
    assert (Hlp : Z.to_nat k = length P) by (unfold zlen in HP; lia). rewrite Hlp in Hev1.
    rewrite (wrap_small 32 (lost T)) by (unfold fits; lia). rewrite HP.
    set (T1 := T <| pending ::= drop (length P) |> <| lost := 0 |> <| lost_at := 0 |>).
    apply (collect_isr T1); [done| |done|cbn; by rewrite E9]. unfold perf_ok. conjs; cbn; try congruence.
    + eexists. destruct Hev1. split; done.
    + destruct Hisr. split; cbn; rewrite ?E7, ?E8, ?E9, ?E10, ?E11; done.
    + rewrite E3, Hnum. unfold zlen in *. rewrite length_drop. lia.
Qed.
End Collection.

(** ** Sequences of operations *)

Inductive perf_op :=
| Begin (max : Z) | End | Send (a now : Z) (data : list Z) | Post (a now : Z) (e : list Z) | Isr (e : list Z)
| Collect (before behind : list (list Z)) (get : zx_get_perf_event).
Inductive perf_answer := Ret (r : Z) | Got (r : Z) (get : zx_get_perf_event).

(** [Post] is an event of the kernel itself; the interrupts of [before] and [behind] come
    during a collection, before and after the copy of the ring. *)
Definition run_perf_op (fuel : nat) (o : perf_op) (s : perf_event_mgr) : res (perf_answer * perf_event_mgr) :=
  match o with
  | Begin max => let! '(r, s) := perf_event_begin fuel true max s in Ok (Ret r, s)
  | End => let! '(r, s) := perf_event_end s in Ok (Ret r, s)
  | Send a now data => let! '(r, s) := zx_ioctl_send_perf_event a now data s in Ok (Ret r, s)
  | Post a now e => let! '(r, s) := perf_event_add_event a now e s in Ok (Ret r, s)
  | Isr e => let! '(r, s) := perf_event_add_isr_event e s in Ok (Ret r, s)
  | Collect before behind get => let! '(r, get, s) := perf_event_get_event fuel before behind get s in Ok (Got r get, s)
  end.

Inductive perf_step : perf_op -> perf_session -> perf_answer -> perf_session -> Prop :=
| step_begin max T : active T = false ->
    perf_step (Begin max) T (Ret 0) (mkSession true [] (sgn 32 max) 0 (lost_at T) [] (stale T + zlen (isr_pending T)))
| step_end T : active T = true -> perf_step End T (Ret 0) (T <| active := false |>)
| step_send a now data T : perf_step (Send a now data) T (Ret (send_spec a now data T).1) (send_spec a now data T).2
| step_post a now e T : perf_step (Post a now e) T (Ret (post_spec a now e T).1) (post_spec a now e T).2
| step_isr e T : active T = true -> perf_step (Isr e) T (Ret 0) (T <| isr_pending := accept (isr_pending T) e |>)
| step_isr_idle e T : active T = false -> perf_step (Isr e) T (Ret (-1)) T
| step_collect before behind get get' T : active T = true ->
    isr_reported (stale T) (isr_pending T) (events_reported T get) get' ->
    perf_step (Collect before behind get) T (Got 0 get') (after_collect get (before ++ behind) T)
| step_collect_idle before behind get T : active T = false -> perf_step (Collect before behind get) T (Got (-1) get) T.

(** The interrupts before the copy of a collection do not take it beyond the buffer. *)
Definition copy_stays (before : list (list Z)) (s : perf_event_mgr) : Prop :=
  isr_event_num s = 0 \/ (isr_event_head s + isr_event_buffer_size s <= BUF ->
    match interrupts before s with Ok s' => isr_event_head s + isr_event_buffer_size s' <= BUF | Err _ => True end).

Lemma copy_stays_in k Q before s : perf_started s = true -> isr_ok k Q s -> 0 <= k -> Forall event_ok before ->
  k + zlen Q + zlen before < 2 ^ 31 -> copy_stays before s -> copy_in_buffer k Q before (isr_event_head s).
Proof.
  intros Hst Hok Hk Hb Hm [H|H]; [left; by rewrite <- (isr_num _ _ _ Hok)|right].
  destruct (interrupts_ok before k Hk Q s Hst Hok Hb Hm) as (s1 & E & Hok1 & _). rewrite E in H.
  by rewrite <- (isr_size _ _ _ Hok), <- (isr_size _ _ _ Hok1).
Qed.

(** Sessions do not overlap, memory is new, the objects have their type, and no
    collection copies beyond the buffer. *)
Definition perf_allowed (o : perf_op) (s : perf_event_mgr) : Prop :=
  match o with
  | Begin _ => perf_started s = false
  | End => perf_started s = true
  | Send a _ data => zlen data = sizeof_event /\ answers a s
  | Post a _ e => event_ok e /\ answers a s
  | Isr e => event_ok e
  | Collect before behind get =>
      Forall event_ok before /\ Forall event_ok behind /\ 0 <= max_event_num get /\ copy_stays before s
  end.

Lemma send_ok a now data T s : perf_ok T s -> zlen data = sizeof_event -> answers a s -> 0 <= lost T < 2 ^ 31 - 1 ->
  exists s', zx_ioctl_send_perf_event a now data s = Ok ((send_spec a now data T).1, s') /\ perf_ok (send_spec a now data T).2 s'.
Proof.
  intros Hok Hz Ha Hl. unfold zx_ioctl_send_perf_event, send_spec. rewrite header_size_run by (rewrite Hz; done). cbn [rbind].
  destruct (Z.ltb_spec sizeof_event (event_size data)); [by exists s|].
  destruct (Z.leb_spec sizeof_header (event_size data)), (Z.ltb_spec (event_size data) sizeof_header); try lia; [|by exists s].
  destruct (ioctl_event data Hz) as (e & -> & He & Hp); [lia|]. cbn [rbind].
  assert (E : post_spec a now data T = post_spec a now e T) by (unfold post_spec; by rewrite Hp). rewrite E.
  by apply add_event_ok.
Qed.

Lemma begin_ok fuel max T s : perf_ok T s -> active T = false -> (length (pending T) < fuel)%nat ->
  exists s', perf_event_begin fuel true max s = Ok (0, s') /\
    perf_ok (mkSession true [] (sgn 32 max) 0 (lost_at T) [] (stale T + zlen (isr_pending T))) s'.
Proof.
  intros ([xs Hev] & Hk & Hisr & Hst & Hnum & Hmax & Hlost & Hat) Hact Hfuel. unfold perf_event_begin. rewrite Hst, Hact. cbn [zx_assert negb rbind].
  assert (Hxs : length xs = length (pending T)) by (eapply Forall2_length, Hev).
  match goal with |- context [free_events fuel ?t] => destruct (free_events_run fuel (pending T) xs t) as (s' & -> & Hev' & Ho) end;
    [by destruct Hev|lia|]. cbn [rbind]. eexists. split; [reflexivity|].
  injection Ho as E1 E2 E3 E4 E5 E6 E7 E8 E9 E10 E11. unfold perf_ok. conjs; cbn; try congruence.
  - exists []. by destruct Hev'.
  - pose proof (zlen_nonneg (isr_pending T)). lia.
  - destruct Hisr. split; cbn; rewrite ?E7, ?E8, ?E9, ?E10, ?E11; try done.
    + unfold zlen at 2. cbn. lia.
    + intros j Hj. unfold zlen in Hj. cbn in Hj. lia.
  - by rewrite E3.
Qed.

(** How many events and interrupts there are in an operation, and a bound of all counts. *)
Definition op_events (o : perf_op) : nat :=
  match o with Collect before behind _ => S (length before + length behind) | _ => 1 end.
Definition ops_events (ops : list perf_op) : nat := sum_list (map op_events ops).

Definition perf_within (n : nat) (T : perf_session) : Prop :=
  (length (pending T) <= n)%nat /\ 0 <= lost T <= Z.of_nat n /\ stale T + zlen (isr_pending T) <= Z.of_nat n.

Lemma perf_within_le n m T : (n <= m)%nat -> perf_within n T -> perf_within m T.
Proof. unfold perf_within. intros. lia. Qed.

Lemma post_within n a now e T : perf_within n T -> perf_within (S n) (post_spec a now e T).2.
Proof.
  intros (H1 & H2 & H3). unfold post_spec. repeat case_match; unfold perf_within; cbn; rewrite ?length_app; cbn; lia.
Qed.

Lemma foldl_accept_le es Q : zlen (foldl accept Q es) <= zlen Q + zlen es.
Proof.
  revert Q. induction es as [|e es IH]; intros Q; cbn [foldl]; [unfold zlen; cbn; lia|].
  specialize (IH (accept Q e)). pose proof (zlen_accept Q e). rewrite zlen_cons. lia.
Qed.

Lemma isr_rest_within k Q es : 0 <= k -> zlen (isr_rest k Q es) <= k + zlen Q + zlen es.
Proof.
  intros Hk. pose proof (foldl_accept_le es Q) as Hle. pose proof (zlen_nonneg Q). pose proof (zlen_nonneg es).
  unfold isr_rest. destruct (_ =? 0); unfold zlen in *; rewrite ?length_drop; cbn; lia.
Qed.

Lemma collect_op_ok fuel n before behind get T s : perf_ok T s -> perf_within n T -> perf_allowed (Collect before behind get) s ->
  (n + length before + length behind < fuel)%nat -> Z.of_nat (n + length before + length behind) < 2 ^ 31 - 1 ->
  exists r s' T', run_perf_op fuel (Collect before behind get) s = Ok (r, s') /\ perf_step (Collect before behind get) T r T' /\
    perf_ok T' s' /\ perf_within (n + op_events (Collect before behind get)) T'.
Proof.
  intros Hok (Hn1 & Hn2 & Hn3) (Hbe & Hbh & Hmx & Hcp) Hf Hb. pose proof Hok as (_ & Hk & Hisr & Hst & _). cbn [run_perf_op op_events].
  destruct (active T) eqn:Hact.
  - destruct (collect_ok before behind get Hbe Hbh fuel T s) as (get' & s' & -> & Hrep & Hok'); [done|done|done|lia|lia|unfold zlen in *; lia| |].
    { apply copy_stays_in; try done. unfold zlen in *. lia. }
    cbn [rbind]. eexists _, s', _. conjs; [reflexivity|by apply step_collect|done|].
    pose proof (isr_rest_within (stale T) (isr_pending T) (before ++ behind) Hk) as Hr. rewrite zlen_app in Hr.
    unfold after_collect. destruct (decide _); unfold perf_within, zlen in *; cbn; rewrite ?length_drop; lia.
  - unfold perf_event_get_event. rewrite Hst. cbn [negb rbind]. eexists _, s, T. conjs; [reflexivity|by apply step_collect_idle|done|].
    unfold perf_within. lia.
Qed.

Lemma perf_op_ok fuel n o T s : perf_ok T s -> perf_within n T -> perf_allowed o s -> (n + op_events o <= fuel)%nat ->
  Z.of_nat (n + op_events o) < 2 ^ 31 ->
  exists r s' T', run_perf_op fuel o s = Ok (r, s') /\ perf_step o T r T' /\ perf_ok T' s' /\ perf_within (n + op_events o) T'.
Proof.
  intros Hok Hn Ha Hf Hb. pose proof Hn as (Hn1 & Hn2 & Hn3).
  pose proof Hok as (_ & Hk & Hisr & Hst & _). destruct o as [max| |a now data|a now e|e|before behind get].
  6: { cbn [op_events] in Hf, Hb. apply collect_op_ok; try done; lia. }
  all: cbn [run_perf_op perf_allowed op_events] in *; rewrite Nat.add_1_r in *;
    assert (Hn' : perf_within (S n) T) by (by apply (perf_within_le n); [lia|]).
  - destruct (begin_ok fuel max T s) as (s' & -> & Hok'); [done|congruence|lia|]. cbn [rbind].
    eexists _, s', _. conjs; [reflexivity|apply step_begin; congruence|done|]. unfold perf_within, zlen in *. cbn. lia.
  - unfold perf_event_end. rewrite Ha. cbn [zx_assert rbind]. eexists _, _, (T <| active := false |>).
    conjs; [reflexivity|apply step_end; congruence| |done]. destruct Hok as ([xs Hev] & ? & ? & ? & ? & ? & ? & ?).
    unfold perf_ok. conjs; cbn; try done. + exists xs. by destruct Hev. + by destruct Hisr.
  - destruct Ha as [Hz Ha]. destruct (send_ok a now data T s) as (s' & -> & Hok'); [done|done|done|lia|]. cbn [rbind].
    eexists _, s', _. conjs; [reflexivity|apply step_send|done|]. unfold send_spec. repeat case_match; try done. by apply post_within.
  - destruct Ha as [He Ha]. destruct (add_event_ok a now e T s) as (s' & -> & Hok'); [done|done|done|lia|]. cbn [rbind].
    eexists _, s', _. conjs; [reflexivity|apply step_post|done|by apply post_within].
  - destruct (active T) eqn:Hact.
    + destruct (add_isr_ok e (stale T) (isr_pending T) s) as (s' & -> & Hisr' & Hl & _); [done..|lia|]. cbn [rbind].
      eexists _, s', _. conjs; [reflexivity|by apply step_isr| |].
      * destruct Hok as ([xs Hev] & _ & _ & _ & Hr). injection Hl as E1 E2 E3 E4 E5 E6 E7 E8. unfold perf_ok. rewrite E5, E6, E7, E8.
        conjs; cbn; try congruence; try apply Hr. exists xs. destruct Hev. split; rewrite ?E2, ?E3, ?E4; done.
      * pose proof (zlen_accept (isr_pending T) e). unfold perf_within. cbn. lia.
    + unfold perf_event_add_isr_event. rewrite Hst. cbn [negb rbind]. eexists _, s, T. conjs; [reflexivity|by apply step_isr_idle|done|done].
Qed.

Fixpoint run_perf_ops (fuel : nat) (ops : list perf_op) (s : perf_event_mgr) : res (list perf_answer * perf_event_mgr) :=
  match ops with
  | [] => Ok ([], s)
  | o :: ops => let! '(r, s) := run_perf_op fuel o s in let! '(rs, s) := run_perf_ops fuel ops s in Ok (r :: rs, s)
  end.
Inductive perf_steps : list perf_op -> perf_session -> list perf_answer -> perf_session -> Prop :=
| perf_steps_nil T : perf_steps [] T [] T
| perf_steps_cons o ops T r T1 rs T2 : perf_step o T r T1 -> perf_steps ops T1 rs T2 -> perf_steps (o :: ops) T (r :: rs) T2.
Fixpoint perf_allowed_all (fuel : nat) (ops : list perf_op) (s : perf_event_mgr) : Prop :=
  match ops with
  | [] => True
  | o :: ops => perf_allowed o s /\ match run_perf_op fuel o s with Ok (_, s) => perf_allowed_all fuel ops s | Err _ => True end
  end.

Lemma perf_ops_run fuel ops : forall n T s, perf_ok T s -> perf_within n T -> perf_allowed_all fuel ops s ->
  (n + ops_events ops <= fuel)%nat -> Z.of_nat (n + ops_events ops) < 2 ^ 31 ->
  exists rs s' T', run_perf_ops fuel ops s = Ok (rs, s') /\ perf_steps ops T rs T' /\ perf_ok T' s'.
Proof.
  induction ops as [|o ops IH]; intros n T s Hok Hn Hall Hf Hb; cbn [run_perf_ops] in *.
  { exists [], s, T. conjs; try done. constructor. }
  change (ops_events (o :: ops)) with (op_events o + ops_events ops)%nat in Hf, Hb. destruct Hall as [Ha Hall].
  destruct (perf_op_ok fuel n o T s) as (r & s1 & T1 & Hrun & Hst & Hok1 & Hn1); [done|done|done|lia|lia|].
  rewrite Hrun in *. cbn [rbind]. destruct (IH (n + op_events o)%nat T1 s1) as (rs & s2 & T2 & -> & Hsts & Hok2); [done|done|done|lia|lia|].
  cbn [rbind]. exists (r :: rs), s2, T2. conjs; try done. by econstructor.
Qed.

Definition no_session : perf_session := mkSession false [] 0 0 0 [] 0.

Lemma perf_init_ok head : head <> 0 -> exists s, zx_perf_event_init head = Ok s /\ perf_ok no_session s.
Proof.
  intros Hh. unfold zx_perf_event_init. destruct (rings_new ∅ ∅ head) as (h & -> & HR & _).
  { split; intros *; by rewrite lookup_empty. }
  { done. }
  { left. intros l xs. by rewrite lookup_empty. }
  cbn [rbind]. eexists. split; [reflexivity|]. unfold perf_ok, no_session. cbn.
  assert (Hz : zlen (replicate (Z.to_nat BUF) 0) = BUF) by (rewrite zlen_replicate; apply Z2Nat.id; done).
  set (b := replicate _ _) in *. clearbody b. conjs; try done.
  - exists []. split; cbn; try done. intros a [p Hp]. by rewrite lookup_empty in Hp.
  - split; cbn; try done. intros j Hj. unfold zlen in Hj. cbn in Hj. lia.
Qed.

(** ** Claims *)

(** C19. From a new manager, every sequence of sessions, of events that processes, the
    kernel and interrupt handlers add, and of collections during which interrupts come,
    runs without a fault and does what the abstract session does: an event of a process is
    kept, in order, up to the maximum of the session and is counted as lost from then on;
    an event of an interrupt is kept while the ring has room and is dropped uncounted
    otherwise; a collection reports all but the last of the kept events (if there are more
    than two), how many were lost and when, and all events of interrupts, byte by byte and
    in order, with the number of the bytes that count, while bytes beyond them may follow;
    a session that begins before the interrupts of the last one were collected counts
    these, whose bytes are gone, in its first collection; and no memory of an event that
    is no longer kept is left. The operations come one at a time, but for the interrupts
    during a collection: two processes that add events at once can leave the list with
    freed memory (lost_race_faults). Sessions begin and end in turn, or the code panics
    (end_panics), and no interrupt makes a collection copy beyond the ring, as it can
    (get_isr_overreads). *)
Theorem perf_events_refine fuel head ops s0 : head <> 0 -> zx_perf_event_init head = Ok s0 -> perf_allowed_all fuel ops s0 ->
  (ops_events ops <= fuel)%nat -> Z.of_nat (ops_events ops) < 2 ^ 31 ->
  exists answers s T, run_perf_ops fuel ops s0 = Ok (answers, s) /\ perf_steps ops no_session answers T /\ perf_ok T s.
Proof.
  intros Hh Hi Hall Hf Hb. destruct (perf_init_ok head Hh) as (s & Hs & Hok). assert (s = s0) as -> by congruence.
  by apply (perf_ops_run fuel ops 0).
Qed.

(** An interrupt between the first section of a collection and its copy makes the copy
    as long as the ring is full by then: when the events reach no further than the end
    of the ring, but the new one does, the copy reads beyond the buffer. *)
Theorem get_isr_overreads k Q e behind get s : perf_started s = true -> isr_ok k Q s -> 0 <= k -> k + zlen Q < 2 ^ 31 - 1 ->
  k + zlen Q <> 0 -> event_ok e ->
  zlen (concat Q) + event_size e < BUF -> isr_event_head s + zlen (concat Q) <= BUF ->
  BUF < isr_event_head s + zlen (concat Q) + event_size e ->
  perf_event_get_isr_event [e] behind get s = Err OutOfBounds.
Proof.
  intros Hst Hok Hk Hb HQ He Hroom Hin Hout. unfold perf_event_get_isr_event. rewrite Hst, (isr_num _ _ _ Hok). cbn [negb].
  destruct (Z.eqb_spec (k + zlen Q) 0) as [H0|_]; [done|].
  destruct (add_isr_ok e k Q s Hst Hok He Hk Hb) as (s1 & Hrun & Hok1 & _ & Hh). cbn [interrupts]. rewrite Hrun. cbn [rbind].
  unfold accept in Hok1. destruct (Z.ltb_spec (zlen (concat Q) + event_size e) BUF) as [_|]; [|lia].
  unfold get_bytes. rewrite (isr_size _ _ _ Hok), Hh. destruct (Z.leb_spec (isr_event_head s + zlen (concat Q)) BUF) as [_|]; [|lia].
  rewrite (isr_size _ _ _ Hok1), concat_snoc, zlen_app, zlen_payload by done. unfold copy_to_user. rewrite (isr_length _ _ _ Hok1).
  destruct (Z.leb_spec (isr_event_head s + (zlen (concat Q) + event_size e)) BUF); [lia|]. by rewrite andb_false_r.
Qed.

(** ** What goes wrong *)

(** A session that has lost an event while it keeps two or less loses all later ones: a
    collection that takes no event does not clear the count. *)
Lemma lost_for_ever ops T answers T' : perf_steps ops T answers T' -> active T = true -> 0 < lost T -> zlen (pending T) <= 2 ->
  Forall (fun o => match o with Begin _ | End => False | _ => True end) ops -> pending T' = pending T /\ 0 < lost T'.
Proof.
  intros Hst. induction Hst as [T|o ops T r T1 rs T2 Hs _ IH]; intros Hact Hl Hp Hops; [done|].
  apply Forall_cons in Hops as [Ho Hops].
  enough (H : active T1 = true /\ 0 < lost T1 /\ pending T1 = pending T) by (destruct H as (H1 & H2 & H3); rewrite <- H3; apply IH; try done; by rewrite H3).
  assert (Hpost : forall a now e, active (post_spec a now e T).2 = true /\ 0 < lost (post_spec a now e T).2 /\ pending (post_spec a now e T).2 = pending T).
  { intros. unfold post_spec. rewrite Hact. cbn [negb]. destruct (Z.ltb_spec 0 (lost T)); [|lia]. cbn. conjs; [done|lia|done]. }
  inversion Hs; subst; try done.
  - unfold send_spec. by repeat case_match.
  - unfold after_collect, collected, fill_number. destruct (Z.ltb_spec 2 (zlen (pending T))); [lia|]. by rewrite decide_True.
Qed.

(** A session begins with the number of events that interrupts left in the last one, but
    with none of their bytes; the first collection reports that number. *)
Lemma stale_number fuel max T s get : perf_ok T s -> active T = false -> stale T + zlen (isr_pending T) <> 0 ->
  (length (pending T) < fuel)%nat ->
  exists s' get' s'', perf_event_begin fuel true max s = Ok (0, s') /\ perf_event_get_isr_event [] [] get s' = Ok (0, get', s'') /\
    isr_filled_num get' = stale T + zlen (isr_pending T) /\ isr_filled_size get' = 0 /\ isr_bytes get' = [].
Proof.
  intros ([xs Hev] & _ & Hisr & Hst & _) Hact HQ Hfuel. unfold perf_event_begin. rewrite Hst, Hact. cbn [zx_assert negb rbind].
  assert (Hxs : length xs = length (pending T)) by (eapply Forall2_length, Hev).
  match goal with |- context [free_events fuel ?t] => destruct (free_events_run fuel (pending T) xs t) as (s' & -> & _ & Ho) end;
    [by destruct Hev|lia|]. cbn [rbind]. injection Ho as _ _ _ _ _ _ E7 E8 E9 E10 E11.
  eexists _, _, _. split; [reflexivity|]. unfold perf_event_get_isr_event. cbn. rewrite E11, (isr_num _ _ _ Hisr).
  destruct (Z.eqb_spec (stale T + zlen (isr_pending T)) 0) as [H0|_]; [done|].
  unfold get_bytes. cbn. rewrite E9, E10. cbn. rewrite copy_to_user_run by (pose proof (zlen_nonneg (isr_event_buffer s')); lia).
  cbn. by conjs.
Qed.

(** A thread that added an event looks at the count of lost events after it has released
    the lock: when two others have come between, it frees its event, which is not the last
    one, although it is in the list. The next collection uses freed memory. *)
Definition lost_race (head : Z) (e : list Z) : res (Z * zx_get_perf_event * perf_event_mgr) :=
  let! s := zx_perf_event_init head in
  let! '(_, s) := perf_event_begin 9 true 3 s in
  let! '(_, s) := perf_event_add_event 100 1 e s in
  let! s := make_event 200 e s in let! s := link_event 200 2 s in
  let! '(_, s) := perf_event_add_event 300 3 e s in
  let! '(_, s) := perf_event_add_event 400 4 e s in
  let! '(_, s) := drop_lost_event 200 s in
  perf_event_get_event 9 [] [] (mkGet 10 0 0 0 0 [] 0 0 []) s.

Definition an_event : list Z := 24 :: replicate (Z.to_nat (sizeof_event - 1)) 0.

Lemma lost_race_faults : lost_race 16 an_event = Err OutOfBounds.
Proof. by vm_compute. Qed.

(** Ending a session that has not begun is a panic. *)
Lemma end_panics s : perf_started s = false -> perf_event_end s = Err Panic.
Proof. intros H. unfold perf_event_end. by rewrite H. Qed.

(** ** Witnesses *)

(** To find a sequence allowed, one goes through it with what is known of the session. *)
Lemma perf_step_active o T r T' : perf_step o T r T' ->
  active T' = match o with Begin _ => true | End => false | _ => active T end.
Proof.
  intros H. destruct H; try done.
  - unfold send_spec, post_spec. by repeat case_match.
  - unfold post_spec. by repeat case_match.
  - unfold after_collect. by destruct (decide _).
Qed.

Lemma allowed_next fuel n o ops T s : perf_ok T s -> perf_within n T -> (n + op_events o <= fuel)%nat ->
  Z.of_nat fuel < 2 ^ 31 -> perf_allowed o s ->
  (forall r T' s', run_perf_op fuel o s = Ok (r, s') ->
     active T' = match o with Begin _ => true | End => false | _ => active T end ->
     perf_ok T' s' -> perf_within (n + op_events o) T' -> perf_allowed_all fuel ops s') ->
  perf_allowed_all fuel (o :: ops) s.
Proof.
  intros Hok Hn Hf Hb Ha Hnext. cbn [perf_allowed_all]. split; [done|].
  destruct (perf_op_ok fuel n o T s) as (r & s' & T' & Hrun & Hst & Hok' & Hn'); [done..|lia|]. rewrite Hrun.
  by apply (Hnext r T'); [|eapply perf_step_active| |].
Qed.

Lemma add_isr_moves e s r s' : perf_event_add_isr_event e s = Ok (r, s') -> event_ok e ->
  isr_event_head s' = isr_event_head s /\ isr_event_buffer_size s' <= isr_event_buffer_size s + sizeof_event.
Proof.
  intros Hrun He. revert Hrun. unfold perf_event_add_isr_event. rewrite event_header by done. destruct He as [_ He].
  unfold sizeof_header in He. destruct (negb _); [intros [= _ <-]; lia|]. cbn [rbind]. destruct (_ <? _); [|intros [= _ <-]; lia].
  destruct (put_bytes _ _ _ _); [|done]. intros [= _ <-]. cbn. lia.
Qed.

Lemma copy_stays_nil s : copy_stays [] s.
Proof. right. cbn. lia. Qed.

Lemma copy_stays_one e s : event_ok e -> isr_event_head s + isr_event_buffer_size s + sizeof_event <= BUF -> copy_stays [e] s.
Proof.
  intros He Hroom. right. intros _. cbn [interrupts]. destruct (perf_event_add_isr_event e s) as [[r s']|] eqn:E; [|done].
  cbn [rbind]. destruct (add_isr_moves _ _ _ _ E He). lia.
Qed.

Definition a_get : zx_get_perf_event := mkGet 10 0 0 0 0 [] 0 0 [].
Definition more_ops : list perf_op :=
  [Isr an_event; Collect [an_event] [an_event] a_get; Isr an_event; Collect [] [] a_get; Isr an_event; End;
   Begin 1; Isr an_event; Collect [] [] a_get; End].
Definition perf_ops : list perf_op :=
  [Begin 3; Post 100 1 an_event; Send 200 2 an_event; Post 300 3 an_event; Post 400 4 an_event] ++ more_ops.

Lemma an_event_ok : event_ok an_event.
Proof. by vm_compute. Qed.

(** The next operation, by what is known of the session or by running it. *)
Ltac next_op :=
  eapply allowed_next; [eassumption|eassumption|cbn in *; lia|lia| |let H := fresh "Hrun" in intros ? ? ? H ? ? ?].

Lemma more_ops_allowed n T s : perf_ok T s -> perf_within n T -> (n + 12 <= 40)%nat -> active T = true ->
  isr_event_head s + isr_event_buffer_size s <= 1000 -> perf_allowed_all 40 more_ops s.
Proof.
  intros Hok Hn Hb Ha Hc. pose proof an_event_ok as He.
  assert (Hst : forall T s b, perf_ok T s -> active T = b -> perf_started s = b) by (intros ? ? ? (_ & _ & _ & -> & _) <-; done).
  assert (Hcol : forall s, perf_allowed (Collect [] [] a_get) s) by (intros; by repeat split; [..|apply copy_stays_nil]).
  unfold more_ops. next_op; [done|]. cbn [run_perf_op] in Hrun.
  destruct (perf_event_add_isr_event an_event s) as [[r1 s1]|] eqn:E; [|done]. injection Hrun as _ <-.
  next_op. { repeat split; try by repeat constructor. apply copy_stays_one; [done|]. destruct (add_isr_moves _ _ _ _ E He).
    unfold sizeof_event, sizeof_header, PERF_EVENT_MAX_ISR_EVENT_BUFFER_SIZE in *. lia. }
  next_op; [done|]. next_op; [apply Hcol|]. next_op; [done|]. next_op; [by eapply Hst; [eassumption|congruence]|].
  next_op; [by eapply Hst|]. next_op; [done|]. next_op; [apply Hcol|].
  next_op; [by eapply Hst; [eassumption|congruence]|done].
Qed.

Lemma begin_ops_allowed h b : list_init_head 16 (<[16 := mkNode 0 0]> ∅) = Ok h ->
  perf_ok no_session (mkPerf false 16 h ∅ 0 0 0 0 b 0 0 0 0) -> perf_allowed_all 40 perf_ops (mkPerf false 16 h ∅ 0 0 0 0 b 0 0 0 0).
Proof.
  intros E Hok. vm_compute in E. injection E as <-.
  assert (Hn : perf_within 0 no_session) by by vm_compute. unfold perf_ops. cbn [app].
  do 5 (next_op; [try (split; [by vm_compute|by right]); by vm_compute|]; vm_compute in Hrun; injection Hrun as _ <-).
  eapply more_ops_allowed; [eassumption|eassumption|cbn; lia|congruence|cbn; lia].
Qed.

Lemma perf_ops_allowed s0 : zx_perf_event_init 16 = Ok s0 -> perf_allowed_all 40 perf_ops s0.
Proof.
  destruct (perf_init_ok 16) as (s & E & Hok); [lia|]. rewrite E. intros [= <-]. revert E Hok. unfold zx_perf_event_init.
  generalize (replicate (Z.to_nat BUF) 0). intros b. destruct (list_init_head _ _) eqn:E; [|done].
  cbn [rbind]. intros [= <-]. by apply begin_ops_allowed.
Qed.

Lemma perf_events_refine_witness : exists s0 answers s T, zx_perf_event_init 16 = Ok s0 /\
  run_perf_ops 40 perf_ops s0 = Ok (answers, s) /\ perf_steps perf_ops no_session answers T /\ perf_ok T s.
Proof.
  destruct (perf_init_ok 16) as (s0 & E & _); [lia|]. exists s0.
  destruct (perf_events_refine 40 16 perf_ops s0) as (answers & s & T & H);
    [lia|exact E|exact (perf_ops_allowed s0 E)|cbn; lia|by vm_compute|].
  by exists answers, s, T.
Defined.

(** A ring with one event, 40 bytes before its end. *)
Definition late_mgr : perf_event_mgr :=
  mkPerf true 16 ∅ ∅ 0 0 0 0 (replicate (Z.to_nat (BUF - 40)) 0 ++ payload an_event ++ replicate 16 0) (BUF - 16) (BUF - 40) 24 1.

Lemma late_ok : isr_ok 0 [payload an_event] late_mgr.
Proof.
  assert (Hp : zlen (payload an_event) = 24) by by vm_compute.
  assert (Hr : zlen (replicate (Z.to_nat (BUF - 40)) 0) = BUF - 40) by (rewrite zlen_replicate; apply Z2Nat.id; done).
  unfold late_mgr. set (l := replicate (Z.to_nat (BUF - 40)) 0) in *. clearbody l. set (p := payload an_event) in *. clearbody p.
  split; cbn [isr_event_buffer isr_event_head isr_event_buffer_size isr_event_tail isr_event_num concat]; rewrite ?app_nil_r, ?Hp; try done.
  - rewrite !zlen_app, Hr, Hp. done.
  - intros j Hj. rewrite Hp in Hj. rewrite ring_place by (unfold PERF_EVENT_MAX_ISR_EVENT_BUFFER_SIZE; lia).
    destruct (Z.ltb_spec (BUF - 40 + j) BUF); [|lia]. rewrite rd_app_r, rd_app_l by (rewrite ?Hr, ?Hp; lia). f_equal. lia.
Qed.

Lemma get_isr_overreads_witness : perf_event_get_isr_event [an_event] [] a_get late_mgr = Err OutOfBounds.
Proof.
  apply (get_isr_overreads 0 [payload an_event] an_event [] a_get late_mgr);
    [reflexivity|apply late_ok|done|done|done|apply an_event_ok|by vm_compute|by vm_compute|by vm_compute].
Defined.
