(* ===== verification/EngineUsage.v ===== *)
(** * How busy the engines are

    The statistics of [core/perfevent/perfevent.c] and [e3k/perfevent/perfevent_e3k.c]:
    each submission and each completion moves an engine between busy and idle, and once a
    second a vertical sync turns the idle time of each engine into a percentage. *)
From S2P Require Import Prelude.
Local Open Scope Z_scope.

(** ** Data *)

Definition ENGINE_NONE : Z := 0.
Definition ENGINE_IDLE : Z := 1.
Definition ENGINE_BUSY : Z := 2.

(** [hwq_event_info]; [engine_active] and [engine_status] are the bit fields. *)
Record hwq_event_info := mkInfo
  { submit_fence_id : Z; complete_fence_id : Z; last_busy2idletime : Z;
    engine_active : Z; engine_status : Z; idle_time : Z; engine_usage : Z }.
#[export] Instance hwq_event_info_eta : Eta hwq_event_info := fun r =>
  mkInfo (submit_fence_id r) (complete_fence_id r) (last_busy2idletime r) (engine_active r) (engine_status r) (idle_time r) (engine_usage r).

(** [hwq_event_mgr_t] *)
Record hwq_event_mgr := mkHwq { hwq_started : bool; start_time : Z; sample_time : Z; hwq_event : list hwq_event_info }.
#[export] Instance hwq_event_mgr_eta : Eta hwq_event_mgr := fun r =>
  mkHwq (hwq_started r) (start_time r) (sample_time r) (hwq_event r).

(** The fields of [adapter_t] that the statistics use; [chip_id] only tells CHX004 and
    CNE001 from the others. *)
Inductive chip : Set := CHIP_CHX004 | CHIP_CNE001 | CHIP_OTHER.
Record adapter := mkAdapter
  { hwq_event_enable : bool; hwq_mgr : option hwq_event_mgr; chip_id : chip; active_engine_count : Z;
    usage_3d : Z; usage_vcp : Z; usage_vpp : Z }.
#[export] Instance adapter_eta : Eta adapter := fun r =>
  mkAdapter (hwq_event_enable r) (hwq_mgr r) (chip_id r) (active_engine_count r) (usage_3d r) (usage_vcp r) (usage_vpp r).

(** [zx_hwq_info]; the field [sample_time] is not set. *)
Record zx_hwq_info := mkUsage { Usage_3D : Z; Usage_VCP : Z; Usage_VPP : Z }.
#[export] Instance zx_hwq_info_eta : Eta zx_hwq_info := fun r => mkUsage (Usage_3D r) (Usage_VCP r) (Usage_VPP r).

(** The ring buffer indices ([RB_NODE_E3K]) and the engines of each kind. *)
Definition RB_INDEX_GFXL : Z := 0.
Definition RB_INDEX_GFXH : Z := 1.
Definition RB_INDEX_VCP0 : Z := 7.
Definition RB_INDEX_VCP1 : Z := 8.
Definition RB_INDEX_VCP2 : Z := 9.
Definition RB_INDEX_VPP0 : Z := 10.
Definition RB_INDEX_VPP1 : Z := 11.
Definition RB_INDEX_VPP : Z := RB_INDEX_VCP2.
Definition is_CNE001 (c : chip) : bool := match c with CHIP_CNE001 => true | _ => false end.
Definition is_CHX004 (c : chip) : bool := match c with CHIP_CHX004 => true | _ => false end.
Definition IS_3D_ENGINE (e : Z) : bool := (e =? RB_INDEX_GFXL) || (e =? RB_INDEX_GFXH).
Definition IS_VCP_ENGINE (c : chip) (e : Z) : bool :=
  (e =? RB_INDEX_VCP0) || (e =? RB_INDEX_VCP1) || (is_CNE001 c && (e =? RB_INDEX_VCP2)).
Definition IS_VPP_ENGINE (c : chip) (e : Z) : bool :=
  (is_CHX004 c && (e =? RB_INDEX_VPP)) || (is_CNE001 c && ((e =? RB_INDEX_VPP0) || (e =? RB_INDEX_VPP1))).

(** ** Operations *)

Definition no_info : hwq_event_info := mkInfo 0 0 0 0 0 0 0.
Definition gfx_hwq_event_init (ad : adapter) : adapter :=
  ad <| usage_3d := 0 |> <| usage_vcp := 0 |> <| usage_vpp := 0 |>
     <| hwq_mgr := Some (mkHwq false 0 1000000000 (replicate (Z.to_nat (active_engine_count ad)) no_info)) |>.
Definition gfx_hwq_event_deinit (ad : adapter) : adapter := ad <| hwq_mgr := None |>.

Definition with_mgr (ad : adapter) (m : hwq_event_mgr) : adapter := ad <| hwq_mgr := Some m |>.

(** What a completion and a submission do to the record of their engine. *)
Definition complete_info (time fence_id : Z) (p : hwq_event_info) : hwq_event_info :=
  (if submit_fence_id p =? fence_id then p <| engine_status := ENGINE_IDLE |> <| last_busy2idletime := time |>
   else p <| engine_status := ENGINE_BUSY |>)
  <| complete_fence_id := fence_id |> <| engine_active := 1 |>.
(** The idle time since the engine became idle, or since the window began. *)
Definition add_idle (start time : Z) (p : hwq_event_info) : hwq_event_info :=
  if engine_status p =? ENGINE_IDLE then
    let s_idle_time := if last_busy2idletime p <? start then start else last_busy2idletime p in
    p <| idle_time := u64 (idle_time p + u64 (time - s_idle_time)) |>
  else p.
Definition submit_info (start time fence_id : Z) (p : hwq_event_info) : hwq_event_info :=
  (add_idle start time p) <| submit_fence_id := fence_id |> <| engine_active := 1 |> <| engine_status := ENGINE_BUSY |>.

Definition hwq_process_complete_event (time fence_id engine : Z) (ad : adapter) : res (Z * adapter) :=
  let! m := deref (hwq_mgr ad) in
  if negb (hwq_started m) then Ok (0, ad)
  else
    let! p := rd (hwq_event m) engine in
    let! l := wr (hwq_event m) engine (complete_info time fence_id p) in
    Ok (0, with_mgr ad (m <| hwq_event := l |>)).

Definition hwq_process_submit_event (time fence_id engine : Z) (ad : adapter) : res (Z * adapter) :=
  let! m := deref (hwq_mgr ad) in
  if negb (hwq_started m) then Ok (0, ad)
  else
    let! p := rd (hwq_event m) engine in
    let! l := wr (hwq_event m) engine (submit_info (start_time m) time fence_id p) in
    Ok (0, with_mgr ad (m <| hwq_event := l |>)).

(** [now] is what [zx_get_nsecs] answers. *)
Definition hwq_get_hwq_info (now : Z) (info : zx_hwq_info) (ad : adapter) : Z * zx_hwq_info * adapter :=
  if hwq_event_enable ad then
    match hwq_mgr ad with
    | None => (-1, info, ad)
    | Some m =>
        let m := if hwq_started m then m else m <| start_time := now |> <| hwq_started := true |> in
        let m := m <| sample_time := 50 * 1000 * 1000 |> in
        (0, info <| Usage_3D := usage_3d ad |> <| Usage_VCP := usage_vcp ad |> <| Usage_VPP := usage_vpp ad |>, with_mgr ad m)
    end
  else (-1, info, ad).

(** [perf_calculate_engine_usage_e3k]: the largest usage of each kind of engine. *)
Definition calculate_step (c : chip) (l : list hwq_event_info) (engine : Z) (info : zx_hwq_info) : res zx_hwq_info :=
  let! p := rd l engine in
  let usage := u32 (engine_usage p) in
  let info := if IS_3D_ENGINE engine && (Usage_3D info <? usage) then info <| Usage_3D := usage |> else info in
  let info := if IS_VCP_ENGINE c engine && (Usage_VCP info <? usage) then info <| Usage_VCP := usage |> else info in
  Ok (if IS_VPP_ENGINE c engine && (Usage_VPP info <? usage) then info <| Usage_VPP := usage |> else info).
Definition perf_calculate_engine_usage_e3k (info : zx_hwq_info) (ad : adapter) : res (Z * zx_hwq_info) :=
  let! m := deref (hwq_mgr ad) in
  let! info := for_up (Z.to_nat (active_engine_count ad)) 0 (calculate_step (chip_id ad) (hwq_event m)) info in
  Ok (0, info).

Section vsync.
(** [do_div] of the kernel: the quotient of a 64-bit number by a 32-bit one. *)
Context (do_div : Z -> Z -> res Z).

Definition zx_do_div (x y : Z) : res Z := do_div x y.

(** The record of one engine at a vertical sync that ends a window. *)
Definition sample_info (start time : Z) (p : hwq_event_info) : res hwq_event_info :=
  if engine_active p =? 0 then
    let p :=
      if (engine_status p =? ENGINE_IDLE) || (engine_status p =? ENGINE_NONE) then p <| engine_usage := 0 |>
      else if engine_status p =? ENGINE_BUSY then p <| engine_usage := 100 |> else p in
    Ok (p <| idle_time := 0 |>)
  else
    let p := add_idle start time p in
    let! q := zx_do_div (u64 (idle_time p * 100)) (u64 (time - start)) in
    Ok (p <| engine_usage := u64 (100 - q) |> <| idle_time := 0 |> <| engine_active := 0 |>).
Definition sample_step (start time : Z) (engine : Z) (l : list hwq_event_info) : res (list hwq_event_info) :=
  let! p := rd l engine in
  let! p := sample_info start time p in
  wr l engine p.

(** [time] is that of the interrupt, [now] the one that [hwq_get_hwq_info] reads. *)
Definition hwq_process_vsync_event (time now : Z) (ad : adapter) : res (Z * adapter) :=
  if negb (hwq_event_enable ad) then Ok (0, ad)
  else
    let '(_, info, ad) := hwq_get_hwq_info now (mkUsage 0 0 0) ad in
    match hwq_mgr ad with
    | None => Ok (-1, ad)
    | Some m =>
        if negb (hwq_started m) then Ok (0, ad)
        else if u64 (time - start_time m) <? 1000000000 then Ok (0, ad)
        else
          let! l := for_up (Z.to_nat (active_engine_count ad)) 0 (sample_step (start_time m) time) (hwq_event m) in
          let ad := with_mgr ad (m <| hwq_event := l |>) in
          let! '(ret, info) := perf_calculate_engine_usage_e3k (mkUsage 0 0 0) ad in
          let ad := ad <| usage_3d := Usage_3D info |> <| usage_vcp := Usage_VCP info |> <| usage_vpp := Usage_VPP info |> in
          Ok (ret, with_mgr ad (m <| hwq_event := l |> <| start_time := time |>))
    end.
End vsync.
