(* ===== verification/UsageSpec.v ===== *)
(** * How busy the engines are: the reference

    A stopwatch for each engine that runs while the engine is idle and is read and reset
    at the vertical syncs; the statistics of EngineUsage.v, which look at the time only
    when an engine changes its state, report the same percentages. *)
From S2P Require Import Prelude EngineUsage.
From stdpp Require Import list.
Local Open Scope Z_scope.
#[local] Arguments Z.eqb : simpl never.

(** Comparisons of two states. *)
Ltac states := repeat match goal with
  | |- context [ENGINE_IDLE =? ENGINE_IDLE] => change (ENGINE_IDLE =? ENGINE_IDLE) with true
  | |- context [ENGINE_IDLE =? ENGINE_NONE] => change (ENGINE_IDLE =? ENGINE_NONE) with false
  | |- context [ENGINE_BUSY =? ENGINE_BUSY] => change (ENGINE_BUSY =? ENGINE_BUSY) with true
  | |- context [ENGINE_BUSY =? ENGINE_IDLE] => change (ENGINE_BUSY =? ENGINE_IDLE) with false
  | |- context [ENGINE_BUSY =? ENGINE_NONE] => change (ENGINE_BUSY =? ENGINE_NONE) with false
  | |- context [ENGINE_NONE =? ENGINE_NONE] => change (ENGINE_NONE =? ENGINE_NONE) with true
  | |- context [ENGINE_NONE =? ENGINE_IDLE] => change (ENGINE_NONE =? ENGINE_IDLE) with false
  end.

(** ** The stopwatches *)

(** The last submission, the state, and the idle time in the current window: that of
    the idle periods that have ended, and that of the one that lasts. *)
Record watch := mkWatch { w_fence : Z; w_status : Z; w_idle : Z; w_open : Z }.
#[export] Instance watch_eta : Eta watch := fun w => mkWatch (w_fence w) (w_status w) (w_idle w) (w_open w).

(** The begin of the window, the time of the last event, the stopwatches, and the
    percentages of the last window. *)
Record stats := mkStats { begun : Z; clock : Z; watches : list watch; reported : list Z }.
#[export] Instance stats_eta : Eta stats := fun S => mkStats (begun S) (clock S) (watches S) (reported S).

Inductive hwq_op := Submit (time fence_id engine : Z) | Complete (time fence_id engine : Z) | Vsync (time now : Z).

Definition run_watch (d : Z) (w : watch) : watch := if w_status w =? ENGINE_IDLE then w <| w_open ::= Z.add d |> else w.
Definition tick (time : Z) (S : stats) : stats :=
  S <| watches := run_watch (time - clock S) <$> watches S |> <| clock := time |>.

(** The percentage of a window of [d] nanoseconds. *)
Definition usage_of (d : Z) (w : watch) : Z :=
  if w_status w =? ENGINE_NONE then 0 else 100 - (w_idle w + w_open w) * 100 / d.

(** A submission ends an idle period. A completion of an engine that is idle shows that
    the engine has worked since without a submission that was announced: the period is
    taken back. *)
Definition at_submit (f : Z) (w : watch) : watch := mkWatch f ENGINE_BUSY (w_idle w + w_open w) 0.
Definition at_complete (f : Z) (w : watch) : watch :=
  mkWatch (w_fence w) (if w_fence w =? f then ENGINE_IDLE else ENGINE_BUSY) (w_idle w) 0.
Definition at_sync (w : watch) : watch := w <| w_idle := 0 |> <| w_open := 0 |>.

Definition stats_step (o : hwq_op) (S : stats) : stats :=
  match o with
  | Submit time f e => (tick time S) <| watches ::= alter (at_submit f) (Z.to_nat e) |>
  | Complete time f e => (tick time S) <| watches ::= alter (at_complete f) (Z.to_nat e) |>
  | Vsync time _ =>
      let S := tick time S in
      if time - begun S <? 1000000000 then S
      else S <| reported := usage_of (time - begun S) <$> watches S |> <| begun := time |>
             <| watches ::= fmap at_sync |>
  end.

(** Time does not go back and stays below 2^57 nanoseconds (four years); an event is of
    an engine that there is; vertical syncs come so often that a window is shorter than
    2^32 nanoseconds ([long_window] is what happens otherwise). *)
Definition op_time (o : hwq_op) : Z := match o with Submit t _ _ | Complete t _ _ | Vsync t _ => t end.
Definition hwq_allowed (o : hwq_op) (S : stats) : Prop :=
  clock S <= op_time o < 2 ^ 57 /\
  match o with
  | Submit _ _ e | Complete _ _ e => 0 <= e < zlen (watches S)
  | Vsync t _ => t - begun S < 2 ^ 32
  end.

(** The largest percentage of a kind of engine. *)
Definition peak (P : Z -> bool) (l : list Z) : Z :=
  foldl Z.max 0 (imap (fun i u => if P (Z.of_nat i) then u else 0) l).

(** ** Records and stopwatches *)

(** A record of the code and a stopwatch, at time [t] of the window from [s] on. *)
Record agrees (s t : Z) (p : hwq_event_info) (w : watch) : Prop :=
  { ag_fence : submit_fence_id p = w_fence w;
    ag_status : engine_status p = w_status w;
    ag_states : w_status w = ENGINE_NONE \/ w_status w = ENGINE_IDLE \/ w_status w = ENGINE_BUSY;
    ag_idle : idle_time p = w_idle w /\ 0 <= w_idle w;
    ag_total : 0 <= w_open w /\ w_idle w + w_open w <= t - s;
    ag_clock : last_busy2idletime p <= t;
    ag_open : w_open w = if w_status w =? ENGINE_IDLE then t - Z.max s (last_busy2idletime p) else 0;
    ag_quiet : engine_active p = 0 -> idle_time p = 0 /\ (w_status w = ENGINE_IDLE -> last_busy2idletime p <= s);
    ag_active : engine_active p <> 0 -> w_status w <> ENGINE_NONE }.

Lemma agrees_tick s t t' p w : agrees s t p w -> s <= t <= t' -> agrees s t' p (run_watch (t' - t) w).
Proof.
  intros [H1 H2 H3 H4 H5 H6 H7 H8 H9] Ht. unfold run_watch. revert H7.
  destruct (Z.eqb_spec (w_status w) ENGINE_IDLE) as [E|E]; intros H7; split; cbn; try done; try lia;
    destruct (Z.eqb_spec (w_status w) ENGINE_IDLE); try done; lia.
Qed.

Lemma add_idle_run s t p w : agrees s t p w -> 0 <= s -> t < 2 ^ 57 ->
  add_idle s t p = p <| idle_time := w_idle w + w_open w |>.
Proof.
  intros [H1 H2 H3 H4 H5 H6 H7 H8 H9] Hs Ht. unfold add_idle. rewrite H2. revert H7.
  destruct (Z.eqb_spec (w_status w) ENGINE_IDLE) as [E|E]; intros H7.
  - assert (Hm : (if last_busy2idletime p <? s then s else last_busy2idletime p) = Z.max s (last_busy2idletime p)) by
      (destruct (Z.ltb_spec (last_busy2idletime p) s); lia).
    rewrite Hm. assert (E1 : u64 (t - Z.max s (last_busy2idletime p)) = t - Z.max s (last_busy2idletime p)) by (apply wrap_small; unfold fits; lia).
    rewrite E1. assert (E2 : u64 (idle_time p + (t - Z.max s (last_busy2idletime p))) = w_idle w + w_open w) by (rewrite wrap_small; [lia|unfold fits; lia]).
    by rewrite E2.
  - destruct p. cbn in *. f_equal. lia.
Qed.

Lemma agrees_submit s t f p w : agrees s t p w -> 0 <= s -> t < 2 ^ 57 ->
  agrees s t (submit_info s t f p) (at_submit f w).
Proof.
  intros H Hs Ht. unfold submit_info. rewrite (add_idle_run _ _ _ _ H Hs Ht). destruct H as [H1 H2 H3 H4 H5 H6 H7 H8 H9].
  split; cbn; try done; try lia; by right; right.
Qed.

Lemma agrees_complete s t f p w : agrees s t p w -> s <= t -> agrees s t (complete_info t f p) (at_complete f w).
Proof.
  intros [H1 H2 H3 H4 H5 H6 H7 H8 H9] Hst. unfold complete_info, at_complete. rewrite H1.
  destruct (w_fence w =? f); split; cbn; try done; try lia; try (by right; left); try (by right; right).
  change (ENGINE_IDLE =? ENGINE_IDLE) with true. cbn iota. lia.
Qed.

(** ** Lists *)

Definition all_agree (s t : Z) (l : list hwq_event_info) (ws : list watch) : Prop := Forall2 (agrees s t) l ws.

Lemma all_rd s t l ws e : all_agree s t l ws -> 0 <= e < zlen ws ->
  exists p w, rd l e = Ok p /\ rd ws e = Ok w /\ agrees s t p w.
Proof.
  intros H He. pose proof (Forall2_length _ _ _ H) as Hlen. destruct (rd_in l e) as [p Hp]; [unfold zlen in *; lia|].
  destruct (rd_in ws e) as [w Hw]; [done|]. exists p, w. split; [done|]. split; [done|].
  apply rd_inv in Hp as [_ Hp]. apply rd_inv in Hw as [_ Hw]. by eapply (Forall2_lookup_lr _ _ _ _ _ _ H).
Qed.

Lemma all_wr s t l ws e p p' w f : all_agree s t l ws -> rd l e = Ok p -> rd ws e = Ok w -> agrees s t p' (f w) ->
  exists l', wr l e p' = Ok l' /\ all_agree s t l' (alter f (Z.to_nat e) ws).
Proof.
  intros H Hp Hw Hf. rewrite wr_in by (by eapply rd_bound). eexists. split; [done|].
  apply rd_inv in Hw as [_ Hw]. rewrite list_insert_alter. apply Forall2_alter; [done|]. intros x y _ Hy _. by simplify_eq.
Qed.

Lemma all_tick s t t' l ws : all_agree s t l ws -> s <= t <= t' -> all_agree s t' l (run_watch (t' - t) <$> ws).
Proof. intros H Ht. apply Forall2_fmap_r. eapply Forall2_impl; [exact H|]. intros p w Hpw. by apply agrees_tick. Qed.

(** A loop over all elements that replaces each. *)
Lemma for_up_each {A} (f : A -> res A) l l' : Forall2 (fun p p' => f p = Ok p') l l' ->
  for_up (length l) 0 (fun i l => let! p := rd l i in let! p := f p in wr l i p) l = Ok l'.
Proof.
  intros H. pose proof (Forall2_length _ _ _ H) as Hlen.
  destruct (for_up_rule (fun j x => x = take (Z.to_nat j) l' ++ drop (Z.to_nat j) l) (length l) 0
    (fun i l => let! p := rd l i in let! p := f p in wr l i p) l) as (x & -> & ->).
  - intros j x Hj ->. set (n := Z.to_nat j). assert (Hn : (n < length l)%nat) by lia.
    destruct (lookup_lt_is_Some_2 l n Hn) as [p Hp]. destruct (lookup_lt_is_Some_2 l' n ltac:(lia)) as [p' Hp'].
    pose proof (Forall2_lookup_lr _ _ _ _ _ _ H Hp Hp') as Hf. cbn beta in Hf.
    assert (Ht : zlen (take n l') = j) by (unfold zlen; rewrite length_take; lia).
    rewrite (drop_S _ _ _ Hp). rewrite rd_app_r by lia. replace (j - zlen (take n l')) with 0 by lia. cbn [rbind].
    change (rd (p :: drop (S n) l) 0) with (Ok p). cbn [rbind]. rewrite Hf. cbn [rbind].
    rewrite wr_in by (rewrite zlen_app, zlen_cons; pose proof (zlen_nonneg (drop (S n) l)); lia). eexists. split; [done|].
    fold n. replace (Z.to_nat (j + 1)) with (S n) by lia. rewrite (take_S_r _ _ _ Hp').
    rewrite insert_app_r_alt by (rewrite length_take; lia). rewrite length_take. replace (n - min n (length l'))%nat with 0%nat by lia.
    cbn. by rewrite <- app_assoc.
  - by rewrite take_0, drop_0.
  - f_equal. rewrite Z.add_0_l, Nat2Z.id. rewrite take_ge by lia. rewrite drop_ge by lia. by rewrite app_nil_r.
Qed.

Lemma peak_snoc P l u : peak P (l ++ [u]) = Z.max (peak P l) (if P (zlen l) then u else 0).
Proof. unfold peak. rewrite imap_app, foldl_app. cbn. by rewrite Nat.add_0_r. Qed.

Lemma peak_nonneg P l : 0 <= peak P l.
Proof.
  induction l as [|u l IH] using rev_ind; [done|]. rewrite peak_snoc. lia.
Qed.

Lemma max_step (b : bool) m u : 0 <= m -> (if b && (m <? u) then u else m) = Z.max m (if b then u else 0).
Proof. intros Hm. destruct b; cbn; [|lia]. destruct (Z.ltb_spec m u); lia. Qed.

(** The loop of [perf_calculate_engine_usage_e3k]. *)
Lemma calculate_run c l : Forall (fun p => 0 <= engine_usage p <= 100) l ->
  for_up (length l) 0 (calculate_step c l) (mkUsage 0 0 0) =
    Ok (mkUsage (peak IS_3D_ENGINE (engine_usage <$> l)) (peak (IS_VCP_ENGINE c) (engine_usage <$> l)) (peak (IS_VPP_ENGINE c) (engine_usage <$> l))).
Proof.
  intros Hl.
  destruct (for_up_rule (fun j x => let us := engine_usage <$> take (Z.to_nat j) l in
    x = mkUsage (peak IS_3D_ENGINE us) (peak (IS_VCP_ENGINE c) us) (peak (IS_VPP_ENGINE c) us)) (length l) 0
    (calculate_step c l) (mkUsage 0 0 0)) as (x & -> & ->).
  - intros j x Hj Hx. cbv zeta in *. assert (Hn : (Z.to_nat j < length l)%nat) by lia. destruct (lookup_lt_is_Some_2 l _ Hn) as [p Hp].
    unfold calculate_step. assert (Hrd : rd l j = Ok p) by (unfold rd; destruct (Z.ltb_spec j 0); [lia|by rewrite Hp]). rewrite Hrd. cbn [rbind].
    eexists. split; [reflexivity|]. replace (Z.to_nat (j + 1)) with (S (Z.to_nat j)) by lia. rewrite (take_S_r _ _ _ Hp), fmap_app. cbn [fmap list_fmap].
    rewrite !peak_snoc. assert (Hz : zlen (engine_usage <$> take (Z.to_nat j) l) = j) by (unfold zlen; rewrite length_fmap, length_take; lia).
    rewrite Hz. set (us := engine_usage <$> take _ l) in *.
    assert (Hp100 : 0 <= engine_usage p <= 100) by (by eapply (Forall_lookup_1 _ _ _ _ Hl Hp)).
    rewrite (wrap_small 32 (engine_usage p)) by (unfold fits; lia). set (u := engine_usage p) in *.
    rewrite <- !max_step by apply peak_nonneg. rewrite Hx. destruct (IS_3D_ENGINE j && _), (IS_VCP_ENGINE c j && _) eqn:E2, (IS_VPP_ENGINE c j && _) eqn:E3;
      cbn; rewrite ?E2, ?E3; done.
  - done.
  - by rewrite Z.add_0_l, Nat2Z.id, take_ge.
Qed.

(** ** The vertical sync *)

(** [do_div] as the kernel documents it. *)
Definition divides (do_div : Z -> Z -> res Z) : Prop :=
  forall n base, 0 <= n < 2 ^ 64 -> 0 < base < 2 ^ 32 -> do_div n base = Ok (n / base).

Section vsync.
Context (do_div : Z -> Z -> res Z) (Hdiv : divides do_div).

Lemma sample_run s t p w : agrees s t p w -> 0 <= s -> t < 2 ^ 57 -> 0 < t - s < 2 ^ 32 ->
  exists p', sample_info do_div s t p = Ok p' /\ agrees t t p' (at_sync w) /\
    engine_usage p' = usage_of (t - s) w /\ 0 <= usage_of (t - s) w <= 100.
Proof.
  intros H Hs Ht Hd. set (d := w_idle w + w_open w). assert (Hq : 0 <= d * 100 / (t - s) <= 100).
  { destruct H as [_ _ _ H4 H5 _ _ _ _]. split; [apply Z.div_pos; lia|]. apply Z.div_le_upper_bound; lia. }
  assert (Hu : 0 <= usage_of (t - s) w <= 100) by (unfold usage_of; fold d; destruct (_ =? _); lia).
  unfold sample_info. destruct (Z.eqb_spec (engine_active p) 0) as [Ha|Ha].
  - destruct H as [H1 H2 H3 H4 H5 H6 H7 H8 H9]. destruct (H8 Ha) as [Hi Hl].
    rewrite H2. unfold usage_of, at_sync in *. fold d in Hu |- *. revert H7. clear Hq. destruct H3 as [E|[E|E]]; rewrite E in *; states; cbn [orb]; intros H7;
      eexists; (split; [reflexivity|]).
    + split; [split; cbn; rewrite ?H2, ?E; states; try done; try lia; by left|done].
    + specialize (Hl eq_refl). assert (Hw : d = t - s) by (unfold d; lia). rewrite Hw in Hu |- *. rewrite Z.mul_comm, Z.div_mul in Hu |- * by lia.
      split; [split; cbn; rewrite ?H2, ?E; states; try done; try lia; by right; left|done].
    + assert (Hw : d = 0) by (unfold d; lia). rewrite Hw in Hu |- *.
      split; [split; cbn; rewrite ?H2, ?E; states; try done; try lia; by right; right|done].
  - rewrite (add_idle_run _ _ _ _ H Hs Ht). fold d. destruct H as [H1 H2 H3 H4 H5 H6 H7 H8 H9]. cbn.
    rewrite (wrap_small 64 (d * 100)), (wrap_small 64 (t - s)) by (unfold fits, d; lia). unfold zx_do_div. rewrite Hdiv by (unfold d; lia). cbn [rbind].
    eexists. split; [reflexivity|]. cbn. rewrite wrap_small by (unfold fits; lia). unfold usage_of in *. specialize (H9 Ha). fold d in Hu |- *.
    destruct (Z.eqb_spec (w_status w) ENGINE_NONE); [done|]. split; [|done]. unfold at_sync. split; cbn; try done; try lia.
    destruct (w_status w =? ENGINE_IDLE); lia.
Qed.

Lemma samples_run s t l ws : all_agree s t l ws -> 0 <= s -> t < 2 ^ 57 -> 0 < t - s < 2 ^ 32 ->
  exists l', for_up (length l) 0 (sample_step do_div s t) l = Ok l' /\
    all_agree t t l' (at_sync <$> ws) /\
    engine_usage <$> l' = usage_of (t - s) <$> ws /\ Forall (fun p => 0 <= engine_usage p <= 100) l'.
Proof.
  intros H Hs Ht Hd. enough (Hl : exists l', Forall2 (fun p p' => sample_info do_div s t p = Ok p') l l' /\
    all_agree t t l' (at_sync <$> ws) /\ engine_usage <$> l' = usage_of (t - s) <$> ws /\
    Forall (fun p => 0 <= engine_usage p <= 100) l').
  { destruct Hl as (l' & Hl & H'). exists l'. split; [by apply (for_up_each (sample_info do_div s t))|done]. }
  induction H as [|p w l ws Hp H IH]; [exists []; by conjs; constructor|]. destruct IH as (l' & H1 & H2 & H3 & H4).
  destruct (sample_run s t p w Hp Hs Ht Hd) as (p' & Hrun & Hag & Hus & Hb). exists (p' :: l'). conjs.
  - by constructor.
  - by constructor.
  - cbn. by rewrite Hus, H3.
  - constructor; [by rewrite Hus|done].
Qed.

(** ** The adapter *)

Definition run_hwq_op (o : hwq_op) (ad : adapter) : res (Z * adapter) :=
  match o with
  | Submit t f e => hwq_process_submit_event t f e ad
  | Complete t f e => hwq_process_complete_event t f e ad
  | Vsync t now => hwq_process_vsync_event do_div t now ad
  end.

(** The adapter reports what the stopwatches say. *)
Record hwq_ok (S : stats) (ad : adapter) : Prop :=
  { hwq_enabled : hwq_event_enable ad = true;
    hwq_started_mgr : exists m, hwq_mgr ad = Some m /\ hwq_started m = true /\ start_time m = begun S /\
      all_agree (begun S) (clock S) (hwq_event m) (watches S) /\ engine_usage <$> hwq_event m = reported S /\
      zlen (hwq_event m) = active_engine_count ad;
    hwq_times : 0 <= begun S <= clock S;
    hwq_3d : usage_3d ad = peak IS_3D_ENGINE (reported S);
    hwq_vcp : usage_vcp ad = peak (IS_VCP_ENGINE (chip_id ad)) (reported S);
    hwq_vpp : usage_vpp ad = peak (IS_VPP_ENGINE (chip_id ad)) (reported S);
    hwq_percent : Forall (fun u => 0 <= u <= 100) (reported S) }.

Lemma usage_complete t f p : engine_usage (complete_info t f p) = engine_usage p.
Proof. unfold complete_info. by destruct (_ =? _). Qed.
Lemma usage_submit s t f p : engine_usage (submit_info s t f p) = engine_usage p.
Proof. unfold submit_info, add_idle. by destruct (_ =? _). Qed.

Lemma usage_wr l e p p' l' : rd l e = Ok p -> wr l e p' = Ok l' -> engine_usage p' = engine_usage p ->
  engine_usage <$> l' = engine_usage <$> l.
Proof.
  intros Hp Hw Hu. rewrite wr_in in Hw by (by eapply rd_bound). injection Hw as <-. apply rd_inv in Hp as [_ Hp].
  rewrite list_fmap_insert, Hu. apply list_insert_id. by rewrite list_lookup_fmap, Hp.
Qed.

Lemma hwq_op_ok o S ad : hwq_ok S ad -> hwq_allowed o S -> exists ad', run_hwq_op o ad = Ok (0, ad') /\ hwq_ok (stats_step o S) ad'.
Proof.
  intros [Hen (m & Hm & Hst & Hs & Hall & Hrep & Hlen) Ht H3d Hvcp Hvpp Hpc] [Htime Ho].
  pose proof (all_tick _ _ (op_time o) _ _ Hall ltac:(lia)) as Hall'. set (S1 := tick (op_time o) S).
  destruct o as [t f e|t f e|t now]; cbn [op_time run_hwq_op stats_step] in *.
  - unfold hwq_process_submit_event. rewrite Hm. cbn [deref rbind]. rewrite Hst. cbn [negb].
    destruct (all_rd _ _ _ _ e Hall') as (p & w & Hp & Hw & Hpw); [by unfold zlen; rewrite length_fmap|]. rewrite Hp. cbn [rbind]. rewrite Hs.
    destruct (all_wr _ _ _ _ _ _ _ _ (at_submit f) Hall' Hp Hw
      (agrees_submit _ _ f _ _ Hpw ltac:(lia) ltac:(lia))) as (l' & Hl' & Hall2). rewrite Hl'. cbn [rbind]. eexists. split; [reflexivity|].
    split; cbn; try done; try lia. eexists. split; [reflexivity|]. cbn. conjs; try done.
    + by rewrite (usage_wr _ _ _ _ _ Hp Hl' (usage_submit _ _ _ _)).
    + apply wr_inv in Hl' as (_ & -> & _) || rewrite wr_in in Hl' by (by eapply rd_bound). injection Hl' as <-. by rewrite zlen_insert.
  - unfold hwq_process_complete_event. rewrite Hm. cbn [deref rbind]. rewrite Hst. cbn [negb].
    destruct (all_rd _ _ _ _ e Hall') as (p & w & Hp & Hw & Hpw); [by unfold zlen; rewrite length_fmap|]. rewrite Hp. cbn [rbind].
    destruct (all_wr _ _ _ _ _ _ _ _ (at_complete f) Hall' Hp Hw
      (agrees_complete _ _ f _ _ Hpw ltac:(lia))) as (l' & Hl' & Hall2). rewrite Hl'. cbn [rbind]. eexists. split; [reflexivity|].
    split; cbn; try done; try lia. eexists. split; [reflexivity|]. cbn. conjs; try done.
    + by rewrite (usage_wr _ _ _ _ _ Hp Hl' (usage_complete _ _ _)).
    + rewrite wr_in in Hl' by (by eapply rd_bound). injection Hl' as <-. by rewrite zlen_insert.
  - unfold hwq_process_vsync_event, hwq_get_hwq_info. rewrite Hen, Hm, Hst. cbn. rewrite Hst. cbn. rewrite Hs.
    rewrite wrap_small by (unfold fits; lia). destruct (Z.ltb_spec (t - begun S) 1000000000) as [Hshort|Hlong].
    + eexists. split; [reflexivity|]. split; cbn; try done; try lia. eexists. split; [reflexivity|]. cbn. by conjs.
    + rewrite <- Hlen. unfold zlen. rewrite Nat2Z.id.
      destruct (samples_run _ _ _ _ Hall') as (l' & Hl' & Hall2 & Hus & Hpct); [lia..|]. rewrite Hl'. cbn [rbind].
      unfold perf_calculate_engine_usage_e3k. cbn.
      assert (Hll : length l' = length (hwq_event m)).
      { pose proof (Forall2_length _ _ _ Hall2) as E1. pose proof (Forall2_length _ _ _ Hall') as E2. rewrite length_fmap in E1. congruence. }
      rewrite <- Hll. rewrite calculate_run by done. cbn. eexists. split; [reflexivity|].
      split; cbn; try done; try lia; rewrite ?Hus; try done.
      * eexists. split; [reflexivity|]. cbn. by conjs.
      * rewrite <- Hus. by apply Forall_fmap.
Qed.
End vsync.

(** ** Sequences of events *)

Fixpoint run_hwq_ops (do_div : Z -> Z -> res Z) (ops : list hwq_op) (ad : adapter) : res adapter :=
  match ops with [] => Ok ad | o :: ops => let! '(_, ad) := run_hwq_op do_div o ad in run_hwq_ops do_div ops ad end.
Definition run_stats (ops : list hwq_op) (S : stats) : stats := foldl (fun S o => stats_step o S) S ops.
Fixpoint hwq_allowed_all (ops : list hwq_op) (S : stats) : Prop :=
  match ops with [] => True | o :: ops => hwq_allowed o S /\ hwq_allowed_all ops (stats_step o S) end.

Lemma hwq_ops_run do_div ops : divides do_div -> forall S ad, hwq_ok S ad -> hwq_allowed_all ops S ->
  exists ad', run_hwq_ops do_div ops ad = Ok ad' /\ hwq_ok (run_stats ops S) ad'.
Proof.
  intros Hdiv. induction ops as [|o ops IH]; intros S ad Hok Hall; cbn [run_hwq_ops run_stats foldl]; [by exists ad|].
  destruct Hall as [Ho Hall]. destruct (hwq_op_ok do_div Hdiv o S ad Hok Ho) as (ad1 & -> & Hok1). cbn [rbind]. by apply IH.
Qed.

(** All engines before their first event, and no window yet. *)
Definition first_stats (now : Z) (n : nat) : stats := mkStats now now (replicate n (mkWatch 0 ENGINE_NONE 0 0)) (replicate n 0).

Lemma peak_zeros P n : peak P (replicate n 0) = 0.
Proof.
  induction n as [|n IH]; [done|]. rewrite replicate_S_end, peak_snoc, IH. by destruct (P _).
Qed.

Lemma hwq_start now info ad : hwq_event_enable ad = true -> 0 <= active_engine_count ad -> 0 <= now ->
  hwq_ok (first_stats now (Z.to_nat (active_engine_count ad))) (hwq_get_hwq_info now info (gfx_hwq_event_init ad)).2.
Proof.
  intros Hen Hn Hnow. unfold hwq_get_hwq_info. cbn. rewrite Hen. cbn. split; cbn -[peak]; rewrite ?peak_zeros; try done; try lia.
  - eexists. split; [reflexivity|]. cbn. conjs; try done.
    + apply Forall2_replicate. split; cbn; try done; try lia; by left.
    + by rewrite fmap_replicate.
    + rewrite zlen_replicate. lia.
  - by apply Forall_replicate.
Qed.

(** ** Claims *)

(** C20. For any sequence of submissions, completions and vertical syncs after the start
    of the statistics, as long as time does not go back (and is below 2^57 nanoseconds, four
    years), the events are of engines that there are and the syncs keep each window
    shorter than 2^32 nanoseconds (4.29 seconds; [long_window] is what happens
    otherwise), the percentages of the last window that
    the code has computed are those of stopwatches that run while an engine is idle: 100
    less the share of the window that the engine was idle, 0 for an engine without any
    event; an idle period that ends with a completion instead of a submission is not
    counted. The adapter reports the largest percentage of each kind of engine, and all
    are between 0 and 100. *)
Theorem engine_usage_exact do_div now info ad ops : divides do_div ->
  hwq_event_enable ad = true -> 0 <= active_engine_count ad -> 0 <= now ->
  hwq_allowed_all ops (first_stats now (Z.to_nat (active_engine_count ad))) ->
  exists ad' m, run_hwq_ops do_div ops (hwq_get_hwq_info now info (gfx_hwq_event_init ad)).2 = Ok ad' /\ hwq_mgr ad' = Some m /\
    let S := run_stats ops (first_stats now (Z.to_nat (active_engine_count ad))) in
    start_time m = begun S /\ engine_usage <$> hwq_event m = reported S /\
    usage_3d ad' = peak IS_3D_ENGINE (reported S) /\ usage_vcp ad' = peak (IS_VCP_ENGINE (chip_id ad')) (reported S) /\
    usage_vpp ad' = peak (IS_VPP_ENGINE (chip_id ad')) (reported S) /\ Forall (fun u => 0 <= u <= 100) (reported S).
Proof.
  intros Hdiv Hen Hn Hnow Hall. destruct (hwq_ops_run do_div ops Hdiv _ _ (hwq_start now info ad Hen Hn Hnow) Hall) as (ad' & Hrun & Hok).
  destruct (hwq_started_mgr _ _ Hok) as (m & Hm & _ & Hs & _ & Hr & _). exists ad', m. cbv zeta. destruct Hok. by conjs.
Qed.

(** ** Witnesses *)

(** [do_div] of a 64-bit kernel, which takes the low 32 bits of the divisor. *)
Definition kernel_do_div (n base : Z) : res Z := udiv n (u32 base).
Lemma kernel_divides : divides kernel_do_div.
Proof.
  intros n b _ Hb. unfold kernel_do_div, udiv. rewrite wrap_small by (unfold fits; lia). destruct (Z.eqb_spec b 0); [lia|done].
Qed.

Definition an_adapter : adapter := mkAdapter true None CHIP_CHX004 12 0 0 0.
(** Engine 0 is busy from 0.2 s to 0.7 s of 1 s, engine 7 all the time from 0.5 s on; at
    1.2 s engine 0 completes something that was not announced. *)
Definition usage_ops : list hwq_op :=
  [Submit 200000000 5 0; Submit 500000000 9 7; Complete 700000000 5 0; Vsync 1000000000 0; Complete 1200000000 5 0; Submit 1500000000 6 0; Vsync 2000000000 0].

Lemma engine_usage_exact_witness : exists ad' m,
  run_hwq_ops kernel_do_div usage_ops (hwq_get_hwq_info 0 (mkUsage 0 0 0) (gfx_hwq_event_init an_adapter)).2 = Ok ad' /\ hwq_mgr ad' = Some m /\
  let S := run_stats usage_ops (first_stats 0 (Z.to_nat (active_engine_count an_adapter))) in
  start_time m = begun S /\ engine_usage <$> hwq_event m = reported S /\
  usage_3d ad' = peak IS_3D_ENGINE (reported S) /\ usage_vcp ad' = peak (IS_VCP_ENGINE (chip_id ad')) (reported S) /\
  usage_vpp ad' = peak (IS_VPP_ENGINE (chip_id ad')) (reported S) /\ Forall (fun u => 0 <= u <= 100) (reported S).
Proof.
  apply (engine_usage_exact kernel_do_div 0 (mkUsage 0 0 0) an_adapter usage_ops); [apply kernel_divides|done|done|lia|].
  cbn [hwq_allowed_all usage_ops]. unfold hwq_allowed. conjs; by vm_compute.
Defined.

(** In the second window engine 0 was idle for 0.3 s, engine 7 busy. *)
Example usage_values : (reported (run_stats usage_ops (first_stats 0 12))) !! 0%nat = Some 70 /\
  (reported (run_stats usage_ops (first_stats 0 12))) !! 7%nat = Some 100.
Proof. by vm_compute. Qed.

(** A window of 5 s, longer than 2^32 nanoseconds, as when the display was off: an engine
    that was busy for a tenth of it is reported with 4294966758 per cent; a window of
    exactly 2^32 nanoseconds is a division by zero. *)
Lemma long_window :
  match run_hwq_ops kernel_do_div [Submit 0 1 0; Complete 500000000 1 0; Vsync 5000000000 0]
    (hwq_get_hwq_info 0 (mkUsage 0 0 0) (gfx_hwq_event_init an_adapter)).2 with Ok ad => usage_3d ad = 4294966758 | Err _ => False end /\
  run_hwq_ops kernel_do_div [Submit 0 1 0; Vsync (2 ^ 32) 0]
    (hwq_get_hwq_info 0 (mkUsage 0 0 0) (gfx_hwq_event_init an_adapter)).2 = Err DivByZero.
Proof. split; by vm_compute. Qed.
