(* ===== verification/Mode.v ===== *)
(** * Display modes

    [cbios/Display/CBiosMode.c] and the mode lists of [cbios/Device/CBiosDevice.c]:
    the order on the timings of a monitor, the list of modes made from them,
    the filter on what the chip, the port and the monitor can show, the default
    lists, and the way back from a mode to its timing. The pointer [pTiming]
    into the list of timings is an index. *)
From S2P Require Import Prelude CbUtil Timing TimingTables EdidTypes EdidTiming.
Local Open Scope Z_scope.

(** ** Data *)

(** [CBiosModeInfoExt]; the two low bits of [ModeFlags] are fields of their own. *)
Record CBiosModeInfoExt := mkMode {
  mode_Size : Z;
  mode_XRes : Z;
  mode_YRes : Z;
  mode_RefreshRate : Z;
  mode_ColorDepthCaps : Z;
  mode_XTotal : Z;
  mode_YTotal : Z;
  mode_PixelClock : Z;
  isPreferredMode : Z;
  isInterlaceMode : Z
}.

#[export] Instance eta_mkMode : Eta CBiosModeInfoExt := fun r =>
  mkMode (mode_Size r) (mode_XRes r) (mode_YRes r) (mode_RefreshRate r) (mode_ColorDepthCaps r)
    (mode_XTotal r) (mode_YTotal r) (mode_PixelClock r) (isPreferredMode r) (isInterlaceMode r).

#[export] Instance mkMode_eq_dec : EqDecision CBiosModeInfoExt.
Proof. solve_decision. Defined.

(** [sizeof(CBiosModeInfoExt)]: nine words. *)
Definition MODE_INFO_EXT_SIZE : Z := 36.

Definition zero_mode : CBiosModeInfoExt := mkMode 0 0 0 0 0 0 0 0 0 0.

Definition CBIOS_COLORDEPTH8 : Z := 0x04.
Definition DEVICE_MODE_DEPTH_CAPS : Z :=
  fold_right Z.lor 0 [0x02; 0x80; 0x01; 0x08; 0x10; 0x20; 0x40].
Definition MODE_COLOR_DEPTH_CAPS : Z := Z.lor CBIOS_COLORDEPTH8 DEVICE_MODE_DEPTH_CAPS.

(** [CBIOS_ACTIVE_TYPE], [CBIOS_MONITOR_TYPE], [CHIPID_HW], [CBIOS_CONNECTOR_TYPE],
    the output signals and [CBIOS_STATUS], as far as the file names them. *)
Definition CBIOS_TYPE_DP1 : Z := 0x8000.
Definition CBIOS_TYPE_DP2 : Z := 0x10000.
Definition CBIOS_TYPE_DP3 : Z := 0x20000.
Definition CBIOS_TYPE_DP4 : Z := 0x40000.
Definition ALL_DP_TYPES : Z :=
  Z.lor CBIOS_TYPE_DP1 (Z.lor CBIOS_TYPE_DP2 (Z.lor CBIOS_TYPE_DP3 CBIOS_TYPE_DP4)).
Definition CBIOS_MONITOR_TYPE_CRT : Z := 0x01.
Definition CBIOS_MONITOR_TYPE_PANEL : Z := 0x08.
Definition CBIOS_MONITOR_TYPE_DVI : Z := 0x10.
Definition CBIOS_MONITOR_TYPE_HDMI : Z := 0x20.
Definition CBIOS_MONITOR_TYPE_DP : Z := 0x40.
Definition CBIOS_MONITOR_TYPE_MHL : Z := 0x80.
Definition CHIPID_CHX004 : Z := 27.
Definition CBIOS_DP_CONN : Z := 0x04.
Definition CBIOS_RGBOUTPUT : Z := 1.
Definition CBIOS_YCBCR422OUTPUT : Z := 2.
Definition CBIOS_YCBCR444OUTPUT : Z := 4.
Definition CBIOS_YCBCR420OUTPUT : Z := 8.
Inductive CBIOS_STATUS : Set := CBIOS_OK | CBIOS_ER_INVALID_PARAMETER | CBIOS_ER_NULLPOINTER.

(** [CBIOS_DP_MONITOR_CONTEXT]: what bounds the pixel clock of a link. *)
Inductive CBIOS_DP_USB_MODE : Set := CBIOS_DP_STANDARD | CBIOS_DP_ALTMODE | CBIOS_DP_TUNNEL.

Record CBIOS_DP_MONITOR_CONTEXT := mkDpMonitor {
  SinkMaxLaneCount : Z;
  SinkMaxLinkSpeed : Z;
  dp_bpc : Z;
  DpUsbMode : CBIOS_DP_USB_MODE;
  AltMaxLaneCount : Z;
  LttprCount : Z;
  LttprMaxLaneCount : Z;
  LttprMaxLinkRate : Z
}.

(** The mode list of [CBIOS_DEVICE_COMMON]; [ModeAllocs] counts the requests
    made to the memory pool for it. *)
Record mode_list := mkModeList {
  pDeviceModeList : option (list CBiosModeInfoExt);
  ModeListArraySize : Z;
  ValidModeNum : Z;
  ModeAllocs : nat
}.

#[export] Instance eta_mkModeList : Eta mode_list := fun r =>
  mkModeList (pDeviceModeList r) (ModeListArraySize r) (ValidModeNum r) (ModeAllocs r).

(** [CBIOS_DEVICE_COMMON]; [DPMonitorContext] is the one of the port that
    contains it. *)
Record CBIOS_DEVICE_COMMON := mkDevice {
  DeviceType : Z;
  SupportMonitorType : Z;
  CurrentMonitorType : Z;
  EdidStruct : CBIOS_EDID_STRUCTURE_DATA;
  ModeList : mode_list;
  DPMonitorContext : CBIOS_DP_MONITOR_CONTEXT
}.

#[export] Instance eta_mkDevice : Eta CBIOS_DEVICE_COMMON := fun r =>
  mkDevice (DeviceType r) (SupportMonitorType r) (CurrentMonitorType r) (EdidStruct r) (ModeList r)
    (DPMonitorContext r).

(** The fields of [CBIOS_EXTENSION_COMMON] the modes depend on. *)
Record CBIOS_EXTENSION_COMMON := mkExtension {
  ChipID : Z;
  SVID : Z;
  SSID : Z;
  SysBios_Version : Z;
  FBSize : Z;
  SnoopOnly : Z;
  Dp1PortConnType : Z;
  Dp2PortConnType : Z;
  Dp3PortConnType : Z;
  ulMaxHDMIClock : Z;
  ulMaxMHLClock : Z;
  ulMaxIGAClock : Z
}.

(** [CBIOS_MODE_FILTER_PARA] and [CBIOS_MODE_TARGET_PARA]. *)
Record CBIOS_MODE_FILTER_PARA := mkFilter { bFilterInterlace : bool; MaxDclk : Z }.

Record CBIOS_MODE_TARGET_PARA := mkTarget {
  tgt_XRes : Z;
  tgt_YRes : Z;
  tgt_RefRate : Z;
  tgt_bInterlace : Z;
  tgt_XTotal : Z;
  tgt_YTotal : Z;
  tgt_PixelClock : Z
}.

(** ** Tables of modes *)

Definition table_mode (x y rr xt yt clk pref : Z) : CBiosModeInfoExt :=
  mkMode MODE_INFO_EXT_SIZE x y rr MODE_COLOR_DEPTH_CAPS xt yt clk pref 0.

Definition AdapterModeList : list CBiosModeInfoExt :=
  [table_mode 640 480 6000 800 525 251750 0; table_mode 800 600 6000 1056 628 400000 0;
   table_mode 1024 768 6000 1344 806 650000 0; table_mode 1280 720 6000 1650 750 742500 0;
   table_mode 1280 800 6000 1680 831 835000 0; table_mode 1280 1024 6000 1688 1066 1080000 0;
   table_mode 1440 900 6000 1904 934 1065000 0; table_mode 1680 1050 6000 2240 1089 1462500 0;
   table_mode 1920 1080 6000 2200 1125 1485000 0].

Definition DP_DefaultModeList : list CBiosModeInfoExt :=
  [table_mode 640 480 6000 800 525 251750 0; table_mode 1280 720 5000 1980 750 742500 0;
   table_mode 1280 720 5994 1650 750 742500 0; table_mode 1280 720 6000 1650 750 742500 0;
   table_mode 1920 1080 5994 2200 1125 1485000 0; table_mode 1920 1080 6000 2200 1125 1485000 1].

Definition Device_DefaultModeList : list CBiosModeInfoExt :=
  [table_mode 640 480 6000 800 525 251750 0; table_mode 800 600 6000 1056 628 400000 0;
   table_mode 1024 768 6000 1344 806 650000 0; table_mode 1280 1024 6000 1688 1066 1080000 0;
   table_mode 1920 1080 6000 2200 1125 1485000 1].

(** ** Comparing timings *)

(** [(a > b) ? (1 << k) : 0] or-ed into a priority. *)
Definition prio (p : Z) (c : bool) (k : Z) : Z := u8 (Z.lor p (if c then Z.shiftl 1 k else 0)).

Definition cbMode_CompareMode (pMode1 pMode2 : CBIOS_DEVICE_TIMING_INFO) : Z :=
  let t1 := FullTiming pMode1 in
  let t2 := FullTiming pMode2 in
  let pref1 := negb (IsPreferMode pMode1 =? 0) in
  let pref2 := negb (IsPreferMode pMode2 =? 0) in
  let il1 := negb (IsInterLaced pMode1 =? 0) in
  let il2 := negb (IsInterLaced pMode2 =? 0) in
  let Priority1 := prio 0 (XRes t2 <? XRes t1) 7 in
  let Priority2 := prio 0 (XRes t1 <? XRes t2) 7 in
  let Priority1 := prio Priority1 (YRes t2 <? YRes t1) 6 in
  let Priority2 := prio Priority2 (YRes t1 <? YRes t2) 6 in
  let Priority1 := prio Priority1 (RefreshRate t2 <? RefreshRate t1) 5 in
  let Priority2 := prio Priority2 (RefreshRate t1 <? RefreshRate t2) 5 in
  let Priority1 := prio Priority1 (pref1 && negb pref2) 4 in
  let Priority2 := prio Priority2 (pref2 && negb pref1) 4 in
  let Priority1 := prio Priority1 (negb il1 && il2) 3 in
  let Priority2 := prio Priority2 (negb il2 && il1) 3 in
  let Priority1 := prio Priority1 (PixelClock t2 <? PixelClock t1) 2 in
  let Priority2 := prio Priority2 (PixelClock t1 <? PixelClock t2) 2 in
  if (Z.lor Priority1 (Z.shiftl 1 4) =? Z.lor Priority2 (Z.shiftl 1 4)) || (Priority1 =? Priority2)
  then 0
  else if Priority2 <? Priority1 then 1
  else -1.

(** ** Adding a mode to the list *)

(** The test of the loop of [cbMode_AddMode]. *)
Definition same_mode (m1 m2 : CBiosModeInfoExt) : bool :=
  (mode_XRes m1 =? mode_XRes m2) && (mode_YRes m1 =? mode_YRes m2) &&
  (mode_PixelClock m1 =? mode_PixelClock m2) && (mode_XTotal m1 =? mode_XTotal m2) &&
  (mode_YTotal m1 =? mode_YTotal m2) && (isInterlaceMode m1 =? isInterlaceMode m2).

(** An array of [n] modes from the pool: the size handed to it is 32 bits wide. *)
Definition alloc_modes (n : Z) : list CBiosModeInfoExt :=
  replicate (Z.to_nat (u32 (n * MODE_INFO_EXT_SIZE) / MODE_INFO_EXT_SIZE)) zero_mode.

Definition cbMode_GetDefaultModeList (pModeList : option (list CBiosModeInfoExt)) (Device : Z)
  : res (Z * option (list CBiosModeInfoExt)) :=
  let table :=
    if (Device =? CBIOS_TYPE_DP1) || (Device =? CBIOS_TYPE_DP2) || (Device =? CBIOS_TYPE_DP3) ||
       (Device =? CBIOS_TYPE_DP4)
    then DP_DefaultModeList else Device_DefaultModeList in
  match pModeList with
  | None => Ok (zlen table, None)
  | Some l => let! l := memcpy l 0 table 0 (zlen table) in Ok (zlen table, Some l)
  end.

Definition cbMode_GetAdapterModeNum : Z := zlen AdapterModeList.

(** [pModeList] is the caller's array, one entry per 36 bytes; the result is
    the status, the array and [*pBufferSize]. The tail of the buffer that holds
    no whole entry is cleared with it. *)
Definition cbMode_FillAdapterModeList (pModeList : option (list CBiosModeInfoExt)) (pBufferSize : Z)
  : res (CBIOS_STATUS * option (list CBiosModeInfoExt) * Z) :=
  let InputNum := pBufferSize / MODE_INFO_EXT_SIZE in
  let CopyNum := if InputNum <? zlen AdapterModeList then InputNum else zlen AdapterModeList in
  match pModeList with
  | None => Ok (CBIOS_ER_NULLPOINTER, None, pBufferSize)
  | Some l =>
      let! l := memset l 0 zero_mode InputNum in
      let! l := memcpy l 0 AdapterModeList 0 CopyNum in
      Ok (CBIOS_OK, Some l, u32 (CopyNum * MODE_INFO_EXT_SIZE))
  end.

(** [cbDevGetDeviceModeList] and [cbDevGetDeviceModeListBufferSize]: the status,
    the array and [*pBufferSize]. *)
Definition cbDevGetDeviceModeList (dev : CBIOS_DEVICE_COMMON)
    (pModeList : option (list CBiosModeInfoExt)) (pBufferSize : Z)
  : res (CBIOS_STATUS * option (list CBiosModeInfoExt) * Z) :=
  match pModeList with
  | None => Ok (CBIOS_ER_INVALID_PARAMETER, None, 0)
  | Some l =>
      if pBufferSize <? MODE_INFO_EXT_SIZE then Ok (CBIOS_ER_INVALID_PARAMETER, Some l, 0)
      else
        let room := pBufferSize / MODE_INFO_EXT_SIZE in
        let default :=
          let! '(n, _) := cbMode_GetDefaultModeList None (DeviceType dev) in
          if n <=? room then
            let! '(_, l) := cbMode_GetDefaultModeList (Some l) (DeviceType dev) in Ok (n, l)
          else Ok (0, Some l) in
        let! '(ulModeNum, l) :=
          match pDeviceModeList (ModeList dev) with
          | Some modes =>
              if ValidModeNum (ModeList dev) =? 0 then default
              else
                let n := Z.min (ValidModeNum (ModeList dev)) room in
                let! l := memcpy l 0 modes 0 n in Ok (n, Some l)
          | None => default
          end in
        Ok (CBIOS_OK, l, u32 (ulModeNum * MODE_INFO_EXT_SIZE))
  end.

Definition cbDevGetDeviceModeListBufferSize (dev : CBIOS_DEVICE_COMMON) : res Z :=
  let! ulNumOfMode :=
    if ValidModeNum (ModeList dev) =? 0 then
      let! '(n, _) := cbMode_GetDefaultModeList None (DeviceType dev) in Ok n
    else Ok (ValidModeNum (ModeList dev)) in
  Ok (u32 (ulNumOfMode * MODE_INFO_EXT_SIZE)).

(** ** The filter *)

Definition cbGetDPMonitorContext (dev : CBIOS_DEVICE_COMMON) : option CBIOS_DP_MONITOR_CONTEXT :=
  if negb (Z.land (DeviceType dev) ALL_DP_TYPES =? 0) &&
     negb (Z.land (SupportMonitorType dev) (Z.lor CBIOS_MONITOR_TYPE_DP CBIOS_MONITOR_TYPE_PANEL) =? 0)
  then Some (DPMonitorContext dev) else None.

Definition DP_Default_bpc : Z := 8.

Definition cbDPMonitor_GetMaxSupportedDclk (ctx : option CBIOS_DP_MONITOR_CONTEXT) : res Z :=
  match ctx with
  | None => Ok 0
  | Some c =>
      let MaxLinkSpeed := SinkMaxLinkSpeed c in
      let MaxLaneCount := SinkMaxLaneCount c in
      let '(MaxLaneCount, MaxLinkSpeed) :=
        match DpUsbMode c with
        | CBIOS_DP_ALTMODE =>
            (if AltMaxLaneCount c <? MaxLaneCount then AltMaxLaneCount c else MaxLaneCount, MaxLinkSpeed)
        | CBIOS_DP_TUNNEL =>
            if LttprCount c =? 0 then (MaxLaneCount, MaxLinkSpeed)
            else (if LttprMaxLaneCount c <? MaxLaneCount then LttprMaxLaneCount c else MaxLaneCount,
                  if LttprMaxLinkRate c <? MaxLinkSpeed then LttprMaxLinkRate c else MaxLinkSpeed)
        | CBIOS_DP_STANDARD => (MaxLaneCount, MaxLinkSpeed)
        end in
      let Bpc := if DP_Default_bpc <? dp_bpc c then DP_Default_bpc else dp_bpc c in
      let! q := udiv MaxLinkSpeed (u32 (Bpc * 3)) in
      Ok (u32 (u32 (q * MaxLaneCount) * 8))
  end.

Definition cbMode_GetFilterPara (pcbe : CBIOS_EXTENSION_COMMON) (dev : CBIOS_DEVICE_COMMON) (Device : Z)
  : res CBIOS_MODE_FILTER_PARA :=
  let MonitorType := CurrentMonitorType dev in
  let! Max :=
    if MonitorType =? CBIOS_MONITOR_TYPE_DVI then Ok 1650000
    else if MonitorType =? CBIOS_MONITOR_TYPE_HDMI then Ok (ulMaxHDMIClock pcbe)
    else if MonitorType =? CBIOS_MONITOR_TYPE_MHL then Ok (ulMaxMHLClock pcbe)
    else if (MonitorType =? CBIOS_MONITOR_TYPE_DP) || (MonitorType =? CBIOS_MONITOR_TYPE_PANEL)
    then cbDPMonitor_GetMaxSupportedDclk (cbGetDPMonitorContext dev)
    else if MonitorType =? CBIOS_MONITOR_TYPE_CRT then Ok 4000000
    else Ok 3300000 in
  let Max :=
    if (0x11 <=? SysBios_Version pcbe) &&
       (((Device =? CBIOS_TYPE_DP1) && (Dp1PortConnType pcbe =? CBIOS_DP_CONN)) ||
        ((Device =? CBIOS_TYPE_DP2) && (Dp2PortConnType pcbe =? CBIOS_DP_CONN)) ||
        ((Device =? CBIOS_TYPE_DP3) && (Dp3PortConnType pcbe =? CBIOS_DP_CONN))) &&
       (MonitorType =? CBIOS_MONITOR_TYPE_HDMI)
    then 3400000 else Max in
  let Max := if ulMaxIGAClock pcbe <? Max then ulMaxIGAClock pcbe else Max in
  let Max :=
    if (SVID pcbe =? 0x17AA) && (SSID pcbe =? 0x350B) && (Device =? CBIOS_TYPE_DP1)
    then 7000000 else Max in
  Ok (mkFilter true Max).

(** The largest mode of [cbMode_NeedFilterMode]: [MaxX], [MaxY] and [MaxRR]. *)
Definition max_mode (pcbe : CBIOS_EXTENSION_COMMON) (t : CBIOS_TIMING_ATTRIB) (Device MonitorType : Z)
  : Z * Z * Z :=
  let FbSize := Z.shiftl 1 (Z.land (FBSize pcbe) 0x0F) in
  let own := (XRes t, YRes t, RefreshRate t) in
  if FbSize <=? 64 then
    if MonitorType =? CBIOS_MONITOR_TYPE_PANEL then own else (1920, 1080, 6000)
  else if SnoopOnly pcbe =? 0 then
    let m :=
      if MonitorType =? CBIOS_MONITOR_TYPE_CRT then (2048, 1536, 8500)
      else if MonitorType =? CBIOS_MONITOR_TYPE_DVI then (1920, 1200, 6000)
      else (4096, 2160, 6000) in
    if (SVID pcbe =? 0x8888) && (SSID pcbe =? 0x00ED) && (Device =? CBIOS_TYPE_DP2) &&
       (MonitorType =? CBIOS_MONITOR_TYPE_DP)
    then (3840, 2160, 3000) else m
  else if MonitorType =? CBIOS_MONITOR_TYPE_PANEL then own
  else if 2 * 1024 <=? FbSize then (4096, 2160, 6000)
  else (1920, 1080, 6000).

Definition cbMode_NeedFilterMode (pcbe : CBIOS_EXTENSION_COMMON) (pMode : CBIOS_DEVICE_TIMING_INFO)
    (Device MonitorType : Z) (pFilter : CBIOS_MODE_FILTER_PARA) : bool :=
  let t := FullTiming pMode in
  if bFilterInterlace pFilter && negb (IsInterLaced pMode =? 0) then true
  else if MaxDclk pFilter <? PixelClock t then true
  else if CHIPID_CHX004 <=? ChipID pcbe then
    let '(MaxX, MaxY, MaxRR) := max_mode pcbe t Device MonitorType in
    if negb (MaxX =? 0) && negb (MaxY =? 0) && negb (MaxRR =? 0) then
      if (MaxX <? XRes t) || (MaxY <? YRes t) then true
      else (XRes t =? MaxX) && (YRes t =? MaxY) && (MaxRR <? RefreshRate t)
    else false
  else false.

(** ** Making the list *)

Section Pool.
(** Whether the [n]-th request for the mode list to the memory pool succeeds. *)
Variable pool : nat -> bool.

Definition cbMode_AddMode (dev : CBIOS_DEVICE_COMMON) (pMode : CBiosModeInfoExt)
  : res (bool * CBIOS_DEVICE_COMMON) :=
  let InitSize := TimingNum (EdidStruct dev) in
  let s := ModeList dev in
  let! found :=
    if ValidModeNum s =? 0 then Ok None
    else let! l := deref (pDeviceModeList s) in
         scan l (ValidModeNum s) (fun m => same_mode m pMode) in
  match found with
  | Some _ => Ok (true, dev)
  | None =>
      let s :=
        match pDeviceModeList s with
        | Some _ => s
        | None =>
            if pool (ModeAllocs s)
            then mkModeList (Some (alloc_modes InitSize)) InitSize 0 (S (ModeAllocs s))
            else mkModeList None 0 0 (S (ModeAllocs s))
        end in
      let! s :=
        match pDeviceModeList s with
        | Some l =>
            if ModeListArraySize s <=? ValidModeNum s then
              let NewSize := u32 (ModeListArraySize s + InitSize / 2) in
              if pool (ModeAllocs s) then
                let! pTempTable := memcpy (alloc_modes NewSize) 0 l 0 (ModeListArraySize s) in
                Ok (mkModeList (Some pTempTable) NewSize (ValidModeNum s) (S (ModeAllocs s)))
              else Ok (s <| ModeAllocs ::= S |>)
            else Ok s
        | None => Ok s
        end in
      match pDeviceModeList s with
      | Some l =>
          if ValidModeNum s <? ModeListArraySize s then
            let! l := wr l (ValidModeNum s) pMode in
            Ok (true, dev <| ModeList :=
                  s <| pDeviceModeList := Some l |> <| ValidModeNum := u32 (ValidModeNum s + 1) |> |>)
          else Ok (false, dev <| ModeList := s |>)
      | None => Ok (false, dev <| ModeList := s |>)
      end
  end.

(** [bCEA861Device] *)
Definition is_cea861 (s : CBIOS_EDID_STRUCTURE_DATA) : bool :=
  negb (get_cap (Attribute s) CAP_Monitor =? 0) || negb (get_cap (Attribute s) CAP_HDMI =? 0).

Definition cbMode_AddDeviceMode (dev : CBIOS_DEVICE_COMMON) (pDeviceMode : CBiosModeInfoExt)
    (pTiming : CBIOS_DEVICE_TIMING_INFO) : res (bool * CBIOS_DEVICE_COMMON) :=
  let VIC := FormatVIC (FullTiming pTiming) in
  let! eqvl :=
    if is_cea861 (EdidStruct dev) && negb (VIC =? 0)
    then cbEdidModule_IsEquivalentModeExist VIC else Ok None in
  match eqvl with
  | None => cbMode_AddMode dev pDeviceMode
  | Some (Refresh, PixelClock_) =>
      let EquivalentMode :=
        pDeviceMode <| mode_RefreshRate := Refresh |> <| mode_PixelClock := PixelClock_ |>
          <| isPreferredMode := 0 |> in
      if negb (isPreferredMode pDeviceMode =? 0) ||
         ((isPreferredMode pDeviceMode =? 0) && (Refresh <? mode_RefreshRate pDeviceMode))
      then
        let! '(bRet, dev) := cbMode_AddMode dev pDeviceMode in
        let! '(_, dev) := cbMode_AddMode dev EquivalentMode in
        Ok (bRet, dev)
      else
        let! '(_, dev) := cbMode_AddMode dev EquivalentMode in
        cbMode_AddMode dev pDeviceMode
  end.

(** [pDeviceTimingList[Index].Merged = v] *)
Definition set_merged (v Index : Z) (dev : CBIOS_DEVICE_COMMON) : res CBIOS_DEVICE_COMMON :=
  let! s := upd_timing (EdidStruct dev) Index (fun t => t <| Merged := v |>) in
  Ok (dev <| EdidStruct := s |>).

(** [pDeviceTimingList[Index]] *)
Definition timing_at (dev : CBIOS_DEVICE_COMMON) (Index : Z) : res CBIOS_DEVICE_TIMING_INFO :=
  let! l := deref (pDeviceTimingList (EdidStruct dev)) in rd l Index.

(** The inner loop of [cbMode_MakeDeviceModeList]: an iteration on the device
    and [pTiming]. *)
Definition select_step (Index : Z) (st : CBIOS_DEVICE_COMMON * option Z)
  : res (CBIOS_DEVICE_COMMON * option Z) :=
  let '(dev, pTiming) := st in
  let! t := timing_at dev Index in
  if negb (Merged t =? 0) then Ok (dev, pTiming)
  else
    match pTiming with
    | None => Ok (dev, Some Index)
    | Some p =>
        let! tp := timing_at dev p in
        let Ret := cbMode_CompareMode t tp in
        if 0 <? Ret then Ok (dev, Some Index)
        else if Ret =? 0 then
          if negb (IsPreferMode t =? 0) then
            let! dev := set_merged 1 p dev in Ok (dev, Some Index)
          else
            let! dev := set_merged 1 Index dev in Ok (dev, Some p)
        else Ok (dev, Some p)
    end.

(** The mode of a timing. *)
Definition mode_of (t : CBIOS_DEVICE_TIMING_INFO) (pref : bool) : CBiosModeInfoExt :=
  let f := FullTiming t in
  mkMode 0 (XRes f) (YRes f) (RefreshRate f) DEVICE_MODE_DEPTH_CAPS (HorTotal f) (VerTotal f)
    (PixelClock f) (b2z pref) (IsInterLaced t).

(** The end of the loop body: report the selected timing, on the device and
    [bHasPrefer]. *)
Definition report_timing (pcbe : CBIOS_EXTENSION_COMMON) (Device : Z) (Filter : CBIOS_MODE_FILTER_PARA)
    (pTiming : CBIOS_DEVICE_TIMING_INFO) (st : CBIOS_DEVICE_COMMON * bool)
  : res (CBIOS_DEVICE_COMMON * bool) :=
  let '(dev, bHasPrefer) := st in
  if cbMode_NeedFilterMode pcbe pTiming Device (CurrentMonitorType dev) Filter then Ok (dev, bHasPrefer)
  else
    let pref := negb (IsPreferMode pTiming =? 0) && negb bHasPrefer in
    let! '(_, dev) := cbMode_AddDeviceMode dev (mode_of pTiming pref) pTiming in
    Ok (dev, bHasPrefer || pref).

(** A round of [while(CBIOS_TRUE)]. *)
Definition make_round (pcbe : CBIOS_EXTENSION_COMMON) (Device : Z) (Filter : CBIOS_MODE_FILTER_PARA)
    (st : CBIOS_DEVICE_COMMON * bool)
  : res (CBIOS_DEVICE_COMMON * bool + CBIOS_DEVICE_COMMON * bool) :=
  let '(dev, bHasPrefer) := st in
  let! '(dev, pTiming) :=
    for_up (Z.to_nat (TimingNum (EdidStruct dev))) 0 select_step (dev, None) in
  match pTiming with
  | None => Ok (inr (dev, bHasPrefer))
  | Some p =>
      let! dev := set_merged 1 p dev in
      let! t := timing_at dev p in
      let! st := report_timing pcbe Device Filter t (dev, bHasPrefer) in
      Ok (inl st)
  end.

(** [cbMode_MakeDeviceModeList]: the number of modes and the device. *)
Definition cbMode_MakeDeviceModeList (pcbe : CBIOS_EXTENSION_COMMON) (dev : CBIOS_DEVICE_COMMON)
    (Device : Z) : res (Z * CBIOS_DEVICE_COMMON) :=
  let dev :=
    dev <| ModeList ::= fun s => mkModeList None 0 0 (ModeAllocs s) |> in
  let n := TimingNum (EdidStruct dev) in
  if n =? 0 then Ok (0, dev)
  else
    let! Filter := cbMode_GetFilterPara pcbe dev (DeviceType dev) in
    let! dev := for_up (Z.to_nat n) 0 (set_merged 0) dev in
    let! '(dev, bHasPrefer) :=
      iterate (S (Z.to_nat n)) (make_round pcbe Device Filter) (dev, false) in
    let! dev :=
      match pDeviceModeList (ModeList dev) with
      | Some l =>
          if bHasPrefer : bool then Ok dev
          else
            let! m := rd l 0 in
            let! l := wr l 0 (m <| isPreferredMode := 1 |>) in
            Ok (dev <| ModeList ::= fun s => s <| pDeviceModeList := Some l |> |>)
      | None => Ok dev
      end in
    Ok (ValidModeNum (ModeList dev), dev).

End Pool.

(** ** From a mode to its timing *)

(** An iteration of the search of [cbMode_GetHVTiming]: the state is [i] and
    [MatchIndex] with the rate and clock to fix, if any; the loop leaves with
    the match. *)
Definition hv_match (s : CBIOS_EDID_STRUCTURE_DATA) (l : list CBIOS_DEVICE_TIMING_INFO)
    (tgt : CBIOS_MODE_TARGET_PARA) (st : Z * option (Z * option (Z * Z)))
  : res (Z * option (Z * option (Z * Z)) + option (Z * option (Z * Z))) :=
  let '(i, m) := st in
  if i <? TimingNum s then
    let! t := rd l i in
    let f := FullTiming t in
    if (XRes f =? tgt_XRes tgt) && (YRes f =? tgt_YRes tgt) && (HorTotal f =? tgt_XTotal tgt) &&
       (VerTotal f =? tgt_YTotal tgt) && eqb (negb (IsInterLaced t =? 0)) (negb (tgt_bInterlace tgt =? 0))
    then
      if PixelClock f / 10 =? tgt_PixelClock tgt / 10 then Ok (inr (Some (i, None)))
      else
        match m with
        | None =>
            if negb (FormatVIC f =? 0) && is_cea861 s then
              let! fix_ := cbEdidModule_IsRefreshInCEARange (u16 (tgt_RefRate tgt)) (FormatVIC f) in
              match fix_ with
              | Some rc => Ok (inl (i + 1, Some (i, Some rc)))
              | None => Ok (inl (i + 1, m))
              end
            else Ok (inl (i + 1, m))
        | Some _ => Ok (inl (i + 1, m))
        end
    else Ok (inl (i + 1, m))
  else Ok (inr m).

(** [cbMode_GetHVTiming]: the timing stored through [pTiming], [None] when the
    result is [CBIOS_FALSE]. *)
Definition cbMode_GetHVTiming (s : CBIOS_EDID_STRUCTURE_DATA) (tgt : CBIOS_MODE_TARGET_PARA)
  : res (option CBIOS_TIMING_ATTRIB) :=
  let! m :=
    match pDeviceTimingList s with
    | Some l =>
        if tgt_PixelClock tgt =? 0 then Ok None
        else iterate (S (Z.to_nat (TimingNum s))) (hv_match s l tgt) (0, None)
    | None => Ok None
    end in
  match m with
  | Some (i, fix_) =>
      let! l := deref (pDeviceTimingList s) in
      let! t := rd l i in
      Ok (Some (match fix_ with
                | Some (r, c) => (FullTiming t) <| RefreshRate := r |> <| PixelClock := c |>
                | None => FullTiming t
                end))
  | None =>
      let! r := cbEDIDModule_GetXYRTiming s (u16 (tgt_XRes tgt)) (u16 (tgt_YRes tgt))
                  (u16 (tgt_RefRate tgt)) in
      Ok (match r with
          | Some t => Some (if is_cea861 s then t else t <| FormatVIC := 0 |>)
          | None => None
          end)
  end.

(** The target [cbDevGetModeTiming] builds from a mode. *)
Definition target_of (m : CBiosModeInfoExt) : CBIOS_MODE_TARGET_PARA :=
  mkTarget (mode_XRes m) (mode_YRes m) (mode_RefreshRate m) (isInterlaceMode m) (mode_XTotal m)
    (mode_YTotal m) (mode_PixelClock m).

Definition cbMode_GetTimingSignal (pcbe : CBIOS_EXTENSION_COMMON) (s : CBIOS_EDID_STRUCTURE_DATA)
    (ReqSignal : Z) (pTiming : option CBIOS_TIMING_ATTRIB) : res Z :=
  let OutSignal := if ReqSignal =? 0 then CBIOS_RGBOUTPUT else ReqSignal in
  match pTiming, pDeviceTimingList s with
  | Some tm, Some l =>
      let! found := scan l (TimingNum s) (fun t =>
        if negb (FormatVIC tm =? 0) then FormatVIC (FullTiming t) =? FormatVIC tm
        else bool_decide (tm = FullTiming t)) in
      let! OutSignal :=
        match found with
        | Some i =>
            let! t := rd l i in
            Ok (if negb (IsSupportYCbCr420 t =? 0) && (IsSupportOtherFormats t =? 0)
                then CBIOS_YCBCR420OUTPUT
                else if (SVID pcbe =? 0x206E) && (SSID pcbe =? 0x1028) &&
                        (3840 <=? XRes tm) && (2160 <=? YRes tm) && (5900 <=? RefreshRate tm)
                then CBIOS_YCBCR420OUTPUT
                else if (OutSignal =? CBIOS_YCBCR420OUTPUT) && (IsSupportYCbCr420 t =? 0)
                then CBIOS_RGBOUTPUT else OutSignal)
        | None => Ok (if OutSignal =? CBIOS_YCBCR420OUTPUT then CBIOS_RGBOUTPUT else OutSignal)
        end in
      Ok (if ((OutSignal =? CBIOS_YCBCR422OUTPUT) && (get_cap (Attribute s) CAP_YCbCr422 =? 0)) ||
             ((OutSignal =? CBIOS_YCBCR444OUTPUT) && (get_cap (Attribute s) CAP_YCbCr444 =? 0))
          then CBIOS_RGBOUTPUT else OutSignal)
  | _, _ => Ok OutSignal
  end.
