(* ===== verification/ModeOrder.v ===== *)
(** * The order of the modes

    [cbMode_CompareMode] compares by resolution, rate, preference, scan and
    clock, but calls two timings equal when only the preference differs. The
    file relates it to a number, the [rank] of a timing. *)
From S2P Require Import Prelude CbUtil Timing EdidTypes EdidTiming Mode.
From stdpp Require Import list.
Local Open Scope Z_scope.

(** ** Ranks *)

Record timing_fits (t : CBIOS_DEVICE_TIMING_INFO) : Prop := {
  fits_x : fits 16 (XRes (FullTiming t));
  fits_y : fits 16 (YRes (FullTiming t));
  fits_rate : fits 16 (RefreshRate (FullTiming t));
  fits_clock : fits 32 (PixelClock (FullTiming t))
}.

Definition prefers (t : CBIOS_DEVICE_TIMING_INFO) : Z := b2z (negb (IsPreferMode t =? 0)).
Definition progressive (t : CBIOS_DEVICE_TIMING_INFO) : Z := b2z (IsInterLaced t =? 0).

(** The fields in the order of their weight, each a digit. *)
Definition rank (t : CBIOS_DEVICE_TIMING_INFO) : Z :=
  let f := FullTiming t in
  ((((XRes f * 2 ^ 16 + YRes f) * 2 ^ 16 + RefreshRate f) * 2 + prefers t) * 2 + progressive t) * 2 ^ 32
  + PixelClock f.

(** What a mode shows of a timing besides its preference. *)
Definition appearance (t : CBIOS_DEVICE_TIMING_INFO) : Z * Z * Z * Z * Z :=
  let f := FullTiming t in (XRes f, YRes f, RefreshRate f, progressive t, PixelClock f).

Definition then_by (c d : comparison) : comparison := match c with Eq => d | _ => c end.

Lemma compare_digits B a b a' b' :
  0 <= b < B -> 0 <= b' < B -> (a * B + b ?= a' * B + b') = then_by (a ?= a') (b ?= b').
Proof.
  intros Hb Hb'. destruct (Z.compare_spec a a') as [->|H|H]; cbn [then_by].
  - destruct (Z.compare_spec b b') as [->|H|H].
    + apply Z.compare_refl.
    + apply Z.compare_lt_iff. lia.
    + apply Z.compare_gt_iff. lia.
  - apply Z.compare_lt_iff. nia.
  - apply Z.compare_gt_iff. nia.
Qed.

Lemma rank_compare t1 t2 : timing_fits t1 -> timing_fits t2 ->
  (rank t1 ?= rank t2) =
  then_by (then_by (then_by (then_by (then_by (XRes (FullTiming t1) ?= XRes (FullTiming t2))
    (YRes (FullTiming t1) ?= YRes (FullTiming t2)))
    (RefreshRate (FullTiming t1) ?= RefreshRate (FullTiming t2)))
    (prefers t1 ?= prefers t2)) (progressive t1 ?= progressive t2))
    (PixelClock (FullTiming t1) ?= PixelClock (FullTiming t2)).
Proof.
  intros [] []. unfold rank, fits in *.
  assert (Hb : forall b, 0 <= b2z b < 2) by (intros []; cbn; lia).
  rewrite !compare_digits by (assumption || apply Hb). reflexivity.
Qed.

(** The priorities, as a function of the six comparisons. *)
Definition by_priority (c7 c6 c5 c4 c3 c2 : comparison) : Z :=
  let above c := match c with Gt => true | _ => false end in
  let below c := match c with Lt => true | _ => false end in
  let p sel := prio (prio (prio (prio (prio (prio 0 (sel c7) 7) (sel c6) 6) (sel c5) 5) (sel c4) 4)
                      (sel c3) 3) (sel c2) 2 in
  let Priority1 := p above in
  let Priority2 := p below in
  if (Z.lor Priority1 (Z.shiftl 1 4) =? Z.lor Priority2 (Z.shiftl 1 4)) || (Priority1 =? Priority2)
  then 0
  else if Priority2 <? Priority1 then 1
  else -1.

Lemma by_priority_spec c7 c6 c5 c4 c3 c2 :
  by_priority c7 c6 c5 c4 c3 c2 =
  match then_by (then_by (then_by (then_by c7 c6) c5) c3) c2 with
  | Eq => 0
  | _ => match then_by (then_by (then_by (then_by (then_by c7 c6) c5) c4) c3) c2 with
         | Gt => 1 | Eq => 0 | Lt => -1 end
  end.
Proof. destruct c7, c6, c5, c4, c3, c2; reflexivity. Qed.

Lemma ltb_above a b : (b <? a) = match a ?= b with Gt => true | _ => false end.
Proof. rewrite Z.compare_antisym. unfold Z.ltb. by destruct (b ?= a). Qed.

Lemma CompareMode_priority t1 t2 :
  cbMode_CompareMode t1 t2 =
  by_priority (XRes (FullTiming t1) ?= XRes (FullTiming t2))
    (YRes (FullTiming t1) ?= YRes (FullTiming t2))
    (RefreshRate (FullTiming t1) ?= RefreshRate (FullTiming t2))
    (prefers t1 ?= prefers t2) (progressive t1 ?= progressive t2)
    (PixelClock (FullTiming t1) ?= PixelClock (FullTiming t2)).
Proof.
  unfold cbMode_CompareMode, by_priority, prefers, progressive. cbv zeta.
  rewrite (ltb_above (XRes (FullTiming t1))), (ltb_above (YRes (FullTiming t1))),
    (ltb_above (RefreshRate (FullTiming t1))), (ltb_above (PixelClock (FullTiming t1))).
  destruct (IsPreferMode t1 =? 0), (IsPreferMode t2 =? 0), (IsInterLaced t1 =? 0), (IsInterLaced t2 =? 0);
    reflexivity.
Qed.

Inductive compare_case (t1 t2 : CBIOS_DEVICE_TIMING_INFO) : Z -> Prop :=
  | compare_same : appearance t1 = appearance t2 -> compare_case t1 t2 0
  | compare_above : appearance t1 <> appearance t2 -> rank t2 < rank t1 -> compare_case t1 t2 1
  | compare_below : appearance t1 <> appearance t2 -> rank t1 < rank t2 -> compare_case t1 t2 (-1).

Lemma then_by_eq c d : then_by c d = Eq <-> c = Eq /\ d = Eq.
Proof. destruct c, d; cbn; intuition congruence. Qed.

(** What the comparison says of two timings: the three cases are exclusive. *)
Lemma CompareMode_cases t1 t2 :
  timing_fits t1 -> timing_fits t2 -> compare_case t1 t2 (cbMode_CompareMode t1 t2).
Proof.
  intros H1 H2. pose proof (rank_compare t1 t2 H1 H2) as Hr.
  rewrite CompareMode_priority, by_priority_spec, <- Hr.
  match goal with |- context [match ?c with Eq => _ | _ => _ end] => destruct c eqn:E end.
  1: { apply compare_same. unfold appearance. rewrite !then_by_eq, !Z.compare_eq_iff in E.
       by destruct E as ((((-> & ->) & ->) & ->) & ->). }
  all: assert (Hs : appearance t1 <> appearance t2)
    by (unfold appearance; intros [= E1 E2 E3 E4 E5]; rewrite E1, E2, E3, E4, E5, !Z.compare_refl in E; discriminate).
  all: destruct (Z.compare_spec (rank t1) (rank t2)) as [Heq|Hlt|Hgt];
    [exfalso | by apply compare_below | by apply compare_above].
  all: symmetry in Hr; rewrite !then_by_eq in Hr; destruct Hr as (((((E1 & E2) & E3) & E4) & E5) & E6);
    rewrite E1, E2, E3, E5, E6 in E; discriminate.
Qed.

Lemma rank_prefers t1 t2 : appearance t1 = appearance t2 -> prefers t1 <= prefers t2 -> rank t1 <= rank t2.
Proof. unfold appearance, rank. intros [= -> -> -> -> ->] H. lia. Qed.

Lemma rank_inj t1 t2 : timing_fits t1 -> timing_fits t2 -> rank t1 = rank t2 -> appearance t1 = appearance t2.
Proof.
  intros H1 H2 E. pose proof (rank_compare t1 t2 H1 H2) as Hr. rewrite E, Z.compare_refl in Hr. symmetry in Hr.
  rewrite !then_by_eq, !Z.compare_eq_iff in Hr. unfold appearance. by destruct Hr as (((((-> & ->) & ->) & _) & ->) & ->).
Qed.
