(* ===== verification/ModeSelect.v ===== *)
(** * Selecting the timings to report

    What a round of the loop of [cbMode_MakeDeviceModeList] picks and what it
    merges, and what all the rounds select: a strictly descending list of
    timings in which each timing of the monitor has one that stands for it, and
    which is what the rounds on lists ([select]) give. *)
From S2P Require Import Prelude CbUtil Timing EdidTypes EdidTiming Mode ModeOrder.
From stdpp Require Import list sorting.
Local Open Scope Z_scope.

(** ** The array of timings *)

(** A timing without its mark. *)
Definition base (t : CBIOS_DEVICE_TIMING_INFO) : CBIOS_DEVICE_TIMING_INFO := t <| Merged := 0 |>.

Definition tim (l : list CBIOS_DEVICE_TIMING_INFO) (j : Z) : CBIOS_DEVICE_TIMING_INFO :=
  nth (Z.to_nat j) l zero_dti.

Definition unmerged (l : list CBIOS_DEVICE_TIMING_INFO) (j : Z) : Prop := Merged (tim l j) = 0.

Definition with_list (dev : CBIOS_DEVICE_COMMON) (l : list CBIOS_DEVICE_TIMING_INFO) : CBIOS_DEVICE_COMMON :=
  dev <| EdidStruct ::= fun s => s <| pDeviceTimingList := Some l |> |>.

Lemma rd_tim l j : 0 <= j < zlen l -> rd l j = Ok (tim l j).
Proof.
  intros Hj. apply rd_inv. split; [lia|]. unfold tim, zlen in *.
  destruct (nth_lookup_or_length l (Z.to_nat j) zero_dti) as [H|H]; [exact H|lia].
Qed.

Lemma tim_rd l j t : rd l j = Ok t -> tim l j = t.
Proof. intros H. pose proof (rd_bound _ _ _ H). rewrite rd_tim in H by lia. by injection H. Qed.

Lemma tim_insert l k v j : 0 <= k < zlen l -> 0 <= j ->
  tim (<[Z.to_nat k := v]> l) j = if j =? k then v else tim l j.
Proof.
  intros Hk Hj. unfold tim. rewrite !nth_lookup. unfold zlen in *.
  destruct (Z.eqb_spec j k) as [->|Hne].
  - rewrite list_lookup_insert_eq by lia. done.
  - by rewrite list_lookup_insert_ne by lia.
Qed.

Lemma timing_at_ok dev l j : 0 <= j < zlen l -> timing_at (with_list dev l) j = Ok (tim l j).
Proof. intros Hj. unfold timing_at, with_list. cbn. by apply rd_tim. Qed.

Lemma set_merged_ok v dev l k : 0 <= k < zlen l ->
  set_merged v k (with_list dev l) =
  Ok (with_list dev (<[Z.to_nat k := (tim l k) <| Merged := v |>]> l)).
Proof.
  intros Hk. unfold set_merged, upd_timing, with_list. cbn [pDeviceTimingList EdidStruct upd].
  cbn [deref rbind]. cbn. rewrite rd_tim by done. cbn [rbind].
  rewrite wr_in by done. cbn [rbind]. done.
Qed.

(** The marks aside, a mark keeps every timing. *)
Definition same_timings (l0 l : list CBIOS_DEVICE_TIMING_INFO) : Prop :=
  zlen l = zlen l0 /\ forall j, 0 <= j -> base (tim l j) = base (tim l0 j).

Lemma same_timings_refl l : same_timings l l.
Proof. done. Qed.

Lemma same_timings_trans l1 l2 l3 : same_timings l1 l2 -> same_timings l2 l3 -> same_timings l1 l3.
Proof.
  intros [E1 H1] [E2 H2]. split; [congruence|]. intros j Hj. rewrite H2, H1; done.
Qed.

Lemma same_timings_mark l k v : 0 <= k < zlen l ->
  same_timings l (<[Z.to_nat k := (tim l k) <| Merged := v |>]> l).
Proof.
  intros Hk. split; [apply zlen_insert|]. intros j Hj. rewrite tim_insert by done.
  by destruct (Z.eqb_spec j k) as [->|].
Qed.

Lemma rank_base t : rank (base t) = rank t.
Proof. done. Qed.

Lemma shown_base t : appearance (base t) = appearance t.
Proof. done. Qed.

Lemma same_rank l0 l j : same_timings l0 l -> 0 <= j -> rank (tim l j) = rank (tim l0 j).
Proof. intros [_ H] Hj. by rewrite <- (rank_base (tim l j)), H. Qed.

Lemma same_shown l0 l j : same_timings l0 l -> 0 <= j -> appearance (tim l j) = appearance (tim l0 j).
Proof. intros [_ H] Hj. by rewrite <- (shown_base (tim l j)), H. Qed.

Lemma CompareMode_base t1 t2 : cbMode_CompareMode t1 (base t2) = cbMode_CompareMode t1 t2.
Proof. rewrite !CompareMode_priority. reflexivity. Qed.

(** ** The selection on lists *)

(** A round over the timings that are left: [b] is the best so far, [pre] and
    [post] what is left before and behind it. Of two timings that show the same,
    the later one stays if it is preferred, else the earlier one. *)
Fixpoint round (pre : list CBIOS_DEVICE_TIMING_INFO) (b : CBIOS_DEVICE_TIMING_INFO)
    (post ts : list CBIOS_DEVICE_TIMING_INFO) : CBIOS_DEVICE_TIMING_INFO * list CBIOS_DEVICE_TIMING_INFO :=
  match ts with
  | [] => (b, pre ++ post)
  | t :: ts =>
      if decide (appearance t = appearance b) then
        if IsPreferMode t =? 0 then round pre b post ts else round (pre ++ post) t [] ts
      else if rank b <? rank t then round (pre ++ b :: post) t [] ts
      else round pre b (post ++ [t]) ts
  end.

(** Rounds until nothing is left. *)
Fixpoint select_all (fuel : nat) (us : list CBIOS_DEVICE_TIMING_INFO) : list CBIOS_DEVICE_TIMING_INFO :=
  match fuel, us with
  | S fuel, b :: ts => let '(c, rest) := round [] b [] ts in c :: select_all fuel rest
  | _, _ => []
  end.
Definition select (us : list CBIOS_DEVICE_TIMING_INFO) : list CBIOS_DEVICE_TIMING_INFO :=
  select_all (length us) us.

Lemma round_length pre b post ts c rest : round pre b post ts = (c, rest) ->
  (length rest <= length pre + length post + length ts)%nat.
Proof.
  revert pre b post. induction ts as [|t ts IH]; intros pre b post; cbn [round].
  - intros [= _ <-]. rewrite length_app. lia.
  - repeat case_match; intros E%IH; rewrite ?length_app in E; cbn [length] in *; lia.
Qed.

Lemma select_all_fuel f g us : (length us <= f)%nat -> (length us <= g)%nat -> select_all f us = select_all g us.
Proof.
  revert g us. induction f as [|f IH]; intros g [|b ts] Hf Hg; cbn [length] in *; try lia; [by destruct g..|].
  destruct g as [|g]; [lia|]. cbn [select_all]. destruct (round [] b [] ts) as [c rest] eqn:E.
  apply round_length in E. cbn in E. f_equal. apply IH; lia.
Qed.

Definition run_round (us : list CBIOS_DEVICE_TIMING_INFO) :
    option (CBIOS_DEVICE_TIMING_INFO * list CBIOS_DEVICE_TIMING_INFO) :=
  match us with [] => None | b :: ts => Some (round [] b [] ts) end.

Lemma select_step_list us c rest : run_round us = Some (c, rest) -> select us = c :: select rest.
Proof.
  destruct us as [|b ts]; [done|]. intros [= E]. unfold select. cbn [length select_all]. rewrite E.
  f_equal. apply round_length in E. cbn in E. apply select_all_fuel; lia.
Qed.

(** What a round keeps and, where no timing ranks between two that show the
    same, that it merges all that show the same as the one it selects. *)
Definition unmixed (ts : list CBIOS_DEVICE_TIMING_INFO) : Prop :=
  forall t1 t2 t3, t1 ∈ ts -> t2 ∈ ts -> t3 ∈ ts -> appearance t1 = appearance t2 ->
    rank t1 < rank t3 < rank t2 -> appearance t3 = appearance t1.

(** Membership in concatenations. *)
Ltac in_lists := repeat first [rewrite elem_of_app | rewrite elem_of_cons | rewrite elem_of_nil]; tauto.

Lemma round_merges pre b post ts c rest : Forall timing_fits (b :: ts) -> unmixed (pre ++ b :: post ++ ts) ->
  Forall (fun x => appearance x <> appearance b /\ rank x < rank b) (pre ++ post) -> round pre b post ts = (c, rest) ->
  (forall x, x ∈ c :: rest -> x ∈ pre ++ b :: post ++ ts) /\ Forall (fun x => appearance x <> appearance c) rest.
Proof.
  revert pre b post. induction ts as [|t ts IH]; intros pre b post Hfit Hmix Hk; cbn [round].
  { intros [= <- <-]. split; [clear; intros x; in_lists|]. eapply Forall_impl; [exact Hk|]. by intros x []. }
  apply Forall_cons in Hfit as [Hb Hfit]. apply Forall_cons in Hfit as [Ht Hfit].
  rewrite Forall_forall in Hk.
  assert (Hgo : forall pre' b' post', (forall y, y ∈ pre' ++ b' :: post' ++ ts -> y ∈ pre ++ b :: post ++ t :: ts) ->
    timing_fits b' -> (forall x, x ∈ pre' ++ post' -> appearance x <> appearance b' /\ rank x < rank b') ->
    round pre' b' post' ts = (c, rest) ->
    (forall x, x ∈ c :: rest -> x ∈ pre ++ b :: post ++ t :: ts) /\ Forall (fun x => appearance x <> appearance c) rest).
  { intros pre' b' post' Hsub Hb' Hk' E. apply IH in E as [Hin Hrest].
    - split; [|done]. intros x Hx. by apply Hsub, Hin.
    - by constructor.
    - intros t1 t2 t3 H1 H2 H3. apply Hmix; by apply Hsub.
    - by apply Forall_forall. }
  destruct (decide (appearance t = appearance b)) as [Es|Es].
  - destruct (Z.eqb_spec (IsPreferMode t) 0) as [Hp|Hp]; apply Hgo; try done; try (clear; intros y; in_lists).
    rewrite app_nil_r. intros x Hx. destruct (Hk x Hx) as [H1 H2]. split; [congruence|].
    enough (rank b <= rank t) by lia. apply rank_prefers; [done|]. unfold prefers. apply Z.eqb_neq in Hp. rewrite Hp.
    cbn. destruct negb; cbn; lia.
  - destruct (Z.ltb_spec (rank b) (rank t)) as [Hr|Hr]; apply Hgo; try done; try (clear; intros y; in_lists).
    + rewrite app_nil_r. intros x Hx. destruct (decide (x = b)) as [->|Hne]; [done|].
      destruct (Hk x) as [H1 H2]; [revert Hx Hne; clear; in_lists|]. split; [|lia]. intros Hxt. apply Es. symmetry. rewrite <- Hxt.
      apply (Hmix x t b); try done; revert Hx; clear; in_lists.
    + assert (Hlt : rank t < rank b).
      { destruct (Z.eq_dec (rank t) (rank b)) as [E|]; [|lia]. by destruct Es; apply rank_inj. }
      intros x Hx. destruct (decide (x = t)) as [->|Hne]; [done|]. apply Hk. revert Hx Hne. clear. in_lists.
Qed.

(** Where the timings are not mixed, each appearance is selected once. *)
Lemma select_merges us : Forall timing_fits us -> unmixed us -> NoDup (map appearance (select us)).
Proof.
  unfold select. generalize (length us) as f. intros f. revert us.
  enough (H : forall us, Forall timing_fits us -> unmixed us ->
    NoDup (map appearance (select_all f us)) /\ forall x, x ∈ select_all f us -> x ∈ us) by (intros us H1 H2; by apply H).
  induction f as [|f IH]; intros [|b ts] Hfit Hmix; cbn [select_all]; try (split; [constructor|set_solver]).
  destruct (round [] b [] ts) as [c rest] eqn:E.
  destruct (round_merges [] b [] ts c rest Hfit Hmix) as [Hin Hne]; [constructor|done|]. cbn [app] in Hin.
  destruct (IH rest) as [IH1 IH2].
  - rewrite Forall_forall in *. intros x Hx. apply Hfit, Hin. by right.
  - intros t1 t2 t3 H1 H2 H3. apply Hmix; apply Hin; by right.
  - split.
    + cbn [map]. constructor; [|done]. intros (x & Hx & Hs)%list_elem_of_fmap. rewrite Forall_forall in Hne.
      by destruct (Hne x (IH2 x Hs)).
    + intros x [->|Hx]%elem_of_cons; apply Hin; [by left|right; by apply IH2].
Qed.

(** The timings of the indices from [lo] to [hi] that are not marked. *)
Definition unmarked (l : list CBIOS_DEVICE_TIMING_INFO) (lo hi : Z) : list CBIOS_DEVICE_TIMING_INFO :=
  flat_map (fun j => if Merged (tim l j) =? 0 then [base (tim l j)] else []) (seqZ lo (hi - lo)).

Lemma unmarked_nil l i : unmarked l i i = [].
Proof. unfold unmarked. by rewrite Z.sub_diag. Qed.

Lemma unmarked_split l lo mid hi : lo <= mid <= hi -> unmarked l lo hi = unmarked l lo mid ++ unmarked l mid hi.
Proof.
  intros H. unfold unmarked. rewrite <- flat_map_app. f_equal.
  replace (hi - lo) with ((mid - lo) + (hi - mid)) by lia. rewrite seqZ_app by lia. by replace (lo + (mid - lo)) with mid by lia.
Qed.

Lemma unmarked_one l i : unmarked l i (i + 1) = if Merged (tim l i) =? 0 then [base (tim l i)] else [].
Proof. unfold unmarked. replace (i + 1 - i) with 1 by lia. change (seqZ i 1) with [Z.of_nat 0 + i]. cbn [flat_map]. by rewrite app_nil_r. Qed.

Lemma unmarked_ext l l' lo hi : (forall j, lo <= j < hi -> tim l j = tim l' j) -> unmarked l lo hi = unmarked l' lo hi.
Proof.
  intros H. unfold unmarked. rewrite !flat_map_concat_map. f_equal. apply map_ext_in. intros j Hj.
  apply list_elem_of_In, elem_of_seqZ in Hj. by rewrite H by lia.
Qed.

Lemma unmarked_none l lo hi : (forall j, lo <= j < hi -> ~ unmerged l j) -> unmarked l lo hi = [].
Proof.
  intros H. unfold unmarked. rewrite flat_map_concat_map. apply concat_nil_Forall, Forall_forall.
  intros x (j & -> & Hj%elem_of_seqZ)%list_elem_of_fmap. destruct (Z.eqb_spec (Merged (tim l j)) 0); [|done].
  destruct (H j); [lia|done].
Qed.

Lemma unmarked_all l lo hi : (forall j, lo <= j < hi -> unmerged l j) ->
  unmarked l lo hi = map (fun j => base (tim l j)) (seqZ lo (hi - lo)).
Proof.
  intros H. unfold unmarked. rewrite flat_map_concat_map.
  rewrite (map_ext_in _ (fun j => [base (tim l j)])).
  - generalize (seqZ lo (hi - lo)). intros k. induction k as [|j k IH]; [done|]. cbn. by rewrite IH.
  - intros j Hj. apply list_elem_of_In, elem_of_seqZ in Hj. unfold unmerged in H. by rewrite H by lia.
Qed.

Lemma unmarked_mark l lo hi k v : 0 <= lo -> 0 <= k < zlen l -> ~ lo <= k < hi ->
  unmarked (<[Z.to_nat k := v]> l) lo hi = unmarked l lo hi.
Proof.
  intros Hlo Hk Hout. apply unmarked_ext. intros j Hj. rewrite tim_insert by lia.
  destruct (Z.eqb_spec j k); [lia|done].
Qed.

Lemma unmarked_first l lo hi : lo < hi -> unmarked l lo hi =
  (if Merged (tim l lo) =? 0 then [base (tim l lo)] else []) ++ unmarked l (lo + 1) hi.
Proof. intros H. by rewrite (unmarked_split l lo (lo + 1) hi), unmarked_one by lia. Qed.

Lemma unmarked_last l lo i : lo <= i -> unmarked l lo (i + 1) =
  unmarked l lo i ++ (if Merged (tim l i) =? 0 then [base (tim l i)] else []).
Proof. intros H. by rewrite (unmarked_split l lo i (i + 1)), unmarked_one by lia. Qed.

(** ** A round of the selection *)

Section Round.
Context (n : Z) (l0 : list CBIOS_DEVICE_TIMING_INFO).
Hypothesis Hn : 0 <= n <= zlen l0.
Hypothesis Hfits : forall j, 0 <= j < n -> timing_fits (tim l0 j).

Let rk j := rank (tim l0 j).
Let sh j := appearance (tim l0 j).

(** [r] stands for [j] in the list of modes. *)
Definition stands_for (r j : Z) : Prop := sh j = sh r /\ rk j <= rk r.

Lemma stands_trans a b c : stands_for a b -> stands_for b c -> stands_for a c.
Proof. intros [H1 H2] [H3 H4]. split; [congruence|lia]. Qed.

(** After the timings below [i], [p] the best of them: the round over the list
    of the timings that were left at the start goes on from here. *)
Definition round_at (i : Z) (l : list CBIOS_DEVICE_TIMING_INFO) (p : option Z) : Prop :=
  match p with
  | None => unmarked l0 0 n = unmarked l0 i n
  | Some k => run_round (unmarked l0 0 n) =
      Some (round (unmarked l 0 k) (base (tim l k)) (unmarked l (k + 1) i) (unmarked l0 i n))
  end.

Lemma round_skip i l p : 0 <= i < n -> (forall k, p = Some k -> 0 <= k < i) -> tim l i = tim l0 i ->
  ~ unmerged l0 i -> round_at i l p -> round_at (i + 1) l p.
Proof.
  unfold round_at, unmerged. intros Hi Hp E Hm%Z.eqb_neq. rewrite (unmarked_first l0 i n), Hm by lia.
  destruct p as [k|]; [|done]. intros ->. specialize (Hp k eq_refl). rewrite unmarked_last, E, Hm by lia.
  by rewrite app_nil_r.
Qed.

Lemma round_take_first i l : 0 <= i < n -> unmerged l0 i -> base (tim l i) = base (tim l0 i) ->
  (forall j, 0 <= j < i -> ~ unmerged l j) -> round_at i l None -> round_at (i + 1) l (Some i).
Proof.
  unfold round_at. intros Hi Hu%Z.eqb_eq E Hno ->. rewrite (unmarked_first l0 i n), Hu by lia.
  by rewrite unmarked_nil, (unmarked_none l 0 i), E by done.
Qed.

(** The round on lists at the next timing, [p] being [k]. *)
Lemma round_next i l k : 0 <= k < i -> i < n -> unmerged l0 i -> same_timings l0 l -> round_at i l (Some k) ->
  run_round (unmarked l0 0 n) = Some (
    let pre := unmarked l 0 k in let post := unmarked l (k + 1) i in let ts := unmarked l0 (i + 1) n in
    if decide (sh i = sh k) then
      if IsPreferMode (tim l0 i) =? 0 then round pre (base (tim l0 k)) post ts
      else round (pre ++ post) (base (tim l0 i)) [] ts
    else if rk k <? rk i then round (pre ++ base (tim l0 k) :: post) (base (tim l0 i)) [] ts
    else round pre (base (tim l0 k)) (post ++ [base (tim l0 i)]) ts).
Proof.
  unfold round_at. intros Hk Hi Hu%Z.eqb_eq [_ E] ->. rewrite (unmarked_first l0 i n), Hu, E by lia. done.
Qed.

Lemma round_take i l k : 0 <= k < i -> i < n -> unmerged l0 i -> unmerged l k -> same_timings l0 l ->
  sh i <> sh k -> rk k < rk i -> round_at i l (Some k) -> round_at (i + 1) l (Some i).
Proof.
  intros Hk Hi Hu Huk%Z.eqb_eq S Hs Hr H. apply round_next in H; [|done..]. cbn zeta in H.
  rewrite decide_False in H by done. apply Z.ltb_lt in Hr. rewrite Hr in H. unfold round_at. rewrite H.
  rewrite unmarked_nil, (unmarked_split l 0 k i), (unmarked_first l k i), Huk by lia.
  destruct S as [_ E]. by rewrite !E by lia.
Qed.

Lemma round_keep i l k : 0 <= k < i -> i < n -> unmerged l0 i -> tim l i = tim l0 i -> same_timings l0 l ->
  sh i <> sh k -> rk i < rk k -> round_at i l (Some k) -> round_at (i + 1) l (Some k).
Proof.
  intros Hk Hi Hu E S Hs Hr H. apply round_next in H; [|done..]. cbn zeta in H.
  rewrite decide_False in H by done. apply Z.lt_le_incl, Z.ltb_ge in Hr. rewrite Hr in H. unfold round_at. rewrite H.
  apply Z.eqb_eq in Hu. rewrite unmarked_last, E, Hu by lia. destruct S as [_ ->]; [done|lia].
Qed.

(** Of two timings that show the same, [d] is marked. *)
Lemma round_merge i l k d k' : 0 <= k < i -> i < n -> unmerged l0 i -> tim l i = tim l0 i -> same_timings l0 l ->
  sh i = sh k -> (if IsPreferMode (tim l0 i) =? 0 then d = i /\ k' = k else d = k /\ k' = i) ->
  0 <= n <= zlen l -> round_at i l (Some k) ->
  round_at (i + 1) (<[Z.to_nat d := (tim l d) <| Merged := 1 |>]> l) (Some k').
Proof.
  intros Hk Hi Hu Et S Hs Hd Hl H. apply round_next in H; [|done..]. cbn zeta in H.
  rewrite decide_True in H by done. unfold round_at. rewrite H. clear H. destruct S as [_ E].
  destruct (IsPreferMode (tim l0 i) =? 0); destruct Hd as [-> ->].
  - rewrite unmarked_last, !tim_insert, Z.eqb_refl by lia. destruct (Z.eqb_spec k i); [lia|]. cbn.
    rewrite app_nil_r, !unmarked_mark, E by lia. done.
  - rewrite unmarked_nil, (unmarked_split _ 0 k i), (unmarked_first _ k i), !tim_insert, Z.eqb_refl by lia.
    destruct (Z.eqb_spec i k); [lia|]. cbn. rewrite !unmarked_mark, E by lia. done.
Qed.

(** After the timings below [i]: [p] is the highest of those still unmarked,
    and strictly so; each one marked since the start has an unmarked one that
    stands for it. *)
Record sel_inv (i : Z) (l : list CBIOS_DEVICE_TIMING_INFO) (p : option Z) : Prop := {
  si_same : same_timings l0 l;
  si_above : forall j, i <= j < n -> tim l j = tim l0 j;
  si_less : forall j, 0 <= j < n -> unmerged l j -> unmerged l0 j;
  si_best : match p with
            | None => forall j, 0 <= j < i -> ~ unmerged l0 j
            | Some k => 0 <= k < i /\ unmerged l k /\
                forall j, 0 <= j < i -> unmerged l j -> j <> k -> rk j < rk k
            end;
  si_rep : forall j, 0 <= j < i -> unmerged l0 j -> ~ unmerged l j ->
           exists r, 0 <= r < i /\ unmerged l r /\ stands_for r j;
  si_round : round_at i l p
}.

Lemma sel_inv_start : sel_inv 0 l0 None.
Proof. constructor; try done; intros; lia. Qed.

Lemma unmerged_dec l j : {unmerged l j} + {~ unmerged l j}.
Proof. unfold unmerged. apply Z.eq_dec. Qed.

(** The next timing was marked before: nothing changes. *)
Lemma sel_skip i l p : 0 <= i < n -> ~ unmerged l0 i -> sel_inv i l p -> sel_inv (i + 1) l p.
Proof.
  intros Hi Hm [S A L B R F].
  assert (Hc : forall j, 0 <= j < i + 1 -> unmerged l0 j -> 0 <= j < i).
  { intros j Hj Hu. destruct (Z.eq_dec j i) as [->|]; [done|lia]. }
  constructor; try done.
  - intros j Hj. apply A. lia.
  - destruct p as [k|].
    + destruct B as (Hk & Hu & Hb). split; [lia|]. split; [done|].
      intros j Hj Huj. apply Hb; [apply Hc; [done|apply L; [lia|done]]|done].
    + intros j Hj Hu. by apply (B j); [apply Hc|].
  - intros j Hj Hu Hnu. destruct (R j (Hc j Hj Hu) Hu Hnu) as (r & Hr & ?). exists r.
    split; [lia|done].
  - apply round_skip; try done; [|apply A; lia]. intros k ->. apply B.
Qed.

(** The next timing ranks above all before it. *)
Lemma sel_take i l p : 0 <= i < n -> unmerged l0 i -> sel_inv i l p ->
  (forall k, p = Some k -> sh i <> sh k /\ rk k < rk i) -> sel_inv (i + 1) l (Some i).
Proof.
  intros Hi Hu0 [S A L B R F] Hgt.
  assert (Hui : unmerged l i) by (unfold unmerged; rewrite A by lia; done).
  constructor; try done.
  - intros j Hj. apply A. lia.
  - split; [lia|]. split; [done|]. intros j Hj Huj Hne. assert (Hj' : 0 <= j < i) by lia.
    destruct p as [k|]; [|by destruct (B j Hj'); apply L; [lia|]].
    destruct (Hgt k eq_refl) as [_ Hlt]. destruct B as (Hk & _ & Hb).
    destruct (Z.eq_dec j k) as [->|Hjk]; [done|]. specialize (Hb j Hj' Huj Hjk). lia.
  - intros j Hj Hu Hnu. destruct (Z.eq_dec j i) as [->|Hji]; [done|].
    destruct (R j) as (r & Hr & Hur & Hst); [lia|done..|]. exists r. split; [lia|done].
  - destruct p as [k|].
    + destruct (Hgt k eq_refl) as [Hs Hlt]. destruct B as (Hk & Huk & _). apply (round_take i l k); try done; lia.
    + apply round_take_first; try done; [by rewrite A by lia|].
      intros j Hj Huj. apply (B j Hj), L; [lia|done].
Qed.

(** The next timing ranks below the best one. *)
Lemma sel_keep i l k : 0 <= i < n -> unmerged l0 i -> sel_inv i l (Some k) -> sh i <> sh k -> rk i < rk k ->
  sel_inv (i + 1) l (Some k).
Proof.
  intros Hi Hu0 [S A L B R F] Hs Hlt. destruct B as (Hk & Huk & Hb).
  assert (Hui : unmerged l i) by (unfold unmerged; rewrite A by lia; done).
  constructor; try done.
  - intros j Hj. apply A. lia.
  - split; [lia|]. split; [done|]. intros j Hj Huj Hne.
    destruct (Z.eq_dec j i) as [->|Hji]; [done|]. apply Hb; [lia|done..].
  - intros j Hj Hu Hnu. destruct (Z.eq_dec j i) as [->|Hji]; [done|].
    destruct (R j) as (r & Hr & Hur & Hst); [lia|done..|]. exists r. split; [lia|done].
  - apply round_keep; try done; [lia|by apply A; lia].
Qed.

(** Of two timings that stand for each other, one is marked and the other
    kept: [d] is marked, [k'] becomes the best. *)
Lemma sel_merge i l k d k' : 0 <= i < n -> unmerged l0 i -> sel_inv i l (Some k) ->
  sh i = sh k -> (if IsPreferMode (tim l0 i) =? 0 then d = i /\ k' = k else d = k /\ k' = i) -> stands_for k' d ->
  sel_inv (i + 1) (<[Z.to_nat d := (tim l d) <| Merged := 1 |>]> l) (Some k').
Proof.
  intros Hi Hu0 [S A L B R F] Hs Hd0 Hst. destruct B as (Hk & Huk & Hb).
  assert (Hd : d = k /\ k' = i \/ d = i /\ k' = k) by (destruct (_ =? 0); tauto).
  assert (Hui : unmerged l i) by (unfold unmerged; rewrite A by lia; done).
  assert (Hdl : 0 <= d < zlen l) by (destruct S as [-> _]; lia).
  set (l' := <[_ := _]> l).
  assert (Hu' : forall j, 0 <= j -> unmerged l' j <-> unmerged l j /\ j <> d).
  { intros j Hj. unfold unmerged, l'. rewrite tim_insert by done.
    destruct (Z.eqb_spec j d) as [->|]; [|tauto]. cbn. split; [discriminate|tauto]. }
  assert (Hk' : 0 <= k' < i + 1 /\ unmerged l' k' /\ k' <> d).
  { destruct Hd as [[-> ->]|[-> ->]]; rewrite Hu' by lia; split_and!; try done; lia. }
  assert (Hle : rk k <= rk k').
  { destruct Hst as [_ Hle]. destruct Hd as [[-> ->]|[-> ->]]; lia. }
  constructor.
  - eapply same_timings_trans; [exact S|]. by apply same_timings_mark.
  - intros j Hj. unfold l'. rewrite tim_insert by lia. destruct (Z.eqb_spec j d) as [->|]; [lia|apply A; lia].
  - intros j Hj Huj. apply L; [done|]. apply Hu' in Huj; [tauto|lia].
  - split; [lia|]. split; [tauto|]. intros j Hj Huj Hne. apply Hu' in Huj as [Huj Hjd]; [|lia].
    assert (j <> k /\ 0 <= j < i) as [Hjk Hj'] by (destruct Hd as [[-> ->]|[-> ->]]; lia).
    specialize (Hb j Hj' Huj Hjk). lia.
  - intros j Hj Hu Hnu. rewrite Hu' in Hnu by lia. destruct (Z.eq_dec j d) as [->|Hjd].
    + exists k'. split; [lia|]. split; [tauto|done].
    + destruct (R j) as (r & Hr & Hur & Hst').
      { destruct (Z.eq_dec j i) as [->|]; [tauto|lia]. } { done. } { tauto. }
      destruct (Z.eq_dec r d) as [->|Hrd].
      * exists k'. split; [lia|]. split; [tauto|]. by eapply stands_trans.
      * exists r. split; [lia|]. split; [|done]. apply Hu'; [lia|done].
  - apply round_merge with (k := k); try done; [lia|by apply A; lia|destruct S; lia].
Qed.

Lemma select_step_ok dev i l p : 0 <= i < n -> sel_inv i l p ->
  exists l' p', select_step i (with_list dev l, p) = Ok (with_list dev l', p') /\ sel_inv (i + 1) l' p'.
Proof.
  intros Hi HI. pose proof (si_same _ _ _ HI) as S. pose proof (si_above _ _ _ HI i ltac:(lia)) as Ei.
  assert (Hl : 0 <= i < zlen l) by (destruct S as [-> _]; lia).
  unfold select_step. rewrite timing_at_ok by done. cbn [rbind]. rewrite Ei.
  destruct (Z.eqb_spec (Merged (tim l0 i)) 0) as [Hu|Hm]; cbn [negb].
  2: { exists l, p. split; [done|]. by apply sel_skip. }
  destruct p as [k|].
  2: { exists l, (Some i). split; [done|]. by apply (sel_take i l None). }
  destruct (si_best _ _ _ HI) as (Hk & Huk & _).
  rewrite timing_at_ok by (destruct S as [-> _]; lia). cbn [rbind].
  assert (Hcmp : compare_case (tim l0 i) (tim l0 k) (cbMode_CompareMode (tim l0 i) (tim l k))).
  { replace (cbMode_CompareMode (tim l0 i) (tim l k)) with (cbMode_CompareMode (tim l0 i) (tim l0 k)).
    - apply CompareMode_cases; apply Hfits; lia.
    - rewrite <- (CompareMode_base _ (tim l0 k)), <- (CompareMode_base _ (tim l k)).
      destruct S as [_ ->]; [done|lia]. }
  destruct Hcmp as [Hs|Hs Hr|Hs Hr]; cbn.
  - destruct (Z.eqb_spec (IsPreferMode (tim l0 i)) 0) as [Hp|Hp]; cbn [negb].
    + rewrite set_merged_ok by done. cbn [rbind]. eexists _, _. split; [done|].
      apply (sel_merge i l k i k); try done; [by rewrite Hp|]. split; [done|].
      apply rank_prefers; [done|]. unfold prefers. rewrite Hp. cbn. destruct negb; cbn; lia.
    + rewrite set_merged_ok by (destruct S as [-> _]; lia). cbn [rbind]. eexists _, _. split; [done|].
      apply (sel_merge i l k k i); try done; [by apply Z.eqb_neq in Hp as ->|]. split; [done|].
      apply rank_prefers; [done|]. unfold prefers. apply Z.eqb_neq in Hp. rewrite Hp. cbn.
      destruct negb; cbn; lia.
  - exists l, (Some i). split; [done|]. eapply sel_take; try done. by intros ? [= <-].
  - exists l, (Some k). split; [done|]. by apply sel_keep.
Qed.

(** What a round returns. *)
Lemma select_round dev :
  exists l p, for_up (Z.to_nat n) 0 select_step (with_list dev l0, None) = Ok (with_list dev l, p) /\
    sel_inv n l p.
Proof.
  destruct (for_up_rule (fun i st => exists l p, st = (with_list dev l, p) /\ sel_inv i l p)
              (Z.to_nat n) 0 select_step (with_list dev l0, None)) as (st & E & l & p & -> & HI).
  - intros j st Hj (l & p & -> & HI). destruct (select_step_ok dev j l p) as (l' & p' & -> & HI'); [lia|done|].
    eexists. split; [done|]. by exists l', p'.
  - exists l0, None. split; [done|apply sel_inv_start].
  - exists l, p. split; [done|]. by replace (0 + Z.of_nat (Z.to_nat n)) with n in HI by lia.
Qed.

End Round.

(** ** All rounds *)

(** The timings [cs] selected from [ts]. *)
Record selection (ts cs : list CBIOS_DEVICE_TIMING_INFO) : Prop := {
  sel_sorted : StronglySorted (fun a b => rank b < rank a) cs;
  sel_from : forall c, c ∈ cs -> c ∈ ts;
  sel_covers : forall t, t ∈ ts -> exists c, c ∈ cs /\ appearance t = appearance c /\ rank t <= rank c
}.

Section Rounds.
Context (n : Z) (l0 : list CBIOS_DEVICE_TIMING_INFO).
Hypothesis Hn : 0 <= n <= zlen l0.
Hypothesis Hfits : forall j, 0 <= j < n -> timing_fits (tim l0 j).

Let rk j := rank (tim l0 j).

(** The timings, without their marks, of the indices [cs]. *)
Definition timings_of (cs : list Z) : list CBIOS_DEVICE_TIMING_INFO :=
  map (fun j => base (tim l0 j)) cs.

(** After some rounds, with the timings of the indices [cs] selected. *)
Record out_inv (l : list CBIOS_DEVICE_TIMING_INFO) (cs : list Z) : Prop := {
  oi_same : same_timings l0 l;
  oi_range : Forall (fun c => 0 <= c < n /\ ~ unmerged l c) cs;
  oi_sorted : StronglySorted (fun a b => rk b < rk a) cs;
  oi_below : forall j, 0 <= j < n -> unmerged l j -> Forall (fun c => rk j < rk c) cs;
  oi_rep : forall j, 0 <= j < n -> ~ unmerged l j ->
           exists r, 0 <= r < n /\ (r ∈ cs \/ unmerged l r) /\ stands_for l0 r j;
  oi_select : select (unmarked l0 0 n) = timings_of cs ++ select (unmarked l 0 n)
}.

Lemma sorted_NoDup (cs : list Z) : StronglySorted (fun a b => rk b < rk a) cs -> NoDup cs.
Proof.
  induction 1 as [|c cs Hs IH Hc]; [constructor|]. constructor; [|done].
  intros Hin. rewrite Forall_forall in Hc. specialize (Hc c Hin). lia.
Qed.

Lemma out_inv_length l cs : out_inv l cs -> Z.of_nat (length cs) <= n.
Proof.
  intros H. pose proof (sorted_NoDup cs (oi_sorted _ _ H)) as Hd.
  assert (Hs : cs ⊆+ seqZ 0 n).
  { apply NoDup_submseteq; [done|]. intros c Hc. apply elem_of_seqZ.
    pose proof (oi_range _ _ H) as Hr. rewrite Forall_forall in Hr. specialize (Hr c Hc). lia. }
  apply submseteq_length in Hs. rewrite length_seqZ in Hs. lia.
Qed.

Lemma stands_same l r j : same_timings l0 l -> 0 <= r -> 0 <= j -> stands_for l r j -> stands_for l0 r j.
Proof.
  intros S Hr Hj [H1 H2]. split.
  - by rewrite <- !(same_shown l0 l).
  - by rewrite <- !(same_rank l0 l).
Qed.

Lemma out_inv_start : (forall j, 0 <= j < n -> unmerged l0 j) -> out_inv l0 [].
Proof.
  intros Hu. constructor; [done|constructor|constructor|intros; constructor| |done].
  intros j Hj Hm. by destruct Hm; apply Hu.
Qed.

(** What a round selects is the head of the selection on lists. *)
Lemma selects_head l l' k : same_timings l0 l' -> 0 <= k < n -> sel_inv n l n l' (Some k) ->
  select (unmarked l 0 n) =
  base (tim l0 k) :: select (unmarked (<[Z.to_nat k := (tim l' k) <| Merged := 1 |>]> l') 0 n).
Proof.
  intros [Hz E] Hk HI. pose proof (si_round _ _ _ _ _ HI) as F. cbn in F. rewrite (unmarked_nil l n) in F.
  apply select_step_list in F. rewrite F, E by lia. do 2 f_equal.
  rewrite (unmarked_split _ 0 k n), (unmarked_first _ k n), !unmarked_mark, tim_insert, Z.eqb_refl by lia. done.
Qed.

(** A round selects [k]. *)
Lemma out_inv_step l l' cs k : out_inv l cs -> sel_inv n l n l' (Some k) ->
  out_inv (<[Z.to_nat k := (tim l' k) <| Merged := 1 |>]> l') (cs ++ [k]).
Proof.
  intros [S R So B Rp Sl] HI. pose proof HI as [S' _ L Hb Rs _]. destruct Hb as (Hk & Huk & Hb).
  assert (S2 : same_timings l0 l') by (by eapply same_timings_trans).
  assert (Hkl : 0 <= k < zlen l') by (destruct S2 as [-> _]; lia).
  set (l2 := <[_ := _]> l').
  assert (Hu : forall j, 0 <= j -> unmerged l2 j <-> unmerged l' j /\ j <> k).
  { intros j Hj. unfold unmerged, l2. rewrite tim_insert by done.
    destruct (Z.eqb_spec j k) as [->|]; [|tauto]. cbn. split; [discriminate|tauto]. }
  assert (Hbelow : forall j, 0 <= j < n -> unmerged l' j -> Forall (fun c => rk j < rk c) cs).
  { intros j Hj Huj. apply B; [done|]. by apply L. }
  constructor.
  - eapply same_timings_trans; [exact S2|]. by apply same_timings_mark.
  - apply Forall_app. split.
    + eapply Forall_impl; [exact R|]. intros c [Hc Hm]. split; [done|]. rewrite Hu by lia.
      intros [Hc' _]. apply Hm. by apply L.
    + constructor; [|constructor]. split; [done|]. rewrite Hu by lia. tauto.
  - apply StronglySorted_app_2; [|done|].
    + intros x1 x2 H1 H2%list_elem_of_singleton. subst x2.
      pose proof (Hbelow k Hk Huk) as Hf. rewrite Forall_forall in Hf. by apply Hf.
    + constructor; constructor.
  - intros j Hj Huj. apply Hu in Huj as [Huj Hjk]; [|lia]. apply Forall_app. split; [by apply Hbelow|].
    constructor; [|constructor]. unfold rk. rewrite <- !(same_rank l0 l) by (done || lia). by apply Hb.
  - assert (Hrep : forall j, 0 <= j < n -> unmerged l j ->
      exists r, 0 <= r < n /\ (r ∈ cs ++ [k] \/ unmerged l2 r) /\ stands_for l0 r j).
    { intros j Hj Huj.
      assert (exists r, 0 <= r < n /\ unmerged l' r /\ stands_for l0 r j) as (r & Hr & Hur & Hst).
      { destruct (unmerged_dec l' j) as [Hy|Hn']; [by exists j|].
        destruct (Rs j Hj Huj Hn') as (r & Hr & Hur & Hst). exists r.
        split; [done|]. split; [done|]. apply (stands_same l); [done|lia|lia|done]. }
      exists r. split; [done|]. split; [|done].
      destruct (Z.eq_dec r k) as [->|Hne]; [left; apply elem_of_app; right; by apply list_elem_of_singleton|].
      right. apply Hu; [lia|done]. }
    intros j Hj Hmj. destruct (unmerged_dec l j) as [Hy|Hm]; [by apply Hrep|].
    destruct (Rp j Hj Hm) as (r & Hr & [Hin|Hur] & Hst).
    + exists r. split; [done|]. split; [|done]. left. apply elem_of_app. by left.
    + destruct (Hrep r Hr Hur) as (r' & Hr' & Hc & Hst'). exists r'. split; [done|]. split; [done|].
      by eapply stands_trans.
  - rewrite Sl. unfold timings_of. rewrite map_app, <- app_assoc. f_equal. by apply selects_head.
Qed.

Lemma out_inv_done l l' cs : out_inv l cs -> sel_inv n l n l' None ->
  forall j, 0 <= j < n -> exists r, r ∈ cs /\ stands_for l0 r j.
Proof.
  intros [S R So B Rp _] HI j Hj. pose proof (si_best _ _ _ _ _ HI) as Hb. cbn in Hb.
  destruct (Rp j Hj (Hb j Hj)) as (r & Hr & [Hin|Hur] & Hst).
  - by exists r.
  - by destruct (Hb r Hr).
Qed.

Lemma out_inv_selection l l' cs : out_inv l cs -> sel_inv n l n l' None ->
  selection (timings_of (seqZ 0 n)) (timings_of cs).
Proof.
  intros H HI. pose proof (out_inv_done l l' cs H HI) as Hd. destruct H as [S R So B Rp _].
  constructor.
  - unfold timings_of. clear - So. induction So as [|c cs Hs IH Hc]; [constructor|]. cbn. constructor; [done|].
    apply Forall_map. eapply Forall_impl; [exact Hc|]. done.
  - intros c Hc. apply list_elem_of_fmap in Hc as (j & -> & Hj). apply list_elem_of_fmap. exists j.
    split; [done|]. apply elem_of_seqZ. rewrite Forall_forall in R. specialize (R j Hj). lia.
  - intros t Ht. apply list_elem_of_fmap in Ht as (j & -> & Hj). apply elem_of_seqZ in Hj.
    destruct (Hd j ltac:(lia)) as (r & Hr & H1 & H2). exists (base (tim l0 r)).
    split; [|done]. apply list_elem_of_fmap. by exists r.
Qed.

Lemma out_inv_select l l' cs : out_inv l cs -> sel_inv n l n l' None -> timings_of cs = select (unmarked l0 0 n).
Proof.
  intros H HI. rewrite (oi_select _ _ H). pose proof (si_round _ _ _ _ _ HI) as F. cbn in F.
  rewrite F, unmarked_nil. cbn. by rewrite app_nil_r.
Qed.

(** ** The whole loop

    Any property [P] of the selected timings, the mode list and [bHasPrefer]
    that reporting a timing carries along holds of the result. *)
Context (pool : nat -> bool) (pcbe : CBIOS_EXTENSION_COMMON) (Device : Z) (Filter : CBIOS_MODE_FILTER_PARA).
Context (dev : CBIOS_DEVICE_COMMON).
Hypothesis Htn : TimingNum (EdidStruct dev) = n.
Context (P : list CBIOS_DEVICE_TIMING_INFO -> mode_list -> bool -> Prop).

Definition device_with (l : list CBIOS_DEVICE_TIMING_INFO) (ml : mode_list) : CBIOS_DEVICE_COMMON :=
  (with_list dev l) <| ModeList := ml |>.

Lemma mark_timing_ok l ml k : 0 <= k < zlen l ->
  set_merged 1 k (device_with l ml) = Ok (device_with (<[Z.to_nat k := (tim l k) <| Merged := 1 |>]> l) ml).
Proof. exact (set_merged_ok 1 (dev <| ModeList := ml |>) l k). Qed.

Lemma timing_of_dev l ml k : 0 <= k < zlen l -> timing_at (device_with l ml) k = Ok (tim l k).
Proof. exact (timing_at_ok (dev <| ModeList := ml |>) l k). Qed.

Hypothesis Hreport : forall cs l ml has t,
  P cs ml has -> Z.of_nat (length cs) < n -> t ∈ timings_of (seqZ 0 n) ->
  exists ml' has', report_timing pool pcbe Device Filter t (device_with l ml, has) = Ok (device_with l ml', has') /\
    P (cs ++ [t]) ml' has'.

Lemma make_rounds fuel l cs ml has :
  out_inv l cs -> P (timings_of cs) ml has -> n - Z.of_nat (length cs) < Z.of_nat fuel ->
  exists l' cs' ml' has',
    iterate fuel (make_round pool pcbe Device Filter) (device_with l ml, has) = Ok (device_with l' ml', has') /\
    same_timings l0 l' /\ selection (timings_of (seqZ 0 n)) cs' /\ cs' = select (unmarked l0 0 n) /\ P cs' ml' has'.
Proof.
  revert l cs ml has. induction fuel as [|fuel IH]; intros l cs ml has H HP Hf.
  { pose proof (out_inv_length l cs H). lia. }
  pose proof (oi_same _ _ H) as S.
  assert (Hl : 0 <= n <= zlen l) by (destruct S as [-> _]; done).
  destruct (select_round n l Hl) with (dev := dev <| ModeList := ml |>) as (l' & p & E & HI).
  { intros j Hj. destruct (Hfits j Hj). destruct S as [_ S].
    constructor; change (tim l j) with (tim l j);
      [change (fits 16 (XRes (FullTiming (base (tim l j)))))
      |change (fits 16 (YRes (FullTiming (base (tim l j)))))
      |change (fits 16 (RefreshRate (FullTiming (base (tim l j)))))
      |change (fits 32 (PixelClock (FullTiming (base (tim l j)))))]; rewrite S by lia; done. }
  rewrite iterate_S. unfold make_round at 1. change (TimingNum (EdidStruct (device_with l ml))) with
    (TimingNum (EdidStruct dev)). rewrite Htn.
  change (with_list (dev <| ModeList := ml |>) l) with (device_with l ml) in E. rewrite E. cbn [rbind].
  destruct p as [k|].
  - destruct (si_best _ _ _ _ _ HI) as (Hk & Huk & _).
    pose proof (si_same _ _ _ _ _ HI) as S'.
    assert (S2 : same_timings l0 l') by (by eapply same_timings_trans).
    assert (Hkl : 0 <= k < zlen l') by (destruct S2 as [-> _]; lia).
    change (with_list (dev <| ModeList := ml |>) l') with (device_with l' ml).
    rewrite mark_timing_ok by done. cbn [rbind].
    rewrite timing_of_dev by (rewrite zlen_insert; done). cbn [rbind]. rewrite tim_insert, Z.eqb_refl by lia.
    pose proof (out_inv_step _ _ _ _ H HI) as H2.
    assert (Hlen : Z.of_nat (length cs) < n).
    { pose proof (out_inv_length _ _ H2) as HL. rewrite length_app in HL. cbn in HL. lia. }
    destruct (Hreport (timings_of cs) (<[Z.to_nat k := (tim l' k) <| Merged := 1 |>]> l') ml has
                (base (tim l0 k))) as (ml' & has' & Er & HP').
    { done. } { unfold timings_of. rewrite length_map. done. }
    { apply list_elem_of_fmap. exists k. split; [done|]. apply elem_of_seqZ. lia. }
    destruct S2 as [_ Hbase]. rewrite <- Hbase in Er by lia.
    change (report_timing pool pcbe Device Filter (base (tim l' k)))
      with (report_timing pool pcbe Device Filter ((tim l' k) <| Merged := 1 |>)) in Er.
    rewrite Er. cbn [rbind]. apply (IH _ (cs ++ [k])); [done| |].
    + unfold timings_of. rewrite map_app. exact HP'.
    + rewrite length_app. cbn. lia.
  - exists l', (timings_of cs), ml, has. split; [done|]. split; [by eapply same_timings_trans; [|apply HI]|].
    split; [by eapply out_inv_selection|]. split; [by eapply out_inv_select|done].
Qed.

End Rounds.
