(* ===== verification/ModeList.v ===== *)
(** * The list of modes

    What [cbMode_AddMode] and [cbMode_AddDeviceMode] do to the list of modes of
    a device, as an operation on the modes listed, and what the whole of
    [cbMode_MakeDeviceModeList] reports. *)
From S2P Require Import Prelude CbUtil Timing TimingTables EdidTypes EdidTiming Mode ModeOrder ModeSelect.
From stdpp Require Import list sorting.
Local Open Scope Z_scope.

(** ** The abstract list *)

(** The modes listed. *)
Definition modes (s : mode_list) : list CBiosModeInfoExt :=
  match pDeviceModeList s with
  | Some l => take (Z.to_nat (ValidModeNum s)) l
  | None => []
  end.

Definition add_mode (ms : list CBiosModeInfoExt) (m : CBiosModeInfoExt) : list CBiosModeInfoExt :=
  if existsb (fun m' => same_mode m' m) ms then ms else ms ++ [m].

(** The timing with the other rate of a CEA format, on a monitor [cea] that
    speaks CEA-861. *)
Definition equivalent (cea : bool) (t : CBIOS_DEVICE_TIMING_INFO) : option (Z * Z) :=
  if cea && negb (FormatVIC (FullTiming t) =? 0) then
    match cbEdidModule_IsEquivalentModeExist (FormatVIC (FullTiming t)) with Ok e => e | Err _ => None end
  else None.

Definition equivalent_mode (m : CBiosModeInfoExt) (rc : Z * Z) : CBiosModeInfoExt :=
  m <| mode_RefreshRate := fst rc |> <| mode_PixelClock := snd rc |> <| isPreferredMode := 0 |>.

(** The modes of a timing, the preferred or faster one first. *)
Definition device_modes (cea : bool) (t : CBIOS_DEVICE_TIMING_INFO) (m : CBiosModeInfoExt)
  : list CBiosModeInfoExt :=
  match equivalent cea t with
  | None => [m]
  | Some rc =>
      if negb (isPreferredMode m =? 0) || (fst rc <? mode_RefreshRate m)
      then [m; equivalent_mode m rc] else [equivalent_mode m rc; m]
  end.

(** Reporting one more timing: the modes so far and whether one is preferred. *)
Definition report_one (cea : bool) (skip : CBIOS_DEVICE_TIMING_INFO -> bool)
    (acc : list CBiosModeInfoExt * bool) (t : CBIOS_DEVICE_TIMING_INFO) : list CBiosModeInfoExt * bool :=
  let '(ds, has) := acc in
  if skip t then acc
  else
    let pref := negb (IsPreferMode t =? 0) && negb has in
    (ds ++ device_modes cea t (mode_of t pref), has || pref).

Definition reported cea skip (cs : list CBIOS_DEVICE_TIMING_INFO) : list CBiosModeInfoExt * bool :=
  foldl (report_one cea skip) ([], false) cs.

(** Without a preferred mode, the first is made so. *)
Definition prefer_first (has : bool) (ms : list CBiosModeInfoExt) : list CBiosModeInfoExt :=
  match ms with
  | m :: r => (if has then m else m <| isPreferredMode := 1 |>) :: r
  | [] => []
  end.

(** ** The array *)

(** The array of the list, for [n] timings. *)
Record ml_ok (n : Z) (s : mode_list) : Prop := {
  ml_valid : 0 <= ValidModeNum s;
  ml_array : match pDeviceModeList s with
             | None => ValidModeNum s = 0 /\ ModeListArraySize s = 0
             | Some l => zlen l = ModeListArraySize s /\
                 1 <= ValidModeNum s <= ModeListArraySize s /\ ModeListArraySize s <= ValidModeNum s + n
             end
}.

Lemma zlen_modes n s : ml_ok n s -> zlen (modes s) = ValidModeNum s.
Proof.
  intros [H0 H]. unfold modes. destruct (pDeviceModeList s) as [l|].
  - rewrite zlen_take by done. lia.
  - destruct H. change (zlen []) with 0. lia.
Qed.

Lemma alloc_modes_len n : 0 <= n < 2 ^ 26 -> zlen (alloc_modes n) = n.
Proof.
  intros Hn. unfold alloc_modes, MODE_INFO_EXT_SIZE. rewrite zlen_replicate, wrap_small by (unfold fits; lia).
  rewrite Z.div_mul by lia. lia.
Qed.

Section Add.
Context (pool : nat -> bool) (n : Z).
Hypothesis Hn : 1 <= n < 2 ^ 25.

(** The pool never fails and the array can grow. *)
Definition roomy : Prop := (forall k, pool k = true) /\ 2 <= n.

(** Of the modes [ds] to add, [ds'] found room. *)
Definition took (ds' ds : list CBiosModeInfoExt) : Prop := ds' `sublist_of` ds /\ (roomy -> ds' = ds).

Lemma took_app a b a' b' : took a a' -> took b b' -> took (a ++ b) (a' ++ b').
Proof.
  intros [H1 H2] [H3 H4]. split; [by apply sublist_app|]. intros H. by rewrite H2, H4.
Qed.

Lemma took_refl a : took a a.
Proof. done. Qed.

Lemma found_ok s m : ml_ok n s ->
  exists r,
    (if ValidModeNum s =? 0 then Ok None
     else let! l := deref (pDeviceModeList s) in scan l (ValidModeNum s) (fun m' => same_mode m' m)) = Ok r /\
    existsb (fun m' => same_mode m' m) (modes s) = (match r with Some _ => true | None => false end).
Proof.
  intros [H0 H]. unfold modes. destruct (pDeviceModeList s) as [l|].
  2: { destruct H as [-> _]. by exists None. }
  destruct (Z.eqb_spec (ValidModeNum s) 0); [lia|]. cbn [deref rbind].
  destruct (scan_spec l (ValidModeNum s) (fun m' => same_mode m' m)) as (r & -> & Hr); [lia|].
  exists r. split; [done|]. destruct r as [i|]; cbn in Hr.
  - destruct Hr as (Hi & (x & Hx & HP) & _). apply existsb_exists. exists x. split; [|done].
    apply list_elem_of_In. rewrite <- (rd_take l (ValidModeNum s)) in Hx by lia.
    apply rd_inv in Hx as [_ Hx]. by eapply list_elem_of_lookup_2.
  - apply not_true_is_false. intros (x & Hx & HP)%existsb_exists.
    apply list_elem_of_In, list_elem_of_lookup_1 in Hx as [i Hx].
    assert (Hi : (i < Z.to_nat (ValidModeNum s))%nat).
    { apply lookup_lt_Some in Hx. rewrite length_take in Hx. lia. }
    rewrite lookup_take_lt in Hx by done. rewrite (Hr (Z.of_nat i) x) in HP; [done|lia|].
    apply rd_inv. split; [lia|]. by rewrite Nat2Z.id.
Qed.

(** Writing the next mode into an array with room. *)
Lemma put_mode l size valid allocs m : 0 <= valid -> zlen l = size -> valid < size -> size <= valid + n + 1 ->
  valid + n < 2 ^ 26 ->
  exists l', wr l valid m = Ok l' /\
    let s' := mkModeList (Some l') size (u32 (valid + 1)) allocs in
    ml_ok n s' /\ ValidModeNum s' = valid + 1 /\ modes s' = take (Z.to_nat valid) l ++ [m].
Proof.
  intros Hv El Hlt Hsz Hb. rewrite wr_in by lia. eexists. split; [done|]. cbn zeta.
  rewrite wrap_small by (unfold fits; lia). split; [|split; [done|]].
  - constructor; cbn; [lia|]. rewrite zlen_insert. lia.
  - unfold modes. cbn. replace (Z.to_nat (valid + 1)) with (S (Z.to_nat valid)) by lia.
    unfold zlen in *. rewrite (take_S_r _ _ m) by (rewrite list_lookup_insert_eq by lia; done).
    by rewrite take_insert_ge by lia.
Qed.

(** The modes copied to a larger array. *)
Lemma copy_modes l size valid : 0 <= valid <= zlen l -> zlen l <= size < 2 ^ 26 ->
  exists l', memcpy (alloc_modes size) 0 l 0 (zlen l) = Ok l' /\ zlen l' = size /\
    take (Z.to_nat valid) l' = take (Z.to_nat valid) l.
Proof.
  intros Hv Hs.
  destruct (memcpy_ok (alloc_modes size) l 0 0 (zlen l)) as (l' & -> & El & Hrd & _);
    [lia|lia|lia|rewrite alloc_modes_len by lia; lia|lia|].
  rewrite alloc_modes_len in El by lia. exists l'. split; [done|]. split; [done|].
  apply rd_ext; [rewrite !zlen_take by lia; lia|]. intros j Hj. rewrite zlen_take in Hj by lia.
  rewrite !rd_take by lia. apply (Hrd j). lia.
Qed.

(** What [cbMode_AddMode] guarantees of the new list. *)
Record add_post (s s' : mode_list) (ds : list CBiosModeInfoExt) : Prop := {
  ap_ok : ml_ok n s';
  ap_num : ValidModeNum s' <= ValidModeNum s + Z.of_nat (length ds);
  ap_modes : exists ds', took ds' ds /\ modes s' = foldl add_mode (modes s) ds'
}.

Lemma add_post_trans s1 s2 s3 a b : add_post s1 s2 a -> add_post s2 s3 b -> add_post s1 s3 (a ++ b).
Proof.
  intros [_ N1 (a' & T1 & E1)] [O2 N2 (b' & T2 & E2)]. constructor; [done| |].
  - rewrite length_app. lia.
  - exists (a' ++ b'). split; [by apply took_app|]. by rewrite foldl_app, <- E1.
Qed.

Lemma AddMode_ok dev m : TimingNum (EdidStruct dev) = n -> ml_ok n (ModeList dev) ->
  ValidModeNum (ModeList dev) + n < 2 ^ 25 ->
  exists b s', cbMode_AddMode pool dev m = Ok (b, dev <| ModeList := s' |>) /\
    add_post (ModeList dev) s' [m].
Proof.
  intros Htn Hml Hb. destruct dev as [dt smt cmt es s dp]. cbn in *. unfold cbMode_AddMode. cbn [ModeList EdidStruct].
  rewrite Htn. destruct (found_ok s m Hml) as (r & -> & Hex). cbn [rbind]. destruct r as [i|].
  { exists true, s. split; [done|]. constructor; [done|lia|]. exists [m]. split; [apply took_refl|]. cbn.
    unfold add_mode. by rewrite Hex. }
  assert (Hadd : add_mode (modes s) m = modes s ++ [m]) by (unfold add_mode; by rewrite Hex).
  clear Hex. destruct Hml as [H0 Ha]. destruct s as [o size valid allocs]. cbn in *.
  assert (Hdrop : ~ roomy -> took [] [m]) by (intros Hr; split; [constructor; constructor|tauto]).
  destruct o as [l|].
  - destruct Ha as (El & Hv & Hsz). cbn. destruct (Z.leb_spec size valid) as [Hge|Hlt].
    + assert (Hnew : 0 <= n / 2 <= n) by dlia.
      rewrite (wrap_small 32) by (unfold fits; lia).
      destruct (pool allocs) eqn:Hp; cbn [rbind pDeviceModeList ModeListArraySize ValidModeNum].
      * destruct (copy_modes l (size + n / 2) valid) as (l' & E & El' & Ht); [lia..|].
        rewrite <- El. rewrite El in E. rewrite El, E.
        cbn [rbind pDeviceModeList ModeListArraySize ValidModeNum].
        destruct (Z.ltb_spec valid (size + n / 2)) as [Hlt|Hge'].
        -- destruct (put_mode l' (size + n / 2) valid (S allocs) m) as (l2 & -> & Hok & Hnum & Hm); [lia..|].
           cbn [rbind]. eexists true, _. split; [reflexivity|]. constructor; cbn in *; [exact Hok|lia|].
           exists [m]. split; [apply took_refl|]. cbn. rewrite Hadd, Hm. f_equal. exact Ht.
        -- eexists false, _. split; [reflexivity|]. constructor; cbn in *; [|lia|].
           { constructor; cbn; lia. }
           exists []. split; [apply Hdrop; intros [_ ?]; dlia|]. exact Ht.
      * destruct (Z.ltb_spec valid size) as [|_]; [lia|].
        eexists false, _. split; [reflexivity|]. constructor; cbn in *; [|lia|].
        { constructor; cbn; lia. }
        exists []. split; [apply Hdrop; intros [Hall _]; by rewrite Hall in Hp|done].
    + cbn [rbind pDeviceModeList ModeListArraySize ValidModeNum].
      destruct (Z.ltb_spec valid size) as [_|]; [|lia].
      destruct (put_mode l size valid allocs m) as (l2 & -> & Hok & Hnum & Hm); [lia..|].
      cbn [rbind]. eexists true, _. split; [reflexivity|]. constructor; cbn in *; [exact Hok|lia|].
      exists [m]. split; [apply took_refl|]. rewrite Hm. symmetry. exact Hadd.
  - destruct Ha as [-> ->]. cbn. destruct (pool allocs) eqn:Hp; cbn.
    + destruct (Z.leb_spec n 0); [lia|]. cbn [rbind pDeviceModeList ModeListArraySize ValidModeNum].
      destruct (Z.ltb_spec 0 n); [|lia].
      destruct (put_mode (alloc_modes n) n 0 (S allocs) m) as (l2 & -> & Hok & Hnum & Hm);
        [lia|rewrite alloc_modes_len by lia; lia|lia..|].
      cbn [rbind]. eexists true, _. split; [reflexivity|]. constructor; cbn in *; [exact Hok|lia|].
      exists [m]. split; [apply took_refl|]. rewrite Hm. symmetry. exact Hadd.
    + eexists false, _. split; [reflexivity|]. constructor; cbn in *; [constructor; cbn; lia|lia|].
      exists []. split; [apply Hdrop; intros [Hall _]; by rewrite Hall in Hp|done].
Qed.


Lemma equivalent_ok v : 0 <= v <= CBIOS_HDMIFORMATCOUNTS -> is_ok (cbEdidModule_IsEquivalentModeExist v).
Proof.
  intros Hv. unfold cbEdidModule_IsEquivalentModeExist. destruct (Z.eqb_spec v 0); [by eexists|].
  destruct (rd_in HDMIFormatTimingTbl (v - 1)) as [t ->].
  { change (zlen HDMIFormatTimingTbl) with 111. change CBIOS_HDMIFORMATCOUNTS with 111 in Hv. lia. }
  cbn [rbind]. destruct (_ =? 0); [by eexists|]. destruct (cbIsCeaNTSCCompatMode t); by eexists.
Qed.

Lemma AddDeviceMode_ok dev m t : TimingNum (EdidStruct dev) = n -> ml_ok n (ModeList dev) ->
  ValidModeNum (ModeList dev) + n + 1 < 2 ^ 25 -> 0 <= FormatVIC (FullTiming t) <= CBIOS_HDMIFORMATCOUNTS ->
  exists b s', cbMode_AddDeviceMode pool dev m t = Ok (b, dev <| ModeList := s' |>) /\
    add_post (ModeList dev) s' (device_modes (is_cea861 (EdidStruct dev)) t m).
Proof.
  intros Htn Hml Hb Hv. unfold cbMode_AddDeviceMode, device_modes, equivalent.
  assert (H1 : exists e,
    (if is_cea861 (EdidStruct dev) && negb (FormatVIC (FullTiming t) =? 0)
     then cbEdidModule_IsEquivalentModeExist (FormatVIC (FullTiming t)) else Ok None) = Ok e /\
    (if is_cea861 (EdidStruct dev) && negb (FormatVIC (FullTiming t) =? 0)
     then match cbEdidModule_IsEquivalentModeExist (FormatVIC (FullTiming t)) with Ok e => e | Err _ => None end
     else None) = e).
  { destruct (_ && _); [|by exists None]. destruct (equivalent_ok _ Hv) as [e ->]. by exists e. }
  destruct H1 as (e & -> & ->). cbn [rbind].
  destruct e as [[r c]|]; [|apply AddMode_ok; done || lia].
  change (m <| mode_RefreshRate := r |> <| mode_PixelClock := c |> <| isPreferredMode := 0 |>)
    with (equivalent_mode m (r, c)).
  assert (Htwo : forall a b, exists ok s',
    (let! '(_, dev) := cbMode_AddMode pool dev a in cbMode_AddMode pool dev b)
      = Ok (ok, dev <| ModeList := s' |>) /\ add_post (ModeList dev) s' [a; b]).
  { intros a b. destruct (AddMode_ok dev a Htn Hml) as (b1 & s1 & -> & A1); [lia|]. cbn [rbind].
    destruct (AddMode_ok (dev <| ModeList := s1 |>) b) as (b2 & s2 & -> & A2).
    { exact Htn. } { exact (ap_ok _ _ _ A1). }
    { pose proof (ap_num _ _ _ A1) as Hnum. cbn in Hnum |- *. lia. }
    exists b2, s2. split; [done|]. by apply (add_post_trans _ s1 _ [a] [b]). }
  replace (negb (isPreferredMode m =? 0) || (isPreferredMode m =? 0) && (r <? mode_RefreshRate m))
    with (negb (isPreferredMode m =? 0) || (fst (r, c) <? mode_RefreshRate m))
    by (cbn; by destruct (isPreferredMode m =? 0)).
  destruct (negb _ || _).
  - destruct (Htwo m (equivalent_mode m (r, c))) as (ok & s' & E & A).
    destruct (cbMode_AddMode pool dev m) as [[b1 d1]|]; [|discriminate]. cbn [rbind] in *.
    rewrite E. cbn [rbind]. by exists b1, s'.
  - apply Htwo.
Qed.

(** ** Reporting the selected timings *)

Context (pcbe : CBIOS_EXTENSION_COMMON) (Device : Z) (Filter : CBIOS_MODE_FILTER_PARA).
Context (dev : CBIOS_DEVICE_COMMON).
Hypothesis Htn : TimingNum (EdidStruct dev) = n.

Let cea := is_cea861 (EdidStruct dev).
Let skip t := cbMode_NeedFilterMode pcbe t Device (CurrentMonitorType dev) Filter.

(** After reporting [cs]. *)
Definition report_inv (cs : list CBIOS_DEVICE_TIMING_INFO) (s : mode_list) (has : bool) : Prop :=
  ml_ok n s /\ ValidModeNum s <= 2 * Z.of_nat (length cs) /\ has = snd (reported cea skip cs) /\
  exists ds', took ds' (fst (reported cea skip cs)) /\ modes s = foldl add_mode [] ds'.

Lemma device_modes_length c t m : (length (device_modes c t m) <= 2)%nat.
Proof. unfold device_modes. destruct (equivalent c t); [|cbn; lia]. destruct (_ || _); cbn; lia. Qed.

Lemma report_ok cs l s has t :
  report_inv cs s has -> Z.of_nat (length cs) < n -> 4 * n < 2 ^ 25 ->
  0 <= FormatVIC (FullTiming t) <= CBIOS_HDMIFORMATCOUNTS ->
  exists s' has', report_timing pool pcbe Device Filter t (device_with dev l s, has) = Ok (device_with dev l s', has') /\
    report_inv (cs ++ [t]) s' has'.
Proof.
  intros (Hml & Hnum & Hhas & ds & Ht & Hm) Hlen Hb Hv. unfold report_timing, report_inv.
  change (cbMode_NeedFilterMode pcbe t Device (CurrentMonitorType (device_with dev l s)) Filter) with (skip t).
  unfold reported. rewrite foldl_app. fold (reported cea skip cs). cbn [foldl].
  destruct (reported cea skip cs) as [rs rh]. cbn [fst snd] in *. subst rh. unfold report_one.
  rewrite length_app. cbn [length].
  destruct (skip t).
  - exists s, has. split; [done|]. split; [done|]. split; [lia|]. split; [done|]. by exists ds.
  - destruct (AddDeviceMode_ok (device_with dev l s) (mode_of t (negb (IsPreferMode t =? 0) && negb has)) t)
      as (b & s' & -> & A); [done|done|cbn; lia|done|].
    change (is_cea861 (EdidStruct (device_with dev l s))) with cea in A.
    cbn [rbind]. eexists s', _. split; [reflexivity|]. destruct A as [Hok Hnum' (ds2 & Ht2 & Hm2)].
    split; [done|]. split.
    + pose proof (device_modes_length cea t (mode_of t (negb (IsPreferMode t =? 0) && negb has))).
      cbn [ModeList device_with upd] in Hnum'. change (ModeList (device_with dev l s)) with s in Hnum'. lia.
    + split; [done|]. exists (ds ++ ds2). split; [by apply took_app|]. rewrite foldl_app, <- Hm. exact Hm2.
Qed.

End Add.

(** ** The whole list *)

(** The timings of a monitor, as the parser leaves them. *)
Record monitor_ok (s : CBIOS_EDID_STRUCTURE_DATA) : Prop := {
  mo_num : 1 <= TimingNum s < 2 ^ 23;
  mo_list : exists l, pDeviceTimingList s = Some l /\ TimingNum s <= zlen l;
  mo_timings : Forall (fun t => timing_fits t /\ 0 <= FormatVIC (FullTiming t) <= CBIOS_HDMIFORMATCOUNTS)
                 (timings s)
}.

Lemma tim_timings s l j : pDeviceTimingList s = Some l -> 0 <= j < TimingNum s -> TimingNum s <= zlen l ->
  tim l j ∈ timings s.
Proof.
  intros E Hj Hl. unfold timings. rewrite E. pose proof (rd_tim l j ltac:(lia)) as Hr.
  rewrite <- (rd_take l (TimingNum s)) in Hr by lia. apply rd_inv in Hr as [_ Hr].
  by eapply list_elem_of_lookup_2.
Qed.

Lemma timings_of_all s l : pDeviceTimingList s = Some l -> 0 <= TimingNum s <= zlen l ->
  timings_of l (seqZ 0 (TimingNum s)) = map base (timings s).
Proof.
  intros E Hl. unfold timings_of, timings. rewrite E. apply rd_ext.
  { unfold zlen in *. rewrite !length_map, length_seqZ, length_take. lia. }
  intros j Hj. assert (Hj' : 0 <= j < TimingNum s).
  { unfold zlen in Hj. rewrite length_map, length_seqZ in Hj. lia. }
  transitivity (Ok (base (tim l j))).
  - apply rd_inv. split; [lia|]. rewrite list_lookup_fmap, lookup_seqZ_lt by lia. cbn. do 3 f_equal. lia.
  - symmetry. apply rd_inv. split; [lia|]. rewrite list_lookup_fmap, lookup_take_lt by lia.
    pose proof (rd_tim l j ltac:(lia)) as [_ ->]%rd_inv. done.
Qed.

Lemma timings_of_same l0 l cs : same_timings l0 l -> Forall (Z.le 0) cs -> timings_of l cs = timings_of l0 cs.
Proof. intros [_ S] Hc. unfold timings_of. induction Hc; cbn; [done|]. rewrite S by done. by f_equal. Qed.

(** The loop that clears the marks. *)
Lemma clear_marks dev l n : 0 <= n <= zlen l ->
  exists l', for_up (Z.to_nat n) 0 (set_merged 0) (with_list dev l) = Ok (with_list dev l') /\
    same_timings l l' /\ forall j, 0 <= j < n -> unmerged l' j.
Proof.
  intros Hn.
  destruct (for_up_rule (fun i d => exists l', d = with_list dev l' /\ same_timings l l' /\
              forall j, 0 <= j < i -> unmerged l' j) (Z.to_nat n) 0 (set_merged 0) (with_list dev l))
    as (d & E & l' & -> & S & Hu).
  - intros i d Hi (l' & -> & S & Hu). assert (Hl : 0 <= i < zlen l') by (destruct S as [-> _]; lia).
    rewrite set_merged_ok by done. eexists. split; [reflexivity|]. eexists. split; [reflexivity|]. split.
    + eapply same_timings_trans; [exact S|]. by apply same_timings_mark.
    + intros j Hj. unfold unmerged. rewrite tim_insert by lia.
      destruct (Z.eqb_spec j i) as [->|]; [done|apply Hu; lia].
  - exists l. split; [done|]. split; [done|]. intros; lia.
  - exists l'. split; [done|]. split; [done|]. intros j Hj. apply Hu. lia.
Qed.

Lemma with_list_id dev l : pDeviceTimingList (EdidStruct dev) = Some l -> with_list dev l = dev.
Proof. destruct dev as [? ? ? [] ? ?]. cbn. by intros ->. Qed.

Lemma foldl_add_nil ds : foldl add_mode [] ds = [] -> ds = [].
Proof.
  destruct ds as [|d ds]; [done|]. cbn. assert (H : forall ds ms, ms <> [] -> foldl add_mode ms ds <> []).
  { clear. intros ds. induction ds as [|d ds IH]; [done|]. intros ms Hms. cbn. apply IH.
    unfold add_mode. destruct (existsb _ _); [done|]. by destruct ms. }
  intros E. by apply H in E.
Qed.

(** The last statement of the function. *)
Lemma prefer_first_ok n dev (s : mode_list) (has : bool) : ml_ok n s -> ModeList dev = s ->
  exists s',
    (match pDeviceModeList (ModeList dev) with
     | Some l =>
         if has then Ok dev
         else let! m := rd l 0 in
              let! l := wr l 0 (m <| isPreferredMode := 1 |>) in
              Ok (dev <| ModeList ::= fun s => s <| pDeviceModeList := Some l |> |>)
     | None => Ok dev
     end) = Ok (dev <| ModeList := s' |>) /\
    ml_ok n s' /\ modes s' = prefer_first has (modes s).
Proof.
  intros Hml E. rewrite E. destruct dev as [dt smt cmt es s0 dp]. cbn in E. subst s0.
  pose proof Hml as [H0 Ha]. destruct (pDeviceModeList s) as [l|] eqn:El.
  2: { exists s. split; [done|]. split; [done|]. unfold modes. by rewrite El. }
  destruct Ha as (Hz & Hv & Hsz). destruct has.
  { exists s. split; [done|]. split; [done|]. unfold prefer_first. by destruct (modes s). }
  destruct l as [|m l]; [change (zlen []) with 0 in Hz; lia|].
  rewrite (proj2 (rd_inv (m :: l) 0 m)) by done. cbn [rbind]. rewrite wr_in by lia. cbn [rbind].
  exists (s <| pDeviceModeList := Some ((m <| isPreferredMode := 1 |>) :: l) |>). split; [done|]. split.
  - constructor; cbn; [lia|]. rewrite zlen_cons in *. lia.
  - unfold modes. rewrite El. cbn [pDeviceModeList ValidModeNum upd].
    change (ValidModeNum (s <| pDeviceModeList := Some ((m <| isPreferredMode := 1 |>) :: l) |>)) with (ValidModeNum s).
    replace (Z.to_nat (ValidModeNum s)) with (S (Z.to_nat (ValidModeNum s - 1))) by lia. done.
Qed.

(** What the function reports, when it gets a filter. *)
Lemma make_list_ok pool pcbe dev Device Filter :
  monitor_ok (EdidStruct dev) -> cbMode_GetFilterPara pcbe dev (DeviceType dev) = Ok Filter ->
  let n := TimingNum (EdidStruct dev) in
  let ts := map base (timings (EdidStruct dev)) in
  let skip t := cbMode_NeedFilterMode pcbe t Device (CurrentMonitorType dev) Filter in
  exists l s cs ds,
    cbMode_MakeDeviceModeList pool pcbe dev Device = Ok (ValidModeNum s, device_with dev l s) /\
    (forall l0, pDeviceTimingList (EdidStruct dev) = Some l0 -> same_timings l0 l) /\
    ml_ok n s /\ selection ts cs /\ cs = select ts /\
    took pool n ds (fst (reported (is_cea861 (EdidStruct dev)) skip cs)) /\
    modes s = prefer_first (snd (reported (is_cea861 (EdidStruct dev)) skip cs)) (foldl add_mode [] ds).
Proof.
  intros [Hn (l0 & El & Hl) Hts] HF. cbn zeta. set (n := TimingNum (EdidStruct dev)) in *.
  set (s0 := mkModeList None 0 0 (ModeAllocs (ModeList dev))).
  destruct (clear_marks (dev <| ModeList := s0 |>) l0 n) as (l1 & E1 & S1 & Hu1); [lia|].
  rewrite Forall_forall in Hts.
  assert (Hfit : forall j, 0 <= j < n -> base (tim l1 j) = base (tim l0 j) /\ tim l0 j ∈ timings (EdidStruct dev)).
  { intros j Hj. split; [apply S1; lia|]. by apply tim_timings. }
  destruct (make_rounds n l1) with (pool := pool) (pcbe := pcbe) (Device := Device) (Filter := Filter)
    (dev := dev) (P := report_inv pool n pcbe Device Filter dev) (fuel := S (Z.to_nat n)) (l := l1)
    (cs := @nil Z) (ml := s0) (has := false) as (l2 & cs & s & has & E2 & S2 & Hsel & Hcs & HP).
  - destruct S1 as [-> _]. lia.
  - intros j Hj. destruct (Hfit j Hj) as [Hb Hin]. destruct (Hts _ Hin) as [[] _].
    constructor; [change (fits 16 (XRes (FullTiming (base (tim l1 j)))))
      |change (fits 16 (YRes (FullTiming (base (tim l1 j)))))
      |change (fits 16 (RefreshRate (FullTiming (base (tim l1 j)))))
      |change (fits 32 (PixelClock (FullTiming (base (tim l1 j)))))]; rewrite Hb; done.
  - done.
  - intros cs l s has t HP Hlen Ht. apply report_ok; [lia|done|done|done|lia|].
    apply list_elem_of_fmap in Ht as (j & -> & Hj%elem_of_seqZ). destruct (Hfit j) as [-> Hin]; [lia|].
    apply (Hts _ Hin).
  - apply out_inv_start. apply Hu1.
  - split; [constructor; cbn; lia|]. split; [cbn; lia|]. split; [done|]. exists []. by split.
  - cbn [length]. lia.
  - destruct HP as (Hml & _ & -> & ds & Ht & Hm).
    destruct (prefer_first_ok n (device_with dev l2 s) s
                (snd (reported (is_cea861 (EdidStruct dev)) (fun t =>
                   cbMode_NeedFilterMode pcbe t Device (CurrentMonitorType dev) Filter) cs)) Hml eq_refl)
      as (s' & E3 & Hml' & Hm').
    exists l2, s', cs, ds. rewrite Hm' , Hm. split.
    + unfold cbMode_MakeDeviceModeList.
      change (dev <| ModeList ::= fun s => mkModeList None 0 0 (ModeAllocs s) |>) with (dev <| ModeList := s0 |>).
      change (TimingNum (EdidStruct (dev <| ModeList := s0 |>))) with n.
      destruct (Z.eqb_spec n 0); [lia|].
      change (cbMode_GetFilterPara pcbe (dev <| ModeList := s0 |>) (DeviceType (dev <| ModeList := s0 |>)))
        with (cbMode_GetFilterPara pcbe dev (DeviceType dev)).
      rewrite HF. cbn [rbind]. rewrite (with_list_id (dev <| ModeList := s0 |>) l0) in E1 by done.
      rewrite E1. cbn [rbind]. change (with_list (dev <| ModeList := s0 |>) l1) with (device_with dev l1 s0).
      rewrite E2. cbn [rbind]. rewrite E3. done.
    + split. { intros l0' E0. rewrite El in E0. injection E0 as <-. by eapply same_timings_trans. }
      assert (Hall : timings_of l1 (seqZ 0 n) = map base (timings (EdidStruct dev))).
      { rewrite (timings_of_same l0 l1); [|done|].
        * by rewrite <- (timings_of_all (EdidStruct dev) l0) by (done || lia).
        * apply Forall_forall. intros j Hj%elem_of_seqZ. lia. }
      rewrite unmarked_all, Z.sub_0_r in Hcs by done. rewrite <- Hall. by split_and!.
Qed.
