(* ===== verification/ModeSpec.v ===== *)
(** * The mode list of a device

    What the list of modes is, as a function of the timings of the monitor, and
    what holds of it even when the memory pool fails: no mode twice, at most one
    preferred, every mode one of the monitor's timings. *)
From S2P Require Import Prelude CbUtil Timing TimingTables EdidTypes EdidTiming Mode ModeOrder ModeSelect ModeList.
From stdpp Require Import list sorting.
Local Open Scope Z_scope.

(** ** What is reported *)

Definition preferred (m : CBiosModeInfoExt) : Prop := isPreferredMode m <> 0.

#[export] Instance preferred_dec m : Decision (preferred m).
Proof. unfold preferred. apply _. Defined.

(** The number of preferred modes. *)
Definition npref (ms : list CBiosModeInfoExt) : nat := length (filter preferred ms).

Section Reported.
Context (cea : bool) (skip : CBIOS_DEVICE_TIMING_INFO -> bool).

Lemma reported_snoc cs t : reported cea skip (cs ++ [t]) = report_one cea skip (reported cea skip cs) t.
Proof. unfold reported. by rewrite foldl_app. Qed.

Lemma mode_in_device_modes t m : m ∈ device_modes cea t m.
Proof.
  unfold device_modes. destruct (equivalent cea t); [|by apply list_elem_of_singleton].
  destruct (_ || _); set_solver.
Qed.

(** A mode that was reported comes from a timing that passed the filter. *)
Definition comes_from (t : CBIOS_DEVICE_TIMING_INFO) (m : CBiosModeInfoExt) : Prop :=
  exists pref, m ∈ device_modes cea t (mode_of t pref).

Lemma reported_from cs m : m ∈ fst (reported cea skip cs) ->
  exists c, c ∈ cs /\ skip c = false /\ comes_from c m.
Proof.
  induction cs as [|t cs IH] using rev_ind; [set_solver|]. rewrite reported_snoc.
  destruct (reported cea skip cs) as [ds has]. cbn [fst] in IH. unfold report_one.
  destruct (skip t) eqn:Hs; cbn [fst].
  - intros (c & Hc & Hr)%IH. exists c. split; [set_solver|done].
  - intros [(c & Hc & Hr)%IH|Hm]%elem_of_app.
    + exists c. split; [set_solver|done].
    + exists t. split; [set_solver|]. split; [done|]. by eexists.
Qed.

Lemma reported_all cs c : c ∈ cs -> skip c = false -> exists pref, mode_of c pref ∈ fst (reported cea skip cs).
Proof.
  intros Hc Hs. induction cs as [|t cs IH] using rev_ind; [set_solver|]. rewrite reported_snoc.
  destruct (reported cea skip cs) as [ds has]. cbn [fst] in IH. unfold report_one.
  apply elem_of_app in Hc as [Hc| ->%list_elem_of_singleton].
  - destruct (IH Hc) as [pref Hp]. exists pref. destruct (skip t); cbn [fst]; [done|]. set_solver.
  - rewrite Hs. cbn [fst]. eexists. apply elem_of_app. right. apply mode_in_device_modes.
Qed.

Lemma npref_app a b : npref (a ++ b) = (npref a + npref b)%nat.
Proof. unfold npref. by rewrite filter_app, length_app. Qed.

Lemma npref_device_modes t pref :
  npref (device_modes cea t (mode_of t pref)) = (if pref then 1 else 0)%nat.
Proof.
  unfold device_modes. destruct (equivalent cea t) as [rc|]; [|by destruct pref].
  destruct (_ || _); destruct pref; done.
Qed.

Lemma npref_reported cs :
  npref (fst (reported cea skip cs)) = (if snd (reported cea skip cs) then 1 else 0)%nat.
Proof.
  induction cs as [|t cs IH] using rev_ind; [done|]. rewrite reported_snoc.
  destruct (reported cea skip cs) as [ds has]. cbn [fst snd] in *. unfold report_one.
  destruct (skip t); [done|]. cbn [fst snd]. rewrite npref_app, IH, npref_device_modes.
  by destruct has, (negb (IsPreferMode t =? 0)).
Qed.

End Reported.

(** ** The list without duplicates *)

(** What [cbMode_AddMode] compares. *)
Definition mode_key (m : CBiosModeInfoExt) : Z * Z * Z * Z * Z * Z :=
  (mode_XRes m, mode_YRes m, mode_PixelClock m, mode_XTotal m, mode_YTotal m, isInterlaceMode m).

Lemma same_mode_key m1 m2 : same_mode m1 m2 = true <-> mode_key m1 = mode_key m2.
Proof.
  unfold same_mode, mode_key. rewrite !andb_true_iff, !Z.eqb_eq. split.
  - intros (((((-> & ->) & ->) & ->) & ->) & ->). done.
  - by intros [= -> -> -> -> -> ->].
Qed.

Lemma add_mode_cases ms m :
  add_mode ms m = ms /\ mode_key m ∈ map mode_key ms \/
  add_mode ms m = ms ++ [m] /\ mode_key m ∉ map mode_key ms.
Proof.
  unfold add_mode. destruct (existsb _ ms) eqn:E; [left|right]; split; try done.
  - apply existsb_exists in E as (x & Hx & Hs). apply same_mode_key in Hs. rewrite <- Hs.
    apply list_elem_of_fmap. exists x. split; [done|by apply list_elem_of_In].
  - intros (x & Hk & Hx)%list_elem_of_fmap. apply not_true_iff_false in E. apply E.
    apply existsb_exists. exists x. split; [by apply list_elem_of_In|]. by apply same_mode_key.
Qed.

Lemma add_modes_NoDup ds ms : NoDup (map mode_key ms) -> NoDup (map mode_key (foldl add_mode ms ds)).
Proof.
  revert ms. induction ds as [|d ds IH]; intros ms H; [done|]. cbn. apply IH.
  destruct (add_mode_cases ms d) as [[-> _]|[-> Hn]]; [done|]. rewrite map_app. apply NoDup_app.
  split; [done|]. split; [|apply NoDup_singleton]. by intros x Hx ->%list_elem_of_singleton.
Qed.

Lemma add_modes_sublist ds ms : foldl add_mode ms ds `sublist_of` ms ++ ds.
Proof.
  revert ms. induction ds as [|d ds IH]; intros ms; cbn; [by rewrite app_nil_r|].
  etrans; [apply IH|]. destruct (add_mode_cases ms d) as [[-> _]|[-> _]].
  - apply sublist_app; [done|]. by constructor.
  - by rewrite <- app_assoc.
Qed.

Lemma add_modes_keep ds ms k : k ∈ map mode_key ms -> k ∈ map mode_key (foldl add_mode ms ds).
Proof.
  revert ms. induction ds as [|d ds IH]; intros ms H; [done|]. cbn. apply IH.
  destruct (add_mode_cases ms d) as [[-> _]|[-> _]]; [done|]. rewrite map_app. apply elem_of_app. by left.
Qed.

Lemma add_modes_all ds ms d : d ∈ ds -> mode_key d ∈ map mode_key (foldl add_mode ms ds).
Proof.
  revert ms. induction ds as [|d' ds IH]; intros ms H; [set_solver|]. cbn.
  apply elem_of_cons in H as [->|H]; [|by apply IH]. apply add_modes_keep.
  destruct (add_mode_cases ms d') as [[-> ?]|[-> _]]; [done|]. rewrite map_app. apply elem_of_app. right. by apply list_elem_of_singleton.
Qed.

Lemma npref_sublist a b : a `sublist_of` b -> (npref a <= npref b)%nat.
Proof.
  unfold npref. induction 1 as [|x a b _ IH|x a b _ IH]; [done| |]; rewrite !filter_cons;
    destruct (decide (preferred x)); cbn; lia.
Qed.

Lemma keys_prefer_first has ms : map mode_key (prefer_first has ms) = map mode_key ms.
Proof. by destruct ms, has. Qed.

Lemma npref_prefer_first (has : bool) ms : (npref ms <= (if has then 1 else 0))%nat -> (npref (prefer_first has ms) <= 1)%nat.
Proof.
  destruct ms as [|m ms], has; cbn [prefer_first]; try (unfold npref; cbn; lia).
  unfold npref. rewrite !filter_cons. intros H. destruct (decide (preferred m)); [cbn in H; lia|].
  destruct (decide _); cbn; lia.
Qed.

Lemma elem_prefer_first has ms m : m ∈ prefer_first has ms ->
  exists m', m' ∈ ms /\ (m = m' \/ m = m' <| isPreferredMode := 1 |>).
Proof.
  destruct ms as [|m0 ms]; cbn; [set_solver|]. intros [->|H]%elem_of_cons.
  - exists m0. split; [set_solver|]. destruct has; tauto.
  - exists m. split; [set_solver|]. by left.
Qed.

(** The filter looks at what is shown of a timing, so timings that stand for
    each other pass it together. *)
Lemma filter_shown pcbe t1 t2 Device MonitorType Filter : appearance t1 = appearance t2 ->
  cbMode_NeedFilterMode pcbe t1 Device MonitorType Filter =
  cbMode_NeedFilterMode pcbe t2 Device MonitorType Filter.
Proof.
  unfold appearance, progressive. intros [= Hx Hy Hr Hi Hc].
  assert (Hil : (IsInterLaced t1 =? 0) = (IsInterLaced t2 =? 0)) by (by destruct (_ =? 0), (_ =? 0)).
  unfold cbMode_NeedFilterMode, max_mode. by rewrite Hx, Hy, Hr, Hil, Hc.
Qed.

(** ** The list *)

(** A mode shows a timing: same resolution, clock and scan. *)
Definition mode_shows (m : CBiosModeInfoExt) (t : CBIOS_DEVICE_TIMING_INFO) : Prop :=
  mode_XRes m = XRes (FullTiming t) /\ mode_YRes m = YRes (FullTiming t) /\
  mode_PixelClock m = PixelClock (FullTiming t) /\ (isInterlaceMode m =? 0) = (IsInterLaced t =? 0).

Section List.
Context (pool : nat -> bool) (pcbe : CBIOS_EXTENSION_COMMON) (dev : CBIOS_DEVICE_COMMON) (Device : Z)
  (Filter : CBIOS_MODE_FILTER_PARA).

Let ts := map base (timings (EdidStruct dev)).
Let cea := is_cea861 (EdidStruct dev).
Let skip t := cbMode_NeedFilterMode pcbe t Device (CurrentMonitorType dev) Filter.

Lemma monitor_fits : monitor_ok (EdidStruct dev) -> Forall timing_fits ts.
Proof.
  intros [_ _ Hts]. apply Forall_map. eapply Forall_impl; [exact Hts|]. intros t [[] _]. by constructor.
Qed.

Lemma selected_shown cs t has : selection ts cs -> t ∈ timings (EdidStruct dev) -> skip t = false ->
  exists m, m ∈ prefer_first has (foldl add_mode [] (fst (reported cea skip cs))) /\ mode_shows m t.
Proof.
  intros [_ _ Hc] Ht Hs. destruct (Hc (base t)) as (c & Hin & Hsh & _); [by apply list_elem_of_fmap; exists t|].
  rewrite shown_base in Hsh.
  assert (Hsc : skip c = false) by (unfold skip in *; by rewrite <- (filter_shown pcbe t c)).
  destruct (reported_all cea skip cs c Hin Hsc) as [pref Hp].
  pose proof (add_modes_all _ [] _ Hp) as Hk. rewrite <- (keys_prefer_first has) in Hk.
  apply list_elem_of_fmap in Hk as (m & Hk & Hm). exists m. split; [done|].
  unfold mode_key in Hk. cbn in Hk. injection Hk as Hx Hy Hp' _ _ Hi. unfold appearance, progressive in Hsh.
  injection Hsh as Hx' Hy' _ Hi' Hp''. unfold mode_shows. rewrite <- Hi. split_and!; try congruence.
  by destruct (_ =? 0), (_ =? 0).
Qed.

(** Every mode listed is one of a timing that passes the filter. *)
Lemma listed_from n s cs ds : selection ts cs -> took pool n ds (fst (reported cea skip cs)) ->
  modes s = prefer_first (snd (reported cea skip cs)) (foldl add_mode [] ds) ->
  forall m, m ∈ modes s -> exists t pref, t ∈ timings (EdidStruct dev) /\ skip t = false /\
    comes_from cea t (m <| isPreferredMode := pref |>).
Proof.
  intros Hsel [Ht _] Hm m. rewrite Hm. intros (m' & Hm' & Hmm)%elem_prefer_first.
  assert (Hin : m' ∈ fst (reported cea skip cs)).
  { by eapply elem_of_sublist, Ht; eapply elem_of_sublist, (add_modes_sublist ds []). }
  apply reported_from in Hin as (c & Hc & Hs & Hf). apply (sel_from _ _ Hsel) in Hc.
  apply list_elem_of_fmap in Hc as (t & -> & Hin). exists t, (isPreferredMode m').
  split; [done|]. split; [done|]. destruct Hf as [pref Hf]. exists pref.
  replace (m <| isPreferredMode := isPreferredMode m' |>) with m'; [done|].
  destruct Hmm as [->| ->]; by destruct m'.
Qed.

(** C21. [cbMode_MakeDeviceModeList] ends, and when the memory pool does not
    fail and the monitor has two timings or more, the list is the one the
    abstract procedure gives, to the entry: [select] takes the timings in rounds;
    a round goes over those left, in their order, and holds the best so far: one
    that shows the same as the best is merged with it, the later of the two
    staying if it is preferred and the earlier one if not, and one that shows
    something else and ranks higher becomes the best. Those selected that pass
    the filter are reported in the order of the rounds, each CEA format with its 1000/1001 variant, no mode twice, the first
    preferred timing marked and, without one, the first mode. The selected
    timings descend strictly in rank and each timing has one that shows the
    same and ranks no lower, so every timing that passes the filter is shown by
    a mode of the list. Timings that show the same are merged into one, as the
    code means to, when none that shows something else ranks between them. *)
Theorem mode_list_refines :
  monitor_ok (EdidStruct dev) -> cbMode_GetFilterPara pcbe dev (DeviceType dev) = Ok Filter ->
  (forall k, pool k = true) -> 2 <= TimingNum (EdidStruct dev) ->
  exists dev',
    cbMode_MakeDeviceModeList pool pcbe dev Device = Ok (zlen (modes (ModeList dev')), dev') /\
    (let '(ds, has) := reported cea skip (select ts) in
     modes (ModeList dev') = prefer_first has (foldl add_mode [] ds)) /\
    selection ts (select ts) /\
    (forall t, t ∈ timings (EdidStruct dev) -> skip t = false ->
      exists m, m ∈ modes (ModeList dev') /\ mode_shows m t) /\
    (unmixed ts -> NoDup (map appearance (select ts))).
Proof.
  intros Hok HF Hp H2.
  destruct (make_list_ok pool pcbe dev Device Filter Hok HF) as (l & s & cs & ds & E & _ & Hml & Hsel & -> & Ht & Hm).
  exists (device_with dev l s). change (ModeList (device_with dev l s)) with s. fold ts in Hsel, Ht, Hm.
  rewrite (zlen_modes _ _ Hml). split; [done|].
  destruct Ht as [_ Ht]. rewrite (Ht (conj Hp H2)) in Hm. split_and!; [|done| |].
  - fold cea skip in Hm. by destruct (reported cea skip (select ts)).
  - intros t Hin Hs. rewrite Hm. by apply selected_shown.
  - apply select_merges. by apply monitor_fits.
Qed.

(** C23. Whatever the memory pool does, the list that
    [cbMode_MakeDeviceModeList] leaves has no two modes that [cbMode_AddMode]
    calls the same, at most one preferred mode, only modes of timings of the
    monitor that pass the filter, and fits its array. *)
Theorem mode_list_invariant :
  monitor_ok (EdidStruct dev) -> cbMode_GetFilterPara pcbe dev (DeviceType dev) = Ok Filter ->
  exists dev',
    cbMode_MakeDeviceModeList pool pcbe dev Device = Ok (zlen (modes (ModeList dev')), dev') /\
    NoDup (map mode_key (modes (ModeList dev'))) /\
    (npref (modes (ModeList dev')) <= 1)%nat /\
    (forall m, m ∈ modes (ModeList dev') -> exists t pref, t ∈ timings (EdidStruct dev) /\ skip t = false /\
       comes_from cea t (m <| isPreferredMode := pref |>)) /\
    ml_ok (TimingNum (EdidStruct dev)) (ModeList dev').
Proof.
  intros Hok HF.
  destruct (make_list_ok pool pcbe dev Device Filter Hok HF) as (l & s & cs & ds & E & _ & Hml & Hsel & Hcs & Ht & Hm).
  exists (device_with dev l s). change (ModeList (device_with dev l s)) with s.
  rewrite (zlen_modes _ _ Hml). split; [done|].
  pose proof (listed_from _ s cs ds Hsel Ht Hm) as Hfrom. destruct Ht as [Ht _].
  fold cea skip in Ht, Hm. pose proof (add_modes_sublist ds []) as Hsub. cbn [app] in Hsub.
  rewrite Hm. split; [|split; [|split; [|done]]].
  - rewrite keys_prefer_first. apply add_modes_NoDup. constructor.
  - apply npref_prefer_first. rewrite <- (npref_reported cea skip). apply npref_sublist. by etrans.
  - by rewrite <- Hm.
Qed.

End List.

(** ** A device *)

Definition hdmi_timing (vic : Z) (pref : bool) : CBIOS_DEVICE_TIMING_INFO :=
  zero_dti <| FullTiming := nth (Z.to_nat (vic - 1)) HDMIFormatTimingTbl zero_timing |>
    <| IsPreferMode := b2z pref |>.

(** A timing of a detailed descriptor. *)
Definition detailed_timing (x y rr clk xt yt : Z) (pref : bool) : CBIOS_DEVICE_TIMING_INFO :=
  zero_dti <| IsPreferMode := b2z pref |> <| FullTiming :=
    zero_timing <| XRes := x |> <| YRes := y |> <| RefreshRate := rr |> <| PixelClock := clk |>
      <| HorTotal := xt |> <| VerTotal := yt |> |>.

(** An HDMI monitor on the port DP1 of a chip with 1 GB of frame buffer. *)
Definition ex_pcbe : CBIOS_EXTENSION_COMMON :=
  mkExtension CHIPID_CHX004 0x1D17 0 0x10 10 0 0 0 0 6000000 3000000 6000000.

Definition ex_device (ts : list CBIOS_DEVICE_TIMING_INFO) : CBIOS_DEVICE_COMMON :=
  mkDevice CBIOS_TYPE_DP1 CBIOS_MONITOR_TYPE_HDMI CBIOS_MONITOR_TYPE_HDMI
    (zero_edid_struct <| TimingNum := zlen ts |> <| TimingArraySize := zlen ts |>
       <| pDeviceTimingList := Some ts |> <| Attribute := set_cap CAP_Monitor 1 zero_attrib |>)
    (mkModeList None 0 0 0) (mkDpMonitor 0 0 0 CBIOS_DP_STANDARD 0 0 0 0).

Definition always (_ : nat) : bool := true.

(** Resolution, rate, clock and preference of the modes made. *)
Definition ex_modes (ts : list CBIOS_DEVICE_TIMING_INFO) : res (list (Z * Z * Z * Z * Z)) :=
  let! '(_, dev) := cbMode_MakeDeviceModeList always ex_pcbe (ex_device ts) CBIOS_TYPE_DP1 in
  Ok (map (fun m => (mode_XRes m, mode_YRes m, mode_RefreshRate m, mode_PixelClock m, isPreferredMode m))
        (modes (ModeList dev))).

Example ex_two_formats :
  ex_modes [hdmi_timing 4 false; hdmi_timing 16 true] =
  Ok [(1920, 1080, 6000, 1485000, 1); (1920, 1080, 5994, 1483520, 0);
      (1280, 720, 6000, 742500, 0); (1280, 720, 5994, 741760, 0)].
Proof. vm_compute. reflexivity. Qed.

Definition ex_timings : list CBIOS_DEVICE_TIMING_INFO := [hdmi_timing 4 false; hdmi_timing 16 true].

Lemma ex_device_ok : monitor_ok (EdidStruct (ex_device ex_timings)).
Proof.
  constructor.
  - by vm_compute.
  - eexists. split; [reflexivity|]. by vm_compute.
  - change (timings (EdidStruct (ex_device ex_timings))) with ex_timings.
    repeat apply Forall_cons_2; try apply Forall_nil_2; (split; [constructor|]); by vm_compute.
Qed.

(** An analog mode preferred over the same one with larger blanking, with which
    it is merged. *)
Definition ex_merged : list CBIOS_DEVICE_TIMING_INFO :=
  [detailed_timing 1920 1080 6000 1485000 2208 1121 false; hdmi_timing 4 false;
   detailed_timing 1920 1080 6000 1485000 2200 1125 true].

Lemma ex_merged_ok : monitor_ok (EdidStruct (ex_device ex_merged)).
Proof.
  constructor.
  - by vm_compute.
  - eexists. split; [reflexivity|]. by vm_compute.
  - change (timings (EdidStruct (ex_device ex_merged))) with ex_merged.
    repeat apply Forall_cons_2; try apply Forall_nil_2; (split; [constructor|]); by vm_compute.
Qed.

Example ex_merged_select : select (map base ex_merged) =
  [detailed_timing 1920 1080 6000 1485000 2200 1125 true; hdmi_timing 4 false].
Proof. vm_compute. reflexivity. Qed.

Lemma ex_merged_unmixed : unmixed (map base ex_merged).
Proof.
  intros t1 t2 t3 H1 H2 H3 Hs Hr. cbn [map ex_merged] in H1, H2, H3.
  repeat match goal with
    | H : _ ∈ _ :: _ |- _ => apply elem_of_cons in H as [->|H]
    | H : _ ∈ [] |- _ => by apply not_elem_of_nil in H
    end; try reflexivity; vm_compute in Hs, Hr; first [discriminate Hs|by destruct Hr].
Qed.

Lemma mode_list_refines_witness :
  let dev := ex_device ex_merged in
  let ts := map base (timings (EdidStruct dev)) in
  let skip t := cbMode_NeedFilterMode ex_pcbe t CBIOS_TYPE_DP1 CBIOS_MONITOR_TYPE_HDMI (mkFilter true 6000000) in
  exists dev',
    cbMode_MakeDeviceModeList always ex_pcbe dev CBIOS_TYPE_DP1 = Ok (zlen (modes (ModeList dev')), dev') /\
    (let '(ds, has) := reported (is_cea861 (EdidStruct dev)) skip (select ts) in
     modes (ModeList dev') = prefer_first has (foldl add_mode [] ds)) /\
    selection ts (select ts) /\
    (forall t, t ∈ timings (EdidStruct dev) -> skip t = false ->
      exists m, m ∈ modes (ModeList dev') /\ mode_shows m t) /\
    NoDup (map appearance (select ts)).
Proof.
  intros dev ts skip.
  destruct (mode_list_refines always ex_pcbe dev CBIOS_TYPE_DP1 (mkFilter true 6000000)) as (dev' & H1 & H2 & H3 & H4 & H5).
  - apply ex_merged_ok.
  - reflexivity.
  - reflexivity.
  - by vm_compute.
  - exists dev'. repeat (split; [assumption|]). apply H5, ex_merged_unmixed.
Defined.

Lemma mode_list_invariant_witness :
  exists dev',
    cbMode_MakeDeviceModeList always ex_pcbe (ex_device ex_timings) CBIOS_TYPE_DP1 =
      Ok (zlen (modes (ModeList dev')), dev') /\
    NoDup (map mode_key (modes (ModeList dev'))) /\
    (npref (modes (ModeList dev')) <= 1)%nat /\
    (forall m, m ∈ modes (ModeList dev') ->
       exists t pref, t ∈ timings (EdidStruct (ex_device ex_timings)) /\
       cbMode_NeedFilterMode ex_pcbe t CBIOS_TYPE_DP1 CBIOS_MONITOR_TYPE_HDMI (mkFilter true 6000000) = false /\
       comes_from (is_cea861 (EdidStruct (ex_device ex_timings))) t (m <| isPreferredMode := pref |>)) /\
    ml_ok (TimingNum (EdidStruct (ex_device ex_timings))) (ModeList dev').
Proof.
  apply (mode_list_invariant always ex_pcbe (ex_device ex_timings) CBIOS_TYPE_DP1 (mkFilter true 6000000)).
  - apply ex_device_ok.
  - reflexivity.
Defined.

(** ** Where the list falls short *)

(** With a single timing the array never grows, half of one being nothing, and
    the variant of its format is lost. *)
Theorem single_timing_loses_variant :
  ex_modes [hdmi_timing 16 true] = Ok [(1920, 1080, 6000, 1485000, 1)].
Proof. vm_compute. reflexivity. Qed.

(** Timings that differ only in their preference are meant to be merged, but a
    third one that ranks between them keeps them apart, if it comes between
    them in the list: the order of the timings changes the number of modes. *)
Theorem merging_depends_on_order :
  let a := detailed_timing 1920 1080 6000 1485000 2200 1125 true in
  let b := detailed_timing 1920 1080 6000 1485000 2208 1121 false in
  let c := detailed_timing 1920 1080 6000 1486000 2202 1125 false in
  appearance a = appearance b /\
  ex_modes [a; b; c] = Ok [(1920, 1080, 6000, 1485000, 1); (1920, 1080, 6000, 1486000, 0)] /\
  ex_modes [b; c; a] = Ok [(1920, 1080, 6000, 1485000, 1); (1920, 1080, 6000, 1486000, 0);
                           (1920, 1080, 6000, 1485000, 0)].
Proof. vm_compute. split_and!; reflexivity. Qed.

(** ** Reading the list *)

(** [cbDevGetDeviceModeList] fills no more of the caller's array than there is,
    and what it fills are the modes of the device, or the default modes when it
    has none and they all fit. *)
Theorem GetDeviceModeList_fits n dev l size :
  ml_ok n (ModeList dev) -> MODE_INFO_EXT_SIZE <= size < 2 ^ 32 -> zlen l = size / MODE_INFO_EXT_SIZE ->
  exists l' k, cbDevGetDeviceModeList dev (Some l) size = Ok (CBIOS_OK, Some l', k * MODE_INFO_EXT_SIZE) /\
    0 <= k <= zlen l /\ zlen l' = zlen l /\
    (modes (ModeList dev) <> [] -> k = Z.min (zlen (modes (ModeList dev))) (zlen l) /\
       forall j, 0 <= j < k -> rd l' j = rd (modes (ModeList dev)) j) /\
    (modes (ModeList dev) = [] ->
       k = 0 \/ k = zlen DP_DefaultModeList \/ k = zlen Device_DefaultModeList).
Proof.
  intros Hml Hs Hl. pose proof (zlen_modes _ _ Hml) as Hz. destruct Hml as [H0 Ha].
  unfold cbDevGetDeviceModeList. unfold MODE_INFO_EXT_SIZE in *.
  destruct (Z.ltb_spec size 36); [lia|]. rewrite <- Hl.
  assert (Hroom : 0 <= zlen l /\ zlen l * 36 <= size) by (rewrite Hl; dlia).
  assert (Hdef : exists l' k,
    (let! '(n, _) := cbMode_GetDefaultModeList None (DeviceType dev) in
     if n <=? zlen l then
       let! '(_, l) := cbMode_GetDefaultModeList (Some l) (DeviceType dev) in Ok (n, l)
     else Ok (0, Some l)) = Ok (k, Some l') /\ 0 <= k <= zlen l /\ zlen l' = zlen l /\
    (k = 0 \/ k = zlen DP_DefaultModeList \/ k = zlen Device_DefaultModeList)).
  { unfold cbMode_GetDefaultModeList. set (tb := if _ : bool then _ else _).
    assert (Htb : tb = DP_DefaultModeList \/ tb = Device_DefaultModeList)
      by (subst tb; destruct (_ || _); tauto).
    cbn [rbind]. destruct (Z.leb_spec (zlen tb) (zlen l)) as [Hle|Hgt].
    - destruct (memcpy_ok l tb 0 0 (zlen tb)) as (l' & -> & Hl' & _); [lia|lia|apply zlen_nonneg|lia|lia|].
      cbn [rbind]. exists l', (zlen tb). split; [done|]. pose proof (zlen_nonneg tb).
      split; [lia|]. split; [done|]. right. destruct Htb as [-> | ->]; tauto.
    - exists l, 0. split; [done|]. split; [lia|]. split; [done|]. by left. }
  destruct Hdef as (ld & kd & Ed & Hkd & Hld & Hcase).
  assert (Hu : forall k, 0 <= k <= zlen l -> u32 (k * 36) = k * 36).
  { intros k Hk. apply wrap_small. unfold fits. lia. }
  unfold modes in *. destruct (pDeviceModeList (ModeList dev)) as [ms|].
  - destruct Ha as (Hms & Hv & _). destruct (Z.eqb_spec (ValidModeNum (ModeList dev)) 0); [lia|].
    set (k := Z.min (ValidModeNum (ModeList dev)) (zlen l)).
    destruct (memcpy_ok l ms 0 0 k) as (l' & -> & Hl' & Hin & _); [lia..|]. cbn [rbind].
    exists l', k. rewrite Hu by lia. split; [done|]. split; [lia|]. split; [done|]. split.
    + intros _. rewrite Hz. split; [done|]. intros j Hj. rewrite rd_take by lia. apply (Hin j). lia.
    + intros E. rewrite E in Hz. change (zlen []) with 0 in Hz. lia.
  - rewrite Ed. cbn [rbind]. exists ld, kd. rewrite Hu by lia. split; [done|]. split; [lia|].
    split; [done|]. split; [done|]. by intros _.
Qed.
