(* ===== verification/ModeTiming.v ===== *)
(** * From a mode back to its timing

    A mode of the list of a device, set through [cbDevGetModeTiming] or the
    display manager, goes through [cbMode_GetHVTiming]: it finds a timing of the
    monitor with the geometry of the mode and its clock, never the rough lookup
    by resolution. *)
From S2P Require Import Prelude CbUtil Timing TimingTables EdidTypes EdidTiming Mode ModeOrder ModeSelect ModeList ModeSpec.
From stdpp Require Import list sorting.
Local Open Scope Z_scope.

(** ** The CEA formats *)

Definition geometry (t : CBIOS_TIMING_ATTRIB) : Z * Z * Z * Z := (XRes t, YRes t, HorTotal t, VerTotal t).

(** A timing with a format code has the geometry and the scan of the format. *)
Definition format_geometry (t : CBIOS_DEVICE_TIMING_INFO) : Prop :=
  let v := FormatVIC (FullTiming t) in
  v = 0 \/ exists fmt tb, rd CEAVideoFormatTable (v - 1) = Ok fmt /\ rd HDMIFormatTimingTbl (v - 1) = Ok tb /\
    geometry (FullTiming t) = geometry tb /\ (IsInterLaced t =? 0) = (fmt_Interlace fmt =? 0).

(** The variant of format [v] is found from its rate, with its clock. *)
Lemma variant_in_range v r c :
  1 <= v <= CBIOS_HDMIFORMATCOUNTS -> cbEdidModule_IsEquivalentModeExist v = Ok (Some (r, c)) ->
  cbEdidModule_IsRefreshInCEARange (u16 r) v = Ok (Some (r, c)) /\ 0 < c.
Proof.
  intros Hv He. change CBIOS_HDMIFORMATCOUNTS with 111 in Hv.
  assert (H : forallb (fun v => match cbEdidModule_IsEquivalentModeExist v with
     | Ok (Some (r, c)) =>
         bool_decide (cbEdidModule_IsRefreshInCEARange (u16 r) v = Ok (Some (r, c))) && (0 <? c)
     | _ => true end) (seqZ 1 111) = true) by (vm_compute; reflexivity).
  rewrite forallb_forall in H. specialize (H v ltac:(apply list_elem_of_In, elem_of_seqZ; lia)). cbn beta in H.
  rewrite He in H. apply andb_true_iff in H as [H%bool_decide_eq_true_1 Hc]. split; [done|lia].
Qed.

(** The clocks of the variants of formats 34 and 74. *)
Definition clocks_34_74 (c c' : Z) : Prop := c = 741760 /\ c' = 741020 \/ c = 741020 /\ c' = 741760.

#[export] Instance clocks_34_74_dec c c' : Decision (clocks_34_74 c c').
Proof. unfold clocks_34_74. apply _. Defined.

Definition formats_34_74 (v w : Z) : Prop := v = 34 /\ w = 74 \/ v = 74 /\ w = 34.

#[export] Instance formats_34_74_dec v w : Decision (formats_34_74 v w).
Proof. unfold formats_34_74. apply _. Defined.

Definition variants_agree (v w : Z) : bool :=
  match rd CEAVideoFormatTable (v - 1), rd CEAVideoFormatTable (w - 1),
        rd HDMIFormatTimingTbl (v - 1), rd HDMIFormatTimingTbl (w - 1),
        cbEdidModule_IsEquivalentModeExist v with
  | Ok fv, Ok fw, Ok tv, Ok tw, Ok (Some (r, c)) =>
      if bool_decide (geometry tv = geometry tw) && eqb (fmt_Interlace fv =? 0) (fmt_Interlace fw =? 0) then
        match cbEdidModule_IsRefreshInCEARange (u16 r) w with
        | Ok (Some (_, c')) => (c' / 10 =? c / 10) || bool_decide (formats_34_74 v w /\ clocks_34_74 c' c)
        | _ => true
        end
      else true
  | _, _, _, _, _ => true
  end.

(** Formats of one geometry and scan agree on the clock of a variant, but for
    formats 34 and 74 (1920x1080 at 30 Hz), whose clocks differ. *)
Lemma variants_agree_ok v w :
  1 <= v <= CBIOS_HDMIFORMATCOUNTS -> 1 <= w <= CBIOS_HDMIFORMATCOUNTS -> variants_agree v w = true.
Proof.
  intros Hv Hw. change CBIOS_HDMIFORMATCOUNTS with 111 in *.
  assert (H : forallb (fun v => forallb (variants_agree v) (seqZ 1 111)) (seqZ 1 111) = true)
    by (vm_compute; reflexivity).
  rewrite forallb_forall in H. specialize (H v ltac:(apply list_elem_of_In, elem_of_seqZ; lia)). cbn beta in H.
  rewrite forallb_forall in H. by specialize (H w ltac:(apply list_elem_of_In, elem_of_seqZ; lia)).
Qed.

Lemma in_range_ok r v : 1 <= v <= CBIOS_HDMIFORMATCOUNTS -> is_ok (cbEdidModule_IsRefreshInCEARange r v).
Proof.
  intros Hv. unfold cbEdidModule_IsRefreshInCEARange. destruct (_ || _ || _); [by eexists|].
  destruct (rd_in HDMIFormatTimingTbl (v - 1)) as [t ->].
  { change (zlen HDMIFormatTimingTbl) with 111. change CBIOS_HDMIFORMATCOUNTS with 111 in Hv. lia. }
  cbn [rbind]. cbv zeta. set (ref := if _ || _ then _ else _). destruct (Z.eqb_spec ref 0); [by eexists|].
  unfold udiv. destruct (Z.eqb_spec ref 0); [done|]. cbn [rbind]. destruct (_ <=? 5); by eexists.
Qed.

(** ** The search *)

Section Search.
Context (s : CBIOS_EDID_STRUCTURE_DATA) (l : list CBIOS_DEVICE_TIMING_INFO) (tgt : CBIOS_MODE_TARGET_PARA).
Let n := TimingNum s.
Hypothesis Hl : 0 <= n <= zlen l.
Hypothesis Hvic : forall j, 0 <= j < n -> 0 <= FormatVIC (FullTiming (tim l j)) <= CBIOS_HDMIFORMATCOUNTS.

Definition matches (t : CBIOS_DEVICE_TIMING_INFO) : Prop :=
  geometry (FullTiming t) = (tgt_XRes tgt, tgt_YRes tgt, tgt_XTotal tgt, tgt_YTotal tgt) /\
  (IsInterLaced t =? 0) = (tgt_bInterlace tgt =? 0).

Definition same_clock (c : Z) : Prop := c / 10 = tgt_PixelClock tgt / 10.

(** The rate and clock of a format near the rate of the target. *)
Definition near (t : CBIOS_DEVICE_TIMING_INFO) : option (Z * Z) :=
  if negb (FormatVIC (FullTiming t) =? 0) && is_cea861 s then
    match cbEdidModule_IsRefreshInCEARange (u16 (tgt_RefRate tgt)) (FormatVIC (FullTiming t)) with
    | Ok rc => rc
    | Err _ => None
    end
  else None.

Lemma matches_dec t :
  (XRes (FullTiming t) =? tgt_XRes tgt) && (YRes (FullTiming t) =? tgt_YRes tgt) &&
  (HorTotal (FullTiming t) =? tgt_XTotal tgt) && (VerTotal (FullTiming t) =? tgt_YTotal tgt) &&
  eqb (negb (IsInterLaced t =? 0)) (negb (tgt_bInterlace tgt =? 0)) = true <-> matches t.
Proof.
  unfold matches, geometry. rewrite !andb_true_iff, !Z.eqb_eq, eqb_true_iff. split.
  - intros ((((-> & ->) & ->) & ->) & H). split; [done|]. by destruct (_ =? 0), (_ =? 0).
  - intros [[= -> -> -> ->] ->]. done.
Qed.

Inductive hv_case (i : Z) (m : option (Z * option (Z * Z)))
  : Z * option (Z * option (Z * Z)) + option (Z * option (Z * Z)) -> Prop :=
  | hv_other : ~ matches (tim l i) -> hv_case i m (inl (i + 1, m))
  | hv_exact : matches (tim l i) -> same_clock (PixelClock (FullTiming (tim l i))) ->
      hv_case i m (inr (Some (i, None)))
  | hv_near : matches (tim l i) -> ~ same_clock (PixelClock (FullTiming (tim l i))) ->
      hv_case i m (inl (i + 1, match m, near (tim l i) with
                               | None, Some rc => Some (i, Some rc)
                               | _, _ => m
                               end)).

Lemma hv_match_cases i m : 0 <= i < n -> exists r, hv_match s l tgt (i, m) = Ok r /\ hv_case i m r.
Proof.
  intros Hi. unfold hv_match. fold n. destruct (Z.ltb_spec i n); [|lia]. rewrite rd_tim by lia. cbn [rbind].
  destruct (_ && _) eqn:E; [apply matches_dec in E|].
  2: { eexists. split; [done|]. apply hv_other. rewrite <- matches_dec, E. done. }
  destruct (Z.eqb_spec (PixelClock (FullTiming (tim l i)) / 10) (tgt_PixelClock tgt / 10)) as [Hc|Hc].
  { eexists. split; [done|]. by apply hv_exact. }
  assert (Hr : exists r, r = match m, near (tim l i) with None, Some rc => Some (i, Some rc) | _, _ => m end)
    by (by eexists).
  destruct Hr as [r Hr]. exists (inl (i + 1, r)). split; [|subst r; by apply hv_near].
  unfold near in Hr. destruct m as [p|]; [by subst r|].
  destruct (Z.eqb_spec (FormatVIC (FullTiming (tim l i))) 0) as [Hz|Hz]; cbn [negb andb] in *; [by subst r|].
  destruct (is_cea861 s); cbn [andb] in *; [|by subst r].
  specialize (Hvic i Hi).
  destruct (in_range_ok (u16 (tgt_RefRate tgt)) (FormatVIC (FullTiming (tim l i)))) as [rc Erc]; [lia|].
  rewrite Erc in *. cbn [rbind]. subst r. by destruct rc.
Qed.

(** A clock close enough to the one of the target. *)
Context (clock_ok : Z -> Prop).
Hypothesis Hsame : forall c, same_clock c -> clock_ok c.

(** What the search leaves with: a match, with the clock to set. *)
Definition good (r : option (Z * option (Z * Z))) : Prop :=
  match r with
  | Some (k, fix_) => 0 <= k < n /\ matches (tim l k) /\
      clock_ok (match fix_ with Some (_, c) => c | None => PixelClock (FullTiming (tim l k)) end)
  | None => False
  end.

Context (j : Z).
Hypothesis Hj : 0 <= j < n.
Hypothesis Hmatch : matches (tim l j).

(** The timing [j] has the clock of the target, or is near its rate, and then
    any timing near it has a clock close enough. *)
Hypothesis Hclock :
  same_clock (PixelClock (FullTiming (tim l j))) \/
  is_Some (near (tim l j)) /\
  forall k rc, 0 <= k < n -> matches (tim l k) -> near (tim l k) = Some rc -> clock_ok (snd rc).

Lemma hv_search :
  exists r, iterate (S (Z.to_nat n)) (hv_match s l tgt) (0, None) = Ok r /\ good r.
Proof.
  apply iterate_rule with
    (I := fun '(i, m) => 0 <= i <= n /\
            (same_clock (PixelClock (FullTiming (tim l j))) -> i <= j) /\
            (~ same_clock (PixelClock (FullTiming (tim l j))) ->
               match m with None => i <= j | Some (k, Some rc) => good m | Some (_, None) => False end))
    (m := fun '(i, _) => Z.to_nat (n - i)).
  2: { split; [lia|]. split; intros; lia. }
  2: lia.
  intros [i m] (Hi & He & Hr).
  assert (Hdec : same_clock (PixelClock (FullTiming (tim l j))) \/
                 ~ same_clock (PixelClock (FullTiming (tim l j)))).
  { unfold same_clock. destruct (Z.eq_dec (PixelClock (FullTiming (tim l j)) / 10) (tgt_PixelClock tgt / 10));
      [by left|by right]. }
  destruct (Z.eq_dec i n) as [->|Hne].
  { destruct Hdec as [Hs|Hs]; [specialize (He Hs); lia|]. specialize (Hr Hs).
    exists (inr m). split; [|destruct m as [[k [rc|]]|]; [exact Hr|done|lia]].
    unfold hv_match. fold n. by rewrite Z.ltb_irrefl. }
  destruct (hv_match_cases i m) as (r & -> & Hc); [lia|]. exists r. split; [done|].
  destruct Hc as [Hm|Hm Hs|Hm Hs].
  - split; [|lia]. assert (i <> j) by (intros ->; done). split; [lia|]. split.
    + intros H'. specialize (He H'). lia.
    + intros H'. specialize (Hr H'). destruct m as [[k [rc|]]|]; [exact Hr|done|lia].
  - split; [lia|]. split; [done|by apply Hsame].
  - split; [|lia]. split; [lia|]. split.
    + intros H'. specialize (He H'). assert (i <> j) by (intros ->; done). lia.
    + intros H'. specialize (Hr H'). destruct Hclock as [?|[Hn Hnear]]; [done|].
      destruct m as [[k [rc|]]|]; [exact Hr|done|].
      destruct (near (tim l i)) as [[r c]|] eqn:En.
      * split; [lia|]. split; [done|]. by apply (Hnear i (r, c)); [lia| |].
      * assert (i <> j) by (intros ->; rewrite En in Hn; by destruct Hn). lia.
Qed.

Lemma GetHVTiming_finds : pDeviceTimingList s = Some l -> tgt_PixelClock tgt <> 0 ->
  exists tm, cbMode_GetHVTiming s tgt = Ok (Some tm) /\
    geometry tm = (tgt_XRes tgt, tgt_YRes tgt, tgt_XTotal tgt, tgt_YTotal tgt) /\ clock_ok (PixelClock tm).
Proof.
  intros El Hp. unfold cbMode_GetHVTiming. rewrite El. destruct (Z.eqb_spec (tgt_PixelClock tgt) 0); [done|].
  destruct hv_search as (r & E & Hg). fold n. rewrite E. cbn [rbind].
  destruct r as [[k fix_]|]; [|done]. destruct Hg as (Hk & [Hgeo _] & Hc). cbn [deref rbind].
  rewrite rd_tim by lia. cbn [rbind]. eexists. split; [done|]. by destruct fix_ as [[r c]|].
Qed.

End Search.

(** ** The modes of a device *)

(** What a mode sets, whether or not it is preferred. *)
Lemma mode_targets cea t m pref : comes_from cea t (m <| isPreferredMode := pref |>) ->
  matches (target_of m) t /\
  (mode_PixelClock m = PixelClock (FullTiming t) \/
   equivalent cea t = Some (mode_RefreshRate m, mode_PixelClock m)).
Proof.
  intros [p Hm]. set (m0 := m <| isPreferredMode := pref |>) in Hm.
  assert (Hc : m0 = mode_of t p \/
               exists rc, equivalent cea t = Some rc /\ m0 = equivalent_mode (mode_of t p) rc).
  { unfold device_modes in Hm. destruct (equivalent cea t) as [rc|];
      [|left; by apply list_elem_of_singleton in Hm].
    destruct (_ || _); apply elem_of_cons in Hm as [->| ->%list_elem_of_singleton]; eauto. }
  destruct m as [sz x y rr caps xt yt clk pr il]. unfold m0, matches, geometry, target_of in *. cbn in *.
  destruct Hc as [[= -> -> -> -> -> -> -> -> -> ->]|([r c] & He & [= -> -> -> -> -> -> -> -> -> ->])].
  - split; [done|by left].
  - split; [done|by right].
Qed.

Lemma near_variant s tgt t r c : equivalent (is_cea861 s) t = Some (r, c) ->
  0 <= FormatVIC (FullTiming t) <= CBIOS_HDMIFORMATCOUNTS -> tgt_RefRate tgt = r ->
  near s tgt t = Some (r, c) /\ 0 < c /\ 1 <= FormatVIC (FullTiming t) /\ is_cea861 s = true /\
  cbEdidModule_IsEquivalentModeExist (FormatVIC (FullTiming t)) = Ok (Some (r, c)).
Proof.
  unfold equivalent, near. intros He Hv ->. destruct (is_cea861 s); [|done]. cbn [andb] in He.
  destruct (Z.eqb_spec (FormatVIC (FullTiming t)) 0) as [|Hz]; [done|]. cbn [negb andb] in *.
  destruct (cbEdidModule_IsEquivalentModeExist (FormatVIC (FullTiming t))) as [e|] eqn:E; [|done]. subst e.
  destruct (variant_in_range (FormatVIC (FullTiming t)) r c ltac:(lia) E) as [-> Hc]. split_and!; try done. lia.
Qed.

(** Two timings that match one target, with format codes, agree on the clock
    of a variant. *)
Lemma near_agrees s tgt t1 t2 r c rc :
  matches tgt t1 -> matches tgt t2 -> format_geometry t1 -> format_geometry t2 ->
  0 <= FormatVIC (FullTiming t1) <= CBIOS_HDMIFORMATCOUNTS ->
  0 <= FormatVIC (FullTiming t2) <= CBIOS_HDMIFORMATCOUNTS ->
  tgt_RefRate tgt = r -> equivalent (is_cea861 s) t1 = Some (r, c) -> near s tgt t2 = Some rc ->
  snd rc / 10 = c / 10 \/
  formats_34_74 (FormatVIC (FullTiming t1)) (FormatVIC (FullTiming t2)) /\ clocks_34_74 (snd rc) c.
Proof.
  intros [G1 I1] [G2 I2] F1 F2 V1 V2 Hr He Hn.
  destruct (near_variant s tgt t1 r c He V1 Hr) as (_ & _ & Hv1 & Hcea & E1).
  unfold near in Hn. rewrite Hcea, andb_true_r in Hn.
  destruct (Z.eqb_spec (FormatVIC (FullTiming t2)) 0) as [|Hv2]; [done|]. cbn [negb] in Hn. rewrite Hr in Hn.
  destruct F1 as [F1|(f1 & tb1 & A1 & B1 & C1 & D1)]; [lia|].
  destruct F2 as [F2|(f2 & tb2 & A2 & B2 & C2 & D2)]; [lia|].
  pose proof (variants_agree_ok (FormatVIC (FullTiming t1)) (FormatVIC (FullTiming t2))
    ltac:(lia) ltac:(lia)) as H.
  unfold variants_agree in H. rewrite A1, A2, B1, B2, E1 in H.
  rewrite bool_decide_eq_true_2 in H by congruence.
  replace (eqb (fmt_Interlace f1 =? 0) (fmt_Interlace f2 =? 0)) with true in H
    by (symmetry; apply eqb_true_iff; congruence).
  cbn [andb] in H. destruct (cbEdidModule_IsRefreshInCEARange _ _) as [o|]; [|done].
  destruct o as [[r' c']|]; [|done]. injection Hn as <-. cbn.
  apply orb_true_iff in H as [H|H%bool_decide_eq_true_1]; [left; lia|by right].
Qed.

(** The array of a device after the marks have changed holds the same timings. *)
Lemma listed_timings s l0 l : pDeviceTimingList s = Some l0 -> TimingNum s <= zlen l0 -> same_timings l0 l ->
  (forall j, 0 <= j < TimingNum s -> exists t, t ∈ timings s /\ base (tim l j) = base t) /\
  (forall t, t ∈ timings s -> exists j, 0 <= j < TimingNum s /\ base (tim l j) = base t).
Proof.
  intros El Hl [Hz Hs]. split.
  - intros j Hj. exists (tim l0 j). split; [by apply tim_timings|]. apply Hs. lia.
  - intros t Ht. unfold timings in Ht. rewrite El in Ht. apply list_elem_of_lookup_1 in Ht as [i Hi].
    pose proof (lookup_lt_Some _ _ _ Hi) as Hlt. rewrite length_take in Hlt.
    exists (Z.of_nat i). split; [lia|]. rewrite Hs by lia. f_equal. apply tim_rd. apply rd_inv.
    split; [lia|]. rewrite lookup_take_lt in Hi by lia. by rewrite Nat2Z.id.
Qed.

Lemma matches_base tgt t : matches tgt (base t) = matches tgt t.
Proof. done. Qed.

Definition has_format (v : Z) (s : CBIOS_EDID_STRUCTURE_DATA) : Prop :=
  exists t, t ∈ timings s /\ FormatVIC (FullTiming t) = v.

(** The clock [c] set for a mode of clock [m]. *)
Definition clock_for (s : CBIOS_EDID_STRUCTURE_DATA) (m c : Z) : Prop :=
  c / 10 = m / 10 \/ has_format 34 s /\ has_format 74 s /\ clocks_34_74 c m.

(** The timings of such an array are those of the monitor. *)
Lemma listed_formats s l j : monitor_ok s ->
  (forall j, 0 <= j < TimingNum s -> exists t, t ∈ timings s /\ base (tim l j) = base t) ->
  Forall (fun t => format_geometry t /\ 0 < PixelClock (FullTiming t)) (timings s) -> 0 <= j < TimingNum s ->
  0 <= FormatVIC (FullTiming (tim l j)) <= CBIOS_HDMIFORMATCOUNTS /\ format_geometry (tim l j) /\
  has_format (FormatVIC (FullTiming (tim l j))) s.
Proof.
  intros [_ _ Hall] Hat Hts Hj. destruct (Hat j Hj) as (t & Ht & Hb). rewrite Forall_forall in Hall, Hts.
  destruct (Hall t Ht) as [_ Hv]. destruct (Hts t Ht) as [Hg _].
  change (FormatVIC (FullTiming (tim l j))) with (FormatVIC (FullTiming (base (tim l j)))).
  change (format_geometry (tim l j)) with (format_geometry (base (tim l j))). rewrite Hb.
  split; [done|]. split; [done|]. by exists t.
Qed.

(** C22. Every mode that [cbMode_MakeDeviceModeList] lists, given back to set
    it, leads [cbMode_GetHVTiming] to a timing of the monitor: one with the
    resolution and the totals of the mode, and with its pixel clock to the
    kilohertz. The modes include the variants of the CEA formats at 1000/1001
    of their rate, which no timing of the monitor has. The one exception is a
    monitor with both format 34 and format 74 among its timings, whose variants
    of 74.176 and 74.102 MHz, a thousandth apart, can be taken for each other.
    The timings of the monitor are supposed to be well formed: each has a pixel
    clock, and each with a format code has the geometry and the scan of that
    format in the tables. *)
Theorem mode_timing_roundtrip pool pcbe dev Device Filter :
  monitor_ok (EdidStruct dev) -> cbMode_GetFilterPara pcbe dev (DeviceType dev) = Ok Filter ->
  Forall (fun t => format_geometry t /\ 0 < PixelClock (FullTiming t)) (timings (EdidStruct dev)) ->
  exists num dev', cbMode_MakeDeviceModeList pool pcbe dev Device = Ok (num, dev') /\
    forall m, m ∈ modes (ModeList dev') ->
    exists tm, cbMode_GetHVTiming (EdidStruct dev') (target_of m) = Ok (Some tm) /\
      geometry tm = (mode_XRes m, mode_YRes m, mode_XTotal m, mode_YTotal m) /\
      clock_for (EdidStruct dev) (mode_PixelClock m) (PixelClock tm).
Proof.
  intros Hok HF Hts.
  destruct (make_list_ok pool pcbe dev Device Filter Hok HF) as (l & s & cs & ds & E & Hsame & Hml & Hsel & _ & Ht & Hm).
  exists (ValidModeNum s), (device_with dev l s). split; [done|]. change (ModeList (device_with dev l s)) with s.
  intros m Hin. destruct (listed_from pool pcbe dev Device Filter _ s cs ds Hsel Ht Hm m Hin)
    as (t & pref & Hint & _ & Hfrom).
  pose proof Hok as [Hn (l0 & El & Hl0) _]. specialize (Hsame l0 El).
  set (es := EdidStruct (device_with dev l s)).
  assert (Hlen : 0 <= TimingNum es <= zlen l).
  { destruct Hsame as [-> _]. change (TimingNum es) with (TimingNum (EdidStruct dev)). lia. }
  destruct (listed_timings (EdidStruct dev) l0 l El ltac:(lia) Hsame) as [Hat Hback].
  pose proof (fun j => listed_formats (EdidStruct dev) l j Hok Hat Hts) as Hprop.
  destruct (Hback t Hint) as (j & Hj & Hbj).
  destruct (mode_targets _ t m pref Hfrom) as [Hmt Hclk].
  rewrite <- matches_base, <- Hbj, matches_base in Hmt.
  change (equivalent _ t) with (equivalent (is_cea861 es) (base t)) in Hclk. rewrite <- Hbj in Hclk.
  change (PixelClock (FullTiming t)) with (PixelClock (FullTiming (base t))) in Hclk. rewrite <- Hbj in Hclk.
  change (equivalent (is_cea861 es) (base (tim l j))) with (equivalent (is_cea861 es) (tim l j)) in Hclk.
  destruct (Hprop j Hj) as (Hvj & Hgj & Hfj).
  destruct (GetHVTiming_finds es l (target_of m) Hlen (fun j Hj => proj1 (Hprop j Hj))
              (clock_for (EdidStruct dev) (mode_PixelClock m)) ltac:(by left) j Hj Hmt)
    as (tm & Etm & Hgeo & Hc).
  - destruct Hclk as [Hclk|Hclk]; [left|right].
    + unfold same_clock. cbn. by rewrite Hclk.
    + split; [destruct (near_variant es (target_of m) (tim l j) _ _ Hclk Hvj eq_refl) as [-> _]; by eexists|].
      intros k rc Hk Hmk Hnk. destruct (Hprop k Hk) as (Hvk & Hgk & Hfk).
      destruct (near_agrees es (target_of m) (tim l j) (tim l k) (mode_RefreshRate m) (mode_PixelClock m) rc)
        as [?|[Hf ?]]; try done; [by left|right].
      destruct Hf as [[Ej Ek]|[Ej Ek]]; rewrite Ej in Hfj; by rewrite Ek in Hfk.
  - done.
  - cbn. destruct Hclk as [->|Hclk].
    + rewrite Hbj. rewrite Forall_forall in Hts. destruct (Hts t Hint) as [_ Hp]. cbn. lia.
    + destruct (near_variant es (target_of m) (tim l j) _ _ Hclk Hvj eq_refl) as (_ & Hp & _). lia.
  - by exists tm.
Qed.

(** A monitor with both formats, and 1280x720. *)
Definition ex_both : list CBIOS_DEVICE_TIMING_INFO :=
  [hdmi_timing 34 true; hdmi_timing 74 false; hdmi_timing 4 false].

Lemma ex_both_ok : monitor_ok (EdidStruct (ex_device ex_both)).
Proof.
  constructor.
  - by vm_compute.
  - eexists. split; [reflexivity|]. by vm_compute.
  - change (timings (EdidStruct (ex_device ex_both))) with ex_both.
    repeat apply Forall_cons_2; try apply Forall_nil_2; (split; [constructor|]); by vm_compute.
Qed.

Lemma ex_formats : Forall (fun t => format_geometry t /\ 0 < PixelClock (FullTiming t))
  (timings (EdidStruct (ex_device ex_both))).
Proof.
  change (timings (EdidStruct (ex_device ex_both))) with ex_both.
  repeat apply Forall_cons_2; try apply Forall_nil_2.
  all: split; [right; eexists _, _; split; [vm_compute; reflexivity|]; split; [vm_compute; reflexivity|by split]|].
  all: by vm_compute.
Qed.

Lemma mode_timing_roundtrip_witness :
  exists num dev',
    cbMode_MakeDeviceModeList always ex_pcbe (ex_device ex_both) CBIOS_TYPE_DP1 = Ok (num, dev') /\
    forall m, m ∈ modes (ModeList dev') ->
    exists tm, cbMode_GetHVTiming (EdidStruct dev') (target_of m) = Ok (Some tm) /\
      geometry tm = (mode_XRes m, mode_YRes m, mode_XTotal m, mode_YTotal m) /\
      clock_for (EdidStruct (ex_device ex_both)) (mode_PixelClock m) (PixelClock tm).
Proof.
  apply (mode_timing_roundtrip always ex_pcbe (ex_device ex_both) CBIOS_TYPE_DP1 (mkFilter true 6000000)).
  - apply ex_both_ok.
  - reflexivity.
  - apply ex_formats.
Defined.

(** The exception happens: the mode of 74.102 MHz gets 74.176 MHz. *)
Example ex_both_clocks :
  (let! '(_, dev) := cbMode_MakeDeviceModeList always ex_pcbe (ex_device ex_both) CBIOS_TYPE_DP1 in
   Ok (map (fun m => (mode_PixelClock m, rmap (option_map PixelClock) (cbMode_GetHVTiming (EdidStruct dev) (target_of m))))
         (modes (ModeList dev)))) =
  Ok [(742500, Ok (Some 742500)); (741760, Ok (Some 741760)); (741020, Ok (Some 741760));
      (742500, Ok (Some 742500)); (741760, Ok (Some 741760))].
Proof. vm_compute. reflexivity. Qed.

(** Formats 34 and 74 are 1920x1080 at 30 Hz with the same totals, but the clock
    of format 74 in the table is that of 29.97 Hz, and its variant is lowered
    once more. *)
Theorem format_74_clock_reduced :
  rmap (fun t => (geometry t, RefreshRate t, PixelClock t)) (rd HDMIFormatTimingTbl (34 - 1)) =
    Ok (1920, 1080, 2200, 1125, 3000, 742500) /\
  rmap (fun t => (geometry t, RefreshRate t, PixelClock t)) (rd HDMIFormatTimingTbl (74 - 1)) =
    Ok (1920, 1080, 2200, 1125, 3000, 741760) /\
  cbEdidModule_IsEquivalentModeExist 34 = Ok (Some (2997, 741760)) /\
  cbEdidModule_IsEquivalentModeExist 74 = Ok (Some (2997, 741020)).
Proof. vm_compute. split_and!; reflexivity. Qed.
