(* ===== verification/Path.v ===== *)
(** * Display paths

    [cbios/Display/CBiosPathManager.c]: which display controller (IGA) a device
    is bound to, the modules between a device and its controller, and the order
    in which they are switched. A pointer to a module of the list of a device
    is the type of the module; the calls into the hardware blocks are recorded. *)
From S2P Require Import Prelude CbUtil EdidTypes Mode.
Local Open Scope Z_scope.

(** ** Data *)

Inductive CBIOS_MODULE_TYPE : Set :=
  | CBIOS_MODULE_TYPE_NONE | CBIOS_MODULE_TYPE_DP | CBIOS_MODULE_TYPE_MHL | CBIOS_MODULE_TYPE_HDMI
  | CBIOS_MODULE_TYPE_HDTV | CBIOS_MODULE_TYPE_HDCP | CBIOS_MODULE_TYPE_HDAC | CBIOS_MODULE_TYPE_IGA.

#[export] Instance module_type_eq_dec : EqDecision CBIOS_MODULE_TYPE.
Proof. solve_decision. Defined.

(** [CBIOS_MODULE_INDEX]: [CBIOS_MODULE_INDEX1] is 0. *)
Definition CBIOS_MODULE_INDEX_INVALID : Z := 0xFF.
Definition CBIOS_MAX_MODULE_NUM : nat := 16.
Definition DP_MODU_NUM : Z := 4.
Definition HDMI_MODU_NUM : Z := 4.

(** [CBIOS_MODULE_LIST]: the index of each module; its type goes with its place. *)
Record CBIOS_MODULE_LIST := mkModules {
  DPModule : Z;
  MHLModule : Z;
  HDCPModule : Z;
  HDMIModule : Z;
  HDACModule : Z;
  HDTVModule : Z;
  IGAModule : Z
}.

#[export] Instance eta_mkModules : Eta CBIOS_MODULE_LIST := fun r =>
  mkModules (DPModule r) (MHLModule r) (HDCPModule r) (HDMIModule r) (HDACModule r) (HDTVModule r)
    (IGAModule r).

Record CBIOS_DISPLAY_SOURCE := mkSource {
  ModuleList : CBIOS_MODULE_LIST;
  ModulePath : list (option CBIOS_MODULE_TYPE);
  bIsSrcChanged : bool
}.

#[export] Instance eta_mkSource : Eta CBIOS_DISPLAY_SOURCE := fun r =>
  mkSource (ModuleList r) (ModulePath r) (bIsSrcChanged r).

(** The index of the module a pointer of the path stands for. *)
Definition module_index (l : CBIOS_MODULE_LIST) (t : CBIOS_MODULE_TYPE) : Z :=
  match t with
  | CBIOS_MODULE_TYPE_DP => DPModule l
  | CBIOS_MODULE_TYPE_MHL => MHLModule l
  | CBIOS_MODULE_TYPE_HDMI => HDMIModule l
  | CBIOS_MODULE_TYPE_HDTV => HDTVModule l
  | CBIOS_MODULE_TYPE_HDCP => HDCPModule l
  | CBIOS_MODULE_TYPE_HDAC => HDACModule l
  | CBIOS_MODULE_TYPE_IGA => IGAModule l
  | CBIOS_MODULE_TYPE_NONE => CBIOS_MODULE_INDEX_INVALID
  end.

Definition cbInitialModuleList : CBIOS_MODULE_LIST :=
  mkModules CBIOS_MODULE_INDEX_INVALID CBIOS_MODULE_INDEX_INVALID CBIOS_MODULE_INDEX_INVALID
    CBIOS_MODULE_INDEX_INVALID CBIOS_MODULE_INDEX_INVALID CBIOS_MODULE_INDEX_INVALID
    CBIOS_MODULE_INDEX_INVALID.

(** [CBIOS_TYPE_*] and chips the mode functions do not name, and the controllers. *)
Definition CBIOS_TYPE_NONE : Z := 0x00.
Definition CBIOS_TYPE_CRT : Z := 0x01.
Definition CBIOS_TYPE_DVO : Z := 0x20.
Definition CBIOS_TYPE_DSI : Z := 0x1000.
Definition CBIOS_TYPE_MHL : Z := 0x2000.
Definition CHIPID_E3K : Z := 26.
Definition CHIPID_CNE001 : Z := 28.
Definition CBIOS_NON_CONN : Z := 0x00.
Definition CBIOS_EDP_CONN : Z := 0x05.
Definition IGA1 : Z := 0.
Definition IGA2 : Z := 1.
Definition IGA3 : Z := 2.
Definition IGA4 : Z := 3.
Definition CBIOS_IGACOUNTS_CHX004 : Z := 3.
Definition CBIOS_IGACOUNTS : Z := 4.

(** The devices of the controllers, [Iga1Dev] to [Iga4Dev] of
    [CBIOS_DEVICE_COMB], and [bSupported] of [CBIOS_GET_DEV_COMB]. *)
Record CBIOS_DEVICE_COMB := mkComb { Iga1Dev : Z; Iga2Dev : Z; Iga3Dev : Z; Iga4Dev : Z; bSupported : bool }.

#[export] Instance eta_mkComb : Eta CBIOS_DEVICE_COMB := fun r =>
  mkComb (Iga1Dev r) (Iga2Dev r) (Iga3Dev r) (Iga4Dev r) (bSupported r).

(** ** Controllers *)

Section Board.
(** The chip and the board: [bRunOnQT], [DeviceMgr.SupportDevices]. *)
Context (pcbe : CBIOS_EXTENSION_COMMON) (bRunOnQT : bool) (SupportDevices : Z).

(** [Devices & d] *)
Definition has_dev (Devices d : Z) : bool := negb (Z.land Devices d =? 0).

(** The controller of the CRT on CNE001. *)
Definition crt_iga : Z :=
  if Dp3PortConnType pcbe =? CBIOS_NON_CONN then IGA3
  else if Dp2PortConnType pcbe =? CBIOS_NON_CONN then IGA2
  else if Dp1PortConnType pcbe =? CBIOS_NON_CONN then IGA1
  else if negb (Dp3PortConnType pcbe =? CBIOS_EDP_CONN) then IGA3
  else if negb (Dp2PortConnType pcbe =? CBIOS_EDP_CONN) then IGA2
  else if negb (Dp1PortConnType pcbe =? CBIOS_EDP_CONN) then IGA1
  else IGA3.

Definition set_iga (iga d : Z) (c : CBIOS_DEVICE_COMB) : CBIOS_DEVICE_COMB :=
  if iga =? IGA1 then c <| Iga1Dev := d |>
  else if iga =? IGA2 then c <| Iga2Dev := d |>
  else if iga =? IGA3 then c <| Iga3Dev := d |>
  else c <| Iga4Dev := d |>.

(** [if (Devices & d) { ... }] *)
Definition bind_if (Devices d iga : Z) (c : CBIOS_DEVICE_COMB) : CBIOS_DEVICE_COMB :=
  if has_dev Devices d then set_iga iga d c else c.

Definition cbPathMgrGetDevComb (Devices : Z) (comb : CBIOS_DEVICE_COMB)
  : res (CBIOS_STATUS * CBIOS_DEVICE_COMB) :=
  let c := mkComb CBIOS_TYPE_NONE CBIOS_TYPE_NONE CBIOS_TYPE_NONE CBIOS_TYPE_NONE (bSupported comb) in
  if Devices =? CBIOS_TYPE_NONE then Ok (CBIOS_OK, c)
  else if bRunOnQT then Ok (CBIOS_OK, c <| Iga1Dev := CBIOS_TYPE_CRT |> <| bSupported := true |>)
  else
    let! bits := cbGetBitsNum Devices in
    let beyond := negb (Z.land Devices (u32 (Z.lnot SupportDevices)) =? 0) in
    if ChipID pcbe =? CHIPID_E3K then
      if (CBIOS_IGACOUNTS <? bits) || beyond
      then Ok (CBIOS_ER_INVALID_PARAMETER, c <| bSupported := false |>)
      else
        let c := bind_if Devices CBIOS_TYPE_DP1 IGA1 c in
        let c := bind_if Devices CBIOS_TYPE_DP2 IGA2 c in
        let c := bind_if Devices CBIOS_TYPE_DP3 IGA3 c in
        let c := if has_dev Devices CBIOS_TYPE_DP4 then set_iga IGA4 CBIOS_TYPE_DP4 c
                 else bind_if Devices CBIOS_TYPE_CRT IGA4 c in
        Ok (CBIOS_OK, c <| bSupported := true |>)
    else if (CBIOS_IGACOUNTS_CHX004 <? bits) || beyond
    then Ok (CBIOS_ER_INVALID_PARAMETER, c <| bSupported := false |>)
    else
      let c :=
        if ChipID pcbe =? CHIPID_CHX004 then
          let c := bind_if Devices CBIOS_TYPE_DP1 IGA1 c in
          let c := bind_if Devices CBIOS_TYPE_DP2 IGA2 c in
          bind_if Devices CBIOS_TYPE_CRT IGA3 c
        else if ChipID pcbe =? CHIPID_CNE001 then
          let c := bind_if Devices CBIOS_TYPE_CRT crt_iga c in
          let c := bind_if Devices CBIOS_TYPE_DP1 IGA1 c in
          let c := bind_if Devices CBIOS_TYPE_DP2 IGA2 c in
          bind_if Devices CBIOS_TYPE_DP3 IGA3 c
        else c in
      Ok (CBIOS_OK, c <| bSupported := true |>).

(** [IgaMask], which comes in and goes out. *)
Definition cbPathMgrGetIgaMask (DeviceId IgaMask : Z) : Z :=
  let only iga := Z.shiftl 1 iga in
  if bRunOnQT then only IGA1
  else if ChipID pcbe =? CHIPID_E3K then
    if DeviceId =? CBIOS_TYPE_DP1 then only IGA1
    else if DeviceId =? CBIOS_TYPE_DP2 then only IGA2
    else if DeviceId =? CBIOS_TYPE_DP3 then only IGA3
    else if DeviceId =? CBIOS_TYPE_DP4 then only IGA4
    else if DeviceId =? CBIOS_TYPE_CRT then only IGA4
    else Z.lor (only IGA1) (Z.lor (only IGA2) (Z.lor (only IGA3) (only IGA4)))
  else if ChipID pcbe =? CHIPID_CHX004 then
    if (DeviceId =? CBIOS_TYPE_CRT) || (DeviceId =? CBIOS_TYPE_DVO) then only IGA3
    else if DeviceId =? CBIOS_TYPE_DP1 then only IGA1
    else if DeviceId =? CBIOS_TYPE_DP2 then only IGA2
    else Z.lor (only IGA3) (only IGA2)
  else if ChipID pcbe =? CHIPID_CNE001 then
    if DeviceId =? CBIOS_TYPE_CRT then only crt_iga
    else if (DeviceId =? CBIOS_TYPE_DVO) || (DeviceId =? CBIOS_TYPE_DP3) then only IGA3
    else if DeviceId =? CBIOS_TYPE_DP1 then only IGA1
    else if DeviceId =? CBIOS_TYPE_DP2 then only IGA2
    else Z.lor (only IGA3) (only IGA2)
  else IgaMask.

End Board.

(** ** The path of a device *)

(** [if (module->Index != INVALID) ModulePath[index++] = module] *)
Definition add_module (l : CBIOS_MODULE_LIST) (t : CBIOS_MODULE_TYPE)
    (st : list (option CBIOS_MODULE_TYPE) * Z) : res (list (option CBIOS_MODULE_TYPE) * Z) :=
  let '(path, index) := st in
  if module_index l t =? CBIOS_MODULE_INDEX_INVALID then Ok (path, index)
  else let! path := wr path index (Some t) in Ok (path, index + 1).

Definition cbPathMgrGeneratePath (src : CBIOS_DISPLAY_SOURCE) : res CBIOS_DISPLAY_SOURCE :=
  let l := ModuleList src in
  let! path := memset (ModulePath src) 0 None (Z.of_nat CBIOS_MAX_MODULE_NUM) in
  let! st := add_module l CBIOS_MODULE_TYPE_HDCP (path, 0) in
  let! st := add_module l CBIOS_MODULE_TYPE_HDMI st in
  let! st := add_module l CBIOS_MODULE_TYPE_HDTV st in
  let! '(path, _) := add_module l CBIOS_MODULE_TYPE_IGA st in
  Ok (src <| ModulePath := path |>).

(** The index of the port [Device], or [CBIOS_MODULE_INDEX_INVALID]. *)
Definition port_index (Device : Z) : Z :=
  if Device =? CBIOS_TYPE_DP1 then 0
  else if Device =? CBIOS_TYPE_DP2 then 1
  else if Device =? CBIOS_TYPE_DP3 then 2
  else if Device =? CBIOS_TYPE_DP4 then 3
  else CBIOS_MODULE_INDEX_INVALID.

(** The index of the audio codec of the port: DP4 has none. *)
Definition codec_index (Device : Z) : Z :=
  if Device =? CBIOS_TYPE_DP1 then 0
  else if Device =? CBIOS_TYPE_DP2 then 1
  else if Device =? CBIOS_TYPE_DP3 then 2
  else CBIOS_MODULE_INDEX_INVALID.

(** [cbPathMgrSelectDIUPath]; [monitor], [hdmi] are [CurrentMonitorType] and
    [IsCEA861HDMI] of the device, the last three arguments fields of
    [*pDestModeParams]. *)
Definition cbPathMgrSelectDIUPath (src : CBIOS_DISPLAY_SOURCE) (Device monitor : Z) (hdmi : bool)
    (IGAIndex InterlaceFlag XRes_ YRes_ : Z) : res CBIOS_DISPLAY_SOURCE :=
  let src := src <| ModuleList ::= fun l => l <| IGAModule :=
    if (IGAIndex =? IGA1) || (IGAIndex =? IGA2) || (IGAIndex =? IGA3) || (IGAIndex =? IGA4)
    then IGAIndex else CBIOS_MODULE_INDEX_INVALID |> |> in
  let tv := negb (InterlaceFlag =? 0) || ((XRes_ =? 720) && (YRes_ =? 576)) in
  let changed src := let! src := cbPathMgrGeneratePath src in Ok (src <| bIsSrcChanged := true |>) in
  if (Device =? CBIOS_TYPE_DP1) || (Device =? CBIOS_TYPE_DP2) || (Device =? CBIOS_TYPE_DP3) ||
     (Device =? CBIOS_TYPE_DP4)
  then
    let ModuleIndex := port_index Device in
    changed (src <| ModuleList ::= fun l =>
      let l := l <| HDTVModule := CBIOS_MODULE_INDEX_INVALID |> in
      if has_dev monitor (Z.lor CBIOS_MONITOR_TYPE_HDMI CBIOS_MONITOR_TYPE_DVI) then
        if hdmi then
          let l := l <| HDMIModule := ModuleIndex |> <| HDACModule := codec_index Device |> in
          if tv then l <| HDTVModule := ModuleIndex |> else l
        else l <| HDMIModule := ModuleIndex |> <| HDACModule := CBIOS_MODULE_INDEX_INVALID |>
      else
        let l := l <| HDMIModule := CBIOS_MODULE_INDEX_INVALID |> <| HDACModule := codec_index Device |> in
        if tv then l <| HDTVModule := ModuleIndex |> else l |>)
  else if Device =? CBIOS_TYPE_MHL then
    changed (src <| ModuleList ::= fun l =>
      let l := l <| HDCPModule := 0 |> <| HDTVModule := CBIOS_MODULE_INDEX_INVALID |> in
      if hdmi then l <| HDMIModule := 0 |> <| HDACModule := 0 |>
      else l <| HDMIModule := CBIOS_MODULE_INDEX_INVALID |> <| HDACModule := CBIOS_MODULE_INDEX_INVALID |> |>)
  else if (Device =? CBIOS_TYPE_CRT) || (Device =? CBIOS_TYPE_DVO) || (Device =? CBIOS_TYPE_DSI)
  then changed src
  else Ok src.

(** [DevSource]: the display source of a device, [None] where
    [cbGetDeviceCommon] finds none. *)
Definition cbGetModuleIndex (DevSource : Z -> option CBIOS_DISPLAY_SOURCE) (IgaCount Device : Z)
    (ModuleType : CBIOS_MODULE_TYPE) : Z :=
  match DevSource Device with
  | None => CBIOS_MODULE_INDEX_INVALID
  | Some src =>
      let ModuleIndex := module_index (ModuleList src) ModuleType in
      match ModuleType with
      | CBIOS_MODULE_TYPE_DP => if DP_MODU_NUM <=? ModuleIndex then CBIOS_MODULE_INDEX_INVALID else ModuleIndex
      | CBIOS_MODULE_TYPE_HDMI =>
          if HDMI_MODU_NUM <=? ModuleIndex then CBIOS_MODULE_INDEX_INVALID else ModuleIndex
      | CBIOS_MODULE_TYPE_IGA => if IgaCount <=? ModuleIndex then CBIOS_MODULE_INDEX_INVALID else ModuleIndex
      | _ => ModuleIndex
      end
  end.

Definition cbGetDeviceType (DevSource : Z -> option CBIOS_DISPLAY_SOURCE) (IgaCount SupportDevices : Z)
    (ModuleIndex : Z) (ModuleType : CBIOS_MODULE_TYPE) : res Z :=
  if (ModuleIndex =? CBIOS_MODULE_INDEX_INVALID) || bool_decide (ModuleType = CBIOS_MODULE_TYPE_NONE)
  then Ok CBIOS_TYPE_NONE
  else
    iterate 33
      (fun TmpDev =>
         if negb (TmpDev =? 0) then
           let CurDev := GET_LAST_BIT TmpDev in
           let TmpDev := Z.land TmpDev (u32 (Z.lnot CurDev)) in
           if cbGetModuleIndex DevSource IgaCount CurDev ModuleType =? ModuleIndex
           then Ok (inr CurDev) else Ok (inl TmpDev)
         else Ok (inr CBIOS_TYPE_NONE)) SupportDevices.

(** ** Switching the modules *)

(** A call into a hardware block: [cbDIU_HDMI_ModuleOnOff],
    [cbDIU_HDTV_ModuleOnOff]. *)
Inductive module_call : Set := ModuleOnOff (t : CBIOS_MODULE_TYPE) (Index : Z) (bTurnOn : bool).

Definition module_calls (l : CBIOS_MODULE_LIST) (t : CBIOS_MODULE_TYPE) (bTurnOn : bool) : list module_call :=
  match t with
  | CBIOS_MODULE_TYPE_HDMI | CBIOS_MODULE_TYPE_HDTV => [ModuleOnOff t (module_index l t) bTurnOn]
  | _ => []
  end.

(** [while (pModulePath[i]) ++i;] *)
Definition path_end (path : list (option CBIOS_MODULE_TYPE)) : res Z :=
  iterate (S (length path))
    (fun i => let! m := rd path i in match m with Some _ => Ok (inl (i + 1)) | None => Ok (inr i) end) 0.

(** [cbPathMgrModuleOnOff]: the result and the calls made, in order. *)
Definition cbPathMgrModuleOnOff (src : CBIOS_DISPLAY_SOURCE) (bTurnOn : bool)
  : res (bool * list module_call) :=
  let path := ModulePath src in
  let! m := rd path 0 in
  match m with
  | None => Ok (false, [])
  | Some _ =>
      let! i := if bTurnOn then let! e := path_end path in Ok (e - 1) else Ok 0 in
      let! calls :=
        iterate (S (length path))
          (fun '(i, calls) =>
             let! m := rd path i in
             match m with
             | None => Ok (inr calls)
             | Some t =>
                 let calls := calls ++ module_calls (ModuleList src) t bTurnOn in
                 if bTurnOn then if i =? 0 then Ok (inr calls) else Ok (inl (i - 1, calls))
                 else Ok (inl (i + 1, calls))
             end) (i, []) in
      Ok (true, calls)
  end.

(** [cbPathMgrSelectDIUSource]: the sources selected, a module and the next one
    of the path ([cbDIU_HDMI_SelectSource]). *)
Definition cbPathMgrSelectDIUSource (src : CBIOS_DISPLAY_SOURCE)
  : res (list (CBIOS_MODULE_TYPE * option CBIOS_MODULE_TYPE)) :=
  let path := ModulePath src in
  iterate (S (length path))
    (fun '(i, calls) =>
       let! m := rd path i in
       match m with
       | None => Ok (inr calls)
       | Some t =>
           let! next := rd path (i + 1) in
           Ok (inl (i + 1, calls ++ (match t with CBIOS_MODULE_TYPE_HDMI => [(t, next)] | _ => [] end)))
       end) (0, []).
