(* ===== verification/PathSpec.v ===== *)
(** * Display paths: what is bound and what is switched

    The devices of a combination and the controllers they get
    ([cbPathMgrGetDevComb], [cbPathMgrGetIgaMask]), the modules of a path and the
    order they are switched in, and the search for a device by its module. *)
From S2P Require Import Prelude CbUtil EdidTypes Mode Path.
From stdpp Require Import list.
Local Open Scope Z_scope.

(** ** Sets of devices *)

(** The bits of a word, as the loops over devices count them. *)
Definition bits_of (N : Z) : list Z := filter (fun n => Z.testbit N n = true) (seqZ 0 32).

Lemma elem_bits N n : n ∈ bits_of N <-> 0 <= n < 32 /\ Z.testbit N n = true.
Proof. unfold bits_of. rewrite list_elem_of_filter, elem_of_seqZ. split; intros []; split; (done || lia). Qed.

Lemma bits_of_zero N : fits 32 N -> (N = 0 <-> bits_of N = []).
Proof.
  intros HN. split; [intros ->; reflexivity|]. intros E. apply Z.bits_inj'. intros m Hm. rewrite Z.bits_0.
  destruct (Z.lt_ge_cases m 32); [|by apply (testbit_fits_high 32)].
  destruct (Z.testbit N m) eqn:Em; [|done]. assert (Hin : m ∈ bits_of N) by (by apply elem_bits).
  rewrite E in Hin. by apply elem_of_nil in Hin.
Qed.

Lemma lowest_bit_exists N : fits 32 N -> N <> 0 -> exists n, 0 <= n < 32 /\ lowest_bit N n.
Proof.
  intros HN Hz. destruct (bits_of N) as [|b bs] eqn:E; [by apply bits_of_zero in E|].
  assert (H : forall k, (k <= 32)%nat ->
    (forall j, 0 <= j < Z.of_nat k -> Z.testbit N j = false) \/ exists n, 0 <= n < 32 /\ lowest_bit N n).
  { intros k. induction k as [|k IH]; intros Hk; [left; intros; lia|].
    destruct IH as [IH|IH]; [lia| |by right]. destruct (Z.testbit N (Z.of_nat k)) eqn:Ek.
    - right. exists (Z.of_nat k). split; [lia|]. split; [lia|]. split; [done|]. intros j Hj. apply IH. lia.
    - left. intros j Hj. destruct (Z.eq_dec j (Z.of_nat k)) as [->|]; [done|]. apply IH. lia. }
  destruct (H 32%nat ltac:(lia)) as [Hf|]; [|done]. assert (Hb : b ∈ bits_of N) by (rewrite E; by left).
  apply elem_bits in Hb as [Hb Ht]. rewrite Hf in Ht by lia. done.
Qed.

Lemma clear_lowest N n : fits 32 N -> lowest_bit N n -> 0 <= n < 32 ->
  fits 32 (Z.land N (u32 (Z.lnot (2 ^ n)))) /\
  forall m, 0 <= m -> Z.testbit (Z.land N (u32 (Z.lnot (2 ^ n)))) m = Z.testbit N m && negb (m =? n).
Proof.
  intros HN Hl Hn. split; [rewrite Z.land_comm; by apply land_fits|].
  intros m Hm. rewrite Z.land_spec. destruct (Z.lt_ge_cases m 32).
  - rewrite testbit_wrap, Z.lnot_spec, Z.pow2_bits_eqb by lia. by rewrite (Z.eqb_sym n m).
  - rewrite (testbit_fits_high 32 N) by done. done.
Qed.

Lemma bits_of_clear N N' n : (forall m, 0 <= m -> Z.testbit N' m = Z.testbit N m && negb (m =? n)) ->
  n ∈ bits_of N -> (length (bits_of N') < length (bits_of N))%nat.
Proof.
  intros H Hn. unfold bits_of in *. apply list_elem_of_filter in Hn as [Ht Hin].
  assert (Hle : forall l, Forall (Z.le 0) l ->
    (length (filter (fun n => Z.testbit N' n = true) l) <= length (filter (fun n => Z.testbit N n = true) l))%nat /\
    (n ∈ l -> (length (filter (fun n => Z.testbit N' n = true) l) < length (filter (fun n => Z.testbit N n = true) l))%nat)).
  { induction 1 as [|x l Hx Hl [IH1 IH2]]; [split; [done|by intros ?%elem_of_nil]|].
    rewrite !filter_cons, H by done. destruct (Z.testbit N x) eqn:Ex; cbn [andb].
    - destruct (Z.eqb_spec x n) as [->|Hne]; cbn [negb].
      + rewrite decide_False by done. rewrite decide_True by done. cbn. split; lia.
      + rewrite !decide_True by done. cbn. split; [lia|]. intros [->|Hc]%elem_of_cons; [done|].
        specialize (IH2 Hc). lia.
    - rewrite !decide_False by done. split; [lia|]. intros [->|Hc]%elem_of_cons; [congruence|by apply IH2]. }
  apply Hle; [|done]. apply Forall_forall. intros x Hx%elem_of_seqZ. lia.
Qed.

Lemma bits_of_length N : (length (bits_of N) <= 32)%nat.
Proof. unfold bits_of. etrans; [apply length_filter|]. by rewrite length_seqZ. Qed.


(** ** Devices and controllers *)



Definition DP_devices : list Z := [CBIOS_TYPE_DP1; CBIOS_TYPE_DP2; CBIOS_TYPE_DP3; CBIOS_TYPE_DP4].


Lemma four_igas iga : 0 <= iga < CBIOS_IGACOUNTS -> iga = 0 \/ iga = 1 \/ iga = 2 \/ iga = 3.
Proof. unfold CBIOS_IGACOUNTS. lia. Qed.


Definition comb_none (b : bool) : CBIOS_DEVICE_COMB :=
  mkComb CBIOS_TYPE_NONE CBIOS_TYPE_NONE CBIOS_TYPE_NONE CBIOS_TYPE_NONE b.








Definition ex_board (chip : Z) : CBIOS_EXTENSION_COMMON :=
  mkExtension chip 0 0 0x11 10 0 CBIOS_EDP_CONN CBIOS_DP_CONN CBIOS_DP_CONN 6000000 3000000 6000000.


Example ex_comb :
  cbPathMgrGetDevComb (ex_board CHIPID_CNE001) false 0x38001 0x18001 (comb_none false) =
  Ok (CBIOS_OK, mkComb CBIOS_TYPE_DP1 CBIOS_TYPE_DP2 CBIOS_TYPE_CRT CBIOS_TYPE_NONE true).
Proof. vm_compute. reflexivity. Qed.

(** ** Modules of a path *)

Definition has_module (l : CBIOS_MODULE_LIST) (t : CBIOS_MODULE_TYPE) : bool :=
  negb (module_index l t =? CBIOS_MODULE_INDEX_INVALID).

(** The modules between the port and the controller, in this order. *)
Definition path_modules (l : CBIOS_MODULE_LIST) : list CBIOS_MODULE_TYPE :=
  List.filter (has_module l)
    [CBIOS_MODULE_TYPE_HDCP; CBIOS_MODULE_TYPE_HDMI; CBIOS_MODULE_TYPE_HDTV; CBIOS_MODULE_TYPE_IGA].

(** The path of a source is the one its module list gives. *)
Definition path_of (src : CBIOS_DISPLAY_SOURCE) : Prop :=
  let ms := path_modules (ModuleList src) in
  ModulePath src = map Some ms ++ replicate (CBIOS_MAX_MODULE_NUM - length ms) None.

Lemma clear_path p : length p = CBIOS_MAX_MODULE_NUM ->
  memset p 0 (@None CBIOS_MODULE_TYPE) (Z.of_nat CBIOS_MAX_MODULE_NUM) = Ok (replicate CBIOS_MAX_MODULE_NUM None).
Proof.
  intros Hl. unfold CBIOS_MAX_MODULE_NUM in *.
  do 16 (destruct p as [|? p]; [discriminate|]). destruct p; [|discriminate]. reflexivity.
Qed.

Ltac by_modules l :=
  destruct (module_index l CBIOS_MODULE_TYPE_HDCP =? CBIOS_MODULE_INDEX_INVALID) eqn:?,
    (module_index l CBIOS_MODULE_TYPE_HDMI =? CBIOS_MODULE_INDEX_INVALID) eqn:?,
    (module_index l CBIOS_MODULE_TYPE_HDTV =? CBIOS_MODULE_INDEX_INVALID) eqn:?,
    (module_index l CBIOS_MODULE_TYPE_IGA =? CBIOS_MODULE_INDEX_INVALID) eqn:?.

Lemma GeneratePath_ok src : length (ModulePath src) = CBIOS_MAX_MODULE_NUM ->
  exists src', cbPathMgrGeneratePath src = Ok src' /\ path_of src' /\
    ModuleList src' = ModuleList src /\ bIsSrcChanged src' = bIsSrcChanged src.
Proof.
  intros Hl. destruct src as [l p ch]. unfold cbPathMgrGeneratePath. cbn [ModuleList ModulePath] in *.
  rewrite clear_path by done. cbn [rbind]. unfold add_module, path_of, path_modules, has_module.
  by_modules l; eexists (mkSource l _ ch); (split; [reflexivity|]); cbn [ModuleList ModulePath List.filter].
  all: repeat match goal with H : _ = _ |- _ => rewrite H; clear H end; done.
Qed.

(** The calls that switch the modules of a path, from the port to the controller. *)
Definition path_calls (l : CBIOS_MODULE_LIST) (bTurnOn : bool) : list module_call :=
  flat_map (fun t => module_calls l t bTurnOn) (path_modules l).

Lemma ModuleOnOff_ok src bTurnOn : path_of src ->
  cbPathMgrModuleOnOff src bTurnOn =
  Ok (match path_modules (ModuleList src) with [] => false | _ => true end,
      if bTurnOn then rev (path_calls (ModuleList src) true) else path_calls (ModuleList src) false).
Proof.
  destruct src as [l p ch]. unfold path_of, path_calls, path_modules, has_module. cbn [ModuleList ModulePath].
  intros ->. by_modules l; cbn [List.filter].
  all: repeat match goal with H : _ = _ |- _ => rewrite H; clear H end; destruct bTurnOn; reflexivity.
Qed.

(** The modules a DP port needs for a mode: HDMI for a monitor with TMDS input,
    the TV encoder for interlaced and 720x576 modes unless the monitor is plain
    DVI, and the controller. *)
Definition port_modules (l : CBIOS_MODULE_LIST) (tmds hdmi tv : bool) : list CBIOS_MODULE_TYPE :=
  (if has_module l CBIOS_MODULE_TYPE_HDCP then [CBIOS_MODULE_TYPE_HDCP] else []) ++
  (if tmds then [CBIOS_MODULE_TYPE_HDMI] else []) ++
  (if tv && (hdmi || negb tmds) then [CBIOS_MODULE_TYPE_HDTV] else []) ++ [CBIOS_MODULE_TYPE_IGA].

(** C25. For a mode on a DP port, [cbPathMgrSelectDIUPath] and
    [cbPathMgrGeneratePath] lay a path that has exactly the modules the monitor
    and the mode need, all of the port's own index, up to the controller, and
    mark the source as changed; [cbPathMgrModuleOnOff] then ends and switches the
    modules on from the controller to the port and off in the opposite order,
    each once. The port DP4 has no audio codec. *)
Theorem port_path_spec src Device monitor hdmi IGAIndex il x y :
  In Device DP_devices -> 0 <= IGAIndex < CBIOS_IGACOUNTS -> length (ModulePath src) = CBIOS_MAX_MODULE_NUM ->
  let tmds := has_dev monitor (Z.lor CBIOS_MONITOR_TYPE_HDMI CBIOS_MONITOR_TYPE_DVI) in
  let tv := negb (il =? 0) || ((x =? 720) && (y =? 576)) in
  let calls on := flat_map (fun t => match t with
    | CBIOS_MODULE_TYPE_HDMI | CBIOS_MODULE_TYPE_HDTV => [ModuleOnOff t (port_index Device) on] | _ => [] end)
    (port_modules (ModuleList src) tmds hdmi tv) in
  exists src', cbPathMgrSelectDIUPath src Device monitor hdmi IGAIndex il x y = Ok src' /\
    bIsSrcChanged src' = true /\ path_of src' /\
    path_modules (ModuleList src') = port_modules (ModuleList src) tmds hdmi tv /\
    IGAModule (ModuleList src') = IGAIndex /\
    HDACModule (ModuleList src') = (if tmds && negb hdmi then CBIOS_MODULE_INDEX_INVALID else codec_index Device) /\
    cbPathMgrModuleOnOff src' true = Ok (true, rev (calls true)) /\
    cbPathMgrModuleOnOff src' false = Ok (true, calls false).
Proof.
  intros Hd Hi Hl. cbv zeta. unfold cbPathMgrSelectDIUPath.
  set (tmds := has_dev monitor _). set (tv := negb (il =? 0) || _).
  assert (Eport : (Device =? CBIOS_TYPE_DP1) || (Device =? CBIOS_TYPE_DP2) || (Device =? CBIOS_TYPE_DP3) ||
                  (Device =? CBIOS_TYPE_DP4) = true).
  { destruct Hd as [<-|[<-|[<-|[<-|[]]]]]; reflexivity. }
  assert (Eiga : (IGAIndex =? IGA1) || (IGAIndex =? IGA2) || (IGAIndex =? IGA3) || (IGAIndex =? IGA4) = true).
  { destruct (four_igas IGAIndex Hi) as [-> | [-> | [-> | ->]]]; reflexivity. }
  rewrite Eport, Eiga. clear Eport Eiga.
  match goal with |- context [cbPathMgrGeneratePath ?s] =>
    destruct (GeneratePath_ok s Hl) as (src' & E & Hp & Hm & _) end.
  rewrite E. cbn [rbind]. exists (src' <| bIsSrcChanged := true |>).
  assert (Hp' : path_of (src' <| bIsSrcChanged := true |>)) by exact Hp.
  split; [done|]. split; [done|]. split; [done|]. rewrite !(ModuleOnOff_ok _ _ Hp').
  change (ModuleList (src' <| bIsSrcChanged := true |>)) with (ModuleList src'). rewrite Hm.
  destruct src as [[dp mhl hdcp hd hdac hdtv iga] p ch].
  assert (Hx : (IGAIndex =? CBIOS_MODULE_INDEX_INVALID) = false).
  { destruct (four_igas IGAIndex Hi) as [-> | [-> | [-> | ->]]]; reflexivity. }
  assert (Hpx : (port_index Device =? CBIOS_MODULE_INDEX_INVALID) = false).
  { destruct Hd as [<-|[<-|[<-|[<-|[]]]]]; reflexivity. }
  unfold path_calls, path_modules, port_modules, has_module.
  destruct tmds, hdmi, tv, (hdcp =? CBIOS_MODULE_INDEX_INVALID) eqn:Eh; cbn; rewrite ?Hx, ?Hpx, ?Eh; cbn;
    rewrite ?Hx, ?Hpx, ?Eh; cbn; split_and!; reflexivity.
Qed.

Definition ex_source : CBIOS_DISPLAY_SOURCE :=
  mkSource (cbInitialModuleList <| DPModule := 1 |> <| HDMIModule := 1 |> <| HDCPModule := 1 |> <| HDACModule := 1 |>)
    (replicate CBIOS_MAX_MODULE_NUM None) false.

(** An interlaced mode on the HDMI monitor of DP2, from the second controller. *)
Lemma port_path_spec_witness :
  exists src', cbPathMgrSelectDIUPath ex_source CBIOS_TYPE_DP2 CBIOS_MONITOR_TYPE_HDMI true IGA2 1 1920 1080 = Ok src' /\
    bIsSrcChanged src' = true /\ path_of src' /\
    path_modules (ModuleList src') = port_modules (ModuleList ex_source) true true true /\
    IGAModule (ModuleList src') = IGA2 /\
    HDACModule (ModuleList src') = 1 /\
    cbPathMgrModuleOnOff src' true =
      Ok (true, rev [ModuleOnOff CBIOS_MODULE_TYPE_HDMI 1 true; ModuleOnOff CBIOS_MODULE_TYPE_HDTV 1 true]) /\
    cbPathMgrModuleOnOff src' false =
      Ok (true, [ModuleOnOff CBIOS_MODULE_TYPE_HDMI 1 false; ModuleOnOff CBIOS_MODULE_TYPE_HDTV 1 false]).
Proof.
  apply (port_path_spec ex_source CBIOS_TYPE_DP2 CBIOS_MONITOR_TYPE_HDMI true IGA2 1 1920 1080).
  - cbn. tauto.
  - by vm_compute.
  - reflexivity.
Defined.

(** ** The device of a module *)

(** [cbGetDeviceType] ends and finds the lowest supported device whose module
    of the type has the index, if there is one. *)
Theorem GetDeviceType_spec DevSource IgaCount SupportDevices Index t :
  fits 32 SupportDevices -> Index <> CBIOS_MODULE_INDEX_INVALID -> t <> CBIOS_MODULE_TYPE_NONE ->
  let at_ n := cbGetModuleIndex DevSource IgaCount (2 ^ n) t in
  (exists n, cbGetDeviceType DevSource IgaCount SupportDevices Index t = Ok (2 ^ n) /\
     n ∈ bits_of SupportDevices /\ at_ n = Index /\ forall m, m < n -> m ∈ bits_of SupportDevices -> at_ m <> Index) \/
  cbGetDeviceType DevSource IgaCount SupportDevices Index t = Ok CBIOS_TYPE_NONE /\
  forall n, n ∈ bits_of SupportDevices -> at_ n <> Index.
Proof.
  intros HS Hi Ht at_. unfold cbGetDeviceType. apply Z.eqb_neq in Hi as ->. rewrite bool_decide_eq_false_2 by done.
  cbn [orb].
  match goal with |- context [iterate 33 ?b SupportDevices] =>
    destruct (iterate_rule
      (fun T => fits 32 T /\ (forall n, n ∈ bits_of T -> n ∈ bits_of SupportDevices) /\
         forall n, n ∈ bits_of SupportDevices -> n ∉ bits_of T ->
           at_ n <> Index /\ forall k, k ∈ bits_of T -> n < k)
      (fun d => (exists n, d = 2 ^ n /\ n ∈ bits_of SupportDevices /\ at_ n = Index /\
           forall m, m < n -> m ∈ bits_of SupportDevices -> at_ m <> Index) \/
         d = CBIOS_TYPE_NONE /\ forall n, n ∈ bits_of SupportDevices -> at_ n <> Index)
      (fun T => length (bits_of T)) 33 b SupportDevices) as (d & E & Hd) end.
  2: { split; [done|]. split; [done|]. intros n H1 H2. done. }
  2: { pose proof (bits_of_length SupportDevices). lia. }
  2: { rewrite E. destruct Hd as [(n & -> & H)|[-> H]]; [left; by exists n|by right]. }
  intros T (HT & Hsub & Hout). destruct (Z.eqb_spec T 0) as [->|Hz]; cbn [negb].
  { eexists. split; [done|]. right. split; [done|]. intros n Hn. apply (Hout n Hn). by intros ?%elem_of_nil. }
  destruct (lowest_bit_exists T HT Hz) as (n & Hn & Hl). rewrite (GET_LAST_BIT_lowest T n HT Hl).
  assert (Hin : n ∈ bits_of T) by (apply elem_bits; split; [done|apply Hl]).
  assert (Hmin : forall k, k ∈ bits_of T -> n <= k).
  { intros k [Hk Hb]%elem_bits. destruct (Z.lt_ge_cases k n); [|done].
    destruct Hl as (_ & _ & Hlow). rewrite Hlow in Hb by lia. done. }
  destruct (clear_lowest T n HT Hl Hn) as [Hf Hb].
  fold (at_ n). destruct (Z.eqb_spec (at_ n) Index) as [He|He]; (eexists; split; [done|]).
  - left. exists n. split; [done|]. split; [by apply Hsub|]. split; [done|]. intros m Hm Hms. apply Hout; [done|].
    intros Hk. specialize (Hmin m Hk). lia.
  - split; [|by eapply bits_of_clear].
    assert (Hiff : forall m, m ∈ bits_of (Z.land T (u32 (Z.lnot (2 ^ n)))) <-> m ∈ bits_of T /\ m <> n).
    { intros m. rewrite !elem_bits. split.
      - intros [Hm Ht']. rewrite Hb in Ht' by lia. destruct (Z.testbit T m); [|done]. split; [done|lia].
      - intros [[Hm Ht'] Hne]. split; [done|]. rewrite Hb by lia. rewrite Ht'. cbn. lia. }
    split; [done|]. split; [intros m [Hm _]%Hiff; by apply Hsub|].
    intros m Hm Hnm. destruct (decide (m ∈ bits_of T)) as [HmT|HmT].
    + assert (m = n) as -> by (destruct (Z.eq_dec m n); [done|]; exfalso; apply Hnm, Hiff; done).
      split; [done|]. intros k [Hk Hne]%Hiff. specialize (Hmin k Hk). lia.
    + destruct (Hout m Hm HmT) as [Ha Hk]. split; [done|]. intros k [HkT _]%Hiff. by apply Hk.
Qed.
