(* ===== verification/DispMgr.v ===== *)
(** * The display manager

    [cbios/Display/CBiosDisplayManager.c]: the check of a mode to set, the
    parameters derived from it (timing, signal, clock, pixel repetition), the
    controllers and what they can scale, and their active devices. *)
From S2P Require Import Prelude CbUtil Timing EdidTypes EdidTiming Mode Path.
Local Open Scope Z_scope.

(** ** Data *)

(** [CBIOS_STATUS] of these functions. *)
Inductive disp_status : Set :=
  | DISP_OK | DISP_ER_INVALID_PARAMETER | DISP_ER_HARDWARE_LIMITATION | DISP_ER_NO_ENOUGH_MEM.

(** [CBIOS_SCALER_STATUS], [CBIOS_3D_STRUCTURE] *)
Inductive CBIOS_SCALER_STATUS : Set :=
  DISABLE_SCALER | ENABLE_UPSCALER | ENABLE_DOWNSCALER | INVALID_SCALER_SETTING.

Definition FRAME_PACKING : Z := 0x00.
Definition LINE_ALTERNATIVE : Z := 0x02.
Definition SIDE_BY_SIDE_FULL : Z := 0x03.
Definition L_DEPTH : Z := 0x04.

(** [CBiosSettingModeParams]; [sm_Target] is [DestModeParams] with its signal
    beside it, [sm_SpecifyTiming] the timing forced on the controller, opaque
    here but for its flag; [sm_Is3DVideoMode] and [sm_IsSingleBuffer] are bits. *)
Record CBiosSettingModeParams := mkSetting {
  sm_IGAIndex : Z;
  sm_SrcXRes : Z;
  sm_SrcYRes : Z;
  sm_Target : CBIOS_MODE_TARGET_PARA;
  sm_OutputSignal : Z;
  sm_ScalerXRes : Z;
  sm_ScalerYRes : Z;
  sm_SpecifyFlag : Z;
  sm_Is3DVideoMode : Z;
  sm_IsSingleBuffer : Z;
  sm_Video3DStruct : Z;
  sm_BitPerComponent : Z
}.

(** [CBIOS_DISP_MODE_PARAMS] *)
Record CBIOS_DISP_MODE_PARAMS := mkDispMode {
  dm_IGAIndex : Z;
  dm_SrcXRes : Z;
  dm_SrcYRes : Z;
  dm_Target : CBIOS_MODE_TARGET_PARA;
  dm_OutputSignal : Z;
  dm_ScalerXRes : Z;
  dm_ScalerYRes : Z;
  ScalerStatusToUse : CBIOS_SCALER_STATUS;
  TargetTiming : CBIOS_TIMING_ATTRIB;
  PLLClock : Z;
  IsEnable3DVideo : Z;
  dm_IsSingleBuffer : Z;
  dm_Video3DStruct : Z;
  VICCode : Z;
  PixelRepitition : Z;
  dm_BitPerComponent : Z;
  ColorimetryCaps : list Z;
  dm_VideoCapability : list Z
}.

#[export] Instance eta_mkDispMode : Eta CBIOS_DISP_MODE_PARAMS := fun r =>
  mkDispMode (dm_IGAIndex r) (dm_SrcXRes r) (dm_SrcYRes r) (dm_Target r) (dm_OutputSignal r)
    (dm_ScalerXRes r) (dm_ScalerYRes r) (ScalerStatusToUse r) (TargetTiming r) (PLLClock r)
    (IsEnable3DVideo r) (dm_IsSingleBuffer r) (dm_Video3DStruct r) (VICCode r) (PixelRepitition r)
    (dm_BitPerComponent r) (ColorimetryCaps r) (dm_VideoCapability r).

(** [ChipLimits] and [ChipCaps], and the flags of [SpecifyDestTimingSrc], one
    per controller. *)
Record scaler_caps := mkCaps {
  ulMaxPUHorSrc : Z;
  ulMaxPUHorDst : Z;
  ulMaxPUVerSrc : Z;
  ulMaxPUVerDst : Z;
  IsSupportUpScaling : bool;
  IsSupport3DVideo : bool;
  IsSupportDeepColor : bool
}.

(** ** Checking a mode *)

(** The branches on the sizes: the status and the scaler to use. *)
Definition check_sizes (caps : scaler_caps) (p : CBiosSettingModeParams) : disp_status * CBIOS_SCALER_STATUS :=
  let sx := sm_SrcXRes p in
  let sy := sm_SrcYRes p in
  let dx := tgt_XRes (sm_Target p) in
  let dy := tgt_YRes (sm_Target p) in
  let cx := sm_ScalerXRes p in
  let cy := sm_ScalerYRes p in
  if (sx =? 0) || (sy =? 0) || (dx =? 0) || (dy =? 0) || (cx =? 0) || (cy =? 0) ||
     (tgt_RefRate (sm_Target p) =? 0)
  then (DISP_ER_INVALID_PARAMETER, DISABLE_SCALER)
  else if (dx <? cx) || (dy <? cy) then (DISP_ER_INVALID_PARAMETER, DISABLE_SCALER)
  else if (cx =? sx) && (cy =? sy) then (DISP_OK, DISABLE_SCALER)
  else if ((cx <=? sx) && (cy <? sy)) || ((cx <? sx) && (cy <=? sy))
  then (DISP_ER_INVALID_PARAMETER, DISABLE_SCALER)
  else if ((sx <=? cx) && (sy <? cy)) || ((sx <? cx) && (sy <=? cy)) then
    if ((sx <? cx) && ((ulMaxPUHorSrc caps <? sx) || (ulMaxPUHorDst caps <? cx))) ||
       ((sy <? cy) && ((ulMaxPUVerSrc caps <? sy) || (ulMaxPUVerDst caps <? cy))) ||
       negb (IsSupportUpScaling caps)
    then (DISP_ER_HARDWARE_LIMITATION, DISABLE_SCALER)
    else (DISP_OK, ENABLE_UPSCALER)
  else (DISP_ER_HARDWARE_LIMITATION, DISABLE_SCALER).

(** [cbValidateSettingModeParam]: the status, the parameters and the flags of
    [SpecifyDestTimingSrc]. *)
Definition cbValidateSettingModeParam (caps : scaler_caps) (SpecifyDestTimingSrc : list Z)
    (pModeParams : CBIOS_DISP_MODE_PARAMS) (p : CBiosSettingModeParams)
  : res (disp_status * CBIOS_DISP_MODE_PARAMS * list Z) :=
  let '(csRet, scaler) := check_sizes caps p in
  let! specify := wr SpecifyDestTimingSrc (sm_IGAIndex p) (sm_SpecifyFlag p) in
  let csRet :=
    match csRet with
    | DISP_OK =>
        if negb (sm_Is3DVideoMode p =? 0) then
          if negb (IsSupport3DVideo caps) && negb (sm_Video3DStruct p =? 0) then DISP_ER_INVALID_PARAMETER
          else match scaler with DISABLE_SCALER => DISP_OK | _ => DISP_ER_HARDWARE_LIMITATION end
        else DISP_OK
    | _ => csRet
    end in
  match csRet with
  | DISP_OK =>
      Ok (DISP_OK,
          pModeParams <| ScalerStatusToUse := scaler |> <| IsEnable3DVideo := sm_Is3DVideoMode p |>
            <| dm_IsSingleBuffer := sm_IsSingleBuffer p |> <| dm_Video3DStruct := sm_Video3DStruct p |>, specify)
  | _ => Ok (csRet, pModeParams, specify)
  end.

(** ** Deriving the parameters *)

Definition cb3DVideoTimingAdjust (Video3DStruct : Z) (t : CBIOS_TIMING_ATTRIB) : CBIOS_TIMING_ATTRIB :=
  let twice x := u16 (x * 2) in
  let clk t := t <| PixelClock := u32 (PixelClock t * 2) |> in
  if (Video3DStruct =? FRAME_PACKING) || (Video3DStruct =? L_DEPTH) then clk t
  else if Video3DStruct =? LINE_ALTERNATIVE then
    clk t <| VerTotal ::= twice |> <| VerDisEnd ::= twice |> <| VerBStart ::= twice |> <| VerBEnd ::= twice |>
      <| VerSyncStart ::= twice |> <| VerSyncEnd ::= twice |>
  else if Video3DStruct =? SIDE_BY_SIDE_FULL then
    clk t <| HorDisEnd ::= twice |> <| HorBStart ::= twice |> <| HorBEnd ::= twice |>
      <| HorSyncStart ::= twice |> <| HorSyncEnd ::= twice |>
  else t.

(** [cbUpdateIGAModeInfo] for the active device of the controller, whose EDID
    is [es]. *)
Definition cbUpdateIGAModeInfo (caps : scaler_caps) (pcbe : CBIOS_EXTENSION_COMMON)
    (es : CBIOS_EDID_STRUCTURE_DATA) (m : CBIOS_DISP_MODE_PARAMS) (p : CBiosSettingModeParams)
  : res CBIOS_DISP_MODE_PARAMS :=
  let d := sm_Target p in
  let tgt := mkTarget (tgt_XRes d) (tgt_YRes d)
    (if tgt_RefRate d <=? 1000 then 6000 else tgt_RefRate d)
    (tgt_bInterlace d) (tgt_XTotal d) (tgt_YTotal d) (tgt_PixelClock d) in
  let! found := cbMode_GetHVTiming es tgt in
  let Timing := match found with Some t => t | None => zero_timing end in
  let Timing := if negb (IsEnable3DVideo m =? 0) then cb3DVideoTimingAdjust (dm_Video3DStruct m) Timing
                else Timing in
  let! signal := cbMode_GetTimingSignal pcbe es (sm_OutputSignal p) (Some Timing) in
  let il := negb (tgt_bInterlace d =? 0) in
  let rep :=
    if (il && ((YRes Timing =? 576) || (YRes Timing =? 480))) ||
       (negb il && ((YRes Timing =? 288) || (YRes Timing =? 240))) then 2 else 1 in
  let! color := rd (ExtDataBlock (Attribute es)) COLORIMETRY_DATA_BLOCK_TAG in
  let! video := rd (ExtDataBlock (Attribute es)) VIDEO_CAPABILITY_DATA_BLOCK_TAG in
  Ok (m <| dm_BitPerComponent :=
             if IsSupportDeepColor caps && negb (get_cap (Attribute es) CAP_HDMI =? 0)
             then sm_BitPerComponent p else 8 |>
        <| dm_IGAIndex := sm_IGAIndex p |> <| dm_SrcXRes := sm_SrcXRes p |> <| dm_SrcYRes := sm_SrcYRes p |>
        <| dm_ScalerXRes := sm_ScalerXRes p |> <| dm_ScalerYRes := sm_ScalerYRes p |>
        <| dm_Target := tgt |> <| VICCode := u8 (FormatVIC Timing) |> <| dm_OutputSignal := signal |>
        <| PixelRepitition := rep |> <| PLLClock := PixelClock Timing |> <| TargetTiming := Timing |>
        <| ColorimetryCaps := ColorimetryData color |> <| dm_VideoCapability := VideoCapabilityData video |>).

(** [cbDispMgrGetMode]: what is reported of the parameters, the target with
    its signal, and the sizes of source and scaler. *)
Definition cbDispMgrGetMode (m : CBIOS_DISP_MODE_PARAMS) : CBIOS_MODE_TARGET_PARA * Z * (Z * Z) * (Z * Z) :=
  (dm_Target m, dm_OutputSignal m, (dm_SrcXRes m, dm_SrcYRes m), (dm_ScalerXRes m, dm_ScalerYRes m)).

(** ** The controllers *)

(** [CBIOS_DISPLAY_MANAGER]; of the parameters of a controller, whether there are
    any ([pModeParams[i]]) and their [IGAIndex]. *)
Record CBIOS_DISPLAY_MANAGER := mkDispMgr {
  IgaCount : Z;
  IgaUpScale : Z;
  IgaDownScale : Z;
  StreamCount : list Z;
  UpScaleStreamMask : list Z;
  DownScaleStreamMask : list Z;
  ActiveDevices : list Z;
  pModeParams : list (option Z);
  DispAllocs : nat
}.

#[export] Instance eta_mkDispMgr : Eta CBIOS_DISPLAY_MANAGER := fun r =>
  mkDispMgr (IgaCount r) (IgaUpScale r) (IgaDownScale r) (StreamCount r) (UpScaleStreamMask r)
    (DownScaleStreamMask r) (ActiveDevices r) (pModeParams r) (DispAllocs r).

(** The manager of a new device extension, all zeros. *)
Definition new_manager : CBIOS_DISPLAY_MANAGER :=
  mkDispMgr 0 0 0 (replicate 4 0) (replicate 4 0) (replicate 4 0) (replicate 4 0) (replicate 4 None) 0.

Definition STREAM_NUM_CHX004 : Z := 3.
Definition STREAM_NUM_CNE001 : Z := 3.
Definition STREAM_NUM_E3K : Z := 4.
Definition CBIOS_STREAM_PS : Z := 0.

Definition cbDispMgrGetIgaCnt (chip : Z) : Z :=
  if chip =? CHIPID_E3K then 4
  else if (chip =? CHIPID_CHX004) || (chip =? CHIPID_CNE001) then 3
  else 2.

(** The last loop of [cbDispMgrInit] and [cbDispMgrDeInit]: free the parameters. *)
Definition free_params (m : CBIOS_DISPLAY_MANAGER) : res CBIOS_DISPLAY_MANAGER :=
  for_up (Z.to_nat (IgaCount m)) IGA1
    (fun i m =>
       let! p := rd (pModeParams m) i in
       match p with
       | Some _ => let! l := wr (pModeParams m) i None in Ok (m <| pModeParams := l |>)
       | None => Ok m
       end) m.

Section Init.
Context (pool : nat -> bool) (chip : Z) (up : bool).

(** The streams of controller [i]. *)
Definition stream_count (m : CBIOS_DISPLAY_MANAGER) (i old : Z) : Z :=
  if chip =? CHIPID_E3K then STREAM_NUM_E3K
  else if chip =? CHIPID_CHX004 then
    if i <? IgaCount m - 1 then STREAM_NUM_CHX004 else STREAM_NUM_CHX004 - 1
  else if chip =? CHIPID_CNE001 then STREAM_NUM_CNE001
  else old.

Definition add_stream (i j : Z) (m : CBIOS_DISPLAY_MANAGER) : res CBIOS_DISPLAY_MANAGER :=
  let! d := rd (DownScaleStreamMask m) i in
  let! dl := wr (DownScaleStreamMask m) i (Z.lor d 0) in
  let! u := rd (UpScaleStreamMask m) i in
  let bits := if (chip =? CHIPID_E3K) && (j =? CBIOS_STREAM_PS) then 0 else Z.shiftl 1 j in
  let! ul := wr (UpScaleStreamMask m) i (Z.lor u bits) in
  Ok (m <| DownScaleStreamMask := dl |> <| UpScaleStreamMask := ul |>).

(** A round of the loop over the controllers; it leaves with whether it failed. *)
Definition init_iga (st : Z * CBIOS_DISPLAY_MANAGER)
  : res (Z * CBIOS_DISPLAY_MANAGER + bool * CBIOS_DISPLAY_MANAGER) :=
  let '(i, m) := st in
  if i <? IgaCount m then
    let! l := wr (ActiveDevices m) i CBIOS_TYPE_NONE in
    let m := m <| ActiveDevices := l |> in
    let ok := pool (DispAllocs m) in
    let! l := wr (pModeParams m) i (if ok then Some 0 else None) in
    let m := m <| pModeParams := l |> <| DispAllocs ::= S |> in
    if negb ok then Ok (inr (false, m))
    else
      let! l := wr (pModeParams m) i (Some i) in
      let m := m <| pModeParams := l |> <| IgaUpScale := b2z up |> <| IgaDownScale := 0 |> in
      let! old := rd (StreamCount m) i in
      let! l := wr (StreamCount m) i (stream_count m i old) in
      let m := m <| StreamCount := l |> in
      let! m := for_up (Z.to_nat (stream_count m i old)) 0 (add_stream i) m in
      Ok (inl (i + 1, m))
  else Ok (inr (true, m)).

Definition cbDispMgrInit (m : CBIOS_DISPLAY_MANAGER) : res (disp_status * CBIOS_DISPLAY_MANAGER) :=
  let m := m <| IgaCount := cbDispMgrGetIgaCnt chip |> in
  let! '(ok, m) := iterate 5 init_iga (IGA1, m) in
  if ok : bool then Ok (DISP_OK, m)
  else let! m := free_params m in Ok (DISP_ER_NO_ENOUGH_MEM, m).

End Init.

Definition cbDispMgrDeInit (m : CBIOS_DISPLAY_MANAGER) : res (disp_status * CBIOS_DISPLAY_MANAGER) :=
  let! m := free_params m in Ok (DISP_OK, m).

(** [cbDispMgrSetActiveDevice]: the manager, and whether the registers for the
    VBIOS are updated; [cbDispMgrGetActiveDevice]. *)
Definition cbDispMgrSetActiveDevice (m : CBIOS_DISPLAY_MANAGER) (DeviceId : list Z)
  : res (CBIOS_DISPLAY_MANAGER * bool) :=
  let! l := memcpy (ActiveDevices m) 0 DeviceId 0 CBIOS_IGACOUNTS in
  let! d1 := rd l IGA1 in
  let! d2 := rd l IGA2 in
  let! d3 := rd l IGA3 in
  let! d4 := rd l IGA4 in
  Ok (m <| ActiveDevices := l |>,
      negb (d1 =? 0) || negb (d2 =? 0) || negb (d3 =? 0) || negb (d4 =? 0)).

Definition cbDispMgrGetActiveDevice (m : CBIOS_DISPLAY_MANAGER) (DeviceId : list Z) : res (list Z) :=
  memcpy DeviceId 0 (ActiveDevices m) 0 CBIOS_IGACOUNTS.

(** [cbDispMgrGetDispResource]: [CrtcNum] and [PlaneNum]. *)
Definition cbDispMgrGetDispResource (m : CBIOS_DISPLAY_MANAGER) (PlaneNum : list Z) : res (Z * list Z) :=
  let! l := memcpy PlaneNum 0 (StreamCount m) 0 (IgaCount m) in Ok (IgaCount m, l).

(** [cbDispMgrGetDisplayCaps]: the scaling of the controllers, the masks where
    the caller has room for them, and the limits. *)
Definition cbDispMgrGetDisplayCaps (caps : scaler_caps) (m : CBIOS_DISPLAY_MANAGER)
    (pUpScalePlaneMask pDownScalePlaneMask : option (list Z))
  : res (Z * Z * option (list Z) * option (list Z) * (Z * Z)) :=
  let fill p l := match p with
                  | Some p => let! p := memcpy p 0 l 0 (IgaCount m) in Ok (Some p)
                  | None => Ok None
                  end in
  let! upm := fill pUpScalePlaneMask (UpScaleStreamMask m) in
  let! dnm := fill pDownScalePlaneMask (DownScaleStreamMask m) in
  Ok (IgaUpScale m, IgaDownScale m, upm, dnm, (ulMaxPUHorSrc caps, ulMaxPUVerSrc caps)).
