(* ===== verification/DispSpec.v ===== *)
(** * The display manager: what it accepts and what it programs

    The check of the sizes as a decision, the parameters of a mode taken from the
    list of a device, the adjustment for 3D video, and the controllers after the
    initialisation. *)
From S2P Require Import Prelude CbUtil Timing TimingTables EdidTypes EdidTiming Mode ModeOrder ModeSelect ModeList ModeSpec ModeTiming Path DispMgr.
From stdpp Require Import list.
Local Open Scope Z_scope.

(** ** The check *)

(** What a mode must satisfy: no size or rate is zero, the scaled image fits
    the mode, and it is the source or, on a chip that scales up, an enlargement
    of it within the limits of each axis that is enlarged. *)
Record sizes_ok (caps : scaler_caps) (p : CBiosSettingModeParams) : Prop := {
  sz_some : sm_SrcXRes p <> 0 /\ sm_SrcYRes p <> 0 /\ sm_ScalerXRes p <> 0 /\ sm_ScalerYRes p <> 0 /\
            tgt_XRes (sm_Target p) <> 0 /\ tgt_YRes (sm_Target p) <> 0 /\ tgt_RefRate (sm_Target p) <> 0;
  sz_fits : sm_ScalerXRes p <= tgt_XRes (sm_Target p) /\ sm_ScalerYRes p <= tgt_YRes (sm_Target p);
  sz_larger : sm_SrcXRes p <= sm_ScalerXRes p /\ sm_SrcYRes p <= sm_ScalerYRes p;
  sz_limits : (sm_SrcXRes p = sm_ScalerXRes p /\ sm_SrcYRes p = sm_ScalerYRes p) \/
    IsSupportUpScaling caps = true /\
    (sm_SrcXRes p < sm_ScalerXRes p ->
       sm_SrcXRes p <= ulMaxPUHorSrc caps /\ sm_ScalerXRes p <= ulMaxPUHorDst caps) /\
    (sm_SrcYRes p < sm_ScalerYRes p ->
       sm_SrcYRes p <= ulMaxPUVerSrc caps /\ sm_ScalerYRes p <= ulMaxPUVerDst caps)
}.

Definition scales (p : CBiosSettingModeParams) : bool :=
  negb ((sm_ScalerXRes p =? sm_SrcXRes p) && (sm_ScalerYRes p =? sm_SrcYRes p)).

Ltac by_tests :=
  repeat match goal with
    | |- context [Z.eqb ?a ?b] => destruct (Z.eqb_spec a b)
    | |- context [Z.ltb ?a ?b] => destruct (Z.ltb_spec a b)
    | |- context [Z.leb ?a ?b] => destruct (Z.leb_spec a b)
    end.

Lemma check_sizes_spec caps p :
  (fst (check_sizes caps p) = DISP_OK <-> sizes_ok caps p) /\
  (fst (check_sizes caps p) = DISP_OK ->
     snd (check_sizes caps p) = if scales p then ENABLE_UPSCALER else DISABLE_SCALER).
Proof.
  assert (Hno : forall A B C : Prop, (A -> False) -> (B -> False) -> (A <-> B) /\ (A -> C)) by tauto.
  assert (Hyes : forall A B C : Prop, A -> B -> C -> (A <-> B) /\ (A -> C)) by tauto.
  unfold check_sizes, scales.
  repeat case_match; cbn [fst snd negb] in *;
    first [apply Hyes; [reflexivity|constructor|try reflexivity] | apply Hno; [discriminate|intros []]].
  all: try lia.
  all: destruct (IsSupportUpScaling caps) eqn:Eu; cbn [negb] in *; rewrite ?orb_true_r, ?orb_false_r in *;
    try match goal with H : _ \/ false = true /\ _ |- _ => destruct H as [?|[? _]]; [|discriminate] end; lia.
Qed.

(** C26. [cbValidateSettingModeParam] accepts exactly the modes whose sizes are as
    described and, for 3D video, need no scaling (and, on a chip without 3D, have
    the frame packing structure); a refused mode leaves the parameters alone. The
    forced timing is stored in either case. *)
Theorem ValidateSettingModeParam_spec caps specify m p :
  0 <= sm_IGAIndex p < zlen specify ->
  exists st m',
    cbValidateSettingModeParam caps specify m p =
      Ok (st, m', <[Z.to_nat (sm_IGAIndex p) := sm_SpecifyFlag p]> specify) /\
    (st = DISP_OK <->
       sizes_ok caps p /\ (sm_Is3DVideoMode p <> 0 ->
         scales p = false /\ (IsSupport3DVideo caps = true \/ sm_Video3DStruct p = 0))) /\
    (st <> DISP_OK -> m' = m) /\
    (st = DISP_OK -> ScalerStatusToUse m' = (if scales p then ENABLE_UPSCALER else DISABLE_SCALER) /\
       IsEnable3DVideo m' = sm_Is3DVideoMode p /\ dm_Video3DStruct m' = sm_Video3DStruct p).
Proof.
  intros Hi. unfold cbValidateSettingModeParam. destruct (check_sizes_spec caps p) as [Hok Hs].
  destruct (check_sizes caps p) as [st sc]. cbn [fst snd] in *. rewrite wr_in by done. cbn [rbind].
  destruct st; [|eexists _, _; split; [reflexivity|]; split; [split; [done|intros [H _]; by apply Hok in H]|done]..].
  specialize (Hs eq_refl). subst sc. assert (Hsz : sizes_ok caps p) by (by apply Hok).
  destruct (Z.eqb_spec (sm_Is3DVideoMode p) 0) as [E3|E3]; cbn [negb].
  { eexists _, _. split; [reflexivity|]. split; [done|]. split; [done|]. by intros _. }
  destruct (IsSupport3DVideo caps) eqn:E3s, (Z.eqb_spec (sm_Video3DStruct p) 0) as [Ez|Ez], (scales p) eqn:Esc;
    cbn [negb andb]; (eexists _, _; split; [reflexivity|]); split; (split || idtac); intros; try done.
  all: try tauto.
  all: try (destruct H as [_ H]; destruct (H E3) as [Ha Hb]; destruct Hb; congruence).
Qed.

Definition ex_caps : scaler_caps := mkCaps 1920 4096 1080 2160 true true true.

(** 1280x720 shown at 1920x1080. *)
Definition ex_setting : CBiosSettingModeParams :=
  mkSetting 0 1280 720 (mkTarget 1920 1080 6000 0 2200 1125 1485000) 0 1920 1080 0 0 0 0 8.

Definition zero_disp_mode : CBIOS_DISP_MODE_PARAMS :=
  mkDispMode 0 0 0 (mkTarget 0 0 0 0 0 0 0) 0 0 0 DISABLE_SCALER zero_timing 0 0 0 0 0 0 0 [] [].

Lemma ValidateSettingModeParam_spec_witness :
  exists st m', cbValidateSettingModeParam ex_caps [1; 1; 1; 1] zero_disp_mode ex_setting = Ok (st, m', [0; 1; 1; 1]) /\
    st = DISP_OK /\ ScalerStatusToUse m' = ENABLE_UPSCALER.
Proof.
  destruct (ValidateSettingModeParam_spec ex_caps [1; 1; 1; 1] zero_disp_mode ex_setting) as (st & m' & E & Hst & _ & Hm).
  - by vm_compute.
  - exists st, m'. split; [exact E|]. assert (Hok : st = DISP_OK).
    { vm_compute in E. by injection E as <- <-. }
    split; [done|]. by destruct (Hm Hok) as [-> _].
Defined.

(** ** 3D video *)

(** The order of the edges of an axis, whatever its resolution. *)
Definition edges_ok (dis bstart sstart send bend total : Z) : bool :=
  (dis <=? bstart) && (bstart <=? sstart) && (sstart <? send) && (send <=? bend) && (bend <=? total).

Definition hor_edges_ok (t : CBIOS_TIMING_ATTRIB) : bool :=
  edges_ok (HorDisEnd t) (HorBStart t) (HorSyncStart t) (HorSyncEnd t) (HorBEnd t) (HorTotal t).
Definition ver_edges_ok (t : CBIOS_TIMING_ATTRIB) : bool :=
  edges_ok (VerDisEnd t) (VerBStart t) (VerSyncStart t) (VerSyncEnd t) (VerBEnd t) (VerTotal t).

(** The adjustment for 3D video keeps the edges in order for each structure but
    one: for [SIDE_BY_SIDE_FULL] it doubles every horizontal edge and leaves the
    total, so that the blanking ends beyond the line. *)
Theorem VideoTimingAdjust_edges s t :
  hor_edges_ok t = true -> ver_edges_ok t = true ->
  0 <= HorDisEnd t -> 0 <= VerDisEnd t -> HorTotal t < 2 ^ 15 -> VerTotal t < 2 ^ 15 ->
  ver_edges_ok (cb3DVideoTimingAdjust s t) = true /\
  (s <> SIDE_BY_SIDE_FULL -> hor_edges_ok (cb3DVideoTimingAdjust s t) = true) /\
  (s = SIDE_BY_SIDE_FULL -> HorTotal t < 2 * HorBEnd t -> hor_edges_ok (cb3DVideoTimingAdjust s t) = false).
Proof.
  unfold hor_edges_ok, ver_edges_ok, edges_ok. intros Hh Hv Hx Hy Htx Hty.
  assert (Hw : forall x, 0 <= x < 2 ^ 15 -> u16 (x * 2) = x * 2) by (intros; apply wrap_small; unfold fits; lia).
  unfold cb3DVideoTimingAdjust. destruct ((s =? FRAME_PACKING) || (s =? L_DEPTH)) eqn:E1.
  { split; [exact Hv|]. split; [intros _; exact Hh|]. intros ->. discriminate. }
  destruct (Z.eqb_spec s LINE_ALTERNATIVE) as [->|_].
  { cbn. rewrite !Hw by lia. split; [lia|]. split; [intros _; exact Hh|]. discriminate. }
  destruct (Z.eqb_spec s SIDE_BY_SIDE_FULL) as [->|Hs].
  { cbn. rewrite !Hw by lia. split; [exact Hv|]. split; [done|]. intros _ Hb. lia. }
  split; [exact Hv|]. split; [intros _; exact Hh|]. done.
Qed.

Lemma VideoTimingAdjust_edges_witness :
  exists t, rd HDMIFormatTimingTbl (16 - 1) = Ok t /\ timing_ok t = true /\
    hor_edges_ok (cb3DVideoTimingAdjust SIDE_BY_SIDE_FULL t) = false.
Proof.
  eexists. split; [vm_compute; reflexivity|]. split; [reflexivity|].
  apply VideoTimingAdjust_edges; try reflexivity; by vm_compute.
Defined.

(** ** The controllers *)

(** The streams of the controllers of each chip. *)
Definition chip_streams (chip : Z) : list Z :=
  if chip =? CHIPID_E3K then [4; 4; 4; 4]
  else if chip =? CHIPID_CHX004 then [3; 3; 2; 0]
  else if chip =? CHIPID_CNE001 then [3; 3; 3; 0]
  else [0; 0; 0; 0].

(** The streams that scale up: all but, on E3K, the primary one. *)
Definition chip_masks (chip : Z) : list Z :=
  map (fun n => if chip =? CHIPID_E3K then Z.ones n - 1 else Z.ones n) (chip_streams chip).

(** The other chips are all alike. *)
Lemma DispMgrInit_other pool chip up m :
  chip <> CHIPID_E3K -> chip <> CHIPID_CHX004 -> chip <> CHIPID_CNE001 ->
  cbDispMgrInit pool chip up m = cbDispMgrInit pool 0 up m.
Proof.
  intros N1 N2 N3. apply Z.eqb_neq in N1, N2, N3.
  unfold cbDispMgrInit, init_iga, stream_count, add_stream, cbDispMgrGetIgaCnt.
  rewrite !N1, !N2, !N3. reflexivity.
Qed.

Ltac run_init pool :=
  repeat (vm_compute; match goal with |- context [pool ?k] => destruct (pool k) end);
  vm_compute; eexists; repeat first [reflexivity | discriminate | split | intro].

(** [cbDispMgrInit] takes an allocation per controller of the chip; it succeeds
    if all of them do, and each controller then has parameters with its number
    and the streams of its chip; if not, no parameters are kept. *)
Theorem DispMgrInit_spec pool chip up :
  let n := cbDispMgrGetIgaCnt chip in
  let ok := forallb pool (seq 0 (Z.to_nat n)) in
  exists m, cbDispMgrInit pool chip up new_manager = Ok (if ok then DISP_OK else DISP_ER_NO_ENOUGH_MEM, m) /\
    IgaCount m = n /\
    (ok = true ->
       pModeParams m = map (fun i => if i <? n then Some i else None) [IGA1; IGA2; IGA3; IGA4] /\
       StreamCount m = chip_streams chip /\ UpScaleStreamMask m = chip_masks chip /\
       DownScaleStreamMask m = [0; 0; 0; 0] /\ IgaUpScale m = b2z up /\ DispAllocs m = Z.to_nat n) /\
    (ok = false -> pModeParams m = replicate 4 None).
Proof.
  cbv zeta. destruct (Z.eq_dec chip CHIPID_E3K) as [->|N1]; [run_init pool|].
  destruct (Z.eq_dec chip CHIPID_CHX004) as [->|N2]; [run_init pool|].
  destruct (Z.eq_dec chip CHIPID_CNE001) as [->|N3]; [run_init pool|].
  rewrite DispMgrInit_other by done.
  unfold cbDispMgrGetIgaCnt, chip_masks, chip_streams.
  apply Z.eqb_neq in N1 as ->, N2 as ->, N3 as ->. run_init pool.
Qed.
